(* ===== verification/_CoqProject ===== *)
-Q . S2P
Prelude.v
Align.v
Bits.v
FlagWord.v
CLayout.v
CMem.v
CExpr.v
Ioctl.v
Uapi.v
ColorFmt.v
ColorFmtSpec.v
ColorFmtDoc.v
ColorFmtProps.v
Bcache.v
BcacheSb.v
BcacheProps.v
MiDisp.v
RadioIris.v
RadioIrisProps.v
Sensors.v
SensorsProps.v
SensorsLive.v
SensorsSpec.v
SensorsRace.v
SensorsMain.v
SensorTests.v
SmartPtr.v
Ipa.v
IpaProps.v
IpaTypes.v
IpaIoctl.v
UapiAlsa.v
UapiCompress.v
UapiAudio.v
UapiTopology.v
UapiDisplay.v
UapiKgsl.v
UapiQmi.v
UapiNet.v
UapiSecure.v
UapiMisc.v
UapiTables.v
UapiProps.v
MiDispProps.v
IpaIoctlProps.v
UapiPortable.v
MsmDrm.v
AbiVersion.v
ConstAlsa.v
ConstAudio.v
ConstDisplay.v
ConstNet.v
ConstMisc.v
ConstProps.v
AlsaPcm.v
AlsaTime.v
AlsaHw.v
Fx8010.v
NetMacros.v
WimaxHdi.v
AudioCal.v
Tlv.v
Kgsl.v
Qmi.v
Init.v
InitProps.v
