(* ===== verification/Prelude.v ===== *)
(** * The native code of the "ruan" device tree: a verification library

    ** The program

    The repository describes a Xiaomi tablet to Android. Its code is of three
    kinds, all under src/: the headers in include/, through which user space, the
    kernel, firmware and disks agree on numbers and bytes; the sensor notifier
    service in sensors/, a daemon of two threads; and the boot-time property
    loader in init/, which runs once inside Android's init. The parts do not call
    each other. They meet in the kernel: the service polls device nodes a driver
    fills, clients fill request structures a driver reads, and both sides
    compile the same header. What must be right is therefore, for the headers,
    that the two sides cannot read one value differently, and for the service
    and the loader, their behaviour under every order of events and every
    answer of the system.

    ** The files

    General machinery:
    - Prelude: C integers at their width ([cast], the operators [+[ t ]] ...), C
      enumerations ([CEnum], decoded before a switch), arithmetic tactics.
    - Align: rounding up, and the bit tricks that compute it.
    - Bits: bit fields of words, with the laws of independent record fields; FlagWord:
      words a header describes by flags and by fields with masks and shifts.
    - CLayout: the layout of structures under an ABI, and what holds of any; CMem: values
      of these types stored in memory and loaded from it.
    - CExpr: the integer constant expressions of macros and enumerators, with their C types and
      the cases in which C gives them no value.
    - Ioctl: the interface ([IocEncoding], [IocLaws]) of asm/ioctl.h, with the
      generic encoding as one implementation of it; a request as a value
      ([ioctl_req]: direction, type, number, parameter).
    - Uapi: the names that headers of the tree take from headers outside of it.

    Components, each a file of definitions and one of theorems:
    - ColorFmt: include/display/media/mmm_color_fmt.h, the strides, scanlines and
      sizes of video and graphics buffers, function by function. ColorFmtSpec is
      the abstract geometry they refine; ColorFmtDoc transcribes the layouts
      that the comments of the enumerators document. ColorFmtProps.
    - Bcache, BcacheSb: include/linux/bcache.h. A key is the two words of its
      header and the list of its pointer words ([bkey]); memory is a list of
      64-bit words and addresses are indices of words. A superblock in memory is
      the record [cache_sb]; structures on disk are [ctype]s. BcacheProps.
    - MiDisp: include/display/drm/mi_disp.h, the display feature interface, with
      checks and name tables in kernel and in user-space version. MiDispProps.
    - RadioIris: include/media/radio-iris.h, the FM radio protocol.
      RadioIrisProps.
    - Sensors: sensors/. The object is the record [notifier]; the members of the
      class are its fields, and the thread is a program counter ([notify_pc]) with
      one step per blocking call. [activate], [deactivate] (up to and after the
      join) and the destructor are the client's events; [runs] is the
      interleaving of both, [onEvent] the callback for the sensor's events. A call over HIDL whose transport fails
      ends the process ([Aborted]). Steps read [mActive] as last written; the races that this leaves out are in SensorsRace.
      SensorsProps has what holds of finite runs, SensorsLive of infinite ones with a fair scheduler;
      SensorsSpec has the abstract machine ([gate]) that every run refines. SensorsRace takes the steps
      apart into accesses of the members and orders them as C++ does; SensorsMain is the process: main.cpp, its
      ends, its log, and what its queue is told. SensorTests: tests/, the mock service and the tests, as runs of the model;
      SmartPtr: the smart pointer of the mock headers.
    - Ipa, IpaTypes, IpaIoctl: include/linux/msm_ipa.h. Ipa has the client and
      resource numbers, the predicates on them and the chained event
      enumerations; IpaTypes all structures, as [ctype]s; IpaIoctl the
      requests. IpaProps, IpaIoctlProps.
    - UapiAlsa, UapiCompress, UapiAudio, UapiTopology, UapiDisplay, UapiKgsl,
      UapiQmi, UapiNet, UapiSecure, UapiMisc: the structures, unions, array lengths and
      request macros of 89 further headers under include/, header by header
      in the order of the source. UapiTables collects them with those of MiDisp and IpaIoctl ([interfaces],
      [interface_types]); UapiProps has what holds of all of them. UapiPortable puts requests and memory together:
      a request's number and the bytes of its parameter under two ABIs.
    - ConstAlsa, ConstAudio, ConstDisplay, ConstNet, ConstMisc: the macros and
      enumerations of the headers that no structure or request above uses, as expressions ([cexpr]), a Module per header:
      a [defines] for each run of macros, an [enumeration] for each enum, and [header] for all of them. ConstProps has what they
      evaluate to.
    - What single headers have beyond structures and requests: MsmDrm (drm/msm_drm.h
      and linux/msm_drm.h against display/drm/sde_drm.h), AbiVersion (version words of
      sound/sof/abi.h and sound/asound.h), AudioCal (linux/msm_audio_calibration.h),
      AlsaPcm (the mapped records of sound/asound.h), AlsaTime (its records with time stamps, for
      programs with 32-bit and 64-bit time), AlsaHw (formats, hardware parameters and patch keys),
      Fx8010 (registers and instructions of sound/emu10k1.h), NetMacros (linux/nfsd/nfsfh.h, linux/msm_rmnet.h),
      WimaxHdi (words of linux/wimax/i2400m.h), Tlv (sound/tlv.h), Kgsl (flag words and
      timestamp memory of linux/msm_kgsl.h), Qmi (messages of
      linux/ipa_qmi_service_v01.h). Definitions first, then the theorems.
    - Init: init/init_ruan.cpp, the table of variants, the choice of one, and the
      sequences of property overrides. InitProps.

    Names are the source's. A C function that can only be called with integers
    of one type takes and returns [Z]s in the range of the type; conversions and
    wrap-around are written out.

    ** What the theorems show

    - Color formats: [BUFFER_SIZE] refines the geometry with no machine
      operation wrapping around; buffers have room for the image; sizes are whole
      pages, zero exactly for invalid input, monotone for all formats but one, never
      below the size in use; they are the documented ones, with the exceptions
      named. The rounding
      macro is exact at every integer type.
    - bcache: accessors are independent fields; copies copy; keys in a row are
      found again; pointers and magic numbers discriminate; the structures on
      disk have one layout; where fields overlap or overflow is stated.
    - Display: no request number is taken for another; requests are the same for
      32-bit and 64-bit processes exactly when they hold no pointers; names and
      checks agree.
    - Radio: opcodes are different and invertible; packets fit their length byte;
      offset constants are places of members; spur codes are invertible.
    - Sensors: a safety invariant over every interleaving of the threads, as long as the files open and the calls get through;
      initialisation and rounds of the loop on every branch; a stopped thread
      ends; and the two runs that end the process. From the call of [deactivate] or the destructor on, a client gets past
      the join in every infinite run with a fair scheduler, unless the thread stays in poll for ever; while it is in poll nothing else can happen. Seen from outside, every run is one of a gate
      that is opened and closed in turn and switches the sensor only in between, off at last. Over the life of the
      process the queue is told what the files say after each change that poll reports and nothing else, and only a missing queue
      or a failed transport kills it. The threads race for
      one member only, on every stop; the program of main.cpp has no race. An event
      makes one request with the value cut to an integer. The initialisation has the result the tests check on
      every mock service, and files read as the tests say whatever they hold; the smart pointer of the tests
      deletes every object once, after its last handle, if no object is wrapped twice.
    - IPA: the parity convention, predicates compared with the names of clients,
      the event ranges without gap; request numbers distinct, what a 64-bit
      driver must translate for 32-bit processes, and records back to back.
    - All further headers: which requests share a number, which differ between
      32-bit and 64-bit processes, which do not fit their field; members inside their
      structures, disjoint and aligned, and which layouts depend on the ABI. A request without pointers has
      one number for both ABIs, and what one of them stores the other loads, with the exceptions named.
    - Constants: every expression has a value of its type, with seven exceptions, and the same one
      for 32-bit and 64-bit programs; enumerators of one enumeration differ, with the aliases listed; a word joined from flags tells
      which ones; pixel formats differ.
    - WiMAX: the words of the i2400m give back their flags and fields, and a message type's number tells its kind.
    - Display events: a client of the short headers cannot talk to the driver.
    - Audio: version words pack, unpack and compare; every calibration command starts as
      the basic one; the mapped records serve 32-bit clients, or not; request numbers tell programs of
      different time apart where their records differ, with one exception; type-length-value
      data are recovered from the words the macros build.
    - GPU: flags and fields of a word do not overlap; timestamps of contexts neither.
    - Messages to the modem: the longest encoding of each against the length the
      header gives; the receive buffer; identifiers.
    - Boot properties: loading touches what it lists and nothing else, failures
      included; which variant is chosen for which tablet; how the two versions
      of the loader differ.

    ** Bounds and termination

    The color-format theorems are for frames up to [DIM_MAX] = 16384 in each
    dimension, the largest power of two for which 8-byte pixels stay below 2^32;
    at 32768 the size wraps around (a theorem too). The reader of type-length-value data
    has fuel for the depth of nesting and, at each level, for the number of items, which is at most
    the number of words there; [tlv_roundtrip] is for any fuel from the depth of the item on.
    Expressions are evaluated with fuel 128, more than any nesting of macros in the headers; a name is hidden
    inside its own expansion, as the preprocessor does, and that the fuel is enough is part of
    [constants_defined]. All other recursion is structural, the endless loop of the service is a step relation,
    and a stopped thread needs at most five steps to end ([steps_left]). Timestamps of
    GPU contexts are placed without wrap-around as long as they end below 2^32. Nothing else
    is bounded.

    ** Parameters

    Code outside the repository is a parameter with the behaviour it documents:
    asm/ioctl.h ([IocEncoding]), linux/types.h and its like ([LinuxUapi]), names in constant expressions that
    other headers define ([Externals]), the register bases of the effects processor ([FxBases]), the encoding of QMI elements
    ([QmiEncoding]), the sensor service ([SensorService],
    [ISensorManager]: any answer, also none, or a failed transport, on which HIDL aborts the process), poll, lseek and read (the answers in
    [answer]), bionic's property area ([SystemProperties]), and the names
    init_ruan.cpp uses but does not define. Each theorem with such a parameter is
    accompanied by an instance on which it is applied.

    ** What is not modelled

    Of the headers: strings (names of devices and of controls), and the branches for compilers and kernels the
    headers also support; an enumeration as a member's type is its four bytes. asound.h is taken as a
    little-endian user-space program sees it, AlsaPcm, AlsaTime and AlsaHw apart. Of the effects
    processor the instructions whose comments do not say all (logarithm, exponent, skip, moves of the accumulator).
    Drivers are not in the tree, so no dispatch of requests is modelled. The states of a WiMAX device, what its API checks and
    the messages of the i2400m are described in comments only: their constants and structures are modelled,
    not the kernel's code behind them, and the attributes of WiMAX netlink messages are numbers. The encoder and decoder of QMI messages are not in the tree; only the lengths they
    lead to are modelled. Of the data races those
    for the pointer to the virtual table, which only a run that ends in a killed process has; and what is no native
    code: init scripts, policies, overlays, build files, prebuilt modules. *)

From Stdlib Require Export ZArith Lia Bool Btauto.
From stdpp Require Export prelude numbers list strings gmap.

Declare Scope cint_scope.
Delimit Scope cint_scope with C.
#[global] Open Scope Z_scope.

(** ** Machine integers of the C code

    A value of a C integer type is a [Z] inside the range of the type.  [cast]
    is the conversion to a type: reduction modulo [2^w] for the unsigned types,
    two's complement for the signed ones. *)

Record int_ty : Type := IntTy { int_width : Z; int_signed : bool }.

Definition U8 : int_ty := IntTy 8 false.
Definition U16 : int_ty := IntTy 16 false.
Definition U32 : int_ty := IntTy 32 false.
Definition U64 : int_ty := IntTy 64 false.
Definition S8 : int_ty := IntTy 8 true.
Definition S16 : int_ty := IntTy 16 true.
Definition S32 : int_ty := IntTy 32 true.
Definition S64 : int_ty := IntTy 64 true.

Definition min_int (t : int_ty) : Z :=
  if int_signed t then - 2 ^ (int_width t - 1) else 0.

Definition max_int (t : int_ty) : Z :=
  if int_signed t then 2 ^ (int_width t - 1) - 1 else 2 ^ int_width t - 1.

Definition cast (t : int_ty) (z : Z) : Z :=
  if int_signed t
  then (z + 2 ^ (int_width t - 1)) mod 2 ^ int_width t - 2 ^ (int_width t - 1)
  else z mod 2 ^ int_width t.

(** [in_range t z]: the mathematical value [z] is representable at type [t]. *)
Definition in_range (t : int_ty) (z : Z) : Prop := min_int t <= z <= max_int t.

#[global] Instance in_range_dec t z : Decision (in_range t z).
Proof. unfold in_range. apply _. Defined.

Definition c_add (t : int_ty) (x y : Z) : Z := cast t (x + y).
Definition c_sub (t : int_ty) (x y : Z) : Z := cast t (x - y).
Definition c_mul (t : int_ty) (x y : Z) : Z := cast t (x * y).
Definition c_div (t : int_ty) (x y : Z) : Z := cast t (Z.quot x y).
Definition c_and (t : int_ty) (x y : Z) : Z := cast t (Z.land x y).
Definition c_or (t : int_ty) (x y : Z) : Z := cast t (Z.lor x y).
Definition c_xor (t : int_ty) (x y : Z) : Z := cast t (Z.lxor x y).
Definition c_not (t : int_ty) (x : Z) : Z := cast t (Z.lnot x).
Definition c_shl (t : int_ty) (x n : Z) : Z := cast t (Z.shiftl x n).
Definition c_shr (t : int_ty) (x n : Z) : Z := cast t (Z.shiftr x n).

(** The C operators at a type: [x +[ t ] y] is C's [x + y] computed at [t]. *)
Notation "x +[ t ] y" := (c_add t x y) (at level 50, left associativity) : cint_scope.
Notation "x -[ t ] y" := (c_sub t x y) (at level 50, left associativity) : cint_scope.
Notation "x *[ t ] y" := (c_mul t x y) (at level 40, left associativity) : cint_scope.
Notation "x /[ t ] y" := (c_div t x y) (at level 40, left associativity) : cint_scope.
Notation "x &[ t ] y" := (c_and t x y) (at level 52, left associativity) : cint_scope.
Notation "x .|[ t ] y" := (c_or t x y) (at level 54, left associativity) : cint_scope.
Notation "x ^[ t ] y" := (c_xor t x y) (at level 53, left associativity) : cint_scope.
Notation "x <<[ t ] n" := (c_shl t x n) (at level 51, left associativity) : cint_scope.
Notation "x >>[ t ] n" := (c_shr t x n) (at level 51, left associativity) : cint_scope.
Notation "~[ t ] x" := (c_not t x) (at level 35) : cint_scope.
#[global] Open Scope cint_scope.

(** C's truth value of an integer. *)
Definition c_true (z : Z) : bool := negb (z =? 0).
Arguments c_true : simpl never.

(** The int a C comparison or a [_Bool] converts to. *)
Definition c_bool (b : bool) : Z := if b then 1 else 0.

(** ** Tactics *)

(** Linear arithmetic with division and remainder by constants. *)
Ltac zlia := Z.to_euclidean_division_equations; lia.
Ltac znia := Z.to_euclidean_division_equations; nia.

(** The [k]th entry of a closed list is in it. *)
Ltac entry k := apply (nth_error_In _ k); vm_compute; reflexivity.

(** Constants such as [2 ^ 32] as numerals. *)
Ltac norm_pow :=
  repeat match goal with
         | |- context [2 ^ ?n] =>
             let n' := eval vm_compute in n in
             match n' with
             | Zpos _ => idtac
             | Z0 => idtac
             end;
             let v := eval vm_compute in (2 ^ n') in
             change (2 ^ n) with v
         | H : context [2 ^ ?n] |- _ =>
             let n' := eval vm_compute in n in
             match n' with
             | Zpos _ => idtac
             | Z0 => idtac
             end;
             let v := eval vm_compute in (2 ^ n') in
             change (2 ^ n) with v in H
         end.

(** Expose the ranges of the concrete integer types. *)
Ltac unfold_range :=
  unfold in_range, min_int, max_int in *; cbn [int_width int_signed U8 U16 U32 U64 S8 S16 S32 S64] in *;
  norm_pow.

(** ** Conversions *)

Section Cast.
Context (t : int_ty) (Hw : 0 < int_width t).

Lemma cast_range z : in_range t (cast t z).
Proof using Hw.
  unfold in_range, cast, min_int, max_int.
  assert (2 ^ int_width t = 2 * 2 ^ (int_width t - 1)) as E.
  { rewrite <- Z.pow_succ_r by lia. f_equal. lia. }
  pose proof (Z.pow_pos_nonneg 2 (int_width t - 1)).
  destruct (int_signed t).
  - pose proof (Z.mod_pos_bound (z + 2 ^ (int_width t - 1)) (2 ^ int_width t)). lia.
  - pose proof (Z.mod_pos_bound z (2 ^ int_width t)). lia.
Qed.

Lemma cast_id z : in_range t z -> cast t z = z.
Proof using Hw.
  unfold in_range, cast, min_int, max_int.
  assert (2 ^ int_width t = 2 * 2 ^ (int_width t - 1)) as E.
  { rewrite <- Z.pow_succ_r by lia. f_equal. lia. }
  destruct (int_signed t); intros H; rewrite Z.mod_small; lia.
Qed.

Lemma cast_cast z : cast t (cast t z) = cast t z.
Proof using Hw. apply cast_id, cast_range. Qed.
End Cast.

Lemma cast_U32_id z : 0 <= z < 4294967296 -> cast U32 z = z.
Proof. intros. apply cast_id; [done|]. unfold_range. lia. Qed.

Lemma cast_U64_id z : 0 <= z < 2 ^ 64 -> cast U64 z = z.
Proof. intros. apply cast_id; [done|]. unfold_range. lia. Qed.

Lemma cast_S32_id z : - 2147483648 <= z < 2147483648 -> cast S32 z = z.
Proof. intros. apply cast_id; [done|]. unfold_range. lia. Qed.

(** ** C enumerations

    An enumeration is an inductive type with the source's enumerators; the
    integer a C variable of the type holds is decoded before a [switch], so
    that the [default] branch covers both the integers that name no enumerator
    and the enumerators without a [case]. *)

Class CEnum (A : Type) := {
  enum_value : A -> Z;
  enum_all : list A;
}.

Definition enum_decode {A} `{CEnum A} (z : Z) : option A :=
  List.find (fun a => enum_value a =? z) enum_all.

(** Every enumerator is listed, and no two have the same value. *)
Class CEnumLaws (A : Type) `{CEnum A} : Prop := {
  enum_complete : forall a : A, In a enum_all;
  enum_value_inj : forall a b : A, enum_value a = enum_value b -> a = b;
}.

Section Enum.
Context {A : Type} `{CEnumLaws A}.

Lemma enum_decode_Some (z : Z) (a : A) : enum_decode z = Some a <-> enum_value a = z.
Proof.
  unfold enum_decode. split.
  - intros Hf. apply List.find_some in Hf as [_ Hf]. by apply Z.eqb_eq.
  - intros <-. destruct (List.find _ _) as [b|] eqn:Hf.
    + apply List.find_some in Hf as [_ Hf]. f_equal. by apply enum_value_inj, Z.eqb_eq.
    + pose proof (List.find_none _ _ Hf a (enum_complete a)) as Hne. by apply Z.eqb_neq in Hne.
Qed.

Lemma enum_decode_value (a : A) : enum_decode (enum_value a) = Some a.
Proof. by apply enum_decode_Some. Qed.

Lemma enum_decode_None (z : Z) : enum_decode z = @None A <-> forall a : A, enum_value a <> z.
Proof.
  split.
  - intros Hn a Ha. apply enum_decode_Some in Ha. congruence.
  - intros Hn. destruct (enum_decode z) as [a|] eqn:Hd; [|done].
    apply enum_decode_Some in Hd. by destruct (Hn a).
Qed.
End Enum.

(** Solves the two laws of an enumeration with finitely many constructors. *)
Ltac solve_enum_laws :=
  constructor;
  [ intros []; cbv [enum_all]; simpl; tauto
  | match goal with
    | |- forall a b : ?A, _ =>
        assert (forall a : A, enum_decode (enum_value a) = Some a) as Hdec by (intros []; reflexivity);
        intros a b Hval; pose proof (Hdec a) as Ha; rewrite Hval, Hdec in Ha; congruence
    end ].
