(* ===== verification/Align.v ===== *)
(** * Align: rounding up to a multiple

    [cdiv] and [align_up] are the mathematical functions (on unbounded
    integers) the headers' rounding macros are compared with.  The file also
    relates them to the bit tricks C code computes them with: the
    power-of-two test [a & (a - 1)] and the mask [x & ~(a - 1)]. *)

From S2P Require Import Prelude.

(** Ceiling division, and the least multiple of [a] that is at least [x]. *)
Definition cdiv (x a : Z) : Z := (x + a - 1) / a.
Definition align_up (x a : Z) : Z := a * cdiv x a.

Create HintDb align discriminated.

(** ** Order and divisibility *)

Section Align.
Context (a : Z) (Ha : 0 < a).

Lemma cdiv_spec x : a * cdiv x a - a < x <= a * cdiv x a.
Proof using Ha. unfold cdiv. znia. Qed.

Lemma cdiv_le_iff x q : cdiv x a <= q <-> x <= a * q.
Proof using Ha. pose proof (cdiv_spec x). nia. Qed.

Lemma cdiv_unique x q : a * q - a < x <= a * q -> cdiv x a = q.
Proof using Ha. pose proof (cdiv_spec x). nia. Qed.

Lemma cdiv_mono x y : x <= y -> cdiv x a <= cdiv y a.
Proof using Ha. intros. apply cdiv_le_iff. pose proof (cdiv_spec y). lia. Qed.

Lemma cdiv_nonneg x : 0 <= x -> 0 <= cdiv x a.
Proof using Ha. pose proof (cdiv_spec x). nia. Qed.

Lemma cdiv_pos x : 0 < x -> 0 < cdiv x a.
Proof using Ha. pose proof (cdiv_spec x). nia. Qed.

Lemma align_up_ge x : x <= align_up x a.
Proof using Ha. unfold align_up. pose proof (cdiv_spec x). lia. Qed.

Lemma align_up_lt x : align_up x a < x + a.
Proof using Ha. unfold align_up. pose proof (cdiv_spec x). lia. Qed.

Lemma align_up_divide x : (a | align_up x a).
Proof using Ha. unfold align_up. exists (cdiv x a). lia. Qed.

Lemma align_up_least x y : (a | y) -> x <= y -> align_up x a <= y.
Proof using Ha.
  intros [q ->] H. unfold align_up.
  assert (cdiv x a <= q) by (apply cdiv_le_iff; lia). nia.
Qed.

Lemma align_up_mono x y : x <= y -> align_up x a <= align_up y a.
Proof using Ha. intros. unfold align_up. pose proof (cdiv_mono x y). nia. Qed.

Lemma align_up_id y : (a | y) -> align_up y a = y.
Proof using Ha.
  intros Hd. pose proof (align_up_ge y). pose proof (align_up_least y y Hd). lia.
Qed.

Lemma align_up_nonneg x : 0 <= x -> 0 <= align_up x a.
Proof using Ha. pose proof (align_up_ge x). lia. Qed.

Lemma align_up_pos x : 0 < x -> a <= align_up x a.
Proof using Ha. intros. unfold align_up. pose proof (cdiv_pos x). nia. Qed.

(** Rounding after dividing by [m] is rounding by the product. *)
Lemma cdiv_cdiv x m : 0 < m -> cdiv (cdiv x m) a = cdiv x (m * a).
Proof using Ha.
  intros Hm. symmetry.
  assert (x <= m * cdiv x m) by (pose proof (Z.mod_pos_bound (x + m - 1) m); unfold cdiv; znia).
  assert (m * cdiv x m - m < x) by (unfold cdiv; znia).
  pose proof (cdiv_spec (cdiv x m)) as [H1 H2].
  set (p := cdiv x m) in *. set (q := cdiv p a) in *.
  assert (0 < m * a) by nia.
  unfold cdiv at 1. symmetry. apply Z.div_unique with (r := x + m * a - 1 - m * a * q); nia.
Qed.

(** The halves of a height need no less room than the whole. *)
Lemma align_up_double x y : x <= 2 * y -> align_up x a <= 2 * align_up y a.
Proof using Ha.
  intros. apply align_up_least.
  - destruct (align_up_divide y) as [q Hq]. exists (2 * q). lia.
  - pose proof (align_up_ge y). lia.
Qed.
End Align.

#[export] Hint Resolve align_up_ge align_up_divide align_up_nonneg : align.

(** ** The bit tricks *)

(** C's test [a & (a - 1)] is zero exactly on the powers of two. *)
Lemma land_pred_pow2 k : 0 <= k -> Z.land (2 ^ k) (2 ^ k - 1) = 0.
Proof.
  intros. replace (2 ^ k - 1) with (Z.ones k) by (rewrite Z.ones_equiv; lia).
  rewrite Z.land_ones by lia. apply Z.mod_same. lia.
Qed.

Lemma land_pred_zero a :
  0 < a -> Z.land a (a - 1) = 0 -> a = 2 ^ Z.log2 a.
Proof.
  intros Ha H.
  destruct (Z.log2_spec a Ha) as [Hlo Hhi].
  destruct (Z.eq_dec a (2 ^ Z.log2 a)) as [|Hne]; [done|exfalso].
  assert (Z.log2 (a - 1) = Z.log2 a) as Hl by (apply Z.log2_unique; [apply Z.log2_nonneg|lia]).
  pose proof (Z.log2_nonneg a).
  assert (Z.testbit (Z.land a (a - 1)) (Z.log2 a) = true) as Hb.
  { rewrite Z.land_spec, Z.bit_log2 by lia. rewrite <- Hl, Z.bit_log2; [done|].
    assert (2 ^ Z.log2 a > 0) by lia. lia. }
  by rewrite H, Z.bits_0 in Hb.
Qed.

(** Masking with [~(2^k - 1)] rounds down to a multiple of [2^k]. *)
Lemma ldiff_pred_pow2 x k : 0 <= k -> Z.ldiff x (2 ^ k - 1) = 2 ^ k * (x / 2 ^ k).
Proof.
  intros. replace (2 ^ k - 1) with (Z.ones k) by (rewrite Z.ones_equiv; lia).
  rewrite Z.ldiff_ones_r by lia. rewrite Z.shiftl_mul_pow2, Z.shiftr_div_pow2 by lia. lia.
Qed.

Lemma ldiff_le_self x m : 0 <= x -> Z.ldiff x m <= x.
Proof.
  intros Hx.
  assert (0 <= Z.land x m) by (apply Z.land_nonneg; by left).
  assert (x - Z.land x m = Z.ldiff x m) as <-; [|lia].
  rewrite Z.sub_nocarry_ldiff.
  - apply Z.bits_inj'. intros n Hn. rewrite !Z.ldiff_spec, Z.land_spec. btauto.
  - apply Z.bits_inj'. intros n Hn. rewrite Z.ldiff_spec, Z.land_spec, Z.bits_0. btauto.
Qed.

(** At an integer type, [x & ~m] is the set difference of the bits. *)
Lemma c_and_not t x m :
  0 < int_width t -> in_range t x -> 0 <= x -> in_range t m -> (x &[t] ~[t] m) = Z.ldiff x m.
Proof.
  intros Hw Hx Hx0 Hm. unfold c_and, c_not.
  assert (Z.land x (cast t (Z.lnot m)) = Z.ldiff x m) as ->.
  { destruct (int_signed t) eqn:Hs.
    - rewrite (cast_id t Hw (Z.lnot m)); [by rewrite Z.ldiff_land|].
      unfold in_range, min_int, max_int in *. rewrite Hs in *. unfold Z.lnot. lia.
    - unfold cast. rewrite Hs, <- Z.land_ones by lia.
      unfold in_range, min_int, max_int in *. rewrite Hs in *.
      apply Z.bits_inj'. intros n Hn.
      rewrite !Z.land_spec, Z.ldiff_spec, Z.lnot_spec by lia.
      destruct (Z.ltb_spec n (int_width t)).
      + rewrite Z.ones_spec_low by lia. btauto.
      + rewrite (Z.bits_above_log2 x n); [done|lia|].
        destruct (Z.eq_dec x 0) as [->|]; [simpl; lia|].
        assert (Z.log2 x < int_width t) by (apply Z.log2_lt_pow2; lia). lia. }
  apply cast_id; [done|].
  pose proof (ldiff_le_self x m Hx0) as Hle.
  assert (0 <= Z.ldiff x m) by (apply Z.ldiff_nonneg; by left).
  unfold in_range, min_int in *. destruct (int_signed t); lia.
Qed.

(** Rounding up by adding and masking. *)
Lemma align_up_ldiff x k :
  0 <= k -> Z.ldiff (x + 2 ^ k - 1) (2 ^ k - 1) = align_up x (2 ^ k).
Proof. intros. unfold align_up, cdiv. by apply ldiff_pred_pow2. Qed.

(** ** C operations that do not leave their type *)

Lemma c_add_id t x y : 0 < int_width t -> in_range t (x + y) -> (x +[t] y) = x + y.
Proof. exact (fun Hw => cast_id t Hw _). Qed.

Lemma c_sub_id t x y : 0 < int_width t -> in_range t (x - y) -> (x -[t] y) = x - y.
Proof. exact (fun Hw => cast_id t Hw _). Qed.

Lemma c_mul_id t x y : 0 < int_width t -> in_range t (x * y) -> (x *[t] y) = x * y.
Proof. exact (fun Hw => cast_id t Hw _). Qed.

Lemma c_div_id t x y :
  0 < int_width t -> 0 <= x -> 0 < y -> in_range t x -> (x /[t] y) = x / y.
Proof.
  intros Hw Hx Hy Hr. unfold c_div. rewrite Z.quot_div_nonneg by lia.
  apply cast_id; [done|]. unfold in_range in *.
  pose proof (Z.div_pos x y Hx Hy). pose proof (Z.div_le_upper_bound x y x Hy).
  unfold min_int in *. destruct (int_signed t); split; nia.
Qed.

Lemma c_shr_id t x n :
  0 < int_width t -> 0 <= x -> 0 <= n -> in_range t x -> (x >>[t] n) = x / 2 ^ n.
Proof.
  intros Hw Hx Hn Hr. unfold c_shr. rewrite Z.shiftr_div_pow2 by lia.
  apply cast_id; [done|]. unfold in_range in *.
  assert (0 < 2 ^ n) by lia.
  pose proof (Z.div_pos x (2 ^ n) Hx). pose proof (Z.div_le_upper_bound x (2 ^ n) x).
  unfold min_int in *. destruct (int_signed t); split; nia.
Qed.
