(* ===== verification/Bits.v ===== *)
(** * Bits: bit fields of machine words

    The headers pack several values into one word with shifts and masks.  A
    field is the [n] bits of a word from bit [off] on; [get_bits] reads it and
    [set_bits] replaces it.  The laws of the file are those of independent
    record fields: reading what was written, leaving disjoint fields alone,
    and losing nothing when all the fields of a word are known. *)

From S2P Require Import Prelude Align.

Definition get_bits (off n x : Z) : Z := Z.land (Z.shiftr x off) (Z.ones n).

Definition set_bits (off n v x : Z) : Z :=
  Z.lor (Z.ldiff x (Z.shiftl (Z.ones n) off)) (Z.shiftl (Z.land v (Z.ones n)) off).

(** A field of a word, and when two fields share no bit. *)
Record field : Type := Field { f_off : Z; f_size : Z }.

Definition field_ok (w : Z) (f : field) : Prop := 0 <= f_off f /\ 0 <= f_size f /\ f_off f + f_size f <= w.

Definition disjoint (f g : field) : Prop :=
  f_off f + f_size f <= f_off g \/ f_off g + f_size g <= f_off f.

#[export] Instance disjoint_dec f g : Decision (disjoint f g).
Proof. unfold disjoint. apply _. Defined.

Definition get (f : field) (x : Z) : Z := get_bits (f_off f) (f_size f) x.
Definition set (f : field) (v x : Z) : Z := set_bits (f_off f) (f_size f) v x.

(** ** Bitwise reasoning *)

Lemma ones_testbit n i : 0 <= n -> Z.testbit (Z.ones n) i = (0 <=? i) && (i <? n).
Proof.
  intros. destruct (Z.leb_spec 0 i); [|by rewrite Z.testbit_neg_r by lia].
  destruct (Z.ltb_spec i n); [by rewrite Z.ones_spec_low by lia|by rewrite Z.ones_spec_high by lia].
Qed.

Lemma shiftl_testbit x n i : Z.testbit (Z.shiftl x n) i = (0 <=? i) && Z.testbit x (i - n).
Proof.
  destruct (Z.leb_spec 0 i); [by rewrite Z.shiftl_spec by lia|by rewrite Z.testbit_neg_r by lia].
Qed.

Lemma shiftr_testbit x n i : Z.testbit (Z.shiftr x n) i = (0 <=? i) && Z.testbit x (i + n).
Proof.
  destruct (Z.leb_spec 0 i); [by rewrite Z.shiftr_spec by lia|by rewrite Z.testbit_neg_r by lia].
Qed.

Lemma testbit_range x w i : 0 <= x < 2 ^ w -> w <= i -> Z.testbit x i = false.
Proof.
  intros Hx Hi. destruct (Z.ltb_spec i 0); [by apply Z.testbit_neg_r|].
  destruct (Z.eq_dec x 0) as [->|]; [apply Z.bits_0|].
  apply Z.bits_above_log2; [lia|]. apply Z.log2_lt_pow2; [lia|].
  assert (2 ^ w <= 2 ^ i) by (apply Z.pow_le_mono_r; lia). lia.
Qed.

(** Words as bit sets: a non-negative number below [2 ^ w]. *)
Lemma word_range x w : 0 <= w -> (forall i, w <= i -> Z.testbit x i = false) -> 0 <= x < 2 ^ w.
Proof.
  intros Hw Hb. assert (x = Z.land x (Z.ones w)) as ->.
  { apply Z.bits_inj'. intros i Hi. rewrite Z.land_spec, ones_testbit by lia.
    destruct (Z.ltb_spec i w); [destruct (Z.leb_spec 0 i); [btauto|lia]|].
    rewrite Hb by lia. btauto. }
  rewrite Z.land_ones by lia. apply Z.mod_pos_bound. lia.
Qed.

Create Rewrite HintDb bits.
#[export] Hint Rewrite Z.land_spec Z.lor_spec Z.ldiff_spec Z.lxor_spec
  shiftl_testbit shiftr_testbit Z.bits_0 : bits.
#[export] Hint Rewrite ones_testbit using lia : bits.

(** Splits on the comparisons in the goal. *)
Ltac split_cmp :=
  repeat match goal with
         | |- context [?a <=? ?b] => destruct (Z.leb_spec a b); try lia
         | |- context [?a <? ?b] => destruct (Z.ltb_spec a b); try lia
         end.

(** Arguments of [testbit] that are equal as integers. *)
Ltac same_index :=
  repeat match goal with
         | |- context [Z.testbit ?x ?i] =>
             tryif is_var i then fail else idtac;
             match goal with
             | |- context [Z.testbit x ?j] =>
                 tryif constr_eq i j then fail else (replace i with j by lia)
             end
         end.

(** Proves an equation between words by comparing their bits. *)
Ltac bitwise :=
  apply Z.bits_inj'; intros ?i ?Hi; autorewrite with bits; split_cmp; same_index; try btauto.

(** ** Laws *)

Section Fields.
Context (f g : field) (w : Z) (Hf : field_ok w f) (Hg : field_ok w g).

Lemma get_range x : 0 <= get f x < 2 ^ f_size f.
Proof using Hf.
  destruct Hf as (?&?&?). unfold get, get_bits. rewrite Z.land_ones by lia.
  apply Z.mod_pos_bound. lia.
Qed.

Lemma get_set_same v x : get f (set f v x) = v mod 2 ^ f_size f.
Proof using Hf.
  destruct Hf as (?&?&?). rewrite <- Z.land_ones by lia. unfold get, set, get_bits, set_bits. bitwise.
Qed.

Lemma get_set_other v x : disjoint f g -> get g (set f v x) = get g x.
Proof using Hf Hg.
  destruct Hf as (?&?&?), Hg as (?&?&?). intros Hd. unfold disjoint, get, set, get_bits, set_bits in *.
  bitwise.
Qed.

Lemma set_get_same x : set f (get f x) x = x.
Proof using Hf.
  destruct Hf as (?&?&?). unfold get, set, get_bits, set_bits. bitwise.
Qed.

Lemma set_set_same v v' x : set f v (set f v' x) = set f v x.
Proof using Hf.
  destruct Hf as (?&?&?). unfold set, set_bits. bitwise.
Qed.

Lemma set_set_comm v v' x : disjoint f g -> set f v (set g v' x) = set g v' (set f v x).
Proof using Hf Hg.
  destruct Hf as (?&?&?), Hg as (?&?&?). intros Hd. unfold disjoint, set, set_bits in *. bitwise.
Qed.

Lemma set_range v x : 0 <= w -> 0 <= x < 2 ^ w -> 0 <= set f v x < 2 ^ w.
Proof using Hf.
  destruct Hf as (?&?&?). intros Hw Hx. apply word_range; [done|]. intros i Hi.
  unfold set, set_bits. autorewrite with bits. rewrite (testbit_range x w i) by lia.
  split_cmp; btauto.
Qed.
End Fields.

(** ** Words are determined by fields that cover them *)

Definition covers (f : field) (i : Z) : bool := (f_off f <=? i) && (i <? f_off f + f_size f).

Lemma get_testbit f x i :
  0 <= f_size f -> covers f i = true -> 0 <= f_off f -> Z.testbit x i = Z.testbit (get f x) (i - f_off f).
Proof.
  unfold covers, get, get_bits. intros Hs Hc Ho. autorewrite with bits.
  apply andb_true_iff in Hc as [? ?]. split_cmp. same_index. btauto.
Qed.

Lemma word_ext w fs x y :
  0 <= x < 2 ^ w -> 0 <= y < 2 ^ w -> Forall (field_ok w) fs ->
  (forall i, 0 <= i < w -> existsb (fun f => covers f i) fs = true) ->
  Forall (fun f => get f x = get f y) fs -> x = y.
Proof.
  intros Hx Hy Hok Hcov Heq. apply Z.bits_inj'. intros i Hi.
  destruct (Z.ltb_spec i w) as [Hlt|Hge]; [|by rewrite !(testbit_range _ w i)].
  specialize (Hcov i (conj Hi Hlt)). apply existsb_exists in Hcov as (f & Hin & Hc).
  rewrite List.Forall_forall in Hok, Heq. specialize (Hok f Hin) as (?&?&?). specialize (Heq f Hin).
  by rewrite !(get_testbit f _ i), Heq by done.
Qed.

(** Coverage of a concrete word, by computation. *)
Definition covers_word (w : nat) (fs : list field) : bool :=
  forallb (fun i => existsb (fun f => covers f (Z.of_nat i)) fs) (seq 0 w).

Lemma covers_word_spec w fs :
  covers_word w fs = true ->
  forall i, 0 <= i < Z.of_nat w -> existsb (fun f => covers f i) fs = true.
Proof.
  unfold covers_word. rewrite forallb_forall. intros H i Hi.
  specialize (H (Z.to_nat i)). rewrite Z2Nat.id in H by lia. apply H, in_seq. lia.
Qed.

(** ** Shift-and-mask expressions of C, read as fields *)

(** [x << n | y] where [y] is below [2 ^ n]: concatenation. *)
Lemma lor_shiftl_add x y n : 0 <= n -> 0 <= y < 2 ^ n -> Z.lor (Z.shiftl x n) y = x * 2 ^ n + y.
Proof.
  intros Hn Hy. rewrite <- Z.shiftl_mul_pow2 by done. symmetry. apply Z.add_nocarry_lor.
  apply Z.bits_inj'. intros i Hi. rewrite Z.land_spec, shiftl_testbit, Z.bits_0.
  destruct (Z.ltb_spec i n); [rewrite (Z.testbit_neg_r x) by lia; btauto|].
  rewrite (testbit_range y n i) by lia. btauto.
Qed.

(** ** Words built from fields *)

(** The values of fields, each shifted to its place, joined by [|]. *)
Definition pack (l : list (field * Z)) : Z :=
  foldr (fun x w => Z.lor (Z.shiftl x.2 (f_off x.1)) w) 0 l.

Definition value_fits (x : field * Z) : Prop :=
  0 <= f_off x.1 /\ 0 <= f_size x.1 /\ 0 <= x.2 < 2 ^ f_size x.1.

Lemma get_lor f x y : get f (Z.lor x y) = Z.lor (get f x) (get f y).
Proof. unfold get, get_bits. by rewrite Z.shiftr_lor, Z.land_lor_distr_l. Qed.

Lemma get_shiftl_same f v : value_fits (f, v) -> get f (Z.shiftl v (f_off f)) = v.
Proof.
  intros (Ho & Hs & Hv). cbn in *. unfold get, get_bits.
  rewrite Z.shiftr_shiftl_l, Z.sub_diag, Z.shiftl_0_r, Z.land_ones by lia. by apply Z.mod_small.
Qed.

Lemma get_shiftl_disjoint f g v :
  0 <= f_off f -> 0 <= f_size f -> disjoint f g -> value_fits (g, v) -> get f (Z.shiftl v (f_off g)) = 0.
Proof.
  intros Ho Hs Hd (Hgo & Hgs & Hv). cbn in *. unfold get, get_bits, disjoint in *.
  apply Z.bits_inj'. intros i Hi. autorewrite with bits. split_cmp; try btauto.
  all: destruct (Z.ltb_spec (i + f_off f - f_off g) 0);
    [by rewrite Z.testbit_neg_r|by rewrite (testbit_range v (f_size g)) by lia].
Qed.

(** Reading a field where no field of the word overlaps it. *)
Lemma get_pack_disjoint f l :
  0 <= f_off f -> 0 <= f_size f -> Forall value_fits l -> Forall (fun x => disjoint f x.1) l ->
  get f (pack l) = 0.
Proof.
  intros Ho Hs Hl Hd. induction Hl as [|[g v] l Hg _ IH].
  - unfold get, get_bits. cbn. by rewrite Z.shiftr_0_l.
  - apply Forall_cons in Hd as [Hd Hds]. cbn [pack foldr fst snd].
    fold (pack l). by rewrite get_lor, get_shiftl_disjoint, IH.
Qed.

(** Reading one of the fields. *)
Lemma get_pack f v l :
  In (f, v) l -> Forall value_fits l -> ForallOrdPairs (fun x y => disjoint x.1 y.1) l -> get f (pack l) = v.
Proof.
  intros Hin Hl Hd. induction Hd as [|[g u] l Hg Hd IH]; [done|].
  apply Forall_cons in Hl as [Hgu Hl]. cbn [pack foldr fst snd]. rewrite get_lor.
  destruct Hin as [[= -> ->]|Hin].
  - destruct Hgu as (? & ? & ?). rewrite get_shiftl_same by done. fold (pack l).
    by rewrite get_pack_disjoint, Z.lor_0_r.
  - rewrite List.Forall_forall in Hg. specialize (Hg _ Hin).
    pose proof Hl as Hl'. rewrite List.Forall_forall in Hl'. destruct (Hl' _ Hin) as (? & ? & _).
    fold (pack l). rewrite IH by done.
    rewrite get_shiftl_disjoint by (done || (unfold disjoint in *; cbn in *; tauto)). apply Z.lor_0_l.
Qed.
