(* ===== verification/FlagWord.v ===== *)
(** * FlagWord: words of flags and fields

    A word that a C header describes by flags of one bit and by fields, each with a mask
    and a shift: how a client joins it, how its parts are read, and the check under which
    every part is read back. *)

From S2P Require Import Prelude Align Bits.

#[local] Open Scope list_scope.
#[local] Open Scope Z_scope.

(** The bit a flag of one bit stands for, and the field a mask and a shift stand for. *)
Definition bit_field (flag : Z) : field := Field (Z.log2 flag) 1.
Definition mask_field (mask shift : Z) : field := Field shift (Z.log2 mask - shift + 1).

(** What is a flag, and what is the mask of its field. *)
Definition is_bit (flag : Z) : bool := (0 <? flag) && (flag =? Z.shiftl 1 (Z.log2 flag)).
Definition is_mask (m : Z * Z) : bool := m.1 =? Z.shiftl (Z.ones (Z.log2 m.1 - m.2 + 1)) m.2.

(** A flag word: its flags of one bit and its fields, each a mask and a shift. *)
Record flag_word : Type := FlagWord { w_bits : list Z; w_masks : list (Z * Z) }.

Definition word_fields (w : flag_word) : list field :=
  map bit_field (w_bits w) ++ map (fun m => mask_field m.1 m.2) (w_masks w).

(** The word a client builds: the flags [b] selects and the fields' values [v], joined
    by [|]. *)
Definition make_word (w : flag_word) (b : Z -> bool) (v : Z * Z -> Z) : Z :=
  fold_right Z.lor 0 (map (fun flag => if b flag then flag else 0) (w_bits w)
                      ++ map (fun m => Z.shiftl (v m) m.2) (w_masks w)).

(** ** Properties *)

(** The check of a flag word: flags are single bits, masks are those of their fields, and
    no two overlap. *)
Fixpoint disjoint_all (l : list field) : bool :=
  match l with [] => true | f :: l => forallb (fun g => bool_decide (disjoint f g)) l && disjoint_all l end.

Definition flag_word_ok (w : flag_word) : bool :=
  forallb is_bit (w_bits w) && forallb is_mask (w_masks w)
  && forallb (fun m => (0 <=? m.2) && (0 <=? Z.log2 m.1 - m.2)) (w_masks w)
  && disjoint_all (word_fields w).

Lemma disjoint_all_spec l : disjoint_all l = true -> ForallOrdPairs disjoint l.
Proof.
  induction l as [|f l IH]; [constructor|]. cbn. intros [Hf Hl]%andb_true_iff. constructor; [|by apply IH].
  rewrite forallb_forall in Hf. apply List.Forall_forall. intros g Hg. by eapply bool_decide_eq_true, Hf.
Qed.

Lemma land_mask x n k :
  0 <= n -> 0 <= k -> Z.land x (Z.shiftl (Z.ones n) k) = Z.shiftl (Z.land (Z.shiftr x k) (Z.ones n)) k.
Proof. intros. bitwise. Qed.

Lemma ForallOrdPairs_map {A B} (R : B -> B -> Prop) (f : A -> B) l :
  ForallOrdPairs R (map f l) -> ForallOrdPairs (fun x y => R (f x) (f y)) l.
Proof.
  induction l as [|x l IH]; cbn; inversion_clear 1; constructor; [|by apply IH].
  by apply Forall_map.
Qed.

Section FlagWord.
Context (w : flag_word) (Hw : flag_word_ok w = true) (b : Z -> bool) (v : Z * Z -> Z).
Context (Hv : forall m, In m (w_masks w) -> 0 <= v m < 2 ^ (Z.log2 m.1 - m.2 + 1)).

(** The fields of the word with their values. *)
Definition contents : list (field * Z) :=
  map (fun flag => (bit_field flag, if b flag then 1 else 0)) (w_bits w)
  ++ map (fun m => (mask_field m.1 m.2, v m)) (w_masks w).

Lemma word_parts :
  forallb is_bit (w_bits w) = true /\ forallb is_mask (w_masks w) = true
  /\ (forall m, In m (w_masks w) -> 0 <= m.2 /\ 0 <= Z.log2 m.1 - m.2)
  /\ ForallOrdPairs disjoint (word_fields w).
Proof using Hw.
  clear Hv. unfold flag_word_ok in Hw. rewrite !andb_true_iff, (forallb_forall _ (w_masks w)) in Hw.
  destruct Hw as [[[? Hm] Hp] Hd]. split_and!; [done|by apply forallb_forall| |by apply disjoint_all_spec].
  rewrite forallb_forall in Hp. intros m Hin%Hp. lia.
Qed.

Lemma make_word_pack : make_word w b v = pack contents.
Proof using Hw.
  destruct word_parts as (Hb & _). unfold make_word, contents. rewrite forallb_forall in Hb. clear Hv.
  induction (w_bits w) as [|flag bits IH]; cbn.
  - induction (w_masks w) as [|m ms IH]; cbn; [done|]. by rewrite IH.
  - rewrite IH by (intros; apply Hb; by right). fold (pack (map
      (fun flag => (bit_field flag, if b flag then 1 else 0)) bits
      ++ map (fun m => (mask_field m.1 m.2, v m)) (w_masks w))). f_equal.
    specialize (Hb flag (or_introl eq_refl)). unfold is_bit in Hb.
    apply andb_true_iff in Hb as [_ Hb%Z.eqb_eq]. destruct (b flag); [done|by rewrite Z.shiftl_0_l].
Qed.

Lemma contents_fit : Forall value_fits contents.
Proof using Hw Hv.
  destruct word_parts as (_ & _ & Hm & _). apply Forall_app. split; apply Forall_map, List.Forall_forall.
  - intros flag _. unfold value_fits, bit_field. cbn. pose proof (Z.log2_nonneg flag).
    destruct (b flag); lia.
  - intros m Hin. destruct (Hm m Hin), (Hv m Hin). unfold value_fits, mask_field. cbn. lia.
Qed.

Lemma contents_disjoint : ForallOrdPairs (fun x y => disjoint x.1 y.1) contents.
Proof using Hw.
  destruct word_parts as (_ & _ & _ & Hd). apply ForallOrdPairs_map. clear Hv.
  unfold contents, word_fields in *. by rewrite map_app, !map_map.
Qed.

Lemma read_flag flag : In flag (w_bits w) -> c_true (Z.land (make_word w b v) flag) = b flag.
Proof using Hw Hv.
  intros Hin. pose proof (get_pack (bit_field flag) (if b flag then 1 else 0) contents) as E.
  rewrite <- make_word_pack in E.
  assert (get (bit_field flag) (make_word w b v) = if b flag then 1 else 0) as Hg.
  { apply E; [|apply contents_fit|apply contents_disjoint].
    apply in_app_iff. left. apply in_map_iff. by exists flag. }
  destruct word_parts as (Hb & _). rewrite forallb_forall in Hb. specialize (Hb _ Hin).
  unfold is_bit in Hb. apply andb_true_iff in Hb as [_ Hb%Z.eqb_eq].
  unfold get, get_bits, bit_field in Hg. cbn in Hg.
  assert (Z.land (make_word w b v) flag = Z.shiftl (if b flag then 1 else 0) (Z.log2 flag)) as ->.
  { rewrite <- Hg, <- land_mask by (done || apply Z.log2_nonneg).
    change (Z.ones 1) with 1. by rewrite <- Hb. }
  destruct (b flag); [|by rewrite Z.shiftl_0_l]. rewrite <- Hb. unfold c_true.
  by destruct (Z.eqb_spec flag 0) as [->|].
Qed.

Lemma read_mask m : In m (w_masks w) -> Z.shiftr (Z.land (make_word w b v) m.1) m.2 = v m.
Proof using Hw Hv.
  intros Hin. pose proof (get_pack (mask_field m.1 m.2) (v m) contents) as E.
  rewrite <- make_word_pack in E. rewrite <- E; [|..|apply contents_fit|apply contents_disjoint].
  - destruct word_parts as (_ & Hm & Hp & _). destruct (Hp m Hin). rewrite forallb_forall in Hm.
    specialize (Hm _ Hin). unfold is_mask in Hm. apply Z.eqb_eq in Hm. rewrite Hm at 1.
    rewrite land_mask, Z.shiftr_shiftl_l, Z.sub_diag, Z.shiftl_0_r by lia. done.
  - apply in_app_iff. right. apply in_map_iff. by exists m.
Qed.
End FlagWord.

(** The other way to read a field: shift first, then mask its width. *)
Lemma land_shiftr w mask shift :
  0 <= shift -> Z.shiftr (Z.land w (Z.shiftl mask shift)) shift = Z.land (Z.shiftr w shift) mask.
Proof. intros. by rewrite Z.shiftr_land, Z.shiftr_shiftl_l, Z.sub_diag, Z.shiftl_0_r. Qed.
