(* ===== verification/CLayout.v ===== *)
(** * CLayout: the layout of C structures

    The headers are contracts on bytes: structures shared with the kernel, with
    firmware or with a disk.  A C type is a [ctype]; [sizeof], [alignof] and
    [members] compute its layout under an ABI by the rule of the Arm procedure
    call standard (each member at the next multiple of its alignment, the size
    rounded up to the alignment; no padding in a packed structure).  The lemmas
    show that members never overlap, lie inside the structure, and are aligned,
    and that a type without pointers has one layout under all the ABIs that
    align 64-bit integers alike. *)

From S2P Require Import Prelude Align.

(** What the ABIs differ in: the size of a pointer (and of [long]) and the
    alignment of 64-bit integers. *)
Record abi : Type := Abi { ptr_bytes : Z; i64_align : Z }.

(** The 64-bit and the 32-bit Arm ABI. *)
Definition LP64 : abi := Abi 8 8.
Definition ILP32 : abi := Abi 4 8.
Definition arm_abi (a : abi) : Prop := a = LP64 \/ a = ILP32.

Definition abi_ok (a : abi) : Prop := 0 < ptr_bytes a /\ (i64_align a = 4 \/ i64_align a = 8).

Lemma arm_abi_ok a : arm_abi a -> abi_ok a.
Proof. intros [-> | ->]; split; vm_compute; tauto. Qed.

(** A member without a name is an anonymous structure or union. [CAligned al t] is
    [t] under [__attribute__((aligned(al)))]. *)
Inductive ctype : Type :=
  | CInt (bytes : Z)
  | CPtr
  | CLong
  | CArray (t : ctype) (n : Z)
  | CStruct (packed : bool) (ms : list (string * ctype))
  | CUnion (ms : list (string * ctype))
  | CAligned (al : Z) (t : ctype).

Definition c_u8 : ctype := CInt 1.
Definition c_u16 : ctype := CInt 2.
Definition c_u32 : ctype := CInt 4.
Definition c_u64 : ctype := CInt 8.

(** The headers' [enum]s and [int]s are 4 bytes wide. *)
Definition c_int : ctype := CInt 4.
Definition c_enum : ctype := CInt 4.
Definition struct (ms : list (string * ctype)) : ctype := CStruct false ms.
Definition packed_struct (ms : list (string * ctype)) : ctype := CStruct true ms.

(** [packed] on a union packs each member, which then needs no alignment. *)
Definition packed_union (ms : list (string * ctype)) : ctype :=
  CUnion (map (fun m => (m.1, packed_struct [("", m.2)])) ms).

(** ** Alignment and size *)

Fixpoint alignof (a : abi) (t : ctype) : Z :=
  match t with
  | CInt n => if n =? 8 then i64_align a else n
  | CPtr | CLong => ptr_bytes a
  | CArray t _ => alignof a t
  | CStruct true _ => 1
  | CStruct false ms | CUnion ms => fold_right (fun m al => Z.max (alignof a m.2) al) 1 ms
  | CAligned al t => Z.max al (alignof a t)
  end.

(** The alignment a member has inside a structure. *)
Definition member_align (a : abi) (packed : bool) (t : ctype) : Z :=
  if packed then 1 else alignof a t.

Fixpoint sizeof (a : abi) (t : ctype) : Z :=
  match t with
  | CInt n => n
  | CPtr | CLong => ptr_bytes a
  | CArray t n => n * sizeof a t
  | CStruct p ms =>
      let last :=
        fold_left (fun off m => align_up off (member_align a p m.2) + sizeof a m.2) ms 0 in
      align_up last (if p then 1 else fold_right (fun m al => Z.max (alignof a m.2) al) 1 ms)
  | CUnion ms =>
      align_up (fold_right (fun m sz => Z.max (sizeof a m.2) sz) 0 ms)
        (fold_right (fun m al => Z.max (alignof a m.2) al) 1 ms)
  | CAligned al t => align_up (sizeof a t) (Z.max al (alignof a t))
  end.

(** ** Members: name, offset and size *)

Record member : Type := Member { m_name : string; m_off : Z; m_size : Z }.

(** The direct members of a structure, the first one placed from [off] on. *)
Fixpoint place (a : abi) (p : bool) (off : Z) (ms : list (string * ctype)) : list member :=
  match ms with
  | [] => []
  | (n, t) :: ms =>
      let o := align_up off (member_align a p t) in
      Member n o (sizeof a t) :: place a p (o + sizeof a t) ms
  end.

Definition shift_member (base : Z) (m : member) : member :=
  Member (m_name m) (base + m_off m) (m_size m).

(** All named members, those of anonymous members included. *)
Fixpoint members (a : abi) (t : ctype) : list member :=
  match t with
  | CStruct p ms =>
      (fix go (off : Z) (ms : list (string * ctype)) : list member :=
         match ms with
         | [] => []
         | (n, t) :: ms =>
             let o := align_up off (member_align a p t) in
             (if String.eqb n EmptyString then map (shift_member o) (members a t)
              else [Member n o (sizeof a t)]) ++ go (o + sizeof a t) ms
         end) 0 ms
  | CUnion ms =>
      flat_map (fun m => if String.eqb m.1 EmptyString then members a m.2
                         else [Member m.1 0 (sizeof a m.2)]) ms
  | CAligned _ t => members a t
  | _ => []
  end.

Definition offsetof (a : abi) (t : ctype) (name : string) : option Z :=
  m ← List.find (fun m => String.eqb (m_name m) name) (members a t); Some (m_off m).

(** The bytes of the members alone. *)
Definition sum_sizes (a : abi) (ms : list (string * ctype)) : Z :=
  fold_right (fun m sz => sizeof a m.2 + sz) 0 ms.

(** ** Well-formed types and types without pointers *)

Fixpoint wf_type (t : ctype) : bool :=
  match t with
  | CInt n => (0 <? n) && (n <=? 8) && (Z.land n (n - 1) =? 0)
  | CPtr | CLong => true
  | CArray t n => (0 <=? n) && wf_type t
  | CStruct _ ms | CUnion ms => forallb (fun m => wf_type m.2) ms
  | CAligned al t => (0 <? al) && wf_type t
  end.

Fixpoint pointer_free (t : ctype) : bool :=
  match t with
  | CInt _ => true
  | CPtr | CLong => false
  | CArray t _ => pointer_free t
  | CStruct _ ms | CUnion ms => forallb (fun m => pointer_free m.2) ms
  | CAligned _ t => pointer_free t
  end.

(** ** Induction over types *)

Section TypeInd.
Context (P : ctype -> Prop).
Context (Hint : forall n, P (CInt n)) (Hptr : P CPtr) (Hlong : P CLong).
Context (Harr : forall t n, P t -> P (CArray t n)).
Context (Hstruct : forall p ms, Forall (fun m => P m.2) ms -> P (CStruct p ms)).
Context (Hunion : forall ms, Forall (fun m => P m.2) ms -> P (CUnion ms)).
Context (Haligned : forall al t, P t -> P (CAligned al t)).

Fixpoint ctype_nested_ind (t : ctype) : P t :=
  let all := fix all (ms : list (string * ctype)) : Forall (fun m => P m.2) ms :=
    match ms with
    | [] => Forall_nil_2 _
    | m :: ms => Forall_cons_2 _ m ms (ctype_nested_ind m.2) (all ms)
    end in
  match t with
  | CInt n => Hint n
  | CPtr => Hptr
  | CLong => Hlong
  | CArray t n => Harr t n (ctype_nested_ind t)
  | CStruct p ms => Hstruct p ms (all ms)
  | CUnion ms => Hunion ms (all ms)
  | CAligned al t => Haligned al t (ctype_nested_ind t)
  end.
End TypeInd.

(** Folds the lists of members of a structure depend on. *)
Definition max_align (a : abi) (ms : list (string * ctype)) : Z :=
  fold_right (fun m al => Z.max (alignof a m.2) al) 1 ms.

Definition struct_end (a : abi) (p : bool) (off : Z) (ms : list (string * ctype)) : Z :=
  fold_left (fun off m => align_up off (member_align a p m.2) + sizeof a m.2) ms off.

Lemma sizeof_struct a p ms :
  sizeof a (CStruct p ms) = align_up (struct_end a p 0 ms) (if p then 1 else max_align a ms).
Proof. done. Qed.

Lemma alignof_struct a ms : alignof a (CStruct false ms) = max_align a ms.
Proof. done. Qed.

Lemma align_up_1 x : align_up x 1 = x.
Proof. unfold align_up, cdiv. rewrite Z.div_1_r. lia. Qed.

(** A packed structure has no padding. *)
Lemma sizeof_packed a ms : sizeof a (CStruct true ms) = sum_sizes a ms.
Proof.
  rewrite sizeof_struct, align_up_1. unfold struct_end, member_align.
  assert (forall (ms : list (string * ctype)) off,
            fold_left (fun off m => align_up off 1 + sizeof a m.2) ms off
            = off + sum_sizes a ms) as H; [|by rewrite H].
  clear ms. induction ms as [|m ms IH]; intros off; cbn [fold_left].
  - cbn. lia.
  - rewrite IH, align_up_1. cbn [sum_sizes fold_right]. unfold sum_sizes. lia.
Qed.

(** ** Types without pointers *)

Lemma Forall_wf (f : ctype -> bool) (ms : list (string * ctype)) :
  forallb (fun m => f m.2) ms = true -> Forall (fun m => f m.2 = true) ms.
Proof. rewrite forallb_forall, List.Forall_forall. done. Qed.

Section Abis.
Context (a a' : abi) (Hi : i64_align a = i64_align a').

Lemma alignof_pointer_free t : pointer_free t = true -> alignof a t = alignof a' t.
Proof using Hi.
  induction t as [n| | |t n IH|p ms IH|ms IH|al t IH] using ctype_nested_ind; cbn [pointer_free alignof];
    try done; [by rewrite Hi|..|intros; by rewrite IH]; intros Hf%(Forall_wf pointer_free); [destruct p; [done|]|];
    (induction ms as [|m ms IHms]; [done|]; cbn [fold_right];
     apply Forall_cons in IH as [IHm IH]; apply Forall_cons in Hf as [Hm Hf];
     by rewrite IHm, IHms).
Qed.

Lemma member_align_pointer_free p t :
  pointer_free t = true -> member_align a p t = member_align a' p t.
Proof using Hi. intros. unfold member_align. destruct p; [done|]. by apply alignof_pointer_free. Qed.

Lemma max_align_pointer_free ms :
  Forall (fun m => pointer_free m.2 = true) ms -> max_align a ms = max_align a' ms.
Proof using Hi.
  induction 1 as [|m ms Hm _ IH]; [done|]. unfold max_align in *. cbn [fold_right].
  by rewrite IH, alignof_pointer_free.
Qed.

Lemma sizeof_pointer_free t : pointer_free t = true -> sizeof a t = sizeof a' t.
Proof using Hi.
  induction t as [n| | |t n IH|p ms IH|ms IH|al t IH] using ctype_nested_ind; try done.
  - cbn [pointer_free sizeof]. intros. by rewrite IH.
  - intros Hf%(Forall_wf pointer_free). rewrite !sizeof_struct, max_align_pointer_free by done. f_equal.
    unfold struct_end. generalize 0. induction ms as [|m ms IHms]; intros off; [done|].
    cbn [fold_left]. apply Forall_cons in IH as [IHm IH]; apply Forall_cons in Hf as [Hm Hf].
    by rewrite IHm, member_align_pointer_free, IHms.
  - intros Hf%(Forall_wf pointer_free). cbn [sizeof]. f_equal; [|by apply max_align_pointer_free].
    induction ms as [|m ms IHms]; [done|]. cbn [fold_right].
    apply Forall_cons in IH as [IHm IH]; apply Forall_cons in Hf as [Hm Hf]. by rewrite IHm, IHms.
  - cbn [pointer_free sizeof]. intros. by rewrite IH, alignof_pointer_free.
Qed.

Lemma members_pointer_free t : pointer_free t = true -> members a t = members a' t.
Proof using Hi.
  induction t as [n| | |t n IH|p ms IH|ms IH|al t IH] using ctype_nested_ind; try done;
    intros Hf%(Forall_wf pointer_free); cbn [members].
  - generalize 0. induction ms as [|[n t] ms IHms]; intros off; [done|].
    apply Forall_cons in IH as [IHm IH]; apply Forall_cons in Hf as [Hm Hf]. cbn [snd] in *.
    by rewrite (member_align_pointer_free p t), (sizeof_pointer_free t), IHms, IHm.
  - induction ms as [|[n t] ms IHms]; [done|]. cbn [flat_map fst snd].
    apply Forall_cons in IH as [IHm IH]; apply Forall_cons in Hf as [Hm Hf]. cbn [snd] in *.
    by rewrite (sizeof_pointer_free t), IHms, IHm.
Qed.
End Abis.

(** ** Members never overlap *)

Section Placement.
Context (a : abi) (Ha : abi_ok a).

Lemma alignof_pos t : wf_type t = true -> 0 < alignof a t.
Proof using Ha.
  assert (forall ms, 0 < max_align a ms) as Hmax
    by (intros ms; unfold max_align; induction ms; cbn [fold_right]; lia).
  destruct Ha as [? Hi]. intros Hwf.
  induction t as [n| | |t n IH|[] ms _|ms _|al t IH] using ctype_nested_ind; cbn [alignof wf_type] in *; try lia.
  - apply andb_true_iff in Hwf as [Hwf _]. apply andb_true_iff in Hwf as [Hwf _].
    destruct (Z.eqb_spec n 8); lia.
  - apply IH. by apply andb_true_iff in Hwf as [_ ?].
  - apply Hmax.
  - apply Hmax.
Qed.

Lemma max_align_pos ms : 0 < max_align a ms.
Proof using a. unfold max_align. induction ms; cbn [fold_right]; lia. Qed.

Lemma member_align_pos p t : wf_type t = true -> 0 < member_align a p t.
Proof using Ha. intros. unfold member_align. destruct p; [lia|]. by apply alignof_pos. Qed.

Lemma sizeof_nonneg t : wf_type t = true -> 0 <= sizeof a t.
Proof using Ha.
  induction t as [n| | |t n IH|p ms IH|ms IH|al t IH] using ctype_nested_ind; cbn [wf_type]; intros Hwf.
  - cbn [sizeof]. repeat apply andb_true_iff in Hwf as [Hwf _]. lia.
  - destruct Ha. cbn. lia.
  - destruct Ha. cbn. lia.
  - cbn [sizeof]. apply andb_true_iff in Hwf as [? Hwf]. specialize (IH Hwf). nia.
  - rewrite sizeof_struct. apply align_up_nonneg; [destruct p; [lia|apply max_align_pos]|].
    apply (Forall_wf wf_type) in Hwf. unfold struct_end.
    enough (forall off, 0 <= off ->
      0 <= fold_left (fun off m => align_up off (member_align a p m.2) + sizeof a m.2) ms off) by auto with lia.
    induction ms as [|m ms IHms]; intros off Hoff; [done|]. cbn [fold_left].
    apply Forall_cons in IH as [IHm IH]; apply Forall_cons in Hwf as [Hm Hwf].
    apply IHms; [done|done|].
    pose proof (align_up_ge (member_align a p m.2) (member_align_pos p _ Hm) off). specialize (IHm Hm). lia.
  - cbn [sizeof]. apply align_up_nonneg; [apply max_align_pos|].
    clear IH Hwf. induction ms as [|m ms IHms]; cbn [fold_right]; lia.
  - apply andb_true_iff in Hwf as [? Hwf]. apply align_up_nonneg; [|by apply IH].
    pose proof (alignof_pos t Hwf). lia.
Qed.

Section Struct.
Context (p : bool).

(** Every member of a structure placed from [off] on lies at or after [off],
    before the structure's end, at a multiple of its alignment, and after
    the members that precede it. *)
Lemma place_inside ms : forall off,
  Forall (fun m => wf_type m.2 = true) ms ->
  off <= struct_end a p off ms
  /\ Forall (fun m => off <= m_off m /\ m_off m + m_size m <= struct_end a p off ms) (place a p off ms).
Proof using Ha.
  induction ms as [|[n t] ms IH]; intros off Hwf; [split; [cbn; lia|constructor]|].
  apply Forall_cons in Hwf as [Ht Hwf]. cbn [snd] in Ht. cbn [place].
  set (o := align_up off (member_align a p t)).
  pose proof (align_up_ge (member_align a p t) (member_align_pos p _ Ht) off) as Ho. fold o in Ho.
  pose proof (sizeof_nonneg t Ht) as Hs.
  destruct (IH (o + sizeof a t) Hwf) as [Hend Hms].
  change (struct_end a p off ((n, t) :: ms)) with (struct_end a p (o + sizeof a t) ms).
  split; [lia|]. constructor; [cbn; lia|].
  eapply Forall_impl; [exact Hms|]. cbn. intros m [? ?]. lia.
Qed.

Lemma place_disjoint ms : forall off,
  Forall (fun m => wf_type m.2 = true) ms ->
  ForallOrdPairs (fun m m' => m_off m + m_size m <= m_off m') (place a p off ms).
Proof using Ha.
  induction ms as [|[n t] ms IH]; intros off Hwf; cbn [place]; constructor.
  - apply Forall_cons in Hwf as [_ Hwf]. cbn [m_off m_size].
    eapply Forall_impl; [exact (proj2 (place_inside ms _ Hwf))|]. cbn. intros m [? ?]. lia.
  - apply IH. by apply Forall_cons in Hwf as [_ Hwf].
Qed.

Lemma place_aligned ms : forall off,
  Forall (fun m => wf_type m.2 = true) ms ->
  Forall2 (fun m m' => (member_align a p m.2 | m_off m') /\ m_size m' = sizeof a m.2 /\ m_name m' = m.1)
    ms (place a p off ms).
Proof using Ha.
  induction ms as [|[n t] ms IH]; intros off Hwf; cbn [place]; constructor.
  - apply Forall_cons in Hwf as [Ht Hwf]. cbn. split_and!; [|done|done].
    apply align_up_divide, member_align_pos, Ht.
  - apply IH. by apply Forall_cons in Hwf as [_ Hwf].
Qed.
End Struct.

Lemma max_align_struct_end p ms :
  struct_end a p 0 ms <= sizeof a (CStruct p ms).
Proof using a.
  rewrite sizeof_struct. apply align_up_ge. destruct p; [lia|apply max_align_pos].
Qed.
End Placement.

(** A decidable summary of a type's layout. *)
Definition layout (a : abi) (t : ctype) : Z * list (Z * Z) :=
  (sizeof a t, map (fun m => (m_off m, m_size m)) (members a t)).

Lemma layout_pointer_free a a' t :
  i64_align a = i64_align a' -> pointer_free t = true -> layout a t = layout a' t.
Proof.
  intros Hi Ht. unfold layout.
  by rewrite (sizeof_pointer_free a a' Hi), (members_pointer_free a a' Hi) by done.
Qed.

(** The whole layout, with that of the members' types: a prefix code of the tree
    of scalars, arrays and structures with their offsets. *)
Fixpoint deep_layout (a : abi) (t : ctype) : list Z :=
  match t with
  | CInt _ | CPtr | CLong => [0; sizeof a t]
  | CArray t n => 1 :: n :: deep_layout a t
  | CStruct p ms =>
      2 :: sizeof a t :: Z.of_nat (length ms)
      :: (fix go (off : Z) (ms : list (string * ctype)) : list Z :=
            match ms with
            | [] => []
            | (_, t) :: ms =>
                let o := align_up off (member_align a p t) in
                o :: deep_layout a t ++ go (o + sizeof a t) ms
            end) 0 ms
  | CUnion ms =>
      3 :: sizeof a t :: Z.of_nat (length ms) :: flat_map (fun m => deep_layout a m.2) ms
  | CAligned _ u => 4 :: sizeof a t :: deep_layout a u
  end.

Lemma deep_layout_pointer_free a a' t :
  i64_align a = i64_align a' -> pointer_free t = true -> deep_layout a t = deep_layout a' t.
Proof.
  intros Hi. induction t as [n| | |t n IH|p ms IH|ms IH|al t IH] using ctype_nested_ind; intros Hf.
  - done.
  - done.
  - done.
  - cbn [deep_layout]. do 2 f_equal. by apply IH.
  - pose proof (sizeof_pointer_free a a' Hi _ Hf) as Hs. apply (Forall_wf pointer_free) in Hf.
    cbn [deep_layout]. rewrite Hs. do 3 f_equal. clear Hs. generalize 0.
    induction ms as [|[n t] ms IHms]; intros off; [done|].
    apply Forall_cons in IH as [IHm IH]; apply Forall_cons in Hf as [Hm Hf]. cbn [snd] in *.
    by rewrite (member_align_pointer_free a a' Hi p t), (sizeof_pointer_free a a' Hi t), IHms, IHm.
  - pose proof (sizeof_pointer_free a a' Hi _ Hf) as Hs. apply (Forall_wf pointer_free) in Hf.
    cbn [deep_layout]. rewrite Hs. do 3 f_equal. clear Hs.
    induction ms as [|[n t] ms IHms]; [done|]. cbn [flat_map snd].
    apply Forall_cons in IH as [IHm IH]; apply Forall_cons in Hf as [Hm Hf]. cbn [snd] in *.
    by rewrite IHms, IHm.
  - pose proof (sizeof_pointer_free a a' Hi _ Hf) as Hs. cbn [deep_layout]. rewrite Hs. do 2 f_equal. by apply IH.
Qed.

(** ** Equality of types *)

Fixpoint ctype_eqb (t u : ctype) : bool :=
  let all := fix all (ms ms' : list (string * ctype)) : bool :=
    match ms, ms' with
    | [], [] => true
    | m :: ms, m' :: ms' => String.eqb m.1 m'.1 && ctype_eqb m.2 m'.2 && all ms ms'
    | _, _ => false
    end in
  match t, u with
  | CInt n, CInt n' => n =? n'
  | CPtr, CPtr | CLong, CLong => true
  | CArray t n, CArray u n' => ctype_eqb t u && (n =? n')
  | CStruct p ms, CStruct p' ms' => Bool.eqb p p' && all ms ms'
  | CUnion ms, CUnion ms' => all ms ms'
  | CAligned al t, CAligned al' u => (al =? al') && ctype_eqb t u
  | _, _ => false
  end.

Lemma ctype_eqb_eq t : forall u, ctype_eqb t u = true -> t = u.
Proof.
  assert (forall ms : list (string * ctype), Forall (fun m => forall u, ctype_eqb m.2 u = true -> m.2 = u) ms ->
    forall ms', (fix all (ms ms' : list (string * ctype)) : bool :=
      match ms, ms' with
      | [], [] => true
      | m :: ms, m' :: ms' => String.eqb m.1 m'.1 && ctype_eqb m.2 m'.2 && all ms ms'
      | _, _ => false
      end) ms ms' = true -> ms = ms') as Hall.
  { induction 1 as [|[n t'] ms Ht _ IH]; intros [|[n' u] ms']; try done. cbn [fst snd] in *.
    rewrite !andb_true_iff. intros [[->%String.eqb_eq ->%Ht] ->%IH]. done. }
  induction t as [n| | |t n IH|p ms IH|ms IH|al t IH] using ctype_nested_ind; intros u E;
    destruct u; try done; cbn [ctype_eqb] in E; rewrite ?andb_true_iff in E.
  - f_equal. lia.
  - destruct E as [->%IH ->%Z.eqb_eq]. done.
  - destruct E as [->%eqb_prop E]. f_equal. by apply Hall.
  - f_equal. by apply Hall.
  - destruct E as [->%Z.eqb_eq ->%IH]. done.
Qed.
