(* ===== verification/CMem.v ===== *)
(** * CMem: values of C types in memory

    What a type's layout is for: a value is stored member by member at the
    members' offsets, and loaded from there. Memory is a function from addresses to
    bytes, integers are little-endian. Padding is neither written nor read; a union
    is its bytes, since the memory does not say which member was written. *)

From S2P Require Import Prelude Align CLayout.

#[local] Open Scope list_scope.
#[local] Open Scope Z_scope.

(** ** Memory *)

Definition memory : Type := Z -> Z.

Definition write_bytes (off : Z) (bs : list Z) (m : memory) : memory :=
  fun x => if off <=? x then default (m x) (bs !! Z.to_nat (x - off)) else m x.

Definition read_bytes (off n : Z) (m : memory) : list Z := map (fun i => m (off + i)) (seqZ 0 n).

(** Two memories agree on [n] bytes from [off] on. *)
Definition agree (off n : Z) (m m' : memory) : Prop := forall x, off <= x < off + n -> m x = m' x.

Lemma write_outside off bs m x :
  x < off \/ off + Z.of_nat (length bs) <= x -> write_bytes off bs m x = m x.
Proof.
  intros Hx. unfold write_bytes. destruct (Z.leb_spec off x); [|done].
  rewrite lookup_ge_None_2 by lia. done.
Qed.

Lemma read_write off bs m : read_bytes off (Z.of_nat (length bs)) (write_bytes off bs m) = bs.
Proof.
  unfold read_bytes, write_bytes. apply list_eq. intros i. rewrite list_lookup_fmap.
  destruct (decide (i < length bs)%nat) as [Hi|Hi].
  - rewrite lookup_seqZ_lt by lia. cbn [fmap option_fmap option_map].
    replace (off <=? off + (0 + Z.of_nat i)) with true by lia.
    replace (Z.to_nat _) with i by lia. destruct (lookup_lt_is_Some_2 bs i Hi) as [b ->]. done.
  - rewrite lookup_seqZ_ge by lia. symmetry. apply lookup_ge_None_2. lia.
Qed.

Lemma read_agree off n m m' : agree off n m m' -> read_bytes off n m = read_bytes off n m'.
Proof.
  intros Ha. unfold read_bytes. apply map_ext_in. intros i Hi%list_elem_of_In%elem_of_seqZ. apply Ha. lia.
Qed.

(** ** Values *)

Inductive cvalue : Type :=
  | VInt (z : Z)
  | VList (vs : list cvalue)       (* of an array or a structure *)
  | VBytes (bs : list Z).          (* of a union *)

Definition is_byte (b : Z) : bool := (0 <=? b) && (b <? 256).

Definition int_fits (n z : Z) : bool := (0 <=? z) && (z <? 2 ^ (8 * n)).

(** [v] is a value of type [t]; integers by their bits, signed ones too. *)
Fixpoint has_type (a : abi) (t : ctype) (v : cvalue) : bool :=
  match t, v with
  | CInt n, VInt z => int_fits n z
  | CPtr, VInt z | CLong, VInt z => int_fits (ptr_bytes a) z
  | CArray t n, VList vs => (Z.of_nat (length vs) =? n) && forallb (has_type a t) vs
  | CStruct _ ms, VList vs =>
      (fix go (ms : list (string * ctype)) (vs : list cvalue) : bool :=
         match ms, vs with
         | [], [] => true
         | m :: ms, v :: vs => has_type a m.2 v && go ms vs
         | _, _ => false
         end) ms vs
  | CUnion ms, VBytes bs => (Z.of_nat (length bs) =? sizeof a (CUnion ms)) && forallb is_byte bs
  | CAligned _ t, _ => has_type a t v
  | _, _ => false
  end.

(** ** Stores and loads *)

Definition store_int (n z off : Z) (m : memory) : memory :=
  write_bytes off (Z_to_little_endian n 8 z) m.

Definition load_int (n off : Z) (m : memory) : Z := little_endian_to_Z 8 (read_bytes off n m).

(** Stores the values one after another, each one's place given by the size of those before. *)
Fixpoint store_array (store : cvalue -> Z -> memory -> memory) (size off : Z) (vs : list cvalue)
    (m : memory) : memory :=
  match vs with
  | [] => m
  | v :: vs => store_array store size (off + size) vs (store v off m)
  end.

Fixpoint store (a : abi) (t : ctype) (v : cvalue) (off : Z) (m : memory) : memory :=
  match t, v with
  | CInt n, VInt z => store_int n z off m
  | CPtr, VInt z | CLong, VInt z => store_int (ptr_bytes a) z off m
  | CArray t _, VList vs => store_array (store a t) (sizeof a t) off vs m
  | CStruct p ms, VList vs =>
      (fix go (o : Z) (ms : list (string * ctype)) (vs : list cvalue) (m : memory) : memory :=
         match ms, vs with
         | x :: ms, v :: vs =>
             let o := align_up o (member_align a p x.2) in
             go (o + sizeof a x.2) ms vs (store a x.2 v (off + o) m)
         | _, _ => m
         end) 0 ms vs m
  | CUnion _, VBytes bs => write_bytes off bs m
  | CAligned _ t, _ => store a t v off m
  | _, _ => m
  end.

Fixpoint load (a : abi) (t : ctype) (off : Z) (m : memory) : cvalue :=
  match t with
  | CInt n => VInt (load_int n off m)
  | CPtr | CLong => VInt (load_int (ptr_bytes a) off m)
  | CArray t n => VList (map (fun i => load a t (off + i * sizeof a t) m) (seqZ 0 n))
  | CStruct p ms =>
      VList ((fix go (o : Z) (ms : list (string * ctype)) : list cvalue :=
                match ms with
                | [] => []
                | x :: ms =>
                    let o := align_up o (member_align a p x.2) in
                    load a x.2 (off + o) m :: go (o + sizeof a x.2) ms
                end) 0 ms)
  | CUnion ms => VBytes (read_bytes off (sizeof a (CUnion ms)) m)
  | CAligned _ t => load a t off m
  end.

(** The loops over members, under a name. *)
Section Loops.
Context (a : abi) (p : bool) (off : Z).

Fixpoint store_members (o : Z) (ms : list (string * ctype)) (vs : list cvalue) (m : memory) : memory :=
  match ms, vs with
  | x :: ms, v :: vs =>
      let o := align_up o (member_align a p x.2) in
      store_members (o + sizeof a x.2) ms vs (store a x.2 v (off + o) m)
  | _, _ => m
  end.

Fixpoint load_members (m : memory) (o : Z) (ms : list (string * ctype)) : list cvalue :=
  match ms with
  | [] => []
  | x :: ms =>
      let o := align_up o (member_align a p x.2) in
      load a x.2 (off + o) m :: load_members m (o + sizeof a x.2) ms
  end.
End Loops.

Fixpoint have_types (a : abi) (ms : list (string * ctype)) (vs : list cvalue) : bool :=
  match ms, vs with
  | [], [] => true
  | m :: ms, v :: vs => has_type a m.2 v && have_types a ms vs
  | _, _ => false
  end.

Lemma store_struct a p ms vs off m :
  store a (CStruct p ms) (VList vs) off m = store_members a p off 0 ms vs m.
Proof. cbn [store]. generalize 0. revert vs m. induction ms as [|x ms IH]; intros [|v vs] m o; cbn; try done. Qed.

Lemma load_struct a p ms off m : load a (CStruct p ms) off m = VList (load_members a p off m 0 ms).
Proof. cbn [load]. f_equal. generalize 0. induction ms as [|x ms IH]; intros o; cbn; [done|]. by rewrite IH. Qed.

Lemma has_type_struct a p ms vs : has_type a (CStruct p ms) (VList vs) = have_types a ms vs.
Proof. cbn [has_type]. revert vs. induction ms as [|x ms IH]; intros [|v vs]; cbn; try done. by rewrite IH. Qed.

(** ** Loads after stores *)

Section Abi.
Context (a : abi) (Ha : abi_ok a).

Lemma int_fits_of_wf n : wf_type (CInt n) = true -> 0 < n.
Proof using Type. cbn. rewrite !andb_true_iff. lia. Qed.

Lemma length_store_int n z : 0 <= n -> Z.of_nat (length (Z_to_little_endian n 8 z)) = n.
Proof using Type. intros. apply length_Z_to_little_endian; lia. Qed.

Lemma store_int_outside n z off m x :
  0 <= n -> x < off \/ off + n <= x -> store_int n z off m x = m x.
Proof using Type. intros Hn Hx. apply write_outside. by rewrite length_store_int. Qed.

Lemma load_store_int n z off m : 0 <= n -> int_fits n z = true -> load_int n off (store_int n z off m) = z.
Proof using Type.
  unfold int_fits, load_int, store_int. rewrite andb_true_iff, Z.leb_le, Z.ltb_lt. intros Hn [Hz Hlt].
  pose proof (read_write off (Z_to_little_endian n 8 z) m) as E. rewrite length_store_int in E by done.
  rewrite E, little_endian_to_Z_to_little_endian by lia. apply Z.mod_small.
  by rewrite Z.mul_comm.
Qed.

Lemma struct_end_ge p o ms : Forall (fun m => wf_type m.2 = true) ms -> o <= struct_end a p o ms.
Proof using Ha. intros Hwf. exact (proj1 (place_inside a Ha p ms o Hwf)). Qed.

(** What one member takes of a structure placed from [o] on. *)
Lemma member_end p o x ms :
  wf_type x.2 = true -> Forall (fun m => wf_type m.2 = true) ms ->
  let o' := align_up o (member_align a p x.2) in
  o <= o' /\ 0 <= sizeof a x.2 /\ o' + sizeof a x.2 <= struct_end a p (o' + sizeof a x.2) ms
  /\ struct_end a p o (x :: ms) = struct_end a p (o' + sizeof a x.2) ms.
Proof using Ha.
  intros Hx Hms o'. split_and!; [|by apply sizeof_nonneg|by apply struct_end_ge|done].
  apply align_up_ge. by apply member_align_pos.
Qed.

(** *** Loads depend on the value's bytes only *)

Definition load_local (t : ctype) : Prop :=
  forall off m m', agree off (sizeof a t) m m' -> load a t off m = load a t off m'.

Lemma load_members_agree p ms : forall o off m m',
  Forall (fun x => wf_type x.2 = true) ms -> Forall (fun x => load_local x.2) ms ->
  agree (off + o) (struct_end a p o ms - o) m m' ->
  load_members a p off m o ms = load_members a p off m' o ms.
Proof using Ha.
  induction ms as [|x ms IH]; intros o off m m' Hwf Hl Hag; [done|].
  apply Forall_cons in Hwf as [Hx Hwf]; apply Forall_cons in Hl as [Hlx Hl]. cbn [load_members].
  destruct (member_end p o x ms Hx Hwf) as (Ho & Hs & He & E). rewrite E in Hag. f_equal.
  - apply Hlx. intros i Hi. apply Hag. lia.
  - apply IH; [done|done|]. intros i Hi. apply Hag. lia.
Qed.

Lemma load_agree t : wf_type t = true -> load_local t.
Proof using Ha.
  induction t as [n| | |t n IH|p ms IH|ms IH|al t IH] using ctype_nested_ind; intros Hwf off m m' Hag.
  - cbn [load]. unfold load_int. do 2 f_equal. exact (read_agree _ _ _ _ Hag).
  - cbn [load]. unfold load_int. do 2 f_equal. exact (read_agree _ _ _ _ Hag).
  - cbn [load]. unfold load_int. do 2 f_equal. exact (read_agree _ _ _ _ Hag).
  - cbn [wf_type sizeof] in *. apply andb_true_iff in Hwf as [Hn Hwf]. pose proof (sizeof_nonneg a Ha t Hwf).
    cbn [load]. f_equal. apply map_ext_in. intros i Hi%list_elem_of_In%elem_of_seqZ. apply IH; [done|].
    intros x Hx. apply Hag. nia.
  - rewrite !load_struct. f_equal. apply (Forall_wf wf_type) in Hwf. pose proof (max_align_struct_end a p ms).
    apply load_members_agree; [done| |].
    + apply Forall_forall. intros x Hx. rewrite Forall_forall in IH, Hwf. by apply IH, Hwf.
    + intros i Hi. apply Hag. lia.
  - cbn [load]. f_equal. by apply read_agree.
  - cbn [wf_type] in Hwf. apply andb_true_iff in Hwf as [Hal Hwf]. cbn [load]. apply IH; [done|].
    intros x Hx. apply Hag. cbn [sizeof]. pose proof (alignof_pos a Ha t Hwf).
    pose proof (align_up_ge (Z.max al (alignof a t)) ltac:(lia) (sizeof a t)). lia.
Qed.

(** *** Stores write the value's bytes only *)

Definition store_local (t : ctype) : Prop :=
  forall v off m x, has_type a t v = true -> x < off \/ off + sizeof a t <= x -> store a t v off m x = m x.

Lemma store_array_outside t off vs : forall m x,
  0 <= sizeof a t -> store_local t -> forallb (has_type a t) vs = true ->
  x < off \/ off + Z.of_nat (length vs) * sizeof a t <= x ->
  store_array (store a t) (sizeof a t) off vs m x = m x.
Proof using Type.
  revert off. induction vs as [|v vs IH]; intros off m x Hs Hl Hvs Hx; [done|]. cbn [store_array forallb length] in *.
  apply andb_true_iff in Hvs as [Hv Hvs]. rewrite IH; [|done|done|done|nia]. apply Hl; [done|nia].
Qed.

Lemma store_members_outside p ms : forall o off vs m x,
  Forall (fun x => wf_type x.2 = true) ms -> Forall (fun x => store_local x.2) ms ->
  have_types a ms vs = true -> x < off + o \/ off + struct_end a p o ms <= x ->
  store_members a p off o ms vs m x = m x.
Proof using Ha.
  induction ms as [|y ms IH]; intros o off vs m x Hwf Hl Hvs Hx; [by destruct vs|].
  destruct vs as [|v vs]; [done|]. cbn [have_types store_members] in *.
  apply andb_true_iff in Hvs as [Hv Hvs].
  apply Forall_cons in Hwf as [Hy Hwf]; apply Forall_cons in Hl as [Hly Hl].
  destruct (member_end p o y ms Hy Hwf) as (Ho & Hs & He & E). rewrite E in Hx.
  rewrite IH; [|done|done|done|lia]. apply Hly; [done|lia].
Qed.

Lemma store_outside t : wf_type t = true -> store_local t.
Proof using Ha.
  induction t as [n| | |t n IH|p ms IH|ms IH|al t IH] using ctype_nested_ind; intros Hwf v off m x Hv Hx.
  - destruct v; try done. apply store_int_outside; [|done]. pose proof (int_fits_of_wf n Hwf). lia.
  - destruct v; try done. apply store_int_outside; [|done]. destruct Ha. lia.
  - destruct v; try done. apply store_int_outside; [|done]. destruct Ha. lia.
  - destruct v as [|vs|]; try done. cbn [wf_type sizeof has_type store] in *.
    apply andb_true_iff in Hwf as [_ Hwf]. apply andb_true_iff in Hv as [Hn%Z.eqb_eq Hv].
    apply store_array_outside; [by apply sizeof_nonneg|by apply IH|done|by rewrite Hn].
  - destruct v as [|vs|]; try done. rewrite store_struct, has_type_struct in *.
    apply (Forall_wf wf_type) in Hwf. pose proof (max_align_struct_end a p ms).
    apply store_members_outside; [done| |done|lia].
    apply Forall_forall. intros y Hy. rewrite Forall_forall in IH, Hwf. by apply IH, Hwf.
  - destruct v as [| |bs]; try done. cbn [has_type store] in *.
    apply andb_true_iff in Hv as [Hn%Z.eqb_eq _]. apply write_outside. lia.
  - cbn [wf_type has_type store] in *. apply andb_true_iff in Hwf as [Hal Hwf]. apply IH; [done|done|].
    cbn [sizeof] in Hx. pose proof (alignof_pos a Ha t Hwf).
    pose proof (align_up_ge (Z.max al (alignof a t)) ltac:(lia) (sizeof a t)). lia.
Qed.

(** *** What was stored is loaded *)

Definition stored_is_loaded (t : ctype) : Prop :=
  forall v off m, has_type a t v = true -> load a t off (store a t v off m) = v.

Lemma load_store_array t vs : forall off m,
  wf_type t = true -> stored_is_loaded t -> forallb (has_type a t) vs = true ->
  map (fun i => load a t (off + i * sizeof a t) (store_array (store a t) (sizeof a t) off vs m))
    (seqZ 0 (Z.of_nat (length vs))) = vs.
Proof using Ha.
  induction vs as [|v vs IH]; intros off m Hwf Hl Hvs; [done|].
  cbn [forallb store_array length] in *. apply andb_true_iff in Hvs as [Hv Hvs].
  rewrite seqZ_cons by lia. cbn [map]. f_equal.
  - rewrite Z.mul_0_l, Z.add_0_r.
    rewrite (load_agree t Hwf off _ (store a t v off m)); [by apply Hl|].
    intros x Hx. apply store_array_outside; [by apply sizeof_nonneg|by apply store_outside|done|lia].
  - rewrite <- (IH (off + sizeof a t) (store a t v off m) Hwf Hl Hvs) at 2.
    replace (Z.pred (Z.of_nat (S (length vs)))) with (Z.of_nat (length vs)) by lia.
    replace (Z.succ 0) with (1 + 0) by lia. rewrite <- fmap_add_seqZ.
    rewrite (map_map (Z.add 1)). apply map_ext. intros i. f_equal. lia.
Qed.

Lemma load_store_members p ms : forall o off vs m,
  Forall (fun x => wf_type x.2 = true) ms -> Forall (fun x => stored_is_loaded x.2) ms ->
  have_types a ms vs = true ->
  load_members a p off (store_members a p off o ms vs m) o ms = vs.
Proof using Ha.
  induction ms as [|y ms IH]; intros o off vs m Hwf Hl Hvs; [by destruct vs|].
  destruct vs as [|v vs]; [done|]. cbn [have_types store_members load_members] in *.
  apply andb_true_iff in Hvs as [Hv Hvs].
  apply Forall_cons in Hwf as [Hy Hwf]; apply Forall_cons in Hl as [Hly Hl]. f_equal; [|by apply IH].
  rewrite (load_agree y.2 Hy _ _ (store a y.2 v (off + align_up o (member_align a p y.2)) m)); [by apply Hly|].
  intros x Hx. apply store_members_outside; [done| |done|lia].
  apply Forall_forall. intros z Hz. rewrite Forall_forall in Hwf. by apply store_outside, Hwf.
Qed.

Lemma load_store t : wf_type t = true -> stored_is_loaded t.
Proof using Ha.
  induction t as [n| | |t n IH|p ms IH|ms IH|al t IH] using ctype_nested_ind; intros Hwf v off m Hv.
  - destruct v; try done. cbn [load store]. f_equal. apply load_store_int; [|done].
    pose proof (int_fits_of_wf n Hwf). lia.
  - destruct v; try done. cbn [load store]. f_equal. apply load_store_int; [|done]. destruct Ha. lia.
  - destruct v; try done. cbn [load store]. f_equal. apply load_store_int; [|done]. destruct Ha. lia.
  - destruct v as [|vs|]; try done. cbn [wf_type has_type store load] in *.
    apply andb_true_iff in Hwf as [_ Hwf]. apply andb_true_iff in Hv as [Hn%Z.eqb_eq Hv]. f_equal.
    rewrite <- Hn. apply load_store_array; [done|by apply IH|done].
  - destruct v as [|vs|]; try done. rewrite store_struct, load_struct, has_type_struct in *. f_equal.
    apply (Forall_wf wf_type) in Hwf. apply load_store_members; [done| |done].
    apply Forall_forall. intros y Hy. rewrite Forall_forall in IH, Hwf. by apply IH, Hwf.
  - destruct v as [| |bs]; try done. cbn [has_type store load] in *.
    apply andb_true_iff in Hv as [Hn%Z.eqb_eq _]. f_equal. rewrite <- Hn. apply read_write.
  - cbn [wf_type has_type store load] in *. apply andb_true_iff in Hwf as [_ Hwf]. by apply IH.
Qed.
End Abi.

(** ** Values that do not depend on the ABI *)

Section Abis.
Context (a a' : abi) (Hi : i64_align a = i64_align a').

Lemma has_type_pointer_free t : pointer_free t = true -> forall v, has_type a t v = has_type a' t v.
Proof using Hi.
  induction t as [n| | |t n IH|p ms IH|ms IH|al t IH] using ctype_nested_ind; intros Hf v; try done.
  - destruct v as [|vs|]; try done. cbn [has_type]. f_equal. induction vs as [|v vs IHvs]; [done|].
    cbn [forallb]. by rewrite IH, IHvs.
  - destruct v as [|vs|]; try done. rewrite !has_type_struct. apply (Forall_wf pointer_free) in Hf.
    revert vs. induction ms as [|x ms IHms]; intros [|v vs]; try done. cbn [have_types].
    apply Forall_cons in IH as [IHx IH]; apply Forall_cons in Hf as [Hx Hf]. by rewrite IHx, IHms.
  - destruct v; try done. cbn [has_type]. by rewrite (sizeof_pointer_free a a' Hi (CUnion ms)).
  - cbn [has_type]. by apply IH.
Qed.

Lemma load_pointer_free t : pointer_free t = true -> forall off m, load a t off m = load a' t off m.
Proof using Hi.
  induction t as [n| | |t n IH|p ms IH|ms IH|al t IH] using ctype_nested_ind; intros Hf off m; try done.
  - cbn [load]. f_equal. apply map_ext. intros i. by rewrite (sizeof_pointer_free a a' Hi t), IH.
  - rewrite !load_struct. f_equal. apply (Forall_wf pointer_free) in Hf. generalize 0.
    induction ms as [|x ms IHms]; intros o; [done|]. cbn [load_members].
    apply Forall_cons in IH as [IHx IH]; apply Forall_cons in Hf as [Hx Hf].
    by rewrite (member_align_pointer_free a a' Hi p x.2), (sizeof_pointer_free a a' Hi x.2), IHx, IHms.
  - cbn [load]. by rewrite (sizeof_pointer_free a a' Hi (CUnion ms)).
  - cbn [load]. by apply IH.
Qed.
End Abis.

(** A value of a type without pointers that one process stores is loaded by another one
    with other pointers and [long]s. *)
Lemma load_store_abis a a' t v off m :
  abi_ok a -> i64_align a = i64_align a' -> wf_type t = true -> pointer_free t = true ->
  has_type a t v = true -> load a' t off (store a t v off m) = v.
Proof.
  intros Ha Hi Hwf Hf Hv. rewrite <- (load_pointer_free a a' Hi t Hf). by apply load_store.
Qed.
