(* ===== verification/CExpr.v ===== *)
(** * CExpr: the integer constant expressions of C

    A macro of the headers is an expression that the preprocessor puts in place of
    its name; an enumerator without an initialiser is one more than its predecessor.
    This file gives such expressions the meaning C does: the type of a literal, the
    conversions of the operands, and no value at all where the standard defines none
    (a signed result that does not fit, a shift past the width). Names and macros from outside
    the repository are the parameter [Externals]. *)

From S2P Require Import Prelude CLayout.

#[local] Open Scope list_scope.
#[local] Open Scope Z_scope.

(** ** Types *)

(** The types an integer expression has after the integer promotions. *)
Inductive cty : Type := TInt | TUInt | TLong | TULong | TLLong | TULLong.

#[export] Instance cty_eq_dec : EqDecision cty.
Proof. solve_decision. Defined.

Definition int_of (a : abi) (t : cty) : int_ty :=
  match t with
  | TInt => S32
  | TUInt => U32
  | TLong => IntTy (8 * ptr_bytes a) true
  | TULong => IntTy (8 * ptr_bytes a) false
  | TLLong => S64
  | TULLong => U64
  end.

Definition is_long (t : cty) : bool := match t with TLong | TULong => true | _ => false end.
Definition is_signed (t : cty) : bool := match t with TInt | TLong | TLLong => true | _ => false end.
Definition rank (t : cty) : Z := match t with TInt | TUInt => 0 | TLong | TULong => 1 | _ => 2 end.

Definition to_unsigned (t : cty) : cty :=
  match t with TInt => TUInt | TLong => TULong | TLLong => TULLong | _ => t end.

(** The usual arithmetic conversions: the type two operands are brought to. *)
Definition usual (a : abi) (t u : cty) : cty :=
  if Bool.eqb (is_signed t) (is_signed u) then (if rank t <? rank u then u else t)
  else
    let (s, n) := if is_signed t then (t, u) else (u, t) in
    if rank s <=? rank n then n
    else if int_width (int_of a n) <? int_width (int_of a s) then s else to_unsigned s.

(** ** Literals *)

Inductive suffix : Type := NoSuffix | SuffixU | SuffixL | SuffixUL | SuffixLL | SuffixULL.

(** The types a literal may have, the first that holds its value being its type;
    a decimal literal without [u] is never unsigned. *)
Definition candidates (hex : bool) (s : suffix) : list cty :=
  match s, hex with
  | NoSuffix, false => [TInt; TLong; TLLong]
  | NoSuffix, true => [TInt; TUInt; TLong; TULong; TLLong; TULLong]
  | SuffixU, _ => [TUInt; TULong; TULLong]
  | SuffixL, false => [TLong; TLLong]
  | SuffixL, true => [TLong; TULong; TLLong; TULLong]
  | SuffixUL, _ => [TULong; TULLong]
  | SuffixLL, false => [TLLong]
  | SuffixLL, true => [TLLong; TULLong]
  | SuffixULL, _ => [TULLong]
  end.

Notation cval := (cty * Z)%type.

(** The value [z] at type [t], if it has one. *)
Definition at_type (a : abi) (t : cty) (z : Z) : option cval :=
  if decide (in_range (int_of a t) z) then Some (t, z) else None.

Definition literal (a : abi) (hex : bool) (s : suffix) (n : Z) : option cval :=
  match List.find (fun t => bool_decide (in_range (int_of a t) n)) (candidates hex s) with
  | Some t => Some (t, n)
  | None => None
  end.

(** ** Operators *)

Inductive unop : Type := Neg | BitNot | LogNot.
Inductive binop : Type := BAdd | BSub | BMul | BDiv | BMod | BShl | BShr | BAnd | BOr | BXor | BEq | BLt.

(** The result of arithmetic at type [t]: reduced when [t] is unsigned, undefined when it
    is signed and the result does not fit. *)
Definition arith (a : abi) (t : cty) (z : Z) : option cval :=
  if is_signed t then at_type a t z else Some (t, cast (int_of a t) z).

Definition eval_unop (a : abi) (o : unop) (v : cval) : option cval :=
  let (t, x) := v in
  match o with
  | Neg => arith a t (- x)
  | BitNot => Some (t, cast (int_of a t) (Z.lnot x))
  | LogNot => Some (TInt, c_bool (x =? 0))
  end.

Definition eval_shift (a : abi) (left : bool) (v w : cval) : option cval :=
  let (t, x) := v in
  if (0 <=? w.2) && (w.2 <? int_width (int_of a t)) && (0 <=? x)
  then if left then arith a t (Z.shiftl x w.2) else at_type a t (Z.shiftr x w.2)
  else None.

Definition eval_arith (a : abi) (o : binop) (t : cty) (x y : Z) : option cval :=
  match o with
  | BAdd => arith a t (x + y)
  | BSub => arith a t (x - y)
  | BMul => arith a t (x * y)
  | BDiv => if y =? 0 then None else arith a t (Z.quot x y)
  | BMod => if y =? 0 then None else arith a t (Z.rem x y)
  | BAnd => Some (t, cast (int_of a t) (Z.land x y))
  | BOr => Some (t, cast (int_of a t) (Z.lor x y))
  | BXor => Some (t, cast (int_of a t) (Z.lxor x y))
  | BEq => Some (TInt, c_bool (x =? y))
  | BLt => Some (TInt, c_bool (x <? y))
  | BShl | BShr => None
  end.

Definition eval_binop (a : abi) (o : binop) (v w : cval) : option cval :=
  match o with
  | BShl => eval_shift a true v w
  | BShr => eval_shift a false v w
  | _ =>
      let t := usual a v.1 w.1 in
      eval_arith a o t (cast (int_of a t) v.2) (cast (int_of a t) w.2)
  end.

(** A cast to a type of at most 32 bits, promoted: what a narrower type holds fits an int. *)
Definition eval_cast (t : int_ty) (v : cval) : cval :=
  (if (int_width t =? 32) && negb (int_signed t) then TUInt else TInt, cast t v.2).

(** [size_t]. *)
Definition size_t (a : abi) : cty := if ptr_bytes a =? 8 then TULong else TUInt.

(** ** Expressions *)

Inductive cexpr : Type :=
  | Num (hex : bool) (s : suffix) (n : Z)
  | Chr (n : Z)                              (* a character constant, an int *)
  | Ref (name : string)                      (* a macro or an enumerator of the headers *)
  | Ext (name : string) (args : list cexpr)  (* a name or a macro from outside *)
  | Un (o : unop) (e : cexpr)
  | Bin (o : binop) (e f : cexpr)
  | Cond (c e f : cexpr)
  | Cast (t : int_ty) (e : cexpr)
  | SizeOf (t : abi -> ctype).

Notation Dec n := (Num false NoSuffix n).
Notation Hex n := (Num true NoSuffix n).
Notation DecU n := (Num false SuffixU n).
Notation HexU n := (Num true SuffixU n).

(** What the names from outside stand for: a name, or a macro and its arguments; the
    answer is no [long], so that it is the same value on every target. *)
Class Externals : Type := {
  external : string -> list Z -> option cval;
  external_not_long : forall f args v, external f args = Some v -> is_long v.1 = false;
}.

(** Nothing is known of the outside. *)
Definition no_externals : Externals :=
  {| external := fun _ _ => None; external_not_long := fun _ _ _ H => match H with end |}.

Definition lookup_def {A} (x : string) (l : list (string * A)) : option A :=
  match List.find (fun d => String.eqb (fst d) x) l with
  | Some d => Some (snd d)
  | None => None
  end.

Fixpoint remove_def {A} (x : string) (l : list (string * A)) : list (string * A) :=
  match l with
  | [] => []
  | d :: l' => if String.eqb (fst d) x then l' else d :: remove_def x l'
  end.

(** The value of an expression in which a name stands for its first definition in [env]:
    the macros come before the enumerators. While a macro is expanded its name is no macro, so that
    [#define X X] leaves the enumerator [X]. [fuel] bounds the nesting of operators and
    names, [None] being no value. *)
Fixpoint eval `{Externals} (a : abi) (env : list (string * cexpr)) (fuel : nat) (e : cexpr) : option cval :=
  match fuel with
  | O => None
  | S k =>
      match e with
      | Num hex s n => literal a hex s n
      | Chr n => at_type a TInt n
      | Ref x => d ← lookup_def x env; eval a (remove_def x env) k d
      | Ext x args => vs ← mapM (eval a env k) args; v ← external x (map snd vs); at_type a v.1 v.2
      | Un o e1 => v ← eval a env k e1; eval_unop a o v
      | Bin o e1 e2 => v ← eval a env k e1; w ← eval a env k e2; eval_binop a o v w
      | Cond c e1 e2 =>
          b ← eval a env k c; v ← eval a env k e1; w ← eval a env k e2;
          let t := usual a v.1 w.1 in Some (t, cast (int_of a t) (if c_true b.2 then v.2 else w.2))
      | Cast t e1 => v ← eval a env k e1; Some (eval_cast t v)
      | SizeOf t => at_type a (size_t a) (sizeof a (t a))
      end
  end.

(** ** Definitions and enumerations *)

(** The macros of a header, in its order, and the enumerators of an enumeration with
    their initialisers. *)
Definition defines : Type := list (string * cexpr).
Definition enumeration : Type := list (string * option cexpr).

(** The expressions of the enumerators: an enumerator without an initialiser is
    [n] more than the last one that has one, or than zero. *)
Fixpoint enumerators (last : cexpr) (n : Z) (l : enumeration) : defines :=
  match l with
  | [] => []
  | (x, Some e) :: l' => (x, e) :: enumerators e 1 l'
  | (x, None) :: l' => (x, Bin BAdd last (Dec n)) :: enumerators last (n + 1) l'
  end.

Definition enum_defs (l : enumeration) : defines := enumerators (Dec 0) 0 l.

(** A header: its runs of macros, its enumerations, and the macros of headers that it
    uses but does not include. *)
Record header : Type := Header {
  h_path : string;
  h_defs : list defines;
  h_enums : list enumeration;
  h_needs : list defines;
}.

Definition h_env (h : header) : defines :=
  concat (h_defs h) ++ concat (map enum_defs (h_enums h)) ++ concat (h_needs h).

(** More than the operators and names nest in any of the headers. *)
Definition fuel : nat := 128.

(** The type and value of a macro or an enumerator of [h]. *)
Definition value `{Externals} (a : abi) (h : header) (x : string) : option cval := eval a (h_env h) fuel (Ref x).

(** Compare evaluations by their arguments before unfolding them. *)
Strategy 1000 [eval].

(** ** Properties *)

Lemma int_of_width a t : abi_ok a -> 0 < int_width (int_of a t).
Proof. intros [Hp _]. destruct t; cbn; lia. Qed.

Lemma at_type_Some a t z v : at_type a t z = Some v -> v = (t, z) /\ in_range (int_of a t) z.
Proof. unfold at_type. case_decide; naive_solver. Qed.

(** A value of an expression is a value of its type. *)
Definition sound (a : abi) (v : cval) : Prop := in_range (int_of a v.1) v.2.

Lemma at_type_sound a t z v : at_type a t z = Some v -> sound a v.
Proof. by intros [-> H]%at_type_Some. Qed.

Lemma literal_sound a hex s n v : literal a hex s n = Some v -> sound a v.
Proof.
  unfold literal. destruct (List.find _ _) eqn:Hf; [|done].
  apply List.find_some in Hf as [_ Hf%bool_decide_eq_true]. by intros [= <-].
Qed.

Section Sound.
Context (a : abi) (Ha : abi_ok a).

Lemma cast_sound t z : sound a (t, cast (int_of a t) z).
Proof using Ha. apply cast_range. by apply int_of_width. Qed.

Lemma bool_sound b : sound a (TInt, c_bool b).
Proof using. destruct b; unfold sound; cbn; unfold_range; lia. Qed.

Lemma arith_sound t z v : arith a t z = Some v -> sound a v.
Proof using Ha. unfold arith. case_match; [apply at_type_sound|]. intros [= <-]. apply cast_sound. Qed.

Hint Resolve cast_sound bool_sound arith_sound at_type_sound : core.

Lemma eval_unop_sound o v w : eval_unop a o v = Some w -> sound a w.
Proof using Ha. destruct v, o; cbn; intros H; simplify_eq; eauto. Qed.

Lemma eval_binop_sound o v w u : eval_binop a o v w = Some u -> sound a u.
Proof using Ha.
  destruct v as [t x], o; cbn; unfold eval_shift; intros H;
    repeat case_match; simplify_eq; eauto.
Qed.

Lemma eval_cast_sound t v : 0 < int_width t <= 32 -> sound a (eval_cast t v).
Proof using.
  intros Hw. pose proof (cast_range t (proj1 Hw) v.2) as Hr.
  unfold sound, eval_cast. cbn [fst snd]. destruct t as [w s]. cbn in Hw.
  unfold in_range, min_int, max_int in *. cbn [int_width int_signed] in *.
  assert (2 ^ w <= 2 ^ 32) by (apply Z.pow_le_mono_r; lia).
  assert (2 ^ (w - 1) <= 2 ^ 31) by (apply Z.pow_le_mono_r; lia).
  assert (w < 32 -> 2 ^ w <= 2 ^ 31) by (intros; apply Z.pow_le_mono_r; lia).
  destruct s; [rewrite andb_false_r|rewrite andb_true_r; destruct (Z.eqb_spec w 32); [subst w|]];
    cbn in *; norm_pow; lia.
Qed.
End Sound.

(** The casts an expression uses are to types of at most 32 bits. *)
Fixpoint casts_narrow (e : cexpr) : bool :=
  match e with
  | Cast t e1 => (0 <? int_width t) && (int_width t <=? 32) && casts_narrow e1
  | Un _ e1 => casts_narrow e1
  | Bin _ e1 e2 => casts_narrow e1 && casts_narrow e2
  | Cond c e1 e2 => casts_narrow c && casts_narrow e1 && casts_narrow e2
  | _ => true
  end.

Lemma lookup_def_In {A} x (l : list (string * A)) d : lookup_def x l = Some d -> In (x, d) l.
Proof.
  unfold lookup_def. destruct (List.find _ l) as [[y b]|] eqn:Hf; [|done]. cbn. intros [= <-].
  apply List.find_some in Hf as [Hin Hx%String.eqb_eq]. cbn in Hx. by subst.
Qed.

(** Takes a sequence of binds that has a value apart. *)
Ltac unbind H :=
  repeat match type of H with
         | mbind _ _ = Some _ => let v := fresh "v" in let E := fresh "E" in apply bind_Some in H as (v & E & H)
         end.

Lemma remove_def_In {A} x (l : list (string * A)) d : In d (remove_def x l) -> In d l.
Proof. induction l as [|d' l IH]; cbn; [done|]. case_match; cbn; naive_solver. Qed.

Lemma remove_def_Forall {A} (P : string * A -> Prop) x l : Forall P l -> Forall P (remove_def x l).
Proof. rewrite !List.Forall_forall. eauto using remove_def_In. Qed.

Section Eval.
Context (a : abi).

Lemma eval_sound `{Externals} fuel env e v :
  abi_ok a -> Forall (fun d => casts_narrow d.2 = true) env -> casts_narrow e = true ->
  eval a env fuel e = Some v -> sound a v.
Proof using.
  intros Ha. revert env e v. induction fuel as [|k IH]; intros env e v Henv Hc; [done|].
  destruct e; cbn in Hc |- *; intros He; unbind He;
    eauto using at_type_sound, literal_sound, eval_unop_sound, eval_binop_sound, cast_sound.
  - match goal with H : lookup_def _ _ = Some _ |- _ => apply lookup_def_In in H as Hin end.
    eapply (IH (remove_def name env)); [by apply remove_def_Forall| |done].
    rewrite List.Forall_forall in Henv. exact (Henv _ Hin).
  - simplify_eq. by apply cast_sound.
  - simplify_eq. apply eval_cast_sound. lia.
Qed.

(** More is known of the outside. *)
Definition extends (x y : Externals) : Prop :=
  forall f args v, @external x f args = Some v -> @external y f args = Some v.

Lemma mapM_mono (f g : cexpr -> option cval) l vs :
  (forall e v, f e = Some v -> g e = Some v) -> mapM f l = Some vs -> mapM g l = Some vs.
Proof using.
  intros Hfg Hm. apply mapM_Some in Hm. apply mapM_Some.
  eapply Forall2_impl; [exact Hm|]. intros; by apply Hfg.
Qed.

(** More fuel, and more knowledge of the outside, change no value. *)
Lemma eval_mono (x y : Externals) n m env e v :
  extends x y -> (n <= m)%nat -> @eval x a env n e = Some v -> @eval y a env m e = Some v.
Proof using.
  intros Hxy. revert m env e v. induction n as [|n IH]; intros m env e v Hm; [done|].
  destruct m as [|m]; [lia|]. assert (n <= m)%nat as Hle by lia.
  assert (forall env e v, @eval x a env n e = Some v -> @eval y a env m e = Some v) as IH' by eauto.
  destruct e; cbn; intros He; unbind He; [done..| | | | | | |done];
    repeat match goal with
      | E : @eval x _ _ _ ?e = Some _ |- _ => rewrite (IH' _ _ _ E); clear E; cbn
      | E : mapM _ _ = Some _ |- _ => rewrite (mapM_mono _ _ _ _ (IH' env) E); clear E; cbn
      | E : @external x _ _ = Some _ |- _ => rewrite (Hxy _ _ _ E); clear E; cbn
      | E : lookup_def _ _ = Some _ |- _ => rewrite E; clear E; cbn
      end; cbn; eauto.
Qed.

(** What has a value when nothing is known of the outside has it whatever the outside is. *)
Lemma eval_closed `{X : Externals} n m env e v :
  (n <= m)%nat -> @eval no_externals a env n e = Some v -> eval a env m e = Some v.
Proof using. by apply eval_mono. Qed.
End Eval.

(** ** Targets with 32-bit and with 64-bit longs *)

(** An expression in which no operand is a [long]. *)
Fixpoint portable (e : cexpr) : bool :=
  match e with
  | Num hex s n =>
      match s with
      | NoSuffix => (0 <=? n) && (if hex then n <? 2 ^ 32 else n <? 2 ^ 31)
      | SuffixU => (0 <=? n) && (n <? 2 ^ 32)
      | SuffixL | SuffixUL => false
      | SuffixLL | SuffixULL => true
      end
  | Chr _ | Ref _ => true
  | Ext _ args => forallb portable args
  | Un _ e1 => portable e1
  | Bin _ e1 e2 => portable e1 && portable e2
  | Cond c e1 e2 => portable c && portable e1 && portable e2
  | Cast _ e1 => portable e1
  | SizeOf _ => false
  end.

Section Portable.
Context (a b : abi).

Lemma int_of_eq t : is_long t = false -> int_of a t = int_of b t.
Proof using. by destruct t. Qed.

Lemma usual_eq t u :
  is_long t = false -> is_long u = false -> usual a t u = usual b t u /\ is_long (usual a t u) = false.
Proof using. by destruct t, u. Qed.

Lemma usual_not_long t u : is_long t = false -> is_long u = false -> is_long (usual a t u) = false.
Proof using. by destruct t, u. Qed.

Lemma at_type_eq t z : is_long t = false -> at_type a t z = at_type b t z.
Proof using. intros Ht. unfold at_type. by rewrite int_of_eq. Qed.

Lemma at_type_not_long t z v : is_long t = false -> at_type a t z = Some v -> is_long v.1 = false.
Proof using. by intros Ht [-> _]%at_type_Some. Qed.

Lemma arith_eq t z : is_long t = false -> arith a t z = arith b t z.
Proof using. intros Ht. unfold arith. by rewrite at_type_eq, int_of_eq by done. Qed.

Lemma arith_not_long t z v : is_long t = false -> arith a t z = Some v -> is_long v.1 = false.
Proof using. intros Ht. unfold arith. case_match; [by apply at_type_not_long|]. by intros [= <-]. Qed.

(** Both targets find the same type for a value below 2^31, or 2^32 where [unsigned] is allowed. *)
Lemma literal_eq hex s n :
  portable (Num hex s n) = true ->
  literal a hex s n = literal b hex s n /\ (forall v, literal a hex s n = Some v -> is_long v.1 = false).
Proof using.
  intros Hp. unfold literal. destruct s, hex; cbn [portable] in Hp; try done; cbn [candidates List.find int_of];
    repeat (case_bool_decide; [split; [done|by intros v [= <-]]|]); try (by split);
    exfalso; unfold_range; lia.
Qed.

Lemma eval_unop_eq o v : is_long v.1 = false -> eval_unop a o v = eval_unop b o v.
Proof using.
  destruct v as [t x]; cbn; intros Ht. by destruct o; cbn; rewrite ?arith_eq, ?int_of_eq.
Qed.

Lemma eval_unop_not_long o v w : is_long v.1 = false -> eval_unop a o v = Some w -> is_long w.1 = false.
Proof using.
  destruct v as [t x]; cbn; intros Ht. destruct o; cbn; intros He; simplify_eq; [|done..].
  by eapply arith_not_long.
Qed.

Lemma eval_binop_eq o v w :
  is_long v.1 = false -> is_long w.1 = false -> eval_binop a o v w = eval_binop b o v w.
Proof using.
  destruct v as [t x], w as [u y]; cbn. intros Ht Hu.
  destruct (usual_eq t u Ht Hu) as [Hab Hl]. assert (is_long (usual b t u) = false) as Hl' by (by rewrite <-Hab).
  destruct o; cbn; unfold eval_shift; cbn;
    rewrite ?arith_eq, ?int_of_eq, ?at_type_eq by done; try done;
    rewrite ?Hab, ?arith_eq, ?int_of_eq by done; done.
Qed.

Lemma eval_binop_not_long o v w u :
  is_long v.1 = false -> is_long w.1 = false -> eval_binop a o v w = Some u -> is_long u.1 = false.
Proof using.
  destruct v as [t x], w as [t' y]; cbn. intros Ht Ht'. pose proof (usual_not_long t t' Ht Ht') as Hl.
  destruct o; cbn; unfold eval_shift; intros He; repeat case_match; simplify_eq;
    eauto using arith_not_long, at_type_not_long.
Qed.
End Portable.

Definition portable_defs (env : defines) : bool := forallb (fun d => portable d.2) env.

Lemma mapM_ext_not_long (f g : cexpr -> option cval) l :
  Forall (fun e => f e = g e) l -> mapM f l = mapM g l.
Proof. intros Hl. induction Hl as [|e l He Hl IH]; cbn; [done|]. by rewrite He, IH. Qed.

(** An expression without longs has the same type and value on every target. *)
Lemma eval_portable `{Externals} a b env n e :
  portable_defs env = true -> portable e = true ->
  eval a env n e = eval b env n e /\ (forall v, eval a env n e = Some v -> is_long v.1 = false).
Proof.
  revert env e. induction n as [|n IH]; intros env e Henv Hp; [done|].
  assert (forall e, portable e = true -> eval a env n e = eval b env n e) as IH1 by (intros; by apply IH).
  assert (forall e v, portable e = true -> eval a env n e = Some v -> is_long v.1 = false) as IH2
    by (intros e' v' Hp'; by apply IH).
  destruct e as [hex s k|k|x|f args|o e1|o e1 e2|c e1 e2|t e1|t]; cbn [portable] in Hp; cbn [eval].
  - by apply literal_eq.
  - split; [done|]. intros v. by apply at_type_not_long.
  - destruct (lookup_def x env) as [d|] eqn:Hd; cbn; [|done].
    apply lookup_def_In in Hd. unfold portable_defs in *. rewrite forallb_forall in Henv.
    apply IH; [|apply (Henv _ Hd)]. apply forallb_forall. eauto using remove_def_In.
  - assert (mapM (eval a env n) args = mapM (eval b env n) args) as ->.
    { apply mapM_ext_not_long. apply List.Forall_forall. intros e' He'. apply IH1.
      rewrite forallb_forall in Hp. auto. }
    destruct (mapM _ _) as [vs|]; cbn; [|done].
    destruct (external _ _) as [v|] eqn:Hv; cbn; [|done]. apply external_not_long in Hv.
    split; [by apply at_type_eq|]. intros w. by apply at_type_not_long.
  - rewrite (IH1 _ Hp). destruct (eval b env n e1) as [v|] eqn:Hv; cbn; [|done].
    rewrite <-IH1 in Hv by done. apply IH2 in Hv; [|done].
    split; [by apply eval_unop_eq|]. intros w. by apply eval_unop_not_long.
  - apply andb_true_iff in Hp as [Hp1 Hp2]. rewrite (IH1 _ Hp1), (IH1 _ Hp2).
    destruct (eval b env n e1) as [v|] eqn:Hv; cbn; [|done].
    destruct (eval b env n e2) as [w|] eqn:Hw; cbn; [|done].
    rewrite <-IH1 in Hv, Hw by done. apply IH2 in Hv, Hw; [|done..].
    split; [by apply eval_binop_eq|]. intros u. by apply eval_binop_not_long.
  - apply andb_true_iff in Hp as [[Hp0 Hp1]%andb_true_iff Hp2]. rewrite (IH1 _ Hp0), (IH1 _ Hp1), (IH1 _ Hp2).
    destruct (eval b env n c) as [u|] eqn:Hu; cbn; [|done].
    destruct (eval b env n e1) as [v|] eqn:Hv; cbn; [|done].
    destruct (eval b env n e2) as [w|] eqn:Hw; cbn; [|done].
    rewrite <-IH1 in Hv, Hw by done. apply IH2 in Hv, Hw; [|done..].
    destruct (usual_eq a b _ _ Hv Hw) as [Hab Hl]. rewrite Hab, (int_of_eq a b) by (by rewrite <-Hab).
    split; [done|]. intros z [= <-]. cbn. by rewrite <-Hab.
  - rewrite (IH1 _ Hp). destruct (eval b env n e1) as [v|] eqn:Hv; cbn; [|done].
    split; [done|]. intros w [= <-]. unfold eval_cast. by case_match.
  - done.
Qed.
