(* ===== verification/Ioctl.v ===== *)
(** * Ioctl: the interface of the kernel's ioctl numbers

    The headers build request numbers with [_IO], [_IOR], [_IOW] and [_IOWR] of
    [asm/ioctl.h], which is not part of the tree.  [IocEncoding] is what they
    use of it; [IocLaws] is its documented contract, that direction, type,
    number and parameter size occupy separate fields of the request.  A request
    macro of a header is an [ioctl_req], whose [request_number] under an ABI is the
    number the preprocessor and the compiler make of it. *)

From Stdlib Require Import Ascii.

From S2P Require Import Prelude Bits CLayout.

Class IocEncoding := {
  _IO : Z -> Z -> Z;
  _IOR : Z -> Z -> Z -> Z;
  _IOW : Z -> Z -> Z -> Z;
  _IOWR : Z -> Z -> Z -> Z;
}.

Inductive ioc_dir : Type := IOC_NONE | IOC_READ | IOC_WRITE | IOC_READ_WRITE.

Definition ioc_encode `{IocEncoding} (d : ioc_dir) (type nr size : Z) : Z :=
  match d with
  | IOC_NONE => _IO type nr
  | IOC_READ => _IOR type nr size
  | IOC_WRITE => _IOW type nr size
  | IOC_READ_WRITE => _IOWR type nr size
  end.

(** Arguments an ioctl number has room for; without a direction there is no
    parameter. *)
Definition ioc_args (d : ioc_dir) (type nr size : Z) : Prop :=
  0 <= type < 256 /\ 0 <= nr < 256 /\ 0 <= size < 2 ^ 14 /\ (d = IOC_NONE -> size = 0).

Class IocLaws `{IocEncoding} : Prop := {
  ioc_encode_inj d type nr size d' type' nr' size' :
    ioc_args d type nr size -> ioc_args d' type' nr' size' ->
    ioc_encode d type nr size = ioc_encode d' type' nr' size' ->
    d = d' /\ type = type' /\ nr = nr' /\ size = size';
}.

(** The encoding of [asm-generic/ioctl.h]: number, type, size and direction
    from the lowest bit on, joined by [|] without a check of their ranges.  It
    shows that the interface can be met. *)
Definition generic_ioc (dir type nr size : Z) : Z :=
  Z.lor (Z.shiftl dir 30) (Z.lor (Z.shiftl type 8) (Z.lor nr (Z.shiftl size 16))).

Definition generic_encoding : IocEncoding := {|
  _IO type nr := generic_ioc 0 type nr 0;
  _IOR := generic_ioc 2; _IOW := generic_ioc 1; _IOWR := generic_ioc 3 |}.

Definition generic_dir (d : ioc_dir) : Z :=
  match d with IOC_NONE => 0 | IOC_READ => 2 | IOC_WRITE => 1 | IOC_READ_WRITE => 3 end.

(** In range, the fields do not overlap. *)
Lemma generic_ioc_sum dir type nr size :
  0 <= type < 256 -> 0 <= nr < 256 -> 0 <= size < 2 ^ 14 ->
  generic_ioc dir type nr size = nr + 256 * (type + 256 * (size + 2 ^ 14 * dir)).
Proof.
  intros Ht Hn Hs. unfold generic_ioc.
  replace (Z.lor (Z.shiftl dir 30) (Z.lor (Z.shiftl type 8) (Z.lor nr (Z.shiftl size 16))))
    with (Z.lor (Z.shiftl dir 30) (Z.lor (Z.shiftl size 16) (Z.lor (Z.shiftl type 8) nr)))
    by (apply Z.bits_inj'; intros; rewrite !Z.lor_spec; btauto).
  rewrite (lor_shiftl_add type nr 8), (lor_shiftl_add size _ 16), (lor_shiftl_add dir _ 30);
    norm_pow; lia.
Qed.

Lemma generic_ioc_inj d type nr size d' type' nr' size' :
  0 <= type < 256 -> 0 <= nr < 256 -> 0 <= size < 2 ^ 14 ->
  0 <= type' < 256 -> 0 <= nr' < 256 -> 0 <= size' < 2 ^ 14 ->
  generic_ioc d type nr size = generic_ioc d' type' nr' size' ->
  d = d' /\ type = type' /\ nr = nr' /\ size = size'.
Proof. intros. rewrite !generic_ioc_sum in * by done. norm_pow. lia. Qed.

Lemma generic_encode d type nr size :
  ioc_args d type nr size ->
  @ioc_encode generic_encoding d type nr size = generic_ioc (generic_dir d) type nr size.
Proof. intros (_ & _ & _ & Hs). destruct d; try done. by rewrite Hs. Qed.

Lemma generic_laws : @IocLaws generic_encoding.
Proof.
  constructor. intros d type nr size d' type' nr' size' Ha Ha' E.
  rewrite !generic_encode in E by done. destruct Ha as (? & ? & ? & _), Ha' as (? & ? & ? & _).
  apply generic_ioc_inj in E as (Hd & E); [|done..].
  split; [by destruct d, d'|done].
Qed.

(** ** Requests

    A request macro: [IOWR type nr t] is [_IOWR(type, nr, t)] for the C type
    [t], of which the number only keeps the size. *)

Record ioctl_req : Type := IoctlReq {
  req_dir : ioc_dir;
  req_type : Z;
  req_nr : Z;
  req_param : option ctype;
}.

Definition IO (type nr : Z) : ioctl_req := IoctlReq IOC_NONE type nr None.
Definition IOR (type nr : Z) (t : ctype) : ioctl_req := IoctlReq IOC_READ type nr (Some t).
Definition IOW (type nr : Z) (t : ctype) : ioctl_req := IoctlReq IOC_WRITE type nr (Some t).
Definition IOWR (type nr : Z) (t : ctype) : ioctl_req := IoctlReq IOC_READ_WRITE type nr (Some t).

(** [T *], whatever the type [T]. *)
Definition pointer (t : ctype) : ctype := CPtr.

(** The value of a character constant. *)
Definition chr (c : ascii) : Z := Z.of_nat (nat_of_ascii c).
Arguments chr c%_char.

Definition request_size (a : abi) (r : ioctl_req) : Z :=
  match req_param r with None => 0 | Some t => sizeof a t end.

Definition request_number `{IocEncoding} (a : abi) (r : ioctl_req) : Z :=
  ioc_encode (req_dir r) (req_type r) (req_nr r) (request_size a r).

(** What a number keeps of a request. *)
Definition request_key (a : abi) (r : ioctl_req) : Z * Z * Z * Z :=
  (generic_dir (req_dir r), req_type r, req_nr r, request_size a r).

(** [ioc_args] as a check. *)
Definition request_fits (a : abi) (r : ioctl_req) : bool :=
  (0 <=? req_type r) && (req_type r <? 256) && (0 <=? req_nr r) && (req_nr r <? 256)
  && (0 <=? request_size a r) && (request_size a r <? 2 ^ 14)
  && match req_dir r with IOC_NONE => request_size a r =? 0 | _ => true end.

Lemma request_fits_args a r :
  request_fits a r = true <-> ioc_args (req_dir r) (req_type r) (req_nr r) (request_size a r).
Proof.
  unfold request_fits, ioc_args.
  rewrite !andb_true_iff, !Z.leb_le, !Z.ltb_lt.
  destruct (req_dir r); rewrite ?Z.eqb_eq; intuition congruence.
Qed.

(** Requests that fit have the same number exactly when they have the same key. *)
Lemma request_number_eq `{IocEncoding} {Hlaws : IocLaws} a a' r r' :
  request_fits a r = true -> request_fits a' r' = true ->
  request_number a r = request_number a' r' <-> request_key a r = request_key a' r'.
Proof.
  rewrite !request_fits_args. intros Hr Hr'. unfold request_number, request_key. split.
  - intros E. by apply ioc_encode_inj in E as (-> & -> & -> & ->).
  - rewrite !pair_equal_spec. intros [[[Hd ->] ->] ->].
    by replace (req_dir r) with (req_dir r') by (by destruct (req_dir r), (req_dir r')).
Qed.
