(* ===== verification/Uapi.v ===== *)
(** * Uapi: what the headers take from the kernel's other headers

    [LinuxUapi] lists the names that headers of the tree use and that headers
    outside of it define: lengths, types of linux/types.h, two structures of
    drm/drm.h with the macros of its driver-private requests.  [LinuxUapiLaws]
    states their documented values; they determine the parameter, so that a
    property of closed tables can be evaluated at [linux_uapi]. *)

From Stdlib Require Import Ascii.

From S2P Require Import Prelude CLayout Ioctl.

#[local] Open Scope string_scope.
#[local] Open Scope list_scope.
#[local] Open Scope Z_scope.

Class LinuxUapi := {
  ETH_ALEN : Z;
  IFNAMSIZ : Z;
  BASE_VIDIOC_PRIVATE : Z;
  DRM_COMMAND_BASE : Z;
  NFS4_FHSIZE : Z;
  DRM_IOW : Z -> ctype -> ioctl_req;
  DRM_IOWR : Z -> ctype -> ioctl_req;
  __kernel_off_t : ctype;
  __kernel_size_t : ctype;
  __kernel_pid_t : ctype;
  __kernel_sa_family_t : ctype;
  time_t : ctype;
  struct_timespec : ctype;
  struct_in6_addr : ctype;
  struct_drm_clip_rect : ctype;
  struct_drm_event : ctype;
}.

(** Sixteen octets, also seen as eight or four words. *)
Definition ipv6_octets : ctype :=
  struct [("in6_u", CUnion [("u6_addr8", CArray c_u8 16); ("u6_addr16", CArray c_u16 8);
                            ("u6_addr32", CArray c_u32 4)])].

(** Seconds and nanoseconds, each a [long]. *)
Definition long_timespec : ctype := struct [("tv_sec", CLong); ("tv_nsec", CLong)].

Definition clip_rect : ctype := struct [("x1", c_u16); ("y1", c_u16); ("x2", c_u16); ("y2", c_u16)].

Definition event_header : ctype := struct [("type", c_u32); ("length", c_u32)].

(** Documented: an Ethernet address has six octets, the name of an interface
    sixteen bytes, requests private to a video driver begin at 192 and those
    private to a display driver, of type 'd', at 0x40; an NFS file handle has at
    most 128 bytes; offsets, sizes and times
    are [long]s, a process id is an [int], an address family an [unsigned short]; an IPv6 address is sixteen octets. *)
Class LinuxUapiLaws `{LinuxUapi} : Prop := {
  ETH_ALEN_six : ETH_ALEN = 6;
  IFNAMSIZ_16 : IFNAMSIZ = 16;
  BASE_VIDIOC_PRIVATE_192 : BASE_VIDIOC_PRIVATE = 192;
  DRM_COMMAND_BASE_64 : DRM_COMMAND_BASE = 0x40;
  NFS4_FHSIZE_128 : NFS4_FHSIZE = 128;
  DRM_IOW_d : DRM_IOW = IOW (chr "d");
  DRM_IOWR_d : DRM_IOWR = IOWR (chr "d");
  kernel_off_t_long : __kernel_off_t = CLong;
  kernel_size_t_long : __kernel_size_t = CLong;
  kernel_pid_t_int : __kernel_pid_t = c_int;
  kernel_sa_family_t_u16 : __kernel_sa_family_t = c_u16;
  time_t_long : time_t = CLong;
  timespec_longs : struct_timespec = long_timespec;
  in6_addr_octets : struct_in6_addr = ipv6_octets;
  drm_clip_rect_words : struct_drm_clip_rect = clip_rect;
  drm_event_words : struct_drm_event = event_header;
}.

Definition linux_uapi : LinuxUapi := {|
  ETH_ALEN := 6; IFNAMSIZ := 16; BASE_VIDIOC_PRIVATE := 192; DRM_COMMAND_BASE := 0x40;
  NFS4_FHSIZE := 128;
  DRM_IOW := IOW (chr "d"); DRM_IOWR := IOWR (chr "d");
  __kernel_off_t := CLong; __kernel_size_t := CLong; __kernel_pid_t := c_int;
  __kernel_sa_family_t := c_u16; time_t := CLong;
  struct_timespec := long_timespec; struct_in6_addr := ipv6_octets;
  struct_drm_clip_rect := clip_rect; struct_drm_event := event_header |}.

Lemma linux_uapi_laws : @LinuxUapiLaws linux_uapi.
Proof. by constructor. Qed.

(** The laws determine what the headers take from the kernel. *)
Lemma uapi_known `{LinuxUapi} {Huapi : LinuxUapiLaws} : H = linux_uapi.
Proof. destruct H, Huapi. unfold linux_uapi. cbn in *. by subst. Qed.
