(* ===== verification/ColorFmt.v ===== *)
(** * ColorFmt: buffer geometry of the MMM color formats

    Translates [include/display/media/mmm_color_fmt.h]: the rounding macros,
    the enumeration of the formats, the fourteen functions that compute
    strides, scanlines and buffer sizes, and their basic properties.  All the
    arithmetic is that of the C code: [unsigned int] ([U32]) for the plane
    geometry, [int] ([S32]) for the second rounding of the meta planes. *)

From S2P Require Import Prelude Align.

(** ** Data *)

Definition INTERLACE_WIDTH_MAX : Z := 1920.
Definition INTERLACE_HEIGHT_MAX : Z := 1920.
Definition INTERLACE_MB_PER_FRAME_MAX : Z := Z.quot (1920 * 1088) 256.

(** The macro is expanded at the type [t] of its operands. *)
Definition MMM_COLOR_FMT_ALIGN (t : int_ty) (__sz __align : Z) : Z :=
  if c_true (__align &[t] (__align -[t] 1))
  then ((__sz +[t] __align -[t] 1) /[t] __align) *[t] __align
  else (__sz +[t] __align -[t] 1) &[t] ~[t] (__align -[t] 1).

Definition MMM_COLOR_FMT_ROUNDUP (t : int_ty) (__sz __r : Z) : Z :=
  (__sz +[t] (__r -[t] 1)) /[t] __r.

Inductive mmm_color_fmts : Type :=
  | MMM_COLOR_FMT_NV12
  | MMM_COLOR_FMT_NV21
  | MMM_COLOR_FMT_NV12_UBWC
  | MMM_COLOR_FMT_NV12_BPP10_UBWC
  | MMM_COLOR_FMT_RGBA8888
  | MMM_COLOR_FMT_RGBA8888_UBWC
  | MMM_COLOR_FMT_RGBA1010102_UBWC
  | MMM_COLOR_FMT_RGB565_UBWC
  | MMM_COLOR_FMT_P010_UBWC
  | MMM_COLOR_FMT_P010
  | MMM_COLOR_FMT_P010_512
  | MMM_COLOR_FMT_NV12_512
  | MMM_COLOR_FMT_RGBA16161616F_UBWC.

#[export] Instance mmm_color_fmts_eq_dec : EqDecision mmm_color_fmts.
Proof. solve_decision. Defined.

Definition mmm_color_fmts_value (f : mmm_color_fmts) : Z :=
  match f with
  | MMM_COLOR_FMT_NV12 => 0
  | MMM_COLOR_FMT_NV21 => 1
  | MMM_COLOR_FMT_NV12_UBWC => 2
  | MMM_COLOR_FMT_NV12_BPP10_UBWC => 3
  | MMM_COLOR_FMT_RGBA8888 => 4
  | MMM_COLOR_FMT_RGBA8888_UBWC => 5
  | MMM_COLOR_FMT_RGBA1010102_UBWC => 6
  | MMM_COLOR_FMT_RGB565_UBWC => 7
  | MMM_COLOR_FMT_P010_UBWC => 8
  | MMM_COLOR_FMT_P010 => 9
  | MMM_COLOR_FMT_P010_512 => 10
  | MMM_COLOR_FMT_NV12_512 => 11
  | MMM_COLOR_FMT_RGBA16161616F_UBWC => 12
  end.

#[export] Instance mmm_color_fmts_enum : CEnum mmm_color_fmts := {
  enum_value := mmm_color_fmts_value;
  enum_all := [MMM_COLOR_FMT_NV12; MMM_COLOR_FMT_NV21; MMM_COLOR_FMT_NV12_UBWC;
               MMM_COLOR_FMT_NV12_BPP10_UBWC; MMM_COLOR_FMT_RGBA8888;
               MMM_COLOR_FMT_RGBA8888_UBWC; MMM_COLOR_FMT_RGBA1010102_UBWC;
               MMM_COLOR_FMT_RGB565_UBWC; MMM_COLOR_FMT_P010_UBWC; MMM_COLOR_FMT_P010;
               MMM_COLOR_FMT_P010_512; MMM_COLOR_FMT_NV12_512;
               MMM_COLOR_FMT_RGBA16161616F_UBWC];
}.

#[export] Instance mmm_color_fmts_laws : CEnumLaws mmm_color_fmts.
Proof. solve_enum_laws. Qed.

(** ** Luma and chroma planes *)

Definition MMM_COLOR_FMT_Y_STRIDE (color_fmt width : Z) : Z :=
  if negb (c_true width) then 0 else
  match enum_decode color_fmt with
  | Some MMM_COLOR_FMT_NV12_512 =>
      let alignment := 512 in MMM_COLOR_FMT_ALIGN U32 width alignment
  | Some MMM_COLOR_FMT_NV12
  | Some MMM_COLOR_FMT_NV21
  | Some MMM_COLOR_FMT_NV12_UBWC =>
      let alignment := 128 in MMM_COLOR_FMT_ALIGN U32 width alignment
  | Some MMM_COLOR_FMT_NV12_BPP10_UBWC =>
      let alignment := 256 in
      let stride := MMM_COLOR_FMT_ALIGN U32 width 192 in
      MMM_COLOR_FMT_ALIGN U32 (stride *[U32] 4 /[U32] 3) alignment
  | Some MMM_COLOR_FMT_P010_UBWC
  | Some MMM_COLOR_FMT_P010 =>
      let alignment := 256 in MMM_COLOR_FMT_ALIGN U32 (width *[U32] 2) alignment
  | Some MMM_COLOR_FMT_P010_512 =>
      let alignment := 512 in MMM_COLOR_FMT_ALIGN U32 (width *[U32] 2) alignment
  | _ => 0
  end.

Definition MMM_COLOR_FMT_UV_STRIDE (color_fmt width : Z) : Z :=
  if negb (c_true width) then 0 else
  match enum_decode color_fmt with
  | Some MMM_COLOR_FMT_NV12_512 =>
      let alignment := 512 in MMM_COLOR_FMT_ALIGN U32 width alignment
  | Some MMM_COLOR_FMT_NV12
  | Some MMM_COLOR_FMT_NV21
  | Some MMM_COLOR_FMT_NV12_UBWC =>
      let alignment := 128 in MMM_COLOR_FMT_ALIGN U32 width alignment
  | Some MMM_COLOR_FMT_NV12_BPP10_UBWC =>
      let alignment := 256 in
      let stride := MMM_COLOR_FMT_ALIGN U32 width 192 in
      MMM_COLOR_FMT_ALIGN U32 (stride *[U32] 4 /[U32] 3) alignment
  | Some MMM_COLOR_FMT_P010_UBWC
  | Some MMM_COLOR_FMT_P010 =>
      let alignment := 256 in MMM_COLOR_FMT_ALIGN U32 (width *[U32] 2) alignment
  | Some MMM_COLOR_FMT_P010_512 =>
      let alignment := 512 in MMM_COLOR_FMT_ALIGN U32 (width *[U32] 2) alignment
  | _ => 0
  end.

Definition MMM_COLOR_FMT_Y_SCANLINES (color_fmt height : Z) : Z :=
  if negb (c_true height) then 0 else
  match enum_decode color_fmt with
  | Some MMM_COLOR_FMT_NV12_512 => MMM_COLOR_FMT_ALIGN U32 height 512
  | Some MMM_COLOR_FMT_NV12
  | Some MMM_COLOR_FMT_NV21
  | Some MMM_COLOR_FMT_NV12_UBWC
  | Some MMM_COLOR_FMT_P010_512
  | Some MMM_COLOR_FMT_P010 => MMM_COLOR_FMT_ALIGN U32 height 32
  | Some MMM_COLOR_FMT_NV12_BPP10_UBWC
  | Some MMM_COLOR_FMT_P010_UBWC => MMM_COLOR_FMT_ALIGN U32 height 16
  | _ => 0
  end.

(** [(height + 1) >> 1]: the rows of a field, or of a subsampled plane. *)
Definition half_up (height : Z) : Z := (height +[U32] 1) >>[U32] 1.

Definition MMM_COLOR_FMT_UV_SCANLINES (color_fmt height : Z) : Z :=
  if negb (c_true height) then 0 else
  match enum_decode color_fmt with
  | Some MMM_COLOR_FMT_NV12_512 => MMM_COLOR_FMT_ALIGN U32 (half_up height) 256
  | Some MMM_COLOR_FMT_NV12
  | Some MMM_COLOR_FMT_NV21
  | Some MMM_COLOR_FMT_NV12_BPP10_UBWC
  | Some MMM_COLOR_FMT_P010_UBWC
  | Some MMM_COLOR_FMT_P010_512
  | Some MMM_COLOR_FMT_P010 => MMM_COLOR_FMT_ALIGN U32 (half_up height) 16
  | Some MMM_COLOR_FMT_NV12_UBWC => MMM_COLOR_FMT_ALIGN U32 (half_up height) 32
  | _ => 0
  end.

(** ** Meta planes of the compressed formats

    The tile sizes and the results are [int] variables: the rounded quotient
    is computed at [unsigned int], stored in an [int], aligned at [int] and
    returned as [unsigned int]. *)

Definition MMM_COLOR_FMT_Y_META_STRIDE (color_fmt width : Z) : Z :=
  if negb (c_true width) then 0 else
  let meta_stride y_tile_width :=
    let y_meta_stride := cast S32 (MMM_COLOR_FMT_ROUNDUP U32 width y_tile_width) in
    cast U32 (MMM_COLOR_FMT_ALIGN S32 y_meta_stride 64) in
  match enum_decode color_fmt with
  | Some MMM_COLOR_FMT_NV12_UBWC
  | Some MMM_COLOR_FMT_P010_UBWC => meta_stride 32
  | Some MMM_COLOR_FMT_NV12_BPP10_UBWC => meta_stride 48
  | _ => 0
  end.

Definition MMM_COLOR_FMT_Y_META_SCANLINES (color_fmt height : Z) : Z :=
  if negb (c_true height) then 0 else
  let meta_scanlines y_tile_height :=
    let y_meta_scanlines := cast S32 (MMM_COLOR_FMT_ROUNDUP U32 height y_tile_height) in
    cast U32 (MMM_COLOR_FMT_ALIGN S32 y_meta_scanlines 16) in
  match enum_decode color_fmt with
  | Some MMM_COLOR_FMT_NV12_UBWC => meta_scanlines 8
  | Some MMM_COLOR_FMT_NV12_BPP10_UBWC
  | Some MMM_COLOR_FMT_P010_UBWC => meta_scanlines 4
  | _ => 0
  end.

Definition MMM_COLOR_FMT_UV_META_STRIDE (color_fmt width : Z) : Z :=
  if negb (c_true width) then 0 else
  let meta_stride uv_tile_width :=
    let uv_meta_stride := cast S32 (MMM_COLOR_FMT_ROUNDUP U32 (half_up width) uv_tile_width) in
    cast U32 (MMM_COLOR_FMT_ALIGN S32 uv_meta_stride 64) in
  match enum_decode color_fmt with
  | Some MMM_COLOR_FMT_NV12_UBWC
  | Some MMM_COLOR_FMT_P010_UBWC => meta_stride 16
  | Some MMM_COLOR_FMT_NV12_BPP10_UBWC => meta_stride 24
  | _ => 0
  end.

Definition MMM_COLOR_FMT_UV_META_SCANLINES (color_fmt height : Z) : Z :=
  if negb (c_true height) then 0 else
  let meta_scanlines uv_tile_height :=
    let uv_meta_scanlines :=
      cast S32 (MMM_COLOR_FMT_ROUNDUP U32 (half_up height) uv_tile_height) in
    cast U32 (MMM_COLOR_FMT_ALIGN S32 uv_meta_scanlines 16) in
  match enum_decode color_fmt with
  | Some MMM_COLOR_FMT_NV12_UBWC => meta_scanlines 8
  | Some MMM_COLOR_FMT_NV12_BPP10_UBWC
  | Some MMM_COLOR_FMT_P010_UBWC => meta_scanlines 4
  | _ => 0
  end.

(** ** RGB planes *)

Definition MMM_COLOR_FMT_RGB_STRIDE (color_fmt width : Z) : Z :=
  if negb (c_true width) then 0 else
  let stride alignment bpp := MMM_COLOR_FMT_ALIGN U32 (width *[U32] bpp) alignment in
  match enum_decode color_fmt with
  | Some MMM_COLOR_FMT_RGBA8888 => stride 256 4
  | Some MMM_COLOR_FMT_RGB565_UBWC => stride 256 2
  | Some MMM_COLOR_FMT_RGBA8888_UBWC
  | Some MMM_COLOR_FMT_RGBA1010102_UBWC => stride 256 4
  | Some MMM_COLOR_FMT_RGBA16161616F_UBWC => stride 256 8
  | _ => 0
  end.

Definition MMM_COLOR_FMT_RGB_SCANLINES (color_fmt height : Z) : Z :=
  if negb (c_true height) then 0 else
  match enum_decode color_fmt with
  | Some MMM_COLOR_FMT_RGBA8888 => MMM_COLOR_FMT_ALIGN U32 height 32
  | Some MMM_COLOR_FMT_RGBA8888_UBWC
  | Some MMM_COLOR_FMT_RGBA1010102_UBWC
  | Some MMM_COLOR_FMT_RGB565_UBWC
  | Some MMM_COLOR_FMT_RGBA16161616F_UBWC => MMM_COLOR_FMT_ALIGN U32 height 16
  | _ => 0
  end.

Definition MMM_COLOR_FMT_RGB_META_STRIDE (color_fmt width : Z) : Z :=
  if negb (c_true width) then 0 else
  let meta_stride rgb_tile_width :=
    let rgb_meta_stride := cast S32 (MMM_COLOR_FMT_ROUNDUP U32 width rgb_tile_width) in
    cast U32 (MMM_COLOR_FMT_ALIGN S32 rgb_meta_stride 64) in
  match enum_decode color_fmt with
  | Some MMM_COLOR_FMT_RGBA8888_UBWC
  | Some MMM_COLOR_FMT_RGBA1010102_UBWC
  | Some MMM_COLOR_FMT_RGB565_UBWC => meta_stride 16
  | Some MMM_COLOR_FMT_RGBA16161616F_UBWC => meta_stride 8
  | _ => 0
  end.

Definition MMM_COLOR_FMT_RGB_META_SCANLINES (color_fmt height : Z) : Z :=
  if negb (c_true height) then 0 else
  let meta_scanlines rgb_tile_height :=
    let rgb_meta_scanlines := cast S32 (MMM_COLOR_FMT_ROUNDUP U32 height rgb_tile_height) in
    cast U32 (MMM_COLOR_FMT_ALIGN S32 rgb_meta_scanlines 16) in
  match enum_decode color_fmt with
  | Some MMM_COLOR_FMT_RGBA8888_UBWC
  | Some MMM_COLOR_FMT_RGBA1010102_UBWC
  | Some MMM_COLOR_FMT_RGB565_UBWC
  | Some MMM_COLOR_FMT_RGBA16161616F_UBWC => meta_scanlines 4
  | _ => 0
  end.

(** ** Buffer sizes *)

(** A frame small enough to be interlaced is given room for two fields. *)
Definition interlace_fits (width height : Z) : bool :=
  (width <=? INTERLACE_WIDTH_MAX) && (height <=? INTERLACE_HEIGHT_MAX) &&
  (height *[U32] width /[U32] 256 <=? INTERLACE_MB_PER_FRAME_MAX).

Definition MMM_COLOR_FMT_BUFFER_SIZE (color_fmt width height : Z) : Z :=
  let aligned size := MMM_COLOR_FMT_ALIGN U32 size 4096 in
  if negb (c_true width) || negb (c_true height) then aligned 0 else
  let y_stride := MMM_COLOR_FMT_Y_STRIDE color_fmt width in
  let uv_stride := MMM_COLOR_FMT_UV_STRIDE color_fmt width in
  let y_sclines := MMM_COLOR_FMT_Y_SCANLINES color_fmt height in
  let uv_sclines := MMM_COLOR_FMT_UV_SCANLINES color_fmt height in
  let rgb_stride := MMM_COLOR_FMT_RGB_STRIDE color_fmt width in
  let rgb_scanlines := MMM_COLOR_FMT_RGB_SCANLINES color_fmt height in
  match enum_decode color_fmt with
  | Some MMM_COLOR_FMT_NV21
  | Some MMM_COLOR_FMT_NV12
  | Some MMM_COLOR_FMT_P010_512
  | Some MMM_COLOR_FMT_P010
  | Some MMM_COLOR_FMT_NV12_512 =>
      let y_plane := y_stride *[U32] y_sclines in
      let uv_plane := uv_stride *[U32] uv_sclines in
      aligned (y_plane +[U32] uv_plane)
  | Some MMM_COLOR_FMT_NV12_UBWC =>
      let y_meta_stride := MMM_COLOR_FMT_Y_META_STRIDE color_fmt width in
      let uv_meta_stride := MMM_COLOR_FMT_UV_META_STRIDE color_fmt width in
      if interlace_fits width height then
        let y_sclines := MMM_COLOR_FMT_Y_SCANLINES color_fmt (half_up height) in
        let y_ubwc_plane := aligned (y_stride *[U32] y_sclines) in
        let uv_sclines := MMM_COLOR_FMT_UV_SCANLINES color_fmt (half_up height) in
        let uv_ubwc_plane := aligned (uv_stride *[U32] uv_sclines) in
        let y_meta_scanlines := MMM_COLOR_FMT_Y_META_SCANLINES color_fmt (half_up height) in
        let y_meta_plane := aligned (y_meta_stride *[U32] y_meta_scanlines) in
        let uv_meta_scanlines := MMM_COLOR_FMT_UV_META_SCANLINES color_fmt (half_up height) in
        let uv_meta_plane := aligned (uv_meta_stride *[U32] uv_meta_scanlines) in
        aligned ((y_ubwc_plane +[U32] uv_ubwc_plane +[U32] y_meta_plane +[U32] uv_meta_plane)
                 *[U32] 2)
      else
        let y_sclines := MMM_COLOR_FMT_Y_SCANLINES color_fmt height in
        let y_ubwc_plane := aligned (y_stride *[U32] y_sclines) in
        let uv_sclines := MMM_COLOR_FMT_UV_SCANLINES color_fmt height in
        let uv_ubwc_plane := aligned (uv_stride *[U32] uv_sclines) in
        let y_meta_scanlines := MMM_COLOR_FMT_Y_META_SCANLINES color_fmt height in
        let y_meta_plane := aligned (y_meta_stride *[U32] y_meta_scanlines) in
        let uv_meta_scanlines := MMM_COLOR_FMT_UV_META_SCANLINES color_fmt height in
        let uv_meta_plane := aligned (uv_meta_stride *[U32] uv_meta_scanlines) in
        aligned (y_ubwc_plane +[U32] uv_ubwc_plane +[U32] y_meta_plane +[U32] uv_meta_plane)
  | Some MMM_COLOR_FMT_NV12_BPP10_UBWC
  | Some MMM_COLOR_FMT_P010_UBWC =>
      let y_ubwc_plane := aligned (y_stride *[U32] y_sclines) in
      let uv_ubwc_plane := aligned (uv_stride *[U32] uv_sclines) in
      let y_meta_stride := MMM_COLOR_FMT_Y_META_STRIDE color_fmt width in
      let y_meta_scanlines := MMM_COLOR_FMT_Y_META_SCANLINES color_fmt height in
      let y_meta_plane := aligned (y_meta_stride *[U32] y_meta_scanlines) in
      let uv_meta_stride := MMM_COLOR_FMT_UV_META_STRIDE color_fmt width in
      let uv_meta_scanlines := MMM_COLOR_FMT_UV_META_SCANLINES color_fmt height in
      let uv_meta_plane := aligned (uv_meta_stride *[U32] uv_meta_scanlines) in
      aligned (y_ubwc_plane +[U32] uv_ubwc_plane +[U32] y_meta_plane +[U32] uv_meta_plane)
  | Some MMM_COLOR_FMT_RGBA8888 =>
      let rgb_plane := aligned (rgb_stride *[U32] rgb_scanlines) in
      aligned rgb_plane
  | Some MMM_COLOR_FMT_RGBA8888_UBWC
  | Some MMM_COLOR_FMT_RGBA1010102_UBWC
  | Some MMM_COLOR_FMT_RGB565_UBWC
  | Some MMM_COLOR_FMT_RGBA16161616F_UBWC =>
      let rgb_ubwc_plane := aligned (rgb_stride *[U32] rgb_scanlines) in
      let rgb_meta_stride := MMM_COLOR_FMT_RGB_META_STRIDE color_fmt width in
      let rgb_meta_scanlines := MMM_COLOR_FMT_RGB_META_SCANLINES color_fmt height in
      let rgb_meta_plane := aligned (rgb_meta_stride *[U32] rgb_meta_scanlines) in
      aligned (rgb_ubwc_plane +[U32] rgb_meta_plane)
  | None => aligned 0
  end.

Definition MMM_COLOR_FMT_BUFFER_SIZE_USED (color_fmt width height interlace : Z) : Z :=
  let aligned size := MMM_COLOR_FMT_ALIGN U32 size 4096 in
  if negb (c_true width) || negb (c_true height) then 0
  else if negb (c_true interlace) && (color_fmt =? mmm_color_fmts_value MMM_COLOR_FMT_NV12_UBWC)
  then
    let y_stride := MMM_COLOR_FMT_Y_STRIDE color_fmt width in
    let uv_stride := MMM_COLOR_FMT_UV_STRIDE color_fmt width in
    let y_sclines := MMM_COLOR_FMT_Y_SCANLINES color_fmt height in
    let y_ubwc_plane := aligned (y_stride *[U32] y_sclines) in
    let uv_sclines := MMM_COLOR_FMT_UV_SCANLINES color_fmt height in
    let uv_ubwc_plane := aligned (uv_stride *[U32] uv_sclines) in
    let y_meta_stride := MMM_COLOR_FMT_Y_META_STRIDE color_fmt width in
    let y_meta_scanlines := MMM_COLOR_FMT_Y_META_SCANLINES color_fmt height in
    let y_meta_plane := aligned (y_meta_stride *[U32] y_meta_scanlines) in
    let uv_meta_stride := MMM_COLOR_FMT_UV_META_STRIDE color_fmt width in
    let uv_meta_scanlines := MMM_COLOR_FMT_UV_META_SCANLINES color_fmt height in
    let uv_meta_plane := aligned (uv_meta_stride *[U32] uv_meta_scanlines) in
    let size := y_ubwc_plane +[U32] uv_ubwc_plane +[U32] y_meta_plane +[U32] uv_meta_plane in
    aligned size
  else MMM_COLOR_FMT_BUFFER_SIZE color_fmt width height.
