(* ===== verification/ColorFmtSpec.v ===== *)
(** * ColorFmtSpec: the geometry the color-format functions implement

    [geometry] gives, for every format, the strides and scanlines in unbounded
    arithmetic; [frame_size] the size of the buffer.  The refinement lemmas
    show that the C functions of [ColorFmt] compute them for frames up to
    [DIM_MAX] x [DIM_MAX]: no machine operation on the way wraps around. *)

From S2P Require Import Prelude Align ColorFmt.

(** ** The rounding macros *)

Section Macros.
Context (t : int_ty) (Hw : 0 < int_width t).

(** Both branches of [MMM_COLOR_FMT_ALIGN] round up. *)
Lemma ALIGN_align_up sz al :
  0 <= sz -> 0 < al -> sz + al <= max_int t -> MMM_COLOR_FMT_ALIGN t sz al = align_up sz al.
Proof using Hw.
  intros Hsz Hal Hmax.
  assert (min_int t <= 0) as Hmin.
  { unfold min_int. destruct (int_signed t); [|lia]. pose proof (Z.pow_nonneg 2 (int_width t - 1)). lia. }
  unfold MMM_COLOR_FMT_ALIGN.
  rewrite (c_sub_id t al 1) by (try done; split; lia).
  rewrite (c_add_id t sz al) by (try done; split; lia).
  rewrite (c_sub_id t (sz + al) 1) by (try done; split; lia).
  assert ((al &[t] (al - 1)) = Z.land al (al - 1)) as ->.
  { apply cast_id; [done|].
    assert (0 <= Z.land al (al - 1)) by (apply Z.land_nonneg; lia).
    pose proof (ldiff_le_self al (Z.lnot (al - 1))) as Hle.
    rewrite Z.ldiff_land, Z.lnot_involutive in Hle. split; lia. }
  unfold c_true. destruct (Z.eqb_spec (Z.land al (al - 1)) 0) as [Hz|Hnz]; simpl.
  - apply land_pred_zero in Hz; [|done].
    rewrite c_and_not by (try done; try (split; lia); lia).
    rewrite Hz. by apply align_up_ldiff, Z.log2_nonneg.
  - unfold align_up, cdiv.
    rewrite c_div_id by (try done; try (split; lia); lia).
    rewrite c_mul_id; [lia|done|].
    pose proof (Z.mul_div_le (sz + al - 1) al Hal).
    pose proof (Z.div_pos (sz + al - 1) al). split; nia.
Qed.

Lemma ROUNDUP_cdiv sz r :
  0 <= sz -> 0 < r -> sz + r <= max_int t -> MMM_COLOR_FMT_ROUNDUP t sz r = cdiv sz r.
Proof using Hw.
  intros Hsz Hr Hmax.
  assert (min_int t <= 0) as Hmin.
  { unfold min_int. destruct (int_signed t); [|lia]. pose proof (Z.pow_nonneg 2 (int_width t - 1)). lia. }
  unfold MMM_COLOR_FMT_ROUNDUP, cdiv.
  rewrite (c_sub_id t r 1) by (try done; split; lia).
  rewrite (c_add_id t sz) by (try done; split; lia).
  rewrite c_div_id by (try done; try (split; lia); lia). f_equal. lia.
Qed.
End Macros.

(** A size rounded to pages is a multiple of the page, whatever the size. *)
Lemma ALIGN_page_divide sz : (4096 | MMM_COLOR_FMT_ALIGN U32 sz 4096).
Proof.
  unfold MMM_COLOR_FMT_ALIGN. change (c_true (4096 &[U32] (4096 -[U32] 1))) with false. simpl.
  rewrite c_and_not; [|done|apply cast_range; done| |by apply (cast_range U32)].
  - change (4096 -[U32] 1) with (2 ^ 12 - 1). rewrite ldiff_pred_pow2 by done.
    apply Z.divide_factor_l.
  - pose proof (cast_range U32 eq_refl ((sz +[U32] 4096) - 1)) as H. unfold_range. unfold c_sub. lia.
Qed.

(** ** Geometry tables *)

(** A plane is laid out in units of [u_pixels] pixels by [u_rows] rows; a row
    of a unit takes [u_bytes] bytes. *)
Record unit_geom : Type := UnitGeom { u_pixels : Z; u_bytes : Z; u_rows : Z }.

Definition stride (u : unit_geom) (w : Z) : Z := u_bytes u * cdiv w (u_pixels u).
Definition scanlines (u : unit_geom) (h : Z) : Z := u_rows u * cdiv h (u_rows u).
Definition plane (u : unit_geom) (w h : Z) : Z := stride u w * scanlines u h.

(** One byte of meta data per tile, in units of 64 x 16 tiles. *)
Record tile_geom : Type := TileGeom { t_width : Z; t_height : Z }.

Definition meta_stride (t : tile_geom) (w : Z) : Z := align_up (cdiv w (t_width t)) 64.
Definition meta_scanlines (t : tile_geom) (h : Z) : Z := align_up (cdiv h (t_height t)) 16.
Definition meta_plane (t : tile_geom) (w h : Z) : Z := meta_stride t w * meta_scanlines t h.

(** Luma and chroma units of the YUV formats.  A chroma row holds as many
    bytes as a luma row; a chroma plane has half as many rows. *)
Definition luma (f : mmm_color_fmts) : option unit_geom :=
  match f with
  | MMM_COLOR_FMT_NV12 | MMM_COLOR_FMT_NV21 | MMM_COLOR_FMT_NV12_UBWC =>
      Some (UnitGeom 128 128 32)
  | MMM_COLOR_FMT_NV12_BPP10_UBWC => Some (UnitGeom 192 256 16)
  | MMM_COLOR_FMT_P010_UBWC => Some (UnitGeom 128 256 16)
  | MMM_COLOR_FMT_P010 => Some (UnitGeom 128 256 32)
  | MMM_COLOR_FMT_P010_512 => Some (UnitGeom 256 512 32)
  | MMM_COLOR_FMT_NV12_512 => Some (UnitGeom 512 512 512)
  | _ => None
  end.

Definition chroma (f : mmm_color_fmts) : option unit_geom :=
  match f with
  | MMM_COLOR_FMT_NV12 | MMM_COLOR_FMT_NV21 => Some (UnitGeom 128 128 16)
  | MMM_COLOR_FMT_NV12_UBWC => Some (UnitGeom 128 128 32)
  | MMM_COLOR_FMT_NV12_BPP10_UBWC => Some (UnitGeom 192 256 16)
  | MMM_COLOR_FMT_P010_UBWC | MMM_COLOR_FMT_P010 => Some (UnitGeom 128 256 16)
  | MMM_COLOR_FMT_P010_512 => Some (UnitGeom 256 512 16)
  | MMM_COLOR_FMT_NV12_512 => Some (UnitGeom 512 512 256)
  | _ => None
  end.

Definition rgb (f : mmm_color_fmts) : option unit_geom :=
  match f with
  | MMM_COLOR_FMT_RGBA8888 => Some (UnitGeom 64 256 32)
  | MMM_COLOR_FMT_RGBA8888_UBWC | MMM_COLOR_FMT_RGBA1010102_UBWC => Some (UnitGeom 64 256 16)
  | MMM_COLOR_FMT_RGB565_UBWC => Some (UnitGeom 128 256 16)
  | MMM_COLOR_FMT_RGBA16161616F_UBWC => Some (UnitGeom 32 256 16)
  | _ => None
  end.

(** Tiles of the compressed formats, in samples of the plane. *)
Definition luma_tile (f : mmm_color_fmts) : option tile_geom :=
  match f with
  | MMM_COLOR_FMT_NV12_UBWC => Some (TileGeom 32 8)
  | MMM_COLOR_FMT_P010_UBWC => Some (TileGeom 32 4)
  | MMM_COLOR_FMT_NV12_BPP10_UBWC => Some (TileGeom 48 4)
  | _ => None
  end.

Definition chroma_tile (f : mmm_color_fmts) : option tile_geom :=
  match f with
  | MMM_COLOR_FMT_NV12_UBWC => Some (TileGeom 16 8)
  | MMM_COLOR_FMT_P010_UBWC => Some (TileGeom 16 4)
  | MMM_COLOR_FMT_NV12_BPP10_UBWC => Some (TileGeom 24 4)
  | _ => None
  end.

Definition rgb_tile (f : mmm_color_fmts) : option tile_geom :=
  match f with
  | MMM_COLOR_FMT_RGBA8888_UBWC | MMM_COLOR_FMT_RGBA1010102_UBWC
  | MMM_COLOR_FMT_RGB565_UBWC => Some (TileGeom 16 4)
  | MMM_COLOR_FMT_RGBA16161616F_UBWC => Some (TileGeom 8 4)
  | _ => None
  end.

(** ** The C functions compute the geometry *)

Definition DIM_MAX : Z := 16384.
Definition dim (x : Z) : Prop := 0 < x <= DIM_MAX.

(** The value a table gives for a format, zero when the format has no entry. *)
Definition entry {A} (o : option A) (k : A -> Z) : Z := match o with Some a => k a | None => 0 end.

Lemma cdiv_2_dim x : dim x -> 0 < cdiv x 2 <= DIM_MAX.
Proof. unfold dim, DIM_MAX, cdiv. intros. zlia. Qed.

Lemma half_up_cdiv x : 0 <= x < 4294967295 -> half_up x = cdiv x 2.
Proof.
  intros. unfold half_up, cdiv.
  rewrite c_add_id, c_shr_id; try done; try (unfold_range; lia).
  f_equal. lia.
Qed.

Lemma c_true_dim x : dim x -> c_true x = true.
Proof. unfold dim, c_true. intros. destruct (Z.eqb_spec x 0); [lia|done]. Qed.

(** Side conditions on frame dimensions: bounds of the arithmetic. *)
Ltac dim_side :=
  try reflexivity;
  unfold dim, DIM_MAX, in_range in *;
  repeat match goal with
         | |- context [max_int ?t] =>
             let v := eval vm_compute in (max_int t) in change (max_int t) with v
         | |- context [min_int ?t] =>
             let v := eval vm_compute in (min_int t) in change (min_int t) with v
         end;
  unfold align_up, cdiv; zlia.

(** Replaces the machine operations of the goal, innermost first, by the
    operations on unbounded integers they compute on frame dimensions. *)
Ltac dim_step :=
  match goal with
  | |- context [half_up ?x] => rewrite (half_up_cdiv x) by dim_side
  | |- context [c_mul ?t ?x ?y] => rewrite (c_mul_id t x y) by dim_side
  | |- context [c_div ?t ?x ?y] => rewrite (c_div_id t x y) by dim_side
  | |- context [MMM_COLOR_FMT_ALIGN ?t ?x ?a] => rewrite (ALIGN_align_up t eq_refl x a) by dim_side
  | |- context [MMM_COLOR_FMT_ROUNDUP ?t ?x ?r] => rewrite (ROUNDUP_cdiv t eq_refl x r) by dim_side
  | |- context [cast S32 ?x] => rewrite (cast_S32_id x) by dim_side
  | |- context [cast U32 ?x] => rewrite (cast_U32_id x) by dim_side
  end.

(** A geometry function at format [f] and dimension [x]. *)
Ltac geometry_case f :=
  rewrite c_true_dim, enum_decode_value by done; cbn [negb];
  destruct f; cbn beta iota zeta delta [entry luma chroma rgb luma_tile chroma_tile rgb_tile];
  try reflexivity; repeat dim_step.

Lemma Y_STRIDE_spec f w :
  dim w -> MMM_COLOR_FMT_Y_STRIDE (enum_value f) w = entry (luma f) (fun u => stride u w).
Proof.
  intros Hw. unfold MMM_COLOR_FMT_Y_STRIDE. geometry_case f.
  all: unfold stride, align_up, cdiv; cbn [u_bytes u_pixels]; zlia.
Qed.

Lemma UV_STRIDE_spec f w :
  dim w -> MMM_COLOR_FMT_UV_STRIDE (enum_value f) w = entry (chroma f) (fun u => stride u w).
Proof.
  intros Hw. unfold MMM_COLOR_FMT_UV_STRIDE. geometry_case f.
  all: unfold stride, align_up, cdiv; cbn [u_bytes u_pixels]; zlia.
Qed.

Lemma Y_SCANLINES_spec f h :
  dim h -> MMM_COLOR_FMT_Y_SCANLINES (enum_value f) h = entry (luma f) (fun u => scanlines u h).
Proof.
  intros Hh. unfold MMM_COLOR_FMT_Y_SCANLINES. geometry_case f; reflexivity.
Qed.

Lemma UV_SCANLINES_spec f h :
  dim h ->
  MMM_COLOR_FMT_UV_SCANLINES (enum_value f) h = entry (chroma f) (fun u => scanlines u (cdiv h 2)).
Proof.
  intros Hh. unfold MMM_COLOR_FMT_UV_SCANLINES. geometry_case f; reflexivity.
Qed.

Lemma Y_META_STRIDE_spec f w :
  dim w ->
  MMM_COLOR_FMT_Y_META_STRIDE (enum_value f) w = entry (luma_tile f) (fun t => meta_stride t w).
Proof.
  intros Hw. unfold MMM_COLOR_FMT_Y_META_STRIDE. geometry_case f; reflexivity.
Qed.

Lemma Y_META_SCANLINES_spec f h :
  dim h ->
  MMM_COLOR_FMT_Y_META_SCANLINES (enum_value f) h =
  entry (luma_tile f) (fun t => meta_scanlines t h).
Proof.
  intros Hh. unfold MMM_COLOR_FMT_Y_META_SCANLINES. geometry_case f; reflexivity.
Qed.

Lemma UV_META_STRIDE_spec f w :
  dim w ->
  MMM_COLOR_FMT_UV_META_STRIDE (enum_value f) w =
  entry (chroma_tile f) (fun t => meta_stride t (cdiv w 2)).
Proof.
  intros Hw. unfold MMM_COLOR_FMT_UV_META_STRIDE. geometry_case f; reflexivity.
Qed.

Lemma UV_META_SCANLINES_spec f h :
  dim h ->
  MMM_COLOR_FMT_UV_META_SCANLINES (enum_value f) h =
  entry (chroma_tile f) (fun t => meta_scanlines t (cdiv h 2)).
Proof.
  intros Hh. unfold MMM_COLOR_FMT_UV_META_SCANLINES. geometry_case f; reflexivity.
Qed.

Lemma RGB_STRIDE_spec f w :
  dim w -> MMM_COLOR_FMT_RGB_STRIDE (enum_value f) w = entry (rgb f) (fun u => stride u w).
Proof.
  intros Hw. unfold MMM_COLOR_FMT_RGB_STRIDE. geometry_case f.
  all: unfold stride, align_up, cdiv; cbn [u_bytes u_pixels]; zlia.
Qed.

Lemma RGB_SCANLINES_spec f h :
  dim h -> MMM_COLOR_FMT_RGB_SCANLINES (enum_value f) h = entry (rgb f) (fun u => scanlines u h).
Proof.
  intros Hh. unfold MMM_COLOR_FMT_RGB_SCANLINES. geometry_case f; reflexivity.
Qed.

Lemma RGB_META_STRIDE_spec f w :
  dim w ->
  MMM_COLOR_FMT_RGB_META_STRIDE (enum_value f) w = entry (rgb_tile f) (fun t => meta_stride t w).
Proof.
  intros Hw. unfold MMM_COLOR_FMT_RGB_META_STRIDE. geometry_case f; reflexivity.
Qed.

Lemma RGB_META_SCANLINES_spec f h :
  dim h ->
  MMM_COLOR_FMT_RGB_META_SCANLINES (enum_value f) h =
  entry (rgb_tile f) (fun t => meta_scanlines t h).
Proof.
  intros Hh. unfold MMM_COLOR_FMT_RGB_META_SCANLINES. geometry_case f; reflexivity.
Qed.

(** ** Frame sizes *)

Definition page (size : Z) : Z := align_up size 4096.

(** The planes of a frame, in the order the buffer holds them. *)
Definition luma_plane f w h := entry (luma f) (fun u => plane u w h).
Definition chroma_plane f w h := entry (chroma f) (fun u => plane u w (cdiv h 2)).
Definition rgb_plane f w h := entry (rgb f) (fun u => plane u w h).
Definition luma_meta f w h := entry (luma_tile f) (fun t => meta_plane t w h).
Definition chroma_meta f w h := entry (chroma_tile f) (fun t => meta_plane t (cdiv w 2) (cdiv h 2)).
Definition rgb_meta f w h := entry (rgb_tile f) (fun t => meta_plane t w h).

(** The uncompressed YUV formats: planes follow each other without padding. *)
Definition linear_yuv (f : mmm_color_fmts) : bool :=
  match f with
  | MMM_COLOR_FMT_NV12 | MMM_COLOR_FMT_NV21 | MMM_COLOR_FMT_P010
  | MMM_COLOR_FMT_P010_512 | MMM_COLOR_FMT_NV12_512 => true
  | _ => false
  end.

(** Every plane of the other formats starts on a page. *)
Definition paged_size f w h : Z :=
  page (luma_plane f w h) + page (chroma_plane f w h) + page (luma_meta f w h)
  + page (chroma_meta f w h) + page (rgb_plane f w h) + page (rgb_meta f w h).

(** NV12 UBWC frames up to the interlacing limits hold two fields. *)
Definition interlaced f w h : bool :=
  bool_decide (f = MMM_COLOR_FMT_NV12_UBWC) &&
  ((w <=? 1920) && (h <=? 1920) && (h * w / 256 <=? 8160)).

Definition frame_size f w h : Z :=
  if linear_yuv f then page (luma_plane f w h + chroma_plane f w h)
  else if interlaced f w h then 2 * paged_size f w (cdiv h 2)
  else paged_size f w h.

(** *** Bounds *)

Lemma product_bound x y X Y : 0 <= x <= X -> 0 <= y <= Y -> 0 <= x * y <= X * Y.
Proof. intros. split; [nia|]. apply Z.mul_le_mono_nonneg; lia. Qed.

Ltac plane_bound f X Y :=
  unfold luma_plane, chroma_plane, rgb_plane, luma_meta, chroma_meta, rgb_meta;
  destruct f; cbn [entry luma chroma rgb luma_tile chroma_tile rgb_tile]; try lia;
  unfold plane, meta_plane; apply (product_bound _ _ X Y);
  unfold stride, scanlines, meta_stride, meta_scanlines; cbn [u_pixels u_bytes u_rows t_width t_height];
  dim_side.

Section Bounds.
Context (f : mmm_color_fmts) (w h : Z) (Hw : dim w) (Hh : dim h).

Lemma luma_plane_bound : 0 <= luma_plane f w h <= 32768 * 16384.
Proof using Hw Hh. plane_bound f 32768 16384. Qed.
Lemma chroma_plane_bound : 0 <= chroma_plane f w h <= 32768 * 8192.
Proof using Hw Hh. plane_bound f 32768 8192. Qed.
Lemma rgb_plane_bound : 0 <= rgb_plane f w h <= 131072 * 16384.
Proof using Hw Hh. plane_bound f 131072 16384. Qed.
Lemma luma_meta_bound : 0 <= luma_meta f w h <= 512 * 4096.
Proof using Hw Hh. plane_bound f 512 4096. Qed.
Lemma chroma_meta_bound : 0 <= chroma_meta f w h <= 512 * 2048.
Proof using Hw Hh. plane_bound f 512 2048. Qed.
Lemma rgb_meta_bound : 0 <= rgb_meta f w h <= 2048 * 4096.
Proof using Hw Hh. plane_bound f 2048 4096. Qed.
End Bounds.

Lemma page_bound x M : 0 <= x <= M -> 0 <= page x <= M + 4095.
Proof. unfold page, align_up, cdiv. intros. zlia. Qed.

Lemma page_0 : page 0 = 0.
Proof. reflexivity. Qed.

Lemma page_sum x y : page (page x + page y) = page x + page y.
Proof. unfold page, align_up, cdiv. zlia. Qed.

Lemma page_idem x : page (page x) = page x.
Proof. unfold page, align_up, cdiv. zlia. Qed.

(** *** Planes as the C code computes them *)

Lemma aligned_page size : 0 <= size < 4294967296 - 4096 -> MMM_COLOR_FMT_ALIGN U32 size 4096 = page size.
Proof. intros. apply ALIGN_align_up; [done|lia|lia|]. change (max_int U32) with 4294967295. lia. Qed.

Lemma U32_mul x y : 0 <= x * y < 4294967296 -> (x *[U32] y) = x * y.
Proof. apply cast_U32_id. Qed.

Lemma U32_add x y : 0 <= x + y < 4294967296 -> (x +[U32] y) = x + y.
Proof. apply cast_U32_id. Qed.

Lemma interlace_fits_spec w h :
  dim w -> dim h ->
  interlace_fits w h = (w <=? 1920) && (h <=? 1920) && (h * w / 256 <=? 8160).
Proof.
  intros Hw Hh. unfold interlace_fits.
  assert (0 <= h * w <= DIM_MAX * DIM_MAX) by (apply product_bound; unfold dim in *; lia).
  rewrite c_mul_id, c_div_id; try done; try (unfold_range; unfold DIM_MAX in *; lia).
Qed.

(** Removes the wrap-around of a machine operation whose result is in range. *)
Ltac u32_step :=
  match goal with
  | |- context [c_mul U32 ?x ?y] => rewrite (U32_mul x y) by lia
  | |- context [c_add U32 ?x ?y] => rewrite (U32_add x y) by lia
  | |- context [MMM_COLOR_FMT_ALIGN U32 ?x 4096] => rewrite (aligned_page x) by lia
  end.

(** Pages of four planes, as the compressed YUV branches add them up. *)
Lemma four_pages a b c d :
  0 <= a <= 32768 * 16384 -> 0 <= b <= 32768 * 8192 -> 0 <= c <= 512 * 4096 ->
  0 <= d <= 512 * 2048 ->
  MMM_COLOR_FMT_ALIGN U32
    (MMM_COLOR_FMT_ALIGN U32 a 4096 +[U32] MMM_COLOR_FMT_ALIGN U32 b 4096
     +[U32] MMM_COLOR_FMT_ALIGN U32 c 4096 +[U32] MMM_COLOR_FMT_ALIGN U32 d 4096) 4096
  = page a + page b + page c + page d.
Proof.
  intros Ha Hb Hc Hd.
  pose proof (page_bound a _ Ha). pose proof (page_bound b _ Hb).
  pose proof (page_bound c _ Hc). pose proof (page_bound d _ Hd).
  repeat u32_step. unfold page, align_up, cdiv. zlia.
Qed.

(** *** The products of strides and scanlines are the planes *)

Lemma entry_product {A} (o : option A) (k1 k2 : A -> Z) M :
  M < 4294967296 ->
  0 <= entry o (fun a => k1 a * k2 a) <= M ->
  (entry o k1 *[U32] entry o k2) = entry o (fun a => k1 a * k2 a).
Proof. intros HM. destruct o; cbn [entry]; [|done]. intros. apply U32_mul. lia. Qed.

Section Products.
Context (f : mmm_color_fmts) (w h : Z) (Hw : dim w) (Hh : dim h).

Lemma luma_product :
  (entry (luma f) (fun u => stride u w) *[U32] entry (luma f) (fun u => scanlines u h))
  = luma_plane f w h.
Proof using Hw Hh. apply entry_product with (32768 * 16384); [lia|]. by apply luma_plane_bound. Qed.

Lemma chroma_product :
  (entry (chroma f) (fun u => stride u w) *[U32] entry (chroma f) (fun u => scanlines u (cdiv h 2)))
  = chroma_plane f w h.
Proof using Hw Hh. apply entry_product with (32768 * 8192); [lia|]. by apply chroma_plane_bound. Qed.

Lemma rgb_product :
  (entry (rgb f) (fun u => stride u w) *[U32] entry (rgb f) (fun u => scanlines u h))
  = rgb_plane f w h.
Proof using Hw Hh. apply entry_product with (131072 * 16384); [lia|]. by apply rgb_plane_bound. Qed.

Lemma luma_meta_product :
  (entry (luma_tile f) (fun t => meta_stride t w)
   *[U32] entry (luma_tile f) (fun t => meta_scanlines t h))
  = luma_meta f w h.
Proof using Hw Hh. apply entry_product with (512 * 4096); [lia|]. by apply luma_meta_bound. Qed.

Lemma chroma_meta_product :
  (entry (chroma_tile f) (fun t => meta_stride t (cdiv w 2))
   *[U32] entry (chroma_tile f) (fun t => meta_scanlines t (cdiv h 2)))
  = chroma_meta f w h.
Proof using Hw Hh. apply entry_product with (512 * 2048); [lia|]. by apply chroma_meta_bound. Qed.

Lemma rgb_meta_product :
  (entry (rgb_tile f) (fun t => meta_stride t w)
   *[U32] entry (rgb_tile f) (fun t => meta_scanlines t h))
  = rgb_meta f w h.
Proof using Hw Hh. apply entry_product with (2048 * 4096); [lia|]. by apply rgb_meta_bound. Qed.
End Products.

(** The two stride functions have the same body, so their equations are rewritten by
    name, in the order of the code, before this database. *)
Create Rewrite HintDb geometry.
#[export] Hint Rewrite  Y_SCANLINES_spec UV_SCANLINES_spec
  Y_META_STRIDE_spec UV_META_STRIDE_spec Y_META_SCANLINES_spec UV_META_SCANLINES_spec
  RGB_STRIDE_spec RGB_SCANLINES_spec RGB_META_STRIDE_spec RGB_META_SCANLINES_spec
  luma_product chroma_product luma_meta_product chroma_meta_product rgb_product rgb_meta_product
  using done : geometry.

(** The bounds of all the planes of a frame, for [lia]. *)
Ltac plane_bounds f w h :=
  pose proof (luma_plane_bound f w h ltac:(done) ltac:(done));
  pose proof (chroma_plane_bound f w h ltac:(done) ltac:(done));
  pose proof (rgb_plane_bound f w h ltac:(done) ltac:(done));
  pose proof (luma_meta_bound f w h ltac:(done) ltac:(done));
  pose proof (chroma_meta_bound f w h ltac:(done) ltac:(done));
  pose proof (rgb_meta_bound f w h ltac:(done) ltac:(done)).

(** The compressed planes of a YUV frame; its RGB planes are empty. *)
Lemma paged_size_yuv f w h :
  rgb f = None -> rgb_tile f = None -> dim w -> dim h ->
  MMM_COLOR_FMT_ALIGN U32
    (MMM_COLOR_FMT_ALIGN U32 (luma_plane f w h) 4096
     +[U32] MMM_COLOR_FMT_ALIGN U32 (chroma_plane f w h) 4096
     +[U32] MMM_COLOR_FMT_ALIGN U32 (luma_meta f w h) 4096
     +[U32] MMM_COLOR_FMT_ALIGN U32 (chroma_meta f w h) 4096) 4096
  = paged_size f w h.
Proof.
  intros E1 E2 Hw Hh. plane_bounds f w h.
  rewrite four_pages by done. unfold paged_size, rgb_plane, rgb_meta.
  rewrite E1, E2. cbn [entry]. rewrite page_0. lia.
Qed.

Lemma paged_size_rgb f w h :
  luma f = None -> chroma f = None -> luma_tile f = None -> chroma_tile f = None ->
  dim w -> dim h ->
  MMM_COLOR_FMT_ALIGN U32
    (MMM_COLOR_FMT_ALIGN U32 (rgb_plane f w h) 4096
     +[U32] MMM_COLOR_FMT_ALIGN U32 (rgb_meta f w h) 4096) 4096
  = paged_size f w h.
Proof.
  intros E1 E2 E3 E4 Hw Hh. plane_bounds f w h.
  pose proof (page_bound (rgb_plane f w h) (131072 * 16384) ltac:(done)).
  pose proof (page_bound (rgb_meta f w h) (2048 * 4096) ltac:(done)).
  repeat u32_step. rewrite page_sum. unfold paged_size, luma_plane, chroma_plane, luma_meta, chroma_meta.
  rewrite E1, E2, E3, E4. cbn [entry]. rewrite !page_0. lia.
Qed.

Lemma paged_size_RGBA8888 w h :
  paged_size MMM_COLOR_FMT_RGBA8888 w h = page (rgb_plane MMM_COLOR_FMT_RGBA8888 w h).
Proof.
  unfold paged_size, luma_plane, chroma_plane, luma_meta, chroma_meta, rgb_meta.
  cbn [entry luma chroma luma_tile chroma_tile rgb_tile]. rewrite !page_0. lia.
Qed.

Lemma linear_size f w h :
  dim w -> dim h ->
  MMM_COLOR_FMT_ALIGN U32 (luma_plane f w h +[U32] chroma_plane f w h) 4096
  = page (luma_plane f w h + chroma_plane f w h).
Proof. intros Hw Hh. plane_bounds f w h. by repeat u32_step. Qed.

(** Field planes of the interlaced format: half the size doubles exactly. *)
Lemma interlaced_size f w h :
  f = MMM_COLOR_FMT_NV12_UBWC -> dim w -> dim h ->
  MMM_COLOR_FMT_ALIGN U32
    ((MMM_COLOR_FMT_ALIGN U32 (luma_plane f w (cdiv h 2)) 4096
      +[U32] MMM_COLOR_FMT_ALIGN U32 (chroma_plane f w (cdiv h 2)) 4096
      +[U32] MMM_COLOR_FMT_ALIGN U32 (luma_meta f w (cdiv h 2)) 4096
      +[U32] MMM_COLOR_FMT_ALIGN U32 (chroma_meta f w (cdiv h 2)) 4096) *[U32] 2) 4096
  = 2 * paged_size f w (cdiv h 2).
Proof.
  intros -> Hw Hh. pose proof (cdiv_2_dim h Hh) as Hh2. fold (dim (cdiv h 2)) in Hh2.
  set (f := MMM_COLOR_FMT_NV12_UBWC). plane_bounds f w (cdiv h 2). set (k := cdiv h 2) in *.
  pose proof (page_bound (luma_plane f w k) (32768 * 16384) ltac:(done)).
  pose proof (page_bound (chroma_plane f w k) (32768 * 8192) ltac:(done)).
  pose proof (page_bound (luma_meta f w k) (512 * 4096) ltac:(done)).
  pose proof (page_bound (chroma_meta f w k) (512 * 2048) ltac:(done)).
  repeat u32_step. unfold paged_size.
  change (rgb_plane f w k) with 0. change (rgb_meta f w k) with 0. rewrite page_0.
  unfold page, align_up, cdiv. zlia.
Qed.

#[local] Opaque MMM_COLOR_FMT_Y_STRIDE MMM_COLOR_FMT_UV_STRIDE MMM_COLOR_FMT_ALIGN paged_size page.

Lemma BUFFER_SIZE_spec f w h :
  dim w -> dim h -> MMM_COLOR_FMT_BUFFER_SIZE (enum_value f) w h = frame_size f w h.
Proof.
  intros Hw Hh. pose proof (cdiv_2_dim h Hh) as Hh2. fold (dim (cdiv h 2)) in Hh2.
  assert (half_up h = cdiv h 2) as Eh by (apply half_up_cdiv; unfold dim, DIM_MAX in *; lia).
  unfold MMM_COLOR_FMT_BUFFER_SIZE.
  rewrite !c_true_dim, enum_decode_value, interlace_fits_spec by done. cbn [negb orb].
  rewrite Eh, Y_STRIDE_spec, UV_STRIDE_spec by done. autorewrite with geometry.
  plane_bounds f w h. plane_bounds f w (cdiv h 2).
  unfold frame_size, interlaced.
  destruct f; cbn [linear_yuv].
  all: first [rewrite linear_size by done; reflexivity
             | rewrite paged_size_yuv by done; reflexivity
             | rewrite paged_size_rgb by done; reflexivity
             | idtac].
  - rewrite bool_decide_true, andb_true_l by done.
    destruct ((w <=? 1920) && (h <=? 1920) && (h * w / 256 <=? 8160)); 
      [rewrite interlaced_size by done | rewrite paged_size_yuv by done]; reflexivity.
  - pose proof (page_bound (rgb_plane MMM_COLOR_FMT_RGBA8888 w h) (131072 * 16384) ltac:(done)).
    repeat u32_step. rewrite page_idem, bool_decide_false, andb_false_l by done.
    by rewrite paged_size_RGBA8888.
Qed.

Lemma BUFFER_SIZE_USED_spec f w h interlace :
  dim w -> dim h ->
  MMM_COLOR_FMT_BUFFER_SIZE_USED (enum_value f) w h interlace =
  if negb (c_true interlace) && bool_decide (f = MMM_COLOR_FMT_NV12_UBWC)
  then paged_size f w h else frame_size f w h.
Proof.
  intros Hw Hh. unfold MMM_COLOR_FMT_BUFFER_SIZE_USED.
  rewrite !c_true_dim by done. cbn [negb orb].
  assert ((enum_value f =? mmm_color_fmts_value MMM_COLOR_FMT_NV12_UBWC) =
          bool_decide (f = MMM_COLOR_FMT_NV12_UBWC)) as -> by by destruct f.
  destruct (negb (c_true interlace)); cbn [andb]; [|by apply BUFFER_SIZE_spec].
  case_bool_decide as Hf; [|by apply BUFFER_SIZE_spec].
  rewrite Y_STRIDE_spec, UV_STRIDE_spec by done. autorewrite with geometry.
  subst f. by rewrite paged_size_yuv by done.
Qed.

#[local] Transparent MMM_COLOR_FMT_Y_STRIDE MMM_COLOR_FMT_UV_STRIDE MMM_COLOR_FMT_ALIGN paged_size page.

(** ** Order properties of the geometry *)

Lemma cdiv_double a x y : 0 < a -> x <= 2 * y -> cdiv x a <= 2 * cdiv y a.
Proof. intros Ha H. apply cdiv_le_iff; [done|]. pose proof (cdiv_spec a Ha y). lia. Qed.

Lemma le_double_half x : x <= 2 * cdiv x 2.
Proof. unfold cdiv. zlia. Qed.

(** Units and tiles of the tables have positive sides. *)
Definition unit_pos (u : unit_geom) : Prop := 0 < u_pixels u /\ 0 < u_bytes u /\ 0 < u_rows u.
Definition tile_pos (t : tile_geom) : Prop := 0 < t_width t /\ 0 < t_height t.

Section Order.
Context (u : unit_geom) (t : tile_geom) (Hu : unit_pos u) (Ht : tile_pos t).

Lemma stride_nonneg w : 0 <= w -> 0 <= stride u w.
Proof using Hu.
  destruct Hu as (?&?&?). intros. unfold stride. apply Z.mul_nonneg_nonneg; [lia|]. by apply cdiv_nonneg.
Qed.

Lemma scanlines_nonneg h : 0 <= h -> 0 <= scanlines u h.
Proof using Hu.
  destruct Hu as (?&?&?). intros. by apply align_up_nonneg.
Qed.

Lemma stride_mono w w' : w <= w' -> stride u w <= stride u w'.
Proof using Hu.
  destruct Hu as (?&?&?). intros. apply Z.mul_le_mono_nonneg_l; [lia|]. by apply cdiv_mono.
Qed.

Lemma scanlines_ge h : h <= scanlines u h.
Proof using Hu. destruct Hu as (?&?&?). by apply align_up_ge. Qed.

Lemma scanlines_mono h h' : h <= h' -> scanlines u h <= scanlines u h'.
Proof using Hu. destruct Hu as (?&?&?). by apply align_up_mono. Qed.

Lemma plane_mono w w' h h' : 0 <= w <= w' -> 0 <= h <= h' -> plane u w h <= plane u w' h'.
Proof using Hu.
  intros. unfold plane.
  apply Z.mul_le_mono_nonneg.
  - apply stride_nonneg; lia.
  - apply stride_mono; lia.
  - apply scanlines_nonneg; lia.
  - apply scanlines_mono; lia.
Qed.

Lemma meta_plane_mono w w' h h' :
  0 <= w <= w' -> 0 <= h <= h' -> meta_plane t w h <= meta_plane t w' h'.
Proof using Ht.
  destruct Ht as (?&?). intros. unfold meta_plane, meta_stride, meta_scanlines.
  apply Z.mul_le_mono_nonneg.
  1,3: apply align_up_nonneg; [done|]; apply cdiv_nonneg; lia.
  all: apply align_up_mono; [done|]; apply cdiv_mono; lia.
Qed.

(** A plane of [h] rows is no larger than two planes of half the rows. *)
Lemma plane_double w h h' : 0 <= w -> h <= 2 * h' -> plane u w h <= 2 * plane u w h'.
Proof using Hu.
  intros Hw Hh. pose proof (stride_nonneg w Hw). destruct Hu as (?&?&?). unfold plane.
  assert (scanlines u h <= 2 * scanlines u h') by (by apply align_up_double). nia.
Qed.

Lemma meta_plane_double w h h' : 0 <= w -> h <= 2 * h' -> meta_plane t w h <= 2 * meta_plane t w h'.
Proof using Ht.
  destruct Ht as (?&?). intros Hw Hh. unfold meta_plane, meta_stride, meta_scanlines.
  assert (0 <= align_up (cdiv w (t_width t)) 64)
    by (apply align_up_nonneg; [done|]; apply cdiv_nonneg; lia).
  assert (align_up (cdiv h (t_height t)) 16 <= 2 * align_up (cdiv h' (t_height t)) 16)
    by (apply align_up_double; [done|]; by apply cdiv_double).
  nia.
Qed.
End Order.

Lemma page_mono x y : x <= y -> page x <= page y.
Proof. by apply align_up_mono. Qed.

Lemma page_double x y : x <= 2 * y -> page x <= 2 * page y.
Proof. by apply align_up_double. Qed.

(** Lifts a comparison of planes to table entries. *)
Lemma entry_page_le {A} (o : option A) (P : A -> Prop) (k1 k2 : A -> Z) c :
  match o with Some a => P a | None => True end ->
  (forall a, P a -> page (k1 a) <= c * page (k2 a)) ->
  page (entry o k1) <= c * page (entry o k2).
Proof. destruct o; cbn; [auto|]. intros _ _. rewrite page_0. lia. Qed.

Section Tables.
Context (f : mmm_color_fmts).
Lemma luma_pos : match luma f with Some u => unit_pos u | None => True end.
Proof. by destruct f. Qed.
Lemma chroma_pos : match chroma f with Some u => unit_pos u | None => True end.
Proof. by destruct f. Qed.
Lemma rgb_pos : match rgb f with Some u => unit_pos u | None => True end.
Proof. by destruct f. Qed.
Lemma luma_tile_pos : match luma_tile f with Some t => tile_pos t | None => True end.
Proof. by destruct f. Qed.
Lemma chroma_tile_pos : match chroma_tile f with Some t => tile_pos t | None => True end.
Proof. by destruct f. Qed.
Lemma rgb_tile_pos : match rgb_tile f with Some t => tile_pos t | None => True end.
Proof. by destruct f. Qed.
End Tables.

(** Two fields hold a frame. *)
Lemma paged_size_double f w h : 0 <= w -> paged_size f w h <= 2 * paged_size f w (cdiv h 2).
Proof.
  intros Hw. pose proof (le_double_half h) as Hh. pose proof (le_double_half (cdiv h 2)) as Hh2.
  unfold paged_size.
  assert (page (luma_plane f w h) <= 2 * page (luma_plane f w (cdiv h 2))).
  { apply entry_page_le with unit_pos; [apply luma_pos|]. intros. by apply page_double, plane_double. }
  assert (page (chroma_plane f w h) <= 2 * page (chroma_plane f w (cdiv h 2))).
  { apply entry_page_le with unit_pos; [apply chroma_pos|]. intros. by apply page_double, plane_double. }
  assert (page (rgb_plane f w h) <= 2 * page (rgb_plane f w (cdiv h 2))).
  { apply entry_page_le with unit_pos; [apply rgb_pos|]. intros. by apply page_double, plane_double. }
  assert (page (luma_meta f w h) <= 2 * page (luma_meta f w (cdiv h 2))).
  { apply entry_page_le with tile_pos; [apply luma_tile_pos|]. intros. by apply page_double, meta_plane_double. }
  assert (page (chroma_meta f w h) <= 2 * page (chroma_meta f w (cdiv h 2))).
  { apply entry_page_le with tile_pos; [apply chroma_tile_pos|].
    intros. apply page_double, meta_plane_double; [done|unfold cdiv; zlia|done]. }
  assert (page (rgb_meta f w h) <= 2 * page (rgb_meta f w (cdiv h 2))).
  { apply entry_page_le with tile_pos; [apply rgb_tile_pos|]. intros. by apply page_double, meta_plane_double. }
  lia.
Qed.
