(* ===== verification/ColorFmtDoc.v ===== *)
(** * ColorFmtDoc: the layouts documented for the MMM color formats

    The comment above each enumerator of [enum mmm_color_fmts] in
    [include/display/media/mmm_color_fmt.h] gives the formulas of the format's
    strides, scanlines and total size.  Each [doc_*] definition transcribes one
    comment, on unbounded integers ([/] is the C division of the formulas, and
    [roundup] counts the tiles that cover a dimension).  Where a comment names a
    tile size without its value, the value is an argument.  The theorems of the
    file compare the C functions with these formulas. *)

From S2P Require Import Prelude Align ColorFmt ColorFmtSpec.

(** ** Transcription *)

Definition align (sz a : Z) : Z := align_up sz a.
Definition roundup (sz r : Z) : Z := cdiv sz r.

(** A plane of a documented layout: its stride and its scanlines. *)
Record doc_plane : Type := DocPlane { Stride : Z; Scanlines : Z }.

Definition plane_bytes (p : doc_plane) : Z := Stride p * Scanlines p.
Definition Plane_size (p : doc_plane) : Z := align (plane_bytes p) 4096.

Record doc_layout : Type := DocLayout {
  doc_planes : list doc_plane;
  Total_size : Z;
}.

(** The tiles of a compressed format, in pixels of the image. *)
Record doc_tiles : Type := DocTiles {
  Y_TileWidth : Z; Y_TileHeight : Z; UV_TileWidth : Z; UV_TileHeight : Z;
}.

Record doc_rgb_tiles : Type := DocRgbTiles { RGB_TileWidth : Z; RGB_TileHeight : Z }.

Definition doc_NV12 (Width Height : Z) : doc_layout :=
  let Y := DocPlane (align Width 128) (align Height 32) in
  let UV := DocPlane (align Width 128) (align (Height / 2) 16) in
  DocLayout [Y; UV] (align (plane_bytes Y + plane_bytes UV) 4096).

Definition doc_NV21 (Width Height : Z) : doc_layout :=
  let Y := DocPlane (align Width 128) (align Height 32) in
  let UV := DocPlane (align Width 128) (align (Height / 2) 16) in
  DocLayout [Y; UV] (align (plane_bytes Y + plane_bytes UV) 4096).

(** Venus NV12 UBWC, (1) progressive. *)
Definition doc_NV12_UBWC (T : doc_tiles) (Width Height : Z) : doc_layout :=
  let Y := DocPlane (align Width 128) (align Height 32) in
  let UV := DocPlane (align Width 128) (align (Height / 2) 32) in
  let Y_Meta := DocPlane (align (roundup Width (Y_TileWidth T)) 64)
                         (align (roundup Height (Y_TileHeight T)) 16) in
  let UV_Meta := DocPlane (align (roundup Width (UV_TileWidth T)) 64)
                          (align (roundup Height (UV_TileHeight T)) 16) in
  DocLayout [Y_Meta; Y; UV_Meta; UV]
    (align (Plane_size Y + Plane_size UV + Plane_size Y_Meta + Plane_size UV_Meta) 4096).

(** Venus NV12 UBWC, (2) interlaced: the top field, then the bottom field. *)
Definition doc_NV12_UBWC_interlaced (T : doc_tiles) (Width Height : Z) : doc_layout :=
  let Half_height := Z.shiftr (Height + 1) 1 in
  let Y_TF := DocPlane (align Width 128) (align Half_height 32) in
  let UV_TF := DocPlane (align Width 128) (align ((Half_height + 1) / 2) 32) in
  let Y_TF_Meta := DocPlane (align (roundup Width (Y_TileWidth T)) 64)
                            (align (roundup Half_height (Y_TileHeight T)) 16) in
  let UV_TF_Meta := DocPlane (align (roundup Width (UV_TileWidth T)) 64)
                             (align (roundup Half_height (UV_TileHeight T)) 16) in
  let Y_BF := DocPlane (align Width 128) (align Half_height 32) in
  let UV_BF := DocPlane (align Width 128) (align ((Half_height + 1) / 2) 32) in
  let Y_BF_Meta := DocPlane (align (roundup Width (Y_TileWidth T)) 64)
                            (align (roundup Half_height (Y_TileHeight T)) 16) in
  let UV_BF_Meta := DocPlane (align (roundup Width (UV_TileWidth T)) 64)
                             (align (roundup Half_height (UV_TileHeight T)) 16) in
  DocLayout [Y_TF_Meta; Y_TF; UV_TF_Meta; UV_TF; Y_BF_Meta; Y_BF; UV_BF_Meta; UV_BF]
    (align (Plane_size Y_TF + Plane_size UV_TF + Plane_size Y_TF_Meta + Plane_size UV_TF_Meta
            + Plane_size Y_BF + Plane_size UV_BF + Plane_size Y_BF_Meta + Plane_size UV_BF_Meta)
       4096).

Definition doc_NV12_BPP10_UBWC (T : doc_tiles) (Width Height : Z) : doc_layout :=
  let Y := DocPlane (align (Width * 4 / 3) 256) (align Height 32) in
  let UV := DocPlane (align (Width * 4 / 3) 256) (align (Height / 2) 16) in
  let Y_Meta := DocPlane (align (roundup Width (Y_TileWidth T)) 64)
                         (align (roundup Height (Y_TileHeight T)) 16) in
  let UV_Meta := DocPlane (align (roundup Width (UV_TileWidth T)) 64)
                          (align (roundup Height (UV_TileHeight T)) 16) in
  DocLayout [Y_Meta; Y; UV_Meta; UV]
    (align (Plane_size Y + Plane_size UV + Plane_size Y_Meta + Plane_size UV_Meta) 4096).

Definition doc_RGBA8888 (Width Height : Z) : doc_layout :=
  let RGB := DocPlane (align (Width * 4) 256) (align Height 32) in
  DocLayout [RGB] (align (Plane_size RGB) 4096).

Definition doc_RGBA8888_UBWC (T : doc_rgb_tiles) (Width Height : Z) : doc_layout :=
  let RGB := DocPlane (align (Width * 4) 256) (align Height 16) in
  let RGB_Meta := DocPlane (align (roundup Width (RGB_TileWidth T)) 64)
                           (align (roundup Height (RGB_TileHeight T)) 16) in
  DocLayout [RGB_Meta; RGB] (align (Plane_size RGB_Meta + Plane_size RGB) 4096).

Definition doc_RGBA1010102_UBWC (T : doc_rgb_tiles) (Width Height : Z) : doc_layout :=
  let RGB := DocPlane (align (Width * 4) 256) (align Height 16) in
  let RGB_Meta := DocPlane (align (roundup Width (RGB_TileWidth T)) 64)
                           (align (roundup Height (RGB_TileHeight T)) 16) in
  DocLayout [RGB_Meta; RGB] (align (Plane_size RGB_Meta + Plane_size RGB) 4096).

Definition doc_RGB565_UBWC (T : doc_rgb_tiles) (Width Height : Z) : doc_layout :=
  let RGB := DocPlane (align (Width * 2) 256) (align Height 16) in
  let RGB_Meta := DocPlane (align (roundup Width (RGB_TileWidth T)) 64)
                           (align (roundup Height (RGB_TileHeight T)) 16) in
  DocLayout [RGB_Meta; RGB] (align (Plane_size RGB_Meta + Plane_size RGB) 4096).

Definition doc_P010_UBWC (T : doc_tiles) (Width Height : Z) : doc_layout :=
  let Y := DocPlane (align (Width * 2) 256) (align Height 16) in
  let UV := DocPlane (align (Width * 2) 256) (align (Height / 2) 16) in
  let Y_Meta := DocPlane (align (roundup Width (Y_TileWidth T)) 64)
                         (align (roundup Height (Y_TileHeight T)) 16) in
  let UV_Meta := DocPlane (align (roundup Width (UV_TileWidth T)) 64)
                          (align (roundup Height (UV_TileHeight T)) 16) in
  DocLayout [Y_Meta; Y; UV_Meta; UV]
    (align (Plane_size Y + Plane_size UV + Plane_size Y_Meta + Plane_size UV_Meta) 4096).

Definition doc_P010 (Width Height : Z) : doc_layout :=
  let Y := DocPlane (align (Width * 2) 256) (align Height 32) in
  let UV := DocPlane (align (Width * 2) 256) (align (Height / 2) 16) in
  DocLayout [Y; UV] (align (plane_bytes Y + plane_bytes UV) 4096).

Definition doc_P010_512 (Width Height : Z) : doc_layout :=
  let Y := DocPlane (align (Width * 2) 512) (align Height 32) in
  let UV := DocPlane (align (Width * 2) 512) (align (Height / 2) 16) in
  DocLayout [Y; UV] (align (plane_bytes Y + plane_bytes UV) 4096).

Definition doc_NV12_512 (Width Height : Z) : doc_layout :=
  let Y := DocPlane (align Width 512) (align Height 512) in
  let UV := DocPlane (align Width 512) (align (Height / 2) 256) in
  DocLayout [Y; UV] (align (plane_bytes Y + plane_bytes UV) 4096).

(** The only comment that gives its tile size: 8 x 4 pixels. *)
Definition doc_RGBA16161616F_UBWC (Width Height : Z) : doc_layout :=
  let T := DocRgbTiles 8 4 in
  let RGB := DocPlane (align (Width * 8) 256) (align Height 16) in
  let RGB_Meta := DocPlane (align (roundup Width (RGB_TileWidth T)) 64)
                           (align (roundup Height (RGB_TileHeight T)) 16) in
  DocLayout [RGB_Meta; RGB] (align (Plane_size RGB_Meta + Plane_size RGB) 4096).

(** ** The documented layout of a frame

    The comments of all formats but one name the tile sizes without giving them. They are taken from the
    C functions here (a chroma tile of [w] x [h] samples covers [2 * w] x [2 * h] pixels), so that
    a comparison with the code says nothing about them, except for RGBA16161616F. Nor do the comments say when an
    NV12 UBWC buffer is of the interlaced type: as in the code, when the frame is within the interlacing limits. *)

Definition NV12_UBWC_tiles : doc_tiles := DocTiles 32 8 32 16.
Definition P010_UBWC_tiles : doc_tiles := DocTiles 32 4 32 8.
Definition BPP10_UBWC_tiles : doc_tiles := DocTiles 48 4 48 8.
Definition RGB_UBWC_tiles : doc_rgb_tiles := DocRgbTiles 16 4.

Definition documented (f : mmm_color_fmts) (w h : Z) : doc_layout :=
  match f with
  | MMM_COLOR_FMT_NV12 => doc_NV12 w h
  | MMM_COLOR_FMT_NV21 => doc_NV21 w h
  | MMM_COLOR_FMT_NV12_UBWC =>
      if interlaced f w h then doc_NV12_UBWC_interlaced NV12_UBWC_tiles w h
      else doc_NV12_UBWC NV12_UBWC_tiles w h
  | MMM_COLOR_FMT_NV12_BPP10_UBWC => doc_NV12_BPP10_UBWC BPP10_UBWC_tiles w h
  | MMM_COLOR_FMT_RGBA8888 => doc_RGBA8888 w h
  | MMM_COLOR_FMT_RGBA8888_UBWC => doc_RGBA8888_UBWC RGB_UBWC_tiles w h
  | MMM_COLOR_FMT_RGBA1010102_UBWC => doc_RGBA1010102_UBWC RGB_UBWC_tiles w h
  | MMM_COLOR_FMT_RGB565_UBWC => doc_RGB565_UBWC RGB_UBWC_tiles w h
  | MMM_COLOR_FMT_P010_UBWC => doc_P010_UBWC P010_UBWC_tiles w h
  | MMM_COLOR_FMT_P010 => doc_P010 w h
  | MMM_COLOR_FMT_P010_512 => doc_P010_512 w h
  | MMM_COLOR_FMT_NV12_512 => doc_NV12_512 w h
  | MMM_COLOR_FMT_RGBA16161616F_UBWC => doc_RGBA16161616F_UBWC w h
  end.

(** ** Geometry in the vocabulary of the comments *)

Section Vocabulary.
Context (px r x : Z).

Lemma doc_stride_1 a : stride (UnitGeom a a r) x = align x a.
Proof. reflexivity. Qed.

Lemma doc_stride_mul k : 0 < k -> 0 < px -> stride (UnitGeom px (k * px) r) x = align (x * k) (k * px).
Proof.
  intros Hk Hpx. unfold stride, align, align_up. cbn [u_bytes u_pixels]. f_equal. symmetry.
  apply cdiv_unique; [nia|]. pose proof (cdiv_spec px Hpx x). nia.
Qed.

Lemma doc_stride_10bit : stride (UnitGeom 192 256 r) x = align (x * 4 / 3) 256.
Proof. unfold stride, align, align_up, cdiv. cbn [u_bytes u_pixels]. zlia. Qed.

Lemma doc_scanlines a b : scanlines (UnitGeom a b r) x = align x r.
Proof. reflexivity. Qed.

Lemma doc_half : Z.even x = true -> cdiv x 2 = x / 2.
Proof. intros H. apply Z.even_spec in H as [k ->]. unfold cdiv. zlia. Qed.

Lemma doc_field_half : Z.shiftr (x + 1) 1 = cdiv x 2.
Proof. rewrite Z.shiftr_div_pow2 by lia. unfold cdiv. f_equal. lia. Qed.

Lemma doc_half_up : (x + 1) / 2 = cdiv x 2.
Proof. unfold cdiv. f_equal. lia. Qed.

Lemma doc_tiles_2 t : 0 < t -> cdiv (cdiv x 2) t = roundup x (2 * t).
Proof. intros. by apply cdiv_cdiv. Qed.
End Vocabulary.

Lemma doc_stride_128_256 r x : stride (UnitGeom 128 256 r) x = align (x * 2) 256.
Proof. by apply (doc_stride_mul 128 r x 2). Qed.
Lemma doc_stride_256_512 r x : stride (UnitGeom 256 512 r) x = align (x * 2) 512.
Proof. by apply (doc_stride_mul 256 r x 2). Qed.
Lemma doc_stride_64_256 r x : stride (UnitGeom 64 256 r) x = align (x * 4) 256.
Proof. by apply (doc_stride_mul 64 r x 4). Qed.
Lemma doc_stride_32_256 r x : stride (UnitGeom 32 256 r) x = align (x * 8) 256.
Proof. by apply (doc_stride_mul 32 r x 8). Qed.

Create Rewrite HintDb doc.
#[export] Hint Rewrite doc_stride_1 doc_stride_128_256 doc_stride_256_512 doc_stride_64_256
  doc_stride_32_256 doc_stride_10bit doc_scanlines : doc.

(** Two fields of four paged planes, and one frame of two or four. *)
Section Pages.
Context (a b c d : doc_plane).

Lemma two_fields :
  align (Plane_size a + Plane_size b + Plane_size c + Plane_size d
         + Plane_size a + Plane_size b + Plane_size c + Plane_size d) 4096
  = 2 * (Plane_size a + Plane_size b + Plane_size c + Plane_size d).
Proof. unfold Plane_size, align, align_up, cdiv. zlia. Qed.

Lemma four_planes :
  align (Plane_size a + Plane_size b + Plane_size c + Plane_size d) 4096
  = Plane_size a + Plane_size b + Plane_size c + Plane_size d.
Proof. unfold Plane_size, align, align_up, cdiv. zlia. Qed.

Lemma two_planes : align (Plane_size a + Plane_size b) 4096 = Plane_size b + Plane_size a.
Proof. unfold Plane_size, align, align_up, cdiv. zlia. Qed.

Lemma one_plane : align (Plane_size a) 4096 = Plane_size a.
Proof. unfold Plane_size, align, align_up, cdiv. zlia. Qed.
End Pages.

(** The planes of a format, as documented planes of the same size. *)
Definition doc_of (u : unit_geom) (w h : Z) : doc_plane := DocPlane (stride u w) (scanlines u h).
Definition doc_meta_of (t : tile_geom) (w h : Z) : doc_plane :=
  DocPlane (meta_stride t w) (meta_scanlines t h).

Lemma paged_size_doc f w h :
  paged_size f w h =
  entry (luma f) (fun u => Plane_size (doc_of u w h))
  + entry (chroma f) (fun u => Plane_size (doc_of u w (cdiv h 2)))
  + entry (luma_tile f) (fun t => Plane_size (doc_meta_of t w h))
  + entry (chroma_tile f) (fun t => Plane_size (doc_meta_of t (cdiv w 2) (cdiv h 2)))
  + entry (rgb f) (fun u => Plane_size (doc_of u w h))
  + entry (rgb_tile f) (fun t => Plane_size (doc_meta_of t w h)).
Proof. by destruct f. Qed.

Lemma interlaced_documented w h (T := NV12_UBWC_tiles) :
  2 * paged_size MMM_COLOR_FMT_NV12_UBWC w (cdiv h 2)
  = Total_size (doc_NV12_UBWC_interlaced T w h).
Proof.
  unfold doc_NV12_UBWC_interlaced. cbn [Total_size].
  rewrite doc_field_half, doc_half_up, two_fields, paged_size_doc.
  cbn [entry luma chroma rgb luma_tile chroma_tile rgb_tile].
  unfold doc_of, doc_meta_of, meta_stride, meta_scanlines. cbn [t_width t_height].
  set (hh := cdiv h 2). rewrite (doc_tiles_2 w 16), (doc_tiles_2 hh 8) by done.
  autorewrite with doc. rewrite !Z.add_0_r. reflexivity.
Qed.

(** Brings the geometry of a format into the vocabulary of its comment. *)
Ltac doc_normalize w h :=
  cbn [linear_yuv]; rewrite ?paged_size_doc; unfold luma_plane, chroma_plane;
  cbn [entry luma chroma rgb luma_tile chroma_tile rgb_tile];
  unfold doc_of, doc_meta_of, meta_stride, meta_scanlines, plane; cbn [t_width t_height];
  rewrite ?(doc_tiles_2 w), ?(doc_tiles_2 h) by done; autorewrite with doc;
  repeat match goal with
         | |- context [Total_size (?d _ _)] => unfold d
         | |- context [Total_size (?d _ _ _)] => unfold d
         end;
  cbn [Total_size]; rewrite ?four_planes, ?two_planes, ?one_plane, ?Z.add_0_r.

Lemma frame_size_documented f w h :
  Z.even h = true ->
  (f = MMM_COLOR_FMT_NV12_BPP10_UBWC -> align h 16 = align h 32) ->
  frame_size f w h = Total_size (documented f w h).
Proof.
  intros Heven H10. unfold frame_size.
  destruct (interlaced f w h) eqn:Hi.
  - assert (f = MMM_COLOR_FMT_NV12_UBWC) as ->.
    { unfold interlaced in Hi. case_bool_decide; [done|discriminate]. }
    cbn [linear_yuv]. unfold documented. rewrite Hi. apply interlaced_documented.
  - unfold documented. rewrite Hi. 
    destruct f; doc_normalize w h; rewrite ?doc_half by done; try reflexivity.
    by rewrite (H10 eq_refl).
Qed.

(** A plane of whole units of 256 bytes by 16 rows fills its pages. *)
Lemma Plane_size_whole k j : Plane_size (DocPlane (256 * k) (16 * j)) = 4096 * (k * j).
Proof.
  unfold Plane_size, plane_bytes, align. cbn [Stride Scanlines].
  rewrite align_up_id; [lia|lia|]. exists (k * j). lia.
Qed.

(** The documented 10-bit luma plane is aligned to 32 scanlines, the code's to 16. *)
Lemma BPP10_documented_excess w h :
  Z.even h = true -> 0 < h -> 0 < h mod 32 <= 16 ->
  Total_size (documented MMM_COLOR_FMT_NV12_BPP10_UBWC w h)
  = frame_size MMM_COLOR_FMT_NV12_BPP10_UBWC w h + 16 * align (w * 4 / 3) 256.
Proof.
  intros Heven Hh Hmod. unfold documented, doc_NV12_BPP10_UBWC. cbn [Total_size].
  rewrite four_planes.
  unfold frame_size, interlaced. rewrite bool_decide_false, andb_false_l by done.
  cbn [linear_yuv]. rewrite paged_size_doc.
  cbn [entry luma chroma rgb luma_tile chroma_tile rgb_tile].
  unfold doc_of, doc_meta_of, meta_stride, meta_scanlines. cbn [t_width t_height].
  rewrite (doc_tiles_2 w), (doc_tiles_2 h) by done. autorewrite with doc. rewrite doc_half by done.
  assert (align h 32 = align h 16 + 16) as -> by (unfold align, align_up, cdiv; zlia).
  replace (align (w * 4 / 3) 256) with (256 * cdiv (w * 4 / 3) 256) by done.
  replace (align h 16 + 16) with (16 * (cdiv h 16 + 1)) by (unfold align, align_up; lia).
  change (align h 16) with (16 * cdiv h 16). rewrite !Plane_size_whole, !Z.add_0_r.
  unfold align, roundup.
  cbn [BPP10_UBWC_tiles Y_TileWidth Y_TileHeight UV_TileWidth UV_TileHeight].
  change (2 * 24) with 48. change (2 * 4) with 8. lia.
Qed.

(** Odd heights: the code rounds the chroma rows up, the comments' [Height/2] down. *)
Lemma half_bytes_le s a h :
  0 <= s -> 0 < a -> s * align (h / 2) a <= s * align (cdiv h 2) a.
Proof.
  intros. apply Z.mul_le_mono_nonneg_l; [done|]. apply align_up_mono; [done|]. unfold cdiv. zlia.
Qed.

Lemma half_pages_le s a h :
  0 <= s -> 0 < a ->
  Plane_size (DocPlane s (align (h / 2) a)) <= Plane_size (DocPlane s (align (cdiv h 2) a)).
Proof. intros. apply align_up_mono; [done|]. by apply half_bytes_le. Qed.

(** Adds the comparison of the goal's documented chroma plane with the code's. *)
Ltac half_fact h :=
  match goal with
  | |- context [Plane_size (DocPlane ?s (align (h / 2) ?a))] => pose proof (half_pages_le s a h ltac:(apply align_up_nonneg; lia) eq_refl)
  | |- context [plane_bytes (DocPlane ?s (align (h / 2) ?a))] => pose proof (half_bytes_le s a h ltac:(apply align_up_nonneg; lia) eq_refl)
  | _ => idtac
  end.

Lemma documented_le_frame_size f w h :
  0 < w -> f <> MMM_COLOR_FMT_NV12_BPP10_UBWC -> Total_size (documented f w h) <= frame_size f w h.
Proof.
  intros Hw Hf. unfold frame_size.
  destruct (interlaced f w h) eqn:Hi.
  - assert (f = MMM_COLOR_FMT_NV12_UBWC) as ->.
    { unfold interlaced in Hi. case_bool_decide; [done|discriminate]. }
    cbn [linear_yuv]. unfold documented. rewrite Hi. rewrite interlaced_documented. lia.
  - unfold documented. rewrite Hi. destruct f; try done; doc_normalize w h; half_fact h.
    all: try (unfold NV12_UBWC_tiles, P010_UBWC_tiles, RGB_UBWC_tiles, roundup, align in *;
      cbn [Y_TileWidth Y_TileHeight UV_TileWidth UV_TileHeight RGB_TileWidth RGB_TileHeight];
      change (2 * 16) with 32; change (2 * 8) with 16; change (2 * 4) with 8; lia).
    all: apply align_up_mono; [lia|]; unfold plane_bytes in *; cbn [Stride Scanlines] in *; lia.
Qed.
