(* ===== verification/ColorFmtProps.v ===== *)
(** * ColorFmtProps: what callers of the color-format functions rely on

    The contract of the functions of [ColorFmt]: exact rounding, sizes that do
    not wrap, alignment, enough room for the pixels, consistency of the
    allocated and the used size, agreement with the documented layouts, and the
    limits of each. *)

From S2P Require Import Prelude Align ColorFmt ColorFmtSpec ColorFmtDoc.

(** ** Room for the pixels *)

(** Bytes of [n] samples in a row of the plane, as a fraction: 10-bit UBWC
    packs three samples into four bytes, P010 stores two bytes per sample. *)
Definition sample_bytes (f : mmm_color_fmts) : Z * Z :=
  match f with
  | MMM_COLOR_FMT_NV12_BPP10_UBWC => (4, 3)
  | MMM_COLOR_FMT_P010_UBWC | MMM_COLOR_FMT_P010 | MMM_COLOR_FMT_P010_512
  | MMM_COLOR_FMT_RGB565_UBWC => (2, 1)
  | MMM_COLOR_FMT_RGBA8888 | MMM_COLOR_FMT_RGBA8888_UBWC | MMM_COLOR_FMT_RGBA1010102_UBWC => (4, 1)
  | MMM_COLOR_FMT_RGBA16161616F_UBWC => (8, 1)
  | _ => (1, 1)
  end.

Definition row_bytes (f : mmm_color_fmts) (n : Z) : Z :=
  cdiv (n * fst (sample_bytes f)) (snd (sample_bytes f)).

Definition is_yuv (f : mmm_color_fmts) : bool := match luma f with Some _ => true | None => false end.

(** The bytes of the image proper: luma and interleaved chroma samples, or RGB
    pixels, and one meta byte for every tile. *)
Definition image_bytes (f : mmm_color_fmts) (w h : Z) : Z :=
  (if is_yuv f
   then h * row_bytes f w + cdiv h 2 * row_bytes f (2 * cdiv w 2)
   else h * row_bytes f w)
  + entry (luma_tile f) (fun t => cdiv w (t_width t) * cdiv h (t_height t))
  + entry (chroma_tile f) (fun t => cdiv (cdiv w 2) (t_width t) * cdiv (cdiv h 2) (t_height t))
  + entry (rgb_tile f) (fun t => cdiv w (t_width t) * cdiv h (t_height t)).

Lemma rect_le a b x y : 0 <= a <= x -> 0 <= b <= y -> b * a <= x * y.
Proof. intros. nia. Qed.

(** A unit whose bytes hold its samples holds the samples of any row. *)
Lemma row_fits f u n :
  0 <= n -> unit_pos u ->
  u_pixels u * fst (sample_bytes f) <= u_bytes u * snd (sample_bytes f) ->
  row_bytes f n <= stride u n.
Proof.
  intros Hn (Hp & Hb & _) Hs. unfold row_bytes, stride. apply cdiv_le_iff; [by destruct f|].
  pose proof (cdiv_spec (u_pixels u) Hp n) as [_ Hc]. pose proof (cdiv_nonneg (u_pixels u) Hp n Hn).
  assert (0 <= fst (sample_bytes f)) by by destruct f.
  set (c := cdiv n (u_pixels u)) in *. trans (u_pixels u * c * fst (sample_bytes f)); nia.
Qed.

Lemma row_bytes_nonneg f n : 0 <= n -> 0 <= row_bytes f n.
Proof.
  intros. unfold row_bytes. apply cdiv_nonneg; [by destruct f|].
  apply Z.mul_nonneg_nonneg; [done|by destruct f].
Qed.

(** A chroma row, of an even number of samples, fits a luma stride. *)
Lemma stride_even u n : unit_pos u -> (2 | u_pixels u) -> stride u (2 * cdiv n 2) = stride u n.
Proof.
  intros (Hp & Hb & _) [k Hk]. unfold stride. f_equal. apply cdiv_unique; [done|].
  pose proof (cdiv_spec (u_pixels u) Hp n).
  pose proof (cdiv_spec 2 eq_refl n). nia.
Qed.

Lemma luma_fits f w h :
  0 <= w -> 0 <= h -> is_yuv f = true -> h * row_bytes f w <= luma_plane f w h.
Proof.
  intros Hw Hh Hy. unfold luma_plane, is_yuv in *. pose proof (luma_pos f) as Hpos.
  destruct (luma f) as [u|] eqn:Hu; [|done]. cbn [entry]. unfold plane. apply rect_le.
  - split; [by apply row_bytes_nonneg|]. apply row_fits; [done|done|].
    destruct f; simplify_eq Hu; by intros <-.
  - split; [done|by apply scanlines_ge].
Qed.

Lemma chroma_fits f w h :
  0 <= w -> 0 <= h -> is_yuv f = true ->
  cdiv h 2 * row_bytes f (2 * cdiv w 2) <= chroma_plane f w h.
Proof.
  intros Hw Hh Hy. unfold chroma_plane, is_yuv in *. pose proof (chroma_pos f) as Hpos.
  pose proof (cdiv_nonneg 2 eq_refl w Hw). pose proof (cdiv_nonneg 2 eq_refl h Hh).
  destruct (chroma f) as [u|] eqn:Hu; [|by destruct f]. cbn [entry]. unfold plane. apply rect_le.
  - split; [apply row_bytes_nonneg; lia|]. rewrite <- (stride_even u w); [|done|].
    + apply row_fits; [lia|done|]. destruct f; simplify_eq Hu; by intros <-.
    + destruct f; simplify_eq Hu; intros <-; cbn [u_pixels]; by apply Z.mod_divide.
  - split; [done|by apply scanlines_ge].
Qed.

Lemma rgb_fits f w h :
  0 <= w -> 0 <= h -> is_yuv f = false -> h * row_bytes f w <= rgb_plane f w h.
Proof.
  intros Hw Hh Hy. unfold rgb_plane, is_yuv in *. pose proof (rgb_pos f) as Hpos.
  destruct (rgb f) as [u|] eqn:Hu; [|by destruct f]. cbn [entry]. unfold plane. apply rect_le.
  - split; [by apply row_bytes_nonneg|]. apply row_fits; [done|done|].
    destruct f; simplify_eq Hu; by intros <-.
  - split; [done|by apply scanlines_ge].
Qed.

Lemma tiles_fit (o : option tile_geom) w h :
  match o with Some t => tile_pos t | None => True end -> 0 <= w -> 0 <= h ->
  0 <= entry o (fun t => cdiv w (t_width t) * cdiv h (t_height t))
    <= entry o (fun t => meta_plane t w h).
Proof.
  destruct o as [t|]; cbn [entry]; [|lia]. intros [? ?] Hw Hh.
  pose proof (cdiv_nonneg (t_width t) ltac:(done) w Hw).
  pose proof (cdiv_nonneg (t_height t) ltac:(done) h Hh).
  unfold meta_plane, meta_stride, meta_scanlines.
  pose proof (align_up_ge 64 eq_refl (cdiv w (t_width t))).
  pose proof (align_up_ge 16 eq_refl (cdiv h (t_height t))). nia.
Qed.

Lemma page_ge x : x <= page x.
Proof. by apply align_up_ge. Qed.

(** The image fits the pages of its planes. *)
Lemma image_bytes_planes f w h :
  0 <= w -> 0 <= h ->
  image_bytes f w h
  <= luma_plane f w h + chroma_plane f w h + luma_meta f w h + chroma_meta f w h
     + rgb_plane f w h + rgb_meta f w h.
Proof.
  intros Hw Hh. unfold image_bytes.
  pose proof (tiles_fit (luma_tile f) w h (luma_tile_pos f) Hw Hh).
  pose proof (tiles_fit (rgb_tile f) w h (rgb_tile_pos f) Hw Hh).
  pose proof (tiles_fit (chroma_tile f) (cdiv w 2) (cdiv h 2) (chroma_tile_pos f)
    (cdiv_nonneg 2 eq_refl w Hw) (cdiv_nonneg 2 eq_refl h Hh)).
  fold (luma_meta f w h) (chroma_meta f w h) (rgb_meta f w h) in *.
  destruct (is_yuv f) eqn:Hy.
  - pose proof (luma_fits f w h Hw Hh Hy). pose proof (chroma_fits f w h Hw Hh Hy).
    assert (rgb_plane f w h = 0) by by destruct f. lia.
  - pose proof (rgb_fits f w h Hw Hh Hy).
    assert (luma_plane f w h = 0) by by destruct f.
    assert (chroma_plane f w h = 0) by by destruct f. lia.
Qed.

Lemma linear_no_meta f w h :
  linear_yuv f = true ->
  luma_meta f w h + chroma_meta f w h + rgb_plane f w h + rgb_meta f w h = 0.
Proof. by destruct f. Qed.

Lemma paged_size_le_frame_size f w h :
  0 <= w -> linear_yuv f = false -> paged_size f w h <= frame_size f w h.
Proof.
  intros Hw Hl. unfold frame_size. rewrite Hl.
  destruct (interlaced f w h); [by apply paged_size_double|done].
Qed.

Lemma image_bytes_frame_size f w h :
  0 <= w -> 0 <= h -> image_bytes f w h <= frame_size f w h.
Proof.
  intros Hw Hh. pose proof (image_bytes_planes f w h Hw Hh).
  destruct (linear_yuv f) eqn:Hl.
  - pose proof (linear_no_meta f w h Hl). unfold frame_size. rewrite Hl.
    pose proof (page_ge (luma_plane f w h + chroma_plane f w h)). lia.
  - pose proof (paged_size_le_frame_size f w h Hw Hl). unfold paged_size in *.
    pose proof (page_ge (luma_plane f w h)). pose proof (page_ge (chroma_plane f w h)).
    pose proof (page_ge (luma_meta f w h)). pose proof (page_ge (chroma_meta f w h)).
    pose proof (page_ge (rgb_plane f w h)). pose proof (page_ge (rgb_meta f w h)). lia.
Qed.

Lemma image_bytes_pos f w h : 0 < w -> 0 < h -> 0 < image_bytes f w h.
Proof.
  intros Hw Hh. unfold image_bytes.
  pose proof (tiles_fit (luma_tile f) w h (luma_tile_pos f) ltac:(lia) ltac:(lia)).
  pose proof (tiles_fit (rgb_tile f) w h (rgb_tile_pos f) ltac:(lia) ltac:(lia)).
  pose proof (tiles_fit (chroma_tile f) (cdiv w 2) (cdiv h 2) (chroma_tile_pos f)
    (cdiv_nonneg 2 eq_refl w ltac:(lia)) (cdiv_nonneg 2 eq_refl h ltac:(lia))).
  pose proof (cdiv_nonneg 2 eq_refl h ltac:(lia)). pose proof (cdiv_nonneg 2 eq_refl w ltac:(lia)).
  pose proof (row_bytes_nonneg f (2 * cdiv w 2) ltac:(lia)).
  assert (0 < row_bytes f w).
  { unfold row_bytes. apply cdiv_pos; [by destruct f|]. apply Z.mul_pos_pos; [done|by destruct f]. }
  destruct (is_yuv f); nia.
Qed.

(** ** Formats the header does not know *)

Lemma BUFFER_SIZE_unknown color_fmt w h :
  @enum_decode mmm_color_fmts _ color_fmt = None -> MMM_COLOR_FMT_BUFFER_SIZE color_fmt w h = 0.
Proof.
  intros Hn. unfold MMM_COLOR_FMT_BUFFER_SIZE. rewrite Hn.
  by destruct (negb (c_true w) || negb (c_true h)).
Qed.

Lemma BUFFER_SIZE_USED_unknown color_fmt w h interlace :
  @enum_decode mmm_color_fmts _ color_fmt = None ->
  MMM_COLOR_FMT_BUFFER_SIZE_USED color_fmt w h interlace = 0.
Proof.
  intros Hn. unfold MMM_COLOR_FMT_BUFFER_SIZE_USED.
  destruct (negb (c_true w) || negb (c_true h)); [done|].
  destruct (Z.eqb_spec color_fmt (mmm_color_fmts_value MMM_COLOR_FMT_NV12_UBWC)) as [->|].
  - discriminate Hn.
  - rewrite andb_false_r. by apply BUFFER_SIZE_unknown.
Qed.

(** Case analysis on a format number: a known format or an unknown number. *)
Ltac format_cases color_fmt f Hf :=
  destruct (@enum_decode mmm_color_fmts _ color_fmt) as [f|] eqn:Hf;
  [apply enum_decode_Some in Hf as <- |].

(** ** The contract *)

(** [MMM_COLOR_FMT_ALIGN] rounds up exactly, for every positive alignment
    (the division branch for the others than powers of two, the mask branch for
    powers of two) and at every C integer type: the result is a multiple of the
    alignment, is at least the size, and no smaller multiple is. *)
Theorem ALIGN_least_multiple (t : int_ty) (sz al : Z) :
  0 < int_width t -> 0 <= sz -> 0 < al -> sz + al <= max_int t ->
  (al | MMM_COLOR_FMT_ALIGN t sz al) /\ sz <= MMM_COLOR_FMT_ALIGN t sz al /\
  forall m, (al | m) -> sz <= m -> MMM_COLOR_FMT_ALIGN t sz al <= m.
Proof.
  intros Hw Hsz Hal Hmax. rewrite ALIGN_align_up by done.
  split_and!; [by apply align_up_divide|by apply align_up_ge|intros; by apply align_up_least].
Qed.

Lemma ALIGN_least_multiple_witness :
  (192 | MMM_COLOR_FMT_ALIGN U32 1000 192) /\ 1000 <= MMM_COLOR_FMT_ALIGN U32 1000 192 /\
  forall m, (192 | m) -> 1000 <= m -> MMM_COLOR_FMT_ALIGN U32 1000 192 <= m.
Proof. apply (ALIGN_least_multiple U32 1000 192); vm_compute; congruence. Defined.

(** C1: the size of a buffer is computed without wrap-around for every frame up
    to [DIM_MAX] x [DIM_MAX]: it is the sum of the format's page-aligned planes
    (or the page-aligned sum of the planes of a linear format, or two fields)
    in unbounded arithmetic. *)
Theorem BUFFER_SIZE_exact (color_fmt w h : Z) (f : mmm_color_fmts) :
  enum_decode color_fmt = Some f -> dim w -> dim h ->
  MMM_COLOR_FMT_BUFFER_SIZE color_fmt w h = frame_size f w h.
Proof. intros Hf Hw Hh. apply enum_decode_Some in Hf as <-. by apply BUFFER_SIZE_spec. Qed.

Lemma BUFFER_SIZE_exact_witness :
  MMM_COLOR_FMT_BUFFER_SIZE 2 2560 1600 = frame_size MMM_COLOR_FMT_NV12_UBWC 2560 1600.
Proof. apply BUFFER_SIZE_exact; [reflexivity|vm_compute; split; congruence ..]. Defined.

(** C2: for every frame up to 16384 x 16384 pixels, a buffer of the computed size holds the
    image: all its luma and chroma samples or RGB pixels, and one meta byte per tile. (For larger frames
    the arithmetic wraps around and it need not: [BUFFER_SIZE_wraps].) *)
Theorem BUFFER_SIZE_holds_image (color_fmt w h : Z) (f : mmm_color_fmts) :
  enum_decode color_fmt = Some f -> dim w -> dim h ->
  image_bytes f w h <= MMM_COLOR_FMT_BUFFER_SIZE color_fmt w h.
Proof.
  intros Hf Hw Hh. apply enum_decode_Some in Hf as <-. rewrite BUFFER_SIZE_spec by done.
  unfold dim in *. apply image_bytes_frame_size; lia.
Qed.

Lemma BUFFER_SIZE_holds_image_witness :
  image_bytes MMM_COLOR_FMT_P010_UBWC 1281 721 <= MMM_COLOR_FMT_BUFFER_SIZE 8 1281 721.
Proof. apply BUFFER_SIZE_holds_image; [reflexivity|vm_compute; split; congruence ..]. Defined.

(** the size in use never exceeds the size allocated, whatever the format
    number and the interlace flag: a progressive NV12 UBWC frame fits a buffer
    sized for two fields. *)
Theorem BUFFER_SIZE_USED_le (color_fmt w h interlace : Z) :
  dim w -> dim h ->
  MMM_COLOR_FMT_BUFFER_SIZE_USED color_fmt w h interlace <= MMM_COLOR_FMT_BUFFER_SIZE color_fmt w h.
Proof.
  intros Hw Hh. format_cases color_fmt f Hf.
  - rewrite BUFFER_SIZE_spec, BUFFER_SIZE_USED_spec by done.
    destruct (negb (c_true interlace)); [|done]. case_bool_decide; [|done]. subst f.
    apply paged_size_le_frame_size; [unfold dim in *; lia|done].
  - by rewrite BUFFER_SIZE_unknown, BUFFER_SIZE_USED_unknown.
Qed.

Lemma BUFFER_SIZE_USED_le_witness :
  MMM_COLOR_FMT_BUFFER_SIZE_USED 2 1920 1080 0 <= MMM_COLOR_FMT_BUFFER_SIZE 2 1920 1080.
Proof. apply BUFFER_SIZE_USED_le; vm_compute; split; congruence. Defined.

(** Buffer sizes are whole 4096-byte pages, for every format number and all
    dimensions, also when the arithmetic wraps around. *)
Theorem BUFFER_SIZE_pages (color_fmt w h : Z) : (4096 | MMM_COLOR_FMT_BUFFER_SIZE color_fmt w h).
Proof.
  unfold MMM_COLOR_FMT_BUFFER_SIZE.
  destruct (negb (c_true w) || negb (c_true h)); [by apply Z.mod_divide|].
  destruct (enum_decode color_fmt) as [[]|]; try apply ALIGN_page_divide.
  destruct (interlace_fits w h); apply ALIGN_page_divide.
Qed.



(** For odd heights too the size is at least the documented one, for every
    format but 10-bit UBWC. *)
Theorem BUFFER_SIZE_ge_documented (color_fmt w h : Z) (f : mmm_color_fmts) :
  enum_decode color_fmt = Some f -> dim w -> dim h -> f <> MMM_COLOR_FMT_NV12_BPP10_UBWC ->
  Total_size (documented f w h) <= MMM_COLOR_FMT_BUFFER_SIZE color_fmt w h.
Proof.
  intros Hf Hw Hh Hn. apply enum_decode_Some in Hf as <-. rewrite BUFFER_SIZE_spec by done.
  apply documented_le_frame_size; [unfold dim in *; lia|done].
Qed.

Lemma BUFFER_SIZE_ge_documented_witness :
  Total_size (documented MMM_COLOR_FMT_NV12 4096 33) <= MMM_COLOR_FMT_BUFFER_SIZE 0 4096 33.
Proof. apply BUFFER_SIZE_ge_documented; [reflexivity|vm_compute; split; congruence ..|done]. Defined.

(** the 10-bit UBWC format is allocated less than its comment documents: by
    exactly sixteen rows of the luma plane whenever the height exceeds a
    multiple of 32 by at most 16. *)
Theorem BPP10_UBWC_below_documented (w h : Z) :
  dim w -> dim h -> Z.even h = true -> 0 < h mod 32 <= 16 ->
  MMM_COLOR_FMT_BUFFER_SIZE (enum_value MMM_COLOR_FMT_NV12_BPP10_UBWC) w h
  + 16 * MMM_COLOR_FMT_Y_STRIDE (enum_value MMM_COLOR_FMT_NV12_BPP10_UBWC) w
  = Total_size (documented MMM_COLOR_FMT_NV12_BPP10_UBWC w h).
Proof.
  intros Hw Hh He Hm. rewrite BUFFER_SIZE_spec, Y_STRIDE_spec by done. cbn [entry luma].
  rewrite doc_stride_10bit, BPP10_documented_excess; [lia|done|unfold dim in *; lia|done].
Qed.

Lemma BPP10_UBWC_below_documented_witness :
  MMM_COLOR_FMT_BUFFER_SIZE (enum_value MMM_COLOR_FMT_NV12_BPP10_UBWC) 1920 1040
  + 16 * MMM_COLOR_FMT_Y_STRIDE (enum_value MMM_COLOR_FMT_NV12_BPP10_UBWC) 1920
  = Total_size (documented MMM_COLOR_FMT_NV12_BPP10_UBWC 1920 1040).
Proof.
  apply BPP10_UBWC_below_documented; try reflexivity; vm_compute; split; congruence.
Defined.

(** a size of zero means invalid input: exactly when a dimension is zero or
    the format number names no format. *)
Theorem BUFFER_SIZE_zero_iff (color_fmt w h : Z) :
  0 <= w <= DIM_MAX -> 0 <= h <= DIM_MAX ->
  MMM_COLOR_FMT_BUFFER_SIZE color_fmt w h = 0 <->
  w = 0 \/ h = 0 \/ @enum_decode mmm_color_fmts _ color_fmt = None.
Proof.
  intros Hw Hh. split.
  - intros Hz. destruct (Z.eq_dec w 0); [tauto|]. destruct (Z.eq_dec h 0); [tauto|].
    right; right. format_cases color_fmt f Hf; [|done].
    rewrite BUFFER_SIZE_spec in Hz by (unfold dim; lia).
    pose proof (image_bytes_frame_size f w h ltac:(lia) ltac:(lia)).
    pose proof (image_bytes_pos f w h ltac:(lia) ltac:(lia)). lia.
  - intros [->|[->|Hn]].
    + reflexivity.
    + unfold MMM_COLOR_FMT_BUFFER_SIZE. by rewrite orb_true_r.
    + by apply BUFFER_SIZE_unknown.
Qed.

Lemma BUFFER_SIZE_zero_iff_witness :
  MMM_COLOR_FMT_BUFFER_SIZE 13 640 480 = 0 <->
  640 = 0 \/ 480 = 0 \/ @enum_decode mmm_color_fmts _ 13 = None.
Proof. apply BUFFER_SIZE_zero_iff; vm_compute; split; congruence. Defined.

Lemma paged_size_mono f w w' h h' :
  0 <= w <= w' -> 0 <= h <= h' -> paged_size f w h <= paged_size f w' h'.
Proof.
  intros Hw Hh. unfold paged_size.
  assert (0 <= cdiv w 2 <= cdiv w' 2) by (unfold cdiv; zlia).
  assert (0 <= cdiv h 2 <= cdiv h' 2) by (unfold cdiv; zlia).
  pose proof (entry_page_le (luma f) unit_pos (fun u => plane u w h) (fun u => plane u w' h') 1
    (luma_pos f) ltac:(intros; rewrite Z.mul_1_l; by apply page_mono, plane_mono)).
  pose proof (entry_page_le (chroma f) unit_pos (fun u => plane u w (cdiv h 2))
    (fun u => plane u w' (cdiv h' 2)) 1
    (chroma_pos f) ltac:(intros; rewrite Z.mul_1_l; by apply page_mono, plane_mono)).
  pose proof (entry_page_le (rgb f) unit_pos (fun u => plane u w h) (fun u => plane u w' h') 1
    (rgb_pos f) ltac:(intros; rewrite Z.mul_1_l; by apply page_mono, plane_mono)).
  pose proof (entry_page_le (luma_tile f) tile_pos (fun t => meta_plane t w h)
    (fun t => meta_plane t w' h') 1
    (luma_tile_pos f) ltac:(intros; rewrite Z.mul_1_l; by apply page_mono, meta_plane_mono)).
  pose proof (entry_page_le (chroma_tile f) tile_pos (fun t => meta_plane t (cdiv w 2) (cdiv h 2))
    (fun t => meta_plane t (cdiv w' 2) (cdiv h' 2)) 1
    (chroma_tile_pos f) ltac:(intros; rewrite Z.mul_1_l; by apply page_mono, meta_plane_mono)).
  pose proof (entry_page_le (rgb_tile f) tile_pos (fun t => meta_plane t w h)
    (fun t => meta_plane t w' h') 1
    (rgb_tile_pos f) ltac:(intros; rewrite Z.mul_1_l; by apply page_mono, meta_plane_mono)).
  unfold luma_plane, chroma_plane, rgb_plane, luma_meta, chroma_meta, rgb_meta. lia.
Qed.

Lemma linear_planes_mono f w w' h h' :
  0 <= w <= w' -> 0 <= h <= h' ->
  luma_plane f w h + chroma_plane f w h <= luma_plane f w' h' + chroma_plane f w' h'.
Proof.
  intros Hw Hh. assert (0 <= cdiv h 2 <= cdiv h' 2) by (unfold cdiv; zlia).
  unfold luma_plane, chroma_plane. pose proof (luma_pos f). pose proof (chroma_pos f).
  apply Z.add_le_mono.
  - destruct (luma f); cbn [entry]; [by apply plane_mono|done].
  - destruct (chroma f); cbn [entry]; [by apply plane_mono|done].
Qed.

(** C38: up to 16384 x 16384 pixels a larger frame never needs a smaller buffer, for every format number but that of NV12
    UBWC (whose two-field rule makes a 1921-pixel wide frame cheaper than a
    1920-pixel one). *)
Theorem BUFFER_SIZE_monotone (color_fmt w w' h h' : Z) :
  color_fmt <> enum_value MMM_COLOR_FMT_NV12_UBWC ->
  dim w -> dim w' -> dim h -> dim h' -> w <= w' -> h <= h' ->
  MMM_COLOR_FMT_BUFFER_SIZE color_fmt w h <= MMM_COLOR_FMT_BUFFER_SIZE color_fmt w' h'.
Proof.
  intros Hne Hw Hw' Hh Hh' Hle Hle'. format_cases color_fmt f Hf.
  - rewrite !BUFFER_SIZE_spec by done. unfold frame_size, interlaced, dim in *.
    assert (f <> MMM_COLOR_FMT_NV12_UBWC) by congruence. rewrite !bool_decide_false by done. cbn [andb].
    destruct (linear_yuv f); [apply page_mono, linear_planes_mono|apply paged_size_mono]; lia.
  - by rewrite !BUFFER_SIZE_unknown.
Qed.

Lemma BUFFER_SIZE_monotone_witness :
  MMM_COLOR_FMT_BUFFER_SIZE 0 1920 1080 <= MMM_COLOR_FMT_BUFFER_SIZE 0 2560 1600.
Proof. apply BUFFER_SIZE_monotone; vm_compute; try congruence; split; congruence. Defined.

(** outside those dimensions the size wraps around: a 32768 x 32768 frame
    of 8-byte pixels is given 32 MiB, less than the bytes of its pixels. *)
Theorem BUFFER_SIZE_wraps :
  MMM_COLOR_FMT_BUFFER_SIZE (enum_value MMM_COLOR_FMT_RGBA16161616F_UBWC) 32768 32768 = 33554432
  /\ MMM_COLOR_FMT_BUFFER_SIZE (enum_value MMM_COLOR_FMT_RGBA16161616F_UBWC) 32768 32768
     < image_bytes MMM_COLOR_FMT_RGBA16161616F_UBWC 32768 32768
  /\ MMM_COLOR_FMT_BUFFER_SIZE (enum_value MMM_COLOR_FMT_NV12_UBWC) 1921 1
     < MMM_COLOR_FMT_BUFFER_SIZE (enum_value MMM_COLOR_FMT_NV12_UBWC) 1920 1.
Proof. vm_compute. split_and!; reflexivity. Qed.
