(* ===== verification/Bcache.v ===== *)
(** * Bcache: the on-disk structures of [include/linux/bcache.h]

    Btree keys with their packed fields and extent pointers, the address
    arithmetic over a run of keys, the superblock flags and the magic numbers.
    A key in memory is a sequence of 64-bit words; [u64] memory is a list of
    words indexed by word addresses. *)

From S2P Require Import Prelude Align Bits.

(** ** The [BITMASK] accessors

    A field of [size] bits at [offset] in a word stored at type [t]; the masks
    are computed at 64 bits ([~0ULL]). *)

Definition BITMASK_mask (size : Z) : Z := ~[U64] (~[U64] 0 <<[U64] size).

Definition BITMASK (t : int_ty) (offset size : Z) (field : Z) : Z :=
  (field >>[t] offset) &[U64] BITMASK_mask size.

Definition SET_BITMASK (t : int_ty) (offset size : Z) (field v : Z) : Z :=
  let field := cast t (field &[U64] ~[U64] (BITMASK_mask size <<[U64] offset)) in
  cast t (field .|[U64] ((v &[U64] BITMASK_mask size) <<[U64] offset)).

(** ** Btree keys *)

Record bkey : Type := Bkey { high : Z; low : Z; ptr : list Z }.

#[export] Instance bkey_eq_dec : EqDecision bkey.
Proof. solve_decision. Defined.

Definition set_high (k : bkey) (w : Z) : bkey := Bkey w (low k) (ptr k).

Definition KEY_SIZE_BITS : Z := 16.
Definition KEY_MAX_U64S : Z := 8.

Definition KEY_PTRS (k : bkey) : Z := BITMASK U64 60 3 (high k).
Definition HEADER_SIZE (k : bkey) : Z := BITMASK U64 58 2 (high k).
Definition KEY_CSUM (k : bkey) : Z := BITMASK U64 56 2 (high k).
Definition KEY_PINNED (k : bkey) : Z := BITMASK U64 55 1 (high k).
Definition KEY_DIRTY (k : bkey) : Z := BITMASK U64 36 1 (high k).
Definition KEY_SIZE (k : bkey) : Z := BITMASK U64 20 KEY_SIZE_BITS (high k).
Definition KEY_INODE (k : bkey) : Z := BITMASK U64 0 20 (high k).

Definition SET_KEY_PTRS (k : bkey) (v : Z) := set_high k (SET_BITMASK U64 60 3 (high k) v).
Definition SET_HEADER_SIZE (k : bkey) (v : Z) := set_high k (SET_BITMASK U64 58 2 (high k) v).
Definition SET_KEY_CSUM (k : bkey) (v : Z) := set_high k (SET_BITMASK U64 56 2 (high k) v).
Definition SET_KEY_PINNED (k : bkey) (v : Z) := set_high k (SET_BITMASK U64 55 1 (high k) v).
Definition SET_KEY_DIRTY (k : bkey) (v : Z) := set_high k (SET_BITMASK U64 36 1 (high k) v).
Definition SET_KEY_SIZE (k : bkey) (v : Z) :=
  set_high k (SET_BITMASK U64 20 KEY_SIZE_BITS (high k) v).
Definition SET_KEY_INODE (k : bkey) (v : Z) := set_high k (SET_BITMASK U64 0 20 (high k) v).

Definition KEY_OFFSET (k : bkey) : Z := low k.
Definition SET_KEY_OFFSET (k : bkey) (v : Z) : bkey := Bkey (high k) (cast U64 v) (ptr k).

(** [(struct bkey) { .high = ..., .low = ... }]: no pointers are initialised. *)
Definition KEY (inode offset size : Z) : bkey :=
  Bkey (((1 <<[U64] 63) .|[U64] (cast U64 size <<[U64] 20)) .|[U64] cast U64 inode)
       (cast U64 offset) [].

Definition ZERO_KEY : bkey := KEY 0 0 0.
Definition MAX_KEY_INODE : Z := ~[S32] (~[S32] 0 <<[S32] 20).
Definition MAX_KEY_OFFSET : Z := ~[U64] 0 >>[U64] 1.
Definition MAX_KEY : bkey := KEY MAX_KEY_INODE MAX_KEY_OFFSET 0.

Definition KEY_START (k : bkey) : Z := KEY_OFFSET k -[U64] KEY_SIZE k.
Definition START_KEY (k : bkey) : bkey := KEY (KEY_INODE k) (KEY_START k) 0.

(** ** Extent pointers: [None] is an access outside [ptr[]] *)

Definition PTR_DEV_BITS : Z := 12.

Definition PTR_FIELD (offset size : Z) (k : bkey) (i : nat) : option Z :=
  p ← ptr k !! i; Some (BITMASK U64 offset size p).

Definition SET_PTR_FIELD (offset size : Z) (k : bkey) (i : nat) (v : Z) : option bkey :=
  p ← ptr k !! i; Some (Bkey (high k) (low k) (<[i := SET_BITMASK U64 offset size p v]> (ptr k))).

Definition PTR_DEV := PTR_FIELD 51 PTR_DEV_BITS.
Definition PTR_OFFSET := PTR_FIELD 8 43.
Definition PTR_GEN := PTR_FIELD 0 8.
Definition SET_PTR_DEV := SET_PTR_FIELD 51 PTR_DEV_BITS.
Definition SET_PTR_OFFSET := SET_PTR_FIELD 8 43.
Definition SET_PTR_GEN := SET_PTR_FIELD 0 8.

Definition PTR_CHECK_DEV : Z := (1 <<[S32] PTR_DEV_BITS) -[S32] 1.

Definition MAKE_PTR (gen offset dev : Z) : Z :=
  ((cast U64 dev <<[U64] 51) .|[U64] (cast U64 offset <<[U64] 8)) .|[U64] cast U64 gen.

(** ** Sizes and addresses of keys *)

Definition sizeof_bkey : Z := 16.
Definition sizeof_u64 : Z := 8.

Definition bkey_u64s (k : bkey) : Z := (sizeof_bkey /[U64] sizeof_u64) +[U64] KEY_PTRS k.
Definition bkey_bytes (k : bkey) : Z := bkey_u64s k *[U64] sizeof_u64.

Definition bkey_copy_key (dest src : bkey) : bkey :=
  let dest := SET_KEY_INODE dest (KEY_INODE src) in
  SET_KEY_OFFSET dest (KEY_OFFSET src).

Definition BKEY_PAD : Z := 8.

(** The words of a key, and the key a memory holds at a word address. *)
Definition bkey_words (k : bkey) : list Z := high k :: low k :: ptr k.

Definition bkey_at (mem : list Z) (p : nat) : option bkey :=
  h ← mem !! p;
  l ← mem !! S p;
  let n := Z.to_nat (KEY_PTRS (Bkey h l [])) in
  let ps := take n (drop (p + 2) mem) in
  if decide (length ps = n) then Some (Bkey h l ps) else None.

(** The address [bkey_u64s] words after the key, as a key. *)
Definition bkey_next (mem : list Z) (p : nat) : option nat :=
  k ← bkey_at mem p; Some (p + Z.to_nat (bkey_u64s k))%nat.

Definition bkey_idx (p : nat) (nr_keys : nat) : nat := (p + nr_keys)%nat.

(** [memcpy(_dest, _src, bkey_bytes(_src))] on word memory.  The source and the
    destination must lie in the memory and must not overlap. *)
Definition memcpy_u64 (mem : list Z) (dest src bytes : nat) : option (list Z) :=
  let n := (bytes / 8)%nat in
  if decide (dest + n <= length mem /\ src + n <= length mem /\ (dest + n <= src \/ src + n <= dest))%nat
  then Some (take dest mem ++ take n (drop src mem) ++ drop (dest + n) mem)
  else None.

Definition bkey_copy (mem : list Z) (dest src : nat) : option (list Z) :=
  k ← bkey_at mem src; memcpy_u64 mem dest src (Z.to_nat (bkey_bytes k)).

(** ** The accessors are bit fields *)

Lemma cast_U64_land z : cast U64 z = Z.land z (Z.ones 64).
Proof. unfold cast. cbn [int_signed U64 int_width]. by rewrite Z.land_ones. Qed.

Lemma cast_U32_land z : cast U32 z = Z.land z (Z.ones 32).
Proof. unfold cast. cbn [int_signed U32 int_width]. by rewrite Z.land_ones. Qed.

Create Rewrite HintDb cbits.
#[export] Hint Rewrite Z.land_spec Z.lor_spec Z.lxor_spec shiftl_testbit shiftr_testbit Z.bits_0 : cbits.
#[export] Hint Rewrite Z.lnot_spec using lia : cbits.
#[export] Hint Rewrite ones_testbit using lia : cbits.

Lemma BITMASK_mask_ones size : 0 <= size <= 64 -> BITMASK_mask size = Z.ones size.
Proof.
  intros. unfold BITMASK_mask, c_not, c_shl. rewrite !cast_U64_land.
  apply Z.bits_inj'. intros i Hi.
  rewrite Z.land_spec, Z.lnot_spec, Z.land_spec, shiftl_testbit, Z.land_spec by lia.
  destruct (Z.ltb_spec i size).
  - rewrite (Z.testbit_neg_r _ (i - size)) by lia. rewrite !ones_testbit by lia. split_cmp; btauto.
  - rewrite Z.lnot_spec, Z.bits_0, !ones_testbit by lia. split_cmp; btauto.
Qed.

Definition storage (t : int_ty) : Prop := t = U64 \/ t = U32.

Lemma storage_cast t z : storage t -> cast t z = Z.land z (Z.ones (int_width t)).
Proof. intros [-> | ->]; [apply cast_U64_land|apply cast_U32_land]. Qed.

Lemma storage_width t : storage t -> 0 < int_width t <= 64.
Proof. intros [-> | ->]; cbn; lia. Qed.

Section Accessors.
Context (t : int_ty) (Ht : storage t).
Context (f : field) (Hf : field_ok (int_width t) f) (x : Z) (Hx : 0 <= x < 2 ^ int_width t).

Lemma BITMASK_get : BITMASK t (f_off f) (f_size f) x = get f x.
Proof using Ht Hf Hx.
  destruct Hf as (?&?&?). pose proof (storage_width t Ht). unfold BITMASK, get, get_bits.
  rewrite BITMASK_mask_ones by lia. unfold c_and, c_shr. rewrite (storage_cast t), cast_U64_land by done.
  apply Z.bits_inj'. intros i Hi. autorewrite with cbits.
  destruct (Z.ltb_spec i (f_size f)); [split_cmp; btauto|]. btauto.
Qed.

Lemma SET_BITMASK_set v : SET_BITMASK t (f_off f) (f_size f) x v = set f v x.
Proof using Ht Hf Hx.
  destruct Hf as (?&?&?). pose proof (storage_width t Ht). unfold SET_BITMASK, set, set_bits.
  rewrite !BITMASK_mask_ones by lia. unfold c_and, c_or, c_shl, c_not.
  rewrite !(storage_cast t), !cast_U64_land by done.
  apply Z.bits_inj'. intros i Hi.
  rewrite !Z.land_spec, !Z.lor_spec, !Z.land_spec, Z.ldiff_spec, !shiftl_testbit.
  rewrite !Z.land_spec, Z.lnot_spec, Z.land_spec, shiftl_testbit by lia.
  rewrite !ones_testbit by lia.
  destruct (Z.ltb_spec i (int_width t)).
  - destruct (Z.ltb_spec i (f_off f)); split_cmp; try btauto.
  - rewrite (testbit_range x (int_width t) i) by lia. split_cmp; try btauto.
Qed.
End Accessors.

(** ** The fields of a key as a family *)

Inductive key_field : Type :=
  | F_PTRS | F_HEADER_SIZE | F_CSUM | F_PINNED | F_DIRTY | F_SIZE | F_INODE.

#[export] Instance key_field_eq_dec : EqDecision key_field.
Proof. solve_decision. Defined.

Definition key_get (f : key_field) (k : bkey) : Z :=
  match f with
  | F_PTRS => KEY_PTRS k
  | F_HEADER_SIZE => HEADER_SIZE k
  | F_CSUM => KEY_CSUM k
  | F_PINNED => KEY_PINNED k
  | F_DIRTY => KEY_DIRTY k
  | F_SIZE => KEY_SIZE k
  | F_INODE => KEY_INODE k
  end.

Definition key_set (f : key_field) (k : bkey) (v : Z) : bkey :=
  match f with
  | F_PTRS => SET_KEY_PTRS k v
  | F_HEADER_SIZE => SET_HEADER_SIZE k v
  | F_CSUM => SET_KEY_CSUM k v
  | F_PINNED => SET_KEY_PINNED k v
  | F_DIRTY => SET_KEY_DIRTY k v
  | F_SIZE => SET_KEY_SIZE k v
  | F_INODE => SET_KEY_INODE k v
  end.

Definition key_bits (f : key_field) : field :=
  match f with
  | F_PTRS => Field 60 3
  | F_HEADER_SIZE => Field 58 2
  | F_CSUM => Field 56 2
  | F_PINNED => Field 55 1
  | F_DIRTY => Field 36 1
  | F_SIZE => Field 20 16
  | F_INODE => Field 0 20
  end.

Definition u64 (x : Z) : Prop := 0 <= x < 2 ^ 64.

(** Words of a key are 64-bit words. *)
Definition key_wf (k : bkey) : Prop := u64 (high k) /\ u64 (low k) /\ Forall u64 (ptr k).

Lemma storage_U64 : storage U64.
Proof. by left. Qed.

Lemma storage_U32 : storage U32.
Proof. by right. Qed.

Lemma key_bits_ok f : field_ok 64 (key_bits f).
Proof. destruct f; unfold field_ok; cbn; lia. Qed.

Lemma key_bits_disjoint f g : f <> g -> disjoint (key_bits f) (key_bits g).
Proof. intros. unfold disjoint. destruct f, g; try done; cbn; lia. Qed.

Lemma key_get_bits f k : u64 (high k) -> key_get f k = get (key_bits f) (high k).
Proof.
  intros Hk. rewrite <- (BITMASK_get U64 storage_U64 (key_bits f) (key_bits_ok f) _ Hk). by destruct f.
Qed.

Lemma key_set_bits f k v : u64 (high k) -> key_set f k v = set_high k (set (key_bits f) v (high k)).
Proof.
  intros Hk. rewrite <- (SET_BITMASK_set U64 storage_U64 (key_bits f) (key_bits_ok f) _ Hk v).
  by destruct f.
Qed.

Lemma key_set_wf f k v : key_wf k -> key_wf (key_set f k v).
Proof.
  intros (Hh & Hl & Hp). rewrite key_set_bits by done. split_and!; try done. cbn [high set_high].
  apply set_range; [apply key_bits_ok|done|done].
Qed.

(** Reading field [g] after writing [v] to field [f]. *)
Lemma key_get_set f g k v :
  u64 (high k) ->
  key_get g (key_set f k v) = if decide (f = g) then v mod 2 ^ f_size (key_bits f) else key_get g k.
Proof.
  intros Hk. rewrite key_set_bits by done.
  assert (u64 (set (key_bits f) v (high k))) by (apply set_range; [apply key_bits_ok|done|done]).
  rewrite !key_get_bits by done. cbn [high set_high]. case_decide as Hfg.
  - subst g. apply get_set_same with 64, key_bits_ok.
  - apply get_set_other with 64; [apply key_bits_ok ..|by apply key_bits_disjoint].
Qed.

Lemma key_set_get f k : u64 (high k) -> key_set f k (key_get f k) = k.
Proof.
  intros Hk. rewrite key_set_bits, key_get_bits by done.
  rewrite (set_get_same _ 64) by apply key_bits_ok. by destruct k.
Qed.

Lemma key_get_range f k : u64 (high k) -> 0 <= key_get f k < 2 ^ f_size (key_bits f).
Proof. intros Hk. rewrite key_get_bits by done. apply get_range with 64, key_bits_ok. Qed.

(** The constructor, in arithmetic. *)
Lemma KEY_high inode offset size :
  0 <= inode < 2 ^ 20 -> 0 <= size < 2 ^ 43 ->
  high (KEY inode offset size) = 2 ^ 63 + size * 2 ^ 20 + inode.
Proof.
  intros Hi Hs. cbn [high KEY]. rewrite (cast_U64_id inode), (cast_U64_id size) by lia.
  change (1 <<[U64] 63) with (2 ^ 63).
  unfold c_or, c_shl. rewrite (cast_U64_id (Z.shiftl size 20)) by (rewrite Z.shiftl_mul_pow2; lia).
  assert (Z.lor (2 ^ 63) (Z.shiftl size 20) = Z.shiftl (2 ^ 43 + size) 20) as ->.
  { change (2 ^ 63) with (Z.shiftl (2 ^ 43) 20). rewrite <- Z.shiftl_lor. f_equal.
    change (2 ^ 43) with (Z.shiftl 1 43) at 1. rewrite lor_shiftl_add by lia. lia. }
  rewrite (cast_U64_id (Z.shiftl _ 20)) by (rewrite Z.shiftl_mul_pow2; lia).
  rewrite lor_shiftl_add by lia. rewrite cast_U64_id by lia. lia.
Qed.

Lemma get_div_mod f x : 0 <= f_off f -> 0 <= f_size f -> get f x = x / 2 ^ f_off f mod 2 ^ f_size f.
Proof. intros. unfold get, get_bits. by rewrite Z.land_ones, Z.shiftr_div_pow2. Qed.

(** ** Extent pointers *)

Inductive ptr_field : Type := P_DEV | P_OFFSET | P_GEN.

#[export] Instance ptr_field_eq_dec : EqDecision ptr_field.
Proof. solve_decision. Defined.

Definition ptr_bits (f : ptr_field) : field :=
  match f with P_DEV => Field 51 12 | P_OFFSET => Field 8 43 | P_GEN => Field 0 8 end.

Definition ptr_get (f : ptr_field) : bkey -> nat -> option Z :=
  match f with P_DEV => PTR_DEV | P_OFFSET => PTR_OFFSET | P_GEN => PTR_GEN end.

Definition ptr_set (f : ptr_field) : bkey -> nat -> Z -> option bkey :=
  match f with P_DEV => SET_PTR_DEV | P_OFFSET => SET_PTR_OFFSET | P_GEN => SET_PTR_GEN end.

Lemma ptr_bits_ok f : field_ok 64 (ptr_bits f).
Proof. destruct f; unfold field_ok; cbn; lia. Qed.

Lemma ptr_bits_disjoint f g : f <> g -> disjoint (ptr_bits f) (ptr_bits g).
Proof. intros. unfold disjoint. destruct f, g; try done; cbn; lia. Qed.

Lemma ptr_get_lookup f k i p :
  ptr k !! i = Some p -> u64 p -> ptr_get f k i = Some (get (ptr_bits f) p).
Proof.
  intros Hi Hp. rewrite <- (BITMASK_get U64 storage_U64 (ptr_bits f) (ptr_bits_ok f) p Hp).
  destruct f; cbn; unfold PTR_DEV, PTR_OFFSET, PTR_GEN, PTR_FIELD; by rewrite Hi.
Qed.

Lemma ptr_set_lookup f k i p v :
  ptr k !! i = Some p -> u64 p ->
  ptr_set f k i v = Some (Bkey (high k) (low k) (<[i := set (ptr_bits f) v p]> (ptr k))).
Proof.
  intros Hi Hp. rewrite <- (SET_BITMASK_set U64 storage_U64 (ptr_bits f) (ptr_bits_ok f) p Hp v).
  destruct f; cbn; unfold SET_PTR_DEV, SET_PTR_OFFSET, SET_PTR_GEN, SET_PTR_FIELD; by rewrite Hi.
Qed.

Lemma MAKE_PTR_sum gen offset dev :
  0 <= gen < 2 ^ 8 -> 0 <= offset < 2 ^ 43 -> 0 <= dev < 2 ^ 12 ->
  MAKE_PTR gen offset dev = dev * 2 ^ 51 + offset * 2 ^ 8 + gen.
Proof.
  intros Hg Ho Hd. unfold MAKE_PTR. rewrite (cast_U64_id dev), (cast_U64_id offset), (cast_U64_id gen) by lia.
  unfold c_or, c_shl.
  rewrite (cast_U64_id (Z.shiftl dev 51)), (cast_U64_id (Z.shiftl offset 8))
    by (rewrite Z.shiftl_mul_pow2; lia).
  assert (Z.lor (Z.shiftl dev 51) (Z.shiftl offset 8) = Z.shiftl (dev * 2 ^ 43 + offset) 8) as ->.
  { rewrite <- (lor_shiftl_add dev offset 43) by lia. rewrite Z.shiftl_lor, Z.shiftl_shiftl by lia. done. }
  rewrite (cast_U64_id (Z.shiftl _ 8)) by (rewrite Z.shiftl_mul_pow2; lia).
  rewrite lor_shiftl_add by lia. rewrite cast_U64_id; lia.
Qed.

Lemma MAKE_PTR_fields gen offset dev :
  0 <= gen < 2 ^ 8 -> 0 <= offset < 2 ^ 43 -> 0 <= dev < 2 ^ 12 ->
  let p := MAKE_PTR gen offset dev in
  get (ptr_bits P_GEN) p = gen /\ get (ptr_bits P_OFFSET) p = offset /\ get (ptr_bits P_DEV) p = dev
  /\ 0 <= p < 2 ^ 63.
Proof.
  intros Hg Ho Hd p. subst p. rewrite MAKE_PTR_sum by done.
  rewrite !get_div_mod by (cbn; lia). cbn [ptr_bits f_off f_size]. norm_pow. split_and!; zlia.
Qed.

Lemma MAKE_PTR_of_fields p :
  0 <= p < 2 ^ 63 ->
  MAKE_PTR (get (ptr_bits P_GEN) p) (get (ptr_bits P_OFFSET) p) (get (ptr_bits P_DEV) p) = p.
Proof.
  intros Hp.
  pose proof (get_range (ptr_bits P_GEN) 64 (ptr_bits_ok _) p).
  pose proof (get_range (ptr_bits P_OFFSET) 64 (ptr_bits_ok _) p).
  pose proof (get_range (ptr_bits P_DEV) 64 (ptr_bits_ok _) p).
  rewrite MAKE_PTR_sum by done.
  rewrite !get_div_mod by (cbn; lia). cbn [ptr_bits f_off f_size]. norm_pow. zlia.
Qed.

(** ** Keys in memory *)

(** The pointers a key carries are as many as its header says. *)
Definition key_ptrs_ok (k : bkey) : Prop := KEY_PTRS k = Z.of_nat (length (ptr k)).

Lemma KEY_PTRS_bound k : u64 (high k) -> 0 <= KEY_PTRS k <= 7.
Proof. intros Hk. pose proof (key_get_range F_PTRS k Hk) as H.
  change (key_get F_PTRS k) with (KEY_PTRS k) in H. change (2 ^ f_size (key_bits F_PTRS)) with 8 in H. lia. Qed.

Lemma bkey_u64s_ptrs k : u64 (high k) -> bkey_u64s k = 2 + KEY_PTRS k.
Proof.
  intros Hk. pose proof (KEY_PTRS_bound k Hk). unfold bkey_u64s.
  change (sizeof_bkey /[U64] sizeof_u64) with 2. apply cast_U64_id. lia.
Qed.

Lemma bkey_bytes_ptrs k : u64 (high k) -> bkey_bytes k = 8 * (2 + KEY_PTRS k).
Proof.
  intros Hk. pose proof (KEY_PTRS_bound k Hk). unfold bkey_bytes. rewrite bkey_u64s_ptrs by done.
  unfold c_mul, sizeof_u64. rewrite cast_U64_id; lia.
Qed.

Lemma bkey_at_words pre k post :
  key_ptrs_ok k -> bkey_at (pre ++ bkey_words k ++ post) (length pre) = Some k.
Proof.
  intros Hk. unfold bkey_at, bkey_words.
  rewrite (lookup_app_r pre _ (length pre)), (lookup_app_r pre _ (S (length pre))) by lia.
  replace (length pre - length pre)%nat with 0%nat by lia.
  replace (S (length pre) - length pre)%nat with 1%nat by lia.
  assert (drop (length pre + 2) (pre ++ (high k :: low k :: ptr k) ++ post) = ptr k ++ post) as ->.
  { rewrite drop_app_ge by lia. by replace (length pre + 2 - length pre)%nat with 2%nat by lia. }
  change (((high k :: low k :: ptr k) ++ post) !! 0%nat) with (Some (high k)).
  change (((high k :: low k :: ptr k) ++ post) !! 1%nat) with (Some (low k)).
  cbn [mbind option_bind]. change (KEY_PTRS (Bkey (high k) (low k) [])) with (KEY_PTRS k).
  cbv zeta. rewrite Hk, Nat2Z.id, take_app_length, decide_True by done. by destruct k.
Qed.

Lemma bkey_next_words pre k post :
  key_wf k -> key_ptrs_ok k ->
  bkey_next (pre ++ bkey_words k ++ post) (length pre) = Some (length (pre ++ bkey_words k)).
Proof.
  intros (Hk & _) Hp. unfold bkey_next. rewrite bkey_at_words by done. cbn [mbind option_bind].
  f_equal. rewrite bkey_u64s_ptrs, Hp, length_app by done. unfold bkey_words. cbn [length]. lia.
Qed.

(** Reads [n] keys, stepping from one to the next with [bkey_next]. *)
Fixpoint bkey_walk (n : nat) (mem : list Z) (p : nat) : option (list bkey) :=
  match n with
  | O => Some []
  | S n => k ← bkey_at mem p; q ← bkey_next mem p; ks ← bkey_walk n mem q; Some (k :: ks)
  end.
