(* ===== verification/BcacheSb.v ===== *)
(** * BcacheSb: superblocks, journal and node headers of [include/linux/bcache.h]

    The in-memory superblock with its flag accessors, version classes and
    magic numbers, and the layouts of the structures that live on disk. *)

From S2P Require Import Prelude Align Bits CLayout Bcache.

(** ** Versions *)

Definition BCACHE_SB_VERSION_CDEV : Z := 0.
Definition BCACHE_SB_VERSION_BDEV : Z := 1.
Definition BCACHE_SB_VERSION_CDEV_WITH_UUID : Z := 3.
Definition BCACHE_SB_VERSION_BDEV_WITH_OFFSET : Z := 4.
Definition BCACHE_SB_VERSION_CDEV_WITH_FEATURES : Z := 5.
Definition BCACHE_SB_VERSION_BDEV_WITH_FEATURES : Z := 6.
Definition BCACHE_SB_MAX_VERSION : Z := 6.

Definition SB_SECTOR : Z := 8.
Definition SB_SIZE : Z := 4096.
Definition SB_LABEL_SIZE : Z := 32.
Definition SB_JOURNAL_BUCKETS : Z := 256.
Definition MAX_CACHES_PER_SET : Z := 8.
Definition BDEV_DATA_START_DEFAULT : Z := 16.

(** The file leaves [SECTOR_SHIFT] to its includer. *)
Definition SB_OFFSET (SECTOR_SHIFT : Z) : Z := SB_SECTOR <<[S32] SECTOR_SHIFT.

(** ** The superblock in memory

    The union of [set_uuid] and [set_magic] is kept as its bytes; the union of
    the cache-device and backing-device members as the member both overlay
    ([nbuckets] and [data_offset]) and the rest of the cache-device arm. *)

Record cache_sb : Type := CacheSb {
  sb_offset : Z;
  sb_version : Z;
  sb_magic : list Z;
  sb_uuid : list Z;
  set_uuid : list Z;
  sb_label : list Z;
  sb_flags : Z;
  sb_seq : Z;
  feature_compat : Z;
  feature_incompat : Z;
  feature_ro_compat : Z;
  nbuckets : Z;
  block_size : Z;
  nr_in_set : Z;
  nr_this_dev : Z;
  bucket_size : Z;
  last_mount : Z;
  first_bucket : Z;
  njournal_buckets : Z;
  sb_d : list Z;
}.

Definition data_offset (sb : cache_sb) : Z := nbuckets sb.
Definition keys (sb : cache_sb) : Z := njournal_buckets sb.

(** Little-endian value of bytes. *)
Fixpoint le_value (bs : list Z) : Z :=
  match bs with [] => 0 | b :: bs => b + 256 * le_value bs end.

Definition set_magic (sb : cache_sb) : Z := le_value (take 8 (set_uuid sb)).

Definition set_sb_flags (sb : cache_sb) (w : Z) : cache_sb :=
  CacheSb (sb_offset sb) (sb_version sb) (sb_magic sb) (sb_uuid sb) (set_uuid sb) (sb_label sb)
    w (sb_seq sb) (feature_compat sb) (feature_incompat sb) (feature_ro_compat sb) (nbuckets sb)
    (block_size sb) (nr_in_set sb) (nr_this_dev sb) (bucket_size sb) (last_mount sb)
    (first_bucket sb) (njournal_buckets sb) (sb_d sb).

Definition SB_IS_BDEV (sb : cache_sb) : bool :=
  (sb_version sb =? BCACHE_SB_VERSION_BDEV)
  || (sb_version sb =? BCACHE_SB_VERSION_BDEV_WITH_OFFSET)
  || (sb_version sb =? BCACHE_SB_VERSION_BDEV_WITH_FEATURES).

(** ** Flags *)

Definition CACHE_SYNC (sb : cache_sb) : Z := BITMASK U64 0 1 (sb_flags sb).
Definition CACHE_DISCARD (sb : cache_sb) : Z := BITMASK U64 1 1 (sb_flags sb).
Definition CACHE_REPLACEMENT (sb : cache_sb) : Z := BITMASK U64 2 3 (sb_flags sb).
Definition BDEV_CACHE_MODE (sb : cache_sb) : Z := BITMASK U64 0 4 (sb_flags sb).
Definition BDEV_STATE (sb : cache_sb) : Z := BITMASK U64 61 2 (sb_flags sb).

Definition SET_CACHE_SYNC (sb : cache_sb) (v : Z) :=
  set_sb_flags sb (SET_BITMASK U64 0 1 (sb_flags sb) v).
Definition SET_CACHE_DISCARD (sb : cache_sb) (v : Z) :=
  set_sb_flags sb (SET_BITMASK U64 1 1 (sb_flags sb) v).
Definition SET_CACHE_REPLACEMENT (sb : cache_sb) (v : Z) :=
  set_sb_flags sb (SET_BITMASK U64 2 3 (sb_flags sb) v).
Definition SET_BDEV_CACHE_MODE (sb : cache_sb) (v : Z) :=
  set_sb_flags sb (SET_BITMASK U64 0 4 (sb_flags sb) v).
Definition SET_BDEV_STATE (sb : cache_sb) (v : Z) :=
  set_sb_flags sb (SET_BITMASK U64 61 2 (sb_flags sb) v).

Inductive cache_replacement : Type :=
  | CACHE_REPLACEMENT_LRU | CACHE_REPLACEMENT_FIFO | CACHE_REPLACEMENT_RANDOM.
Inductive cache_mode : Type :=
  | CACHE_MODE_WRITETHROUGH | CACHE_MODE_WRITEBACK | CACHE_MODE_WRITEAROUND | CACHE_MODE_NONE.
Inductive bdev_state : Type :=
  | BDEV_STATE_NONE | BDEV_STATE_CLEAN | BDEV_STATE_DIRTY | BDEV_STATE_STALE.

#[export] Instance cache_replacement_enum : CEnum cache_replacement := {
  enum_value r := match r with
    CACHE_REPLACEMENT_LRU => 0 | CACHE_REPLACEMENT_FIFO => 1 | CACHE_REPLACEMENT_RANDOM => 2 end;
  enum_all := [CACHE_REPLACEMENT_LRU; CACHE_REPLACEMENT_FIFO; CACHE_REPLACEMENT_RANDOM] }.

#[export] Instance cache_mode_enum : CEnum cache_mode := {
  enum_value m := match m with
    CACHE_MODE_WRITETHROUGH => 0 | CACHE_MODE_WRITEBACK => 1
    | CACHE_MODE_WRITEAROUND => 2 | CACHE_MODE_NONE => 3 end;
  enum_all := [CACHE_MODE_WRITETHROUGH; CACHE_MODE_WRITEBACK; CACHE_MODE_WRITEAROUND; CACHE_MODE_NONE] }.

#[export] Instance bdev_state_enum : CEnum bdev_state := {
  enum_value s := match s with
    BDEV_STATE_NONE => 0 | BDEV_STATE_CLEAN => 1 | BDEV_STATE_DIRTY => 2 | BDEV_STATE_STALE => 3 end;
  enum_all := [BDEV_STATE_NONE; BDEV_STATE_CLEAN; BDEV_STATE_DIRTY; BDEV_STATE_STALE] }.

#[export] Instance cache_mode_laws : CEnumLaws cache_mode.
Proof. solve_enum_laws. Qed.
#[export] Instance cache_replacement_laws : CEnumLaws cache_replacement.
Proof. solve_enum_laws. Qed.
#[export] Instance bdev_state_laws : CEnumLaws bdev_state.
Proof. solve_enum_laws. Qed.

(** ** Magic numbers *)

Definition JSET_MAGIC : Z := 0x245235c1a3625032.
Definition PSET_MAGIC : Z := 0x6750e15f87337f91.
Definition BSET_MAGIC : Z := 0x90135c78b99e07f5.

Definition jset_magic (sb : cache_sb) : Z := set_magic sb ^[U64] JSET_MAGIC.
Definition pset_magic (sb : cache_sb) : Z := set_magic sb ^[U64] PSET_MAGIC.
Definition bset_magic (sb : cache_sb) : Z := set_magic sb ^[U64] BSET_MAGIC.

(** ** Structures *)

(** [BKEY_PADDED(key)]: a key in a union with [BKEY_PAD] words of padding. *)
Definition bkey_type (n_ptrs : Z) : ctype :=
  struct [("high", c_u64); ("low", c_u64); ("ptr", CArray c_u64 n_ptrs)].

Definition BKEY_PADDED (key : string) : ctype :=
  CUnion [(key, bkey_type 0); ((key ++ "_pad")%string, CArray c_u64 BKEY_PAD)].

Definition cache_sb_disk_type : ctype := struct [
  ("csum", c_u64);
  ("offset", c_u64);
  ("version", c_u64);
  ("magic", CArray c_u8 16);
  ("uuid", CArray c_u8 16);
  ("", CUnion [("set_uuid", CArray c_u8 16); ("set_magic", c_u64)]);
  ("label", CArray c_u8 SB_LABEL_SIZE);
  ("flags", c_u64);
  ("seq", c_u64);
  ("feature_compat", c_u64);
  ("feature_incompat", c_u64);
  ("feature_ro_compat", c_u64);
  ("pad", CArray c_u64 5);
  ("", CUnion [
    ("", struct [("nbuckets", c_u64); ("block_size", c_u16); ("bucket_size", c_u16);
                 ("nr_in_set", c_u16); ("nr_this_dev", c_u16)]);
    ("", struct [("data_offset", c_u64)])]);
  ("last_mount", c_u32);
  ("first_bucket", c_u16);
  ("", CUnion [("njournal_buckets", c_u16); ("keys", c_u16)]);
  ("d", CArray c_u64 SB_JOURNAL_BUCKETS);
  ("obso_bucket_size_hi", c_u16)].

Definition cache_sb_type : ctype := struct [
  ("offset", c_u64);
  ("version", c_u64);
  ("magic", CArray c_u8 16);
  ("uuid", CArray c_u8 16);
  ("", CUnion [("set_uuid", CArray c_u8 16); ("set_magic", c_u64)]);
  ("label", CArray c_u8 SB_LABEL_SIZE);
  ("flags", c_u64);
  ("seq", c_u64);
  ("feature_compat", c_u64);
  ("feature_incompat", c_u64);
  ("feature_ro_compat", c_u64);
  ("", CUnion [
    ("", struct [("nbuckets", c_u64); ("block_size", c_u16); ("nr_in_set", c_u16);
                 ("nr_this_dev", c_u16); ("bucket_size", c_u32)]);
    ("", struct [("data_offset", c_u64)])]);
  ("last_mount", c_u32);
  ("first_bucket", c_u16);
  ("", CUnion [("njournal_buckets", c_u16); ("keys", c_u16)]);
  ("d", CArray c_u64 SB_JOURNAL_BUCKETS)].

Definition jset_type : ctype := struct [
  ("csum", c_u64);
  ("magic", c_u64);
  ("seq", c_u64);
  ("version", c_u32);
  ("keys", c_u32);
  ("last_seq", c_u64);
  ("", BKEY_PADDED "uuid_bucket");
  ("", BKEY_PADDED "btree_root");
  ("btree_level", c_u16);
  ("pad", CArray c_u16 3);
  ("prio_bucket", CArray c_u64 MAX_CACHES_PER_SET);
  ("", CUnion [("start", CArray (bkey_type 0) 0); ("d", CArray c_u64 0)])].

Definition bucket_disk_type : ctype := packed_struct [("prio", c_u16); ("gen", c_u8)].

Definition prio_set_type : ctype := struct [
  ("csum", c_u64);
  ("magic", c_u64);
  ("seq", c_u64);
  ("version", c_u32);
  ("pad", c_u32);
  ("next_bucket", c_u64);
  ("data", CArray bucket_disk_type 0)].

Definition uuid_entry_type : ctype := struct [
  ("", CUnion [
    ("", struct [("uuid", CArray c_u8 16); ("label", CArray c_u8 32); ("first_reg", c_u32);
                 ("last_reg", c_u32); ("invalidated", c_u32); ("flags", c_u32); ("sectors", c_u64)]);
    ("pad", CArray c_u8 128)])].

Definition bset_type : ctype := struct [
  ("csum", c_u64);
  ("magic", c_u64);
  ("seq", c_u64);
  ("version", c_u32);
  ("keys", c_u32);
  ("", CUnion [("start", CArray (bkey_type 0) 0); ("d", CArray c_u64 0)])].

Definition uuid_entry_v0_type : ctype := struct [
  ("uuid", CArray c_u8 16);
  ("label", CArray c_u8 32);
  ("first_reg", c_u32);
  ("last_reg", c_u32);
  ("invalidated", c_u32);
  ("pad", c_u32)].

(** [struct uuid_entry]'s flags word and its one accessor. *)
Record uuid_entry : Type := UuidEntry {
  ue_uuid : list Z; ue_label : list Z; ue_first_reg : Z; ue_last_reg : Z; ue_invalidated : Z;
  ue_flags : Z; ue_sectors : Z }.

Definition UUID_FLASH_ONLY (e : uuid_entry) : Z := BITMASK U32 0 1 (ue_flags e).
Definition SET_UUID_FLASH_ONLY (e : uuid_entry) (v : Z) : uuid_entry :=
  UuidEntry (ue_uuid e) (ue_label e) (ue_first_reg e) (ue_last_reg e) (ue_invalidated e)
    (SET_BITMASK U32 0 1 (ue_flags e) v) (ue_sectors e).
