(* ===== verification/BcacheProps.v ===== *)
(** * BcacheProps: what the bcache headers promise

    Keys: independent fields, pointers, copying and walking in memory, and the
    room of a padded key. Superblocks: flags and the two kinds of device, magic
    numbers, and the layouts on disk. *)

From S2P Require Import Prelude Align Bits CLayout Bcache BcacheSb.

(** ** Helpers *)

Lemma key_get_KEY f inode offset size :
  0 <= inode < 2 ^ 20 -> 0 <= size < 2 ^ 43 ->
  key_get f (KEY inode offset size)
  = (2 ^ 63 + size * 2 ^ 20 + inode) / 2 ^ f_off (key_bits f) mod 2 ^ f_size (key_bits f).
Proof.
  intros Hi Hs.
  assert (u64 (high (KEY inode offset size))) by (rewrite KEY_high by done; unfold u64; lia).
  rewrite key_get_bits, KEY_high, get_div_mod by (done || destruct f; cbn; lia). done.
Qed.

(** The three words of memory arithmetic [memcpy_u64] needs. *)
Lemma memcpy_u64_spec mem dest src n :
  (dest + n <= length mem)%nat -> (src + n <= length mem)%nat ->
  (dest + n <= src \/ src + n <= dest)%nat ->
  exists mem', memcpy_u64 mem dest src (8 * n) = Some mem' /\ length mem' = length mem
    /\ forall i, mem' !! i = if decide (dest <= i < dest + n)%nat then mem !! (src + (i - dest))%nat else mem !! i.
Proof.
  intros Hd Hs Ho. unfold memcpy_u64. replace (8 * n / 8)%nat with n by (rewrite Nat.mul_comm, Nat.div_mul; lia).
  rewrite decide_True by done. eexists. split_and!; [done|..].
  - rewrite !length_app, !length_take, !length_drop. lia.
  - intros i. case_decide as Hi.
    + rewrite lookup_app_r by (rewrite length_take; lia). rewrite length_take, Nat.min_l by lia.
      rewrite lookup_app_l by (rewrite length_take, length_drop; lia).
      rewrite lookup_take_lt by lia. by rewrite lookup_drop.
    + destruct (decide (i < dest)%nat).
      * rewrite lookup_app_l by (rewrite length_take; lia). by rewrite lookup_take_lt by lia.
      * rewrite lookup_app_r by (rewrite length_take; lia). rewrite length_take, Nat.min_l by lia.
        rewrite lookup_app_r by (rewrite length_take, length_drop; lia).
        rewrite length_take, length_drop, Nat.min_l by lia. rewrite lookup_drop. f_equal. lia.
Qed.

Definition n_words (k : bkey) : nat := length (bkey_words k).

(** What [bkey_at] finds is what lies in memory. *)
Lemma bkey_at_spec mem p k :
  bkey_at mem p = Some k <->
  key_ptrs_ok k /\ forall i, (i < n_words k)%nat -> mem !! (p + i)%nat = bkey_words k !! i.
Proof.
  unfold bkey_at, n_words, bkey_words. split.
  - destruct (mem !! p) as [h|] eqn:Hh; [|done]. destruct (mem !! S p) as [l|] eqn:Hl; [|done].
    cbn [mbind option_bind]. set (n := Z.to_nat (KEY_PTRS _)). case_decide as Hn; [|done].
    intros Hk. apply (inj Some) in Hk. subst k. cbn [high low ptr]. split.
    + unfold key_ptrs_ok. cbn [ptr]. rewrite Hn. subst n. cbn [high low ptr].
      change (KEY_PTRS (Bkey h l (take _ _))) with (KEY_PTRS (Bkey h l [])).
      destruct (decide (0 <= KEY_PTRS (Bkey h l []))) as [|Hneg]; [lia|].
      exfalso. apply Hneg. unfold KEY_PTRS, BITMASK, c_and. apply (cast_range U64); done.
    + intros [|[|i]]; cbn [length]; intros Hi.
      * by rewrite Nat.add_0_r.
      * by rewrite Nat.add_1_r.
      * change ((h :: l :: take n (drop (p + 2) mem)) !! S (S i)) with (take n (drop (p + 2) mem) !! i).
        rewrite lookup_take_lt by lia. rewrite lookup_drop. f_equal. lia.
  - intros [Hp Hw]. cbn [length] in Hw.
    pose proof (Hw 0%nat ltac:(lia)) as H0. rewrite Nat.add_0_r in H0.
    pose proof (Hw 1%nat ltac:(lia)) as H1. rewrite Nat.add_1_r in H1.
    rewrite H0, H1. cbn [lookup list_lookup mbind option_bind]. cbv zeta.
    change (KEY_PTRS (Bkey (high k) (low k) [])) with (KEY_PTRS k). rewrite Hp, Nat2Z.id.
    assert (take (length (ptr k)) (drop (p + 2) mem) = ptr k) as ->.
    { apply list_eq. intros i. destruct (decide (i < length (ptr k))%nat) as [Hi|Hi].
      - rewrite lookup_take_lt, lookup_drop by lia. rewrite <- Nat.add_assoc. by rewrite Hw by lia.
      - rewrite lookup_take_ge by lia. by rewrite (proj2 (lookup_ge_None _ _)) by lia. }
    rewrite decide_True by done. by destruct k.
Qed.

(** ** Keys *)

(** C9: The accessors of a btree key behave as independent record fields.
    Reading a field after writing one gives the written value cut to the
    field's width when it is the same field, and the old value otherwise;
    writing back what was read changes nothing; the low word and the pointers
    are never touched and the high word stays a 64-bit word. *)
Theorem key_fields_independent (k : bkey) (f g : key_field) (v : Z) :
  key_wf k ->
  key_get g (key_set f k v) = (if decide (f = g) then v mod 2 ^ f_size (key_bits f) else key_get g k)
  /\ key_set f k (key_get f k) = k
  /\ low (key_set f k v) = low k /\ ptr (key_set f k v) = ptr k
  /\ key_wf (key_set f k v).
Proof.
  intros Hk. pose proof Hk as [Hh _]. split_and!.
  - by apply key_get_set.
  - by apply key_set_get.
  - by destruct f.
  - by destruct f.
  - by apply key_set_wf.
Qed.

Lemma key_fields_independent_witness :
  let k := KEY 5 100 8 in
  KEY_SIZE (SET_KEY_DIRTY k 3) = 8 /\ KEY_DIRTY (SET_KEY_DIRTY k 3) = 1.
Proof.
  assert (key_wf (KEY 5 100 8)) as Hk by (split_and!; done). split.
  - exact (proj1 (key_fields_independent (KEY 5 100 8) F_DIRTY F_SIZE 3 Hk)).
  - exact (proj1 (key_fields_independent (KEY 5 100 8) F_DIRTY F_DIRTY 3 Hk)).
Defined.

(** [KEY(inode, offset, size)] holds the inode, offset and size it is
    given, and no pointers, header size, checksum, pinned or dirty flag, as long as
    the inode fits 20 bits; a size over 16 bits spills: only its low 16 bits
    are the size, and its 17th bit is taken for the dirty flag. *)
Theorem KEY_components (inode offset size : Z) :
  0 <= inode < 2 ^ 20 -> u64 offset -> 0 <= size < 2 ^ 17 ->
  let k := KEY inode offset size in
  KEY_INODE k = inode /\ KEY_OFFSET k = offset /\ KEY_SIZE k = size mod 2 ^ 16
  /\ KEY_DIRTY k = size / 2 ^ 16
  /\ KEY_PTRS k = 0 /\ HEADER_SIZE k = 0 /\ KEY_CSUM k = 0 /\ KEY_PINNED k = 0 /\ key_ptrs_ok k.
Proof.
  intros Hi Ho Hs k. subst k. pose proof (key_get_KEY F_PTRS inode offset size Hi ltac:(lia)) as Hp.
  split_and!.
  - rewrite (key_get_KEY F_INODE) by lia. cbn [key_bits f_off f_size]. norm_pow. zlia.
  - cbn. by apply cast_U64_id.
  - rewrite (key_get_KEY F_SIZE) by lia. cbn [key_bits f_off f_size]. norm_pow. zlia.
  - rewrite (key_get_KEY F_DIRTY) by lia. cbn [key_bits f_off f_size]. norm_pow. zlia.
  - cbn [key_get key_bits f_off f_size] in Hp. rewrite Hp. norm_pow. zlia.
  - rewrite (key_get_KEY F_HEADER_SIZE) by lia. cbn [key_bits f_off f_size]. norm_pow. zlia.
  - rewrite (key_get_KEY F_CSUM) by lia. cbn [key_bits f_off f_size]. norm_pow. zlia.
  - rewrite (key_get_KEY F_PINNED) by lia. cbn [key_bits f_off f_size]. norm_pow. zlia.
  - unfold key_ptrs_ok. cbn [key_get key_bits f_off f_size] in Hp. rewrite Hp. cbn [ptr KEY length].
    norm_pow. zlia.
Qed.

Lemma KEY_components_witness :
  KEY_SIZE (KEY 7 4096 65540) = 4 /\ KEY_DIRTY (KEY 7 4096 65540) = 1.
Proof.
  destruct (KEY_components 7 4096 65540 ltac:(lia) ltac:(unfold u64; lia) ltac:(lia)) as (_&_&H1&H2&_).
  split; [exact H1|exact H2].
Defined.

(** [START_KEY(k)] is the key of [k]'s inode at the first sector of [k]'s
    extent: its size is zero, and as long as the extent does not begin before
    sector zero adding the size gives back [k]'s offset. *)
Theorem START_KEY_extent (k : bkey) :
  key_wf k ->
  KEY_INODE (START_KEY k) = KEY_INODE k /\ KEY_SIZE (START_KEY k) = 0 /\ KEY_PTRS (START_KEY k) = 0
  /\ KEY_OFFSET (START_KEY k) = KEY_START k
  /\ (KEY_SIZE k <= KEY_OFFSET k -> KEY_OFFSET (START_KEY k) + KEY_SIZE k = KEY_OFFSET k).
Proof.
  intros (Hh & Hl & _).
  pose proof (key_get_range F_INODE k Hh) as Hi. cbn [key_get key_bits f_size] in Hi.
  pose proof (key_get_range F_SIZE k Hh) as Hs. cbn [key_get key_bits f_size] in Hs.
  assert (KEY_OFFSET (START_KEY k) = KEY_START k) as Ho
    by (change (cast U64 (cast U64 (KEY_OFFSET k - KEY_SIZE k)) = cast U64 (KEY_OFFSET k - KEY_SIZE k));
        by apply (cast_cast U64)).
  unfold START_KEY in *.
  split_and!.
  - rewrite (key_get_KEY F_INODE) by lia. cbn [key_bits f_off f_size]. norm_pow. zlia.
  - rewrite (key_get_KEY F_SIZE) by lia. cbn [key_bits f_off f_size]. norm_pow. zlia.
  - rewrite (key_get_KEY F_PTRS) by lia. cbn [key_bits f_off f_size]. norm_pow. zlia.
  - exact Ho.
  - intros Hle. rewrite Ho. unfold KEY_START, KEY_OFFSET, c_sub in *. unfold u64 in Hl.
    rewrite cast_U64_id by lia. lia.
Qed.

Lemma START_KEY_extent_witness :
  key_wf (KEY 3 1000 24) /\ KEY_OFFSET (START_KEY (KEY 3 1000 24)) + 24 = 1000.
Proof.
  assert (key_wf (KEY 3 1000 24)) as Hk by (split_and!; done). split; [exact Hk|].
  exact (proj2 (proj2 (proj2 (proj2 (START_KEY_extent (KEY 3 1000 24) Hk)))) ltac:(done)).
Defined.

(** [bkey_copy_key] moves the position (inode and offset) of the source
    into the destination and nothing else: every other field, and the pointers,
    are the destination's. *)
Theorem bkey_copy_key_position (dest src : bkey) :
  key_wf dest -> key_wf src ->
  let d := bkey_copy_key dest src in
  KEY_INODE d = KEY_INODE src /\ KEY_OFFSET d = KEY_OFFSET src /\ ptr d = ptr dest /\ key_wf d
  /\ forall f, f <> F_INODE -> key_get f d = key_get f dest.
Proof.
  intros Hd Hs. pose proof Hd as [Hh _]. pose proof Hs as (Hsh & Hsl & _).
  assert (forall f, key_get f (bkey_copy_key dest src) = key_get f (key_set F_INODE dest (KEY_INODE src))) as Hf
    by (by intros []).
  cbv zeta. split_and!.
  - pose proof (Hf F_INODE) as H1. cbn [key_get] in H1. rewrite H1.
    pose proof (key_get_set F_INODE F_INODE dest (KEY_INODE src) Hh) as H2. cbn [key_get] in H2.
    rewrite decide_True in H2 by done. rewrite H2. apply Z.mod_small. by apply (key_get_range F_INODE).
  - cbn. by apply cast_U64_id.
  - done.
  - pose proof (key_set_wf F_INODE dest (KEY_INODE src) Hd) as (Hh' & _ & Hp').
    split_and!; [exact Hh'| |exact Hp']. cbn [low bkey_copy_key SET_KEY_OFFSET]. unfold KEY_OFFSET.
    rewrite (cast_U64_id _ Hsl). exact Hsl.
  - intros f Hne. rewrite Hf, key_get_set by done. by rewrite decide_False.
Qed.

Lemma bkey_copy_key_position_witness :
  KEY_SIZE (bkey_copy_key (KEY 1 10 8) (KEY 2 20 16)) = 8
  /\ KEY_OFFSET (bkey_copy_key (KEY 1 10 8) (KEY 2 20 16)) = 20.
Proof.
  destruct (bkey_copy_key_position (KEY 1 10 8) (KEY 2 20 16)
              ltac:(split_and!; done) ltac:(split_and!; done)) as (_&Ho&_&_&Hf).
  split; [exact (Hf F_SIZE ltac:(done))|exact Ho].
Defined.

(** ** Extent pointers *)

(** [MAKE_PTR] and the pointer accessors are inverse to each other: a
    pointer made of a generation, an offset and a device below their field
    widths has exactly these parts, and every pointer word whose top bit is
    clear is made of its own parts. *)
Theorem MAKE_PTR_roundtrip (gen offset dev p : Z) (k : bkey) (i : nat) :
  0 <= gen < 2 ^ 8 -> 0 <= offset < 2 ^ 43 -> 0 <= dev <= PTR_CHECK_DEV -> 0 <= p < 2 ^ 63 ->
  (ptr k !! i = Some (MAKE_PTR gen offset dev) ->
   PTR_GEN k i = Some gen /\ PTR_OFFSET k i = Some offset /\ PTR_DEV k i = Some dev)
  /\ (ptr k !! i = Some p ->
      exists g o d, PTR_GEN k i = Some g /\ PTR_OFFSET k i = Some o /\ PTR_DEV k i = Some d
                    /\ MAKE_PTR g o d = p).
Proof.
  intros Hg Ho Hd Hp. change PTR_CHECK_DEV with 4095 in Hd. split; intros Hi.
  - destruct (MAKE_PTR_fields gen offset dev Hg Ho ltac:(lia)) as (E1 & E2 & E3 & Hr).
    assert (u64 (MAKE_PTR gen offset dev)) as Hu by (unfold u64; lia).
    pose proof (ptr_get_lookup P_GEN k i _ Hi Hu) as G1.
    pose proof (ptr_get_lookup P_OFFSET k i _ Hi Hu) as G2.
    pose proof (ptr_get_lookup P_DEV k i _ Hi Hu) as G3.
    rewrite E1 in G1. rewrite E2 in G2. rewrite E3 in G3. by split_and!.
  - assert (u64 p) as Hu by (unfold u64; lia).
    exists (get (ptr_bits P_GEN) p), (get (ptr_bits P_OFFSET) p), (get (ptr_bits P_DEV) p).
    split_and!; [by apply (ptr_get_lookup P_GEN)|by apply (ptr_get_lookup P_OFFSET)
                |by apply (ptr_get_lookup P_DEV)|by apply MAKE_PTR_of_fields].
Qed.

Lemma MAKE_PTR_roundtrip_witness :
  PTR_OFFSET (Bkey 0 0 [MAKE_PTR 7 123456 3]) 0 = Some 123456.
Proof.
  destruct (MAKE_PTR_roundtrip 7 123456 3 0 (Bkey 0 0 [MAKE_PTR 7 123456 3]) 0
              ltac:(lia) ltac:(lia) ltac:(vm_compute; split; discriminate) ltac:(lia)) as [H _].
  exact (proj1 (proj2 (H ltac:(reflexivity)))).
Defined.

(** The pointer accessors fail exactly outside the key's pointers, and
    inside them writing a part of pointer [i] changes that part of that
    pointer only: the header, the offset and the other pointers stay. *)
Theorem ptr_fields_independent (k : bkey) (f : ptr_field) (i : nat) (v : Z) :
  key_wf k ->
  (ptr_set f k i v = None <-> (length (ptr k) <= i)%nat)
  /\ forall k', ptr_set f k i v = Some k' ->
       high k' = high k /\ low k' = low k /\ key_wf k'
       /\ forall g j, ptr_get g k' j =
            if decide (j = i /\ g = f) then Some (v mod 2 ^ f_size (ptr_bits f)) else ptr_get g k j.
Proof.
  intros (Hh & Hl & Hp).
  destruct (ptr k !! i) as [p|] eqn:Hi.
  - assert (u64 p) as Hu by (by apply (Forall_lookup_1 _ _ _ _ Hp Hi)).
    rewrite (ptr_set_lookup f k i p v Hi Hu). split.
    { apply lookup_lt_Some in Hi. split; [done|lia]. }
    intros k' Hk'. apply (inj Some) in Hk'. subst k'. split_and!; try done.
    { split_and!; [done|done|]. cbn [ptr]. apply Forall_insert; [done|].
      apply set_range; [apply ptr_bits_ok|done|exact Hu]. }
    intros g j. set (k' := Bkey _ _ _).
    assert (u64 (set (ptr_bits f) v p)) as Hs by (apply set_range; [apply ptr_bits_ok|done|exact Hu]).
    destruct (decide (j = i)) as [->|Hj].
    + assert (ptr k' !! i = Some (set (ptr_bits f) v p)) as Hk'
        by (apply list_lookup_insert_eq; by apply lookup_lt_Some in Hi).
      rewrite (ptr_get_lookup g k' i _ Hk' Hs), (ptr_get_lookup g k i p Hi Hu).
      destruct (decide (g = f)) as [->|Hg].
      * rewrite decide_True by done. f_equal. apply get_set_same with 64, ptr_bits_ok.
      * rewrite decide_False by tauto. f_equal.
        apply get_set_other with 64; [apply ptr_bits_ok..|]. apply ptr_bits_disjoint. congruence.
    + rewrite decide_False by tauto.
      assert (ptr k' !! j = ptr k !! j) as E by (by apply list_lookup_insert_ne).
      destruct g; cbn [ptr_get]; unfold PTR_DEV, PTR_OFFSET, PTR_GEN, PTR_FIELD; by rewrite E.
  - assert (ptr_set f k i v = None) as E
      by (destruct f; cbn; unfold SET_PTR_DEV, SET_PTR_OFFSET, SET_PTR_GEN, SET_PTR_FIELD; by rewrite Hi).
    rewrite E. split; [|done]. apply lookup_ge_None in Hi. by split.
Qed.

Lemma ptr_fields_independent_witness :
  key_wf (Bkey 0 0 [5; 6]) /\ exists k', SET_PTR_DEV (Bkey 0 0 [5; 6]) 1 9 = Some k' /\ PTR_GEN k' 1 = Some 6.
Proof.
  assert (key_wf (Bkey 0 0 [5; 6])) as Hk by (split_and!; repeat constructor; done).
  split; [exact Hk|]. eexists. split; [reflexivity|].
  exact (proj2 (proj2 (proj2 (proj2 (ptr_fields_independent (Bkey 0 0 [5; 6]) P_DEV 1 9 Hk) _ ltac:(reflexivity)))) P_GEN 1%nat).
Defined.

(** ** Keys in memory *)

(** C11: Keys laid out one after the other are found again by starting at the
    first and following [bkey_next], whatever surrounds them: the stride
    [bkey_u64s] read from the header is the number of words the key occupies. *)
Theorem bkey_walk_roundtrip (ks : list bkey) (pre post : list Z) :
  Forall (fun k => key_wf k /\ key_ptrs_ok k) ks ->
  bkey_walk (length ks) (pre ++ concat (map bkey_words ks) ++ post) (length pre) = Some ks.
Proof.
  revert pre post. induction ks as [|k ks IH]; intros pre post Hks; [done|].
  apply Forall_cons in Hks as [[Hwf Hp] Hks]. cbn [length map concat bkey_walk].
  rewrite <- (app_assoc (bkey_words k)), bkey_at_words by done. cbn [mbind option_bind].
  rewrite bkey_next_words by done. cbn [mbind option_bind].
  rewrite (app_assoc pre), IH by done. done.
Qed.

Lemma bkey_walk_roundtrip_witness :
  let k1 := SET_KEY_PTRS (KEY 1 16 8) 1 in let k1 := Bkey (high k1) (low k1) [77] in
  bkey_walk 2 ([1; 2; 3] ++ concat (map bkey_words [k1; KEY 2 32 8]) ++ [9]) 3 = Some [k1; KEY 2 32 8].
Proof.
  apply (bkey_walk_roundtrip [_; _] [1; 2; 3] [9]).
  repeat constructor; vm_compute; try done; split; done.
Defined.

Lemma bkey_bytes_words k :
  key_wf k -> key_ptrs_ok k -> Z.to_nat (bkey_bytes k) = (8 * n_words k)%nat.
Proof.
  intros [Hh _] Hp. rewrite bkey_bytes_ptrs, Hp by done. unfold n_words, bkey_words. cbn [length]. lia.
Qed.

(** C10: [bkey_copy] writes the source key, pointers included, to the
    destination and changes no other word of memory; the source is still there
    afterwards. It needs the destination to have room for the key and not to
    overlap it. *)
Theorem bkey_copy_copies (mem : list Z) (dest src : nat) (k : bkey) :
  key_wf k -> bkey_at mem src = Some k ->
  (dest + n_words k <= length mem)%nat -> (dest + n_words k <= src \/ src + n_words k <= dest)%nat ->
  exists mem', bkey_copy mem dest src = Some mem' /\ length mem' = length mem
    /\ bkey_at mem' dest = Some k /\ bkey_at mem' src = Some k
    /\ forall i, (i < dest \/ dest + n_words k <= i)%nat -> mem' !! i = mem !! i.
Proof.
  intros Hk Hat Hd Ho. pose proof (proj1 (bkey_at_spec mem src k) Hat) as [Hp Hw].
  assert (src + n_words k <= length mem)%nat as Hs.
  { pose proof (Hw (n_words k - 1)%nat) as Hlast.
    assert (0 < n_words k)%nat by (unfold n_words, bkey_words; cbn; lia).
    rewrite <- (Nat.sub_add 1 (n_words k)) by lia. rewrite Nat.add_assoc, Nat.add_1_r.
    apply (lookup_lt_is_Some_1 mem). rewrite Hlast by lia. apply lookup_lt_is_Some_2. unfold n_words in *. lia. }
  destruct (memcpy_u64_spec mem dest src (n_words k) Hd Hs Ho) as (mem' & Hc & Hlen & Hmem).
  exists mem'. unfold bkey_copy. rewrite Hat. cbn [mbind option_bind].
  rewrite bkey_bytes_words by done. split_and!; [exact Hc|exact Hlen|..].
  - apply bkey_at_spec. split; [done|]. intros i Hi. rewrite Hmem, decide_True by lia.
    rewrite <- Hw by done. f_equal. lia.
  - apply bkey_at_spec. split; [done|]. intros i Hi. rewrite Hmem, decide_False by lia. by apply Hw.
  - intros i Hi. rewrite Hmem. by rewrite decide_False by lia.
Qed.

Lemma bkey_copy_copies_witness :
  exists mem', bkey_copy (bkey_words (KEY 2 32 8) ++ [0; 0; 5]) 2 0 = Some mem'
               /\ bkey_at mem' 2 = Some (KEY 2 32 8).
Proof.
  destruct (bkey_copy_copies (bkey_words (KEY 2 32 8) ++ [0; 0; 5]) 2 0 (KEY 2 32 8)
    ltac:(split_and!; done) ltac:(reflexivity) ltac:(cbn; lia) ltac:(cbn; lia)) as (m & Hm & _ & Ha & _).
  exists m. split; [exact Hm|exact Ha].
Defined.

(** A key fits the padding of [BKEY_PADDED] exactly when it has at most
    six pointers: a 3-bit [KEY_PTRS] can also be 7, and such a key is nine
    words long, one more than [BKEY_PAD] and [KEY_MAX_U64S]. *)
Theorem BKEY_PAD_six_pointers (k : bkey) :
  key_wf k ->
  bkey_u64s k = 2 + KEY_PTRS k
  /\ (bkey_bytes k <= sizeof LP64 (BKEY_PADDED "key") <-> KEY_PTRS k <= 6)
  /\ (KEY_PTRS k = 7 -> bkey_u64s k = KEY_MAX_U64S + 1 /\ KEY_MAX_U64S = BKEY_PAD).
Proof.
  intros [Hh _]. rewrite bkey_bytes_ptrs, bkey_u64s_ptrs by done.
  change (sizeof LP64 (BKEY_PADDED "key")) with 64. unfold KEY_MAX_U64S, BKEY_PAD. lia.
Qed.

Lemma BKEY_PAD_six_pointers_witness :
  let k := SET_KEY_PTRS (KEY 1 0 0) 7 in KEY_PTRS k = 7 /\ bkey_u64s k = KEY_MAX_U64S + 1.
Proof.
  split; [reflexivity|].
  exact (proj1 (proj2 (proj2 (BKEY_PAD_six_pointers (SET_KEY_PTRS (KEY 1 0 0) 7) ltac:(split_and!; done)))
                 ltac:(reflexivity))).
Defined.

(** ** The superblock *)

(** The flags of a superblock, as a family. *)
Inductive sb_flag : Type := SB_SYNC | SB_DISCARD | SB_REPLACEMENT | SB_MODE | SB_STATE.

#[export] Instance sb_flag_eq_dec : EqDecision sb_flag.
Proof. solve_decision. Defined.

Definition flag_get (f : sb_flag) : cache_sb -> Z :=
  match f with
  | SB_SYNC => CACHE_SYNC | SB_DISCARD => CACHE_DISCARD | SB_REPLACEMENT => CACHE_REPLACEMENT
  | SB_MODE => BDEV_CACHE_MODE | SB_STATE => BDEV_STATE
  end.

Definition flag_set (f : sb_flag) : cache_sb -> Z -> cache_sb :=
  match f with
  | SB_SYNC => SET_CACHE_SYNC | SB_DISCARD => SET_CACHE_DISCARD | SB_REPLACEMENT => SET_CACHE_REPLACEMENT
  | SB_MODE => SET_BDEV_CACHE_MODE | SB_STATE => SET_BDEV_STATE
  end.

Definition flag_bits (f : sb_flag) : field :=
  match f with
  | SB_SYNC => Field 0 1 | SB_DISCARD => Field 1 1 | SB_REPLACEMENT => Field 2 3
  | SB_MODE => Field 0 4 | SB_STATE => Field 61 2
  end.

(** A backing device keeps a mode and a state, a cache device the others. *)
Definition flag_of_bdev (f : sb_flag) : bool :=
  match f with SB_MODE | SB_STATE => true | _ => false end.

Lemma flag_bits_ok f : field_ok 64 (flag_bits f).
Proof. destruct f; unfold field_ok; cbn; lia. Qed.

Lemma flag_get_bits f sb : u64 (sb_flags sb) -> flag_get f sb = get (flag_bits f) (sb_flags sb).
Proof.
  intros Hk. rewrite <- (BITMASK_get U64 storage_U64 (flag_bits f) (flag_bits_ok f) _ Hk). by destruct f.
Qed.

Lemma flag_set_bits f sb v :
  u64 (sb_flags sb) -> flag_set f sb v = set_sb_flags sb (set (flag_bits f) v (sb_flags sb)).
Proof.
  intros Hk. rewrite <- (SET_BITMASK_set U64 storage_U64 (flag_bits f) (flag_bits_ok f) _ Hk v).
  by destruct f.
Qed.

(** C34: The flags of one kind of device do not disturb each other, and the
    state of a backing device disturbs no flag of a cache device; the cache
    mode of a backing device however is the same four bits as the sync and
    discard bits and the low half of the replacement policy of a cache device. *)
Theorem superblock_flags (sb : cache_sb) (f g : sb_flag) (v : Z) :
  u64 (sb_flags sb) ->
  flag_get f (flag_set f sb v) = v mod 2 ^ f_size (flag_bits f)
  /\ (f <> g -> flag_of_bdev f = flag_of_bdev g \/ f = SB_STATE \/ g = SB_STATE ->
      flag_get g (flag_set f sb v) = flag_get g sb)
  /\ BDEV_CACHE_MODE sb = CACHE_SYNC sb + 2 * CACHE_DISCARD sb + 4 * (CACHE_REPLACEMENT sb mod 4)
  /\ SB_IS_BDEV (flag_set f sb v) = SB_IS_BDEV sb.
Proof.
  intros Hk. rewrite !flag_set_bits by done.
  assert (u64 (set (flag_bits f) v (sb_flags sb))) as Hs
    by (apply set_range; [apply flag_bits_ok|done|exact Hk]).
  split_and!.
  - rewrite flag_get_bits by exact Hs. apply get_set_same with 64, flag_bits_ok.
  - intros Hne Hkind. rewrite !flag_get_bits by done. cbn [sb_flags set_sb_flags].
    apply get_set_other with 64; [apply flag_bits_ok..|]. unfold disjoint.
    destruct f, g; try done; cbn; (lia || by destruct Hkind as [?|[?|?]]).
  - change (flag_get SB_MODE sb = flag_get SB_SYNC sb + 2 * flag_get SB_DISCARD sb
            + 4 * (flag_get SB_REPLACEMENT sb mod 4)).
    rewrite !flag_get_bits, !get_div_mod by (done || cbn; lia). cbn [flag_bits f_off f_size].
    norm_pow. zlia.
  - done.
Qed.

Definition sb_zero : cache_sb :=
  CacheSb 0 4 [] [] (repeat 0 16) [] 0 0 0 0 0 0 0 0 0 0 0 0 0 [].

Lemma superblock_flags_witness :
  BDEV_STATE (SET_BDEV_CACHE_MODE sb_zero 3) = 0 /\ BDEV_CACHE_MODE (SET_BDEV_CACHE_MODE sb_zero 3) = 3.
Proof.
  destruct (superblock_flags sb_zero SB_MODE SB_STATE 3 ltac:(split; done)) as (H1 & H2 & _).
  split; [exact (H2 ltac:(discriminate) ltac:(by left))|exact H1].
Defined.

Lemma le_value_range bs : Forall (fun b => 0 <= b < 256) bs -> 0 <= le_value bs < 256 ^ Z.of_nat (length bs).
Proof.
  induction 1 as [|b bs Hb _ IH]; [done|]. cbn [le_value length].
  rewrite Nat2Z.inj_succ, Z.pow_succ_r by lia. lia.
Qed.

Lemma set_magic_u64 sb :
  Forall (fun b => 0 <= b < 256) (set_uuid sb) -> u64 (set_magic sb).
Proof.
  intros Hb. unfold u64, set_magic.
  pose proof (le_value_range (take 8 (set_uuid sb)) (Forall_take _ 8 _ Hb)) as [? Hlt].
  assert (256 ^ Z.of_nat (length (take 8 (set_uuid sb))) <= 256 ^ 8) as Hle
    by (apply Z.pow_le_mono_r; [lia|rewrite length_take; lia]).
  change (256 ^ 8) with (2 ^ 64) in Hle. lia.
Qed.

Lemma c_xor_U64 x y : u64 x -> u64 y -> (x ^[U64] y) = Z.lxor x y.
Proof.
  intros Hx Hy. unfold c_xor. apply cast_U64_id. apply word_range; [lia|]. intros i Hi.
  rewrite Z.lxor_spec, (testbit_range x 64), (testbit_range y 64) by done. done.
Qed.

Lemma lxor_cancel_r x y c : Z.lxor x c = Z.lxor y c -> x = y.
Proof.
  intros H. apply (f_equal (fun z => Z.lxor z c)) in H.
  by rewrite !Z.lxor_assoc, Z.lxor_nilpotent, !Z.lxor_0_r in H.
Qed.

(** The little-endian value of bytes gives them back. *)
Lemma le_value_inj l : forall l',
  length l = length l' -> Forall (fun b => 0 <= b < 256) l -> Forall (fun b => 0 <= b < 256) l' ->
  le_value l = le_value l' -> l = l'.
Proof.
  induction l as [|b l IH]; intros [|b' l'] Hlen Hl Hl' E; try done.
  apply Forall_cons in Hl as [Hb Hl]. apply Forall_cons in Hl' as [Hb' Hl']. cbn in E.
  assert (b = b' /\ le_value l = le_value l') as [-> E'] by lia. f_equal. apply IH; [|done..]. by injection Hlen.
Qed.

Lemma set_magic_eq sb sb' :
  length (set_uuid sb) = length (set_uuid sb') ->
  Forall (fun b => 0 <= b < 256) (set_uuid sb) -> Forall (fun b => 0 <= b < 256) (set_uuid sb') ->
  set_magic sb = set_magic sb' <-> take 8 (set_uuid sb) = take 8 (set_uuid sb').
Proof.
  intros Hlen Hb Hb'. unfold set_magic. split; [|by intros ->].
  apply le_value_inj; [by rewrite !length_take, Hlen|by apply Forall_take..].
Qed.

(** C35: The magic numbers of journal sets, priority sets and btree sets tell
    the three structures of one cache set apart, and for each structure they
    tell apart two cache sets exactly when the first eight bytes of the sets'
    UUIDs differ. *)
Theorem magic_discriminates (sb sb' : cache_sb) :
  length (set_uuid sb) = 16%nat -> length (set_uuid sb') = 16%nat ->
  Forall (fun b => 0 <= b < 256) (set_uuid sb) -> Forall (fun b => 0 <= b < 256) (set_uuid sb') ->
  NoDup [jset_magic sb; pset_magic sb; bset_magic sb]
  /\ (jset_magic sb = jset_magic sb' <-> take 8 (set_uuid sb) = take 8 (set_uuid sb'))
  /\ (pset_magic sb = pset_magic sb' <-> take 8 (set_uuid sb) = take 8 (set_uuid sb'))
  /\ (bset_magic sb = bset_magic sb' <-> take 8 (set_uuid sb) = take 8 (set_uuid sb'))
  /\ (jset_magic sb ^[U64] JSET_MAGIC) = set_magic sb.
Proof.
  intros Hl Hl' Hb Hb'. rewrite <- (set_magic_eq sb sb') by congruence.
  apply set_magic_u64 in Hb, Hb'. unfold jset_magic, pset_magic, bset_magic.
  assert (u64 JSET_MAGIC /\ u64 PSET_MAGIC /\ u64 BSET_MAGIC) as (Hj & Hp & Hs) by (by split_and!).
  assert (forall c, u64 c -> (set_magic sb ^[U64] c) = (set_magic sb' ^[U64] c) <-> set_magic sb = set_magic sb') as Heq.
  { intros c Hc. rewrite !c_xor_U64 by done. split; [apply lxor_cancel_r|congruence]. }
  assert (forall c d, c <> d -> u64 c -> u64 d -> (set_magic sb ^[U64] c) <> (set_magic sb ^[U64] d)) as Hne.
  { intros c d Hcd Hc Hd. rewrite !c_xor_U64, !(Z.lxor_comm (set_magic sb)) by done.
    intros E%lxor_cancel_r. done. }
  split_and!; [|by apply Heq..|].
  - apply NoDup_cons_2; [|apply NoDup_cons_2; [|apply NoDup_singleton]].
    + rewrite !elem_of_cons, elem_of_nil. intros [E|[E|[]]]; by revert E; apply Hne.
    + rewrite list_elem_of_singleton. by apply Hne.
  - rewrite (c_xor_U64 (set_magic sb)) by done. unfold c_xor.
    rewrite Z.lxor_assoc, Z.lxor_nilpotent, Z.lxor_0_r. by apply cast_U64_id.
Qed.

Lemma magic_discriminates_witness :
  NoDup [jset_magic sb_zero; pset_magic sb_zero; bset_magic sb_zero].
Proof.
  assert (Forall (fun b => 0 <= b < 256) (set_uuid sb_zero)) as H
    by (cbn; repeat constructor; lia).
  exact (proj1 (magic_discriminates sb_zero sb_zero eq_refl eq_refl H H)).
Defined.

(** ** Layouts *)

(** The types of the file that are shared with a disk. *)
Definition disk_types : list ctype :=
  [cache_sb_disk_type; cache_sb_type; jset_type; bucket_disk_type; prio_set_type; uuid_entry_type;
   bset_type; uuid_entry_v0_type].

(** Offsets of [names] in two types agree. *)
Definition same_offsets (a : abi) (t t' : ctype) (names : list string) : bool :=
  forallb (fun n => bool_decide (offsetof a t n = offsetof a t' n)) names.

(** The structures on disk have one layout under every ABI that aligns
    64-bit integers to 8 bytes. The superblock fits its 4096 bytes with its
    journal buckets aligned; the key area of a journal set and of a btree set
    begins right after the header, 8-byte aligned; a UUID entry is 128 bytes
    and extends the obsolete one, whose members keep their places; a bucket
    takes three bytes; and the number of journal buckets is a multiple of the
    bits of a long, as the header demands. *)
Theorem disk_layout (a : abi) :
  abi_ok a -> i64_align a = 8 -> (ptr_bytes a | 8) ->
  Forall (fun t => layout a t = layout LP64 t /\ wf_type t = true) disk_types
  /\ sizeof a cache_sb_disk_type <= SB_SIZE
  /\ offsetof a cache_sb_disk_type "d" = Some 208
  /\ offsetof a jset_type "start" = Some (sizeof a jset_type) /\ (8 | sizeof a jset_type)
  /\ offsetof a bset_type "start" = Some (sizeof a bset_type) /\ (8 | sizeof a bset_type)
  /\ sizeof a uuid_entry_type = 128
  /\ same_offsets a uuid_entry_v0_type uuid_entry_type
       ["uuid"; "label"; "first_reg"; "last_reg"; "invalidated"] = true
  /\ sizeof a bucket_disk_type = 3
  /\ (8 * ptr_bytes a | SB_JOURNAL_BUCKETS).
Proof.
  intros _ Hi Hp. destruct a as [p i]. cbn [i64_align ptr_bytes] in *. subst i.
  split_and!; try done; try (by exists 30); try (by exists 4).
  - repeat (constructor; [split; [by apply layout_pointer_free|done]|]). constructor.
  - destruct Hp as [q Hq]. exists (4 * q). unfold SB_JOURNAL_BUCKETS. lia.
Qed.

Lemma disk_layout_witness : layout ILP32 jset_type = layout LP64 jset_type.
Proof.
  assert (abi_ok ILP32) as Ha by (split; [done|by right]).
  pose proof (proj1 (disk_layout ILP32 Ha eq_refl ltac:(by exists 2))) as H.
  exact (proj1 (Forall_inv (Forall_inv_tail (Forall_inv_tail H)))).
Defined.
