(* ===== verification/MiDisp.v ===== *)
(** * MiDisp: the display feature interface of [include/display/drm/mi_disp.h]

    The enumerations and request structures shared between the display driver
    and user space, the validity checks and name tables in their kernel and
    user-space versions, and the request numbers. *)

From Stdlib Require Import Ascii.

From S2P Require Import Prelude CLayout Ioctl.

#[local] Open Scope string_scope.
#[local] Open Scope Z_scope.

(** [BIT(x)] is computed at [unsigned long]; every bit the file uses fits 32 bits. *)
Definition BIT (x : Z) : Z := 1 <<[U32] x.

(** ** Enumerations *)

Inductive disp_display_type : Type :=
  | MI_DISP_PRIMARY | MI_DISP_SECONDARY | MI_DISP_MAX.

#[export] Instance disp_display_type_enum : CEnum disp_display_type := {
  enum_value e := match e with
    | MI_DISP_PRIMARY => 0 | MI_DISP_SECONDARY => 1 | MI_DISP_MAX => 2
  end;
  enum_all := [MI_DISP_PRIMARY; MI_DISP_SECONDARY; MI_DISP_MAX] }.

Inductive common_feature_state : Type :=
  | FEATURE_OFF | FEATURE_ON.

#[export] Instance common_feature_state_enum : CEnum common_feature_state := {
  enum_value e := match e with
    | FEATURE_OFF => 0 | FEATURE_ON => 1
  end;
  enum_all := [FEATURE_OFF; FEATURE_ON] }.

Inductive disp_feature_id : Type :=
  | DISP_FEATURE_DIMMING | DISP_FEATURE_HBM | DISP_FEATURE_HBM_FOD | DISP_FEATURE_DOZE_BRIGHTNESS
  | DISP_FEATURE_FOD_CALIBRATION_BRIGHTNESS | DISP_FEATURE_FOD_CALIBRATION_HBM
  | DISP_FEATURE_FLAT_MODE | DISP_FEATURE_CRC | DISP_FEATURE_DC | DISP_FEATURE_LOCAL_HBM
  | DISP_FEATURE_SENSOR_LUX | DISP_FEATURE_LOW_BRIGHTNESS_FOD | DISP_FEATURE_FP_STATUS
  | DISP_FEATURE_FOLD_STATUS | DISP_FEATURE_NATURE_FLAT_MODE | DISP_FEATURE_SPR_RENDER
  | DISP_FEATURE_AOD_TO_NORMAL | DISP_FEATURE_COLOR_INVERT | DISP_FEATURE_DC_BACKLIGHT
  | DISP_FEATURE_GIR | DISP_FEATURE_DBI | DISP_FEATURE_DDIC_ROUND_CORNER
  | DISP_FEATURE_HBM_BACKLIGHT | DISP_FEATURE_BACKLIGHT | DISP_FEATURE_BRIGHTNESS
  | DISP_FEATURE_LCD_HBM | DISP_FEATURE_DOZE_STATE | DISP_FEATURE_PEAK_HDR_MODE
  | DISP_FEATURE_CABC | DISP_FEATURE_BIST_MODE | DISP_FEATURE_BIST_MODE_COLOR
  | DISP_FEATURE_ROUND_MODE | DISP_FEATURE_GAMUT | DISP_FEATURE_POWERSTATUS
  | DISP_FEATURE_SYSTEM_BUILD_VERSION | DISP_FEATURE_MAX.

#[export] Instance disp_feature_id_enum : CEnum disp_feature_id := {
  enum_value e := match e with
    | DISP_FEATURE_DIMMING => 0 | DISP_FEATURE_HBM => 1 | DISP_FEATURE_HBM_FOD => 2
    | DISP_FEATURE_DOZE_BRIGHTNESS => 3 | DISP_FEATURE_FOD_CALIBRATION_BRIGHTNESS => 4
    | DISP_FEATURE_FOD_CALIBRATION_HBM => 5 | DISP_FEATURE_FLAT_MODE => 6 | DISP_FEATURE_CRC => 7
    | DISP_FEATURE_DC => 8 | DISP_FEATURE_LOCAL_HBM => 9 | DISP_FEATURE_SENSOR_LUX => 10
    | DISP_FEATURE_LOW_BRIGHTNESS_FOD => 11 | DISP_FEATURE_FP_STATUS => 12
    | DISP_FEATURE_FOLD_STATUS => 13 | DISP_FEATURE_NATURE_FLAT_MODE => 14
    | DISP_FEATURE_SPR_RENDER => 15 | DISP_FEATURE_AOD_TO_NORMAL => 16
    | DISP_FEATURE_COLOR_INVERT => 17 | DISP_FEATURE_DC_BACKLIGHT => 18 | DISP_FEATURE_GIR => 19
    | DISP_FEATURE_DBI => 20 | DISP_FEATURE_DDIC_ROUND_CORNER => 21
    | DISP_FEATURE_HBM_BACKLIGHT => 22 | DISP_FEATURE_BACKLIGHT => 23
    | DISP_FEATURE_BRIGHTNESS => 24 | DISP_FEATURE_LCD_HBM => 25 | DISP_FEATURE_DOZE_STATE => 26
    | DISP_FEATURE_PEAK_HDR_MODE => 27 | DISP_FEATURE_CABC => 28 | DISP_FEATURE_BIST_MODE => 29
    | DISP_FEATURE_BIST_MODE_COLOR => 30 | DISP_FEATURE_ROUND_MODE => 31
    | DISP_FEATURE_GAMUT => 32 | DISP_FEATURE_POWERSTATUS => 33
    | DISP_FEATURE_SYSTEM_BUILD_VERSION => 34 | DISP_FEATURE_MAX => 35
  end;
  enum_all := [DISP_FEATURE_DIMMING; DISP_FEATURE_HBM; DISP_FEATURE_HBM_FOD;
    DISP_FEATURE_DOZE_BRIGHTNESS; DISP_FEATURE_FOD_CALIBRATION_BRIGHTNESS;
    DISP_FEATURE_FOD_CALIBRATION_HBM; DISP_FEATURE_FLAT_MODE; DISP_FEATURE_CRC; DISP_FEATURE_DC;
    DISP_FEATURE_LOCAL_HBM; DISP_FEATURE_SENSOR_LUX; DISP_FEATURE_LOW_BRIGHTNESS_FOD;
    DISP_FEATURE_FP_STATUS; DISP_FEATURE_FOLD_STATUS; DISP_FEATURE_NATURE_FLAT_MODE;
    DISP_FEATURE_SPR_RENDER; DISP_FEATURE_AOD_TO_NORMAL; DISP_FEATURE_COLOR_INVERT;
    DISP_FEATURE_DC_BACKLIGHT; DISP_FEATURE_GIR; DISP_FEATURE_DBI;
    DISP_FEATURE_DDIC_ROUND_CORNER; DISP_FEATURE_HBM_BACKLIGHT; DISP_FEATURE_BACKLIGHT;
    DISP_FEATURE_BRIGHTNESS; DISP_FEATURE_LCD_HBM; DISP_FEATURE_DOZE_STATE;
    DISP_FEATURE_PEAK_HDR_MODE; DISP_FEATURE_CABC; DISP_FEATURE_BIST_MODE;
    DISP_FEATURE_BIST_MODE_COLOR; DISP_FEATURE_ROUND_MODE; DISP_FEATURE_GAMUT;
    DISP_FEATURE_POWERSTATUS; DISP_FEATURE_SYSTEM_BUILD_VERSION; DISP_FEATURE_MAX] }.

Inductive local_hbm_state : Type :=
  | LOCAL_HBM_OFF_TO_NORMAL | LOCAL_HBM_NORMAL_WHITE_1000NIT | LOCAL_HBM_NORMAL_WHITE_750NIT
  | LOCAL_HBM_NORMAL_WHITE_500NIT | LOCAL_HBM_NORMAL_WHITE_110NIT | LOCAL_HBM_NORMAL_GREEN_500NIT
  | LOCAL_HBM_HLPM_WHITE_1000NIT | LOCAL_HBM_HLPM_WHITE_110NIT | LOCAL_HBM_OFF_TO_HLPM
  | LOCAL_HBM_OFF_TO_LLPM | LOCAL_HBM_OFF_TO_NORMAL_BACKLIGHT
  | LOCAL_HBM_OFF_TO_NORMAL_BACKLIGHT_RESTORE | LOCAL_HBM_MAX.

#[export] Instance local_hbm_state_enum : CEnum local_hbm_state := {
  enum_value e := match e with
    | LOCAL_HBM_OFF_TO_NORMAL => 0 | LOCAL_HBM_NORMAL_WHITE_1000NIT => 1
    | LOCAL_HBM_NORMAL_WHITE_750NIT => 2 | LOCAL_HBM_NORMAL_WHITE_500NIT => 3
    | LOCAL_HBM_NORMAL_WHITE_110NIT => 4 | LOCAL_HBM_NORMAL_GREEN_500NIT => 5
    | LOCAL_HBM_HLPM_WHITE_1000NIT => 6 | LOCAL_HBM_HLPM_WHITE_110NIT => 7
    | LOCAL_HBM_OFF_TO_HLPM => 8 | LOCAL_HBM_OFF_TO_LLPM => 9
    | LOCAL_HBM_OFF_TO_NORMAL_BACKLIGHT => 10 | LOCAL_HBM_OFF_TO_NORMAL_BACKLIGHT_RESTORE => 11
    | LOCAL_HBM_MAX => 12
  end;
  enum_all := [LOCAL_HBM_OFF_TO_NORMAL; LOCAL_HBM_NORMAL_WHITE_1000NIT;
    LOCAL_HBM_NORMAL_WHITE_750NIT; LOCAL_HBM_NORMAL_WHITE_500NIT; LOCAL_HBM_NORMAL_WHITE_110NIT;
    LOCAL_HBM_NORMAL_GREEN_500NIT; LOCAL_HBM_HLPM_WHITE_1000NIT; LOCAL_HBM_HLPM_WHITE_110NIT;
    LOCAL_HBM_OFF_TO_HLPM; LOCAL_HBM_OFF_TO_LLPM; LOCAL_HBM_OFF_TO_NORMAL_BACKLIGHT;
    LOCAL_HBM_OFF_TO_NORMAL_BACKLIGHT_RESTORE; LOCAL_HBM_MAX] }.

Inductive fod_ui_ready_state : Type :=
  | LOCAL_HBM_UI_NONE | GLOBAL_FOD_HBM_OVERLAY | GLOBAL_FOD_ICON | FOD_LOW_BRIGHTNESS_CAPTURE
  | LOCAL_HBM_UI_READY | LOCAL_HBM_NEED_UPDATE_TO_FOD_FPS.

#[export] Instance fod_ui_ready_state_enum : CEnum fod_ui_ready_state := {
  enum_value e := match e with
    | LOCAL_HBM_UI_NONE => 0 | GLOBAL_FOD_HBM_OVERLAY => BIT 0 | GLOBAL_FOD_ICON => BIT 1
    | FOD_LOW_BRIGHTNESS_CAPTURE => BIT 2 | LOCAL_HBM_UI_READY => BIT 3
    | LOCAL_HBM_NEED_UPDATE_TO_FOD_FPS => BIT 4
  end;
  enum_all := [LOCAL_HBM_UI_NONE; GLOBAL_FOD_HBM_OVERLAY; GLOBAL_FOD_ICON;
    FOD_LOW_BRIGHTNESS_CAPTURE; LOCAL_HBM_UI_READY; LOCAL_HBM_NEED_UPDATE_TO_FOD_FPS] }.

Inductive fingerprint_status : Type :=
  | FINGERPRINT_NONE | ENROLL_START | ENROLL_STOP | AUTH_START | AUTH_STOP | HEART_RATE_START
  | HEART_RATE_STOP.

#[export] Instance fingerprint_status_enum : CEnum fingerprint_status := {
  enum_value e := match e with
    | FINGERPRINT_NONE => 0 | ENROLL_START => 1 | ENROLL_STOP => 2 | AUTH_START => 3
    | AUTH_STOP => 4 | HEART_RATE_START => 5 | HEART_RATE_STOP => 6
  end;
  enum_all := [FINGERPRINT_NONE; ENROLL_START; ENROLL_STOP; AUTH_START; AUTH_STOP;
    HEART_RATE_START; HEART_RATE_STOP] }.

Inductive spr_render_status : Type :=
  | SPR_1D_RENDERING | SPR_2D_RENDERING.

#[export] Instance spr_render_status_enum : CEnum spr_render_status := {
  enum_value e := match e with
    | SPR_1D_RENDERING => 1 | SPR_2D_RENDERING => 2
  end;
  enum_all := [SPR_1D_RENDERING; SPR_2D_RENDERING] }.

Inductive lcd_hbm_level : Type :=
  | LCD_HBM_OFF | LCD_HBM_L1_ON | LCD_HBM_L2_ON | LCD_HBM_L3_ON | LCD_HBM_MAX.

#[export] Instance lcd_hbm_level_enum : CEnum lcd_hbm_level := {
  enum_value e := match e with
    | LCD_HBM_OFF => 0 | LCD_HBM_L1_ON => 1 | LCD_HBM_L2_ON => 2 | LCD_HBM_L3_ON => 3
    | LCD_HBM_MAX => 4
  end;
  enum_all := [LCD_HBM_OFF; LCD_HBM_L1_ON; LCD_HBM_L2_ON; LCD_HBM_L3_ON; LCD_HBM_MAX] }.

Inductive crc_mode : Type :=
  | CRC_OFF | CRC_SRGB | CRC_P3 | CRC_P3_D65 | CRC_P3_FLAT | CRC_SRGB_D65 | CRC_MODE_MAX.

#[export] Instance crc_mode_enum : CEnum crc_mode := {
  enum_value e := match e with
    | CRC_OFF => 0 | CRC_SRGB => 1 | CRC_P3 => 2 | CRC_P3_D65 => 3 | CRC_P3_FLAT => 4
    | CRC_SRGB_D65 => 5 | CRC_MODE_MAX => 6
  end;
  enum_all := [CRC_OFF; CRC_SRGB; CRC_P3; CRC_P3_D65; CRC_P3_FLAT; CRC_SRGB_D65; CRC_MODE_MAX] }.

Inductive gir_mode : Type :=
  | GIR_OFF | GIR_ON | GIR_MODE_MAX.

#[export] Instance gir_mode_enum : CEnum gir_mode := {
  enum_value e := match e with
    | GIR_OFF => 0 | GIR_ON => 1 | GIR_MODE_MAX => 2
  end;
  enum_all := [GIR_OFF; GIR_ON; GIR_MODE_MAX] }.

Inductive cabc_status : Type :=
  | LCD_CABC_OFF | LCD_CABC_UI_ON | LCD_CABC_MOVIE_ON | LCD_CABC_STILL_ON.

#[export] Instance cabc_status_enum : CEnum cabc_status := {
  enum_value e := match e with
    | LCD_CABC_OFF => 0 | LCD_CABC_UI_ON => 1 | LCD_CABC_MOVIE_ON => 2 | LCD_CABC_STILL_ON => 3
  end;
  enum_all := [LCD_CABC_OFF; LCD_CABC_UI_ON; LCD_CABC_MOVIE_ON; LCD_CABC_STILL_ON] }.

Inductive doze_brightness_state : Type :=
  | DOZE_TO_NORMAL | DOZE_BRIGHTNESS_HBM | DOZE_BRIGHTNESS_LBM | DOZE_BRIGHTNESS_MAX.

#[export] Instance doze_brightness_state_enum : CEnum doze_brightness_state := {
  enum_value e := match e with
    | DOZE_TO_NORMAL => 0 | DOZE_BRIGHTNESS_HBM => 1 | DOZE_BRIGHTNESS_LBM => 2
    | DOZE_BRIGHTNESS_MAX => 3
  end;
  enum_all := [DOZE_TO_NORMAL; DOZE_BRIGHTNESS_HBM; DOZE_BRIGHTNESS_LBM; DOZE_BRIGHTNESS_MAX] }.

Inductive lhbm_target_brightness_state : Type :=
  | LHBM_TARGET_BRIGHTNESS_OFF_FINGER_UP | LHBM_TARGET_BRIGHTNESS_OFF_AUTH_STOP
  | LHBM_TARGET_BRIGHTNESS_WHITE_1000NIT | LHBM_TARGET_BRIGHTNESS_WHITE_110NIT
  | LHBM_TARGET_BRIGHTNESS_GREEN_500NIT | LHBM_TARGET_BRIGHTNESS_MAX.

#[export] Instance lhbm_target_brightness_state_enum : CEnum lhbm_target_brightness_state := {
  enum_value e := match e with
    | LHBM_TARGET_BRIGHTNESS_OFF_FINGER_UP => 0 | LHBM_TARGET_BRIGHTNESS_OFF_AUTH_STOP => 1
    | LHBM_TARGET_BRIGHTNESS_WHITE_1000NIT => 2 | LHBM_TARGET_BRIGHTNESS_WHITE_110NIT => 3
    | LHBM_TARGET_BRIGHTNESS_GREEN_500NIT => 4 | LHBM_TARGET_BRIGHTNESS_MAX => 5
  end;
  enum_all := [LHBM_TARGET_BRIGHTNESS_OFF_FINGER_UP; LHBM_TARGET_BRIGHTNESS_OFF_AUTH_STOP;
    LHBM_TARGET_BRIGHTNESS_WHITE_1000NIT; LHBM_TARGET_BRIGHTNESS_WHITE_110NIT;
    LHBM_TARGET_BRIGHTNESS_GREEN_500NIT; LHBM_TARGET_BRIGHTNESS_MAX] }.

Inductive disp_event_type : Type :=
  | MI_DISP_EVENT_POWER | MI_DISP_EVENT_BACKLIGHT | MI_DISP_EVENT_FOD | MI_DISP_EVENT_DOZE
  | MI_DISP_EVENT_FPS | MI_DISP_EVENT_BRIGHTNESS_CLONE | MI_DISP_EVENT_51_BRIGHTNESS
  | MI_DISP_EVENT_HBM | MI_DISP_EVENT_DC | MI_DISP_EVENT_PANEL_DEAD | MI_DISP_EVENT_PANEL_EVENT
  | MI_DISP_EVENT_DDIC_RESOLUTION | MI_DISP_EVENT_FLAT_MODE | MI_DISP_EVENT_MAX.

#[export] Instance disp_event_type_enum : CEnum disp_event_type := {
  enum_value e := match e with
    | MI_DISP_EVENT_POWER => 0 | MI_DISP_EVENT_BACKLIGHT => 1 | MI_DISP_EVENT_FOD => 2
    | MI_DISP_EVENT_DOZE => 3 | MI_DISP_EVENT_FPS => 4 | MI_DISP_EVENT_BRIGHTNESS_CLONE => 5
    | MI_DISP_EVENT_51_BRIGHTNESS => 6 | MI_DISP_EVENT_HBM => 7 | MI_DISP_EVENT_DC => 8
    | MI_DISP_EVENT_PANEL_DEAD => 9 | MI_DISP_EVENT_PANEL_EVENT => 10
    | MI_DISP_EVENT_DDIC_RESOLUTION => 11 | MI_DISP_EVENT_FLAT_MODE => 12
    | MI_DISP_EVENT_MAX => 13
  end;
  enum_all := [MI_DISP_EVENT_POWER; MI_DISP_EVENT_BACKLIGHT; MI_DISP_EVENT_FOD;
    MI_DISP_EVENT_DOZE; MI_DISP_EVENT_FPS; MI_DISP_EVENT_BRIGHTNESS_CLONE;
    MI_DISP_EVENT_51_BRIGHTNESS; MI_DISP_EVENT_HBM; MI_DISP_EVENT_DC; MI_DISP_EVENT_PANEL_DEAD;
    MI_DISP_EVENT_PANEL_EVENT; MI_DISP_EVENT_DDIC_RESOLUTION; MI_DISP_EVENT_FLAT_MODE;
    MI_DISP_EVENT_MAX] }.

Inductive panel_power_state : Type :=
  | MI_DISP_POWER_ON | MI_DISP_POWER_LP1 | MI_DISP_POWER_LP2 | MI_DISP_POWER_STANDBY
  | MI_DISP_POWER_SUSPEND | MI_DISP_POWER_OFF.

#[export] Instance panel_power_state_enum : CEnum panel_power_state := {
  enum_value e := match e with
    | MI_DISP_POWER_ON => 0 | MI_DISP_POWER_LP1 => 1 | MI_DISP_POWER_LP2 => 2
    | MI_DISP_POWER_STANDBY => 3 | MI_DISP_POWER_SUSPEND => 4 | MI_DISP_POWER_OFF => 5
  end;
  enum_all := [MI_DISP_POWER_ON; MI_DISP_POWER_LP1; MI_DISP_POWER_LP2; MI_DISP_POWER_STANDBY;
    MI_DISP_POWER_SUSPEND; MI_DISP_POWER_OFF] }.

Inductive disp_dsi_cmd_state : Type :=
  | MI_DSI_CMD_LP_STATE | MI_DSI_CMD_HS_STATE | MI_DSI_CMD_MAX_STATE.

#[export] Instance disp_dsi_cmd_state_enum : CEnum disp_dsi_cmd_state := {
  enum_value e := match e with
    | MI_DSI_CMD_LP_STATE => 0 | MI_DSI_CMD_HS_STATE => 1 | MI_DSI_CMD_MAX_STATE => 2
  end;
  enum_all := [MI_DSI_CMD_LP_STATE; MI_DSI_CMD_HS_STATE; MI_DSI_CMD_MAX_STATE] }.
(** ** Request and event structures *)

Definition struct_disp_base : ctype := struct [
  ("flag", c_u32); ("disp_id", c_u32)].

Definition struct_disp_version : ctype := struct [
  ("base", struct_disp_base); ("version", c_u32)].

Definition struct_disp_feature_req : ctype := struct [
  ("base", struct_disp_base); ("feature_id", c_u32); ("feature_val", c_int); ("tx_len", c_u32);
  ("tx_ptr", c_u64); ("rx_len", c_u32); ("rx_ptr", c_u64)].

Definition struct_disp_doze_brightness_req : ctype := struct [
  ("base", struct_disp_base); ("doze_brightness", c_u32)].

Definition struct_disp_local_hbm_req : ctype := struct [
  ("base", struct_disp_base); ("local_hbm_value", c_u32)].

Definition struct_disp_brightness_req : ctype := struct [
  ("base", struct_disp_base); ("brightness", c_u32); ("brightness_clone", c_u32)].

Definition struct_disp_panel_info : ctype := struct [
  ("base", struct_disp_base); ("info_len", c_u32); ("info", CPtr)].

Definition struct_disp_wp_info : ctype := struct [
  ("base", struct_disp_base); ("info_len", c_u32); ("info", CPtr)].

Definition struct_disp_manufacturer_info_req : ctype := struct [
  ("base", struct_disp_base); ("wp_info", CPtr); ("maxbrightness", CPtr);
  ("manufacturer_time", CPtr); ("wp_info_len", c_u32); ("max_brightness_len", c_u32);
  ("manufacturer_time_len", c_u32)].

Definition struct_disp_fps_info : ctype := struct [
  ("base", struct_disp_base); ("fps", c_u32)].

Definition struct_disp_event_req : ctype := struct [
  ("base", struct_disp_base); ("type", c_u32)].

Definition struct_disp_event : ctype := struct [
  ("disp_id", c_int); ("type", c_u32); ("length", c_u32)].

Definition struct_disp_event_resp : ctype := struct [
  ("base", struct_disp_event); ("data", CArray c_u8 0)].

Definition struct_disp_dsi_cmd_req : ctype := struct [
  ("base", struct_disp_base); ("tx_state", c_u8); ("tx_len", c_u32); ("tx_ptr", c_u64);
  ("rx_state", c_u8); ("rx_len", c_u32); ("rx_ptr", c_u64)].

(** ** Checks and names

    The kernel's versions ([is_support_...], [get_..._name]) come first, those of
    user space after them.  A [switch] whose [default] returns "Unknown" decodes
    the integer to an enumerator first. *)

Definition is_support_disp_id (disp_id : Z) : Z :=
  if disp_id <? enum_value MI_DISP_MAX then 1 else 0.

Definition get_disp_id_name (disp_id : Z) : string :=
  match enum_decode (A := disp_display_type) disp_id with
  | Some MI_DISP_PRIMARY => "primary"
  | Some MI_DISP_SECONDARY => "secondary"
  | _ => "Unknown"
  end.

Definition is_support_doze_brightness (doze_brightness : Z) : Z :=
  if doze_brightness <? enum_value DOZE_BRIGHTNESS_MAX then 1 else 0.

Definition is_aod_brightness (doze_brightness : Z) : Z :=
  if (enum_value DOZE_BRIGHTNESS_HBM =? doze_brightness) || (doze_brightness =? enum_value DOZE_BRIGHTNESS_LBM)
  then 1 else 0.

Definition get_doze_brightness_name (doze_brightness : Z) : string :=
  match enum_decode (A := doze_brightness_state) doze_brightness with
  | Some DOZE_TO_NORMAL => "doze_to_normal"
  | Some DOZE_BRIGHTNESS_HBM => "doze_brightness_high"
  | Some DOZE_BRIGHTNESS_LBM => "doze_brightness_low"
  | _ => "Unknown"
  end.

Definition is_support_lcd_hbm_level (lcd_hbm_level : Z) : Z :=
  if lcd_hbm_level <? enum_value LCD_HBM_MAX then 1 else 0.

Definition is_support_disp_event_type (event_type : Z) : Z :=
  if event_type <? enum_value MI_DISP_EVENT_MAX then 1 else 0.

Definition get_disp_event_type_name (event_type : Z) : string :=
  match enum_decode (A := disp_event_type) event_type with
  | Some MI_DISP_EVENT_POWER => "Power"
  | Some MI_DISP_EVENT_BACKLIGHT => "Backlight"
  | Some MI_DISP_EVENT_FOD => "Fod"
  | Some MI_DISP_EVENT_DOZE => "Doze"
  | Some MI_DISP_EVENT_FPS => "Fps"
  | Some MI_DISP_EVENT_BRIGHTNESS_CLONE => "Brightness_clone"
  | Some MI_DISP_EVENT_51_BRIGHTNESS => "51_brightness"
  | Some MI_DISP_EVENT_HBM => "HBM"
  | Some MI_DISP_EVENT_DC => "DC"
  | Some MI_DISP_EVENT_PANEL_DEAD => "panel_dead"
  | Some MI_DISP_EVENT_PANEL_EVENT => "panel_event"
  | Some MI_DISP_EVENT_DDIC_RESOLUTION => "ddic_resolution"
  | Some MI_DISP_EVENT_FLAT_MODE => "flat_mode"
  | _ => "Unknown"
  end.

Definition is_support_disp_feature_id (feature_id : Z) : Z :=
  if feature_id <? enum_value DISP_FEATURE_MAX then 1 else 0.

Definition get_local_hbm_state_name (state : Z) : string :=
  match enum_decode (A := local_hbm_state) state with
  | Some LOCAL_HBM_OFF_TO_NORMAL => "[lhbm off to nomal]"
  | Some LOCAL_HBM_NORMAL_WHITE_1000NIT => "[lhbm normal white 1000nit]"
  | Some LOCAL_HBM_NORMAL_WHITE_750NIT => "[lhbm normal white 750nit]"
  | Some LOCAL_HBM_NORMAL_WHITE_500NIT => "[lhbm normal white 500nit]"
  | Some LOCAL_HBM_NORMAL_WHITE_110NIT => "[lhbm normal white 110nit]"
  | Some LOCAL_HBM_NORMAL_GREEN_500NIT => "[lhbm normal green 500nit]"
  | Some LOCAL_HBM_HLPM_WHITE_1000NIT => "[lhbm H-doze to white 1000nit]"
  | Some LOCAL_HBM_HLPM_WHITE_110NIT => "[lhbm H-doze to white 110nit]"
  | Some LOCAL_HBM_OFF_TO_HLPM => "[lhbm off to H-doze]"
  | Some LOCAL_HBM_OFF_TO_LLPM => "[lhbm off to L-doze]"
  | Some LOCAL_HBM_OFF_TO_NORMAL_BACKLIGHT => "[lhbm off to nomal backlight]"
  | Some LOCAL_HBM_OFF_TO_NORMAL_BACKLIGHT_RESTORE => "[lhbm off to nomal backlight restore]"
  | _ => "Unknown"
  end.

Definition get_fingerprint_status_name (status : Z) : string :=
  match enum_decode (A := fingerprint_status) status with
  | Some FINGERPRINT_NONE => "none"
  | Some ENROLL_START => "enroll_start"
  | Some ENROLL_STOP => "enroll_stop"
  | Some AUTH_START => "authenticate_start"
  | Some AUTH_STOP => "authenticate_stop"
  | Some HEART_RATE_START => "heart_rate_start"
  | Some HEART_RATE_STOP => "heart_rate_stop"
  | _ => "Unknown"
  end.

Definition get_disp_feature_id_name (feature_id : Z) : string :=
  match enum_decode (A := disp_feature_id) feature_id with
  | Some DISP_FEATURE_DIMMING => "dimming"
  | Some DISP_FEATURE_HBM => "hbm"
  | Some DISP_FEATURE_HBM_FOD => "hbm_fod"
  | Some DISP_FEATURE_DOZE_BRIGHTNESS => "doze_brightness"
  | Some DISP_FEATURE_FOD_CALIBRATION_BRIGHTNESS => "fod_calibration_brightness"
  | Some DISP_FEATURE_FOD_CALIBRATION_HBM => "fod_calibration_hbm"
  | Some DISP_FEATURE_FLAT_MODE => "flat_mode"
  | Some DISP_FEATURE_CRC => "crc"
  | Some DISP_FEATURE_DC => "dc_mode"
  | Some DISP_FEATURE_LOCAL_HBM => "local_hbm"
  | Some DISP_FEATURE_SENSOR_LUX => "sensor_lux"
  | Some DISP_FEATURE_LOW_BRIGHTNESS_FOD => "low_brightness_fod"
  | Some DISP_FEATURE_FP_STATUS => "fp_status"
  | Some DISP_FEATURE_FOLD_STATUS => "fold_status"
  | Some DISP_FEATURE_NATURE_FLAT_MODE => "nature_flat_mode"
  | Some DISP_FEATURE_SPR_RENDER => "spr_render"
  | Some DISP_FEATURE_AOD_TO_NORMAL => "aod_to_normal"
  | Some DISP_FEATURE_COLOR_INVERT => "color_invert"
  | Some DISP_FEATURE_DC_BACKLIGHT => "dc_backlight"
  | Some DISP_FEATURE_GIR => "gir"
  | Some DISP_FEATURE_DBI => "dbi"
  | Some DISP_FEATURE_DDIC_ROUND_CORNER => "ddic_round_corner"
  | Some DISP_FEATURE_HBM_BACKLIGHT => "hbm_backlight_level"
  | Some DISP_FEATURE_BACKLIGHT => "backlight"
  | Some DISP_FEATURE_BRIGHTNESS => "brightness"
  | Some DISP_FEATURE_LCD_HBM => "lcd_hbm"
  | Some DISP_FEATURE_DOZE_STATE => "doze_state"
  | Some DISP_FEATURE_PEAK_HDR_MODE => "peak_hdr_mode"
  | Some DISP_FEATURE_CABC => "cabc"
  | Some DISP_FEATURE_BIST_MODE => "bist_mode"
  | Some DISP_FEATURE_BIST_MODE_COLOR => "bist_mode_color"
  | Some DISP_FEATURE_ROUND_MODE => "round_mode"
  | Some DISP_FEATURE_GAMUT => "gamut"
  | Some DISP_FEATURE_POWERSTATUS => "power_status"
  | Some DISP_FEATURE_SYSTEM_BUILD_VERSION => "system_build_version"
  | _ => "Unknown"
  end.

Definition get_lhbm_value_name (lhbm_value : Z) : string :=
  match enum_decode (A := lhbm_target_brightness_state) lhbm_value with
  | Some LHBM_TARGET_BRIGHTNESS_OFF_FINGER_UP => "LHBM_OFF_FINGER_UP"
  | Some LHBM_TARGET_BRIGHTNESS_OFF_AUTH_STOP => "LHBM_OFF_AUTH_STOP"
  | Some LHBM_TARGET_BRIGHTNESS_WHITE_1000NIT => "LHBM_ON_WHITE_1000NIT"
  | Some LHBM_TARGET_BRIGHTNESS_WHITE_110NIT => "LHBM_ON_WHITE_110NIT"
  | Some LHBM_TARGET_BRIGHTNESS_GREEN_500NIT => "LHBM_ON_GREEN_500NIT"
  | _ => "Unknown"
  end.

Definition isSupportDispId (disp_id : Z) : Z :=
  if disp_id <? enum_value MI_DISP_MAX then 1 else 0.

Definition getDispIdName (disp_id : Z) : string :=
  match enum_decode (A := disp_display_type) disp_id with
  | Some MI_DISP_PRIMARY => "primary"
  | Some MI_DISP_SECONDARY => "secondary"
  | _ => "Unknown"
  end.

Definition isSupportDozeBrightness (doze_brightness : Z) : Z :=
  if doze_brightness <? enum_value DOZE_BRIGHTNESS_MAX then 1 else 0.

Definition isAodBrightness (doze_brightness : Z) : Z :=
  if (enum_value DOZE_BRIGHTNESS_HBM =? doze_brightness) || (doze_brightness =? enum_value DOZE_BRIGHTNESS_LBM)
  then 1 else 0.

Definition getDozeBrightnessName (doze_brightness : Z) : string :=
  match enum_decode (A := doze_brightness_state) doze_brightness with
  | Some DOZE_TO_NORMAL => "doze_to_normal"
  | Some DOZE_BRIGHTNESS_HBM => "doze_brightness_high"
  | Some DOZE_BRIGHTNESS_LBM => "doze_brightness_low"
  | _ => "Unknown"
  end.

Definition isSupportLcdHbmLevel (lcd_hbm_level : Z) : Z :=
  if lcd_hbm_level <? enum_value LCD_HBM_MAX then 1 else 0.

Definition isSupportDispEventType (event_type : Z) : Z :=
  if event_type <? enum_value MI_DISP_EVENT_MAX then 1 else 0.

Definition getDispEventTypeName (event_type : Z) : string :=
  match enum_decode (A := disp_event_type) event_type with
  | Some MI_DISP_EVENT_POWER => "Power"
  | Some MI_DISP_EVENT_BACKLIGHT => "Backlight"
  | Some MI_DISP_EVENT_FOD => "Fod"
  | Some MI_DISP_EVENT_DOZE => "Doze"
  | Some MI_DISP_EVENT_FPS => "Fps"
  | Some MI_DISP_EVENT_BRIGHTNESS_CLONE => "Brightness_clone"
  | Some MI_DISP_EVENT_51_BRIGHTNESS => "51_brightness"
  | Some MI_DISP_EVENT_HBM => "HBM"
  | Some MI_DISP_EVENT_DC => "DC"
  | Some MI_DISP_EVENT_PANEL_DEAD => "panel_dead"
  | Some MI_DISP_EVENT_PANEL_EVENT => "panel_event"
  | Some MI_DISP_EVENT_DDIC_RESOLUTION => "ddic_resolution"
  | Some MI_DISP_EVENT_FLAT_MODE => "flat_mode"
  | _ => "Unknown"
  end.

Definition isSupportDispFeatureId (feature_id : Z) : Z :=
  if feature_id <? enum_value DISP_FEATURE_MAX then 1 else 0.

Definition getLocalHbmStateName (state : Z) : string :=
  match enum_decode (A := local_hbm_state) state with
  | Some LOCAL_HBM_OFF_TO_NORMAL => "[lhbm off to nomal]"
  | Some LOCAL_HBM_NORMAL_WHITE_1000NIT => "[lhbm normal white 1000nit]"
  | Some LOCAL_HBM_NORMAL_WHITE_750NIT => "[lhbm normal white 750nit]"
  | Some LOCAL_HBM_NORMAL_WHITE_500NIT => "[lhbm normal white 500nit]"
  | Some LOCAL_HBM_NORMAL_WHITE_110NIT => "[lhbm normal white 110nit]"
  | Some LOCAL_HBM_NORMAL_GREEN_500NIT => "[lhbm normal green 500nit]"
  | Some LOCAL_HBM_HLPM_WHITE_1000NIT => "[lhbm H-doze to white 1000nit]"
  | Some LOCAL_HBM_HLPM_WHITE_110NIT => "[lhbm H-doze to white 110nit]"
  | Some LOCAL_HBM_OFF_TO_HLPM => "[lhbm off to H-doze]"
  | Some LOCAL_HBM_OFF_TO_LLPM => "[lhbm off to L-doze]"
  | Some LOCAL_HBM_OFF_TO_NORMAL_BACKLIGHT => "[lhbm off to nomal backlight]"
  | Some LOCAL_HBM_OFF_TO_NORMAL_BACKLIGHT_RESTORE => "[lhbm off to nomal backlight restore]"
  | _ => "Unknown"
  end.

Definition getFingerprintStatusName (status : Z) : string :=
  match enum_decode (A := fingerprint_status) status with
  | Some FINGERPRINT_NONE => "none"
  | Some ENROLL_START => "enroll_start"
  | Some ENROLL_STOP => "enroll_stop"
  | Some AUTH_START => "authenticate_start"
  | Some AUTH_STOP => "authenticate_stop"
  | Some HEART_RATE_START => "heart_rate_start"
  | Some HEART_RATE_STOP => "heart_rate_stop"
  | _ => "Unknown"
  end.

Definition getDispFeatureIdName (feature_id : Z) : string :=
  match enum_decode (A := disp_feature_id) feature_id with
  | Some DISP_FEATURE_DIMMING => "dimming"
  | Some DISP_FEATURE_HBM => "hbm"
  | Some DISP_FEATURE_HBM_FOD => "hbm_fod"
  | Some DISP_FEATURE_DOZE_BRIGHTNESS => "doze_brightness"
  | Some DISP_FEATURE_FOD_CALIBRATION_BRIGHTNESS => "fod_calibration_brightness"
  | Some DISP_FEATURE_FOD_CALIBRATION_HBM => "fod_calibration_hbm"
  | Some DISP_FEATURE_FLAT_MODE => "flat_mode"
  | Some DISP_FEATURE_CRC => "crc"
  | Some DISP_FEATURE_DC => "dc_mode"
  | Some DISP_FEATURE_LOCAL_HBM => "local_hbm"
  | Some DISP_FEATURE_SENSOR_LUX => "sensor_lux"
  | Some DISP_FEATURE_LOW_BRIGHTNESS_FOD => "low_brightness_fod"
  | Some DISP_FEATURE_FP_STATUS => "fp_status"
  | Some DISP_FEATURE_FOLD_STATUS => "fold_status"
  | Some DISP_FEATURE_NATURE_FLAT_MODE => "nature_flat_mode"
  | Some DISP_FEATURE_SPR_RENDER => "spr_render"
  | Some DISP_FEATURE_AOD_TO_NORMAL => "aod_to_normal"
  | Some DISP_FEATURE_COLOR_INVERT => "color_invert"
  | Some DISP_FEATURE_DC_BACKLIGHT => "dc_backlight"
  | Some DISP_FEATURE_GIR => "gir"
  | Some DISP_FEATURE_DBI => "dbi"
  | Some DISP_FEATURE_DDIC_ROUND_CORNER => "ddic_round_corner"
  | Some DISP_FEATURE_HBM_BACKLIGHT => "hbm_backlight_level"
  | Some DISP_FEATURE_BACKLIGHT => "backlight"
  | Some DISP_FEATURE_BRIGHTNESS => "brightness"
  | Some DISP_FEATURE_LCD_HBM => "lcd_hbm"
  | Some DISP_FEATURE_DOZE_STATE => "doze_state"
  | Some DISP_FEATURE_PEAK_HDR_MODE => "peak_hdr_mode"
  | Some DISP_FEATURE_CABC => "cabc"
  | Some DISP_FEATURE_BIST_MODE => "bist_mode"
  | Some DISP_FEATURE_BIST_MODE_COLOR => "bist_mode_color"
  | Some DISP_FEATURE_ROUND_MODE => "round_mode"
  | Some DISP_FEATURE_GAMUT => "gamut"
  | Some DISP_FEATURE_POWERSTATUS => "power_status"
  | Some DISP_FEATURE_SYSTEM_BUILD_VERSION => "system_build_version"
  | _ => "Unknown"
  end.

Definition getLhbmValueName (lhbm_value : Z) : string :=
  match enum_decode (A := lhbm_target_brightness_state) lhbm_value with
  | Some LHBM_TARGET_BRIGHTNESS_OFF_FINGER_UP => "LHBM_OFF_FINGER_UP"
  | Some LHBM_TARGET_BRIGHTNESS_OFF_AUTH_STOP => "LHBM_OFF_AUTH_STOP"
  | Some LHBM_TARGET_BRIGHTNESS_WHITE_1000NIT => "LHBM_ON_WHITE_1000NIT"
  | Some LHBM_TARGET_BRIGHTNESS_WHITE_110NIT => "LHBM_ON_WHITE_110NIT"
  | Some LHBM_TARGET_BRIGHTNESS_GREEN_500NIT => "LHBM_ON_GREEN_500NIT"
  | _ => "Unknown"
  end.

(** ** Request numbers and version *)

Definition MI_DISP_FLAG_BLOCK : Z := 0x0000.
Definition MI_DISP_FLAG_NONBLOCK : Z := 0x0001.

Definition MI_DISP_FEATURE_VERSION_MAJOR : Z := 1.
Definition MI_DISP_FEATURE_VERSION_MINOR : Z := 0.

(** The version word, of any major and minor number. *)
Definition mi_disp_version (major minor : Z) : Z :=
  ((major &[S32] 0xFF) <<[S32] 8) .|[S32] (minor &[S32] 0xFF).

Definition MI_DISP_FEATURE_VERSION : Z :=
  mi_disp_version MI_DISP_FEATURE_VERSION_MAJOR MI_DISP_FEATURE_VERSION_MINOR.

Definition MI_DISP_IOCTL_VERSION : ioctl_req := IOR (chr "D") 0x00 struct_disp_version.
Definition MI_DISP_IOCTL_SET_FEATURE : ioctl_req := IOWR (chr "D") 0x01 struct_disp_feature_req.
Definition MI_DISP_IOCTL_SET_DOZE_BRIGHTNESS : ioctl_req := IOW (chr "D") 0x02 struct_disp_doze_brightness_req.
Definition MI_DISP_IOCTL_GET_DOZE_BRIGHTNESS : ioctl_req := IOR (chr "D") 0x03 struct_disp_doze_brightness_req.
Definition MI_DISP_IOCTL_GET_PANEL_INFO : ioctl_req := IOWR (chr "D") 0x04 struct_disp_panel_info.
Definition MI_DISP_IOCTL_GET_WP_INFO : ioctl_req := IOWR (chr "D") 0x05 struct_disp_wp_info.
Definition MI_DISP_IOCTL_GET_FPS : ioctl_req := IOR (chr "D") 0x06 struct_disp_fps_info.
Definition MI_DISP_IOCTL_REGISTER_EVENT : ioctl_req := IOW (chr "D") 0x07 struct_disp_event_req.
Definition MI_DISP_IOCTL_DEREGISTER_EVENT : ioctl_req := IOW (chr "D") 0x08 struct_disp_event_req.
Definition MI_DISP_IOCTL_WRITE_DSI_CMD : ioctl_req := IOW (chr "D") 0x09 struct_disp_dsi_cmd_req.
Definition MI_DISP_IOCTL_READ_DSI_CMD : ioctl_req := IOWR (chr "D") 0x0A struct_disp_dsi_cmd_req.
Definition MI_DISP_IOCTL_GET_BRIGHTNESS : ioctl_req := IOR (chr "D") 0x0B struct_disp_brightness_req.
Definition MI_DISP_IOCTL_SET_BRIGHTNESS : ioctl_req := IOW (chr "D") 0x0C struct_disp_brightness_req.
Definition MI_DISP_IOCTL_GET_MANUFACTURER_INFO : ioctl_req := IOWR (chr "D") 0x0D struct_disp_manufacturer_info_req.
Definition MI_DISP_IOCTL_SET_LOCAL_HBM : ioctl_req := IOW (chr "D") 0x0E struct_disp_local_hbm_req.
Definition MI_DISP_IOCTL_GET_FEATURE : ioctl_req := IOWR (chr "D") 0x0F struct_disp_feature_req.

Definition mi_disp_requests (a : abi) : list (string * ioctl_req) := [
  ("MI_DISP_IOCTL_VERSION", MI_DISP_IOCTL_VERSION);
  ("MI_DISP_IOCTL_SET_FEATURE", MI_DISP_IOCTL_SET_FEATURE);
  ("MI_DISP_IOCTL_SET_DOZE_BRIGHTNESS", MI_DISP_IOCTL_SET_DOZE_BRIGHTNESS);
  ("MI_DISP_IOCTL_GET_DOZE_BRIGHTNESS", MI_DISP_IOCTL_GET_DOZE_BRIGHTNESS);
  ("MI_DISP_IOCTL_GET_PANEL_INFO", MI_DISP_IOCTL_GET_PANEL_INFO);
  ("MI_DISP_IOCTL_GET_WP_INFO", MI_DISP_IOCTL_GET_WP_INFO);
  ("MI_DISP_IOCTL_GET_FPS", MI_DISP_IOCTL_GET_FPS);
  ("MI_DISP_IOCTL_REGISTER_EVENT", MI_DISP_IOCTL_REGISTER_EVENT);
  ("MI_DISP_IOCTL_DEREGISTER_EVENT", MI_DISP_IOCTL_DEREGISTER_EVENT);
  ("MI_DISP_IOCTL_WRITE_DSI_CMD", MI_DISP_IOCTL_WRITE_DSI_CMD);
  ("MI_DISP_IOCTL_READ_DSI_CMD", MI_DISP_IOCTL_READ_DSI_CMD);
  ("MI_DISP_IOCTL_GET_BRIGHTNESS", MI_DISP_IOCTL_GET_BRIGHTNESS);
  ("MI_DISP_IOCTL_SET_BRIGHTNESS", MI_DISP_IOCTL_SET_BRIGHTNESS);
  ("MI_DISP_IOCTL_GET_MANUFACTURER_INFO", MI_DISP_IOCTL_GET_MANUFACTURER_INFO);
  ("MI_DISP_IOCTL_SET_LOCAL_HBM", MI_DISP_IOCTL_SET_LOCAL_HBM);
  ("MI_DISP_IOCTL_GET_FEATURE", MI_DISP_IOCTL_GET_FEATURE)]%list.

(** Every type of the file. *)
Definition miDisp_types : list (string * ctype) := [
  ("struct_disp_base", struct_disp_base);
  ("struct_disp_version", struct_disp_version);
  ("struct_disp_feature_req", struct_disp_feature_req);
  ("struct_disp_doze_brightness_req", struct_disp_doze_brightness_req);
  ("struct_disp_local_hbm_req", struct_disp_local_hbm_req);
  ("struct_disp_brightness_req", struct_disp_brightness_req);
  ("struct_disp_panel_info", struct_disp_panel_info);
  ("struct_disp_wp_info", struct_disp_wp_info);
  ("struct_disp_manufacturer_info_req", struct_disp_manufacturer_info_req);
  ("struct_disp_fps_info", struct_disp_fps_info);
  ("struct_disp_event_req", struct_disp_event_req);
  ("struct_disp_event", struct_disp_event);
  ("struct_disp_event_resp", struct_disp_event_resp);
  ("struct_disp_dsi_cmd_req", struct_disp_dsi_cmd_req)]%list.
