(* ===== verification/RadioIris.v ===== *)
(** * RadioIris: the FM radio protocol of [include/media/radio-iris.h]

    Control ranges, command opcodes, the packets exchanged with the radio, and
    the arithmetic of spurs and RDS words.  All the packets are packed
    structures. *)

From S2P Require Import Prelude CLayout.

#[local] Open Scope string_scope.
#[local] Open Scope Z_scope.

(** ** Ranges of the controls: [MIN_...] and [MAX_...] *)

Inductive fm_control : Type :=
  | C_TX_TONE_VAL | C_HARD_MUTE_VAL | C_SRCH_MODE | C_SCAN_DWELL | C_SIG_TH | C_PTY | C_PI
  | C_SRCH_STATIONS_CNT | C_CHAN_SPACING | C_EMPHASIS | C_RDS_STD | C_ANTENNA_VAL
  | C_TX_PS_REPEAT_CNT | C_SOFT_MUTE | C_PEEK_ACCESS_LEN | C_RESET_CNTR | C_HLSI | C_NOTCH_FILTER
  | C_INTF_DET_OUT_LW_TH | C_INTF_DET_OUT_HG_TH | C_SINR_TH | C_SINR_SAMPLES | C_BLEND_HI.

Definition fm_controls : list fm_control :=
  [C_TX_TONE_VAL; C_HARD_MUTE_VAL; C_SRCH_MODE; C_SCAN_DWELL; C_SIG_TH; C_PTY; C_PI;
   C_SRCH_STATIONS_CNT; C_CHAN_SPACING; C_EMPHASIS; C_RDS_STD; C_ANTENNA_VAL; C_TX_PS_REPEAT_CNT;
   C_SOFT_MUTE; C_PEEK_ACCESS_LEN; C_RESET_CNTR; C_HLSI; C_NOTCH_FILTER; C_INTF_DET_OUT_LW_TH;
   C_INTF_DET_OUT_HG_TH; C_SINR_TH; C_SINR_SAMPLES; C_BLEND_HI].

Definition MIN (c : fm_control) : Z :=
  match c with
  | C_TX_TONE_VAL => 0x00 | C_HARD_MUTE_VAL => 0x00 | C_SRCH_MODE => 0x00 | C_SCAN_DWELL => 0x00
  | C_SIG_TH => 0x00 | C_PTY => 0x00 | C_PI => 0x0000 | C_SRCH_STATIONS_CNT => 0x00
  | C_CHAN_SPACING => 0x00 | C_EMPHASIS => 0x00 | C_RDS_STD => 0x00 | C_ANTENNA_VAL => 0x00
  | C_TX_PS_REPEAT_CNT => 0x01 | C_SOFT_MUTE => 0x00 | C_PEEK_ACCESS_LEN => 0x01
  | C_RESET_CNTR => 0x00 | C_HLSI => 0x00 | C_NOTCH_FILTER => 0x00 | C_INTF_DET_OUT_LW_TH => 0x00
  | C_INTF_DET_OUT_HG_TH => 0x00 | C_SINR_TH => (-128) | C_SINR_SAMPLES => 0x01
  | C_BLEND_HI => (-128)
  end.

Definition MAX (c : fm_control) : Z :=
  match c with
  | C_TX_TONE_VAL => 0x07 | C_HARD_MUTE_VAL => 0x03 | C_SRCH_MODE => 0x09 | C_SCAN_DWELL => 0x0F
  | C_SIG_TH => 0x03 | C_PTY => 0x1F | C_PI => 0xFFFF | C_SRCH_STATIONS_CNT => 0x14
  | C_CHAN_SPACING => 0x02 | C_EMPHASIS => 0x01 | C_RDS_STD => 0x02 | C_ANTENNA_VAL => 0x01
  | C_TX_PS_REPEAT_CNT => 0x0F | C_SOFT_MUTE => 0x01 | C_PEEK_ACCESS_LEN => 0xF9
  | C_RESET_CNTR => 0x01 | C_HLSI => 0x02 | C_NOTCH_FILTER => 0x02 | C_INTF_DET_OUT_LW_TH => 0xFF
  | C_INTF_DET_OUT_HG_TH => 0xFF | C_SINR_TH => 127 | C_SINR_SAMPLES => 0xFF | C_BLEND_HI => 127
  end.

(** ** Opcodes *)

Definition HCI_OGF_FM_RECV_CTRL_CMD_REQ : Z := 0x0013.
Definition HCI_OGF_FM_TRANS_CTRL_CMD_REQ : Z := 0x0014.
Definition HCI_OGF_FM_COMMON_CTRL_CMD_REQ : Z := 0x0015.
Definition HCI_OGF_FM_STATUS_PARAMETERS_CMD_REQ : Z := 0x0016.
Definition HCI_OGF_FM_TEST_CMD_REQ : Z := 0x0017.
Definition HCI_OGF_FM_DIAGNOSTIC_CMD_REQ : Z := 0x003F.

Inductive fm_group : Type := RECV | TRANS | COMMON | STATUS | DIAGNOSTIC.

#[export] Instance fm_group_eq_dec : EqDecision fm_group.
Proof. solve_decision. Defined.

Inductive fm_command : Type :=
  | HCI_OCF_FM_ENABLE_RECV_REQ | HCI_OCF_FM_DISABLE_RECV_REQ | HCI_OCF_FM_GET_RECV_CONF_REQ
  | HCI_OCF_FM_SET_RECV_CONF_REQ | HCI_OCF_FM_SET_MUTE_MODE_REQ | HCI_OCF_FM_SET_STEREO_MODE_REQ
  | HCI_OCF_FM_SET_ANTENNA | HCI_OCF_FM_SET_SIGNAL_THRESHOLD | HCI_OCF_FM_GET_SIGNAL_THRESHOLD
  | HCI_OCF_FM_GET_STATION_PARAM_REQ | HCI_OCF_FM_GET_PROGRAM_SERVICE_REQ
  | HCI_OCF_FM_GET_RADIO_TEXT_REQ | HCI_OCF_FM_GET_AF_LIST_REQ | HCI_OCF_FM_SEARCH_STATIONS
  | HCI_OCF_FM_SEARCH_RDS_STATIONS | HCI_OCF_FM_SEARCH_STATIONS_LIST | HCI_OCF_FM_CANCEL_SEARCH
  | HCI_OCF_FM_RDS_GRP | HCI_OCF_FM_RDS_GRP_PROCESS | HCI_OCF_FM_EN_WAN_AVD_CTRL
  | HCI_OCF_FM_EN_NOTCH_CTRL | HCI_OCF_FM_SET_EVENT_MASK | HCI_OCF_FM_SET_CH_DET_THRESHOLD
  | HCI_OCF_FM_GET_CH_DET_THRESHOLD | HCI_OCF_FM_SET_BLND_TBL | HCI_OCF_FM_GET_BLND_TBL
  | HCI_OCF_FM_ENABLE_TRANS_REQ | HCI_OCF_FM_DISABLE_TRANS_REQ | HCI_OCF_FM_GET_TRANS_CONF_REQ
  | HCI_OCF_FM_SET_TRANS_CONF_REQ | HCI_OCF_FM_RDS_RT_REQ | HCI_OCF_FM_RDS_PS_REQ
  | HCI_OCF_FM_TUNE_STATION_REQ | HCI_OCF_FM_DEFAULT_DATA_READ | HCI_OCF_FM_DEFAULT_DATA_WRITE
  | HCI_OCF_FM_RESET | HCI_OCF_FM_GET_FEATURE_LIST | HCI_OCF_FM_DO_CALIBRATION
  | HCI_OCF_FM_SET_CALIBRATION | HCI_OCF_FM_SET_SPUR_TABLE | HCI_OCF_FM_GET_SPUR_TABLE
  | HCI_OCF_FM_READ_GRP_COUNTERS | HCI_OCF_FM_PEEK_DATA | HCI_OCF_FM_POKE_DATA
  | HCI_OCF_FM_SSBI_PEEK_REG | HCI_OCF_FM_SSBI_POKE_REG | HCI_OCF_FM_STATION_DBG_PARAM
  | HCI_FM_SET_INTERNAL_TONE_GENRATOR.

#[export] Instance fm_command_eq_dec : EqDecision fm_command.
Proof. solve_decision. Defined.

Definition fm_commands : list fm_command :=
  [HCI_OCF_FM_ENABLE_RECV_REQ; HCI_OCF_FM_DISABLE_RECV_REQ; HCI_OCF_FM_GET_RECV_CONF_REQ;
   HCI_OCF_FM_SET_RECV_CONF_REQ; HCI_OCF_FM_SET_MUTE_MODE_REQ; HCI_OCF_FM_SET_STEREO_MODE_REQ;
   HCI_OCF_FM_SET_ANTENNA; HCI_OCF_FM_SET_SIGNAL_THRESHOLD; HCI_OCF_FM_GET_SIGNAL_THRESHOLD;
   HCI_OCF_FM_GET_STATION_PARAM_REQ; HCI_OCF_FM_GET_PROGRAM_SERVICE_REQ;
   HCI_OCF_FM_GET_RADIO_TEXT_REQ; HCI_OCF_FM_GET_AF_LIST_REQ; HCI_OCF_FM_SEARCH_STATIONS;
   HCI_OCF_FM_SEARCH_RDS_STATIONS; HCI_OCF_FM_SEARCH_STATIONS_LIST; HCI_OCF_FM_CANCEL_SEARCH;
   HCI_OCF_FM_RDS_GRP; HCI_OCF_FM_RDS_GRP_PROCESS; HCI_OCF_FM_EN_WAN_AVD_CTRL;
   HCI_OCF_FM_EN_NOTCH_CTRL; HCI_OCF_FM_SET_EVENT_MASK; HCI_OCF_FM_SET_CH_DET_THRESHOLD;
   HCI_OCF_FM_GET_CH_DET_THRESHOLD; HCI_OCF_FM_SET_BLND_TBL; HCI_OCF_FM_GET_BLND_TBL;
   HCI_OCF_FM_ENABLE_TRANS_REQ; HCI_OCF_FM_DISABLE_TRANS_REQ; HCI_OCF_FM_GET_TRANS_CONF_REQ;
   HCI_OCF_FM_SET_TRANS_CONF_REQ; HCI_OCF_FM_RDS_RT_REQ; HCI_OCF_FM_RDS_PS_REQ;
   HCI_OCF_FM_TUNE_STATION_REQ; HCI_OCF_FM_DEFAULT_DATA_READ; HCI_OCF_FM_DEFAULT_DATA_WRITE;
   HCI_OCF_FM_RESET; HCI_OCF_FM_GET_FEATURE_LIST; HCI_OCF_FM_DO_CALIBRATION;
   HCI_OCF_FM_SET_CALIBRATION; HCI_OCF_FM_SET_SPUR_TABLE; HCI_OCF_FM_GET_SPUR_TABLE;
   HCI_OCF_FM_READ_GRP_COUNTERS; HCI_OCF_FM_PEEK_DATA; HCI_OCF_FM_POKE_DATA;
   HCI_OCF_FM_SSBI_PEEK_REG; HCI_OCF_FM_SSBI_POKE_REG; HCI_OCF_FM_STATION_DBG_PARAM;
   HCI_FM_SET_INTERNAL_TONE_GENRATOR].

(** The command within its group. *)
Definition fm_ocf (c : fm_command) : Z :=
  match c with
  | HCI_OCF_FM_ENABLE_RECV_REQ => 0x0001 | HCI_OCF_FM_DISABLE_RECV_REQ => 0x0002
  | HCI_OCF_FM_GET_RECV_CONF_REQ => 0x0003 | HCI_OCF_FM_SET_RECV_CONF_REQ => 0x0004
  | HCI_OCF_FM_SET_MUTE_MODE_REQ => 0x0005 | HCI_OCF_FM_SET_STEREO_MODE_REQ => 0x0006
  | HCI_OCF_FM_SET_ANTENNA => 0x0007 | HCI_OCF_FM_SET_SIGNAL_THRESHOLD => 0x0008
  | HCI_OCF_FM_GET_SIGNAL_THRESHOLD => 0x0009 | HCI_OCF_FM_GET_STATION_PARAM_REQ => 0x000A
  | HCI_OCF_FM_GET_PROGRAM_SERVICE_REQ => 0x000B | HCI_OCF_FM_GET_RADIO_TEXT_REQ => 0x000C
  | HCI_OCF_FM_GET_AF_LIST_REQ => 0x000D | HCI_OCF_FM_SEARCH_STATIONS => 0x000E
  | HCI_OCF_FM_SEARCH_RDS_STATIONS => 0x000F | HCI_OCF_FM_SEARCH_STATIONS_LIST => 0x0010
  | HCI_OCF_FM_CANCEL_SEARCH => 0x0011 | HCI_OCF_FM_RDS_GRP => 0x0012
  | HCI_OCF_FM_RDS_GRP_PROCESS => 0x0013 | HCI_OCF_FM_EN_WAN_AVD_CTRL => 0x0014
  | HCI_OCF_FM_EN_NOTCH_CTRL => 0x0015 | HCI_OCF_FM_SET_EVENT_MASK => 0x0016
  | HCI_OCF_FM_SET_CH_DET_THRESHOLD => 0x0017 | HCI_OCF_FM_GET_CH_DET_THRESHOLD => 0x0018
  | HCI_OCF_FM_SET_BLND_TBL => 0x001B | HCI_OCF_FM_GET_BLND_TBL => 0x001C
  | HCI_OCF_FM_ENABLE_TRANS_REQ => 0x0001 | HCI_OCF_FM_DISABLE_TRANS_REQ => 0x0002
  | HCI_OCF_FM_GET_TRANS_CONF_REQ => 0x0003 | HCI_OCF_FM_SET_TRANS_CONF_REQ => 0x0004
  | HCI_OCF_FM_RDS_RT_REQ => 0x0008 | HCI_OCF_FM_RDS_PS_REQ => 0x0009
  | HCI_OCF_FM_TUNE_STATION_REQ => 0x0001 | HCI_OCF_FM_DEFAULT_DATA_READ => 0x0002
  | HCI_OCF_FM_DEFAULT_DATA_WRITE => 0x0003 | HCI_OCF_FM_RESET => 0x0004
  | HCI_OCF_FM_GET_FEATURE_LIST => 0x0005 | HCI_OCF_FM_DO_CALIBRATION => 0x0006
  | HCI_OCF_FM_SET_CALIBRATION => 0x0007 | HCI_OCF_FM_SET_SPUR_TABLE => 0x0008
  | HCI_OCF_FM_GET_SPUR_TABLE => 0x0009 | HCI_OCF_FM_READ_GRP_COUNTERS => 0x0001
  | HCI_OCF_FM_PEEK_DATA => 0x0002 | HCI_OCF_FM_POKE_DATA => 0x0003
  | HCI_OCF_FM_SSBI_PEEK_REG => 0x0004 | HCI_OCF_FM_SSBI_POKE_REG => 0x0005
  | HCI_OCF_FM_STATION_DBG_PARAM => 0x0007 | HCI_FM_SET_INTERNAL_TONE_GENRATOR => 0x0008
  end.

(** The group of a command: the section of the table it is listed in. *)
Definition fm_group_of (c : fm_command) : fm_group :=
  match c with
  | HCI_OCF_FM_ENABLE_RECV_REQ | HCI_OCF_FM_DISABLE_RECV_REQ | HCI_OCF_FM_GET_RECV_CONF_REQ
  | HCI_OCF_FM_SET_RECV_CONF_REQ | HCI_OCF_FM_SET_MUTE_MODE_REQ | HCI_OCF_FM_SET_STEREO_MODE_REQ
  | HCI_OCF_FM_SET_ANTENNA | HCI_OCF_FM_SET_SIGNAL_THRESHOLD | HCI_OCF_FM_GET_SIGNAL_THRESHOLD
  | HCI_OCF_FM_GET_STATION_PARAM_REQ | HCI_OCF_FM_GET_PROGRAM_SERVICE_REQ
  | HCI_OCF_FM_GET_RADIO_TEXT_REQ | HCI_OCF_FM_GET_AF_LIST_REQ | HCI_OCF_FM_SEARCH_STATIONS
  | HCI_OCF_FM_SEARCH_RDS_STATIONS | HCI_OCF_FM_SEARCH_STATIONS_LIST | HCI_OCF_FM_CANCEL_SEARCH
  | HCI_OCF_FM_RDS_GRP | HCI_OCF_FM_RDS_GRP_PROCESS | HCI_OCF_FM_EN_WAN_AVD_CTRL
  | HCI_OCF_FM_EN_NOTCH_CTRL | HCI_OCF_FM_SET_EVENT_MASK | HCI_OCF_FM_SET_CH_DET_THRESHOLD
  | HCI_OCF_FM_GET_CH_DET_THRESHOLD | HCI_OCF_FM_SET_BLND_TBL | HCI_OCF_FM_GET_BLND_TBL => RECV
  | HCI_OCF_FM_ENABLE_TRANS_REQ | HCI_OCF_FM_DISABLE_TRANS_REQ | HCI_OCF_FM_GET_TRANS_CONF_REQ
  | HCI_OCF_FM_SET_TRANS_CONF_REQ | HCI_OCF_FM_RDS_RT_REQ | HCI_OCF_FM_RDS_PS_REQ => TRANS
  | HCI_OCF_FM_TUNE_STATION_REQ | HCI_OCF_FM_DEFAULT_DATA_READ | HCI_OCF_FM_DEFAULT_DATA_WRITE
  | HCI_OCF_FM_RESET | HCI_OCF_FM_GET_FEATURE_LIST | HCI_OCF_FM_DO_CALIBRATION
  | HCI_OCF_FM_SET_CALIBRATION | HCI_OCF_FM_SET_SPUR_TABLE | HCI_OCF_FM_GET_SPUR_TABLE => COMMON
  | HCI_OCF_FM_READ_GRP_COUNTERS => STATUS
  | HCI_OCF_FM_PEEK_DATA | HCI_OCF_FM_POKE_DATA | HCI_OCF_FM_SSBI_PEEK_REG
  | HCI_OCF_FM_SSBI_POKE_REG | HCI_OCF_FM_STATION_DBG_PARAM | HCI_FM_SET_INTERNAL_TONE_GENRATOR => DIAGNOSTIC
  end.

Definition hci_opcode_pack (ogf ocf : Z) : Z :=
  cast U16 ((ocf &[S32] 0x03ff) .|[S32] (ogf <<[S32] 10)).
Definition hci_opcode_ogf (op : Z) : Z := op >>[S32] 10.
Definition hci_opcode_ocf (op : Z) : Z := op &[S32] 0x03ff.

Definition hci_recv_ctrl_cmd_op_pack (ocf : Z) : Z :=
  cast U16 (hci_opcode_pack HCI_OGF_FM_RECV_CTRL_CMD_REQ ocf).
Definition hci_trans_ctrl_cmd_op_pack (ocf : Z) : Z :=
  cast U16 (hci_opcode_pack HCI_OGF_FM_TRANS_CTRL_CMD_REQ ocf).
Definition hci_common_cmd_op_pack (ocf : Z) : Z :=
  cast U16 (hci_opcode_pack HCI_OGF_FM_COMMON_CTRL_CMD_REQ ocf).
Definition hci_status_param_op_pack (ocf : Z) : Z :=
  cast U16 (hci_opcode_pack HCI_OGF_FM_STATUS_PARAMETERS_CMD_REQ ocf).
Definition hci_diagnostic_cmd_op_pack (ocf : Z) : Z :=
  cast U16 (hci_opcode_pack HCI_OGF_FM_DIAGNOSTIC_CMD_REQ ocf).

(** The opcode a command is sent with: its group's packing of its number. *)
Definition fm_opcode (c : fm_command) : Z :=
  match fm_group_of c with
  | RECV => hci_recv_ctrl_cmd_op_pack (fm_ocf c)
  | TRANS => hci_trans_ctrl_cmd_op_pack (fm_ocf c)
  | COMMON => hci_common_cmd_op_pack (fm_ocf c)
  | STATUS => hci_status_param_op_pack (fm_ocf c)
  | DIAGNOSTIC => hci_diagnostic_cmd_op_pack (fm_ocf c)
  end.

(** ** Packet sizes and offsets *)

Definition DEFAULT_DATA_SIZE : Z := 249.
Definition DC_CALIB_SIZE : Z := 48.
Definition RSB_CALIB_SIZE : Z := 4.
Definition MAX_RIVA_PEEK_RSP_SIZE : Z := 251.
Definition MAX_SPUR_FREQ_LIMIT : Z := 30.
Definition SPUR_DATA_LEN : Z := 16.
Definition ENTRIES_EACH_CMD : Z := 15.
Definition FM_SPUR_TBL_SIZE : Z := 240.
Definition TX_PS_DATA_LENGTH : Z := 108.
Definition MAX_CALIB_SIZE : Z := 75.
Definition MAX_BLEND_INDEX : Z := 49.
Definition PROCS_CALIB_SIZE : Z := 23.
Definition TX_RT_DATA_LENGTH : Z := 64.
Definition FM_AF_LIST_MAX_SIZE : Z := 200.
Definition MAX_RAW_RDS_GRPS : Z := 21.
Definition RDS_BLOCKS_NUM : Z := 4.
Definition BYTES_PER_BLOCK : Z := 3.
Definition MAX_PS_LENGTH : Z := 108.
Definition MAX_RT_LENGTH : Z := 64.

Definition AF_LIST_MAX : Z := FM_AF_LIST_MAX_SIZE /[S32] 4.

Definition DEFAULT_DATA_OFFSET : Z := 2.
Definition RDSGRP_DATA_OFFSET : Z := 0x1.
Definition SPUR_DATA_INDEX : Z := 2.
Definition RDS_PTYPE : Z := 2.
Definition RDS_OFFSET : Z := 5.
Definition RDS_PS_LENGTH_OFFSET : Z := 7.
Definition RDS_PS_DATA_OFFSET : Z := 8.
Definition PI_CODE_OFFSET : Z := 4.
Definition AF_SIZE_OFFSET : Z := 6.
Definition AF_LIST_OFFSET : Z := 7.
Definition RT_A_B_FLAG_OFFSET : Z := 4.
Definition CALIB_DATA_OFSET : Z := 2.
Definition CALIB_MODE_OFSET : Z := 1.
Definition RIVA_PEEK_PARAM : Z := 0x6.

Definition FM_TX_PWR_LVL_STEP_SIZE : Z := 36.
Definition FM_TX_PWR_LVL_0 : Z := 0.
Definition FM_TX_PWR_LVL_MAX : Z := 7.

(** ** Packets *)

Definition struct_radio_hci_command_hdr : ctype := packed_struct [
  ("opcode", c_u16); ("plen", c_u8)].

Definition struct_radio_hci_event_hdr : ctype := packed_struct [
  ("evt", c_u8); ("plen", c_u8)].

Definition struct_hci_fm_recv_conf_req : ctype := packed_struct [
  ("emphasis", c_u8); ("ch_spacing", c_u8); ("rds_std", c_u8); ("hlsi", c_u8);
  ("band_low_limit", c_u32); ("band_high_limit", c_u32)].

Definition struct_hci_fm_trans_conf_req_struct : ctype := packed_struct [
  ("emphasis", c_u8); ("rds_std", c_u8); ("band_low_limit", c_u32); ("band_high_limit", c_u32)].

Definition struct_hci_fm_tx_ps : ctype := packed_struct [
  ("ps_control", c_u8); ("pi", c_u16); ("pty", c_u8); ("ps_repeatcount", c_u8); ("ps_num", c_u8);
  ("ps_data", CArray c_u8 TX_PS_DATA_LENGTH)].

Definition struct_hci_fm_tx_rt : ctype := packed_struct [
  ("rt_control", c_u8); ("pi", c_u16); ("pty", c_u8); ("rt_len", c_u8);
  ("rt_data", CArray c_u8 TX_RT_DATA_LENGTH)].

Definition struct_hci_fm_mute_mode_req : ctype := packed_struct [
  ("hard_mute", c_u8); ("soft_mute", c_u8)].

Definition struct_hci_fm_stereo_mode_req : ctype := packed_struct [
  ("stereo_mode", c_u8); ("sig_blend", c_u8); ("intf_blend", c_u8); ("most_switch", c_u8)].

Definition struct_hci_fm_search_station_req : ctype := packed_struct [
  ("srch_mode", c_u8); ("scan_time", c_u8); ("srch_dir", c_u8)].

Definition struct_hci_fm_search_rds_station_req : ctype := packed_struct [
  ("srch_station", struct_hci_fm_search_station_req); ("srch_pty", c_u8); ("srch_pi", c_u16)].

Definition struct_hci_fm_search_station_list_req : ctype := packed_struct [
  ("srch_list_mode", c_u8); ("srch_list_dir", c_u8); ("srch_list_max", c_u32);
  ("srch_pty", c_u8)].

Definition struct_hci_fm_rds_grp_req : ctype := packed_struct [
  ("rds_grp_enable_mask", c_u32); ("rds_buf_size", c_u32); ("en_rds_change_filter", c_u8)].

Definition struct_hci_fm_en_avd_ctrl_req : ctype := packed_struct [
  ("no_freqs", c_u8); ("freq_index", c_u8); ("lo_shft", c_u8); ("freq_min", c_u16);
  ("freq_max", c_u16)].

Definition struct_hci_fm_def_data_rd_req : ctype := packed_struct [
  ("mode", c_u8); ("length", c_u8); ("param_len", c_u8); ("param", c_u8)].

Definition struct_hci_fm_def_data_wr_req : ctype := packed_struct [
  ("mode", c_u8); ("length", c_u8); ("data", CArray c_u8 DEFAULT_DATA_SIZE)].

Definition struct_hci_fm_riva_data : ctype := packed_struct [
  ("subopcode", c_u8); ("start_addr", c_u32); ("length", c_u8)].

Definition struct_hci_fm_riva_poke : ctype := packed_struct [
  ("cmd_params", struct_hci_fm_riva_data); ("data", CArray c_u8 MAX_RIVA_PEEK_RSP_SIZE)].

Definition struct_hci_fm_ssbi_req : ctype := packed_struct [
  ("start_addr", c_u16); ("data", c_u8)].

Definition struct_hci_fm_ssbi_peek : ctype := packed_struct [
  ("start_address", c_u16)].

Definition struct_hci_fm_ch_det_threshold : ctype := packed_struct [
  ("sinr", c_u8); ("sinr_samples", c_u8); ("low_th", c_u8); ("high_th", c_u8)].

Definition struct_hci_fm_blend_table : ctype := packed_struct [
  ("ucBlendType", c_u8); ("ucBlendRampRateUp", c_u8); ("ucBlendDebounceNumSampleUp", c_u8);
  ("ucBlendDebounceIdxUp", c_u8); ("ucBlendSinrIdxSkipStep", c_u8); ("scBlendSinrHi", c_u8);
  ("scBlendRmssiHi", c_u8); ("ucBlendIndexHi", c_u8);
  ("ucBlendIndex", CArray c_u8 MAX_BLEND_INDEX)].

Definition struct_hci_ev_tune_status : ctype := packed_struct [
  ("sub_event", c_u8); ("station_freq", c_u32); ("serv_avble", c_u8); ("rssi", c_u8);
  ("stereo_prg", c_u8); ("rds_sync_status", c_u8); ("mute_mode", c_u8); ("sinr", c_u8);
  ("intf_det_th", c_u8)].

Definition struct_rds_blk_data : ctype := packed_struct [
  ("rdsMsb", c_u8); ("rdsLsb", c_u8); ("blockStatus", c_u8)].

Definition struct_rds_grp_data : ctype := packed_struct [
  ("rdsBlk", CArray struct_rds_blk_data 4)].

Definition struct_hci_ev_rds_rx_data : ctype := packed_struct [
  ("num_rds_grps", c_u8); ("rds_grp_data", CArray struct_rds_grp_data MAX_RAW_RDS_GRPS)].

Definition struct_hci_ev_prg_service : ctype := packed_struct [
  ("pi_prg_id", c_u16); ("pty_prg_type", c_u8); ("ta_prg_code_type", c_u8);
  ("ta_ann_code_flag", c_u8); ("ms_switch_code_flag", c_u8); ("dec_id_ctrl_code_flag", c_u8);
  ("ps_num", c_u8); ("prg_service_name", CArray c_u8 119)].

Definition struct_hci_ev_radio_text : ctype := packed_struct [
  ("pi_prg_id", c_u16); ("pty_prg_type", c_u8); ("ta_prg_code_type", c_u8);
  ("txt_ab_flag", c_u8); ("radio_txt", CArray c_u8 64)].

Definition struct_hci_ev_af_list : ctype := packed_struct [
  ("tune_freq", c_u32); ("pi_code", c_u16); ("af_size", c_u8);
  ("af_list", CArray c_u8 FM_AF_LIST_MAX_SIZE)].

Definition struct_hci_ev_cmd_complete : ctype := packed_struct [
  ("num_hci_cmd_pkts", c_u8); ("cmd_opcode", c_u16)].

Definition struct_hci_ev_cmd_status : ctype := packed_struct [
  ("status", c_u8); ("num_hci_cmd_pkts", c_u8); ("status_opcode", c_u16)].

Definition struct_hci_ev_srch_st : ctype := packed_struct [
  ("station_freq", c_u32); ("rds_cap", c_u8); ("pty", c_u8); ("status_opcode", c_u16)].

Definition struct_hci_ev_rel_freq : ctype := packed_struct [
  ("rel_freq_msb", c_u8); ("rel_freq_lsb", c_u8)].

Definition struct_hci_ev_srch_list_compl : ctype := packed_struct [
  ("num_stations_found", c_u8); ("rel_freq", CArray struct_hci_ev_rel_freq 20)].

Definition struct_hci_fm_conf_rsp : ctype := packed_struct [
  ("status", c_u8); ("recv_conf_rsp", struct_hci_fm_recv_conf_req)].

Definition struct_hci_fm_get_trans_conf_rsp : ctype := packed_struct [
  ("status", c_u8); ("trans_conf_rsp", struct_hci_fm_trans_conf_req_struct)].

Definition struct_hci_fm_sig_threshold_rsp : ctype := packed_struct [
  ("status", c_u8); ("sig_threshold", c_u8)].

Definition struct_hci_fm_station_rsp : ctype := packed_struct [
  ("station_rsp", struct_hci_ev_tune_status)].

Definition struct_hci_fm_prgm_srv_rsp : ctype := packed_struct [
  ("status", c_u8); ("prg_srv", struct_hci_ev_prg_service)].

Definition struct_hci_fm_radio_txt_rsp : ctype := packed_struct [
  ("status", c_u8); ("rd_txt", struct_hci_ev_radio_text)].

Definition struct_hci_fm_af_list_rsp : ctype := packed_struct [
  ("status", c_u8); ("rd_txt", struct_hci_ev_af_list)].

Definition struct_hci_fm_data_rd_rsp : ctype := packed_struct [
  ("status", c_u8); ("ret_data_len", c_u8); ("data", CArray c_u8 DEFAULT_DATA_SIZE)].

Definition struct_hci_fm_feature_list_rsp : ctype := packed_struct [
  ("status", c_u8); ("feature_mask", c_u8)].

Definition struct_hci_fm_dbg_param_rsp : ctype := packed_struct [
  ("status", c_u8); ("blend", c_u8); ("soft_mute", c_u8); ("inf_blend", c_u8);
  ("inf_soft_mute", c_u8); ("pilot_pil", c_u8); ("io_verc", c_u8); ("in_det_out", c_u8)].

Definition struct_hci_fm_spur_data : ctype := packed_struct [
  ("freq", CArray c_u32 MAX_SPUR_FREQ_LIMIT); ("rmssi", CArray c_u8 MAX_SPUR_FREQ_LIMIT);
  ("enable", CArray c_u8 MAX_SPUR_FREQ_LIMIT)].

Definition struct_hci_fm_set_cal_req_proc : ctype := packed_struct [
  ("mode", c_u8); ("data", CArray c_u8 PROCS_CALIB_SIZE)].

Definition struct_hci_fm_set_cal_req_dc : ctype := packed_struct [
  ("mode", c_u8); ("data", CArray c_u8 DC_CALIB_SIZE)].

Definition struct_hci_cc_do_calibration_rsp : ctype := packed_struct [
  ("status", c_u8); ("mode", c_u8); ("data", CArray c_u8 MAX_CALIB_SIZE)].

Definition struct_hci_fm_set_spur_table_req : ctype := packed_struct [
  ("mode", c_u8); ("no_of_freqs_entries", c_u8); ("spur_data", CArray c_u8 FM_SPUR_TBL_SIZE)].

(** ** Events *)

Inductive hci_event : Type :=
  | HCI_EV_TUNE_STATUS | HCI_EV_RDS_LOCK_STATUS | HCI_EV_STEREO_STATUS | HCI_EV_SERVICE_AVAILABLE
  | HCI_EV_SEARCH_PROGRESS | HCI_EV_SEARCH_RDS_PROGRESS | HCI_EV_SEARCH_LIST_PROGRESS
  | HCI_EV_RDS_RX_DATA | HCI_EV_PROGRAM_SERVICE | HCI_EV_RADIO_TEXT | HCI_EV_FM_AF_LIST
  | HCI_EV_TX_RDS_GRP_AVBLE | HCI_EV_TX_RDS_GRP_COMPL | HCI_EV_TX_RDS_CONT_GRP_COMPL
  | HCI_EV_CMD_COMPLETE | HCI_EV_CMD_STATUS | HCI_EV_TUNE_COMPLETE | HCI_EV_SEARCH_COMPLETE
  | HCI_EV_SEARCH_RDS_COMPLETE | HCI_EV_SEARCH_LIST_COMPLETE.

#[export] Instance hci_event_enum : CEnum hci_event := {
  enum_value e := match e with
    | HCI_EV_TUNE_STATUS => 0x01 | HCI_EV_RDS_LOCK_STATUS => 0x02 | HCI_EV_STEREO_STATUS => 0x03
    | HCI_EV_SERVICE_AVAILABLE => 0x04 | HCI_EV_SEARCH_PROGRESS => 0x05
    | HCI_EV_SEARCH_RDS_PROGRESS => 0x06 | HCI_EV_SEARCH_LIST_PROGRESS => 0x07
    | HCI_EV_RDS_RX_DATA => 0x08 | HCI_EV_PROGRAM_SERVICE => 0x09 | HCI_EV_RADIO_TEXT => 0x0A
    | HCI_EV_FM_AF_LIST => 0x0B | HCI_EV_TX_RDS_GRP_AVBLE => 0x0C
    | HCI_EV_TX_RDS_GRP_COMPL => 0x0D | HCI_EV_TX_RDS_CONT_GRP_COMPL => 0x0E
    | HCI_EV_CMD_COMPLETE => 0x0F | HCI_EV_CMD_STATUS => 0x10 | HCI_EV_TUNE_COMPLETE => 0x11
    | HCI_EV_SEARCH_COMPLETE => 0x12 | HCI_EV_SEARCH_RDS_COMPLETE => 0x13
    | HCI_EV_SEARCH_LIST_COMPLETE => 0x14
  end;
  enum_all := [HCI_EV_TUNE_STATUS; HCI_EV_RDS_LOCK_STATUS; HCI_EV_STEREO_STATUS;
    HCI_EV_SERVICE_AVAILABLE; HCI_EV_SEARCH_PROGRESS; HCI_EV_SEARCH_RDS_PROGRESS;
    HCI_EV_SEARCH_LIST_PROGRESS; HCI_EV_RDS_RX_DATA; HCI_EV_PROGRAM_SERVICE; HCI_EV_RADIO_TEXT;
    HCI_EV_FM_AF_LIST; HCI_EV_TX_RDS_GRP_AVBLE; HCI_EV_TX_RDS_GRP_COMPL;
    HCI_EV_TX_RDS_CONT_GRP_COMPL; HCI_EV_CMD_COMPLETE; HCI_EV_CMD_STATUS; HCI_EV_TUNE_COMPLETE;
    HCI_EV_SEARCH_COMPLETE; HCI_EV_SEARCH_RDS_COMPLETE; HCI_EV_SEARCH_LIST_COMPLETE] }.

(** ** Spurs, frequencies, RDS words *)

Definition CLKSPURID_INDEX0 : Z := 0.
Definition CLKSPURID_INDEX1 : Z := 5.
Definition CLKSPURID_INDEX2 : Z := 10.
Definition CLKSPURID_INDEX3 : Z := 15.
Definition CLKSPURID_INDEX4 : Z := 20.
Definition CLKSPURID_INDEX5 : Z := 25.
Definition SPUR_ENTRIES_PER_ID : Z := 0x5.

Definition COMPUTE_SPUR (t : int_ty) (val : Z) : Z := (val -[t] 76000) /[t] 50.
Definition GET_FREQ (t : int_ty) (val bit : Z) : Z := if bit =? 1 then val >>[t] 8 else val &[t] 0xFF.
Definition GET_SPUR_ENTRY_LEVEL (val : Z) : Z := val /[S32] 5.

Definition REGION_US_EU_BAND_LOW : Z := 87500.
Definition REGION_US_EU_BAND_HIGH : Z := 108000.
Definition REGION_JAPAN_STANDARD_BAND_LOW : Z := 76000.
Definition REGION_JAPAN_STANDARD_BAND_HIGH : Z := 90000.
Definition REGION_JAPAN_WIDE_BAND_LOW : Z := 90000.
Definition REGION_JAPAN_WIDE_BAND_HIGH : Z := 108000.

Definition AGT_MASK : Z := 31.
Definition GRP_3A : Z := 0x6.
Definition RT_PLUS_AID : Z := 0x4bd7.
Definition ERT_AID : Z := 0x6552.

Definition AGT (x : Z) : Z := x &[S32] AGT_MASK.
Definition AID (lsb msb : Z) : Z := (msb <<[S32] 8) .|[S32] lsb.
Definition GTC (blk2msb : Z) : Z := blk2msb >>[S32] 3.
Definition EXTRACT_BIT (data bit_pos : Z) : Z := (data &[S32] (1 <<[S32] bit_pos)) >>[S32] bit_pos.
Definition GET_MSB (x : Z) : Z := (x >>[S32] 8) &[S32] 0xFF.
Definition GET_LSB (x : Z) : Z := x &[S32] 0xFF.

(** ** States and options *)

Inductive radio_state_t : Type :=
  | FM_OFF | FM_RECV | FM_TRANS | FM_RESET | FM_CALIB | FM_TURNING_OFF | FM_RECV_TURNING_ON
  | FM_TRANS_TURNING_ON | FM_MAX_NO_STATES.

#[export] Instance radio_state_t_enum : CEnum radio_state_t := {
  enum_value e := match e with
    | FM_OFF => 0 | FM_RECV => 1 | FM_TRANS => 2 | FM_RESET => 3 | FM_CALIB => 4
    | FM_TURNING_OFF => 5 | FM_RECV_TURNING_ON => 6 | FM_TRANS_TURNING_ON => 7
    | FM_MAX_NO_STATES => 8
  end;
  enum_all := [FM_OFF; FM_RECV; FM_TRANS; FM_RESET; FM_CALIB; FM_TURNING_OFF; FM_RECV_TURNING_ON;
    FM_TRANS_TURNING_ON; FM_MAX_NO_STATES] }.

Inductive emphasis_type : Type :=
  | FM_RX_EMP75 | FM_RX_EMP50.

#[export] Instance emphasis_type_enum : CEnum emphasis_type := {
  enum_value e := match e with
    | FM_RX_EMP75 => 0 | FM_RX_EMP50 => 1
  end;
  enum_all := [FM_RX_EMP75; FM_RX_EMP50] }.

Inductive channel_space_type : Type :=
  | FM_RX_SPACE_200KHZ | FM_RX_SPACE_100KHZ | FM_RX_SPACE_50KHZ.

#[export] Instance channel_space_type_enum : CEnum channel_space_type := {
  enum_value e := match e with
    | FM_RX_SPACE_200KHZ => 0 | FM_RX_SPACE_100KHZ => 1 | FM_RX_SPACE_50KHZ => 2
  end;
  enum_all := [FM_RX_SPACE_200KHZ; FM_RX_SPACE_100KHZ; FM_RX_SPACE_50KHZ] }.

Inductive high_low_injection : Type :=
  | AUTO_HI_LO_INJECTION | LOW_SIDE_INJECTION | HIGH_SIDE_INJECTION.

#[export] Instance high_low_injection_enum : CEnum high_low_injection := {
  enum_value e := match e with
    | AUTO_HI_LO_INJECTION => 0 | LOW_SIDE_INJECTION => 1 | HIGH_SIDE_INJECTION => 2
  end;
  enum_all := [AUTO_HI_LO_INJECTION; LOW_SIDE_INJECTION; HIGH_SIDE_INJECTION] }.

Inductive fm_rds_type : Type :=
  | FM_RX_RDBS_SYSTEM | FM_RX_RDS_SYSTEM.

#[export] Instance fm_rds_type_enum : CEnum fm_rds_type := {
  enum_value e := match e with
    | FM_RX_RDBS_SYSTEM => 0 | FM_RX_RDS_SYSTEM => 1
  end;
  enum_all := [FM_RX_RDBS_SYSTEM; FM_RX_RDS_SYSTEM] }.

Inductive iris_region_t : Type :=
  | IRIS_REGION_US | IRIS_REGION_EU | IRIS_REGION_JAPAN | IRIS_REGION_JAPAN_WIDE
  | IRIS_REGION_OTHER.

#[export] Instance iris_region_t_enum : CEnum iris_region_t := {
  enum_value e := match e with
    | IRIS_REGION_US => 0 | IRIS_REGION_EU => 1 | IRIS_REGION_JAPAN => 2
    | IRIS_REGION_JAPAN_WIDE => 3 | IRIS_REGION_OTHER => 4
  end;
  enum_all := [IRIS_REGION_US; IRIS_REGION_EU; IRIS_REGION_JAPAN; IRIS_REGION_JAPAN_WIDE;
    IRIS_REGION_OTHER] }.

Inductive iris_buf_t : Type :=
  | IRIS_BUF_SRCH_LIST | IRIS_BUF_EVENTS | IRIS_BUF_RT_RDS | IRIS_BUF_PS_RDS | IRIS_BUF_RAW_RDS
  | IRIS_BUF_AF_LIST | IRIS_BUF_PEEK | IRIS_BUF_SSBI_PEEK | IRIS_BUF_RDS_CNTRS
  | IRIS_BUF_RD_DEFAULT | IRIS_BUF_CAL_DATA | IRIS_BUF_RT_PLUS | IRIS_BUF_ERT | IRIS_BUF_SPUR
  | IRIS_BUF_MAX.

#[export] Instance iris_buf_t_enum : CEnum iris_buf_t := {
  enum_value e := match e with
    | IRIS_BUF_SRCH_LIST => 0 | IRIS_BUF_EVENTS => 1 | IRIS_BUF_RT_RDS => 2
    | IRIS_BUF_PS_RDS => 3 | IRIS_BUF_RAW_RDS => 4 | IRIS_BUF_AF_LIST => 5 | IRIS_BUF_PEEK => 6
    | IRIS_BUF_SSBI_PEEK => 7 | IRIS_BUF_RDS_CNTRS => 8 | IRIS_BUF_RD_DEFAULT => 9
    | IRIS_BUF_CAL_DATA => 10 | IRIS_BUF_RT_PLUS => 11 | IRIS_BUF_ERT => 12 | IRIS_BUF_SPUR => 13
    | IRIS_BUF_MAX => 14
  end;
  enum_all := [IRIS_BUF_SRCH_LIST; IRIS_BUF_EVENTS; IRIS_BUF_RT_RDS; IRIS_BUF_PS_RDS;
    IRIS_BUF_RAW_RDS; IRIS_BUF_AF_LIST; IRIS_BUF_PEEK; IRIS_BUF_SSBI_PEEK; IRIS_BUF_RDS_CNTRS;
    IRIS_BUF_RD_DEFAULT; IRIS_BUF_CAL_DATA; IRIS_BUF_RT_PLUS; IRIS_BUF_ERT; IRIS_BUF_SPUR;
    IRIS_BUF_MAX] }.

Inductive iris_xfr_t : Type :=
  | IRIS_XFR_SYNC | IRIS_XFR_ERROR | IRIS_XFR_SRCH_LIST | IRIS_XFR_RT_RDS | IRIS_XFR_PS_RDS
  | IRIS_XFR_AF_LIST | IRIS_XFR_MAX.

#[export] Instance iris_xfr_t_enum : CEnum iris_xfr_t := {
  enum_value e := match e with
    | IRIS_XFR_SYNC => 0 | IRIS_XFR_ERROR => 1 | IRIS_XFR_SRCH_LIST => 2 | IRIS_XFR_RT_RDS => 3
    | IRIS_XFR_PS_RDS => 4 | IRIS_XFR_AF_LIST => 5 | IRIS_XFR_MAX => 6
  end;
  enum_all := [IRIS_XFR_SYNC; IRIS_XFR_ERROR; IRIS_XFR_SRCH_LIST; IRIS_XFR_RT_RDS;
    IRIS_XFR_PS_RDS; IRIS_XFR_AF_LIST; IRIS_XFR_MAX] }.

Inductive search_t : Type :=
  | SEEK | SCAN | SCAN_FOR_STRONG | SCAN_FOR_WEAK | RDS_SEEK_PTY | RDS_SCAN_PTY | RDS_SEEK_PI
  | RDS_AF_JUMP.

#[export] Instance search_t_enum : CEnum search_t := {
  enum_value e := match e with
    | SEEK => 0 | SCAN => 1 | SCAN_FOR_STRONG => 2 | SCAN_FOR_WEAK => 3 | RDS_SEEK_PTY => 4
    | RDS_SCAN_PTY => 5 | RDS_SEEK_PI => 6 | RDS_AF_JUMP => 7
  end;
  enum_all := [SEEK; SCAN; SCAN_FOR_STRONG; SCAN_FOR_WEAK; RDS_SEEK_PTY; RDS_SCAN_PTY;
    RDS_SEEK_PI; RDS_AF_JUMP] }.

Inductive spur_entry_levels : Type :=
  | ENTRY_0 | ENTRY_1 | ENTRY_2 | ENTRY_3 | ENTRY_4 | ENTRY_5.

#[export] Instance spur_entry_levels_enum : CEnum spur_entry_levels := {
  enum_value e := match e with
    | ENTRY_0 => 0 | ENTRY_1 => 1 | ENTRY_2 => 2 | ENTRY_3 => 3 | ENTRY_4 => 4 | ENTRY_5 => 5
  end;
  enum_all := [ENTRY_0; ENTRY_1; ENTRY_2; ENTRY_3; ENTRY_4; ENTRY_5] }.
