(* ===== verification/RadioIrisProps.v ===== *)
(** * RadioIrisProps: what the FM radio protocol promises

    Opcodes, sizes of packets and the offsets the driver reads them at, spur
    frequencies and RDS words. *)

From S2P Require Import Prelude Align Bits CLayout RadioIris.

#[local] Open Scope string_scope.
#[local] Open Scope Z_scope.

(** ** Arithmetic of the shift-and-mask macros *)

Lemma hci_opcode_pack_sum ogf ocf :
  0 <= ogf < 2 ^ 20 -> 0 <= ocf < 2 ^ 31 ->
  hci_opcode_pack ogf ocf = (ogf mod 64) * 1024 + ocf mod 1024.
Proof.
  intros Hg Hc. unfold hci_opcode_pack, c_and, c_or, c_shl.
  change 0x03ff with (Z.ones 10). rewrite Z.land_ones by lia.
  pose proof (Z.mod_pos_bound ocf (2 ^ 10)). norm_pow.
  rewrite (cast_S32_id (ocf mod 1024)) by lia.
  rewrite (cast_S32_id (Z.shiftl _ _)) by (rewrite Z.shiftl_mul_pow2 by lia; lia).
  rewrite Z.lor_comm, lor_shiftl_add by lia. norm_pow. rewrite cast_S32_id by lia.
  unfold cast. cbn [int_signed U16 int_width]. norm_pow. zlia.
Qed.

Lemma hci_opcode_ogf_div op : 0 <= op < 2 ^ 16 -> hci_opcode_ogf op = op / 1024.
Proof. intros. unfold hci_opcode_ogf. apply (c_shr_id S32); try done; unfold_range; lia. Qed.

Lemma hci_opcode_ocf_mod op : 0 <= op < 2 ^ 16 -> hci_opcode_ocf op = op mod 1024.
Proof.
  intros. unfold hci_opcode_ocf, c_and. change 0x03ff with (Z.ones 10). rewrite Z.land_ones by lia.
  pose proof (Z.mod_pos_bound op (2 ^ 10)). norm_pow. by rewrite cast_S32_id by lia.
Qed.

(** Packing an opcode group of 6 bits and a command of 10 bits, and
    unpacking, are inverse to each other, in both orders; of larger arguments
    the packed opcode keeps the low bits. *)
Theorem opcode_roundtrip (ogf ocf op : Z) :
  0 <= ogf < 2 ^ 20 -> 0 <= ocf < 2 ^ 31 -> 0 <= op < 2 ^ 16 ->
  hci_opcode_ogf (hci_opcode_pack ogf ocf) = ogf mod 64
  /\ hci_opcode_ocf (hci_opcode_pack ogf ocf) = ocf mod 1024
  /\ 0 <= hci_opcode_pack ogf ocf < 2 ^ 16
  /\ hci_opcode_pack (hci_opcode_ogf op) (hci_opcode_ocf op) = op.
Proof.
  intros Hg Hc Ho. rewrite hci_opcode_pack_sum by done.
  assert (0 <= ogf mod 64 * 1024 + ocf mod 1024 < 2 ^ 16) by (norm_pow; zlia).
  rewrite !hci_opcode_ogf_div, !hci_opcode_ocf_mod by done.
  rewrite hci_opcode_pack_sum by (norm_pow; zlia). split_and!; norm_pow; zlia.
Qed.

Lemma opcode_roundtrip_witness : hci_opcode_ocf (hci_opcode_pack 0x13 0x1C) = 0x1C.
Proof. exact (proj1 (proj2 (opcode_roundtrip 0x13 0x1C 0 ltac:(lia) ltac:(lia) ltac:(lia)))). Defined.

(** No two commands have the same opcode, although their numbers repeat
    from group to group, and an opcode gives back the group and number of its
    command. *)
Theorem opcodes_distinct (c c' : fm_command) :
  (fm_opcode c = fm_opcode c' <-> c = c')
  /\ hci_opcode_ocf (fm_opcode c) = fm_ocf c
  /\ (hci_opcode_ogf (fm_opcode c) = hci_opcode_ogf (fm_opcode c') <-> fm_group_of c = fm_group_of c').
Proof.
  assert (forall c, hci_opcode_ogf (fm_opcode c)
    = match fm_group_of c with RECV => 0x13 | TRANS => 0x14 | COMMON => 0x15 | STATUS => 0x16 | DIAGNOSTIC => 0x3F end
    /\ hci_opcode_ocf (fm_opcode c) = fm_ocf c) as Hparts by (intros []; split; reflexivity).
  destruct (Hparts c) as [Hg Ho], (Hparts c') as [Hg' Ho'].
  assert (hci_opcode_ogf (fm_opcode c) = hci_opcode_ogf (fm_opcode c') <-> fm_group_of c = fm_group_of c') as Hiff.
  { rewrite Hg, Hg'. split; [|by intros ->]. by destruct (fm_group_of c), (fm_group_of c'). }
  split_and!; [|done|done]. split; [|by intros ->]. intros E.
  assert (forall c, List.find (fun d => fm_opcode d =? fm_opcode c) fm_commands = Some c) as Hfind
    by (intros []; reflexivity).
  pose proof (Hfind c) as Hc. rewrite E, Hfind in Hc. congruence.
Qed.

(** ** Packets *)

(** Parameters of commands. *)
Definition command_params : list ctype :=
  [struct_hci_fm_recv_conf_req; struct_hci_fm_trans_conf_req_struct; struct_hci_fm_tx_ps;
   struct_hci_fm_tx_rt; struct_hci_fm_mute_mode_req; struct_hci_fm_stereo_mode_req;
   struct_hci_fm_search_station_req; struct_hci_fm_search_rds_station_req;
   struct_hci_fm_search_station_list_req; struct_hci_fm_rds_grp_req; struct_hci_fm_en_avd_ctrl_req;
   struct_hci_fm_def_data_rd_req; struct_hci_fm_def_data_wr_req; struct_hci_fm_riva_data;
   struct_hci_fm_ssbi_req; struct_hci_fm_ssbi_peek; struct_hci_fm_ch_det_threshold;
   struct_hci_fm_blend_table; struct_hci_fm_set_cal_req_proc; struct_hci_fm_set_cal_req_dc;
   struct_hci_fm_set_spur_table_req].

(** Payloads of events. *)
Definition event_params : list ctype :=
  [struct_hci_ev_tune_status; struct_hci_ev_rds_rx_data; struct_hci_ev_prg_service;
   struct_hci_ev_radio_text; struct_hci_ev_af_list; struct_hci_ev_cmd_complete;
   struct_hci_ev_cmd_status; struct_hci_ev_srch_st; struct_hci_ev_srch_list_compl].

(** Responses, carried by a command-complete event. *)
Definition responses : list ctype :=
  [struct_hci_fm_conf_rsp; struct_hci_fm_get_trans_conf_rsp; struct_hci_fm_sig_threshold_rsp;
   struct_hci_fm_station_rsp; struct_hci_fm_prgm_srv_rsp; struct_hci_fm_radio_txt_rsp;
   struct_hci_fm_af_list_rsp; struct_hci_fm_data_rd_rsp; struct_hci_fm_feature_list_rsp;
   struct_hci_fm_dbg_param_rsp; struct_hci_cc_do_calibration_rsp].

Definition all_packets : list ctype :=
  [struct_radio_hci_command_hdr; struct_radio_hci_event_hdr; struct_hci_fm_riva_poke; struct_rds_blk_data;
   struct_rds_grp_data; struct_hci_ev_rel_freq; struct_hci_fm_spur_data]
  ++ command_params ++ event_params ++ responses.

Lemma packets_pointer_free t : t ∈ all_packets -> pointer_free t = true.
Proof.
  intros Ht. assert (forallb pointer_free all_packets = true) as H by reflexivity.
  rewrite forallb_forall in H. apply H. by apply list_elem_of_In.
Qed.

(** Every command, event and response fits a packet whose length is one
    byte, under every ABI. The one structure that does not is the poke
    request with its data area full: 257 bytes. With at most the longest access the
    ranges admit (249 bytes) it takes exactly 255. An event holds at most 21 raw
    RDS groups, the number the header gives. *)
Theorem packets_fit (a : abi) :
  i64_align a = 8 ->
  Forall (fun t => layout a t = layout LP64 t) all_packets
  /\ Forall (fun t => sizeof a t <= 255) (command_params ++ event_params)
  /\ Forall (fun t => sizeof a struct_hci_ev_cmd_complete + sizeof a t <= 255) responses
  /\ sizeof a struct_hci_fm_riva_poke = 257
  /\ sizeof a struct_hci_fm_riva_data + MAX C_PEEK_ACCESS_LEN = 255
  /\ sizeof a struct_hci_ev_rds_rx_data = 1 + MAX_RAW_RDS_GRPS * sizeof a struct_rds_grp_data
  /\ 255 < 1 + (MAX_RAW_RDS_GRPS + 1) * sizeof a struct_rds_grp_data
  /\ sizeof a struct_rds_grp_data = RDS_BLOCKS_NUM * BYTES_PER_BLOCK.
Proof.
  intros Hi. destruct a as [p i]. cbn [i64_align] in Hi. subst i. split_and!; try reflexivity.
  - apply Forall_forall. intros t Ht. by apply layout_pointer_free, packets_pointer_free.
  - repeat (constructor; [vm_compute; discriminate|]). constructor.
  - repeat (constructor; [vm_compute; discriminate|]). constructor.
Qed.

Lemma packets_fit_witness : sizeof ILP32 struct_hci_fm_riva_poke = 257.
Proof. exact (proj1 (proj2 (proj2 (proj2 (packets_fit ILP32 eq_refl))))). Defined.

(** Constants that name a place in a packet, with the member they stand for. *)
Definition buffer_offsets : list (Z * ctype * string) :=
  [(DEFAULT_DATA_OFFSET, struct_hci_fm_data_rd_rsp, "data");
   (DEFAULT_DATA_OFFSET, struct_hci_fm_def_data_wr_req, "data");
   (RDSGRP_DATA_OFFSET, struct_hci_ev_rds_rx_data, "rds_grp_data");
   (SPUR_DATA_INDEX, struct_hci_fm_set_spur_table_req, "spur_data");
   (RDS_PTYPE, struct_hci_ev_prg_service, "pty_prg_type");
   (RDS_PTYPE, struct_hci_ev_radio_text, "pty_prg_type");
   (RDS_PS_LENGTH_OFFSET, struct_hci_ev_prg_service, "ps_num");
   (RDS_PS_DATA_OFFSET, struct_hci_ev_prg_service, "prg_service_name");
   (RT_A_B_FLAG_OFFSET, struct_hci_ev_radio_text, "txt_ab_flag");
   (RDS_OFFSET, struct_hci_ev_radio_text, "radio_txt");
   (PI_CODE_OFFSET, struct_hci_ev_af_list, "pi_code");
   (AF_SIZE_OFFSET, struct_hci_ev_af_list, "af_size");
   (AF_LIST_OFFSET, struct_hci_ev_af_list, "af_list");
   (CALIB_MODE_OFSET, struct_hci_cc_do_calibration_rsp, "mode");
   (CALIB_DATA_OFSET, struct_hci_cc_do_calibration_rsp, "data");
   (RIVA_PEEK_PARAM, struct_hci_fm_riva_poke, "data")].

(** The offset and size constants the driver indexes raw packets with are
    the places of the corresponding members of the packet structures, under
    every ABI; the calibration response has room for the three calibrations
    and a spur command for fifteen entries of sixteen bytes. *)
Theorem offsets_match_packets (a : abi) :
  i64_align a = 8 ->
  Forall (fun '(o, t, name) => offsetof a t name = Some o) buffer_offsets
  /\ MAX_CALIB_SIZE = PROCS_CALIB_SIZE + DC_CALIB_SIZE + RSB_CALIB_SIZE
  /\ FM_SPUR_TBL_SIZE = ENTRIES_EACH_CMD * SPUR_DATA_LEN
  /\ AF_LIST_MAX * sizeof a c_int = FM_AF_LIST_MAX_SIZE
  /\ FM_TX_PWR_LVL_MAX * FM_TX_PWR_LVL_STEP_SIZE <= 255 < (FM_TX_PWR_LVL_MAX + 1) * FM_TX_PWR_LVL_STEP_SIZE
  /\ TX_PS_DATA_LENGTH = MAX_PS_LENGTH /\ TX_RT_DATA_LENGTH = MAX_RT_LENGTH.
Proof.
  intros Hi. destruct a as [p i]. cbn [i64_align] in Hi. subst i. split.
  - repeat (constructor; [reflexivity|]). constructor.
  - split_and!; vm_compute; congruence.
Qed.

Lemma offsets_match_packets_witness : offsetof LP64 struct_hci_ev_af_list "af_list" = Some AF_LIST_OFFSET.
Proof.
  pose proof (proj1 (offsets_match_packets LP64 eq_refl)) as H.
  exact (Forall_lookup_1 _ _ 12%nat (AF_LIST_OFFSET, struct_hci_ev_af_list, "af_list") H eq_refl).
Defined.

(** ** Frequencies, spurs and RDS words *)

(** The bands a region may be tuned to. *)
Definition in_some_band (f : Z) : Prop :=
  REGION_US_EU_BAND_LOW <= f <= REGION_US_EU_BAND_HIGH
  \/ REGION_JAPAN_STANDARD_BAND_LOW <= f <= REGION_JAPAN_STANDARD_BAND_HIGH
  \/ REGION_JAPAN_WIDE_BAND_LOW <= f <= REGION_JAPAN_WIDE_BAND_HIGH.

Lemma GET_LSB_mod x : 0 <= x < 2 ^ 31 -> GET_LSB x = x mod 256.
Proof.
  intros. unfold GET_LSB, c_and. change 0xFF with (Z.ones 8). rewrite Z.land_ones by lia.
  pose proof (Z.mod_pos_bound x (2 ^ 8)). norm_pow. by rewrite cast_S32_id by lia.
Qed.

Lemma GET_MSB_div x : 0 <= x < 2 ^ 31 -> GET_MSB x = x / 256 mod 256.
Proof.
  intros. unfold GET_MSB. rewrite (c_shr_id S32) by (try done; unfold_range; lia).
  change (2 ^ 8) with 256. apply GET_LSB_mod. norm_pow. zlia.
Qed.

(** C36: In every regional band a frequency on the 50 kHz grid is recovered
    from its spur code, any other one up to less than 50 kHz, and the code
    is recovered from the two bytes [GET_FREQ] splits it into; every spur
    entry belongs to one of the six clock spur ids, five entries to each. *)
Theorem spur_code_roundtrip (f i : Z) :
  in_some_band f -> 0 <= i < MAX_SPUR_FREQ_LIMIT ->
  let v := COMPUTE_SPUR U32 f in
  v * 50 + 76000 <= f < v * 50 + 76000 + 50
  /\ (f mod 50 = 0 -> v * 50 + 76000 = f)
  /\ GET_FREQ U32 v 1 * 256 + GET_FREQ U32 v 0 = v /\ 0 <= GET_FREQ U32 v 1 < 256
  /\ exists k, nth_error [CLKSPURID_INDEX0; CLKSPURID_INDEX1; CLKSPURID_INDEX2; CLKSPURID_INDEX3;
                          CLKSPURID_INDEX4; CLKSPURID_INDEX5] (Z.to_nat (GET_SPUR_ENTRY_LEVEL i)) = Some k
               /\ k <= i < k + SPUR_ENTRIES_PER_ID.
Proof.
  intros Hf Hi v. unfold in_some_band, REGION_US_EU_BAND_LOW, REGION_US_EU_BAND_HIGH,
    REGION_JAPAN_STANDARD_BAND_LOW, REGION_JAPAN_STANDARD_BAND_HIGH, REGION_JAPAN_WIDE_BAND_LOW,
    REGION_JAPAN_WIDE_BAND_HIGH in Hf.
  assert (v = (f - 76000) / 50) as Hv.
  { subst v. unfold COMPUTE_SPUR, c_sub. rewrite cast_U32_id by lia.
    apply (c_div_id U32); try done; unfold_range; lia. }
  assert (0 <= v <= 640) by zlia.
  assert (GET_FREQ U32 v 1 = v / 256) as E1
    by (change (GET_FREQ U32 v 1) with (v >>[U32] 8); apply (c_shr_id U32); try done; unfold_range; lia).
  assert (GET_FREQ U32 v 0 = v mod 256) as E0.
  { change (GET_FREQ U32 v 0) with (v &[U32] 0xFF). unfold c_and. change 0xFF with (Z.ones 8).
    rewrite Z.land_ones by lia. norm_pow. apply cast_U32_id. zlia. }
  rewrite E1, E0. split_and!; try zlia.
  change MAX_SPUR_FREQ_LIMIT with 30 in Hi.
  assert (GET_SPUR_ENTRY_LEVEL i = i / 5) as -> by (apply (c_div_id S32); try done; unfold_range; lia).
  exists (5 * (i / 5)). unfold SPUR_ENTRIES_PER_ID. split; [|zlia].
  assert (i / 5 = 0 \/ i / 5 = 1 \/ i / 5 = 2 \/ i / 5 = 3 \/ i / 5 = 4 \/ i / 5 = 5) as Hk by zlia.
  by destruct Hk as [-> | [-> | [-> | [-> | [-> | ->]]]]].
Qed.

Lemma spur_code_roundtrip_witness : COMPUTE_SPUR U32 87500 * 50 + 76000 = 87500.
Proof.
  exact (proj1 (proj2 (spur_code_roundtrip 87500 0 ltac:(left; vm_compute; split; discriminate)
    ltac:(vm_compute; split; [discriminate|reflexivity]))) eq_refl).
Defined.

(** The application id is put together from the bytes it is split into;
    the group type of an RDS block is its top five bits, so that a 3A group is
    recognised whatever the rest of the byte; and [EXTRACT_BIT] reads single bits
    of a non-negative [int], for every position below the sign bit. *)
Theorem rds_words (x b bit : Z) :
  0 <= x < 2 ^ 16 -> 0 <= b < 2 ^ 8 -> 0 <= bit < 31 ->
  AID (GET_LSB x) (GET_MSB x) = x
  /\ GTC b = b / 8 /\ AGT b = b mod 32 /\ (GTC b = GRP_3A <-> 48 <= b < 56)
  /\ EXTRACT_BIT x bit = Z.b2z (Z.testbit x bit)
  /\ RT_PLUS_AID <> ERT_AID.
Proof.
  intros Hx Hb Hbit.
  assert (GTC b = b / 8) as Hg by (apply (c_shr_id S32); try done; unfold_range; lia).
  split_and!; [|done| | | |done].
  - rewrite GET_LSB_mod, GET_MSB_div by lia. unfold AID, c_or, c_shl.
    rewrite (cast_S32_id (Z.shiftl _ _)) by (rewrite Z.shiftl_mul_pow2 by lia; norm_pow; zlia).
    rewrite lor_shiftl_add by (norm_pow; zlia). norm_pow. rewrite cast_S32_id; zlia.
  - unfold AGT, c_and. change AGT_MASK with (Z.ones 5). rewrite Z.land_ones by lia. norm_pow.
    apply cast_S32_id. zlia.
  - rewrite Hg. unfold GRP_3A. zlia.
  - unfold EXTRACT_BIT, c_and, c_shl, c_shr.
    assert (0 < 2 ^ bit <= 2 ^ 30) by (split; [lia|apply Z.pow_le_mono_r; lia]).
    rewrite (cast_S32_id (Z.shiftl 1 bit)) by (rewrite Z.shiftl_1_l; norm_pow; lia).
    assert (Z.land x (Z.shiftl 1 bit) = Z.b2z (Z.testbit x bit) * 2 ^ bit) as ->.
    { rewrite <- Z.shiftl_mul_pow2 by lia. apply Z.bits_inj'. intros j Hj.
      rewrite Z.land_spec, !shiftl_testbit. destruct (Z.eqb_spec j bit) as [->|].
      - rewrite Z.sub_diag, Z.b2z_bit0, Z.bit0_odd. cbn. btauto.
      - assert (Z.testbit 1 (j - bit) = false) as ->.
        { destruct (Z.ltb_spec j bit); [by apply Z.testbit_neg_r; lia|].
          apply Z.bits_above_log2; [lia|]. cbn. lia. }
        assert (Z.testbit (Z.b2z (Z.testbit x bit)) (j - bit) = false) as ->; [|btauto].
        destruct (Z.ltb_spec j bit); [by apply Z.testbit_neg_r; lia|].
        destruct (Z.testbit x bit); [|apply Z.bits_0].
        apply Z.bits_above_log2; [cbn; lia|]. cbn. lia. }
    assert (0 <= Z.b2z (Z.testbit x bit) <= 1) by (destruct (Z.testbit x bit); cbn; lia).
    rewrite (cast_S32_id (_ * _)) by (norm_pow; nia).
    rewrite Z.shiftr_div_pow2, Z.div_mul by lia. apply cast_S32_id. lia.
Qed.

Lemma rds_words_witness : AID (GET_LSB RT_PLUS_AID) (GET_MSB RT_PLUS_AID) = RT_PLUS_AID.
Proof.
  exact (proj1 (rds_words RT_PLUS_AID 0 0 ltac:(vm_compute; split; [discriminate|reflexivity])
    ltac:(lia) ltac:(lia))).
Defined.
