(* ===== verification/Sensors.v ===== *)
(** * Sensors: the sensor notifier service of [sensors/]

    [SensorNotifier] owns a sensor event queue and a thread; [NonUiNotifier] runs
    on that thread, watches three touchscreen files and switches the "non-UI"
    sensor on and off.  The client (the main thread, which calls [activate],
    [deactivate] and the destructor) and the notifier thread interleave: the
    system is a step relation on the object's state.  Its steps are taken one after the
    other, so that [mActive], a plain [bool], is read with the value last written: what
    that leaves out, the data race on it, is in SensorsRace.  The Android sensor service
    is a parameter ([SensorService]). *)

From Stdlib Require Import Ascii.
From S2P Require Import Prelude Align.

#[local] Open Scope string_scope.
#[local] Open Scope list_scope.
#[local] Open Scope Z_scope.

(** ** The sensor service *)

(** What the code uses of a [SensorInfo]. *)
Record SensorInfo : Type := { typeAsString : string; flags : Z; sensorHandle : Z }.

(** The result codes and the wake-up flag of the sensor service. *)
Class SensorService := {
  Result : Type;
  #[global] Result_eq_dec :: EqDecision Result;
  OK : Result;
  NOT_EXIST : Result;
  WAKE_UP : Z;
}.

(** Documented: [NOT_EXIST] is an error, and [WAKE_UP] is the first flag bit. *)
Class SensorServiceLaws `{SensorService} : Prop := {
  OK_NOT_EXIST : OK <> NOT_EXIST;
  WAKE_UP_first : WAKE_UP = 1;
}.

(** A call whose results come through a callback: the callback was run with them, the call
    returned without running it, or the transport failed. *)
Inductive reply (A : Type) : Type :=
  | Ran (x : A)
  | Not_run
  | Failed.
#[global] Arguments Ran {A} x.
#[global] Arguments Not_run {A}.
#[global] Arguments Failed {A}.

(** [getSensorList] and [createEventQueue].  Queues are known by a number. *)
Record ISensorManager `{SensorService} : Type := {
  getSensorList : reply (list SensorInfo * Result);
  createEventQueue : reply (option Z * Result);
}.

(** ** The notifier object *)

(** The calls the notifier makes on its queue. *)
Inductive sensor_call : Type :=
  | enableSensor (handle period latency : Z)
  | disableSensor (handle : Z).

(** Where the notifier thread is in [NonUiNotifier::notify]. *)
Inductive notify_pc : Type :=
  | T_open (fds : list Z)          (* opening the next path *)
  | T_while                        (* testing [mActive] *)
  | T_poll                         (* blocked in [poll] *)
  | T_read                         (* reading the paths *)
  | T_switch (enabled : bool)      (* calling the queue *)
  | T_return.                      (* returned *)

(** Where the client is: between operations, or joining in [deactivate], which
    the destructor also calls before it destroys the members. *)
Inductive client_pc : Type := C_idle | C_joining (destroying : bool) | C_destroyed.

Record notifier : Type := Notifier {
  mQueue : option Z;
  mSensorHandle : Z;
  mActive : bool;
  mThread : option notify_pc;      (* [None]: not joinable *)
  client : client_pc;
  opened : list Z;                 (* descriptors opened and never closed *)
  calls : list sensor_call;        (* calls on the queue, newest first *)
}.

Definition with_active (b : bool) (s : notifier) : notifier :=
  Notifier (mQueue s) (mSensorHandle s) b (mThread s) (client s) (opened s) (calls s).
Definition with_thread (t : option notify_pc) (s : notifier) : notifier :=
  Notifier (mQueue s) (mSensorHandle s) (mActive s) t (client s) (opened s) (calls s).
Definition with_client (c : client_pc) (s : notifier) : notifier :=
  Notifier (mQueue s) (mSensorHandle s) (mActive s) (mThread s) c (opened s) (calls s).
Definition with_queue (q : option Z) (s : notifier) : notifier :=
  Notifier q (mSensorHandle s) (mActive s) (mThread s) (client s) (opened s) (calls s).
Definition with_handle (h : Z) (s : notifier) : notifier :=
  Notifier (mQueue s) h (mActive s) (mThread s) (client s) (opened s) (calls s).
Definition with_opened (fd : Z) (s : notifier) : notifier :=
  Notifier (mQueue s) (mSensorHandle s) (mActive s) (mThread s) (client s) (fd :: opened s) (calls s).
Definition with_call (c : sensor_call) (s : notifier) : notifier :=
  Notifier (mQueue s) (mSensorHandle s) (mActive s) (mThread s) (client s) (opened s) (c :: calls s).

(** [SensorNotifier::SensorNotifier]: the members' initial values. *)
Definition SensorNotifier_new : notifier := Notifier None (-1) false None C_idle [] [].

(** The state after a step, or the death of the process: [std::terminate] by a
    joinable [std::thread] assigned to or destroyed; a null [mQueue] used; or a call
    over HIDL whose transport failed.  The source looks at none of the [Return]s of its calls,
    and HIDL documents that a failed [Return] that is dropped without a check, or
    converted to its value, aborts the process. *)
Inductive outcome : Type :=
  | Run (s : notifier)
  | Terminate
  | NullQueue
  | Aborted.

(** ** [initializeSensorQueue] *)

Section Initialize.
Context `{SensorService}.

(** A result; the use of the uninitialised [res]; or the abort of a failed call. *)
Inductive init_outcome : Type :=
  | Returned (r : Result) (s : notifier)
  | Uninitialised
  | Init_aborted.

Definition sensor_matches (type : string) (wakeup : bool) (sensor : SensorInfo) : bool :=
  bool_decide (typeAsString sensor = type) && ((flags sensor &[U32] WAKE_UP) =? c_bool wakeup).

Definition initializeSensorQueue (m : ISensorManager) (type : string) (wakeup : bool)
    (s : notifier) : init_outcome :=
  match getSensorList m with
  | Failed => Init_aborted
  | Not_run => Uninitialised
  | Ran (sensorList, res) =>
      if bool_decide (res <> OK) then Returned res s
      else
        match List.find (sensor_matches type wakeup) sensorList with
        | None => Returned NOT_EXIST s
        | Some it =>
            let s := with_handle (sensorHandle it) s in
            match createEventQueue m with
            | Failed => Init_aborted
            | Not_run => if bool_decide (res <> OK) then Returned res s else Returned OK s
            | Ran (q, res) =>
                let s := with_queue q s in
                if bool_decide (res <> OK) then Returned res s else Returned OK s
            end
        end
  end.

(** [NonUiNotifier::NonUiNotifier] drops the result of the initialisation; [None]: it was not
    defined. *)
Definition NonUiNotifier_new (m : ISensorManager) : option outcome :=
  match initializeSensorQueue m "xiaomi.sensor.nonui" true SensorNotifier_new with
  | Returned _ s => Some (Run s)
  | Uninitialised => None
  | Init_aborted => Some Aborted
  end.
End Initialize.

(** ** Reading the touchscreen files *)

Definition paths : list string :=
  ["/sys/class/touch/touch_dev/fod_longpress_gesture_enabled";
   "/sys/class/touch/touch_dev/gesture_single_tap_enabled";
   "/sys/class/touch/touch_dev/gesture_double_tap_enabled"].

(** What [lseek] and [read] return for a descriptor, and the byte read. *)
Record file_answer : Type := { a_lseek : Z; a_read : Z; a_char : ascii }.

Definition readBool (a : file_answer) : bool :=
  if negb (a_lseek a =? 0) then false
  else if negb (a_read a =? 1) then false
  else negb (Ascii.eqb (a_char a) "0"%char).

(** The loop over the descriptors.  The C++ [||] does not call [readBool] once
    [enabled] is true; the number of files read is returned too. *)
Fixpoint read_loop (enabled : bool) (answers : list file_answer) : bool * nat :=
  match answers with
  | [] => (enabled, 0%nat)
  | a :: answers =>
      if enabled then read_loop true answers
      else let '(e, n) := read_loop (readBool a) answers in (e, S n)
  end.

(** ** The threads *)

(** What the system answers to the notifier thread.  A call on the queue that got through is
    [A_none] whatever its [Result], which is only logged. *)
Inductive answer : Type :=
  | A_none
  | A_open (fd : Z)
  | A_poll (rc : Z)
  | A_files (answers : list file_answer)
  | A_transport_error.

(** One step of [NonUiNotifier::notify]; [None] when the answer is not one to
    what the thread asked. *)
Definition notify_step (a : answer) (s : notifier) : option outcome :=
  match mThread s, a with
  | Some (T_open fds), A_open fd =>
      if fd <? 0 then Some (Run (with_thread (Some T_return) (with_active false s)))
      else
        let fds := fds ++ [fd] in
        let s := with_opened fd s in
        Some (Run (with_thread (Some (if decide (length fds < length paths)%nat then T_open fds else T_while)) s))
  | Some T_while, A_none =>
      Some (Run (with_thread (Some (if mActive s then T_poll else T_return)) s))
  | Some T_poll, A_poll rc =>
      Some (Run (with_thread (Some (if rc <? 0 then T_while else T_read)) s))
  | Some T_read, A_files answers =>
      if decide (length answers = length paths)
      then Some (Run (with_thread (Some (T_switch (read_loop false answers).1)) s))
      else None
  | Some (T_switch enabled), A_none =>
      match mQueue s with
      | None => Some NullQueue
      | Some _ =>
          let call := if enabled then enableSensor (mSensorHandle s) 20000 0
                      else disableSensor (mSensorHandle s) in
          Some (Run (with_thread (Some T_while) (with_call call s)))
      end
  | Some (T_switch _), A_transport_error =>
      match mQueue s with
      | None => None
      | Some _ => Some Aborted
      end
  | _, _ => None
  end.

Definition activate (s : notifier) : outcome :=
  if mActive s then Run s
  else
    let s := with_active true s in
    match mThread s with
    | Some _ => Terminate
    | None => Run (with_thread (Some (T_open [])) s)
    end.

(** The end of [deactivate], when its call gets through. *)
Definition deactivate_tail (s : notifier) : notifier :=
  match mQueue s with
  | None => s
  | Some _ => with_call (disableSensor (mSensorHandle s)) s
  end.

(** The destructors' work after [deactivate]: the queue is dropped, then the
    members are destroyed, [mThread] among them. *)
Definition destroy_members (s : notifier) : outcome :=
  match mThread s with
  | Some _ => Terminate
  | None => Run (with_client C_destroyed (with_queue None s))
  end.

Definition finish (destroying : bool) (s : notifier) : outcome :=
  if destroying then destroy_members s else Run (with_client C_idle s).

(** [deactivate] up to the join; [destroying] when the destructor calls it. *)
Definition deactivate (destroying : bool) (s : notifier) : outcome :=
  if negb (mActive s) then finish destroying s
  else
    let s := with_active false s in
    match mThread s with
    | Some _ => Run (with_client (C_joining destroying) s)
    | None => finish destroying (deactivate_tail s)
    end.

(** [mThread.join()] returns when the thread has. *)
Definition join (s : notifier) : option outcome :=
  match client s, mThread s with
  | C_joining destroying, Some T_return =>
      Some (finish destroying (deactivate_tail (with_thread None s)))
  | _, _ => None
  end.

(** The call at the end of [deactivate] fails. *)
Definition tail_fails (s : notifier) : option outcome :=
  match mQueue s, client s, mThread s with
  | Some _, C_joining _, Some T_return => Some Aborted
  | Some _, C_idle, None => if mActive s then Some Aborted else None
  | _, _, _ => None
  end.

Inductive event : Type :=
  | E_activate
  | E_deactivate
  | E_destroy
  | E_join
  | E_notify (a : answer)
  | E_transport_error.

(** One step of the whole system.  The client runs one operation at a time. *)
Definition step (e : event) (s : notifier) : option outcome :=
  match e, client s with
  | E_activate, C_idle => Some (activate s)
  | E_deactivate, C_idle => Some (deactivate false s)
  | E_destroy, C_idle => Some (deactivate true s)
  | E_join, _ => join s
  | E_notify a, _ => notify_step a s
  | E_transport_error, _ => tail_fails s
  | _, _ => None
  end.

(** A run of the system from [s]. *)
Inductive runs (s : notifier) : list event -> outcome -> Prop :=
  | runs_nil : runs s [] (Run s)
  | runs_step es s' e o : runs s es (Run s') -> step e s' = Some o -> runs s (es ++ [e]) o.

(** [main]: the notifier of the service's manager is activated at once, and the
    main thread never does anything else with it. *)
Definition main_start `{SensorService} (manager : option ISensorManager) : option outcome :=
  match manager with
  | None => None
  | Some m =>
      match NonUiNotifier_new m with
      | Some (Run s) => Some (activate s)
      | o => o
      end
  end.

(** ** Events of the sensor

    [NonUiSensorCallback] of [NonUiNotifier.cpp] passes the value of an event to the
    touchscreen driver. *)

Definition kTouchDevice : string := "/dev/xiaomi-touch".
Definition TOUCH_MODE_NONUI_MODE : Z := 20.
Definition TOUCH_IOC_SET_CUR_VALUE : Z := 0.

Record touch_mode_request : Type := { mode : Z; value : Z }.

(** A finite [float], [m * 2 ^ e], or an infinity or no number. *)
Inductive c_float : Type := Finite (m e : Z) | Not_finite.

(** C++'s conversion to [int] drops the fraction; it is undefined when the result is no [int]. *)
Definition float_to_int (x : c_float) : option Z :=
  match x with
  | Finite m e =>
      let z := if 0 <=? e then m * 2 ^ e else Z.quot m (2 ^ (- e)) in
      if bool_decide (in_range S32 z) then Some z else None
  | Not_finite => None
  end.

(** The constructor's [touch_fd_] is the descriptor of [kTouchDevice], -1 when it does not open. *)
Definition NonUiSensorCallback_new (opened : option Z) : Z := default (-1) opened.

(** [onEvent]: the descriptor, request and parameter of the [ioctl] it makes; its result is
    not looked at. *)
Definition onEvent (touch_fd : Z) (scalar : c_float) : option (Z * Z * touch_mode_request) :=
  v ← float_to_int scalar;
  Some (touch_fd, TOUCH_IOC_SET_CUR_VALUE, {| mode := TOUCH_MODE_NONUI_MODE; value := v |}).
