(* ===== verification/SensorsProps.v ===== *)
(** * SensorsProps: what the sensor notifier guarantees, and where it fails

    Initialisation on every answer of the sensor service; the invariant of the
    object under interleaving; one round of the loop; termination of a stopped
    thread; and the runs that end the process. *)

From Stdlib Require Import Ascii.
From S2P Require Import Prelude Align Sensors.

#[local] Open Scope string_scope.
#[local] Open Scope list_scope.
#[local] Open Scope Z_scope.

(** ** Initialisation *)

Lemma find_first {A} (f : A -> bool) (l : list A) (a : A) :
  List.find f l = Some a <->
  exists l1 l2, l = l1 ++ a :: l2 /\ f a = true /\ Forall (fun b => f b = false) l1.
Proof.
  split.
  - induction l as [|b l IH]; [done|]. cbn [List.find]. destruct (f b) eqn:Hb.
    + intros E. simplify_eq. exists [], l. by split_and!.
    + intros (l1 & l2 & -> & Ha & Hl)%IH. exists (b :: l1), l2. split_and!; [done|done|by constructor].
  - intros (l1 & l2 & -> & Ha & Hl). induction Hl as [|b l1 Hb _ IH]; cbn [List.find app].
    + by rewrite Ha.
    + by rewrite Hb.
Qed.

Ltac in_list := rewrite ?elem_of_app, ?elem_of_cons; tauto.

Lemma land_1_bool n b : 0 <= n < 2 ^ 32 -> (n &[U32] 1) = c_bool b <-> Z.odd n = b.
Proof.
  intros Hn. unfold c_and. change 1 with (Z.ones 1). rewrite Z.land_ones by lia.
  change (2 ^ 1) with 2. rewrite Zmod_odd. rewrite cast_U32_id by (destruct (Z.odd n); lia).
  by destruct (Z.odd n), b.
Qed.

(** C23: The sensor a notifier attaches to is the first one in the service's list
    with the requested type and whose wake-up bit is as requested.
    [initializeSensorQueue] succeeds exactly when the list is obtained, there is
    such a sensor, and creating the queue reports no error. When the call that creates the
    queue returns without running its callback the result is also [OK], although there is no
    queue. *)
Theorem initializeSensorQueue_OK `{SensorServiceLaws} (m : ISensorManager) (type : string)
    (wakeup : bool) (s s' : notifier) :
  (forall l r sensor, getSensorList m = Ran (l, r) -> sensor ∈ l -> 0 <= flags sensor < 2 ^ 32) ->
  initializeSensorQueue m type wakeup s = Returned OK s' <->
  exists l1 it l2,
    getSensorList m = Ran (l1 ++ it :: l2, OK)
    /\ typeAsString it = type /\ Z.odd (flags it) = wakeup
    /\ Forall (fun b => ~ (typeAsString b = type /\ Z.odd (flags b) = wakeup)) l1
    /\ ((exists q, createEventQueue m = Ran (q, OK) /\ s' = with_queue q (with_handle (sensorHandle it) s))
        \/ (createEventQueue m = Not_run /\ s' = with_handle (sensorHandle it) s)).
Proof.
  intros Hflags. unfold initializeSensorQueue.
  destruct (getSensorList m) as [[l r]| |] eqn:Hl; [|split; [done|by intros (?&?&?&?&_)]..].
  assert (forall b, b ∈ l -> sensor_matches type wakeup b = true <->
    typeAsString b = type /\ Z.odd (flags b) = wakeup) as Hm.
  { intros b Hb. unfold sensor_matches. rewrite WAKE_UP_first, andb_true_iff, bool_decide_eq_true, Z.eqb_eq.
    by rewrite land_1_bool by (by eapply Hflags). }
  destruct (decide (r = OK)) as [->|Hr].
  - rewrite bool_decide_false by tauto. split.
    + destruct (List.find _ l) as [it|] eqn:Hf; [|intros E; simplify_eq; by destruct OK_NOT_EXIST].
      intros E. apply find_first in Hf as (l1 & l2 & -> & Hit & Hl1). exists l1, it, l2.
      apply Hm in Hit as [Ht Hw]; [|in_list]. split_and!; try done.
      * rewrite Forall_forall in Hl1 |- *. intros b Hb [??]. specialize (Hl1 b Hb). cbn in Hl1.
        rewrite (proj2 (Hm b ltac:(in_list))) in Hl1; done.
      * destruct (createEventQueue m) as [[q r]| |]; [|right; by simplify_eq|done].
        left. exists q. destruct (decide (r = OK)) as [->|Hr].
        { rewrite bool_decide_false in E by tauto. by simplify_eq. }
        rewrite bool_decide_true in E by done. by simplify_eq.
    + intros (l1 & it & l2 & E & Ht & Hw & Hl1 & Hq). simplify_eq E. intros ->.
      assert (List.find (sensor_matches type wakeup) (l1 ++ it :: l2) = Some it) as ->.
      { apply find_first. exists l1, l2. split_and!; [done|by apply Hm; [in_list|]|].
        rewrite Forall_forall in Hl1 |- *. intros b Hb. apply not_true_is_false.
        rewrite Hm by in_list. by apply Hl1. }
      destruct Hq as [(q & -> & ->)|[-> ->]]; [by rewrite bool_decide_false by tauto|done].
  - rewrite bool_decide_true by done. split; [|intros (?&?&?&E&_); by simplify_eq E].
    intros E. by simplify_eq.
Qed.

(** A sensor service in which results are numbers, for the examples. *)
Definition numbered_service : SensorService := {| Result := Z; OK := 0; NOT_EXIST := 1; WAKE_UP := 1 |}.

Lemma numbered_laws : @SensorServiceLaws numbered_service.
Proof. by constructor. Qed.

Definition nonui_sensor : SensorInfo := Build_SensorInfo "xiaomi.sensor.nonui" 1 42.

Definition nonui_manager : @ISensorManager numbered_service :=
  @Build_ISensorManager numbered_service (Ran ([nonui_sensor], 0)) (Ran (Some 7, 0)).

Lemma initializeSensorQueue_OK_witness :
  @initializeSensorQueue numbered_service nonui_manager "xiaomi.sensor.nonui" true SensorNotifier_new
  = @Returned numbered_service 0 (with_queue (Some 7) (with_handle 42 SensorNotifier_new)).
Proof.
  refine (proj2 (initializeSensorQueue_OK (H := numbered_service) (H0 := numbered_laws) nonui_manager
    "xiaomi.sensor.nonui" true SensorNotifier_new
    (with_queue (Some 7) (with_handle 42 SensorNotifier_new)) _) _).
  - intros l r sensor E Hin. cbn in E. injection E as <- _.
    apply list_elem_of_singleton in Hin as ->. cbn. lia.
  - exists [], nonui_sensor, []. split_and!; try done. left. by exists (Some 7).
Defined.

(** ** The decision *)

(** C24: One round of the notifier's loop, from the return of [poll] on, enables the
    sensor (with a 20 ms period and no latency) exactly when some watched file
    reads as true, and disables it otherwise; a file reads as true exactly when it
    could be rewound and read and its first byte is not '0'. Of the files, those up
    to the first that reads as true are read, and the later ones are not. *)
Theorem notify_round (s : notifier) (rc q : Z) (answers : list file_answer) :
  mThread s = Some T_poll -> mQueue s = Some q -> 0 <= rc -> length answers = length paths ->
  let call := if existsb readBool answers then enableSensor (mSensorHandle s) 20000 0
              else disableSensor (mSensorHandle s) in
  (exists s1 s2, notify_step (A_poll rc) s = Some (Run s1)
    /\ notify_step (A_files answers) s1 = Some (Run s2)
    /\ notify_step A_none s2 = Some (Run (with_thread (Some T_while) (with_call call s))))
  /\ (forall a, readBool a = true <-> a_lseek a = 0 /\ a_read a = 1 /\ a_char a <> "0"%char)
  /\ (read_loop false answers).2
     = match List.find (fun p => readBool p.2) (imap pair answers) with
       | Some (i, _) => S i
       | None => length answers
       end.
Proof.
  intros Ht Hq Hrc Hlen call.
  assert (forall l, read_loop true l = (true, 0%nat)) as Htrue by (intros l; by induction l).
  assert ((read_loop false answers).1 = existsb readBool answers) as Hany.
  { clear - Htrue. induction answers as [|a l IH]; [done|]. cbn [read_loop existsb].
    destruct (readBool a); [by rewrite Htrue|]. destruct (read_loop false l). exact IH. }
  split_and!.
  - exists (with_thread (Some T_read) s), (with_thread (Some (T_switch (existsb readBool answers))) s).
    split_and!.
    + unfold notify_step. rewrite Ht. by destruct (Z.ltb_spec rc 0); [lia|].
    + cbn. rewrite decide_True by done. by rewrite Hany.
    + cbn. rewrite Hq. reflexivity.
  - intros a. unfold readBool. destruct (Z.eqb_spec (a_lseek a) 0), (Z.eqb_spec (a_read a) 1); cbn;
      try (split; [done|tauto]).
    destruct (Ascii.eqb_spec (a_char a) "0"%char); cbn; split; try done; tauto.
  - assert (forall l k, (read_loop false l).2
      = match List.find (fun p => readBool p.2) (imap (fun i a => ((k + i)%nat, a)) l) with
        | Some (i, _) => S i - k
        | None => length l end)%nat as Hcount; [|by rewrite (Hcount answers 0%nat); destruct (List.find _ _) as [[]|]; cbn; rewrite ?Nat.sub_0_r].
    clear - Htrue. induction l as [|a l IH]; intros k; [done|].
    rewrite imap_cons. cbn [read_loop List.find snd].
    destruct (readBool a); [rewrite Htrue; cbn; lia|].
    specialize (IH (S k)). destruct (read_loop false l) as [e n]. cbn [snd] in *.
    assert (imap ((fun i a => ((k + i)%nat, a)) ∘ S) l = imap (fun i a => ((S k + i)%nat, a)) l) as ->
      by (apply imap_ext; intros; cbn; f_equal; lia).
    destruct (List.find _ _) as [[i b]|] eqn:Hf; [|cbn; lia].
    assert (S k <= i)%nat.
    { apply List.find_some in Hf as [Hin _]. apply list_elem_of_In, elem_of_lookup_imap in Hin as (j & x & E & _).
      injection E as -> _. lia. }
    lia.
Qed.

Lemma notify_round_witness :
  let off := Build_file_answer 0 1 "0"%char in let on := Build_file_answer 0 1 "1"%char in
  (read_loop false [off; on; off]).2 = 2%nat.
Proof.
  exact (proj2 (proj2 (notify_round (with_thread (Some T_poll) (with_queue (Some 7) SensorNotifier_new)) 1 7
    [Build_file_answer 0 1 "0"%char; Build_file_answer 0 1 "1"%char; Build_file_answer 0 1 "0"%char]
    eq_refl eq_refl ltac:(lia) eq_refl))).
Defined.

(** ** The two threads *)

(** A descriptor was obtained, if one was asked for, and the transport of a call on the queue
    did not fail. *)
Definition opens_succeed (e : event) : Prop :=
  match e with
  | E_notify (A_open fd) => 0 <= fd
  | E_notify A_transport_error | E_transport_error => False
  | _ => True
  end.

(** Nothing was called yet, or the last call disabled the sensor. *)
Definition switched_off (s : notifier) : Prop :=
  calls s = [] \/ exists cs, calls s = disableSensor (mSensorHandle s) :: cs.

(** The protocol's invariant when every path opens: between operations the
    notifier is active exactly when it has a thread, which runs; during a join
    it is inactive and the thread is still there; after the destructor there
    is neither thread nor queue. *)
Definition protocol_ok (h : Z) (s : notifier) : Prop :=
  mSensorHandle s = h /\
  match client s with
  | C_idle =>
      mQueue s <> None /\
      match mThread s with
      | None => mActive s = false /\ switched_off s
      | Some pc => mActive s = true /\ pc <> T_return
      end
  | C_joining _ => mQueue s <> None /\ mActive s = false /\ mThread s <> None
  | C_destroyed => mActive s = false /\ mThread s = None /\ switched_off s
  end.

(** The descriptors of a run of the thread are opened one by one. *)
Lemma notify_step_ok h a s o :
  protocol_ok h s -> opens_succeed (E_notify a) -> notify_step a s = Some o ->
  exists s', o = Run s' /\ protocol_ok h s'.
Proof.
  unfold protocol_ok, notify_step. intros [Hh Hs] Ha.
  destruct (mThread s) as [pc|] eqn:Ht; [|done].
  destruct (client s) eqn:Hc; [destruct Hs as (Hq & Hact & Hpc)|destruct Hs as (Hq & Hact & _)|by destruct Hs as (_&?&_)];
    destruct pc, a; try done; cbn in Ha; try (destruct (Z.ltb_spec fd 0); [lia|]);
    try (case_decide; [|done]); try (destruct (mQueue s) eqn:?; [|done]);
    intros E; apply (inj Some) in E; subst o; eexists; (split; [reflexivity|]);
    cbn; rewrite ?Hc, ?Hact; split_and!; try done;
    repeat case_decide; repeat case_match; try done; try congruence.
Qed.

Lemma join_ok h s o :
  protocol_ok h s -> join s = Some o -> exists s', o = Run s' /\ protocol_ok h s'.
Proof.
  unfold protocol_ok, join. intros [Hh Hs]. destruct (client s) as [|destroying|] eqn:Hc; try done.
  destruct (mThread s) as [[]|] eqn:Ht; try done. intros E. apply (inj Some) in E. subst o.
  destruct Hs as (Hq & Hact & _). unfold deactivate_tail. cbn [mQueue with_thread].
  destruct (mQueue s) as [q|] eqn:Hqs; [|done].
  destruct destroying; eexists; (split; [reflexivity|]); cbn; rewrite ?Hact, ?Hqs;
    split_and!; try done; right; by eexists.
Qed.

Lemma deactivate_ok h d s :
  protocol_ok h s -> client s = C_idle -> exists s', deactivate d s = Run s' /\ protocol_ok h s'.
Proof.
  unfold protocol_ok, deactivate. intros Hs Hc. rewrite Hc in Hs. destruct Hs as (Hh & Hq & Hs).
  destruct (mThread s) as [pc|] eqn:Ht.
  - destruct Hs as [Hact Hpc]. rewrite Hact. cbn [negb mThread with_active]. rewrite Ht.
    eexists. split; [reflexivity|]. cbn. rewrite Ht. by split_and!.
  - destruct Hs as [Hact Hoff]. rewrite Hact. cbn [negb]. unfold finish, destroy_members. rewrite Ht.
    destruct d; eexists; (split; [reflexivity|]); cbn; rewrite ?Ht; by split_and!.
Qed.

Lemma step_ok h e s o :
  protocol_ok h s -> opens_succeed e -> step e s = Some o -> exists s', o = Run s' /\ protocol_ok h s'.
Proof.
  intros Hs He Hstep. destruct e; cbn [step] in Hstep.
  - destruct (client s) eqn:Hc; try done. apply (inj Some) in Hstep. subst o.
    unfold activate. unfold protocol_ok in *. rewrite Hc in Hs. destruct Hs as (Hh & Hq & Hs).
    destruct (mActive s) eqn:Hact.
    + exists s. split; [done|]. rewrite Hc, Hact. by split_and!.
    + destruct (mThread s) eqn:Ht; [by destruct Hs|]. cbn [mThread with_active]. rewrite Ht.
      eexists. split; [reflexivity|]. cbn. rewrite Hc. by split_and!.
  - destruct (client s) eqn:Hc; try done. apply (inj Some) in Hstep. subst o. by apply deactivate_ok.
  - destruct (client s) eqn:Hc; try done. apply (inj Some) in Hstep. subst o. by apply deactivate_ok.
  - by apply (join_ok h s o).
  - apply (notify_step_ok h a s o Hs He). by destruct (client s).
  - by destruct He.
Qed.

(** A notifier whose initialisation succeeded. *)
Definition initialised (h q : Z) : notifier := with_queue (Some q) (with_handle h SensorNotifier_new).

(** C3: As long as the watched paths can be opened and the calls on the queue get through, no interleaving of the
    client's operations with the notifier thread kills the process. Between
    operations the notifier is active exactly when it has a thread, a join only
    waits for a thread that has been told to stop, and whenever there is no
    thread the sensor was never enabled or was disabled by the last call. *)
Theorem protocol_safe (h q : Z) (es : list event) (o : outcome) :
  runs (initialised h q) es o -> Forall opens_succeed es ->
  exists s, o = Run s
    /\ (client s = C_idle -> mActive s = true <-> mThread s <> None)
    /\ (forall d, client s = C_joining d -> mActive s = false /\ mThread s <> None)
    /\ (mThread s = None -> switched_off s)
    /\ mSensorHandle s = h.
Proof.
  intros Hruns Hes.
  assert (exists s, o = Run s /\ protocol_ok h s) as (s & -> & Hh & Hs).
  { induction Hruns as [|es s' e o _ IH Hstep].
    - eexists. split; [done|]. split; [done|]. cbn. split_and!; [done|done|by left].
    - apply Forall_app in Hes as [Hes He]. apply Forall_inv in He.
      destruct (IH Hes) as (s & E & Hs). injection E as ->. by apply (step_ok h e s o). }
  exists s. split; [done|]. split_and!; [| | |done].
  - intros Hc. rewrite Hc in Hs. destruct (mThread s); destruct_and?; split; congruence.
  - intros d Hc. rewrite Hc in Hs. tauto.
  - intros Ht. rewrite Ht in Hs. destruct (client s); tauto.
Qed.

Lemma protocol_safe_witness :
  exists s, runs (initialised 42 7) [E_activate; E_deactivate; E_notify (A_open 3)] (Run s)
            /\ mSensorHandle s = 42.
Proof.
  assert (runs (initialised 42 7) [E_activate; E_deactivate; E_notify (A_open 3)]
    (Run (Notifier (Some 7) 42 false (Some (T_open [3])) (C_joining false) [3] []))) as Hr.
  { apply (runs_step _ [E_activate; E_deactivate] (Notifier (Some 7) 42 false (Some (T_open [])) (C_joining false) [] [])); [|done].
    apply (runs_step _ [E_activate] (Notifier (Some 7) 42 true (Some (T_open [])) C_idle [] [])); [|done].
    by apply (runs_step _ [] (initialised 42 7)); [constructor|]. }
  destruct (protocol_safe 42 7 _ _ Hr ltac:(repeat constructor; cbn; lia)) as (s & E & _ & _ & _ & Hh).
  exists s. rewrite <- E. split; [exact Hr|exact Hh].
Defined.

(** Steps of the thread alone. *)
Fixpoint notify_run (answers : list answer) (s : notifier) : option outcome :=
  match answers with
  | [] => Some (Run s)
  | a :: answers =>
      match notify_step a s with
      | Some (Run s') => notify_run answers s'
      | Some o => match answers with [] => Some o | _ => None end
      | None => None
      end
  end.

(** Steps a thread that has been told to stop still has to make. *)
Definition steps_left (pc : notify_pc) : nat :=
  match pc with
  | T_open fds => 2 + (length paths - length fds)
  | T_poll => 4 | T_read => 3 | T_switch _ => 2 | T_while => 1 | T_return => 0
  end.

Lemma notify_step_decreases a s s' pc :
  mActive s = false -> mThread s = Some pc -> notify_step a s = Some (Run s') ->
  mActive s' = false /\ client s' = client s /\ mQueue s' = mQueue s
  /\ exists pc', mThread s' = Some pc' /\ (steps_left pc' < steps_left pc)%nat.
Proof.
  intros Hact Ht. unfold notify_step. rewrite Ht.
  destruct pc as [fds| | | |enabled|], a as [|fd|rc|answers|]; try done;
    try (case_decide; [|done]); try (destruct (mQueue s) eqn:Hq; [|done]);
    try destruct (Z.ltb_spec fd 0); intros E; simplify_eq; cbn; rewrite ?Hact;
    (split_and!; [done..|]); eexists; (split; [reflexivity|]);
    repeat case_decide; repeat case_match; cbn [steps_left];
    change (length paths) with 3%nat in *; rewrite ?length_app in *; cbn [length] in *; lia.
Qed.

(** C25: [deactivate] returns: once the thread has been told to stop it makes at
    most five more steps, whatever the system answers, it is never stuck before it
    returns, and then the join completes. (One of the steps may be the return
    from a blocking [poll]; one may be a call on the queue, whose failure ends the process. The
    thread reads the value of [mActive] that was last written.) *)
Theorem deactivate_returns (s : notifier) (pc : notify_pc) (d : bool) (q : Z) :
  client s = C_joining d -> mActive s = false -> mThread s = Some pc -> mQueue s = Some q ->
  (forall answers s', notify_run answers s = Some (Run s') ->
     (length answers <= steps_left pc)%nat /\ exists pc', mThread s' = Some pc'
       /\ (pc' = T_return -> exists o, join s' = Some o)
       /\ (pc' <> T_return -> exists a s'', notify_step a s' = Some (Run s'')))
  /\ (steps_left pc <= 5)%nat.
Proof.
  intros Hc Hact Ht Hq. split.
  - intros answers. revert s pc Hc Hact Ht Hq. induction answers as [|a answers IH]; intros s pc Hc Hact Ht Hq s' Hrun.
    + cbn in Hrun. simplify_eq Hrun. intros ->. split; [cbn; lia|]. exists pc. split_and!; [done|..].
      * intros ->. unfold join. rewrite Hc, Ht. by eexists.
      * intros Hpc. unfold notify_step. rewrite Ht. destruct pc as [fds| | | |enabled|]; try done.
        { exists (A_open (-1)). by eexists. }
        { exists A_none. by eexists. }
        { exists (A_poll 0). by eexists. }
        { exists (A_files (map (fun _ => Build_file_answer 0 1 "0"%char) paths)).
          rewrite decide_True by done. by eexists. }
        { exists A_none. rewrite Hq. by eexists. }
    + cbn [notify_run] in Hrun. destruct (notify_step a s) as [[s1| | |]|] eqn:Hstep; try (by destruct answers).
      destruct (notify_step_decreases a s s1 pc Hact Ht Hstep) as (Hact1 & Hc1 & Hq1 & pc1 & Ht1 & Hlt).
      rewrite Hc in Hc1. rewrite Hq in Hq1.
      destruct (IH s1 pc1 Hc1 Hact1 Ht1 Hq1 s' Hrun) as [Hlen Hend]. split; [cbn; lia|done].
  - destruct pc; cbn; lia.
Qed.

Lemma deactivate_returns_witness :
  let s := Notifier (Some 7) 42 false (Some T_poll) (C_joining false) [5; 4; 3] [] in
  (steps_left T_poll <= 5)%nat /\ (length [A_poll 1] <= steps_left T_poll)%nat.
Proof.
  destruct (deactivate_returns (Notifier (Some 7) 42 false (Some T_poll) (C_joining false) [5; 4; 3] [])
    T_poll false 7 eq_refl eq_refl eq_refl eq_refl) as [H1 H2].
  split; [exact H2|]. exact (proj1 (H1 [A_poll 1] _ eq_refl)).
Defined.

(** ** Failures *)

(** C40: A path that cannot be opened leaves the notifier in a state it cannot
    leave: inactive but with a finished thread that is still joinable.
    [deactivate] returns at once without joining it, activating again assigns
    to the joinable thread, and the destructor destroys it; both of these
    terminate the process. The descriptors opened so far stay open. *)
Theorem open_failure_terminates (s : notifier) (fds : list Z) (fd : Z) :
  client s = C_idle -> mThread s = Some (T_open fds) -> fd < 0 ->
  exists s', notify_step (A_open fd) s = Some (Run s')
    /\ mActive s' = false /\ mThread s' = Some T_return
    /\ step E_deactivate s' = Some (Run s')
    /\ step E_activate s' = Some Terminate
    /\ step E_destroy s' = Some Terminate
    /\ opened s' = opened s.
Proof.
  intros Hc Ht Hfd. exists (with_thread (Some T_return) (with_active false s)). split_and!; try done.
  - unfold notify_step. rewrite Ht. by destruct (Z.ltb_spec fd 0); [|lia].
  - cbn. rewrite Hc. unfold deactivate, finish. cbn. unfold with_client, with_thread, with_active. cbn. by rewrite Hc.
  - cbn. by rewrite Hc.
  - cbn. by rewrite Hc.
Qed.

Lemma open_failure_terminates_witness :
  exists s s', activate (initialised 42 7) = Run s /\ notify_step (A_open (-1)) s = Some (Run s')
               /\ step E_activate s' = Some Terminate.
Proof.
  eexists. destruct (open_failure_terminates (Notifier (Some 7) 42 true (Some (T_open [])) C_idle [] []) [] (-1)
    eq_refl eq_refl ltac:(lia)) as (s' & H1 & _ & _ & _ & H2 & _).
  exists s'. split; [reflexivity|]. split; [exact H1|exact H2].
Defined.

(** On a device without the sensor, or whose sensor list cannot be had, the
    constructor ignores the failed initialisation, [main] activates the
    notifier all the same, and the first time [poll] returns an event the
    process dies dereferencing the null queue. *)
Theorem missing_sensor_crashes `{SensorServiceLaws} (m : ISensorManager)
    (l : list SensorInfo) (r : Result) (fd1 fd2 fd3 rc : Z) (answers : list file_answer) :
  getSensorList m = Ran (l, r) ->
  (r <> OK \/ Forall (fun b => typeAsString b <> "xiaomi.sensor.nonui") l) ->
  0 <= fd1 -> 0 <= fd2 -> 0 <= fd3 -> 0 <= rc -> length answers = length paths ->
  exists s, main_start (Some m) = Some (Run s) /\ mQueue s = None
    /\ notify_run [A_open fd1; A_open fd2; A_open fd3; A_none; A_poll rc; A_files answers; A_none] s
       = Some NullQueue.
Proof.
  intros Hl Hmiss H1 H2 H3 Hrc Hlen.
  assert (exists r', initializeSensorQueue m "xiaomi.sensor.nonui" true SensorNotifier_new
                     = Returned r' SensorNotifier_new) as [r' E].
  { unfold initializeSensorQueue. rewrite Hl. case_bool_decide as Hr; [by eexists|].
    destruct Hmiss as [|Hmiss]; [done|]. exists NOT_EXIST.
    assert (List.find (sensor_matches "xiaomi.sensor.nonui" true) l = None) as ->; [|done].
    clear - Hmiss. induction Hmiss as [|b l' Hb _ IH]; [done|]. cbn [List.find].
    unfold sensor_matches at 1. rewrite bool_decide_false by done. exact IH. }
  unfold main_start, NonUiNotifier_new. rewrite E. cbn [mbind option_bind].
  eexists. split; [reflexivity|]. split; [done|].
  assert ((fd1 <? 0) = false /\ (fd2 <? 0) = false /\ (fd3 <? 0) = false /\ (rc <? 0) = false)
    as (E1 & E2 & E3 & E4) by lia.
  cbn. rewrite E1. cbn. rewrite (decide_True (P := (1 < 3)%nat)) by lia. cbn. rewrite E2. cbn.
  rewrite (decide_True (P := (2 < 3)%nat)) by lia. cbn. rewrite E3. cbn.
  rewrite (decide_False (P := (3 < 3)%nat)) by lia. cbn. rewrite E4. cbn. by rewrite decide_True by done.
Qed.

(** A manager whose device has another sensor only. *)
Definition bare_manager : @ISensorManager numbered_service :=
  @Build_ISensorManager numbered_service
    (Ran ([Build_SensorInfo "android.sensor.light" 0 3], 0)) (Ran (Some 7, 0)).

Lemma missing_sensor_crashes_witness :
  exists s, @main_start numbered_service (Some bare_manager) = Some (Run s) /\ mQueue s = None.
Proof.
  destruct (missing_sensor_crashes (H := numbered_service) (H0 := numbered_laws) bare_manager
    [Build_SensorInfo "android.sensor.light" 0 3] 0 3 4 5 1
    (map (fun _ => Build_file_answer 0 1 "0"%char) paths)
    eq_refl ltac:(right; repeat constructor; done) ltac:(lia) ltac:(lia) ltac:(lia) ltac:(lia) eq_refl)
    as (s & H1 & H2 & _).
  exists s. split; [exact H1|exact H2].
Defined.
