(* ===== verification/SensorsLive.v ===== *)
(** * SensorsLive: what the sensor notifier eventually does

    Infinite runs of the client and the notifier thread, under the assumption that
    the scheduler lets whoever can go on do so: a stop comes to its end, unless [poll] never returns. Then the
    events of the sensor. *)

From Stdlib Require Import Classical.
From S2P Require Import Prelude Align Sensors SensorsProps.

(** ** Infinite runs *)

(** The states of a run that does not end and the step after each; [None] is a pause of both threads. *)
Definition system_run (tr : nat -> notifier) (ev : nat -> option event) : Prop :=
  forall i, match ev i with
            | Some e => step e (tr i) = Some (Run (tr (S i)))
            | None => tr (S i) = tr i
            end.

(** The scheduler: a thread that can go on does so. A thread in [poll] waits for the files, not for the scheduler. *)
Definition thread_goes_on (tr : nat -> notifier) (ev : nat -> option event) : Prop :=
  forall i pc, mThread (tr i) = Some pc -> pc <> T_poll -> pc <> T_return ->
    exists j a, (i <= j)%nat /\ ev j = Some (E_notify a).

(** A client whose join can return is scheduled. *)
Definition client_goes_on (tr : nat -> notifier) (ev : nat -> option event) : Prop :=
  forall i o, join (tr i) = Some o -> exists j, (i <= j)%nat /\ ev j = Some E_join.

(** A client waiting for a thread that was told to stop. *)
Definition stopping (d : bool) (pc : notify_pc) (s : notifier) : Prop :=
  client s = C_joining d /\ mActive s = false /\ mThread s = Some pc.

(** The client is past the join. *)
Definition stopped (d : bool) (s : notifier) : Prop :=
  client s = (if d then C_destroyed else C_idle) /\ mThread s = None /\ mActive s = false.

(** The thread sits in [poll] from the [j]th state on, and the client waits for it. *)
Definition blocked (d : bool) (tr : nat -> notifier) (j : nat) : Prop :=
  forall k, (j <= k)%nat -> stopping d T_poll (tr k).

(** The steps of such a state. *)
Lemma stopping_steps d pc s e s' :
  stopping d pc s -> step e s = Some (Run s') ->
  (exists a, e = E_notify a /\ mQueue s' = mQueue s
     /\ exists pc', stopping d pc' s' /\ (steps_left pc' < steps_left pc)%nat)
  \/ e = E_join /\ pc = T_return.
Proof.
  intros (Hc & Ha & Ht) Hstep. destruct e as [| | | |a|]; cbn in Hstep; try by rewrite Hc in Hstep.
  - right. split; [done|]. unfold join in Hstep. rewrite Hc, Ht in Hstep. by destruct pc.
  - left. exists a. split; [done|].
    destruct (notify_step_decreases a s s' pc Ha Ht Hstep) as (Ha' & Hc' & Hq & pc' & Ht' & Hlt).
    split; [done|]. exists pc'. split; [|done]. by rewrite Hc in Hc'.
  - unfold tail_fails in Hstep. rewrite Hc, Ht in Hstep. by destruct (mQueue s), pc.
Qed.

Section LiveRun.
Context (tr : nat -> notifier) (ev : nat -> option event) (Hrun : system_run tr ev).
Context (Hthread : thread_goes_on tr ev) (Hclient : client_goes_on tr ev).

(** A stopping state lasts until its thread makes a step or is joined. *)
Lemma stopping_lasts d pc i j e :
  stopping d pc (tr i) -> (i <= j)%nat -> ev j = Some e ->
  exists k e', (i <= k)%nat /\ ev k = Some e' /\ tr k = tr i.
Proof using Hrun.
  intros Hs Hij He. remember (j - i)%nat as n eqn:Hn. revert i Hs Hij Hn.
  induction n as [|n IH]; intros i Hs Hij Hn.
  - exists i, e. replace i with j by lia. done.
  - destruct (ev i) as [e'|] eqn:Hi; [by exists i, e'|].
    pose proof (Hrun i) as Hstep. rewrite Hi in Hstep.
    destruct (IH (S i)) as (k & e' & Hk & Hek & Etr); [by rewrite Hstep|lia|lia|].
    exists k, e'. rewrite Etr, Hstep. split_and!; [lia|done|done].
Qed.

(** A thread that never again leaves [poll] is blocked there. *)
Lemma never_returning_blocks d i :
  stopping d T_poll (tr i) -> (forall j a, (i <= j)%nat -> ev j <> Some (E_notify a)) -> blocked d tr i.
Proof using Hrun.
  intros Hs Hno k Hk. induction Hk as [|k Hk IH]; [done|].
  pose proof (Hrun k) as Hstep. destruct (ev k) as [e|] eqn:He; [|by rewrite Hstep].
  destruct (stopping_steps d T_poll (tr k) e (tr (S k)) IH Hstep) as [(a & -> & _)|[_ E]]; [|done].
  by destruct (Hno k a Hk).
Qed.

(** What a stopping state waits for comes, but for the return of [poll]. *)
Lemma stopping_answered d pc i :
  stopping d pc (tr i) -> pc = T_poll /\ blocked d tr i \/ exists j e, (i <= j)%nat /\ ev j = Some e.
Proof using Hrun Hthread Hclient.
  intros Hs. pose proof Hs as (Hc & Ha & Ht).
  destruct (classic (exists j a, (i <= j)%nat /\ ev j = Some (E_notify a))) as [(j & a & Hij & He)|Hno];
    [right; by exists j, (E_notify a)|].
  destruct pc as [fds| | | |b|]; try (destruct (Hthread i _ Ht) as (j & a & Hij & He); [done..|]; destruct Hno; by exists j, a).
  - left. split; [done|]. apply never_returning_blocks; [done|]. intros j a Hij He. destruct Hno. by exists j, a.
  - right. destruct (Hclient i (finish d (deactivate_tail (with_thread None (tr i))))) as (j & Hij & He);
      [unfold join; by rewrite Hc, Ht|by exists j, E_join].
Qed.

Lemma stopping_ends d n : forall pc i,
  (steps_left pc < n)%nat -> stopping d pc (tr i) ->
  exists j, (i <= j)%nat /\
    (blocked d tr j \/ stopping d T_return (tr j) /\ mQueue (tr j) = mQueue (tr i) /\ ev j = Some E_join).
Proof using Hrun Hthread Hclient.
  induction n as [|n IH]; intros pc i Hn Hs; [lia|].
  destruct (stopping_answered d pc i Hs) as [[_ Hb] | (j & e & Hij & He)]; [exists i; split; [done|by left]|].
  destruct (stopping_lasts d pc i j e Hs Hij He) as (k & e' & Hk & Hek & Etr).
  pose proof (Hrun k) as Hstep. rewrite Hek, Etr in Hstep.
  destruct (stopping_steps d pc (tr i) e' (tr (S k)) Hs Hstep)
    as [(a & -> & Hq & pc' & Hs' & Hlt)|[-> ->]].
  - destruct (IH pc' (S k)) as (l & Hl & Hls); [lia|done|].
    exists l. rewrite <- Hq. split; [lia|done].
  - exists k. rewrite Etr. split; [done|]. by right.
Qed.

(** Past the join. *)
Lemma joined_stops d j :
  stopping d T_return (tr j) -> ev j = Some E_join ->
  stopped d (tr (S j)) /\ (mQueue (tr j) <> None -> switched_off (tr (S j))).
Proof using Hrun.
  intros (Hc & Ha & Ht) He. pose proof (Hrun j) as Hstep. rewrite He in Hstep. unfold stopped.
  cbn in Hstep. unfold join in Hstep. rewrite Hc, Ht in Hstep. apply (inj Some) in Hstep.
  unfold deactivate_tail in Hstep. cbn [mQueue with_thread] in Hstep.
  destruct (mQueue (tr j)) as [q|] eqn:Hq; destruct d; cbn in Hstep; injection Hstep as <-;
    cbn; split_and!; try done; intros _; right; by eexists.
Qed.
End LiveRun.

(** C5: Deactivating and destroying come to an end. In every run in which the process lives and the scheduler starves
    nobody, a client that deactivates or destroys a notifier with a thread gets past the join - then the thread is
    gone, the flag is clear, the sensor was switched off by the last call if there is a queue, and the notifier is idle or destroyed - unless
    the thread it waits for stays in [poll] for ever, because no file changes again. (The thread reads the value
    of [mActive] that was last written.) *)
Theorem stopping_completes (tr : nat -> notifier) (ev : nat -> option event) (i : nat) (d : bool) :
  system_run tr ev -> thread_goes_on tr ev -> client_goes_on tr ev ->
  mActive (tr i) = true -> mThread (tr i) <> None -> ev i = Some (if d then E_destroy else E_deactivate) ->
  exists j, (i < j)%nat /\
    (blocked d tr j \/ stopped d (tr j) /\ (mQueue (tr i) <> None -> switched_off (tr j))).
Proof.
  intros Hrun Hthread Hclient Ha Ht He. pose proof (Hrun i) as Hstep. rewrite He in Hstep.
  destruct (mThread (tr i)) as [pc|] eqn:Hpc; [|done].
  assert (stopping d pc (tr (S i)) /\ mQueue (tr (S i)) = mQueue (tr i)) as [Hs Hq].
  { destruct d; cbn in Hstep; destruct (client (tr i)); try done; unfold deactivate in Hstep; rewrite Ha in Hstep;
      cbn in Hstep; rewrite Hpc in Hstep; injection Hstep as <-; done. }
  destruct (stopping_ends tr ev Hrun Hthread Hclient d (S (steps_left pc)) pc (S i)) as (j & Hij & Hj); [lia|done|].
  destruct Hj as [Hb | (Hsj & Hqj & Hej)]; [exists j; split; [lia|by left]|].
  exists (S j). split; [lia|]. right. rewrite <- Hq, <- Hqj. by apply (joined_stops tr ev Hrun d j).
Qed.

(** The run of a notifier whose thread is in [poll] when it is destroyed. *)
Definition serving_in_poll : notifier := Notifier (Some 7) 42 true (Some T_poll) C_idle [5; 4; 3] [].
Definition stopped_in_poll : notifier := Notifier (Some 7) 42 false (Some T_poll) (C_joining true) [5; 4; 3] [].

Definition sample_run (i : nat) : notifier :=
  match i with
  | O => serving_in_poll
  | S O => stopped_in_poll
  | S (S O) => with_thread (Some T_while) stopped_in_poll
  | S (S (S O)) => with_thread (Some T_return) stopped_in_poll
  | _ => Notifier None 42 false None C_destroyed [5; 4; 3] [disableSensor 42]
  end.

Definition sample_events (i : nat) : option event :=
  match i with
  | O => Some E_destroy
  | S O => Some (E_notify (A_poll (-1)))
  | S (S O) => Some (E_notify A_none)
  | S (S (S O)) => Some E_join
  | _ => None
  end.

Lemma stopping_completes_witness : exists j, client (sample_run j) = C_destroyed /\ switched_off (sample_run j).
Proof.
  destruct (stopping_completes sample_run sample_events 0 true) as (j & _ & Hj).
  - intros [|[|[|[|i]]]]; done.
  - intros [|[|[|[|i]]]] pc Ht Hpc Hr; cbn in Ht; simplify_eq. by exists 2%nat, A_none.
  - intros [|[|[|[|i]]]] o Ho; cbn in Ho; simplify_eq. by exists 3%nat.
  - reflexivity.
  - done.
  - reflexivity.
  - destruct Hj as [Hb | [(Hc & _) Hoff]].
    + specialize (Hb (4 + j)%nat ltac:(lia)) as (Hc & _). discriminate Hc.
    + exists j. split; [exact Hc|]. by apply Hoff.
Defined.

(** Without the system's answer it does not end: while the thread is blocked in [poll],
    whose time is unlimited, no step of anyone is possible but the return of that
    call. Clearing [mActive] does not wake it, so [deactivate] and the destructor wait until one
    of the touchscreen's files changes, or for ever. *)
Theorem stopping_waits_for_poll (d : bool) (s : notifier) (e : event) (o : outcome) :
  client s = C_joining d -> mThread s = Some T_poll ->
  step e s = Some o <-> exists rc, e = E_notify (A_poll rc)
    /\ o = Run (with_thread (Some (if rc <? 0 then T_while else T_read)) s).
Proof.
  intros Hc Ht. split.
  - destruct e as [| | | |a|]; cbn; try by rewrite Hc.
    + unfold join. by rewrite Hc, Ht.
    + unfold notify_step. rewrite Ht. destruct a; try done. intros E. apply (inj Some) in E.
      by exists rc.
    + unfold tail_fails. rewrite Hc, Ht. by destruct (mQueue s).
  - intros (rc & -> & ->). cbn. unfold notify_step. by rewrite Ht.
Qed.

Lemma stopping_waits_for_poll_witness : step E_join stopped_in_poll <> Some (Run stopped_in_poll).
Proof.
  intros E. apply (stopping_waits_for_poll true) in E as (rc & E & _); [discriminate E|reflexivity|reflexivity].
Defined.

(** ** Events of the sensor *)

(** The integer part of [m * 2 ^ e], toward zero, when [0 <= e] does not hold. *)
Lemma quot_bounds m k : 0 < k -> k * Z.abs (Z.quot m k) <= Z.abs m < k * (Z.abs (Z.quot m k) + 1).
Proof.
  intros Hk. pose proof (Z.quot_abs m k ltac:(lia)) as Hq. rewrite (Z.abs_eq k) in Hq by lia.
  rewrite <- Hq, Z.quot_div_nonneg by lia. pose proof (Z.div_mod (Z.abs m) k). pose proof (Z.mod_pos_bound (Z.abs m) k).
  nia.
Qed.

Lemma quot_sign m k : 0 < k -> 0 <= Z.quot m k * m.
Proof.
  intros Hk. destruct (Z.le_gt_cases 0 m).
  - pose proof (Z.quot_pos m k). nia.
  - pose proof (Z.quot_opp_l m k ltac:(lia)) as Hq. pose proof (Z.quot_pos (- m) k). nia.
Qed.

(** What an event of the sensor does: exactly one request to the touchscreen driver,
    [TOUCH_IOC_SET_CUR_VALUE] for the non-UI mode, with the event's value without its
    fraction; so every value between -1 and 1 is 0. Infinities, no numbers and
    values beyond [int] are undefined behaviour, and if the device did not open the request is made all
    the same, to the descriptor -1. *)
Theorem onEvent_forwards (device : option Z) (x : c_float) :
  let touch_fd := NonUiSensorCallback_new device in
  match onEvent touch_fd x with
  | Some (fd, request, parameter) =>
      fd = default (-1) device /\ request = TOUCH_IOC_SET_CUR_VALUE
      /\ mode parameter = TOUCH_MODE_NONUI_MODE /\ in_range S32 (value parameter)
      /\ exists m e, x = Finite m e /\ 0 <= value parameter * m
           /\ (0 <= e -> value parameter = m * 2 ^ e)
           /\ (e < 0 -> 2 ^ (- e) * Z.abs (value parameter) <= Z.abs m < 2 ^ (- e) * (Z.abs (value parameter) + 1))
  | None =>
      forall m e, x = Finite m e ->
        (0 <= e -> ~ in_range S32 (m * 2 ^ e)) /\ (e < 0 -> ~ in_range S32 (Z.quot m (2 ^ (- e))))
  end.
Proof.
  cbv zeta. unfold onEvent, float_to_int. destruct x as [m e|]; [|done].
  destruct (Z.leb_spec 0 e) as [He|He]; case_bool_decide as Hr; cbn.
  - split_and!; try done. exists m, e. pose proof (Z.pow_pos_nonneg 2 e). split_and!; [done|nia|done|lia].
  - intros m' e' E. injection E as <- <-. split; [done|lia].
  - split_and!; try done. exists m, e. pose proof (Z.pow_pos_nonneg 2 (- e) ltac:(lia) ltac:(lia)).
    split_and!; [done|by apply quot_sign|lia|]. intros _. by apply quot_bounds.
  - intros m' e' E. injection E as <- <-. split; [lia|done].
Qed.

(** 1.0 switches the mode on, as single precision represents it. *)
Example onEvent_one :
  onEvent 5 (Finite 8388608 (-23)) = Some (5, 0, {| mode := 20; value := 1 |}).
Proof. by vm_compute. Qed.
