(* ===== verification/SensorsSpec.v ===== *)
(** * SensorsSpec: the sensor notifier as its client sees it

    An abstract machine with neither thread nor files: a gate that is started and
    stopped, and that switches the sensor while it runs. Every run of the notifier of Sensors, however
    client and thread interleave, is a run of the gate with the same calls on the sensor queue. *)

From S2P Require Import Prelude Align Sensors SensorsProps.

#[local] Open Scope list_scope.
#[local] Open Scope Z_scope.

(** ** The gate *)

(** [Stopping]: told to stop, with at most one more switch under way. *)
Inductive phase : Type :=
  | Stopped
  | Running
  | Stopping (destroying may_switch : bool)
  | Gone.

(** [switches]: the sensor turned on ([true]) or off, the last one first. *)
Record gate : Type := Gate { g_phase : phase; switches : list bool }.

Definition gate_new : gate := Gate Stopped [].

(** What the client and the sensor queue see. *)
Inductive label : Type :=
  | L_start                      (* [activate] *)
  | L_stop (destroying : bool)   (* [deactivate], or the destructor, has told the thread to stop *)
  | L_stopped                    (* it returns, or has destroyed the object *)
  | L_destroy                    (* the destructor of a stopped notifier *)
  | L_switch (on : bool).        (* a call of the thread on the queue *)

Inductive gate_step : gate -> option label -> gate -> Prop :=
  | gate_start l : gate_step (Gate Stopped l) (Some L_start) (Gate Running l)
  | gate_switch b l : gate_step (Gate Running l) (Some (L_switch b)) (Gate Running (b :: l))
  | gate_stop d may l : gate_step (Gate Running l) (Some (L_stop d)) (Gate (Stopping d may) l)
  | gate_last_switch d b l :
      gate_step (Gate (Stopping d true) l) (Some (L_switch b)) (Gate (Stopping d false) (b :: l))
  | gate_give_up d l : gate_step (Gate (Stopping d true) l) None (Gate (Stopping d false) l)
  | gate_stopped d may l :
      gate_step (Gate (Stopping d may) l) (Some L_stopped) (Gate (if d then Gone else Stopped) (false :: l))
  | gate_destroy l : gate_step (Gate Stopped l) (Some L_destroy) (Gate Gone l).

(** The gate accepts a sequence of labels. *)
Inductive accepts (g : gate) : list label -> gate -> Prop :=
  | accepts_nil : accepts g [] g
  | accepts_step ls g1 o g2 : accepts g ls g1 -> gate_step g1 o g2 -> accepts g (ls ++ option_list o) g2.

(** ** What the notifier's state stands for *)

(** The thread may still switch the sensor after it was told to stop. *)
Definition may_switch_pc (pc : notify_pc) : bool :=
  match pc with T_poll | T_read | T_switch _ => true | T_open _ | T_while | T_return => false end.

Definition call_of (h : Z) (b : bool) : sensor_call := if b then enableSensor h 20000 0 else disableSensor h.

Definition phase_of (s : notifier) : phase :=
  match client s, mThread s with
  | C_idle, None => Stopped
  | C_idle, Some _ => Running
  | C_joining d, Some pc => Stopping d (may_switch_pc pc)
  | C_joining d, None => Stopping d false
  | C_destroyed, _ => Gone
  end.

Definition simulates (h : Z) (s : notifier) (g : gate) : Prop :=
  protocol_ok h s /\ g_phase g = phase_of s /\ calls s = map (call_of h) (switches g).

(** What is seen of an event in state [s]. *)
Definition label_of (e : event) (s : notifier) : option label :=
  match e, phase_of s with
  | E_activate, Stopped => Some L_start
  | E_deactivate, Running => Some (L_stop false)
  | E_destroy, Running => Some (L_stop true)
  | E_destroy, Stopped => Some L_destroy
  | E_join, _ => Some L_stopped
  | E_notify _, _ => match mThread s with Some (T_switch b) => Some (L_switch b) | _ => None end
  | _, _ => None
  end.

(** What is seen of the events of a run from [s]. *)
Fixpoint trace (s : notifier) (es : list event) : list label :=
  match es with
  | [] => []
  | e :: es =>
      option_list (label_of e s) ++ match step e s with Some (Run s') => trace s' es | _ => [] end
  end.

(** ** The simulation *)

Lemma trace_app s es1 o : runs s es1 o -> forall s' es2, o = Run s' -> trace s (es1 ++ es2) = trace s es1 ++ trace s' es2.
Proof.
  induction 1 as [|es s1 e o Hr IH Hstep]; intros s' es2 Ho; [by injection Ho as ->|].
  rewrite <-(assoc_L (++)), !(IH s1) by done. cbn [app trace]. rewrite Hstep, Ho. by rewrite app_nil_r, (assoc_L (++)).
Qed.

Lemma accepts_one g ls g1 o g2 ls' : accepts g ls g1 -> gate_step g1 o g2 -> ls' = ls ++ option_list o -> accepts g ls' g2.
Proof. intros Ha Hs ->. by eapply accepts_step. Qed.

(** The gate follows an event: it makes the step the label says, or one that is not seen, or none. *)
Definition follows (e : event) (s : notifier) (g g' : gate) : Prop :=
  (label_of e s = None /\ g = g') \/ gate_step g (label_of e s) g'.

(** Shows that the gate has moved to where the new state is. *)
Ltac arrived :=
  (split; [assumption|]); cbn;
  repeat match goal with
         | H : client _ = _ |- _ => rewrite H
         | H : mActive _ = _ |- _ => rewrite H
         | H : mThread _ = _ |- _ => rewrite H
         | H : calls _ = _ |- _ => rewrite H
         | H : mSensorHandle _ = _ |- _ => rewrite H
         end;
  repeat case_decide; split; reflexivity.

(** Lets the gate stay, or move by a step that brings it there. *)
Ltac follow :=
  first [eexists; split; [left; split; reflexivity|arrived] | eexists; split; [right; constructor|arrived]].

(** The steps of the thread. *)
Lemma notify_simulates h a s s' g :
  simulates h s g -> protocol_ok h s' -> notify_step a s = Some (Run s') ->
  exists g', follows (E_notify a) s g g' /\ simulates h s' g'.
Proof.
  intros ([Hh Hs] & Hp & Hc) Hok' Hstep. destruct g as [p l]. cbn [g_phase switches] in *. subst p.
  unfold follows, label_of, simulates, phase_of, notify_step in *.
  destruct (mThread s) as [pc|] eqn:Ht; [|done].
  destruct (client s) as [|d|] eqn:Hcl; [| |by destruct Hs as (_ & ? & _)];
    destruct pc as [fds| | | |b|]; destruct a as [|fd|rc|answers|]; try discriminate Hstep;
    destruct Hs as (Hq & Hact & _); try (destruct (mQueue s); [|done]); try discriminate Hstep;
    try destruct (_ <? 0); try (case_decide; [|done]); injection Hstep as <-; follow.
Qed.

(** The client's steps. *)
Lemma join_simulates h s s' g :
  simulates h s g -> protocol_ok h s' -> join s = Some (Run s') ->
  exists g', follows E_join s g g' /\ simulates h s' g'.
Proof.
  intros ([Hh Hs] & Hp & Hc) Hok' Hstep. destruct g as [p l]. cbn [g_phase switches] in *. subst p.
  unfold follows, label_of, simulates, phase_of, join in *.
  destruct (client s) as [|d|] eqn:Hcl; [done| |done]. destruct (mThread s) as [[]|] eqn:Ht; try discriminate Hstep.
  destruct Hs as (Hq & Hact & _). unfold deactivate_tail in Hstep. cbn [mQueue with_thread] in Hstep.
  destruct (mQueue s) as [q|] eqn:Hqs; [|done].
  exists (Gate (if d then Gone else Stopped) (false :: l)). split; [right; constructor|].
  split; [done|]. destruct d; cbn in Hstep; injection Hstep as <-; cbn; rewrite Hc, Hh; by split.
Qed.

Lemma client_simulates h e s s' g :
  simulates h s g -> protocol_ok h s' -> client s = C_idle ->
  (e = E_activate \/ e = E_deactivate \/ e = E_destroy) -> step e s = Some (Run s') ->
  exists g', follows e s g g' /\ simulates h s' g'.
Proof.
  intros ([Hh Hs] & Hp & Hc) Hok' Hcl He Hstep. destruct g as [p l]. cbn [g_phase switches] in *. subst p.
  unfold follows, label_of, simulates, phase_of, step, activate, deactivate, finish, destroy_members in *.
  rewrite Hcl in *. destruct Hs as [Hq Hs].
  destruct (mThread s) as [pc|] eqn:Ht; destruct Hs as [Hact Hpc]; rewrite Hact in Hstep;
    destruct He as [-> | [-> | ->]]; cbn in Hstep; rewrite ?Ht in Hstep; injection Hstep as <-;
    try follow; cbn; rewrite ?Ht, ?Hcl.
Qed.

Lemma step_simulates h e s s' g :
  simulates h s g -> opens_succeed e -> step e s = Some (Run s') ->
  exists g', follows e s g g' /\ simulates h s' g'.
Proof.
  intros Hs He Hstep. destruct (step_ok h e s _ (proj1 Hs) He Hstep) as (s1 & E & Hok). injection E as <-.
  destruct e as [| | | |a|]; [| | | | |by destruct He].
  - destruct (client s) eqn:Hc; try (by cbn in Hstep; rewrite Hc in Hstep).
    apply (client_simulates h _ s s' g Hs Hok Hc); [tauto|done].
  - destruct (client s) eqn:Hc; try (by cbn in Hstep; rewrite Hc in Hstep).
    apply (client_simulates h _ s s' g Hs Hok Hc); [tauto|done].
  - destruct (client s) eqn:Hc; try (by cbn in Hstep; rewrite Hc in Hstep).
    apply (client_simulates h _ s s' g Hs Hok Hc); [tauto|done].
  - apply (join_simulates h s s' g Hs Hok). cbn in Hstep. by destruct (client s).
  - apply (notify_simulates h a s s' g Hs Hok). cbn in Hstep. by destruct (client s).
Qed.

(** ** The language of the gate

    What a client can rely on, as an automaton: starts and stops alternate, the sensor is
    switched only in between, at most once after a stop, and nothing happens to a destroyed notifier. *)

Definition language_step (p : phase) (x : label) : option phase :=
  match p, x with
  | Stopped, L_start => Some Running
  | Stopped, L_destroy => Some Gone
  | Running, L_switch _ => Some Running
  | Running, L_stop d => Some (Stopping d true)
  | Stopping d true, L_switch _ => Some (Stopping d false)
  | Stopping d _, L_stopped => Some (if d then Gone else Stopped)
  | _, _ => None
  end.

Fixpoint language (p : phase) (ls : list label) : option phase :=
  match ls with
  | [] => Some p
  | x :: ls => match language_step p x with Some p' => language p' ls | None => None end
  end.

Lemma language_app p ls ls' :
  language p (ls ++ ls') = match language p ls with Some p' => language p' ls' | None => None end.
Proof.
  revert p. induction ls as [|x ls IH]; intros p; cbn; [done|]. by destruct (language_step p x).
Qed.

(** The automaton allows a switch as long as the gate does. *)
Definition allows (p q : phase) : Prop :=
  match p, q with
  | Stopping d may, Stopping d' may' => d = d' /\ (may' = true -> may = true)
  | _, _ => p = q
  end.

Lemma accepts_language g ls g' :
  accepts g ls g' -> exists p, language (g_phase g) ls = Some p /\ allows p (g_phase g').
Proof.
  induction 1 as [|ls g1 o g2 _ (p & Hp & Ha) Hstep]; [exists (g_phase g); split; [done|by destruct (g_phase g)]|].
  rewrite language_app, Hp.
  destruct Hstep; cbn in Ha |- *; destruct p as [| |d' may'|]; try discriminate Ha; try destruct Ha as [<- Ha]; cbn;
    try (eexists; split; [reflexivity|]; cbn; done).
  - rewrite Ha by done. by eexists.
  - destruct may', d'; by eexists.
Qed.

(** A run, computed. *)
Fixpoint run_all (s : notifier) (es : list event) : option outcome :=
  match es with
  | [] => Some (Run s)
  | e :: es =>
      match step e s with
      | Some (Run s') => run_all s' es
      | Some o => match es with [] => Some o | _ => None end
      | None => None
      end
  end.

Lemma run_all_runs s es1 s1 es2 o : runs s es1 (Run s1) -> run_all s1 es2 = Some o -> runs s (es1 ++ es2) o.
Proof.
  revert es1 s1. induction es2 as [|e es IH]; intros es1 s1 Hr Hrun; cbn in Hrun.
  - injection Hrun as <-. by rewrite app_nil_r.
  - destruct (step e s1) as [o'|] eqn:Hstep; [|done]. pose proof (runs_step _ _ _ _ _ Hr Hstep) as Hr'.
    change (e :: es) with ([e] ++ es). rewrite (assoc_L (++)).
    destruct o' as [s2| | |]; [by apply (IH _ s2)|..]; (destruct es; [|done]); injection Hrun as <-; by rewrite app_nil_r.
Qed.

(** C4: The notifier refines the gate. Whatever the interleaving of client and thread and whatever the system
    answers, as long as the paths can be opened and the calls on the queue get through, what is seen of a run is a run of the gate, with the same
    calls on the sensor queue; so the notifier is started and stopped in turn, switches the sensor
    only in between and at most once after the stop, and its last call before it is at rest turns the sensor off. *)
Theorem notifier_refines (h q : Z) (es : list event) (o : outcome) :
  runs (initialised h q) es o -> Forall opens_succeed es ->
  exists s g,
    o = Run s /\ accepts gate_new (trace (initialised h q) es) g /\
    g_phase g = phase_of s /\ calls s = map (call_of h) (switches g) /\
    (exists p, language Stopped (trace (initialised h q) es) = Some p) /\
    (phase_of s = Stopped \/ phase_of s = Gone -> switches g = [] \/ exists l, switches g = false :: l).
Proof.
  intros Hruns Hes.
  assert (exists s g, o = Run s /\ accepts gate_new (trace (initialised h q) es) g /\ simulates h s g)
    as (s & g & -> & Hg & (Hok & Hp & Hc)).
  { induction Hruns as [|es s' e o Hr IH Hstep].
    - exists (initialised h q), gate_new. split; [done|]. split; [constructor|]. split; [|done].
      split; [done|]. cbn. split_and!; [done|done|by left].
    - apply Forall_app in Hes as [Hes He]. apply Forall_inv in He.
      destruct (IH Hes) as (s1 & g & E & Hg & Hs). injection E as <-.
      destruct (step_ok h e s' o (proj1 Hs) He Hstep) as (s2 & -> & Hok2).
      destruct (step_simulates h e s' s2 g Hs He Hstep) as (g' & Hf & Hs').
      exists s2, g'. split; [done|]. split; [|done].
      rewrite (trace_app _ _ _ Hr s' [e] eq_refl). cbn [trace]. rewrite Hstep, app_nil_r.
      destruct Hf as [[-> ->] | Hf]; [cbn; by rewrite app_nil_r|by eapply accepts_step]. }
  exists s, g. split_and!; try done.
  - destruct (accepts_language _ _ _ Hg) as (p & Hl & _). by exists p.
  - intros Hrest. assert (switched_off s) as Hoff.
    { destruct Hok as [_ Hs]. unfold phase_of in Hrest. destruct (client s), (mThread s); destruct_and?; try done;
        destruct Hrest as [? | ?]; try done; tauto. }
    unfold switched_off in Hoff. rewrite Hc in Hoff. destruct (switches g) as [|[] l]; cbn in Hoff; [by left| |right; by exists l].
    destruct Hoff as [? | [? ?]]; done.
Qed.

Lemma notifier_refines_witness :
  let es := [E_activate; E_notify (A_open 3); E_notify (A_open 4); E_notify (A_open 5); E_notify A_none;
             E_deactivate; E_notify (A_poll (-1)); E_notify A_none; E_join; E_destroy] in
  trace (initialised 42 7) es = [L_start; L_stop false; L_stopped; L_destroy] /\
  exists p, language Stopped (trace (initialised 42 7) es) = Some p.
Proof.
  split; [reflexivity|].
  assert (runs (initialised 42 7)
    [E_activate; E_notify (A_open 3); E_notify (A_open 4); E_notify (A_open 5); E_notify A_none;
     E_deactivate; E_notify (A_poll (-1)); E_notify A_none; E_join; E_destroy]
    (Run (Notifier None 42 false None C_destroyed [5; 4; 3] [disableSensor 42]))) as Hr.
  { apply (run_all_runs _ [] (initialised 42 7)); [constructor|reflexivity]. }
  destruct (notifier_refines 42 7 _ _ Hr ltac:(repeat constructor; cbn; lia)) as (s & g & _ & _ & _ & _ & Hl & _).
  exact Hl.
Defined.
