(* ===== verification/SensorsRace.v ===== *)
(** * SensorsRace: the data races of the sensor notifier

    The members of [SensorNotifier] are plain variables of two threads. Here the steps of Sensors are
    taken apart into the accesses they make, and ordered as C++ orders them: within a thread, from the
    creation of a thread to what it does, and from what it did to the return of [join]. Two accesses of one
    member, one of them a write, that are not ordered are a data race, and a program that has one
    has no defined behaviour. *)

From stdpp Require Import relations.
From S2P Require Import Prelude Align Sensors SensorsProps SensorsSpec.

#[local] Open Scope list_scope.
#[local] Open Scope Z_scope.

(** ** Accesses *)

(** The members of [SensorNotifier] that are used after the construction. *)
Inductive member : Type := M_Queue | M_SensorHandle | M_Active | M_Thread.

(** The client, and the threads it creates, by their number. *)
Inductive actor : Type := Client | Thread (n : nat).

Inductive action : Type :=
  | Read (m : member)
  | Write (m : member)
  | Spawn (n : nat)   (* the constructor of [std::thread] *)
  | Join (n : nat).   (* [join] returns *)

#[export] Instance member_eq_dec : EqDecision member.
Proof. solve_decision. Defined.
#[export] Instance actor_eq_dec : EqDecision actor.
Proof. solve_decision. Defined.
#[export] Instance action_eq_dec : EqDecision action.
Proof. solve_decision. Defined.

Notation execution := (list (actor * action)).

(** [activate]: [n] threads were created before. The assignment comes after the creation. *)
Definition activate_actions (n : nat) (s : notifier) : list action :=
  Read M_Active :: if mActive s then [] else [Write M_Active; Spawn (S n); Write M_Thread].

(** The end of [deactivate], from the test of [mQueue]. *)
Definition tail_actions (s : notifier) : list action :=
  Read M_Queue :: match mQueue s with Some _ => [Read M_Queue; Read M_SensorHandle] | None => [] end.

(** [~SensorNotifier], then the destructors of [mThread], which may be the end of the process, and of [mQueue]. *)
Definition destroy_actions (joinable : bool) (s : notifier) : list action :=
  Read M_Queue :: match mQueue s with Some _ => [Write M_Queue] | None => [] end ++
  Write M_Thread :: if joinable then [] else [Write M_Queue].

(** [deactivate] up to the join, or to its end when there is none. *)
Definition deactivate_actions (destroying : bool) (s : notifier) : list action :=
  Read M_Active ::
  if mActive s then
    Write M_Active :: Read M_Thread ::
    match mThread s with
    | Some _ => []
    | None => tail_actions s ++ if destroying then destroy_actions false s else []
    end
  else if destroying then destroy_actions (bool_decide (is_Some (mThread s))) s else [].

(** [deactivate] from the return of the join on. *)
Definition join_actions (n : nat) (destroying : bool) (s : notifier) : list action :=
  Join n :: Write M_Thread :: tail_actions s ++ if destroying then destroy_actions false s else [].

(** The same when its call fails, and ends the process. *)
Definition join_fails_actions (n : nat) (s : notifier) : list action := Join n :: Write M_Thread :: tail_actions s.
Definition deactivate_fails_actions (s : notifier) : list action :=
  Read M_Active :: Write M_Active :: Read M_Thread :: tail_actions s.

(** [NonUiNotifier::notify]. *)
Definition notify_actions (a : answer) (s : notifier) : list action :=
  match mThread s, a with
  | Some (T_open _), A_open fd => if fd <? 0 then [Write M_Active] else []
  | Some T_while, A_none => [Read M_Active]
  | Some (T_switch _), (A_none | A_transport_error) => Read M_Queue :: match mQueue s with Some _ => [Read M_SensorHandle] | None => [] end
  | _, _ => []
  end.

(** What a step does when [n] threads were created before it, and how many there are then. *)
Definition actions (n : nat) (e : event) (s : notifier) : execution :=
  match e, client s with
  | E_activate, C_idle => pair Client <$> activate_actions n s
  | E_deactivate, C_idle => pair Client <$> deactivate_actions false s
  | E_destroy, C_idle => pair Client <$> deactivate_actions true s
  | E_join, C_joining d => pair Client <$> join_actions n d s
  | E_notify a, _ => pair (Thread n) <$> notify_actions a s
  | E_transport_error, C_joining _ => pair Client <$> join_fails_actions n s
  | E_transport_error, C_idle => pair Client <$> deactivate_fails_actions s
  | _, _ => []
  end.

Definition spawned (n : nat) (e : event) (s : notifier) : nat :=
  match e with E_activate => if mActive s then n else S n | _ => n end.

(** The execution of a run. *)
Inductive executes (s0 : notifier) : list event -> nat -> execution -> outcome -> Prop :=
  | executes_nil : executes s0 [] 0 [] (Run s0)
  | executes_step es n X s e o :
      executes s0 es n X (Run s) -> step e s = Some o ->
      executes s0 (es ++ [e]) (spawned n e s) (X ++ actions n e s) o.

Lemma runs_executes s0 es o : runs s0 es o -> exists n X, executes s0 es n X o.
Proof.
  induction 1 as [|es s e o _ (n & X & IH) Hstep]; [do 2 eexists; constructor|].
  do 2 eexists. by econstructor.
Qed.

(** The same, computed: the execution after [X] of the events from [s] on. *)
Fixpoint execute (n : nat) (X : execution) (s : notifier) (es : list event) : option (nat * execution * outcome) :=
  match es with
  | [] => Some (n, X, Run s)
  | e :: es =>
      match step e s with
      | Some (Run s') => execute (spawned n e s) (X ++ actions n e s) s' es
      | Some o => match es with [] => Some (spawned n e s, X ++ actions n e s, o) | _ => None end
      | None => None
      end
  end.

Lemma execute_executes s0 es1 n X s es2 n' X' o :
  executes s0 es1 n X (Run s) -> execute n X s es2 = Some (n', X', o) -> executes s0 (es1 ++ es2) n' X' o.
Proof.
  revert es1 n X s. induction es2 as [|e es IH]; intros es1 n X s Hex H; cbn in H.
  - injection H as <- <- <-. by rewrite app_nil_r.
  - destruct (step e s) as [o'|] eqn:Hstep; [|done]. pose proof (executes_step _ _ _ _ _ _ _ Hex Hstep) as Hex'.
    change (e :: es) with ([e] ++ es). rewrite (assoc_L (++)).
    destruct o' as [s'| | |]; [by eapply IH|..]; (destruct es; [|done]); injection H as <- <- <-; by rewrite app_nil_r.
Qed.

(** ** Order and races *)

(** "Sequenced before" and "synchronizes with". *)
Inductive before (X : execution) (i j : nat) : Prop :=
  | before_sequenced c x y : (i < j)%nat -> X !! i = Some (c, x) -> X !! j = Some (c, y) -> before X i j
  | before_spawn c n y : (i < j)%nat -> X !! i = Some (c, Spawn n) -> X !! j = Some (Thread n, y) -> before X i j
  | before_join n x c : (i < j)%nat -> X !! i = Some (Thread n, x) -> X !! j = Some (c, Join n) -> before X i j.

Definition happens_before (X : execution) : relation nat := tc (before X).

Definition accesses (x : action) (m : member) : Prop := x = Read m \/ x = Write m.

(** The [i]th and the [j]th action of the execution race for [m]. *)
Definition data_race (X : execution) (i j : nat) (m : member) : Prop :=
  (i < j)%nat /\
  exists c d x y, X !! i = Some (c, x) /\ X !! j = Some (d, y) /\ c <> d /\
    accesses x m /\ accesses y m /\ (x = Write m \/ y = Write m) /\ ~ happens_before X i j.

Lemma happens_before_lt X i j : happens_before X i j -> (i < j)%nat.
Proof. induction 1 as [i j []|i j k []]; lia. Qed.

(** What a thread did is ordered before later actions of others by a join only. *)
Lemma happens_before_thread X i j n x :
  (forall k p m, X !! k <> Some (Thread p, Spawn m)) ->
  happens_before X i j -> X !! i = Some (Thread n, x) ->
  (exists y, X !! j = Some (Thread n, y)) \/ exists k c, (i < k <= j)%nat /\ X !! k = Some (c, Join n).
Proof.
  intros Hspawn Hb Hi.
  assert (forall j k y, before X j k -> X !! j = Some (Thread n, y) ->
    (exists z, X !! k = Some (Thread n, z)) \/ exists c, (j < k)%nat /\ X !! k = Some (c, Join n)) as Hstep.
  { intros j' k y [c w z Hlt Hj Hk | c m w Hlt Hj Hk | m w c Hlt Hj Hk] Hy; rewrite Hj in Hy; simplify_eq; eauto.
    by apply Hspawn in Hj. }
  revert j Hb.
  refine (tc_ind_r (fun j => (exists y, X !! j = Some (Thread n, y)) \/
    exists k c, (i < k <= j)%nat /\ X !! k = Some (c, Join n)) i _ _).
  - intros j Hj. destruct (Hstep _ _ _ Hj Hi) as [? | (c & Hlt & Hc)]; [by left|]. right. exists j, c. split; [lia|done].
  - intros j k Hb Hs [(y & Hj) | (l & c & Hl & Hc)].
    + apply happens_before_lt in Hb.
      destruct (Hstep _ _ _ Hs Hj) as [? | (c & Hlt & Hc)]; [by left|]. right. exists k, c. split; [lia|done].
    + right. exists l, c. split; [|done]. destruct Hs; lia.
Qed.

(** ** What steps do *)

Lemma actions_thread n e s k p x :
  actions n e s !! k = Some (Thread p, x) -> p = n /\ exists a, e = E_notify a /\ notify_actions a s !! k = Some x.
Proof.
  unfold actions. intros H.
  destruct e as [| | | |a|]; [destruct (client s)..| |destruct (client s)]; rewrite ?list_lookup_fmap in H; try discriminate H;
    apply fmap_Some in H as (y & Hy & E); simplify_eq. eauto.
Qed.

Lemma notify_actions_in a s k x :
  notify_actions a s !! k = Some x ->
  (accesses x M_Active /\ forall pc, mThread s = Some pc -> pc <> T_return) \/
  (x = Read M_Queue \/ x = Read M_SensorHandle) /\ exists b, mThread s = Some (T_switch b).
Proof.
  unfold notify_actions, accesses. intros H. apply list_elem_of_lookup_2 in H.
  destruct (mThread s) as [[]|], a; try (by apply not_elem_of_nil in H);
    repeat case_match; set_solver.
Qed.

Ltac in_actions H :=
  apply list_elem_of_lookup_2 in H;
  unfold activate_actions, deactivate_actions, join_actions, join_fails_actions, deactivate_fails_actions, destroy_actions,
    tail_actions, notify_actions in H;
  repeat case_match; set_solver.

Lemma actions_join n e s k c p :
  actions n e s !! k = Some (c, Join p) -> p = n /\ (e = E_join \/ e = E_transport_error) /\ c = Client.
Proof.
  unfold actions. intros H. destruct e as [| | | |a|]; [destruct (client s)..| |destruct (client s)];
    rewrite ?list_lookup_fmap in H; try discriminate H; apply fmap_Some in H as (y & Hy & E); simplify_eq; in_actions Hy.
Qed.

Lemma actions_spawn n e s k c p : actions n e s !! k = Some (c, Spawn p) -> c = Client.
Proof.
  intros H. destruct c as [|m]; [done|]. apply actions_thread in H as (_ & a & _ & H).
  apply notify_actions_in in H as [([H | H] & _) | [[H | H] _]]; discriminate H.
Qed.

Lemma actions_handle_write n e s k c : actions n e s !! k <> Some (c, Write M_SensorHandle).
Proof.
  unfold actions. intros H. destruct e as [| | | |a|]; [destruct (client s)..| |destruct (client s)];
    rewrite ?list_lookup_fmap in H; try discriminate H; apply fmap_Some in H as (y & Hy & E); simplify_eq; in_actions Hy.
Qed.

(** [mQueue] is dropped after a join, or when there is nothing to be joined. *)
Lemma actions_queue_write n e s k c :
  actions n e s !! k = Some (c, Write M_Queue) ->
  c = Client /\
  ((e = E_join /\ client s = C_joining true /\ (0 < k)%nat /\ actions n e s !! 0%nat = Some (Client, Join n)) \/
   (e = E_destroy /\ client s = C_idle /\ (mActive s = false \/ mThread s = None))).
Proof.
  unfold actions. intros H. destruct e as [| | | |a|].
  - destruct (client s); [|done..]. rewrite list_lookup_fmap in H. apply fmap_Some in H as (y & Hy & E). simplify_eq. in_actions Hy.
  - destruct (client s); [|done..]. rewrite list_lookup_fmap in H. apply fmap_Some in H as (y & Hy & E). simplify_eq. in_actions Hy.
  - destruct (client s); [|done..]. rewrite list_lookup_fmap in H. apply fmap_Some in H as (y & Hy & E). simplify_eq.
    split; [done|]. right. split_and!; [done..|]. destruct (mActive s) eqn:Ha; [|by left]. right.
    apply list_elem_of_lookup_2 in Hy. unfold deactivate_actions in Hy. rewrite Ha in Hy. destruct (mThread s); set_solver.
  - destruct (client s) as [|d|]; [done| |done]. rewrite list_lookup_fmap in H. apply fmap_Some in H as (y & Hy & E). simplify_eq.
    split; [done|]. left. destruct k as [|k]; [done|]. destruct d; [split_and!; [done..|lia|done]|]. in_actions Hy.
  - destruct (client s); rewrite list_lookup_fmap in H; apply fmap_Some in H as (y & Hy & E); simplify_eq; in_actions Hy.
  - destruct (client s); [..|done]; rewrite list_lookup_fmap in H; apply fmap_Some in H as (y & Hy & E); simplify_eq; in_actions Hy.
Qed.

(** ** The invariant *)

(** The thread is to go on, or is waited for. *)
Definition attended (s : notifier) : Prop := mActive s = true \/ exists d, client s = C_joining d.

(** It is past the opening of the files. *)
Definition serving (s : notifier) : Prop :=
  attended s /\ exists pc, mThread s = Some pc /\ forall fds, pc <> T_open fds.

Definition threads_ok (s : notifier) : Prop :=
  (client s = C_destroyed -> mThread s = None) /\ (forall pc, mThread s = Some pc -> pc <> T_return -> attended s).

(** The steps that do not end the process, by what they do to client, flag and thread. *)
Inductive moves (s s' : notifier) : event -> Prop :=
  | moves_nothing e :
      client s = C_idle -> (e = E_activate /\ mActive s = true \/ e = E_deactivate /\ mActive s = false) ->
      client s' = C_idle -> mActive s' = mActive s -> mThread s' = mThread s -> moves s s' e
  | moves_start :
      client s = C_idle -> mActive s = false -> mThread s = None ->
      client s' = C_idle -> mActive s' = true -> mThread s' = Some (T_open []) -> moves s s' E_activate
  | moves_stop e (d : bool) :
      client s = C_idle -> mActive s = true -> e = (if d then E_destroy else E_deactivate) ->
      client s' = (if mThread s then C_joining d else if d then C_destroyed else C_idle) ->
      mActive s' = false -> mThread s' = mThread s -> moves s s' e
  | moves_destroy :
      client s = C_idle -> mActive s = false -> mThread s = None ->
      client s' = C_destroyed -> mActive s' = false -> mThread s' = None -> moves s s' E_destroy
  | moves_join (d : bool) :
      client s = C_joining d -> mThread s = Some T_return ->
      client s' = (if d then C_destroyed else C_idle) -> mThread s' = None -> moves s s' E_join
  | moves_notify a pc pc' :
      mThread s = Some pc -> mThread s' = Some pc' -> client s' = client s ->
      (mActive s' = mActive s \/ exists fds, pc = T_open fds /\ pc' = T_return) ->
      ((exists fds, pc' = T_open fds) -> exists fds, pc = T_open fds) -> pc <> T_return ->
      (pc' = T_return -> mActive s' = false) -> moves s s' (E_notify a).

Lemma notify_moves a s s' : notify_step a s = Some (Run s') -> moves s s' (E_notify a).
Proof.
  unfold notify_step. destruct (mThread s) as [pc|] eqn:Ht; [|done]. intros Hstep.
  destruct pc as [fds| | | |b|], a as [|fd|rc|l|]; try discriminate Hstep.
  - destruct (fd <? 0); injection Hstep as <-.
    + eapply moves_notify; cbn; eauto.
    + eapply moves_notify; cbn; eauto. by case_decide.
  - injection Hstep as <-. destruct (mActive s) eqn:Ha; eapply moves_notify; cbn; eauto; naive_solver.
  - injection Hstep as <-. destruct (rc <? 0); eapply moves_notify; cbn; eauto; naive_solver.
  - case_decide; [|discriminate Hstep]. injection Hstep as <-. eapply moves_notify; cbn; eauto; naive_solver.
  - destruct (mQueue s); [|discriminate Hstep]. injection Hstep as <-. eapply moves_notify; cbn; eauto; naive_solver.
  - by destruct (mQueue s).
Qed.

(** A failed call of the client is the end. *)
Lemma tail_fails_aborts s o : tail_fails s = Some o -> o = Aborted.
Proof. unfold tail_fails. intros H. repeat case_match; by simplify_eq. Qed.

Lemma finish_tail d s s' :
  finish d (deactivate_tail s) = Run s' ->
  client s' = (if d then C_destroyed else C_idle) /\ mActive s' = mActive s /\ mThread s' = mThread s /\
  (d = true -> mThread s = None).
Proof.
  unfold finish, destroy_members, deactivate_tail. intros H.
  destruct d, (mQueue s); cbn in H; destruct (mThread s) eqn:Ht; try discriminate H; injection H as <-; cbn; rewrite ?Ht; naive_solver.
Qed.

Lemma step_moves e s s' : step e s = Some (Run s') -> moves s s' e.
Proof.
  destruct e as [| | | |a|]; cbn; [destruct (client s) eqn:Hc; try done; intros [= H]..| | |].
  - unfold activate in H. destruct (mActive s) eqn:Ha; [injection H as <-; by apply moves_nothing; [|left|..]|].
    cbn in H. destruct (mThread s) eqn:Ht; [done|]. injection H as <-. by apply moves_start.
  - unfold deactivate in H. destruct (mActive s) eqn:Ha; cbn in H.
    + apply (moves_stop _ _ _ false); try done; destruct (mThread s) eqn:Ht; cbn in *; try (injection H as <-);
        try done; unfold deactivate_tail; cbn; by destruct (mQueue s).
    + injection H as <-. apply moves_nothing; eauto.
  - unfold deactivate in H. destruct (mActive s) eqn:Ha; cbn in H.
    + destruct (mThread s) eqn:Ht; cbn in H.
      * injection H as <-. apply (moves_stop _ _ _ true); try done; cbn; by rewrite Ht.
      * apply (finish_tail true) in H as (H1 & H2 & H3 & _). cbn in *. apply (moves_stop _ _ _ true); try done; by rewrite Ht.
    + unfold destroy_members in H. destruct (mThread s) eqn:Ht; [done|]. injection H as <-. by apply moves_destroy.
  - unfold join. destruct (client s) as [|d|] eqn:Hc; [done| |done]. destruct (mThread s) as [[]|] eqn:Ht; try done.
    intros [= H]. apply finish_tail in H as (H1 & H2 & H3 & _). by apply (moves_join _ _ d).
  - intros H. apply notify_moves. by destruct (client s).
  - intros H. assert (Run s' = Aborted) as E by (apply (tail_fails_aborts s); by destruct (client s)). discriminate E.
Qed.

Lemma moves_attended e s s' :
  moves s s' e -> attended s -> mThread s <> None -> mThread s' = None \/ attended s' \/ exists fds, mThread s = Some (T_open fds).
Proof.
  unfold attended.
  intros [e' Hc He Hc' Ha Ht|Hc Ha Ht Hc' Ha' Ht'|e' d Hc Ha -> Hc' Ha' Ht|Hc Ha Ht Hc' Ha' Ht'|d Hc Ht Hc' Ht'|
          a pc pc' Ht Ht' Hc Ha Hopen Hnr Hret] Hs Hn; try done; eauto.
  - rewrite Ha, Hc'. rewrite Hc in Hs. eauto.
  - right. left. right. rewrite Hc'. destruct (mThread s); [by exists d|done].
  - rewrite Hc. destruct Ha as [-> | (fds & -> & ->)]; eauto.
Qed.

Lemma moves_threads_ok e s s' : moves s s' e -> threads_ok s -> threads_ok s'.
Proof.
  unfold threads_ok, attended.
  intros [e' Hc He Hc' Ha Ht|Hc Ha Ht Hc' Ha' Ht'|e' d Hc Ha -> Hc' Ha' Ht|Hc Ha Ht Hc' Ha' Ht'|d Hc Ht Hc' Ht'|
          a pc pc' Ht Ht' Hc Ha Hopen Hnr Hret] [Hd Hs].
  - rewrite Ht, Hc', Ha. by rewrite Hc in Hs.
  - rewrite Hc', Ha'. split; [done|]. by left.
  - rewrite Ht, Hc'. split; [by destruct (mThread s)|]. intros pc Hpc _. rewrite Hpc. eauto.
  - by rewrite Ht'.
  - by rewrite Ht'.
  - rewrite Hc, Ht'. split; [intros H; by rewrite Hd in Ht|]. intros p [= <-] Hp.
    destruct Ha as [-> | (fds & -> & ->)]; [|done]. by apply (Hs pc).
Qed.

Lemma moves_serving n e s s' :
  moves s s' e -> serving s -> e = E_join \/ serving s' /\ spawned n e s = n.
Proof.
  intros Hm [Hatt (pc & Hpc & Hno)].
  destruct (moves_attended _ _ _ Hm Hatt) as [Hn | [Ha | (fds & E)]]; [by rewrite Hpc| | |by rewrite E in Hpc; simplify_eq; destruct (Hno fds)].
  - destruct Hm; try congruence. by left.
  - destruct Hm as [e' Hc He Hc' Ha' Ht|Hc Ha' Ht|e' d Hc Ha' -> Hc' Ha'' Ht|Hc Ha' Ht|d Hc Ht|a p pc' Ht Ht' Hc _ Hopen];
      try congruence; [right..|by left|right]; (split; [split; [done|]|]).
    + exists pc. split; [congruence|done].
    + destruct He as [[-> He] | [-> He]]; cbn; [by rewrite He|done].
    + exists pc. split; [congruence|done].
    + by destruct d.
    + exists pc'. split; [done|]. intros fds ->. destruct Hopen as [fds' E]; [eauto|]. rewrite Ht in Hpc. simplify_eq. by destruct (Hno fds').
    + done.
Qed.

(** What was done so far, in the state it led to. *)
Record race_inv (n : nat) (X : execution) (s : notifier) : Prop := {
  inv_state : threads_ok s;
  inv_reads i p : X !! i = Some (Thread p, Read M_Queue) ->
    (exists k, (i < k)%nat /\ X !! k = Some (Client, Join p)) \/ p = n /\ serving s;
  inv_writes i c : X !! i = Some (c, Write M_Queue) -> client s = C_destroyed;
  inv_joins k c p : X !! k = Some (c, Join p) -> (p <= n)%nat /\ (mThread s = None \/ p <> n);
}.

(** A thread that uses the queue is joined before the queue is dropped. *)
Definition queue_ordered (X : execution) : Prop :=
  forall i j p c, X !! i = Some (Thread p, Read M_Queue) -> X !! j = Some (c, Write M_Queue) ->
    c = Client /\ exists k, (i < k < j)%nat /\ X !! k = Some (Client, Join p).

(** Threads create none, and write nothing but [mActive]; nobody writes [mSensorHandle]. *)
Definition threads_modest (X : execution) : Prop :=
  (forall i p x, X !! i = Some (Thread p, x) -> accesses x M_Active \/ x = Read M_Queue \/ x = Read M_SensorHandle) /\
  forall i c, X !! i <> Some (c, Write M_SensorHandle).

Lemma queue_ordered_step n X e s o :
  race_inv n X s -> queue_ordered X -> step e s = Some o -> queue_ordered (X ++ actions n e s).
Proof.
  intros Hinv Hq Hstep i j p c Hi Hj.
  apply lookup_app_Some in Hi as [Hi | [Hli Hi]]; apply lookup_app_Some in Hj as [Hj | [Hlj Hj]].
  - destruct (Hq i j p c Hi Hj) as (Hc & k & Hk & Ek). split; [done|]. exists k. split; [done|]. by apply lookup_app_l_Some.
  - pose proof (lookup_lt_Some _ _ _ Hi) as Hlt. apply actions_queue_write in Hj as [-> Hj]. split; [done|].
    destruct (inv_reads _ _ _ Hinv _ _ Hi) as [(k & Hk & Ek) | [-> [Hatt (pc & Hpc & _)]]].
    { exists k. pose proof (lookup_lt_Some _ _ _ Ek). split; [lia|]. by apply lookup_app_l_Some. }
    destruct Hj as [(-> & Hc & H0 & E0) | (-> & Hc & Hj)].
    + exists (length X). split; [lia|]. rewrite lookup_app_r, Nat.sub_diag by lia. exact E0.
    + exfalso. destruct Hatt as [Ha | [d Hd]]; [|congruence]. destruct Hj; congruence.
  - exfalso. apply (inv_writes _ _ _ Hinv) in Hj. apply actions_thread in Hi as (_ & a & -> & _).
    pose proof (proj1 (inv_state _ _ _ Hinv) Hj) as Ht. cbn in Hstep. unfold notify_step in Hstep. rewrite Ht in Hstep. by destruct (client s), a.
  - exfalso. apply actions_thread in Hi as (_ & a & -> & _). apply actions_queue_write in Hj as [_ [[E _] | [E _]]]; discriminate E.
Qed.

Lemma threads_modest_step n X e s : threads_modest X -> threads_modest (X ++ actions n e s).
Proof.
  intros [Hx Hw]. split.
  - intros i p x Hi. apply lookup_app_Some in Hi as [Hi | [_ Hi]]; [by apply (Hx i p)|].
    apply actions_thread in Hi as (_ & a & _ & Hi). apply notify_actions_in in Hi as [[Hi _] | [Hi _]]; tauto.
  - intros i c Hi. apply lookup_app_Some in Hi as [Hi | [_ Hi]]; [by apply Hw in Hi|]. by apply actions_handle_write in Hi.
Qed.

Lemma race_inv_step n X e s s' :
  race_inv n X s -> step e s = Some (Run s') -> race_inv (spawned n e s) (X ++ actions n e s) s'.
Proof.
  intros Hinv Hstep. pose proof (step_moves _ _ _ Hstep) as Hm. pose proof (inv_state _ _ _ Hinv) as Hok.
  split; [by eapply moves_threads_ok| | |].
  - intros i p Hi. apply lookup_app_Some in Hi as [Hi | [_ Hi]].
    + pose proof (lookup_lt_Some _ _ _ Hi) as Hlt.
      destruct (inv_reads _ _ _ Hinv _ _ Hi) as [(k & Hk & Ek) | [-> Hs]];
        [left; exists k; split; [done|by apply lookup_app_l_Some]|].
      destruct (moves_serving n _ _ _ Hm Hs) as [-> | [Hs' ->]]; [|by right]. left. exists (length X). split; [done|].
      rewrite lookup_app_r, Nat.sub_diag by lia. cbn in Hstep |- *. unfold join in Hstep. by destruct (client s).
    + right. apply actions_thread in Hi as (-> & a & -> & Hi). split; [done|].
      apply notify_actions_in in Hi as [[[E | E] _] | [_ [b Hb]]]; try discriminate E.
      assert (serving s) as Hs by (split; [by apply (proj2 Hok _ Hb)|by exists (T_switch b)]).
      by destruct (moves_serving n _ _ _ Hm Hs) as [E | [Hs' _]].
  - intros i c Hi. apply lookup_app_Some in Hi as [Hi | [_ Hi]].
    + apply (inv_writes _ _ _ Hinv) in Hi. pose proof (proj1 Hok Hi). by destruct Hm; congruence.
    + apply actions_queue_write in Hi as [_ [(-> & Hc & _) | (-> & Hc & Ht)]].
      * cbn in Hstep. unfold join in Hstep. rewrite Hc in Hstep. destruct (mThread s) as [[]|]; try discriminate Hstep.
        injection Hstep as Hstep. by apply (finish_tail true) in Hstep as (-> & _).
      * inversion Hm as [e' ? [[? _] | [? _]]| |e' d _ Ha E Hc' _ Ht'| | |]; subst; try done. destruct d; [|done].
        destruct Ht as [Ht | Ht]; [congruence|]. by rewrite Ht in Hc'.
  - intros k c p Hk. apply lookup_app_Some in Hk as [Hk | [_ Hk]].
    + destruct (inv_joins _ _ _ Hinv _ _ _ Hk) as [Hp Hn].
      destruct Hm as [e' Hc He _ _ Ht|Hc Ha|e' d Hc Ha -> _ _ Ht| |d|a pc pc' Ht]; cbn [spawned]; [| | |by auto|by auto|].
      * rewrite Ht. destruct He as [[-> He] | [-> _]]; cbn; [rewrite He|]; by split.
      * rewrite Ha. split; [lia|]. right. lia.
      * rewrite Ht. by destruct d.
      * split; [done|]. right. destruct Hn; congruence.
    + apply actions_join in Hk as (-> & [-> | ->] & _); [|by inversion Hm as [? ? [[? _] | [? _]]| |? [] _ _ E| | |]].
      cbn. split; [done|]. left.
      inversion Hm as [? ? [[? _] | [? _]]| |? d _ _ E| | |]; [done..|by destruct d|done].
Qed.

Lemma executes_inv s0 es n X o :
  client s0 = C_idle -> mThread s0 = None -> executes s0 es n X o ->
  queue_ordered X /\ threads_modest X /\ forall s, o = Run s -> race_inv n X s.
Proof.
  intros Hc Ht. induction 1 as [|es n X s e o _ (Hq & Hm & Hinv) Hstep].
  - split; [by intros ????|]. split; [split; by intros ???|]. intros s [= <-].
    split; [|by intros ??..|by intros ???]. split; [by rewrite Hc|]. by rewrite Ht.
  - specialize (Hinv s eq_refl). split; [by eapply queue_ordered_step|]. split; [by apply threads_modest_step|].
    intros s' ->. by apply race_inv_step.
Qed.

(** ** The races *)

Lemma thread_no_spawn X : threads_modest X -> forall k p m, X !! k <> Some (Thread p, Spawn m).
Proof. intros [Hm _] k p m Hk. by apply Hm in Hk as [[H | H] | [H | H]]. Qed.

(** The accesses of [mQueue], and those of threads among themselves. *)
Lemma queue_no_race X i j : queue_ordered X -> threads_modest X -> ~ data_race X i j M_Queue.
Proof.
  intros Hq [Hm _] (Hlt & c & d & x & y & Hi & Hj & Hcd & Hx & Hy & Hw & Hn).
  assert (forall k p z, X !! k = Some (Thread p, z) -> accesses z M_Queue -> z = Read M_Queue) as Hread.
  { intros k p z Hk [-> | ->]; [done|]. by apply Hm in Hk as [[H | H] | [H | H]]. }
  destruct Hw as [-> | ->].
  - destruct d as [|q]; [|rewrite (Hread _ _ _ Hj Hy) in Hj; destruct (Hq _ _ _ _ Hj Hi) as (_ & k & Hk & _); lia].
    destruct c as [|p]; [done|]. by apply (Hread _ _ _ Hi) in Hx.
  - destruct c as [|p]; [destruct d; [done|by apply (Hread _ _ _ Hj) in Hy]|].
    rewrite (Hread _ _ _ Hi Hx) in Hi. destruct (Hq _ _ _ _ Hi Hj) as (-> & k & Hk & Ek). destruct Hn.
    apply (tc_l _ _ k); [by eapply before_join; [lia|..]|]. apply tc_once. by eapply before_sequenced; [lia|..].
Qed.

Lemma race_active X i j m : queue_ordered X -> threads_modest X -> data_race X i j m -> m = M_Active.
Proof.
  intros Hq Hm Hr. destruct m; [by apply queue_no_race in Hr| |done|];
    destruct Hm as [Hm Hh], Hr as (Hlt & c & d & x & y & Hi & Hj & Hcd & Hx & Hy & Hw & _).
  - destruct Hw as [-> | ->]; [by apply Hh in Hi|by apply Hh in Hj].
  - exfalso. assert (forall k p z, X !! k = Some (Thread p, z) -> ~ accesses z M_Thread) as Hnone.
    { intros k p z Hk [-> | ->]; by apply Hm in Hk as [[H | H] | [H | H]]. }
    destruct c as [|p]; [|by apply (Hnone _ _ _ Hi)]. destruct d as [|p]; [done|by apply (Hnone _ _ _ Hj)].
Qed.

(** The program of main.cpp activates once: all that follows is the thread's. *)
Lemma activated_once s0 es n X o answers :
  client s0 = C_idle -> mActive s0 = false -> executes s0 es n X o -> es = E_activate :: (E_notify <$> answers) ->
  n = 1%nat /\ exists Y, X = (pair Client <$> activate_actions 0 s0) ++ Y /\ Forall (fun y => y.1 = Thread 1) Y.
Proof.
  intros Hc Ha H. revert answers. induction H as [|es n X s e o H IH Hstep]; intros answers E; [done|].
  destruct (decide (es = [])) as [-> | Hne].
  - cbn in E. injection E as -> _. inversion H as [|es']; subst; [|by destruct es'].
    cbn [spawned]. rewrite Ha. split; [done|]. exists []. unfold actions. rewrite Hc, app_nil_l, app_nil_r. by split.
  - destruct answers as [|a answers _] using rev_ind; [by destruct es as [|? []]|].
    rewrite fmap_app, app_comm_cons in E. apply app_inj_tail in E as [E ->].
    destruct (IH _ E) as (-> & Y & -> & HY). split; [done|]. eexists. split; [by rewrite <- (assoc_L (++))|].
    apply Forall_app. split; [done|]. apply Forall_forall. intros y Hy. cbn in Hy. apply list_elem_of_fmap in Hy as (x & -> & _). done.
Qed.

(** C7: The threads of the notifier race for no member but [mActive]: whatever client and threads do, two accesses of
    another member, one of them a write, are ordered by the creation of a thread or by a join. The program of
    main.cpp, which activates its notifier and never stops it, has no data race at all. *)
Theorem only_mActive_races (s0 : notifier) (es : list event) (n : nat) (X : execution) (o : outcome) :
  client s0 = C_idle -> mThread s0 = None -> mActive s0 = false -> executes s0 es n X o ->
  (forall i j m, data_race X i j m -> m = M_Active) /\
  (forall answers, es = E_activate :: (E_notify <$> answers) -> forall i j m, ~ data_race X i j m).
Proof.
  intros Hc Ht Ha Hex. destruct (executes_inv _ _ _ _ _ Hc Ht Hex) as (Hq & Hm & _).
  split; [intros i j m; by apply race_active|].
  intros answers E i j m Hr. pose proof (race_active _ _ _ _ Hq Hm Hr) as ->.
  destruct (activated_once _ _ _ _ _ _ Hc Ha Hex E) as (_ & Y & -> & HY).
  unfold activate_actions in *. rewrite Ha in *. cbn in *.
  destruct Hr as (Hlt & c & d & x & y & Hi & Hj & Hcd & Hx & Hy & Hw & Hn).
  assert (forall k c x, Y !! k = Some (c, x) -> c = Thread 1) as HT.
  { intros k c' x' Hk. by apply (Forall_lookup_1 _ _ _ _ HY) in Hk. }
  assert (forall k c x, (4 <= k)%nat -> ((Client, Read M_Active) :: (Client, Write M_Active) :: (Client, Spawn 1)
      :: (Client, Write M_Thread) :: Y) !! k = Some (c, x) -> c = Thread 1) as HT'.
  { intros k c' x' Hk E'. do 4 (destruct k as [|k]; [lia|]). by apply HT in E'. }
  destruct (decide (4 <= i)%nat) as [Hi4 | Hi4]; [destruct Hcd; rewrite (HT' _ _ _ Hi4 Hi); symmetry; by apply (HT' j d y); [lia|]|].
  destruct (decide (4 <= j)%nat) as [Hj4 | Hj4].
  - pose proof (HT' _ _ _ Hj4 Hj) as ->.
    destruct i as [|[|[|[|i]]]]; [| | | |lia]; cbn in Hi; injection Hi as <- <-;
      try (destruct Hx as [Hx | Hx]; discriminate Hx).
    + apply Hn, (tc_l _ _ 2%nat); [by eapply before_sequenced; [lia|..]|]. apply tc_once. by eapply before_spawn; [lia|..].
    + apply Hn, (tc_l _ _ 2%nat); [by eapply before_sequenced; [lia|..]|]. apply tc_once. by eapply before_spawn; [lia|..].
  - assert (c = Client /\ d = Client) as [-> ->]; [|done].
    split; [do 4 (destruct i as [|i]; [by injection Hi|]); lia|do 4 (destruct j as [|j]; [by injection Hj|]); lia].
Qed.

(** A notifier is activated, opens its files, tests [mActive] and is deactivated. *)
Definition served_and_stopped : list event :=
  [E_activate; E_notify (A_open 3); E_notify (A_open 4); E_notify (A_open 5); E_notify A_none; E_deactivate].

Lemma only_mActive_races_witness :
  exists X o, executes (initialised 42 7) served_and_stopped 1 X o /\ ~ exists i j, data_race X i j M_Queue.
Proof.
  do 2 eexists.
  assert (executes (initialised 42 7) served_and_stopped 1
    ([(Client, Read M_Active); (Client, Write M_Active); (Client, Spawn 1); (Client, Write M_Thread);
      (Thread 1, Read M_Active); (Client, Read M_Active); (Client, Write M_Active); (Client, Read M_Thread)])
    (Run (Notifier (Some 7) 42 false (Some T_poll) (C_joining false) [5; 4; 3] []))) as H
    by (apply (execute_executes _ [] 0 [] (initialised 42 7)); [constructor|reflexivity]).
  split; [exact H|]. intros (i & j & Hr).
  by pose proof (proj1 (only_mActive_races (initialised 42 7) _ _ _ _ eq_refl eq_refl eq_refl H) i j M_Queue Hr).
Defined.

(** C8: Every stop of a running notifier is a data race. The thread that has tested [mActive] tests it without order
    to the assignment of [deactivate], which the destructor makes as well; so C++ gives no meaning to a program that stops a
    notifier after its thread began to serve. *)
Theorem stop_races (s0 : notifier) (es : list event) (n i : nat) (X : execution) (s : notifier) (d : bool) :
  client s0 = C_idle -> mThread s0 = None -> executes s0 es n X (Run s) ->
  client s = C_idle -> mActive s = true -> mThread s <> None -> X !! i = Some (Thread n, Read M_Active) ->
  let e := if d then E_destroy else E_deactivate in
  exists s', step e s = Some (Run s') /\ executes s0 (es ++ [e]) n (X ++ actions n e s) (Run s') /\
    data_race (X ++ actions n e s) i (S (length X)) M_Active.
Proof.
  intros Hc0 Ht0 Hex Hc Ha Ht Hi e. destruct (executes_inv _ _ _ _ _ Hc0 Ht0 Hex) as (_ & Hm & Hinv).
  specialize (Hinv s eq_refl). destruct (mThread s) as [pc|] eqn:Hpc; [|done].
  assert (exists s', step e s = Some (Run s')) as [s' Hstep].
  { subst e. destruct d; cbn; rewrite Hc; unfold deactivate; rewrite Ha; cbn; rewrite Hpc; by eexists. }
  assert (actions n e s = [(Client, Read M_Active); (Client, Write M_Active); (Client, Read M_Thread)]) as HA.
  { subst e. unfold actions, deactivate_actions. rewrite Hc, Ha, Hpc. by destruct d. }
  exists s'. split; [done|]. pose proof (executes_step _ _ _ _ _ _ _ Hex Hstep) as Hex'.
  replace (spawned n e s) with n in Hex' by (subst e; by destruct d). split; [done|].
  pose proof (lookup_lt_Some _ _ _ Hi) as Hlt. rewrite HA. split; [lia|].
  exists (Thread n), Client, (Read M_Active), (Write M_Active). split_and!; [by apply lookup_app_l_Some| |done|by left|by right|by right|].
  - rewrite lookup_app_r by lia. by replace (S (length X) - length X)%nat with 1%nat by lia.
  - rewrite <- HA. intros Hb. apply (happens_before_thread _ i _ n (Read M_Active)) in Hb as [[y Hy] | (k & c & Hk & Ek)].
    + rewrite lookup_app_r, HA in Hy by lia. by replace (S (length X) - length X)%nat with 1%nat in Hy by lia.
    + apply lookup_app_Some in Ek as [Ek | [_ Ek]]; [|apply actions_join in Ek as (_ & [E | E] & _); subst e; by destruct d].
      destruct (inv_joins _ _ _ Hinv _ _ _ Ek) as [_ [E | E]]; congruence.
    + apply thread_no_spawn, threads_modest_step, Hm.
    + by apply lookup_app_l_Some.
Qed.

Lemma stop_races_witness :
  exists X, data_race X 4 6 M_Active.
Proof.
  assert (executes (initialised 42 7) (take 5 served_and_stopped) 1
    ([(Client, Read M_Active); (Client, Write M_Active); (Client, Spawn 1); (Client, Write M_Thread);
      (Thread 1, Read M_Active)])
    (Run (Notifier (Some 7) 42 true (Some T_poll) C_idle [5; 4; 3] []))) as H
    by (apply (execute_executes _ [] 0 [] (initialised 42 7)); [constructor|reflexivity]).
  destruct (stop_races (initialised 42 7) _ 1 4 _ _ false eq_refl eq_refl H eq_refl eq_refl ltac:(discriminate) eq_refl)
    as (s' & _ & _ & Hr).
  eexists. exact Hr.
Defined.
