(* ===== verification/SensorsMain.v ===== *)
(** * SensorsMain: the service as a whole

    [main.cpp] puts the parts of Sensors together: it asks for the sensor manager, makes one
    notifier, activates it and sleeps for ever. Here are its ends, the lines it and the notifier
    log, and what the sensor queue is told over the whole life of the process. *)

From Stdlib Require Import Ascii.
From stdpp Require Import pretty.
From S2P Require Import Prelude Align Sensors SensorsProps SensorsSpec.

#[local] Open Scope string_scope.
#[local] Open Scope list_scope.
#[local] Open Scope Z_scope.

(** ** The log *)

Inductive severity : Type := DEBUG | INFO | ERROR.

Record log_line : Type := LOG { level : severity; text : string }.

Definition on_off (b : bool) : string := if b then "1" else "0".

Section InitializeLog.
Context `{SensorService}.

(** What [initializeSensorQueue] logs. *)
Definition initialize_log (m : ISensorManager) (type : string) (wakeup : bool) : list log_line :=
  match getSensorList m with
  | Not_run | Failed => []
  | Ran (sensorList, res) =>
      if bool_decide (res <> OK) then [LOG ERROR "failed to get sensors list"]
      else
        match List.find (sensor_matches type wakeup) sensorList with
        | None => [LOG ERROR (("failed to get " +:+ type) +:+ (" sensor with wake-up: " +:+ on_off wakeup))]
        | Some _ =>
            let res := match createEventQueue m with Not_run | Failed => res | Ran (_, r) => r end in
            if bool_decide (res <> OK) then [LOG ERROR "failed to create event queue"] else []
        end
  end.

(** [main]: the manager that cannot be had, and what the construction of the notifier logs; [opened] is the
    descriptor of the touchscreen device, whose open comes first. *)
Definition callback_log (opened : option Z) : list log_line :=
  match opened with Some _ => [] | None => [LOG ERROR ("failed to open " +:+ kTouchDevice)] end.

Definition main_log (manager : option ISensorManager) (opened : option Z) : list log_line :=
  match manager with
  | None => [LOG ERROR "failed to get ISensorManager"]
  | Some m => callback_log opened ++ initialize_log m "xiaomi.sensor.nonui" true
  end.
End InitializeLog.

(** [readBool], and the loop over the files. *)
Definition readBool_log (a : file_answer) : list log_line :=
  if negb (a_lseek a =? 0) then [LOG ERROR ("failed to seek fd, err: " +:+ pretty (a_lseek a))]
  else if negb (a_read a =? 1) then [LOG ERROR ("failed to read bool from fd, err: " +:+ pretty (a_read a))]
  else [].

Fixpoint read_loop_log (enabled : bool) (answers : list file_answer) : list log_line :=
  match answers with
  | [] => []
  | a :: answers =>
      if enabled then read_loop_log true answers else readBool_log a ++ read_loop_log (readBool a) answers
  end.

(** What a step of [NonUiNotifier::notify] logs; [ok]: the sensor queue answered [Result::OK]. *)
Definition notify_log (ok : bool) (a : answer) (s : notifier) : list log_line :=
  match mThread s, a with
  | Some (T_open fds), A_open fd =>
      if fd <? 0
      then [LOG ERROR (("failed to open " +:+ default "" (paths !! length fds)) +:+ (" , err: " +:+ pretty fd))]
      else []
  | Some T_poll, A_poll rc => if rc <? 0 then [LOG ERROR ("failed to poll, err: " +:+ pretty rc)] else []
  | Some T_read, A_files answers => read_loop_log false answers
  | Some (T_switch enabled), A_none =>
      if ok then []
      else if enabled then [LOG ERROR "failed to enable sensor"] else [LOG DEBUG "failed to disable sensor"]
  | _, _ => []
  end.

Example open_log :
  notify_log true (A_open (-1)) (Notifier (Some 7) 42 true (Some (T_open [3])) C_idle [3] []) =
  [LOG ERROR "failed to open /sys/class/touch/touch_dev/gesture_single_tap_enabled , err: -1"].
Proof. reflexivity. Qed.

(** ** The ends of [main] *)

(** How the process is. *)
Inductive main_state : Type :=
  | Exit_failure          (* no sensor manager *)
  | Undefined             (* [res] used without a value *)
  | Asleep (s : notifier) (* the loop of [sleep_for], with the notifier's thread beside it *)
  | Killed (o : outcome).

(** The process after the thread got these answers; [None] when it does not ask for one of them. *)
Definition service `{SensorService} (manager : option ISensorManager) (answers : list answer) : option main_state :=
  match manager, main_start manager with
  | None, _ => Some Exit_failure
  | Some _, None => Some Undefined
  | Some _, Some (Run s) =>
      match notify_run answers s with
      | Some (Run s) => Some (Asleep s)
      | Some o => Some (Killed o)
      | None => None
      end
  | Some _, Some o => Some (Killed o)
  end.

(** ** What the queue is told *)

Definition open_of (a : answer) : option Z :=
  match a with A_open fd => if fd <? 0 then None else Some fd | _ => None end.

Definition opens_of (answers : list answer) : list Z := omap open_of answers.

(** A [poll] that returned without an error: it reports that files have changed. *)
Definition report_of (a : answer) : option Z :=
  match a with A_poll rc => if 0 <=? rc then Some rc else None | _ => None end.

Definition reports_of (answers : list answer) : list Z := omap report_of answers.

(** What the files hold after each report: whether the last [poll] reported a change and the files were not
    looked at since, and what was seen of them at the earlier reports. *)
Definition see (seen : bool * list (list file_answer)) (a : answer) : bool * list (list file_answer) :=
  match a with
  | A_poll rc => (0 <=? rc, seen.2)
  | A_files l => (false, if seen.1 then seen.2 ++ [l] else seen.2)
  | _ => seen
  end.

Definition seen (answers : list answer) : bool * list (list file_answer) := fold_left see answers (false, []).

(** The calls that the changes reported by [poll] ask for. *)
Definition decisions (h : Z) (answers : list answer) : list sensor_call :=
  map (fun l => call_of h (existsb readBool l)) (seen answers).2.

(** The call the thread is about to make. *)
Definition pending (s : notifier) : list sensor_call :=
  match mThread s with Some (T_switch b) => [call_of (mSensorHandle s) b] | _ => [] end.

(** The reports the thread is still dealing with. *)
Definition in_round (s : notifier) : nat :=
  match mThread s with Some T_read | Some (T_switch _) => 1 | _ => 0 end.

Definition failed_open (a : answer) : Prop := exists fd, a = A_open fd /\ fd < 0.

Lemma read_loop_any l : (read_loop false l).1 = existsb readBool l.
Proof.
  assert (forall l, read_loop true l = (true, 0%nat)) as Htrue by (intros l'; by induction l').
  induction l as [|a l IH]; [done|]. cbn [read_loop existsb].
  destruct (readBool a); [by rewrite Htrue|]. by destruct (read_loop false l).
Qed.

Lemma seen_snoc answers a : seen (answers ++ [a]) = see (seen answers) a.
Proof. unfold seen. by rewrite fold_left_app. Qed.

Lemma omap_snoc {A B} (f : A -> option B) l a : omap f (l ++ [a]) = omap f l ++ option_list (f a).
Proof. rewrite omap_app. cbn. by destruct (f a). Qed.

Lemma exists_snoc {A} (P : A -> Prop) l a : Exists P (l ++ [a]) <-> Exists P l \/ P a.
Proof. rewrite Exists_app, Exists_cons, Exists_nil. tauto. Qed.

(** What the calls are, in a state whose thread is at [pc] after these answers. *)
Definition told (h : Z) (answers : list answer) (s : notifier) (pc : notify_pc) : Prop :=
  decisions h answers = reverse (calls s) ++ pending s /\
  length (reports_of answers) = (length (calls s) + in_round s)%nat /\
  ((seen answers).1 = true <-> pc = T_read) /\
  ((exists fds, pc = T_open fds) -> calls s = []).

(** The thread beside the sleeping main thread. *)
Definition beside (h : Z) (answers : list answer) (s : notifier) : Prop :=
  client s = C_idle /\ mSensorHandle s = h /\ opened s = reverse (opens_of answers) /\
  exists pc, mThread s = Some pc /\ told h answers s pc /\
    (pc = T_return -> Exists failed_open answers /\ calls s = [] /\ mActive s = false) /\
    (pc <> T_return -> ~ Exists failed_open answers /\ mActive s = true).

Lemma main_start_beside `{SensorService} m s0 :
  main_start (Some m) = Some (Run s0) -> beside (mSensorHandle s0) [] s0.
Proof.
  unfold main_start, NonUiNotifier_new. intros Hs.
  destruct (initializeSensorQueue m _ _ _) as [r s| |] eqn:Hi; [|done..]. cbn in Hs.
  assert (client s = C_idle /\ mActive s = false /\ mThread s = None /\ opened s = [] /\ calls s = []) as (Hc & Ha & Ht & Ho & Hl).
  { unfold initializeSensorQueue in Hi. destruct (getSensorList m) as [[l r']| |]; [|done..].
    case_bool_decide; [injection Hi as _ <-; done|]. destruct (List.find _ _) as [it|]; [|injection Hi as _ <-; done].
    destruct (createEventQueue m) as [[q r'']| |]; try case_bool_decide; try done; injection Hi as _ <-; done. }
  unfold activate in Hs. rewrite Ha in Hs. cbn in Hs. rewrite Ht in Hs. injection Hs as <-.
  unfold beside, told, decisions, pending, in_round. cbn. rewrite Hc, Ho, Hl. split_and!; [done..|].
  exists (T_open []). split_and!; [done..|]. intros _. split; [by intros Hex; inversion Hex|done].
Qed.

(** What the thread's steps tell the queue. *)
Lemma told_step h answers a s s' pc :
  mThread s = Some pc -> mSensorHandle s = h -> told h answers s pc -> notify_step a s = Some (Run s') ->
  exists pc', mThread s' = Some pc' /\ told h (answers ++ [a]) s' pc'.
Proof.
  intros Ht Hh (Hd & Hn & Hw & Ho) Hstep. unfold notify_step in Hstep. rewrite Ht in Hstep.
  unfold told, decisions, reports_of, pending, in_round in *. rewrite Ht, seen_snoc, omap_snoc, length_app in *.
  destruct (seen answers) as [w ls]. cbn [fst snd] in *.
  destruct pc as [fds| | | |b|], a as [|fd|rc|l|]; try discriminate Hstep.
  - assert (w = false) as -> by (destruct w; [by apply proj1 in Hw; specialize (Hw eq_refl)|done]).
    specialize (Ho ltac:(by eexists)).
    destruct (fd <? 0); injection Hstep as <-; eexists; (split; [reflexivity|]); cbn; [|case_decide];
      rewrite ?app_nil_r in *; split_and!; try done; lia.
  - assert (w = false) as -> by (destruct w; [by apply proj1 in Hw; specialize (Hw eq_refl)|done]).
    injection Hstep as <-. eexists. split; [reflexivity|]. cbn. destruct (mActive s); split_and!; try done; try lia; by intros [].
  - injection Hstep as <-. eexists. split; [reflexivity|]. cbn.
    destruct (Z.ltb_spec rc 0), (Z.leb_spec 0 rc); try lia; cbn; split_and!; try done; try lia; by intros [].
  - case_decide; [|done]. injection Hstep as <-. eexists. split; [reflexivity|]. rewrite (proj2 Hw eq_refl). cbn.
    rewrite read_loop_any, map_app, Hd, app_nil_r, Hh. split_and!; try done; [cbn in Hn; lia|by intros []].
  - assert (w = false) as -> by (destruct w; [by apply proj1 in Hw; specialize (Hw eq_refl)|done]).
    destruct (mQueue s); [|done]. injection Hstep as <-. eexists. split; [reflexivity|]. cbn.
    rewrite Hd, app_nil_r. unfold reverse. rewrite !rev_append_rev, !app_nil_r. split_and!; try done; [cbn in Hn; lia|by intros []].
  - by destruct (mQueue s).
Qed.

(** A step of the thread, with or without a queue. *)
Lemma beside_step h answers a s o :
  beside h answers s -> notify_step a s = Some o ->
  match o with
  | Run s' => beside h (answers ++ [a]) s' /\ mQueue s' = mQueue s
  | Terminate => False
  | NullQueue => mQueue s = None /\ exists b, mThread s = Some (T_switch b)
  | Aborted => a = A_transport_error
  end.
Proof.
  intros (Hc & Hh & Ho & pc & Ht & Htold & Hret & Hgo) Hstep.
  assert (pc <> T_return) as Hpc by (intros ->; unfold notify_step in Hstep; rewrite Ht in Hstep; by destruct a).
  destruct (Hgo Hpc) as [Hn Ha].
  assert (forall s', o = Run s' -> client s' = client s -> mSensorHandle s' = mSensorHandle s -> mQueue s' = mQueue s ->
    opened s' = option_list (open_of a) ++ opened s ->
    (mThread s' = Some T_return -> failed_open a /\ calls s' = [] /\ mActive s' = false) ->
    (mThread s' <> Some T_return -> ~ failed_open a /\ mActive s' = true) ->
    beside h (answers ++ [a]) s' /\ mQueue s' = mQueue s) as Hnext.
  { intros s' -> Hc' Hh' Hq' Ho' Hr Hg. split; [|done].
    destruct (told_step h answers a s s' pc Ht Hh Htold Hstep) as (pc' & Ht' & Htold').
    split; [congruence|]. split; [congruence|]. split.
    { unfold opens_of. rewrite omap_snoc, Ho', Ho, reverse_app. by destruct (open_of a). }
    exists pc'. rewrite Ht' in *. rewrite exists_snoc. split_and!; [done|done| |].
    - intros ->. destruct Hr as (? & ? & ?); [done|]. tauto.
    - intros Hne. destruct Hg as [? ?]; [by intros [= ->]|]. tauto. }
  unfold notify_step in Hstep. rewrite Ht in Hstep.
  destruct pc as [fds| | | |b|], a as [|fd|rc|l|]; try discriminate Hstep.
  - destruct Htold as (_ & _ & _ & Hcalls). specialize (Hcalls ltac:(by eexists)).
    destruct (Z.ltb_spec fd 0) as [Hfd | Hfd]; injection Hstep as <-; (apply Hnext; cbn; try done).
    + by destruct (Z.ltb_spec fd 0); [|lia].
    + intros _. split_and!; [by exists fd|done|done].
    + by destruct (Z.ltb_spec fd 0); [lia|].
    + by case_decide.
    + intros _. split; [|done]. intros (fd' & [= <-] & ?). lia.
  - rewrite Ha in Hstep. injection Hstep as <-. apply Hnext; cbn; try done. intros _. split; [by intros [? [? ?]]|done].
  - injection Hstep as <-. apply Hnext; cbn; try done; [by destruct (rc <? 0)|]. intros _. split; [by intros [? [? ?]]|done].
  - case_decide; [|done]. injection Hstep as <-. apply Hnext; cbn; try done. intros _. split; [by intros [? [? ?]]|done].
  - destruct (mQueue s) as [q|] eqn:Hqs; injection Hstep as <-; [|eauto].
    apply Hnext; cbn; try done. intros _. split; [by intros [? [? ?]]|done].
  - destruct (mQueue s); [|done]. by injection Hstep as <-.
Qed.

(** The whole life of the thread. *)
Lemma beside_run h done_ answers s o :
  beside h done_ s -> notify_run answers s = Some o ->
  match o with
  | Run s' => beside h (done_ ++ answers) s' /\ mQueue s' = mQueue s
  | Terminate => False
  | NullQueue => mQueue s = None
  | Aborted => last answers = Some A_transport_error
  end.
Proof.
  revert done_ s. induction answers as [|a answers IH]; intros done_ s Hs Hrun; cbn in Hrun.
  - injection Hrun as <-. by rewrite app_nil_r.
  - destruct (notify_step a s) as [o'|] eqn:Hstep; [|done]. pose proof (beside_step _ _ _ _ _ Hs Hstep) as Ho.
    destruct o' as [s'| | |]; [|done|destruct answers; [injection Hrun as <-; by destruct Ho|done]|
      destruct answers; [injection Hrun as <-; by subst a|done]].
    destruct Ho as [Hs' Hq]. specialize (IH _ _ Hs' Hrun). rewrite <- (assoc_L (++)) in IH. cbn in IH. rewrite <- Hq.
    destruct o; [done..|]. rewrite last_cons, IH. done.
Qed.

(** A thread that has not returned goes on, and lives if it has a queue, whatever it is told by the system. *)
Lemma beside_goes_on h answers s :
  beside h answers s -> mThread s <> Some T_return -> mQueue s <> None ->
  exists a s', a <> A_transport_error /\ notify_step a s = Some (Run s').
Proof.
  intros (_ & _ & _ & pc & Ht & _) Hr Hq. unfold notify_step. rewrite Ht in *.
  destruct pc as [fds| | | |b|].
  - exists (A_open 3). by eexists.
  - exists A_none. by eexists.
  - exists (A_poll 1). by eexists.
  - exists (A_files (map (fun _ => Build_file_answer 0 1 "1"%char) paths)). by eexists.
  - exists A_none. destruct (mQueue s); [by eexists|done].
  - done.
Qed.

Lemma notify_run_snoc answers a s s' o :
  notify_run answers s = Some (Run s') -> notify_step a s' = Some o -> notify_run (answers ++ [a]) s = Some o.
Proof.
  revert s. induction answers as [|b answers IH]; intros s Hrun Hstep; cbn in *.
  - injection Hrun as ->. rewrite Hstep. by destruct o.
  - destruct (notify_step b s) as [[s1| | |]|]; [by apply IH|by destruct answers..|done].
Qed.

Section Service.
Context `{SensorService}.

(** The sensor that the list has for the notifier. *)
Definition found (m : ISensorManager) : option SensorInfo :=
  match getSensorList m with
  | Ran (l, r) => if decide (r = OK) then List.find (sensor_matches "xiaomi.sensor.nonui" true) l else None
  | Not_run | Failed => None
  end.

(** The sensor and the queue a notifier for this manager works with, if it gets a queue. *)
Definition attached (m : ISensorManager) : option (Z * Z) :=
  it ← found m;
  match createEventQueue m with Ran (Some q, _) => Some (sensorHandle it, q) | _ => None end.

(** A call of the initialisation fails. *)
Definition loses_manager (m : ISensorManager) : Prop :=
  getSensorList m = Failed \/ is_Some (found m) /\ createEventQueue m = Failed.

Lemma main_start_attached m :
  (getSensorList m = Not_run /\ main_start (Some m) = None) \/
  (loses_manager m /\ main_start (Some m) = Some Aborted /\ getSensorList m <> Not_run /\ attached m = None) \/
  (getSensorList m <> Not_run /\ ~ loses_manager m /\
   exists s0, main_start (Some m) = Some (Run s0) /\ mQueue s0 = snd <$> attached m /\
     (forall h q, attached m = Some (h, q) -> mSensorHandle s0 = h)).
Proof.
  unfold main_start, NonUiNotifier_new, initializeSensorQueue, attached, loses_manager, found.
  destruct (getSensorList m) as [[l r]| |]; [|by left|right; left; by eauto].
  right. destruct (decide (r = OK)) as [E | E].
  2: { rewrite bool_decide_true by done. right. split; [done|]. split; [by intros [? | [[? ?] _]]|].
    eexists. split; [reflexivity|]. by split. }
  rewrite bool_decide_false by tauto. destruct (List.find _ l) as [it|]; cbn.
  2: { right. split; [done|]. split; [by intros [? | [[? ?] _]]|].
    eexists. split; [reflexivity|]. by split. }
  destruct (createEventQueue m) as [[q r']| |]; cbn; [right..|left; split; [right; split; [by eexists|done]|done]];
    (split; [done|]; split; [by intros [? | [_ ?]]|]).
  - case_bool_decide; cbn; eexists; (split; [reflexivity|]); destruct q; (split; [reflexivity|]); intros; by simplify_eq.
  - eexists. split; [reflexivity|]. split; [reflexivity|]. intros; by simplify_eq.
Qed.

(** C6: The sensor queue is told what the files say when [poll] reports a change, and nothing else. If the notifier found the
    sensor and got a queue, then, as long as its calls get through, the process lives whatever the system answers; for
    each change that [poll] reports - for each return without an error - the queue is told once, in order: to enable the sensor if one of the
    files, read after that return, reads as true, to disable it otherwise; a failed [poll] leads to no call. Only the
    last change may still be under way, its files unread or its call not made yet. Unless a file failed to open, after which the queue is
    never told anything, the thread goes on for ever. *)
Theorem service_follows_files (m : ISensorManager) (h q : Z) (answers : list answer) (st : main_state) :
  attached m = Some (h, q) -> A_transport_error ∉ answers -> service (Some m) answers = Some st ->
  exists s, st = Asleep s /\ mQueue s = Some q /\ opened s = reverse (opens_of answers) /\
    decisions h answers = reverse (calls s) ++ pending s /\
    length (reports_of answers) = (length (calls s) + in_round s)%nat /\
    (mThread s = Some T_return <-> Exists failed_open answers) /\
    (Exists failed_open answers -> calls s = []) /\
    (~ Exists failed_open answers ->
       exists a s', a <> A_transport_error /\ service (Some m) (answers ++ [a]) = Some (Asleep s')).
Proof using Type.
  intros Hatt Hlost Hs. destruct (main_start_attached m) as [[Hl _] | [(_ & _ & _ & Hn) | (_ & _ & s0 & Hs0 & Hq & Hh)]];
    [unfold attached, found in Hatt; by rewrite Hl in Hatt|congruence|].
  specialize (Hh h q Hatt). rewrite Hatt in Hq. cbn in Hq.
  pose proof (main_start_beside m s0 Hs0) as Hb. rewrite Hh in Hb. unfold service in Hs |- *. rewrite Hs0 in *.
  destruct (notify_run answers s0) as [o|] eqn:Hrun; [|done]. pose proof (beside_run _ _ _ _ _ Hb Hrun) as Ho.
  destruct o as [s| | |]; [|done|congruence|by destruct Hlost; apply last_Some_elem_of].
  injection Hs as <-. destruct Ho as [Hs Hqs]. cbn [app] in Hs. pose proof (beside_goes_on _ _ _ Hs) as Hgo.
  destruct Hs as (_ & _ & Ho & pc & Ht & (Hd & Hn & _) & Hret & Hrun').
  assert (mThread s = Some T_return <-> Exists failed_open answers) as Hiff.
  { rewrite Ht. split; [by intros [= ->]; apply Hret|]. intros Hex. destruct pc; try done; by destruct Hrun'. }
  exists s. split_and!; [done|congruence|done..| |].
  - intros Hex%Hiff. rewrite Ht in Hex. injection Hex as ->. by apply Hret.
  - intros Hex. destruct Hgo as (a & s' & Ha & Hstep); [by rewrite Hiff|congruence|]. exists a, s'.
    by rewrite (notify_run_snoc _ _ _ _ _ Hrun Hstep).
Qed.

(** C33: How the process ends, if it does. Without a sensor manager it exits with an error; when the call for the sensor list
    returns without running its callback it uses a result that was never set. It is killed in two ways only: by the transport of one of its
    calls that fails, at once - the calls of the initialisation, or the call on the queue that was the last thing the thread
    was answered - and by a null queue, which the notifier of a device without the sensor or without a queue uses
    as soon as a file changes: the constructor drops the result of the initialisation. *)
Theorem service_ends (manager : option ISensorManager) (answers : list answer) (st : main_state) :
  service manager answers = Some st ->
  (st = Exit_failure <-> manager = None) /\
  (st = Undefined <-> exists m, manager = Some m /\ getSensorList m = Not_run) /\
  (forall o, st = Killed o ->
     o = NullQueue /\ (exists m, manager = Some m /\ attached m = None) \/
     o = Aborted /\ ((exists m, manager = Some m /\ loses_manager m) \/ last answers = Some A_transport_error)) /\
  (forall m, manager = Some m -> loses_manager m -> st = Killed Aborted) /\
  (forall m s b, manager = Some m -> st = Asleep s -> mThread s = Some (T_switch b) ->
     match attached m with
     | None => service manager (answers ++ [A_none]) = Some (Killed NullQueue)
     | Some _ => service manager (answers ++ [A_transport_error]) = Some (Killed Aborted)
     end).
Proof using Type.
  intros Hs. unfold service in Hs. destruct manager as [m|].
  2: { destruct (main_start None); injection Hs as <-; (split; [done|]; split; [split; [done|by intros (? & ? & _)]|]; by split). }
  destruct (main_start_attached m) as [[Hl H0] | [(Hlost & H0 & Hl & Hn) | (Hl & Hlost & s0 & H0 & Hq & _)]]; rewrite H0 in Hs.
  - injection Hs as <-. split; [done|]. split; [split; [by eauto|done]|]. split; [done|]. split; [|done].
    intros m' [= <-] [H1 | [[x Hx] _]]; [congruence|]. unfold found in Hx. by rewrite Hl in Hx.
  - injection Hs as <-. split; [done|]. split; [split; [done|by intros (m' & [= <-] & ?)]|]. split; [|by split].
    intros o [= <-]. right. split; [done|]. left. by exists m.
  - assert (forall st', st' <> Undefined -> (st' = Undefined <-> exists m0, Some m = Some m0 /\ getSensorList m0 = Not_run)) as Hu
      by (intros st' Hne; split; [done|by intros (m' & [= <-] & ?)]).
    pose proof (main_start_beside m s0 H0) as Hb.
    destruct (notify_run answers s0) as [o|] eqn:Hrun; [|done]. pose proof (beside_run _ _ _ _ _ Hb Hrun) as Ho.
    destruct o as [s| | |]; [|done|..]; injection Hs as <-; (split; [done|]; split; [by apply Hu|]; split; [|split; [by intros m' [= <-]|]]); try done.
    + intros m' s' b [= <-] [= <-] Ht. destruct Ho as [_ Ho]. unfold service. rewrite H0.
      destruct (attached m) as [[h q]|]; cbn in Hq;
        [rewrite (notify_run_snoc _ A_transport_error _ s Aborted Hrun)|rewrite (notify_run_snoc _ A_none _ s NullQueue Hrun)];
        unfold notify_step; by rewrite ?Ht, ?Ho, ?Hq.
    + intros o [= <-]. left. split; [done|]. exists m. split; [done|]. rewrite Hq in Ho. by destruct (attached m).
    + intros o [= <-]. right. by eauto.
Qed.
End Service.

(** A service whose sensor list has another sensor before the wanted one. *)
Definition two_sensors : @ISensorManager numbered_service :=
  @Build_ISensorManager numbered_service (Ran ([Build_SensorInfo "android.sensor.light" 0 3; nonui_sensor], 0)) (Ran (Some 7, 0)).

(** Two files, the second one on, then off. *)
Definition tapped_and_left : list answer :=
  let off := Build_file_answer 0 1 "0"%char in let on := Build_file_answer 0 1 "1"%char in
  [A_open 3; A_open 4; A_open 5; A_none; A_poll 1; A_files [off; on; off]; A_none;
   A_none; A_poll (-1); A_none; A_poll 1; A_files [off; off; off]].

Lemma service_follows_files_witness :
  exists s, @service numbered_service (Some two_sensors) tapped_and_left = Some (Asleep s) /\
    decisions 42 tapped_and_left = [enableSensor 42 20000 0; disableSensor 42] /\
    decisions 42 tapped_and_left = reverse (calls s) ++ pending s.
Proof.
  assert (@attached numbered_service two_sensors = Some (42, 7)) as Ha by (vm_compute; reflexivity).
  assert (A_transport_error ∉ tapped_and_left) as Hin
    by (repeat (apply not_elem_of_cons; split; [discriminate|]); apply not_elem_of_nil).
  assert (@service numbered_service (Some two_sensors) tapped_and_left =
    Some (Asleep (Notifier (Some 7) 42 true (Some (T_switch false)) C_idle [5; 4; 3] [enableSensor 42 20000 0]))) as E
    by (vm_compute; reflexivity).
  destruct (@service_follows_files numbered_service two_sensors 42 7 tapped_and_left _ Ha Hin E) as (s & Hs & _ & _ & Hd & _).
  exists s. split; [rewrite <- Hs; exact E|]. split; [vm_compute; reflexivity|exact Hd].
Defined.

Lemma service_ends_witness :
  @service numbered_service (Some bare_manager) (take 7 tapped_and_left) = Some (Killed NullQueue).
Proof.
  destruct (@service numbered_service (Some bare_manager) (take 6 tapped_and_left)) as [st|] eqn:E; [|discriminate E].
  refine (proj2 (proj2 (proj2 (proj2 (@service_ends numbered_service (Some bare_manager) (take 6 tapped_and_left) st E))))
    bare_manager _ true eq_refl _ _).
  - vm_compute in E. injection E as <-. reflexivity.
  - reflexivity.
Defined.

(** No step closes a descriptor: a notifier that is stopped and activated again holds those of both threads. *)
Lemma never_closed e s s' : step e s = Some (Run s') -> exists fds, opened s' = fds ++ opened s.
Proof.
  assert (forall d t, finish d (deactivate_tail t) = Run s' -> opened s' = opened t) as Hfin.
  { intros d t. unfold finish, destroy_members, deactivate_tail. destruct (mQueue t), d; cbn; destruct (mThread t);
      intros [= <-]; done. }
  destruct e as [| | | |a|]; cbn; [destruct (client s) eqn:Hc; try done; intros [= H]..| | |].
  - unfold activate in H. destruct (mActive s); [injection H as <-; by exists []|].
    cbn in H. destruct (mThread s); [done|]. injection H as <-. by exists [].
  - exists []. unfold deactivate in H. destruct (mActive s); cbn in H; [|by injection H as <-].
    destruct (mThread s); [by injection H as <-|]. exact (Hfin false (with_active false s) H).
  - exists []. unfold deactivate in H. destruct (mActive s); cbn in H.
    + destruct (mThread s); [by injection H as <-|]. exact (Hfin true (with_active false s) H).
    + unfold destroy_members in H. destruct (mThread s); [done|]. by injection H as <-.
  - unfold join. destruct (client s) as [|d|]; [done| |done]. destruct (mThread s) as [[]|]; try done.
    intros [= H]. exists []. by apply (Hfin d (with_thread None s)).
  - intros H. assert (notify_step a s = Some (Run s')) as Hstep by (by destruct (client s)). clear H Hfin.
    unfold notify_step in Hstep. destruct (mThread s) as [[fds| | | |b|]|], a as [|fd|rc|l|]; try discriminate Hstep.
    + destruct (fd <? 0); injection Hstep as <-; [by exists []|by exists [fd]].
    + injection Hstep as <-. by exists [].
    + injection Hstep as <-. by exists [].
    + case_decide; [|done]. injection Hstep as <-. by exists [].
    + destruct (mQueue s); [|done]. injection Hstep as <-. by exists [].
    + by destruct (mQueue s).
  - intros H. exfalso. assert (tail_fails s = Some (Run s')) as Hf by (by destruct (client s)).
    unfold tail_fails in Hf. by repeat case_match.
Qed.
