(* ===== verification/SensorTests.v ===== *)
(** * SensorTests: the native tests of the sensor notifier ([src/tests])

    The mock headers and classes of the tests are one instance of the sensor service that
    Sensors leaves open. The tests are run on the model, and what they check at a few points is
    proved for every mock: which result the initialisation gives, and what a file reads as. *)

From Stdlib Require Import Ascii.
From S2P Require Import Prelude Align Sensors SensorsProps.

#[local] Open Scope string_scope.
#[local] Open Scope list_scope.
#[local] Open Scope Z_scope.

(** ** The mocks *)

(** [enum class Result] of [mock_headers]. *)
Inductive mock_Result : Type := mock_OK | mock_NOT_EXIST | BAD_VALUE.

#[export] Instance mock_Result_eq_dec : EqDecision mock_Result.
Proof. solve_decision. Defined.

(** [SensorFlagBits::WAKE_UP]. *)
Definition mock_WAKE_UP : Z := 1.

Definition mock_service : SensorService :=
  {| Result := mock_Result; OK := mock_OK; NOT_EXIST := mock_NOT_EXIST; WAKE_UP := mock_WAKE_UP |}.

Lemma mock_laws : @SensorServiceLaws mock_service.
Proof. by constructor. Qed.

(** [SensorInfo] of [mock_headers]; floating-point members by their bits. *)
Record mock_SensorInfo : Type := {
  ms_typeAsString : string;
  ms_vendor : Z;
  ms_version : Z;
  ms_sensorHandle : Z;
  ms_type : Z;
  ms_maxRange : Z;
  ms_resolution : Z;
  ms_power : Z;
  ms_minDelay : Z;
  ms_fifoReservedEventCount : Z;
  ms_fifoMaxEventCount : Z;
  ms_requiredPermission : string;
  ms_maxDelay : Z;
  ms_flags : Z;
}.

(** The members the notifier looks at. *)
Definition looked_at (i : mock_SensorInfo) : SensorInfo :=
  Build_SensorInfo (ms_typeAsString i) (ms_flags i) (ms_sensorHandle i).

(** [info] of a test: what the members that are not assigned hold is not determined. *)
Definition assigned (type : string) (flags handle : Z) (i : mock_SensorInfo) : mock_SensorInfo :=
  Build_mock_SensorInfo type (ms_vendor i) (ms_version i) handle (ms_type i) (ms_maxRange i) (ms_resolution i) (ms_power i)
    (ms_minDelay i) (ms_fifoReservedEventCount i) (ms_fifoMaxEventCount i) (ms_requiredPermission i) (ms_maxDelay i) flags.

(** [MockEventQueue] remembers the sensor it was told to disable. *)
Record MockEventQueue : Type := { disabledSensorHandle : Z }.
Definition MockEventQueue_new : MockEventQueue := {| disabledSensorHandle := -1 |}.
Definition mock_disableSensor (h : Z) (q : MockEventQueue) : MockEventQueue := {| disabledSensorHandle := h |}.

(** The queue after the notifier's calls, the newest first; the mock's interface has no [enableSensor]. *)
Fixpoint mock_told (calls : list sensor_call) (q : MockEventQueue) : MockEventQueue :=
  match calls with
  | [] => q
  | enableSensor _ _ _ :: calls => mock_told calls q
  | disableSensor h :: calls => mock_disableSensor h (mock_told calls q)
  end.

Record MockSensorManager : Type := {
  mockedSensors : list SensorInfo;
  mockedGetSensorListResult : mock_Result;
  mockedCreateQueueResult : mock_Result;
}.

(** A fresh mock: no sensors, both calls succeed. *)
Definition MockSensorManager_new : MockSensorManager := Build_MockSensorManager [] mock_OK mock_OK.

(** [mockedSensors.push_back(info)], and the tests' assignments. *)
Definition push_back (info : SensorInfo) (m : MockSensorManager) : MockSensorManager :=
  Build_MockSensorManager (mockedSensors m ++ [info]) (mockedGetSensorListResult m) (mockedCreateQueueResult m).
Definition set_list_result (r : mock_Result) (m : MockSensorManager) : MockSensorManager :=
  Build_MockSensorManager (mockedSensors m) r (mockedCreateQueueResult m).
Definition set_queue_result (r : mock_Result) (m : MockSensorManager) : MockSensorManager :=
  Build_MockSensorManager (mockedSensors m) (mockedGetSensorListResult m) r.

(** The queue [createEventQueue] makes; the mock always runs the callbacks, with a queue
    even when it reports an error. *)
Definition mockedQueue : Z := 0.

Definition manager (m : MockSensorManager) : @ISensorManager mock_service :=
  @Build_ISensorManager mock_service (Ran (mockedSensors m, mockedGetSensorListResult m))
    (Ran (Some mockedQueue, mockedCreateQueueResult m)).

(** [TestSensorNotifier::testInitialize] on a fresh notifier. *)
Definition testInitialize (m : MockSensorManager) (type : string) (wakeup : bool) : @init_outcome mock_service :=
  @initializeSensorQueue mock_service (manager m) type wakeup SensorNotifier_new.

(** ** [test_SensorNotifier.cpp]

    Each test is the conjunction of its assertions. *)

Definition returns (r : mock_Result) (o : @init_outcome mock_service) : bool :=
  match o with Returned r' _ => bool_decide (r' = r) | Uninitialised | Init_aborted => false end.

Definition getSensorHandle (o : @init_outcome mock_service) : option Z :=
  match o with Returned _ s => Some (mSensorHandle s) | Uninitialised | Init_aborted => None end.

Definition getQueue (o : @init_outcome mock_service) : option Z :=
  match o with Returned _ s => mQueue s | Uninitialised | Init_aborted => None end.

Definition test_sensor : SensorInfo := Build_SensorInfo "test.sensor" mock_WAKE_UP 42.
Definition other_sensor : SensorInfo := Build_SensorInfo "other.sensor" 0 42.

Definition testSuccess : bool :=
  let res := testInitialize (push_back test_sensor MockSensorManager_new) "test.sensor" true in
  returns mock_OK res && bool_decide (getSensorHandle res = Some 42) && bool_decide (getQueue res <> None).

Definition testSensorNotFound : bool :=
  returns mock_NOT_EXIST (testInitialize (push_back other_sensor MockSensorManager_new) "test.sensor" true).

Definition testGetListFails : bool :=
  returns BAD_VALUE (testInitialize (set_list_result BAD_VALUE MockSensorManager_new) "test.sensor" true).

Definition testCreateQueueFails : bool :=
  returns BAD_VALUE
    (testInitialize (set_queue_result BAD_VALUE (push_back test_sensor MockSensorManager_new)) "test.sensor" true).

(** [main]: the first failing assertion aborts; 0 is returned when all pass. *)
Definition test_main : option Z :=
  if testSuccess && testSensorNotFound && testGetListFails && testCreateQueueFails then Some 0 else None.

(** ** [test_SensorNotifierUtils.cpp] *)

(** A descriptor: of an open file with its contents, or not open. *)
Definition descriptor : Type := option (list ascii).

(** [createTempFile]. *)
Definition createTempFile (content : list ascii) (len : nat) : descriptor := Some (take len content).

(** What [lseek] to the start and [read] of one byte return: -1 for a descriptor that is not open, no
    byte at the end of the file; [c] is what the byte was before. *)
Definition answers (c : ascii) (fd : descriptor) : file_answer :=
  match fd with
  | None => {| a_lseek := -1; a_read := -1; a_char := c |}
  | Some [] => {| a_lseek := 0; a_read := 0; a_char := c |}
  | Some (x :: _) => {| a_lseek := 0; a_read := 1; a_char := x |}
  end.

Definition readBool_tests (c : ascii) : list bool := [
  readBool (answers c (createTempFile ["1"%char] 1));                  (* ReadBoolTrue *)
  negb (readBool (answers c (createTempFile ["0"%char] 1)));           (* ReadBoolFalse *)
  negb (readBool (answers c None));                                    (* ReadBoolInvalidFd *)
  negb (readBool (answers c (createTempFile [] 0)));                   (* ReadBoolEmptyFile *)
  readBool (answers c (createTempFile ["2"%char] 1));                  (* ReadBoolOtherChar *)
  readBool (answers c (createTempFile ["1"%char; "0"%char] 2))].       (* ReadBoolMultipleChars *)

(** ** The theorems *)

(** The sensor a mock's notifier looks for. *)
Definition wanted (type : string) (wakeup : bool) (x : SensorInfo) : bool :=
  bool_decide (typeAsString x = type) && Bool.eqb (Z.odd (flags x)) wakeup.

Lemma wanted_matches type wakeup x :
  0 <= flags x < 2 ^ 32 -> @sensor_matches mock_service type wakeup x = wanted type wakeup x.
Proof.
  intros Hf. unfold sensor_matches, wanted. f_equal. cbn [WAKE_UP mock_service]. unfold mock_WAKE_UP.
  apply Bool.eq_iff_eq_true. rewrite Z.eqb_eq, land_1_bool by done. by rewrite Bool.eqb_true_iff.
Qed.

Lemma find_wanted type wakeup l :
  (forall x, In x l -> 0 <= flags x < 2 ^ 32) ->
  List.find (@sensor_matches mock_service type wakeup) l = List.find (wanted type wakeup) l.
Proof.
  induction l as [|x l IH]; intros Hf; cbn; [done|].
  rewrite wanted_matches by (apply Hf; by left). rewrite IH by (intros; apply Hf; by right). done.
Qed.

(** What the initialisation does on every mock service, of which the tests check four: an error of the list is
    returned and changes nothing; a list without the sensor gives [NOT_EXIST] and changes nothing; else the result is
    that of the queue, and the notifier has the first sensor's handle and the queue, also when the queue was
    reported to have failed. The tests pass. *)
Theorem mock_initialise (m : MockSensorManager) (type : string) (wakeup : bool) :
  (forall x, In x (mockedSensors m) -> 0 <= flags x < 2 ^ 32) ->
  testInitialize m type wakeup =
    (if decide (mockedGetSensorListResult m = mock_OK)
     then match List.find (wanted type wakeup) (mockedSensors m) with
          | None => @Returned mock_service mock_NOT_EXIST SensorNotifier_new
          | Some x =>
              @Returned mock_service (mockedCreateQueueResult m)
                (with_queue (Some mockedQueue) (with_handle (sensorHandle x) SensorNotifier_new))
          end
     else @Returned mock_service (mockedGetSensorListResult m) SensorNotifier_new) /\
  test_main = Some 0.
Proof.
  intros Hf. split; [|reflexivity]. unfold testInitialize, initializeSensorQueue. cbn [getSensorList createEventQueue manager].
  destruct (decide (mockedGetSensorListResult m = mock_OK)) as [E | E].
  - rewrite E, bool_decide_false by (intros []; reflexivity). rewrite find_wanted by done.
    destruct (List.find _ _) as [x|]; [|done].
    destruct (decide (mockedCreateQueueResult m = mock_OK)) as [E' | E'].
    + rewrite E', bool_decide_false by (intros []; reflexivity). done.
    + by rewrite bool_decide_true.
  - by rewrite bool_decide_true.
Qed.

Lemma mock_initialise_witness :
  testInitialize (set_queue_result BAD_VALUE (push_back test_sensor MockSensorManager_new)) "test.sensor" true =
  @Returned mock_service BAD_VALUE (with_queue (Some mockedQueue) (with_handle 42 SensorNotifier_new)).
Proof.
  refine (proj1 (mock_initialise _ "test.sensor" true _)).
  intros x [<- | []]. split; [vm_compute; discriminate|reflexivity].
Defined.

(** The sensors of the tests are what the notifier sees of them, whatever the members hold that the tests do not assign. *)
Lemma tests_sensors (i : mock_SensorInfo) :
  looked_at (assigned "test.sensor" mock_WAKE_UP 42 i) = test_sensor /\
  looked_at (assigned "other.sensor" 0 42 i) = other_sensor.
Proof. by split. Qed.

(** A notifier whose thread was stopped has told the mock's queue to disable its sensor. *)
Lemma stopped_mock (s s' : notifier) :
  join s = Some (Run s') -> mQueue s <> None ->
  disabledSensorHandle (mock_told (calls s') MockEventQueue_new) = mSensorHandle s.
Proof.
  unfold join, deactivate_tail. intros Hj Hq. destruct (client s) as [|d'|]; try discriminate Hj.
  destruct (mThread s) as [[]|]; try discriminate Hj. cbn in Hj. destruct (mQueue s); [|done].
  by destruct d'; injection Hj as <-.
Qed.

(** What the tests of [readBool] check holds of every file: it reads as true if and only if it can be read and begins with a
    character other than '0', whatever the byte read into held before; and the six tests pass. *)
Theorem readBool_files (c : ascii) (fd : descriptor) :
  (readBool (answers c fd) = true <-> exists x rest, fd = Some (x :: rest) /\ x <> "0"%char) /\
  readBool_tests c = repeat true 6.
Proof.
  split; [|reflexivity]. destruct fd as [[|x rest]|]; cbn; [split; [done|naive_solver]| |split; [done|naive_solver]].
  unfold readBool. cbn. destruct (Ascii.eqb_spec x "0"%char) as [-> | Hx]; cbn; [split; [done|naive_solver]|].
  split; [|done]. intros _. by exists x, rest.
Qed.
