(* ===== verification/SmartPtr.v ===== *)
(** * SmartPtr: the smart pointer of the tests

    The mock headers of src/tests give [android::sp] by a [std::shared_ptr]: handles that share a control
    block own its object together, and the last of them that goes deletes it. The operations of
    [sp], and what programs made of them do to the objects. *)

From S2P Require Import Prelude.

#[local] Open Scope list_scope.
#[local] Open Scope Z_scope.

(** ** Control blocks *)

(** The control blocks, each with the address of its object and the number of its owners; a block's name is its
    index. [deleted]: the objects deleted, the last one first. *)
Record heap : Type := Heap { blocks : list (Z * nat); deleted : list Z }.

(** [sp<T>]: the control block of its [ptr]; [None] for a null pointer. *)
Definition sp : Type := option nat.

Definition count (b n : nat) (h : heap) : heap :=
  match blocks h !! b with
  | Some (p, _) => Heap (<[b := (p, n)]> (blocks h)) (if decide (n = 0%nat) then p :: deleted h else deleted h)
  | None => h
  end.

(** A copy of a [shared_ptr] has one owner more; the destructor has one less, and deletes after the last. *)
Definition own (s : sp) (h : heap) : heap :=
  match s with
  | Some b => match blocks h !! b with Some (_, n) => count b (S n) h | None => h end
  | None => h
  end.

Definition release (s : sp) (h : heap) : heap :=
  match s with
  | Some b => match blocks h !! b with Some (_, S n) => count b n h | _ => h end
  | None => h
  end.

(** ** The operations of [sp] *)

(** [sp()], and [sp(T* p)] for an object, which makes a control block of its own. *)
Definition sp_null (h : heap) : sp * heap := (None, h).
Definition sp_raw (p : Z) (h : heap) : sp * heap :=
  (Some (length (blocks h)), Heap (blocks h ++ [(p, 1%nat)]) (deleted h)).

(** [get], [operator bool] and the comparisons with [nullptr]. *)
Definition sp_get (s : sp) (h : heap) : option Z := b ← s; x ← blocks h !! b; Some x.1.
Definition sp_bool (s : sp) : bool := bool_decide (s <> None).
Definition sp_eq_null (s : sp) : bool := bool_decide (s = None).

(** The copy constructor, the assignment of [other] to [s], and the destructor. *)
Definition sp_copy (other : sp) (h : heap) : sp * heap := (other, own other h).
Definition sp_assign (s other : sp) (h : heap) : sp * heap := (other, release s (own other h)).
Definition sp_delete (s : sp) (h : heap) : heap := release s h.

(** From a [shared_ptr], passed by value: the parameter is an owner as long as the constructor runs. *)
Definition sp_shared (other : sp) (h : heap) : sp * heap := (other, release other (own other (own other h))).

(** The conversion from [sp<U>]: a [dynamic_pointer_cast], which is null when the object is no [T]. *)
Definition sp_convert (is_T : Z -> bool) (other : sp) (h : heap) : sp * heap :=
  match sp_get other h with
  | Some p => if is_T p then (other, own other h) else (None, h)
  | None => (None, h)
  end.

(** ** Programs *)

(** The handles of a program, by position, and the heap. *)
Record memory : Type := Memory { handles : list sp; hp : heap }.

Definition memory_new : memory := Memory [] (Heap [] []).

Inductive sp_op : Type :=
  | O_null
  | O_raw (p : Z)
  | O_copy (i : nat)
  | O_shared (i : nat)
  | O_convert (is_T : Z -> bool) (i : nat)
  | O_assign (i j : nat)
  | O_delete (i : nat).

Definition add_handle (m : memory) (r : sp * heap) : memory := Memory (r.1 :: handles m) r.2.

Definition sp_step (o : sp_op) (m : memory) : option memory :=
  match o with
  | O_null => Some (add_handle m (sp_null (hp m)))
  | O_raw p => Some (add_handle m (sp_raw p (hp m)))
  | O_copy i => s ← handles m !! i; Some (add_handle m (sp_copy s (hp m)))
  | O_shared i => s ← handles m !! i; Some (add_handle m (sp_shared s (hp m)))
  | O_convert is_T i => s ← handles m !! i; Some (add_handle m (sp_convert is_T s (hp m)))
  | O_assign i j =>
      s ← handles m !! i; other ← handles m !! j;
      let '(r, h) := sp_assign s other (hp m) in Some (Memory (<[i := r]> (handles m)) h)
  | O_delete i => s ← handles m !! i; Some (Memory (delete i (handles m)) (sp_delete s (hp m)))
  end.

Fixpoint sp_run (os : list sp_op) (m : memory) : option memory :=
  match os with [] => Some m | o :: os => m' ← sp_step o m; sp_run os m' end.

(** The objects a program hands over to handles. *)
Definition wrapped (os : list sp_op) : list Z := omap (fun o => match o with O_raw p => Some p | _ => None end) os.

(** ** Owners *)

Definition owners (b : nat) (l : list sp) : nat := length (filter (fun s => s = Some b) l).

#[export] Instance owners_proper b : Proper ((≡ₚ) ==> eq) (owners b).
Proof. intros l l' H. unfold owners. by rewrite H. Qed.

Lemma owners_cons b s l : owners b (s :: l) = ((if decide (s = Some b) then 1 else 0) + owners b l)%nat.
Proof. unfold owners. rewrite filter_cons. repeat case_decide; cbn; congruence || done. Qed.

Lemma owners_elem b l : Some b ∈ l -> (0 < owners b l)%nat.
Proof.
  intros [l1 [l2 ->]]%list_elem_of_split. rewrite <- (Permutation_middle l1 l2 (Some b)), owners_cons, decide_True by done. lia.
Qed.

Definition dead (bs : list (Z * nat)) : list Z := (filter (fun x => x.2 = 0%nat) bs).*1.

Lemma dead_sublist bs : dead bs `sublist_of` bs.*1.
Proof.
  unfold dead. induction bs as [|[p n] bs IH]; [done|]. rewrite filter_cons. case_decide; cbn; [by apply sublist_skip|by apply sublist_cons].
Qed.

Lemma dead_all bs : Forall (fun x => x.2 = 0%nat) bs -> dead bs = bs.*1.
Proof. unfold dead. induction 1 as [|[p n] bs H _ IH]; [done|]. rewrite filter_cons, decide_True by done. cbn. by f_equal. Qed.

(** Every block knows its owners, and exactly the objects without owners were deleted, each once for its block. *)
Record owned (l : list sp) (h : heap) : Prop := {
  owned_count b p n : blocks h !! b = Some (p, n) -> n = owners b l;
  owned_block b : Some b ∈ l -> is_Some (blocks h !! b);
  owned_deleted : deleted h ≡ₚ dead (blocks h);
}.

#[export] Instance owned_proper : Proper ((≡ₚ) ==> eq ==> iff) owned.
Proof.
  intros l l' H h _ <-. split; intros [Hc Hb Hd]; split; try done.
  - intros b p n Hp. rewrite <- H. by eapply Hc.
  - intros b Hp. apply Hb. by rewrite H.
  - intros b p n Hp. rewrite H. by eapply Hc.
  - intros b Hp. apply Hb. by rewrite <- H.
Qed.

Lemma dead_insert bs b p n n' :
  bs !! b = Some (p, n) ->
  (if decide (n = 0%nat) then [p] else []) ++ dead (<[b := (p, n')]> bs) ≡ₚ
  (if decide (n' = 0%nat) then [p] else []) ++ dead bs.
Proof.
  intros Hb. pose proof (lookup_lt_Some _ _ _ Hb) as Hlt.
  rewrite <- (take_drop_middle _ _ _ Hb) at 2. rewrite insert_take_drop by done. unfold dead.
  rewrite !filter_app, !filter_cons, !fmap_app. cbn. repeat case_decide; cbn; solve_Permutation.
Qed.

(** A block gets another number of owners. *)
Lemma owned_recount l l' h b p n n' :
  owned l h -> blocks h !! b = Some (p, n) -> (0 < n)%nat -> n' = owners b l' ->
  (forall c, c <> b -> owners c l' = owners c l) -> (forall c, Some c ∈ l' -> c = b \/ Some c ∈ l) ->
  owned l' (count b n' h).
Proof.
  intros [Hc Hb Hd] Hp Hn Hn' Hoth Hin. pose proof (lookup_lt_Some _ _ _ Hp) as Hlt. unfold count. rewrite Hp.
  split; cbn [blocks deleted].
  - intros c q k. destruct (decide (c = b)) as [-> | Hne].
    + rewrite list_lookup_insert_eq by done. by intros [= _ <-].
    + rewrite list_lookup_insert_ne by done. rewrite Hoth by done. apply Hc.
  - intros c [-> | Hcin]%Hin; [by rewrite list_lookup_insert_eq|].
    apply lookup_lt_is_Some_2. rewrite length_insert. by apply lookup_lt_is_Some_1, Hb.
  - pose proof (dead_insert (blocks h) b p n n' Hp) as Hdead. rewrite (decide_False (P := n = 0%nat)) in Hdead by lia.
    cbn [app] in Hdead. etrans; [|symmetry; exact Hdead]. rewrite <- Hd. case_decide; done.
Qed.

Lemma owned_own l h s : owned l h -> s ∈ l -> owned (s :: l) (own s h).
Proof.
  intros Ho Hs. destruct s as [b|]; cbn.
  - destruct (owned_block _ _ Ho b Hs) as [[p n] Hp]. rewrite Hp. pose proof (owned_count _ _ Ho _ _ _ Hp) as Hn.
    pose proof (owners_elem b l Hs). eapply owned_recount; [done|done|lia|..].
    + by rewrite owners_cons, decide_True, Hn by done.
    + intros c Hc. rewrite owners_cons, decide_False by congruence. done.
    + intros c [Hc | Hc]%elem_of_cons; [left; congruence|by right].
  - destruct Ho as [Hc Hb Hd]. split; [|set_solver|done].
    intros b p n Hp. rewrite owners_cons, decide_False by done. by eapply Hc.
Qed.

Lemma owned_release l l' h s : owned l h -> l ≡ₚ s :: l' -> owned l' (release s h).
Proof.
  intros Ho Hl. rewrite Hl in Ho. clear l Hl. destruct s as [b|]; cbn.
  - destruct (owned_block _ _ Ho b ltac:(by left)) as [[p n] Hp]. rewrite Hp.
    pose proof (owned_count _ _ Ho _ _ _ Hp) as Hn. rewrite owners_cons, decide_True in Hn by done. cbn in Hn. rewrite Hn in Hp |- *.
    eapply owned_recount; [done|exact Hp|lia|done|..].
    + intros c Hc. rewrite owners_cons, decide_False by congruence. done.
    + intros c Hc. right. by right.
  - destruct Ho as [Hc Hb Hd]. split; [|set_solver|done].
    intros b p n Hp. specialize (Hc _ _ _ Hp). rewrite owners_cons, decide_False in Hc by done. done.
Qed.

Lemma owned_null l h : owned l h -> owned (None :: l) h.
Proof.
  intros [Hc Hb Hd]. split; [|set_solver|done].
  intros b p n Hp. rewrite owners_cons, decide_False by done. by eapply Hc.
Qed.

Lemma owned_raw l h p : owned l h -> owned ((sp_raw p h).1 :: l) (sp_raw p h).2.
Proof.
  intros [Hc Hb Hd]. cbn. assert (owners (length (blocks h)) l = 0%nat) as Hnew.
  { unfold owners. destruct (filter _ l) as [|s l'] eqn:E; [done|].
    assert (s ∈ filter (fun s => s = Some (length (blocks h))) l) as [-> Hs]%list_elem_of_filter by (rewrite E; by left).
    apply Hb, lookup_lt_is_Some_1 in Hs. lia. }
  split; cbn [blocks deleted].
  - intros b q n [Hq | [Hge Hq]]%lookup_app_Some.
    + rewrite owners_cons, decide_False; [by eapply Hc|]. intros [= <-]. apply lookup_lt_Some in Hq. lia.
    + apply list_lookup_singleton_Some in Hq as [Hi [= _ <-]]. assert (b = length (blocks h)) as -> by lia.
      by rewrite owners_cons, decide_True, Hnew by done.
  - intros b [E | Hin]%elem_of_cons.
    + injection E as ->. rewrite lookup_app_r, Nat.sub_diag by lia. by eexists.
    + destruct (Hb b Hin) as [x Hx]. exists x. by apply lookup_app_l_Some.
  - rewrite Hd. unfold dead. rewrite filter_app, fmap_app, filter_cons. cbn. by rewrite app_nil_r.
Qed.

Lemma own_blocks s h : (blocks (own s h)).*1 = (blocks h).*1.
Proof.
  destruct s as [b|]; cbn; [|done]. destruct (blocks h !! b) as [[p n]|] eqn:Hp; [|done]. unfold count. rewrite Hp. cbn.
  rewrite list_fmap_insert. apply list_insert_id. by rewrite list_lookup_fmap, Hp.
Qed.

Lemma release_blocks s h : (blocks (release s h)).*1 = (blocks h).*1.
Proof.
  destruct s as [b|]; cbn; [|done]. destruct (blocks h !! b) as [[p [|n]]|] eqn:Hp; [done| |done]. unfold count. rewrite Hp. cbn.
  rewrite list_fmap_insert. apply list_insert_id. by rewrite list_lookup_fmap, Hp.
Qed.

(** A step keeps the books, and makes blocks for what it wraps only. *)
Lemma sp_step_owned o m m' :
  owned (handles m) (hp m) -> sp_step o m = Some m' ->
  owned (handles m') (hp m') /\ (blocks (hp m')).*1 = (blocks (hp m)).*1 ++ wrapped [o].
Proof.
  intros Ho Hstep. destruct m as [l h]. cbn [handles hp] in *.
  destruct o as [|p|i|i|is_T i|i j|i]; cbn in Hstep;
    repeat match type of Hstep with context [?l !! ?i] =>
      let s := fresh "s" in let H := fresh "Hi" in destruct (l !! i) as [s|] eqn:H; cbn in Hstep; [|done] end;
    injection Hstep as <-; cbn [handles hp add_handle fst snd].
  - split; [by apply owned_null|by rewrite app_nil_r].
  - split; [by apply owned_raw|]. cbn. by rewrite fmap_app.
  - apply list_elem_of_lookup_2 in Hi. split; [by apply owned_own|]. cbn. by rewrite own_blocks, app_nil_r.
  - apply list_elem_of_lookup_2 in Hi. cbn. split; [|by rewrite release_blocks, !own_blocks, app_nil_r].
    eapply owned_release; [apply owned_own; [by apply owned_own|by left]|done].
  - apply list_elem_of_lookup_2 in Hi. unfold sp_convert. cbn [wrapped omap list_omap]. rewrite app_nil_r.
    destruct (sp_get s h) as [p|]; [destruct (is_T p)|]; cbn [fst snd];
      [split; [by apply owned_own|by rewrite own_blocks]|split; [by apply owned_null|done]..].
  - cbn. split; [|by rewrite release_blocks, own_blocks, app_nil_r].
    apply (owned_release (s0 :: l)); [apply owned_own; [done|by eapply list_elem_of_lookup_2]|].
    pose proof (lookup_lt_Some _ _ _ Hi) as Hlt. rewrite insert_take_drop by done.
    rewrite <- (take_drop_middle _ _ _ Hi) at 1. solve_Permutation.
  - cbn. split; [|by rewrite release_blocks, app_nil_r]. eapply owned_release; [done|]. by apply delete_Permutation.
Qed.

Lemma sp_run_owned os m m' :
  owned (handles m) (hp m) -> sp_run os m = Some m' ->
  owned (handles m') (hp m') /\ (blocks (hp m')).*1 = (blocks (hp m)).*1 ++ wrapped os.
Proof.
  revert m. induction os as [|o os IH]; intros m Ho Hrun; cbn in Hrun.
  - injection Hrun as <-. split; [done|]. by rewrite app_nil_r.
  - destruct (sp_step o m) as [m1|] eqn:Hstep; cbn in Hrun; [|done].
    destruct (sp_step_owned _ _ _ Ho Hstep) as [Ho1 Hb1]. destruct (IH _ Ho1 Hrun) as [Ho' Hb]. split; [done|].
    rewrite Hb, Hb1, <- (assoc_L (++)). by destruct o.
Qed.

(** C39: Whatever a program does with its handles, if it wraps no object twice then no object is deleted twice, none is deleted
    as long as a handle leads to it, and when no handle leads to any object then all have been deleted. *)
Theorem sp_safe (os : list sp_op) (m : memory) :
  sp_run os memory_new = Some m -> NoDup (wrapped os) ->
  NoDup (deleted (hp m)) /\
  (forall s p, s ∈ handles m -> sp_get s (hp m) = Some p -> p ∉ deleted (hp m)) /\
  ((forall s, s ∈ handles m -> sp_eq_null s = true) -> deleted (hp m) ≡ₚ wrapped os).
Proof.
  intros Hrun Hnd. assert (owned [] (Heap [] [])) as Hnew by (split; [by intros ????|set_solver|done]).
  destruct (sp_run_owned os memory_new m Hnew Hrun) as [[Hc Hb Hd] Hw]. cbn in Hw.
  rewrite <- Hw in Hnd. split_and!.
  - rewrite Hd. eapply sublist_NoDup; [exact Hnd|]. apply dead_sublist.
  - intros [b|] p Hs Hget; cbn in Hget; [|done]. destruct (blocks (hp m) !! b) as [[q n]|] eqn:Hp; cbn in Hget; [|done].
    injection Hget as ->. rewrite Hd. unfold dead. intros ([p' n'] & -> & [Hz Hin]%list_elem_of_filter)%list_elem_of_fmap.
    cbn in *. subst n'. apply list_elem_of_lookup_1 in Hin as [b' Hb'].
    assert (b' = b) as ->.
    { eapply NoDup_lookup; [exact Hnd|..]; rewrite list_lookup_fmap; [by rewrite Hb'|by rewrite Hp]. }
    pose proof (Hc _ _ _ Hb') as H0. pose proof (owners_elem b _ Hs). lia.
  - intros Hnull. rewrite Hd, <- Hw, dead_all; [done|]. apply Forall_lookup_2. intros b [p n] Hp. cbn. rewrite (Hc _ _ _ Hp).
    destruct (decide (Some b ∈ handles m)) as [Hin | Hout]; [by apply Hnull in Hin|].
    unfold owners. destruct (filter _ _) as [|s l] eqn:E; [done|].
    assert (s ∈ filter (fun s => s = Some b) (handles m)) as [-> Hs]%list_elem_of_filter by (rewrite E; by left). done.
Qed.

(** An object is wrapped, passed on as a [shared_ptr], copied, and its handles go. *)
Definition shared_and_dropped : list sp_op := [O_raw 100; O_shared 0; O_copy 0; O_null; O_assign 3 0; O_delete 3; O_delete 1; O_delete 1; O_delete 0].

Lemma sp_safe_witness : exists m, sp_run shared_and_dropped memory_new = Some m /\ deleted (hp m) ≡ₚ [100].
Proof.
  destruct (sp_run shared_and_dropped memory_new) as [m|] eqn:E; [|discriminate E].
  exists m. split; [reflexivity|]. refine (proj2 (proj2 (sp_safe shared_and_dropped m E _)) _).
  - repeat constructor; set_solver.
  - vm_compute in E. injection E as <-. intros s Hs. by apply not_elem_of_nil in Hs.
Defined.

(** The wrapped pointer of Android counts in the object itself; this one counts beside it, so a second handle
    made from the same object deletes it again. *)
Example sp_raw_twice :
  (deleted ∘ hp) <$> sp_run [O_raw 100; O_raw 100; O_delete 0; O_delete 0] memory_new = Some [100; 100].
Proof. reflexivity. Qed.
