(* ===== verification/Ipa.v ===== *)
(** * Ipa: clients, resources and events of [include/linux/msm_ipa.h]

    The numbering of the IPA clients and resource-manager resources with the
    predicates on client numbers, and the chain of the event enumerations, each
    of which begins where the one before ends. *)

From S2P Require Import Prelude.

#[local] Open Scope string_scope.
#[local] Open Scope list_scope.
#[local] Open Scope Z_scope.

(** ** Clients *)

Inductive ipa_client_type : Type :=
  | IPA_CLIENT_HSIC1_PROD | IPA_CLIENT_HSIC1_CONS | IPA_CLIENT_HSIC2_PROD | IPA_CLIENT_HSIC2_CONS
  | IPA_CLIENT_HSIC3_PROD | IPA_CLIENT_HSIC3_CONS | IPA_CLIENT_HSIC4_PROD | IPA_CLIENT_HSIC4_CONS
  | IPA_CLIENT_HSIC5_PROD | IPA_CLIENT_HSIC5_CONS | IPA_CLIENT_WLAN1_PROD | IPA_CLIENT_WLAN1_CONS
  | IPA_CLIENT_A5_WLAN_AMPDU_PROD | IPA_CLIENT_WLAN2_CONS | IPA_CLIENT_WLAN3_PROD
  | IPA_CLIENT_WLAN3_CONS | IPA_CLIENT_WLAN2_PROD1 | IPA_CLIENT_WLAN4_CONS | IPA_CLIENT_USB_PROD
  | IPA_CLIENT_USB_CONS | IPA_CLIENT_USB2_PROD | IPA_CLIENT_USB2_CONS | IPA_CLIENT_USB3_PROD
  | IPA_CLIENT_USB3_CONS | IPA_CLIENT_USB4_PROD | IPA_CLIENT_USB4_CONS | IPA_CLIENT_UC_USB_PROD
  | IPA_CLIENT_USB_DPL_CONS | IPA_CLIENT_A2_EMBEDDED_PROD | IPA_CLIENT_A2_EMBEDDED_CONS
  | IPA_CLIENT_A2_TETHERED_PROD | IPA_CLIENT_A2_TETHERED_CONS | IPA_CLIENT_APPS_LAN_PROD
  | IPA_CLIENT_APPS_LAN_CONS | IPA_CLIENT_APPS_WAN_PROD | IPA_CLIENT_APPS_WAN_CONS
  | IPA_CLIENT_APPS_CMD_PROD | IPA_CLIENT_A5_LAN_WAN_CONS | IPA_CLIENT_ODU_PROD
  | IPA_CLIENT_ODU_EMB_CONS | IPA_CLIENT_WLAN3_PROD1 | IPA_CLIENT_ODU_TETH_CONS
  | IPA_CLIENT_MHI_PROD | IPA_CLIENT_MHI_CONS | IPA_CLIENT_MEMCPY_DMA_SYNC_PROD
  | IPA_CLIENT_MEMCPY_DMA_SYNC_CONS | IPA_CLIENT_MEMCPY_DMA_ASYNC_PROD
  | IPA_CLIENT_MEMCPY_DMA_ASYNC_CONS | IPA_CLIENT_ETHERNET_PROD | IPA_CLIENT_ETHERNET_CONS
  | IPA_CLIENT_Q6_LAN_PROD | IPA_CLIENT_Q6_LAN_CONS | IPA_CLIENT_Q6_WAN_PROD
  | IPA_CLIENT_Q6_WAN_CONS | IPA_CLIENT_Q6_CMD_PROD | IPA_CLIENT_Q6_DUN_CONS
  | IPA_CLIENT_Q6_DECOMP_PROD | IPA_CLIENT_Q6_DECOMP_CONS | IPA_CLIENT_Q6_DECOMP2_PROD
  | IPA_CLIENT_Q6_DECOMP2_CONS | IPA_CLIENT_Q6_LTE_WIFI_AGGR_CONS | IPA_CLIENT_TEST_PROD
  | IPA_CLIENT_TEST_CONS | IPA_CLIENT_TEST1_PROD | IPA_CLIENT_TEST1_CONS | IPA_CLIENT_TEST2_PROD
  | IPA_CLIENT_TEST2_CONS | IPA_CLIENT_TEST3_PROD | IPA_CLIENT_TEST3_CONS | IPA_CLIENT_TEST4_PROD
  | IPA_CLIENT_TEST4_CONS | IPA_CLIENT_DUMMY_CONS | IPA_CLIENT_Q6_DL_NLO_DATA_PROD
  | IPA_CLIENT_Q6_UL_NLO_DATA_CONS | IPA_CLIENT_Q6_UL_NLO_ACK_CONS
  | IPA_CLIENT_Q6_QBAP_STATUS_CONS | IPA_CLIENT_MHI_DPL_CONS | IPA_CLIENT_ODL_DPL_CONS
  | IPA_CLIENT_Q6_AUDIO_DMA_MHI_PROD | IPA_CLIENT_Q6_AUDIO_DMA_MHI_CONS | IPA_CLIENT_WIGIG_PROD
  | IPA_CLIENT_WIGIG1_CONS | IPA_CLIENT_WIGIG2_CONS | IPA_CLIENT_WIGIG3_CONS
  | IPA_CLIENT_WIGIG4_CONS | IPA_CLIENT_APPS_WAN_COAL_CONS | IPA_CLIENT_MHI_PRIME_TETH_PROD
  | IPA_CLIENT_MHI_PRIME_TETH_CONS | IPA_CLIENT_MHI_PRIME_RMNET_PROD
  | IPA_CLIENT_MHI_PRIME_RMNET_CONS | IPA_CLIENT_MHI_PRIME_DPL_PROD | IPA_CLIENT_MHI_COAL_CONS
  | IPA_CLIENT_AQC_ETHERNET_PROD | IPA_CLIENT_AQC_ETHERNET_CONS
  | IPA_CLIENT_APPS_WAN_LOW_LAT_PROD | IPA_CLIENT_APPS_WAN_LOW_LAT_CONS | IPA_CLIENT_QDSS_PROD
  | IPA_CLIENT_MHI_QDSS_CONS | IPA_CLIENT_RTK_ETHERNET_PROD | IPA_CLIENT_RTK_ETHERNET_CONS
  | IPA_CLIENT_MHI_LOW_LAT_PROD | IPA_CLIENT_MHI_LOW_LAT_CONS | IPA_CLIENT_MHI2_PROD
  | IPA_CLIENT_MHI2_CONS | IPA_CLIENT_Q6_CV2X_PROD | IPA_CLIENT_Q6_CV2X_CONS
  | IPA_CLIENT_ETHERNET2_PROD | IPA_CLIENT_ETHERNET2_CONS | IPA_CLIENT_WLAN2_CONS1
  | IPA_CLIENT_APPS_WAN_LOW_LAT_DATA_PROD | IPA_CLIENT_APPS_WAN_LOW_LAT_DATA_CONS
  | IPA_CLIENT_Q6_DL_NLO_LL_DATA_PROD | IPA_CLIENT_TPUT_CONS | IPA_CLIENT_Q6_DL_NLO_ETH_DATA_PROD
  | IPA_CLIENT_APPS_WAN_ETH_PROD.

#[export] Instance ipa_client_type_enum : CEnum ipa_client_type := {
  enum_value c := match c with
    | IPA_CLIENT_HSIC1_PROD => 0 | IPA_CLIENT_HSIC1_CONS => 1 | IPA_CLIENT_HSIC2_PROD => 2
    | IPA_CLIENT_HSIC2_CONS => 3 | IPA_CLIENT_HSIC3_PROD => 4 | IPA_CLIENT_HSIC3_CONS => 5
    | IPA_CLIENT_HSIC4_PROD => 6 | IPA_CLIENT_HSIC4_CONS => 7 | IPA_CLIENT_HSIC5_PROD => 8
    | IPA_CLIENT_HSIC5_CONS => 9 | IPA_CLIENT_WLAN1_PROD => 10 | IPA_CLIENT_WLAN1_CONS => 11
    | IPA_CLIENT_A5_WLAN_AMPDU_PROD => 12 | IPA_CLIENT_WLAN2_CONS => 13
    | IPA_CLIENT_WLAN3_PROD => 14 | IPA_CLIENT_WLAN3_CONS => 15 | IPA_CLIENT_WLAN2_PROD1 => 16
    | IPA_CLIENT_WLAN4_CONS => 17 | IPA_CLIENT_USB_PROD => 18 | IPA_CLIENT_USB_CONS => 19
    | IPA_CLIENT_USB2_PROD => 20 | IPA_CLIENT_USB2_CONS => 21 | IPA_CLIENT_USB3_PROD => 22
    | IPA_CLIENT_USB3_CONS => 23 | IPA_CLIENT_USB4_PROD => 24 | IPA_CLIENT_USB4_CONS => 25
    | IPA_CLIENT_UC_USB_PROD => 26 | IPA_CLIENT_USB_DPL_CONS => 27
    | IPA_CLIENT_A2_EMBEDDED_PROD => 28 | IPA_CLIENT_A2_EMBEDDED_CONS => 29
    | IPA_CLIENT_A2_TETHERED_PROD => 30 | IPA_CLIENT_A2_TETHERED_CONS => 31
    | IPA_CLIENT_APPS_LAN_PROD => 32 | IPA_CLIENT_APPS_LAN_CONS => 33
    | IPA_CLIENT_APPS_WAN_PROD => 34 | IPA_CLIENT_APPS_WAN_CONS => 35
    | IPA_CLIENT_APPS_CMD_PROD => 36 | IPA_CLIENT_A5_LAN_WAN_CONS => 37
    | IPA_CLIENT_ODU_PROD => 38 | IPA_CLIENT_ODU_EMB_CONS => 39 | IPA_CLIENT_WLAN3_PROD1 => 40
    | IPA_CLIENT_ODU_TETH_CONS => 41 | IPA_CLIENT_MHI_PROD => 42 | IPA_CLIENT_MHI_CONS => 43
    | IPA_CLIENT_MEMCPY_DMA_SYNC_PROD => 44 | IPA_CLIENT_MEMCPY_DMA_SYNC_CONS => 45
    | IPA_CLIENT_MEMCPY_DMA_ASYNC_PROD => 46 | IPA_CLIENT_MEMCPY_DMA_ASYNC_CONS => 47
    | IPA_CLIENT_ETHERNET_PROD => 48 | IPA_CLIENT_ETHERNET_CONS => 49
    | IPA_CLIENT_Q6_LAN_PROD => 50 | IPA_CLIENT_Q6_LAN_CONS => 51 | IPA_CLIENT_Q6_WAN_PROD => 52
    | IPA_CLIENT_Q6_WAN_CONS => 53 | IPA_CLIENT_Q6_CMD_PROD => 54 | IPA_CLIENT_Q6_DUN_CONS => 55
    | IPA_CLIENT_Q6_DECOMP_PROD => 56 | IPA_CLIENT_Q6_DECOMP_CONS => 57
    | IPA_CLIENT_Q6_DECOMP2_PROD => 58 | IPA_CLIENT_Q6_DECOMP2_CONS => 59
    | IPA_CLIENT_Q6_LTE_WIFI_AGGR_CONS => 61 | IPA_CLIENT_TEST_PROD => 62
    | IPA_CLIENT_TEST_CONS => 63 | IPA_CLIENT_TEST1_PROD => 64 | IPA_CLIENT_TEST1_CONS => 65
    | IPA_CLIENT_TEST2_PROD => 66 | IPA_CLIENT_TEST2_CONS => 67 | IPA_CLIENT_TEST3_PROD => 68
    | IPA_CLIENT_TEST3_CONS => 69 | IPA_CLIENT_TEST4_PROD => 70 | IPA_CLIENT_TEST4_CONS => 71
    | IPA_CLIENT_DUMMY_CONS => 73 | IPA_CLIENT_Q6_DL_NLO_DATA_PROD => 74
    | IPA_CLIENT_Q6_UL_NLO_DATA_CONS => 75 | IPA_CLIENT_Q6_UL_NLO_ACK_CONS => 77
    | IPA_CLIENT_Q6_QBAP_STATUS_CONS => 79 | IPA_CLIENT_MHI_DPL_CONS => 81
    | IPA_CLIENT_ODL_DPL_CONS => 83 | IPA_CLIENT_Q6_AUDIO_DMA_MHI_PROD => 84
    | IPA_CLIENT_Q6_AUDIO_DMA_MHI_CONS => 85 | IPA_CLIENT_WIGIG_PROD => 86
    | IPA_CLIENT_WIGIG1_CONS => 87 | IPA_CLIENT_WIGIG2_CONS => 89 | IPA_CLIENT_WIGIG3_CONS => 91
    | IPA_CLIENT_WIGIG4_CONS => 93 | IPA_CLIENT_APPS_WAN_COAL_CONS => 95
    | IPA_CLIENT_MHI_PRIME_TETH_PROD => 96 | IPA_CLIENT_MHI_PRIME_TETH_CONS => 97
    | IPA_CLIENT_MHI_PRIME_RMNET_PROD => 98 | IPA_CLIENT_MHI_PRIME_RMNET_CONS => 99
    | IPA_CLIENT_MHI_PRIME_DPL_PROD => 100 | IPA_CLIENT_MHI_COAL_CONS => 101
    | IPA_CLIENT_AQC_ETHERNET_PROD => 102 | IPA_CLIENT_AQC_ETHERNET_CONS => 103
    | IPA_CLIENT_APPS_WAN_LOW_LAT_PROD => 104 | IPA_CLIENT_APPS_WAN_LOW_LAT_CONS => 105
    | IPA_CLIENT_QDSS_PROD => 106 | IPA_CLIENT_MHI_QDSS_CONS => 107
    | IPA_CLIENT_RTK_ETHERNET_PROD => 108 | IPA_CLIENT_RTK_ETHERNET_CONS => 109
    | IPA_CLIENT_MHI_LOW_LAT_PROD => 110 | IPA_CLIENT_MHI_LOW_LAT_CONS => 111
    | IPA_CLIENT_MHI2_PROD => 112 | IPA_CLIENT_MHI2_CONS => 113 | IPA_CLIENT_Q6_CV2X_PROD => 114
    | IPA_CLIENT_Q6_CV2X_CONS => 115 | IPA_CLIENT_ETHERNET2_PROD => 116
    | IPA_CLIENT_ETHERNET2_CONS => 117 | IPA_CLIENT_WLAN2_CONS1 => 119
    | IPA_CLIENT_APPS_WAN_LOW_LAT_DATA_PROD => 120 | IPA_CLIENT_APPS_WAN_LOW_LAT_DATA_CONS => 121
    | IPA_CLIENT_Q6_DL_NLO_LL_DATA_PROD => 122 | IPA_CLIENT_TPUT_CONS => 125
    | IPA_CLIENT_Q6_DL_NLO_ETH_DATA_PROD => 126 | IPA_CLIENT_APPS_WAN_ETH_PROD => 128
  end;
  enum_all := [IPA_CLIENT_HSIC1_PROD; IPA_CLIENT_HSIC1_CONS; IPA_CLIENT_HSIC2_PROD;
    IPA_CLIENT_HSIC2_CONS; IPA_CLIENT_HSIC3_PROD; IPA_CLIENT_HSIC3_CONS; IPA_CLIENT_HSIC4_PROD;
    IPA_CLIENT_HSIC4_CONS; IPA_CLIENT_HSIC5_PROD; IPA_CLIENT_HSIC5_CONS; IPA_CLIENT_WLAN1_PROD;
    IPA_CLIENT_WLAN1_CONS; IPA_CLIENT_A5_WLAN_AMPDU_PROD; IPA_CLIENT_WLAN2_CONS;
    IPA_CLIENT_WLAN3_PROD; IPA_CLIENT_WLAN3_CONS; IPA_CLIENT_WLAN2_PROD1; IPA_CLIENT_WLAN4_CONS;
    IPA_CLIENT_USB_PROD; IPA_CLIENT_USB_CONS; IPA_CLIENT_USB2_PROD; IPA_CLIENT_USB2_CONS;
    IPA_CLIENT_USB3_PROD; IPA_CLIENT_USB3_CONS; IPA_CLIENT_USB4_PROD; IPA_CLIENT_USB4_CONS;
    IPA_CLIENT_UC_USB_PROD; IPA_CLIENT_USB_DPL_CONS; IPA_CLIENT_A2_EMBEDDED_PROD;
    IPA_CLIENT_A2_EMBEDDED_CONS; IPA_CLIENT_A2_TETHERED_PROD; IPA_CLIENT_A2_TETHERED_CONS;
    IPA_CLIENT_APPS_LAN_PROD; IPA_CLIENT_APPS_LAN_CONS; IPA_CLIENT_APPS_WAN_PROD;
    IPA_CLIENT_APPS_WAN_CONS; IPA_CLIENT_APPS_CMD_PROD; IPA_CLIENT_A5_LAN_WAN_CONS;
    IPA_CLIENT_ODU_PROD; IPA_CLIENT_ODU_EMB_CONS; IPA_CLIENT_WLAN3_PROD1;
    IPA_CLIENT_ODU_TETH_CONS; IPA_CLIENT_MHI_PROD; IPA_CLIENT_MHI_CONS;
    IPA_CLIENT_MEMCPY_DMA_SYNC_PROD; IPA_CLIENT_MEMCPY_DMA_SYNC_CONS;
    IPA_CLIENT_MEMCPY_DMA_ASYNC_PROD; IPA_CLIENT_MEMCPY_DMA_ASYNC_CONS; IPA_CLIENT_ETHERNET_PROD;
    IPA_CLIENT_ETHERNET_CONS; IPA_CLIENT_Q6_LAN_PROD; IPA_CLIENT_Q6_LAN_CONS;
    IPA_CLIENT_Q6_WAN_PROD; IPA_CLIENT_Q6_WAN_CONS; IPA_CLIENT_Q6_CMD_PROD;
    IPA_CLIENT_Q6_DUN_CONS; IPA_CLIENT_Q6_DECOMP_PROD; IPA_CLIENT_Q6_DECOMP_CONS;
    IPA_CLIENT_Q6_DECOMP2_PROD; IPA_CLIENT_Q6_DECOMP2_CONS; IPA_CLIENT_Q6_LTE_WIFI_AGGR_CONS;
    IPA_CLIENT_TEST_PROD; IPA_CLIENT_TEST_CONS; IPA_CLIENT_TEST1_PROD; IPA_CLIENT_TEST1_CONS;
    IPA_CLIENT_TEST2_PROD; IPA_CLIENT_TEST2_CONS; IPA_CLIENT_TEST3_PROD; IPA_CLIENT_TEST3_CONS;
    IPA_CLIENT_TEST4_PROD; IPA_CLIENT_TEST4_CONS; IPA_CLIENT_DUMMY_CONS;
    IPA_CLIENT_Q6_DL_NLO_DATA_PROD; IPA_CLIENT_Q6_UL_NLO_DATA_CONS;
    IPA_CLIENT_Q6_UL_NLO_ACK_CONS; IPA_CLIENT_Q6_QBAP_STATUS_CONS; IPA_CLIENT_MHI_DPL_CONS;
    IPA_CLIENT_ODL_DPL_CONS; IPA_CLIENT_Q6_AUDIO_DMA_MHI_PROD; IPA_CLIENT_Q6_AUDIO_DMA_MHI_CONS;
    IPA_CLIENT_WIGIG_PROD; IPA_CLIENT_WIGIG1_CONS; IPA_CLIENT_WIGIG2_CONS;
    IPA_CLIENT_WIGIG3_CONS; IPA_CLIENT_WIGIG4_CONS; IPA_CLIENT_APPS_WAN_COAL_CONS;
    IPA_CLIENT_MHI_PRIME_TETH_PROD; IPA_CLIENT_MHI_PRIME_TETH_CONS;
    IPA_CLIENT_MHI_PRIME_RMNET_PROD; IPA_CLIENT_MHI_PRIME_RMNET_CONS;
    IPA_CLIENT_MHI_PRIME_DPL_PROD; IPA_CLIENT_MHI_COAL_CONS; IPA_CLIENT_AQC_ETHERNET_PROD;
    IPA_CLIENT_AQC_ETHERNET_CONS; IPA_CLIENT_APPS_WAN_LOW_LAT_PROD;
    IPA_CLIENT_APPS_WAN_LOW_LAT_CONS; IPA_CLIENT_QDSS_PROD; IPA_CLIENT_MHI_QDSS_CONS;
    IPA_CLIENT_RTK_ETHERNET_PROD; IPA_CLIENT_RTK_ETHERNET_CONS; IPA_CLIENT_MHI_LOW_LAT_PROD;
    IPA_CLIENT_MHI_LOW_LAT_CONS; IPA_CLIENT_MHI2_PROD; IPA_CLIENT_MHI2_CONS;
    IPA_CLIENT_Q6_CV2X_PROD; IPA_CLIENT_Q6_CV2X_CONS; IPA_CLIENT_ETHERNET2_PROD;
    IPA_CLIENT_ETHERNET2_CONS; IPA_CLIENT_WLAN2_CONS1; IPA_CLIENT_APPS_WAN_LOW_LAT_DATA_PROD;
    IPA_CLIENT_APPS_WAN_LOW_LAT_DATA_CONS; IPA_CLIENT_Q6_DL_NLO_LL_DATA_PROD;
    IPA_CLIENT_TPUT_CONS; IPA_CLIENT_Q6_DL_NLO_ETH_DATA_PROD; IPA_CLIENT_APPS_WAN_ETH_PROD] }.

(** The identifiers themselves, for the conventions stated on names. *)
Definition ipa_client_name (c : ipa_client_type) : string :=
  match c with
  | IPA_CLIENT_HSIC1_PROD => "IPA_CLIENT_HSIC1_PROD"
  | IPA_CLIENT_HSIC1_CONS => "IPA_CLIENT_HSIC1_CONS"
  | IPA_CLIENT_HSIC2_PROD => "IPA_CLIENT_HSIC2_PROD"
  | IPA_CLIENT_HSIC2_CONS => "IPA_CLIENT_HSIC2_CONS"
  | IPA_CLIENT_HSIC3_PROD => "IPA_CLIENT_HSIC3_PROD"
  | IPA_CLIENT_HSIC3_CONS => "IPA_CLIENT_HSIC3_CONS"
  | IPA_CLIENT_HSIC4_PROD => "IPA_CLIENT_HSIC4_PROD"
  | IPA_CLIENT_HSIC4_CONS => "IPA_CLIENT_HSIC4_CONS"
  | IPA_CLIENT_HSIC5_PROD => "IPA_CLIENT_HSIC5_PROD"
  | IPA_CLIENT_HSIC5_CONS => "IPA_CLIENT_HSIC5_CONS"
  | IPA_CLIENT_WLAN1_PROD => "IPA_CLIENT_WLAN1_PROD"
  | IPA_CLIENT_WLAN1_CONS => "IPA_CLIENT_WLAN1_CONS"
  | IPA_CLIENT_A5_WLAN_AMPDU_PROD => "IPA_CLIENT_A5_WLAN_AMPDU_PROD"
  | IPA_CLIENT_WLAN2_CONS => "IPA_CLIENT_WLAN2_CONS"
  | IPA_CLIENT_WLAN3_PROD => "IPA_CLIENT_WLAN3_PROD"
  | IPA_CLIENT_WLAN3_CONS => "IPA_CLIENT_WLAN3_CONS"
  | IPA_CLIENT_WLAN2_PROD1 => "IPA_CLIENT_WLAN2_PROD1"
  | IPA_CLIENT_WLAN4_CONS => "IPA_CLIENT_WLAN4_CONS"
  | IPA_CLIENT_USB_PROD => "IPA_CLIENT_USB_PROD" | IPA_CLIENT_USB_CONS => "IPA_CLIENT_USB_CONS"
  | IPA_CLIENT_USB2_PROD => "IPA_CLIENT_USB2_PROD"
  | IPA_CLIENT_USB2_CONS => "IPA_CLIENT_USB2_CONS"
  | IPA_CLIENT_USB3_PROD => "IPA_CLIENT_USB3_PROD"
  | IPA_CLIENT_USB3_CONS => "IPA_CLIENT_USB3_CONS"
  | IPA_CLIENT_USB4_PROD => "IPA_CLIENT_USB4_PROD"
  | IPA_CLIENT_USB4_CONS => "IPA_CLIENT_USB4_CONS"
  | IPA_CLIENT_UC_USB_PROD => "IPA_CLIENT_UC_USB_PROD"
  | IPA_CLIENT_USB_DPL_CONS => "IPA_CLIENT_USB_DPL_CONS"
  | IPA_CLIENT_A2_EMBEDDED_PROD => "IPA_CLIENT_A2_EMBEDDED_PROD"
  | IPA_CLIENT_A2_EMBEDDED_CONS => "IPA_CLIENT_A2_EMBEDDED_CONS"
  | IPA_CLIENT_A2_TETHERED_PROD => "IPA_CLIENT_A2_TETHERED_PROD"
  | IPA_CLIENT_A2_TETHERED_CONS => "IPA_CLIENT_A2_TETHERED_CONS"
  | IPA_CLIENT_APPS_LAN_PROD => "IPA_CLIENT_APPS_LAN_PROD"
  | IPA_CLIENT_APPS_LAN_CONS => "IPA_CLIENT_APPS_LAN_CONS"
  | IPA_CLIENT_APPS_WAN_PROD => "IPA_CLIENT_APPS_WAN_PROD"
  | IPA_CLIENT_APPS_WAN_CONS => "IPA_CLIENT_APPS_WAN_CONS"
  | IPA_CLIENT_APPS_CMD_PROD => "IPA_CLIENT_APPS_CMD_PROD"
  | IPA_CLIENT_A5_LAN_WAN_CONS => "IPA_CLIENT_A5_LAN_WAN_CONS"
  | IPA_CLIENT_ODU_PROD => "IPA_CLIENT_ODU_PROD"
  | IPA_CLIENT_ODU_EMB_CONS => "IPA_CLIENT_ODU_EMB_CONS"
  | IPA_CLIENT_WLAN3_PROD1 => "IPA_CLIENT_WLAN3_PROD1"
  | IPA_CLIENT_ODU_TETH_CONS => "IPA_CLIENT_ODU_TETH_CONS"
  | IPA_CLIENT_MHI_PROD => "IPA_CLIENT_MHI_PROD" | IPA_CLIENT_MHI_CONS => "IPA_CLIENT_MHI_CONS"
  | IPA_CLIENT_MEMCPY_DMA_SYNC_PROD => "IPA_CLIENT_MEMCPY_DMA_SYNC_PROD"
  | IPA_CLIENT_MEMCPY_DMA_SYNC_CONS => "IPA_CLIENT_MEMCPY_DMA_SYNC_CONS"
  | IPA_CLIENT_MEMCPY_DMA_ASYNC_PROD => "IPA_CLIENT_MEMCPY_DMA_ASYNC_PROD"
  | IPA_CLIENT_MEMCPY_DMA_ASYNC_CONS => "IPA_CLIENT_MEMCPY_DMA_ASYNC_CONS"
  | IPA_CLIENT_ETHERNET_PROD => "IPA_CLIENT_ETHERNET_PROD"
  | IPA_CLIENT_ETHERNET_CONS => "IPA_CLIENT_ETHERNET_CONS"
  | IPA_CLIENT_Q6_LAN_PROD => "IPA_CLIENT_Q6_LAN_PROD"
  | IPA_CLIENT_Q6_LAN_CONS => "IPA_CLIENT_Q6_LAN_CONS"
  | IPA_CLIENT_Q6_WAN_PROD => "IPA_CLIENT_Q6_WAN_PROD"
  | IPA_CLIENT_Q6_WAN_CONS => "IPA_CLIENT_Q6_WAN_CONS"
  | IPA_CLIENT_Q6_CMD_PROD => "IPA_CLIENT_Q6_CMD_PROD"
  | IPA_CLIENT_Q6_DUN_CONS => "IPA_CLIENT_Q6_DUN_CONS"
  | IPA_CLIENT_Q6_DECOMP_PROD => "IPA_CLIENT_Q6_DECOMP_PROD"
  | IPA_CLIENT_Q6_DECOMP_CONS => "IPA_CLIENT_Q6_DECOMP_CONS"
  | IPA_CLIENT_Q6_DECOMP2_PROD => "IPA_CLIENT_Q6_DECOMP2_PROD"
  | IPA_CLIENT_Q6_DECOMP2_CONS => "IPA_CLIENT_Q6_DECOMP2_CONS"
  | IPA_CLIENT_Q6_LTE_WIFI_AGGR_CONS => "IPA_CLIENT_Q6_LTE_WIFI_AGGR_CONS"
  | IPA_CLIENT_TEST_PROD => "IPA_CLIENT_TEST_PROD"
  | IPA_CLIENT_TEST_CONS => "IPA_CLIENT_TEST_CONS"
  | IPA_CLIENT_TEST1_PROD => "IPA_CLIENT_TEST1_PROD"
  | IPA_CLIENT_TEST1_CONS => "IPA_CLIENT_TEST1_CONS"
  | IPA_CLIENT_TEST2_PROD => "IPA_CLIENT_TEST2_PROD"
  | IPA_CLIENT_TEST2_CONS => "IPA_CLIENT_TEST2_CONS"
  | IPA_CLIENT_TEST3_PROD => "IPA_CLIENT_TEST3_PROD"
  | IPA_CLIENT_TEST3_CONS => "IPA_CLIENT_TEST3_CONS"
  | IPA_CLIENT_TEST4_PROD => "IPA_CLIENT_TEST4_PROD"
  | IPA_CLIENT_TEST4_CONS => "IPA_CLIENT_TEST4_CONS"
  | IPA_CLIENT_DUMMY_CONS => "IPA_CLIENT_DUMMY_CONS"
  | IPA_CLIENT_Q6_DL_NLO_DATA_PROD => "IPA_CLIENT_Q6_DL_NLO_DATA_PROD"
  | IPA_CLIENT_Q6_UL_NLO_DATA_CONS => "IPA_CLIENT_Q6_UL_NLO_DATA_CONS"
  | IPA_CLIENT_Q6_UL_NLO_ACK_CONS => "IPA_CLIENT_Q6_UL_NLO_ACK_CONS"
  | IPA_CLIENT_Q6_QBAP_STATUS_CONS => "IPA_CLIENT_Q6_QBAP_STATUS_CONS"
  | IPA_CLIENT_MHI_DPL_CONS => "IPA_CLIENT_MHI_DPL_CONS"
  | IPA_CLIENT_ODL_DPL_CONS => "IPA_CLIENT_ODL_DPL_CONS"
  | IPA_CLIENT_Q6_AUDIO_DMA_MHI_PROD => "IPA_CLIENT_Q6_AUDIO_DMA_MHI_PROD"
  | IPA_CLIENT_Q6_AUDIO_DMA_MHI_CONS => "IPA_CLIENT_Q6_AUDIO_DMA_MHI_CONS"
  | IPA_CLIENT_WIGIG_PROD => "IPA_CLIENT_WIGIG_PROD"
  | IPA_CLIENT_WIGIG1_CONS => "IPA_CLIENT_WIGIG1_CONS"
  | IPA_CLIENT_WIGIG2_CONS => "IPA_CLIENT_WIGIG2_CONS"
  | IPA_CLIENT_WIGIG3_CONS => "IPA_CLIENT_WIGIG3_CONS"
  | IPA_CLIENT_WIGIG4_CONS => "IPA_CLIENT_WIGIG4_CONS"
  | IPA_CLIENT_APPS_WAN_COAL_CONS => "IPA_CLIENT_APPS_WAN_COAL_CONS"
  | IPA_CLIENT_MHI_PRIME_TETH_PROD => "IPA_CLIENT_MHI_PRIME_TETH_PROD"
  | IPA_CLIENT_MHI_PRIME_TETH_CONS => "IPA_CLIENT_MHI_PRIME_TETH_CONS"
  | IPA_CLIENT_MHI_PRIME_RMNET_PROD => "IPA_CLIENT_MHI_PRIME_RMNET_PROD"
  | IPA_CLIENT_MHI_PRIME_RMNET_CONS => "IPA_CLIENT_MHI_PRIME_RMNET_CONS"
  | IPA_CLIENT_MHI_PRIME_DPL_PROD => "IPA_CLIENT_MHI_PRIME_DPL_PROD"
  | IPA_CLIENT_MHI_COAL_CONS => "IPA_CLIENT_MHI_COAL_CONS"
  | IPA_CLIENT_AQC_ETHERNET_PROD => "IPA_CLIENT_AQC_ETHERNET_PROD"
  | IPA_CLIENT_AQC_ETHERNET_CONS => "IPA_CLIENT_AQC_ETHERNET_CONS"
  | IPA_CLIENT_APPS_WAN_LOW_LAT_PROD => "IPA_CLIENT_APPS_WAN_LOW_LAT_PROD"
  | IPA_CLIENT_APPS_WAN_LOW_LAT_CONS => "IPA_CLIENT_APPS_WAN_LOW_LAT_CONS"
  | IPA_CLIENT_QDSS_PROD => "IPA_CLIENT_QDSS_PROD"
  | IPA_CLIENT_MHI_QDSS_CONS => "IPA_CLIENT_MHI_QDSS_CONS"
  | IPA_CLIENT_RTK_ETHERNET_PROD => "IPA_CLIENT_RTK_ETHERNET_PROD"
  | IPA_CLIENT_RTK_ETHERNET_CONS => "IPA_CLIENT_RTK_ETHERNET_CONS"
  | IPA_CLIENT_MHI_LOW_LAT_PROD => "IPA_CLIENT_MHI_LOW_LAT_PROD"
  | IPA_CLIENT_MHI_LOW_LAT_CONS => "IPA_CLIENT_MHI_LOW_LAT_CONS"
  | IPA_CLIENT_MHI2_PROD => "IPA_CLIENT_MHI2_PROD"
  | IPA_CLIENT_MHI2_CONS => "IPA_CLIENT_MHI2_CONS"
  | IPA_CLIENT_Q6_CV2X_PROD => "IPA_CLIENT_Q6_CV2X_PROD"
  | IPA_CLIENT_Q6_CV2X_CONS => "IPA_CLIENT_Q6_CV2X_CONS"
  | IPA_CLIENT_ETHERNET2_PROD => "IPA_CLIENT_ETHERNET2_PROD"
  | IPA_CLIENT_ETHERNET2_CONS => "IPA_CLIENT_ETHERNET2_CONS"
  | IPA_CLIENT_WLAN2_CONS1 => "IPA_CLIENT_WLAN2_CONS1"
  | IPA_CLIENT_APPS_WAN_LOW_LAT_DATA_PROD => "IPA_CLIENT_APPS_WAN_LOW_LAT_DATA_PROD"
  | IPA_CLIENT_APPS_WAN_LOW_LAT_DATA_CONS => "IPA_CLIENT_APPS_WAN_LOW_LAT_DATA_CONS"
  | IPA_CLIENT_Q6_DL_NLO_LL_DATA_PROD => "IPA_CLIENT_Q6_DL_NLO_LL_DATA_PROD"
  | IPA_CLIENT_TPUT_CONS => "IPA_CLIENT_TPUT_CONS"
  | IPA_CLIENT_Q6_DL_NLO_ETH_DATA_PROD => "IPA_CLIENT_Q6_DL_NLO_ETH_DATA_PROD"
  | IPA_CLIENT_APPS_WAN_ETH_PROD => "IPA_CLIENT_APPS_WAN_ETH_PROD"
  end.

Definition IPA_CLIENT_APPS_LAN_WAN_PROD : ipa_client_type := IPA_CLIENT_APPS_WAN_PROD.
Definition IPA_CLIENT_WLAN2_PROD : ipa_client_type := IPA_CLIENT_A5_WLAN_AMPDU_PROD.
Definition IPA_CLIENT_MAX : Z := enum_value IPA_CLIENT_APPS_WAN_ETH_PROD +[S32] 1.

Definition IPA_CLIENT_IS_APPS_CONS (client : Z) : bool :=
  (client =? enum_value IPA_CLIENT_APPS_LAN_CONS)
  || (client =? enum_value IPA_CLIENT_APPS_WAN_CONS)
  || (client =? enum_value IPA_CLIENT_APPS_WAN_COAL_CONS)
  || (client =? enum_value IPA_CLIENT_APPS_WAN_LOW_LAT_CONS)
  || (client =? enum_value IPA_CLIENT_APPS_WAN_LOW_LAT_DATA_CONS).

Definition IPA_CLIENT_IS_APPS_PROD (client : Z) : bool :=
  (client =? enum_value IPA_CLIENT_APPS_LAN_PROD)
  || (client =? enum_value IPA_CLIENT_APPS_WAN_PROD)
  || (client =? enum_value IPA_CLIENT_APPS_WAN_LOW_LAT_PROD)
  || (client =? enum_value IPA_CLIENT_APPS_WAN_LOW_LAT_DATA_PROD)
  || (client =? enum_value IPA_CLIENT_APPS_WAN_ETH_PROD).

Definition IPA_CLIENT_IS_USB_CONS (client : Z) : bool :=
  (client =? enum_value IPA_CLIENT_USB_CONS)
  || (client =? enum_value IPA_CLIENT_USB2_CONS)
  || (client =? enum_value IPA_CLIENT_USB3_CONS)
  || (client =? enum_value IPA_CLIENT_USB_DPL_CONS)
  || (client =? enum_value IPA_CLIENT_USB4_CONS).

Definition IPA_CLIENT_IS_WAN_CONS (client : Z) : bool :=
  (client =? enum_value IPA_CLIENT_APPS_WAN_CONS)
  || (client =? enum_value IPA_CLIENT_APPS_WAN_COAL_CONS).

Definition IPA_CLIENT_IS_LOW_LAT_CONS (client : Z) : bool :=
  (client =? enum_value IPA_CLIENT_APPS_WAN_LOW_LAT_CONS).

Definition IPA_CLIENT_IS_WLAN_CONS (client : Z) : bool :=
  (client =? enum_value IPA_CLIENT_WLAN1_CONS)
  || (client =? enum_value IPA_CLIENT_WLAN2_CONS)
  || (client =? enum_value IPA_CLIENT_WLAN3_CONS)
  || (client =? enum_value IPA_CLIENT_WLAN2_CONS1)
  || (client =? enum_value IPA_CLIENT_WLAN4_CONS).

Definition IPA_CLIENT_IS_ODU_CONS (client : Z) : bool :=
  (client =? enum_value IPA_CLIENT_ODU_EMB_CONS)
  || (client =? enum_value IPA_CLIENT_ODU_TETH_CONS).

Definition IPA_CLIENT_IS_Q6_CONS (client : Z) : bool :=
  (client =? enum_value IPA_CLIENT_Q6_LAN_CONS)
  || (client =? enum_value IPA_CLIENT_Q6_WAN_CONS)
  || (client =? enum_value IPA_CLIENT_Q6_DUN_CONS)
  || (client =? enum_value IPA_CLIENT_Q6_DECOMP_CONS)
  || (client =? enum_value IPA_CLIENT_Q6_DECOMP2_CONS)
  || (client =? enum_value IPA_CLIENT_Q6_LTE_WIFI_AGGR_CONS)
  || (client =? enum_value IPA_CLIENT_Q6_UL_NLO_DATA_CONS)
  || (client =? enum_value IPA_CLIENT_Q6_UL_NLO_ACK_CONS)
  || (client =? enum_value IPA_CLIENT_Q6_QBAP_STATUS_CONS)
  || (client =? enum_value IPA_CLIENT_Q6_CV2X_CONS)
  || (client =? enum_value IPA_CLIENT_Q6_AUDIO_DMA_MHI_CONS).

Definition IPA_CLIENT_IS_Q6_PROD (client : Z) : bool :=
  (client =? enum_value IPA_CLIENT_Q6_LAN_PROD)
  || (client =? enum_value IPA_CLIENT_Q6_WAN_PROD)
  || (client =? enum_value IPA_CLIENT_Q6_CMD_PROD)
  || (client =? enum_value IPA_CLIENT_Q6_DECOMP_PROD)
  || (client =? enum_value IPA_CLIENT_Q6_DECOMP2_PROD)
  || (client =? enum_value IPA_CLIENT_Q6_DL_NLO_LL_DATA_PROD)
  || (client =? enum_value IPA_CLIENT_Q6_DL_NLO_DATA_PROD)
  || (client =? enum_value IPA_CLIENT_Q6_CV2X_PROD)
  || (client =? enum_value IPA_CLIENT_Q6_AUDIO_DMA_MHI_PROD).

Definition IPA_CLIENT_IS_Q6_NON_ZIP_CONS (client : Z) : bool :=
  (client =? enum_value IPA_CLIENT_Q6_LAN_CONS)
  || (client =? enum_value IPA_CLIENT_Q6_WAN_CONS)
  || (client =? enum_value IPA_CLIENT_Q6_DUN_CONS)
  || (client =? enum_value IPA_CLIENT_Q6_LTE_WIFI_AGGR_CONS)
  || (client =? enum_value IPA_CLIENT_Q6_UL_NLO_DATA_CONS)
  || (client =? enum_value IPA_CLIENT_Q6_UL_NLO_ACK_CONS)
  || (client =? enum_value IPA_CLIENT_Q6_QBAP_STATUS_CONS)
  || (client =? enum_value IPA_CLIENT_Q6_CV2X_CONS)
  || (client =? enum_value IPA_CLIENT_Q6_AUDIO_DMA_MHI_CONS).

Definition IPA_CLIENT_IS_Q6_ZIP_CONS (client : Z) : bool :=
  (client =? enum_value IPA_CLIENT_Q6_DECOMP_CONS)
  || (client =? enum_value IPA_CLIENT_Q6_DECOMP2_CONS).

Definition IPA_CLIENT_IS_Q6_NON_ZIP_PROD (client : Z) : bool :=
  (client =? enum_value IPA_CLIENT_Q6_LAN_PROD)
  || (client =? enum_value IPA_CLIENT_Q6_WAN_PROD)
  || (client =? enum_value IPA_CLIENT_Q6_CMD_PROD)
  || (client =? enum_value IPA_CLIENT_Q6_DL_NLO_DATA_PROD)
  || (client =? enum_value IPA_CLIENT_Q6_DL_NLO_LL_DATA_PROD)
  || (client =? enum_value IPA_CLIENT_Q6_CV2X_PROD)
  || (client =? enum_value IPA_CLIENT_Q6_AUDIO_DMA_MHI_PROD).

Definition IPA_CLIENT_IS_Q6_ZIP_PROD (client : Z) : bool :=
  (client =? enum_value IPA_CLIENT_Q6_DECOMP_PROD)
  || (client =? enum_value IPA_CLIENT_Q6_DECOMP2_PROD).

Definition IPA_CLIENT_IS_MEMCPY_DMA_CONS (client : Z) : bool :=
  (client =? enum_value IPA_CLIENT_MEMCPY_DMA_SYNC_CONS)
  || (client =? enum_value IPA_CLIENT_MEMCPY_DMA_ASYNC_CONS).

Definition IPA_CLIENT_IS_MEMCPY_DMA_PROD (client : Z) : bool :=
  (client =? enum_value IPA_CLIENT_MEMCPY_DMA_SYNC_PROD)
  || (client =? enum_value IPA_CLIENT_MEMCPY_DMA_ASYNC_PROD).

Definition IPA_CLIENT_IS_MHI (client : Z) : bool :=
  (client =? enum_value IPA_CLIENT_MHI_CONS)
  || (client =? enum_value IPA_CLIENT_MHI_PROD)
  || (client =? enum_value IPA_CLIENT_MHI2_PROD)
  || (client =? enum_value IPA_CLIENT_MHI2_CONS)
  || (client =? enum_value IPA_CLIENT_MHI_DPL_CONS)
  || (client =? enum_value IPA_CLIENT_MHI_LOW_LAT_CONS)
  || (client =? enum_value IPA_CLIENT_MHI_LOW_LAT_PROD)
  || (client =? enum_value IPA_CLIENT_MHI_QDSS_CONS)
  || (client =? enum_value IPA_CLIENT_MHI_COAL_CONS).

Definition IPA_CLIENT_IS_TEST_PROD (client : Z) : bool :=
  (client =? enum_value IPA_CLIENT_TEST_PROD)
  || (client =? enum_value IPA_CLIENT_TEST1_PROD)
  || (client =? enum_value IPA_CLIENT_TEST2_PROD)
  || (client =? enum_value IPA_CLIENT_TEST3_PROD)
  || (client =? enum_value IPA_CLIENT_TEST4_PROD).

Definition IPA_CLIENT_IS_TEST_CONS (client : Z) : bool :=
  (client =? enum_value IPA_CLIENT_TEST_CONS)
  || (client =? enum_value IPA_CLIENT_TEST1_CONS)
  || (client =? enum_value IPA_CLIENT_TEST2_CONS)
  || (client =? enum_value IPA_CLIENT_TEST3_CONS)
  || (client =? enum_value IPA_CLIENT_TEST4_CONS).

Definition IPA_CLIENT_IS_TEST (client : Z) : bool :=
  IPA_CLIENT_IS_TEST_PROD client || IPA_CLIENT_IS_TEST_CONS client.

(** ** Memory and address families *)

Inductive ipa3_nat_mem_in : Type := IPA_NAT_MEM_IN_DDR | IPA_NAT_MEM_IN_SRAM | IPA_NAT_MEM_IN_MAX.

#[export] Instance ipa3_nat_mem_in_enum : CEnum ipa3_nat_mem_in := {
  enum_value m := match m with IPA_NAT_MEM_IN_DDR => 0 | IPA_NAT_MEM_IN_SRAM => 1 | IPA_NAT_MEM_IN_MAX => 2 end;
  enum_all := [IPA_NAT_MEM_IN_DDR; IPA_NAT_MEM_IN_SRAM; IPA_NAT_MEM_IN_MAX] }.

Definition IPA_VALID_NAT_MEM_IN (t : Z) : bool :=
  (enum_value IPA_NAT_MEM_IN_DDR <=? t) && (t <? enum_value IPA_NAT_MEM_IN_MAX).

(** [IPA_IP_v4_VLAN] has the value of [IPA_IP_MAX]. *)
Inductive ipa_ip_type : Type :=
  | IPA_IP_v4 | IPA_IP_v6 | IPA_IP_MAX | IPA_IP_v4_VLAN | IPA_IP_v6_VLAN | IPA_IP_MAX_WLAN.

Definition ipa_ip_type_value (t : ipa_ip_type) : Z :=
  match t with
  | IPA_IP_v4 => 0 | IPA_IP_v6 => 1 | IPA_IP_MAX => 2 | IPA_IP_v4_VLAN => 2 | IPA_IP_v6_VLAN => 3
  | IPA_IP_MAX_WLAN => 4
  end.

Definition VALID_IPA_IP_TYPE (t : Z) : bool :=
  (ipa_ip_type_value IPA_IP_v4 <=? t) && (t <? ipa_ip_type_value IPA_IP_MAX).

(** ** Resources *)

Inductive ipa_rm_resource_name : Type :=
  | IPA_RM_RESOURCE_Q6_PROD | IPA_RM_RESOURCE_Q6_CONS | IPA_RM_RESOURCE_USB_PROD
  | IPA_RM_RESOURCE_USB_CONS | IPA_RM_RESOURCE_USB_DPL_DUMMY_PROD | IPA_RM_RESOURCE_USB_DPL_CONS
  | IPA_RM_RESOURCE_HSIC_PROD | IPA_RM_RESOURCE_HSIC_CONS | IPA_RM_RESOURCE_STD_ECM_PROD
  | IPA_RM_RESOURCE_APPS_CONS | IPA_RM_RESOURCE_RNDIS_PROD | IPA_RM_RESOURCE_WWAN_0_PROD
  | IPA_RM_RESOURCE_WLAN_PROD | IPA_RM_RESOURCE_WLAN_CONS | IPA_RM_RESOURCE_ODU_ADAPT_PROD
  | IPA_RM_RESOURCE_ODU_ADAPT_CONS | IPA_RM_RESOURCE_MHI_PROD | IPA_RM_RESOURCE_MHI_CONS
  | IPA_RM_RESOURCE_ETHERNET_PROD | IPA_RM_RESOURCE_ETHERNET_CONS.

#[export] Instance ipa_rm_resource_name_enum : CEnum ipa_rm_resource_name := {
  enum_value r := match r with
    | IPA_RM_RESOURCE_Q6_PROD => 0 | IPA_RM_RESOURCE_Q6_CONS => 1 | IPA_RM_RESOURCE_USB_PROD => 2
    | IPA_RM_RESOURCE_USB_CONS => 3 | IPA_RM_RESOURCE_USB_DPL_DUMMY_PROD => 4
    | IPA_RM_RESOURCE_USB_DPL_CONS => 5 | IPA_RM_RESOURCE_HSIC_PROD => 6
    | IPA_RM_RESOURCE_HSIC_CONS => 7 | IPA_RM_RESOURCE_STD_ECM_PROD => 8
    | IPA_RM_RESOURCE_APPS_CONS => 9 | IPA_RM_RESOURCE_RNDIS_PROD => 10
    | IPA_RM_RESOURCE_WWAN_0_PROD => 12 | IPA_RM_RESOURCE_WLAN_PROD => 14
    | IPA_RM_RESOURCE_WLAN_CONS => 15 | IPA_RM_RESOURCE_ODU_ADAPT_PROD => 16
    | IPA_RM_RESOURCE_ODU_ADAPT_CONS => 17 | IPA_RM_RESOURCE_MHI_PROD => 18
    | IPA_RM_RESOURCE_MHI_CONS => 19 | IPA_RM_RESOURCE_ETHERNET_PROD => 20
    | IPA_RM_RESOURCE_ETHERNET_CONS => 21
  end;
  enum_all := [IPA_RM_RESOURCE_Q6_PROD; IPA_RM_RESOURCE_Q6_CONS; IPA_RM_RESOURCE_USB_PROD;
    IPA_RM_RESOURCE_USB_CONS; IPA_RM_RESOURCE_USB_DPL_DUMMY_PROD; IPA_RM_RESOURCE_USB_DPL_CONS;
    IPA_RM_RESOURCE_HSIC_PROD; IPA_RM_RESOURCE_HSIC_CONS; IPA_RM_RESOURCE_STD_ECM_PROD;
    IPA_RM_RESOURCE_APPS_CONS; IPA_RM_RESOURCE_RNDIS_PROD; IPA_RM_RESOURCE_WWAN_0_PROD;
    IPA_RM_RESOURCE_WLAN_PROD; IPA_RM_RESOURCE_WLAN_CONS; IPA_RM_RESOURCE_ODU_ADAPT_PROD;
    IPA_RM_RESOURCE_ODU_ADAPT_CONS; IPA_RM_RESOURCE_MHI_PROD; IPA_RM_RESOURCE_MHI_CONS;
    IPA_RM_RESOURCE_ETHERNET_PROD; IPA_RM_RESOURCE_ETHERNET_CONS] }.

Definition ipa_rm_resource_string (r : ipa_rm_resource_name) : string :=
  match r with
  | IPA_RM_RESOURCE_Q6_PROD => "IPA_RM_RESOURCE_Q6_PROD"
  | IPA_RM_RESOURCE_Q6_CONS => "IPA_RM_RESOURCE_Q6_CONS"
  | IPA_RM_RESOURCE_USB_PROD => "IPA_RM_RESOURCE_USB_PROD"
  | IPA_RM_RESOURCE_USB_CONS => "IPA_RM_RESOURCE_USB_CONS"
  | IPA_RM_RESOURCE_USB_DPL_DUMMY_PROD => "IPA_RM_RESOURCE_USB_DPL_DUMMY_PROD"
  | IPA_RM_RESOURCE_USB_DPL_CONS => "IPA_RM_RESOURCE_USB_DPL_CONS"
  | IPA_RM_RESOURCE_HSIC_PROD => "IPA_RM_RESOURCE_HSIC_PROD"
  | IPA_RM_RESOURCE_HSIC_CONS => "IPA_RM_RESOURCE_HSIC_CONS"
  | IPA_RM_RESOURCE_STD_ECM_PROD => "IPA_RM_RESOURCE_STD_ECM_PROD"
  | IPA_RM_RESOURCE_APPS_CONS => "IPA_RM_RESOURCE_APPS_CONS"
  | IPA_RM_RESOURCE_RNDIS_PROD => "IPA_RM_RESOURCE_RNDIS_PROD"
  | IPA_RM_RESOURCE_WWAN_0_PROD => "IPA_RM_RESOURCE_WWAN_0_PROD"
  | IPA_RM_RESOURCE_WLAN_PROD => "IPA_RM_RESOURCE_WLAN_PROD"
  | IPA_RM_RESOURCE_WLAN_CONS => "IPA_RM_RESOURCE_WLAN_CONS"
  | IPA_RM_RESOURCE_ODU_ADAPT_PROD => "IPA_RM_RESOURCE_ODU_ADAPT_PROD"
  | IPA_RM_RESOURCE_ODU_ADAPT_CONS => "IPA_RM_RESOURCE_ODU_ADAPT_CONS"
  | IPA_RM_RESOURCE_MHI_PROD => "IPA_RM_RESOURCE_MHI_PROD"
  | IPA_RM_RESOURCE_MHI_CONS => "IPA_RM_RESOURCE_MHI_CONS"
  | IPA_RM_RESOURCE_ETHERNET_PROD => "IPA_RM_RESOURCE_ETHERNET_PROD"
  | IPA_RM_RESOURCE_ETHERNET_CONS => "IPA_RM_RESOURCE_ETHERNET_CONS"
  end.

Definition IPA_RM_RESOURCE_MAX : Z := enum_value IPA_RM_RESOURCE_ETHERNET_CONS +[S32] 1.

(** ** Events *)

Inductive ipa_wlan_event : Type :=
  | WLAN_CLIENT_CONNECT | WLAN_CLIENT_DISCONNECT | WLAN_CLIENT_POWER_SAVE_MODE
  | WLAN_CLIENT_NORMAL_MODE | SW_ROUTING_ENABLE | SW_ROUTING_DISABLE | WLAN_AP_CONNECT
  | WLAN_AP_DISCONNECT | WLAN_STA_CONNECT | WLAN_STA_DISCONNECT | WLAN_CLIENT_CONNECT_EX
  | WLAN_SWITCH_TO_SCC | WLAN_SWITCH_TO_MCC | WLAN_WDI_ENABLE | WLAN_WDI_DISABLE
  | IPA_WLAN_EVENT_MAX.

#[export] Instance ipa_wlan_event_enum : CEnum ipa_wlan_event := {
  enum_value e := match e with
    | WLAN_CLIENT_CONNECT => 0
    | WLAN_CLIENT_DISCONNECT => 1
    | WLAN_CLIENT_POWER_SAVE_MODE => 2
    | WLAN_CLIENT_NORMAL_MODE => 3
    | SW_ROUTING_ENABLE => 4
    | SW_ROUTING_DISABLE => 5
    | WLAN_AP_CONNECT => 6
    | WLAN_AP_DISCONNECT => 7
    | WLAN_STA_CONNECT => 8
    | WLAN_STA_DISCONNECT => 9
    | WLAN_CLIENT_CONNECT_EX => 10
    | WLAN_SWITCH_TO_SCC => 11
    | WLAN_SWITCH_TO_MCC => 12
    | WLAN_WDI_ENABLE => 13
    | WLAN_WDI_DISABLE => 14
    | IPA_WLAN_EVENT_MAX => 15
  end;
  enum_all := [WLAN_CLIENT_CONNECT; WLAN_CLIENT_DISCONNECT; WLAN_CLIENT_POWER_SAVE_MODE;
    WLAN_CLIENT_NORMAL_MODE; SW_ROUTING_ENABLE; SW_ROUTING_DISABLE; WLAN_AP_CONNECT;
    WLAN_AP_DISCONNECT; WLAN_STA_CONNECT; WLAN_STA_DISCONNECT; WLAN_CLIENT_CONNECT_EX;
    WLAN_SWITCH_TO_SCC; WLAN_SWITCH_TO_MCC; WLAN_WDI_ENABLE; WLAN_WDI_DISABLE;
    IPA_WLAN_EVENT_MAX] }.

Inductive ipa_wan_event : Type :=
  | WAN_UPSTREAM_ROUTE_ADD | WAN_UPSTREAM_ROUTE_DEL | WAN_EMBMS_CONNECT | WAN_XLAT_CONNECT
  | IPA_WAN_EVENT_MAX.

#[export] Instance ipa_wan_event_enum : CEnum ipa_wan_event := {
  enum_value e := match e with
    | WAN_UPSTREAM_ROUTE_ADD => enum_value IPA_WLAN_EVENT_MAX
    | WAN_UPSTREAM_ROUTE_DEL => enum_value IPA_WLAN_EVENT_MAX + 1
    | WAN_EMBMS_CONNECT => enum_value IPA_WLAN_EVENT_MAX + 2
    | WAN_XLAT_CONNECT => enum_value IPA_WLAN_EVENT_MAX + 3
    | IPA_WAN_EVENT_MAX => enum_value IPA_WLAN_EVENT_MAX + 4
  end;
  enum_all := [WAN_UPSTREAM_ROUTE_ADD; WAN_UPSTREAM_ROUTE_DEL; WAN_EMBMS_CONNECT;
    WAN_XLAT_CONNECT; IPA_WAN_EVENT_MAX] }.

Inductive ipa_ecm_event : Type :=
  | ECM_CONNECT | ECM_DISCONNECT | IPA_ECM_EVENT_MAX.

#[export] Instance ipa_ecm_event_enum : CEnum ipa_ecm_event := {
  enum_value e := match e with
    | ECM_CONNECT => enum_value IPA_WAN_EVENT_MAX
    | ECM_DISCONNECT => enum_value IPA_WAN_EVENT_MAX + 1
    | IPA_ECM_EVENT_MAX => enum_value IPA_WAN_EVENT_MAX + 2
  end;
  enum_all := [ECM_CONNECT; ECM_DISCONNECT; IPA_ECM_EVENT_MAX] }.

Inductive ipa_tethering_stats_event : Type :=
  | IPA_TETHERING_STATS_UPDATE_STATS | IPA_TETHERING_STATS_UPDATE_NETWORK_STATS
  | IPA_TETHERING_STATS_EVENT_MAX.

#[export] Instance ipa_tethering_stats_event_enum : CEnum ipa_tethering_stats_event := {
  enum_value e := match e with
    | IPA_TETHERING_STATS_UPDATE_STATS => enum_value IPA_ECM_EVENT_MAX
    | IPA_TETHERING_STATS_UPDATE_NETWORK_STATS => enum_value IPA_ECM_EVENT_MAX + 1
    | IPA_TETHERING_STATS_EVENT_MAX => enum_value IPA_ECM_EVENT_MAX + 2
  end;
  enum_all := [IPA_TETHERING_STATS_UPDATE_STATS; IPA_TETHERING_STATS_UPDATE_NETWORK_STATS;
    IPA_TETHERING_STATS_EVENT_MAX] }.

Inductive ipa_quota_event : Type :=
  | IPA_QUOTA_REACH | IPA_QUOTA_EVENT_MAX.

#[export] Instance ipa_quota_event_enum : CEnum ipa_quota_event := {
  enum_value e := match e with
    | IPA_QUOTA_REACH => enum_value IPA_TETHERING_STATS_EVENT_MAX
    | IPA_QUOTA_EVENT_MAX => enum_value IPA_TETHERING_STATS_EVENT_MAX + 1
  end;
  enum_all := [IPA_QUOTA_REACH; IPA_QUOTA_EVENT_MAX] }.

Inductive ipa_ssr_event : Type :=
  | IPA_SSR_BEFORE_SHUTDOWN | IPA_SSR_AFTER_POWERUP | IPA_SSR_EVENT_MAX.

#[export] Instance ipa_ssr_event_enum : CEnum ipa_ssr_event := {
  enum_value e := match e with
    | IPA_SSR_BEFORE_SHUTDOWN => enum_value IPA_QUOTA_EVENT_MAX
    | IPA_SSR_AFTER_POWERUP => enum_value IPA_QUOTA_EVENT_MAX + 1
    | IPA_SSR_EVENT_MAX => enum_value IPA_QUOTA_EVENT_MAX + 2
  end;
  enum_all := [IPA_SSR_BEFORE_SHUTDOWN; IPA_SSR_AFTER_POWERUP; IPA_SSR_EVENT_MAX] }.

Inductive ipa_vlan_l2tp_event : Type :=
  | ADD_VLAN_IFACE | DEL_VLAN_IFACE | ADD_L2TP_VLAN_MAPPING | DEL_L2TP_VLAN_MAPPING
  | IPA_VLAN_L2TP_EVENT_MAX.

#[export] Instance ipa_vlan_l2tp_event_enum : CEnum ipa_vlan_l2tp_event := {
  enum_value e := match e with
    | ADD_VLAN_IFACE => enum_value IPA_SSR_EVENT_MAX
    | DEL_VLAN_IFACE => enum_value IPA_SSR_EVENT_MAX + 1
    | ADD_L2TP_VLAN_MAPPING => enum_value IPA_SSR_EVENT_MAX + 2
    | DEL_L2TP_VLAN_MAPPING => enum_value IPA_SSR_EVENT_MAX + 3
    | IPA_VLAN_L2TP_EVENT_MAX => enum_value IPA_SSR_EVENT_MAX + 4
  end;
  enum_all := [ADD_VLAN_IFACE; DEL_VLAN_IFACE; ADD_L2TP_VLAN_MAPPING; DEL_L2TP_VLAN_MAPPING;
    IPA_VLAN_L2TP_EVENT_MAX] }.

Inductive ipa_per_client_stats_event : Type :=
  | IPA_PER_CLIENT_STATS_CONNECT_EVENT | IPA_PER_CLIENT_STATS_DISCONNECT_EVENT
  | IPA_PER_CLIENT_STATS_EVENT_MAX.

#[export] Instance ipa_per_client_stats_event_enum : CEnum ipa_per_client_stats_event := {
  enum_value e := match e with
    | IPA_PER_CLIENT_STATS_CONNECT_EVENT => enum_value IPA_VLAN_L2TP_EVENT_MAX
    | IPA_PER_CLIENT_STATS_DISCONNECT_EVENT => enum_value IPA_VLAN_L2TP_EVENT_MAX + 1
    | IPA_PER_CLIENT_STATS_EVENT_MAX => enum_value IPA_VLAN_L2TP_EVENT_MAX + 2
  end;
  enum_all := [IPA_PER_CLIENT_STATS_CONNECT_EVENT; IPA_PER_CLIENT_STATS_DISCONNECT_EVENT;
    IPA_PER_CLIENT_STATS_EVENT_MAX] }.

Inductive ipa_vlan_bridge_event : Type :=
  | ADD_BRIDGE_VLAN_MAPPING | DEL_BRIDGE_VLAN_MAPPING | BRIDGE_VLAN_MAPPING_MAX.

#[export] Instance ipa_vlan_bridge_event_enum : CEnum ipa_vlan_bridge_event := {
  enum_value e := match e with
    | ADD_BRIDGE_VLAN_MAPPING => enum_value IPA_PER_CLIENT_STATS_EVENT_MAX
    | DEL_BRIDGE_VLAN_MAPPING => enum_value IPA_PER_CLIENT_STATS_EVENT_MAX + 1
    | BRIDGE_VLAN_MAPPING_MAX => enum_value IPA_PER_CLIENT_STATS_EVENT_MAX + 2
  end;
  enum_all := [ADD_BRIDGE_VLAN_MAPPING; DEL_BRIDGE_VLAN_MAPPING; BRIDGE_VLAN_MAPPING_MAX] }.

Inductive ipa_wlan_fw_ssr_event : Type :=
  | WLAN_FWR_SSR_BEFORE_SHUTDOWN | IPA_WLAN_FW_SSR_EVENT_MAX.

#[export] Instance ipa_wlan_fw_ssr_event_enum : CEnum ipa_wlan_fw_ssr_event := {
  enum_value e := match e with
    | WLAN_FWR_SSR_BEFORE_SHUTDOWN => enum_value BRIDGE_VLAN_MAPPING_MAX
    | IPA_WLAN_FW_SSR_EVENT_MAX => enum_value BRIDGE_VLAN_MAPPING_MAX + 1
  end;
  enum_all := [WLAN_FWR_SSR_BEFORE_SHUTDOWN; IPA_WLAN_FW_SSR_EVENT_MAX] }.

Inductive ipa_gsb_event : Type :=
  | IPA_GSB_CONNECT | IPA_GSB_DISCONNECT | IPA_GSB_EVENT_MAX.

#[export] Instance ipa_gsb_event_enum : CEnum ipa_gsb_event := {
  enum_value e := match e with
    | IPA_GSB_CONNECT => enum_value IPA_WLAN_FW_SSR_EVENT_MAX
    | IPA_GSB_DISCONNECT => enum_value IPA_WLAN_FW_SSR_EVENT_MAX + 1
    | IPA_GSB_EVENT_MAX => enum_value IPA_WLAN_FW_SSR_EVENT_MAX + 2
  end;
  enum_all := [IPA_GSB_CONNECT; IPA_GSB_DISCONNECT; IPA_GSB_EVENT_MAX] }.

Inductive ipa_coalesce_event : Type :=
  | IPA_COALESCE_ENABLE | IPA_COALESCE_DISABLE | IPA_COALESCE_EVENT_MAX.

#[export] Instance ipa_coalesce_event_enum : CEnum ipa_coalesce_event := {
  enum_value e := match e with
    | IPA_COALESCE_ENABLE => enum_value IPA_GSB_EVENT_MAX
    | IPA_COALESCE_DISABLE => enum_value IPA_GSB_EVENT_MAX + 1
    | IPA_COALESCE_EVENT_MAX => enum_value IPA_GSB_EVENT_MAX + 2
  end;
  enum_all := [IPA_COALESCE_ENABLE; IPA_COALESCE_DISABLE; IPA_COALESCE_EVENT_MAX] }.

Inductive ipa_mtu_event : Type :=
  | IPA_SET_MTU | IPA_MTU_EVENT_MAX.

#[export] Instance ipa_mtu_event_enum : CEnum ipa_mtu_event := {
  enum_value e := match e with
    | IPA_SET_MTU => enum_value IPA_COALESCE_EVENT_MAX
    | IPA_MTU_EVENT_MAX => enum_value IPA_COALESCE_EVENT_MAX + 1
  end;
  enum_all := [IPA_SET_MTU; IPA_MTU_EVENT_MAX] }.

Inductive ipa_peripheral_event : Type :=
  | IPA_PERIPHERAL_CONNECT | IPA_PERIPHERAL_DISCONNECT.

#[export] Instance ipa_peripheral_event_enum : CEnum ipa_peripheral_event := {
  enum_value e := match e with
    | IPA_PERIPHERAL_CONNECT => enum_value ECM_CONNECT
    | IPA_PERIPHERAL_DISCONNECT => enum_value ECM_DISCONNECT
  end;
  enum_all := [IPA_PERIPHERAL_CONNECT; IPA_PERIPHERAL_DISCONNECT] }.

Definition WIGIG_CLIENT_CONNECT : Z := enum_value IPA_MTU_EVENT_MAX.
Definition WIGIG_FST_SWITCH : Z := WIGIG_CLIENT_CONNECT +[S32] 1.
Definition WIGIG_EVENT_MAX : Z := WIGIG_FST_SWITCH +[S32] 1.

Inductive ipa_pdn_config_event : Type :=
  | IPA_PDN_DEFAULT_MODE_CONFIG | IPA_PDN_IP_COLLISION_MODE_CONFIG
  | IPA_PDN_IP_PASSTHROUGH_MODE_CONFIG | IPA_PDN_CONFIG_EVENT_MAX.

#[export] Instance ipa_pdn_config_event_enum : CEnum ipa_pdn_config_event := {
  enum_value e := match e with
    | IPA_PDN_DEFAULT_MODE_CONFIG => WIGIG_EVENT_MAX
    | IPA_PDN_IP_COLLISION_MODE_CONFIG => WIGIG_EVENT_MAX + 1
    | IPA_PDN_IP_PASSTHROUGH_MODE_CONFIG => WIGIG_EVENT_MAX + 2
    | IPA_PDN_CONFIG_EVENT_MAX => WIGIG_EVENT_MAX + 3
  end;
  enum_all := [IPA_PDN_DEFAULT_MODE_CONFIG; IPA_PDN_IP_COLLISION_MODE_CONFIG;
    IPA_PDN_IP_PASSTHROUGH_MODE_CONFIG; IPA_PDN_CONFIG_EVENT_MAX] }.

Inductive ipa_mac_flt_event : Type :=
  | IPA_MAC_FLT_EVENT | IPA_MAC_FLT_EVENT_MAX.

#[export] Instance ipa_mac_flt_event_enum : CEnum ipa_mac_flt_event := {
  enum_value e := match e with
    | IPA_MAC_FLT_EVENT => enum_value IPA_PDN_CONFIG_EVENT_MAX
    | IPA_MAC_FLT_EVENT_MAX => enum_value IPA_PDN_CONFIG_EVENT_MAX + 1
  end;
  enum_all := [IPA_MAC_FLT_EVENT; IPA_MAC_FLT_EVENT_MAX] }.

Inductive ipa_sockv5_event : Type :=
  | IPA_SOCKV5_ADD | IPA_SOCKV5_DEL | IPA_SOCKV5_EVENT_MAX.

#[export] Instance ipa_sockv5_event_enum : CEnum ipa_sockv5_event := {
  enum_value e := match e with
    | IPA_SOCKV5_ADD => enum_value IPA_MAC_FLT_EVENT_MAX
    | IPA_SOCKV5_DEL => enum_value IPA_MAC_FLT_EVENT_MAX + 1
    | IPA_SOCKV5_EVENT_MAX => enum_value IPA_MAC_FLT_EVENT_MAX + 2
  end;
  enum_all := [IPA_SOCKV5_ADD; IPA_SOCKV5_DEL; IPA_SOCKV5_EVENT_MAX] }.

Inductive ipa_warning_limit_event : Type :=
  | IPA_WARNING_LIMIT_REACHED | IPA_WARNING_LIMIT_EVENT_MAX.

#[export] Instance ipa_warning_limit_event_enum : CEnum ipa_warning_limit_event := {
  enum_value e := match e with
    | IPA_WARNING_LIMIT_REACHED => enum_value IPA_SOCKV5_EVENT_MAX
    | IPA_WARNING_LIMIT_EVENT_MAX => enum_value IPA_SOCKV5_EVENT_MAX + 1
  end;
  enum_all := [IPA_WARNING_LIMIT_REACHED; IPA_WARNING_LIMIT_EVENT_MAX] }.

Inductive ipa_sw_flt_event : Type :=
  | IPA_SW_FLT_EVENT | IPA_SW_FLT_EVENT_MAX.

#[export] Instance ipa_sw_flt_event_enum : CEnum ipa_sw_flt_event := {
  enum_value e := match e with
    | IPA_SW_FLT_EVENT => enum_value IPA_WARNING_LIMIT_EVENT_MAX
    | IPA_SW_FLT_EVENT_MAX => enum_value IPA_WARNING_LIMIT_EVENT_MAX + 1
  end;
  enum_all := [IPA_SW_FLT_EVENT; IPA_SW_FLT_EVENT_MAX] }.

Inductive ipa_pkt_threshold_event : Type :=
  | IPA_PKT_THRESHOLD_EVENT | IPA_PKT_THRESHOLD_EVENT_MAX.

#[export] Instance ipa_pkt_threshold_event_enum : CEnum ipa_pkt_threshold_event := {
  enum_value e := match e with
    | IPA_PKT_THRESHOLD_EVENT => enum_value IPA_SW_FLT_EVENT_MAX
    | IPA_PKT_THRESHOLD_EVENT_MAX => enum_value IPA_SW_FLT_EVENT_MAX + 1
  end;
  enum_all := [IPA_PKT_THRESHOLD_EVENT; IPA_PKT_THRESHOLD_EVENT_MAX] }.

Inductive ipa_move_nat_table_event : Type :=
  | IPA_MOVE_NAT_TABLE | IPA_MOVE_NAT_EVENT_MAX.

#[export] Instance ipa_move_nat_table_event_enum : CEnum ipa_move_nat_table_event := {
  enum_value e := match e with
    | IPA_MOVE_NAT_TABLE => enum_value IPA_PKT_THRESHOLD_EVENT_MAX
    | IPA_MOVE_NAT_EVENT_MAX => enum_value IPA_PKT_THRESHOLD_EVENT_MAX + 1
  end;
  enum_all := [IPA_MOVE_NAT_TABLE; IPA_MOVE_NAT_EVENT_MAX] }.

Inductive ipa_eogre_event : Type :=
  | IPA_EoGRE_UP_EVENT | IPA_EoGRE_DOWN_EVENT | IPA_EoGRE_EVENT_MAX.

#[export] Instance ipa_eogre_event_enum : CEnum ipa_eogre_event := {
  enum_value e := match e with
    | IPA_EoGRE_UP_EVENT => enum_value IPA_MOVE_NAT_EVENT_MAX
    | IPA_EoGRE_DOWN_EVENT => enum_value IPA_MOVE_NAT_EVENT_MAX + 1
    | IPA_EoGRE_EVENT_MAX => enum_value IPA_MOVE_NAT_EVENT_MAX + 2
  end;
  enum_all := [IPA_EoGRE_UP_EVENT; IPA_EoGRE_DOWN_EVENT; IPA_EoGRE_EVENT_MAX] }.

Inductive ipa_ippt_sw_flt_event : Type :=
  | IPA_IPPT_SW_FLT_EVENT | IPA_IPPT_SW_FLT_EVENT_MAX.

#[export] Instance ipa_ippt_sw_flt_event_enum : CEnum ipa_ippt_sw_flt_event := {
  enum_value e := match e with
    | IPA_IPPT_SW_FLT_EVENT => enum_value IPA_EoGRE_EVENT_MAX
    | IPA_IPPT_SW_FLT_EVENT_MAX => enum_value IPA_EoGRE_EVENT_MAX + 1
  end;
  enum_all := [IPA_IPPT_SW_FLT_EVENT; IPA_IPPT_SW_FLT_EVENT_MAX] }.

Inductive ipa_macsec_event : Type :=
  | IPA_MACSEC_ADD_EVENT | IPA_MACSEC_DEL_EVENT | IPA_MACSEC_EVENT_MAX.

#[export] Instance ipa_macsec_event_enum : CEnum ipa_macsec_event := {
  enum_value e := match e with
    | IPA_MACSEC_ADD_EVENT => enum_value IPA_IPPT_SW_FLT_EVENT_MAX
    | IPA_MACSEC_DEL_EVENT => enum_value IPA_IPPT_SW_FLT_EVENT_MAX + 1
    | IPA_MACSEC_EVENT_MAX => enum_value IPA_IPPT_SW_FLT_EVENT_MAX + 2
  end;
  enum_all := [IPA_MACSEC_ADD_EVENT; IPA_MACSEC_DEL_EVENT; IPA_MACSEC_EVENT_MAX] }.

Inductive ipa_done_restore_event : Type :=
  | IPA_DONE_RESTORE_EVENT | IPA_DONE_RESTORE_EVENT_MAX.

#[export] Instance ipa_done_restore_event_enum : CEnum ipa_done_restore_event := {
  enum_value e := match e with
    | IPA_DONE_RESTORE_EVENT => enum_value IPA_MACSEC_EVENT_MAX
    | IPA_DONE_RESTORE_EVENT_MAX => enum_value IPA_MACSEC_EVENT_MAX + 1
  end;
  enum_all := [IPA_DONE_RESTORE_EVENT; IPA_DONE_RESTORE_EVENT_MAX] }.

Inductive ipa_ext_route_evt : Type :=
  | IPA_SET_EXT_ROUTER_MODE_EVENT | IPA_SET_EXT_ROUTER_MODE_EVENT_MAX.

#[export] Instance ipa_ext_route_evt_enum : CEnum ipa_ext_route_evt := {
  enum_value e := match e with
    | IPA_SET_EXT_ROUTER_MODE_EVENT => enum_value IPA_DONE_RESTORE_EVENT_MAX
    | IPA_SET_EXT_ROUTER_MODE_EVENT_MAX => enum_value IPA_DONE_RESTORE_EVENT_MAX + 1
  end;
  enum_all := [IPA_SET_EXT_ROUTER_MODE_EVENT; IPA_SET_EXT_ROUTER_MODE_EVENT_MAX] }.

Inductive ipa_eth_pdu_evt : Type :=
  | IPA_ENABLE_ETH_PDU_MODE_EVENT | IPA_ENABLE_ETH_PDU_MODE_EVENT_MAX.

#[export] Instance ipa_eth_pdu_evt_enum : CEnum ipa_eth_pdu_evt := {
  enum_value e := match e with
    | IPA_ENABLE_ETH_PDU_MODE_EVENT => enum_value IPA_SET_EXT_ROUTER_MODE_EVENT_MAX
    | IPA_ENABLE_ETH_PDU_MODE_EVENT_MAX => enum_value IPA_SET_EXT_ROUTER_MODE_EVENT_MAX + 1
  end;
  enum_all := [IPA_ENABLE_ETH_PDU_MODE_EVENT; IPA_ENABLE_ETH_PDU_MODE_EVENT_MAX] }.

Definition IPA_EVENT_MAX_NUM : Z := enum_value IPA_ENABLE_ETH_PDU_MODE_EVENT_MAX.
Definition IPA_EVENT_MAX : Z := cast S32 IPA_EVENT_MAX_NUM.
