(* ===== verification/IpaProps.v ===== *)
(** * IpaProps: the conventions of the IPA numbering

    Parity of client and resource numbers, what each predicate holds of, and the
    ranges of the event enumerations. *)

From S2P Require Import Prelude Ipa.

#[local] Open Scope string_scope.
#[local] Open Scope list_scope.
#[local] Open Scope Z_scope.

#[export] Instance ipa_client_type_laws : CEnumLaws ipa_client_type.
Proof. solve_enum_laws. Qed.

#[export] Instance ipa_rm_resource_name_laws : CEnumLaws ipa_rm_resource_name.
Proof. solve_enum_laws. Qed.

#[export] Instance ipa_client_type_eq_dec : EqDecision ipa_client_type.
Proof.
  intros c c'. destruct (decide (enum_value c = enum_value c')) as [E|E].
  - left. by apply enum_value_inj.
  - right. congruence.
Defined.

(** [sub] occurs in [s]. *)
Definition contains (sub s : string) : bool :=
  match String.index 0 sub s with Some _ => true | None => false end.

(** ** Numbering *)

(** The convention stated in the header holds for every client and for every
    resource: producers have even numbers and consumers odd ones, every
    identifier says which of the two it is, no two share a number, and all
    numbers are below the maximum. *)
Theorem ipa_numbering (c c' : ipa_client_type) (r r' : ipa_rm_resource_name) :
  Z.even (enum_value c) = contains "_PROD" (ipa_client_name c)
  /\ Z.odd (enum_value c) = contains "_CONS" (ipa_client_name c)
  /\ (enum_value c = enum_value c' <-> c = c')
  /\ 0 <= enum_value c < IPA_CLIENT_MAX
  /\ Z.even (enum_value r) = contains "_PROD" (ipa_rm_resource_string r)
  /\ Z.odd (enum_value r) = contains "_CONS" (ipa_rm_resource_string r)
  /\ (enum_value r = enum_value r' <-> r = r')
  /\ 0 <= enum_value r < IPA_RM_RESOURCE_MAX.
Proof.
  split_and!.
  - by destruct c.
  - by destruct c.
  - split; [apply enum_value_inj|by intros ->].
  - by destruct c.
  - by destruct c.
  - by destruct r.
  - by destruct r.
  - split; [apply enum_value_inj|by intros ->].
  - by destruct r.
  - by destruct r.
Qed.

(** ** Predicates *)

(** A predicate on client numbers holds of the numbers of some clients only. *)
Definition holds_of (p : Z -> bool) (f : ipa_client_type -> bool) : Prop :=
  forall z, p z = match enum_decode z with Some c => f c | None => false end.

(** The identifier has the given part and the given role. *)
Definition named (part role : string) (c : ipa_client_type) : bool :=
  contains part (ipa_client_name c) && contains role (ipa_client_name c).

Lemma holds_of_intro p f :
  (forall c : ipa_client_type, p (enum_value c) = f c) ->
  (forall z, p z = true -> exists c : ipa_client_type, z = enum_value c) ->
  holds_of p f.
Proof.
  intros Hc Hz z. destruct (enum_decode z) as [c|] eqn:E.
  - apply enum_decode_Some in E as <-. apply Hc.
  - apply not_true_is_false. intros Ht. destruct (Hz z Ht) as [c ->].
    by rewrite enum_decode_value in E.
Qed.

(** Every comparison of a predicate is with a client. *)
Ltac client_compared p :=
  let z := fresh "z" in
  let Hz := fresh "Hz" in
  intros z Hz; unfold p in Hz;
  repeat (apply orb_true_iff in Hz as [Hz|Hz]);
  apply Z.eqb_eq in Hz; eexists; exact Hz.

Ltac solve_predicate p := apply holds_of_intro; [by intros []|client_compared p].

(** The predicates on client numbers hold exactly of the clients whose
    identifiers say so, and of no other integer: the consumers and producers of
    the applications processor, USB, WLAN, ODU, the modem (Q6), memory-copy DMA
    and test clients. Two producers are left out of their predicates: the
    applications processor's command client and the modem's Ethernet data client. *)
Theorem ipa_predicates :
  holds_of IPA_CLIENT_IS_APPS_CONS (named "_APPS_" "_CONS")
  /\ holds_of IPA_CLIENT_IS_APPS_PROD
       (fun c => named "_APPS_" "_PROD" c && negb (bool_decide (c = IPA_CLIENT_APPS_CMD_PROD)))
  /\ holds_of IPA_CLIENT_IS_USB_CONS (named "_USB" "_CONS")
  /\ holds_of IPA_CLIENT_IS_WLAN_CONS (named "_WLAN" "_CONS")
  /\ holds_of IPA_CLIENT_IS_ODU_CONS (named "_ODU_" "_CONS")
  /\ holds_of IPA_CLIENT_IS_Q6_CONS (named "_Q6_" "_CONS")
  /\ holds_of IPA_CLIENT_IS_Q6_PROD
       (fun c => named "_Q6_" "_PROD" c && negb (bool_decide (c = IPA_CLIENT_Q6_DL_NLO_ETH_DATA_PROD)))
  /\ holds_of IPA_CLIENT_IS_MEMCPY_DMA_CONS (named "_MEMCPY_DMA_" "_CONS")
  /\ holds_of IPA_CLIENT_IS_MEMCPY_DMA_PROD (named "_MEMCPY_DMA_" "_PROD")
  /\ holds_of IPA_CLIENT_IS_TEST_CONS (named "_TEST" "_CONS")
  /\ holds_of IPA_CLIENT_IS_TEST_PROD (named "_TEST" "_PROD")
  /\ holds_of IPA_CLIENT_IS_MHI
       (fun c => contains "CLIENT_MHI" (ipa_client_name c) && negb (contains "MHI_PRIME" (ipa_client_name c))).
Proof.
  split_and!.
  - solve_predicate IPA_CLIENT_IS_APPS_CONS.
  - solve_predicate IPA_CLIENT_IS_APPS_PROD.
  - solve_predicate IPA_CLIENT_IS_USB_CONS.
  - solve_predicate IPA_CLIENT_IS_WLAN_CONS.
  - solve_predicate IPA_CLIENT_IS_ODU_CONS.
  - solve_predicate IPA_CLIENT_IS_Q6_CONS.
  - solve_predicate IPA_CLIENT_IS_Q6_PROD.
  - solve_predicate IPA_CLIENT_IS_MEMCPY_DMA_CONS.
  - solve_predicate IPA_CLIENT_IS_MEMCPY_DMA_PROD.
  - solve_predicate IPA_CLIENT_IS_TEST_CONS.
  - solve_predicate IPA_CLIENT_IS_TEST_PROD.
  - solve_predicate IPA_CLIENT_IS_MHI.
Qed.

(** The modem's clients are split by compression: each is in exactly one of
    the zip and the non-zip class of its direction, for every integer. The two WAN
    consumers and the low-latency consumer are consumers of the applications
    processor, a test client is a test producer or a test consumer, and nothing
    is both. *)
Theorem ipa_predicates_partition (z : Z) :
  IPA_CLIENT_IS_Q6_CONS z = xorb (IPA_CLIENT_IS_Q6_ZIP_CONS z) (IPA_CLIENT_IS_Q6_NON_ZIP_CONS z)
  /\ IPA_CLIENT_IS_Q6_ZIP_CONS z && IPA_CLIENT_IS_Q6_NON_ZIP_CONS z = false
  /\ IPA_CLIENT_IS_Q6_PROD z = xorb (IPA_CLIENT_IS_Q6_ZIP_PROD z) (IPA_CLIENT_IS_Q6_NON_ZIP_PROD z)
  /\ IPA_CLIENT_IS_Q6_ZIP_PROD z && IPA_CLIENT_IS_Q6_NON_ZIP_PROD z = false
  /\ (IPA_CLIENT_IS_WAN_CONS z || IPA_CLIENT_IS_LOW_LAT_CONS z = true -> IPA_CLIENT_IS_APPS_CONS z = true)
  /\ IPA_CLIENT_IS_TEST z = xorb (IPA_CLIENT_IS_TEST_PROD z) (IPA_CLIENT_IS_TEST_CONS z).
Proof.
  destruct (@enum_decode ipa_client_type _ z) as [c|] eqn:E.
  - apply enum_decode_Some in E as <-. destruct c; split_and!; done.
  - rewrite enum_decode_None in E.
    assert (forall c : ipa_client_type, (z =? enum_value c) = false) as Hne
      by (intros c; apply Z.eqb_neq; intros ->; by destruct (E c)).
    unfold IPA_CLIENT_IS_Q6_CONS, IPA_CLIENT_IS_Q6_ZIP_CONS, IPA_CLIENT_IS_Q6_NON_ZIP_CONS,
      IPA_CLIENT_IS_Q6_PROD, IPA_CLIENT_IS_Q6_ZIP_PROD, IPA_CLIENT_IS_Q6_NON_ZIP_PROD,
      IPA_CLIENT_IS_WAN_CONS, IPA_CLIENT_IS_LOW_LAT_CONS, IPA_CLIENT_IS_APPS_CONS,
      IPA_CLIENT_IS_TEST, IPA_CLIENT_IS_TEST_PROD, IPA_CLIENT_IS_TEST_CONS.
    rewrite !Hne. split_and!; done.
Qed.

(** ** Events *)

(** The numbers of an enumeration's events, its final marker left out. *)
Definition event_values (A : Type) `{CEnum A} : list Z := removelast (map enum_value (@enum_all A _)).

(** All the events, in the order of the file. *)
Definition ipa_events : list Z :=
  event_values ipa_wlan_event ++ event_values ipa_wan_event ++ event_values ipa_ecm_event ++
  event_values ipa_tethering_stats_event ++ event_values ipa_quota_event ++
  event_values ipa_ssr_event ++ event_values ipa_vlan_l2tp_event ++
  event_values ipa_per_client_stats_event ++ event_values ipa_vlan_bridge_event ++
  event_values ipa_wlan_fw_ssr_event ++ event_values ipa_gsb_event ++
  event_values ipa_coalesce_event ++ event_values ipa_mtu_event ++
  [WIGIG_CLIENT_CONNECT; WIGIG_FST_SWITCH] ++ event_values ipa_pdn_config_event ++
  event_values ipa_mac_flt_event ++ event_values ipa_sockv5_event ++
  event_values ipa_warning_limit_event ++ event_values ipa_sw_flt_event ++
  event_values ipa_pkt_threshold_event ++ event_values ipa_move_nat_table_event ++
  event_values ipa_eogre_event ++ event_values ipa_ippt_sw_flt_event ++
  event_values ipa_macsec_event ++ event_values ipa_done_restore_event ++
  event_values ipa_ext_route_evt ++ event_values ipa_eth_pdu_evt.

(** The event enumerations tile the range below [IPA_EVENT_MAX] without gap
    or overlap: an event number belongs to one event. The peripheral events are
    meant to be the ECM events under another name. *)
Theorem ipa_events_tile :
  ipa_events = seqZ 0 IPA_EVENT_MAX
  /\ NoDup ipa_events
  /\ (forall n, In n ipa_events <-> 0 <= n < IPA_EVENT_MAX)
  /\ map enum_value (@enum_all ipa_peripheral_event _) = event_values ipa_ecm_event.
Proof.
  assert (ipa_events = seqZ 0 IPA_EVENT_MAX) as E by (vm_compute; reflexivity).
  split_and!; [exact E|rewrite E; apply NoDup_seqZ| |vm_compute; reflexivity].
  intros n. rewrite E, <- list_elem_of_In, elem_of_seqZ. lia.
Qed.
