(* ===== verification/IpaTypes.v ===== *)
(** * IpaTypes: the structures of [include/linux/msm_ipa.h]

    Every structure and union of the header, as a [ctype] whose members are the
    source's, in order. Adjacent bit-fields that fill an integer together are one
    member whose name lists them with their widths. A zero-length array at the
    end of a structure stands for the records that follow it in the buffer. *)

From S2P Require Import Prelude CLayout Uapi.

#[local] Open Scope string_scope.
#[local] Open Scope list_scope.
#[local] Open Scope Z_scope.

(** ** Sizes of arrays *)

Definition IPA_HDR_MAX_SIZE : Z := 64.
Definition IPA_RESOURCE_NAME_MAX : Z := 32.
Definition IPA_MAC_ADDR_SIZE : Z := 6.
Definition IPA_WAN_MSG_IPv6_ADDR_GW_LEN : Z := 4.
Definition IPA_MAX_NUM_HW_PATH_CLIENTS : Z := 16.
Definition IPA_MAX_NUM_MAC_FLT : Z := 32.
Definition IPA_MAX_NUM_IPv4_SEGS_FLT : Z := 16.
Definition IPA_MAX_NUM_IFACE_FLT : Z := 4.
Definition IPA_MAX_IPPT_NUM_PORT_FLT : Z := 5.
Definition IPA_UC_MAX_DSCP_VAL : Z := 64.
Definition IPA_MAX_PDN_NUM : Z := 16.
Definition IPA_IPFLTR_NUM_MEQ_32_EQNS : Z := 2.
Definition IPA_IPFLTR_NUM_IHL_MEQ_32_EQNS : Z := 2.
Definition IPA_IPFLTR_NUM_MEQ_128_EQNS : Z := 2.
Definition IPA_IPFLTR_NUM_IHL_RANGE_16_EQNS : Z := 2.
Definition IPA_EoGRE_MAX_PCP_IDX : Z := 8.
Definition IPA_EoGRE_MAX_VLAN : Z := 8.

(** ** Structures *)

Section Types.
Context `{LinuxUapi}.

Definition struct_ipa_rule_attrib : ctype := struct [
  ("attrib_mask", c_u32); ("src_port_lo", c_u16); ("src_port_hi", c_u16); ("dst_port_lo", c_u16);
  ("dst_port_hi", c_u16); ("type", c_u8); ("code", c_u8); ("tos_value", c_u8);
  ("tos_mask", c_u8); ("spi", c_u32); ("src_port", c_u16); ("dst_port", c_u16);
  ("meta_data", c_u32); ("meta_data_mask", c_u32); ("src_mac_addr", CArray c_u8 ETH_ALEN);
  ("src_mac_addr_mask", CArray c_u8 ETH_ALEN); ("dst_mac_addr", CArray c_u8 ETH_ALEN);
  ("dst_mac_addr_mask", CArray c_u8 ETH_ALEN); ("ether_type", c_u16);
  ("u", CUnion [
    ("v4", struct [
      ("tos", c_u8); ("protocol", c_u8); ("src_addr", c_u32); ("src_addr_mask", c_u32);
      ("dst_addr", c_u32); ("dst_addr_mask", c_u32)]);
    ("v6", struct [
      ("tc", c_u8); ("flow_label", c_u32); ("next_hdr", c_u8); ("src_addr", CArray c_u32 4);
      ("src_addr_mask", CArray c_u32 4); ("dst_addr", CArray c_u32 4);
      ("dst_addr_mask", CArray c_u32 4)])]);
  ("vlan_id", c_u16); ("payload_length", c_u16); ("ext_attrib_mask", c_u32);
  ("l2tp_udp_next_hdr", c_u8); ("padding1", c_u8); ("padding2", c_u32)].

Definition struct_ipa_ipfltr_eq_16 : ctype := struct [
  ("offset", c_u8); ("value", c_u16)].

Definition struct_ipa_ipfltr_eq_32 : ctype := struct [
  ("offset", c_u8); ("value", c_u32)].

Definition struct_ipa_ipfltr_mask_eq_128 : ctype := struct [
  ("offset", c_u8); ("mask", CArray c_u8 16); ("value", CArray c_u8 16)].

Definition struct_ipa_ipfltr_mask_eq_32 : ctype := struct [
  ("offset", c_u8); ("mask", c_u32); ("value", c_u32)].

Definition struct_ipa_ipfltr_range_eq_16 : ctype := struct [
  ("offset", c_u8); ("range_low", c_u16); ("range_high", c_u16)].

Definition struct_ipa_ipfltri_rule_eq : ctype := struct [
  ("rule_eq_bitmap", c_u16); ("tos_eq_present", c_u8); ("tos_eq", c_u8);
  ("protocol_eq_present", c_u8); ("protocol_eq", c_u8); ("num_ihl_offset_range_16", c_u8);
  ("ihl_offset_range_16", CArray struct_ipa_ipfltr_range_eq_16 IPA_IPFLTR_NUM_IHL_RANGE_16_EQNS);
  ("num_offset_meq_32", c_u8);
  ("offset_meq_32", CArray struct_ipa_ipfltr_mask_eq_32 IPA_IPFLTR_NUM_MEQ_32_EQNS);
  ("tc_eq_present", c_u8); ("tc_eq", c_u8); ("fl_eq_present", c_u8); ("fl_eq", c_u32);
  ("ihl_offset_eq_16_present", c_u8); ("ihl_offset_eq_16", struct_ipa_ipfltr_eq_16);
  ("ihl_offset_eq_32_present", c_u8); ("ihl_offset_eq_32", struct_ipa_ipfltr_eq_32);
  ("num_ihl_offset_meq_32", c_u8);
  ("ihl_offset_meq_32", CArray struct_ipa_ipfltr_mask_eq_32 IPA_IPFLTR_NUM_IHL_MEQ_32_EQNS);
  ("num_offset_meq_128", c_u8);
  ("offset_meq_128", CArray struct_ipa_ipfltr_mask_eq_128 IPA_IPFLTR_NUM_MEQ_128_EQNS);
  ("metadata_meq32_present", c_u8); ("metadata_meq32", struct_ipa_ipfltr_mask_eq_32);
  ("ipv4_frag_eq_present", c_u8)].

Definition struct_ipa_flt_rule : ctype := struct [
  ("retain_hdr", c_u8); ("to_uc", c_u8); ("action", c_enum); ("rt_tbl_hdl", c_u32);
  ("attrib", struct_ipa_rule_attrib); ("eq_attrib", struct_ipa_ipfltri_rule_eq);
  ("rt_tbl_idx", c_u32); ("eq_attrib_type", c_u8); ("max_prio", c_u8); ("hashable", c_u8);
  ("rule_id", c_u16); ("set_metadata", c_u8); ("pdn_idx", c_u8)].

Definition struct_ipa_flt_rule_v2 : ctype := struct [
  ("retain_hdr", c_u8); ("to_uc", c_u8); ("action", c_enum); ("rt_tbl_hdl", c_u32);
  ("attrib", struct_ipa_rule_attrib); ("eq_attrib", struct_ipa_ipfltri_rule_eq);
  ("rt_tbl_idx", c_u32); ("eq_attrib_type", c_u8); ("max_prio", c_u8); ("hashable", c_u8);
  ("rule_id", c_u16); ("set_metadata", c_u8); ("pdn_idx", c_u8); ("enable_stats", c_u8);
  ("cnt_idx", c_u8); ("close_aggr_irq_mod", c_u8)].

Definition struct_ipa_rt_rule : ctype := struct [
  ("dst", c_enum); ("hdr_hdl", c_u32); ("hdr_proc_ctx_hdl", c_u32);
  ("attrib", struct_ipa_rule_attrib); ("max_prio", c_u8); ("hashable", c_u8);
  ("retain_hdr", c_u8); ("coalesce", c_u8)].

Definition struct_ipa_rt_rule_v2 : ctype := struct [
  ("dst", c_enum); ("hdr_hdl", c_u32); ("hdr_proc_ctx_hdl", c_u32);
  ("attrib", struct_ipa_rule_attrib); ("max_prio", c_u8); ("hashable", c_u8);
  ("retain_hdr", c_u8); ("coalesce", c_u8); ("enable_stats", c_u8); ("cnt_idx", c_u8);
  ("close_aggr_irq_mod", c_u8)].

Definition struct_ipa_hdr_add : ctype := struct [
  ("name", CArray c_u8 IPA_RESOURCE_NAME_MAX); ("hdr", CArray c_u8 IPA_HDR_MAX_SIZE);
  ("hdr_len", c_u8); ("type", c_enum); ("is_partial", c_u8); ("hdr_hdl", c_u32);
  ("status", c_int); ("is_eth2_ofst_valid", c_u8); ("eth2_ofst", c_u16)].

Definition struct_ipa_ioc_add_hdr : ctype := struct [
  ("commit", c_u8); ("num_hdrs", c_u8); ("hdr", CArray struct_ipa_hdr_add 0)].

Definition struct_ipa_l2tp_header_add_procparams : ctype := struct [
  ("eth_hdr_retained:1, input_ip_version:1, output_ip_version:1, second_pass:1, reserved:28", c_u32);
  ("padding", c_u32)].

Definition struct_ipa_l2tp_header_remove_procparams : ctype := struct [
  ("hdr_len_remove:8, eth_hdr_retained:1, hdr_ofst_pkt_size_valid:1, hdr_ofst_pkt_size:6, hdr_endianness:1, reserved:15", c_u32)].

Definition struct_ipa_l2tp_hdr_proc_ctx_params : ctype := struct [
  ("hdr_add_param", struct_ipa_l2tp_header_add_procparams);
  ("hdr_remove_param", struct_ipa_l2tp_header_remove_procparams); ("is_dst_pipe_valid", c_u8);
  ("dst_pipe", c_enum)].

Definition struct_IpaDscpVlanPcpMap_t : ctype := packed_struct [
  ("vlan", CArray c_u16 IPA_EoGRE_MAX_VLAN);
  ("dscp", CArray (CArray c_u8 IPA_EoGRE_MAX_PCP_IDX) IPA_EoGRE_MAX_VLAN); ("num_vlan", c_u8);
  ("reserved0", c_u8)].

Definition struct_ipa_ipgre_info : ctype := struct [
  ("iptype", c_enum); ("ipv4_src", c_u32); ("ipv4_dst", c_u32); ("ipv6_src", CArray c_u32 4);
  ("ipv6_dst", CArray c_u32 4); ("gre_protocol", c_u16)].

Definition struct_ipa_ioc_eogre_info : ctype := struct [
  ("ipgre_info", struct_ipa_ipgre_info); ("map_info", struct_IpaDscpVlanPcpMap_t)].

Definition struct_ipa_eogre_header_add_procparams : ctype := struct [
  ("eth_hdr_retained:1, input_ip_version:1, output_ip_version:1, second_pass:1, reserved:28", c_u32)].

Definition struct_ipa_eogre_header_remove_procparams : ctype := struct [
  ("hdr_len_remove:8, reserved:24", c_u32)].

Definition struct_ipa_eogre_hdr_proc_ctx_params : ctype := struct [
  ("hdr_add_param", struct_ipa_eogre_header_add_procparams);
  ("hdr_remove_param", struct_ipa_eogre_header_remove_procparams)].

Definition struct_ipa_eth_II_to_eth_II_ex_procparams : ctype := struct [
  ("input_ethhdr_negative_offset:8, output_ethhdr_negative_offset:8, output_dscp_pcp_update:1, reserved:15", c_u32)].

Definition struct_ipa_wwan_to_eth_II_ex_procparams : ctype := struct [
  ("input_ethhdr_negative_offset:8, output_ethhdr_negative_offset:8, output_dscp_pcp_update:1, input_ethhdr_valid:1, reserved:14", c_u32)].

Definition struct_ipa_hdr_proc_ctx_add : ctype := struct [
  ("type", c_enum); ("hdr_hdl", c_u32); ("proc_ctx_hdl", c_u32); ("status", c_int);
  ("l2tp_params", struct_ipa_l2tp_hdr_proc_ctx_params);
  ("eogre_params", struct_ipa_eogre_hdr_proc_ctx_params);
  ("generic_params", struct_ipa_eth_II_to_eth_II_ex_procparams);
  ("generic_params_v2", struct_ipa_wwan_to_eth_II_ex_procparams)].

Definition struct_ipa_ioc_add_hdr_proc_ctx : ctype := struct [
  ("commit", c_u8); ("num_proc_ctxs", c_u8); ("proc_ctx", CArray struct_ipa_hdr_proc_ctx_add 0)].

Definition struct_ipa_ioc_copy_hdr : ctype := struct [
  ("name", CArray c_u8 IPA_RESOURCE_NAME_MAX); ("hdr", CArray c_u8 IPA_HDR_MAX_SIZE);
  ("hdr_len", c_u8); ("type", c_enum); ("is_partial", c_u8); ("is_eth2_ofst_valid", c_u8);
  ("eth2_ofst", c_u16)].

Definition struct_ipa_ioc_get_hdr : ctype := struct [
  ("name", CArray c_u8 IPA_RESOURCE_NAME_MAX); ("hdl", c_u32)].

Definition struct_ipa_hdr_del : ctype := struct [
  ("hdl", c_u32); ("status", c_int)].

Definition struct_ipa_ioc_del_hdr : ctype := struct [
  ("commit", c_u8); ("num_hdls", c_u8); ("hdl", CArray struct_ipa_hdr_del 0)].

Definition struct_ipa_hdr_proc_ctx_del : ctype := struct [
  ("hdl", c_u32); ("status", c_int)].

Definition struct_ipa_ioc_del_hdr_proc_ctx : ctype := struct [
  ("commit", c_u8); ("num_hdls", c_u8); ("hdl", CArray struct_ipa_hdr_proc_ctx_del 0)].

Definition struct_ipa_rt_rule_add : ctype := struct [
  ("rule", struct_ipa_rt_rule); ("at_rear", c_u8); ("rt_rule_hdl", c_u32); ("status", c_int)].

Definition struct_ipa_rt_rule_add_v2 : ctype := struct [
  ("at_rear", c_u8); ("rt_rule_hdl", c_u32); ("status", c_int); ("rule", struct_ipa_rt_rule_v2)].

Definition struct_ipa_ioc_add_rt_rule : ctype := struct [
  ("commit", c_u8); ("ip", c_enum); ("rt_tbl_name", CArray c_u8 IPA_RESOURCE_NAME_MAX);
  ("num_rules", c_u8); ("rules", CArray struct_ipa_rt_rule_add 0)].

Definition struct_ipa_ioc_add_rt_rule_v2 : ctype := struct [
  ("commit", c_u8); ("ip", c_enum); ("rt_tbl_name", CArray c_u8 IPA_RESOURCE_NAME_MAX);
  ("num_rules", c_u8); ("rule_add_size", c_u32); ("reserved1", c_u32); ("reserved2", c_u8);
  ("rules", c_u64)].

Definition struct_ipa_ioc_add_rt_rule_after : ctype := struct [
  ("commit", c_u8); ("ip", c_enum); ("rt_tbl_name", CArray c_u8 IPA_RESOURCE_NAME_MAX);
  ("num_rules", c_u8); ("add_after_hdl", c_u32); ("rules", CArray struct_ipa_rt_rule_add 0)].

Definition struct_ipa_ioc_add_rt_rule_after_v2 : ctype := struct [
  ("commit", c_u8); ("ip", c_enum); ("rt_tbl_name", CArray c_u8 IPA_RESOURCE_NAME_MAX);
  ("num_rules", c_u8); ("add_after_hdl", c_u32); ("rule_add_size", c_u32); ("reserved", c_u8);
  ("rules", c_u64)].

Definition struct_ipa_rt_rule_mdfy : ctype := struct [
  ("rule", struct_ipa_rt_rule); ("rt_rule_hdl", c_u32); ("status", c_int)].

Definition struct_ipa_rt_rule_mdfy_v2 : ctype := struct [
  ("rt_rule_hdl", c_u32); ("status", c_int); ("rule", struct_ipa_rt_rule_v2)].

Definition struct_ipa_ioc_mdfy_rt_rule : ctype := struct [
  ("commit", c_u8); ("ip", c_enum); ("num_rules", c_u8);
  ("rules", CArray struct_ipa_rt_rule_mdfy 0)].

Definition struct_ipa_ioc_mdfy_rt_rule_v2 : ctype := struct [
  ("commit", c_u8); ("ip", c_enum); ("num_rules", c_u8); ("rule_mdfy_size", c_u32);
  ("reserved", c_u8); ("rules", c_u64)].

Definition struct_ipa_rt_rule_del : ctype := struct [
  ("hdl", c_u32); ("status", c_int)].

Definition struct_ipa_rt_rule_add_ext : ctype := struct [
  ("rule", struct_ipa_rt_rule); ("at_rear", c_u8); ("rt_rule_hdl", c_u32); ("status", c_int);
  ("rule_id", c_u16)].

Definition struct_ipa_rt_rule_add_ext_v2 : ctype := struct [
  ("at_rear", c_u8); ("rt_rule_hdl", c_u32); ("status", c_int); ("rule_id", c_u16);
  ("rule", struct_ipa_rt_rule_v2)].

Definition struct_ipa_ioc_add_rt_rule_ext : ctype := struct [
  ("commit", c_u8); ("ip", c_enum); ("rt_tbl_name", CArray c_u8 IPA_RESOURCE_NAME_MAX);
  ("num_rules", c_u8); ("rules", CArray struct_ipa_rt_rule_add_ext 0)].

Definition struct_ipa_ioc_add_rt_rule_ext_v2 : ctype := struct [
  ("commit", c_u8); ("ip", c_enum); ("rt_tbl_name", CArray c_u8 IPA_RESOURCE_NAME_MAX);
  ("num_rules", c_u8); ("rule_add_ext_size", c_u32); ("reserved1", c_u32); ("reserved2", c_u8);
  ("rules", c_u64)].

Definition struct_ipa_ioc_del_rt_rule : ctype := struct [
  ("commit", c_u8); ("ip", c_enum); ("num_hdls", c_u8); ("hdl", CArray struct_ipa_rt_rule_del 0)].

Definition struct_ipa_ioc_get_rt_tbl_indx : ctype := struct [
  ("ip", c_enum); ("name", CArray c_u8 IPA_RESOURCE_NAME_MAX); ("idx", c_u32)].

Definition struct_ipa_flt_rule_add : ctype := struct [
  ("rule", struct_ipa_flt_rule); ("at_rear", c_u8); ("flt_rule_hdl", c_u32); ("status", c_int)].

Definition struct_ipa_flt_rule_add_v2 : ctype := struct [
  ("at_rear", c_u8); ("flt_rule_hdl", c_u32); ("status", c_int); ("rule", struct_ipa_flt_rule_v2)].

Definition struct_ipa_ioc_add_flt_rule : ctype := struct [
  ("commit", c_u8); ("ip", c_enum); ("ep", c_enum); ("global", c_u8); ("num_rules", c_u8);
  ("rules", CArray struct_ipa_flt_rule_add 0)].

Definition struct_ipa_ioc_add_flt_rule_v2 : ctype := struct [
  ("commit", c_u8); ("ip", c_enum); ("ep", c_enum); ("global", c_u8); ("num_rules", c_u8);
  ("flt_rule_size", c_u32); ("reserved1", c_u32); ("reserved2", c_u16); ("reserved3", c_u8);
  ("rules", c_u64)].

Definition struct_ipa_ioc_add_flt_rule_after : ctype := struct [
  ("commit", c_u8); ("ip", c_enum); ("ep", c_enum); ("num_rules", c_u8);
  ("add_after_hdl", c_u32); ("rules", CArray struct_ipa_flt_rule_add 0)].

Definition struct_ipa_ioc_add_flt_rule_after_v2 : ctype := struct [
  ("commit", c_u8); ("ip", c_enum); ("ep", c_enum); ("num_rules", c_u8);
  ("add_after_hdl", c_u32); ("flt_rule_size", c_u32); ("reserved", c_u32); ("rules", c_u64)].

Definition struct_ipa_flt_rule_mdfy : ctype := struct [
  ("rule", struct_ipa_flt_rule); ("rule_hdl", c_u32); ("status", c_int)].

Definition struct_ipa_flt_rule_mdfy_v2 : ctype := struct [
  ("rule_hdl", c_u32); ("status", c_int); ("rule", struct_ipa_flt_rule_v2)].

Definition struct_ipa_ioc_mdfy_flt_rule : ctype := struct [
  ("commit", c_u8); ("ip", c_enum); ("num_rules", c_u8);
  ("rules", CArray struct_ipa_flt_rule_mdfy 0)].

Definition struct_ipa_ioc_mdfy_flt_rule_v2 : ctype := struct [
  ("commit", c_u8); ("ip", c_enum); ("num_rules", c_u8); ("rule_mdfy_size", c_u32);
  ("reserved", c_u8); ("rules", c_u64)].

Definition struct_ipa_flt_rule_del : ctype := struct [
  ("hdl", c_u32); ("status", c_int)].

Definition struct_ipa_ioc_del_flt_rule : ctype := struct [
  ("commit", c_u8); ("ip", c_enum); ("num_hdls", c_u8); ("hdl", CArray struct_ipa_flt_rule_del 0)].

Definition struct_ipa_ioc_get_rt_tbl : ctype := struct [
  ("ip", c_enum); ("name", CArray c_u8 IPA_RESOURCE_NAME_MAX); ("hdl", c_u32)].

Definition struct_ipa_ioc_query_intf : ctype := struct [
  ("name", CArray c_u8 IPA_RESOURCE_NAME_MAX); ("num_tx_props", c_u32); ("num_rx_props", c_u32);
  ("num_ext_props", c_u32); ("excp_pipe", c_enum)].

Definition struct_ipa_ioc_tx_intf_prop : ctype := struct [
  ("ip", c_enum); ("attrib", struct_ipa_rule_attrib); ("dst_pipe", c_enum);
  ("alt_dst_pipe", c_enum); ("hdr_name", CArray c_u8 IPA_RESOURCE_NAME_MAX);
  ("hdr_l2_type", c_enum)].

Definition struct_ipa_ioc_query_intf_tx_props : ctype := struct [
  ("name", CArray c_u8 IPA_RESOURCE_NAME_MAX); ("num_tx_props", c_u32);
  ("tx", CArray struct_ipa_ioc_tx_intf_prop 0)].

Definition struct_ipa_ioc_ext_intf_prop : ctype := struct [
  ("ip", c_enum); ("eq_attrib", struct_ipa_ipfltri_rule_eq); ("action", c_enum);
  ("rt_tbl_idx", c_u32); ("mux_id", c_u8); ("filter_hdl", c_u32); ("is_xlat_rule", c_u8);
  ("rule_id", c_u32); ("is_rule_hashable", c_u8); ("replicate_needed", c_u8)].

Definition struct_ipa_ioc_query_intf_ext_props : ctype := struct [
  ("name", CArray c_u8 IPA_RESOURCE_NAME_MAX); ("num_ext_props", c_u32);
  ("ext", CArray struct_ipa_ioc_ext_intf_prop 0)].

Definition struct_ipa_ioc_rx_intf_prop : ctype := struct [
  ("ip", c_enum); ("attrib", struct_ipa_rule_attrib); ("src_pipe", c_enum);
  ("hdr_l2_type", c_enum)].

Definition struct_ipa_ioc_query_intf_rx_props : ctype := struct [
  ("name", CArray c_u8 IPA_RESOURCE_NAME_MAX); ("num_rx_props", c_u32);
  ("rx", CArray struct_ipa_ioc_rx_intf_prop 0)].

Definition struct_ipa_ioc_nat_alloc_mem : ctype := struct [
  ("dev_name", CArray c_u8 IPA_RESOURCE_NAME_MAX); ("size", CLong); ("offset", __kernel_off_t)].

Definition struct_ipa_ioc_nat_ipv6ct_table_alloc : ctype := struct [
  ("size", CLong); ("offset", __kernel_off_t)].

Definition struct_ipa_ioc_v4_nat_init : ctype := struct [
  ("tbl_index", c_u8); ("ipv4_rules_offset", c_u32); ("expn_rules_offset", c_u32);
  ("index_offset", c_u32); ("index_expn_offset", c_u32); ("table_entries", c_u16);
  ("expn_table_entries", c_u16); ("ip_addr", c_u32); ("mem_type", c_u8); ("focus_change", c_u8)].

Definition struct_ipa_ioc_ipv6ct_init : ctype := struct [
  ("base_table_offset", c_u32); ("expn_table_offset", c_u32); ("table_entries", c_u16);
  ("expn_table_entries", c_u16); ("tbl_index", c_u8)].

Definition struct_ipa_ioc_v4_nat_del : ctype := struct [
  ("table_index", c_u8); ("public_ip_addr", c_u32)].

Definition struct_ipa_ioc_nat_ipv6ct_table_del : ctype := struct [
  ("table_index", c_u8); ("mem_type", c_u8)].

Definition struct_ipa_ioc_nat_dma_one : ctype := struct [
  ("table_index", c_u8); ("base_addr", c_u8); ("offset", c_u32); ("data", c_u16)].

Definition struct_ipa_ioc_nat_dma_cmd : ctype := struct [
  ("entries", c_u8); ("mem_type", c_u8); ("dma", CArray struct_ipa_ioc_nat_dma_one 0)].

Definition struct_ipa_ioc_nat_pdn_entry : ctype := struct [
  ("pdn_index", c_u8); ("public_ip", c_u32); ("src_metadata", c_u32); ("dst_metadata", c_u32)].

Definition struct_ipa_ioc_vlan_iface_info : ctype := struct [
  ("name", CArray c_u8 IPA_RESOURCE_NAME_MAX); ("vlan_id", c_u8)].

Definition struct_ipa_ioc_l2tp_vlan_mapping_info : ctype := struct [
  ("iptype", c_enum); ("l2tp_iface_name", CArray c_u8 IPA_RESOURCE_NAME_MAX);
  ("l2tp_session_id", c_u8); ("vlan_iface_name", CArray c_u8 IPA_RESOURCE_NAME_MAX);
  ("tunnel_type", c_enum); ("src_port", c_u16); ("dst_port", c_u16); ("mtu", c_u16);
  ("padding", c_u8)].

Definition struct_ipa_ioc_gsb_info : ctype := struct [
  ("name", CArray c_u8 IPA_RESOURCE_NAME_MAX)].

Definition struct_ipa_ep_pair_info : ctype := struct [
  ("consumer_pipe_num", c_u32); ("producer_pipe_num", c_u32); ("ep_id", c_u32);
  ("padding", c_u32)].

Definition struct_ipa_ioc_get_ep_info : ctype := struct [
  ("ep_type", c_enum); ("ep_pair_size", c_u32); ("max_ep_pairs", c_u8); ("num_ep_pairs", c_u8);
  ("padding", c_u16); ("info", c_u64); ("teth_prot", c_enum); ("teth_prot_valid", c_u8)].

Definition struct_ipa_set_pkt_threshold : ctype := struct [
  ("pkt_threshold_enable", c_u8); ("pkt_threshold", c_int)].

Definition struct_ipa_ioc_set_pkt_threshold : ctype := struct [
  ("ioctl_ptr", c_u64); ("ioctl_data_size", c_u32); ("padding", c_u32)].

Definition struct_ipa_ioc_wigig_fst_switch : ctype := struct [
  ("netdev_name", CArray c_u8 IPA_RESOURCE_NAME_MAX);
  ("client_mac_addr", CArray c_u8 IPA_MAC_ADDR_SIZE); ("to_wigig", c_int)].

Definition struct_ipa_msg_meta : ctype := struct [
  ("msg_type", c_u8); ("rsvd", c_u8); ("msg_len", c_u16)].

Definition struct_ipa_wlan_msg : ctype := struct [
  ("name", CArray c_u8 IPA_RESOURCE_NAME_MAX); ("mac_addr", CArray c_u8 IPA_MAC_ADDR_SIZE);
  ("ast_update", c_u8)].

Definition struct_ipa_wlan_hdr_attrib_val : ctype := struct [
  ("attrib_type", c_enum); ("offset", c_u8);
  ("u", CUnion [
    ("mac_addr", CArray c_u8 IPA_MAC_ADDR_SIZE); ("sta_id", c_u8); ("ta_peer_id", c_u16)])].

Definition struct_ipa_wlan_msg_ex : ctype := struct [
  ("name", CArray c_u8 IPA_RESOURCE_NAME_MAX); ("num_of_attribs", c_u8);
  ("attribs", CArray struct_ipa_wlan_hdr_attrib_val 0)].

Definition struct_ipa_wigig_msg : ctype := struct [
  ("name", CArray c_u8 IPA_RESOURCE_NAME_MAX);
  ("client_mac_addr", CArray c_u8 IPA_MAC_ADDR_SIZE);
  ("u", CUnion [
    ("ipa_client", c_enum); ("to_wigig", c_u8)])].

Definition struct_ipa_ecm_msg : ctype := struct [
  ("name", CArray c_u8 IPA_RESOURCE_NAME_MAX); ("ifindex", c_int)].

Definition struct_ipa_wan_msg : ctype := struct [
  ("upstream_ifname", CArray c_u8 IPA_RESOURCE_NAME_MAX);
  ("tethered_ifname", CArray c_u8 IPA_RESOURCE_NAME_MAX); ("ip", c_enum);
  ("ipv4_addr_gw", c_u32); ("ipv6_addr_gw", CArray c_u32 IPA_WAN_MSG_IPv6_ADDR_GW_LEN)].

Definition struct_ipa_kernel_tests_socksv5_uc_tmpl : ctype := struct [
  ("direction", c_u8); ("padding1", c_u8); ("handle", c_u16); ("cmd_id", c_u16);
  ("padding2", c_u16); ("cmd_param", c_u32); ("ip_src_addr", c_u32); ("ip_dst_addr", c_u32);
  ("ipv6_src_addr", CArray c_u32 4); ("ipv6_dst_addr", CArray c_u32 4); ("src_port", c_u16);
  ("dst_port", c_u16); ("ipa_sockv5_mask", c_u32); ("out_irs", c_u32); ("out_iss", c_u32);
  ("in_irs", c_u32); ("in_iss", c_u32); ("out_ircv_tsval", c_u32); ("in_ircv_tsecr", c_u32);
  ("out_ircv_tsecr", c_u32); ("in_ircv_tsval", c_u32);
  ("in_isnd_wscale:4, out_isnd_wscale:4, in_ircv_wscale:4, out_ircv_wscale:4", c_u16);
  ("padding3", c_u32)].

Definition struct_ipacm_socksv5_info : ctype := struct [
  ("ip_type", c_enum); ("ipv4_src", c_u32); ("ipv4_dst", c_u32); ("ipv6_src", CArray c_u32 4);
  ("ipv6_dst", CArray c_u32 4); ("src_port", c_u16); ("dst_port", c_u16); ("index", c_u16);
  ("padding", c_u16)].

Definition struct_ipa_socksv5_msg : ctype := struct [
  ("ul_in", struct_ipacm_socksv5_info); ("dl_in", struct_ipacm_socksv5_info); ("handle", c_u16);
  ("padding", c_u16)].

Definition struct_ipa_ioc_ipv6_nat_uc_act_entry : ctype := struct [
  ("cmd_id", c_u16); ("index", c_u16); ("padding", c_u32); ("private_port", c_u32);
  ("public_port", c_u32); ("private_address_lsb", c_u64); ("private_address_msb", c_u64);
  ("public_address_lsb", c_u64); ("public_address_msb", c_u64)].

Definition union_ipa_ioc_uc_activation_entry : ctype := CUnion [
  ("socks", struct_ipa_kernel_tests_socksv5_uc_tmpl);
  ("ipv6_nat", struct_ipa_ioc_ipv6_nat_uc_act_entry)].

Definition struct_ipa_ioc_rm_dependency : ctype := struct [
  ("resource_name", c_enum); ("depends_on_name", c_enum)].

Definition struct_ipa_ioc_generate_flt_eq : ctype := struct [
  ("ip", c_enum); ("attrib", struct_ipa_rule_attrib); ("eq_attrib", struct_ipa_ipfltri_rule_eq)].

Definition struct_ipa_ioc_write_qmapid : ctype := struct [
  ("client", c_enum); ("qmap_id", c_u8)].

Definition struct_ipa_flt_rt_counter_alloc : ctype := struct [
  ("num_counters", c_u8); ("allow_less", c_u8); ("start_id", c_u8); ("end_id", c_u8)].

Definition struct_ipa_ioc_flt_rt_counter_alloc : ctype := struct [
  ("hdl", c_int); ("hw_counter", struct_ipa_flt_rt_counter_alloc);
  ("sw_counter", struct_ipa_flt_rt_counter_alloc)].

Definition struct_ipa_flt_rt_stats : ctype := struct [
  ("num_pkts", c_u32); ("num_pkts_hash", c_u32); ("num_bytes", c_u64)].

Definition struct_ipa_ioc_flt_rt_query : ctype := struct [
  ("start_id", c_u8); ("end_id", c_u8); ("reset", c_u8); ("stats_size", c_u32);
  ("reserved", c_u8); ("stats", c_u64)].

Definition struct_ipa_lan_client_msg : ctype := struct [
  ("lanIface", CArray c_u8 IPA_RESOURCE_NAME_MAX); ("mac", CArray c_u8 IPA_MAC_ADDR_SIZE)].

Definition struct_ipa_lan_client : ctype := struct [
  ("mac", CArray c_u8 IPA_MAC_ADDR_SIZE); ("client_idx", c_u8); ("inited", c_u8)].

Definition struct_ipa_lan_client_cntr_index : ctype := struct [
  ("ul_cnt_idx", c_u8); ("dl_cnt_idx", c_u8)].

Definition struct_ipa_tether_device_info : ctype := struct [
  ("ul_src_pipe", c_int); ("hdr_len", c_u8); ("padding1", c_u8); ("padding2", c_u16);
  ("num_clients", c_u32);
  ("lan_client", CArray struct_ipa_lan_client IPA_MAX_NUM_HW_PATH_CLIENTS);
  ("lan_client_indices", CArray struct_ipa_lan_client_cntr_index IPA_MAX_NUM_HW_PATH_CLIENTS)].

Definition struct_ipa_ioc_get_vlan_mode : ctype := struct [
  ("iface", c_enum); ("is_vlan_mode", c_u32)].

Definition struct_ipa_ioc_bridge_vlan_mapping_info : ctype := struct [
  ("bridge_name", CArray c_u8 IPA_RESOURCE_NAME_MAX); ("lan2lan_sw", c_u8); ("vlan_id", c_u16);
  ("bridge_ipv4", c_u32); ("subnet_mask", c_u32)].

Definition struct_ipa_coalesce_info : ctype := struct [
  ("qmap_id", c_u8); ("tcp_enable", c_u8); ("udp_enable", c_u8)].

Definition struct_ipa_mtu_info : ctype := struct [
  ("if_name", CArray c_u8 IPA_RESOURCE_NAME_MAX); ("ip_type", c_enum); ("mtu_v4", c_u16);
  ("mtu_v6", c_u16)].

Definition struct_ipa_odl_ep_info : ctype := struct [
  ("cons_pipe_num", c_u32); ("prod_pipe_num", c_u32); ("peripheral_iface_id", c_u32);
  ("ep_type", c_u32)].

Definition struct_odl_agg_pipe_info : ctype := struct [
  ("agg_byte_limit", c_u16)].

Definition struct_ipa_odl_modem_config : ctype := struct [
  ("config_status", c_u8)].

Definition struct_ipa_ioc_fnr_index_info : ctype := struct [
  ("hw_counter_offset", c_u8); ("sw_counter_offset", c_u8)].

Definition struct_ipa_pdn_ip_collision_cfg : ctype := struct [
  ("pdn_ip_addr", c_u32)].

Definition struct_ipa_pdn_ip_passthrough_cfg : ctype := struct [
  ("pdn_ip_addr", c_u32); ("device_type", c_enum); ("vlan_id", c_u16);
  ("client_mac_addr", CArray c_u8 IPA_MAC_ADDR_SIZE); ("skip_nat", c_u8)].

Definition struct_ipa_ioc_pdn_config : ctype := struct [
  ("dev_name", CArray c_u8 IPA_RESOURCE_NAME_MAX); ("pdn_cfg_type", c_enum); ("enable", c_u8);
  ("u", CUnion [
    ("collison_cfg", struct_ipa_pdn_ip_collision_cfg);
    ("passthrough_cfg", struct_ipa_pdn_ip_passthrough_cfg)]);
  ("default_pdn", c_u8)].

Definition struct_ipa_ioc_mac_client_list_type : ctype := struct [
  ("num_of_clients", c_int);
  ("mac_addr", CArray (CArray c_u8 IPA_MAC_ADDR_SIZE) IPA_MAX_NUM_MAC_FLT); ("flt_state", c_u8);
  ("padding", c_u8)].

Definition struct_ipa_sw_flt_list_type : ctype := struct [
  ("mac_enable", c_u8); ("num_of_mac", c_int);
  ("mac_addr", CArray (CArray c_u8 IPA_MAC_ADDR_SIZE) IPA_MAX_NUM_MAC_FLT);
  ("ipv4_segs_enable", c_u8); ("ipv4_segs_ipv6_offload", c_u8); ("num_of_ipv4_segs", c_int);
  ("ipv4_segs", CArray (CArray c_u32 2) IPA_MAX_NUM_IPv4_SEGS_FLT); ("iface_enable", c_u8);
  ("num_of_iface", c_int);
  ("iface", CArray (CArray c_u8 IPA_RESOURCE_NAME_MAX) IPA_MAX_NUM_IFACE_FLT)].

Definition struct_ipa_ippt_sw_flt_list_type : ctype := struct [
  ("ipv4_enable", c_u8); ("num_of_ipv4", c_int); ("ipv4", CArray c_u32 IPA_MAX_PDN_NUM);
  ("port_enable", c_u8); ("num_of_port", c_int); ("port", CArray c_u16 IPA_MAX_IPPT_NUM_PORT_FLT)].

Definition struct_ipa_ioc_sw_flt_list_type : ctype := struct [
  ("ioctl_ptr", c_u64); ("ioctl_data_size", c_u32); ("padding", c_u32)].

Definition struct_ipa_macsec_map : ctype := struct [
  ("phy_name", CArray c_u8 IPA_RESOURCE_NAME_MAX);
  ("macsec_name", CArray c_u8 IPA_RESOURCE_NAME_MAX)].

Definition struct_ipa_ioc_macsec_info : ctype := struct [
  ("ioctl_ptr", c_u64); ("ioctl_data_size", c_u32); ("padding", c_u32)].

Definition struct_ipa_ioc_ext_router_info : ctype := struct [
  ("mode", c_enum); ("pdn_name", CArray c_u8 IPA_RESOURCE_NAME_MAX);
  ("ipv6_addr", CArray c_u32 4); ("ipv6_mask", CArray c_u32 4)].

Definition struct_ipa_ioc_dscp_pcp_map_info : ctype := struct [
  ("add", c_u32); ("dscp_pcp_map", CArray c_u8 IPA_UC_MAX_DSCP_VAL)].

Definition struct_teth_aggr_params_link : ctype := struct [
  ("aggr_prot", c_enum); ("max_transfer_size_byte", c_u32); ("max_datagrams", c_u32)].

Definition struct_teth_aggr_params : ctype := struct [
  ("ul", struct_teth_aggr_params_link); ("dl", struct_teth_aggr_params_link)].

Definition struct_teth_aggr_capabilities : ctype := struct [
  ("num_protocols", c_u16); ("prot_caps", CArray struct_teth_aggr_params_link 0)].

Definition struct_teth_ioc_set_bridge_mode : ctype := struct [
  ("link_protocol", c_enum); ("lcid", c_u16)].

Definition struct_teth_ioc_aggr_params : ctype := struct [
  ("aggr_params", struct_teth_aggr_params); ("lcid", c_u16)].

Definition struct_ipa_nat_in_sram_info : ctype := struct [
  ("sram_mem_available_for_nat", c_u32); ("nat_table_offset_into_mmap", c_u32);
  ("best_nat_in_sram_size_rqst", c_u32)].
(** Every type of the file. *)
Definition ipaTypes_types : list (string * ctype) := [
  ("struct_ipa_rule_attrib", struct_ipa_rule_attrib);
  ("struct_ipa_ipfltr_eq_16", struct_ipa_ipfltr_eq_16);
  ("struct_ipa_ipfltr_eq_32", struct_ipa_ipfltr_eq_32);
  ("struct_ipa_ipfltr_mask_eq_128", struct_ipa_ipfltr_mask_eq_128);
  ("struct_ipa_ipfltr_mask_eq_32", struct_ipa_ipfltr_mask_eq_32);
  ("struct_ipa_ipfltr_range_eq_16", struct_ipa_ipfltr_range_eq_16);
  ("struct_ipa_ipfltri_rule_eq", struct_ipa_ipfltri_rule_eq);
  ("struct_ipa_flt_rule", struct_ipa_flt_rule);
  ("struct_ipa_flt_rule_v2", struct_ipa_flt_rule_v2);
  ("struct_ipa_rt_rule", struct_ipa_rt_rule);
  ("struct_ipa_rt_rule_v2", struct_ipa_rt_rule_v2);
  ("struct_ipa_hdr_add", struct_ipa_hdr_add);
  ("struct_ipa_ioc_add_hdr", struct_ipa_ioc_add_hdr);
  ("struct_ipa_l2tp_header_add_procparams", struct_ipa_l2tp_header_add_procparams);
  ("struct_ipa_l2tp_header_remove_procparams", struct_ipa_l2tp_header_remove_procparams);
  ("struct_ipa_l2tp_hdr_proc_ctx_params", struct_ipa_l2tp_hdr_proc_ctx_params);
  ("struct_IpaDscpVlanPcpMap_t", struct_IpaDscpVlanPcpMap_t);
  ("struct_ipa_ipgre_info", struct_ipa_ipgre_info);
  ("struct_ipa_ioc_eogre_info", struct_ipa_ioc_eogre_info);
  ("struct_ipa_eogre_header_add_procparams", struct_ipa_eogre_header_add_procparams);
  ("struct_ipa_eogre_header_remove_procparams", struct_ipa_eogre_header_remove_procparams);
  ("struct_ipa_eogre_hdr_proc_ctx_params", struct_ipa_eogre_hdr_proc_ctx_params);
  ("struct_ipa_eth_II_to_eth_II_ex_procparams", struct_ipa_eth_II_to_eth_II_ex_procparams);
  ("struct_ipa_wwan_to_eth_II_ex_procparams", struct_ipa_wwan_to_eth_II_ex_procparams);
  ("struct_ipa_hdr_proc_ctx_add", struct_ipa_hdr_proc_ctx_add);
  ("struct_ipa_ioc_add_hdr_proc_ctx", struct_ipa_ioc_add_hdr_proc_ctx);
  ("struct_ipa_ioc_copy_hdr", struct_ipa_ioc_copy_hdr);
  ("struct_ipa_ioc_get_hdr", struct_ipa_ioc_get_hdr);
  ("struct_ipa_hdr_del", struct_ipa_hdr_del);
  ("struct_ipa_ioc_del_hdr", struct_ipa_ioc_del_hdr);
  ("struct_ipa_hdr_proc_ctx_del", struct_ipa_hdr_proc_ctx_del);
  ("struct_ipa_ioc_del_hdr_proc_ctx", struct_ipa_ioc_del_hdr_proc_ctx);
  ("struct_ipa_rt_rule_add", struct_ipa_rt_rule_add);
  ("struct_ipa_rt_rule_add_v2", struct_ipa_rt_rule_add_v2);
  ("struct_ipa_ioc_add_rt_rule", struct_ipa_ioc_add_rt_rule);
  ("struct_ipa_ioc_add_rt_rule_v2", struct_ipa_ioc_add_rt_rule_v2);
  ("struct_ipa_ioc_add_rt_rule_after", struct_ipa_ioc_add_rt_rule_after);
  ("struct_ipa_ioc_add_rt_rule_after_v2", struct_ipa_ioc_add_rt_rule_after_v2);
  ("struct_ipa_rt_rule_mdfy", struct_ipa_rt_rule_mdfy);
  ("struct_ipa_rt_rule_mdfy_v2", struct_ipa_rt_rule_mdfy_v2);
  ("struct_ipa_ioc_mdfy_rt_rule", struct_ipa_ioc_mdfy_rt_rule);
  ("struct_ipa_ioc_mdfy_rt_rule_v2", struct_ipa_ioc_mdfy_rt_rule_v2);
  ("struct_ipa_rt_rule_del", struct_ipa_rt_rule_del);
  ("struct_ipa_rt_rule_add_ext", struct_ipa_rt_rule_add_ext);
  ("struct_ipa_rt_rule_add_ext_v2", struct_ipa_rt_rule_add_ext_v2);
  ("struct_ipa_ioc_add_rt_rule_ext", struct_ipa_ioc_add_rt_rule_ext);
  ("struct_ipa_ioc_add_rt_rule_ext_v2", struct_ipa_ioc_add_rt_rule_ext_v2);
  ("struct_ipa_ioc_del_rt_rule", struct_ipa_ioc_del_rt_rule);
  ("struct_ipa_ioc_get_rt_tbl_indx", struct_ipa_ioc_get_rt_tbl_indx);
  ("struct_ipa_flt_rule_add", struct_ipa_flt_rule_add);
  ("struct_ipa_flt_rule_add_v2", struct_ipa_flt_rule_add_v2);
  ("struct_ipa_ioc_add_flt_rule", struct_ipa_ioc_add_flt_rule);
  ("struct_ipa_ioc_add_flt_rule_v2", struct_ipa_ioc_add_flt_rule_v2);
  ("struct_ipa_ioc_add_flt_rule_after", struct_ipa_ioc_add_flt_rule_after);
  ("struct_ipa_ioc_add_flt_rule_after_v2", struct_ipa_ioc_add_flt_rule_after_v2);
  ("struct_ipa_flt_rule_mdfy", struct_ipa_flt_rule_mdfy);
  ("struct_ipa_flt_rule_mdfy_v2", struct_ipa_flt_rule_mdfy_v2);
  ("struct_ipa_ioc_mdfy_flt_rule", struct_ipa_ioc_mdfy_flt_rule);
  ("struct_ipa_ioc_mdfy_flt_rule_v2", struct_ipa_ioc_mdfy_flt_rule_v2);
  ("struct_ipa_flt_rule_del", struct_ipa_flt_rule_del);
  ("struct_ipa_ioc_del_flt_rule", struct_ipa_ioc_del_flt_rule);
  ("struct_ipa_ioc_get_rt_tbl", struct_ipa_ioc_get_rt_tbl);
  ("struct_ipa_ioc_query_intf", struct_ipa_ioc_query_intf);
  ("struct_ipa_ioc_tx_intf_prop", struct_ipa_ioc_tx_intf_prop);
  ("struct_ipa_ioc_query_intf_tx_props", struct_ipa_ioc_query_intf_tx_props);
  ("struct_ipa_ioc_ext_intf_prop", struct_ipa_ioc_ext_intf_prop);
  ("struct_ipa_ioc_query_intf_ext_props", struct_ipa_ioc_query_intf_ext_props);
  ("struct_ipa_ioc_rx_intf_prop", struct_ipa_ioc_rx_intf_prop);
  ("struct_ipa_ioc_query_intf_rx_props", struct_ipa_ioc_query_intf_rx_props);
  ("struct_ipa_ioc_nat_alloc_mem", struct_ipa_ioc_nat_alloc_mem);
  ("struct_ipa_ioc_nat_ipv6ct_table_alloc", struct_ipa_ioc_nat_ipv6ct_table_alloc);
  ("struct_ipa_ioc_v4_nat_init", struct_ipa_ioc_v4_nat_init);
  ("struct_ipa_ioc_ipv6ct_init", struct_ipa_ioc_ipv6ct_init);
  ("struct_ipa_ioc_v4_nat_del", struct_ipa_ioc_v4_nat_del);
  ("struct_ipa_ioc_nat_ipv6ct_table_del", struct_ipa_ioc_nat_ipv6ct_table_del);
  ("struct_ipa_ioc_nat_dma_one", struct_ipa_ioc_nat_dma_one);
  ("struct_ipa_ioc_nat_dma_cmd", struct_ipa_ioc_nat_dma_cmd);
  ("struct_ipa_ioc_nat_pdn_entry", struct_ipa_ioc_nat_pdn_entry);
  ("struct_ipa_ioc_vlan_iface_info", struct_ipa_ioc_vlan_iface_info);
  ("struct_ipa_ioc_l2tp_vlan_mapping_info", struct_ipa_ioc_l2tp_vlan_mapping_info);
  ("struct_ipa_ioc_gsb_info", struct_ipa_ioc_gsb_info);
  ("struct_ipa_ep_pair_info", struct_ipa_ep_pair_info);
  ("struct_ipa_ioc_get_ep_info", struct_ipa_ioc_get_ep_info);
  ("struct_ipa_set_pkt_threshold", struct_ipa_set_pkt_threshold);
  ("struct_ipa_ioc_set_pkt_threshold", struct_ipa_ioc_set_pkt_threshold);
  ("struct_ipa_ioc_wigig_fst_switch", struct_ipa_ioc_wigig_fst_switch);
  ("struct_ipa_msg_meta", struct_ipa_msg_meta);
  ("struct_ipa_wlan_msg", struct_ipa_wlan_msg);
  ("struct_ipa_wlan_hdr_attrib_val", struct_ipa_wlan_hdr_attrib_val);
  ("struct_ipa_wlan_msg_ex", struct_ipa_wlan_msg_ex);
  ("struct_ipa_wigig_msg", struct_ipa_wigig_msg);
  ("struct_ipa_ecm_msg", struct_ipa_ecm_msg);
  ("struct_ipa_wan_msg", struct_ipa_wan_msg);
  ("struct_ipa_kernel_tests_socksv5_uc_tmpl", struct_ipa_kernel_tests_socksv5_uc_tmpl);
  ("struct_ipacm_socksv5_info", struct_ipacm_socksv5_info);
  ("struct_ipa_socksv5_msg", struct_ipa_socksv5_msg);
  ("struct_ipa_ioc_ipv6_nat_uc_act_entry", struct_ipa_ioc_ipv6_nat_uc_act_entry);
  ("union_ipa_ioc_uc_activation_entry", union_ipa_ioc_uc_activation_entry);
  ("struct_ipa_ioc_rm_dependency", struct_ipa_ioc_rm_dependency);
  ("struct_ipa_ioc_generate_flt_eq", struct_ipa_ioc_generate_flt_eq);
  ("struct_ipa_ioc_write_qmapid", struct_ipa_ioc_write_qmapid);
  ("struct_ipa_flt_rt_counter_alloc", struct_ipa_flt_rt_counter_alloc);
  ("struct_ipa_ioc_flt_rt_counter_alloc", struct_ipa_ioc_flt_rt_counter_alloc);
  ("struct_ipa_flt_rt_stats", struct_ipa_flt_rt_stats);
  ("struct_ipa_ioc_flt_rt_query", struct_ipa_ioc_flt_rt_query);
  ("struct_ipa_lan_client_msg", struct_ipa_lan_client_msg);
  ("struct_ipa_lan_client", struct_ipa_lan_client);
  ("struct_ipa_lan_client_cntr_index", struct_ipa_lan_client_cntr_index);
  ("struct_ipa_tether_device_info", struct_ipa_tether_device_info);
  ("struct_ipa_ioc_get_vlan_mode", struct_ipa_ioc_get_vlan_mode);
  ("struct_ipa_ioc_bridge_vlan_mapping_info", struct_ipa_ioc_bridge_vlan_mapping_info);
  ("struct_ipa_coalesce_info", struct_ipa_coalesce_info);
  ("struct_ipa_mtu_info", struct_ipa_mtu_info);
  ("struct_ipa_odl_ep_info", struct_ipa_odl_ep_info);
  ("struct_odl_agg_pipe_info", struct_odl_agg_pipe_info);
  ("struct_ipa_odl_modem_config", struct_ipa_odl_modem_config);
  ("struct_ipa_ioc_fnr_index_info", struct_ipa_ioc_fnr_index_info);
  ("struct_ipa_pdn_ip_collision_cfg", struct_ipa_pdn_ip_collision_cfg);
  ("struct_ipa_pdn_ip_passthrough_cfg", struct_ipa_pdn_ip_passthrough_cfg);
  ("struct_ipa_ioc_pdn_config", struct_ipa_ioc_pdn_config);
  ("struct_ipa_ioc_mac_client_list_type", struct_ipa_ioc_mac_client_list_type);
  ("struct_ipa_sw_flt_list_type", struct_ipa_sw_flt_list_type);
  ("struct_ipa_ippt_sw_flt_list_type", struct_ipa_ippt_sw_flt_list_type);
  ("struct_ipa_ioc_sw_flt_list_type", struct_ipa_ioc_sw_flt_list_type);
  ("struct_ipa_macsec_map", struct_ipa_macsec_map);
  ("struct_ipa_ioc_macsec_info", struct_ipa_ioc_macsec_info);
  ("struct_ipa_ioc_ext_router_info", struct_ipa_ioc_ext_router_info);
  ("struct_ipa_ioc_dscp_pcp_map_info", struct_ipa_ioc_dscp_pcp_map_info);
  ("struct_teth_aggr_params_link", struct_teth_aggr_params_link);
  ("struct_teth_aggr_params", struct_teth_aggr_params);
  ("struct_teth_aggr_capabilities", struct_teth_aggr_capabilities);
  ("struct_teth_ioc_set_bridge_mode", struct_teth_ioc_set_bridge_mode);
  ("struct_teth_ioc_aggr_params", struct_teth_ioc_aggr_params);
  ("struct_ipa_nat_in_sram_info", struct_ipa_nat_in_sram_info)]%list.
End Types.
