(* ===== verification/IpaIoctl.v ===== *)
(** * IpaIoctl: the requests of [include/linux/msm_ipa.h]

    The numbers of the commands and the request numbers built from them, of the
    IPA driver and of the tethering and ODU bridges. *)

From S2P Require Import Prelude CLayout Ioctl Uapi IpaTypes.

#[local] Open Scope string_scope.
#[local] Open Scope list_scope.
#[local] Open Scope Z_scope.

(** ** Magic numbers and command numbers *)

Definition IPA_IOC_MAGIC : Z := 0xCF.
Definition TETH_BRIDGE_IOC_MAGIC : Z := 0xCE.
Definition ODU_BRIDGE_IOC_MAGIC : Z := 0xCD.

(** The commands of the IPA driver. [IPA_IOCTL_NAT_DMA] is defined as [IPA_IOCTL_TABLE_DMA_CMD];
    the numbers 86 and 91 are not given. A command stands for its number where one is expected. *)

Inductive ipa_command : Type :=
  | IPA_IOCTL_ADD_HDR
  | IPA_IOCTL_DEL_HDR
  | IPA_IOCTL_ADD_RT_RULE
  | IPA_IOCTL_DEL_RT_RULE
  | IPA_IOCTL_ADD_FLT_RULE
  | IPA_IOCTL_DEL_FLT_RULE
  | IPA_IOCTL_COMMIT_HDR
  | IPA_IOCTL_RESET_HDR
  | IPA_IOCTL_COMMIT_RT
  | IPA_IOCTL_RESET_RT
  | IPA_IOCTL_COMMIT_FLT
  | IPA_IOCTL_RESET_FLT
  | IPA_IOCTL_DUMP
  | IPA_IOCTL_GET_RT_TBL
  | IPA_IOCTL_PUT_RT_TBL
  | IPA_IOCTL_COPY_HDR
  | IPA_IOCTL_QUERY_INTF
  | IPA_IOCTL_QUERY_INTF_TX_PROPS
  | IPA_IOCTL_QUERY_INTF_RX_PROPS
  | IPA_IOCTL_GET_HDR
  | IPA_IOCTL_PUT_HDR
  | IPA_IOCTL_SET_FLT
  | IPA_IOCTL_ALLOC_NAT_MEM
  | IPA_IOCTL_V4_INIT_NAT
  | IPA_IOCTL_TABLE_DMA_CMD
  | IPA_IOCTL_NAT_DMA
  | IPA_IOCTL_INIT_IPV6CT_TABLE
  | IPA_IOCTL_V4_DEL_NAT
  | IPA_IOCTL_PULL_MSG
  | IPA_IOCTL_GET_NAT_OFFSET
  | IPA_IOCTL_RM_ADD_DEPENDENCY
  | IPA_IOCTL_RM_DEL_DEPENDENCY
  | IPA_IOCTL_GENERATE_FLT_EQ
  | IPA_IOCTL_QUERY_INTF_EXT_PROPS
  | IPA_IOCTL_QUERY_EP_MAPPING
  | IPA_IOCTL_QUERY_RT_TBL_INDEX
  | IPA_IOCTL_WRITE_QMAPID
  | IPA_IOCTL_MDFY_FLT_RULE
  | IPA_IOCTL_NOTIFY_WAN_UPSTREAM_ROUTE_ADD
  | IPA_IOCTL_NOTIFY_WAN_UPSTREAM_ROUTE_DEL
  | IPA_IOCTL_NOTIFY_WAN_EMBMS_CONNECTED
  | IPA_IOCTL_ADD_HDR_PROC_CTX
  | IPA_IOCTL_DEL_HDR_PROC_CTX
  | IPA_IOCTL_MDFY_RT_RULE
  | IPA_IOCTL_ADD_RT_RULE_AFTER
  | IPA_IOCTL_ADD_FLT_RULE_AFTER
  | IPA_IOCTL_GET_HW_VERSION
  | IPA_IOCTL_ADD_RT_RULE_EXT
  | IPA_IOCTL_ADD_VLAN_IFACE
  | IPA_IOCTL_DEL_VLAN_IFACE
  | IPA_IOCTL_ADD_L2TP_VLAN_MAPPING
  | IPA_IOCTL_DEL_L2TP_VLAN_MAPPING
  | IPA_IOCTL_NAT_MODIFY_PDN
  | IPA_IOCTL_ALLOC_NAT_TABLE
  | IPA_IOCTL_ALLOC_IPV6CT_TABLE
  | IPA_IOCTL_DEL_NAT_TABLE
  | IPA_IOCTL_DEL_IPV6CT_TABLE
  | IPA_IOCTL_CLEANUP
  | IPA_IOCTL_QUERY_WLAN_CLIENT
  | IPA_IOCTL_GET_VLAN_MODE
  | IPA_IOCTL_ADD_BRIDGE_VLAN_MAPPING
  | IPA_IOCTL_DEL_BRIDGE_VLAN_MAPPING
  | IPA_IOCTL_ODL_QUERY_ADAPL_EP_INFO
  | IPA_IOCTL_ODL_GET_AGG_BYTE_LIMIT
  | IPA_IOCTL_ODL_QUERY_MODEM_CONFIG
  | IPA_IOCTL_GSB_CONNECT
  | IPA_IOCTL_GSB_DISCONNECT
  | IPA_IOCTL_WIGIG_FST_SWITCH
  | IPA_IOCTL_ADD_RT_RULE_V2
  | IPA_IOCTL_ADD_RT_RULE_EXT_V2
  | IPA_IOCTL_ADD_RT_RULE_AFTER_V2
  | IPA_IOCTL_MDFY_RT_RULE_V2
  | IPA_IOCTL_ADD_FLT_RULE_V2
  | IPA_IOCTL_ADD_FLT_RULE_AFTER_V2
  | IPA_IOCTL_MDFY_FLT_RULE_V2
  | IPA_IOCTL_FNR_COUNTER_ALLOC
  | IPA_IOCTL_FNR_COUNTER_DEALLOC
  | IPA_IOCTL_FNR_COUNTER_QUERY
  | IPA_IOCTL_SET_FNR_COUNTER_INFO
  | IPA_IOCTL_GET_NAT_IN_SRAM_INFO
  | IPA_IOCTL_APP_CLOCK_VOTE
  | IPA_IOCTL_PDN_CONFIG
  | IPA_IOCTL_SET_MAC_FLT
  | IPA_IOCTL_GET_PHERIPHERAL_EP_INFO
  | IPA_IOCTL_ADD_UC_ACT_ENTRY
  | IPA_IOCTL_DEL_UC_ACT_ENTRY
  | IPA_IOCTL_SET_SW_FLT
  | IPA_IOCTL_SET_PKT_THRESHOLD
  | IPA_IOCTL_ADD_EoGRE_MAPPING
  | IPA_IOCTL_DEL_EoGRE_MAPPING
  | IPA_IOCTL_SET_IPPT_SW_FLT
  | IPA_IOCTL_ADD_MACSEC_MAPPING
  | IPA_IOCTL_DEL_MACSEC_MAPPING
  | IPA_IOCTL_QUERY_CACHED_DRIVER_MSG
  | IPA_IOCTL_SET_EXT_ROUTER_MODE
  | IPA_IOCTL_ADD_DEL_DSCP_PCP_MAPPING.

Definition ipa_command_number (c : ipa_command) : Z :=
  match c with
  | IPA_IOCTL_ADD_HDR => 0
  | IPA_IOCTL_DEL_HDR => 1
  | IPA_IOCTL_ADD_RT_RULE => 2
  | IPA_IOCTL_DEL_RT_RULE => 3
  | IPA_IOCTL_ADD_FLT_RULE => 4
  | IPA_IOCTL_DEL_FLT_RULE => 5
  | IPA_IOCTL_COMMIT_HDR => 6
  | IPA_IOCTL_RESET_HDR => 7
  | IPA_IOCTL_COMMIT_RT => 8
  | IPA_IOCTL_RESET_RT => 9
  | IPA_IOCTL_COMMIT_FLT => 10
  | IPA_IOCTL_RESET_FLT => 11
  | IPA_IOCTL_DUMP => 12
  | IPA_IOCTL_GET_RT_TBL => 13
  | IPA_IOCTL_PUT_RT_TBL => 14
  | IPA_IOCTL_COPY_HDR => 15
  | IPA_IOCTL_QUERY_INTF => 16
  | IPA_IOCTL_QUERY_INTF_TX_PROPS => 17
  | IPA_IOCTL_QUERY_INTF_RX_PROPS => 18
  | IPA_IOCTL_GET_HDR => 19
  | IPA_IOCTL_PUT_HDR => 20
  | IPA_IOCTL_SET_FLT => 21
  | IPA_IOCTL_ALLOC_NAT_MEM => 22
  | IPA_IOCTL_V4_INIT_NAT => 23
  | IPA_IOCTL_TABLE_DMA_CMD | IPA_IOCTL_NAT_DMA => 24
  | IPA_IOCTL_INIT_IPV6CT_TABLE => 25
  | IPA_IOCTL_V4_DEL_NAT => 26
  | IPA_IOCTL_PULL_MSG => 27
  | IPA_IOCTL_GET_NAT_OFFSET => 28
  | IPA_IOCTL_RM_ADD_DEPENDENCY => 29
  | IPA_IOCTL_RM_DEL_DEPENDENCY => 30
  | IPA_IOCTL_GENERATE_FLT_EQ => 31
  | IPA_IOCTL_QUERY_INTF_EXT_PROPS => 32
  | IPA_IOCTL_QUERY_EP_MAPPING => 33
  | IPA_IOCTL_QUERY_RT_TBL_INDEX => 34
  | IPA_IOCTL_WRITE_QMAPID => 35
  | IPA_IOCTL_MDFY_FLT_RULE => 36
  | IPA_IOCTL_NOTIFY_WAN_UPSTREAM_ROUTE_ADD => 37
  | IPA_IOCTL_NOTIFY_WAN_UPSTREAM_ROUTE_DEL => 38
  | IPA_IOCTL_NOTIFY_WAN_EMBMS_CONNECTED => 39
  | IPA_IOCTL_ADD_HDR_PROC_CTX => 40
  | IPA_IOCTL_DEL_HDR_PROC_CTX => 41
  | IPA_IOCTL_MDFY_RT_RULE => 42
  | IPA_IOCTL_ADD_RT_RULE_AFTER => 43
  | IPA_IOCTL_ADD_FLT_RULE_AFTER => 44
  | IPA_IOCTL_GET_HW_VERSION => 45
  | IPA_IOCTL_ADD_RT_RULE_EXT => 46
  | IPA_IOCTL_ADD_VLAN_IFACE => 47
  | IPA_IOCTL_DEL_VLAN_IFACE => 48
  | IPA_IOCTL_ADD_L2TP_VLAN_MAPPING => 49
  | IPA_IOCTL_DEL_L2TP_VLAN_MAPPING => 50
  | IPA_IOCTL_NAT_MODIFY_PDN => 51
  | IPA_IOCTL_ALLOC_NAT_TABLE => 52
  | IPA_IOCTL_ALLOC_IPV6CT_TABLE => 53
  | IPA_IOCTL_DEL_NAT_TABLE => 54
  | IPA_IOCTL_DEL_IPV6CT_TABLE => 55
  | IPA_IOCTL_CLEANUP => 56
  | IPA_IOCTL_QUERY_WLAN_CLIENT => 57
  | IPA_IOCTL_GET_VLAN_MODE => 58
  | IPA_IOCTL_ADD_BRIDGE_VLAN_MAPPING => 59
  | IPA_IOCTL_DEL_BRIDGE_VLAN_MAPPING => 60
  | IPA_IOCTL_ODL_QUERY_ADAPL_EP_INFO => 61
  | IPA_IOCTL_ODL_GET_AGG_BYTE_LIMIT => 62
  | IPA_IOCTL_ODL_QUERY_MODEM_CONFIG => 63
  | IPA_IOCTL_GSB_CONNECT => 64
  | IPA_IOCTL_GSB_DISCONNECT => 65
  | IPA_IOCTL_WIGIG_FST_SWITCH => 66
  | IPA_IOCTL_ADD_RT_RULE_V2 => 67
  | IPA_IOCTL_ADD_RT_RULE_EXT_V2 => 68
  | IPA_IOCTL_ADD_RT_RULE_AFTER_V2 => 69
  | IPA_IOCTL_MDFY_RT_RULE_V2 => 70
  | IPA_IOCTL_ADD_FLT_RULE_V2 => 71
  | IPA_IOCTL_ADD_FLT_RULE_AFTER_V2 => 72
  | IPA_IOCTL_MDFY_FLT_RULE_V2 => 73
  | IPA_IOCTL_FNR_COUNTER_ALLOC => 74
  | IPA_IOCTL_FNR_COUNTER_DEALLOC => 75
  | IPA_IOCTL_FNR_COUNTER_QUERY => 76
  | IPA_IOCTL_SET_FNR_COUNTER_INFO => 77
  | IPA_IOCTL_GET_NAT_IN_SRAM_INFO => 78
  | IPA_IOCTL_APP_CLOCK_VOTE => 79
  | IPA_IOCTL_PDN_CONFIG => 80
  | IPA_IOCTL_SET_MAC_FLT => 81
  | IPA_IOCTL_GET_PHERIPHERAL_EP_INFO => 82
  | IPA_IOCTL_ADD_UC_ACT_ENTRY => 83
  | IPA_IOCTL_DEL_UC_ACT_ENTRY => 84
  | IPA_IOCTL_SET_SW_FLT => 85
  | IPA_IOCTL_SET_PKT_THRESHOLD => 87
  | IPA_IOCTL_ADD_EoGRE_MAPPING => 88
  | IPA_IOCTL_DEL_EoGRE_MAPPING => 89
  | IPA_IOCTL_SET_IPPT_SW_FLT => 90
  | IPA_IOCTL_ADD_MACSEC_MAPPING => 92
  | IPA_IOCTL_DEL_MACSEC_MAPPING => 93
  | IPA_IOCTL_QUERY_CACHED_DRIVER_MSG => 94
  | IPA_IOCTL_SET_EXT_ROUTER_MODE => 95
  | IPA_IOCTL_ADD_DEL_DSCP_PCP_MAPPING => 96
  end.

Coercion ipa_command_number : ipa_command >-> Z.

#[export] Instance ipa_command_eq_dec : EqDecision ipa_command.
Proof. solve_decision. Defined.

(** The commands of the bridges. *)

Definition TETH_BRIDGE_IOCTL_SET_BRIDGE_MODE : Z := 0.
Definition TETH_BRIDGE_IOCTL_SET_AGGR_PARAMS : Z := 1.
Definition TETH_BRIDGE_IOCTL_GET_AGGR_PARAMS : Z := 2.
Definition TETH_BRIDGE_IOCTL_GET_AGGR_CAPABILITIES : Z := 3.
Definition TETH_BRIDGE_IOCTL_MAX : Z := 4.
Definition ODU_BRIDGE_IOCTL_SET_MODE : Z := 0.
Definition ODU_BRIDGE_IOCTL_SET_LLV6_ADDR : Z := 1.
Definition ODU_BRIDGE_IOCTL_MAX : Z := 2.

(** ** Requests

    The parameter of a request is copied with it, or is a structure in the memory of the
    caller of which only the type of a pointer to it is in the macro. [request] is what the macro
    expands to. *)

Inductive param : Type := No_param | By_value (t : ctype) | By_pointer (t : ctype).

Record ipa_req : Type := IpaReq {
  ipa_dir : ioc_dir;
  ipa_magic : Z;
  ipa_nr : Z;
  ipa_param : param;
}.

Definition param_type (p : param) : option ctype :=
  match p with No_param => None | By_value t | By_pointer t => Some t end.

Definition by_pointer (p : param) : bool := match p with By_pointer _ => true | _ => false end.

Definition request (r : ipa_req) : ioctl_req :=
  IoctlReq (ipa_dir r) (ipa_magic r) (ipa_nr r)
    match ipa_param r with No_param => None | By_value t => Some t | By_pointer t => Some (pointer t) end.

Section Requests.
Context `{LinuxUapi}.

Definition IPA_IOC_ADD_HDR : ipa_req := IpaReq IOC_READ_WRITE IPA_IOC_MAGIC IPA_IOCTL_ADD_HDR
  (By_pointer struct_ipa_ioc_add_hdr).
Definition IPA_IOC_DEL_HDR : ipa_req := IpaReq IOC_READ_WRITE IPA_IOC_MAGIC IPA_IOCTL_DEL_HDR
  (By_pointer struct_ipa_ioc_del_hdr).
Definition IPA_IOC_ADD_RT_RULE : ipa_req := IpaReq IOC_READ_WRITE IPA_IOC_MAGIC IPA_IOCTL_ADD_RT_RULE
  (By_pointer struct_ipa_ioc_add_rt_rule).
Definition IPA_IOC_ADD_RT_RULE_V2 : ipa_req := IpaReq IOC_READ_WRITE IPA_IOC_MAGIC IPA_IOCTL_ADD_RT_RULE_V2
  (By_pointer struct_ipa_ioc_add_rt_rule_v2).
Definition IPA_IOC_ADD_RT_RULE_EXT : ipa_req := IpaReq IOC_READ_WRITE IPA_IOC_MAGIC IPA_IOCTL_ADD_RT_RULE_EXT
  (By_pointer struct_ipa_ioc_add_rt_rule_ext).
Definition IPA_IOC_ADD_RT_RULE_EXT_V2 : ipa_req := IpaReq IOC_READ_WRITE IPA_IOC_MAGIC IPA_IOCTL_ADD_RT_RULE_EXT_V2
  (By_pointer struct_ipa_ioc_add_rt_rule_ext_v2).
Definition IPA_IOC_ADD_RT_RULE_AFTER : ipa_req := IpaReq IOC_READ_WRITE IPA_IOC_MAGIC IPA_IOCTL_ADD_RT_RULE_AFTER
  (By_pointer struct_ipa_ioc_add_rt_rule_after).
Definition IPA_IOC_ADD_RT_RULE_AFTER_V2 : ipa_req := IpaReq IOC_READ_WRITE IPA_IOC_MAGIC IPA_IOCTL_ADD_RT_RULE_AFTER_V2
  (By_pointer struct_ipa_ioc_add_rt_rule_after_v2).
Definition IPA_IOC_DEL_RT_RULE : ipa_req := IpaReq IOC_READ_WRITE IPA_IOC_MAGIC IPA_IOCTL_DEL_RT_RULE
  (By_pointer struct_ipa_ioc_del_rt_rule).
Definition IPA_IOC_ADD_FLT_RULE : ipa_req := IpaReq IOC_READ_WRITE IPA_IOC_MAGIC IPA_IOCTL_ADD_FLT_RULE
  (By_pointer struct_ipa_ioc_add_flt_rule).
Definition IPA_IOC_ADD_FLT_RULE_V2 : ipa_req := IpaReq IOC_READ_WRITE IPA_IOC_MAGIC IPA_IOCTL_ADD_FLT_RULE_V2
  (By_pointer struct_ipa_ioc_add_flt_rule_v2).
Definition IPA_IOC_ADD_FLT_RULE_AFTER : ipa_req := IpaReq IOC_READ_WRITE IPA_IOC_MAGIC IPA_IOCTL_ADD_FLT_RULE_AFTER
  (By_pointer struct_ipa_ioc_add_flt_rule_after).
Definition IPA_IOC_ADD_FLT_RULE_AFTER_V2 : ipa_req := IpaReq IOC_READ_WRITE IPA_IOC_MAGIC IPA_IOCTL_ADD_FLT_RULE_AFTER_V2
  (By_pointer struct_ipa_ioc_add_flt_rule_after_v2).
Definition IPA_IOC_DEL_FLT_RULE : ipa_req := IpaReq IOC_READ_WRITE IPA_IOC_MAGIC IPA_IOCTL_DEL_FLT_RULE
  (By_pointer struct_ipa_ioc_del_flt_rule).
Definition IPA_IOC_COMMIT_HDR : ipa_req := IpaReq IOC_NONE IPA_IOC_MAGIC IPA_IOCTL_COMMIT_HDR No_param.
Definition IPA_IOC_RESET_HDR : ipa_req := IpaReq IOC_NONE IPA_IOC_MAGIC IPA_IOCTL_RESET_HDR No_param.
Definition IPA_IOC_COMMIT_RT : ipa_req := IpaReq IOC_WRITE IPA_IOC_MAGIC IPA_IOCTL_COMMIT_RT (By_value c_enum).
Definition IPA_IOC_RESET_RT : ipa_req := IpaReq IOC_WRITE IPA_IOC_MAGIC IPA_IOCTL_RESET_RT (By_value c_enum).
Definition IPA_IOC_COMMIT_FLT : ipa_req := IpaReq IOC_WRITE IPA_IOC_MAGIC IPA_IOCTL_COMMIT_FLT (By_value c_enum).
Definition IPA_IOC_RESET_FLT : ipa_req := IpaReq IOC_WRITE IPA_IOC_MAGIC IPA_IOCTL_RESET_FLT (By_value c_enum).
Definition IPA_IOC_DUMP : ipa_req := IpaReq IOC_NONE IPA_IOC_MAGIC IPA_IOCTL_DUMP No_param.
Definition IPA_IOC_GET_RT_TBL : ipa_req := IpaReq IOC_READ_WRITE IPA_IOC_MAGIC IPA_IOCTL_GET_RT_TBL
  (By_pointer struct_ipa_ioc_get_rt_tbl).
Definition IPA_IOC_PUT_RT_TBL : ipa_req := IpaReq IOC_WRITE IPA_IOC_MAGIC IPA_IOCTL_PUT_RT_TBL (By_value c_u32).
Definition IPA_IOC_COPY_HDR : ipa_req := IpaReq IOC_READ_WRITE IPA_IOC_MAGIC IPA_IOCTL_COPY_HDR
  (By_pointer struct_ipa_ioc_copy_hdr).
Definition IPA_IOC_QUERY_INTF : ipa_req := IpaReq IOC_READ_WRITE IPA_IOC_MAGIC IPA_IOCTL_QUERY_INTF
  (By_pointer struct_ipa_ioc_query_intf).
Definition IPA_IOC_QUERY_INTF_TX_PROPS : ipa_req := IpaReq IOC_READ_WRITE IPA_IOC_MAGIC IPA_IOCTL_QUERY_INTF_TX_PROPS
  (By_pointer struct_ipa_ioc_query_intf_tx_props).
Definition IPA_IOC_QUERY_INTF_RX_PROPS : ipa_req := IpaReq IOC_READ_WRITE IPA_IOC_MAGIC IPA_IOCTL_QUERY_INTF_RX_PROPS
  (By_pointer struct_ipa_ioc_query_intf_rx_props).
Definition IPA_IOC_QUERY_INTF_EXT_PROPS : ipa_req := IpaReq IOC_READ_WRITE IPA_IOC_MAGIC IPA_IOCTL_QUERY_INTF_EXT_PROPS
  (By_pointer struct_ipa_ioc_query_intf_ext_props).
Definition IPA_IOC_GET_HDR : ipa_req := IpaReq IOC_READ_WRITE IPA_IOC_MAGIC IPA_IOCTL_GET_HDR
  (By_pointer struct_ipa_ioc_get_hdr).
Definition IPA_IOC_PUT_HDR : ipa_req := IpaReq IOC_WRITE IPA_IOC_MAGIC IPA_IOCTL_PUT_HDR (By_value c_u32).
Definition IPA_IOC_ALLOC_NAT_MEM : ipa_req := IpaReq IOC_READ_WRITE IPA_IOC_MAGIC IPA_IOCTL_ALLOC_NAT_MEM
  (By_pointer struct_ipa_ioc_nat_alloc_mem).
Definition IPA_IOC_ALLOC_NAT_TABLE : ipa_req := IpaReq IOC_READ_WRITE IPA_IOC_MAGIC IPA_IOCTL_ALLOC_NAT_TABLE
  (By_pointer struct_ipa_ioc_nat_ipv6ct_table_alloc).
Definition IPA_IOC_ALLOC_IPV6CT_TABLE : ipa_req := IpaReq IOC_READ_WRITE IPA_IOC_MAGIC IPA_IOCTL_ALLOC_IPV6CT_TABLE
  (By_pointer struct_ipa_ioc_nat_ipv6ct_table_alloc).
Definition IPA_IOC_V4_INIT_NAT : ipa_req := IpaReq IOC_READ_WRITE IPA_IOC_MAGIC IPA_IOCTL_V4_INIT_NAT
  (By_pointer struct_ipa_ioc_v4_nat_init).
Definition IPA_IOC_INIT_IPV6CT_TABLE : ipa_req := IpaReq IOC_READ_WRITE IPA_IOC_MAGIC IPA_IOCTL_INIT_IPV6CT_TABLE
  (By_pointer struct_ipa_ioc_ipv6ct_init).
Definition IPA_IOC_NAT_DMA : ipa_req := IpaReq IOC_READ_WRITE IPA_IOC_MAGIC IPA_IOCTL_NAT_DMA
  (By_pointer struct_ipa_ioc_nat_dma_cmd).
Definition IPA_IOC_TABLE_DMA_CMD : ipa_req := IpaReq IOC_READ_WRITE IPA_IOC_MAGIC IPA_IOCTL_TABLE_DMA_CMD
  (By_pointer struct_ipa_ioc_nat_dma_cmd).
Definition IPA_IOC_V4_DEL_NAT : ipa_req := IpaReq IOC_READ_WRITE IPA_IOC_MAGIC IPA_IOCTL_V4_DEL_NAT
  (By_pointer struct_ipa_ioc_v4_nat_del).
Definition IPA_IOC_DEL_NAT_TABLE : ipa_req := IpaReq IOC_READ_WRITE IPA_IOC_MAGIC IPA_IOCTL_DEL_NAT_TABLE
  (By_pointer struct_ipa_ioc_nat_ipv6ct_table_del).
Definition IPA_IOC_DEL_IPV6CT_TABLE : ipa_req := IpaReq IOC_READ_WRITE IPA_IOC_MAGIC IPA_IOCTL_DEL_IPV6CT_TABLE
  (By_pointer struct_ipa_ioc_nat_ipv6ct_table_del).
Definition IPA_IOC_GET_NAT_OFFSET : ipa_req := IpaReq IOC_READ_WRITE IPA_IOC_MAGIC IPA_IOCTL_GET_NAT_OFFSET
  (By_pointer c_u32).
Definition IPA_IOC_NAT_MODIFY_PDN : ipa_req := IpaReq IOC_READ_WRITE IPA_IOC_MAGIC IPA_IOCTL_NAT_MODIFY_PDN
  (By_pointer struct_ipa_ioc_nat_pdn_entry).
Definition IPA_IOC_SET_FLT : ipa_req := IpaReq IOC_WRITE IPA_IOC_MAGIC IPA_IOCTL_SET_FLT (By_value c_u32).
Definition IPA_IOC_PULL_MSG : ipa_req := IpaReq IOC_READ_WRITE IPA_IOC_MAGIC IPA_IOCTL_PULL_MSG
  (By_pointer struct_ipa_msg_meta).
Definition IPA_IOC_RM_ADD_DEPENDENCY : ipa_req := IpaReq IOC_READ_WRITE IPA_IOC_MAGIC IPA_IOCTL_RM_ADD_DEPENDENCY
  (By_pointer struct_ipa_ioc_rm_dependency).
Definition IPA_IOC_RM_DEL_DEPENDENCY : ipa_req := IpaReq IOC_READ_WRITE IPA_IOC_MAGIC IPA_IOCTL_RM_DEL_DEPENDENCY
  (By_pointer struct_ipa_ioc_rm_dependency).
Definition IPA_IOC_GENERATE_FLT_EQ : ipa_req := IpaReq IOC_READ_WRITE IPA_IOC_MAGIC IPA_IOCTL_GENERATE_FLT_EQ
  (By_pointer struct_ipa_ioc_generate_flt_eq).
Definition IPA_IOC_QUERY_EP_MAPPING : ipa_req := IpaReq IOC_READ IPA_IOC_MAGIC IPA_IOCTL_QUERY_EP_MAPPING
  (By_value c_u32).
Definition IPA_IOC_QUERY_RT_TBL_INDEX : ipa_req := IpaReq IOC_READ_WRITE IPA_IOC_MAGIC IPA_IOCTL_QUERY_RT_TBL_INDEX
  (By_pointer struct_ipa_ioc_get_rt_tbl_indx).
Definition IPA_IOC_WRITE_QMAPID : ipa_req := IpaReq IOC_READ_WRITE IPA_IOC_MAGIC IPA_IOCTL_WRITE_QMAPID
  (By_pointer struct_ipa_ioc_write_qmapid).
Definition IPA_IOC_MDFY_FLT_RULE : ipa_req := IpaReq IOC_READ_WRITE IPA_IOC_MAGIC IPA_IOCTL_MDFY_FLT_RULE
  (By_pointer struct_ipa_ioc_mdfy_flt_rule).
Definition IPA_IOC_MDFY_FLT_RULE_V2 : ipa_req := IpaReq IOC_READ_WRITE IPA_IOC_MAGIC IPA_IOCTL_MDFY_FLT_RULE_V2
  (By_pointer struct_ipa_ioc_mdfy_flt_rule_v2).
Definition IPA_IOC_MDFY_RT_RULE : ipa_req := IpaReq IOC_READ_WRITE IPA_IOC_MAGIC IPA_IOCTL_MDFY_RT_RULE
  (By_pointer struct_ipa_ioc_mdfy_rt_rule).
Definition IPA_IOC_MDFY_RT_RULE_V2 : ipa_req := IpaReq IOC_READ_WRITE IPA_IOC_MAGIC IPA_IOCTL_MDFY_RT_RULE_V2
  (By_pointer struct_ipa_ioc_mdfy_rt_rule_v2).
Definition IPA_IOC_NOTIFY_WAN_UPSTREAM_ROUTE_ADD : ipa_req := IpaReq IOC_READ_WRITE IPA_IOC_MAGIC IPA_IOCTL_NOTIFY_WAN_UPSTREAM_ROUTE_ADD
  (By_pointer struct_ipa_wan_msg).
Definition IPA_IOC_NOTIFY_WAN_UPSTREAM_ROUTE_DEL : ipa_req := IpaReq IOC_READ_WRITE IPA_IOC_MAGIC IPA_IOCTL_NOTIFY_WAN_UPSTREAM_ROUTE_DEL
  (By_pointer struct_ipa_wan_msg).
Definition IPA_IOC_NOTIFY_WAN_EMBMS_CONNECTED : ipa_req := IpaReq IOC_READ_WRITE IPA_IOC_MAGIC IPA_IOCTL_NOTIFY_WAN_EMBMS_CONNECTED
  (By_pointer struct_ipa_wan_msg).
Definition IPA_IOC_ADD_HDR_PROC_CTX : ipa_req := IpaReq IOC_READ_WRITE IPA_IOC_MAGIC IPA_IOCTL_ADD_HDR_PROC_CTX
  (By_pointer struct_ipa_ioc_add_hdr_proc_ctx).
Definition IPA_IOC_DEL_HDR_PROC_CTX : ipa_req := IpaReq IOC_READ_WRITE IPA_IOC_MAGIC IPA_IOCTL_DEL_HDR_PROC_CTX
  (By_pointer struct_ipa_ioc_del_hdr_proc_ctx).
Definition IPA_IOC_GET_HW_VERSION : ipa_req := IpaReq IOC_READ_WRITE IPA_IOC_MAGIC IPA_IOCTL_GET_HW_VERSION
  (By_pointer c_enum).
Definition IPA_IOC_ADD_VLAN_IFACE : ipa_req := IpaReq IOC_READ_WRITE IPA_IOC_MAGIC IPA_IOCTL_ADD_VLAN_IFACE
  (By_pointer struct_ipa_ioc_vlan_iface_info).
Definition IPA_IOC_DEL_VLAN_IFACE : ipa_req := IpaReq IOC_READ_WRITE IPA_IOC_MAGIC IPA_IOCTL_DEL_VLAN_IFACE
  (By_pointer struct_ipa_ioc_vlan_iface_info).
Definition IPA_IOC_ADD_L2TP_VLAN_MAPPING : ipa_req := IpaReq IOC_READ_WRITE IPA_IOC_MAGIC IPA_IOCTL_ADD_L2TP_VLAN_MAPPING
  (By_pointer struct_ipa_ioc_l2tp_vlan_mapping_info).
Definition IPA_IOC_DEL_L2TP_VLAN_MAPPING : ipa_req := IpaReq IOC_READ_WRITE IPA_IOC_MAGIC IPA_IOCTL_DEL_L2TP_VLAN_MAPPING
  (By_pointer struct_ipa_ioc_l2tp_vlan_mapping_info).
Definition IPA_IOC_GET_VLAN_MODE : ipa_req := IpaReq IOC_READ_WRITE IPA_IOC_MAGIC IPA_IOCTL_GET_VLAN_MODE
  (By_pointer struct_ipa_ioc_get_vlan_mode).
Definition IPA_IOC_ADD_BRIDGE_VLAN_MAPPING : ipa_req := IpaReq IOC_READ_WRITE IPA_IOC_MAGIC IPA_IOCTL_ADD_BRIDGE_VLAN_MAPPING
  (By_value struct_ipa_ioc_bridge_vlan_mapping_info).
Definition IPA_IOC_DEL_BRIDGE_VLAN_MAPPING : ipa_req := IpaReq IOC_READ_WRITE IPA_IOC_MAGIC IPA_IOCTL_DEL_BRIDGE_VLAN_MAPPING
  (By_value struct_ipa_ioc_bridge_vlan_mapping_info).
Definition IPA_IOC_CLEANUP : ipa_req := IpaReq IOC_NONE IPA_IOC_MAGIC IPA_IOCTL_CLEANUP No_param.
Definition IPA_IOC_QUERY_WLAN_CLIENT : ipa_req := IpaReq IOC_NONE IPA_IOC_MAGIC IPA_IOCTL_QUERY_WLAN_CLIENT No_param.
Definition IPA_IOC_ODL_QUERY_ADAPL_EP_INFO : ipa_req := IpaReq IOC_READ_WRITE IPA_IOC_MAGIC IPA_IOCTL_ODL_QUERY_ADAPL_EP_INFO
  (By_value struct_ipa_odl_ep_info).
Definition IPA_IOC_ODL_GET_AGG_BYTE_LIMIT : ipa_req := IpaReq IOC_READ_WRITE IPA_IOC_MAGIC IPA_IOCTL_ODL_GET_AGG_BYTE_LIMIT
  (By_value struct_odl_agg_pipe_info).
Definition IPA_IOC_ODL_QUERY_MODEM_CONFIG : ipa_req := IpaReq IOC_READ_WRITE IPA_IOC_MAGIC IPA_IOCTL_ODL_QUERY_MODEM_CONFIG
  (By_value struct_ipa_odl_modem_config).
Definition IPA_IOC_GSB_CONNECT : ipa_req := IpaReq IOC_READ_WRITE IPA_IOC_MAGIC IPA_IOCTL_GSB_CONNECT
  (By_value struct_ipa_ioc_gsb_info).
Definition IPA_IOC_GSB_DISCONNECT : ipa_req := IpaReq IOC_READ_WRITE IPA_IOC_MAGIC IPA_IOCTL_GSB_DISCONNECT
  (By_value struct_ipa_ioc_gsb_info).
Definition IPA_IOC_WIGIG_FST_SWITCH : ipa_req := IpaReq IOC_READ_WRITE IPA_IOC_MAGIC IPA_IOCTL_WIGIG_FST_SWITCH
  (By_value struct_ipa_ioc_wigig_fst_switch).
Definition IPA_IOC_FNR_COUNTER_ALLOC : ipa_req := IpaReq IOC_READ_WRITE IPA_IOC_MAGIC IPA_IOCTL_FNR_COUNTER_ALLOC
  (By_value struct_ipa_ioc_flt_rt_counter_alloc).
Definition IPA_IOC_FNR_COUNTER_DEALLOC : ipa_req := IpaReq IOC_READ_WRITE IPA_IOC_MAGIC IPA_IOCTL_FNR_COUNTER_DEALLOC
  (By_value c_int).
Definition IPA_IOC_FNR_COUNTER_QUERY : ipa_req := IpaReq IOC_READ_WRITE IPA_IOC_MAGIC IPA_IOCTL_FNR_COUNTER_QUERY
  (By_value struct_ipa_ioc_flt_rt_query).
Definition IPA_IOC_SET_FNR_COUNTER_INFO : ipa_req := IpaReq IOC_READ_WRITE IPA_IOC_MAGIC IPA_IOCTL_SET_FNR_COUNTER_INFO
  (By_value struct_ipa_ioc_fnr_index_info).
Definition IPA_IOC_GET_NAT_IN_SRAM_INFO : ipa_req := IpaReq IOC_READ_WRITE IPA_IOC_MAGIC IPA_IOCTL_GET_NAT_IN_SRAM_INFO
  (By_value struct_ipa_nat_in_sram_info).
Definition IPA_IOC_APP_CLOCK_VOTE : ipa_req := IpaReq IOC_READ_WRITE IPA_IOC_MAGIC IPA_IOCTL_APP_CLOCK_VOTE
  (By_value c_u32).
Definition IPA_IOC_PDN_CONFIG : ipa_req := IpaReq IOC_READ_WRITE IPA_IOC_MAGIC IPA_IOCTL_PDN_CONFIG
  (By_value struct_ipa_ioc_pdn_config).
Definition IPA_IOC_SET_MAC_FLT : ipa_req := IpaReq IOC_READ_WRITE IPA_IOC_MAGIC IPA_IOCTL_SET_MAC_FLT
  (By_value struct_ipa_ioc_mac_client_list_type).
Definition IPA_IOC_GET_PHERIPHERAL_EP_INFO : ipa_req := IpaReq IOC_READ_WRITE IPA_IOC_MAGIC IPA_IOCTL_GET_PHERIPHERAL_EP_INFO
  (By_value struct_ipa_ioc_get_ep_info).
Definition IPA_IOC_ADD_UC_ACT_ENTRY : ipa_req := IpaReq IOC_READ_WRITE IPA_IOC_MAGIC IPA_IOCTL_ADD_UC_ACT_ENTRY
  (By_value union_ipa_ioc_uc_activation_entry).
Definition IPA_IOC_DEL_UC_ACT_ENTRY : ipa_req := IpaReq IOC_READ_WRITE IPA_IOC_MAGIC IPA_IOCTL_DEL_UC_ACT_ENTRY
  (By_value c_u16).
Definition IPA_IOC_QUERY_CACHED_DRIVER_MSG : ipa_req := IpaReq IOC_NONE IPA_IOC_MAGIC IPA_IOCTL_QUERY_CACHED_DRIVER_MSG
  No_param.
Definition IPA_IOC_SET_SW_FLT : ipa_req := IpaReq IOC_READ_WRITE IPA_IOC_MAGIC IPA_IOCTL_SET_SW_FLT
  (By_value struct_ipa_ioc_sw_flt_list_type).
Definition IPA_IOC_SET_PKT_THRESHOLD : ipa_req := IpaReq IOC_READ_WRITE IPA_IOC_MAGIC IPA_IOCTL_SET_PKT_THRESHOLD
  (By_value struct_ipa_ioc_set_pkt_threshold).
Definition IPA_IOC_ADD_EoGRE_MAPPING : ipa_req := IpaReq IOC_READ_WRITE IPA_IOC_MAGIC IPA_IOCTL_ADD_EoGRE_MAPPING
  (By_value struct_ipa_ioc_eogre_info).
Definition IPA_IOC_DEL_EoGRE_MAPPING : ipa_req := IpaReq IOC_READ_WRITE IPA_IOC_MAGIC IPA_IOCTL_DEL_EoGRE_MAPPING
  (By_value struct_ipa_ioc_eogre_info).
Definition IPA_IOC_SET_IPPT_SW_FLT : ipa_req := IpaReq IOC_READ_WRITE IPA_IOC_MAGIC IPA_IOCTL_SET_IPPT_SW_FLT
  (By_value struct_ipa_ioc_sw_flt_list_type).
Definition IPA_IOC_ADD_MACSEC_MAPPING : ipa_req := IpaReq IOC_READ_WRITE IPA_IOC_MAGIC IPA_IOCTL_ADD_MACSEC_MAPPING
  (By_value struct_ipa_ioc_macsec_info).
Definition IPA_IOC_DEL_MACSEC_MAPPING : ipa_req := IpaReq IOC_READ_WRITE IPA_IOC_MAGIC IPA_IOCTL_DEL_MACSEC_MAPPING
  (By_value struct_ipa_ioc_macsec_info).
Definition IPA_IOC_SET_EXT_ROUTER_MODE : ipa_req := IpaReq IOC_READ_WRITE IPA_IOC_MAGIC IPA_IOCTL_SET_EXT_ROUTER_MODE
  (By_value struct_ipa_ioc_ext_router_info).
Definition IPA_IOC_ADD_DEL_DSCP_PCP_MAPPING : ipa_req := IpaReq IOC_READ_WRITE IPA_IOC_MAGIC IPA_IOCTL_ADD_DEL_DSCP_PCP_MAPPING
  (By_value struct_ipa_ioc_dscp_pcp_map_info).
Definition TETH_BRIDGE_IOC_SET_BRIDGE_MODE : ipa_req := IpaReq IOC_WRITE TETH_BRIDGE_IOC_MAGIC TETH_BRIDGE_IOCTL_SET_BRIDGE_MODE
  (By_pointer struct_teth_ioc_set_bridge_mode).
Definition TETH_BRIDGE_IOC_SET_AGGR_PARAMS : ipa_req := IpaReq IOC_WRITE TETH_BRIDGE_IOC_MAGIC TETH_BRIDGE_IOCTL_SET_AGGR_PARAMS
  (By_pointer struct_teth_ioc_aggr_params).
Definition TETH_BRIDGE_IOC_GET_AGGR_PARAMS : ipa_req := IpaReq IOC_READ TETH_BRIDGE_IOC_MAGIC TETH_BRIDGE_IOCTL_GET_AGGR_PARAMS
  (By_pointer struct_teth_ioc_aggr_params).
Definition TETH_BRIDGE_IOC_GET_AGGR_CAPABILITIES : ipa_req := IpaReq IOC_READ_WRITE TETH_BRIDGE_IOC_MAGIC TETH_BRIDGE_IOCTL_GET_AGGR_CAPABILITIES
  (By_pointer struct_teth_aggr_capabilities).
Definition ODU_BRIDGE_IOC_SET_MODE : ipa_req := IpaReq IOC_WRITE ODU_BRIDGE_IOC_MAGIC ODU_BRIDGE_IOCTL_SET_MODE
  (By_value c_enum).
Definition ODU_BRIDGE_IOC_SET_LLV6_ADDR : ipa_req := IpaReq IOC_WRITE ODU_BRIDGE_IOC_MAGIC ODU_BRIDGE_IOCTL_SET_LLV6_ADDR
  (By_pointer struct_in6_addr).

Definition ipa_requests : list (string * ipa_req) := [
  ("IPA_IOC_ADD_HDR", IPA_IOC_ADD_HDR);
  ("IPA_IOC_DEL_HDR", IPA_IOC_DEL_HDR);
  ("IPA_IOC_ADD_RT_RULE", IPA_IOC_ADD_RT_RULE);
  ("IPA_IOC_ADD_RT_RULE_V2", IPA_IOC_ADD_RT_RULE_V2);
  ("IPA_IOC_ADD_RT_RULE_EXT", IPA_IOC_ADD_RT_RULE_EXT);
  ("IPA_IOC_ADD_RT_RULE_EXT_V2", IPA_IOC_ADD_RT_RULE_EXT_V2);
  ("IPA_IOC_ADD_RT_RULE_AFTER", IPA_IOC_ADD_RT_RULE_AFTER);
  ("IPA_IOC_ADD_RT_RULE_AFTER_V2", IPA_IOC_ADD_RT_RULE_AFTER_V2);
  ("IPA_IOC_DEL_RT_RULE", IPA_IOC_DEL_RT_RULE);
  ("IPA_IOC_ADD_FLT_RULE", IPA_IOC_ADD_FLT_RULE);
  ("IPA_IOC_ADD_FLT_RULE_V2", IPA_IOC_ADD_FLT_RULE_V2);
  ("IPA_IOC_ADD_FLT_RULE_AFTER", IPA_IOC_ADD_FLT_RULE_AFTER);
  ("IPA_IOC_ADD_FLT_RULE_AFTER_V2", IPA_IOC_ADD_FLT_RULE_AFTER_V2);
  ("IPA_IOC_DEL_FLT_RULE", IPA_IOC_DEL_FLT_RULE);
  ("IPA_IOC_COMMIT_HDR", IPA_IOC_COMMIT_HDR);
  ("IPA_IOC_RESET_HDR", IPA_IOC_RESET_HDR);
  ("IPA_IOC_COMMIT_RT", IPA_IOC_COMMIT_RT);
  ("IPA_IOC_RESET_RT", IPA_IOC_RESET_RT);
  ("IPA_IOC_COMMIT_FLT", IPA_IOC_COMMIT_FLT);
  ("IPA_IOC_RESET_FLT", IPA_IOC_RESET_FLT);
  ("IPA_IOC_DUMP", IPA_IOC_DUMP);
  ("IPA_IOC_GET_RT_TBL", IPA_IOC_GET_RT_TBL);
  ("IPA_IOC_PUT_RT_TBL", IPA_IOC_PUT_RT_TBL);
  ("IPA_IOC_COPY_HDR", IPA_IOC_COPY_HDR);
  ("IPA_IOC_QUERY_INTF", IPA_IOC_QUERY_INTF);
  ("IPA_IOC_QUERY_INTF_TX_PROPS", IPA_IOC_QUERY_INTF_TX_PROPS);
  ("IPA_IOC_QUERY_INTF_RX_PROPS", IPA_IOC_QUERY_INTF_RX_PROPS);
  ("IPA_IOC_QUERY_INTF_EXT_PROPS", IPA_IOC_QUERY_INTF_EXT_PROPS);
  ("IPA_IOC_GET_HDR", IPA_IOC_GET_HDR);
  ("IPA_IOC_PUT_HDR", IPA_IOC_PUT_HDR);
  ("IPA_IOC_ALLOC_NAT_MEM", IPA_IOC_ALLOC_NAT_MEM);
  ("IPA_IOC_ALLOC_NAT_TABLE", IPA_IOC_ALLOC_NAT_TABLE);
  ("IPA_IOC_ALLOC_IPV6CT_TABLE", IPA_IOC_ALLOC_IPV6CT_TABLE);
  ("IPA_IOC_V4_INIT_NAT", IPA_IOC_V4_INIT_NAT);
  ("IPA_IOC_INIT_IPV6CT_TABLE", IPA_IOC_INIT_IPV6CT_TABLE);
  ("IPA_IOC_NAT_DMA", IPA_IOC_NAT_DMA);
  ("IPA_IOC_TABLE_DMA_CMD", IPA_IOC_TABLE_DMA_CMD);
  ("IPA_IOC_V4_DEL_NAT", IPA_IOC_V4_DEL_NAT);
  ("IPA_IOC_DEL_NAT_TABLE", IPA_IOC_DEL_NAT_TABLE);
  ("IPA_IOC_DEL_IPV6CT_TABLE", IPA_IOC_DEL_IPV6CT_TABLE);
  ("IPA_IOC_GET_NAT_OFFSET", IPA_IOC_GET_NAT_OFFSET);
  ("IPA_IOC_NAT_MODIFY_PDN", IPA_IOC_NAT_MODIFY_PDN);
  ("IPA_IOC_SET_FLT", IPA_IOC_SET_FLT);
  ("IPA_IOC_PULL_MSG", IPA_IOC_PULL_MSG);
  ("IPA_IOC_RM_ADD_DEPENDENCY", IPA_IOC_RM_ADD_DEPENDENCY);
  ("IPA_IOC_RM_DEL_DEPENDENCY", IPA_IOC_RM_DEL_DEPENDENCY);
  ("IPA_IOC_GENERATE_FLT_EQ", IPA_IOC_GENERATE_FLT_EQ);
  ("IPA_IOC_QUERY_EP_MAPPING", IPA_IOC_QUERY_EP_MAPPING);
  ("IPA_IOC_QUERY_RT_TBL_INDEX", IPA_IOC_QUERY_RT_TBL_INDEX);
  ("IPA_IOC_WRITE_QMAPID", IPA_IOC_WRITE_QMAPID);
  ("IPA_IOC_MDFY_FLT_RULE", IPA_IOC_MDFY_FLT_RULE);
  ("IPA_IOC_MDFY_FLT_RULE_V2", IPA_IOC_MDFY_FLT_RULE_V2);
  ("IPA_IOC_MDFY_RT_RULE", IPA_IOC_MDFY_RT_RULE);
  ("IPA_IOC_MDFY_RT_RULE_V2", IPA_IOC_MDFY_RT_RULE_V2);
  ("IPA_IOC_NOTIFY_WAN_UPSTREAM_ROUTE_ADD", IPA_IOC_NOTIFY_WAN_UPSTREAM_ROUTE_ADD);
  ("IPA_IOC_NOTIFY_WAN_UPSTREAM_ROUTE_DEL", IPA_IOC_NOTIFY_WAN_UPSTREAM_ROUTE_DEL);
  ("IPA_IOC_NOTIFY_WAN_EMBMS_CONNECTED", IPA_IOC_NOTIFY_WAN_EMBMS_CONNECTED);
  ("IPA_IOC_ADD_HDR_PROC_CTX", IPA_IOC_ADD_HDR_PROC_CTX);
  ("IPA_IOC_DEL_HDR_PROC_CTX", IPA_IOC_DEL_HDR_PROC_CTX);
  ("IPA_IOC_GET_HW_VERSION", IPA_IOC_GET_HW_VERSION);
  ("IPA_IOC_ADD_VLAN_IFACE", IPA_IOC_ADD_VLAN_IFACE);
  ("IPA_IOC_DEL_VLAN_IFACE", IPA_IOC_DEL_VLAN_IFACE);
  ("IPA_IOC_ADD_L2TP_VLAN_MAPPING", IPA_IOC_ADD_L2TP_VLAN_MAPPING);
  ("IPA_IOC_DEL_L2TP_VLAN_MAPPING", IPA_IOC_DEL_L2TP_VLAN_MAPPING);
  ("IPA_IOC_GET_VLAN_MODE", IPA_IOC_GET_VLAN_MODE);
  ("IPA_IOC_ADD_BRIDGE_VLAN_MAPPING", IPA_IOC_ADD_BRIDGE_VLAN_MAPPING);
  ("IPA_IOC_DEL_BRIDGE_VLAN_MAPPING", IPA_IOC_DEL_BRIDGE_VLAN_MAPPING);
  ("IPA_IOC_CLEANUP", IPA_IOC_CLEANUP);
  ("IPA_IOC_QUERY_WLAN_CLIENT", IPA_IOC_QUERY_WLAN_CLIENT);
  ("IPA_IOC_ODL_QUERY_ADAPL_EP_INFO", IPA_IOC_ODL_QUERY_ADAPL_EP_INFO);
  ("IPA_IOC_ODL_GET_AGG_BYTE_LIMIT", IPA_IOC_ODL_GET_AGG_BYTE_LIMIT);
  ("IPA_IOC_ODL_QUERY_MODEM_CONFIG", IPA_IOC_ODL_QUERY_MODEM_CONFIG);
  ("IPA_IOC_GSB_CONNECT", IPA_IOC_GSB_CONNECT);
  ("IPA_IOC_GSB_DISCONNECT", IPA_IOC_GSB_DISCONNECT);
  ("IPA_IOC_WIGIG_FST_SWITCH", IPA_IOC_WIGIG_FST_SWITCH);
  ("IPA_IOC_FNR_COUNTER_ALLOC", IPA_IOC_FNR_COUNTER_ALLOC);
  ("IPA_IOC_FNR_COUNTER_DEALLOC", IPA_IOC_FNR_COUNTER_DEALLOC);
  ("IPA_IOC_FNR_COUNTER_QUERY", IPA_IOC_FNR_COUNTER_QUERY);
  ("IPA_IOC_SET_FNR_COUNTER_INFO", IPA_IOC_SET_FNR_COUNTER_INFO);
  ("IPA_IOC_GET_NAT_IN_SRAM_INFO", IPA_IOC_GET_NAT_IN_SRAM_INFO);
  ("IPA_IOC_APP_CLOCK_VOTE", IPA_IOC_APP_CLOCK_VOTE);
  ("IPA_IOC_PDN_CONFIG", IPA_IOC_PDN_CONFIG);
  ("IPA_IOC_SET_MAC_FLT", IPA_IOC_SET_MAC_FLT);
  ("IPA_IOC_GET_PHERIPHERAL_EP_INFO", IPA_IOC_GET_PHERIPHERAL_EP_INFO);
  ("IPA_IOC_ADD_UC_ACT_ENTRY", IPA_IOC_ADD_UC_ACT_ENTRY);
  ("IPA_IOC_DEL_UC_ACT_ENTRY", IPA_IOC_DEL_UC_ACT_ENTRY);
  ("IPA_IOC_QUERY_CACHED_DRIVER_MSG", IPA_IOC_QUERY_CACHED_DRIVER_MSG);
  ("IPA_IOC_SET_SW_FLT", IPA_IOC_SET_SW_FLT);
  ("IPA_IOC_SET_PKT_THRESHOLD", IPA_IOC_SET_PKT_THRESHOLD);
  ("IPA_IOC_ADD_EoGRE_MAPPING", IPA_IOC_ADD_EoGRE_MAPPING);
  ("IPA_IOC_DEL_EoGRE_MAPPING", IPA_IOC_DEL_EoGRE_MAPPING);
  ("IPA_IOC_SET_IPPT_SW_FLT", IPA_IOC_SET_IPPT_SW_FLT);
  ("IPA_IOC_ADD_MACSEC_MAPPING", IPA_IOC_ADD_MACSEC_MAPPING);
  ("IPA_IOC_DEL_MACSEC_MAPPING", IPA_IOC_DEL_MACSEC_MAPPING);
  ("IPA_IOC_SET_EXT_ROUTER_MODE", IPA_IOC_SET_EXT_ROUTER_MODE);
  ("IPA_IOC_ADD_DEL_DSCP_PCP_MAPPING", IPA_IOC_ADD_DEL_DSCP_PCP_MAPPING);
  ("TETH_BRIDGE_IOC_SET_BRIDGE_MODE", TETH_BRIDGE_IOC_SET_BRIDGE_MODE);
  ("TETH_BRIDGE_IOC_SET_AGGR_PARAMS", TETH_BRIDGE_IOC_SET_AGGR_PARAMS);
  ("TETH_BRIDGE_IOC_GET_AGGR_PARAMS", TETH_BRIDGE_IOC_GET_AGGR_PARAMS);
  ("TETH_BRIDGE_IOC_GET_AGGR_CAPABILITIES", TETH_BRIDGE_IOC_GET_AGGR_CAPABILITIES);
  ("ODU_BRIDGE_IOC_SET_MODE", ODU_BRIDGE_IOC_SET_MODE);
  ("ODU_BRIDGE_IOC_SET_LLV6_ADDR", ODU_BRIDGE_IOC_SET_LLV6_ADDR)].

Definition msm_ipa_requests (a : abi) : list (string * ioctl_req) :=
  map (fun x => (x.1, request x.2)) ipa_requests.
End Requests.
