(* ===== verification/UapiAlsa.v ===== *)
(** * UapiAlsa: the ALSA interface headers of [include/sound]

    Hardware-dependent devices, PCM, raw MIDI, timers and controls
    ([asound.h]), the sequencer, and the devices of single cards. *)

From Stdlib Require Import Ascii.

From S2P Require Import Prelude CLayout Ioctl Uapi.

#[local] Open Scope string_scope.
#[local] Open Scope list_scope.
#[local] Open Scope Z_scope.

Section Uapi.
Context `{LinuxUapi}.

(** ** [sound/asound.h] *)

Definition SNDRV_CTL_ELEM_ID_NAME_MAXLEN : Z := 44.
Definition SNDRV_MASK_MAX : Z := 256.
Definition SNDRV_PCM_HW_PARAM_SAMPLE_BITS : Z := 8.
Definition SNDRV_PCM_HW_PARAM_FIRST_INTERVAL : Z := SNDRV_PCM_HW_PARAM_SAMPLE_BITS.
Definition SNDRV_PCM_HW_PARAM_ACCESS : Z := 0.
Definition SNDRV_PCM_HW_PARAM_FIRST_MASK : Z := SNDRV_PCM_HW_PARAM_ACCESS.
Definition SNDRV_PCM_HW_PARAM_TICK_TIME : Z := 19.
Definition SNDRV_PCM_HW_PARAM_LAST_INTERVAL : Z := SNDRV_PCM_HW_PARAM_TICK_TIME.
Definition SNDRV_PCM_HW_PARAM_SUBFORMAT : Z := 2.
Definition SNDRV_PCM_HW_PARAM_LAST_MASK : Z := SNDRV_PCM_HW_PARAM_SUBFORMAT.

Definition struct_snd_aes_iec958 : ctype := struct [
  ("status", CArray c_u8 24); ("subcode", CArray c_u8 147); ("pad", c_u8);
  ("dig_subframe", CArray c_u8 4)].

Definition struct_snd_cea_861_aud_if : ctype := struct [
  ("db1_ct_cc", c_u8); ("db2_sf_ss", c_u8); ("db3", c_u8); ("db4_ca", c_u8);
  ("db5_dminh_lsv", c_u8)].

Definition struct_snd_hwdep_info : ctype := struct [
  ("device", c_u32); ("card", c_int); ("id", CArray c_u8 64); ("name", CArray c_u8 80);
  ("iface", c_int); ("reserved", CArray c_u8 64)].

Definition struct_snd_hwdep_dsp_status : ctype := struct [
  ("version", c_u32); ("id", CArray c_u8 32); ("num_dsps", c_u32); ("dsp_loaded", c_u32);
  ("chip_ready", c_u32); ("reserved", CArray c_u8 16)].

Definition struct_snd_hwdep_dsp_image : ctype := struct [
  ("index", c_u32); ("name", CArray c_u8 64); ("image", CPtr); ("length", CLong);
  ("driver_data", CLong)].

Definition snd_pcm_uframes_t : ctype := CLong.

Definition snd_pcm_sframes_t : ctype := CLong.

Definition snd_pcm_access_t : ctype := c_int.

Definition snd_pcm_format_t : ctype := c_int.

Definition snd_pcm_subformat_t : ctype := c_int.

Definition snd_pcm_state_t : ctype := c_int.

Definition union_snd_pcm_sync_id : ctype := CUnion [
  ("id", CArray c_u8 16); ("id16", CArray c_u16 8); ("id32", CArray c_u32 4)].

Definition struct_snd_pcm_info : ctype := struct [
  ("device", c_u32); ("subdevice", c_u32); ("stream", c_int); ("card", c_int);
  ("id", CArray c_u8 64); ("name", CArray c_u8 80); ("subname", CArray c_u8 32);
  ("dev_class", c_int); ("dev_subclass", c_int); ("subdevices_count", c_u32);
  ("subdevices_avail", c_u32); ("sync", union_snd_pcm_sync_id); ("reserved", CArray c_u8 64)].

Definition snd_pcm_hw_param_t : ctype := c_int.

Definition struct_snd_interval : ctype := struct [
  ("min", c_u32); ("max", c_u32); ("openmin:1, openmax:1, integer:1, empty:1", c_u32)].

Definition struct_snd_mask : ctype := struct [
  ("bits", CArray c_u32 (( SNDRV_MASK_MAX + 31 ) / 32))].

Definition struct_snd_pcm_hw_params : ctype := struct [
  ("flags", c_u32);
  ("masks", CArray struct_snd_mask (SNDRV_PCM_HW_PARAM_LAST_MASK - SNDRV_PCM_HW_PARAM_FIRST_MASK + 1));
  ("mres", CArray struct_snd_mask 5);
  ("intervals", CArray struct_snd_interval (SNDRV_PCM_HW_PARAM_LAST_INTERVAL - SNDRV_PCM_HW_PARAM_FIRST_INTERVAL + 1));
  ("ires", CArray struct_snd_interval 9); ("rmask", c_u32); ("cmask", c_u32); ("info", c_u32);
  ("msbits", c_u32); ("rate_num", c_u32); ("rate_den", c_u32); ("fifo_size", snd_pcm_uframes_t);
  ("reserved", CArray c_u8 64)].

Definition struct_snd_pcm_sw_params : ctype := struct [
  ("tstamp_mode", c_int); ("period_step", c_u32); ("sleep_min", c_u32);
  ("avail_min", snd_pcm_uframes_t); ("xfer_align", snd_pcm_uframes_t);
  ("start_threshold", snd_pcm_uframes_t); ("stop_threshold", snd_pcm_uframes_t);
  ("silence_threshold", snd_pcm_uframes_t); ("silence_size", snd_pcm_uframes_t);
  ("boundary", snd_pcm_uframes_t); ("proto", c_u32); ("tstamp_type", c_u32);
  ("reserved", CArray c_u8 56)].

Definition struct_snd_pcm_channel_info : ctype := struct [
  ("channel", c_u32); ("offset", __kernel_off_t); ("first", c_u32); ("step", c_u32)].

Definition struct___time_pad (a : abi) : ctype := struct [
  ("pad", CArray c_u8 ((sizeof a time_t) - (sizeof a c_int)))].

Definition struct_snd_pcm_status (a : abi) : ctype := struct [
  ("state", snd_pcm_state_t); ("pad1", struct___time_pad a); ("trigger_tstamp", struct_timespec);
  ("tstamp", struct_timespec); ("appl_ptr", snd_pcm_uframes_t); ("hw_ptr", snd_pcm_uframes_t);
  ("delay", snd_pcm_sframes_t); ("avail", snd_pcm_uframes_t); ("avail_max", snd_pcm_uframes_t);
  ("overrange", snd_pcm_uframes_t); ("suspended_state", snd_pcm_state_t);
  ("audio_tstamp_data", c_u32); ("audio_tstamp", struct_timespec);
  ("driver_tstamp", struct_timespec); ("audio_tstamp_accuracy", c_u32);
  ("reserved", CArray c_u8 (52 - 2 * (sizeof a struct_timespec)))].

Definition struct___snd_timespec64 : ctype := struct [
  ("tv_sec", c_u64); ("tv_nsec", c_u64)].

Definition struct_snd_pcm_mmap_status : ctype := struct [
  ("state", snd_pcm_state_t); ("pad1", c_int); ("hw_ptr", snd_pcm_uframes_t);
  ("tstamp", struct_timespec); ("suspended_state", snd_pcm_state_t);
  ("audio_tstamp", struct_timespec)].

Definition struct_snd_pcm_mmap_control : ctype := struct [
  ("appl_ptr", snd_pcm_uframes_t); ("avail_min", snd_pcm_uframes_t)].

Definition struct_snd_pcm_sync_ptr : ctype := struct [
  ("flags", c_u32);
  ("s", CUnion [
    ("status", struct_snd_pcm_mmap_status); ("reserved", CArray c_u8 64)]);
  ("c", CUnion [
    ("control", struct_snd_pcm_mmap_control); ("reserved", CArray c_u8 64)])].

Definition __pad_before_uframe : ctype := CArray c_u8 0.

Definition __pad_after_uframe (a : abi) : ctype := CArray c_u8 ((sizeof a c_u64) - (sizeof a snd_pcm_uframes_t)).

Definition struct___snd_pcm_mmap_status64 (a : abi) : ctype := struct [
  ("state", snd_pcm_state_t); ("pad1", c_u32); ("__pad1", __pad_before_uframe);
  ("hw_ptr", snd_pcm_uframes_t); ("__pad2", __pad_after_uframe a);
  ("tstamp", struct___snd_timespec64); ("suspended_state", snd_pcm_state_t); ("pad3", c_u32);
  ("audio_tstamp", struct___snd_timespec64)].

Definition struct___snd_pcm_mmap_control64 (a : abi) : ctype := struct [
  ("__pad1", __pad_before_uframe); ("appl_ptr", snd_pcm_uframes_t);
  ("__pad2", __pad_before_uframe); ("__pad3", __pad_before_uframe);
  ("avail_min", snd_pcm_uframes_t); ("__pad4", __pad_after_uframe a)].

Definition struct___snd_pcm_sync_ptr64 (a : abi) : ctype := struct [
  ("flags", c_u32); ("pad1", c_u32);
  ("s", CUnion [
    ("status", struct___snd_pcm_mmap_status64 a); ("reserved", CArray c_u8 64)]);
  ("c", CUnion [
    ("control", struct___snd_pcm_mmap_control64 a); ("reserved", CArray c_u8 64)])].

Definition struct_snd_xferi : ctype := struct [
  ("result", snd_pcm_sframes_t); ("buf", CPtr); ("frames", snd_pcm_uframes_t)].

Definition struct_snd_xfern : ctype := struct [
  ("result", snd_pcm_sframes_t); ("bufs", CPtr); ("frames", snd_pcm_uframes_t)].

Definition struct_snd_rawmidi_info : ctype := struct [
  ("device", c_u32); ("subdevice", c_u32); ("stream", c_int); ("card", c_int); ("flags", c_u32);
  ("id", CArray c_u8 64); ("name", CArray c_u8 80); ("subname", CArray c_u8 32);
  ("subdevices_count", c_u32); ("subdevices_avail", c_u32); ("reserved", CArray c_u8 64)].

Definition struct_snd_rawmidi_params : ctype := struct [
  ("stream", c_int); ("buffer_size", CLong); ("avail_min", CLong); ("no_active_sensing:1", c_u8);
  ("reserved", CArray c_u8 16)].

Definition struct_snd_rawmidi_status (a : abi) : ctype := struct [
  ("stream", c_int); ("pad1", struct___time_pad a); ("tstamp", struct_timespec);
  ("avail", CLong); ("xruns", CLong); ("reserved", CArray c_u8 16)].

Definition struct_snd_timer_id : ctype := struct [
  ("dev_class", c_int); ("dev_sclass", c_int); ("card", c_int); ("device", c_int);
  ("subdevice", c_int)].

Definition struct_snd_timer_ginfo : ctype := struct [
  ("tid", struct_snd_timer_id); ("flags", c_u32); ("card", c_int); ("id", CArray c_u8 64);
  ("name", CArray c_u8 80); ("reserved0", CLong); ("resolution", CLong);
  ("resolution_min", CLong); ("resolution_max", CLong); ("clients", c_u32);
  ("reserved", CArray c_u8 32)].

Definition struct_snd_timer_gparams : ctype := struct [
  ("tid", struct_snd_timer_id); ("period_num", CLong); ("period_den", CLong);
  ("reserved", CArray c_u8 32)].

Definition struct_snd_timer_gstatus : ctype := struct [
  ("tid", struct_snd_timer_id); ("resolution", CLong); ("resolution_num", CLong);
  ("resolution_den", CLong); ("reserved", CArray c_u8 32)].

Definition struct_snd_timer_select : ctype := struct [
  ("id", struct_snd_timer_id); ("reserved", CArray c_u8 32)].

Definition struct_snd_timer_info : ctype := struct [
  ("flags", c_u32); ("card", c_int); ("id", CArray c_u8 64); ("name", CArray c_u8 80);
  ("reserved0", CLong); ("resolution", CLong); ("reserved", CArray c_u8 64)].

Definition struct_snd_timer_params : ctype := struct [
  ("flags", c_u32); ("ticks", c_u32); ("queue_size", c_u32); ("reserved0", c_u32);
  ("filter", c_u32); ("reserved", CArray c_u8 60)].

Definition struct_snd_timer_status : ctype := struct [
  ("tstamp", struct_timespec); ("resolution", c_u32); ("lost", c_u32); ("overrun", c_u32);
  ("queue", c_u32); ("reserved", CArray c_u8 64)].

Definition struct_snd_timer_read : ctype := struct [
  ("resolution", c_u32); ("ticks", c_u32)].

Definition struct_snd_timer_tread (a : abi) : ctype := struct [
  ("event", c_int); ("pad1", struct___time_pad a); ("tstamp", struct_timespec); ("val", c_u32);
  ("pad2", struct___time_pad a)].

Definition struct_snd_ctl_card_info : ctype := struct [
  ("card", c_int); ("pad", c_int); ("id", CArray c_u8 16); ("driver", CArray c_u8 16);
  ("name", CArray c_u8 32); ("longname", CArray c_u8 80); ("reserved_", CArray c_u8 16);
  ("mixername", CArray c_u8 80); ("components", CArray c_u8 128)].

Definition snd_ctl_elem_type_t : ctype := c_int.

Definition snd_ctl_elem_iface_t : ctype := c_int.

Definition struct_snd_ctl_elem_id : ctype := struct [
  ("numid", c_u32); ("iface", snd_ctl_elem_iface_t); ("device", c_u32); ("subdevice", c_u32);
  ("name", CArray c_u8 SNDRV_CTL_ELEM_ID_NAME_MAXLEN); ("index", c_u32)].

Definition struct_snd_ctl_elem_list : ctype := struct [
  ("offset", c_u32); ("space", c_u32); ("used", c_u32); ("count", c_u32); ("pids", CPtr);
  ("reserved", CArray c_u8 50)].

Definition struct_snd_ctl_elem_info : ctype := struct [
  ("id", struct_snd_ctl_elem_id); ("type", snd_ctl_elem_type_t); ("access", c_u32);
  ("count", c_u32); ("owner", __kernel_pid_t);
  ("value", CUnion [
    ("integer", struct [
      ("min", CLong); ("max", CLong); ("step", CLong)]);
    ("integer64", struct [
      ("min", c_u64); ("max", c_u64); ("step", c_u64)]);
    ("enumerated", struct [
      ("items", c_u32); ("item", c_u32); ("name", CArray c_u8 64); ("names_ptr", c_u64);
      ("names_length", c_u32)]);
    ("reserved", CArray c_u8 128)]);
  ("reserved", CArray c_u8 64)].

Definition struct_snd_ctl_elem_value : ctype := struct [
  ("id", struct_snd_ctl_elem_id); ("indirect:1", c_u32);
  ("value", CUnion [
    ("integer", CUnion [
      ("value", CArray CLong 128); ("value_ptr", CPtr)]);
    ("integer64", CUnion [
      ("value", CArray c_u64 64); ("value_ptr", CPtr)]);
    ("enumerated", CUnion [
      ("item", CArray c_u32 128); ("item_ptr", CPtr)]);
    ("bytes", CUnion [
      ("data", CArray c_u8 512); ("data_ptr", CPtr)]);
    ("iec958", struct_snd_aes_iec958)]);
  ("reserved", CArray c_u8 128)].

Definition struct_snd_ctl_tlv : ctype := struct [
  ("numid", c_u32); ("length", c_u32); ("tlv", CArray c_u32 0)].

Definition struct_snd_ctl_event : ctype := struct [
  ("type", c_int);
  ("data", CUnion [
    ("elem", struct [
      ("mask", c_u32); ("id", struct_snd_ctl_elem_id)]);
    ("data8", CArray c_u8 60)])].

Definition SNDRV_HWDEP_IOCTL_PVERSION : ioctl_req := IOR (chr "H") 0x00 c_int.
Definition SNDRV_HWDEP_IOCTL_INFO : ioctl_req := IOR (chr "H") 0x01 struct_snd_hwdep_info.
Definition SNDRV_HWDEP_IOCTL_DSP_STATUS : ioctl_req := IOR (chr "H") 0x02 struct_snd_hwdep_dsp_status.
Definition SNDRV_HWDEP_IOCTL_DSP_LOAD : ioctl_req := IOW (chr "H") 0x03 struct_snd_hwdep_dsp_image.
Definition SNDRV_PCM_IOCTL_PVERSION : ioctl_req := IOR (chr "A") 0x00 c_int.
Definition SNDRV_PCM_IOCTL_INFO : ioctl_req := IOR (chr "A") 0x01 struct_snd_pcm_info.
Definition SNDRV_PCM_IOCTL_TSTAMP : ioctl_req := IOW (chr "A") 0x02 c_int.
Definition SNDRV_PCM_IOCTL_TTSTAMP : ioctl_req := IOW (chr "A") 0x03 c_int.
Definition SNDRV_PCM_IOCTL_USER_PVERSION : ioctl_req := IOW (chr "A") 0x04 c_int.
Definition SNDRV_PCM_IOCTL_HW_REFINE : ioctl_req := IOWR (chr "A") 0x10 struct_snd_pcm_hw_params.
Definition SNDRV_PCM_IOCTL_HW_PARAMS : ioctl_req := IOWR (chr "A") 0x11 struct_snd_pcm_hw_params.
Definition SNDRV_PCM_IOCTL_HW_FREE : ioctl_req := IO (chr "A") 0x12.
Definition SNDRV_PCM_IOCTL_SW_PARAMS : ioctl_req := IOWR (chr "A") 0x13 struct_snd_pcm_sw_params.
Definition SNDRV_PCM_IOCTL_STATUS (a : abi) : ioctl_req := IOR (chr "A") 0x20 (struct_snd_pcm_status a).
Definition SNDRV_PCM_IOCTL_DELAY : ioctl_req := IOR (chr "A") 0x21 snd_pcm_sframes_t.
Definition SNDRV_PCM_IOCTL_HWSYNC : ioctl_req := IO (chr "A") 0x22.
Definition __SNDRV_PCM_IOCTL_SYNC_PTR : ioctl_req := IOWR (chr "A") 0x23 struct_snd_pcm_sync_ptr.
Definition __SNDRV_PCM_IOCTL_SYNC_PTR64 (a : abi) : ioctl_req := IOWR (chr "A") 0x23 (struct___snd_pcm_sync_ptr64 a).
Definition SNDRV_PCM_IOCTL_SYNC_PTR : ioctl_req := IOWR (chr "A") 0x23 struct_snd_pcm_sync_ptr.
Definition SNDRV_PCM_IOCTL_STATUS_EXT (a : abi) : ioctl_req := IOWR (chr "A") 0x24 (struct_snd_pcm_status a).
Definition SNDRV_PCM_IOCTL_CHANNEL_INFO : ioctl_req := IOR (chr "A") 0x32 struct_snd_pcm_channel_info.
Definition SNDRV_PCM_IOCTL_PREPARE : ioctl_req := IO (chr "A") 0x40.
Definition SNDRV_PCM_IOCTL_RESET : ioctl_req := IO (chr "A") 0x41.
Definition SNDRV_PCM_IOCTL_START : ioctl_req := IO (chr "A") 0x42.
Definition SNDRV_PCM_IOCTL_DROP : ioctl_req := IO (chr "A") 0x43.
Definition SNDRV_PCM_IOCTL_DRAIN : ioctl_req := IO (chr "A") 0x44.
Definition SNDRV_PCM_IOCTL_PAUSE : ioctl_req := IOW (chr "A") 0x45 c_int.
Definition SNDRV_PCM_IOCTL_REWIND : ioctl_req := IOW (chr "A") 0x46 snd_pcm_uframes_t.
Definition SNDRV_PCM_IOCTL_RESUME : ioctl_req := IO (chr "A") 0x47.
Definition SNDRV_PCM_IOCTL_XRUN : ioctl_req := IO (chr "A") 0x48.
Definition SNDRV_PCM_IOCTL_FORWARD : ioctl_req := IOW (chr "A") 0x49 snd_pcm_uframes_t.
Definition SNDRV_PCM_IOCTL_WRITEI_FRAMES : ioctl_req := IOW (chr "A") 0x50 struct_snd_xferi.
Definition SNDRV_PCM_IOCTL_READI_FRAMES : ioctl_req := IOR (chr "A") 0x51 struct_snd_xferi.
Definition SNDRV_PCM_IOCTL_WRITEN_FRAMES : ioctl_req := IOW (chr "A") 0x52 struct_snd_xfern.
Definition SNDRV_PCM_IOCTL_READN_FRAMES : ioctl_req := IOR (chr "A") 0x53 struct_snd_xfern.
Definition SNDRV_PCM_IOCTL_LINK : ioctl_req := IOW (chr "A") 0x60 c_int.
Definition SNDRV_PCM_IOCTL_UNLINK : ioctl_req := IO (chr "A") 0x61.
Definition SNDRV_RAWMIDI_IOCTL_PVERSION : ioctl_req := IOR (chr "W") 0x00 c_int.
Definition SNDRV_RAWMIDI_IOCTL_INFO : ioctl_req := IOR (chr "W") 0x01 struct_snd_rawmidi_info.
Definition SNDRV_RAWMIDI_IOCTL_PARAMS : ioctl_req := IOWR (chr "W") 0x10 struct_snd_rawmidi_params.
Definition SNDRV_RAWMIDI_IOCTL_STATUS (a : abi) : ioctl_req := IOWR (chr "W") 0x20 (struct_snd_rawmidi_status a).
Definition SNDRV_RAWMIDI_IOCTL_DROP : ioctl_req := IOW (chr "W") 0x30 c_int.
Definition SNDRV_RAWMIDI_IOCTL_DRAIN : ioctl_req := IOW (chr "W") 0x31 c_int.
Definition SNDRV_TIMER_IOCTL_PVERSION : ioctl_req := IOR (chr "T") 0x00 c_int.
Definition SNDRV_TIMER_IOCTL_NEXT_DEVICE : ioctl_req := IOWR (chr "T") 0x01 struct_snd_timer_id.
Definition SNDRV_TIMER_IOCTL_TREAD_OLD : ioctl_req := IOW (chr "T") 0x02 c_int.
Definition SNDRV_TIMER_IOCTL_GINFO : ioctl_req := IOWR (chr "T") 0x03 struct_snd_timer_ginfo.
Definition SNDRV_TIMER_IOCTL_GPARAMS : ioctl_req := IOW (chr "T") 0x04 struct_snd_timer_gparams.
Definition SNDRV_TIMER_IOCTL_GSTATUS : ioctl_req := IOWR (chr "T") 0x05 struct_snd_timer_gstatus.
Definition SNDRV_TIMER_IOCTL_SELECT : ioctl_req := IOW (chr "T") 0x10 struct_snd_timer_select.
Definition SNDRV_TIMER_IOCTL_INFO : ioctl_req := IOR (chr "T") 0x11 struct_snd_timer_info.
Definition SNDRV_TIMER_IOCTL_PARAMS : ioctl_req := IOW (chr "T") 0x12 struct_snd_timer_params.
Definition SNDRV_TIMER_IOCTL_STATUS : ioctl_req := IOR (chr "T") 0x14 struct_snd_timer_status.
Definition SNDRV_TIMER_IOCTL_START : ioctl_req := IO (chr "T") 0xa0.
Definition SNDRV_TIMER_IOCTL_STOP : ioctl_req := IO (chr "T") 0xa1.
Definition SNDRV_TIMER_IOCTL_CONTINUE : ioctl_req := IO (chr "T") 0xa2.
Definition SNDRV_TIMER_IOCTL_PAUSE : ioctl_req := IO (chr "T") 0xa3.
Definition SNDRV_TIMER_IOCTL_TREAD64 : ioctl_req := IOW (chr "T") 0xa4 c_int.
Definition SNDRV_CTL_IOCTL_PVERSION : ioctl_req := IOR (chr "U") 0x00 c_int.
Definition SNDRV_CTL_IOCTL_CARD_INFO : ioctl_req := IOR (chr "U") 0x01 struct_snd_ctl_card_info.
Definition SNDRV_CTL_IOCTL_ELEM_LIST : ioctl_req := IOWR (chr "U") 0x10 struct_snd_ctl_elem_list.
Definition SNDRV_CTL_IOCTL_ELEM_INFO : ioctl_req := IOWR (chr "U") 0x11 struct_snd_ctl_elem_info.
Definition SNDRV_CTL_IOCTL_ELEM_READ : ioctl_req := IOWR (chr "U") 0x12 struct_snd_ctl_elem_value.
Definition SNDRV_CTL_IOCTL_ELEM_WRITE : ioctl_req := IOWR (chr "U") 0x13 struct_snd_ctl_elem_value.
Definition SNDRV_CTL_IOCTL_ELEM_LOCK : ioctl_req := IOW (chr "U") 0x14 struct_snd_ctl_elem_id.
Definition SNDRV_CTL_IOCTL_ELEM_UNLOCK : ioctl_req := IOW (chr "U") 0x15 struct_snd_ctl_elem_id.
Definition SNDRV_CTL_IOCTL_SUBSCRIBE_EVENTS : ioctl_req := IOWR (chr "U") 0x16 c_int.
Definition SNDRV_CTL_IOCTL_ELEM_ADD : ioctl_req := IOWR (chr "U") 0x17 struct_snd_ctl_elem_info.
Definition SNDRV_CTL_IOCTL_ELEM_REPLACE : ioctl_req := IOWR (chr "U") 0x18 struct_snd_ctl_elem_info.
Definition SNDRV_CTL_IOCTL_ELEM_REMOVE : ioctl_req := IOWR (chr "U") 0x19 struct_snd_ctl_elem_id.
Definition SNDRV_CTL_IOCTL_TLV_READ : ioctl_req := IOWR (chr "U") 0x1a struct_snd_ctl_tlv.
Definition SNDRV_CTL_IOCTL_TLV_WRITE : ioctl_req := IOWR (chr "U") 0x1b struct_snd_ctl_tlv.
Definition SNDRV_CTL_IOCTL_TLV_COMMAND : ioctl_req := IOWR (chr "U") 0x1c struct_snd_ctl_tlv.
Definition SNDRV_CTL_IOCTL_HWDEP_NEXT_DEVICE : ioctl_req := IOWR (chr "U") 0x20 c_int.
Definition SNDRV_CTL_IOCTL_HWDEP_INFO : ioctl_req := IOR (chr "U") 0x21 struct_snd_hwdep_info.
Definition SNDRV_CTL_IOCTL_PCM_NEXT_DEVICE : ioctl_req := IOR (chr "U") 0x30 c_int.
Definition SNDRV_CTL_IOCTL_PCM_INFO : ioctl_req := IOWR (chr "U") 0x31 struct_snd_pcm_info.
Definition SNDRV_CTL_IOCTL_PCM_PREFER_SUBDEVICE : ioctl_req := IOW (chr "U") 0x32 c_int.
Definition SNDRV_CTL_IOCTL_RAWMIDI_NEXT_DEVICE : ioctl_req := IOWR (chr "U") 0x40 c_int.
Definition SNDRV_CTL_IOCTL_RAWMIDI_INFO : ioctl_req := IOWR (chr "U") 0x41 struct_snd_rawmidi_info.
Definition SNDRV_CTL_IOCTL_RAWMIDI_PREFER_SUBDEVICE : ioctl_req := IOW (chr "U") 0x42 c_int.
Definition SNDRV_CTL_IOCTL_POWER : ioctl_req := IOWR (chr "U") 0xd0 c_int.
Definition SNDRV_CTL_IOCTL_POWER_STATE : ioctl_req := IOR (chr "U") 0xd1 c_int.

Definition asound_requests (a : abi) : list (string * ioctl_req) :=
  [("SNDRV_HWDEP_IOCTL_PVERSION", SNDRV_HWDEP_IOCTL_PVERSION);
   ("SNDRV_HWDEP_IOCTL_INFO", SNDRV_HWDEP_IOCTL_INFO);
   ("SNDRV_HWDEP_IOCTL_DSP_STATUS", SNDRV_HWDEP_IOCTL_DSP_STATUS);
   ("SNDRV_HWDEP_IOCTL_DSP_LOAD", SNDRV_HWDEP_IOCTL_DSP_LOAD);
   ("SNDRV_PCM_IOCTL_PVERSION", SNDRV_PCM_IOCTL_PVERSION);
   ("SNDRV_PCM_IOCTL_INFO", SNDRV_PCM_IOCTL_INFO);
   ("SNDRV_PCM_IOCTL_TSTAMP", SNDRV_PCM_IOCTL_TSTAMP);
   ("SNDRV_PCM_IOCTL_TTSTAMP", SNDRV_PCM_IOCTL_TTSTAMP);
   ("SNDRV_PCM_IOCTL_USER_PVERSION", SNDRV_PCM_IOCTL_USER_PVERSION);
   ("SNDRV_PCM_IOCTL_HW_REFINE", SNDRV_PCM_IOCTL_HW_REFINE);
   ("SNDRV_PCM_IOCTL_HW_PARAMS", SNDRV_PCM_IOCTL_HW_PARAMS);
   ("SNDRV_PCM_IOCTL_HW_FREE", SNDRV_PCM_IOCTL_HW_FREE);
   ("SNDRV_PCM_IOCTL_SW_PARAMS", SNDRV_PCM_IOCTL_SW_PARAMS);
   ("SNDRV_PCM_IOCTL_STATUS", SNDRV_PCM_IOCTL_STATUS a);
   ("SNDRV_PCM_IOCTL_DELAY", SNDRV_PCM_IOCTL_DELAY);
   ("SNDRV_PCM_IOCTL_HWSYNC", SNDRV_PCM_IOCTL_HWSYNC);
   ("__SNDRV_PCM_IOCTL_SYNC_PTR", __SNDRV_PCM_IOCTL_SYNC_PTR);
   ("__SNDRV_PCM_IOCTL_SYNC_PTR64", __SNDRV_PCM_IOCTL_SYNC_PTR64 a);
   ("SNDRV_PCM_IOCTL_SYNC_PTR", SNDRV_PCM_IOCTL_SYNC_PTR);
   ("SNDRV_PCM_IOCTL_STATUS_EXT", SNDRV_PCM_IOCTL_STATUS_EXT a);
   ("SNDRV_PCM_IOCTL_CHANNEL_INFO", SNDRV_PCM_IOCTL_CHANNEL_INFO);
   ("SNDRV_PCM_IOCTL_PREPARE", SNDRV_PCM_IOCTL_PREPARE);
   ("SNDRV_PCM_IOCTL_RESET", SNDRV_PCM_IOCTL_RESET);
   ("SNDRV_PCM_IOCTL_START", SNDRV_PCM_IOCTL_START);
   ("SNDRV_PCM_IOCTL_DROP", SNDRV_PCM_IOCTL_DROP);
   ("SNDRV_PCM_IOCTL_DRAIN", SNDRV_PCM_IOCTL_DRAIN);
   ("SNDRV_PCM_IOCTL_PAUSE", SNDRV_PCM_IOCTL_PAUSE);
   ("SNDRV_PCM_IOCTL_REWIND", SNDRV_PCM_IOCTL_REWIND);
   ("SNDRV_PCM_IOCTL_RESUME", SNDRV_PCM_IOCTL_RESUME);
   ("SNDRV_PCM_IOCTL_XRUN", SNDRV_PCM_IOCTL_XRUN);
   ("SNDRV_PCM_IOCTL_FORWARD", SNDRV_PCM_IOCTL_FORWARD);
   ("SNDRV_PCM_IOCTL_WRITEI_FRAMES", SNDRV_PCM_IOCTL_WRITEI_FRAMES);
   ("SNDRV_PCM_IOCTL_READI_FRAMES", SNDRV_PCM_IOCTL_READI_FRAMES);
   ("SNDRV_PCM_IOCTL_WRITEN_FRAMES", SNDRV_PCM_IOCTL_WRITEN_FRAMES);
   ("SNDRV_PCM_IOCTL_READN_FRAMES", SNDRV_PCM_IOCTL_READN_FRAMES);
   ("SNDRV_PCM_IOCTL_LINK", SNDRV_PCM_IOCTL_LINK);
   ("SNDRV_PCM_IOCTL_UNLINK", SNDRV_PCM_IOCTL_UNLINK);
   ("SNDRV_RAWMIDI_IOCTL_PVERSION", SNDRV_RAWMIDI_IOCTL_PVERSION);
   ("SNDRV_RAWMIDI_IOCTL_INFO", SNDRV_RAWMIDI_IOCTL_INFO);
   ("SNDRV_RAWMIDI_IOCTL_PARAMS", SNDRV_RAWMIDI_IOCTL_PARAMS);
   ("SNDRV_RAWMIDI_IOCTL_STATUS", SNDRV_RAWMIDI_IOCTL_STATUS a);
   ("SNDRV_RAWMIDI_IOCTL_DROP", SNDRV_RAWMIDI_IOCTL_DROP);
   ("SNDRV_RAWMIDI_IOCTL_DRAIN", SNDRV_RAWMIDI_IOCTL_DRAIN);
   ("SNDRV_TIMER_IOCTL_PVERSION", SNDRV_TIMER_IOCTL_PVERSION);
   ("SNDRV_TIMER_IOCTL_NEXT_DEVICE", SNDRV_TIMER_IOCTL_NEXT_DEVICE);
   ("SNDRV_TIMER_IOCTL_TREAD_OLD", SNDRV_TIMER_IOCTL_TREAD_OLD);
   ("SNDRV_TIMER_IOCTL_GINFO", SNDRV_TIMER_IOCTL_GINFO);
   ("SNDRV_TIMER_IOCTL_GPARAMS", SNDRV_TIMER_IOCTL_GPARAMS);
   ("SNDRV_TIMER_IOCTL_GSTATUS", SNDRV_TIMER_IOCTL_GSTATUS);
   ("SNDRV_TIMER_IOCTL_SELECT", SNDRV_TIMER_IOCTL_SELECT);
   ("SNDRV_TIMER_IOCTL_INFO", SNDRV_TIMER_IOCTL_INFO);
   ("SNDRV_TIMER_IOCTL_PARAMS", SNDRV_TIMER_IOCTL_PARAMS);
   ("SNDRV_TIMER_IOCTL_STATUS", SNDRV_TIMER_IOCTL_STATUS);
   ("SNDRV_TIMER_IOCTL_START", SNDRV_TIMER_IOCTL_START);
   ("SNDRV_TIMER_IOCTL_STOP", SNDRV_TIMER_IOCTL_STOP);
   ("SNDRV_TIMER_IOCTL_CONTINUE", SNDRV_TIMER_IOCTL_CONTINUE);
   ("SNDRV_TIMER_IOCTL_PAUSE", SNDRV_TIMER_IOCTL_PAUSE);
   ("SNDRV_TIMER_IOCTL_TREAD64", SNDRV_TIMER_IOCTL_TREAD64);
   ("SNDRV_CTL_IOCTL_PVERSION", SNDRV_CTL_IOCTL_PVERSION);
   ("SNDRV_CTL_IOCTL_CARD_INFO", SNDRV_CTL_IOCTL_CARD_INFO);
   ("SNDRV_CTL_IOCTL_ELEM_LIST", SNDRV_CTL_IOCTL_ELEM_LIST);
   ("SNDRV_CTL_IOCTL_ELEM_INFO", SNDRV_CTL_IOCTL_ELEM_INFO);
   ("SNDRV_CTL_IOCTL_ELEM_READ", SNDRV_CTL_IOCTL_ELEM_READ);
   ("SNDRV_CTL_IOCTL_ELEM_WRITE", SNDRV_CTL_IOCTL_ELEM_WRITE);
   ("SNDRV_CTL_IOCTL_ELEM_LOCK", SNDRV_CTL_IOCTL_ELEM_LOCK);
   ("SNDRV_CTL_IOCTL_ELEM_UNLOCK", SNDRV_CTL_IOCTL_ELEM_UNLOCK);
   ("SNDRV_CTL_IOCTL_SUBSCRIBE_EVENTS", SNDRV_CTL_IOCTL_SUBSCRIBE_EVENTS);
   ("SNDRV_CTL_IOCTL_ELEM_ADD", SNDRV_CTL_IOCTL_ELEM_ADD);
   ("SNDRV_CTL_IOCTL_ELEM_REPLACE", SNDRV_CTL_IOCTL_ELEM_REPLACE);
   ("SNDRV_CTL_IOCTL_ELEM_REMOVE", SNDRV_CTL_IOCTL_ELEM_REMOVE);
   ("SNDRV_CTL_IOCTL_TLV_READ", SNDRV_CTL_IOCTL_TLV_READ);
   ("SNDRV_CTL_IOCTL_TLV_WRITE", SNDRV_CTL_IOCTL_TLV_WRITE);
   ("SNDRV_CTL_IOCTL_TLV_COMMAND", SNDRV_CTL_IOCTL_TLV_COMMAND);
   ("SNDRV_CTL_IOCTL_HWDEP_NEXT_DEVICE", SNDRV_CTL_IOCTL_HWDEP_NEXT_DEVICE);
   ("SNDRV_CTL_IOCTL_HWDEP_INFO", SNDRV_CTL_IOCTL_HWDEP_INFO);
   ("SNDRV_CTL_IOCTL_PCM_NEXT_DEVICE", SNDRV_CTL_IOCTL_PCM_NEXT_DEVICE);
   ("SNDRV_CTL_IOCTL_PCM_INFO", SNDRV_CTL_IOCTL_PCM_INFO);
   ("SNDRV_CTL_IOCTL_PCM_PREFER_SUBDEVICE", SNDRV_CTL_IOCTL_PCM_PREFER_SUBDEVICE);
   ("SNDRV_CTL_IOCTL_RAWMIDI_NEXT_DEVICE", SNDRV_CTL_IOCTL_RAWMIDI_NEXT_DEVICE);
   ("SNDRV_CTL_IOCTL_RAWMIDI_INFO", SNDRV_CTL_IOCTL_RAWMIDI_INFO);
   ("SNDRV_CTL_IOCTL_RAWMIDI_PREFER_SUBDEVICE", SNDRV_CTL_IOCTL_RAWMIDI_PREFER_SUBDEVICE);
   ("SNDRV_CTL_IOCTL_POWER", SNDRV_CTL_IOCTL_POWER);
   ("SNDRV_CTL_IOCTL_POWER_STATE", SNDRV_CTL_IOCTL_POWER_STATE)].

(** ** [sound/asequencer.h] *)

Definition snd_seq_event_type_t : ctype := c_u8.

Definition struct_snd_seq_addr : ctype := struct [
  ("client", c_u8); ("port", c_u8)].

Definition struct_snd_seq_connect : ctype := struct [
  ("sender", struct_snd_seq_addr); ("dest", struct_snd_seq_addr)].

Definition struct_snd_seq_ev_note : ctype := struct [
  ("channel", c_u8); ("note", c_u8); ("velocity", c_u8); ("off_velocity", c_u8);
  ("duration", c_u32)].

Definition struct_snd_seq_ev_ctrl : ctype := struct [
  ("channel", c_u8); ("unused1", c_u8); ("unused2", c_u8); ("unused3", c_u8); ("param", c_u32);
  ("value", c_int)].

Definition struct_snd_seq_ev_raw8 : ctype := struct [
  ("d", CArray c_u8 12)].

Definition struct_snd_seq_ev_raw32 : ctype := struct [
  ("d", CArray c_u32 3)].

Definition struct_snd_seq_ev_ext : ctype := packed_struct [
  ("len", c_u32); ("ptr", CPtr)].

Definition struct_snd_seq_result : ctype := struct [
  ("event", c_int); ("result", c_int)].

Definition struct_snd_seq_real_time : ctype := struct [
  ("tv_sec", c_u32); ("tv_nsec", c_u32)].

Definition snd_seq_tick_time_t : ctype := c_u32.

Definition union_snd_seq_timestamp : ctype := CUnion [
  ("tick", snd_seq_tick_time_t); ("time", struct_snd_seq_real_time)].

Definition struct_snd_seq_queue_skew : ctype := struct [
  ("value", c_u32); ("base", c_u32)].

Definition struct_snd_seq_ev_queue_control : ctype := struct [
  ("queue", c_u8); ("pad", CArray c_u8 3);
  ("param", CUnion [
    ("value", c_int); ("time", union_snd_seq_timestamp); ("position", c_u32);
    ("skew", struct_snd_seq_queue_skew); ("d32", CArray c_u32 2); ("d8", CArray c_u8 8)])].

Definition struct_snd_seq_ev_quote : ctype := packed_struct [
  ("origin", struct_snd_seq_addr); ("value", c_u16); ("event", CPtr)].

Definition struct_snd_seq_event : ctype := struct [
  ("type", snd_seq_event_type_t); ("flags", c_u8); ("tag", c_u8); ("queue", c_u8);
  ("time", union_snd_seq_timestamp); ("source", struct_snd_seq_addr);
  ("dest", struct_snd_seq_addr);
  ("data", CUnion [
    ("note", struct_snd_seq_ev_note); ("control", struct_snd_seq_ev_ctrl);
    ("raw8", struct_snd_seq_ev_raw8); ("raw32", struct_snd_seq_ev_raw32);
    ("ext", struct_snd_seq_ev_ext); ("queue", struct_snd_seq_ev_queue_control);
    ("time", union_snd_seq_timestamp); ("addr", struct_snd_seq_addr);
    ("connect", struct_snd_seq_connect); ("result", struct_snd_seq_result);
    ("quote", struct_snd_seq_ev_quote)])].

Definition struct_snd_seq_event_bounce : ctype := struct [
  ("err", c_int); ("event", struct_snd_seq_event)].

Definition struct_snd_seq_system_info : ctype := struct [
  ("queues", c_int); ("clients", c_int); ("ports", c_int); ("channels", c_int);
  ("cur_clients", c_int); ("cur_queues", c_int); ("reserved", CArray c_u8 24)].

Definition struct_snd_seq_running_info : ctype := struct [
  ("client", c_u8); ("big_endian", c_u8); ("cpu_mode", c_u8); ("pad", c_u8);
  ("reserved", CArray c_u8 12)].

Definition snd_seq_client_type_t : ctype := c_int.

Definition struct_snd_seq_client_info : ctype := struct [
  ("client", c_int); ("type", snd_seq_client_type_t); ("name", CArray c_u8 64);
  ("filter", c_u32); ("multicast_filter", CArray c_u8 8); ("event_filter", CArray c_u8 32);
  ("num_ports", c_int); ("event_lost", c_int); ("card", c_int); ("pid", c_int);
  ("reserved", CArray c_u8 56)].

Definition struct_snd_seq_client_pool : ctype := struct [
  ("client", c_int); ("output_pool", c_int); ("input_pool", c_int); ("output_room", c_int);
  ("output_free", c_int); ("input_free", c_int); ("reserved", CArray c_u8 64)].

Definition struct_snd_seq_remove_events : ctype := struct [
  ("remove_mode", c_u32); ("time", union_snd_seq_timestamp); ("queue", c_u8);
  ("dest", struct_snd_seq_addr); ("channel", c_u8); ("type", c_int); ("tag", c_u8);
  ("reserved", CArray c_int 10)].

Definition struct_snd_seq_port_info : ctype := struct [
  ("addr", struct_snd_seq_addr); ("name", CArray c_u8 64); ("capability", c_u32);
  ("type", c_u32); ("midi_channels", c_int); ("midi_voices", c_int); ("synth_voices", c_int);
  ("read_use", c_int); ("write_use", c_int); ("kernel", CPtr); ("flags", c_u32);
  ("time_queue", c_u8); ("reserved", CArray c_u8 59)].

Definition struct_snd_seq_queue_info : ctype := struct [
  ("queue", c_int); ("owner", c_int); ("locked:1", c_u8); ("name", CArray c_u8 64);
  ("flags", c_u32); ("reserved", CArray c_u8 60)].

Definition struct_snd_seq_queue_status : ctype := struct [
  ("queue", c_int); ("events", c_int); ("tick", snd_seq_tick_time_t);
  ("time", struct_snd_seq_real_time); ("running", c_int); ("flags", c_int);
  ("reserved", CArray c_u8 64)].

Definition struct_snd_seq_queue_tempo : ctype := struct [
  ("queue", c_int); ("tempo", c_u32); ("ppq", c_int); ("skew_value", c_u32);
  ("skew_base", c_u32); ("reserved", CArray c_u8 24)].

Definition struct_snd_seq_queue_timer : ctype := struct [
  ("queue", c_int); ("type", c_int);
  ("u", CUnion [
    ("alsa", struct [
      ("id", struct_snd_timer_id); ("resolution", c_u32)])]);
  ("reserved", CArray c_u8 64)].

Definition struct_snd_seq_queue_client : ctype := struct [
  ("queue", c_int); ("client", c_int); ("used", c_int); ("reserved", CArray c_u8 64)].

Definition struct_snd_seq_port_subscribe : ctype := struct [
  ("sender", struct_snd_seq_addr); ("dest", struct_snd_seq_addr); ("voices", c_u32);
  ("flags", c_u32); ("queue", c_u8); ("pad", CArray c_u8 3); ("reserved", CArray c_u8 64)].

Definition struct_snd_seq_query_subs : ctype := struct [
  ("root", struct_snd_seq_addr); ("type", c_int); ("index", c_int); ("num_subs", c_int);
  ("addr", struct_snd_seq_addr); ("queue", c_u8); ("flags", c_u32); ("reserved", CArray c_u8 64)].

Definition SNDRV_SEQ_IOCTL_PVERSION : ioctl_req := IOR (chr "S") 0x00 c_int.
Definition SNDRV_SEQ_IOCTL_CLIENT_ID : ioctl_req := IOR (chr "S") 0x01 c_int.
Definition SNDRV_SEQ_IOCTL_SYSTEM_INFO : ioctl_req := IOWR (chr "S") 0x02 struct_snd_seq_system_info.
Definition SNDRV_SEQ_IOCTL_RUNNING_MODE : ioctl_req := IOWR (chr "S") 0x03 struct_snd_seq_running_info.
Definition SNDRV_SEQ_IOCTL_GET_CLIENT_INFO : ioctl_req := IOWR (chr "S") 0x10 struct_snd_seq_client_info.
Definition SNDRV_SEQ_IOCTL_SET_CLIENT_INFO : ioctl_req := IOW (chr "S") 0x11 struct_snd_seq_client_info.
Definition SNDRV_SEQ_IOCTL_CREATE_PORT : ioctl_req := IOWR (chr "S") 0x20 struct_snd_seq_port_info.
Definition SNDRV_SEQ_IOCTL_DELETE_PORT : ioctl_req := IOW (chr "S") 0x21 struct_snd_seq_port_info.
Definition SNDRV_SEQ_IOCTL_GET_PORT_INFO : ioctl_req := IOWR (chr "S") 0x22 struct_snd_seq_port_info.
Definition SNDRV_SEQ_IOCTL_SET_PORT_INFO : ioctl_req := IOW (chr "S") 0x23 struct_snd_seq_port_info.
Definition SNDRV_SEQ_IOCTL_SUBSCRIBE_PORT : ioctl_req := IOW (chr "S") 0x30 struct_snd_seq_port_subscribe.
Definition SNDRV_SEQ_IOCTL_UNSUBSCRIBE_PORT : ioctl_req := IOW (chr "S") 0x31 struct_snd_seq_port_subscribe.
Definition SNDRV_SEQ_IOCTL_CREATE_QUEUE : ioctl_req := IOWR (chr "S") 0x32 struct_snd_seq_queue_info.
Definition SNDRV_SEQ_IOCTL_DELETE_QUEUE : ioctl_req := IOW (chr "S") 0x33 struct_snd_seq_queue_info.
Definition SNDRV_SEQ_IOCTL_GET_QUEUE_INFO : ioctl_req := IOWR (chr "S") 0x34 struct_snd_seq_queue_info.
Definition SNDRV_SEQ_IOCTL_SET_QUEUE_INFO : ioctl_req := IOWR (chr "S") 0x35 struct_snd_seq_queue_info.
Definition SNDRV_SEQ_IOCTL_GET_NAMED_QUEUE : ioctl_req := IOWR (chr "S") 0x36 struct_snd_seq_queue_info.
Definition SNDRV_SEQ_IOCTL_GET_QUEUE_STATUS : ioctl_req := IOWR (chr "S") 0x40 struct_snd_seq_queue_status.
Definition SNDRV_SEQ_IOCTL_GET_QUEUE_TEMPO : ioctl_req := IOWR (chr "S") 0x41 struct_snd_seq_queue_tempo.
Definition SNDRV_SEQ_IOCTL_SET_QUEUE_TEMPO : ioctl_req := IOW (chr "S") 0x42 struct_snd_seq_queue_tempo.
Definition SNDRV_SEQ_IOCTL_GET_QUEUE_TIMER : ioctl_req := IOWR (chr "S") 0x45 struct_snd_seq_queue_timer.
Definition SNDRV_SEQ_IOCTL_SET_QUEUE_TIMER : ioctl_req := IOW (chr "S") 0x46 struct_snd_seq_queue_timer.
Definition SNDRV_SEQ_IOCTL_GET_QUEUE_CLIENT : ioctl_req := IOWR (chr "S") 0x49 struct_snd_seq_queue_client.
Definition SNDRV_SEQ_IOCTL_SET_QUEUE_CLIENT : ioctl_req := IOW (chr "S") 0x4a struct_snd_seq_queue_client.
Definition SNDRV_SEQ_IOCTL_GET_CLIENT_POOL : ioctl_req := IOWR (chr "S") 0x4b struct_snd_seq_client_pool.
Definition SNDRV_SEQ_IOCTL_SET_CLIENT_POOL : ioctl_req := IOW (chr "S") 0x4c struct_snd_seq_client_pool.
Definition SNDRV_SEQ_IOCTL_REMOVE_EVENTS : ioctl_req := IOW (chr "S") 0x4e struct_snd_seq_remove_events.
Definition SNDRV_SEQ_IOCTL_QUERY_SUBS : ioctl_req := IOWR (chr "S") 0x4f struct_snd_seq_query_subs.
Definition SNDRV_SEQ_IOCTL_GET_SUBSCRIPTION : ioctl_req := IOWR (chr "S") 0x50 struct_snd_seq_port_subscribe.
Definition SNDRV_SEQ_IOCTL_QUERY_NEXT_CLIENT : ioctl_req := IOWR (chr "S") 0x51 struct_snd_seq_client_info.
Definition SNDRV_SEQ_IOCTL_QUERY_NEXT_PORT : ioctl_req := IOWR (chr "S") 0x52 struct_snd_seq_port_info.

Definition asequencer_requests (a : abi) : list (string * ioctl_req) :=
  [("SNDRV_SEQ_IOCTL_PVERSION", SNDRV_SEQ_IOCTL_PVERSION);
   ("SNDRV_SEQ_IOCTL_CLIENT_ID", SNDRV_SEQ_IOCTL_CLIENT_ID);
   ("SNDRV_SEQ_IOCTL_SYSTEM_INFO", SNDRV_SEQ_IOCTL_SYSTEM_INFO);
   ("SNDRV_SEQ_IOCTL_RUNNING_MODE", SNDRV_SEQ_IOCTL_RUNNING_MODE);
   ("SNDRV_SEQ_IOCTL_GET_CLIENT_INFO", SNDRV_SEQ_IOCTL_GET_CLIENT_INFO);
   ("SNDRV_SEQ_IOCTL_SET_CLIENT_INFO", SNDRV_SEQ_IOCTL_SET_CLIENT_INFO);
   ("SNDRV_SEQ_IOCTL_CREATE_PORT", SNDRV_SEQ_IOCTL_CREATE_PORT);
   ("SNDRV_SEQ_IOCTL_DELETE_PORT", SNDRV_SEQ_IOCTL_DELETE_PORT);
   ("SNDRV_SEQ_IOCTL_GET_PORT_INFO", SNDRV_SEQ_IOCTL_GET_PORT_INFO);
   ("SNDRV_SEQ_IOCTL_SET_PORT_INFO", SNDRV_SEQ_IOCTL_SET_PORT_INFO);
   ("SNDRV_SEQ_IOCTL_SUBSCRIBE_PORT", SNDRV_SEQ_IOCTL_SUBSCRIBE_PORT);
   ("SNDRV_SEQ_IOCTL_UNSUBSCRIBE_PORT", SNDRV_SEQ_IOCTL_UNSUBSCRIBE_PORT);
   ("SNDRV_SEQ_IOCTL_CREATE_QUEUE", SNDRV_SEQ_IOCTL_CREATE_QUEUE);
   ("SNDRV_SEQ_IOCTL_DELETE_QUEUE", SNDRV_SEQ_IOCTL_DELETE_QUEUE);
   ("SNDRV_SEQ_IOCTL_GET_QUEUE_INFO", SNDRV_SEQ_IOCTL_GET_QUEUE_INFO);
   ("SNDRV_SEQ_IOCTL_SET_QUEUE_INFO", SNDRV_SEQ_IOCTL_SET_QUEUE_INFO);
   ("SNDRV_SEQ_IOCTL_GET_NAMED_QUEUE", SNDRV_SEQ_IOCTL_GET_NAMED_QUEUE);
   ("SNDRV_SEQ_IOCTL_GET_QUEUE_STATUS", SNDRV_SEQ_IOCTL_GET_QUEUE_STATUS);
   ("SNDRV_SEQ_IOCTL_GET_QUEUE_TEMPO", SNDRV_SEQ_IOCTL_GET_QUEUE_TEMPO);
   ("SNDRV_SEQ_IOCTL_SET_QUEUE_TEMPO", SNDRV_SEQ_IOCTL_SET_QUEUE_TEMPO);
   ("SNDRV_SEQ_IOCTL_GET_QUEUE_TIMER", SNDRV_SEQ_IOCTL_GET_QUEUE_TIMER);
   ("SNDRV_SEQ_IOCTL_SET_QUEUE_TIMER", SNDRV_SEQ_IOCTL_SET_QUEUE_TIMER);
   ("SNDRV_SEQ_IOCTL_GET_QUEUE_CLIENT", SNDRV_SEQ_IOCTL_GET_QUEUE_CLIENT);
   ("SNDRV_SEQ_IOCTL_SET_QUEUE_CLIENT", SNDRV_SEQ_IOCTL_SET_QUEUE_CLIENT);
   ("SNDRV_SEQ_IOCTL_GET_CLIENT_POOL", SNDRV_SEQ_IOCTL_GET_CLIENT_POOL);
   ("SNDRV_SEQ_IOCTL_SET_CLIENT_POOL", SNDRV_SEQ_IOCTL_SET_CLIENT_POOL);
   ("SNDRV_SEQ_IOCTL_REMOVE_EVENTS", SNDRV_SEQ_IOCTL_REMOVE_EVENTS);
   ("SNDRV_SEQ_IOCTL_QUERY_SUBS", SNDRV_SEQ_IOCTL_QUERY_SUBS);
   ("SNDRV_SEQ_IOCTL_GET_SUBSCRIPTION", SNDRV_SEQ_IOCTL_GET_SUBSCRIPTION);
   ("SNDRV_SEQ_IOCTL_QUERY_NEXT_CLIENT", SNDRV_SEQ_IOCTL_QUERY_NEXT_CLIENT);
   ("SNDRV_SEQ_IOCTL_QUERY_NEXT_PORT", SNDRV_SEQ_IOCTL_QUERY_NEXT_PORT)].

(** ** [sound/asound_fm.h] *)

Definition struct_snd_dm_fm_info : ctype := struct [
  ("fm_mode", c_u8); ("rhythm", c_u8)].

Definition struct_snd_dm_fm_voice : ctype := struct [
  ("op", c_u8); ("voice", c_u8); ("am", c_u8); ("vibrato", c_u8); ("do_sustain", c_u8);
  ("kbd_scale", c_u8); ("harmonic", c_u8); ("scale_level", c_u8); ("volume", c_u8);
  ("attack", c_u8); ("decay", c_u8); ("sustain", c_u8); ("release", c_u8); ("feedback", c_u8);
  ("connection", c_u8); ("left", c_u8); ("right", c_u8); ("waveform", c_u8)].

Definition struct_snd_dm_fm_note : ctype := struct [
  ("voice", c_u8); ("octave", c_u8); ("fnum", c_u32); ("key_on", c_u8)].

Definition struct_snd_dm_fm_params : ctype := struct [
  ("am_depth", c_u8); ("vib_depth", c_u8); ("kbd_split", c_u8); ("rhythm", c_u8); ("bass", c_u8);
  ("snare", c_u8); ("tomtom", c_u8); ("cymbal", c_u8); ("hihat", c_u8)].

Definition struct_sbi_patch : ctype := struct [
  ("prog", c_u8); ("bank", c_u8); ("key", CArray c_u8 4); ("name", CArray c_u8 25);
  ("extension", CArray c_u8 7); ("data", CArray c_u8 32)].

Definition SNDRV_DM_FM_IOCTL_INFO : ioctl_req := IOR (chr "H") 0x20 struct_snd_dm_fm_info.
Definition SNDRV_DM_FM_IOCTL_RESET : ioctl_req := IO (chr "H") 0x21.
Definition SNDRV_DM_FM_IOCTL_PLAY_NOTE : ioctl_req := IOW (chr "H") 0x22 struct_snd_dm_fm_note.
Definition SNDRV_DM_FM_IOCTL_SET_VOICE : ioctl_req := IOW (chr "H") 0x23 struct_snd_dm_fm_voice.
Definition SNDRV_DM_FM_IOCTL_SET_PARAMS : ioctl_req := IOW (chr "H") 0x24 struct_snd_dm_fm_params.
Definition SNDRV_DM_FM_IOCTL_SET_MODE : ioctl_req := IOW (chr "H") 0x25 c_int.
Definition SNDRV_DM_FM_IOCTL_SET_CONNECTION : ioctl_req := IOW (chr "H") 0x26 c_int.
Definition SNDRV_DM_FM_IOCTL_CLEAR_PATCHES : ioctl_req := IO (chr "H") 0x40.

Definition asound_fm_requests (a : abi) : list (string * ioctl_req) :=
  [("SNDRV_DM_FM_IOCTL_INFO", SNDRV_DM_FM_IOCTL_INFO);
   ("SNDRV_DM_FM_IOCTL_RESET", SNDRV_DM_FM_IOCTL_RESET);
   ("SNDRV_DM_FM_IOCTL_PLAY_NOTE", SNDRV_DM_FM_IOCTL_PLAY_NOTE);
   ("SNDRV_DM_FM_IOCTL_SET_VOICE", SNDRV_DM_FM_IOCTL_SET_VOICE);
   ("SNDRV_DM_FM_IOCTL_SET_PARAMS", SNDRV_DM_FM_IOCTL_SET_PARAMS);
   ("SNDRV_DM_FM_IOCTL_SET_MODE", SNDRV_DM_FM_IOCTL_SET_MODE);
   ("SNDRV_DM_FM_IOCTL_SET_CONNECTION", SNDRV_DM_FM_IOCTL_SET_CONNECTION);
   ("SNDRV_DM_FM_IOCTL_CLEAR_PATCHES", SNDRV_DM_FM_IOCTL_CLEAR_PATCHES)].

(** ** [sound/hdsp.h] *)

Definition HDSP_MATRIX_MIXER_SIZE : Z := 2048.

Definition struct_hdsp_peak_rms : ctype := struct [
  ("input_peaks", CArray c_u32 26); ("playback_peaks", CArray c_u32 26);
  ("output_peaks", CArray c_u32 28); ("input_rms", CArray c_u64 26);
  ("playback_rms", CArray c_u64 26); ("output_rms", CArray c_u64 26)].

Definition struct_hdsp_config_info : ctype := struct [
  ("pref_sync_ref", c_u8); ("wordclock_sync_check", c_u8); ("spdif_sync_check", c_u8);
  ("adatsync_sync_check", c_u8); ("adat_sync_check", CArray c_u8 3); ("spdif_in", c_u8);
  ("spdif_out", c_u8); ("spdif_professional", c_u8); ("spdif_emphasis", c_u8);
  ("spdif_nonaudio", c_u8); ("spdif_sample_rate", c_u32); ("system_sample_rate", c_u32);
  ("autosync_sample_rate", c_u32); ("system_clock_mode", c_u8); ("clock_source", c_u8);
  ("autosync_ref", c_u8); ("line_out", c_u8); ("passthru", c_u8); ("da_gain", c_u8);
  ("ad_gain", c_u8); ("phone_gain", c_u8); ("xlr_breakout_cable", c_u8);
  ("analog_extension_board", c_u8)].

Definition struct_hdsp_firmware : ctype := struct [
  ("firmware_data", CPtr)].

Definition struct_hdsp_version : ctype := struct [
  ("io_type", c_enum); ("firmware_rev", c_u16)].

Definition struct_hdsp_mixer : ctype := struct [
  ("matrix", CArray c_u16 HDSP_MATRIX_MIXER_SIZE)].

Definition struct_hdsp_9632_aeb : ctype := struct [
  ("aebi", c_int); ("aebo", c_int)].

Definition SNDRV_HDSP_IOCTL_GET_PEAK_RMS : ioctl_req := IOR (chr "H") 0x40 struct_hdsp_peak_rms.
Definition SNDRV_HDSP_IOCTL_GET_CONFIG_INFO : ioctl_req := IOR (chr "H") 0x41 struct_hdsp_config_info.
Definition SNDRV_HDSP_IOCTL_UPLOAD_FIRMWARE : ioctl_req := IOW (chr "H") 0x42 struct_hdsp_firmware.
Definition SNDRV_HDSP_IOCTL_GET_VERSION : ioctl_req := IOR (chr "H") 0x43 struct_hdsp_version.
Definition SNDRV_HDSP_IOCTL_GET_MIXER : ioctl_req := IOR (chr "H") 0x44 struct_hdsp_mixer.
Definition SNDRV_HDSP_IOCTL_GET_9632_AEB : ioctl_req := IOR (chr "H") 0x45 struct_hdsp_9632_aeb.

Definition hdsp_requests (a : abi) : list (string * ioctl_req) :=
  [("SNDRV_HDSP_IOCTL_GET_PEAK_RMS", SNDRV_HDSP_IOCTL_GET_PEAK_RMS);
   ("SNDRV_HDSP_IOCTL_GET_CONFIG_INFO", SNDRV_HDSP_IOCTL_GET_CONFIG_INFO);
   ("SNDRV_HDSP_IOCTL_UPLOAD_FIRMWARE", SNDRV_HDSP_IOCTL_UPLOAD_FIRMWARE);
   ("SNDRV_HDSP_IOCTL_GET_VERSION", SNDRV_HDSP_IOCTL_GET_VERSION);
   ("SNDRV_HDSP_IOCTL_GET_MIXER", SNDRV_HDSP_IOCTL_GET_MIXER);
   ("SNDRV_HDSP_IOCTL_GET_9632_AEB", SNDRV_HDSP_IOCTL_GET_9632_AEB)].

(** ** [sound/hdspm.h] *)

Definition HDSPM_MAX_CHANNELS : Z := 64.
Definition HDSPM_MIXER_CHANNELS : Z := HDSPM_MAX_CHANNELS.

Definition struct_hdspm_peak_rms : ctype := struct [
  ("input_peaks", CArray c_u32 64); ("playback_peaks", CArray c_u32 64);
  ("output_peaks", CArray c_u32 64); ("input_rms", CArray c_u64 64);
  ("playback_rms", CArray c_u64 64); ("output_rms", CArray c_u64 64); ("speed", c_u8);
  ("status2", c_int)].

Definition struct_hdspm_config : ctype := struct [
  ("pref_sync_ref", c_u8); ("wordclock_sync_check", c_u8); ("madi_sync_check", c_u8);
  ("system_sample_rate", c_u32); ("autosync_sample_rate", c_u32); ("system_clock_mode", c_u8);
  ("clock_source", c_u8); ("autosync_ref", c_u8); ("line_out", c_u8); ("passthru", c_u32);
  ("analog_out", c_u32)].

Definition struct_hdspm_ltc : ctype := struct [
  ("ltc", c_u32); ("format", c_enum); ("frame", c_enum); ("input_format", c_enum)].

Definition struct_hdspm_status : ctype := struct [
  ("card_type", c_u8); ("autosync_source", c_enum); ("card_clock", c_u64);
  ("master_period", c_u32);
  ("card_specific", CUnion [
    ("madi", struct [
      ("sync_wc", c_u8); ("sync_madi", c_u8); ("sync_tco", c_u8); ("sync_in", c_u8);
      ("madi_input", c_u8); ("channel_format", c_u8); ("frame_format", c_u8)])])].

Definition struct_hdspm_version : ctype := struct [
  ("card_type", c_u8); ("cardname", CArray c_u8 20); ("serial", c_u32); ("firmware_rev", c_u16);
  ("addons", c_int)].

Definition struct_hdspm_channelfader : ctype := struct [
  ("in", CArray c_u32 HDSPM_MIXER_CHANNELS); ("pb", CArray c_u32 HDSPM_MIXER_CHANNELS)].

Definition struct_hdspm_mixer : ctype := struct [
  ("ch", CArray struct_hdspm_channelfader HDSPM_MIXER_CHANNELS)].

Definition struct_hdspm_mixer_ioctl : ctype := struct [
  ("mixer", CPtr)].

Definition SNDRV_HDSPM_IOCTL_GET_PEAK_RMS : ioctl_req := IOR (chr "H") 0x42 struct_hdspm_peak_rms.
Definition SNDRV_HDSPM_IOCTL_GET_CONFIG : ioctl_req := IOR (chr "H") 0x41 struct_hdspm_config.
Definition SNDRV_HDSPM_IOCTL_GET_LTC : ioctl_req := IOR (chr "H") 0x46 struct_hdspm_ltc.
Definition SNDRV_HDSPM_IOCTL_GET_STATUS : ioctl_req := IOR (chr "H") 0x47 struct_hdspm_status.
Definition SNDRV_HDSPM_IOCTL_GET_VERSION : ioctl_req := IOR (chr "H") 0x48 struct_hdspm_version.
Definition SNDRV_HDSPM_IOCTL_GET_MIXER : ioctl_req := IOR (chr "H") 0x44 struct_hdspm_mixer_ioctl.

Definition hdspm_requests (a : abi) : list (string * ioctl_req) :=
  [("SNDRV_HDSPM_IOCTL_GET_PEAK_RMS", SNDRV_HDSPM_IOCTL_GET_PEAK_RMS);
   ("SNDRV_HDSPM_IOCTL_GET_CONFIG", SNDRV_HDSPM_IOCTL_GET_CONFIG);
   ("SNDRV_HDSPM_IOCTL_GET_LTC", SNDRV_HDSPM_IOCTL_GET_LTC);
   ("SNDRV_HDSPM_IOCTL_GET_STATUS", SNDRV_HDSPM_IOCTL_GET_STATUS);
   ("SNDRV_HDSPM_IOCTL_GET_VERSION", SNDRV_HDSPM_IOCTL_GET_VERSION);
   ("SNDRV_HDSPM_IOCTL_GET_MIXER", SNDRV_HDSPM_IOCTL_GET_MIXER)].

(** ** [sound/sb16_csp.h] *)

Definition SNDRV_SB_CSP_MAX_MICROCODE_FILE_SIZE : Z := 0x3000.

Definition struct_snd_sb_csp_mc_header : ctype := struct [
  ("codec_name", CArray c_u8 16); ("func_req", c_u16)].

Definition struct_snd_sb_csp_microcode : ctype := struct [
  ("info", struct_snd_sb_csp_mc_header);
  ("data", CArray c_u8 SNDRV_SB_CSP_MAX_MICROCODE_FILE_SIZE)].

Definition struct_snd_sb_csp_start : ctype := struct [
  ("sample_width", c_int); ("channels", c_int)].

Definition struct_snd_sb_csp_info : ctype := struct [
  ("codec_name", CArray c_u8 16); ("func_nr", c_u16); ("acc_format", c_u32);
  ("acc_channels", c_u16); ("acc_width", c_u16); ("acc_rates", c_u16); ("csp_mode", c_u16);
  ("run_channels", c_u16); ("run_width", c_u16); ("version", c_u16); ("state", c_u16)].

Definition SNDRV_SB_CSP_IOCTL_INFO : ioctl_req := IOR (chr "H") 0x10 struct_snd_sb_csp_info.
Definition SNDRV_SB_CSP_IOCTL_LOAD_CODE : ioctl_req := IOW (chr "H") 0x11 struct_snd_sb_csp_microcode.
Definition SNDRV_SB_CSP_IOCTL_UNLOAD_CODE : ioctl_req := IO (chr "H") 0x12.
Definition SNDRV_SB_CSP_IOCTL_START : ioctl_req := IOW (chr "H") 0x13 struct_snd_sb_csp_start.
Definition SNDRV_SB_CSP_IOCTL_STOP : ioctl_req := IO (chr "H") 0x14.
Definition SNDRV_SB_CSP_IOCTL_PAUSE : ioctl_req := IO (chr "H") 0x15.
Definition SNDRV_SB_CSP_IOCTL_RESTART : ioctl_req := IO (chr "H") 0x16.

Definition sb16_csp_requests (a : abi) : list (string * ioctl_req) :=
  [("SNDRV_SB_CSP_IOCTL_INFO", SNDRV_SB_CSP_IOCTL_INFO);
   ("SNDRV_SB_CSP_IOCTL_LOAD_CODE", SNDRV_SB_CSP_IOCTL_LOAD_CODE);
   ("SNDRV_SB_CSP_IOCTL_UNLOAD_CODE", SNDRV_SB_CSP_IOCTL_UNLOAD_CODE);
   ("SNDRV_SB_CSP_IOCTL_START", SNDRV_SB_CSP_IOCTL_START);
   ("SNDRV_SB_CSP_IOCTL_STOP", SNDRV_SB_CSP_IOCTL_STOP);
   ("SNDRV_SB_CSP_IOCTL_PAUSE", SNDRV_SB_CSP_IOCTL_PAUSE);
   ("SNDRV_SB_CSP_IOCTL_RESTART", SNDRV_SB_CSP_IOCTL_RESTART)].

(** ** [sound/sfnt_info.h] *)

Definition SNDRV_SFNT_PATCH_NAME_LEN : Z := 32.

Definition struct_soundfont_patch_info : ctype := struct [
  ("key", c_u16); ("device_no", c_u16); ("sf_id", c_u16); ("optarg", c_u16); ("len", c_int);
  ("type", c_u16); ("reserved", c_u16)].

Definition struct_soundfont_open_parm : ctype := struct [
  ("type", c_u16); ("reserved", c_u16); ("name", CArray c_u8 SNDRV_SFNT_PATCH_NAME_LEN)].

Definition struct_soundfont_voice_parm : ctype := struct [
  ("moddelay", c_u16); ("modatkhld", c_u16); ("moddcysus", c_u16); ("modrelease", c_u16);
  ("modkeyhold", c_u16); ("modkeydecay", c_u16); ("voldelay", c_u16); ("volatkhld", c_u16);
  ("voldcysus", c_u16); ("volrelease", c_u16); ("volkeyhold", c_u16); ("volkeydecay", c_u16);
  ("lfo1delay", c_u16); ("lfo2delay", c_u16); ("pefe", c_u16); ("fmmod", c_u16);
  ("tremfrq", c_u16); ("fm2frq2", c_u16); ("cutoff", c_u8); ("filterQ", c_u8); ("chorus", c_u8);
  ("reverb", c_u8); ("reserved", CArray c_u16 4)].

Definition struct_soundfont_voice_info : ctype := struct [
  ("sf_id", c_u16); ("sample", c_u16); ("start", c_int); ("end", c_int); ("loopstart", c_int);
  ("loopend", c_int); ("rate_offset", c_u16); ("mode", c_u16); ("root", c_u16); ("tune", c_u16);
  ("low", c_u8); ("high", c_u8); ("vellow", c_u8); ("velhigh", c_u8); ("fixkey", c_u8);
  ("fixvel", c_u8); ("pan", c_u8); ("fixpan", c_u8); ("exclusiveClass", c_u16);
  ("amplitude", c_u8); ("attenuation", c_u8); ("scaleTuning", c_u16);
  ("parm", struct_soundfont_voice_parm); ("sample_mode", c_u16)].

Definition struct_soundfont_voice_rec_hdr : ctype := struct [
  ("bank", c_u8); ("instr", c_u8); ("nvoices", c_u8); ("write_mode", c_u8)].

Definition struct_soundfont_sample_info : ctype := struct [
  ("sf_id", c_u16); ("sample", c_u16); ("start", c_int); ("end", c_int); ("loopstart", c_int);
  ("loopend", c_int); ("size", c_int); ("dummy", c_u16); ("mode_flags", c_u16);
  ("truesize", c_u32)].

Definition struct_soundfont_voice_map : ctype := struct [
  ("map_bank", c_int); ("map_instr", c_int); ("map_key", c_int); ("src_bank", c_int);
  ("src_instr", c_int); ("src_key", c_int)].

Definition struct_snd_emux_misc_mode : ctype := struct [
  ("port", c_int); ("mode", c_int); ("value", c_int); ("value2", c_int)].

Definition SNDRV_EMUX_IOCTL_VERSION : ioctl_req := IOR (chr "H") 0x80 c_u32.
Definition SNDRV_EMUX_IOCTL_LOAD_PATCH : ioctl_req := IOWR (chr "H") 0x81 struct_soundfont_patch_info.
Definition SNDRV_EMUX_IOCTL_RESET_SAMPLES : ioctl_req := IO (chr "H") 0x82.
Definition SNDRV_EMUX_IOCTL_REMOVE_LAST_SAMPLES : ioctl_req := IO (chr "H") 0x83.
Definition SNDRV_EMUX_IOCTL_MEM_AVAIL : ioctl_req := IOW (chr "H") 0x84 c_int.
Definition SNDRV_EMUX_IOCTL_MISC_MODE : ioctl_req := IOWR (chr "H") 0x84 struct_snd_emux_misc_mode.

Definition sfnt_info_requests (a : abi) : list (string * ioctl_req) :=
  [("SNDRV_EMUX_IOCTL_VERSION", SNDRV_EMUX_IOCTL_VERSION);
   ("SNDRV_EMUX_IOCTL_LOAD_PATCH", SNDRV_EMUX_IOCTL_LOAD_PATCH);
   ("SNDRV_EMUX_IOCTL_RESET_SAMPLES", SNDRV_EMUX_IOCTL_RESET_SAMPLES);
   ("SNDRV_EMUX_IOCTL_REMOVE_LAST_SAMPLES", SNDRV_EMUX_IOCTL_REMOVE_LAST_SAMPLES);
   ("SNDRV_EMUX_IOCTL_MEM_AVAIL", SNDRV_EMUX_IOCTL_MEM_AVAIL);
   ("SNDRV_EMUX_IOCTL_MISC_MODE", SNDRV_EMUX_IOCTL_MISC_MODE)].

(** ** [sound/firewire.h] *)

Definition SNDRV_FIREWIRE_TASCAM_STATE_COUNT : Z := 64.

Definition struct_snd_firewire_event_common : ctype := struct [
  ("type", c_u32)].

Definition struct_snd_firewire_event_lock_status : ctype := struct [
  ("type", c_u32); ("status", c_u32)].

Definition struct_snd_firewire_event_dice_notification : ctype := struct [
  ("type", c_u32); ("notification", c_u32)].

Definition struct_snd_efw_transaction : ctype := struct [
  ("length", c_u32); ("version", c_u32); ("seqnum", c_u32); ("category", c_u32);
  ("command", c_u32); ("status", c_u32); ("params", CArray c_u32 0)].

Definition struct_snd_firewire_event_efw_response : ctype := struct [
  ("type", c_u32); ("response", CArray c_u32 0)].

Definition struct_snd_firewire_event_digi00x_message : ctype := struct [
  ("type", c_u32); ("message", c_u32)].

Definition struct_snd_firewire_event_motu_notification : ctype := struct [
  ("type", c_u32); ("message", c_u32)].

Definition struct_snd_firewire_tascam_change : ctype := struct [
  ("index", c_u32); ("before", c_u32); ("after", c_u32)].

Definition struct_snd_firewire_event_tascam_control : ctype := struct [
  ("type", c_u32); ("changes", CArray struct_snd_firewire_tascam_change 0)].

Definition union_snd_firewire_event : ctype := CUnion [
  ("common", struct_snd_firewire_event_common);
  ("lock_status", struct_snd_firewire_event_lock_status);
  ("dice_notification", struct_snd_firewire_event_dice_notification);
  ("efw_response", struct_snd_firewire_event_efw_response);
  ("digi00x_message", struct_snd_firewire_event_digi00x_message);
  ("tascam_control", struct_snd_firewire_event_tascam_control);
  ("motu_notification", struct_snd_firewire_event_motu_notification)].

Definition struct_snd_firewire_get_info : ctype := struct [
  ("type", c_u32); ("card", c_u32); ("guid", CArray c_u8 8); ("device_name", CArray c_u8 16)].

Definition struct_snd_firewire_tascam_state : ctype := struct [
  ("data", CArray c_u32 SNDRV_FIREWIRE_TASCAM_STATE_COUNT)].

Definition SNDRV_FIREWIRE_IOCTL_GET_INFO : ioctl_req := IOR (chr "H") 0xf8 struct_snd_firewire_get_info.
Definition SNDRV_FIREWIRE_IOCTL_LOCK : ioctl_req := IO (chr "H") 0xf9.
Definition SNDRV_FIREWIRE_IOCTL_UNLOCK : ioctl_req := IO (chr "H") 0xfa.
Definition SNDRV_FIREWIRE_IOCTL_TASCAM_STATE : ioctl_req := IOR (chr "H") 0xfb struct_snd_firewire_tascam_state.

Definition firewire_requests (a : abi) : list (string * ioctl_req) :=
  [("SNDRV_FIREWIRE_IOCTL_GET_INFO", SNDRV_FIREWIRE_IOCTL_GET_INFO);
   ("SNDRV_FIREWIRE_IOCTL_LOCK", SNDRV_FIREWIRE_IOCTL_LOCK);
   ("SNDRV_FIREWIRE_IOCTL_UNLOCK", SNDRV_FIREWIRE_IOCTL_UNLOCK);
   ("SNDRV_FIREWIRE_IOCTL_TASCAM_STATE", SNDRV_FIREWIRE_IOCTL_TASCAM_STATE)].

(** ** [sound/usb_stream.h] *)

Definition struct_usb_stream_packet : ctype := struct [
  ("offset", c_u32); ("length", c_u32)].

Definition struct_usb_stream_config : ctype := struct [
  ("version", c_u32); ("sample_rate", c_u32); ("period_frames", c_u32); ("frame_size", c_u32)].

Definition struct_usb_stream : ctype := struct [
  ("cfg", struct_usb_stream_config); ("read_size", c_u32); ("write_size", c_u32);
  ("period_size", c_int); ("state", c_u32); ("idle_insize", c_int); ("idle_outsize", c_int);
  ("sync_packet", c_int); ("insize_done", c_u32); ("periods_done", c_u32);
  ("periods_polled", c_u32); ("outpacket", CArray struct_usb_stream_packet 2);
  ("inpackets", c_u32); ("inpacket_head", c_u32); ("inpacket_split", c_u32);
  ("inpacket_split_at", c_u32); ("next_inpacket_split", c_u32);
  ("next_inpacket_split_at", c_u32); ("inpacket", CArray struct_usb_stream_packet 0)].

Definition SNDRV_USB_STREAM_IOCTL_SET_PARAMS : ioctl_req := IOW (chr "H") 0x90 struct_usb_stream_config.

Definition usb_stream_requests (a : abi) : list (string * ioctl_req) :=
  [("SNDRV_USB_STREAM_IOCTL_SET_PARAMS", SNDRV_USB_STREAM_IOCTL_SET_PARAMS)].

(** ** [sound/emu10k1.h] *)

Definition struct_snd_emu10k1_fx8010_info : ctype := struct [
  ("internal_tram_size", c_u32); ("external_tram_size", c_u32);
  ("fxbus_names", CArray (CArray c_u8 32) 16); ("extin_names", CArray (CArray c_u8 32) 16);
  ("extout_names", CArray (CArray c_u8 32) 32); ("gpr_controls", c_u32)].

Definition struct_emu10k1_ctl_elem_id : ctype := struct [
  ("pad", c_u32); ("iface", c_int); ("device", c_u32); ("subdevice", c_u32);
  ("name", CArray c_u8 44); ("index", c_u32)].

Definition struct_snd_emu10k1_fx8010_control_gpr : ctype := struct [
  ("id", struct_emu10k1_ctl_elem_id); ("vcount", c_u32); ("count", c_u32);
  ("gpr", CArray c_u16 32); ("value", CArray c_u32 32); ("min", c_u32); ("max", c_u32);
  ("translation", c_u32); ("tlv", CPtr)].

Definition struct_snd_emu10k1_fx8010_control_old_gpr : ctype := struct [
  ("id", struct_emu10k1_ctl_elem_id); ("vcount", c_u32); ("count", c_u32);
  ("gpr", CArray c_u16 32); ("value", CArray c_u32 32); ("min", c_u32); ("max", c_u32);
  ("translation", c_u32)].

Definition struct_snd_emu10k1_fx8010_code (a : abi) : ctype := struct [
  ("name", CArray c_u8 128); ("gpr_valid", CArray CLong (( 0x200 ) / ( (sizeof a CLong) * 8 )));
  ("gpr_map", CPtr); ("gpr_add_control_count", c_u32); ("gpr_add_controls", CPtr);
  ("gpr_del_control_count", c_u32); ("gpr_del_controls", CPtr);
  ("gpr_list_control_count", c_u32); ("gpr_list_control_total", c_u32);
  ("gpr_list_controls", CPtr);
  ("tram_valid", CArray CLong (( 0x100 ) / ( (sizeof a CLong) * 8 ))); ("tram_data_map", CPtr);
  ("tram_addr_map", CPtr); ("code_valid", CArray CLong (( 1024 ) / ( (sizeof a CLong) * 8 )));
  ("code", CPtr)].

Definition struct_snd_emu10k1_fx8010_tram : ctype := struct [
  ("address", c_u32); ("size", c_u32); ("samples", CPtr)].

Definition struct_snd_emu10k1_fx8010_pcm_rec : ctype := struct [
  ("substream", c_u32); ("res1", c_u32); ("channels", c_u32); ("tram_start", c_u32);
  ("buffer_size", c_u32); ("gpr_size", c_u16); ("gpr_ptr", c_u16); ("gpr_count", c_u16);
  ("gpr_tmpcount", c_u16); ("gpr_trigger", c_u16); ("gpr_running", c_u16); ("pad", c_u8);
  ("etram", CArray c_u8 32); ("res2", c_u32)].

Definition SNDRV_EMU10K1_IOCTL_INFO : ioctl_req := IOR (chr "H") 0x10 struct_snd_emu10k1_fx8010_info.
Definition SNDRV_EMU10K1_IOCTL_CODE_POKE (a : abi) : ioctl_req := IOW (chr "H") 0x11 (struct_snd_emu10k1_fx8010_code a).
Definition SNDRV_EMU10K1_IOCTL_CODE_PEEK (a : abi) : ioctl_req := IOWR (chr "H") 0x12 (struct_snd_emu10k1_fx8010_code a).
Definition SNDRV_EMU10K1_IOCTL_TRAM_SETUP : ioctl_req := IOW (chr "H") 0x20 c_int.
Definition SNDRV_EMU10K1_IOCTL_TRAM_POKE : ioctl_req := IOW (chr "H") 0x21 struct_snd_emu10k1_fx8010_tram.
Definition SNDRV_EMU10K1_IOCTL_TRAM_PEEK : ioctl_req := IOWR (chr "H") 0x22 struct_snd_emu10k1_fx8010_tram.
Definition SNDRV_EMU10K1_IOCTL_PCM_POKE : ioctl_req := IOW (chr "H") 0x30 struct_snd_emu10k1_fx8010_pcm_rec.
Definition SNDRV_EMU10K1_IOCTL_PCM_PEEK : ioctl_req := IOWR (chr "H") 0x31 struct_snd_emu10k1_fx8010_pcm_rec.
Definition SNDRV_EMU10K1_IOCTL_PVERSION : ioctl_req := IOR (chr "H") 0x40 c_int.
Definition SNDRV_EMU10K1_IOCTL_STOP : ioctl_req := IO (chr "H") 0x80.
Definition SNDRV_EMU10K1_IOCTL_CONTINUE : ioctl_req := IO (chr "H") 0x81.
Definition SNDRV_EMU10K1_IOCTL_ZERO_TRAM_COUNTER : ioctl_req := IO (chr "H") 0x82.
Definition SNDRV_EMU10K1_IOCTL_SINGLE_STEP : ioctl_req := IOW (chr "H") 0x83 c_int.
Definition SNDRV_EMU10K1_IOCTL_DBG_READ : ioctl_req := IOR (chr "H") 0x84 c_int.

Definition emu10k1_requests (a : abi) : list (string * ioctl_req) :=
  [("SNDRV_EMU10K1_IOCTL_INFO", SNDRV_EMU10K1_IOCTL_INFO);
   ("SNDRV_EMU10K1_IOCTL_CODE_POKE", SNDRV_EMU10K1_IOCTL_CODE_POKE a);
   ("SNDRV_EMU10K1_IOCTL_CODE_PEEK", SNDRV_EMU10K1_IOCTL_CODE_PEEK a);
   ("SNDRV_EMU10K1_IOCTL_TRAM_SETUP", SNDRV_EMU10K1_IOCTL_TRAM_SETUP);
   ("SNDRV_EMU10K1_IOCTL_TRAM_POKE", SNDRV_EMU10K1_IOCTL_TRAM_POKE);
   ("SNDRV_EMU10K1_IOCTL_TRAM_PEEK", SNDRV_EMU10K1_IOCTL_TRAM_PEEK);
   ("SNDRV_EMU10K1_IOCTL_PCM_POKE", SNDRV_EMU10K1_IOCTL_PCM_POKE);
   ("SNDRV_EMU10K1_IOCTL_PCM_PEEK", SNDRV_EMU10K1_IOCTL_PCM_PEEK);
   ("SNDRV_EMU10K1_IOCTL_PVERSION", SNDRV_EMU10K1_IOCTL_PVERSION);
   ("SNDRV_EMU10K1_IOCTL_STOP", SNDRV_EMU10K1_IOCTL_STOP);
   ("SNDRV_EMU10K1_IOCTL_CONTINUE", SNDRV_EMU10K1_IOCTL_CONTINUE);
   ("SNDRV_EMU10K1_IOCTL_ZERO_TRAM_COUNTER", SNDRV_EMU10K1_IOCTL_ZERO_TRAM_COUNTER);
   ("SNDRV_EMU10K1_IOCTL_SINGLE_STEP", SNDRV_EMU10K1_IOCTL_SINGLE_STEP);
   ("SNDRV_EMU10K1_IOCTL_DBG_READ", SNDRV_EMU10K1_IOCTL_DBG_READ)].

(** Every type of the file. *)
Definition uapiAlsa_types (a : abi) : list (string * ctype) :=
  [("struct_snd_aes_iec958", struct_snd_aes_iec958);
   ("struct_snd_cea_861_aud_if", struct_snd_cea_861_aud_if);
   ("struct_snd_hwdep_info", struct_snd_hwdep_info);
   ("struct_snd_hwdep_dsp_status", struct_snd_hwdep_dsp_status);
   ("struct_snd_hwdep_dsp_image", struct_snd_hwdep_dsp_image);
   ("snd_pcm_uframes_t", snd_pcm_uframes_t);
   ("snd_pcm_sframes_t", snd_pcm_sframes_t);
   ("snd_pcm_access_t", snd_pcm_access_t);
   ("snd_pcm_format_t", snd_pcm_format_t);
   ("snd_pcm_subformat_t", snd_pcm_subformat_t);
   ("snd_pcm_state_t", snd_pcm_state_t);
   ("union_snd_pcm_sync_id", union_snd_pcm_sync_id);
   ("struct_snd_pcm_info", struct_snd_pcm_info);
   ("snd_pcm_hw_param_t", snd_pcm_hw_param_t);
   ("struct_snd_interval", struct_snd_interval);
   ("struct_snd_mask", struct_snd_mask);
   ("struct_snd_pcm_hw_params", struct_snd_pcm_hw_params);
   ("struct_snd_pcm_sw_params", struct_snd_pcm_sw_params);
   ("struct_snd_pcm_channel_info", struct_snd_pcm_channel_info);
   ("struct___time_pad", struct___time_pad a);
   ("struct_snd_pcm_status", struct_snd_pcm_status a);
   ("struct___snd_timespec64", struct___snd_timespec64);
   ("struct_snd_pcm_mmap_status", struct_snd_pcm_mmap_status);
   ("struct_snd_pcm_mmap_control", struct_snd_pcm_mmap_control);
   ("struct_snd_pcm_sync_ptr", struct_snd_pcm_sync_ptr);
   ("__pad_before_uframe", __pad_before_uframe);
   ("__pad_after_uframe", __pad_after_uframe a);
   ("struct___snd_pcm_mmap_status64", struct___snd_pcm_mmap_status64 a);
   ("struct___snd_pcm_mmap_control64", struct___snd_pcm_mmap_control64 a);
   ("struct___snd_pcm_sync_ptr64", struct___snd_pcm_sync_ptr64 a);
   ("struct_snd_xferi", struct_snd_xferi);
   ("struct_snd_xfern", struct_snd_xfern);
   ("struct_snd_rawmidi_info", struct_snd_rawmidi_info);
   ("struct_snd_rawmidi_params", struct_snd_rawmidi_params);
   ("struct_snd_rawmidi_status", struct_snd_rawmidi_status a);
   ("struct_snd_timer_id", struct_snd_timer_id);
   ("struct_snd_timer_ginfo", struct_snd_timer_ginfo);
   ("struct_snd_timer_gparams", struct_snd_timer_gparams);
   ("struct_snd_timer_gstatus", struct_snd_timer_gstatus);
   ("struct_snd_timer_select", struct_snd_timer_select);
   ("struct_snd_timer_info", struct_snd_timer_info);
   ("struct_snd_timer_params", struct_snd_timer_params);
   ("struct_snd_timer_status", struct_snd_timer_status);
   ("struct_snd_timer_read", struct_snd_timer_read);
   ("struct_snd_timer_tread", struct_snd_timer_tread a);
   ("struct_snd_ctl_card_info", struct_snd_ctl_card_info);
   ("snd_ctl_elem_type_t", snd_ctl_elem_type_t);
   ("snd_ctl_elem_iface_t", snd_ctl_elem_iface_t);
   ("struct_snd_ctl_elem_id", struct_snd_ctl_elem_id);
   ("struct_snd_ctl_elem_list", struct_snd_ctl_elem_list);
   ("struct_snd_ctl_elem_info", struct_snd_ctl_elem_info);
   ("struct_snd_ctl_elem_value", struct_snd_ctl_elem_value);
   ("struct_snd_ctl_tlv", struct_snd_ctl_tlv);
   ("struct_snd_ctl_event", struct_snd_ctl_event);
   ("snd_seq_event_type_t", snd_seq_event_type_t);
   ("struct_snd_seq_addr", struct_snd_seq_addr);
   ("struct_snd_seq_connect", struct_snd_seq_connect);
   ("struct_snd_seq_ev_note", struct_snd_seq_ev_note);
   ("struct_snd_seq_ev_ctrl", struct_snd_seq_ev_ctrl);
   ("struct_snd_seq_ev_raw8", struct_snd_seq_ev_raw8);
   ("struct_snd_seq_ev_raw32", struct_snd_seq_ev_raw32);
   ("struct_snd_seq_ev_ext", struct_snd_seq_ev_ext);
   ("struct_snd_seq_result", struct_snd_seq_result);
   ("struct_snd_seq_real_time", struct_snd_seq_real_time);
   ("snd_seq_tick_time_t", snd_seq_tick_time_t);
   ("union_snd_seq_timestamp", union_snd_seq_timestamp);
   ("struct_snd_seq_queue_skew", struct_snd_seq_queue_skew);
   ("struct_snd_seq_ev_queue_control", struct_snd_seq_ev_queue_control);
   ("struct_snd_seq_ev_quote", struct_snd_seq_ev_quote);
   ("struct_snd_seq_event", struct_snd_seq_event);
   ("struct_snd_seq_event_bounce", struct_snd_seq_event_bounce);
   ("struct_snd_seq_system_info", struct_snd_seq_system_info);
   ("struct_snd_seq_running_info", struct_snd_seq_running_info);
   ("snd_seq_client_type_t", snd_seq_client_type_t);
   ("struct_snd_seq_client_info", struct_snd_seq_client_info);
   ("struct_snd_seq_client_pool", struct_snd_seq_client_pool);
   ("struct_snd_seq_remove_events", struct_snd_seq_remove_events);
   ("struct_snd_seq_port_info", struct_snd_seq_port_info);
   ("struct_snd_seq_queue_info", struct_snd_seq_queue_info);
   ("struct_snd_seq_queue_status", struct_snd_seq_queue_status);
   ("struct_snd_seq_queue_tempo", struct_snd_seq_queue_tempo);
   ("struct_snd_seq_queue_timer", struct_snd_seq_queue_timer);
   ("struct_snd_seq_queue_client", struct_snd_seq_queue_client);
   ("struct_snd_seq_port_subscribe", struct_snd_seq_port_subscribe);
   ("struct_snd_seq_query_subs", struct_snd_seq_query_subs);
   ("struct_snd_dm_fm_info", struct_snd_dm_fm_info);
   ("struct_snd_dm_fm_voice", struct_snd_dm_fm_voice);
   ("struct_snd_dm_fm_note", struct_snd_dm_fm_note);
   ("struct_snd_dm_fm_params", struct_snd_dm_fm_params);
   ("struct_sbi_patch", struct_sbi_patch);
   ("struct_hdsp_peak_rms", struct_hdsp_peak_rms);
   ("struct_hdsp_config_info", struct_hdsp_config_info);
   ("struct_hdsp_firmware", struct_hdsp_firmware);
   ("struct_hdsp_version", struct_hdsp_version);
   ("struct_hdsp_mixer", struct_hdsp_mixer);
   ("struct_hdsp_9632_aeb", struct_hdsp_9632_aeb);
   ("struct_hdspm_peak_rms", struct_hdspm_peak_rms);
   ("struct_hdspm_config", struct_hdspm_config);
   ("struct_hdspm_ltc", struct_hdspm_ltc);
   ("struct_hdspm_status", struct_hdspm_status);
   ("struct_hdspm_version", struct_hdspm_version);
   ("struct_hdspm_channelfader", struct_hdspm_channelfader);
   ("struct_hdspm_mixer", struct_hdspm_mixer);
   ("struct_hdspm_mixer_ioctl", struct_hdspm_mixer_ioctl);
   ("struct_snd_sb_csp_mc_header", struct_snd_sb_csp_mc_header);
   ("struct_snd_sb_csp_microcode", struct_snd_sb_csp_microcode);
   ("struct_snd_sb_csp_start", struct_snd_sb_csp_start);
   ("struct_snd_sb_csp_info", struct_snd_sb_csp_info);
   ("struct_soundfont_patch_info", struct_soundfont_patch_info);
   ("struct_soundfont_open_parm", struct_soundfont_open_parm);
   ("struct_soundfont_voice_parm", struct_soundfont_voice_parm);
   ("struct_soundfont_voice_info", struct_soundfont_voice_info);
   ("struct_soundfont_voice_rec_hdr", struct_soundfont_voice_rec_hdr);
   ("struct_soundfont_sample_info", struct_soundfont_sample_info);
   ("struct_soundfont_voice_map", struct_soundfont_voice_map);
   ("struct_snd_emux_misc_mode", struct_snd_emux_misc_mode);
   ("struct_snd_firewire_event_common", struct_snd_firewire_event_common);
   ("struct_snd_firewire_event_lock_status", struct_snd_firewire_event_lock_status);
   ("struct_snd_firewire_event_dice_notification", struct_snd_firewire_event_dice_notification);
   ("struct_snd_efw_transaction", struct_snd_efw_transaction);
   ("struct_snd_firewire_event_efw_response", struct_snd_firewire_event_efw_response);
   ("struct_snd_firewire_event_digi00x_message", struct_snd_firewire_event_digi00x_message);
   ("struct_snd_firewire_event_motu_notification", struct_snd_firewire_event_motu_notification);
   ("struct_snd_firewire_tascam_change", struct_snd_firewire_tascam_change);
   ("struct_snd_firewire_event_tascam_control", struct_snd_firewire_event_tascam_control);
   ("union_snd_firewire_event", union_snd_firewire_event);
   ("struct_snd_firewire_get_info", struct_snd_firewire_get_info);
   ("struct_snd_firewire_tascam_state", struct_snd_firewire_tascam_state);
   ("struct_usb_stream_packet", struct_usb_stream_packet);
   ("struct_usb_stream_config", struct_usb_stream_config);
   ("struct_usb_stream", struct_usb_stream);
   ("struct_snd_emu10k1_fx8010_info", struct_snd_emu10k1_fx8010_info);
   ("struct_emu10k1_ctl_elem_id", struct_emu10k1_ctl_elem_id);
   ("struct_snd_emu10k1_fx8010_control_gpr", struct_snd_emu10k1_fx8010_control_gpr);
   ("struct_snd_emu10k1_fx8010_control_old_gpr", struct_snd_emu10k1_fx8010_control_old_gpr);
   ("struct_snd_emu10k1_fx8010_code", struct_snd_emu10k1_fx8010_code a);
   ("struct_snd_emu10k1_fx8010_tram", struct_snd_emu10k1_fx8010_tram);
   ("struct_snd_emu10k1_fx8010_pcm_rec", struct_snd_emu10k1_fx8010_pcm_rec)].
End Uapi.
