(* ===== verification/UapiCompress.v ===== *)
(** * UapiCompress: compressed audio

    Codec parameters ([include/sound/compress_params.h]) and the requests of a compressed
    stream ([compress_offload.h]). *)

From Stdlib Require Import Ascii.

From S2P Require Import Prelude CLayout Ioctl Uapi.

#[local] Open Scope string_scope.
#[local] Open Scope list_scope.
#[local] Open Scope Z_scope.

Section Uapi.
Context `{LinuxUapi}.

(** ** [sound/compress_params.h] *)

Definition MAX_NUM_BITRATES : Z := 32.
Definition MAX_NUM_SAMPLE_RATES : Z := 32.

Definition struct_snd_enc_wma : ctype := struct [
  ("super_block_align", c_u32)].

Definition struct_snd_enc_vorbis : ctype := CAligned 4 (packed_struct [
  ("quality", c_int); ("managed", c_u32); ("max_bit_rate", c_u32); ("min_bit_rate", c_u32);
  ("downmix", c_u32)]).

Definition struct_snd_enc_real : ctype := CAligned 4 (packed_struct [
  ("quant_bits", c_u32); ("start_region", c_u32); ("num_regions", c_u32)]).

Definition struct_snd_enc_flac : ctype := CAligned 4 (packed_struct [
  ("num", c_u32); ("gain", c_u32)]).

Definition struct_snd_enc_generic : ctype := CAligned 4 (packed_struct [
  ("bw", c_u32); ("reserved", CArray c_int 15)]).

Definition struct_snd_dec_flac : ctype := CAligned 4 (packed_struct [
  ("sample_size", c_u16); ("min_blk_size", c_u16); ("max_blk_size", c_u16);
  ("min_frame_size", c_u16); ("max_frame_size", c_u16); ("reserved", c_u16)]).

Definition struct_snd_dec_wma : ctype := CAligned 4 (packed_struct [
  ("encoder_option", c_u32); ("adv_encoder_option", c_u32); ("adv_encoder_option2", c_u32);
  ("reserved", c_u32)]).

Definition struct_snd_dec_alac : ctype := CAligned 4 (packed_struct [
  ("frame_length", c_u32); ("compatible_version", c_u8); ("pb", c_u8); ("mb", c_u8);
  ("kb", c_u8); ("max_run", c_u32); ("max_frame_bytes", c_u32)]).

Definition struct_snd_dec_ape : ctype := CAligned 4 (packed_struct [
  ("compatible_version", c_u16); ("compression_level", c_u16); ("format_flags", c_u32);
  ("blocks_per_frame", c_u32); ("final_frame_blocks", c_u32); ("total_frames", c_u32);
  ("seek_table_present", c_u32)]).

Definition union_snd_codec_options : ctype := CAligned 4 (CUnion [
  ("wma", struct_snd_enc_wma); ("vorbis", struct_snd_enc_vorbis); ("real", struct_snd_enc_real);
  ("flac", struct_snd_enc_flac); ("generic", struct_snd_enc_generic);
  ("flac_d", struct_snd_dec_flac); ("wma_d", struct_snd_dec_wma);
  ("alac_d", struct_snd_dec_alac); ("ape_d", struct_snd_dec_ape)]).

Definition struct_snd_codec_desc : ctype := CAligned 4 (packed_struct [
  ("max_ch", c_u32); ("sample_rates", CArray c_u32 MAX_NUM_SAMPLE_RATES);
  ("num_sample_rates", c_u32); ("bit_rate", CArray c_u32 MAX_NUM_BITRATES);
  ("num_bitrates", c_u32); ("rate_control", c_u32); ("profiles", c_u32); ("modes", c_u32);
  ("formats", c_u32); ("min_buffer", c_u32); ("reserved", CArray c_u32 15)]).

Definition struct_snd_codec : ctype := CAligned 4 (packed_struct [
  ("id", c_u32); ("ch_in", c_u32); ("ch_out", c_u32); ("sample_rate", c_u32);
  ("bit_rate", c_u32); ("rate_control", c_u32); ("profile", c_u32); ("level", c_u32);
  ("ch_mode", c_u32); ("format", c_u32); ("align", c_u32); ("options", union_snd_codec_options);
  ("reserved", CArray c_u32 3)]).

(** ** [sound/compress_offload.h] *)

Definition MAX_NUM_CODECS : Z := 32.
Definition MAX_NUM_CODEC_DESCRIPTORS : Z := 32.

Definition struct_snd_compressed_buffer : ctype := CAligned 4 (packed_struct [
  ("fragment_size", c_u32); ("fragments", c_u32)]).

Definition struct_snd_compr_params : ctype := CAligned 4 (packed_struct [
  ("buffer", struct_snd_compressed_buffer); ("codec", struct_snd_codec); ("no_wake_mode", c_u8)]).

Definition struct_snd_compr_tstamp : ctype := CAligned 4 (packed_struct [
  ("byte_offset", c_u32); ("copied_total", c_u32); ("pcm_frames", c_u32);
  ("pcm_io_frames", c_u32); ("sampling_rate", c_u32)]).

Definition struct_snd_compr_avail : ctype := CAligned 4 (packed_struct [
  ("avail", c_u64); ("tstamp", struct_snd_compr_tstamp)]).

Definition struct_snd_compr_caps : ctype := CAligned 4 (packed_struct [
  ("num_codecs", c_u32); ("direction", c_u32); ("min_fragment_size", c_u32);
  ("max_fragment_size", c_u32); ("min_fragments", c_u32); ("max_fragments", c_u32);
  ("codecs", CArray c_u32 MAX_NUM_CODECS); ("reserved", CArray c_u32 11)]).

Definition struct_snd_compr_codec_caps : ctype := CAligned 4 (packed_struct [
  ("codec", c_u32); ("num_descriptors", c_u32);
  ("descriptor", CArray struct_snd_codec_desc MAX_NUM_CODEC_DESCRIPTORS)]).

Definition struct_snd_compr_metadata : ctype := CAligned 4 (packed_struct [
  ("key", c_u32); ("value", CArray c_u32 8)]).

Definition SNDRV_COMPRESS_IOCTL_VERSION : ioctl_req := IOR (chr "C") 0x00 c_int.
Definition SNDRV_COMPRESS_GET_CAPS : ioctl_req := IOWR (chr "C") 0x10 struct_snd_compr_caps.
Definition SNDRV_COMPRESS_GET_CODEC_CAPS : ioctl_req := IOWR (chr "C") 0x11 struct_snd_compr_codec_caps.
Definition SNDRV_COMPRESS_SET_PARAMS : ioctl_req := IOW (chr "C") 0x12 struct_snd_compr_params.
Definition SNDRV_COMPRESS_GET_PARAMS : ioctl_req := IOR (chr "C") 0x13 struct_snd_codec.
Definition SNDRV_COMPRESS_SET_METADATA : ioctl_req := IOW (chr "C") 0x14 struct_snd_compr_metadata.
Definition SNDRV_COMPRESS_GET_METADATA : ioctl_req := IOWR (chr "C") 0x15 struct_snd_compr_metadata.
Definition SNDRV_COMPRESS_TSTAMP : ioctl_req := IOR (chr "C") 0x20 struct_snd_compr_tstamp.
Definition SNDRV_COMPRESS_AVAIL : ioctl_req := IOR (chr "C") 0x21 struct_snd_compr_avail.
Definition SNDRV_COMPRESS_PAUSE : ioctl_req := IO (chr "C") 0x30.
Definition SNDRV_COMPRESS_RESUME : ioctl_req := IO (chr "C") 0x31.
Definition SNDRV_COMPRESS_START : ioctl_req := IO (chr "C") 0x32.
Definition SNDRV_COMPRESS_STOP : ioctl_req := IO (chr "C") 0x33.
Definition SNDRV_COMPRESS_DRAIN : ioctl_req := IO (chr "C") 0x34.
Definition SNDRV_COMPRESS_NEXT_TRACK : ioctl_req := IO (chr "C") 0x35.
Definition SNDRV_COMPRESS_PARTIAL_DRAIN : ioctl_req := IO (chr "C") 0x36.

Definition compress_offload_requests (a : abi) : list (string * ioctl_req) :=
  [("SNDRV_COMPRESS_IOCTL_VERSION", SNDRV_COMPRESS_IOCTL_VERSION);
   ("SNDRV_COMPRESS_GET_CAPS", SNDRV_COMPRESS_GET_CAPS);
   ("SNDRV_COMPRESS_GET_CODEC_CAPS", SNDRV_COMPRESS_GET_CODEC_CAPS);
   ("SNDRV_COMPRESS_SET_PARAMS", SNDRV_COMPRESS_SET_PARAMS);
   ("SNDRV_COMPRESS_GET_PARAMS", SNDRV_COMPRESS_GET_PARAMS);
   ("SNDRV_COMPRESS_SET_METADATA", SNDRV_COMPRESS_SET_METADATA);
   ("SNDRV_COMPRESS_GET_METADATA", SNDRV_COMPRESS_GET_METADATA);
   ("SNDRV_COMPRESS_TSTAMP", SNDRV_COMPRESS_TSTAMP);
   ("SNDRV_COMPRESS_AVAIL", SNDRV_COMPRESS_AVAIL);
   ("SNDRV_COMPRESS_PAUSE", SNDRV_COMPRESS_PAUSE);
   ("SNDRV_COMPRESS_RESUME", SNDRV_COMPRESS_RESUME);
   ("SNDRV_COMPRESS_START", SNDRV_COMPRESS_START);
   ("SNDRV_COMPRESS_STOP", SNDRV_COMPRESS_STOP);
   ("SNDRV_COMPRESS_DRAIN", SNDRV_COMPRESS_DRAIN);
   ("SNDRV_COMPRESS_NEXT_TRACK", SNDRV_COMPRESS_NEXT_TRACK);
   ("SNDRV_COMPRESS_PARTIAL_DRAIN", SNDRV_COMPRESS_PARTIAL_DRAIN)].

(** Every type of the file. *)
Definition uapiCompress_types (a : abi) : list (string * ctype) :=
  [("struct_snd_enc_wma", struct_snd_enc_wma);
   ("struct_snd_enc_vorbis", struct_snd_enc_vorbis);
   ("struct_snd_enc_real", struct_snd_enc_real);
   ("struct_snd_enc_flac", struct_snd_enc_flac);
   ("struct_snd_enc_generic", struct_snd_enc_generic);
   ("struct_snd_dec_flac", struct_snd_dec_flac);
   ("struct_snd_dec_wma", struct_snd_dec_wma);
   ("struct_snd_dec_alac", struct_snd_dec_alac);
   ("struct_snd_dec_ape", struct_snd_dec_ape);
   ("union_snd_codec_options", union_snd_codec_options);
   ("struct_snd_codec_desc", struct_snd_codec_desc);
   ("struct_snd_codec", struct_snd_codec);
   ("struct_snd_compressed_buffer", struct_snd_compressed_buffer);
   ("struct_snd_compr_params", struct_snd_compr_params);
   ("struct_snd_compr_tstamp", struct_snd_compr_tstamp);
   ("struct_snd_compr_avail", struct_snd_compr_avail);
   ("struct_snd_compr_caps", struct_snd_compr_caps);
   ("struct_snd_compr_codec_caps", struct_snd_compr_codec_caps);
   ("struct_snd_compr_metadata", struct_snd_compr_metadata)].
End Uapi.
