(* ===== verification/UapiAudio.v ===== *)
(** * UapiAudio: the audio drivers of the SoC

    The codecs' decoder devices ([include/linux/msm_audio*.h]), the calibration device, and
    the Qualcomm headers of [include/sound] (voice activation, speaker protection, effects). *)

From Stdlib Require Import Ascii.

From S2P Require Import Prelude CLayout Ioctl Uapi.

#[local] Open Scope string_scope.
#[local] Open Scope list_scope.
#[local] Open Scope Z_scope.

Section Uapi.
Context `{LinuxUapi}.

(** ** [linux/msm_audio.h] *)

Definition AUDIO_MAX_EQ_BANDS : Z := 12.
Definition AUDIO_IOCTL_MAGIC : Z := chr "a".
Definition SND_IOCTL_MAGIC : Z := chr "s".

Definition struct_msm_audio_config : ctype := struct [
  ("buffer_size", c_u32); ("buffer_count", c_u32); ("channel_count", c_u32);
  ("sample_rate", c_u32); ("type", c_u32); ("meta_field", c_u32); ("bits", c_u32);
  ("unused", CArray c_u32 3)].

Definition struct_msm_audio_stream_config : ctype := struct [
  ("buffer_size", c_u32); ("buffer_count", c_u32)].

Definition struct_msm_audio_buf_cfg : ctype := struct [
  ("meta_info_enable", c_u32); ("frames_per_buf", c_u32)].

Definition struct_msm_audio_stats : ctype := struct [
  ("byte_count", c_u32); ("sample_count", c_u32); ("unused", CArray c_u32 2)].

Definition struct_msm_audio_ion_info : ctype := struct [
  ("fd", c_int); ("vaddr", CPtr)].

Definition struct_msm_audio_pmem_info : ctype := struct [
  ("fd", c_int); ("vaddr", CPtr)].

Definition struct_msm_audio_aio_buf : ctype := struct [
  ("buf_addr", CPtr); ("buf_len", c_u32); ("data_len", c_u32); ("private_data", CPtr);
  ("mfield_sz", c_u16)].

Definition struct_msm_mute_info : ctype := struct [
  ("mute", c_u32); ("path", c_u32)].

Definition struct_msm_vol_info : ctype := struct [
  ("vol", c_u32); ("path", c_u32)].

Definition struct_msm_voicerec_mode : ctype := struct [
  ("rec_mode", c_u32)].

Definition struct_msm_snd_device_config : ctype := struct [
  ("device", c_u32); ("ear_mute", c_u32); ("mic_mute", c_u32)].

Definition struct_cad_devices_type : ctype := struct [
  ("rx_device", c_u32); ("tx_device", c_u32); ("pathtype", c_enum)].

Definition struct_msm_cad_device_config : ctype := struct [
  ("device", struct_cad_devices_type); ("ear_mute", c_u32); ("mic_mute", c_u32)].

Definition struct_msm_snd_volume_config : ctype := struct [
  ("device", c_u32); ("method", c_u32); ("volume", c_u32)].

Definition struct_msm_cad_volume_config : ctype := struct [
  ("device", struct_cad_devices_type); ("method", c_u32); ("volume", c_u32)].

Definition struct_msm_snd_endpoint : ctype := struct [
  ("id", c_int); ("name", CArray c_u8 64)].

Definition struct_msm_cad_endpoint : ctype := struct [
  ("id", c_int); ("name", CArray c_u8 64)].

Definition struct_msm_audio_pcm_config : ctype := struct [
  ("pcm_feedback", c_u32); ("buffer_count", c_u32); ("buffer_size", c_u32)].

Definition struct_msm_audio_bitstream_info : ctype := struct [
  ("codec_type", c_u32); ("chan_info", c_u32); ("sample_rate", c_u32);
  ("bit_stream_info", c_u32); ("bit_rate", c_u32); ("unused", CArray c_u32 3)].

Definition struct_msm_audio_bitstream_error_info : ctype := struct [
  ("dec_id", c_u32); ("err_msg_indicator", c_u32); ("err_type", c_u32)].

Definition union_msm_audio_event_payload : ctype := CUnion [
  ("aio_buf", struct_msm_audio_aio_buf); ("stream_info", struct_msm_audio_bitstream_info);
  ("error_info", struct_msm_audio_bitstream_error_info); ("reserved", c_int)].

Definition struct_msm_audio_event : ctype := struct [
  ("event_type", c_int); ("timeout_ms", c_int); ("event_payload", union_msm_audio_event_payload)].

Definition struct_msm_snd_device_info : ctype := struct [
  ("dev_id", c_u32); ("dev_cap", c_u32); ("dev_name", CArray c_u8 64)].

Definition struct_msm_snd_device_list : ctype := struct [
  ("num_dev", c_u32); ("list", CPtr)].

Definition struct_msm_dtmf_config : ctype := struct [
  ("path", c_u16); ("dtmf_hi", c_u16); ("dtmf_low", c_u16); ("duration", c_u16);
  ("tx_gain", c_u16); ("rx_gain", c_u16); ("mixing", c_u16)].

Definition struct_msm_audio_route_config : ctype := struct [
  ("stream_type", c_u32); ("stream_id", c_u32); ("dev_id", c_u32)].

Definition struct_msm_audio_eq_band : ctype := packed_struct [
  ("band_idx", c_u16); ("filter_type", c_u32); ("center_freq_hz", c_u32); ("filter_gain", c_u32);
  ("q_factor", c_u32)].

Definition struct_msm_audio_eq_stream_config : ctype := packed_struct [
  ("enable", c_u32); ("num_bands", c_u32);
  ("eq_bands", CArray struct_msm_audio_eq_band AUDIO_MAX_EQ_BANDS)].

Definition struct_msm_acdb_cmd_device : ctype := struct [
  ("command_id", c_u32); ("device_id", c_u32); ("network_id", c_u32); ("sample_rate_id", c_u32);
  ("interface_id", c_u32); ("algorithm_block_id", c_u32); ("total_bytes", c_u32);
  ("phys_buf", CPtr)].

Definition struct_msm_hwacc_data_config : ctype := struct [
  ("buf_size", c_u32); ("num_buf", c_u32); ("num_channels", c_u32);
  ("channel_map", CArray c_u8 8); ("sample_rate", c_u32); ("bits_per_sample", c_u32)].

Definition struct_msm_hwacc_buf_cfg : ctype := struct [
  ("input_len", c_u32); ("output_len", c_u32)].

Definition struct_msm_hwacc_buf_avail : ctype := struct [
  ("input_num_avail", c_u32); ("output_num_avail", c_u32)].

Definition struct_msm_hwacc_effects_config : ctype := struct [
  ("input", struct_msm_hwacc_data_config); ("output", struct_msm_hwacc_data_config);
  ("buf_cfg", struct_msm_hwacc_buf_cfg); ("meta_mode_enabled", c_u32);
  ("overwrite_topology", c_u32); ("topology", c_int)].

Definition struct_msm_adsp_event_data : ctype := struct [
  ("event_type", c_u32); ("payload_len", c_u32); ("payload", CArray c_u8 0)].

Definition AUDIO_START : ioctl_req := IOW AUDIO_IOCTL_MAGIC 0 c_u32.
Definition AUDIO_STOP : ioctl_req := IOW AUDIO_IOCTL_MAGIC 1 c_u32.
Definition AUDIO_FLUSH : ioctl_req := IOW AUDIO_IOCTL_MAGIC 2 c_u32.
Definition AUDIO_GET_CONFIG : ioctl_req := IOR AUDIO_IOCTL_MAGIC 3 struct_msm_audio_config.
Definition AUDIO_SET_CONFIG : ioctl_req := IOW AUDIO_IOCTL_MAGIC 4 struct_msm_audio_config.
Definition AUDIO_GET_STATS : ioctl_req := IOR AUDIO_IOCTL_MAGIC 5 struct_msm_audio_stats.
Definition AUDIO_ENABLE_AUDPP : ioctl_req := IOW AUDIO_IOCTL_MAGIC 6 c_u32.
Definition AUDIO_SET_ADRC : ioctl_req := IOW AUDIO_IOCTL_MAGIC 7 c_u32.
Definition AUDIO_SET_EQ : ioctl_req := IOW AUDIO_IOCTL_MAGIC 8 c_u32.
Definition AUDIO_SET_RX_IIR : ioctl_req := IOW AUDIO_IOCTL_MAGIC 9 c_u32.
Definition AUDIO_SET_VOLUME : ioctl_req := IOW AUDIO_IOCTL_MAGIC 10 c_u32.
Definition AUDIO_PAUSE : ioctl_req := IOW AUDIO_IOCTL_MAGIC 11 c_u32.
Definition AUDIO_PLAY_DTMF : ioctl_req := IOW AUDIO_IOCTL_MAGIC 12 c_u32.
Definition AUDIO_GET_EVENT : ioctl_req := IOR AUDIO_IOCTL_MAGIC 13 struct_msm_audio_event.
Definition AUDIO_ABORT_GET_EVENT : ioctl_req := IOW AUDIO_IOCTL_MAGIC 14 c_u32.
Definition AUDIO_REGISTER_PMEM : ioctl_req := IOW AUDIO_IOCTL_MAGIC 15 c_u32.
Definition AUDIO_DEREGISTER_PMEM : ioctl_req := IOW AUDIO_IOCTL_MAGIC 16 c_u32.
Definition AUDIO_ASYNC_WRITE : ioctl_req := IOW AUDIO_IOCTL_MAGIC 17 struct_msm_audio_aio_buf.
Definition AUDIO_ASYNC_READ : ioctl_req := IOW AUDIO_IOCTL_MAGIC 18 struct_msm_audio_aio_buf.
Definition AUDIO_SET_INCALL : ioctl_req := IOW AUDIO_IOCTL_MAGIC 19 struct_msm_voicerec_mode.
Definition AUDIO_GET_NUM_SND_DEVICE : ioctl_req := IOR AUDIO_IOCTL_MAGIC 20 c_u32.
Definition AUDIO_GET_SND_DEVICES : ioctl_req := IOWR AUDIO_IOCTL_MAGIC 21 struct_msm_snd_device_list.
Definition AUDIO_ENABLE_SND_DEVICE : ioctl_req := IOW AUDIO_IOCTL_MAGIC 22 c_u32.
Definition AUDIO_DISABLE_SND_DEVICE : ioctl_req := IOW AUDIO_IOCTL_MAGIC 23 c_u32.
Definition AUDIO_ROUTE_STREAM : ioctl_req := IOW AUDIO_IOCTL_MAGIC 24 struct_msm_audio_route_config.
Definition AUDIO_GET_PCM_CONFIG : ioctl_req := IOR AUDIO_IOCTL_MAGIC 30 c_u32.
Definition AUDIO_SET_PCM_CONFIG : ioctl_req := IOW AUDIO_IOCTL_MAGIC 31 c_u32.
Definition AUDIO_SWITCH_DEVICE : ioctl_req := IOW AUDIO_IOCTL_MAGIC 32 c_u32.
Definition AUDIO_SET_MUTE : ioctl_req := IOW AUDIO_IOCTL_MAGIC 33 c_u32.
Definition AUDIO_UPDATE_ACDB : ioctl_req := IOW AUDIO_IOCTL_MAGIC 34 c_u32.
Definition AUDIO_START_VOICE : ioctl_req := IOW AUDIO_IOCTL_MAGIC 35 c_u32.
Definition AUDIO_STOP_VOICE : ioctl_req := IOW AUDIO_IOCTL_MAGIC 36 c_u32.
Definition AUDIO_REINIT_ACDB : ioctl_req := IOW AUDIO_IOCTL_MAGIC 39 c_u32.
Definition AUDIO_OUTPORT_FLUSH : ioctl_req := IOW AUDIO_IOCTL_MAGIC 40 c_u16.
Definition AUDIO_SET_ERR_THRESHOLD_VALUE : ioctl_req := IOW AUDIO_IOCTL_MAGIC 41 c_u16.
Definition AUDIO_GET_BITSTREAM_ERROR_INFO : ioctl_req := IOR AUDIO_IOCTL_MAGIC 42 struct_msm_audio_bitstream_error_info.
Definition AUDIO_SET_SRS_TRUMEDIA_PARAM : ioctl_req := IOW AUDIO_IOCTL_MAGIC 43 c_u32.
Definition AUDIO_SET_STREAM_CONFIG : ioctl_req := IOW AUDIO_IOCTL_MAGIC 80 struct_msm_audio_stream_config.
Definition AUDIO_GET_STREAM_CONFIG : ioctl_req := IOR AUDIO_IOCTL_MAGIC 81 struct_msm_audio_stream_config.
Definition AUDIO_GET_SESSION_ID : ioctl_req := IOR AUDIO_IOCTL_MAGIC 82 c_u16.
Definition AUDIO_GET_STREAM_INFO : ioctl_req := IOR AUDIO_IOCTL_MAGIC 83 struct_msm_audio_bitstream_info.
Definition AUDIO_SET_PAN : ioctl_req := IOW AUDIO_IOCTL_MAGIC 84 c_u32.
Definition AUDIO_SET_QCONCERT_PLUS : ioctl_req := IOW AUDIO_IOCTL_MAGIC 85 c_u32.
Definition AUDIO_SET_MBADRC : ioctl_req := IOW AUDIO_IOCTL_MAGIC 86 c_u32.
Definition AUDIO_SET_VOLUME_PATH : ioctl_req := IOW AUDIO_IOCTL_MAGIC 87 struct_msm_vol_info.
Definition AUDIO_SET_MAX_VOL_ALL : ioctl_req := IOW AUDIO_IOCTL_MAGIC 88 c_u32.
Definition AUDIO_ENABLE_AUDPRE : ioctl_req := IOW AUDIO_IOCTL_MAGIC 89 c_u32.
Definition AUDIO_SET_AGC : ioctl_req := IOW AUDIO_IOCTL_MAGIC 90 c_u32.
Definition AUDIO_SET_NS : ioctl_req := IOW AUDIO_IOCTL_MAGIC 91 c_u32.
Definition AUDIO_SET_TX_IIR : ioctl_req := IOW AUDIO_IOCTL_MAGIC 92 c_u32.
Definition AUDIO_GET_BUF_CFG : ioctl_req := IOW AUDIO_IOCTL_MAGIC 93 struct_msm_audio_buf_cfg.
Definition AUDIO_SET_BUF_CFG : ioctl_req := IOW AUDIO_IOCTL_MAGIC 94 struct_msm_audio_buf_cfg.
Definition AUDIO_SET_ACDB_BLK : ioctl_req := IOW AUDIO_IOCTL_MAGIC 95 struct_msm_acdb_cmd_device.
Definition AUDIO_GET_ACDB_BLK : ioctl_req := IOW AUDIO_IOCTL_MAGIC 96 struct_msm_acdb_cmd_device.
Definition IOCTL_MAP_PHYS_ADDR : ioctl_req := IOW AUDIO_IOCTL_MAGIC 97 c_int.
Definition IOCTL_UNMAP_PHYS_ADDR : ioctl_req := IOW AUDIO_IOCTL_MAGIC 98 c_int.
Definition AUDIO_SET_EFFECTS_CONFIG : ioctl_req := IOW AUDIO_IOCTL_MAGIC 99 struct_msm_hwacc_effects_config.
Definition AUDIO_EFFECTS_SET_BUF_LEN : ioctl_req := IOW AUDIO_IOCTL_MAGIC 100 struct_msm_hwacc_buf_cfg.
Definition AUDIO_EFFECTS_GET_BUF_AVAIL : ioctl_req := IOW AUDIO_IOCTL_MAGIC 101 struct_msm_hwacc_buf_avail.
Definition AUDIO_EFFECTS_WRITE : ioctl_req := IOW AUDIO_IOCTL_MAGIC 102 CPtr.
Definition AUDIO_EFFECTS_READ : ioctl_req := IOWR AUDIO_IOCTL_MAGIC 103 CPtr.
Definition AUDIO_EFFECTS_SET_PP_PARAMS : ioctl_req := IOW AUDIO_IOCTL_MAGIC 104 CPtr.
Definition AUDIO_PM_AWAKE : ioctl_req := IOW AUDIO_IOCTL_MAGIC 105 c_u32.
Definition AUDIO_PM_RELAX : ioctl_req := IOW AUDIO_IOCTL_MAGIC 106 c_u32.
Definition AUDIO_REGISTER_ION : ioctl_req := IOW AUDIO_IOCTL_MAGIC 107 struct_msm_audio_ion_info.
Definition AUDIO_DEREGISTER_ION : ioctl_req := IOW AUDIO_IOCTL_MAGIC 108 struct_msm_audio_ion_info.
Definition IOCTL_MAP_HYP_ASSIGN : ioctl_req := IOW AUDIO_IOCTL_MAGIC 109 c_int.
Definition IOCTL_UNMAP_HYP_ASSIGN : ioctl_req := IOW AUDIO_IOCTL_MAGIC 110 c_int.
Definition SND_SET_DEVICE : ioctl_req := IOW SND_IOCTL_MAGIC 2 CPtr.
Definition CAD_SET_DEVICE : ioctl_req := IOW SND_IOCTL_MAGIC 2 (pointer struct_msm_cad_device_config).
Definition SND_SET_VOLUME : ioctl_req := IOW SND_IOCTL_MAGIC 3 (pointer struct_msm_snd_volume_config).
Definition CAD_SET_VOLUME : ioctl_req := IOW SND_IOCTL_MAGIC 3 (pointer struct_msm_cad_volume_config).
Definition SND_GET_NUM_ENDPOINTS : ioctl_req := IOR SND_IOCTL_MAGIC 4 (pointer c_u32).
Definition SND_GET_ENDPOINT : ioctl_req := IOWR SND_IOCTL_MAGIC 5 (pointer struct_msm_snd_endpoint).
Definition SND_AVC_CTL : ioctl_req := IOW SND_IOCTL_MAGIC 6 (pointer c_u32).
Definition SND_AGC_CTL : ioctl_req := IOW SND_IOCTL_MAGIC 7 (pointer c_u32).
Definition CAD_GET_NUM_ENDPOINTS : ioctl_req := IOR SND_IOCTL_MAGIC 4 (pointer c_u32).
Definition CAD_GET_ENDPOINT : ioctl_req := IOWR SND_IOCTL_MAGIC 5 (pointer struct_msm_cad_endpoint).

Definition msm_audio_requests (a : abi) : list (string * ioctl_req) :=
  [("AUDIO_START", AUDIO_START);
   ("AUDIO_STOP", AUDIO_STOP);
   ("AUDIO_FLUSH", AUDIO_FLUSH);
   ("AUDIO_GET_CONFIG", AUDIO_GET_CONFIG);
   ("AUDIO_SET_CONFIG", AUDIO_SET_CONFIG);
   ("AUDIO_GET_STATS", AUDIO_GET_STATS);
   ("AUDIO_ENABLE_AUDPP", AUDIO_ENABLE_AUDPP);
   ("AUDIO_SET_ADRC", AUDIO_SET_ADRC);
   ("AUDIO_SET_EQ", AUDIO_SET_EQ);
   ("AUDIO_SET_RX_IIR", AUDIO_SET_RX_IIR);
   ("AUDIO_SET_VOLUME", AUDIO_SET_VOLUME);
   ("AUDIO_PAUSE", AUDIO_PAUSE);
   ("AUDIO_PLAY_DTMF", AUDIO_PLAY_DTMF);
   ("AUDIO_GET_EVENT", AUDIO_GET_EVENT);
   ("AUDIO_ABORT_GET_EVENT", AUDIO_ABORT_GET_EVENT);
   ("AUDIO_REGISTER_PMEM", AUDIO_REGISTER_PMEM);
   ("AUDIO_DEREGISTER_PMEM", AUDIO_DEREGISTER_PMEM);
   ("AUDIO_ASYNC_WRITE", AUDIO_ASYNC_WRITE);
   ("AUDIO_ASYNC_READ", AUDIO_ASYNC_READ);
   ("AUDIO_SET_INCALL", AUDIO_SET_INCALL);
   ("AUDIO_GET_NUM_SND_DEVICE", AUDIO_GET_NUM_SND_DEVICE);
   ("AUDIO_GET_SND_DEVICES", AUDIO_GET_SND_DEVICES);
   ("AUDIO_ENABLE_SND_DEVICE", AUDIO_ENABLE_SND_DEVICE);
   ("AUDIO_DISABLE_SND_DEVICE", AUDIO_DISABLE_SND_DEVICE);
   ("AUDIO_ROUTE_STREAM", AUDIO_ROUTE_STREAM);
   ("AUDIO_GET_PCM_CONFIG", AUDIO_GET_PCM_CONFIG);
   ("AUDIO_SET_PCM_CONFIG", AUDIO_SET_PCM_CONFIG);
   ("AUDIO_SWITCH_DEVICE", AUDIO_SWITCH_DEVICE);
   ("AUDIO_SET_MUTE", AUDIO_SET_MUTE);
   ("AUDIO_UPDATE_ACDB", AUDIO_UPDATE_ACDB);
   ("AUDIO_START_VOICE", AUDIO_START_VOICE);
   ("AUDIO_STOP_VOICE", AUDIO_STOP_VOICE);
   ("AUDIO_REINIT_ACDB", AUDIO_REINIT_ACDB);
   ("AUDIO_OUTPORT_FLUSH", AUDIO_OUTPORT_FLUSH);
   ("AUDIO_SET_ERR_THRESHOLD_VALUE", AUDIO_SET_ERR_THRESHOLD_VALUE);
   ("AUDIO_GET_BITSTREAM_ERROR_INFO", AUDIO_GET_BITSTREAM_ERROR_INFO);
   ("AUDIO_SET_SRS_TRUMEDIA_PARAM", AUDIO_SET_SRS_TRUMEDIA_PARAM);
   ("AUDIO_SET_STREAM_CONFIG", AUDIO_SET_STREAM_CONFIG);
   ("AUDIO_GET_STREAM_CONFIG", AUDIO_GET_STREAM_CONFIG);
   ("AUDIO_GET_SESSION_ID", AUDIO_GET_SESSION_ID);
   ("AUDIO_GET_STREAM_INFO", AUDIO_GET_STREAM_INFO);
   ("AUDIO_SET_PAN", AUDIO_SET_PAN);
   ("AUDIO_SET_QCONCERT_PLUS", AUDIO_SET_QCONCERT_PLUS);
   ("AUDIO_SET_MBADRC", AUDIO_SET_MBADRC);
   ("AUDIO_SET_VOLUME_PATH", AUDIO_SET_VOLUME_PATH);
   ("AUDIO_SET_MAX_VOL_ALL", AUDIO_SET_MAX_VOL_ALL);
   ("AUDIO_ENABLE_AUDPRE", AUDIO_ENABLE_AUDPRE);
   ("AUDIO_SET_AGC", AUDIO_SET_AGC);
   ("AUDIO_SET_NS", AUDIO_SET_NS);
   ("AUDIO_SET_TX_IIR", AUDIO_SET_TX_IIR);
   ("AUDIO_GET_BUF_CFG", AUDIO_GET_BUF_CFG);
   ("AUDIO_SET_BUF_CFG", AUDIO_SET_BUF_CFG);
   ("AUDIO_SET_ACDB_BLK", AUDIO_SET_ACDB_BLK);
   ("AUDIO_GET_ACDB_BLK", AUDIO_GET_ACDB_BLK);
   ("IOCTL_MAP_PHYS_ADDR", IOCTL_MAP_PHYS_ADDR);
   ("IOCTL_UNMAP_PHYS_ADDR", IOCTL_UNMAP_PHYS_ADDR);
   ("AUDIO_SET_EFFECTS_CONFIG", AUDIO_SET_EFFECTS_CONFIG);
   ("AUDIO_EFFECTS_SET_BUF_LEN", AUDIO_EFFECTS_SET_BUF_LEN);
   ("AUDIO_EFFECTS_GET_BUF_AVAIL", AUDIO_EFFECTS_GET_BUF_AVAIL);
   ("AUDIO_EFFECTS_WRITE", AUDIO_EFFECTS_WRITE);
   ("AUDIO_EFFECTS_READ", AUDIO_EFFECTS_READ);
   ("AUDIO_EFFECTS_SET_PP_PARAMS", AUDIO_EFFECTS_SET_PP_PARAMS);
   ("AUDIO_PM_AWAKE", AUDIO_PM_AWAKE);
   ("AUDIO_PM_RELAX", AUDIO_PM_RELAX);
   ("AUDIO_REGISTER_ION", AUDIO_REGISTER_ION);
   ("AUDIO_DEREGISTER_ION", AUDIO_DEREGISTER_ION);
   ("IOCTL_MAP_HYP_ASSIGN", IOCTL_MAP_HYP_ASSIGN);
   ("IOCTL_UNMAP_HYP_ASSIGN", IOCTL_UNMAP_HYP_ASSIGN);
   ("SND_SET_DEVICE", SND_SET_DEVICE);
   ("CAD_SET_DEVICE", CAD_SET_DEVICE);
   ("SND_SET_VOLUME", SND_SET_VOLUME);
   ("CAD_SET_VOLUME", CAD_SET_VOLUME);
   ("SND_GET_NUM_ENDPOINTS", SND_GET_NUM_ENDPOINTS);
   ("SND_GET_ENDPOINT", SND_GET_ENDPOINT);
   ("SND_AVC_CTL", SND_AVC_CTL);
   ("SND_AGC_CTL", SND_AGC_CTL);
   ("CAD_GET_NUM_ENDPOINTS", CAD_GET_NUM_ENDPOINTS);
   ("CAD_GET_ENDPOINT", CAD_GET_ENDPOINT)].

(** ** [linux/msm_audio_aac.h] *)

Definition AUDIO_MAX_COMMON_IOCTL_NUM : Z := 111.

Definition struct_msm_audio_aac_config : ctype := struct [
  ("format", c_u16); ("audio_object", c_u16); ("ep_config", c_u16);
  ("aac_section_data_resilience_flag", c_u16); ("aac_scalefactor_data_resilience_flag", c_u16);
  ("aac_spectral_data_resilience_flag", c_u16); ("sbr_on_flag", c_u16);
  ("sbr_ps_on_flag", c_u16); ("dual_mono_mode", c_u16); ("channel_configuration", c_u16);
  ("sample_rate", c_u16)].

Definition struct_msm_audio_aac_enc_config : ctype := struct [
  ("channels", c_u32); ("sample_rate", c_u32); ("bit_rate", c_u32); ("stream_format", c_u32)].

Definition AUDIO_SET_AAC_CONFIG : ioctl_req := IOW AUDIO_IOCTL_MAGIC (AUDIO_MAX_COMMON_IOCTL_NUM + 0) struct_msm_audio_aac_config.
Definition AUDIO_GET_AAC_CONFIG : ioctl_req := IOR AUDIO_IOCTL_MAGIC (AUDIO_MAX_COMMON_IOCTL_NUM + 1) struct_msm_audio_aac_config.
Definition AUDIO_SET_AAC_ENC_CONFIG : ioctl_req := IOW AUDIO_IOCTL_MAGIC (AUDIO_MAX_COMMON_IOCTL_NUM + 3) struct_msm_audio_aac_enc_config.
Definition AUDIO_GET_AAC_ENC_CONFIG : ioctl_req := IOR AUDIO_IOCTL_MAGIC (AUDIO_MAX_COMMON_IOCTL_NUM + 4) struct_msm_audio_aac_enc_config.
Definition AUDIO_SET_AAC_MIX_CONFIG : ioctl_req := IOR AUDIO_IOCTL_MAGIC (AUDIO_MAX_COMMON_IOCTL_NUM + 5) c_u32.

Definition msm_audio_aac_requests (a : abi) : list (string * ioctl_req) :=
  [("AUDIO_SET_AAC_CONFIG", AUDIO_SET_AAC_CONFIG);
   ("AUDIO_GET_AAC_CONFIG", AUDIO_GET_AAC_CONFIG);
   ("AUDIO_SET_AAC_ENC_CONFIG", AUDIO_SET_AAC_ENC_CONFIG);
   ("AUDIO_GET_AAC_ENC_CONFIG", AUDIO_GET_AAC_ENC_CONFIG);
   ("AUDIO_SET_AAC_MIX_CONFIG", AUDIO_SET_AAC_MIX_CONFIG)].

(** ** [linux/msm_audio_ac3.h] *)

Definition struct_msm_audio_ac3_config : ctype := struct [
  ("numChans", c_u16); ("wordSize", c_u16); ("kCapableMode", c_u16); ("compMode", c_u16);
  ("outLfeOn", c_u16); ("outputMode", c_u16); ("stereoMode", c_u16); ("dualMonoMode", c_u16);
  ("fsCod", c_u16); ("pcmScaleFac", c_u16); ("dynRngScaleHi", c_u16); ("dynRngScaleLow", c_u16);
  ("user_downmix_flag", c_u16); ("user_karaoke_flag", c_u16); ("dm_address_high", c_u16);
  ("dm_address_low", c_u16); ("ko_address_high", c_u16); ("ko_address_low", c_u16);
  ("error_concealment", c_u16); ("max_rep_count", c_u16);
  ("channel_routing_mode", CArray c_u16 6)].

Definition AUDIO_SET_AC3_CONFIG : ioctl_req := IOW AUDIO_IOCTL_MAGIC (AUDIO_MAX_COMMON_IOCTL_NUM + 0) c_u32.
Definition AUDIO_GET_AC3_CONFIG : ioctl_req := IOR AUDIO_IOCTL_MAGIC (AUDIO_MAX_COMMON_IOCTL_NUM + 1) c_u32.

Definition msm_audio_ac3_requests (a : abi) : list (string * ioctl_req) :=
  [("AUDIO_SET_AC3_CONFIG", AUDIO_SET_AC3_CONFIG);
   ("AUDIO_GET_AC3_CONFIG", AUDIO_GET_AC3_CONFIG)].

(** ** [linux/msm_audio_alac.h] *)

Definition struct_msm_audio_alac_config : ctype := struct [
  ("frameLength", c_u32); ("compatVersion", c_u8); ("bitDepth", c_u8); ("pb", c_u8);
  ("mb", c_u8); ("kb", c_u8); ("channelCount", c_u8); ("maxRun", c_u16); ("maxSize", c_u32);
  ("averageBitRate", c_u32); ("sampleRate", c_u32); ("channelLayout", c_u32)].

Definition AUDIO_GET_ALAC_CONFIG : ioctl_req := IOR AUDIO_IOCTL_MAGIC (AUDIO_MAX_COMMON_IOCTL_NUM + 0) struct_msm_audio_alac_config.
Definition AUDIO_SET_ALAC_CONFIG : ioctl_req := IOW AUDIO_IOCTL_MAGIC (AUDIO_MAX_COMMON_IOCTL_NUM + 1) struct_msm_audio_alac_config.

Definition msm_audio_alac_requests (a : abi) : list (string * ioctl_req) :=
  [("AUDIO_GET_ALAC_CONFIG", AUDIO_GET_ALAC_CONFIG);
   ("AUDIO_SET_ALAC_CONFIG", AUDIO_SET_ALAC_CONFIG)].

(** ** [linux/msm_audio_amrnb.h] *)

Definition struct_msm_audio_amrnb_enc_config : ctype := struct [
  ("voicememoencweight1", c_u16); ("voicememoencweight2", c_u16); ("voicememoencweight3", c_u16);
  ("voicememoencweight4", c_u16); ("dtx_mode_enable", c_u16); ("test_mode_enable", c_u16);
  ("enc_mode", c_u16)].

Definition struct_msm_audio_amrnb_enc_config_v2 : ctype := struct [
  ("band_mode", c_u32); ("dtx_enable", c_u32); ("frame_format", c_u32)].

Definition AUDIO_GET_AMRNB_ENC_CONFIG : ioctl_req := IOW AUDIO_IOCTL_MAGIC (AUDIO_MAX_COMMON_IOCTL_NUM + 0) c_u32.
Definition AUDIO_SET_AMRNB_ENC_CONFIG : ioctl_req := IOR AUDIO_IOCTL_MAGIC (AUDIO_MAX_COMMON_IOCTL_NUM + 1) c_u32.
Definition AUDIO_GET_AMRNB_ENC_CONFIG_V2 : ioctl_req := IOW AUDIO_IOCTL_MAGIC (AUDIO_MAX_COMMON_IOCTL_NUM + 2) struct_msm_audio_amrnb_enc_config_v2.
Definition AUDIO_SET_AMRNB_ENC_CONFIG_V2 : ioctl_req := IOR AUDIO_IOCTL_MAGIC (AUDIO_MAX_COMMON_IOCTL_NUM + 3) struct_msm_audio_amrnb_enc_config_v2.

Definition msm_audio_amrnb_requests (a : abi) : list (string * ioctl_req) :=
  [("AUDIO_GET_AMRNB_ENC_CONFIG", AUDIO_GET_AMRNB_ENC_CONFIG);
   ("AUDIO_SET_AMRNB_ENC_CONFIG", AUDIO_SET_AMRNB_ENC_CONFIG);
   ("AUDIO_GET_AMRNB_ENC_CONFIG_V2", AUDIO_GET_AMRNB_ENC_CONFIG_V2);
   ("AUDIO_SET_AMRNB_ENC_CONFIG_V2", AUDIO_SET_AMRNB_ENC_CONFIG_V2)].

(** ** [linux/msm_audio_amrwb.h] *)

Definition struct_msm_audio_amrwb_enc_config : ctype := struct [
  ("band_mode", c_u32); ("dtx_enable", c_u32); ("frame_format", c_u32)].

Definition AUDIO_GET_AMRWB_ENC_CONFIG : ioctl_req := IOW AUDIO_IOCTL_MAGIC (AUDIO_MAX_COMMON_IOCTL_NUM + 0) struct_msm_audio_amrwb_enc_config.
Definition AUDIO_SET_AMRWB_ENC_CONFIG : ioctl_req := IOR AUDIO_IOCTL_MAGIC (AUDIO_MAX_COMMON_IOCTL_NUM + 1) struct_msm_audio_amrwb_enc_config.

Definition msm_audio_amrwb_requests (a : abi) : list (string * ioctl_req) :=
  [("AUDIO_GET_AMRWB_ENC_CONFIG", AUDIO_GET_AMRWB_ENC_CONFIG);
   ("AUDIO_SET_AMRWB_ENC_CONFIG", AUDIO_SET_AMRWB_ENC_CONFIG)].

(** ** [linux/msm_audio_amrwbplus.h] *)

Definition struct_msm_audio_amrwbplus_config_v2 : ctype := struct [
  ("size_bytes", c_u32); ("version", c_u32); ("num_channels", c_u32); ("amr_band_mode", c_u32);
  ("amr_dtx_mode", c_u32); ("amr_frame_fmt", c_u32); ("amr_lsf_idx", c_u32)].

Definition AUDIO_GET_AMRWBPLUS_CONFIG_V2 : ioctl_req := IOR AUDIO_IOCTL_MAGIC (AUDIO_MAX_COMMON_IOCTL_NUM + 2) struct_msm_audio_amrwbplus_config_v2.
Definition AUDIO_SET_AMRWBPLUS_CONFIG_V2 : ioctl_req := IOW AUDIO_IOCTL_MAGIC (AUDIO_MAX_COMMON_IOCTL_NUM + 3) struct_msm_audio_amrwbplus_config_v2.

Definition msm_audio_amrwbplus_requests (a : abi) : list (string * ioctl_req) :=
  [("AUDIO_GET_AMRWBPLUS_CONFIG_V2", AUDIO_GET_AMRWBPLUS_CONFIG_V2);
   ("AUDIO_SET_AMRWBPLUS_CONFIG_V2", AUDIO_SET_AMRWBPLUS_CONFIG_V2)].

(** ** [linux/msm_audio_ape.h] *)

Definition struct_msm_audio_ape_config : ctype := struct [
  ("compatibleVersion", c_u16); ("compressionLevel", c_u16); ("formatFlags", c_u32);
  ("blocksPerFrame", c_u32); ("finalFrameBlocks", c_u32); ("totalFrames", c_u32);
  ("bitsPerSample", c_u16); ("numChannels", c_u16); ("sampleRate", c_u32);
  ("seekTablePresent", c_u32)].

Definition AUDIO_GET_APE_CONFIG : ioctl_req := IOR AUDIO_IOCTL_MAGIC (AUDIO_MAX_COMMON_IOCTL_NUM + 0) struct_msm_audio_ape_config.
Definition AUDIO_SET_APE_CONFIG : ioctl_req := IOW AUDIO_IOCTL_MAGIC (AUDIO_MAX_COMMON_IOCTL_NUM + 1) struct_msm_audio_ape_config.

Definition msm_audio_ape_requests (a : abi) : list (string * ioctl_req) :=
  [("AUDIO_GET_APE_CONFIG", AUDIO_GET_APE_CONFIG);
   ("AUDIO_SET_APE_CONFIG", AUDIO_SET_APE_CONFIG)].

(** ** [linux/msm_audio_g711.h] *)

Definition struct_msm_audio_g711_enc_config : ctype := struct [
  ("sample_rate", c_u32)].

Definition AUDIO_SET_G711_ENC_CONFIG : ioctl_req := IOW AUDIO_IOCTL_MAGIC (AUDIO_MAX_COMMON_IOCTL_NUM + 0) struct_msm_audio_g711_enc_config.
Definition AUDIO_GET_G711_ENC_CONFIG : ioctl_req := IOR AUDIO_IOCTL_MAGIC (AUDIO_MAX_COMMON_IOCTL_NUM + 1) struct_msm_audio_g711_enc_config.

Definition msm_audio_g711_requests (a : abi) : list (string * ioctl_req) :=
  [("AUDIO_SET_G711_ENC_CONFIG", AUDIO_SET_G711_ENC_CONFIG);
   ("AUDIO_GET_G711_ENC_CONFIG", AUDIO_GET_G711_ENC_CONFIG)].

(** ** [linux/msm_audio_g711_dec.h] *)

Definition struct_msm_audio_g711_dec_config : ctype := struct [
  ("sample_rate", c_u32)].

Definition AUDIO_SET_G711_DEC_CONFIG : ioctl_req := IOW AUDIO_IOCTL_MAGIC (AUDIO_MAX_COMMON_IOCTL_NUM + 0) struct_msm_audio_g711_dec_config.
Definition AUDIO_GET_G711_DEC_CONFIG : ioctl_req := IOR AUDIO_IOCTL_MAGIC (AUDIO_MAX_COMMON_IOCTL_NUM + 1) struct_msm_audio_g711_dec_config.

Definition msm_audio_g711_dec_requests (a : abi) : list (string * ioctl_req) :=
  [("AUDIO_SET_G711_DEC_CONFIG", AUDIO_SET_G711_DEC_CONFIG);
   ("AUDIO_GET_G711_DEC_CONFIG", AUDIO_GET_G711_DEC_CONFIG)].

(** ** [linux/msm_audio_mvs.h] *)

Definition MVS_MAX_VOC_PKT_SIZE : Z := 640.
Definition Q5V2_MVS_MAX_VOC_PKT_SIZE : Z := 320.

Definition struct_min_max_rate : ctype := struct [
  ("min_rate", c_u32); ("max_rate", c_u32)].

Definition struct_msm_audio_mvs_config : ctype := struct [
  ("mvs_mode", c_u32); ("rate_type", c_u32); ("min_max_rate", struct_min_max_rate);
  ("dtx_mode", c_u32)].

Definition struct_gsm_header : ctype := struct [
  ("bfi", c_u8); ("sid", c_u8); ("taf", c_u8); ("ufi", c_u8)].

Definition struct_q6_msm_audio_mvs_frame : ctype := struct [
  ("header", CUnion [
    ("frame_type", c_u32); ("packet_rate", c_u32); ("gsm_frame_type", struct_gsm_header)]);
  ("len", c_u32); ("voc_pkt", CArray c_u8 MVS_MAX_VOC_PKT_SIZE)].

Definition struct_msm_audio_mvs_frame : ctype := struct [
  ("frame_type", c_u32); ("len", c_u32); ("voc_pkt", CArray c_u8 MVS_MAX_VOC_PKT_SIZE)].

Definition struct_q5v2_msm_audio_mvs_frame : ctype := struct [
  ("frame_type", c_u32); ("len", c_u32); ("voc_pkt", CArray c_u8 Q5V2_MVS_MAX_VOC_PKT_SIZE)].

Definition AUDIO_GET_MVS_CONFIG : ioctl_req := IOW AUDIO_IOCTL_MAGIC (AUDIO_MAX_COMMON_IOCTL_NUM + 0) c_u32.
Definition AUDIO_SET_MVS_CONFIG : ioctl_req := IOR AUDIO_IOCTL_MAGIC (AUDIO_MAX_COMMON_IOCTL_NUM + 1) c_u32.

Definition msm_audio_mvs_requests (a : abi) : list (string * ioctl_req) :=
  [("AUDIO_GET_MVS_CONFIG", AUDIO_GET_MVS_CONFIG);
   ("AUDIO_SET_MVS_CONFIG", AUDIO_SET_MVS_CONFIG)].

(** ** [linux/msm_audio_qcp.h] *)

Definition struct_msm_audio_qcelp_enc_config : ctype := struct [
  ("cdma_rate", c_u32); ("min_bit_rate", c_u32); ("max_bit_rate", c_u32)].

Definition struct_msm_audio_evrc_enc_config : ctype := struct [
  ("cdma_rate", c_u32); ("min_bit_rate", c_u32); ("max_bit_rate", c_u32)].

Definition AUDIO_SET_QCELP_ENC_CONFIG : ioctl_req := IOW AUDIO_IOCTL_MAGIC 0 struct_msm_audio_qcelp_enc_config.
Definition AUDIO_GET_QCELP_ENC_CONFIG : ioctl_req := IOR AUDIO_IOCTL_MAGIC 1 struct_msm_audio_qcelp_enc_config.
Definition AUDIO_SET_EVRC_ENC_CONFIG : ioctl_req := IOW AUDIO_IOCTL_MAGIC 2 struct_msm_audio_evrc_enc_config.
Definition AUDIO_GET_EVRC_ENC_CONFIG : ioctl_req := IOR AUDIO_IOCTL_MAGIC 3 struct_msm_audio_evrc_enc_config.

Definition msm_audio_qcp_requests (a : abi) : list (string * ioctl_req) :=
  [("AUDIO_SET_QCELP_ENC_CONFIG", AUDIO_SET_QCELP_ENC_CONFIG);
   ("AUDIO_GET_QCELP_ENC_CONFIG", AUDIO_GET_QCELP_ENC_CONFIG);
   ("AUDIO_SET_EVRC_ENC_CONFIG", AUDIO_SET_EVRC_ENC_CONFIG);
   ("AUDIO_GET_EVRC_ENC_CONFIG", AUDIO_GET_EVRC_ENC_CONFIG)].

(** ** [linux/msm_audio_sbc.h] *)

Definition struct_msm_audio_sbc_enc_config : ctype := struct [
  ("channels", c_u32); ("sample_rate", c_u32); ("bit_allocation", c_u32);
  ("number_of_subbands", c_u32); ("number_of_blocks", c_u32); ("bit_rate", c_u32);
  ("mode", c_u32)].

Definition AUDIO_SET_SBC_ENC_CONFIG : ioctl_req := IOW AUDIO_IOCTL_MAGIC (AUDIO_MAX_COMMON_IOCTL_NUM + 0) struct_msm_audio_sbc_enc_config.
Definition AUDIO_GET_SBC_ENC_CONFIG : ioctl_req := IOR AUDIO_IOCTL_MAGIC (AUDIO_MAX_COMMON_IOCTL_NUM + 1) struct_msm_audio_sbc_enc_config.

Definition msm_audio_sbc_requests (a : abi) : list (string * ioctl_req) :=
  [("AUDIO_SET_SBC_ENC_CONFIG", AUDIO_SET_SBC_ENC_CONFIG);
   ("AUDIO_GET_SBC_ENC_CONFIG", AUDIO_GET_SBC_ENC_CONFIG)].

(** ** [linux/msm_audio_voicememo.h] *)

Definition struct_msm_audio_voicememo_config : ctype := struct [
  ("rec_type", c_u32); ("rec_interval_ms", c_u32); ("auto_stop_ms", c_u32);
  ("capability", c_u32); ("max_rate", c_u32); ("min_rate", c_u32); ("frame_format", c_u32);
  ("dtx_enable", c_u32); ("data_req_ms", c_u32)].

Definition AUDIO_GET_VOICEMEMO_CONFIG : ioctl_req := IOW AUDIO_IOCTL_MAGIC (AUDIO_MAX_COMMON_IOCTL_NUM + 0) c_u32.
Definition AUDIO_SET_VOICEMEMO_CONFIG : ioctl_req := IOR AUDIO_IOCTL_MAGIC (AUDIO_MAX_COMMON_IOCTL_NUM + 1) c_u32.

Definition msm_audio_voicememo_requests (a : abi) : list (string * ioctl_req) :=
  [("AUDIO_GET_VOICEMEMO_CONFIG", AUDIO_GET_VOICEMEMO_CONFIG);
   ("AUDIO_SET_VOICEMEMO_CONFIG", AUDIO_SET_VOICEMEMO_CONFIG)].

(** ** [linux/msm_audio_wma.h] *)

Definition struct_msm_audio_wma_config : ctype := struct [
  ("armdatareqthr", c_u16); ("channelsdecoded", c_u16); ("wmabytespersec", c_u16);
  ("wmasamplingfreq", c_u16); ("wmaencoderopts", c_u16)].

Definition struct_msm_audio_wma_config_v2 : ctype := struct [
  ("format_tag", c_u16); ("numchannels", c_u16); ("samplingrate", c_u32);
  ("avgbytespersecond", c_u32); ("block_align", c_u16); ("validbitspersample", c_u16);
  ("channelmask", c_u32); ("encodeopt", c_u16)].

Definition AUDIO_GET_WMA_CONFIG : ioctl_req := IOR AUDIO_IOCTL_MAGIC (AUDIO_MAX_COMMON_IOCTL_NUM + 0) c_u32.
Definition AUDIO_SET_WMA_CONFIG : ioctl_req := IOW AUDIO_IOCTL_MAGIC (AUDIO_MAX_COMMON_IOCTL_NUM + 1) c_u32.
Definition AUDIO_GET_WMA_CONFIG_V2 : ioctl_req := IOR AUDIO_IOCTL_MAGIC (AUDIO_MAX_COMMON_IOCTL_NUM + 2) struct_msm_audio_wma_config_v2.
Definition AUDIO_SET_WMA_CONFIG_V2 : ioctl_req := IOW AUDIO_IOCTL_MAGIC (AUDIO_MAX_COMMON_IOCTL_NUM + 3) struct_msm_audio_wma_config_v2.

Definition msm_audio_wma_requests (a : abi) : list (string * ioctl_req) :=
  [("AUDIO_GET_WMA_CONFIG", AUDIO_GET_WMA_CONFIG);
   ("AUDIO_SET_WMA_CONFIG", AUDIO_SET_WMA_CONFIG);
   ("AUDIO_GET_WMA_CONFIG_V2", AUDIO_GET_WMA_CONFIG_V2);
   ("AUDIO_SET_WMA_CONFIG_V2", AUDIO_SET_WMA_CONFIG_V2)].

(** ** [linux/msm_audio_wmapro.h] *)

Definition struct_msm_audio_wmapro_config : ctype := struct [
  ("armdatareqthr", c_u16); ("validbitspersample", c_u8); ("numchannels", c_u8);
  ("formattag", c_u16); ("samplingrate", c_u32); ("avgbytespersecond", c_u32);
  ("asfpacketlength", c_u16); ("channelmask", c_u32); ("encodeopt", c_u16);
  ("advancedencodeopt", c_u16); ("advancedencodeopt2", c_u32)].

Definition AUDIO_GET_WMAPRO_CONFIG : ioctl_req := IOR AUDIO_IOCTL_MAGIC (AUDIO_MAX_COMMON_IOCTL_NUM + 0) struct_msm_audio_wmapro_config.
Definition AUDIO_SET_WMAPRO_CONFIG : ioctl_req := IOW AUDIO_IOCTL_MAGIC (AUDIO_MAX_COMMON_IOCTL_NUM + 1) struct_msm_audio_wmapro_config.

Definition msm_audio_wmapro_requests (a : abi) : list (string * ioctl_req) :=
  [("AUDIO_GET_WMAPRO_CONFIG", AUDIO_GET_WMAPRO_CONFIG);
   ("AUDIO_SET_WMAPRO_CONFIG", AUDIO_SET_WMAPRO_CONFIG)].

(** ** [linux/msm_audio_calibration.h] *)

Definition MAX_HW_DELAY_ENTRIES : Z := 25.
Definition MAX_SIDETONE_IIR_DATA_SIZE : Z := 224.
Definition MAX_VOICE_COLUMNS : Z := 20.
Definition SP_V2_NUM_MAX_SPKRS : Z := 2.
Definition VSS_NUM_CHANNELS_MAX : Z := 32.
Definition CAL_IOCTL_MAGIC : Z := chr "a".

Definition struct_audio_cal_header : ctype := struct [
  ("data_size", c_int); ("version", c_int); ("cal_type", c_int); ("cal_type_size", c_int)].

Definition struct_audio_cal_type_header : ctype := struct [
  ("version", c_int); ("buffer_number", c_int)].

Definition struct_audio_cal_data : ctype := struct [
  ("cal_size", c_int); ("mem_handle", c_int); ("cma_mem", c_u32)].

Definition struct_audio_cal_type_alloc : ctype := struct [
  ("cal_hdr", struct_audio_cal_type_header); ("cal_data", struct_audio_cal_data)].

Definition struct_audio_cal_alloc : ctype := struct [
  ("hdr", struct_audio_cal_header); ("cal_type", struct_audio_cal_type_alloc)].

Definition struct_audio_cal_type_dealloc : ctype := struct [
  ("cal_hdr", struct_audio_cal_type_header); ("cal_data", struct_audio_cal_data)].

Definition struct_audio_cal_dealloc : ctype := struct [
  ("hdr", struct_audio_cal_header); ("cal_type", struct_audio_cal_type_dealloc)].

Definition struct_audio_cal_type_prepare : ctype := struct [
  ("cal_hdr", struct_audio_cal_type_header); ("cal_data", struct_audio_cal_data)].

Definition struct_audio_cal_prepare : ctype := struct [
  ("hdr", struct_audio_cal_header); ("cal_type", struct_audio_cal_type_prepare)].

Definition struct_audio_cal_type_post : ctype := struct [
  ("cal_hdr", struct_audio_cal_type_header); ("cal_data", struct_audio_cal_data)].

Definition struct_audio_cal_post : ctype := struct [
  ("hdr", struct_audio_cal_header); ("cal_type", struct_audio_cal_type_post)].

Definition struct_audio_cal_info_metainfo : ctype := struct [
  ("nKey", c_u32)].

Definition struct_audio_cal_info_adm_top : ctype := struct [
  ("topology", c_int); ("acdb_id", c_int); ("path", c_int); ("app_type", c_int);
  ("sample_rate", c_int)].

Definition struct_audio_cal_info_audproc : ctype := struct [
  ("acdb_id", c_int); ("path", c_int); ("app_type", c_int); ("sample_rate", c_int)].

Definition struct_audio_cal_info_audvol : ctype := struct [
  ("acdb_id", c_int); ("path", c_int); ("app_type", c_int); ("vol_index", c_int)].

Definition struct_audio_cal_info_afe : ctype := struct [
  ("acdb_id", c_int); ("path", c_int); ("sample_rate", c_int)].

Definition struct_audio_cal_info_afe_top : ctype := struct [
  ("topology", c_int); ("acdb_id", c_int); ("path", c_int); ("sample_rate", c_int)].

Definition struct_audio_cal_info_asm_top : ctype := struct [
  ("topology", c_int); ("app_type", c_int)].

Definition struct_audio_cal_info_audstrm : ctype := struct [
  ("app_type", c_int)].

Definition struct_audio_cal_info_aanc : ctype := struct [
  ("acdb_id", c_int)].

Definition struct_audio_cal_hw_delay_entry : ctype := struct [
  ("sample_rate", c_u32); ("delay_usec", c_u32)].

Definition struct_audio_cal_hw_delay_data : ctype := struct [
  ("num_entries", c_u32); ("entry", CArray struct_audio_cal_hw_delay_entry MAX_HW_DELAY_ENTRIES)].

Definition struct_audio_cal_info_hw_delay : ctype := struct [
  ("acdb_id", c_int); ("path", c_int); ("property_type", c_int);
  ("data", struct_audio_cal_hw_delay_data)].

Definition struct_audio_cal_info_spk_prot_cfg : ctype := struct [
  ("r0", CArray c_int SP_V2_NUM_MAX_SPKRS); ("t0", CArray c_int SP_V2_NUM_MAX_SPKRS);
  ("quick_calib_flag", c_u32); ("mode", c_u32); ("sp_version", c_u32);
  ("limiter_th", CArray c_int SP_V2_NUM_MAX_SPKRS)].

Definition struct_audio_cal_info_sp_th_vi_ftm_cfg : ctype := struct [
  ("mode", c_u32); ("wait_time", CArray c_u32 SP_V2_NUM_MAX_SPKRS);
  ("ftm_time", CArray c_u32 SP_V2_NUM_MAX_SPKRS)].

Definition struct_audio_cal_info_sp_th_vi_v_vali_cfg : ctype := struct [
  ("mode", c_u32); ("wait_time", CArray c_u32 SP_V2_NUM_MAX_SPKRS);
  ("vali_time", CArray c_u32 SP_V2_NUM_MAX_SPKRS)].

Definition struct_audio_cal_info_sp_ex_vi_ftm_cfg : ctype := struct [
  ("wait_time", CArray c_u32 SP_V2_NUM_MAX_SPKRS);
  ("ftm_time", CArray c_u32 SP_V2_NUM_MAX_SPKRS); ("mode", c_u32)].

Definition struct_audio_cal_info_sp_ex_vi_param : ctype := struct [
  ("freq_q20", CArray c_int SP_V2_NUM_MAX_SPKRS);
  ("resis_q24", CArray c_int SP_V2_NUM_MAX_SPKRS);
  ("qmct_q24", CArray c_int SP_V2_NUM_MAX_SPKRS); ("status", CArray c_int SP_V2_NUM_MAX_SPKRS)].

Definition struct_audio_cal_info_sp_v4_ex_vi_param : ctype := struct [
  ("ftm_re_q24", CArray c_int SP_V2_NUM_MAX_SPKRS);
  ("ftm_Bl_q24", CArray c_int SP_V2_NUM_MAX_SPKRS);
  ("ftm_Rms_q24", CArray c_int SP_V2_NUM_MAX_SPKRS);
  ("ftm_Kms_q24", CArray c_int SP_V2_NUM_MAX_SPKRS);
  ("ftm_freq_q20", CArray c_int SP_V2_NUM_MAX_SPKRS);
  ("ftm_Qms_q24", CArray c_int SP_V2_NUM_MAX_SPKRS); ("status", CArray c_u32 SP_V2_NUM_MAX_SPKRS)].

Definition struct_audio_cal_info_sp_th_vi_param : ctype := struct [
  ("mode", c_u32); ("r_dc_q24", CArray c_int SP_V2_NUM_MAX_SPKRS);
  ("temp_q22", CArray c_int SP_V2_NUM_MAX_SPKRS); ("status", CArray c_int SP_V2_NUM_MAX_SPKRS)].

Definition struct_audio_cal_info_sp_th_vi_v_vali_param : ctype := struct [
  ("mode", c_u32); ("vrms_q24", CArray c_u32 SP_V2_NUM_MAX_SPKRS);
  ("status", CArray c_int SP_V2_NUM_MAX_SPKRS)].

Definition struct_audio_cal_info_msm_spk_prot_status : ctype := struct [
  ("r0", CArray c_int SP_V2_NUM_MAX_SPKRS); ("status", c_int)].

Definition struct_audio_cal_info_sidetone : ctype := struct [
  ("enable", c_u16); ("gain", c_u16); ("tx_acdb_id", c_int); ("rx_acdb_id", c_int);
  ("mid", c_int); ("pid", c_int)].

Definition struct_audio_cal_info_sidetone_iir : ctype := struct [
  ("iir_enable", c_u16); ("num_biquad_stages", c_u16); ("pregain", c_u16); ("tx_acdb_id", c_int);
  ("rx_acdb_id", c_int); ("mid", c_int); ("pid", c_int);
  ("iir_config", CArray c_u8 MAX_SIDETONE_IIR_DATA_SIZE)].

Definition struct_audio_cal_info_lsm_top : ctype := struct [
  ("topology", c_int); ("acdb_id", c_int); ("app_type", c_int)].

Definition struct_audio_cal_info_lsm : ctype := struct [
  ("acdb_id", c_int); ("path", c_int); ("app_type", c_int)].

Definition struct_audio_cal_info_voc_top : ctype := struct [
  ("topology", c_int); ("acdb_id", c_int); ("num_channels", c_u32);
  ("channel_mapping", CArray c_u8 VSS_NUM_CHANNELS_MAX)].

Definition struct_audio_cal_info_vocproc : ctype := struct [
  ("tx_acdb_id", c_int); ("rx_acdb_id", c_int); ("tx_sample_rate", c_int);
  ("rx_sample_rate", c_int)].

Definition struct_audio_cal_info_vocvol : ctype := struct [
  ("tx_acdb_id", c_int); ("rx_acdb_id", c_int); ("feature_set", c_int)].

Definition struct_audio_cal_info_vocdev_cfg : ctype := struct [
  ("tx_acdb_id", c_int); ("rx_acdb_id", c_int)].

Definition union_audio_cal_col_na : ctype := packed_union [
  ("val8", c_u8); ("val16", c_u16); ("val32", c_u32); ("val64", c_u64)].

Definition struct_audio_cal_col : ctype := packed_struct [
  ("id", c_u32); ("type", c_u32); ("na_value", union_audio_cal_col_na)].

Definition struct_audio_cal_col_data : ctype := packed_struct [
  ("num_columns", c_u32); ("column", CArray struct_audio_cal_col MAX_VOICE_COLUMNS)].

Definition struct_audio_cal_info_voc_col : ctype := struct [
  ("table_id", c_int); ("tx_acdb_id", c_int); ("rx_acdb_id", c_int);
  ("data", struct_audio_cal_col_data)].

Definition struct_audio_cal_type_basic : ctype := struct [
  ("cal_hdr", struct_audio_cal_type_header); ("cal_data", struct_audio_cal_data)].

Definition struct_audio_cal_basic : ctype := struct [
  ("hdr", struct_audio_cal_header); ("cal_type", struct_audio_cal_type_basic)].

Definition struct_audio_cal_type_adm_top : ctype := struct [
  ("cal_hdr", struct_audio_cal_type_header); ("cal_data", struct_audio_cal_data);
  ("cal_info", struct_audio_cal_info_adm_top)].

Definition struct_audio_cal_adm_top : ctype := struct [
  ("hdr", struct_audio_cal_header); ("cal_type", struct_audio_cal_type_adm_top)].

Definition struct_audio_cal_type_metainfo : ctype := struct [
  ("cal_hdr", struct_audio_cal_type_header); ("cal_data", struct_audio_cal_data);
  ("cal_info", struct_audio_cal_info_metainfo)].

Definition struct_audio_core_metainfo : ctype := struct [
  ("hdr", struct_audio_cal_header); ("cal_type", struct_audio_cal_type_metainfo)].

Definition struct_audio_cal_type_audproc : ctype := struct [
  ("cal_hdr", struct_audio_cal_type_header); ("cal_data", struct_audio_cal_data);
  ("cal_info", struct_audio_cal_info_audproc)].

Definition struct_audio_cal_audproc : ctype := struct [
  ("hdr", struct_audio_cal_header); ("cal_type", struct_audio_cal_type_audproc)].

Definition struct_audio_cal_type_audvol : ctype := struct [
  ("cal_hdr", struct_audio_cal_type_header); ("cal_data", struct_audio_cal_data);
  ("cal_info", struct_audio_cal_info_audvol)].

Definition struct_audio_cal_audvol : ctype := struct [
  ("hdr", struct_audio_cal_header); ("cal_type", struct_audio_cal_type_audvol)].

Definition struct_audio_cal_type_asm_top : ctype := struct [
  ("cal_hdr", struct_audio_cal_type_header); ("cal_data", struct_audio_cal_data);
  ("cal_info", struct_audio_cal_info_asm_top)].

Definition struct_audio_cal_asm_top : ctype := struct [
  ("hdr", struct_audio_cal_header); ("cal_type", struct_audio_cal_type_asm_top)].

Definition struct_audio_cal_type_audstrm : ctype := struct [
  ("cal_hdr", struct_audio_cal_type_header); ("cal_data", struct_audio_cal_data);
  ("cal_info", struct_audio_cal_info_audstrm)].

Definition struct_audio_cal_audstrm : ctype := struct [
  ("hdr", struct_audio_cal_header); ("cal_type", struct_audio_cal_type_audstrm)].

Definition struct_audio_cal_type_afe : ctype := struct [
  ("cal_hdr", struct_audio_cal_type_header); ("cal_data", struct_audio_cal_data);
  ("cal_info", struct_audio_cal_info_afe)].

Definition struct_audio_cal_afe : ctype := struct [
  ("hdr", struct_audio_cal_header); ("cal_type", struct_audio_cal_type_afe)].

Definition struct_audio_cal_type_afe_top : ctype := struct [
  ("cal_hdr", struct_audio_cal_type_header); ("cal_data", struct_audio_cal_data);
  ("cal_info", struct_audio_cal_info_afe_top)].

Definition struct_audio_cal_afe_top : ctype := struct [
  ("hdr", struct_audio_cal_header); ("cal_type", struct_audio_cal_type_afe_top)].

Definition struct_audio_cal_type_aanc : ctype := struct [
  ("cal_hdr", struct_audio_cal_type_header); ("cal_data", struct_audio_cal_data);
  ("cal_info", struct_audio_cal_info_aanc)].

Definition struct_audio_cal_aanc : ctype := struct [
  ("hdr", struct_audio_cal_header); ("cal_type", struct_audio_cal_type_aanc)].

Definition struct_audio_cal_type_fb_spk_prot_cfg : ctype := struct [
  ("cal_hdr", struct_audio_cal_type_header); ("cal_data", struct_audio_cal_data);
  ("cal_info", struct_audio_cal_info_spk_prot_cfg)].

Definition struct_audio_cal_fb_spk_prot_cfg : ctype := struct [
  ("hdr", struct_audio_cal_header); ("cal_type", struct_audio_cal_type_fb_spk_prot_cfg)].

Definition struct_audio_cal_type_sp_th_vi_ftm_cfg : ctype := struct [
  ("cal_hdr", struct_audio_cal_type_header); ("cal_data", struct_audio_cal_data);
  ("cal_info", struct_audio_cal_info_sp_th_vi_ftm_cfg)].

Definition struct_audio_cal_sp_th_vi_ftm_cfg : ctype := struct [
  ("hdr", struct_audio_cal_header); ("cal_type", struct_audio_cal_type_sp_th_vi_ftm_cfg)].

Definition struct_audio_cal_type_sp_th_vi_v_vali_cfg : ctype := struct [
  ("cal_hdr", struct_audio_cal_type_header); ("cal_data", struct_audio_cal_data);
  ("cal_info", struct_audio_cal_info_sp_th_vi_v_vali_cfg)].

Definition struct_audio_cal_sp_th_vi_v_vali_cfg : ctype := struct [
  ("hdr", struct_audio_cal_header); ("cal_type", struct_audio_cal_type_sp_th_vi_v_vali_cfg)].

Definition struct_audio_cal_type_sp_ex_vi_ftm_cfg : ctype := struct [
  ("cal_hdr", struct_audio_cal_type_header); ("cal_data", struct_audio_cal_data);
  ("cal_info", struct_audio_cal_info_sp_ex_vi_ftm_cfg)].

Definition struct_audio_cal_sp_ex_vi_ftm_cfg : ctype := struct [
  ("hdr", struct_audio_cal_header); ("cal_type", struct_audio_cal_type_sp_ex_vi_ftm_cfg)].

Definition struct_audio_cal_type_hw_delay : ctype := struct [
  ("cal_hdr", struct_audio_cal_type_header); ("cal_data", struct_audio_cal_data);
  ("cal_info", struct_audio_cal_info_hw_delay)].

Definition struct_audio_cal_hw_delay : ctype := struct [
  ("hdr", struct_audio_cal_header); ("cal_type", struct_audio_cal_type_hw_delay)].

Definition struct_audio_cal_type_sidetone : ctype := struct [
  ("cal_hdr", struct_audio_cal_type_header); ("cal_data", struct_audio_cal_data);
  ("cal_info", struct_audio_cal_info_sidetone)].

Definition struct_audio_cal_sidetone : ctype := struct [
  ("hdr", struct_audio_cal_header); ("cal_type", struct_audio_cal_type_sidetone)].

Definition struct_audio_cal_type_sidetone_iir : ctype := struct [
  ("cal_hdr", struct_audio_cal_type_header); ("cal_data", struct_audio_cal_data);
  ("cal_info", struct_audio_cal_info_sidetone_iir)].

Definition struct_audio_cal_sidetone_iir : ctype := struct [
  ("hdr", struct_audio_cal_header); ("cal_type", struct_audio_cal_type_sidetone_iir)].

Definition struct_audio_cal_type_lsm_top : ctype := struct [
  ("cal_hdr", struct_audio_cal_type_header); ("cal_data", struct_audio_cal_data);
  ("cal_info", struct_audio_cal_info_lsm_top)].

Definition struct_audio_cal_lsm_top : ctype := struct [
  ("hdr", struct_audio_cal_header); ("cal_type", struct_audio_cal_type_lsm_top)].

Definition struct_audio_cal_type_lsm : ctype := struct [
  ("cal_hdr", struct_audio_cal_type_header); ("cal_data", struct_audio_cal_data);
  ("cal_info", struct_audio_cal_info_lsm)].

Definition struct_audio_cal_lsm : ctype := struct [
  ("hdr", struct_audio_cal_header); ("cal_type", struct_audio_cal_type_lsm)].

Definition struct_audio_cal_type_voc_top : ctype := struct [
  ("cal_hdr", struct_audio_cal_type_header); ("cal_data", struct_audio_cal_data);
  ("cal_info", struct_audio_cal_info_voc_top)].

Definition struct_audio_cal_voc_top : ctype := struct [
  ("hdr", struct_audio_cal_header); ("cal_type", struct_audio_cal_type_voc_top)].

Definition struct_audio_cal_type_vocproc : ctype := struct [
  ("cal_hdr", struct_audio_cal_type_header); ("cal_data", struct_audio_cal_data);
  ("cal_info", struct_audio_cal_info_vocproc)].

Definition struct_audio_cal_vocproc : ctype := struct [
  ("hdr", struct_audio_cal_header); ("cal_type", struct_audio_cal_type_vocproc)].

Definition struct_audio_cal_type_vocvol : ctype := struct [
  ("cal_hdr", struct_audio_cal_type_header); ("cal_data", struct_audio_cal_data);
  ("cal_info", struct_audio_cal_info_vocvol)].

Definition struct_audio_cal_vocvol : ctype := struct [
  ("hdr", struct_audio_cal_header); ("cal_type", struct_audio_cal_type_vocvol)].

Definition struct_audio_cal_type_vocdev_cfg : ctype := struct [
  ("cal_hdr", struct_audio_cal_type_header); ("cal_data", struct_audio_cal_data);
  ("cal_info", struct_audio_cal_info_vocdev_cfg)].

Definition struct_audio_cal_vocdev_cfg : ctype := struct [
  ("hdr", struct_audio_cal_header); ("cal_type", struct_audio_cal_type_vocdev_cfg)].

Definition struct_audio_cal_type_voc_col : ctype := struct [
  ("cal_hdr", struct_audio_cal_type_header); ("cal_data", struct_audio_cal_data);
  ("cal_info", struct_audio_cal_info_voc_col)].

Definition struct_audio_cal_voc_col : ctype := struct [
  ("hdr", struct_audio_cal_header); ("cal_type", struct_audio_cal_type_voc_col)].

Definition struct_audio_cal_type_fb_spk_prot_status : ctype := struct [
  ("cal_hdr", struct_audio_cal_type_header); ("cal_data", struct_audio_cal_data);
  ("cal_info", struct_audio_cal_info_msm_spk_prot_status)].

Definition struct_audio_cal_fb_spk_prot_status : ctype := struct [
  ("hdr", struct_audio_cal_header); ("cal_type", struct_audio_cal_type_fb_spk_prot_status)].

Definition struct_audio_cal_type_sp_th_vi_param : ctype := struct [
  ("cal_hdr", struct_audio_cal_type_header); ("cal_data", struct_audio_cal_data);
  ("cal_info", struct_audio_cal_info_sp_th_vi_param)].

Definition struct_audio_cal_sp_th_vi_param : ctype := struct [
  ("hdr", struct_audio_cal_header); ("cal_type", struct_audio_cal_type_sp_th_vi_param)].

Definition struct_audio_cal_type_sp_th_vi_v_vali_param : ctype := struct [
  ("cal_hdr", struct_audio_cal_type_header); ("cal_data", struct_audio_cal_data);
  ("cal_info", struct_audio_cal_info_sp_th_vi_v_vali_param)].

Definition struct_audio_cal_sp_th_vi_v_vali_param : ctype := struct [
  ("hdr", struct_audio_cal_header); ("cal_type", struct_audio_cal_type_sp_th_vi_v_vali_param)].

Definition struct_audio_cal_type_sp_ex_vi_param : ctype := struct [
  ("cal_hdr", struct_audio_cal_type_header); ("cal_data", struct_audio_cal_data);
  ("cal_info", struct_audio_cal_info_sp_ex_vi_param)].

Definition struct_audio_cal_sp_ex_vi_param : ctype := struct [
  ("hdr", struct_audio_cal_header); ("cal_type", struct_audio_cal_type_sp_ex_vi_param)].

Definition struct_audio_cal_type_sp_v4_ex_vi_param : ctype := struct [
  ("cal_hdr", struct_audio_cal_type_header); ("cal_data", struct_audio_cal_data);
  ("cal_info", struct_audio_cal_info_sp_v4_ex_vi_param)].

Definition struct_audio_cal_sp_v4_ex_vi_param : ctype := struct [
  ("hdr", struct_audio_cal_header); ("cal_type", struct_audio_cal_type_sp_v4_ex_vi_param)].

Definition AUDIO_ALLOCATE_CALIBRATION : ioctl_req := IOWR CAL_IOCTL_MAGIC 200 CPtr.
Definition AUDIO_DEALLOCATE_CALIBRATION : ioctl_req := IOWR CAL_IOCTL_MAGIC 201 CPtr.
Definition AUDIO_PREPARE_CALIBRATION : ioctl_req := IOWR CAL_IOCTL_MAGIC 202 CPtr.
Definition AUDIO_SET_CALIBRATION : ioctl_req := IOWR CAL_IOCTL_MAGIC 203 CPtr.
Definition AUDIO_GET_CALIBRATION : ioctl_req := IOWR CAL_IOCTL_MAGIC 204 CPtr.
Definition AUDIO_POST_CALIBRATION : ioctl_req := IOWR CAL_IOCTL_MAGIC 205 CPtr.
Definition AUDIO_GET_RTAC_ADM_INFO : ioctl_req := IOR CAL_IOCTL_MAGIC 207 CPtr.
Definition AUDIO_GET_RTAC_VOICE_INFO : ioctl_req := IOR CAL_IOCTL_MAGIC 208 CPtr.
Definition AUDIO_GET_RTAC_ADM_CAL : ioctl_req := IOWR CAL_IOCTL_MAGIC 209 CPtr.
Definition AUDIO_SET_RTAC_ADM_CAL : ioctl_req := IOWR CAL_IOCTL_MAGIC 210 CPtr.
Definition AUDIO_GET_RTAC_ASM_CAL : ioctl_req := IOWR CAL_IOCTL_MAGIC 211 CPtr.
Definition AUDIO_SET_RTAC_ASM_CAL : ioctl_req := IOWR CAL_IOCTL_MAGIC 212 CPtr.
Definition AUDIO_GET_RTAC_CVS_CAL : ioctl_req := IOWR CAL_IOCTL_MAGIC 213 CPtr.
Definition AUDIO_SET_RTAC_CVS_CAL : ioctl_req := IOWR CAL_IOCTL_MAGIC 214 CPtr.
Definition AUDIO_GET_RTAC_CVP_CAL : ioctl_req := IOWR CAL_IOCTL_MAGIC 215 CPtr.
Definition AUDIO_SET_RTAC_CVP_CAL : ioctl_req := IOWR CAL_IOCTL_MAGIC 216 CPtr.
Definition AUDIO_GET_RTAC_AFE_CAL : ioctl_req := IOWR CAL_IOCTL_MAGIC 217 CPtr.
Definition AUDIO_SET_RTAC_AFE_CAL : ioctl_req := IOWR CAL_IOCTL_MAGIC 218 CPtr.

Definition msm_audio_calibration_requests (a : abi) : list (string * ioctl_req) :=
  [("AUDIO_ALLOCATE_CALIBRATION", AUDIO_ALLOCATE_CALIBRATION);
   ("AUDIO_DEALLOCATE_CALIBRATION", AUDIO_DEALLOCATE_CALIBRATION);
   ("AUDIO_PREPARE_CALIBRATION", AUDIO_PREPARE_CALIBRATION);
   ("AUDIO_SET_CALIBRATION", AUDIO_SET_CALIBRATION);
   ("AUDIO_GET_CALIBRATION", AUDIO_GET_CALIBRATION);
   ("AUDIO_POST_CALIBRATION", AUDIO_POST_CALIBRATION);
   ("AUDIO_GET_RTAC_ADM_INFO", AUDIO_GET_RTAC_ADM_INFO);
   ("AUDIO_GET_RTAC_VOICE_INFO", AUDIO_GET_RTAC_VOICE_INFO);
   ("AUDIO_GET_RTAC_ADM_CAL", AUDIO_GET_RTAC_ADM_CAL);
   ("AUDIO_SET_RTAC_ADM_CAL", AUDIO_SET_RTAC_ADM_CAL);
   ("AUDIO_GET_RTAC_ASM_CAL", AUDIO_GET_RTAC_ASM_CAL);
   ("AUDIO_SET_RTAC_ASM_CAL", AUDIO_SET_RTAC_ASM_CAL);
   ("AUDIO_GET_RTAC_CVS_CAL", AUDIO_GET_RTAC_CVS_CAL);
   ("AUDIO_SET_RTAC_CVS_CAL", AUDIO_SET_RTAC_CVS_CAL);
   ("AUDIO_GET_RTAC_CVP_CAL", AUDIO_GET_RTAC_CVP_CAL);
   ("AUDIO_SET_RTAC_CVP_CAL", AUDIO_SET_RTAC_CVP_CAL);
   ("AUDIO_GET_RTAC_AFE_CAL", AUDIO_GET_RTAC_AFE_CAL);
   ("AUDIO_SET_RTAC_AFE_CAL", AUDIO_SET_RTAC_AFE_CAL)].

(** ** [linux/avtimer.h] *)

Definition MAJOR_NUM : Z := 100.

Definition IOCTL_GET_AVTIMER_TICK : ioctl_req := IOR MAJOR_NUM 0 c_u64.

Definition avtimer_requests (a : abi) : list (string * ioctl_req) :=
  [("IOCTL_GET_AVTIMER_TICK", IOCTL_GET_AVTIMER_TICK)].

(** ** [linux/wcd-spi-ac-params.h] *)

Definition WCD_SPI_AC_MAX_CH_PER_BUF : Z := 8.

Definition struct_wcd_spi_ac_buf_data : ctype := packed_struct [
  ("addr", CArray c_u32 WCD_SPI_AC_MAX_CH_PER_BUF)].

Definition struct_wcd_spi_ac_write_cmd : ctype := packed_struct [
  ("cmd_type", c_u32); ("payload", CArray c_u8 0)].

(** ** [sound/lsm_params.h] *)

Definition LSM_MAX_STAGES_PER_SESSION : Z := 2.

Definition struct_snd_lsm_ep_det_thres : ctype := struct [
  ("epd_begin", c_u32); ("epd_end", c_u32)].

Definition struct_snd_lsm_detect_mode : ctype := struct [
  ("mode", c_enum); ("detect_failure", c_u8)].

Definition struct_snd_lsm_gain : ctype := struct [
  ("gain", c_u16)].

Definition struct_snd_lsm_poll_enable : ctype := struct [
  ("poll_en", c_u8)].

Definition struct_snd_lsm_det_event_type : ctype := struct [
  ("event_type", c_u32); ("mode", c_u32)].

Definition struct_snd_lsm_sound_model_v2 : ctype := struct [
  ("data", CPtr); ("confidence_level", CPtr); ("data_size", c_u32); ("detection_mode", c_enum);
  ("num_confidence_levels", c_u8); ("detect_failure", c_u8)].

Definition struct_snd_lsm_session_data : ctype := struct [
  ("app_id", c_enum)].

Definition struct_snd_lsm_stage_info : ctype := struct [
  ("app_type", c_u32); ("lpi_enable", c_u32)].

Definition struct_snd_lsm_session_data_v2 : ctype := struct [
  ("app_id", c_enum); ("num_stages", c_u32);
  ("stage_info", CArray struct_snd_lsm_stage_info LSM_MAX_STAGES_PER_SESSION)].

Definition struct_snd_lsm_lab_control : ctype := struct [
  ("enable", c_u32)].

Definition struct_snd_lsm_event_status : ctype := struct [
  ("status", c_u16); ("payload_size", c_u16); ("payload", CArray c_u8 0)].

Definition struct_snd_lsm_event_status_v3 : ctype := struct [
  ("timestamp_lsw", c_u32); ("timestamp_msw", c_u32); ("status", c_u16); ("payload_size", c_u16);
  ("payload", CArray c_u8 0)].

Definition struct_snd_lsm_detection_params : ctype := struct [
  ("conf_level", CPtr); ("detect_mode", c_enum); ("num_confidence_levels", c_u8);
  ("detect_failure", c_u8); ("poll_enable", c_u8)].

Definition struct_lsm_params_info : ctype := struct [
  ("module_id", c_u32); ("param_id", c_u32); ("param_size", c_u32); ("param_data", CPtr);
  ("param_type", c_u32)].

Definition struct_lsm_params_info_v2 : ctype := struct [
  ("module_id", c_u32); ("param_id", c_u32); ("param_size", c_u32); ("param_data", CPtr);
  ("param_type", c_u32); ("instance_id", c_u16); ("stage_idx", c_u16); ("model_id", c_u32)].

Definition struct_snd_lsm_module_params : ctype := struct [
  ("params", CPtr); ("num_params", c_u32); ("data_size", c_u32)].

Definition struct_snd_lsm_output_format_cfg : ctype := struct [
  ("format", c_u8); ("packing", c_u8); ("events", c_u8); ("mode", c_u8)].

Definition struct_snd_lsm_input_hw_params : ctype := packed_struct [
  ("sample_rate", c_u32); ("bit_width", c_u16); ("num_channels", c_u16)].

Definition struct_lsm_params_get_info : ctype := packed_struct [
  ("module_id", c_u32); ("instance_id", c_u16); ("reserved", c_u16); ("param_id", c_u32);
  ("param_size", c_u32); ("param_type", c_u32); ("stage_idx", c_u16); ("payload", CArray c_u8 0)].

Definition SNDRV_LSM_DEREG_SND_MODEL : ioctl_req := IOW (chr "U") 0x01 c_int.
Definition SNDRV_LSM_EVENT_STATUS : ioctl_req := IOW (chr "U") 0x02 struct_snd_lsm_event_status.
Definition SNDRV_LSM_ABORT_EVENT : ioctl_req := IOW (chr "U") 0x03 c_int.
Definition SNDRV_LSM_START : ioctl_req := IOW (chr "U") 0x04 c_int.
Definition SNDRV_LSM_STOP : ioctl_req := IOW (chr "U") 0x05 c_int.
Definition SNDRV_LSM_SET_SESSION_DATA : ioctl_req := IOW (chr "U") 0x06 struct_snd_lsm_session_data.
Definition SNDRV_LSM_REG_SND_MODEL_V2 : ioctl_req := IOW (chr "U") 0x07 struct_snd_lsm_sound_model_v2.
Definition SNDRV_LSM_LAB_CONTROL : ioctl_req := IOW (chr "U") 0x08 c_u32.
Definition SNDRV_LSM_STOP_LAB : ioctl_req := IO (chr "U") 0x09.
Definition SNDRV_LSM_SET_PARAMS : ioctl_req := IOW (chr "U") 0x0A struct_snd_lsm_detection_params.
Definition SNDRV_LSM_SET_MODULE_PARAMS : ioctl_req := IOW (chr "U") 0x0B struct_snd_lsm_module_params.
Definition SNDRV_LSM_OUT_FORMAT_CFG : ioctl_req := IOW (chr "U") 0x0C struct_snd_lsm_output_format_cfg.
Definition SNDRV_LSM_SET_PORT : ioctl_req := IO (chr "U") 0x0D.
Definition SNDRV_LSM_SET_FWK_MODE_CONFIG : ioctl_req := IOW (chr "U") 0x0E c_u32.
Definition SNDRV_LSM_EVENT_STATUS_V3 : ioctl_req := IOW (chr "U") 0x0F struct_snd_lsm_event_status_v3.
Definition SNDRV_LSM_GENERIC_DET_EVENT : ioctl_req := IOW (chr "U") 0x10 struct_snd_lsm_event_status.
Definition SNDRV_LSM_SET_INPUT_HW_PARAMS : ioctl_req := IOW (chr "U") 0x11 struct_snd_lsm_input_hw_params.
Definition SNDRV_LSM_SET_SESSION_DATA_V2 : ioctl_req := IOW (chr "U") 0x12 struct_snd_lsm_session_data_v2.
Definition SNDRV_LSM_SET_MODULE_PARAMS_V2 : ioctl_req := IOW (chr "U") 0x13 struct_snd_lsm_module_params.
Definition SNDRV_LSM_GET_MODULE_PARAMS : ioctl_req := IOWR (chr "U") 0x14 struct_lsm_params_get_info.

Definition lsm_params_requests (a : abi) : list (string * ioctl_req) :=
  [("SNDRV_LSM_DEREG_SND_MODEL", SNDRV_LSM_DEREG_SND_MODEL);
   ("SNDRV_LSM_EVENT_STATUS", SNDRV_LSM_EVENT_STATUS);
   ("SNDRV_LSM_ABORT_EVENT", SNDRV_LSM_ABORT_EVENT);
   ("SNDRV_LSM_START", SNDRV_LSM_START);
   ("SNDRV_LSM_STOP", SNDRV_LSM_STOP);
   ("SNDRV_LSM_SET_SESSION_DATA", SNDRV_LSM_SET_SESSION_DATA);
   ("SNDRV_LSM_REG_SND_MODEL_V2", SNDRV_LSM_REG_SND_MODEL_V2);
   ("SNDRV_LSM_LAB_CONTROL", SNDRV_LSM_LAB_CONTROL);
   ("SNDRV_LSM_STOP_LAB", SNDRV_LSM_STOP_LAB);
   ("SNDRV_LSM_SET_PARAMS", SNDRV_LSM_SET_PARAMS);
   ("SNDRV_LSM_SET_MODULE_PARAMS", SNDRV_LSM_SET_MODULE_PARAMS);
   ("SNDRV_LSM_OUT_FORMAT_CFG", SNDRV_LSM_OUT_FORMAT_CFG);
   ("SNDRV_LSM_SET_PORT", SNDRV_LSM_SET_PORT);
   ("SNDRV_LSM_SET_FWK_MODE_CONFIG", SNDRV_LSM_SET_FWK_MODE_CONFIG);
   ("SNDRV_LSM_EVENT_STATUS_V3", SNDRV_LSM_EVENT_STATUS_V3);
   ("SNDRV_LSM_GENERIC_DET_EVENT", SNDRV_LSM_GENERIC_DET_EVENT);
   ("SNDRV_LSM_SET_INPUT_HW_PARAMS", SNDRV_LSM_SET_INPUT_HW_PARAMS);
   ("SNDRV_LSM_SET_SESSION_DATA_V2", SNDRV_LSM_SET_SESSION_DATA_V2);
   ("SNDRV_LSM_SET_MODULE_PARAMS_V2", SNDRV_LSM_SET_MODULE_PARAMS_V2);
   ("SNDRV_LSM_GET_MODULE_PARAMS", SNDRV_LSM_GET_MODULE_PARAMS)].

(** ** [sound/devdep_params.h] *)

Definition EAGLE_DRIVER_ID : Z := 0xF2.

Definition struct_dolby_param_data : ctype := struct [
  ("version", c_int); ("device_id", c_int); ("be_id", c_int); ("param_id", c_int);
  ("length", c_int); ("data", CPtr)].

Definition struct_dolby_param_license : ctype := struct [
  ("dmid", c_int); ("license_key", c_int)].

Definition struct_dts_eagle_param_desc : ctype := packed_struct [
  ("id", c_u32); ("size", c_u32); ("offset", c_int); ("device", c_u32)].

Definition struct_snd_pcm_mmap_fd : ctype := struct [
  ("dir", c_int); ("fd", c_int); ("size", c_int); ("actual_size", c_int)].

Definition struct_snd_pcm_prsnt_position : ctype := struct [
  ("timestamp", c_u64); ("frames", c_u64); ("clock_id", c_int)].

Definition SNDRV_DEVDEP_DAP_IOCTL_SET_PARAM : ioctl_req := IOWR (chr "U") 0x10 struct_dolby_param_data.
Definition SNDRV_DEVDEP_DAP_IOCTL_GET_PARAM : ioctl_req := IOR (chr "U") 0x11 struct_dolby_param_data.
Definition SNDRV_DEVDEP_DAP_IOCTL_DAP_COMMAND : ioctl_req := IOWR (chr "U") 0x13 struct_dolby_param_data.
Definition SNDRV_DEVDEP_DAP_IOCTL_DAP_LICENSE : ioctl_req := IOWR (chr "U") 0x14 struct_dolby_param_license.
Definition SNDRV_DEVDEP_DAP_IOCTL_GET_VISUALIZER : ioctl_req := IOR (chr "U") 0x15 struct_dolby_param_data.
Definition DTS_EAGLE_IOCTL_GET_CACHE_SIZE : ioctl_req := IOR EAGLE_DRIVER_ID 0 c_int.
Definition DTS_EAGLE_IOCTL_SET_CACHE_SIZE : ioctl_req := IOW EAGLE_DRIVER_ID 1 c_int.
Definition DTS_EAGLE_IOCTL_GET_PARAM : ioctl_req := IOR EAGLE_DRIVER_ID 2 CPtr.
Definition DTS_EAGLE_IOCTL_SET_PARAM : ioctl_req := IOW EAGLE_DRIVER_ID 3 CPtr.
Definition DTS_EAGLE_IOCTL_SET_CACHE_BLOCK : ioctl_req := IOW EAGLE_DRIVER_ID 4 CPtr.
Definition DTS_EAGLE_IOCTL_SET_ACTIVE_DEVICE : ioctl_req := IOW EAGLE_DRIVER_ID 5 CPtr.
Definition DTS_EAGLE_IOCTL_GET_LICENSE : ioctl_req := IOR EAGLE_DRIVER_ID 6 CPtr.
Definition DTS_EAGLE_IOCTL_SET_LICENSE : ioctl_req := IOW EAGLE_DRIVER_ID 7 CPtr.
Definition DTS_EAGLE_IOCTL_SEND_LICENSE : ioctl_req := IOW EAGLE_DRIVER_ID 8 c_int.
Definition DTS_EAGLE_IOCTL_SET_VOLUME_COMMANDS : ioctl_req := IOW EAGLE_DRIVER_ID 9 CPtr.
Definition SNDRV_PCM_IOCTL_MMAP_DATA_FD : ioctl_req := IOWR (chr "U") 0xd2 struct_snd_pcm_mmap_fd.
Definition SNDRV_PCM_IOCTL_DSP_POSITION : ioctl_req := IOWR (chr "U") 0xd3 struct_snd_pcm_prsnt_position.

Definition devdep_params_requests (a : abi) : list (string * ioctl_req) :=
  [("SNDRV_DEVDEP_DAP_IOCTL_SET_PARAM", SNDRV_DEVDEP_DAP_IOCTL_SET_PARAM);
   ("SNDRV_DEVDEP_DAP_IOCTL_GET_PARAM", SNDRV_DEVDEP_DAP_IOCTL_GET_PARAM);
   ("SNDRV_DEVDEP_DAP_IOCTL_DAP_COMMAND", SNDRV_DEVDEP_DAP_IOCTL_DAP_COMMAND);
   ("SNDRV_DEVDEP_DAP_IOCTL_DAP_LICENSE", SNDRV_DEVDEP_DAP_IOCTL_DAP_LICENSE);
   ("SNDRV_DEVDEP_DAP_IOCTL_GET_VISUALIZER", SNDRV_DEVDEP_DAP_IOCTL_GET_VISUALIZER);
   ("DTS_EAGLE_IOCTL_GET_CACHE_SIZE", DTS_EAGLE_IOCTL_GET_CACHE_SIZE);
   ("DTS_EAGLE_IOCTL_SET_CACHE_SIZE", DTS_EAGLE_IOCTL_SET_CACHE_SIZE);
   ("DTS_EAGLE_IOCTL_GET_PARAM", DTS_EAGLE_IOCTL_GET_PARAM);
   ("DTS_EAGLE_IOCTL_SET_PARAM", DTS_EAGLE_IOCTL_SET_PARAM);
   ("DTS_EAGLE_IOCTL_SET_CACHE_BLOCK", DTS_EAGLE_IOCTL_SET_CACHE_BLOCK);
   ("DTS_EAGLE_IOCTL_SET_ACTIVE_DEVICE", DTS_EAGLE_IOCTL_SET_ACTIVE_DEVICE);
   ("DTS_EAGLE_IOCTL_GET_LICENSE", DTS_EAGLE_IOCTL_GET_LICENSE);
   ("DTS_EAGLE_IOCTL_SET_LICENSE", DTS_EAGLE_IOCTL_SET_LICENSE);
   ("DTS_EAGLE_IOCTL_SEND_LICENSE", DTS_EAGLE_IOCTL_SEND_LICENSE);
   ("DTS_EAGLE_IOCTL_SET_VOLUME_COMMANDS", DTS_EAGLE_IOCTL_SET_VOLUME_COMMANDS);
   ("SNDRV_PCM_IOCTL_MMAP_DATA_FD", SNDRV_PCM_IOCTL_MMAP_DATA_FD);
   ("SNDRV_PCM_IOCTL_DSP_POSITION", SNDRV_PCM_IOCTL_DSP_POSITION)].

(** ** [sound/audio_effects.h] *)

Definition MAX_EQ_BANDS : Z := 12.

Definition struct_virtualizer_params : ctype := struct [
  ("device", c_u32); ("enable_flag", c_u32); ("strength", c_u32); ("out_type", c_u32);
  ("gain_adjust", c_int)].

Definition struct_reverb_params : ctype := struct [
  ("device", c_u32); ("enable_flag", c_u32); ("mode", c_u32); ("preset", c_u32);
  ("wet_mix", c_u32); ("gain_adjust", c_int); ("room_level", c_int); ("room_hf_level", c_int);
  ("decay_time", c_u32); ("decay_hf_ratio", c_u32); ("reflections_level", c_int);
  ("reflections_delay", c_u32); ("level", c_int); ("delay", c_u32); ("diffusion", c_u32);
  ("density", c_u32)].

Definition struct_bass_boost_params : ctype := struct [
  ("device", c_u32); ("enable_flag", c_u32); ("mode", c_u32); ("strength", c_u32)].

Definition struct_eq_config_t : ctype := struct [
  ("eq_pregain", c_int); ("preset_id", c_int); ("num_bands", c_u32)].

Definition struct_eq_per_band_config_t : ctype := struct [
  ("band_idx", c_int); ("filter_type", c_u32); ("freq_millihertz", c_u32);
  ("gain_millibels", c_int); ("quality_factor", c_u32)].

Definition struct_eq_per_band_freq_range_t : ctype := struct [
  ("band_index", c_u32); ("min_freq_millihertz", c_u32); ("max_freq_millihertz", c_u32)].

Definition struct_eq_params : ctype := struct [
  ("device", c_u32); ("enable_flag", c_u32); ("config", struct_eq_config_t);
  ("per_band_cfg", CArray struct_eq_per_band_config_t MAX_EQ_BANDS);
  ("per_band_freq_range", CArray struct_eq_per_band_freq_range_t MAX_EQ_BANDS);
  ("band_index", c_u32); ("freq_millihertz", c_u32)].

Definition struct_pbe_config_t : ctype := packed_struct [
  ("real_bass_mix", c_u16); ("bass_color_control", c_u16); ("main_chain_delay", c_u16);
  ("xover_filter_order", c_u16); ("bandpass_filter_order", c_u16); ("drc_delay", c_u16);
  ("rms_tav", c_u16); ("exp_threshold", c_u16); ("exp_slope", c_u16); ("comp_threshold", c_u16);
  ("comp_slope", c_u16); ("makeup_gain", c_u16); ("comp_attack", c_u32); ("comp_release", c_u32);
  ("exp_attack", c_u32); ("exp_release", c_u32); ("limiter_bass_threshold", c_u16);
  ("limiter_high_threshold", c_u16); ("limiter_bass_makeup_gain", c_u16);
  ("limiter_high_makeup_gain", c_u16); ("limiter_bass_gc", c_u16); ("limiter_high_gc", c_u16);
  ("limiter_delay", c_u16); ("reserved", c_u16); ("p1LowPassCoeffs", CArray c_int (5 * 2));
  ("p1HighPassCoeffs", CArray c_int (5 * 2)); ("p1BandPassCoeffs", CArray c_int (5 * 3));
  ("p1BassShelfCoeffs", CArray c_int 5); ("p1TrebleShelfCoeffs", CArray c_int 5)].

Definition struct_pbe_params : ctype := struct [
  ("device", c_u32); ("enable_flag", c_u32); ("cfg_len", c_u32); ("config", struct_pbe_config_t)].

Definition struct_soft_volume_params : ctype := struct [
  ("device", c_u32); ("enable_flag", c_u32); ("master_gain", c_u32); ("left_gain", c_u32);
  ("right_gain", c_u32)].

Definition struct_msm_nt_eff_all_config : ctype := struct [
  ("bass_boost", struct_bass_boost_params); ("pbe", struct_pbe_params);
  ("virtualizer", struct_virtualizer_params); ("reverb", struct_reverb_params);
  ("equalizer", struct_eq_params); ("saplus_vol", struct_soft_volume_params);
  ("topo_switch_vol", struct_soft_volume_params)].

(** ** [sound/audio_slimslave.h] *)

Definition AUDIO_SLIMSLAVE_MAGIC : Z := chr "S".

Definition AUDIO_SLIMSLAVE_IOCTL_UNVOTE : ioctl_req := IO AUDIO_SLIMSLAVE_MAGIC 0x00.
Definition AUDIO_SLIMSLAVE_IOCTL_VOTE : ioctl_req := IO AUDIO_SLIMSLAVE_MAGIC 0x01.

Definition audio_slimslave_requests (a : abi) : list (string * ioctl_req) :=
  [("AUDIO_SLIMSLAVE_IOCTL_UNVOTE", AUDIO_SLIMSLAVE_IOCTL_UNVOTE);
   ("AUDIO_SLIMSLAVE_IOCTL_VOTE", AUDIO_SLIMSLAVE_IOCTL_VOTE)].

(** ** [sound/audio_compressed_formats.h] *)

Definition struct_snd_generic_dec_aac : ctype := CAligned 4 (packed_struct [
  ("audio_obj_type", c_u16); ("pce_bits_size", c_u16)]).

Definition struct_snd_generic_dec_flac : ctype := CAligned 4 (packed_struct [
  ("sample_size", c_u16); ("min_blk_size", c_u16); ("max_blk_size", c_u16);
  ("min_frame_size", c_u16); ("max_frame_size", c_u16)]).

Definition struct_snd_generic_dec_alac : ctype := CAligned 4 (packed_struct [
  ("frame_length", c_u32); ("compatible_version", c_u8); ("bit_depth", c_u8); ("pb", c_u8);
  ("mb", c_u8); ("kb", c_u8); ("num_channels", c_u8); ("max_run", c_u16);
  ("max_frame_bytes", c_u32); ("avg_bit_rate", c_u32); ("sample_rate", c_u32);
  ("channel_layout_tag", c_u32)]).

Definition struct_snd_generic_dec_ape : ctype := CAligned 4 (packed_struct [
  ("compatible_version", c_u16); ("compression_level", c_u16); ("format_flags", c_u32);
  ("blocks_per_frame", c_u32); ("final_frame_blocks", c_u32); ("total_frames", c_u32);
  ("bits_per_sample", c_u16); ("num_channels", c_u16); ("sample_rate", c_u32);
  ("seek_table_present", c_u32)]).

Definition struct_snd_generic_dec_wma : ctype := CAligned 4 (packed_struct [
  ("super_block_align", c_u32); ("bits_per_sample", c_u32); ("channelmask", c_u32);
  ("encodeopt", c_u32); ("encodeopt1", c_u32); ("encodeopt2", c_u32); ("avg_bit_rate", c_u32)]).

Definition struct_snd_generic_dec_aptx : ctype := CAligned 4 (packed_struct [
  ("lap", c_u32); ("uap", c_u32); ("nap", c_u32)]).

Definition struct_snd_generic_dec_vorbis : ctype := CAligned 4 (packed_struct [
  ("bit_stream_fmt", c_u32)]).

Definition struct_snd_generic_dec_dsd : ctype := CAligned 4 (packed_struct [
  ("blk_size", c_u32)]).

Definition struct_snd_generic_dec_amrwb_plus : ctype := CAligned 4 (packed_struct [
  ("bit_stream_fmt", c_u32)]).

(** ** [sound/msmcal-hwdep.h] *)

Definition struct_wcdcal_ioctl_buffer : ctype := struct [
  ("size", c_u32); ("buffer", CPtr); ("cal_type", c_enum)].

Definition struct_q6afecal_ioctl_buffer : ctype := struct [
  ("size", c_u32); ("buffer", CPtr); ("cal_type", c_enum)].

Definition SNDRV_CTL_IOCTL_HWDEP_CAL_TYPE : ioctl_req := IOW (chr "U") 0x1 struct_wcdcal_ioctl_buffer.
Definition SNDRV_IOCTL_HWDEP_VAD_CAL_TYPE : ioctl_req := IOW (chr "U") 0x1 struct_q6afecal_ioctl_buffer.

Definition msmcal_hwdep_requests (a : abi) : list (string * ioctl_req) :=
  [("SNDRV_CTL_IOCTL_HWDEP_CAL_TYPE", SNDRV_CTL_IOCTL_HWDEP_CAL_TYPE);
   ("SNDRV_IOCTL_HWDEP_VAD_CAL_TYPE", SNDRV_IOCTL_HWDEP_VAD_CAL_TYPE)].

(** ** [sound/voice_params.h] *)

Definition SNDRV_VOICE_IOCTL_LCH : ioctl_req := IOW (chr "U") 0x00 c_enum.

Definition voice_params_requests (a : abi) : list (string * ioctl_req) :=
  [("SNDRV_VOICE_IOCTL_LCH", SNDRV_VOICE_IOCTL_LCH)].

(** ** [sound/wcd-dsp-glink.h] *)

Definition WDSP_CH_NAME_MAX_LEN : Z := 50.

Definition struct_wdsp_reg_pkt : ctype := struct [
  ("no_of_channels", c_u8); ("payload", CArray c_u8 0)].

Definition struct_wdsp_cmd_pkt : ctype := struct [
  ("ch_name", CArray c_u8 WDSP_CH_NAME_MAX_LEN); ("payload_size", c_u32);
  ("payload", CArray c_u8 0)].

Definition struct_wdsp_write_pkt : ctype := struct [
  ("pkt_type", c_u8); ("payload", CArray c_u8 0)].

Definition struct_wdsp_glink_ch_cfg : ctype := struct [
  ("name", CArray c_u8 WDSP_CH_NAME_MAX_LEN); ("latency_in_us", c_u32); ("no_of_intents", c_u32);
  ("intents_size", CArray c_u32 0)].

(** Every type of the file. *)
Definition uapiAudio_types (a : abi) : list (string * ctype) :=
  [("struct_msm_audio_config", struct_msm_audio_config);
   ("struct_msm_audio_stream_config", struct_msm_audio_stream_config);
   ("struct_msm_audio_buf_cfg", struct_msm_audio_buf_cfg);
   ("struct_msm_audio_stats", struct_msm_audio_stats);
   ("struct_msm_audio_ion_info", struct_msm_audio_ion_info);
   ("struct_msm_audio_pmem_info", struct_msm_audio_pmem_info);
   ("struct_msm_audio_aio_buf", struct_msm_audio_aio_buf);
   ("struct_msm_mute_info", struct_msm_mute_info);
   ("struct_msm_vol_info", struct_msm_vol_info);
   ("struct_msm_voicerec_mode", struct_msm_voicerec_mode);
   ("struct_msm_snd_device_config", struct_msm_snd_device_config);
   ("struct_cad_devices_type", struct_cad_devices_type);
   ("struct_msm_cad_device_config", struct_msm_cad_device_config);
   ("struct_msm_snd_volume_config", struct_msm_snd_volume_config);
   ("struct_msm_cad_volume_config", struct_msm_cad_volume_config);
   ("struct_msm_snd_endpoint", struct_msm_snd_endpoint);
   ("struct_msm_cad_endpoint", struct_msm_cad_endpoint);
   ("struct_msm_audio_pcm_config", struct_msm_audio_pcm_config);
   ("struct_msm_audio_bitstream_info", struct_msm_audio_bitstream_info);
   ("struct_msm_audio_bitstream_error_info", struct_msm_audio_bitstream_error_info);
   ("union_msm_audio_event_payload", union_msm_audio_event_payload);
   ("struct_msm_audio_event", struct_msm_audio_event);
   ("struct_msm_snd_device_info", struct_msm_snd_device_info);
   ("struct_msm_snd_device_list", struct_msm_snd_device_list);
   ("struct_msm_dtmf_config", struct_msm_dtmf_config);
   ("struct_msm_audio_route_config", struct_msm_audio_route_config);
   ("struct_msm_audio_eq_band", struct_msm_audio_eq_band);
   ("struct_msm_audio_eq_stream_config", struct_msm_audio_eq_stream_config);
   ("struct_msm_acdb_cmd_device", struct_msm_acdb_cmd_device);
   ("struct_msm_hwacc_data_config", struct_msm_hwacc_data_config);
   ("struct_msm_hwacc_buf_cfg", struct_msm_hwacc_buf_cfg);
   ("struct_msm_hwacc_buf_avail", struct_msm_hwacc_buf_avail);
   ("struct_msm_hwacc_effects_config", struct_msm_hwacc_effects_config);
   ("struct_msm_adsp_event_data", struct_msm_adsp_event_data);
   ("struct_msm_audio_aac_config", struct_msm_audio_aac_config);
   ("struct_msm_audio_aac_enc_config", struct_msm_audio_aac_enc_config);
   ("struct_msm_audio_ac3_config", struct_msm_audio_ac3_config);
   ("struct_msm_audio_alac_config", struct_msm_audio_alac_config);
   ("struct_msm_audio_amrnb_enc_config", struct_msm_audio_amrnb_enc_config);
   ("struct_msm_audio_amrnb_enc_config_v2", struct_msm_audio_amrnb_enc_config_v2);
   ("struct_msm_audio_amrwb_enc_config", struct_msm_audio_amrwb_enc_config);
   ("struct_msm_audio_amrwbplus_config_v2", struct_msm_audio_amrwbplus_config_v2);
   ("struct_msm_audio_ape_config", struct_msm_audio_ape_config);
   ("struct_msm_audio_g711_enc_config", struct_msm_audio_g711_enc_config);
   ("struct_msm_audio_g711_dec_config", struct_msm_audio_g711_dec_config);
   ("struct_min_max_rate", struct_min_max_rate);
   ("struct_msm_audio_mvs_config", struct_msm_audio_mvs_config);
   ("struct_gsm_header", struct_gsm_header);
   ("struct_q6_msm_audio_mvs_frame", struct_q6_msm_audio_mvs_frame);
   ("struct_msm_audio_mvs_frame", struct_msm_audio_mvs_frame);
   ("struct_q5v2_msm_audio_mvs_frame", struct_q5v2_msm_audio_mvs_frame);
   ("struct_msm_audio_qcelp_enc_config", struct_msm_audio_qcelp_enc_config);
   ("struct_msm_audio_evrc_enc_config", struct_msm_audio_evrc_enc_config);
   ("struct_msm_audio_sbc_enc_config", struct_msm_audio_sbc_enc_config);
   ("struct_msm_audio_voicememo_config", struct_msm_audio_voicememo_config);
   ("struct_msm_audio_wma_config", struct_msm_audio_wma_config);
   ("struct_msm_audio_wma_config_v2", struct_msm_audio_wma_config_v2);
   ("struct_msm_audio_wmapro_config", struct_msm_audio_wmapro_config);
   ("struct_audio_cal_header", struct_audio_cal_header);
   ("struct_audio_cal_type_header", struct_audio_cal_type_header);
   ("struct_audio_cal_data", struct_audio_cal_data);
   ("struct_audio_cal_type_alloc", struct_audio_cal_type_alloc);
   ("struct_audio_cal_alloc", struct_audio_cal_alloc);
   ("struct_audio_cal_type_dealloc", struct_audio_cal_type_dealloc);
   ("struct_audio_cal_dealloc", struct_audio_cal_dealloc);
   ("struct_audio_cal_type_prepare", struct_audio_cal_type_prepare);
   ("struct_audio_cal_prepare", struct_audio_cal_prepare);
   ("struct_audio_cal_type_post", struct_audio_cal_type_post);
   ("struct_audio_cal_post", struct_audio_cal_post);
   ("struct_audio_cal_info_metainfo", struct_audio_cal_info_metainfo);
   ("struct_audio_cal_info_adm_top", struct_audio_cal_info_adm_top);
   ("struct_audio_cal_info_audproc", struct_audio_cal_info_audproc);
   ("struct_audio_cal_info_audvol", struct_audio_cal_info_audvol);
   ("struct_audio_cal_info_afe", struct_audio_cal_info_afe);
   ("struct_audio_cal_info_afe_top", struct_audio_cal_info_afe_top);
   ("struct_audio_cal_info_asm_top", struct_audio_cal_info_asm_top);
   ("struct_audio_cal_info_audstrm", struct_audio_cal_info_audstrm);
   ("struct_audio_cal_info_aanc", struct_audio_cal_info_aanc);
   ("struct_audio_cal_hw_delay_entry", struct_audio_cal_hw_delay_entry);
   ("struct_audio_cal_hw_delay_data", struct_audio_cal_hw_delay_data);
   ("struct_audio_cal_info_hw_delay", struct_audio_cal_info_hw_delay);
   ("struct_audio_cal_info_spk_prot_cfg", struct_audio_cal_info_spk_prot_cfg);
   ("struct_audio_cal_info_sp_th_vi_ftm_cfg", struct_audio_cal_info_sp_th_vi_ftm_cfg);
   ("struct_audio_cal_info_sp_th_vi_v_vali_cfg", struct_audio_cal_info_sp_th_vi_v_vali_cfg);
   ("struct_audio_cal_info_sp_ex_vi_ftm_cfg", struct_audio_cal_info_sp_ex_vi_ftm_cfg);
   ("struct_audio_cal_info_sp_ex_vi_param", struct_audio_cal_info_sp_ex_vi_param);
   ("struct_audio_cal_info_sp_v4_ex_vi_param", struct_audio_cal_info_sp_v4_ex_vi_param);
   ("struct_audio_cal_info_sp_th_vi_param", struct_audio_cal_info_sp_th_vi_param);
   ("struct_audio_cal_info_sp_th_vi_v_vali_param", struct_audio_cal_info_sp_th_vi_v_vali_param);
   ("struct_audio_cal_info_msm_spk_prot_status", struct_audio_cal_info_msm_spk_prot_status);
   ("struct_audio_cal_info_sidetone", struct_audio_cal_info_sidetone);
   ("struct_audio_cal_info_sidetone_iir", struct_audio_cal_info_sidetone_iir);
   ("struct_audio_cal_info_lsm_top", struct_audio_cal_info_lsm_top);
   ("struct_audio_cal_info_lsm", struct_audio_cal_info_lsm);
   ("struct_audio_cal_info_voc_top", struct_audio_cal_info_voc_top);
   ("struct_audio_cal_info_vocproc", struct_audio_cal_info_vocproc);
   ("struct_audio_cal_info_vocvol", struct_audio_cal_info_vocvol);
   ("struct_audio_cal_info_vocdev_cfg", struct_audio_cal_info_vocdev_cfg);
   ("union_audio_cal_col_na", union_audio_cal_col_na);
   ("struct_audio_cal_col", struct_audio_cal_col);
   ("struct_audio_cal_col_data", struct_audio_cal_col_data);
   ("struct_audio_cal_info_voc_col", struct_audio_cal_info_voc_col);
   ("struct_audio_cal_type_basic", struct_audio_cal_type_basic);
   ("struct_audio_cal_basic", struct_audio_cal_basic);
   ("struct_audio_cal_type_adm_top", struct_audio_cal_type_adm_top);
   ("struct_audio_cal_adm_top", struct_audio_cal_adm_top);
   ("struct_audio_cal_type_metainfo", struct_audio_cal_type_metainfo);
   ("struct_audio_core_metainfo", struct_audio_core_metainfo);
   ("struct_audio_cal_type_audproc", struct_audio_cal_type_audproc);
   ("struct_audio_cal_audproc", struct_audio_cal_audproc);
   ("struct_audio_cal_type_audvol", struct_audio_cal_type_audvol);
   ("struct_audio_cal_audvol", struct_audio_cal_audvol);
   ("struct_audio_cal_type_asm_top", struct_audio_cal_type_asm_top);
   ("struct_audio_cal_asm_top", struct_audio_cal_asm_top);
   ("struct_audio_cal_type_audstrm", struct_audio_cal_type_audstrm);
   ("struct_audio_cal_audstrm", struct_audio_cal_audstrm);
   ("struct_audio_cal_type_afe", struct_audio_cal_type_afe);
   ("struct_audio_cal_afe", struct_audio_cal_afe);
   ("struct_audio_cal_type_afe_top", struct_audio_cal_type_afe_top);
   ("struct_audio_cal_afe_top", struct_audio_cal_afe_top);
   ("struct_audio_cal_type_aanc", struct_audio_cal_type_aanc);
   ("struct_audio_cal_aanc", struct_audio_cal_aanc);
   ("struct_audio_cal_type_fb_spk_prot_cfg", struct_audio_cal_type_fb_spk_prot_cfg);
   ("struct_audio_cal_fb_spk_prot_cfg", struct_audio_cal_fb_spk_prot_cfg);
   ("struct_audio_cal_type_sp_th_vi_ftm_cfg", struct_audio_cal_type_sp_th_vi_ftm_cfg);
   ("struct_audio_cal_sp_th_vi_ftm_cfg", struct_audio_cal_sp_th_vi_ftm_cfg);
   ("struct_audio_cal_type_sp_th_vi_v_vali_cfg", struct_audio_cal_type_sp_th_vi_v_vali_cfg);
   ("struct_audio_cal_sp_th_vi_v_vali_cfg", struct_audio_cal_sp_th_vi_v_vali_cfg);
   ("struct_audio_cal_type_sp_ex_vi_ftm_cfg", struct_audio_cal_type_sp_ex_vi_ftm_cfg);
   ("struct_audio_cal_sp_ex_vi_ftm_cfg", struct_audio_cal_sp_ex_vi_ftm_cfg);
   ("struct_audio_cal_type_hw_delay", struct_audio_cal_type_hw_delay);
   ("struct_audio_cal_hw_delay", struct_audio_cal_hw_delay);
   ("struct_audio_cal_type_sidetone", struct_audio_cal_type_sidetone);
   ("struct_audio_cal_sidetone", struct_audio_cal_sidetone);
   ("struct_audio_cal_type_sidetone_iir", struct_audio_cal_type_sidetone_iir);
   ("struct_audio_cal_sidetone_iir", struct_audio_cal_sidetone_iir);
   ("struct_audio_cal_type_lsm_top", struct_audio_cal_type_lsm_top);
   ("struct_audio_cal_lsm_top", struct_audio_cal_lsm_top);
   ("struct_audio_cal_type_lsm", struct_audio_cal_type_lsm);
   ("struct_audio_cal_lsm", struct_audio_cal_lsm);
   ("struct_audio_cal_type_voc_top", struct_audio_cal_type_voc_top);
   ("struct_audio_cal_voc_top", struct_audio_cal_voc_top);
   ("struct_audio_cal_type_vocproc", struct_audio_cal_type_vocproc);
   ("struct_audio_cal_vocproc", struct_audio_cal_vocproc);
   ("struct_audio_cal_type_vocvol", struct_audio_cal_type_vocvol);
   ("struct_audio_cal_vocvol", struct_audio_cal_vocvol);
   ("struct_audio_cal_type_vocdev_cfg", struct_audio_cal_type_vocdev_cfg);
   ("struct_audio_cal_vocdev_cfg", struct_audio_cal_vocdev_cfg);
   ("struct_audio_cal_type_voc_col", struct_audio_cal_type_voc_col);
   ("struct_audio_cal_voc_col", struct_audio_cal_voc_col);
   ("struct_audio_cal_type_fb_spk_prot_status", struct_audio_cal_type_fb_spk_prot_status);
   ("struct_audio_cal_fb_spk_prot_status", struct_audio_cal_fb_spk_prot_status);
   ("struct_audio_cal_type_sp_th_vi_param", struct_audio_cal_type_sp_th_vi_param);
   ("struct_audio_cal_sp_th_vi_param", struct_audio_cal_sp_th_vi_param);
   ("struct_audio_cal_type_sp_th_vi_v_vali_param", struct_audio_cal_type_sp_th_vi_v_vali_param);
   ("struct_audio_cal_sp_th_vi_v_vali_param", struct_audio_cal_sp_th_vi_v_vali_param);
   ("struct_audio_cal_type_sp_ex_vi_param", struct_audio_cal_type_sp_ex_vi_param);
   ("struct_audio_cal_sp_ex_vi_param", struct_audio_cal_sp_ex_vi_param);
   ("struct_audio_cal_type_sp_v4_ex_vi_param", struct_audio_cal_type_sp_v4_ex_vi_param);
   ("struct_audio_cal_sp_v4_ex_vi_param", struct_audio_cal_sp_v4_ex_vi_param);
   ("struct_wcd_spi_ac_buf_data", struct_wcd_spi_ac_buf_data);
   ("struct_wcd_spi_ac_write_cmd", struct_wcd_spi_ac_write_cmd);
   ("struct_snd_lsm_ep_det_thres", struct_snd_lsm_ep_det_thres);
   ("struct_snd_lsm_detect_mode", struct_snd_lsm_detect_mode);
   ("struct_snd_lsm_gain", struct_snd_lsm_gain);
   ("struct_snd_lsm_poll_enable", struct_snd_lsm_poll_enable);
   ("struct_snd_lsm_det_event_type", struct_snd_lsm_det_event_type);
   ("struct_snd_lsm_sound_model_v2", struct_snd_lsm_sound_model_v2);
   ("struct_snd_lsm_session_data", struct_snd_lsm_session_data);
   ("struct_snd_lsm_stage_info", struct_snd_lsm_stage_info);
   ("struct_snd_lsm_session_data_v2", struct_snd_lsm_session_data_v2);
   ("struct_snd_lsm_lab_control", struct_snd_lsm_lab_control);
   ("struct_snd_lsm_event_status", struct_snd_lsm_event_status);
   ("struct_snd_lsm_event_status_v3", struct_snd_lsm_event_status_v3);
   ("struct_snd_lsm_detection_params", struct_snd_lsm_detection_params);
   ("struct_lsm_params_info", struct_lsm_params_info);
   ("struct_lsm_params_info_v2", struct_lsm_params_info_v2);
   ("struct_snd_lsm_module_params", struct_snd_lsm_module_params);
   ("struct_snd_lsm_output_format_cfg", struct_snd_lsm_output_format_cfg);
   ("struct_snd_lsm_input_hw_params", struct_snd_lsm_input_hw_params);
   ("struct_lsm_params_get_info", struct_lsm_params_get_info);
   ("struct_dolby_param_data", struct_dolby_param_data);
   ("struct_dolby_param_license", struct_dolby_param_license);
   ("struct_dts_eagle_param_desc", struct_dts_eagle_param_desc);
   ("struct_snd_pcm_mmap_fd", struct_snd_pcm_mmap_fd);
   ("struct_snd_pcm_prsnt_position", struct_snd_pcm_prsnt_position);
   ("struct_virtualizer_params", struct_virtualizer_params);
   ("struct_reverb_params", struct_reverb_params);
   ("struct_bass_boost_params", struct_bass_boost_params);
   ("struct_eq_config_t", struct_eq_config_t);
   ("struct_eq_per_band_config_t", struct_eq_per_band_config_t);
   ("struct_eq_per_band_freq_range_t", struct_eq_per_band_freq_range_t);
   ("struct_eq_params", struct_eq_params);
   ("struct_pbe_config_t", struct_pbe_config_t);
   ("struct_pbe_params", struct_pbe_params);
   ("struct_soft_volume_params", struct_soft_volume_params);
   ("struct_msm_nt_eff_all_config", struct_msm_nt_eff_all_config);
   ("struct_snd_generic_dec_aac", struct_snd_generic_dec_aac);
   ("struct_snd_generic_dec_flac", struct_snd_generic_dec_flac);
   ("struct_snd_generic_dec_alac", struct_snd_generic_dec_alac);
   ("struct_snd_generic_dec_ape", struct_snd_generic_dec_ape);
   ("struct_snd_generic_dec_wma", struct_snd_generic_dec_wma);
   ("struct_snd_generic_dec_aptx", struct_snd_generic_dec_aptx);
   ("struct_snd_generic_dec_vorbis", struct_snd_generic_dec_vorbis);
   ("struct_snd_generic_dec_dsd", struct_snd_generic_dec_dsd);
   ("struct_snd_generic_dec_amrwb_plus", struct_snd_generic_dec_amrwb_plus);
   ("struct_wcdcal_ioctl_buffer", struct_wcdcal_ioctl_buffer);
   ("struct_q6afecal_ioctl_buffer", struct_q6afecal_ioctl_buffer);
   ("struct_wdsp_reg_pkt", struct_wdsp_reg_pkt);
   ("struct_wdsp_cmd_pkt", struct_wdsp_cmd_pkt);
   ("struct_wdsp_write_pkt", struct_wdsp_write_pkt);
   ("struct_wdsp_glink_ch_cfg", struct_wdsp_glink_ch_cfg)].
End Uapi.
