(* ===== verification/UapiTopology.v ===== *)
(** * UapiTopology: audio topologies

    The blocks of a topology file ([include/sound/asoc.h]), the tokens' structures of one
    vendor ([skl-tplg-interface.h]) and the firmware and block headers of SOF ([sof/fw.h],
    [sof/header.h]). *)

From Stdlib Require Import Ascii.

From S2P Require Import Prelude CLayout Ioctl Uapi UapiAlsa.

#[local] Open Scope string_scope.
#[local] Open Scope list_scope.
#[local] Open Scope Z_scope.

Section Uapi.
Context `{LinuxUapi}.

(** ** [sound/asoc.h] *)

Definition SND_SOC_TPLG_HW_CONFIG_MAX : Z := 8.
Definition SND_SOC_TPLG_MAX_CHAN : Z := 8.
Definition SND_SOC_TPLG_NUM_TEXTS : Z := 16.
Definition SND_SOC_TPLG_STREAM_CONFIG_MAX : Z := 8.
Definition SND_SOC_TPLG_TLV_SIZE : Z := 32.

Definition struct_snd_soc_tplg_hdr : ctype := packed_struct [
  ("magic", c_u32); ("abi", c_u32); ("version", c_u32); ("type", c_u32); ("size", c_u32);
  ("vendor_type", c_u32); ("payload_size", c_u32); ("index", c_u32); ("count", c_u32)].

Definition struct_snd_soc_tplg_vendor_uuid_elem : ctype := packed_struct [
  ("token", c_u32); ("uuid", CArray c_u8 16)].

Definition struct_snd_soc_tplg_vendor_value_elem : ctype := packed_struct [
  ("token", c_u32); ("value", c_u32)].

Definition struct_snd_soc_tplg_vendor_string_elem : ctype := packed_struct [
  ("token", c_u32); ("string", CArray c_u8 SNDRV_CTL_ELEM_ID_NAME_MAXLEN)].

Definition struct_snd_soc_tplg_vendor_array : ctype := packed_struct [
  ("size", c_u32); ("type", c_u32); ("num_elems", c_u32);
  ("", CUnion [
    ("uuid", CArray struct_snd_soc_tplg_vendor_uuid_elem 0);
    ("value", CArray struct_snd_soc_tplg_vendor_value_elem 0);
    ("string", CArray struct_snd_soc_tplg_vendor_string_elem 0)])].

Definition struct_snd_soc_tplg_private : ctype := packed_struct [
  ("size", c_u32);
  ("", CUnion [
    ("data", CArray c_u8 0); ("array", CArray struct_snd_soc_tplg_vendor_array 0)])].

Definition struct_snd_soc_tplg_tlv_dbscale : ctype := packed_struct [
  ("min", c_u32); ("step", c_u32); ("mute", c_u32)].

Definition struct_snd_soc_tplg_ctl_tlv : ctype := packed_struct [
  ("size", c_u32); ("type", c_u32);
  ("", CUnion [
    ("data", CArray c_u32 SND_SOC_TPLG_TLV_SIZE); ("scale", struct_snd_soc_tplg_tlv_dbscale)])].

Definition struct_snd_soc_tplg_channel : ctype := packed_struct [
  ("size", c_u32); ("reg", c_u32); ("shift", c_u32); ("id", c_u32)].

Definition struct_snd_soc_tplg_io_ops : ctype := packed_struct [
  ("get", c_u32); ("put", c_u32); ("info", c_u32)].

Definition struct_snd_soc_tplg_ctl_hdr : ctype := packed_struct [
  ("size", c_u32); ("type", c_u32); ("name", CArray c_u8 SNDRV_CTL_ELEM_ID_NAME_MAXLEN);
  ("access", c_u32); ("ops", struct_snd_soc_tplg_io_ops); ("tlv", struct_snd_soc_tplg_ctl_tlv)].

Definition struct_snd_soc_tplg_stream_caps : ctype := packed_struct [
  ("size", c_u32); ("name", CArray c_u8 SNDRV_CTL_ELEM_ID_NAME_MAXLEN); ("formats", c_u64);
  ("rates", c_u32); ("rate_min", c_u32); ("rate_max", c_u32); ("channels_min", c_u32);
  ("channels_max", c_u32); ("periods_min", c_u32); ("periods_max", c_u32);
  ("period_size_min", c_u32); ("period_size_max", c_u32); ("buffer_size_min", c_u32);
  ("buffer_size_max", c_u32); ("sig_bits", c_u32)].

Definition struct_snd_soc_tplg_stream : ctype := packed_struct [
  ("size", c_u32); ("name", CArray c_u8 SNDRV_CTL_ELEM_ID_NAME_MAXLEN); ("format", c_u64);
  ("rate", c_u32); ("period_bytes", c_u32); ("buffer_bytes", c_u32); ("channels", c_u32)].

Definition struct_snd_soc_tplg_hw_config : ctype := packed_struct [
  ("size", c_u32); ("id", c_u32); ("fmt", c_u32); ("clock_gated", c_u8); ("invert_bclk", c_u8);
  ("invert_fsync", c_u8); ("bclk_master", c_u8); ("fsync_master", c_u8);
  ("mclk_direction", c_u8); ("reserved", c_u16); ("mclk_rate", c_u32); ("bclk_rate", c_u32);
  ("fsync_rate", c_u32); ("tdm_slots", c_u32); ("tdm_slot_width", c_u32); ("tx_slots", c_u32);
  ("rx_slots", c_u32); ("tx_channels", c_u32);
  ("tx_chanmap", CArray c_u32 SND_SOC_TPLG_MAX_CHAN); ("rx_channels", c_u32);
  ("rx_chanmap", CArray c_u32 SND_SOC_TPLG_MAX_CHAN)].

Definition struct_snd_soc_tplg_manifest : ctype := packed_struct [
  ("size", c_u32); ("control_elems", c_u32); ("widget_elems", c_u32); ("graph_elems", c_u32);
  ("pcm_elems", c_u32); ("dai_link_elems", c_u32); ("dai_elems", c_u32);
  ("reserved", CArray c_u32 20); ("priv", struct_snd_soc_tplg_private)].

Definition struct_snd_soc_tplg_mixer_control : ctype := packed_struct [
  ("hdr", struct_snd_soc_tplg_ctl_hdr); ("size", c_u32); ("min", c_u32); ("max", c_u32);
  ("platform_max", c_u32); ("invert", c_u32); ("num_channels", c_u32);
  ("channel", CArray struct_snd_soc_tplg_channel SND_SOC_TPLG_MAX_CHAN);
  ("priv", struct_snd_soc_tplg_private)].

Definition struct_snd_soc_tplg_enum_control : ctype := packed_struct [
  ("hdr", struct_snd_soc_tplg_ctl_hdr); ("size", c_u32); ("num_channels", c_u32);
  ("channel", CArray struct_snd_soc_tplg_channel SND_SOC_TPLG_MAX_CHAN); ("items", c_u32);
  ("mask", c_u32); ("count", c_u32);
  ("texts", CArray (CArray c_u8 SNDRV_CTL_ELEM_ID_NAME_MAXLEN) SND_SOC_TPLG_NUM_TEXTS);
  ("values", CArray c_u32 (SND_SOC_TPLG_NUM_TEXTS * SNDRV_CTL_ELEM_ID_NAME_MAXLEN / 4));
  ("priv", struct_snd_soc_tplg_private)].

Definition struct_snd_soc_tplg_bytes_control : ctype := packed_struct [
  ("hdr", struct_snd_soc_tplg_ctl_hdr); ("size", c_u32); ("max", c_u32); ("mask", c_u32);
  ("base", c_u32); ("num_regs", c_u32); ("ext_ops", struct_snd_soc_tplg_io_ops);
  ("priv", struct_snd_soc_tplg_private)].

Definition struct_snd_soc_tplg_dapm_graph_elem : ctype := packed_struct [
  ("sink", CArray c_u8 SNDRV_CTL_ELEM_ID_NAME_MAXLEN);
  ("control", CArray c_u8 SNDRV_CTL_ELEM_ID_NAME_MAXLEN);
  ("source", CArray c_u8 SNDRV_CTL_ELEM_ID_NAME_MAXLEN)].

Definition struct_snd_soc_tplg_dapm_widget : ctype := packed_struct [
  ("size", c_u32); ("id", c_u32); ("name", CArray c_u8 SNDRV_CTL_ELEM_ID_NAME_MAXLEN);
  ("sname", CArray c_u8 SNDRV_CTL_ELEM_ID_NAME_MAXLEN); ("reg", c_u32); ("shift", c_u32);
  ("mask", c_u32); ("subseq", c_u32); ("invert", c_u32); ("ignore_suspend", c_u32);
  ("event_flags", c_u16); ("event_type", c_u16); ("num_kcontrols", c_u32);
  ("priv", struct_snd_soc_tplg_private)].

Definition struct_snd_soc_tplg_pcm : ctype := packed_struct [
  ("size", c_u32); ("pcm_name", CArray c_u8 SNDRV_CTL_ELEM_ID_NAME_MAXLEN);
  ("dai_name", CArray c_u8 SNDRV_CTL_ELEM_ID_NAME_MAXLEN); ("pcm_id", c_u32); ("dai_id", c_u32);
  ("playback", c_u32); ("capture", c_u32); ("compress", c_u32);
  ("stream", CArray struct_snd_soc_tplg_stream SND_SOC_TPLG_STREAM_CONFIG_MAX);
  ("num_streams", c_u32); ("caps", CArray struct_snd_soc_tplg_stream_caps 2);
  ("flag_mask", c_u32); ("flags", c_u32); ("priv", struct_snd_soc_tplg_private)].

Definition struct_snd_soc_tplg_link_config : ctype := packed_struct [
  ("size", c_u32); ("id", c_u32); ("name", CArray c_u8 SNDRV_CTL_ELEM_ID_NAME_MAXLEN);
  ("stream_name", CArray c_u8 SNDRV_CTL_ELEM_ID_NAME_MAXLEN);
  ("stream", CArray struct_snd_soc_tplg_stream SND_SOC_TPLG_STREAM_CONFIG_MAX);
  ("num_streams", c_u32);
  ("hw_config", CArray struct_snd_soc_tplg_hw_config SND_SOC_TPLG_HW_CONFIG_MAX);
  ("num_hw_configs", c_u32); ("default_hw_config_id", c_u32); ("flag_mask", c_u32);
  ("flags", c_u32); ("priv", struct_snd_soc_tplg_private)].

Definition struct_snd_soc_tplg_dai : ctype := packed_struct [
  ("size", c_u32); ("dai_name", CArray c_u8 SNDRV_CTL_ELEM_ID_NAME_MAXLEN); ("dai_id", c_u32);
  ("playback", c_u32); ("capture", c_u32); ("caps", CArray struct_snd_soc_tplg_stream_caps 2);
  ("flag_mask", c_u32); ("flags", c_u32); ("priv", struct_snd_soc_tplg_private)].

Definition struct_snd_soc_tplg_manifest_v4 : ctype := packed_struct [
  ("size", c_u32); ("control_elems", c_u32); ("widget_elems", c_u32); ("graph_elems", c_u32);
  ("pcm_elems", c_u32); ("dai_link_elems", c_u32); ("priv", struct_snd_soc_tplg_private)].

Definition struct_snd_soc_tplg_stream_caps_v4 : ctype := packed_struct [
  ("size", c_u32); ("name", CArray c_u8 SNDRV_CTL_ELEM_ID_NAME_MAXLEN); ("formats", c_u64);
  ("rates", c_u32); ("rate_min", c_u32); ("rate_max", c_u32); ("channels_min", c_u32);
  ("channels_max", c_u32); ("periods_min", c_u32); ("periods_max", c_u32);
  ("period_size_min", c_u32); ("period_size_max", c_u32); ("buffer_size_min", c_u32);
  ("buffer_size_max", c_u32)].

Definition struct_snd_soc_tplg_pcm_v4 : ctype := packed_struct [
  ("size", c_u32); ("pcm_name", CArray c_u8 SNDRV_CTL_ELEM_ID_NAME_MAXLEN);
  ("dai_name", CArray c_u8 SNDRV_CTL_ELEM_ID_NAME_MAXLEN); ("pcm_id", c_u32); ("dai_id", c_u32);
  ("playback", c_u32); ("capture", c_u32); ("compress", c_u32);
  ("stream", CArray struct_snd_soc_tplg_stream SND_SOC_TPLG_STREAM_CONFIG_MAX);
  ("num_streams", c_u32); ("caps", CArray struct_snd_soc_tplg_stream_caps_v4 2)].

Definition struct_snd_soc_tplg_link_config_v4 : ctype := packed_struct [
  ("size", c_u32); ("id", c_u32);
  ("stream", CArray struct_snd_soc_tplg_stream SND_SOC_TPLG_STREAM_CONFIG_MAX);
  ("num_streams", c_u32)].

(** ** [sound/skl-tplg-interface.h] *)

Definition HDA_SST_CFG_MAX : Z := 900.
Definition MAX_IN_QUEUE : Z := 8.
Definition MAX_OUT_QUEUE : Z := 8.
Definition SKL_UUID_STR_SZ : Z := 40.

Definition struct_skl_dfw_algo_data : ctype := packed_struct [
  ("set_params:2, rsvd:30", c_u32); ("param_id", c_u32); ("max", c_u32);
  ("params", CArray c_u8 0)].

Definition struct_skl_dfw_v4_module_pin : ctype := packed_struct [
  ("module_id", c_u16); ("instance_id", c_u16)].

Definition struct_skl_dfw_v4_module_fmt : ctype := packed_struct [
  ("channels", c_u32); ("freq", c_u32); ("bit_depth", c_u32); ("valid_bit_depth", c_u32);
  ("ch_cfg", c_u32); ("interleaving_style", c_u32); ("sample_type", c_u32); ("ch_map", c_u32)].

Definition struct_skl_dfw_v4_module_caps : ctype := packed_struct [
  ("set_params:2, rsvd:30", c_u32); ("param_id", c_u32); ("caps_size", c_u32);
  ("caps", CArray c_u32 HDA_SST_CFG_MAX)].

Definition struct_skl_dfw_v4_pipe : ctype := packed_struct [
  ("pipe_id", c_u8); ("pipe_priority", c_u8); ("conn_type:4, rsvd:4, memory_pages:8", c_u16)].

Definition struct_skl_dfw_v4_module : ctype := packed_struct [
  ("uuid", CArray c_u8 SKL_UUID_STR_SZ); ("module_id", c_u16); ("instance_id", c_u16);
  ("max_mcps", c_u32); ("mem_pages", c_u32); ("obs", c_u32); ("ibs", c_u32); ("vbus_id", c_u32);
  ("max_in_queue:8, max_out_queue:8, time_slot:8, core_id:4, rsvd1:4", c_u32);
  ("module_type:8, conn_type:4, dev_type:4, hw_conn_type:4, rsvd2:12", c_u32);
  ("params_fixup:8, converter:8, input_pin_type:1, output_pin_type:1, is_dynamic_in_pin:1, is_dynamic_out_pin:1, is_loadable:1, rsvd3:11", c_u32);
  ("pipe", struct_skl_dfw_v4_pipe); ("in_fmt", CArray struct_skl_dfw_v4_module_fmt MAX_IN_QUEUE);
  ("out_fmt", CArray struct_skl_dfw_v4_module_fmt MAX_OUT_QUEUE);
  ("in_pin", CArray struct_skl_dfw_v4_module_pin MAX_IN_QUEUE);
  ("out_pin", CArray struct_skl_dfw_v4_module_pin MAX_OUT_QUEUE);
  ("caps", struct_skl_dfw_v4_module_caps)].

(** ** [sound/sof/fw.h] *)

Definition SND_SOF_FW_SIG_SIZE : Z := 4.

Definition struct_snd_sof_blk_hdr : ctype := packed_struct [
  ("type", c_enum); ("size", c_u32); ("offset", c_u32)].

Definition struct_snd_sof_mod_hdr : ctype := packed_struct [
  ("type", c_enum); ("size", c_u32); ("num_blocks", c_u32)].

Definition struct_snd_sof_fw_header : ctype := packed_struct [
  ("sig", CArray c_u8 SND_SOF_FW_SIG_SIZE); ("file_size", c_u32); ("num_modules", c_u32);
  ("abi", c_u32)].

(** ** [sound/sof/header.h] *)

Definition struct_sof_abi_hdr : ctype := packed_struct [
  ("magic", c_u32); ("type", c_u32); ("size", c_u32); ("abi", c_u32);
  ("reserved", CArray c_u32 4); ("data", CArray c_u32 0)].

(** Every type of the file. *)
Definition uapiTopology_types (a : abi) : list (string * ctype) :=
  [("struct_snd_soc_tplg_hdr", struct_snd_soc_tplg_hdr);
   ("struct_snd_soc_tplg_vendor_uuid_elem", struct_snd_soc_tplg_vendor_uuid_elem);
   ("struct_snd_soc_tplg_vendor_value_elem", struct_snd_soc_tplg_vendor_value_elem);
   ("struct_snd_soc_tplg_vendor_string_elem", struct_snd_soc_tplg_vendor_string_elem);
   ("struct_snd_soc_tplg_vendor_array", struct_snd_soc_tplg_vendor_array);
   ("struct_snd_soc_tplg_private", struct_snd_soc_tplg_private);
   ("struct_snd_soc_tplg_tlv_dbscale", struct_snd_soc_tplg_tlv_dbscale);
   ("struct_snd_soc_tplg_ctl_tlv", struct_snd_soc_tplg_ctl_tlv);
   ("struct_snd_soc_tplg_channel", struct_snd_soc_tplg_channel);
   ("struct_snd_soc_tplg_io_ops", struct_snd_soc_tplg_io_ops);
   ("struct_snd_soc_tplg_ctl_hdr", struct_snd_soc_tplg_ctl_hdr);
   ("struct_snd_soc_tplg_stream_caps", struct_snd_soc_tplg_stream_caps);
   ("struct_snd_soc_tplg_stream", struct_snd_soc_tplg_stream);
   ("struct_snd_soc_tplg_hw_config", struct_snd_soc_tplg_hw_config);
   ("struct_snd_soc_tplg_manifest", struct_snd_soc_tplg_manifest);
   ("struct_snd_soc_tplg_mixer_control", struct_snd_soc_tplg_mixer_control);
   ("struct_snd_soc_tplg_enum_control", struct_snd_soc_tplg_enum_control);
   ("struct_snd_soc_tplg_bytes_control", struct_snd_soc_tplg_bytes_control);
   ("struct_snd_soc_tplg_dapm_graph_elem", struct_snd_soc_tplg_dapm_graph_elem);
   ("struct_snd_soc_tplg_dapm_widget", struct_snd_soc_tplg_dapm_widget);
   ("struct_snd_soc_tplg_pcm", struct_snd_soc_tplg_pcm);
   ("struct_snd_soc_tplg_link_config", struct_snd_soc_tplg_link_config);
   ("struct_snd_soc_tplg_dai", struct_snd_soc_tplg_dai);
   ("struct_snd_soc_tplg_manifest_v4", struct_snd_soc_tplg_manifest_v4);
   ("struct_snd_soc_tplg_stream_caps_v4", struct_snd_soc_tplg_stream_caps_v4);
   ("struct_snd_soc_tplg_pcm_v4", struct_snd_soc_tplg_pcm_v4);
   ("struct_snd_soc_tplg_link_config_v4", struct_snd_soc_tplg_link_config_v4);
   ("struct_skl_dfw_algo_data", struct_skl_dfw_algo_data);
   ("struct_skl_dfw_v4_module_pin", struct_skl_dfw_v4_module_pin);
   ("struct_skl_dfw_v4_module_fmt", struct_skl_dfw_v4_module_fmt);
   ("struct_skl_dfw_v4_module_caps", struct_skl_dfw_v4_module_caps);
   ("struct_skl_dfw_v4_pipe", struct_skl_dfw_v4_pipe);
   ("struct_skl_dfw_v4_module", struct_skl_dfw_v4_module);
   ("struct_snd_sof_blk_hdr", struct_snd_sof_blk_hdr);
   ("struct_snd_sof_mod_hdr", struct_snd_sof_mod_hdr);
   ("struct_snd_sof_fw_header", struct_snd_sof_fw_header);
   ("struct_sof_abi_hdr", struct_sof_abi_hdr)].
End Uapi.
