(* ===== verification/UapiDisplay.v ===== *)
(** * UapiDisplay: display, rotator, HDCP, video fences

    The requests and structures of [include/display] but for [mi_disp.h] and the color
    formats, and of the synchronisation and video drivers of [include/media]. *)

From Stdlib Require Import Ascii.

From S2P Require Import Prelude CLayout Ioctl Uapi.

#[local] Open Scope string_scope.
#[local] Open Scope list_scope.
#[local] Open Scope Z_scope.

Section Uapi.
Context `{LinuxUapi}.

(** ** [display/drm/sde_drm.h] *)

Definition DISPLAY_PRIMARIES_MAX : Z := 8.
Definition HDR_PRIMARIES_COUNT : Z := 3.
Definition SDE_CSC_BIAS_SIZE : Z := 3.
Definition SDE_CSC_CLAMP_SIZE : Z := 6.
Definition SDE_CSC_MATRIX_COEFF_SIZE : Z := 9.
Definition SDE_FRAME_DATA_BUFFER_MAX : Z := 0x3.
Definition SDE_FRAME_DATA_MAX_PLANES : Z := 0x10.
Definition SDE_MAX_DE_CURVES : Z := 3.
Definition SDE_MAX_DIM_LAYERS : Z := 7.
Definition SDE_MAX_DS_COUNT : Z := 2.
Definition SDE_MAX_PLANES : Z := 4.
Definition SDE_MAX_ROI_V1 : Z := 4.
Definition UBWC_STATS_MAX_ROI : Z := 0x3.
Definition DRM_SDE_WB_CONFIG : Z := 0x40.
Definition DRM_MSM_REGISTER_EVENT : Z := 0x41.
Definition DRM_MSM_DEREGISTER_EVENT : Z := 0x42.
Definition DRM_MSM_RMFB2 : Z := 0x43.
Definition DRM_MSM_POWER_CTRL : Z := 0x44.
Definition DRM_MSM_DISPLAY_HINT : Z := 0x45.

Definition struct_sde_drm_pix_ext_v1 : ctype := struct [
  ("num_ext_pxls_lr", CArray c_int SDE_MAX_PLANES);
  ("num_ext_pxls_tb", CArray c_int SDE_MAX_PLANES); ("left_ftch", CArray c_int SDE_MAX_PLANES);
  ("right_ftch", CArray c_int SDE_MAX_PLANES); ("top_ftch", CArray c_int SDE_MAX_PLANES);
  ("btm_ftch", CArray c_int SDE_MAX_PLANES); ("left_rpt", CArray c_int SDE_MAX_PLANES);
  ("right_rpt", CArray c_int SDE_MAX_PLANES); ("top_rpt", CArray c_int SDE_MAX_PLANES);
  ("btm_rpt", CArray c_int SDE_MAX_PLANES)].

Definition struct_sde_drm_scaler_v1 : ctype := struct [
  ("pe", struct_sde_drm_pix_ext_v1); ("init_phase_x", CArray c_int SDE_MAX_PLANES);
  ("phase_step_x", CArray c_int SDE_MAX_PLANES); ("init_phase_y", CArray c_int SDE_MAX_PLANES);
  ("phase_step_y", CArray c_int SDE_MAX_PLANES); ("horz_filter", CArray c_u32 SDE_MAX_PLANES);
  ("vert_filter", CArray c_u32 SDE_MAX_PLANES)].

Definition struct_sde_drm_de_v1 : ctype := struct [
  ("enable", c_u32); ("sharpen_level1", c_u16); ("sharpen_level2", c_u16); ("clip", c_u16);
  ("limit", c_u16); ("thr_quiet", c_u16); ("thr_dieout", c_u16); ("thr_low", c_u16);
  ("thr_high", c_u16); ("prec_shift", c_u16); ("adjust_a", CArray c_u16 SDE_MAX_DE_CURVES);
  ("adjust_b", CArray c_u16 SDE_MAX_DE_CURVES); ("adjust_c", CArray c_u16 SDE_MAX_DE_CURVES)].

Definition struct_sde_drm_scaler_v2 : ctype := struct [
  ("enable", c_u32); ("dir_en", c_u32); ("pe", struct_sde_drm_pix_ext_v1);
  ("horz_decimate", c_u32); ("vert_decimate", c_u32);
  ("init_phase_x", CArray c_int SDE_MAX_PLANES); ("phase_step_x", CArray c_int SDE_MAX_PLANES);
  ("init_phase_y", CArray c_int SDE_MAX_PLANES); ("phase_step_y", CArray c_int SDE_MAX_PLANES);
  ("preload_x", CArray c_u32 SDE_MAX_PLANES); ("preload_y", CArray c_u32 SDE_MAX_PLANES);
  ("src_width", CArray c_u32 SDE_MAX_PLANES); ("src_height", CArray c_u32 SDE_MAX_PLANES);
  ("dst_width", c_u32); ("dst_height", c_u32); ("y_rgb_filter_cfg", c_u32);
  ("uv_filter_cfg", c_u32); ("alpha_filter_cfg", c_u32); ("blend_cfg", c_u32);
  ("lut_flag", c_u32); ("dir_lut_idx", c_u32); ("y_rgb_cir_lut_idx", c_u32);
  ("uv_cir_lut_idx", c_u32); ("y_rgb_sep_lut_idx", c_u32); ("uv_sep_lut_idx", c_u32);
  ("de", struct_sde_drm_de_v1); ("dir_weight", c_u32); ("unsharp_mask_blend", c_u32);
  ("de_blend", c_u32); ("flags", c_u32); ("pre_downscale_x_0", c_u32);
  ("pre_downscale_x_1", c_u32); ("pre_downscale_y_0", c_u32); ("pre_downscale_y_1", c_u32)].

Definition struct_sde_drm_dest_scaler_cfg : ctype := struct [
  ("flags", c_u32); ("index", c_u32); ("lm_width", c_u32); ("lm_height", c_u32);
  ("scaler_cfg", c_u64)].

Definition struct_sde_drm_dest_scaler_data : ctype := struct [
  ("num_dest_scaler", c_u32); ("ds_cfg", CArray struct_sde_drm_dest_scaler_cfg SDE_MAX_DS_COUNT)].

Definition struct_sde_drm_csc_v1 : ctype := struct [
  ("ctm_coeff", CArray c_u64 SDE_CSC_MATRIX_COEFF_SIZE);
  ("pre_bias", CArray c_u32 SDE_CSC_BIAS_SIZE); ("post_bias", CArray c_u32 SDE_CSC_BIAS_SIZE);
  ("pre_clamp", CArray c_u32 SDE_CSC_CLAMP_SIZE); ("post_clamp", CArray c_u32 SDE_CSC_CLAMP_SIZE)].

Definition struct_sde_drm_color : ctype := struct [
  ("color_0", c_u32); ("color_1", c_u32); ("color_2", c_u32); ("color_3", c_u32)].

Definition struct_sde_drm_dim_layer_cfg : ctype := struct [
  ("flags", c_u32); ("stage", c_u32); ("color_fill", struct_sde_drm_color);
  ("rect", struct_drm_clip_rect)].

Definition struct_sde_drm_dim_layer_v1 : ctype := struct [
  ("num_layers", c_u32); ("layer_cfg", CArray struct_sde_drm_dim_layer_cfg SDE_MAX_DIM_LAYERS)].

Definition struct_sde_drm_wb_cfg : ctype := struct [
  ("flags", c_u32); ("connector_id", c_u32); ("count_modes", c_u32); ("modes", c_u64)].

Definition struct_sde_drm_roi_v1 : ctype := struct [
  ("num_rects", c_u32); ("roi", CArray struct_drm_clip_rect SDE_MAX_ROI_V1)].

Definition struct_sde_drm_ubwc_stats_roi : ctype := struct [
  ("y_coord0", c_u16); ("y_coord1", c_u16)].

Definition struct_sde_drm_ubwc_stats_data : ctype := struct [
  ("roi", struct_sde_drm_ubwc_stats_roi); ("worst_bw", CArray c_u16 UBWC_STATS_MAX_ROI);
  ("worst_bw_y_coord", CArray c_u16 UBWC_STATS_MAX_ROI);
  ("total_bw", CArray c_u32 UBWC_STATS_MAX_ROI); ("error", c_u32); ("meta_error", c_u32)].

Definition struct_sde_drm_frame_data_buffers_ctrl : ctype := struct [
  ("num_buffers", c_u32); ("fds", CArray c_u32 SDE_FRAME_DATA_BUFFER_MAX)].

Definition struct_sde_drm_frame_data_buf : ctype := struct [
  ("fd", c_u32); ("offset", c_u32); ("status", c_u32)].

Definition struct_sde_drm_plane_frame_data : ctype := struct [
  ("plane_id", c_u32); ("ubwc_stats", struct_sde_drm_ubwc_stats_data)].

Definition struct_sde_drm_frame_data_packet : ctype := struct [
  ("frame_count", c_u32); ("commit_count", c_u64);
  ("plane_frame_data", CArray struct_sde_drm_plane_frame_data SDE_FRAME_DATA_MAX_PLANES)].

Definition struct_drm_msm_ext_hdr_metadata : ctype := struct [
  ("hdr_state", c_u32); ("eotf", c_u32); ("hdr_supported", c_u32);
  ("display_primaries_x", CArray c_u32 HDR_PRIMARIES_COUNT);
  ("display_primaries_y", CArray c_u32 HDR_PRIMARIES_COUNT); ("white_point_x", c_u32);
  ("white_point_y", c_u32); ("max_luminance", c_u32); ("min_luminance", c_u32);
  ("max_content_light_level", c_u32); ("max_average_light_level", c_u32);
  ("hdr_plus_payload", c_u64); ("hdr_plus_payload_size", c_u32)].

Definition struct_drm_msm_ext_hdr_properties : ctype := struct [
  ("hdr_metadata_type_one", c_u8); ("hdr_supported", c_u32); ("hdr_eotf", c_u32);
  ("hdr_max_luminance", c_u32); ("hdr_avg_luminance", c_u32); ("hdr_min_luminance", c_u32);
  ("hdr_plus_supported", c_u32)].

Definition struct_drm_panel_hdr_properties : ctype := struct [
  ("hdr_enabled", c_u32); ("display_primaries", CArray c_u32 DISPLAY_PRIMARIES_MAX);
  ("peak_brightness", c_u32); ("blackness_level", c_u32)].

Definition struct_drm_msm_event_req : ctype := struct [
  ("object_id", c_u32); ("object_type", c_u32); ("event", c_u32); ("client_context", c_u64);
  ("index", c_u32)].

Definition struct_drm_msm_event_resp : ctype := struct [
  ("base", struct_drm_event); ("info", struct_drm_msm_event_req); ("data", CArray c_u8 0)].

Definition struct_drm_msm_power_ctrl : ctype := struct [
  ("enable", c_u32); ("flags", c_u32)].

Definition struct_drm_msm_early_wakeup : ctype := struct [
  ("wakeup_hint", c_u32); ("connector_id", c_u32)].

Definition struct_drm_msm_display_hint : ctype := struct [
  ("data", c_u64); ("hint_flags", c_u32)].

Definition struct_drm_msm_noise_layer_cfg : ctype := struct [
  ("flags", c_u64); ("zposn", c_u32); ("zposattn", c_u32); ("attn_factor", c_u32);
  ("strength", c_u32); ("alpha_noise", c_u32)].

Definition DRM_IOCTL_SDE_WB_CONFIG : ioctl_req := DRM_IOW (DRM_COMMAND_BASE + DRM_SDE_WB_CONFIG) struct_sde_drm_wb_cfg.
Definition DRM_IOCTL_MSM_REGISTER_EVENT : ioctl_req := DRM_IOW (DRM_COMMAND_BASE + DRM_MSM_REGISTER_EVENT) struct_drm_msm_event_req.
Definition DRM_IOCTL_MSM_DEREGISTER_EVENT : ioctl_req := DRM_IOW (DRM_COMMAND_BASE + DRM_MSM_DEREGISTER_EVENT) struct_drm_msm_event_req.
Definition DRM_IOCTL_MSM_RMFB2 : ioctl_req := DRM_IOW (DRM_COMMAND_BASE + DRM_MSM_RMFB2) c_u32.
Definition DRM_IOCTL_MSM_POWER_CTRL : ioctl_req := DRM_IOW (DRM_COMMAND_BASE + DRM_MSM_POWER_CTRL) struct_drm_msm_power_ctrl.
Definition DRM_IOCTL_MSM_DISPLAY_HINT : ioctl_req := DRM_IOW (DRM_COMMAND_BASE + DRM_MSM_DISPLAY_HINT) struct_drm_msm_display_hint.

Definition sde_drm_requests (a : abi) : list (string * ioctl_req) :=
  [("DRM_IOCTL_SDE_WB_CONFIG", DRM_IOCTL_SDE_WB_CONFIG);
   ("DRM_IOCTL_MSM_REGISTER_EVENT", DRM_IOCTL_MSM_REGISTER_EVENT);
   ("DRM_IOCTL_MSM_DEREGISTER_EVENT", DRM_IOCTL_MSM_DEREGISTER_EVENT);
   ("DRM_IOCTL_MSM_RMFB2", DRM_IOCTL_MSM_RMFB2);
   ("DRM_IOCTL_MSM_POWER_CTRL", DRM_IOCTL_MSM_POWER_CTRL);
   ("DRM_IOCTL_MSM_DISPLAY_HINT", DRM_IOCTL_MSM_DISPLAY_HINT)].

(** ** [display/drm/msm_drm_pp.h] *)

Definition AD4_LUT_GRP0_SIZE : Z := 33.
Definition AD4_LUT_GRP1_SIZE : Z := 32.
Definition CFG0_PARAM2_LEN : Z := 256.
Definition CFG0_PARAM_LEN : Z := 8.
Definition CFG1_PARAM0_LEN : Z := 153.
Definition CFG1_PARAM_LEN : Z := 8.
Definition CFG3_PARAM01_LEN : Z := 4.
Definition CFG5_PARAM01_LEN : Z := 4.
Definition DIMMING_BL_LUT_LEN : Z := 8192.
Definition DITHER_MATRIX_SZ : Z := 16.
Definition FP16_CSC_CFG0_PARAM_LEN : Z := 12.
Definition FP16_CSC_CFG1_PARAM_LEN : Z := 8.
Definition GAMUT_3D_MODE17_TBL_SZ : Z := 1229.
Definition GAMUT_3D_SCALE_OFF_SZ : Z := 16.
Definition GAMUT_3D_SCALE_OFF_TBL_NUM : Z := 3.
Definition GAMUT_3D_TBL_NUM : Z := 4.
Definition HIST_V_SIZE : Z := 256.
Definition IGC_TBL_LEN : Z := 256.
Definition LTM_BLOCK_SIZE : Z := 2.
Definition LTM_BUFFER_SIZE : Z := 5.
Definition LTM_DATA_SIZE_0 : Z := 32.
Definition LTM_DATA_SIZE_1 : Z := 128.
Definition LTM_DATA_SIZE_2 : Z := 256.
Definition LTM_DATA_SIZE_3 : Z := 33.
Definition PA_VLUT_SIZE : Z := 256.
Definition PGC_TBL_LEN : Z := 512.
Definition RC_CFG_SIZE_MAX : Z := 4.
Definition RC_DATA_SIZE_MAX : Z := 2720.
Definition SIXZONE_LUT_SIZE : Z := 384.
Definition SPR_INIT_PARAM_SIZE_1 : Z := 4.
Definition SPR_INIT_PARAM_SIZE_2 : Z := 5.
Definition SPR_INIT_PARAM_SIZE_3 : Z := 16.
Definition SPR_INIT_PARAM_SIZE_4 : Z := 24.
Definition SPR_INIT_PARAM_SIZE_5 : Z := 32.

Definition struct_drm_msm_pcc_coeff : ctype := struct [
  ("c", c_u32); ("r", c_u32); ("g", c_u32); ("b", c_u32); ("rg", c_u32); ("gb", c_u32);
  ("rb", c_u32); ("rgb", c_u32)].

Definition struct_drm_msm_pcc : ctype := struct [
  ("flags", c_u64); ("r", struct_drm_msm_pcc_coeff); ("g", struct_drm_msm_pcc_coeff);
  ("b", struct_drm_msm_pcc_coeff); ("r_rr", c_u32); ("r_gg", c_u32); ("r_bb", c_u32);
  ("g_rr", c_u32); ("g_gg", c_u32); ("g_bb", c_u32); ("b_rr", c_u32); ("b_gg", c_u32);
  ("b_bb", c_u32)].

Definition struct_drm_msm_pa_vlut : ctype := struct [
  ("flags", c_u64); ("val", CArray c_u32 PA_VLUT_SIZE)].

Definition struct_drm_msm_pa_hsic : ctype := struct [
  ("flags", c_u64); ("hue", c_u32); ("saturation", c_u32); ("value", c_u32); ("contrast", c_u32)].

Definition struct_drm_msm_memcol : ctype := struct [
  ("prot_flags", c_u64); ("color_adjust_p0", c_u32); ("color_adjust_p1", c_u32);
  ("color_adjust_p2", c_u32); ("blend_gain", c_u32); ("sat_hold", c_u32); ("val_hold", c_u32);
  ("hue_region", c_u32); ("sat_region", c_u32); ("val_region", c_u32)].

Definition struct_drm_msm_sixzone_curve : ctype := struct [
  ("p1", c_u32); ("p0", c_u32)].

Definition struct_drm_msm_sixzone : ctype := struct [
  ("flags", c_u64); ("threshold", c_u32); ("adjust_p0", c_u32); ("adjust_p1", c_u32);
  ("sat_hold", c_u32); ("val_hold", c_u32);
  ("curve", CArray struct_drm_msm_sixzone_curve SIXZONE_LUT_SIZE)].

Definition struct_drm_msm_3d_col : ctype := struct [
  ("c2_c1", c_u32); ("c0", c_u32)].

Definition struct_drm_msm_3d_gamut : ctype := struct [
  ("flags", c_u64); ("mode", c_u32);
  ("scale_off", CArray (CArray c_u32 GAMUT_3D_SCALE_OFF_SZ) GAMUT_3D_SCALE_OFF_TBL_NUM);
  ("col", CArray (CArray struct_drm_msm_3d_col GAMUT_3D_MODE17_TBL_SZ) GAMUT_3D_TBL_NUM)].

Definition struct_drm_msm_pgc_lut : ctype := struct [
  ("flags", c_u64); ("c0", CArray c_u32 PGC_TBL_LEN); ("c1", CArray c_u32 PGC_TBL_LEN);
  ("c2", CArray c_u32 PGC_TBL_LEN)].

Definition struct_drm_msm_igc_lut : ctype := struct [
  ("flags", c_u64); ("c0", CArray c_u32 IGC_TBL_LEN); ("c1", CArray c_u32 IGC_TBL_LEN);
  ("c2", CArray c_u32 IGC_TBL_LEN); ("strength", c_u32); ("c0_last", c_u32); ("c1_last", c_u32);
  ("c2_last", c_u32)].

Definition struct_drm_msm_hist : ctype := struct [
  ("flags", c_u64); ("data", CArray c_u32 HIST_V_SIZE)].

Definition struct_drm_msm_ad4_init : ctype := struct [
  ("init_param_001", CArray c_u32 AD4_LUT_GRP0_SIZE);
  ("init_param_002", CArray c_u32 AD4_LUT_GRP0_SIZE);
  ("init_param_003", CArray c_u32 AD4_LUT_GRP0_SIZE);
  ("init_param_004", CArray c_u32 AD4_LUT_GRP0_SIZE);
  ("init_param_005", CArray c_u32 AD4_LUT_GRP1_SIZE);
  ("init_param_006", CArray c_u32 AD4_LUT_GRP1_SIZE);
  ("init_param_007", CArray c_u32 AD4_LUT_GRP0_SIZE);
  ("init_param_008", CArray c_u32 AD4_LUT_GRP0_SIZE); ("init_param_009", c_u32);
  ("init_param_010", c_u32); ("init_param_011", c_u32); ("init_param_012", c_u32);
  ("init_param_013", c_u32); ("init_param_014", c_u32); ("init_param_015", c_u32);
  ("init_param_016", c_u32); ("init_param_017", c_u32); ("init_param_018", c_u32);
  ("init_param_019", c_u32); ("init_param_020", c_u32); ("init_param_021", c_u32);
  ("init_param_022", c_u32); ("init_param_023", c_u32); ("init_param_024", c_u32);
  ("init_param_025", c_u32); ("init_param_026", c_u32); ("init_param_027", c_u32);
  ("init_param_028", c_u32); ("init_param_029", c_u32); ("init_param_030", c_u32);
  ("init_param_031", c_u32); ("init_param_032", c_u32); ("init_param_033", c_u32);
  ("init_param_034", c_u32); ("init_param_035", c_u32); ("init_param_036", c_u32);
  ("init_param_037", c_u32); ("init_param_038", c_u32); ("init_param_039", c_u32);
  ("init_param_040", c_u32); ("init_param_041", c_u32); ("init_param_042", c_u32);
  ("init_param_043", c_u32); ("init_param_044", c_u32); ("init_param_045", c_u32);
  ("init_param_046", c_u32); ("init_param_047", c_u32); ("init_param_048", c_u32);
  ("init_param_049", c_u32); ("init_param_050", c_u32); ("init_param_051", c_u32);
  ("init_param_052", c_u32); ("init_param_053", c_u32); ("init_param_054", c_u32);
  ("init_param_055", c_u32); ("init_param_056", c_u32); ("init_param_057", c_u32);
  ("init_param_058", c_u32); ("init_param_059", c_u32); ("init_param_060", c_u32);
  ("init_param_061", c_u32); ("init_param_062", c_u32); ("init_param_063", c_u32);
  ("init_param_064", c_u32); ("init_param_065", c_u32); ("init_param_066", c_u32);
  ("init_param_067", c_u32); ("init_param_068", c_u32); ("init_param_069", c_u32);
  ("init_param_070", c_u32); ("init_param_071", c_u32); ("init_param_072", c_u32);
  ("init_param_073", c_u32); ("init_param_074", c_u32); ("init_param_075", c_u32)].

Definition struct_drm_msm_ad4_cfg : ctype := struct [
  ("cfg_param_001", c_u32); ("cfg_param_002", c_u32); ("cfg_param_003", c_u32);
  ("cfg_param_004", c_u32); ("cfg_param_005", c_u32); ("cfg_param_006", c_u32);
  ("cfg_param_007", c_u32); ("cfg_param_008", c_u32); ("cfg_param_009", c_u32);
  ("cfg_param_010", c_u32); ("cfg_param_011", c_u32); ("cfg_param_012", c_u32);
  ("cfg_param_013", c_u32); ("cfg_param_014", c_u32); ("cfg_param_015", c_u32);
  ("cfg_param_016", c_u32); ("cfg_param_017", c_u32); ("cfg_param_018", c_u32);
  ("cfg_param_019", c_u32); ("cfg_param_020", c_u32); ("cfg_param_021", c_u32);
  ("cfg_param_022", c_u32); ("cfg_param_023", c_u32); ("cfg_param_024", c_u32);
  ("cfg_param_025", c_u32); ("cfg_param_026", c_u32); ("cfg_param_027", c_u32);
  ("cfg_param_028", c_u32); ("cfg_param_029", c_u32); ("cfg_param_030", c_u32);
  ("cfg_param_031", c_u32); ("cfg_param_032", c_u32); ("cfg_param_033", c_u32);
  ("cfg_param_034", c_u32); ("cfg_param_035", c_u32); ("cfg_param_036", c_u32);
  ("cfg_param_037", c_u32); ("cfg_param_038", c_u32); ("cfg_param_039", c_u32);
  ("cfg_param_040", c_u32); ("cfg_param_041", c_u32); ("cfg_param_042", c_u32);
  ("cfg_param_043", c_u32); ("cfg_param_044", c_u32); ("cfg_param_045", c_u32);
  ("cfg_param_046", c_u32); ("cfg_param_047", c_u32); ("cfg_param_048", c_u32);
  ("cfg_param_049", c_u32); ("cfg_param_050", c_u32); ("cfg_param_051", c_u32);
  ("cfg_param_052", c_u32); ("cfg_param_053", c_u32)].

Definition struct_drm_msm_dither : ctype := struct [
  ("flags", c_u64); ("temporal_en", c_u32); ("c0_bitdepth", c_u32); ("c1_bitdepth", c_u32);
  ("c2_bitdepth", c_u32); ("c3_bitdepth", c_u32); ("matrix", CArray c_u32 DITHER_MATRIX_SZ)].

Definition struct_drm_msm_pa_dither : ctype := struct [
  ("flags", c_u64); ("strength", c_u32); ("offset_en", c_u32);
  ("matrix", CArray c_u32 DITHER_MATRIX_SZ)].

Definition struct_drm_msm_ad4_roi_cfg : ctype := struct [
  ("h_x", c_u32); ("h_y", c_u32); ("v_x", c_u32); ("v_y", c_u32); ("factor_in", c_u32);
  ("factor_out", c_u32)].

Definition struct_drm_msm_ltm_stats_data : ctype := struct [
  ("stats_01", CArray (CArray c_u32 LTM_DATA_SIZE_1) LTM_DATA_SIZE_0);
  ("stats_02", CArray c_u32 LTM_DATA_SIZE_2); ("stats_03", CArray c_u32 LTM_DATA_SIZE_0);
  ("stats_04", CArray c_u32 LTM_DATA_SIZE_0); ("stats_05", CArray c_u32 LTM_DATA_SIZE_0);
  ("status_flag", c_u32); ("display_h", c_u32); ("display_v", c_u32);
  ("init_h", CArray c_u32 LTM_BLOCK_SIZE); ("init_v", c_u32); ("inc_h", c_u32); ("inc_v", c_u32);
  ("portrait_en", c_u32); ("merge_en", c_u32); ("cfg_param_01", c_u32); ("cfg_param_02", c_u32);
  ("cfg_param_03", c_u32); ("cfg_param_04", c_u32); ("feature_flag", c_u32); ("checksum", c_u32)].

Definition struct_drm_msm_ltm_init_param : ctype := struct [
  ("init_param_01", c_u32); ("init_param_02", c_u32); ("init_param_03", c_u32);
  ("init_param_04", c_u32)].

Definition struct_drm_msm_ltm_cfg_param : ctype := struct [
  ("cfg_param_01", c_u32); ("cfg_param_02", c_u32); ("cfg_param_03", c_u32);
  ("cfg_param_04", c_u32); ("cfg_param_05", c_u32); ("cfg_param_06", c_u32)].

Definition struct_drm_msm_ltm_data : ctype := struct [
  ("data", CArray (CArray c_u32 LTM_DATA_SIZE_3) LTM_DATA_SIZE_0)].

Definition struct_drm_msm_ltm_buffers_ctrl : ctype := struct [
  ("num_of_buffers", c_u32); ("fds", CArray c_u32 LTM_BUFFER_SIZE)].

Definition struct_drm_msm_ltm_buffer : ctype := struct [
  ("fd", c_u32); ("offset", c_u32); ("status", c_u32)].

Definition struct_drm_msm_spr_init_cfg : ctype := struct [
  ("flags", c_u64); ("cfg0", c_u16); ("cfg1", c_u16); ("cfg2", c_u16); ("cfg3", c_u16);
  ("cfg4", c_u16); ("cfg5", c_u16); ("cfg6", c_u16); ("cfg7", c_u16); ("cfg8", c_u16);
  ("cfg9", c_u16); ("cfg10", c_u32); ("cfg11", CArray c_u16 SPR_INIT_PARAM_SIZE_1);
  ("cfg12", CArray c_u16 SPR_INIT_PARAM_SIZE_1); ("cfg13", CArray c_u16 SPR_INIT_PARAM_SIZE_1);
  ("cfg14", CArray c_u16 SPR_INIT_PARAM_SIZE_2); ("cfg15", CArray c_u16 SPR_INIT_PARAM_SIZE_5);
  ("cfg16", CArray c_int SPR_INIT_PARAM_SIZE_3); ("cfg17", CArray c_int SPR_INIT_PARAM_SIZE_4)].

Definition struct_drm_msm_dem_cfg : ctype := struct [
  ("flags", c_u64); ("pentile", c_u32); ("cfg0_en", c_u32); ("cfg0_param0_len", c_u32);
  ("cfg0_param0", CArray c_u32 CFG0_PARAM_LEN); ("cfg0_param1_len", c_u32);
  ("cfg0_param1", CArray c_u32 CFG0_PARAM_LEN); ("cfg0_param2_len", c_u32);
  ("cfg0_param2_c0", CArray c_u64 CFG0_PARAM2_LEN);
  ("cfg0_param2_c1", CArray c_u64 CFG0_PARAM2_LEN);
  ("cfg0_param2_c2", CArray c_u64 CFG0_PARAM2_LEN); ("cfg0_param3_len", c_u32);
  ("cfg0_param3_c0", CArray c_u32 CFG0_PARAM_LEN);
  ("cfg0_param3_c1", CArray c_u32 CFG0_PARAM_LEN);
  ("cfg0_param3_c2", CArray c_u32 CFG0_PARAM_LEN); ("cfg0_param4_len", c_u32);
  ("cfg0_param4", CArray c_u32 CFG0_PARAM_LEN); ("cfg1_en", c_u32); ("cfg1_high_idx", c_u32);
  ("cfg1_low_idx", c_u32); ("cfg01_param0_len", c_u32);
  ("cfg01_param0", CArray c_u32 CFG1_PARAM_LEN); ("cfg1_param0_len", c_u32);
  ("cfg1_param0_c0", CArray c_u32 CFG1_PARAM0_LEN);
  ("cfg1_param0_c1", CArray c_u32 CFG1_PARAM0_LEN);
  ("cfg1_param0_c2", CArray c_u32 CFG1_PARAM0_LEN); ("cfg2_en", c_u32); ("cfg3_en", c_u32);
  ("cfg3_param0_len", c_u32); ("cfg3_param0_a", CArray c_u32 CFG3_PARAM01_LEN);
  ("cfg3_param0_b", CArray c_u32 CFG3_PARAM01_LEN); ("cfg3_ab_adj", c_u32); ("cfg4_en", c_u32);
  ("cfg5_en", c_u32); ("cfg5_param0_len", c_u32); ("cfg5_param0", CArray c_u32 CFG5_PARAM01_LEN);
  ("cfg5_param1_len", c_u32); ("cfg5_param1", CArray c_u32 CFG5_PARAM01_LEN);
  ("c0_depth", c_u32); ("c1_depth", c_u32); ("c2_depth", c_u32); ("src_id", c_u32)].

Definition struct_drm_msm_ad4_manual_str_cfg : ctype := struct [
  ("in_str", c_u32); ("out_str", c_u32)].

Definition struct_drm_msm_rc_mask_cfg : ctype := struct [
  ("flags", c_u64); ("cfg_param_01", c_u32); ("cfg_param_02", c_u32); ("cfg_param_03", c_u32);
  ("cfg_param_04", CArray c_u32 RC_CFG_SIZE_MAX); ("cfg_param_05", CArray c_u32 RC_CFG_SIZE_MAX);
  ("cfg_param_06", CArray c_u32 RC_CFG_SIZE_MAX); ("cfg_param_07", c_u64);
  ("cfg_param_08", c_u32); ("cfg_param_09", CArray c_u64 RC_DATA_SIZE_MAX); ("height", c_u32);
  ("width", c_u32)].

Definition struct_drm_msm_fp16_gc : ctype := struct [
  ("flags", c_u64); ("mode", c_u64)].

Definition struct_drm_msm_fp16_csc : ctype := struct [
  ("flags", c_u64); ("cfg_param_0_len", c_u32);
  ("cfg_param_0", CArray c_u32 FP16_CSC_CFG0_PARAM_LEN); ("cfg_param_1_len", c_u32);
  ("cfg_param_1", CArray c_u32 FP16_CSC_CFG1_PARAM_LEN)].

Definition struct_drm_msm_backlight_info : ctype := struct [
  ("brightness_max", c_u32); ("brightness", c_u32); ("bl_level_max", c_u32); ("bl_level", c_u32);
  ("bl_scale", c_u32); ("bl_scale_sv", c_u32); ("status", c_u32); ("min_bl", c_u32);
  ("bl_scale_max", c_u32); ("bl_scale_sv_max", c_u32)].

Definition struct_drm_msm_dimming_bl_lut : ctype := struct [
  ("length", c_u32); ("mapped_bl", CArray c_u32 DIMMING_BL_LUT_LEN)].

(** ** [display/media/msm_sde_rotator.h] *)

Definition struct_msm_sde_rotator_fence : ctype := struct [
  ("index", c_u32); ("type", c_u32); ("fd", c_int); ("reserved", CArray c_u32 5)].

Definition struct_msm_sde_rotator_comp_ratio : ctype := struct [
  ("index", c_u32); ("type", c_u32); ("numer", c_u32); ("denom", c_u32);
  ("reserved", CArray c_u32 4)].

Definition VIDIOC_G_SDE_ROTATOR_FENCE : ioctl_req := IOWR (chr "V") (BASE_VIDIOC_PRIVATE + 10) struct_msm_sde_rotator_fence.
Definition VIDIOC_S_SDE_ROTATOR_FENCE : ioctl_req := IOWR (chr "V") (BASE_VIDIOC_PRIVATE + 11) struct_msm_sde_rotator_fence.
Definition VIDIOC_G_SDE_ROTATOR_COMP_RATIO : ioctl_req := IOWR (chr "V") (BASE_VIDIOC_PRIVATE + 12) struct_msm_sde_rotator_comp_ratio.
Definition VIDIOC_S_SDE_ROTATOR_COMP_RATIO : ioctl_req := IOWR (chr "V") (BASE_VIDIOC_PRIVATE + 13) struct_msm_sde_rotator_comp_ratio.

Definition msm_sde_rotator_requests (a : abi) : list (string * ioctl_req) :=
  [("VIDIOC_G_SDE_ROTATOR_FENCE", VIDIOC_G_SDE_ROTATOR_FENCE);
   ("VIDIOC_S_SDE_ROTATOR_FENCE", VIDIOC_S_SDE_ROTATOR_FENCE);
   ("VIDIOC_G_SDE_ROTATOR_COMP_RATIO", VIDIOC_G_SDE_ROTATOR_COMP_RATIO);
   ("VIDIOC_S_SDE_ROTATOR_COMP_RATIO", VIDIOC_S_SDE_ROTATOR_COMP_RATIO)].

(** ** [display/hdcp/msm_hdmi_hdcp_mgr.h] *)

Definition struct_HDCP_V2V1_MSG_TOPOLOGY : ctype := struct [
  ("ds_type", c_u32); ("bksv", CArray c_u8 5); ("dev_count", c_u8); ("depth", c_u8);
  ("ksv_list", CArray c_u8 (5 * 127)); ("max_cascade_exceeded", c_u32);
  ("max_dev_exceeded", c_u32)].

(** ** [media/synx.h] *)

Definition SYNX_USER_PAYLOAD_SIZE : Z := 4.
Definition SYNX_PRIVATE_MAGIC_NUM : Z := chr "s".

Definition struct_synx_info : ctype := struct [
  ("name", CArray c_u8 64); ("synx_obj", c_int)].

Definition struct_synx_userpayload_info : ctype := struct [
  ("synx_obj", c_int); ("reserved", c_u32); ("payload", CArray c_u64 SYNX_USER_PAYLOAD_SIZE)].

Definition struct_synx_signal : ctype := struct [
  ("synx_obj", c_int); ("synx_state", c_u32)].

Definition struct_synx_merge : ctype := struct [
  ("synx_objs", c_u64); ("num_objs", c_u32); ("merged", c_int)].

Definition struct_synx_wait : ctype := struct [
  ("synx_obj", c_int); ("reserved", c_u32); ("timeout_ms", c_u64)].

Definition struct_synx_external_desc : ctype := struct [
  ("type", c_u32); ("reserved", c_u32); ("id", CArray c_int 2)].

Definition struct_synx_bind : ctype := struct [
  ("synx_obj", c_int); ("reserved", c_u32); ("ext_sync_desc", struct_synx_external_desc)].

Definition struct_synx_addrefcount : ctype := struct [
  ("synx_obj", c_int); ("count", c_u32)].

Definition struct_synx_id_info : ctype := struct [
  ("synx_obj", c_int); ("secure_key", c_u32); ("new_synx_obj", c_int); ("padding", c_u32)].

Definition struct_synx_fence_desc : ctype := struct [
  ("type", c_u32); ("reserved", c_u32); ("id", CArray c_int 2)].

Definition struct_synx_create_v2 : ctype := struct [
  ("name", CArray c_u8 64); ("synx_obj", c_u32); ("flags", c_u32);
  ("desc", struct_synx_fence_desc)].

Definition struct_synx_userpayload_info_v2 : ctype := struct [
  ("synx_obj", c_u32); ("reserved", c_u32); ("payload", CArray c_u64 SYNX_USER_PAYLOAD_SIZE)].

Definition struct_synx_signal_v2 : ctype := struct [
  ("synx_obj", c_u32); ("synx_state", c_u32); ("reserved", c_u64)].

Definition struct_synx_merge_v2 : ctype := struct [
  ("synx_objs", c_u64); ("num_objs", c_u32); ("merged", c_u32); ("flags", c_u32);
  ("reserved", c_u32)].

Definition struct_synx_wait_v2 : ctype := struct [
  ("synx_obj", c_u32); ("reserved", c_u32); ("timeout_ms", c_u64)].

Definition struct_synx_external_desc_v2 : ctype := struct [
  ("id", c_u64); ("type", c_u32); ("reserved", c_u32)].

Definition struct_synx_bind_v2 : ctype := struct [
  ("synx_obj", c_u32); ("reserved", c_u32); ("ext_sync_desc", struct_synx_external_desc_v2)].

Definition struct_synx_import_info : ctype := struct [
  ("synx_obj", c_u32); ("flags", c_u32); ("new_synx_obj", c_u32); ("reserved", c_u32);
  ("desc", struct_synx_fence_desc)].

Definition struct_synx_import_arr_info : ctype := struct [
  ("list", c_u64); ("num_objs", c_u32)].

Definition struct_synx_fence_fd : ctype := struct [
  ("synx_obj", c_u32); ("fd", c_int)].

Definition struct_synx_private_ioctl_arg : ctype := struct [
  ("id", c_u32); ("size", c_u32); ("result", c_u32); ("reserved", c_u32); ("ioctl_ptr", c_u64)].

Definition SYNX_PRIVATE_IOCTL_CMD : ioctl_req := IOWR SYNX_PRIVATE_MAGIC_NUM 130 struct_synx_private_ioctl_arg.

Definition synx_requests (a : abi) : list (string * ioctl_req) :=
  [("SYNX_PRIVATE_IOCTL_CMD", SYNX_PRIVATE_IOCTL_CMD)].

(** ** [media/msm_cvp_private.h] *)

Definition MAX_HFI_FENCE_SIZE : Z := 16.
Definition MAX_FENCE_DATA_SIZE : Z := MAX_HFI_FENCE_SIZE + 6.
Definition MAX_HFI_PKT_SIZE : Z := 470.
Definition MAX_HFI_FENCE_OFFSET : Z := MAX_HFI_PKT_SIZE - MAX_HFI_FENCE_SIZE.
Definition MAX_KMD_PROP_NUM_PER_PACKET : Z := 8.

Definition struct_cvp_kmd_session_info : ctype := struct [
  ("session_id", c_u32); ("reserved", CArray c_u32 10)].

Definition struct_cvp_kmd_buffer : ctype := struct [
  ("index", c_u32); ("type", c_u32); ("fd", c_u32); ("size", c_u32); ("offset", c_u32);
  ("pixelformat", c_u32); ("flags", c_u32); ("reserved", CArray c_u32 5)].

Definition struct_cvp_kmd_send_cmd : ctype := struct [
  ("cmd_address_fd", c_u32); ("cmd_size", c_u32); ("reserved", CArray c_u32 10)].

Definition struct_cvp_kmd_client_data : ctype := struct [
  ("transactionid", c_u32); ("client_data1", c_u32); ("client_data2", c_u32)].

Definition struct_cvp_kmd_hfi_packet : ctype := struct [
  ("pkt_data", CArray c_u32 MAX_HFI_PKT_SIZE)].

Definition struct_cvp_kmd_sys_property : ctype := struct [
  ("prop_type", c_u32); ("data", c_u32)].

Definition struct_cvp_kmd_sys_properties : ctype := struct [
  ("prop_num", c_u32);
  ("prop_data", CArray struct_cvp_kmd_sys_property MAX_KMD_PROP_NUM_PER_PACKET)].

Definition struct_cvp_kmd_session_control : ctype := struct [
  ("ctrl_type", c_u32); ("ctrl_data", CArray c_u32 8)].

Definition struct_cvp_kmd_hfi_fence_packet : ctype := struct [
  ("pkt_data", CArray c_u32 MAX_HFI_FENCE_OFFSET);
  ("fence_data", CArray c_u32 MAX_HFI_FENCE_SIZE); ("frame_id", c_u64)].

Definition struct_cvp_kmd_fence : ctype := struct [
  ("h_synx", c_int); ("secure_key", c_u32)].

Definition struct_cvp_kmd_fence_ctrl : ctype := struct [
  ("magic", c_u32); ("reserved", c_u32); ("frame_id", c_u64); ("num_fences", c_u32);
  ("output_index", c_u32); ("fences", CArray struct_cvp_kmd_fence (MAX_HFI_FENCE_SIZE / 2))].

Definition struct_cvp_kmd_hfi_synx_packet : ctype := struct [
  ("pkt_data", CArray c_u32 MAX_HFI_PKT_SIZE);
  ("", CUnion [
    ("fence_data", CArray c_u32 MAX_FENCE_DATA_SIZE); ("fc", struct_cvp_kmd_fence_ctrl)])].

Definition union_cvp_data_t : ctype := CUnion [
  ("session", struct_cvp_kmd_session_info); ("regbuf", struct_cvp_kmd_buffer);
  ("unregbuf", struct_cvp_kmd_buffer); ("send_cmd", struct_cvp_kmd_send_cmd);
  ("hfi_pkt", struct_cvp_kmd_hfi_packet); ("sys_properties", struct_cvp_kmd_sys_properties);
  ("hfi_fence_pkt", struct_cvp_kmd_hfi_fence_packet);
  ("hfi_synx_pkt", struct_cvp_kmd_hfi_synx_packet);
  ("session_ctrl", struct_cvp_kmd_session_control); ("frame_id", c_u64)].

Definition struct_cvp_kmd_arg : ctype := struct [
  ("type", c_u32); ("buf_offset", c_u32); ("buf_num", c_u32); ("data", union_cvp_data_t)].

Definition struct_cvp_kmd_request_power : ctype := struct [
  ("deprecated", c_u32)].

(** Every type of the file. *)
Definition uapiDisplay_types (a : abi) : list (string * ctype) :=
  [("struct_sde_drm_pix_ext_v1", struct_sde_drm_pix_ext_v1);
   ("struct_sde_drm_scaler_v1", struct_sde_drm_scaler_v1);
   ("struct_sde_drm_de_v1", struct_sde_drm_de_v1);
   ("struct_sde_drm_scaler_v2", struct_sde_drm_scaler_v2);
   ("struct_sde_drm_dest_scaler_cfg", struct_sde_drm_dest_scaler_cfg);
   ("struct_sde_drm_dest_scaler_data", struct_sde_drm_dest_scaler_data);
   ("struct_sde_drm_csc_v1", struct_sde_drm_csc_v1);
   ("struct_sde_drm_color", struct_sde_drm_color);
   ("struct_sde_drm_dim_layer_cfg", struct_sde_drm_dim_layer_cfg);
   ("struct_sde_drm_dim_layer_v1", struct_sde_drm_dim_layer_v1);
   ("struct_sde_drm_wb_cfg", struct_sde_drm_wb_cfg);
   ("struct_sde_drm_roi_v1", struct_sde_drm_roi_v1);
   ("struct_sde_drm_ubwc_stats_roi", struct_sde_drm_ubwc_stats_roi);
   ("struct_sde_drm_ubwc_stats_data", struct_sde_drm_ubwc_stats_data);
   ("struct_sde_drm_frame_data_buffers_ctrl", struct_sde_drm_frame_data_buffers_ctrl);
   ("struct_sde_drm_frame_data_buf", struct_sde_drm_frame_data_buf);
   ("struct_sde_drm_plane_frame_data", struct_sde_drm_plane_frame_data);
   ("struct_sde_drm_frame_data_packet", struct_sde_drm_frame_data_packet);
   ("struct_drm_msm_ext_hdr_metadata", struct_drm_msm_ext_hdr_metadata);
   ("struct_drm_msm_ext_hdr_properties", struct_drm_msm_ext_hdr_properties);
   ("struct_drm_panel_hdr_properties", struct_drm_panel_hdr_properties);
   ("struct_drm_msm_event_req", struct_drm_msm_event_req);
   ("struct_drm_msm_event_resp", struct_drm_msm_event_resp);
   ("struct_drm_msm_power_ctrl", struct_drm_msm_power_ctrl);
   ("struct_drm_msm_early_wakeup", struct_drm_msm_early_wakeup);
   ("struct_drm_msm_display_hint", struct_drm_msm_display_hint);
   ("struct_drm_msm_noise_layer_cfg", struct_drm_msm_noise_layer_cfg);
   ("struct_drm_msm_pcc_coeff", struct_drm_msm_pcc_coeff);
   ("struct_drm_msm_pcc", struct_drm_msm_pcc);
   ("struct_drm_msm_pa_vlut", struct_drm_msm_pa_vlut);
   ("struct_drm_msm_pa_hsic", struct_drm_msm_pa_hsic);
   ("struct_drm_msm_memcol", struct_drm_msm_memcol);
   ("struct_drm_msm_sixzone_curve", struct_drm_msm_sixzone_curve);
   ("struct_drm_msm_sixzone", struct_drm_msm_sixzone);
   ("struct_drm_msm_3d_col", struct_drm_msm_3d_col);
   ("struct_drm_msm_3d_gamut", struct_drm_msm_3d_gamut);
   ("struct_drm_msm_pgc_lut", struct_drm_msm_pgc_lut);
   ("struct_drm_msm_igc_lut", struct_drm_msm_igc_lut);
   ("struct_drm_msm_hist", struct_drm_msm_hist);
   ("struct_drm_msm_ad4_init", struct_drm_msm_ad4_init);
   ("struct_drm_msm_ad4_cfg", struct_drm_msm_ad4_cfg);
   ("struct_drm_msm_dither", struct_drm_msm_dither);
   ("struct_drm_msm_pa_dither", struct_drm_msm_pa_dither);
   ("struct_drm_msm_ad4_roi_cfg", struct_drm_msm_ad4_roi_cfg);
   ("struct_drm_msm_ltm_stats_data", struct_drm_msm_ltm_stats_data);
   ("struct_drm_msm_ltm_init_param", struct_drm_msm_ltm_init_param);
   ("struct_drm_msm_ltm_cfg_param", struct_drm_msm_ltm_cfg_param);
   ("struct_drm_msm_ltm_data", struct_drm_msm_ltm_data);
   ("struct_drm_msm_ltm_buffers_ctrl", struct_drm_msm_ltm_buffers_ctrl);
   ("struct_drm_msm_ltm_buffer", struct_drm_msm_ltm_buffer);
   ("struct_drm_msm_spr_init_cfg", struct_drm_msm_spr_init_cfg);
   ("struct_drm_msm_dem_cfg", struct_drm_msm_dem_cfg);
   ("struct_drm_msm_ad4_manual_str_cfg", struct_drm_msm_ad4_manual_str_cfg);
   ("struct_drm_msm_rc_mask_cfg", struct_drm_msm_rc_mask_cfg);
   ("struct_drm_msm_fp16_gc", struct_drm_msm_fp16_gc);
   ("struct_drm_msm_fp16_csc", struct_drm_msm_fp16_csc);
   ("struct_drm_msm_backlight_info", struct_drm_msm_backlight_info);
   ("struct_drm_msm_dimming_bl_lut", struct_drm_msm_dimming_bl_lut);
   ("struct_msm_sde_rotator_fence", struct_msm_sde_rotator_fence);
   ("struct_msm_sde_rotator_comp_ratio", struct_msm_sde_rotator_comp_ratio);
   ("struct_HDCP_V2V1_MSG_TOPOLOGY", struct_HDCP_V2V1_MSG_TOPOLOGY);
   ("struct_synx_info", struct_synx_info);
   ("struct_synx_userpayload_info", struct_synx_userpayload_info);
   ("struct_synx_signal", struct_synx_signal);
   ("struct_synx_merge", struct_synx_merge);
   ("struct_synx_wait", struct_synx_wait);
   ("struct_synx_external_desc", struct_synx_external_desc);
   ("struct_synx_bind", struct_synx_bind);
   ("struct_synx_addrefcount", struct_synx_addrefcount);
   ("struct_synx_id_info", struct_synx_id_info);
   ("struct_synx_fence_desc", struct_synx_fence_desc);
   ("struct_synx_create_v2", struct_synx_create_v2);
   ("struct_synx_userpayload_info_v2", struct_synx_userpayload_info_v2);
   ("struct_synx_signal_v2", struct_synx_signal_v2);
   ("struct_synx_merge_v2", struct_synx_merge_v2);
   ("struct_synx_wait_v2", struct_synx_wait_v2);
   ("struct_synx_external_desc_v2", struct_synx_external_desc_v2);
   ("struct_synx_bind_v2", struct_synx_bind_v2);
   ("struct_synx_import_info", struct_synx_import_info);
   ("struct_synx_import_arr_info", struct_synx_import_arr_info);
   ("struct_synx_fence_fd", struct_synx_fence_fd);
   ("struct_synx_private_ioctl_arg", struct_synx_private_ioctl_arg);
   ("struct_cvp_kmd_session_info", struct_cvp_kmd_session_info);
   ("struct_cvp_kmd_buffer", struct_cvp_kmd_buffer);
   ("struct_cvp_kmd_send_cmd", struct_cvp_kmd_send_cmd);
   ("struct_cvp_kmd_client_data", struct_cvp_kmd_client_data);
   ("struct_cvp_kmd_hfi_packet", struct_cvp_kmd_hfi_packet);
   ("struct_cvp_kmd_sys_property", struct_cvp_kmd_sys_property);
   ("struct_cvp_kmd_sys_properties", struct_cvp_kmd_sys_properties);
   ("struct_cvp_kmd_session_control", struct_cvp_kmd_session_control);
   ("struct_cvp_kmd_hfi_fence_packet", struct_cvp_kmd_hfi_fence_packet);
   ("struct_cvp_kmd_fence", struct_cvp_kmd_fence);
   ("struct_cvp_kmd_fence_ctrl", struct_cvp_kmd_fence_ctrl);
   ("struct_cvp_kmd_hfi_synx_packet", struct_cvp_kmd_hfi_synx_packet);
   ("union_cvp_data_t", union_cvp_data_t);
   ("struct_cvp_kmd_arg", struct_cvp_kmd_arg);
   ("struct_cvp_kmd_request_power", struct_cvp_kmd_request_power)].
End Uapi.
