(* ===== verification/UapiKgsl.v ===== *)
(** * UapiKgsl: requests and structures of the GPU driver ([include/linux/msm_kgsl.h]) *)

From Stdlib Require Import Ascii.

From S2P Require Import Prelude CLayout Ioctl Uapi.

#[local] Open Scope string_scope.
#[local] Open Scope list_scope.
#[local] Open Scope Z_scope.

Section Uapi.
Context `{LinuxUapi}.

(** ** [linux/msm_kgsl.h] *)

Definition KGSL_IOC_TYPE : Z := 0x09.

Definition struct_kgsl_devinfo : ctype := struct [
  ("device_id", c_u32); ("chip_id", c_u32); ("mmu_enabled", c_u32); ("gmem_gpubaseaddr", CLong);
  ("gpu_id", c_u32); ("gmem_sizebytes", __kernel_size_t)].

Definition struct_kgsl_devmemstore : ctype := struct [
  ("soptimestamp", c_u32); ("sbz", c_u32); ("eoptimestamp", c_u32); ("sbz2", c_u32);
  ("preempted", c_u32); ("sbz3", c_u32); ("ref_wait_ts", c_u32); ("sbz4", c_u32);
  ("current_context", c_u32); ("sbz5", c_u32)].

Definition struct_kgsl_capabilities_properties : ctype := struct [
  ("list", c_u64); ("count", c_u32)].

Definition struct_kgsl_capabilities : ctype := struct [
  ("data", c_u64); ("size", c_u64); ("querytype", c_u32)].

Definition struct_kgsl_shadowprop : ctype := struct [
  ("gpuaddr", CLong); ("size", __kernel_size_t); ("flags", c_u32)].

Definition struct_kgsl_qdss_stm_prop : ctype := struct [
  ("gpuaddr", c_u64); ("size", c_u64)].

Definition struct_kgsl_qtimer_prop : ctype := struct [
  ("gpuaddr", c_u64); ("size", c_u64)].

Definition struct_kgsl_version : ctype := struct [
  ("drv_major", c_u32); ("drv_minor", c_u32); ("dev_major", c_u32); ("dev_minor", c_u32)].

Definition struct_kgsl_sp_generic_mem : ctype := struct [
  ("local", c_u64); ("pvt", c_u64)].

Definition struct_kgsl_ucode_version : ctype := struct [
  ("pfp", c_u32); ("pm4", c_u32)].

Definition struct_kgsl_gpmu_version : ctype := struct [
  ("major", c_u32); ("minor", c_u32); ("features", c_u32)].

Definition struct_kgsl_context_property : ctype := struct [
  ("data", c_u64); ("size", c_u32); ("type", c_u32); ("contextid", c_u32)].

Definition struct_kgsl_context_property_fault : ctype := struct [
  ("faults", c_int); ("timestamp", c_u32)].

Definition struct_kgsl_gpu_model : ctype := struct [
  ("gpu_model", CArray c_u8 32)].

Definition struct_kgsl_ibdesc : ctype := struct [
  ("gpuaddr", CLong); ("__pad", CLong); ("sizedwords", __kernel_size_t); ("ctrl", c_u32)].

Definition struct_kgsl_cmdbatch_profiling_buffer : ctype := struct [
  ("wall_clock_s", c_u64); ("wall_clock_ns", c_u64); ("gpu_ticks_queued", c_u64);
  ("gpu_ticks_submitted", c_u64); ("gpu_ticks_retired", c_u64)].

Definition struct_kgsl_device_getproperty : ctype := struct [
  ("type", c_u32); ("value", CPtr); ("sizebytes", __kernel_size_t)].

Definition struct_kgsl_device_waittimestamp : ctype := struct [
  ("timestamp", c_u32); ("timeout", c_u32)].

Definition struct_kgsl_device_waittimestamp_ctxtid : ctype := struct [
  ("context_id", c_u32); ("timestamp", c_u32); ("timeout", c_u32)].

Definition struct_kgsl_ringbuffer_issueibcmds : ctype := struct [
  ("drawctxt_id", c_u32); ("ibdesc_addr", CLong); ("numibs", c_u32); ("timestamp", c_u32);
  ("flags", c_u32)].

Definition struct_kgsl_cmdstream_readtimestamp : ctype := struct [
  ("type", c_u32); ("timestamp", c_u32)].

Definition struct_kgsl_cmdstream_freememontimestamp : ctype := struct [
  ("gpuaddr", CLong); ("type", c_u32); ("timestamp", c_u32)].

Definition struct_kgsl_drawctxt_create : ctype := struct [
  ("flags", c_u32); ("drawctxt_id", c_u32)].

Definition struct_kgsl_drawctxt_destroy : ctype := struct [
  ("drawctxt_id", c_u32)].

Definition struct_kgsl_map_user_mem : ctype := struct [
  ("fd", c_int); ("gpuaddr", CLong); ("len", __kernel_size_t); ("offset", __kernel_size_t);
  ("hostptr", CLong); ("memtype", c_enum); ("flags", c_u32)].

Definition struct_kgsl_cmdstream_readtimestamp_ctxtid : ctype := struct [
  ("context_id", c_u32); ("type", c_u32); ("timestamp", c_u32)].

Definition struct_kgsl_cmdstream_freememontimestamp_ctxtid : ctype := struct [
  ("context_id", c_u32); ("gpuaddr", CLong); ("type", c_u32); ("timestamp", c_u32)].

Definition struct_kgsl_sharedmem_from_pmem : ctype := struct [
  ("pmem_fd", c_int); ("gpuaddr", CLong); ("len", c_u32); ("offset", c_u32)].

Definition struct_kgsl_sharedmem_free : ctype := struct [
  ("gpuaddr", CLong)].

Definition struct_kgsl_cff_user_event : ctype := struct [
  ("cff_opcode", c_u8); ("op1", c_u32); ("op2", c_u32); ("op3", c_u32); ("op4", c_u32);
  ("op5", c_u32); ("__pad", CArray c_u32 2)].

Definition struct_kgsl_gmem_desc : ctype := struct [
  ("x", c_u32); ("y", c_u32); ("width", c_u32); ("height", c_u32); ("pitch", c_u32)].

Definition struct_kgsl_buffer_desc : ctype := struct [
  ("hostptr", CPtr); ("gpuaddr", CLong); ("size", c_int); ("format", c_u32); ("pitch", c_u32);
  ("enabled", c_u32)].

Definition struct_kgsl_bind_gmem_shadow : ctype := struct [
  ("drawctxt_id", c_u32); ("gmem_desc", struct_kgsl_gmem_desc); ("shadow_x", c_u32);
  ("shadow_y", c_u32); ("shadow_buffer", struct_kgsl_buffer_desc); ("buffer_id", c_u32)].

Definition struct_kgsl_sharedmem_from_vmalloc : ctype := struct [
  ("gpuaddr", CLong); ("hostptr", c_u32); ("flags", c_u32)].

Definition struct_kgsl_drawctxt_set_bin_base_offset : ctype := struct [
  ("drawctxt_id", c_u32); ("offset", c_u32)].

Definition struct_kgsl_cmdwindow_write : ctype := struct [
  ("target", c_enum); ("addr", c_u32); ("data", c_u32)].

Definition struct_kgsl_gpumem_alloc : ctype := struct [
  ("gpuaddr", CLong); ("size", __kernel_size_t); ("flags", c_u32)].

Definition struct_kgsl_cff_syncmem : ctype := struct [
  ("gpuaddr", CLong); ("len", __kernel_size_t); ("__pad", CArray c_u32 2)].

Definition struct_kgsl_timestamp_event : ctype := struct [
  ("type", c_int); ("timestamp", c_u32); ("context_id", c_u32); ("priv", CPtr);
  ("len", __kernel_size_t)].

Definition struct_kgsl_timestamp_event_genlock : ctype := struct [
  ("handle", c_int)].

Definition struct_kgsl_timestamp_event_fence : ctype := struct [
  ("fence_fd", c_int)].

Definition struct_kgsl_gpumem_alloc_id : ctype := struct [
  ("id", c_u32); ("flags", c_u32); ("size", __kernel_size_t); ("mmapsize", __kernel_size_t);
  ("gpuaddr", CLong); ("__pad", CArray CLong 2)].

Definition struct_kgsl_gpumem_free_id : ctype := struct [
  ("id", c_u32); ("__pad", c_u32)].

Definition struct_kgsl_gpumem_get_info : ctype := struct [
  ("gpuaddr", CLong); ("id", c_u32); ("flags", c_u32); ("size", __kernel_size_t);
  ("mmapsize", __kernel_size_t); ("useraddr", CLong); ("__pad", CArray CLong 4)].

Definition struct_kgsl_gpumem_sync_cache : ctype := struct [
  ("gpuaddr", CLong); ("id", c_u32); ("op", c_u32); ("offset", __kernel_size_t);
  ("length", __kernel_size_t)].

Definition struct_kgsl_perfcounter_get : ctype := struct [
  ("groupid", c_u32); ("countable", c_u32); ("offset", c_u32); ("offset_hi", c_u32);
  ("__pad", c_u32)].

Definition struct_kgsl_perfcounter_put : ctype := struct [
  ("groupid", c_u32); ("countable", c_u32); ("__pad", CArray c_u32 2)].

Definition struct_kgsl_perfcounter_query : ctype := struct [
  ("groupid", c_u32); ("countables", CPtr); ("count", c_u32); ("max_counters", c_u32);
  ("__pad", CArray c_u32 2)].

Definition struct_kgsl_perfcounter_read_group : ctype := struct [
  ("groupid", c_u32); ("countable", c_u32); ("value", c_u64)].

Definition struct_kgsl_perfcounter_read : ctype := struct [
  ("reads", CPtr); ("count", c_u32); ("__pad", CArray c_u32 2)].

Definition struct_kgsl_gpumem_sync_cache_bulk : ctype := struct [
  ("id_list", CPtr); ("count", c_u32); ("op", c_u32); ("__pad", CArray c_u32 2)].

Definition struct_kgsl_cmd_syncpoint_timestamp : ctype := struct [
  ("context_id", c_u32); ("timestamp", c_u32)].

Definition struct_kgsl_cmd_syncpoint_fence : ctype := struct [
  ("fd", c_int)].

Definition struct_kgsl_cmd_syncpoint_timeline : ctype := struct [
  ("timelines", c_u64); ("count", c_u32); ("timelines_size", c_u32)].

Definition struct_kgsl_cmd_syncpoint : ctype := struct [
  ("type", c_int); ("priv", CPtr); ("size", __kernel_size_t)].

Definition struct_kgsl_submit_commands : ctype := struct [
  ("context_id", c_u32); ("flags", c_u32); ("cmdlist", CPtr); ("numcmds", c_u32);
  ("synclist", CPtr); ("numsyncs", c_u32); ("timestamp", c_u32); ("__pad", CArray c_u32 4)].

Definition struct_kgsl_device_constraint : ctype := struct [
  ("type", c_u32); ("context_id", c_u32); ("data", CPtr); ("size", __kernel_size_t)].

Definition struct_kgsl_device_constraint_pwrlevel : ctype := struct [
  ("level", c_u32)].

Definition struct_kgsl_syncsource_create : ctype := struct [
  ("id", c_u32); ("__pad", CArray c_u32 3)].

Definition struct_kgsl_syncsource_destroy : ctype := struct [
  ("id", c_u32); ("__pad", CArray c_u32 3)].

Definition struct_kgsl_syncsource_create_fence : ctype := struct [
  ("id", c_u32); ("fence_fd", c_int); ("__pad", CArray c_u32 4)].

Definition struct_kgsl_syncsource_signal_fence : ctype := struct [
  ("id", c_u32); ("fence_fd", c_int); ("__pad", CArray c_u32 4)].

Definition struct_kgsl_cff_sync_gpuobj : ctype := struct [
  ("offset", c_u64); ("length", c_u64); ("id", c_u32)].

Definition struct_kgsl_gpuobj_alloc : ctype := struct [
  ("size", c_u64); ("flags", c_u64); ("va_len", c_u64); ("mmapsize", c_u64); ("id", c_u32);
  ("metadata_len", c_u32); ("metadata", c_u64)].

Definition struct_kgsl_gpuobj_free : ctype := struct [
  ("flags", c_u64); ("priv", c_u64); ("id", c_u32); ("type", c_u32); ("len", c_u32)].

Definition struct_kgsl_gpu_event_timestamp : ctype := struct [
  ("context_id", c_u32); ("timestamp", c_u32)].

Definition struct_kgsl_gpu_event_fence : ctype := struct [
  ("fd", c_int)].

Definition struct_kgsl_gpuobj_info : ctype := struct [
  ("gpuaddr", c_u64); ("flags", c_u64); ("size", c_u64); ("va_len", c_u64); ("va_addr", c_u64);
  ("id", c_u32)].

Definition struct_kgsl_gpuobj_import : ctype := struct [
  ("priv", c_u64); ("priv_len", c_u64); ("flags", c_u64); ("type", c_u32); ("id", c_u32)].

Definition struct_kgsl_gpuobj_import_dma_buf : ctype := struct [
  ("fd", c_int)].

Definition struct_kgsl_gpuobj_import_useraddr : ctype := struct [
  ("virtaddr", c_u64)].

Definition struct_kgsl_gpuobj_sync_obj : ctype := struct [
  ("offset", c_u64); ("length", c_u64); ("id", c_u32); ("op", c_u32)].

Definition struct_kgsl_gpuobj_sync : ctype := struct [
  ("objs", c_u64); ("obj_len", c_u32); ("count", c_u32)].

Definition struct_kgsl_command_object : ctype := struct [
  ("offset", c_u64); ("gpuaddr", c_u64); ("size", c_u64); ("flags", c_u32); ("id", c_u32)].

Definition struct_kgsl_command_syncpoint : ctype := struct [
  ("priv", c_u64); ("size", c_u64); ("type", c_u32)].

Definition struct_kgsl_gpu_command : ctype := struct [
  ("flags", c_u64); ("cmdlist", c_u64); ("cmdsize", c_u32); ("numcmds", c_u32);
  ("objlist", c_u64); ("objsize", c_u32); ("numobjs", c_u32); ("synclist", c_u64);
  ("syncsize", c_u32); ("numsyncs", c_u32); ("context_id", c_u32); ("timestamp", c_u32)].

Definition struct_kgsl_preemption_counters_query : ctype := struct [
  ("counters", c_u64); ("size_user", c_u32); ("size_priority_level", c_u32);
  ("max_priority_level", c_u32)].

Definition struct_kgsl_gpuobj_set_info : ctype := struct [
  ("flags", c_u64); ("metadata", c_u64); ("id", c_u32); ("metadata_len", c_u32); ("type", c_u32)].

Definition struct_kgsl_sparse_phys_alloc : ctype := struct [
  ("size", c_u64); ("pagesize", c_u64); ("flags", c_u64); ("id", c_u32)].

Definition struct_kgsl_sparse_phys_free : ctype := struct [
  ("id", c_u32)].

Definition struct_kgsl_sparse_virt_alloc : ctype := struct [
  ("size", c_u64); ("pagesize", c_u64); ("flags", c_u64); ("gpuaddr", c_u64); ("id", c_u32)].

Definition struct_kgsl_sparse_virt_free : ctype := struct [
  ("id", c_u32)].

Definition struct_kgsl_sparse_binding_object : ctype := struct [
  ("virtoffset", c_u64); ("physoffset", c_u64); ("size", c_u64); ("flags", c_u64); ("id", c_u32)].

Definition struct_kgsl_sparse_bind : ctype := struct [
  ("list", c_u64); ("id", c_u32); ("size", c_u32); ("count", c_u32)].

Definition struct_kgsl_gpu_sparse_command : ctype := struct [
  ("flags", c_u64); ("sparselist", c_u64); ("synclist", c_u64); ("sparsesize", c_u32);
  ("numsparse", c_u32); ("syncsize", c_u32); ("numsyncs", c_u32); ("context_id", c_u32);
  ("timestamp", c_u32); ("id", c_u32)].

Definition struct_kgsl_gpumem_bind_range : ctype := struct [
  ("child_offset", c_u64); ("target_offset", c_u64); ("length", c_u64); ("child_id", c_u32);
  ("op", c_u32)].

Definition struct_kgsl_gpumem_bind_ranges : ctype := struct [
  ("ranges", c_u64); ("ranges_nents", c_u32); ("ranges_size", c_u32); ("id", c_u32);
  ("flags", c_u32); ("fence_id", c_int); ("padding", c_u32)].

Definition struct_kgsl_gpu_aux_command_bind : ctype := struct [
  ("rangeslist", c_u64); ("numranges", c_u64); ("rangesize", c_u64); ("target", c_u32);
  ("padding", c_u32)].

Definition struct_kgsl_gpu_aux_command_generic : ctype := struct [
  ("priv", c_u64); ("size", c_u64); ("type", c_u32); ("padding", c_u32)].

Definition struct_kgsl_gpu_aux_command : ctype := struct [
  ("flags", c_u64); ("cmdlist", c_u64); ("cmdsize", c_u32); ("numcmds", c_u32);
  ("synclist", c_u64); ("syncsize", c_u32); ("numsyncs", c_u32); ("context_id", c_u32);
  ("timestamp", c_u32)].

Definition struct_kgsl_timeline_create : ctype := struct [
  ("seqno", c_u64); ("id", c_u32); ("padding", c_u32)].

Definition struct_kgsl_timeline_val : ctype := struct [
  ("seqno", c_u64); ("timeline", c_u32); ("padding", c_u32)].

Definition struct_kgsl_timeline_wait : ctype := struct [
  ("tv_sec", c_u64); ("tv_nsec", c_u64); ("timelines", c_u64); ("count", c_u32);
  ("timelines_size", c_u32); ("flags", c_u32); ("padding", c_u32)].

Definition struct_kgsl_timeline_signal : ctype := struct [
  ("timelines", c_u64); ("count", c_u32); ("timelines_size", c_u32)].

Definition struct_kgsl_timeline_fence_get : ctype := struct [
  ("seqno", c_u64); ("timeline", c_u32); ("handle", c_int)].

Definition struct_kgsl_gpu_aux_command_timeline : ctype := struct [
  ("timelines", c_u64); ("count", c_u32); ("timelines_size", c_u32)].

Definition struct_kgsl_pagefault_report : ctype := struct [
  ("fault_addr", c_u64); ("reserved", CArray c_u64 2); ("fault_type", c_u32); ("__pad", c_u32)].

Definition struct_kgsl_fault : ctype := struct [
  ("fault", c_u64); ("type", c_u32); ("count", c_u32); ("size", c_u32); ("padding", c_u32)].

Definition struct_kgsl_fault_report : ctype := struct [
  ("faultlist", c_u64); ("faultnents", c_u32); ("faultsize", c_u32); ("context_id", c_u32);
  ("padding", c_u32)].

Definition struct_kgsl_recurring_command : ctype := struct [
  ("flags", c_u64); ("cmdlist", c_u64); ("cmdsize", c_u32); ("numcmds", c_u32);
  ("objlist", c_u64); ("objsize", c_u32); ("numobjs", c_u32); ("context_id", c_u32);
  ("padding", c_u32)].

Definition IOCTL_KGSL_DEVICE_GETPROPERTY : ioctl_req := IOWR KGSL_IOC_TYPE 0x2 struct_kgsl_device_getproperty.
Definition IOCTL_KGSL_DEVICE_WAITTIMESTAMP : ioctl_req := IOW KGSL_IOC_TYPE 0x6 struct_kgsl_device_waittimestamp.
Definition IOCTL_KGSL_DEVICE_WAITTIMESTAMP_CTXTID : ioctl_req := IOW KGSL_IOC_TYPE 0x7 struct_kgsl_device_waittimestamp_ctxtid.
Definition IOCTL_KGSL_RINGBUFFER_ISSUEIBCMDS : ioctl_req := IOWR KGSL_IOC_TYPE 0x10 struct_kgsl_ringbuffer_issueibcmds.
Definition IOCTL_KGSL_CMDSTREAM_READTIMESTAMP_OLD : ioctl_req := IOR KGSL_IOC_TYPE 0x11 struct_kgsl_cmdstream_readtimestamp.
Definition IOCTL_KGSL_CMDSTREAM_READTIMESTAMP : ioctl_req := IOWR KGSL_IOC_TYPE 0x11 struct_kgsl_cmdstream_readtimestamp.
Definition IOCTL_KGSL_CMDSTREAM_FREEMEMONTIMESTAMP : ioctl_req := IOW KGSL_IOC_TYPE 0x12 struct_kgsl_cmdstream_freememontimestamp.
Definition IOCTL_KGSL_CMDSTREAM_FREEMEMONTIMESTAMP_OLD : ioctl_req := IOR KGSL_IOC_TYPE 0x12 struct_kgsl_cmdstream_freememontimestamp.
Definition IOCTL_KGSL_DRAWCTXT_CREATE : ioctl_req := IOWR KGSL_IOC_TYPE 0x13 struct_kgsl_drawctxt_create.
Definition IOCTL_KGSL_DRAWCTXT_DESTROY : ioctl_req := IOW KGSL_IOC_TYPE 0x14 struct_kgsl_drawctxt_destroy.
Definition IOCTL_KGSL_MAP_USER_MEM : ioctl_req := IOWR KGSL_IOC_TYPE 0x15 struct_kgsl_map_user_mem.
Definition IOCTL_KGSL_CMDSTREAM_READTIMESTAMP_CTXTID : ioctl_req := IOWR KGSL_IOC_TYPE 0x16 struct_kgsl_cmdstream_readtimestamp_ctxtid.
Definition IOCTL_KGSL_CMDSTREAM_FREEMEMONTIMESTAMP_CTXTID : ioctl_req := IOW KGSL_IOC_TYPE 0x17 struct_kgsl_cmdstream_freememontimestamp_ctxtid.
Definition IOCTL_KGSL_SHAREDMEM_FROM_PMEM : ioctl_req := IOWR KGSL_IOC_TYPE 0x20 struct_kgsl_sharedmem_from_pmem.
Definition IOCTL_KGSL_SHAREDMEM_FREE : ioctl_req := IOW KGSL_IOC_TYPE 0x21 struct_kgsl_sharedmem_free.
Definition IOCTL_KGSL_CFF_USER_EVENT : ioctl_req := IOW KGSL_IOC_TYPE 0x31 struct_kgsl_cff_user_event.
Definition IOCTL_KGSL_DRAWCTXT_BIND_GMEM_SHADOW : ioctl_req := IOW KGSL_IOC_TYPE 0x22 struct_kgsl_bind_gmem_shadow.
Definition IOCTL_KGSL_SHAREDMEM_FROM_VMALLOC : ioctl_req := IOWR KGSL_IOC_TYPE 0x23 struct_kgsl_sharedmem_from_vmalloc.
Definition IOCTL_KGSL_SHAREDMEM_FLUSH_CACHE : ioctl_req := IOW KGSL_IOC_TYPE 0x24 struct_kgsl_sharedmem_free.
Definition IOCTL_KGSL_DRAWCTXT_SET_BIN_BASE_OFFSET : ioctl_req := IOW KGSL_IOC_TYPE 0x25 struct_kgsl_drawctxt_set_bin_base_offset.
Definition IOCTL_KGSL_CMDWINDOW_WRITE : ioctl_req := IOW KGSL_IOC_TYPE 0x2e struct_kgsl_cmdwindow_write.
Definition IOCTL_KGSL_GPUMEM_ALLOC : ioctl_req := IOWR KGSL_IOC_TYPE 0x2f struct_kgsl_gpumem_alloc.
Definition IOCTL_KGSL_CFF_SYNCMEM : ioctl_req := IOW KGSL_IOC_TYPE 0x30 struct_kgsl_cff_syncmem.
Definition IOCTL_KGSL_TIMESTAMP_EVENT_OLD : ioctl_req := IOW KGSL_IOC_TYPE 0x31 struct_kgsl_timestamp_event.
Definition IOCTL_KGSL_SETPROPERTY : ioctl_req := IOW KGSL_IOC_TYPE 0x32 struct_kgsl_device_getproperty.
Definition IOCTL_KGSL_TIMESTAMP_EVENT : ioctl_req := IOWR KGSL_IOC_TYPE 0x33 struct_kgsl_timestamp_event.
Definition IOCTL_KGSL_GPUMEM_ALLOC_ID : ioctl_req := IOWR KGSL_IOC_TYPE 0x34 struct_kgsl_gpumem_alloc_id.
Definition IOCTL_KGSL_GPUMEM_FREE_ID : ioctl_req := IOWR KGSL_IOC_TYPE 0x35 struct_kgsl_gpumem_free_id.
Definition IOCTL_KGSL_GPUMEM_GET_INFO : ioctl_req := IOWR KGSL_IOC_TYPE 0x36 struct_kgsl_gpumem_get_info.
Definition IOCTL_KGSL_GPUMEM_SYNC_CACHE : ioctl_req := IOW KGSL_IOC_TYPE 0x37 struct_kgsl_gpumem_sync_cache.
Definition IOCTL_KGSL_PERFCOUNTER_GET : ioctl_req := IOWR KGSL_IOC_TYPE 0x38 struct_kgsl_perfcounter_get.
Definition IOCTL_KGSL_PERFCOUNTER_PUT : ioctl_req := IOW KGSL_IOC_TYPE 0x39 struct_kgsl_perfcounter_put.
Definition IOCTL_KGSL_PERFCOUNTER_QUERY : ioctl_req := IOWR KGSL_IOC_TYPE 0x3A struct_kgsl_perfcounter_query.
Definition IOCTL_KGSL_PERFCOUNTER_READ : ioctl_req := IOWR KGSL_IOC_TYPE 0x3B struct_kgsl_perfcounter_read.
Definition IOCTL_KGSL_GPUMEM_SYNC_CACHE_BULK : ioctl_req := IOWR KGSL_IOC_TYPE 0x3C struct_kgsl_gpumem_sync_cache_bulk.
Definition IOCTL_KGSL_SUBMIT_COMMANDS : ioctl_req := IOWR KGSL_IOC_TYPE 0x3D struct_kgsl_submit_commands.
Definition IOCTL_KGSL_SYNCSOURCE_CREATE : ioctl_req := IOWR KGSL_IOC_TYPE 0x40 struct_kgsl_syncsource_create.
Definition IOCTL_KGSL_SYNCSOURCE_DESTROY : ioctl_req := IOWR KGSL_IOC_TYPE 0x41 struct_kgsl_syncsource_destroy.
Definition IOCTL_KGSL_SYNCSOURCE_CREATE_FENCE : ioctl_req := IOWR KGSL_IOC_TYPE 0x42 struct_kgsl_syncsource_create_fence.
Definition IOCTL_KGSL_SYNCSOURCE_SIGNAL_FENCE : ioctl_req := IOWR KGSL_IOC_TYPE 0x43 struct_kgsl_syncsource_signal_fence.
Definition IOCTL_KGSL_CFF_SYNC_GPUOBJ : ioctl_req := IOW KGSL_IOC_TYPE 0x44 struct_kgsl_cff_sync_gpuobj.
Definition IOCTL_KGSL_GPUOBJ_ALLOC : ioctl_req := IOWR KGSL_IOC_TYPE 0x45 struct_kgsl_gpuobj_alloc.
Definition IOCTL_KGSL_GPUOBJ_FREE : ioctl_req := IOW KGSL_IOC_TYPE 0x46 struct_kgsl_gpuobj_free.
Definition IOCTL_KGSL_GPUOBJ_INFO : ioctl_req := IOWR KGSL_IOC_TYPE 0x47 struct_kgsl_gpuobj_info.
Definition IOCTL_KGSL_GPUOBJ_IMPORT : ioctl_req := IOWR KGSL_IOC_TYPE 0x48 struct_kgsl_gpuobj_import.
Definition IOCTL_KGSL_GPUOBJ_SYNC : ioctl_req := IOW KGSL_IOC_TYPE 0x49 struct_kgsl_gpuobj_sync.
Definition IOCTL_KGSL_GPU_COMMAND : ioctl_req := IOWR KGSL_IOC_TYPE 0x4A struct_kgsl_gpu_command.
Definition IOCTL_KGSL_PREEMPTIONCOUNTER_QUERY : ioctl_req := IOWR KGSL_IOC_TYPE 0x4B struct_kgsl_preemption_counters_query.
Definition IOCTL_KGSL_GPUOBJ_SET_INFO : ioctl_req := IOW KGSL_IOC_TYPE 0x4C struct_kgsl_gpuobj_set_info.
Definition IOCTL_KGSL_SPARSE_PHYS_ALLOC : ioctl_req := IOWR KGSL_IOC_TYPE 0x50 struct_kgsl_sparse_phys_alloc.
Definition IOCTL_KGSL_SPARSE_PHYS_FREE : ioctl_req := IOW KGSL_IOC_TYPE 0x51 struct_kgsl_sparse_phys_free.
Definition IOCTL_KGSL_SPARSE_VIRT_ALLOC : ioctl_req := IOWR KGSL_IOC_TYPE 0x52 struct_kgsl_sparse_virt_alloc.
Definition IOCTL_KGSL_SPARSE_VIRT_FREE : ioctl_req := IOW KGSL_IOC_TYPE 0x53 struct_kgsl_sparse_virt_free.
Definition IOCTL_KGSL_SPARSE_BIND : ioctl_req := IOW KGSL_IOC_TYPE 0x54 struct_kgsl_sparse_bind.
Definition IOCTL_KGSL_GPU_SPARSE_COMMAND : ioctl_req := IOWR KGSL_IOC_TYPE 0x55 struct_kgsl_gpu_sparse_command.
Definition IOCTL_KGSL_GPUMEM_BIND_RANGES : ioctl_req := IOWR KGSL_IOC_TYPE 0x56 struct_kgsl_gpumem_bind_ranges.
Definition IOCTL_KGSL_GPU_AUX_COMMAND : ioctl_req := IOWR KGSL_IOC_TYPE 0x57 struct_kgsl_gpu_aux_command.
Definition IOCTL_KGSL_TIMELINE_CREATE : ioctl_req := IOWR KGSL_IOC_TYPE 0x58 struct_kgsl_timeline_create.
Definition IOCTL_KGSL_TIMELINE_WAIT : ioctl_req := IOW KGSL_IOC_TYPE 0x59 struct_kgsl_timeline_wait.
Definition IOCTL_KGSL_TIMELINE_QUERY : ioctl_req := IOWR KGSL_IOC_TYPE 0x5A struct_kgsl_timeline_val.
Definition IOCTL_KGSL_TIMELINE_SIGNAL : ioctl_req := IOW KGSL_IOC_TYPE 0x5B struct_kgsl_timeline_signal.
Definition IOCTL_KGSL_TIMELINE_FENCE_GET : ioctl_req := IOWR KGSL_IOC_TYPE 0x5C struct_kgsl_timeline_fence_get.
Definition IOCTL_KGSL_TIMELINE_DESTROY : ioctl_req := IOW KGSL_IOC_TYPE 0x5D c_u32.
Definition IOCTL_KGSL_GET_FAULT_REPORT : ioctl_req := IOWR KGSL_IOC_TYPE 0x5E struct_kgsl_fault_report.
Definition IOCTL_KGSL_RECURRING_COMMAND : ioctl_req := IOWR KGSL_IOC_TYPE 0x5F struct_kgsl_recurring_command.

Definition msm_kgsl_requests (a : abi) : list (string * ioctl_req) :=
  [("IOCTL_KGSL_DEVICE_GETPROPERTY", IOCTL_KGSL_DEVICE_GETPROPERTY);
   ("IOCTL_KGSL_DEVICE_WAITTIMESTAMP", IOCTL_KGSL_DEVICE_WAITTIMESTAMP);
   ("IOCTL_KGSL_DEVICE_WAITTIMESTAMP_CTXTID", IOCTL_KGSL_DEVICE_WAITTIMESTAMP_CTXTID);
   ("IOCTL_KGSL_RINGBUFFER_ISSUEIBCMDS", IOCTL_KGSL_RINGBUFFER_ISSUEIBCMDS);
   ("IOCTL_KGSL_CMDSTREAM_READTIMESTAMP_OLD", IOCTL_KGSL_CMDSTREAM_READTIMESTAMP_OLD);
   ("IOCTL_KGSL_CMDSTREAM_READTIMESTAMP", IOCTL_KGSL_CMDSTREAM_READTIMESTAMP);
   ("IOCTL_KGSL_CMDSTREAM_FREEMEMONTIMESTAMP", IOCTL_KGSL_CMDSTREAM_FREEMEMONTIMESTAMP);
   ("IOCTL_KGSL_CMDSTREAM_FREEMEMONTIMESTAMP_OLD", IOCTL_KGSL_CMDSTREAM_FREEMEMONTIMESTAMP_OLD);
   ("IOCTL_KGSL_DRAWCTXT_CREATE", IOCTL_KGSL_DRAWCTXT_CREATE);
   ("IOCTL_KGSL_DRAWCTXT_DESTROY", IOCTL_KGSL_DRAWCTXT_DESTROY);
   ("IOCTL_KGSL_MAP_USER_MEM", IOCTL_KGSL_MAP_USER_MEM);
   ("IOCTL_KGSL_CMDSTREAM_READTIMESTAMP_CTXTID", IOCTL_KGSL_CMDSTREAM_READTIMESTAMP_CTXTID);
   ("IOCTL_KGSL_CMDSTREAM_FREEMEMONTIMESTAMP_CTXTID", IOCTL_KGSL_CMDSTREAM_FREEMEMONTIMESTAMP_CTXTID);
   ("IOCTL_KGSL_SHAREDMEM_FROM_PMEM", IOCTL_KGSL_SHAREDMEM_FROM_PMEM);
   ("IOCTL_KGSL_SHAREDMEM_FREE", IOCTL_KGSL_SHAREDMEM_FREE);
   ("IOCTL_KGSL_CFF_USER_EVENT", IOCTL_KGSL_CFF_USER_EVENT);
   ("IOCTL_KGSL_DRAWCTXT_BIND_GMEM_SHADOW", IOCTL_KGSL_DRAWCTXT_BIND_GMEM_SHADOW);
   ("IOCTL_KGSL_SHAREDMEM_FROM_VMALLOC", IOCTL_KGSL_SHAREDMEM_FROM_VMALLOC);
   ("IOCTL_KGSL_SHAREDMEM_FLUSH_CACHE", IOCTL_KGSL_SHAREDMEM_FLUSH_CACHE);
   ("IOCTL_KGSL_DRAWCTXT_SET_BIN_BASE_OFFSET", IOCTL_KGSL_DRAWCTXT_SET_BIN_BASE_OFFSET);
   ("IOCTL_KGSL_CMDWINDOW_WRITE", IOCTL_KGSL_CMDWINDOW_WRITE);
   ("IOCTL_KGSL_GPUMEM_ALLOC", IOCTL_KGSL_GPUMEM_ALLOC);
   ("IOCTL_KGSL_CFF_SYNCMEM", IOCTL_KGSL_CFF_SYNCMEM);
   ("IOCTL_KGSL_TIMESTAMP_EVENT_OLD", IOCTL_KGSL_TIMESTAMP_EVENT_OLD);
   ("IOCTL_KGSL_SETPROPERTY", IOCTL_KGSL_SETPROPERTY);
   ("IOCTL_KGSL_TIMESTAMP_EVENT", IOCTL_KGSL_TIMESTAMP_EVENT);
   ("IOCTL_KGSL_GPUMEM_ALLOC_ID", IOCTL_KGSL_GPUMEM_ALLOC_ID);
   ("IOCTL_KGSL_GPUMEM_FREE_ID", IOCTL_KGSL_GPUMEM_FREE_ID);
   ("IOCTL_KGSL_GPUMEM_GET_INFO", IOCTL_KGSL_GPUMEM_GET_INFO);
   ("IOCTL_KGSL_GPUMEM_SYNC_CACHE", IOCTL_KGSL_GPUMEM_SYNC_CACHE);
   ("IOCTL_KGSL_PERFCOUNTER_GET", IOCTL_KGSL_PERFCOUNTER_GET);
   ("IOCTL_KGSL_PERFCOUNTER_PUT", IOCTL_KGSL_PERFCOUNTER_PUT);
   ("IOCTL_KGSL_PERFCOUNTER_QUERY", IOCTL_KGSL_PERFCOUNTER_QUERY);
   ("IOCTL_KGSL_PERFCOUNTER_READ", IOCTL_KGSL_PERFCOUNTER_READ);
   ("IOCTL_KGSL_GPUMEM_SYNC_CACHE_BULK", IOCTL_KGSL_GPUMEM_SYNC_CACHE_BULK);
   ("IOCTL_KGSL_SUBMIT_COMMANDS", IOCTL_KGSL_SUBMIT_COMMANDS);
   ("IOCTL_KGSL_SYNCSOURCE_CREATE", IOCTL_KGSL_SYNCSOURCE_CREATE);
   ("IOCTL_KGSL_SYNCSOURCE_DESTROY", IOCTL_KGSL_SYNCSOURCE_DESTROY);
   ("IOCTL_KGSL_SYNCSOURCE_CREATE_FENCE", IOCTL_KGSL_SYNCSOURCE_CREATE_FENCE);
   ("IOCTL_KGSL_SYNCSOURCE_SIGNAL_FENCE", IOCTL_KGSL_SYNCSOURCE_SIGNAL_FENCE);
   ("IOCTL_KGSL_CFF_SYNC_GPUOBJ", IOCTL_KGSL_CFF_SYNC_GPUOBJ);
   ("IOCTL_KGSL_GPUOBJ_ALLOC", IOCTL_KGSL_GPUOBJ_ALLOC);
   ("IOCTL_KGSL_GPUOBJ_FREE", IOCTL_KGSL_GPUOBJ_FREE);
   ("IOCTL_KGSL_GPUOBJ_INFO", IOCTL_KGSL_GPUOBJ_INFO);
   ("IOCTL_KGSL_GPUOBJ_IMPORT", IOCTL_KGSL_GPUOBJ_IMPORT);
   ("IOCTL_KGSL_GPUOBJ_SYNC", IOCTL_KGSL_GPUOBJ_SYNC);
   ("IOCTL_KGSL_GPU_COMMAND", IOCTL_KGSL_GPU_COMMAND);
   ("IOCTL_KGSL_PREEMPTIONCOUNTER_QUERY", IOCTL_KGSL_PREEMPTIONCOUNTER_QUERY);
   ("IOCTL_KGSL_GPUOBJ_SET_INFO", IOCTL_KGSL_GPUOBJ_SET_INFO);
   ("IOCTL_KGSL_SPARSE_PHYS_ALLOC", IOCTL_KGSL_SPARSE_PHYS_ALLOC);
   ("IOCTL_KGSL_SPARSE_PHYS_FREE", IOCTL_KGSL_SPARSE_PHYS_FREE);
   ("IOCTL_KGSL_SPARSE_VIRT_ALLOC", IOCTL_KGSL_SPARSE_VIRT_ALLOC);
   ("IOCTL_KGSL_SPARSE_VIRT_FREE", IOCTL_KGSL_SPARSE_VIRT_FREE);
   ("IOCTL_KGSL_SPARSE_BIND", IOCTL_KGSL_SPARSE_BIND);
   ("IOCTL_KGSL_GPU_SPARSE_COMMAND", IOCTL_KGSL_GPU_SPARSE_COMMAND);
   ("IOCTL_KGSL_GPUMEM_BIND_RANGES", IOCTL_KGSL_GPUMEM_BIND_RANGES);
   ("IOCTL_KGSL_GPU_AUX_COMMAND", IOCTL_KGSL_GPU_AUX_COMMAND);
   ("IOCTL_KGSL_TIMELINE_CREATE", IOCTL_KGSL_TIMELINE_CREATE);
   ("IOCTL_KGSL_TIMELINE_WAIT", IOCTL_KGSL_TIMELINE_WAIT);
   ("IOCTL_KGSL_TIMELINE_QUERY", IOCTL_KGSL_TIMELINE_QUERY);
   ("IOCTL_KGSL_TIMELINE_SIGNAL", IOCTL_KGSL_TIMELINE_SIGNAL);
   ("IOCTL_KGSL_TIMELINE_FENCE_GET", IOCTL_KGSL_TIMELINE_FENCE_GET);
   ("IOCTL_KGSL_TIMELINE_DESTROY", IOCTL_KGSL_TIMELINE_DESTROY);
   ("IOCTL_KGSL_GET_FAULT_REPORT", IOCTL_KGSL_GET_FAULT_REPORT);
   ("IOCTL_KGSL_RECURRING_COMMAND", IOCTL_KGSL_RECURRING_COMMAND)].

(** Every type of the file. *)
Definition uapiKgsl_types (a : abi) : list (string * ctype) :=
  [("struct_kgsl_devinfo", struct_kgsl_devinfo);
   ("struct_kgsl_devmemstore", struct_kgsl_devmemstore);
   ("struct_kgsl_capabilities_properties", struct_kgsl_capabilities_properties);
   ("struct_kgsl_capabilities", struct_kgsl_capabilities);
   ("struct_kgsl_shadowprop", struct_kgsl_shadowprop);
   ("struct_kgsl_qdss_stm_prop", struct_kgsl_qdss_stm_prop);
   ("struct_kgsl_qtimer_prop", struct_kgsl_qtimer_prop);
   ("struct_kgsl_version", struct_kgsl_version);
   ("struct_kgsl_sp_generic_mem", struct_kgsl_sp_generic_mem);
   ("struct_kgsl_ucode_version", struct_kgsl_ucode_version);
   ("struct_kgsl_gpmu_version", struct_kgsl_gpmu_version);
   ("struct_kgsl_context_property", struct_kgsl_context_property);
   ("struct_kgsl_context_property_fault", struct_kgsl_context_property_fault);
   ("struct_kgsl_gpu_model", struct_kgsl_gpu_model);
   ("struct_kgsl_ibdesc", struct_kgsl_ibdesc);
   ("struct_kgsl_cmdbatch_profiling_buffer", struct_kgsl_cmdbatch_profiling_buffer);
   ("struct_kgsl_device_getproperty", struct_kgsl_device_getproperty);
   ("struct_kgsl_device_waittimestamp", struct_kgsl_device_waittimestamp);
   ("struct_kgsl_device_waittimestamp_ctxtid", struct_kgsl_device_waittimestamp_ctxtid);
   ("struct_kgsl_ringbuffer_issueibcmds", struct_kgsl_ringbuffer_issueibcmds);
   ("struct_kgsl_cmdstream_readtimestamp", struct_kgsl_cmdstream_readtimestamp);
   ("struct_kgsl_cmdstream_freememontimestamp", struct_kgsl_cmdstream_freememontimestamp);
   ("struct_kgsl_drawctxt_create", struct_kgsl_drawctxt_create);
   ("struct_kgsl_drawctxt_destroy", struct_kgsl_drawctxt_destroy);
   ("struct_kgsl_map_user_mem", struct_kgsl_map_user_mem);
   ("struct_kgsl_cmdstream_readtimestamp_ctxtid", struct_kgsl_cmdstream_readtimestamp_ctxtid);
   ("struct_kgsl_cmdstream_freememontimestamp_ctxtid", struct_kgsl_cmdstream_freememontimestamp_ctxtid);
   ("struct_kgsl_sharedmem_from_pmem", struct_kgsl_sharedmem_from_pmem);
   ("struct_kgsl_sharedmem_free", struct_kgsl_sharedmem_free);
   ("struct_kgsl_cff_user_event", struct_kgsl_cff_user_event);
   ("struct_kgsl_gmem_desc", struct_kgsl_gmem_desc);
   ("struct_kgsl_buffer_desc", struct_kgsl_buffer_desc);
   ("struct_kgsl_bind_gmem_shadow", struct_kgsl_bind_gmem_shadow);
   ("struct_kgsl_sharedmem_from_vmalloc", struct_kgsl_sharedmem_from_vmalloc);
   ("struct_kgsl_drawctxt_set_bin_base_offset", struct_kgsl_drawctxt_set_bin_base_offset);
   ("struct_kgsl_cmdwindow_write", struct_kgsl_cmdwindow_write);
   ("struct_kgsl_gpumem_alloc", struct_kgsl_gpumem_alloc);
   ("struct_kgsl_cff_syncmem", struct_kgsl_cff_syncmem);
   ("struct_kgsl_timestamp_event", struct_kgsl_timestamp_event);
   ("struct_kgsl_timestamp_event_genlock", struct_kgsl_timestamp_event_genlock);
   ("struct_kgsl_timestamp_event_fence", struct_kgsl_timestamp_event_fence);
   ("struct_kgsl_gpumem_alloc_id", struct_kgsl_gpumem_alloc_id);
   ("struct_kgsl_gpumem_free_id", struct_kgsl_gpumem_free_id);
   ("struct_kgsl_gpumem_get_info", struct_kgsl_gpumem_get_info);
   ("struct_kgsl_gpumem_sync_cache", struct_kgsl_gpumem_sync_cache);
   ("struct_kgsl_perfcounter_get", struct_kgsl_perfcounter_get);
   ("struct_kgsl_perfcounter_put", struct_kgsl_perfcounter_put);
   ("struct_kgsl_perfcounter_query", struct_kgsl_perfcounter_query);
   ("struct_kgsl_perfcounter_read_group", struct_kgsl_perfcounter_read_group);
   ("struct_kgsl_perfcounter_read", struct_kgsl_perfcounter_read);
   ("struct_kgsl_gpumem_sync_cache_bulk", struct_kgsl_gpumem_sync_cache_bulk);
   ("struct_kgsl_cmd_syncpoint_timestamp", struct_kgsl_cmd_syncpoint_timestamp);
   ("struct_kgsl_cmd_syncpoint_fence", struct_kgsl_cmd_syncpoint_fence);
   ("struct_kgsl_cmd_syncpoint_timeline", struct_kgsl_cmd_syncpoint_timeline);
   ("struct_kgsl_cmd_syncpoint", struct_kgsl_cmd_syncpoint);
   ("struct_kgsl_submit_commands", struct_kgsl_submit_commands);
   ("struct_kgsl_device_constraint", struct_kgsl_device_constraint);
   ("struct_kgsl_device_constraint_pwrlevel", struct_kgsl_device_constraint_pwrlevel);
   ("struct_kgsl_syncsource_create", struct_kgsl_syncsource_create);
   ("struct_kgsl_syncsource_destroy", struct_kgsl_syncsource_destroy);
   ("struct_kgsl_syncsource_create_fence", struct_kgsl_syncsource_create_fence);
   ("struct_kgsl_syncsource_signal_fence", struct_kgsl_syncsource_signal_fence);
   ("struct_kgsl_cff_sync_gpuobj", struct_kgsl_cff_sync_gpuobj);
   ("struct_kgsl_gpuobj_alloc", struct_kgsl_gpuobj_alloc);
   ("struct_kgsl_gpuobj_free", struct_kgsl_gpuobj_free);
   ("struct_kgsl_gpu_event_timestamp", struct_kgsl_gpu_event_timestamp);
   ("struct_kgsl_gpu_event_fence", struct_kgsl_gpu_event_fence);
   ("struct_kgsl_gpuobj_info", struct_kgsl_gpuobj_info);
   ("struct_kgsl_gpuobj_import", struct_kgsl_gpuobj_import);
   ("struct_kgsl_gpuobj_import_dma_buf", struct_kgsl_gpuobj_import_dma_buf);
   ("struct_kgsl_gpuobj_import_useraddr", struct_kgsl_gpuobj_import_useraddr);
   ("struct_kgsl_gpuobj_sync_obj", struct_kgsl_gpuobj_sync_obj);
   ("struct_kgsl_gpuobj_sync", struct_kgsl_gpuobj_sync);
   ("struct_kgsl_command_object", struct_kgsl_command_object);
   ("struct_kgsl_command_syncpoint", struct_kgsl_command_syncpoint);
   ("struct_kgsl_gpu_command", struct_kgsl_gpu_command);
   ("struct_kgsl_preemption_counters_query", struct_kgsl_preemption_counters_query);
   ("struct_kgsl_gpuobj_set_info", struct_kgsl_gpuobj_set_info);
   ("struct_kgsl_sparse_phys_alloc", struct_kgsl_sparse_phys_alloc);
   ("struct_kgsl_sparse_phys_free", struct_kgsl_sparse_phys_free);
   ("struct_kgsl_sparse_virt_alloc", struct_kgsl_sparse_virt_alloc);
   ("struct_kgsl_sparse_virt_free", struct_kgsl_sparse_virt_free);
   ("struct_kgsl_sparse_binding_object", struct_kgsl_sparse_binding_object);
   ("struct_kgsl_sparse_bind", struct_kgsl_sparse_bind);
   ("struct_kgsl_gpu_sparse_command", struct_kgsl_gpu_sparse_command);
   ("struct_kgsl_gpumem_bind_range", struct_kgsl_gpumem_bind_range);
   ("struct_kgsl_gpumem_bind_ranges", struct_kgsl_gpumem_bind_ranges);
   ("struct_kgsl_gpu_aux_command_bind", struct_kgsl_gpu_aux_command_bind);
   ("struct_kgsl_gpu_aux_command_generic", struct_kgsl_gpu_aux_command_generic);
   ("struct_kgsl_gpu_aux_command", struct_kgsl_gpu_aux_command);
   ("struct_kgsl_timeline_create", struct_kgsl_timeline_create);
   ("struct_kgsl_timeline_val", struct_kgsl_timeline_val);
   ("struct_kgsl_timeline_wait", struct_kgsl_timeline_wait);
   ("struct_kgsl_timeline_signal", struct_kgsl_timeline_signal);
   ("struct_kgsl_timeline_fence_get", struct_kgsl_timeline_fence_get);
   ("struct_kgsl_gpu_aux_command_timeline", struct_kgsl_gpu_aux_command_timeline);
   ("struct_kgsl_pagefault_report", struct_kgsl_pagefault_report);
   ("struct_kgsl_fault", struct_kgsl_fault);
   ("struct_kgsl_fault_report", struct_kgsl_fault_report);
   ("struct_kgsl_recurring_command", struct_kgsl_recurring_command)].
End Uapi.
