(* ===== verification/UapiQmi.v ===== *)
(** * UapiQmi: messages between the IPA driver and the modem

    The structures of [include/linux/ipa_qmi_service_v01.h], as C lays them out; [Qmi] says how
    they are encoded. *)

From Stdlib Require Import Ascii.

From S2P Require Import Prelude CLayout Ioctl Uapi.

#[local] Open Scope string_scope.
#[local] Open Scope list_scope.
#[local] Open Scope Z_scope.

Section Uapi.
Context `{LinuxUapi}.

(** ** [linux/ipa_qmi_service_v01.h] *)

Definition QMI_IPA_ENDP_DESC_NUM_MAX_V01 : Z := 31.
Definition QMI_IPA_IPFLTR_NUM_IHL_MEQ_32_EQNS_V01 : Z := 2.
Definition QMI_IPA_IPFLTR_NUM_IHL_RANGE_16_EQNS_V01 : Z := 2.
Definition QMI_IPA_IPFLTR_NUM_MEQ_128_EQNS_V01 : Z := 2.
Definition QMI_IPA_IPFLTR_NUM_MEQ_32_EQNS_V01 : Z := 2.
Definition QMI_IPA_MAX_APN_V01 : Z := 8.
Definition QMI_IPA_MAX_CLIENT_DST_PIPES_V01 : Z := 8.
Definition QMI_IPA_MAX_FILTERS_EX2_V01 : Z := 256.
Definition QMI_IPA_MAX_FILTERS_EX_V01 : Z := 128.
Definition QMI_IPA_MAX_FILTERS_V01 : Z := 64.
Definition QMI_IPA_MAX_IPV4_ADDR_LEN_V01 : Z := 4.
Definition QMI_IPA_MAX_MAC_ADDR_LEN_V01 : Z := 6.
Definition QMI_IPA_MAX_PER_CLIENTS_V01 : Z := 64.
Definition QMI_IPA_MAX_PIPES_V01 : Z := 20.
Definition QMI_IPA_MAX_RMNET_ETH_INFO_V01 : Z := 19.
Definition QMI_IPA_MAX_UL_FIREWALL_RULES_V01 : Z := 64.
Definition QMI_IPA_REMOTE_MHI_CHANNELS_NUM_MAX_V01 : Z := 6.
Definition QMI_IPA_REMOTE_MHI_MEMORY_MAPPING_NUM_MAX_V01 : Z := 6.

Definition struct_ipa_qmi_response_type_v01 : ctype := struct [
  ("result", c_u16); ("error", c_u16)].

Definition struct_ipa_hdr_tbl_info_type_v01 : ctype := struct [
  ("modem_offset_start", c_u32); ("modem_offset_end", c_u32)].

Definition struct_ipa_route_tbl_info_type_v01 : ctype := struct [
  ("route_tbl_start_addr", c_u32); ("num_indices", c_u32)].

Definition struct_ipa_filter_stats_info_type_v01 : ctype := struct [
  ("hw_filter_stats_start_addr", c_u32); ("hw_filter_stats_size", c_u32);
  ("hw_filter_stats_start_index", c_u8); ("hw_filter_stats_end_index", c_u8)].

Definition struct_ipa_modem_mem_info_type_v01 : ctype := struct [
  ("block_start_addr", c_u32); ("size", c_u32)].

Definition struct_ipa_hdr_proc_ctx_tbl_info_type_v01 : ctype := struct [
  ("modem_offset_start", c_u32); ("modem_offset_end", c_u32)].

Definition struct_ipa_zip_tbl_info_type_v01 : ctype := struct [
  ("modem_offset_start", c_u32); ("modem_offset_end", c_u32)].

Definition struct_ipa_init_modem_driver_req_msg_v01 : ctype := struct [
  ("platform_type_valid", c_u8); ("platform_type", c_enum); ("hdr_tbl_info_valid", c_u8);
  ("hdr_tbl_info", struct_ipa_hdr_tbl_info_type_v01); ("v4_route_tbl_info_valid", c_u8);
  ("v4_route_tbl_info", struct_ipa_route_tbl_info_type_v01); ("v6_route_tbl_info_valid", c_u8);
  ("v6_route_tbl_info", struct_ipa_route_tbl_info_type_v01);
  ("v4_filter_tbl_start_addr_valid", c_u8); ("v4_filter_tbl_start_addr", c_u32);
  ("v6_filter_tbl_start_addr_valid", c_u8); ("v6_filter_tbl_start_addr", c_u32);
  ("modem_mem_info_valid", c_u8); ("modem_mem_info", struct_ipa_modem_mem_info_type_v01);
  ("ctrl_comm_dest_end_pt_valid", c_u8); ("ctrl_comm_dest_end_pt", c_u32);
  ("is_ssr_bootup_valid", c_u8); ("is_ssr_bootup", c_u8); ("hdr_proc_ctx_tbl_info_valid", c_u8);
  ("hdr_proc_ctx_tbl_info", struct_ipa_hdr_proc_ctx_tbl_info_type_v01);
  ("zip_tbl_info_valid", c_u8); ("zip_tbl_info", struct_ipa_zip_tbl_info_type_v01);
  ("v4_hash_route_tbl_info_valid", c_u8);
  ("v4_hash_route_tbl_info", struct_ipa_route_tbl_info_type_v01);
  ("v6_hash_route_tbl_info_valid", c_u8);
  ("v6_hash_route_tbl_info", struct_ipa_route_tbl_info_type_v01);
  ("v4_hash_filter_tbl_start_addr_valid", c_u8); ("v4_hash_filter_tbl_start_addr", c_u32);
  ("v6_hash_filter_tbl_start_addr_valid", c_u8); ("v6_hash_filter_tbl_start_addr", c_u32);
  ("hw_stats_quota_base_addr_valid", c_u8); ("hw_stats_quota_base_addr", c_u32);
  ("hw_stats_quota_size_valid", c_u8); ("hw_stats_quota_size", c_u32);
  ("hw_drop_stats_base_addr_valid", c_u8); ("hw_drop_stats_base_addr", c_u32);
  ("hw_drop_stats_table_size_valid", c_u8); ("hw_drop_stats_table_size", c_u32);
  ("hw_fiter_stats_info_valid", c_u8);
  ("hw_filter_stats_info", struct_ipa_filter_stats_info_type_v01); ("smem_info_valid", c_u8);
  ("smem_info", struct_ipa_modem_mem_info_type_v01); ("per_stats_smem_info_valid", c_u8);
  ("per_stats_smem_info", struct_ipa_modem_mem_info_type_v01)].

Definition struct_ipa_init_modem_driver_resp_msg_v01 : ctype := struct [
  ("resp", struct_ipa_qmi_response_type_v01); ("ctrl_comm_dest_end_pt_valid", c_u8);
  ("ctrl_comm_dest_end_pt", c_u32); ("default_end_pt_valid", c_u8); ("default_end_pt", c_u32);
  ("modem_driver_init_pending_valid", c_u8); ("modem_driver_init_pending", c_u8)].

Definition struct_ipa_init_modem_driver_cmplt_req_msg_v01 : ctype := struct [
  ("status", c_u8)].

Definition struct_ipa_init_modem_driver_cmplt_resp_msg_v01 : ctype := struct [
  ("resp", struct_ipa_qmi_response_type_v01)].

Definition struct_ipa_indication_reg_req_msg_v01 : ctype := struct [
  ("master_driver_init_complete_valid", c_u8); ("master_driver_init_complete", c_u8);
  ("data_usage_quota_reached_valid", c_u8); ("data_usage_quota_reached", c_u8);
  ("ipa_mhi_ready_ind_valid", c_u8); ("ipa_mhi_ready_ind", c_u8);
  ("endpoint_desc_ind_valid", c_u8); ("endpoint_desc_ind", c_u8); ("bw_change_ind_valid", c_u8);
  ("bw_change_ind", c_u8); ("rmnet_eth_mac_info_valid", c_u8); ("rmnet_eth_mac_info", c_u8)].

Definition struct_ipa_indication_reg_resp_msg_v01 : ctype := struct [
  ("resp", struct_ipa_qmi_response_type_v01)].

Definition struct_ipa_master_driver_init_complt_ind_msg_v01 : ctype := struct [
  ("master_driver_init_status", struct_ipa_qmi_response_type_v01)].

Definition struct_ipa_ipfltr_range_eq_16_type_v01 : ctype := struct [
  ("offset", c_u8); ("range_low", c_u16); ("range_high", c_u16)].

Definition struct_ipa_ipfltr_mask_eq_32_type_v01 : ctype := struct [
  ("offset", c_u8); ("mask", c_u32); ("value", c_u32)].

Definition struct_ipa_ipfltr_eq_16_type_v01 : ctype := struct [
  ("offset", c_u8); ("value", c_u16)].

Definition struct_ipa_ipfltr_eq_32_type_v01 : ctype := struct [
  ("offset", c_u8); ("value", c_u32)].

Definition struct_ipa_ipfltr_mask_eq_128_type_v01 : ctype := struct [
  ("offset", c_u8); ("mask", CArray c_u8 16); ("value", CArray c_u8 16)].

Definition struct_ipa_filter_rule_type_v01 : ctype := struct [
  ("rule_eq_bitmap", c_u16); ("tos_eq_present", c_u8); ("tos_eq", c_u8);
  ("protocol_eq_present", c_u8); ("protocol_eq", c_u8); ("num_ihl_offset_range_16", c_u8);
  ("ihl_offset_range_16", CArray struct_ipa_ipfltr_range_eq_16_type_v01 QMI_IPA_IPFLTR_NUM_IHL_RANGE_16_EQNS_V01);
  ("num_offset_meq_32", c_u8);
  ("offset_meq_32", CArray struct_ipa_ipfltr_mask_eq_32_type_v01 QMI_IPA_IPFLTR_NUM_MEQ_32_EQNS_V01);
  ("tc_eq_present", c_u8); ("tc_eq", c_u8); ("flow_eq_present", c_u8); ("flow_eq", c_u32);
  ("ihl_offset_eq_16_present", c_u8); ("ihl_offset_eq_16", struct_ipa_ipfltr_eq_16_type_v01);
  ("ihl_offset_eq_32_present", c_u8); ("ihl_offset_eq_32", struct_ipa_ipfltr_eq_32_type_v01);
  ("num_ihl_offset_meq_32", c_u8);
  ("ihl_offset_meq_32", CArray struct_ipa_ipfltr_mask_eq_32_type_v01 QMI_IPA_IPFLTR_NUM_IHL_MEQ_32_EQNS_V01);
  ("num_offset_meq_128", c_u8);
  ("offset_meq_128", CArray struct_ipa_ipfltr_mask_eq_128_type_v01 QMI_IPA_IPFLTR_NUM_MEQ_128_EQNS_V01);
  ("metadata_meq32_present", c_u8); ("metadata_meq32", struct_ipa_ipfltr_mask_eq_32_type_v01);
  ("ipv4_frag_eq_present", c_u8)].

Definition struct_ipa_filter_rule_req2_type_v01 : ctype := struct [
  ("rule_eq_bitmap", c_u16); ("pure_ack_eq_present", c_u8); ("pure_ack_eq", c_u8);
  ("protocol_eq_present", c_u8); ("protocol_eq", c_u8); ("num_ihl_offset_range_16", c_u8);
  ("ihl_offset_range_16", CArray struct_ipa_ipfltr_range_eq_16_type_v01 QMI_IPA_IPFLTR_NUM_IHL_RANGE_16_EQNS_V01);
  ("num_offset_meq_32", c_u8);
  ("offset_meq_32", CArray struct_ipa_ipfltr_mask_eq_32_type_v01 QMI_IPA_IPFLTR_NUM_MEQ_32_EQNS_V01);
  ("tc_eq_present", c_u8); ("tc_eq", c_u8); ("flow_eq_present", c_u8); ("flow_eq", c_u32);
  ("ihl_offset_eq_16_present", c_u8); ("ihl_offset_eq_16", struct_ipa_ipfltr_eq_16_type_v01);
  ("ihl_offset_eq_32_present", c_u8); ("ihl_offset_eq_32", struct_ipa_ipfltr_eq_32_type_v01);
  ("num_ihl_offset_meq_32", c_u8);
  ("ihl_offset_meq_32", CArray struct_ipa_ipfltr_mask_eq_32_type_v01 QMI_IPA_IPFLTR_NUM_IHL_MEQ_32_EQNS_V01);
  ("num_offset_meq_128", c_u8);
  ("offset_meq_128", CArray struct_ipa_ipfltr_mask_eq_128_type_v01 QMI_IPA_IPFLTR_NUM_MEQ_128_EQNS_V01);
  ("metadata_meq32_present", c_u8); ("metadata_meq32", struct_ipa_ipfltr_mask_eq_32_type_v01);
  ("ipv4_frag_eq_present", c_u8)].

Definition struct_ipa_filter_spec_type_v01 : ctype := struct [
  ("filter_spec_identifier", c_u32); ("ip_type", c_enum);
  ("filter_rule", struct_ipa_filter_rule_type_v01); ("filter_action", c_enum);
  ("is_routing_table_index_valid", c_u8); ("route_table_index", c_u32);
  ("is_mux_id_valid", c_u8); ("mux_id", c_u32)].

Definition struct_ipa_filter_spec_ex_type_v01 : ctype := struct [
  ("ip_type", c_enum); ("filter_rule", struct_ipa_filter_rule_type_v01);
  ("filter_action", c_enum); ("is_routing_table_index_valid", c_u8);
  ("route_table_index", c_u32); ("is_mux_id_valid", c_u8); ("mux_id", c_u32); ("rule_id", c_u32);
  ("is_rule_hashable", c_u8)].

Definition struct_ipa_filter_spec_ex2_type_v01 : ctype := struct [
  ("ip_type", c_enum); ("filter_rule", struct_ipa_filter_rule_req2_type_v01);
  ("filter_action", c_enum); ("is_routing_table_index_valid", c_u8);
  ("route_table_index", c_u32); ("is_mux_id_valid", c_u8); ("mux_id", c_u32); ("rule_id", c_u32);
  ("is_rule_hashable", c_u8)].

Definition struct_ipa_install_fltr_rule_req_msg_v01 : ctype := struct [
  ("filter_spec_list_valid", c_u8); ("filter_spec_list_len", c_u32);
  ("filter_spec_list", CArray struct_ipa_filter_spec_type_v01 QMI_IPA_MAX_FILTERS_V01);
  ("source_pipe_index_valid", c_u8); ("source_pipe_index", c_u32);
  ("num_ipv4_filters_valid", c_u8); ("num_ipv4_filters", c_u32);
  ("num_ipv6_filters_valid", c_u8); ("num_ipv6_filters", c_u32);
  ("xlat_filter_indices_list_valid", c_u8); ("xlat_filter_indices_list_len", c_u32);
  ("xlat_filter_indices_list", CArray c_u32 QMI_IPA_MAX_FILTERS_V01);
  ("filter_spec_ex_list_valid", c_u8); ("filter_spec_ex_list_len", c_u32);
  ("filter_spec_ex_list", CArray struct_ipa_filter_spec_ex_type_v01 QMI_IPA_MAX_FILTERS_V01);
  ("filter_spec_ex2_list_valid", c_u8); ("filter_spec_ex2_list_len", c_u32);
  ("filter_spec_ex2_list", CArray struct_ipa_filter_spec_ex2_type_v01 QMI_IPA_MAX_FILTERS_V01);
  ("ul_firewall_indices_list_valid", c_u8); ("ul_firewall_indices_list_len", c_u32);
  ("ul_firewall_indices_list", CArray c_u32 QMI_IPA_MAX_FILTERS_V01)].

Definition struct_ipa_filter_rule_identifier_to_handle_map_v01 : ctype := struct [
  ("filter_spec_identifier", c_u32); ("filter_handle", c_u32)].

Definition struct_ipa_install_fltr_rule_resp_msg_v01 : ctype := struct [
  ("resp", struct_ipa_qmi_response_type_v01); ("filter_handle_list_valid", c_u8);
  ("filter_handle_list_len", c_u32);
  ("filter_handle_list", CArray struct_ipa_filter_rule_identifier_to_handle_map_v01 QMI_IPA_MAX_FILTERS_V01);
  ("rule_id_valid", c_u8); ("rule_id_len", c_u32);
  ("rule_id", CArray c_u32 QMI_IPA_MAX_FILTERS_V01)].

Definition struct_ipa_filter_handle_to_index_map_v01 : ctype := struct [
  ("filter_handle", c_u32); ("filter_index", c_u32)].

Definition struct_ipa_fltr_installed_notif_req_msg_v01 : ctype := struct [
  ("source_pipe_index", c_u32); ("install_status", c_enum); ("filter_index_list_len", c_u32);
  ("filter_index_list", CArray struct_ipa_filter_handle_to_index_map_v01 QMI_IPA_MAX_FILTERS_V01);
  ("embedded_pipe_index_valid", c_u8); ("embedded_pipe_index", c_u32);
  ("retain_header_valid", c_u8); ("retain_header", c_u8); ("embedded_call_mux_id_valid", c_u8);
  ("embedded_call_mux_id", c_u32); ("num_ipv4_filters_valid", c_u8); ("num_ipv4_filters", c_u32);
  ("num_ipv6_filters_valid", c_u8); ("num_ipv6_filters", c_u32);
  ("start_ipv4_filter_idx_valid", c_u8); ("start_ipv4_filter_idx", c_u32);
  ("start_ipv6_filter_idx_valid", c_u8); ("start_ipv6_filter_idx", c_u32);
  ("rule_id_valid", c_u8); ("rule_id_len", c_u32);
  ("rule_id", CArray c_u32 QMI_IPA_MAX_FILTERS_V01); ("dst_pipe_id_valid", c_u8);
  ("dst_pipe_id_len", c_u32); ("dst_pipe_id", CArray c_u32 QMI_IPA_MAX_CLIENT_DST_PIPES_V01);
  ("rule_id_ex_valid", c_u8); ("rule_id_ex_len", c_u32);
  ("rule_id_ex", CArray c_u32 QMI_IPA_MAX_FILTERS_EX2_V01)].

Definition struct_ipa_fltr_installed_notif_resp_msg_v01 : ctype := struct [
  ("resp", struct_ipa_qmi_response_type_v01)].

Definition struct_ipa_enable_force_clear_datapath_req_msg_v01 : ctype := struct [
  ("source_pipe_bitmask", c_u32); ("request_id", c_u32); ("throttle_source_valid", c_u8);
  ("throttle_source", c_u8); ("source_pipe_bitmask_ext_valid", c_u8);
  ("source_pipe_bitmask_ext", CArray c_u32 4)].

Definition struct_ipa_enable_force_clear_datapath_resp_msg_v01 : ctype := struct [
  ("resp", struct_ipa_qmi_response_type_v01)].

Definition struct_ipa_disable_force_clear_datapath_req_msg_v01 : ctype := struct [
  ("request_id", c_u32)].

Definition struct_ipa_disable_force_clear_datapath_resp_msg_v01 : ctype := struct [
  ("resp", struct_ipa_qmi_response_type_v01)].

Definition struct_ipa_config_req_msg_v01 : ctype := struct [
  ("peripheral_type_valid", c_u8); ("peripheral_type", c_enum);
  ("hw_deaggr_supported_valid", c_u8); ("hw_deaggr_supported", c_u8);
  ("max_aggr_frame_size_valid", c_u8); ("max_aggr_frame_size", c_u32);
  ("ipa_ingress_pipe_mode_valid", c_u8); ("ipa_ingress_pipe_mode", c_enum);
  ("peripheral_speed_info_valid", c_u8); ("peripheral_speed_info", c_enum);
  ("dl_accumulation_time_limit_valid", c_u8); ("dl_accumulation_time_limit", c_u32);
  ("dl_accumulation_pkt_limit_valid", c_u8); ("dl_accumulation_pkt_limit", c_u32);
  ("dl_accumulation_byte_limit_valid", c_u8); ("dl_accumulation_byte_limit", c_u32);
  ("ul_accumulation_time_limit_valid", c_u8); ("ul_accumulation_time_limit", c_u32);
  ("hw_control_flags_valid", c_u8); ("hw_control_flags", c_u32);
  ("ul_msi_event_threshold_valid", c_u8); ("ul_msi_event_threshold", c_u32);
  ("dl_msi_event_threshold_valid", c_u8); ("dl_msi_event_threshold", c_u32);
  ("ul_fifo_size_valid", c_u8); ("ul_fifo_size", c_u32); ("dl_fifo_size_valid", c_u8);
  ("dl_fifo_size", c_u32); ("dl_buf_size_valid", c_u8); ("dl_buf_size", c_u32)].

Definition struct_ipa_config_resp_msg_v01 : ctype := struct [
  ("resp", struct_ipa_qmi_response_type_v01)].

Definition struct_ipa_pipe_stats_info_type_v01 : ctype := struct [
  ("pipe_index", c_u32); ("num_ipv4_packets", c_u64); ("num_ipv4_bytes", c_u64);
  ("num_ipv6_packets", c_u64); ("num_ipv6_bytes", c_u64)].

Definition struct_ipa_stats_type_filter_rule_v01 : ctype := struct [
  ("filter_rule_index", c_u32); ("num_packets", c_u64)].

Definition struct_ipa_get_data_stats_req_msg_v01 : ctype := struct [
  ("ipa_stats_type", c_enum); ("reset_stats_valid", c_u8); ("reset_stats", c_u8)].

Definition struct_ipa_get_data_stats_resp_msg_v01 : ctype := struct [
  ("resp", struct_ipa_qmi_response_type_v01); ("ipa_stats_type_valid", c_u8);
  ("ipa_stats_type", c_enum); ("ul_src_pipe_stats_list_valid", c_u8);
  ("ul_src_pipe_stats_list_len", c_u32);
  ("ul_src_pipe_stats_list", CArray struct_ipa_pipe_stats_info_type_v01 QMI_IPA_MAX_PIPES_V01);
  ("dl_dst_pipe_stats_list_valid", c_u8); ("dl_dst_pipe_stats_list_len", c_u32);
  ("dl_dst_pipe_stats_list", CArray struct_ipa_pipe_stats_info_type_v01 QMI_IPA_MAX_PIPES_V01);
  ("dl_filter_rule_stats_list_valid", c_u8); ("dl_filter_rule_stats_list_len", c_u32);
  ("dl_filter_rule_stats_list", CArray struct_ipa_stats_type_filter_rule_v01 QMI_IPA_MAX_FILTERS_V01)].

Definition struct_ipa_apn_data_stats_info_type_v01 : ctype := struct [
  ("mux_id", c_u32); ("num_ul_packets", c_u64); ("num_ul_bytes", c_u64);
  ("num_dl_packets", c_u64); ("num_dl_bytes", c_u64)].

Definition struct_ipa_get_apn_data_stats_req_msg_v01 : ctype := struct [
  ("mux_id_list_valid", c_u8); ("mux_id_list_len", c_u32);
  ("mux_id_list", CArray c_u32 QMI_IPA_MAX_APN_V01)].

Definition struct_ipa_get_apn_data_stats_resp_msg_v01 : ctype := struct [
  ("resp", struct_ipa_qmi_response_type_v01); ("apn_data_stats_list_valid", c_u8);
  ("apn_data_stats_list_len", c_u32);
  ("apn_data_stats_list", CArray struct_ipa_apn_data_stats_info_type_v01 QMI_IPA_MAX_APN_V01)].

Definition struct_ipa_data_usage_quota_info_type_v01 : ctype := struct [
  ("mux_id", c_u32); ("num_Mbytes", c_u64)].

Definition struct_ipa_set_data_usage_quota_req_msg_v01 : ctype := struct [
  ("apn_quota_list_valid", c_u8); ("apn_quota_list_len", c_u32);
  ("apn_quota_list", CArray struct_ipa_data_usage_quota_info_type_v01 QMI_IPA_MAX_APN_V01);
  ("apn_warning_list_valid", c_u8); ("apn_warning_list_len", c_u32);
  ("apn_warning_list", CArray struct_ipa_data_usage_quota_info_type_v01 QMI_IPA_MAX_APN_V01)].

Definition struct_ipa_set_data_usage_quota_resp_msg_v01 : ctype := struct [
  ("resp", struct_ipa_qmi_response_type_v01)].

Definition struct_ipa_data_usage_quota_reached_ind_msg_v01 : ctype := struct [
  ("apn", struct_ipa_data_usage_quota_info_type_v01); ("is_warning_limit_valid", c_u8);
  ("is_warning_limit", c_u8)].

Definition struct_ipa_stop_data_usage_quota_req_msg_v01 : ctype := struct [
  ("is_quota_limit_valid", c_u8); ("is_quota_limit", c_u8); ("is_warning_limit_valid", c_u8);
  ("is_warning_limit", c_u8)].

Definition struct_ipa_stop_data_usage_quota_resp_msg_v01 : ctype := struct [
  ("resp", struct_ipa_qmi_response_type_v01)].

Definition struct_ipa_install_fltr_rule_req_ex_msg_v01 : ctype := struct [
  ("filter_spec_ex_list_valid", c_u8); ("filter_spec_ex_list_len", c_u32);
  ("filter_spec_ex_list", CArray struct_ipa_filter_spec_ex_type_v01 QMI_IPA_MAX_FILTERS_EX_V01);
  ("source_pipe_index_valid", c_u8); ("source_pipe_index", c_u32);
  ("num_ipv4_filters_valid", c_u8); ("num_ipv4_filters", c_u32);
  ("num_ipv6_filters_valid", c_u8); ("num_ipv6_filters", c_u32);
  ("xlat_filter_indices_list_valid", c_u8); ("xlat_filter_indices_list_len", c_u32);
  ("xlat_filter_indices_list", CArray c_u32 QMI_IPA_MAX_FILTERS_EX_V01);
  ("filter_spec_ex2_list_valid", c_u8); ("filter_spec_ex2_list_len", c_u32);
  ("filter_spec_ex2_list", CArray struct_ipa_filter_spec_ex2_type_v01 QMI_IPA_MAX_FILTERS_V01);
  ("ul_firewall_indices_list_valid", c_u8); ("ul_firewall_indices_list_len", c_u32);
  ("ul_firewall_indices_list", CArray c_u32 QMI_IPA_MAX_FILTERS_V01)].

Definition struct_ipa_install_fltr_rule_resp_ex_msg_v01 : ctype := struct [
  ("resp", struct_ipa_qmi_response_type_v01); ("rule_id_valid", c_u8); ("rule_id_len", c_u32);
  ("rule_id", CArray c_u32 QMI_IPA_MAX_FILTERS_EX_V01)].

Definition struct_ipa_enable_per_client_stats_req_msg_v01 : ctype := struct [
  ("enable_per_client_stats", c_u8)].

Definition struct_ipa_enable_per_client_stats_resp_msg_v01 : ctype := struct [
  ("resp", struct_ipa_qmi_response_type_v01)].

Definition struct_ipa_per_client_stats_info_type_v01 : ctype := struct [
  ("client_id", c_u32); ("src_pipe_id", c_u32); ("num_ul_ipv4_bytes", c_u64);
  ("num_ul_ipv6_bytes", c_u64); ("num_dl_ipv4_bytes", c_u64); ("num_dl_ipv6_bytes", c_u64);
  ("num_ul_ipv4_pkts", c_u32); ("num_ul_ipv6_pkts", c_u32); ("num_dl_ipv4_pkts", c_u32);
  ("num_dl_ipv6_pkts", c_u32)].

Definition struct_ipa_get_stats_per_client_req_msg_v01 : ctype := struct [
  ("client_id", c_u32); ("src_pipe_id", c_u32); ("reset_stats_valid", c_u8);
  ("reset_stats", c_u8)].

Definition struct_ipa_get_stats_per_client_resp_msg_v01 : ctype := struct [
  ("resp", struct_ipa_qmi_response_type_v01); ("per_client_stats_list_valid", c_u8);
  ("per_client_stats_list_len", c_u32);
  ("per_client_stats_list", CArray struct_ipa_per_client_stats_info_type_v01 QMI_IPA_MAX_PER_CLIENTS_V01)].

Definition struct_ipa_ul_firewall_rule_type_v01 : ctype := struct [
  ("ip_type", c_enum); ("filter_rule", struct_ipa_filter_rule_type_v01)].

Definition struct_ipa_configure_ul_firewall_rules_req_msg_v01 : ctype := struct [
  ("firewall_rules_list_len", c_u32);
  ("firewall_rules_list", CArray struct_ipa_ul_firewall_rule_type_v01 QMI_IPA_MAX_UL_FIREWALL_RULES_V01);
  ("mux_id", c_u32); ("disable_valid", c_u8); ("disable", c_u8);
  ("are_blacklist_filters_valid", c_u8); ("are_blacklist_filters", c_u8)].

Definition struct_ipa_configure_ul_firewall_rules_resp_msg_v01 : ctype := struct [
  ("resp", struct_ipa_qmi_response_type_v01)].

Definition struct_ipa_ul_firewall_config_result_type_v01 : ctype := struct [
  ("is_success", c_enum); ("mux_id", c_u32)].

Definition struct_ipa_configure_ul_firewall_rules_ind_msg_v01 : ctype := struct [
  ("result", struct_ipa_ul_firewall_config_result_type_v01)].

Definition struct_ipa_mhi_ch_init_info_type_v01 : ctype := struct [
  ("ch_id", c_u8); ("er_id", c_u8); ("ch_doorbell_addr", c_u32); ("er_doorbell_addr", c_u32);
  ("direction_type", c_u32)].

Definition struct_ipa_mhi_smmu_info_type_v01 : ctype := struct [
  ("iova_ctl_base_addr", c_u64); ("iova_ctl_size", c_u64); ("iova_data_base_addr", c_u64);
  ("iova_data_size", c_u64)].

Definition struct_ipa_mhi_ready_indication_msg_v01 : ctype := struct [
  ("ch_info_arr_len", c_u32);
  ("ch_info_arr", CArray struct_ipa_mhi_ch_init_info_type_v01 QMI_IPA_REMOTE_MHI_CHANNELS_NUM_MAX_V01);
  ("smmu_info_valid", c_u8); ("smmu_info", struct_ipa_mhi_smmu_info_type_v01)].

Definition struct_ipa_mhi_mem_addr_info_type_v01 : ctype := struct [
  ("pa", c_u64); ("iova", c_u64); ("size", c_u64)].

Definition struct_ipa_mhi_tr_info_type_v01 : ctype := struct [
  ("ch_id", c_u8); ("poll_cfg", c_u16); ("brst_mode_type", c_enum); ("ring_iova", c_u64);
  ("ring_len", c_u64); ("rp", c_u64); ("wp", c_u64)].

Definition struct_ipa_mhi_er_info_type_v01 : ctype := struct [
  ("er_id", c_u8); ("intmod_cycles", c_u32); ("intmod_count", c_u32); ("msi_addr", c_u32);
  ("ring_iova", c_u64); ("ring_len", c_u64); ("rp", c_u64); ("wp", c_u64)].

Definition struct_ipa_mhi_alloc_channel_req_msg_v01 : ctype := struct [
  ("tr_info_arr_len", c_u32);
  ("tr_info_arr", CArray struct_ipa_mhi_tr_info_type_v01 QMI_IPA_REMOTE_MHI_CHANNELS_NUM_MAX_V01);
  ("er_info_arr_len", c_u32);
  ("er_info_arr", CArray struct_ipa_mhi_er_info_type_v01 QMI_IPA_REMOTE_MHI_CHANNELS_NUM_MAX_V01);
  ("ctrl_addr_map_info_len", c_u32);
  ("ctrl_addr_map_info", CArray struct_ipa_mhi_mem_addr_info_type_v01 QMI_IPA_REMOTE_MHI_MEMORY_MAPPING_NUM_MAX_V01);
  ("data_addr_map_info_len", c_u32);
  ("data_addr_map_info", CArray struct_ipa_mhi_mem_addr_info_type_v01 QMI_IPA_REMOTE_MHI_MEMORY_MAPPING_NUM_MAX_V01)].

Definition struct_ipa_mhi_ch_alloc_resp_type_v01 : ctype := struct [
  ("ch_id", c_u8); ("is_success", c_u8)].

Definition struct_ipa_mhi_alloc_channel_resp_msg_v01 : ctype := struct [
  ("resp", struct_ipa_qmi_response_type_v01); ("alloc_resp_arr_valid", c_u8);
  ("alloc_resp_arr_len", c_u32);
  ("alloc_resp_arr", CArray struct_ipa_mhi_ch_alloc_resp_type_v01 QMI_IPA_REMOTE_MHI_CHANNELS_NUM_MAX_V01)].

Definition struct_ipa_mhi_clk_vote_req_msg_v01 : ctype := struct [
  ("mhi_vote", c_u8); ("tput_value_valid", c_u8); ("tput_value", c_u32);
  ("clk_rate_valid", c_u8); ("clk_rate", c_enum)].

Definition struct_ipa_mhi_clk_vote_resp_msg_v01 : ctype := struct [
  ("resp", struct_ipa_qmi_response_type_v01)].

Definition struct_ipa_mhi_cleanup_req_msg_v01 : ctype := struct [
  ("cleanup_valid", c_u8); ("cleanup", c_u8)].

Definition struct_ipa_mhi_cleanup_resp_msg_v01 : ctype := struct [
  ("resp", struct_ipa_qmi_response_type_v01)].

Definition struct_ipa_ep_id_type_v01 : ctype := struct [
  ("ic_type", c_enum); ("ep_type", c_enum); ("ep_id", c_u32); ("ep_status", c_enum)].

Definition struct_ipa_endp_desc_indication_msg_v01 : ctype := struct [
  ("ep_info_valid", c_u8); ("ep_info_len", c_u32);
  ("ep_info", CArray struct_ipa_ep_id_type_v01 QMI_IPA_ENDP_DESC_NUM_MAX_V01);
  ("num_eps_valid", c_u8); ("num_eps", c_u32)].

Definition struct_ipa_mhi_prime_aggr_info_type_v01 : ctype := struct [
  ("ic_type", c_enum); ("ep_type", c_enum); ("bytes_count", c_u32); ("pkt_count", c_u32);
  ("aggr_type", c_enum)].

Definition struct_ipa_mhi_prime_aggr_info_req_msg_v01 : ctype := struct [
  ("aggr_info_valid", c_u8); ("aggr_info_len", c_u32);
  ("aggr_info", CArray struct_ipa_mhi_prime_aggr_info_type_v01 QMI_IPA_ENDP_DESC_NUM_MAX_V01);
  ("num_eps_valid", c_u8); ("num_eps", c_u32)].

Definition struct_ipa_mhi_prime_aggr_info_resp_msg_v01 : ctype := struct [
  ("resp", struct_ipa_qmi_response_type_v01)].

Definition struct_ipa_add_offload_connection_req_msg_v01 : ctype := struct [
  ("num_ipv4_filters_valid", c_u8); ("num_ipv4_filters", c_u32);
  ("num_ipv6_filters_valid", c_u8); ("num_ipv6_filters", c_u32);
  ("xlat_filter_indices_list_valid", c_u8); ("xlat_filter_indices_list_len", c_u32);
  ("xlat_filter_indices_list", CArray c_u32 QMI_IPA_MAX_FILTERS_V01);
  ("filter_spec_ex2_list_valid", c_u8); ("filter_spec_ex2_list_len", c_u32);
  ("filter_spec_ex2_list", CArray struct_ipa_filter_spec_ex2_type_v01 QMI_IPA_MAX_FILTERS_V01);
  ("embedded_call_mux_id_valid", c_u8); ("embedded_call_mux_id", c_u32);
  ("default_mhi_path_valid", c_u8); ("default_mhi_path", c_u8)].

Definition struct_ipa_add_offload_connection_resp_msg_v01 : ctype := struct [
  ("resp", struct_ipa_qmi_response_type_v01); ("filter_handle_list_valid", c_u8);
  ("filter_handle_list_len", c_u32);
  ("filter_handle_list", CArray struct_ipa_filter_rule_identifier_to_handle_map_v01 QMI_IPA_MAX_FILTERS_V01)].

Definition struct_ipa_remove_offload_connection_req_msg_v01 : ctype := struct [
  ("filter_handle_list_valid", c_u8); ("filter_handle_list_len", c_u32);
  ("filter_handle_list", CArray struct_ipa_filter_rule_identifier_to_handle_map_v01 QMI_IPA_MAX_FILTERS_V01);
  ("clean_all_rules_valid", c_u8); ("clean_all_rules", c_u8)].

Definition struct_ipa_remove_offload_connection_resp_msg_v01 : ctype := struct [
  ("resp_valid", c_u8); ("resp", struct_ipa_qmi_response_type_v01)].

Definition struct_ipa_bw_change_ind_msg_v01 : ctype := struct [
  ("peak_bw_ul_valid", c_u8); ("peak_bw_dl_valid", c_u8); ("peak_bw_ul", c_u32);
  ("peak_bw_dl", c_u32)].

Definition struct_ipa_move_nat_req_msg_v01 : ctype := struct [
  ("nat_move_direction", c_enum)].

Definition struct_ipa_move_nat_resp_msg_v01 : ctype := struct [
  ("resp", struct_ipa_qmi_response_type_v01)].

Definition struct_ipa_move_nat_table_complt_ind_msg_v01 : ctype := struct [
  ("nat_table_move_status", struct_ipa_qmi_response_type_v01)].

Definition struct_ipa_eth_backhaul_info_req_msg_v01 : ctype := struct [
  ("src_mac_addr", CArray c_u8 QMI_IPA_MAX_MAC_ADDR_LEN_V01);
  ("dst_mac_addr", CArray c_u8 QMI_IPA_MAX_MAC_ADDR_LEN_V01);
  ("ipv4_addr_eth0", CArray c_u32 QMI_IPA_MAX_IPV4_ADDR_LEN_V01); ("eth_pipe", c_u8);
  ("enable", c_u8)].

Definition struct_ipa_eth_backhaul_info_resp_msg_v01 : ctype := struct [
  ("resp", struct_ipa_qmi_response_type_v01)].

Definition struct_ipa_rmnet_eth_info_type_v01 : ctype := struct [
  ("mac_addr", CArray c_u8 QMI_IPA_MAX_MAC_ADDR_LEN_V01); ("mux_id", c_u32)].

Definition struct_ipa_rmnet_eth_info_indication_msg_v01 : ctype := struct [
  ("rmnet_eth_info_valid", c_u8); ("rmnet_eth_info_len", c_u32);
  ("rmnet_eth_info", CArray struct_ipa_rmnet_eth_info_type_v01 QMI_IPA_MAX_RMNET_ETH_INFO_V01)].

(** Every type of the file. *)
Definition uapiQmi_types (a : abi) : list (string * ctype) :=
  [("struct_ipa_qmi_response_type_v01", struct_ipa_qmi_response_type_v01);
   ("struct_ipa_hdr_tbl_info_type_v01", struct_ipa_hdr_tbl_info_type_v01);
   ("struct_ipa_route_tbl_info_type_v01", struct_ipa_route_tbl_info_type_v01);
   ("struct_ipa_filter_stats_info_type_v01", struct_ipa_filter_stats_info_type_v01);
   ("struct_ipa_modem_mem_info_type_v01", struct_ipa_modem_mem_info_type_v01);
   ("struct_ipa_hdr_proc_ctx_tbl_info_type_v01", struct_ipa_hdr_proc_ctx_tbl_info_type_v01);
   ("struct_ipa_zip_tbl_info_type_v01", struct_ipa_zip_tbl_info_type_v01);
   ("struct_ipa_init_modem_driver_req_msg_v01", struct_ipa_init_modem_driver_req_msg_v01);
   ("struct_ipa_init_modem_driver_resp_msg_v01", struct_ipa_init_modem_driver_resp_msg_v01);
   ("struct_ipa_init_modem_driver_cmplt_req_msg_v01", struct_ipa_init_modem_driver_cmplt_req_msg_v01);
   ("struct_ipa_init_modem_driver_cmplt_resp_msg_v01", struct_ipa_init_modem_driver_cmplt_resp_msg_v01);
   ("struct_ipa_indication_reg_req_msg_v01", struct_ipa_indication_reg_req_msg_v01);
   ("struct_ipa_indication_reg_resp_msg_v01", struct_ipa_indication_reg_resp_msg_v01);
   ("struct_ipa_master_driver_init_complt_ind_msg_v01", struct_ipa_master_driver_init_complt_ind_msg_v01);
   ("struct_ipa_ipfltr_range_eq_16_type_v01", struct_ipa_ipfltr_range_eq_16_type_v01);
   ("struct_ipa_ipfltr_mask_eq_32_type_v01", struct_ipa_ipfltr_mask_eq_32_type_v01);
   ("struct_ipa_ipfltr_eq_16_type_v01", struct_ipa_ipfltr_eq_16_type_v01);
   ("struct_ipa_ipfltr_eq_32_type_v01", struct_ipa_ipfltr_eq_32_type_v01);
   ("struct_ipa_ipfltr_mask_eq_128_type_v01", struct_ipa_ipfltr_mask_eq_128_type_v01);
   ("struct_ipa_filter_rule_type_v01", struct_ipa_filter_rule_type_v01);
   ("struct_ipa_filter_rule_req2_type_v01", struct_ipa_filter_rule_req2_type_v01);
   ("struct_ipa_filter_spec_type_v01", struct_ipa_filter_spec_type_v01);
   ("struct_ipa_filter_spec_ex_type_v01", struct_ipa_filter_spec_ex_type_v01);
   ("struct_ipa_filter_spec_ex2_type_v01", struct_ipa_filter_spec_ex2_type_v01);
   ("struct_ipa_install_fltr_rule_req_msg_v01", struct_ipa_install_fltr_rule_req_msg_v01);
   ("struct_ipa_filter_rule_identifier_to_handle_map_v01", struct_ipa_filter_rule_identifier_to_handle_map_v01);
   ("struct_ipa_install_fltr_rule_resp_msg_v01", struct_ipa_install_fltr_rule_resp_msg_v01);
   ("struct_ipa_filter_handle_to_index_map_v01", struct_ipa_filter_handle_to_index_map_v01);
   ("struct_ipa_fltr_installed_notif_req_msg_v01", struct_ipa_fltr_installed_notif_req_msg_v01);
   ("struct_ipa_fltr_installed_notif_resp_msg_v01", struct_ipa_fltr_installed_notif_resp_msg_v01);
   ("struct_ipa_enable_force_clear_datapath_req_msg_v01", struct_ipa_enable_force_clear_datapath_req_msg_v01);
   ("struct_ipa_enable_force_clear_datapath_resp_msg_v01", struct_ipa_enable_force_clear_datapath_resp_msg_v01);
   ("struct_ipa_disable_force_clear_datapath_req_msg_v01", struct_ipa_disable_force_clear_datapath_req_msg_v01);
   ("struct_ipa_disable_force_clear_datapath_resp_msg_v01", struct_ipa_disable_force_clear_datapath_resp_msg_v01);
   ("struct_ipa_config_req_msg_v01", struct_ipa_config_req_msg_v01);
   ("struct_ipa_config_resp_msg_v01", struct_ipa_config_resp_msg_v01);
   ("struct_ipa_pipe_stats_info_type_v01", struct_ipa_pipe_stats_info_type_v01);
   ("struct_ipa_stats_type_filter_rule_v01", struct_ipa_stats_type_filter_rule_v01);
   ("struct_ipa_get_data_stats_req_msg_v01", struct_ipa_get_data_stats_req_msg_v01);
   ("struct_ipa_get_data_stats_resp_msg_v01", struct_ipa_get_data_stats_resp_msg_v01);
   ("struct_ipa_apn_data_stats_info_type_v01", struct_ipa_apn_data_stats_info_type_v01);
   ("struct_ipa_get_apn_data_stats_req_msg_v01", struct_ipa_get_apn_data_stats_req_msg_v01);
   ("struct_ipa_get_apn_data_stats_resp_msg_v01", struct_ipa_get_apn_data_stats_resp_msg_v01);
   ("struct_ipa_data_usage_quota_info_type_v01", struct_ipa_data_usage_quota_info_type_v01);
   ("struct_ipa_set_data_usage_quota_req_msg_v01", struct_ipa_set_data_usage_quota_req_msg_v01);
   ("struct_ipa_set_data_usage_quota_resp_msg_v01", struct_ipa_set_data_usage_quota_resp_msg_v01);
   ("struct_ipa_data_usage_quota_reached_ind_msg_v01", struct_ipa_data_usage_quota_reached_ind_msg_v01);
   ("struct_ipa_stop_data_usage_quota_req_msg_v01", struct_ipa_stop_data_usage_quota_req_msg_v01);
   ("struct_ipa_stop_data_usage_quota_resp_msg_v01", struct_ipa_stop_data_usage_quota_resp_msg_v01);
   ("struct_ipa_install_fltr_rule_req_ex_msg_v01", struct_ipa_install_fltr_rule_req_ex_msg_v01);
   ("struct_ipa_install_fltr_rule_resp_ex_msg_v01", struct_ipa_install_fltr_rule_resp_ex_msg_v01);
   ("struct_ipa_enable_per_client_stats_req_msg_v01", struct_ipa_enable_per_client_stats_req_msg_v01);
   ("struct_ipa_enable_per_client_stats_resp_msg_v01", struct_ipa_enable_per_client_stats_resp_msg_v01);
   ("struct_ipa_per_client_stats_info_type_v01", struct_ipa_per_client_stats_info_type_v01);
   ("struct_ipa_get_stats_per_client_req_msg_v01", struct_ipa_get_stats_per_client_req_msg_v01);
   ("struct_ipa_get_stats_per_client_resp_msg_v01", struct_ipa_get_stats_per_client_resp_msg_v01);
   ("struct_ipa_ul_firewall_rule_type_v01", struct_ipa_ul_firewall_rule_type_v01);
   ("struct_ipa_configure_ul_firewall_rules_req_msg_v01", struct_ipa_configure_ul_firewall_rules_req_msg_v01);
   ("struct_ipa_configure_ul_firewall_rules_resp_msg_v01", struct_ipa_configure_ul_firewall_rules_resp_msg_v01);
   ("struct_ipa_ul_firewall_config_result_type_v01", struct_ipa_ul_firewall_config_result_type_v01);
   ("struct_ipa_configure_ul_firewall_rules_ind_msg_v01", struct_ipa_configure_ul_firewall_rules_ind_msg_v01);
   ("struct_ipa_mhi_ch_init_info_type_v01", struct_ipa_mhi_ch_init_info_type_v01);
   ("struct_ipa_mhi_smmu_info_type_v01", struct_ipa_mhi_smmu_info_type_v01);
   ("struct_ipa_mhi_ready_indication_msg_v01", struct_ipa_mhi_ready_indication_msg_v01);
   ("struct_ipa_mhi_mem_addr_info_type_v01", struct_ipa_mhi_mem_addr_info_type_v01);
   ("struct_ipa_mhi_tr_info_type_v01", struct_ipa_mhi_tr_info_type_v01);
   ("struct_ipa_mhi_er_info_type_v01", struct_ipa_mhi_er_info_type_v01);
   ("struct_ipa_mhi_alloc_channel_req_msg_v01", struct_ipa_mhi_alloc_channel_req_msg_v01);
   ("struct_ipa_mhi_ch_alloc_resp_type_v01", struct_ipa_mhi_ch_alloc_resp_type_v01);
   ("struct_ipa_mhi_alloc_channel_resp_msg_v01", struct_ipa_mhi_alloc_channel_resp_msg_v01);
   ("struct_ipa_mhi_clk_vote_req_msg_v01", struct_ipa_mhi_clk_vote_req_msg_v01);
   ("struct_ipa_mhi_clk_vote_resp_msg_v01", struct_ipa_mhi_clk_vote_resp_msg_v01);
   ("struct_ipa_mhi_cleanup_req_msg_v01", struct_ipa_mhi_cleanup_req_msg_v01);
   ("struct_ipa_mhi_cleanup_resp_msg_v01", struct_ipa_mhi_cleanup_resp_msg_v01);
   ("struct_ipa_ep_id_type_v01", struct_ipa_ep_id_type_v01);
   ("struct_ipa_endp_desc_indication_msg_v01", struct_ipa_endp_desc_indication_msg_v01);
   ("struct_ipa_mhi_prime_aggr_info_type_v01", struct_ipa_mhi_prime_aggr_info_type_v01);
   ("struct_ipa_mhi_prime_aggr_info_req_msg_v01", struct_ipa_mhi_prime_aggr_info_req_msg_v01);
   ("struct_ipa_mhi_prime_aggr_info_resp_msg_v01", struct_ipa_mhi_prime_aggr_info_resp_msg_v01);
   ("struct_ipa_add_offload_connection_req_msg_v01", struct_ipa_add_offload_connection_req_msg_v01);
   ("struct_ipa_add_offload_connection_resp_msg_v01", struct_ipa_add_offload_connection_resp_msg_v01);
   ("struct_ipa_remove_offload_connection_req_msg_v01", struct_ipa_remove_offload_connection_req_msg_v01);
   ("struct_ipa_remove_offload_connection_resp_msg_v01", struct_ipa_remove_offload_connection_resp_msg_v01);
   ("struct_ipa_bw_change_ind_msg_v01", struct_ipa_bw_change_ind_msg_v01);
   ("struct_ipa_move_nat_req_msg_v01", struct_ipa_move_nat_req_msg_v01);
   ("struct_ipa_move_nat_resp_msg_v01", struct_ipa_move_nat_resp_msg_v01);
   ("struct_ipa_move_nat_table_complt_ind_msg_v01", struct_ipa_move_nat_table_complt_ind_msg_v01);
   ("struct_ipa_eth_backhaul_info_req_msg_v01", struct_ipa_eth_backhaul_info_req_msg_v01);
   ("struct_ipa_eth_backhaul_info_resp_msg_v01", struct_ipa_eth_backhaul_info_resp_msg_v01);
   ("struct_ipa_rmnet_eth_info_type_v01", struct_ipa_rmnet_eth_info_type_v01);
   ("struct_ipa_rmnet_eth_info_indication_msg_v01", struct_ipa_rmnet_eth_info_indication_msg_v01)].
End Uapi.
