(* ===== verification/UapiNet.v ===== *)
(** * UapiNet: network and bus drivers

    rmnet and its IPA control device, Wi-Fi at 60 GHz, WiMAX, frame relay, NFC, RDMA, NFS file
    handles, the MHI and USB control devices. *)

From Stdlib Require Import Ascii.

From S2P Require Import Prelude CLayout Ioctl Uapi IpaTypes UapiQmi.

#[local] Open Scope string_scope.
#[local] Open Scope list_scope.
#[local] Open Scope Z_scope.

Section Uapi.
Context `{LinuxUapi}.

(** ** [linux/msm_rmnet.h] *)

Definition MAC_ADDR_SIZE : Z := 6.

Definition struct_rmnet_egress_param : ctype := struct [
  ("egress_ep_type", c_u32); ("pipe_setup_status", c_u32); ("cs_offload_en", c_u32);
  ("aggr_en", c_u32); ("ulso_en", c_u32); ("ipid_min_max_idx", c_u32); ("int_modt", c_u32);
  ("int_modc", c_u32)].

Definition struct_rmnet_ingress_param : ctype := struct [
  ("ingress_ep_type", c_u32); ("pipe_setup_status", c_u32); ("cs_offload_en", c_u32);
  ("buff_size", c_u32); ("agg_byte_limit", c_u32); ("agg_time_limit", c_u32);
  ("agg_pkt_limit", c_u32); ("int_modt", c_u32); ("int_modc", c_u32); ("padding", c_u32)].

Definition struct_ingress_format_v2 : ctype := struct [
  ("ingress_param_ptr", c_u64); ("ingress_param_size", c_u32); ("number_of_eps", c_u32)].

Definition struct_egress_format_v2 : ctype := struct [
  ("egress_param_ptr", c_u64); ("egress_param_size", c_u32); ("number_of_eps", c_u32)].

Definition struct_rmnet_ioctl_extended_s_v2 : ctype := struct [
  ("ioctl_ptr", c_u64); ("ioctl_data_size", c_u32); ("extended_v2_ioctl_type", c_u32)].

Definition struct_rmnet_ioctl_extended_s : ctype := struct [
  ("extended_ioctl", c_u32);
  ("u", CUnion [
    ("data", c_u32); ("if_name", CArray c_u8 IFNAMSIZ);
    ("rmnet_mux_val", struct [
      ("mux_id", c_u32); ("vchannel_name", CArray c_u8 IFNAMSIZ)]);
    ("flow_control_prop", struct [
      ("flow_mode", c_u8); ("mux_id", c_u8)]);
    ("ipa_ep_pair", struct [
      ("consumer_pipe_num", c_u32); ("producer_pipe_num", c_u32)]);
    ("ingress_format", struct [
      ("__data", c_u32); ("agg_size", c_u32); ("agg_count", c_u32)]);
    ("offload_params", struct [
      ("flags", c_u32); ("mux_id", c_u8)]);
    ("mtu_params", struct [
      ("if_name", CArray c_u8 IFNAMSIZ); ("mtu_v4", c_u16); ("mtu_v6", c_u16)]);
    ("rmnet_mux_val_v2", struct [
      ("mux_id", c_u32); ("vchannel_name", CArray c_u8 IFNAMSIZ);
      ("mac", CArray c_u8 MAC_ADDR_SIZE)])])].

Definition struct_rmnet_ioctl_data_s : ctype := struct [
  ("u", CUnion [
    ("operation_mode", c_u32); ("tcm_handle", c_u32)])].

Definition struct_QMI_QOS_HDR_S : ctype := packed_struct [
  ("version", c_u8); ("flags", c_u8); ("flow_id", c_u32)].

Definition struct_qmi_qos_hdr8_s : ctype := packed_struct [
  ("hdr", struct_QMI_QOS_HDR_S); ("reserved", CArray c_u8 2)].

(** ** [linux/rmnet_data.h] *)

Definition RMNET_MAX_STR_LEN : Z := 16.
Definition RMNET_NL_DATA_MAX_LEN : Z := 64.

Definition struct_rmnet_nl_msg_s : ctype := struct [
  ("reserved", c_u16); ("message_type", c_u16); ("reserved2:14, crd:2", c_u16);
  ("", CUnion [
    ("arg_length", c_u16); ("return_code", c_u16)]);
  ("", CUnion [
    ("data", CArray c_u8 RMNET_NL_DATA_MAX_LEN);
    ("data_format", struct [
      ("dev", CArray c_u8 RMNET_MAX_STR_LEN); ("flags", c_u32); ("agg_size", c_u16);
      ("agg_count", c_u16); ("tail_spacing", c_u8)]);
    ("local_ep_config", struct [
      ("dev", CArray c_u8 RMNET_MAX_STR_LEN); ("ep_id", c_int); ("operating_mode", c_u8);
      ("next_dev", CArray c_u8 RMNET_MAX_STR_LEN)]);
    ("vnd", struct [
      ("id", c_u32); ("vnd_name", CArray c_u8 RMNET_MAX_STR_LEN)]);
    ("flow_control", struct [
      ("id", c_u32); ("map_flow_id", c_u32); ("tc_flow_id", c_u32)])])].

(** ** [linux/rmnet_ipa_fd_ioctl.h] *)

Definition WAN_IOC_MAGIC : Z := 0x69.
Definition WAN_IOCTL_ADD_FLT_RULE : Z := 0.
Definition WAN_IOCTL_ADD_FLT_INDEX : Z := 1.
Definition WAN_IOCTL_VOTE_FOR_BW_MBPS : Z := 2.
Definition WAN_IOCTL_POLL_TETHERING_STATS : Z := 3.
Definition WAN_IOCTL_SET_DATA_QUOTA : Z := 4.
Definition WAN_IOCTL_SET_TETHER_CLIENT_PIPE : Z := 5.
Definition WAN_IOCTL_QUERY_TETHER_STATS : Z := 6.
Definition WAN_IOCTL_RESET_TETHER_STATS : Z := 7.
Definition WAN_IOCTL_QUERY_DL_FILTER_STATS : Z := 8.
Definition WAN_IOCTL_ADD_FLT_RULE_EX : Z := 9.
Definition WAN_IOCTL_QUERY_TETHER_STATS_ALL : Z := 10.
Definition WAN_IOCTL_NOTIFY_WAN_STATE : Z := 11.
Definition WAN_IOCTL_ADD_UL_FLT_RULE : Z := 12.
Definition WAN_IOCTL_ENABLE_PER_CLIENT_STATS : Z := 13.
Definition WAN_IOCTL_QUERY_PER_CLIENT_STATS : Z := 14.
Definition WAN_IOCTL_SET_LAN_CLIENT_INFO : Z := 15.
Definition WAN_IOCTL_SEND_LAN_CLIENT_MSG : Z := 17.
Definition WAN_IOCTL_CLEAR_LAN_CLIENT_INFO : Z := 16.
Definition WAN_IOCTL_ADD_OFFLOAD_CONNECTION : Z := 18.
Definition WAN_IOCTL_RMV_OFFLOAD_CONNECTION : Z := 19.
Definition WAN_IOCTL_GET_WAN_MTU : Z := 20.
Definition WAN_IOCTL_SET_DATA_QUOTA_WARNING : Z := 21.
Definition WAN_IOCTL_NOTIFY_NAT_MOVE_RES : Z := 22.

Definition struct_wan_ioctl_poll_tethering_stats : ctype := struct [
  ("polling_interval_secs", c_u64); ("reset_stats", c_u8)].

Definition struct_wan_ioctl_set_data_quota : ctype := struct [
  ("interface_name", CArray c_u8 IFNAMSIZ); ("quota_mbytes", c_u64); ("set_quota", c_u8)].

Definition struct_wan_ioctl_set_data_quota_warning : ctype := struct [
  ("interface_name", CArray c_u8 IFNAMSIZ); ("quota_mbytes", c_u64); ("set_quota", c_u8);
  ("set_warning", c_u8); ("padding2", c_u16); ("warning_mbytes", c_u64)].

Definition struct_wan_ioctl_set_tether_client_pipe : ctype := struct [
  ("ipa_client", c_enum); ("reset_client", c_u8); ("ul_src_pipe_len", c_u32);
  ("ul_src_pipe_list", CArray c_u32 QMI_IPA_MAX_PIPES_V01); ("dl_dst_pipe_len", c_u32);
  ("dl_dst_pipe_list", CArray c_u32 QMI_IPA_MAX_PIPES_V01)].

Definition struct_wan_ioctl_query_tether_stats : ctype := struct [
  ("upstreamIface", CArray c_u8 IFNAMSIZ); ("tetherIface", CArray c_u8 IFNAMSIZ);
  ("ipa_client", c_enum); ("ipv4_tx_packets", c_u64); ("ipv4_tx_bytes", c_u64);
  ("ipv4_rx_packets", c_u64); ("ipv4_rx_bytes", c_u64); ("ipv6_tx_packets", c_u64);
  ("ipv6_tx_bytes", c_u64); ("ipv6_rx_packets", c_u64); ("ipv6_rx_bytes", c_u64)].

Definition struct_wan_ioctl_query_tether_stats_all : ctype := struct [
  ("upstreamIface", CArray c_u8 IFNAMSIZ); ("ipa_client", c_enum); ("reset_stats", c_u8);
  ("tx_bytes", c_u64); ("rx_bytes", c_u64)].

Definition struct_wan_ioctl_reset_tether_stats : ctype := struct [
  ("upstreamIface", CArray c_u8 IFNAMSIZ); ("reset_stats", c_u8)].

Definition struct_wan_ioctl_query_dl_filter_stats : ctype := struct [
  ("reset_stats", c_u8); ("stats_resp", struct_ipa_get_data_stats_resp_msg_v01); ("index", c_u32)].

Definition struct_wan_ioctl_notify_wan_state : ctype := struct [
  ("up", c_u8); ("upstreamIface", CArray c_u8 IFNAMSIZ)].

Definition struct_wan_ioctl_send_lan_client_msg : ctype := struct [
  ("lan_client", struct_ipa_lan_client_msg); ("client_event", c_enum)].

Definition struct_wan_ioctl_lan_client_info : ctype := struct [
  ("device_type", c_enum); ("mac", CArray c_u8 IPA_MAC_ADDR_SIZE); ("client_init", c_u8);
  ("client_idx", c_u8); ("hdr_len", c_u8); ("ul_src_pipe", c_enum); ("ul_cnt_idx", c_u8);
  ("dl_cnt_idx", c_u8)].

Definition struct_wan_ioctl_per_client_info : ctype := struct [
  ("mac", CArray c_u8 IPA_MAC_ADDR_SIZE); ("ipv4_tx_bytes", c_u64); ("ipv4_rx_bytes", c_u64);
  ("ipv6_tx_bytes", c_u64); ("ipv6_rx_bytes", c_u64)].

Definition struct_wan_ioctl_query_per_client_stats : ctype := struct [
  ("device_type", c_enum); ("reset_stats", c_u8); ("disconnect_clnt", c_u8);
  ("num_clients", c_u8);
  ("client_info", CArray struct_wan_ioctl_per_client_info IPA_MAX_NUM_HW_PATH_CLIENTS)].

Definition WAN_IOC_ADD_FLT_RULE : ioctl_req := IOWR WAN_IOC_MAGIC WAN_IOCTL_ADD_FLT_RULE (pointer struct_ipa_install_fltr_rule_req_msg_v01).
Definition WAN_IOC_ADD_FLT_RULE_INDEX : ioctl_req := IOWR WAN_IOC_MAGIC WAN_IOCTL_ADD_FLT_INDEX (pointer struct_ipa_fltr_installed_notif_req_msg_v01).
Definition WAN_IOC_VOTE_FOR_BW_MBPS : ioctl_req := IOWR WAN_IOC_MAGIC WAN_IOCTL_VOTE_FOR_BW_MBPS (pointer c_u32).
Definition WAN_IOC_POLL_TETHERING_STATS : ioctl_req := IOWR WAN_IOC_MAGIC WAN_IOCTL_POLL_TETHERING_STATS (pointer struct_wan_ioctl_poll_tethering_stats).
Definition WAN_IOC_SET_DATA_QUOTA : ioctl_req := IOWR WAN_IOC_MAGIC WAN_IOCTL_SET_DATA_QUOTA (pointer struct_wan_ioctl_set_data_quota).
Definition WAN_IOC_SET_TETHER_CLIENT_PIPE : ioctl_req := IOWR WAN_IOC_MAGIC WAN_IOCTL_SET_TETHER_CLIENT_PIPE (pointer struct_wan_ioctl_set_tether_client_pipe).
Definition WAN_IOC_QUERY_TETHER_STATS : ioctl_req := IOWR WAN_IOC_MAGIC WAN_IOCTL_QUERY_TETHER_STATS (pointer struct_wan_ioctl_query_tether_stats).
Definition WAN_IOC_RESET_TETHER_STATS : ioctl_req := IOWR WAN_IOC_MAGIC WAN_IOCTL_RESET_TETHER_STATS (pointer struct_wan_ioctl_reset_tether_stats).
Definition WAN_IOC_QUERY_DL_FILTER_STATS : ioctl_req := IOWR WAN_IOC_MAGIC WAN_IOCTL_QUERY_DL_FILTER_STATS (pointer struct_wan_ioctl_query_dl_filter_stats).
Definition WAN_IOC_ADD_FLT_RULE_EX : ioctl_req := IOWR WAN_IOC_MAGIC WAN_IOCTL_ADD_FLT_RULE_EX (pointer struct_ipa_install_fltr_rule_req_ex_msg_v01).
Definition WAN_IOC_QUERY_TETHER_STATS_ALL : ioctl_req := IOWR WAN_IOC_MAGIC WAN_IOCTL_QUERY_TETHER_STATS_ALL (pointer struct_wan_ioctl_query_tether_stats_all).
Definition WAN_IOC_NOTIFY_WAN_STATE : ioctl_req := IOWR WAN_IOC_MAGIC WAN_IOCTL_NOTIFY_WAN_STATE (pointer struct_wan_ioctl_notify_wan_state).
Definition WAN_IOC_ADD_UL_FLT_RULE : ioctl_req := IOWR WAN_IOC_MAGIC WAN_IOCTL_ADD_UL_FLT_RULE (pointer struct_ipa_configure_ul_firewall_rules_req_msg_v01).
Definition WAN_IOC_ENABLE_PER_CLIENT_STATS : ioctl_req := IOWR WAN_IOC_MAGIC WAN_IOCTL_ENABLE_PER_CLIENT_STATS (pointer c_u8).
Definition WAN_IOC_QUERY_PER_CLIENT_STATS : ioctl_req := IOWR WAN_IOC_MAGIC WAN_IOCTL_QUERY_PER_CLIENT_STATS (pointer struct_wan_ioctl_query_per_client_stats).
Definition WAN_IOC_SET_LAN_CLIENT_INFO : ioctl_req := IOWR WAN_IOC_MAGIC WAN_IOCTL_SET_LAN_CLIENT_INFO (pointer struct_wan_ioctl_lan_client_info).
Definition WAN_IOC_SEND_LAN_CLIENT_MSG : ioctl_req := IOWR WAN_IOC_MAGIC WAN_IOCTL_SEND_LAN_CLIENT_MSG (pointer struct_wan_ioctl_send_lan_client_msg).
Definition WAN_IOC_CLEAR_LAN_CLIENT_INFO : ioctl_req := IOWR WAN_IOC_MAGIC WAN_IOCTL_CLEAR_LAN_CLIENT_INFO (pointer struct_wan_ioctl_lan_client_info).
Definition WAN_IOC_ADD_OFFLOAD_CONNECTION : ioctl_req := IOWR WAN_IOC_MAGIC WAN_IOCTL_ADD_OFFLOAD_CONNECTION (pointer struct_ipa_add_offload_connection_req_msg_v01).
Definition WAN_IOC_RMV_OFFLOAD_CONNECTION : ioctl_req := IOWR WAN_IOC_MAGIC WAN_IOCTL_RMV_OFFLOAD_CONNECTION (pointer struct_ipa_remove_offload_connection_req_msg_v01).
Definition WAN_IOC_GET_WAN_MTU : ioctl_req := IOWR WAN_IOC_MAGIC WAN_IOCTL_GET_WAN_MTU (pointer struct_ipa_mtu_info).
Definition WAN_IOC_SET_DATA_QUOTA_WARNING : ioctl_req := IOWR WAN_IOC_MAGIC WAN_IOCTL_SET_DATA_QUOTA_WARNING struct_wan_ioctl_set_data_quota_warning.
Definition WAN_IOC_NOTIFY_NAT_MOVE_RES : ioctl_req := IOWR WAN_IOC_MAGIC WAN_IOCTL_NOTIFY_NAT_MOVE_RES c_u8.

Definition rmnet_ipa_fd_ioctl_requests (a : abi) : list (string * ioctl_req) :=
  [("WAN_IOC_ADD_FLT_RULE", WAN_IOC_ADD_FLT_RULE);
   ("WAN_IOC_ADD_FLT_RULE_INDEX", WAN_IOC_ADD_FLT_RULE_INDEX);
   ("WAN_IOC_VOTE_FOR_BW_MBPS", WAN_IOC_VOTE_FOR_BW_MBPS);
   ("WAN_IOC_POLL_TETHERING_STATS", WAN_IOC_POLL_TETHERING_STATS);
   ("WAN_IOC_SET_DATA_QUOTA", WAN_IOC_SET_DATA_QUOTA);
   ("WAN_IOC_SET_TETHER_CLIENT_PIPE", WAN_IOC_SET_TETHER_CLIENT_PIPE);
   ("WAN_IOC_QUERY_TETHER_STATS", WAN_IOC_QUERY_TETHER_STATS);
   ("WAN_IOC_RESET_TETHER_STATS", WAN_IOC_RESET_TETHER_STATS);
   ("WAN_IOC_QUERY_DL_FILTER_STATS", WAN_IOC_QUERY_DL_FILTER_STATS);
   ("WAN_IOC_ADD_FLT_RULE_EX", WAN_IOC_ADD_FLT_RULE_EX);
   ("WAN_IOC_QUERY_TETHER_STATS_ALL", WAN_IOC_QUERY_TETHER_STATS_ALL);
   ("WAN_IOC_NOTIFY_WAN_STATE", WAN_IOC_NOTIFY_WAN_STATE);
   ("WAN_IOC_ADD_UL_FLT_RULE", WAN_IOC_ADD_UL_FLT_RULE);
   ("WAN_IOC_ENABLE_PER_CLIENT_STATS", WAN_IOC_ENABLE_PER_CLIENT_STATS);
   ("WAN_IOC_QUERY_PER_CLIENT_STATS", WAN_IOC_QUERY_PER_CLIENT_STATS);
   ("WAN_IOC_SET_LAN_CLIENT_INFO", WAN_IOC_SET_LAN_CLIENT_INFO);
   ("WAN_IOC_SEND_LAN_CLIENT_MSG", WAN_IOC_SEND_LAN_CLIENT_MSG);
   ("WAN_IOC_CLEAR_LAN_CLIENT_INFO", WAN_IOC_CLEAR_LAN_CLIENT_INFO);
   ("WAN_IOC_ADD_OFFLOAD_CONNECTION", WAN_IOC_ADD_OFFLOAD_CONNECTION);
   ("WAN_IOC_RMV_OFFLOAD_CONNECTION", WAN_IOC_RMV_OFFLOAD_CONNECTION);
   ("WAN_IOC_GET_WAN_MTU", WAN_IOC_GET_WAN_MTU);
   ("WAN_IOC_SET_DATA_QUOTA_WARNING", WAN_IOC_SET_DATA_QUOTA_WARNING);
   ("WAN_IOC_NOTIFY_NAT_MOVE_RES", WAN_IOC_NOTIFY_NAT_MOVE_RES)].

(** ** [linux/wil6210_uapi.h] *)

Definition struct_wil_memio : ctype := struct [
  ("op", c_u32); ("addr", c_u32); ("val", c_u32)].

Definition struct_wil_memio_block : ctype := struct [
  ("op", c_u32); ("addr", c_u32); ("size", c_u32); ("block", c_u64)].

(** ** [misc/wigig_sensing_uapi.h] *)

Definition WIGIG_SENSING_IOC_MAGIC : Z := chr "r".
Definition WIGIG_SENSING_IOCTL_SET_AUTO_RECOVERY : Z := 0.
Definition WIGIG_SENSING_IOCTL_GET_MODE : Z := 1.
Definition WIGIG_SENSING_IOCTL_CHANGE_MODE : Z := 2.
Definition WIGIG_SENSING_IOCTL_CLEAR_DATA : Z := 3.
Definition WIGIG_SENSING_IOCTL_GET_NUM_DROPPED_BURSTS : Z := 4.
Definition WIGIG_SENSING_IOCTL_GET_EVENT : Z := 5.
Definition WIGIG_SENSING_IOCTL_GET_NUM_AVAIL_BURSTS : Z := 6.

Definition struct_wigig_sensing_change_mode : ctype := struct [
  ("mode", c_enum); ("has_channel", c_u8); ("channel", c_u32); ("burst_size", c_u32)].

Definition WIGIG_SENSING_IOC_SET_AUTO_RECOVERY : ioctl_req := IO WIGIG_SENSING_IOC_MAGIC WIGIG_SENSING_IOCTL_SET_AUTO_RECOVERY.
Definition WIGIG_SENSING_IOC_GET_MODE : ioctl_req := IOR WIGIG_SENSING_IOC_MAGIC WIGIG_SENSING_IOCTL_GET_MODE CLong.
Definition WIGIG_SENSING_IOC_CHANGE_MODE : ioctl_req := IOWR WIGIG_SENSING_IOC_MAGIC WIGIG_SENSING_IOCTL_CHANGE_MODE CLong.
Definition WIGIG_SENSING_IOC_CLEAR_DATA : ioctl_req := IO WIGIG_SENSING_IOC_MAGIC WIGIG_SENSING_IOCTL_CLEAR_DATA.
Definition WIGIG_SENSING_IOC_GET_NUM_DROPPED_BURSTS : ioctl_req := IOR WIGIG_SENSING_IOC_MAGIC WIGIG_SENSING_IOCTL_GET_NUM_DROPPED_BURSTS c_u32.
Definition WIGIG_SENSING_IOC_GET_EVENT : ioctl_req := IOR WIGIG_SENSING_IOC_MAGIC WIGIG_SENSING_IOCTL_GET_EVENT CLong.
Definition WIGIG_SENSING_IOC_GET_NUM_AVAIL_BURSTS : ioctl_req := IOR WIGIG_SENSING_IOC_MAGIC WIGIG_SENSING_IOCTL_GET_NUM_AVAIL_BURSTS CLong.

Definition wigig_sensing_uapi_requests (a : abi) : list (string * ioctl_req) :=
  [("WIGIG_SENSING_IOC_SET_AUTO_RECOVERY", WIGIG_SENSING_IOC_SET_AUTO_RECOVERY);
   ("WIGIG_SENSING_IOC_GET_MODE", WIGIG_SENSING_IOC_GET_MODE);
   ("WIGIG_SENSING_IOC_CHANGE_MODE", WIGIG_SENSING_IOC_CHANGE_MODE);
   ("WIGIG_SENSING_IOC_CLEAR_DATA", WIGIG_SENSING_IOC_CLEAR_DATA);
   ("WIGIG_SENSING_IOC_GET_NUM_DROPPED_BURSTS", WIGIG_SENSING_IOC_GET_NUM_DROPPED_BURSTS);
   ("WIGIG_SENSING_IOC_GET_EVENT", WIGIG_SENSING_IOC_GET_EVENT);
   ("WIGIG_SENSING_IOC_GET_NUM_AVAIL_BURSTS", WIGIG_SENSING_IOC_GET_NUM_AVAIL_BURSTS)].

(** ** [linux/wimax/i2400m.h] *)

Definition struct_i2400m_bcf_hdr : ctype := packed_struct [
  ("module_type", c_u32); ("header_len", c_u32); ("header_version", c_u32); ("module_id", c_u32);
  ("module_vendor", c_u32); ("date", c_u32); ("size", c_u32); ("key_size", c_u32);
  ("modulus_size", c_u32); ("exponent_size", c_u32); ("reserved", CArray c_u8 88)].

Definition struct_i2400m_bootrom_header : ctype := packed_struct [
  ("command", c_u32); ("target_addr", c_u32); ("data_size", c_u32); ("block_checksum", c_u32);
  ("payload", CArray c_u8 0)].

Definition struct_i2400m_pl_data_hdr : ctype := packed_struct [
  ("reserved", c_u32)].

Definition struct_i2400m_pl_edata_hdr : ctype := packed_struct [
  ("reorder", c_u32); ("cs", c_u8); ("reserved", CArray c_u8 11)].

Definition struct_i2400m_pld : ctype := packed_struct [
  ("val", c_u32)].

Definition struct_i2400m_msg_hdr : ctype := packed_struct [
  ("", CUnion [
    ("barker", c_u32); ("size", c_u32)]);
  ("", CUnion [
    ("sequence", c_u32); ("offset", c_u32)]); ("num_pls", c_u16);
  ("rsv1", c_u16); ("padding", c_u16); ("rsv2", c_u16); ("pld", CArray struct_i2400m_pld 0)].

Definition struct_i2400m_tlv_hdr : ctype := packed_struct [
  ("type", c_u16); ("length", c_u16); ("pl", CArray c_u8 0)].

Definition struct_i2400m_l3l4_hdr : ctype := packed_struct [
  ("type", c_u16); ("length", c_u16); ("version", c_u16); ("resv1", c_u16); ("status", c_u16);
  ("resv2", c_u16); ("pl", CArray struct_i2400m_tlv_hdr 0)].

Definition struct_i2400m_tlv_system_state : ctype := packed_struct [
  ("hdr", struct_i2400m_tlv_hdr); ("state", c_u32)].

Definition struct_i2400m_tlv_l4_message_versions : ctype := packed_struct [
  ("hdr", struct_i2400m_tlv_hdr); ("major", c_u16); ("minor", c_u16); ("branch", c_u16);
  ("reserved", c_u16)].

Definition struct_i2400m_tlv_detailed_device_info : ctype := packed_struct [
  ("hdr", struct_i2400m_tlv_hdr); ("reserved1", CArray c_u8 400);
  ("mac_address", CArray c_u8 ETH_ALEN); ("reserved2", CArray c_u8 2)].

Definition struct_i2400m_tlv_rf_switches_status : ctype := packed_struct [
  ("hdr", struct_i2400m_tlv_hdr); ("sw_rf_switch", c_u8); ("hw_rf_switch", c_u8);
  ("reserved", CArray c_u8 2)].

Definition struct_i2400m_tlv_rf_operation : ctype := packed_struct [
  ("hdr", struct_i2400m_tlv_hdr); ("status", c_u32)].

Definition struct_i2400m_tlv_device_reset_type : ctype := packed_struct [
  ("hdr", struct_i2400m_tlv_hdr); ("reset_type", c_u32)].

Definition struct_i2400m_tlv_config_idle_parameters : ctype := packed_struct [
  ("hdr", struct_i2400m_tlv_hdr); ("idle_timeout", c_u32); ("idle_paging_interval", c_u32)].

Definition struct_i2400m_tlv_media_status : ctype := packed_struct [
  ("hdr", struct_i2400m_tlv_hdr); ("media_status", c_u32)].

Definition struct_i2400m_tlv_config_idle_timeout : ctype := packed_struct [
  ("hdr", struct_i2400m_tlv_hdr); ("timeout", c_u32)].

Definition struct_i2400m_tlv_config_d2h_data_format : ctype := packed_struct [
  ("hdr", struct_i2400m_tlv_hdr); ("format", c_u8); ("reserved", CArray c_u8 3)].

Definition struct_i2400m_tlv_config_dl_host_reorder : ctype := packed_struct [
  ("hdr", struct_i2400m_tlv_hdr); ("reorder", c_u8); ("reserved", CArray c_u8 3)].

(** ** [linux/if_frad.h] *)

Definition struct_dlci_add : ctype := struct [
  ("devname", CArray c_u8 IFNAMSIZ); ("dlci", c_u16)].

Definition struct_dlci_conf : ctype := struct [
  ("flags", c_u16); ("CIR_fwd", c_u16); ("Bc_fwd", c_u16); ("Be_fwd", c_u16); ("CIR_bwd", c_u16);
  ("Bc_bwd", c_u16); ("Be_bwd", c_u16); ("Tc_fwd", c_u16); ("Tc_bwd", c_u16); ("Tf_max", c_u16);
  ("Tb_max", c_u16)].

Definition struct_frad_conf : ctype := struct [
  ("station", c_u16); ("flags", c_u16); ("kbaud", c_u16); ("clocking", c_u16); ("mtu", c_u16);
  ("T391", c_u16); ("T392", c_u16); ("N391", c_u16); ("N392", c_u16); ("N393", c_u16);
  ("CIR_fwd", c_u16); ("Bc_fwd", c_u16); ("Be_fwd", c_u16); ("CIR_bwd", c_u16);
  ("Bc_bwd", c_u16); ("Be_bwd", c_u16)].

(** ** [linux/sdla.h] *)

Definition struct_sdla_mem : ctype := struct [
  ("addr", c_int); ("len", c_int); ("data", CPtr)].

Definition struct_sdla_conf : ctype := struct [
  ("station", c_u16); ("config", c_u16); ("kbaud", c_u16); ("clocking", c_u16);
  ("max_frm", c_u16); ("T391", c_u16); ("T392", c_u16); ("N391", c_u16); ("N392", c_u16);
  ("N393", c_u16); ("CIR_fwd", c_u16); ("Bc_fwd", c_u16); ("Be_fwd", c_u16); ("CIR_bwd", c_u16);
  ("Bc_bwd", c_u16); ("Be_bwd", c_u16)].

Definition struct_sdla_dlci_conf : ctype := struct [
  ("config", c_u16); ("CIR_fwd", c_u16); ("Bc_fwd", c_u16); ("Be_fwd", c_u16);
  ("CIR_bwd", c_u16); ("Bc_bwd", c_u16); ("Be_bwd", c_u16); ("Tc_fwd", c_u16); ("Tc_bwd", c_u16);
  ("Tf_max", c_u16); ("Tb_max", c_u16)].

(** ** [linux/ipx.h] *)

Definition IPX_NODE_LEN : Z := 6.

Definition struct_sockaddr_ipx : ctype := struct [
  ("sipx_family", __kernel_sa_family_t); ("sipx_port", c_u16); ("sipx_network", c_u32);
  ("sipx_node", CArray c_u8 IPX_NODE_LEN); ("sipx_type", c_u8); ("sipx_zero", c_u8)].

Definition struct_ipx_route_definition : ctype := struct [
  ("ipx_network", c_u32); ("ipx_router_network", c_u32);
  ("ipx_router_node", CArray c_u8 IPX_NODE_LEN)].

Definition struct_ipx_interface_definition : ctype := struct [
  ("ipx_network", c_u32); ("ipx_device", CArray c_u8 16); ("ipx_dlink_type", c_u8);
  ("ipx_special", c_u8); ("ipx_node", CArray c_u8 IPX_NODE_LEN)].

Definition struct_ipx_config_data : ctype := struct [
  ("ipxcfg_auto_select_primary", c_u8); ("ipxcfg_auto_create_interfaces", c_u8)].

Definition struct_ipx_route_def : ctype := struct [
  ("ipx_network", c_u32); ("ipx_router_network", c_u32);
  ("ipx_router_node", CArray c_u8 IPX_NODE_LEN); ("ipx_device", CArray c_u8 16);
  ("ipx_flags", c_u16)].

(** ** [linux/nfc/nfcinfo.h] *)

Definition NFCC_MAGIC : Z := 0xE9.

Definition struct_nqx_devinfo : ctype := struct [
  ("chip_type", c_u8); ("rom_version", c_u8); ("fw_major", c_u8); ("fw_minor", c_u8)].

Definition union_nqx_uinfo : ctype := CUnion [
  ("i", c_u32); ("info", struct_nqx_devinfo)].

Definition NFCC_GET_INFO : ioctl_req := IOW NFCC_MAGIC 0x09 c_u32.

Definition nfcinfo_requests (a : abi) : list (string * ioctl_req) :=
  [("NFCC_GET_INFO", NFCC_GET_INFO)].

(** ** [rdma/i40iw-abi.h] *)

Definition struct_i40iw_alloc_ucontext_req : ctype := struct [
  ("reserved32", c_u32); ("userspace_ver", c_u8); ("reserved8", CArray c_u8 3)].

Definition struct_i40iw_alloc_ucontext_resp : ctype := struct [
  ("max_pds", c_u32); ("max_qps", c_u32); ("wq_size", c_u32); ("kernel_ver", c_u8);
  ("reserved", CArray c_u8 3)].

Definition struct_i40iw_alloc_pd_resp : ctype := struct [
  ("pd_id", c_u32); ("reserved", CArray c_u8 4)].

Definition struct_i40iw_create_cq_req : ctype := struct [
  ("user_cq_buffer", CAligned 8 c_u64); ("user_shadow_area", CAligned 8 c_u64)].

Definition struct_i40iw_create_qp_req : ctype := struct [
  ("user_wqe_buffers", CAligned 8 c_u64); ("user_compl_ctx", CAligned 8 c_u64);
  ("user_sq_phb", CAligned 8 c_u64); ("user_rq_phb", CAligned 8 c_u64)].

Definition struct_i40iw_mem_reg_req : ctype := struct [
  ("reg_type", c_u16); ("cq_pages", c_u16); ("rq_pages", c_u16); ("sq_pages", c_u16)].

Definition struct_i40iw_create_cq_resp : ctype := struct [
  ("cq_id", c_u32); ("cq_size", c_u32); ("mmap_db_index", c_u32); ("reserved", c_u32)].

Definition struct_i40iw_create_qp_resp : ctype := struct [
  ("qp_id", c_u32); ("actual_sq_size", c_u32); ("actual_rq_size", c_u32);
  ("i40iw_drv_opt", c_u32); ("push_idx", c_u16); ("lsmm", c_u8); ("rsvd2", c_u8)].

(** ** [linux/nfsd/nfsfh.h] *)

Definition struct_nfs_fhbase_old : ctype := struct [
  ("fb_dcookie", c_u32); ("fb_ino", c_u32); ("fb_dirino", c_u32); ("fb_dev", c_u32);
  ("fb_xdev", c_u32); ("fb_xino", c_u32); ("fb_generation", c_u32)].

Definition struct_nfs_fhbase_new : ctype := struct [
  ("fb_version", c_u8); ("fb_auth_type", c_u8); ("fb_fsid_type", c_u8); ("fb_fileid_type", c_u8);
  ("fb_auth", CArray c_u32 1)].

Definition struct_knfsd_fh : ctype := struct [
  ("fh_size", c_u32);
  ("fh_base", CUnion [
    ("fh_old", struct_nfs_fhbase_old); ("fh_pad", CArray c_u32 (NFS4_FHSIZE / 4));
    ("fh_new", struct_nfs_fhbase_new)])].

(** ** [linux/n_r3964.h] *)

Definition struct_r3964_client_message : ctype := struct [
  ("msg_id", c_int); ("arg", c_int); ("error_code", c_int)].

(** ** [linux/mhi.h] *)

Definition MHI_UCI_IOCTL_MAGIC : Z := chr "m".

Definition struct_peripheral_ep_info : ctype := struct [
  ("ep_type", c_enum); ("peripheral_iface_id", c_u32)].

Definition struct_ipa_ep_pair : ctype := struct [
  ("cons_pipe_num", c_u32); ("prod_pipe_num", c_u32)].

Definition struct_ep_info : ctype := struct [
  ("ph_ep_info", struct_peripheral_ep_info); ("ipa_ep_pair", struct_ipa_ep_pair)].

Definition MHI_UCI_EP_LOOKUP : ioctl_req := IOR MHI_UCI_IOCTL_MAGIC 2 struct_ep_info.
Definition MHI_UCI_DPL_EP_LOOKUP : ioctl_req := IOR MHI_UCI_IOCTL_MAGIC 3 struct_ep_info.
Definition MHI_UCI_CV2X_EP_LOOKUP : ioctl_req := IOR MHI_UCI_IOCTL_MAGIC 4 struct_ep_info.

Definition mhi_requests (a : abi) : list (string * ioctl_req) :=
  [("MHI_UCI_EP_LOOKUP", MHI_UCI_EP_LOOKUP);
   ("MHI_UCI_DPL_EP_LOOKUP", MHI_UCI_DPL_EP_LOOKUP);
   ("MHI_UCI_CV2X_EP_LOOKUP", MHI_UCI_CV2X_EP_LOOKUP)].

(** ** [linux/usb/usb_ctrl_qti.h] *)

Definition QTI_CTRL_IOCTL_MAGIC : Z := chr "r".
Definition GSI_MBIM_IOCTL_MAGIC : Z := chr "o".

Definition struct_usb_ctrl_peripheral_ep_info : ctype := struct [
  ("ep_type", c_enum); ("peripheral_iface_id", c_u32)].

Definition struct_usb_ctrl_ipa_ep_pair : ctype := struct [
  ("cons_pipe_num", c_u32); ("prod_pipe_num", c_u32)].

Definition struct_usb_ctrl_ep_info : ctype := struct [
  ("ph_ep_info", struct_usb_ctrl_peripheral_ep_info);
  ("ipa_ep_pair", struct_usb_ctrl_ipa_ep_pair)].

Definition struct_data_buf_info : ctype := struct [
  ("epout_buf_len", c_u32); ("epout_total_buf_len", c_u32); ("epin_buf_len", c_u32);
  ("epin_total_buf_len", c_u32)].

Definition QTI_CTRL_GET_LINE_STATE : ioctl_req := IOR QTI_CTRL_IOCTL_MAGIC 2 c_int.
Definition QTI_CTRL_EP_LOOKUP : ioctl_req := IOR QTI_CTRL_IOCTL_MAGIC 3 struct_usb_ctrl_ep_info.
Definition QTI_CTRL_MODEM_OFFLINE : ioctl_req := IO QTI_CTRL_IOCTL_MAGIC 4.
Definition QTI_CTRL_MODEM_ONLINE : ioctl_req := IO QTI_CTRL_IOCTL_MAGIC 5.
Definition QTI_CTRL_DATA_BUF_INFO : ioctl_req := IOR QTI_CTRL_IOCTL_MAGIC 6 struct_data_buf_info.
Definition GSI_MBIM_GET_NTB_SIZE : ioctl_req := IOR GSI_MBIM_IOCTL_MAGIC 2 c_u32.
Definition GSI_MBIM_GET_DATAGRAM_COUNT : ioctl_req := IOR GSI_MBIM_IOCTL_MAGIC 3 c_u16.
Definition GSI_MBIM_EP_LOOKUP : ioctl_req := IOR GSI_MBIM_IOCTL_MAGIC 4 struct_usb_ctrl_ep_info.
Definition GSI_MBIM_GPS_USB_STATUS : ioctl_req := IOR GSI_MBIM_IOCTL_MAGIC 5 c_int.

Definition usb_ctrl_qti_requests (a : abi) : list (string * ioctl_req) :=
  [("QTI_CTRL_GET_LINE_STATE", QTI_CTRL_GET_LINE_STATE);
   ("QTI_CTRL_EP_LOOKUP", QTI_CTRL_EP_LOOKUP);
   ("QTI_CTRL_MODEM_OFFLINE", QTI_CTRL_MODEM_OFFLINE);
   ("QTI_CTRL_MODEM_ONLINE", QTI_CTRL_MODEM_ONLINE);
   ("QTI_CTRL_DATA_BUF_INFO", QTI_CTRL_DATA_BUF_INFO);
   ("GSI_MBIM_GET_NTB_SIZE", GSI_MBIM_GET_NTB_SIZE);
   ("GSI_MBIM_GET_DATAGRAM_COUNT", GSI_MBIM_GET_DATAGRAM_COUNT);
   ("GSI_MBIM_EP_LOOKUP", GSI_MBIM_EP_LOOKUP);
   ("GSI_MBIM_GPS_USB_STATUS", GSI_MBIM_GPS_USB_STATUS)].

(** Every type of the file. *)
Definition uapiNet_types (a : abi) : list (string * ctype) :=
  [("struct_rmnet_egress_param", struct_rmnet_egress_param);
   ("struct_rmnet_ingress_param", struct_rmnet_ingress_param);
   ("struct_ingress_format_v2", struct_ingress_format_v2);
   ("struct_egress_format_v2", struct_egress_format_v2);
   ("struct_rmnet_ioctl_extended_s_v2", struct_rmnet_ioctl_extended_s_v2);
   ("struct_rmnet_ioctl_extended_s", struct_rmnet_ioctl_extended_s);
   ("struct_rmnet_ioctl_data_s", struct_rmnet_ioctl_data_s);
   ("struct_QMI_QOS_HDR_S", struct_QMI_QOS_HDR_S);
   ("struct_qmi_qos_hdr8_s", struct_qmi_qos_hdr8_s);
   ("struct_rmnet_nl_msg_s", struct_rmnet_nl_msg_s);
   ("struct_wan_ioctl_poll_tethering_stats", struct_wan_ioctl_poll_tethering_stats);
   ("struct_wan_ioctl_set_data_quota", struct_wan_ioctl_set_data_quota);
   ("struct_wan_ioctl_set_data_quota_warning", struct_wan_ioctl_set_data_quota_warning);
   ("struct_wan_ioctl_set_tether_client_pipe", struct_wan_ioctl_set_tether_client_pipe);
   ("struct_wan_ioctl_query_tether_stats", struct_wan_ioctl_query_tether_stats);
   ("struct_wan_ioctl_query_tether_stats_all", struct_wan_ioctl_query_tether_stats_all);
   ("struct_wan_ioctl_reset_tether_stats", struct_wan_ioctl_reset_tether_stats);
   ("struct_wan_ioctl_query_dl_filter_stats", struct_wan_ioctl_query_dl_filter_stats);
   ("struct_wan_ioctl_notify_wan_state", struct_wan_ioctl_notify_wan_state);
   ("struct_wan_ioctl_send_lan_client_msg", struct_wan_ioctl_send_lan_client_msg);
   ("struct_wan_ioctl_lan_client_info", struct_wan_ioctl_lan_client_info);
   ("struct_wan_ioctl_per_client_info", struct_wan_ioctl_per_client_info);
   ("struct_wan_ioctl_query_per_client_stats", struct_wan_ioctl_query_per_client_stats);
   ("struct_wil_memio", struct_wil_memio);
   ("struct_wil_memio_block", struct_wil_memio_block);
   ("struct_wigig_sensing_change_mode", struct_wigig_sensing_change_mode);
   ("struct_i2400m_bcf_hdr", struct_i2400m_bcf_hdr);
   ("struct_i2400m_bootrom_header", struct_i2400m_bootrom_header);
   ("struct_i2400m_pl_data_hdr", struct_i2400m_pl_data_hdr);
   ("struct_i2400m_pl_edata_hdr", struct_i2400m_pl_edata_hdr);
   ("struct_i2400m_pld", struct_i2400m_pld);
   ("struct_i2400m_msg_hdr", struct_i2400m_msg_hdr);
   ("struct_i2400m_tlv_hdr", struct_i2400m_tlv_hdr);
   ("struct_i2400m_l3l4_hdr", struct_i2400m_l3l4_hdr);
   ("struct_i2400m_tlv_system_state", struct_i2400m_tlv_system_state);
   ("struct_i2400m_tlv_l4_message_versions", struct_i2400m_tlv_l4_message_versions);
   ("struct_i2400m_tlv_detailed_device_info", struct_i2400m_tlv_detailed_device_info);
   ("struct_i2400m_tlv_rf_switches_status", struct_i2400m_tlv_rf_switches_status);
   ("struct_i2400m_tlv_rf_operation", struct_i2400m_tlv_rf_operation);
   ("struct_i2400m_tlv_device_reset_type", struct_i2400m_tlv_device_reset_type);
   ("struct_i2400m_tlv_config_idle_parameters", struct_i2400m_tlv_config_idle_parameters);
   ("struct_i2400m_tlv_media_status", struct_i2400m_tlv_media_status);
   ("struct_i2400m_tlv_config_idle_timeout", struct_i2400m_tlv_config_idle_timeout);
   ("struct_i2400m_tlv_config_d2h_data_format", struct_i2400m_tlv_config_d2h_data_format);
   ("struct_i2400m_tlv_config_dl_host_reorder", struct_i2400m_tlv_config_dl_host_reorder);
   ("struct_dlci_add", struct_dlci_add);
   ("struct_dlci_conf", struct_dlci_conf);
   ("struct_frad_conf", struct_frad_conf);
   ("struct_sdla_mem", struct_sdla_mem);
   ("struct_sdla_conf", struct_sdla_conf);
   ("struct_sdla_dlci_conf", struct_sdla_dlci_conf);
   ("struct_sockaddr_ipx", struct_sockaddr_ipx);
   ("struct_ipx_route_definition", struct_ipx_route_definition);
   ("struct_ipx_interface_definition", struct_ipx_interface_definition);
   ("struct_ipx_config_data", struct_ipx_config_data);
   ("struct_ipx_route_def", struct_ipx_route_def);
   ("struct_nqx_devinfo", struct_nqx_devinfo);
   ("union_nqx_uinfo", union_nqx_uinfo);
   ("struct_i40iw_alloc_ucontext_req", struct_i40iw_alloc_ucontext_req);
   ("struct_i40iw_alloc_ucontext_resp", struct_i40iw_alloc_ucontext_resp);
   ("struct_i40iw_alloc_pd_resp", struct_i40iw_alloc_pd_resp);
   ("struct_i40iw_create_cq_req", struct_i40iw_create_cq_req);
   ("struct_i40iw_create_qp_req", struct_i40iw_create_qp_req);
   ("struct_i40iw_mem_reg_req", struct_i40iw_mem_reg_req);
   ("struct_i40iw_create_cq_resp", struct_i40iw_create_cq_resp);
   ("struct_i40iw_create_qp_resp", struct_i40iw_create_qp_resp);
   ("struct_nfs_fhbase_old", struct_nfs_fhbase_old);
   ("struct_nfs_fhbase_new", struct_nfs_fhbase_new);
   ("struct_knfsd_fh", struct_knfsd_fh);
   ("struct_r3964_client_message", struct_r3964_client_message);
   ("struct_peripheral_ep_info", struct_peripheral_ep_info);
   ("struct_ipa_ep_pair", struct_ipa_ep_pair);
   ("struct_ep_info", struct_ep_info);
   ("struct_usb_ctrl_peripheral_ep_info", struct_usb_ctrl_peripheral_ep_info);
   ("struct_usb_ctrl_ipa_ep_pair", struct_usb_ctrl_ipa_ep_pair);
   ("struct_usb_ctrl_ep_info", struct_usb_ctrl_ep_info);
   ("struct_data_buf_info", struct_data_buf_info)].
End Uapi.
