(* ===== verification/UapiSecure.v ===== *)
(** * UapiSecure: the secure world

    Trusted applications ([qseecom.h], [smcinvoke.h]), the crypto engine, the secure processor
    ([spcom.h], [spss_utils.h]) and the fingerprint reader. *)

From Stdlib Require Import Ascii.

From S2P Require Import Prelude CLayout Ioctl Uapi.

#[local] Open Scope string_scope.
#[local] Open Scope list_scope.
#[local] Open Scope Z_scope.

Section Uapi.
Context `{LinuxUapi}.

(** ** [linux/qseecom.h] *)

Definition ICE_KEY_SIZE : Z := 32.
Definition ICE_SALT_SIZE : Z := 32.
Definition MAX_APP_NAME_SIZE : Z := 64.
Definition MAX_CE_INFO_HANDLE_SIZE : Z := 32.
Definition MAX_CE_PIPE_PAIR_PER_UNIT : Z := 3.
Definition MAX_ION_FD : Z := 4.
Definition QSEECOM_HASH_SIZE : Z := 32.
Definition SHA256_DIGEST_LENGTH : Z := 32.
Definition QSEECOM_IOC_MAGIC : Z := 0x97.

Definition struct_qseecom_register_listener_req : ctype := struct [
  ("listener_id", c_u32); ("ifd_data_fd", c_int); ("virt_sb_base", CPtr); ("sb_size", c_u32)].

Definition struct_qseecom_send_cmd_req : ctype := struct [
  ("cmd_req_buf", CPtr); ("cmd_req_len", c_u32); ("resp_buf", CPtr); ("resp_len", c_u32)].

Definition struct_qseecom_ion_fd_info : ctype := struct [
  ("fd", c_int); ("cmd_buf_offset", c_u32)].

Definition struct_qseecom_send_modfd_cmd_req : ctype := struct [
  ("cmd_req_buf", CPtr); ("cmd_req_len", c_u32); ("resp_buf", CPtr); ("resp_len", c_u32);
  ("ifd_data", CArray struct_qseecom_ion_fd_info MAX_ION_FD)].

Definition struct_qseecom_send_resp_req : ctype := struct [
  ("resp_buf", CPtr); ("resp_len", c_u32)].

Definition struct_qseecom_load_img_req : ctype := struct [
  ("mdt_len", c_u32); ("img_len", c_u32); ("ifd_data_fd", c_int);
  ("img_name", CArray c_u8 MAX_APP_NAME_SIZE); ("app_arch", c_u32); ("app_id", c_u32)].

Definition struct_qseecom_set_sb_mem_param_req : ctype := struct [
  ("ifd_data_fd", c_int); ("virt_sb_base", CPtr); ("sb_len", c_u32)].

Definition struct_qseecom_qseos_version_req : ctype := struct [
  ("qseos_version", c_u32)].

Definition struct_qseecom_qseos_app_load_query : ctype := struct [
  ("app_name", CArray c_u8 MAX_APP_NAME_SIZE); ("app_id", c_u32); ("app_arch", c_u32)].

Definition struct_qseecom_send_svc_cmd_req : ctype := struct [
  ("cmd_id", c_u32); ("cmd_req_buf", CPtr); ("cmd_req_len", c_u32); ("resp_buf", CPtr);
  ("resp_len", c_u32)].

Definition struct_qseecom_create_key_req : ctype := struct [
  ("hash32", CArray c_u8 QSEECOM_HASH_SIZE); ("usage", c_enum)].

Definition struct_qseecom_wipe_key_req : ctype := struct [
  ("usage", c_enum); ("wipe_key_flag", c_int)].

Definition struct_qseecom_update_key_userinfo_req : ctype := struct [
  ("current_hash32", CArray c_u8 QSEECOM_HASH_SIZE);
  ("new_hash32", CArray c_u8 QSEECOM_HASH_SIZE); ("usage", c_enum)].

Definition struct_qseecom_save_partition_hash_req : ctype := struct [
  ("partition_id", c_int); ("digest", CArray c_u8 SHA256_DIGEST_LENGTH)].

Definition struct_qseecom_is_es_activated_req : ctype := struct [
  ("is_activated", c_int)].

Definition struct_qseecom_mdtp_cipher_dip_req : ctype := struct [
  ("in_buf", CPtr); ("in_buf_size", c_u32); ("out_buf", CPtr); ("out_buf_size", c_u32);
  ("direction", c_u32)].

Definition struct_qseecom_send_modfd_listener_resp : ctype := struct [
  ("resp_buf_ptr", CPtr); ("resp_len", c_u32);
  ("ifd_data", CArray struct_qseecom_ion_fd_info MAX_ION_FD)].

Definition struct_qseecom_qteec_req : ctype := struct [
  ("req_ptr", CPtr); ("req_len", c_u32); ("resp_ptr", CPtr); ("resp_len", c_u32)].

Definition struct_qseecom_qteec_modfd_req : ctype := struct [
  ("req_ptr", CPtr); ("req_len", c_u32); ("resp_ptr", CPtr); ("resp_len", c_u32);
  ("ifd_data", CArray struct_qseecom_ion_fd_info MAX_ION_FD)].

Definition struct_qseecom_sg_entry : ctype := struct [
  ("phys_addr", c_u32); ("len", c_u32)].

Definition struct_qseecom_sg_entry_64bit : ctype := packed_struct [
  ("phys_addr", c_u64); ("len", c_u32)].

Definition struct_qseecom_sg_list_buf_hdr_64bit : ctype := packed_struct [
  ("blank_entry", struct_qseecom_sg_entry_64bit); ("version", c_u32);
  ("new_buf_phys_addr", c_u64); ("nents_total", c_u32)].

Definition struct_qseecom_ce_pipe_entry : ctype := struct [
  ("valid", c_int); ("ce_num", c_u32); ("ce_pipe_pair", c_u32)].

Definition struct_qseecom_ice_data_t : ctype := struct [
  ("flag", c_int)].

Definition struct_qseecom_ce_info_req : ctype := struct [
  ("handle", CArray c_u8 MAX_CE_INFO_HANDLE_SIZE); ("usage", c_u32); ("unit_num", c_u32);
  ("num_ce_pipe_entries", c_u32);
  ("ce_pipe_entry", CArray struct_qseecom_ce_pipe_entry MAX_CE_PIPE_PAIR_PER_UNIT)].

Definition struct_qseecom_ice_key_data_t : ctype := struct [
  ("key", CArray c_u8 ICE_KEY_SIZE); ("key_len", c_u32); ("salt", CArray c_u8 ICE_SALT_SIZE);
  ("salt_len", c_u32)].

Definition QSEECOM_IOCTL_REGISTER_LISTENER_REQ : ioctl_req := IOWR QSEECOM_IOC_MAGIC 1 struct_qseecom_register_listener_req.
Definition QSEECOM_IOCTL_UNREGISTER_LISTENER_REQ : ioctl_req := IO QSEECOM_IOC_MAGIC 2.
Definition QSEECOM_IOCTL_SEND_CMD_REQ : ioctl_req := IOWR QSEECOM_IOC_MAGIC 3 struct_qseecom_send_cmd_req.
Definition QSEECOM_IOCTL_SEND_MODFD_CMD_REQ : ioctl_req := IOWR QSEECOM_IOC_MAGIC 4 struct_qseecom_send_modfd_cmd_req.
Definition QSEECOM_IOCTL_RECEIVE_REQ : ioctl_req := IO QSEECOM_IOC_MAGIC 5.
Definition QSEECOM_IOCTL_SEND_RESP_REQ : ioctl_req := IO QSEECOM_IOC_MAGIC 6.
Definition QSEECOM_IOCTL_LOAD_APP_REQ : ioctl_req := IOWR QSEECOM_IOC_MAGIC 7 struct_qseecom_load_img_req.
Definition QSEECOM_IOCTL_SET_MEM_PARAM_REQ : ioctl_req := IOWR QSEECOM_IOC_MAGIC 8 struct_qseecom_set_sb_mem_param_req.
Definition QSEECOM_IOCTL_UNLOAD_APP_REQ : ioctl_req := IO QSEECOM_IOC_MAGIC 9.
Definition QSEECOM_IOCTL_GET_QSEOS_VERSION_REQ : ioctl_req := IOWR QSEECOM_IOC_MAGIC 10 struct_qseecom_qseos_version_req.
Definition QSEECOM_IOCTL_PERF_ENABLE_REQ : ioctl_req := IO QSEECOM_IOC_MAGIC 11.
Definition QSEECOM_IOCTL_PERF_DISABLE_REQ : ioctl_req := IO QSEECOM_IOC_MAGIC 12.
Definition QSEECOM_IOCTL_LOAD_EXTERNAL_ELF_REQ : ioctl_req := IOWR QSEECOM_IOC_MAGIC 13 struct_qseecom_load_img_req.
Definition QSEECOM_IOCTL_UNLOAD_EXTERNAL_ELF_REQ : ioctl_req := IO QSEECOM_IOC_MAGIC 14.
Definition QSEECOM_IOCTL_APP_LOADED_QUERY_REQ : ioctl_req := IOWR QSEECOM_IOC_MAGIC 15 struct_qseecom_qseos_app_load_query.
Definition QSEECOM_IOCTL_SEND_CMD_SERVICE_REQ : ioctl_req := IOWR QSEECOM_IOC_MAGIC 16 struct_qseecom_send_svc_cmd_req.
Definition QSEECOM_IOCTL_CREATE_KEY_REQ : ioctl_req := IOWR QSEECOM_IOC_MAGIC 17 struct_qseecom_create_key_req.
Definition QSEECOM_IOCTL_WIPE_KEY_REQ : ioctl_req := IOWR QSEECOM_IOC_MAGIC 18 struct_qseecom_wipe_key_req.
Definition QSEECOM_IOCTL_SAVE_PARTITION_HASH_REQ : ioctl_req := IOWR QSEECOM_IOC_MAGIC 19 struct_qseecom_save_partition_hash_req.
Definition QSEECOM_IOCTL_IS_ES_ACTIVATED_REQ : ioctl_req := IOWR QSEECOM_IOC_MAGIC 20 struct_qseecom_is_es_activated_req.
Definition QSEECOM_IOCTL_SEND_MODFD_RESP : ioctl_req := IOWR QSEECOM_IOC_MAGIC 21 struct_qseecom_send_modfd_listener_resp.
Definition QSEECOM_IOCTL_SET_BUS_SCALING_REQ : ioctl_req := IOWR QSEECOM_IOC_MAGIC 23 c_int.
Definition QSEECOM_IOCTL_UPDATE_KEY_USER_INFO_REQ : ioctl_req := IOWR QSEECOM_IOC_MAGIC 24 struct_qseecom_update_key_userinfo_req.
Definition QSEECOM_QTEEC_IOCTL_OPEN_SESSION_REQ : ioctl_req := IOWR QSEECOM_IOC_MAGIC 30 struct_qseecom_qteec_modfd_req.
Definition QSEECOM_QTEEC_IOCTL_CLOSE_SESSION_REQ : ioctl_req := IOWR QSEECOM_IOC_MAGIC 31 struct_qseecom_qteec_req.
Definition QSEECOM_QTEEC_IOCTL_INVOKE_MODFD_CMD_REQ : ioctl_req := IOWR QSEECOM_IOC_MAGIC 32 struct_qseecom_qteec_modfd_req.
Definition QSEECOM_QTEEC_IOCTL_REQUEST_CANCELLATION_REQ : ioctl_req := IOWR QSEECOM_IOC_MAGIC 33 struct_qseecom_qteec_modfd_req.
Definition QSEECOM_IOCTL_MDTP_CIPHER_DIP_REQ : ioctl_req := IOWR QSEECOM_IOC_MAGIC 34 struct_qseecom_mdtp_cipher_dip_req.
Definition QSEECOM_IOCTL_SEND_MODFD_CMD_64_REQ : ioctl_req := IOWR QSEECOM_IOC_MAGIC 35 struct_qseecom_send_modfd_cmd_req.
Definition QSEECOM_IOCTL_SEND_MODFD_RESP_64 : ioctl_req := IOWR QSEECOM_IOC_MAGIC 36 struct_qseecom_send_modfd_listener_resp.
Definition QSEECOM_IOCTL_GET_CE_PIPE_INFO : ioctl_req := IOWR QSEECOM_IOC_MAGIC 40 struct_qseecom_ce_info_req.
Definition QSEECOM_IOCTL_FREE_CE_PIPE_INFO : ioctl_req := IOWR QSEECOM_IOC_MAGIC 41 struct_qseecom_ce_info_req.
Definition QSEECOM_IOCTL_QUERY_CE_PIPE_INFO : ioctl_req := IOWR QSEECOM_IOC_MAGIC 42 struct_qseecom_ce_info_req.
Definition QSEECOM_IOCTL_SET_ICE_INFO : ioctl_req := IOWR QSEECOM_IOC_MAGIC 43 struct_qseecom_ice_data_t.
Definition QSEECOM_IOCTL_FBE_CLEAR_KEY : ioctl_req := IOWR QSEECOM_IOC_MAGIC 44 struct_qseecom_ice_key_data_t.

Definition qseecom_requests (a : abi) : list (string * ioctl_req) :=
  [("QSEECOM_IOCTL_REGISTER_LISTENER_REQ", QSEECOM_IOCTL_REGISTER_LISTENER_REQ);
   ("QSEECOM_IOCTL_UNREGISTER_LISTENER_REQ", QSEECOM_IOCTL_UNREGISTER_LISTENER_REQ);
   ("QSEECOM_IOCTL_SEND_CMD_REQ", QSEECOM_IOCTL_SEND_CMD_REQ);
   ("QSEECOM_IOCTL_SEND_MODFD_CMD_REQ", QSEECOM_IOCTL_SEND_MODFD_CMD_REQ);
   ("QSEECOM_IOCTL_RECEIVE_REQ", QSEECOM_IOCTL_RECEIVE_REQ);
   ("QSEECOM_IOCTL_SEND_RESP_REQ", QSEECOM_IOCTL_SEND_RESP_REQ);
   ("QSEECOM_IOCTL_LOAD_APP_REQ", QSEECOM_IOCTL_LOAD_APP_REQ);
   ("QSEECOM_IOCTL_SET_MEM_PARAM_REQ", QSEECOM_IOCTL_SET_MEM_PARAM_REQ);
   ("QSEECOM_IOCTL_UNLOAD_APP_REQ", QSEECOM_IOCTL_UNLOAD_APP_REQ);
   ("QSEECOM_IOCTL_GET_QSEOS_VERSION_REQ", QSEECOM_IOCTL_GET_QSEOS_VERSION_REQ);
   ("QSEECOM_IOCTL_PERF_ENABLE_REQ", QSEECOM_IOCTL_PERF_ENABLE_REQ);
   ("QSEECOM_IOCTL_PERF_DISABLE_REQ", QSEECOM_IOCTL_PERF_DISABLE_REQ);
   ("QSEECOM_IOCTL_LOAD_EXTERNAL_ELF_REQ", QSEECOM_IOCTL_LOAD_EXTERNAL_ELF_REQ);
   ("QSEECOM_IOCTL_UNLOAD_EXTERNAL_ELF_REQ", QSEECOM_IOCTL_UNLOAD_EXTERNAL_ELF_REQ);
   ("QSEECOM_IOCTL_APP_LOADED_QUERY_REQ", QSEECOM_IOCTL_APP_LOADED_QUERY_REQ);
   ("QSEECOM_IOCTL_SEND_CMD_SERVICE_REQ", QSEECOM_IOCTL_SEND_CMD_SERVICE_REQ);
   ("QSEECOM_IOCTL_CREATE_KEY_REQ", QSEECOM_IOCTL_CREATE_KEY_REQ);
   ("QSEECOM_IOCTL_WIPE_KEY_REQ", QSEECOM_IOCTL_WIPE_KEY_REQ);
   ("QSEECOM_IOCTL_SAVE_PARTITION_HASH_REQ", QSEECOM_IOCTL_SAVE_PARTITION_HASH_REQ);
   ("QSEECOM_IOCTL_IS_ES_ACTIVATED_REQ", QSEECOM_IOCTL_IS_ES_ACTIVATED_REQ);
   ("QSEECOM_IOCTL_SEND_MODFD_RESP", QSEECOM_IOCTL_SEND_MODFD_RESP);
   ("QSEECOM_IOCTL_SET_BUS_SCALING_REQ", QSEECOM_IOCTL_SET_BUS_SCALING_REQ);
   ("QSEECOM_IOCTL_UPDATE_KEY_USER_INFO_REQ", QSEECOM_IOCTL_UPDATE_KEY_USER_INFO_REQ);
   ("QSEECOM_QTEEC_IOCTL_OPEN_SESSION_REQ", QSEECOM_QTEEC_IOCTL_OPEN_SESSION_REQ);
   ("QSEECOM_QTEEC_IOCTL_CLOSE_SESSION_REQ", QSEECOM_QTEEC_IOCTL_CLOSE_SESSION_REQ);
   ("QSEECOM_QTEEC_IOCTL_INVOKE_MODFD_CMD_REQ", QSEECOM_QTEEC_IOCTL_INVOKE_MODFD_CMD_REQ);
   ("QSEECOM_QTEEC_IOCTL_REQUEST_CANCELLATION_REQ", QSEECOM_QTEEC_IOCTL_REQUEST_CANCELLATION_REQ);
   ("QSEECOM_IOCTL_MDTP_CIPHER_DIP_REQ", QSEECOM_IOCTL_MDTP_CIPHER_DIP_REQ);
   ("QSEECOM_IOCTL_SEND_MODFD_CMD_64_REQ", QSEECOM_IOCTL_SEND_MODFD_CMD_64_REQ);
   ("QSEECOM_IOCTL_SEND_MODFD_RESP_64", QSEECOM_IOCTL_SEND_MODFD_RESP_64);
   ("QSEECOM_IOCTL_GET_CE_PIPE_INFO", QSEECOM_IOCTL_GET_CE_PIPE_INFO);
   ("QSEECOM_IOCTL_FREE_CE_PIPE_INFO", QSEECOM_IOCTL_FREE_CE_PIPE_INFO);
   ("QSEECOM_IOCTL_QUERY_CE_PIPE_INFO", QSEECOM_IOCTL_QUERY_CE_PIPE_INFO);
   ("QSEECOM_IOCTL_SET_ICE_INFO", QSEECOM_IOCTL_SET_ICE_INFO);
   ("QSEECOM_IOCTL_FBE_CLEAR_KEY", QSEECOM_IOCTL_FBE_CLEAR_KEY)].

(** ** [linux/qcedev.h] *)

Definition QCEDEV_MAX_BUFFERS : Z := 16.
Definition QCEDEV_MAX_IV_SIZE : Z := 32.
Definition QCEDEV_MAX_KEY_SIZE : Z := 64.
Definition QCEDEV_MAX_SHA_DIGEST : Z := 32.
Definition QCEDEV_IOC_MAGIC : Z := 0x87.

Definition struct_buf_info : ctype := struct [
  ("", CUnion [
    ("offset", c_u32); ("vaddr", CPtr)]); ("len", c_u32)].

Definition struct_qcedev_vbuf_info : ctype := struct [
  ("src", CArray struct_buf_info QCEDEV_MAX_BUFFERS);
  ("dst", CArray struct_buf_info QCEDEV_MAX_BUFFERS)].

Definition struct_qcedev_pmem_info : ctype := struct [
  ("fd_src", c_int); ("src", CArray struct_buf_info QCEDEV_MAX_BUFFERS); ("fd_dst", c_int);
  ("dst", CArray struct_buf_info QCEDEV_MAX_BUFFERS)].

Definition struct_qcedev_cipher_op_req : ctype := struct [
  ("use_pmem", c_u8);
  ("", CUnion [
    ("pmem", struct_qcedev_pmem_info); ("vbuf", struct_qcedev_vbuf_info)]);
  ("entries", c_u32); ("data_len", c_u32); ("in_place_op", c_u8);
  ("enckey", CArray c_u8 QCEDEV_MAX_KEY_SIZE); ("encklen", c_u32);
  ("iv", CArray c_u8 QCEDEV_MAX_IV_SIZE); ("ivlen", c_u32); ("byteoffset", c_u32);
  ("alg", c_enum); ("mode", c_enum); ("op", c_enum)].

Definition struct_qcedev_sha_op_req : ctype := struct [
  ("data", CArray struct_buf_info QCEDEV_MAX_BUFFERS); ("entries", c_u32); ("data_len", c_u32);
  ("digest", CArray c_u8 QCEDEV_MAX_SHA_DIGEST); ("diglen", c_u32); ("authkey", CPtr);
  ("authklen", c_u32); ("alg", c_enum)].

Definition struct_pattern_info : ctype := struct [
  ("patt_sz", c_u8); ("proc_data_sz", c_u8); ("patt_offset", c_u8)].

Definition struct_qcedev_offload_cipher_op_req : ctype := struct [
  ("vbuf", struct_qcedev_vbuf_info); ("entries", c_u32); ("data_len", c_u32);
  ("in_place_op", c_u32); ("encklen", c_u32); ("iv", CArray c_u8 QCEDEV_MAX_IV_SIZE);
  ("ivlen", c_u32); ("iv_ctr_size", c_u32); ("byteoffset", c_u32); ("block_offset", c_u8);
  ("is_pattern_valid", c_u8); ("is_copy_op", c_u8); ("pattern_info", struct_pattern_info);
  ("alg", c_enum); ("mode", c_enum); ("op", c_enum); ("err", c_enum)].

Definition struct_qfips_verify_t : ctype := struct [
  ("kernel_size", c_u32); ("kernel", CPtr)].

Definition struct_qcedev_map_buf_req : ctype := struct [
  ("fd", CArray c_int QCEDEV_MAX_BUFFERS); ("num_fds", c_u32);
  ("fd_size", CArray c_u32 QCEDEV_MAX_BUFFERS); ("fd_offset", CArray c_u32 QCEDEV_MAX_BUFFERS);
  ("buf_vaddr", CArray c_u64 QCEDEV_MAX_BUFFERS)].

Definition struct_qcedev_unmap_buf_req : ctype := struct [
  ("fd", CArray c_int QCEDEV_MAX_BUFFERS); ("num_fds", c_u32)].

Definition QCEDEV_IOCTL_ENC_REQ : ioctl_req := IOWR QCEDEV_IOC_MAGIC 1 struct_qcedev_cipher_op_req.
Definition QCEDEV_IOCTL_DEC_REQ : ioctl_req := IOWR QCEDEV_IOC_MAGIC 2 struct_qcedev_cipher_op_req.
Definition QCEDEV_IOCTL_SHA_INIT_REQ : ioctl_req := IOWR QCEDEV_IOC_MAGIC 3 struct_qcedev_sha_op_req.
Definition QCEDEV_IOCTL_SHA_UPDATE_REQ : ioctl_req := IOWR QCEDEV_IOC_MAGIC 4 struct_qcedev_sha_op_req.
Definition QCEDEV_IOCTL_SHA_FINAL_REQ : ioctl_req := IOWR QCEDEV_IOC_MAGIC 5 struct_qcedev_sha_op_req.
Definition QCEDEV_IOCTL_GET_SHA_REQ : ioctl_req := IOWR QCEDEV_IOC_MAGIC 6 struct_qcedev_sha_op_req.
Definition QCEDEV_IOCTL_LOCK_CE : ioctl_req := IO QCEDEV_IOC_MAGIC 7.
Definition QCEDEV_IOCTL_UNLOCK_CE : ioctl_req := IO QCEDEV_IOC_MAGIC 8.
Definition QCEDEV_IOCTL_GET_CMAC_REQ : ioctl_req := IOWR QCEDEV_IOC_MAGIC 9 struct_qcedev_sha_op_req.
Definition QCEDEV_IOCTL_MAP_BUF_REQ : ioctl_req := IOWR QCEDEV_IOC_MAGIC 10 struct_qcedev_map_buf_req.
Definition QCEDEV_IOCTL_UNMAP_BUF_REQ : ioctl_req := IOWR QCEDEV_IOC_MAGIC 11 struct_qcedev_unmap_buf_req.
Definition QCEDEV_IOCTL_OFFLOAD_OP_REQ : ioctl_req := IOWR QCEDEV_IOC_MAGIC 12 struct_qcedev_offload_cipher_op_req.

Definition qcedev_requests (a : abi) : list (string * ioctl_req) :=
  [("QCEDEV_IOCTL_ENC_REQ", QCEDEV_IOCTL_ENC_REQ);
   ("QCEDEV_IOCTL_DEC_REQ", QCEDEV_IOCTL_DEC_REQ);
   ("QCEDEV_IOCTL_SHA_INIT_REQ", QCEDEV_IOCTL_SHA_INIT_REQ);
   ("QCEDEV_IOCTL_SHA_UPDATE_REQ", QCEDEV_IOCTL_SHA_UPDATE_REQ);
   ("QCEDEV_IOCTL_SHA_FINAL_REQ", QCEDEV_IOCTL_SHA_FINAL_REQ);
   ("QCEDEV_IOCTL_GET_SHA_REQ", QCEDEV_IOCTL_GET_SHA_REQ);
   ("QCEDEV_IOCTL_LOCK_CE", QCEDEV_IOCTL_LOCK_CE);
   ("QCEDEV_IOCTL_UNLOCK_CE", QCEDEV_IOCTL_UNLOCK_CE);
   ("QCEDEV_IOCTL_GET_CMAC_REQ", QCEDEV_IOCTL_GET_CMAC_REQ);
   ("QCEDEV_IOCTL_MAP_BUF_REQ", QCEDEV_IOCTL_MAP_BUF_REQ);
   ("QCEDEV_IOCTL_UNMAP_BUF_REQ", QCEDEV_IOCTL_UNMAP_BUF_REQ);
   ("QCEDEV_IOCTL_OFFLOAD_OP_REQ", QCEDEV_IOCTL_OFFLOAD_OP_REQ)].

(** ** [linux/fips_status.h] *)

(** ** [linux/qcota.h] *)

Definition MAX_NUM_V_MULTI_PKT : Z := 20.
Definition OTA_KEY_SIZE : Z := 16.
Definition QCOTA_IOC_MAGIC : Z := 0x85.

Definition struct_qce_f8_req : ctype := struct [
  ("data_in", CPtr); ("data_out", CPtr); ("data_len", c_u16); ("count_c", c_u32);
  ("bearer", c_u8); ("ckey", CArray c_u8 OTA_KEY_SIZE); ("direction", c_enum);
  ("algorithm", c_enum); ("current_req_info", c_int)].

Definition struct_qce_f8_multi_pkt_req : ctype := struct [
  ("num_pkt", c_u16); ("cipher_start", c_u16); ("cipher_size", c_u16);
  ("qce_f8_req", struct_qce_f8_req)].

Definition struct_cipher_iov : ctype := struct [
  ("addr", CPtr); ("size", c_u16)].

Definition struct_qce_f8_variable_multi_pkt_req : ctype := struct [
  ("num_pkt", c_u16); ("cipher_iov", CArray struct_cipher_iov MAX_NUM_V_MULTI_PKT);
  ("qce_f8_req", struct_qce_f8_req)].

Definition struct_qce_f9_req : ctype := struct [
  ("message", CPtr); ("msize", c_u16); ("last_bits", c_u8); ("mac_i", c_u32); ("fresh", c_u32);
  ("count_i", c_u32); ("direction", c_enum); ("ikey", CArray c_u8 OTA_KEY_SIZE);
  ("algorithm", c_enum); ("current_req_info", c_int)].

Definition QCOTA_F8_REQ : ioctl_req := IOWR QCOTA_IOC_MAGIC 1 struct_qce_f8_req.
Definition QCOTA_F8_MPKT_REQ : ioctl_req := IOWR QCOTA_IOC_MAGIC 2 struct_qce_f8_multi_pkt_req.
Definition QCOTA_F9_REQ : ioctl_req := IOWR QCOTA_IOC_MAGIC 3 struct_qce_f9_req.
Definition QCOTA_F8_V_MPKT_REQ : ioctl_req := IOWR QCOTA_IOC_MAGIC 4 struct_qce_f8_variable_multi_pkt_req.

Definition qcota_requests (a : abi) : list (string * ioctl_req) :=
  [("QCOTA_F8_REQ", QCOTA_F8_REQ);
   ("QCOTA_F8_MPKT_REQ", QCOTA_F8_MPKT_REQ);
   ("QCOTA_F9_REQ", QCOTA_F9_REQ);
   ("QCOTA_F8_V_MPKT_REQ", QCOTA_F8_V_MPKT_REQ)].

(** ** [linux/smcinvoke.h] *)

Definition SMCINVOKE_IOC_MAGIC : Z := 0x98.
Definition SMCINVOKE_LOG_BUF_SIZE : Z := 100.

Definition struct_smcinvoke_buf : ctype := struct [
  ("addr", c_u64); ("size", c_u64)].

Definition struct_smcinvoke_obj : ctype := struct [
  ("fd", c_u64); ("cb_server_fd", c_int); ("reserved", c_int)].

Definition union_smcinvoke_arg : ctype := CUnion [
  ("b", struct_smcinvoke_buf); ("o", struct_smcinvoke_obj)].

Definition struct_smcinvoke_cmd_req : ctype := struct [
  ("op", c_u32); ("counts", c_u32); ("result", c_int); ("argsize", c_u32); ("args", c_u64)].

Definition struct_smcinvoke_accept : ctype := struct [
  ("has_resp", c_u32); ("txn_id", c_u32); ("result", c_int); ("cbobj_id", c_int); ("op", c_u32);
  ("counts", c_u32); ("reserved", c_int); ("argsize", c_u32); ("buf_len", c_u64);
  ("buf_addr", c_u64)].

Definition struct_smcinvoke_server : ctype := struct [
  ("cb_buf_size", c_u32)].

Definition SMCINVOKE_IOCTL_INVOKE_REQ : ioctl_req := IOWR SMCINVOKE_IOC_MAGIC 1 struct_smcinvoke_cmd_req.
Definition SMCINVOKE_IOCTL_ACCEPT_REQ : ioctl_req := IOWR SMCINVOKE_IOC_MAGIC 2 struct_smcinvoke_accept.
Definition SMCINVOKE_IOCTL_SERVER_REQ : ioctl_req := IOWR SMCINVOKE_IOC_MAGIC 3 struct_smcinvoke_server.
Definition SMCINVOKE_IOCTL_ACK_LOCAL_OBJ : ioctl_req := IOWR SMCINVOKE_IOC_MAGIC 4 c_int.
Definition SMCINVOKE_IOCTL_LOG : ioctl_req := IOWR SMCINVOKE_IOC_MAGIC 255 (CArray c_u8 SMCINVOKE_LOG_BUF_SIZE).

Definition smcinvoke_requests (a : abi) : list (string * ioctl_req) :=
  [("SMCINVOKE_IOCTL_INVOKE_REQ", SMCINVOKE_IOCTL_INVOKE_REQ);
   ("SMCINVOKE_IOCTL_ACCEPT_REQ", SMCINVOKE_IOCTL_ACCEPT_REQ);
   ("SMCINVOKE_IOCTL_SERVER_REQ", SMCINVOKE_IOCTL_SERVER_REQ);
   ("SMCINVOKE_IOCTL_ACK_LOCAL_OBJ", SMCINVOKE_IOCTL_ACK_LOCAL_OBJ);
   ("SMCINVOKE_IOCTL_LOG", SMCINVOKE_IOCTL_LOG)].

(** ** [linux/spcom.h] *)

Definition SPCOM_CHANNEL_NAME_SIZE : Z := 32.
Definition SPCOM_MAX_ION_BUF : Z := 4.
Definition SPCOM_MAX_DMA_BUF : Z := SPCOM_MAX_ION_BUF.
Definition SPCOM_IOCTL_MAGIC : Z := chr "S".
Definition SPCOM_IONFD_CMD : Z := 0.
Definition SPCOM_POLL_CMD : Z := 1.
Definition SPCOM_GET_RMB_CMD : Z := 2.
Definition SPCOM_IOCTL_STATE_POLL_CMD : Z := 1000.
Definition SPCOM_IOCTL_SHARED_CH_CREATE_CMD : Z := 1001.
Definition SPCOM_IOCTL_CH_REGISTER_CMD : Z := 1002.
Definition SPCOM_IOCTL_CH_UNREGISTER_CMD : Z := 1003.
Definition SPCOM_IOCTL_CH_IS_CONNECTED_CMD : Z := 1004.
Definition SPCOM_IOCTL_SEND_MSG_CMD : Z := 1005.
Definition SPCOM_IOCTL_SEND_MOD_MSG_CMD : Z := 1006.
Definition SPCOM_IOCTL_GET_NEXT_REQ_SZ_CMD : Z := 1007.
Definition SPCOM_IOCTL_GET_MSG_CMD : Z := 1008.
Definition SPCOM_IOCTL_DMABUF_LOCK_CMD : Z := 1009.
Definition SPCOM_IOCTL_DMABUF_UNLOCK_CMD : Z := 1010.
Definition SPCOM_IOCTL_RESTART_SPU_CMD : Z := 1011.
Definition SPCOM_IOCTL_ENABLE_SSR_CMD : Z := 1012.

Definition struct_spcom_user_command : ctype := packed_struct [
  ("cmd_id", c_enum); ("arg", c_u32)].

Definition struct_spcom_send_command : ctype := packed_struct [
  ("cmd_id", c_enum); ("timeout_msec", c_u32); ("buf_size", c_u32); ("buf", CArray c_u8 0)].

Definition struct_spcom_user_create_channel_command : ctype := packed_struct [
  ("cmd_id", c_enum); ("ch_name", CArray c_u8 SPCOM_CHANNEL_NAME_SIZE); ("is_sharable", c_u8)].

Definition struct_spcom_user_restart_sp_command : ctype := packed_struct [
  ("cmd_id", c_enum); ("arg", c_u32); ("is_updated", c_u32)].

Definition struct_spcom_ion_info : ctype := struct [
  ("fd", c_int); ("buf_offset", c_u32)].

Definition struct_spcom_ion_handle : ctype := struct [
  ("fd", c_int)].

Definition struct_spcom_rmb_error_info : ctype := packed_struct [
  ("rmb_error", c_u32); ("padding", c_u32)].

Definition struct_spcom_user_send_modified_command : ctype := packed_struct [
  ("cmd_id", c_enum); ("ion_info", CArray struct_spcom_ion_info SPCOM_MAX_ION_BUF);
  ("timeout_msec", c_u32); ("buf_size", c_u32); ("buf", CArray c_u8 0)].

Definition struct_spcom_poll_param : ctype := packed_struct [
  ("wait", c_u8); ("cmd_id", c_enum); ("retval", c_int)].

Definition struct_spcom_dma_buf_info : ctype := packed_struct [
  ("fd", c_int); ("offset", c_u32)].

Definition struct_spcom_dma_buf_info_table : ctype := packed_struct [
  ("info", CArray struct_spcom_dma_buf_info SPCOM_MAX_DMA_BUF)].

Definition struct_spcom_ioctl_poll_event : ctype := packed_struct [
  ("event_id", c_u32); ("wait", c_u32); ("retval", c_int); ("padding", c_u32)].

Definition struct_spcom_ioctl_ch : ctype := packed_struct [
  ("ch_name", CArray c_u8 SPCOM_CHANNEL_NAME_SIZE)].

Definition struct_spcom_ioctl_message : ctype := packed_struct [
  ("ch_name", CArray c_u8 SPCOM_CHANNEL_NAME_SIZE); ("timeout_msec", c_u32);
  ("buffer_size", c_u32); ("buffer", CArray c_u8 0)].

Definition struct_spcom_ioctl_modified_message : ctype := packed_struct [
  ("ch_name", CArray c_u8 SPCOM_CHANNEL_NAME_SIZE); ("timeout_msec", c_u32);
  ("buffer_size", c_u32); ("info", CArray struct_spcom_dma_buf_info SPCOM_MAX_DMA_BUF);
  ("buffer", CArray c_u8 0)].

Definition struct_spcom_ioctl_next_request_size : ctype := packed_struct [
  ("ch_name", CArray c_u8 SPCOM_CHANNEL_NAME_SIZE); ("size", c_u32); ("padding", c_u32)].

Definition struct_spcom_ioctl_dmabuf_lock : ctype := packed_struct [
  ("ch_name", CArray c_u8 SPCOM_CHANNEL_NAME_SIZE); ("fd", c_int); ("padding", c_u32)].

Definition SPCOM_GET_IONFD : ioctl_req := IOR SPCOM_IOCTL_MAGIC SPCOM_IONFD_CMD struct_spcom_ion_handle.
Definition SPCOM_SET_IONFD : ioctl_req := IOW SPCOM_IOCTL_MAGIC SPCOM_IONFD_CMD struct_spcom_ion_handle.
Definition SPCOM_POLL_STATE : ioctl_req := IOWR SPCOM_IOCTL_MAGIC SPCOM_POLL_CMD struct_spcom_poll_param.
Definition SPCOM_GET_RMB_ERROR : ioctl_req := IOR SPCOM_IOCTL_MAGIC SPCOM_GET_RMB_CMD struct_spcom_rmb_error_info.
Definition SPCOM_IOCTL_STATE_POLL : ioctl_req := IOWR SPCOM_IOCTL_MAGIC SPCOM_IOCTL_STATE_POLL_CMD struct_spcom_ioctl_poll_event.
Definition SPCOM_IOCTL_SHARED_CH_CREATE : ioctl_req := IOW SPCOM_IOCTL_MAGIC SPCOM_IOCTL_SHARED_CH_CREATE_CMD struct_spcom_ioctl_ch.
Definition SPCOM_IOCTL_CH_REGISTER : ioctl_req := IOW SPCOM_IOCTL_MAGIC SPCOM_IOCTL_CH_REGISTER_CMD struct_spcom_ioctl_ch.
Definition SPCOM_IOCTL_CH_UNREGISTER : ioctl_req := IOW SPCOM_IOCTL_MAGIC SPCOM_IOCTL_CH_UNREGISTER_CMD struct_spcom_ioctl_ch.
Definition SPCOM_IOCTL_CH_IS_CONNECTED : ioctl_req := IOW SPCOM_IOCTL_MAGIC SPCOM_IOCTL_CH_IS_CONNECTED_CMD struct_spcom_ioctl_ch.
Definition SPCOM_IOCTL_SEND_MSG : ioctl_req := IOW SPCOM_IOCTL_MAGIC SPCOM_IOCTL_SEND_MSG_CMD struct_spcom_ioctl_message.
Definition SPCOM_IOCTL_SEND_MOD_MSG : ioctl_req := IOW SPCOM_IOCTL_MAGIC SPCOM_IOCTL_SEND_MOD_MSG_CMD struct_spcom_ioctl_modified_message.
Definition SPCOM_IOCTL_GET_NEXT_REQ_SZ : ioctl_req := IOWR SPCOM_IOCTL_MAGIC SPCOM_IOCTL_GET_NEXT_REQ_SZ_CMD struct_spcom_ioctl_next_request_size.
Definition SPCOM_IOCTL_GET_MSG : ioctl_req := IOWR SPCOM_IOCTL_MAGIC SPCOM_IOCTL_GET_MSG_CMD struct_spcom_ioctl_message.
Definition SPCOM_IOCTL_DMABUF_LOCK : ioctl_req := IOW SPCOM_IOCTL_MAGIC SPCOM_IOCTL_DMABUF_LOCK_CMD struct_spcom_ioctl_dmabuf_lock.
Definition SPCOM_IOCTL_DMABUF_UNLOCK : ioctl_req := IOW SPCOM_IOCTL_MAGIC SPCOM_IOCTL_DMABUF_UNLOCK_CMD struct_spcom_ioctl_dmabuf_lock.
Definition SPCOM_IOCTL_RESTART_SPU : ioctl_req := IO SPCOM_IOCTL_MAGIC SPCOM_IOCTL_RESTART_SPU_CMD.
Definition SPCOM_IOCTL_ENABLE_SSR : ioctl_req := IO SPCOM_IOCTL_MAGIC SPCOM_IOCTL_ENABLE_SSR_CMD.

Definition spcom_requests (a : abi) : list (string * ioctl_req) :=
  [("SPCOM_GET_IONFD", SPCOM_GET_IONFD);
   ("SPCOM_SET_IONFD", SPCOM_SET_IONFD);
   ("SPCOM_POLL_STATE", SPCOM_POLL_STATE);
   ("SPCOM_GET_RMB_ERROR", SPCOM_GET_RMB_ERROR);
   ("SPCOM_IOCTL_STATE_POLL", SPCOM_IOCTL_STATE_POLL);
   ("SPCOM_IOCTL_SHARED_CH_CREATE", SPCOM_IOCTL_SHARED_CH_CREATE);
   ("SPCOM_IOCTL_CH_REGISTER", SPCOM_IOCTL_CH_REGISTER);
   ("SPCOM_IOCTL_CH_UNREGISTER", SPCOM_IOCTL_CH_UNREGISTER);
   ("SPCOM_IOCTL_CH_IS_CONNECTED", SPCOM_IOCTL_CH_IS_CONNECTED);
   ("SPCOM_IOCTL_SEND_MSG", SPCOM_IOCTL_SEND_MSG);
   ("SPCOM_IOCTL_SEND_MOD_MSG", SPCOM_IOCTL_SEND_MOD_MSG);
   ("SPCOM_IOCTL_GET_NEXT_REQ_SZ", SPCOM_IOCTL_GET_NEXT_REQ_SZ);
   ("SPCOM_IOCTL_GET_MSG", SPCOM_IOCTL_GET_MSG);
   ("SPCOM_IOCTL_DMABUF_LOCK", SPCOM_IOCTL_DMABUF_LOCK);
   ("SPCOM_IOCTL_DMABUF_UNLOCK", SPCOM_IOCTL_DMABUF_UNLOCK);
   ("SPCOM_IOCTL_RESTART_SPU", SPCOM_IOCTL_RESTART_SPU);
   ("SPCOM_IOCTL_ENABLE_SSR", SPCOM_IOCTL_ENABLE_SSR)].

(** ** [linux/spss_utils.h] *)

Definition CMAC_SIZE_IN_WORDS : Z := 4.
Definition OLD_NUM_SPU_UEFI_APPS : Z := 3.
Definition SPSS_IOC_MAGIC : Z := chr "S".

Definition struct_spss_ioc_set_fw_cmac : ctype := packed_struct [
  ("cmac", CArray c_u32 CMAC_SIZE_IN_WORDS);
  ("apps_cmac", CArray (CArray c_u32 CMAC_SIZE_IN_WORDS) OLD_NUM_SPU_UEFI_APPS)].

Definition struct_spss_ioc_wait_for_event : ctype := packed_struct [
  ("event_id", c_u32); ("timeout_sec", c_u32); ("status", c_u32)].

Definition struct_spss_ioc_signal_event : ctype := packed_struct [
  ("event_id", c_u32); ("status", c_u32)].

Definition struct_spss_ioc_is_signaled : ctype := packed_struct [
  ("event_id", c_u32); ("status", c_u32)].

Definition struct_spss_ioc_set_fw_and_apps_cmac : ctype := packed_struct [
  ("cmac_buf_ptr", c_u64); ("cmac_buf_size", c_u32); ("num_of_cmacs", c_u32)].

Definition SPSS_IOC_SET_FW_CMAC : ioctl_req := IOWR SPSS_IOC_MAGIC 1 struct_spss_ioc_set_fw_cmac.
Definition SPSS_IOC_WAIT_FOR_EVENT : ioctl_req := IOWR SPSS_IOC_MAGIC 2 struct_spss_ioc_wait_for_event.
Definition SPSS_IOC_SIGNAL_EVENT : ioctl_req := IOWR SPSS_IOC_MAGIC 3 struct_spss_ioc_signal_event.
Definition SPSS_IOC_IS_EVENT_SIGNALED : ioctl_req := IOWR SPSS_IOC_MAGIC 4 struct_spss_ioc_is_signaled.
Definition SPSS_IOC_SET_SSR_STATE : ioctl_req := IOWR SPSS_IOC_MAGIC 5 c_u32.
Definition SPSS_IOC_SET_FW_AND_APPS_CMAC : ioctl_req := IOWR SPSS_IOC_MAGIC 6 struct_spss_ioc_set_fw_and_apps_cmac.

Definition spss_utils_requests (a : abi) : list (string * ioctl_req) :=
  [("SPSS_IOC_SET_FW_CMAC", SPSS_IOC_SET_FW_CMAC);
   ("SPSS_IOC_WAIT_FOR_EVENT", SPSS_IOC_WAIT_FOR_EVENT);
   ("SPSS_IOC_SIGNAL_EVENT", SPSS_IOC_SIGNAL_EVENT);
   ("SPSS_IOC_IS_EVENT_SIGNALED", SPSS_IOC_IS_EVENT_SIGNALED);
   ("SPSS_IOC_SET_SSR_STATE", SPSS_IOC_SET_SSR_STATE);
   ("SPSS_IOC_SET_FW_AND_APPS_CMAC", SPSS_IOC_SET_FW_AND_APPS_CMAC)].

(** ** [linux/qbt_handler.h] *)

Definition struct_qbt_wuhb_connected_status : ctype := struct [
  ("is_wuhb_connected", c_u8)].

Definition struct_qbt_key_event : ctype := struct [
  ("key", c_int); ("value", c_int)].

Definition struct_qbt_touch_config : ctype := struct [
  ("rad_filter_enable", c_u8); ("rad_x", c_int); ("rad_y", c_int)].

Definition struct_qbt_touch_fd_version : ctype := struct [
  ("version", c_int)].

Definition struct_qbt_touch_config_v2 : ctype := struct [
  ("version", struct_qbt_touch_fd_version); ("touch_fd_enable", c_u8);
  ("rad_filter_enable", c_u8); ("left", c_int); ("top", c_int); ("right", c_int);
  ("bottom", c_int); ("rad_x", c_int); ("rad_y", c_int)].

Definition struct_qbt_touch_config_v3 : ctype := struct [
  ("version", struct_qbt_touch_fd_version); ("touch_fd_enable", c_u8);
  ("rad_filter_enable", c_u8); ("left", c_int); ("top", c_int); ("right", c_int);
  ("bottom", c_int); ("rad_x", c_int); ("rad_y", c_int); ("intr2_enable", c_u8)].

Definition struct_qbt_intr2_test : ctype := struct [
  ("state", c_int)].

(** Every type of the file. *)
Definition uapiSecure_types (a : abi) : list (string * ctype) :=
  [("struct_qseecom_register_listener_req", struct_qseecom_register_listener_req);
   ("struct_qseecom_send_cmd_req", struct_qseecom_send_cmd_req);
   ("struct_qseecom_ion_fd_info", struct_qseecom_ion_fd_info);
   ("struct_qseecom_send_modfd_cmd_req", struct_qseecom_send_modfd_cmd_req);
   ("struct_qseecom_send_resp_req", struct_qseecom_send_resp_req);
   ("struct_qseecom_load_img_req", struct_qseecom_load_img_req);
   ("struct_qseecom_set_sb_mem_param_req", struct_qseecom_set_sb_mem_param_req);
   ("struct_qseecom_qseos_version_req", struct_qseecom_qseos_version_req);
   ("struct_qseecom_qseos_app_load_query", struct_qseecom_qseos_app_load_query);
   ("struct_qseecom_send_svc_cmd_req", struct_qseecom_send_svc_cmd_req);
   ("struct_qseecom_create_key_req", struct_qseecom_create_key_req);
   ("struct_qseecom_wipe_key_req", struct_qseecom_wipe_key_req);
   ("struct_qseecom_update_key_userinfo_req", struct_qseecom_update_key_userinfo_req);
   ("struct_qseecom_save_partition_hash_req", struct_qseecom_save_partition_hash_req);
   ("struct_qseecom_is_es_activated_req", struct_qseecom_is_es_activated_req);
   ("struct_qseecom_mdtp_cipher_dip_req", struct_qseecom_mdtp_cipher_dip_req);
   ("struct_qseecom_send_modfd_listener_resp", struct_qseecom_send_modfd_listener_resp);
   ("struct_qseecom_qteec_req", struct_qseecom_qteec_req);
   ("struct_qseecom_qteec_modfd_req", struct_qseecom_qteec_modfd_req);
   ("struct_qseecom_sg_entry", struct_qseecom_sg_entry);
   ("struct_qseecom_sg_entry_64bit", struct_qseecom_sg_entry_64bit);
   ("struct_qseecom_sg_list_buf_hdr_64bit", struct_qseecom_sg_list_buf_hdr_64bit);
   ("struct_qseecom_ce_pipe_entry", struct_qseecom_ce_pipe_entry);
   ("struct_qseecom_ice_data_t", struct_qseecom_ice_data_t);
   ("struct_qseecom_ce_info_req", struct_qseecom_ce_info_req);
   ("struct_qseecom_ice_key_data_t", struct_qseecom_ice_key_data_t);
   ("struct_buf_info", struct_buf_info);
   ("struct_qcedev_vbuf_info", struct_qcedev_vbuf_info);
   ("struct_qcedev_pmem_info", struct_qcedev_pmem_info);
   ("struct_qcedev_cipher_op_req", struct_qcedev_cipher_op_req);
   ("struct_qcedev_sha_op_req", struct_qcedev_sha_op_req);
   ("struct_pattern_info", struct_pattern_info);
   ("struct_qcedev_offload_cipher_op_req", struct_qcedev_offload_cipher_op_req);
   ("struct_qfips_verify_t", struct_qfips_verify_t);
   ("struct_qcedev_map_buf_req", struct_qcedev_map_buf_req);
   ("struct_qcedev_unmap_buf_req", struct_qcedev_unmap_buf_req);
   ("struct_qce_f8_req", struct_qce_f8_req);
   ("struct_qce_f8_multi_pkt_req", struct_qce_f8_multi_pkt_req);
   ("struct_cipher_iov", struct_cipher_iov);
   ("struct_qce_f8_variable_multi_pkt_req", struct_qce_f8_variable_multi_pkt_req);
   ("struct_qce_f9_req", struct_qce_f9_req);
   ("struct_smcinvoke_buf", struct_smcinvoke_buf);
   ("struct_smcinvoke_obj", struct_smcinvoke_obj);
   ("union_smcinvoke_arg", union_smcinvoke_arg);
   ("struct_smcinvoke_cmd_req", struct_smcinvoke_cmd_req);
   ("struct_smcinvoke_accept", struct_smcinvoke_accept);
   ("struct_smcinvoke_server", struct_smcinvoke_server);
   ("struct_spcom_user_command", struct_spcom_user_command);
   ("struct_spcom_send_command", struct_spcom_send_command);
   ("struct_spcom_user_create_channel_command", struct_spcom_user_create_channel_command);
   ("struct_spcom_user_restart_sp_command", struct_spcom_user_restart_sp_command);
   ("struct_spcom_ion_info", struct_spcom_ion_info);
   ("struct_spcom_ion_handle", struct_spcom_ion_handle);
   ("struct_spcom_rmb_error_info", struct_spcom_rmb_error_info);
   ("struct_spcom_user_send_modified_command", struct_spcom_user_send_modified_command);
   ("struct_spcom_poll_param", struct_spcom_poll_param);
   ("struct_spcom_dma_buf_info", struct_spcom_dma_buf_info);
   ("struct_spcom_dma_buf_info_table", struct_spcom_dma_buf_info_table);
   ("struct_spcom_ioctl_poll_event", struct_spcom_ioctl_poll_event);
   ("struct_spcom_ioctl_ch", struct_spcom_ioctl_ch);
   ("struct_spcom_ioctl_message", struct_spcom_ioctl_message);
   ("struct_spcom_ioctl_modified_message", struct_spcom_ioctl_modified_message);
   ("struct_spcom_ioctl_next_request_size", struct_spcom_ioctl_next_request_size);
   ("struct_spcom_ioctl_dmabuf_lock", struct_spcom_ioctl_dmabuf_lock);
   ("struct_spss_ioc_set_fw_cmac", struct_spss_ioc_set_fw_cmac);
   ("struct_spss_ioc_wait_for_event", struct_spss_ioc_wait_for_event);
   ("struct_spss_ioc_signal_event", struct_spss_ioc_signal_event);
   ("struct_spss_ioc_is_signaled", struct_spss_ioc_is_signaled);
   ("struct_spss_ioc_set_fw_and_apps_cmac", struct_spss_ioc_set_fw_and_apps_cmac);
   ("struct_qbt_wuhb_connected_status", struct_qbt_wuhb_connected_status);
   ("struct_qbt_key_event", struct_qbt_key_event);
   ("struct_qbt_touch_config", struct_qbt_touch_config);
   ("struct_qbt_touch_fd_version", struct_qbt_touch_fd_version);
   ("struct_qbt_touch_config_v2", struct_qbt_touch_config_v2);
   ("struct_qbt_touch_config_v3", struct_qbt_touch_config_v3);
   ("struct_qbt_intr2_test", struct_qbt_intr2_test)].
End Uapi.
