(* ===== verification/UapiMisc.v ===== *)
(** * UapiMisc: memory, virtual machines, power, storage

    ION and its successors, Gunyah virtual machines, open-channel SSDs, fuel gauge,
    subsystem statistics and the smaller devices. *)

From Stdlib Require Import Ascii.

From S2P Require Import Prelude CLayout Ioctl Uapi.

#[local] Open Scope string_scope.
#[local] Open Scope list_scope.
#[local] Open Scope Z_scope.

Section Uapi.
Context `{LinuxUapi}.

(** ** [linux/ion.h] *)

Definition MAX_HEAP_NAME : Z := 32.
Definition ION_IOC_MAGIC : Z := chr "I".

Definition struct_ion_allocation_data : ctype := struct [
  ("len", c_u64); ("heap_id_mask", c_u32); ("flags", c_u32); ("fd", c_u32); ("unused", c_u32)].

Definition struct_ion_heap_data : ctype := struct [
  ("name", CArray c_u8 MAX_HEAP_NAME); ("type", c_u32); ("heap_id", c_u32); ("reserved0", c_u32);
  ("reserved1", c_u32); ("reserved2", c_u32)].

Definition struct_ion_heap_query : ctype := struct [
  ("cnt", c_u32); ("reserved0", c_u32); ("heaps", c_u64); ("reserved1", c_u32);
  ("reserved2", c_u32)].

Definition ION_IOC_ALLOC : ioctl_req := IOWR ION_IOC_MAGIC 0 struct_ion_allocation_data.
Definition ION_IOC_HEAP_QUERY : ioctl_req := IOWR ION_IOC_MAGIC 8 struct_ion_heap_query.
Definition ION_IOC_ABI_VERSION : ioctl_req := IOR ION_IOC_MAGIC 9 c_u32.

Definition ion_requests (a : abi) : list (string * ioctl_req) :=
  [("ION_IOC_ALLOC", ION_IOC_ALLOC);
   ("ION_IOC_HEAP_QUERY", ION_IOC_HEAP_QUERY);
   ("ION_IOC_ABI_VERSION", ION_IOC_ABI_VERSION)].

(** ** [linux/msm_ion.h] *)

Definition ION_IOC_MSM_MAGIC : Z := chr "M".

Definition struct_ion_prefetch_regions : ctype := struct [
  ("sizes", c_u64); ("vmid", c_u32); ("nr_sizes", c_u32)].

Definition struct_ion_prefetch_data : ctype := struct [
  ("len", c_u64); ("regions", c_u64); ("heap_id", c_u32); ("nr_regions", c_u32)].

Definition ION_IOC_PREFETCH : ioctl_req := IOWR ION_IOC_MSM_MAGIC 3 struct_ion_prefetch_data.
Definition ION_IOC_DRAIN : ioctl_req := IOWR ION_IOC_MSM_MAGIC 4 struct_ion_prefetch_data.

Definition msm_ion_requests (a : abi) : list (string * ioctl_req) :=
  [("ION_IOC_PREFETCH", ION_IOC_PREFETCH);
   ("ION_IOC_DRAIN", ION_IOC_DRAIN)].

(** ** [linux/mem-buf.h] *)

Definition MEM_BUF_IOC_MAGIC : Z := chr "M".

Definition struct_acl_entry : ctype := struct [
  ("vmid", c_u32); ("perms", c_u32)].

Definition struct_mem_buf_ion_data : ctype := struct [
  ("heap_id", c_u32)].

Definition struct_mem_buf_dmaheap_data : ctype := struct [
  ("heap_name", c_u64)].

Definition struct_mem_buf_alloc_ioctl_arg : ctype := struct [
  ("size", c_u64); ("acl_list", c_u64); ("nr_acl_entries", c_u32); ("src_mem_type", c_u32);
  ("src_data", c_u64); ("dst_mem_type", c_u32); ("mem_buf_fd", c_u32); ("dst_data", c_u64);
  ("reserved0", c_u64); ("reserved1", c_u64); ("reserved2", c_u64)].

Definition struct_mem_buf_lend_ioctl_arg : ctype := struct [
  ("dma_buf_fd", c_u32); ("nr_acl_entries", c_u32); ("acl_list", c_u64);
  ("memparcel_hdl", c_u64); ("reserved0", c_u64); ("reserved1", c_u64); ("reserved2", c_u64)].

Definition struct_mem_buf_retrieve_ioctl_arg : ctype := struct [
  ("sender_vm_fd", c_u32); ("nr_acl_entries", c_u32); ("acl_list", c_u64);
  ("memparcel_hdl", c_u64); ("dma_buf_import_fd", c_u32); ("fd_flags", c_u32);
  ("reserved0", c_u64); ("reserved1", c_u64); ("reserved2", c_u64)].

Definition struct_mem_buf_reclaim_ioctl_arg : ctype := struct [
  ("memparcel_hdl", c_u64); ("dma_buf_fd", c_u32); ("reserved0", c_u32); ("reserved1", c_u64);
  ("reserved2", c_u64)].

Definition struct_mem_buf_share_ioctl_arg : ctype := struct [
  ("dma_buf_fd", c_u32); ("nr_acl_entries", c_u32); ("acl_list", c_u64);
  ("memparcel_hdl", c_u64); ("reserved0", c_u64); ("reserved1", c_u64); ("reserved2", c_u64)].

Definition struct_mem_buf_exclusive_owner_ioctl_arg : ctype := struct [
  ("dma_buf_fd", c_u32); ("is_exclusive_owner", c_u32)].

Definition MEM_BUF_IOC_ALLOC : ioctl_req := IOWR MEM_BUF_IOC_MAGIC 0 struct_mem_buf_alloc_ioctl_arg.
Definition MEM_BUF_IOC_LEND : ioctl_req := IOWR MEM_BUF_IOC_MAGIC 3 struct_mem_buf_lend_ioctl_arg.
Definition MEM_BUF_IOC_RETRIEVE : ioctl_req := IOWR MEM_BUF_IOC_MAGIC 4 struct_mem_buf_retrieve_ioctl_arg.
Definition MEM_BUF_IOC_RECLAIM : ioctl_req := IOWR MEM_BUF_IOC_MAGIC 3 struct_mem_buf_reclaim_ioctl_arg.
Definition MEM_BUF_IOC_SHARE : ioctl_req := IOWR MEM_BUF_IOC_MAGIC 6 struct_mem_buf_share_ioctl_arg.
Definition MEM_BUF_IOC_EXCLUSIVE_OWNER : ioctl_req := IOWR MEM_BUF_IOC_MAGIC 2 struct_mem_buf_exclusive_owner_ioctl_arg.

Definition mem_buf_requests (a : abi) : list (string * ioctl_req) :=
  [("MEM_BUF_IOC_ALLOC", MEM_BUF_IOC_ALLOC);
   ("MEM_BUF_IOC_LEND", MEM_BUF_IOC_LEND);
   ("MEM_BUF_IOC_RETRIEVE", MEM_BUF_IOC_RETRIEVE);
   ("MEM_BUF_IOC_RECLAIM", MEM_BUF_IOC_RECLAIM);
   ("MEM_BUF_IOC_SHARE", MEM_BUF_IOC_SHARE);
   ("MEM_BUF_IOC_EXCLUSIVE_OWNER", MEM_BUF_IOC_EXCLUSIVE_OWNER)].

(** ** [linux/gunyah/gh_vm.h] *)

Definition GH_VM_NAME_MAX : Z := 16.
Definition GH_VM_IOCTL_TYPE : Z := chr "g".

Definition struct_gh_vm_api_version : ctype := struct [
  ("major", c_u32); ("minor", c_u32)].

Definition struct_gh_vm_create : ctype := struct [
  ("type", c_u32); ("name", CArray c_u8 GH_VM_NAME_MAX)].

Definition struct_gh_vm_sec_exit_status : ctype := struct [
  ("reason", c_u32)].

Definition GH_VM_GET_API_VERSION : ioctl_req := IOR GH_VM_IOCTL_TYPE 0x1 struct_gh_vm_api_version.
Definition GH_VM_CREATE : ioctl_req := IOW GH_VM_IOCTL_TYPE 0x2 struct_gh_vm_create.
Definition GH_VM_SEC_START : ioctl_req := IO GH_VM_IOCTL_TYPE 0x3.
Definition GH_VM_SEC_STOP : ioctl_req := IOW GH_VM_IOCTL_TYPE 0x4 c_u32.
Definition GH_VM_SEC_WAIT_FOR_EXIT : ioctl_req := IOR GH_VM_IOCTL_TYPE 0x5 struct_gh_vm_sec_exit_status.
Definition GH_VM_SEC_SET_RESTART_LEVEL : ioctl_req := IOW GH_VM_IOCTL_TYPE 0x6 c_u32.

Definition gh_vm_requests (a : abi) : list (string * ioctl_req) :=
  [("GH_VM_GET_API_VERSION", GH_VM_GET_API_VERSION);
   ("GH_VM_CREATE", GH_VM_CREATE);
   ("GH_VM_SEC_START", GH_VM_SEC_START);
   ("GH_VM_SEC_STOP", GH_VM_SEC_STOP);
   ("GH_VM_SEC_WAIT_FOR_EXIT", GH_VM_SEC_WAIT_FOR_EXIT);
   ("GH_VM_SEC_SET_RESTART_LEVEL", GH_VM_SEC_SET_RESTART_LEVEL)].

(** ** [linux/gh_virtio_backend.h] *)

Definition VIRTIO_BE_IOC_MAGIC : Z := 0xBC.

Definition struct_virtio_ack_reset : ctype := struct [
  ("label", c_u32); ("reserved", c_u32)].

Definition struct_virtio_driver_features : ctype := struct [
  ("label", c_u32); ("reserved", c_u32); ("features_sel", c_u32); ("features", c_u32)].

Definition struct_virtio_queue_info : ctype := struct [
  ("label", c_u32); ("queue_sel", c_u32); ("queue_num", c_u32); ("queue_ready", c_u32);
  ("queue_desc", c_u64); ("queue_driver", c_u64); ("queue_device", c_u64)].

Definition struct_virtio_config_data : ctype := struct [
  ("label", c_u32); ("config_size", c_u32); ("config_data", c_u64)].

Definition struct_virtio_dev_features : ctype := struct [
  ("label", c_u32); ("reserved", c_u32); ("features_sel", c_u32); ("features", c_u32)].

Definition struct_virtio_queue_max : ctype := struct [
  ("label", c_u32); ("reserved", c_u32); ("queue_sel", c_u32); ("queue_num_max", c_u32)].

Definition struct_virtio_event : ctype := struct [
  ("label", c_u32); ("event", c_u32); ("event_data", c_u32); ("reserved", c_u32)].

Definition struct_virtio_eventfd : ctype := struct [
  ("label", c_u32); ("flags", c_u32); ("queue_num", c_u32); ("fd", c_int)].

Definition struct_virtio_irqfd : ctype := struct [
  ("label", c_u32); ("flags", c_u32); ("fd", c_int); ("reserved", c_u32)].

Definition GH_GET_SHARED_MEMORY_SIZE : ioctl_req := IOR VIRTIO_BE_IOC_MAGIC 1 c_u64.
Definition GH_IOEVENTFD : ioctl_req := IOW VIRTIO_BE_IOC_MAGIC 2 struct_virtio_eventfd.
Definition GH_IRQFD : ioctl_req := IOW VIRTIO_BE_IOC_MAGIC 3 struct_virtio_irqfd.
Definition GH_WAIT_FOR_EVENT : ioctl_req := IOWR VIRTIO_BE_IOC_MAGIC 4 struct_virtio_event.
Definition GH_SET_DEVICE_FEATURES : ioctl_req := IOW VIRTIO_BE_IOC_MAGIC 5 struct_virtio_dev_features.
Definition GH_SET_QUEUE_NUM_MAX : ioctl_req := IOW VIRTIO_BE_IOC_MAGIC 6 struct_virtio_queue_max.
Definition GH_SET_DEVICE_CONFIG_DATA : ioctl_req := IOW VIRTIO_BE_IOC_MAGIC 7 struct_virtio_config_data.
Definition GH_GET_DRIVER_CONFIG_DATA : ioctl_req := IOWR VIRTIO_BE_IOC_MAGIC 8 struct_virtio_config_data.
Definition GH_GET_QUEUE_INFO : ioctl_req := IOWR VIRTIO_BE_IOC_MAGIC 9 struct_virtio_queue_info.
Definition GH_GET_DRIVER_FEATURES : ioctl_req := IOWR VIRTIO_BE_IOC_MAGIC 10 struct_virtio_driver_features.
Definition GH_ACK_DRIVER_OK : ioctl_req := IOWR VIRTIO_BE_IOC_MAGIC 11 c_u32.
Definition GH_SET_APP_READY : ioctl_req := IO VIRTIO_BE_IOC_MAGIC 12.
Definition GH_ACK_RESET : ioctl_req := IOW VIRTIO_BE_IOC_MAGIC 13 struct_virtio_ack_reset.

Definition gh_virtio_backend_requests (a : abi) : list (string * ioctl_req) :=
  [("GH_GET_SHARED_MEMORY_SIZE", GH_GET_SHARED_MEMORY_SIZE);
   ("GH_IOEVENTFD", GH_IOEVENTFD);
   ("GH_IRQFD", GH_IRQFD);
   ("GH_WAIT_FOR_EVENT", GH_WAIT_FOR_EVENT);
   ("GH_SET_DEVICE_FEATURES", GH_SET_DEVICE_FEATURES);
   ("GH_SET_QUEUE_NUM_MAX", GH_SET_QUEUE_NUM_MAX);
   ("GH_SET_DEVICE_CONFIG_DATA", GH_SET_DEVICE_CONFIG_DATA);
   ("GH_GET_DRIVER_CONFIG_DATA", GH_GET_DRIVER_CONFIG_DATA);
   ("GH_GET_QUEUE_INFO", GH_GET_QUEUE_INFO);
   ("GH_GET_DRIVER_FEATURES", GH_GET_DRIVER_FEATURES);
   ("GH_ACK_DRIVER_OK", GH_ACK_DRIVER_OK);
   ("GH_SET_APP_READY", GH_SET_APP_READY);
   ("GH_ACK_RESET", GH_ACK_RESET)].

(** ** [linux/lightnvm.h] *)

Definition DISK_NAME_LEN : Z := 32.
Definition NVM_MMTYPE_LEN : Z := 8.
Definition NVM_TTYPE_MAX : Z := 63.
Definition NVM_TTYPE_NAME_MAX : Z := 48.
Definition NVM_IOCTL : Z := chr "L".
Definition NVM_INFO_CMD : Z := 32.
Definition NVM_GET_DEVICES_CMD : Z := 33.
Definition NVM_DEV_CREATE_CMD : Z := 34.
Definition NVM_DEV_REMOVE_CMD : Z := 35.
Definition NVM_DEV_INIT_CMD : Z := 36.
Definition NVM_DEV_FACTORY_CMD : Z := 37.
Definition NVM_DEV_VIO_USER_CMD : Z := 67.
Definition NVM_DEV_VIO_ADMIN_CMD : Z := 65.
Definition NVM_DEV_VIO_CMD : Z := 66.

Definition struct_nvm_ioctl_info_tgt : ctype := struct [
  ("version", CArray c_u32 3); ("reserved", c_u32); ("tgtname", CArray c_u8 NVM_TTYPE_NAME_MAX)].

Definition struct_nvm_ioctl_info : ctype := struct [
  ("version", CArray c_u32 3); ("tgtsize", c_u16); ("reserved16", c_u16);
  ("reserved", CArray c_u32 12); ("tgts", CArray struct_nvm_ioctl_info_tgt NVM_TTYPE_MAX)].

Definition struct_nvm_ioctl_device_info : ctype := struct [
  ("devname", CArray c_u8 DISK_NAME_LEN); ("bmname", CArray c_u8 NVM_TTYPE_NAME_MAX);
  ("bmversion", CArray c_u32 3); ("flags", c_u32); ("reserved", CArray c_u32 8)].

Definition struct_nvm_ioctl_get_devices : ctype := struct [
  ("nr_devices", c_u32); ("reserved", CArray c_u32 31);
  ("info", CArray struct_nvm_ioctl_device_info 31)].

Definition struct_nvm_ioctl_create_simple : ctype := struct [
  ("lun_begin", c_u32); ("lun_end", c_u32)].

Definition struct_nvm_ioctl_create_extended : ctype := struct [
  ("lun_begin", c_u16); ("lun_end", c_u16); ("op", c_u16); ("rsv", c_u16)].

Definition struct_nvm_ioctl_create_conf : ctype := struct [
  ("type", c_u32);
  ("", CUnion [
    ("s", struct_nvm_ioctl_create_simple); ("e", struct_nvm_ioctl_create_extended)])].

Definition struct_nvm_ioctl_create : ctype := struct [
  ("dev", CArray c_u8 DISK_NAME_LEN); ("tgttype", CArray c_u8 NVM_TTYPE_NAME_MAX);
  ("tgtname", CArray c_u8 DISK_NAME_LEN); ("flags", c_u32);
  ("conf", struct_nvm_ioctl_create_conf)].

Definition struct_nvm_ioctl_remove : ctype := struct [
  ("tgtname", CArray c_u8 DISK_NAME_LEN); ("flags", c_u32)].

Definition struct_nvm_ioctl_dev_init : ctype := struct [
  ("dev", CArray c_u8 DISK_NAME_LEN); ("mmtype", CArray c_u8 NVM_MMTYPE_LEN); ("flags", c_u32)].

Definition struct_nvm_ioctl_dev_factory : ctype := struct [
  ("dev", CArray c_u8 DISK_NAME_LEN); ("flags", c_u32)].

Definition struct_nvm_user_vio : ctype := struct [
  ("opcode", c_u8); ("flags", c_u8); ("control", c_u16); ("nppas", c_u16); ("rsvd", c_u16);
  ("metadata", c_u64); ("addr", c_u64); ("ppa_list", c_u64); ("metadata_len", c_u32);
  ("data_len", c_u32); ("status", c_u64); ("result", c_u32); ("rsvd3", CArray c_u32 3)].

Definition struct_nvm_passthru_vio : ctype := struct [
  ("opcode", c_u8); ("flags", c_u8); ("rsvd", CArray c_u8 2); ("nsid", c_u32); ("cdw2", c_u32);
  ("cdw3", c_u32); ("metadata", c_u64); ("addr", c_u64); ("metadata_len", c_u32);
  ("data_len", c_u32); ("ppa_list", c_u64); ("nppas", c_u16); ("control", c_u16);
  ("cdw13", c_u32); ("cdw14", c_u32); ("cdw15", c_u32); ("status", c_u64); ("result", c_u32);
  ("timeout_ms", c_u32)].

Definition NVM_INFO : ioctl_req := IOWR NVM_IOCTL NVM_INFO_CMD struct_nvm_ioctl_info.
Definition NVM_GET_DEVICES : ioctl_req := IOR NVM_IOCTL NVM_GET_DEVICES_CMD struct_nvm_ioctl_get_devices.
Definition NVM_DEV_CREATE : ioctl_req := IOW NVM_IOCTL NVM_DEV_CREATE_CMD struct_nvm_ioctl_create.
Definition NVM_DEV_REMOVE : ioctl_req := IOW NVM_IOCTL NVM_DEV_REMOVE_CMD struct_nvm_ioctl_remove.
Definition NVM_DEV_INIT : ioctl_req := IOW NVM_IOCTL NVM_DEV_INIT_CMD struct_nvm_ioctl_dev_init.
Definition NVM_DEV_FACTORY : ioctl_req := IOW NVM_IOCTL NVM_DEV_FACTORY_CMD struct_nvm_ioctl_dev_factory.
Definition NVME_NVM_IOCTL_IO_VIO : ioctl_req := IOWR NVM_IOCTL NVM_DEV_VIO_USER_CMD struct_nvm_passthru_vio.
Definition NVME_NVM_IOCTL_ADMIN_VIO : ioctl_req := IOWR NVM_IOCTL NVM_DEV_VIO_ADMIN_CMD struct_nvm_passthru_vio.
Definition NVME_NVM_IOCTL_SUBMIT_VIO : ioctl_req := IOWR NVM_IOCTL NVM_DEV_VIO_CMD struct_nvm_user_vio.

Definition lightnvm_requests (a : abi) : list (string * ioctl_req) :=
  [("NVM_INFO", NVM_INFO);
   ("NVM_GET_DEVICES", NVM_GET_DEVICES);
   ("NVM_DEV_CREATE", NVM_DEV_CREATE);
   ("NVM_DEV_REMOVE", NVM_DEV_REMOVE);
   ("NVM_DEV_INIT", NVM_DEV_INIT);
   ("NVM_DEV_FACTORY", NVM_DEV_FACTORY);
   ("NVME_NVM_IOCTL_IO_VIO", NVME_NVM_IOCTL_IO_VIO);
   ("NVME_NVM_IOCTL_ADMIN_VIO", NVME_NVM_IOCTL_ADMIN_VIO);
   ("NVME_NVM_IOCTL_SUBMIT_VIO", NVME_NVM_IOCTL_SUBMIT_VIO)].

(** ** [linux/helioscom_interface.h] *)

Definition EXCHANGE_CODE : Z := chr "V".
Definition HELIOSCOM_REG_READ : Z := 0.
Definition HELIOSCOM_AHB_READ : Z := 1.
Definition HELIOSCOM_AHB_WRITE : Z := 2.
Definition HELIOSCOM_SET_SPI_FREE : Z := 3.
Definition HELIOSCOM_SET_SPI_BUSY : Z := 4.
Definition HELIOSCOM_REG_WRITE : Z := 5.
Definition HELIOSCOM_SOFT_RESET : Z := 6.
Definition HELIOSCOM_TWM_EXIT : Z := 8.
Definition HELIOSCOM_HELIOS_APP_RUNNING : Z := 9.
Definition HELIOSCOM_MODEM_DOWN2_HELIOS : Z := 7.
Definition HELIOSCOM_HELIOS_LOAD : Z := 11.
Definition HELIOSCOM_HELIOS_UNLOAD : Z := 12.
Definition HELIOSCOM_ADSP_DOWN2_HELIOS : Z := 10.
Definition HELIOSCOM_DEVICE_STATE_TRANSITION : Z := 13.
Definition HELIOS_SEND_TIME_DATA : Z := 14.

Definition struct_helios_ui_data : ctype := struct [
  ("write", c_u64); ("result", c_u64); ("helios_address", c_u32); ("cmd", c_u32);
  ("num_of_words", c_u32); ("buffer", CPtr)].

Definition REG_READ : ioctl_req := IOWR EXCHANGE_CODE HELIOSCOM_REG_READ struct_helios_ui_data.
Definition AHB_READ : ioctl_req := IOWR EXCHANGE_CODE HELIOSCOM_AHB_READ struct_helios_ui_data.
Definition AHB_WRITE : ioctl_req := IOW EXCHANGE_CODE HELIOSCOM_AHB_WRITE struct_helios_ui_data.
Definition SET_SPI_FREE : ioctl_req := IOR EXCHANGE_CODE HELIOSCOM_SET_SPI_FREE struct_helios_ui_data.
Definition SET_SPI_BUSY : ioctl_req := IOR EXCHANGE_CODE HELIOSCOM_SET_SPI_BUSY struct_helios_ui_data.
Definition REG_WRITE : ioctl_req := IOWR EXCHANGE_CODE HELIOSCOM_REG_WRITE struct_helios_ui_data.
Definition HELIOS_SOFT_RESET : ioctl_req := IOWR EXCHANGE_CODE HELIOSCOM_SOFT_RESET struct_helios_ui_data.
Definition HELIOS_TWM_EXIT : ioctl_req := IOWR EXCHANGE_CODE HELIOSCOM_TWM_EXIT struct_helios_ui_data.
Definition HELIOS_APP_RUNNING : ioctl_req := IOWR EXCHANGE_CODE HELIOSCOM_HELIOS_APP_RUNNING struct_helios_ui_data.
Definition HELIOS_MODEM_DOWN2_HELIOS_DONE : ioctl_req := IOWR EXCHANGE_CODE HELIOSCOM_MODEM_DOWN2_HELIOS struct_helios_ui_data.
Definition HELIOS_LOAD : ioctl_req := IOWR EXCHANGE_CODE HELIOSCOM_HELIOS_LOAD struct_helios_ui_data.
Definition HELIOS_UNLOAD : ioctl_req := IOWR EXCHANGE_CODE HELIOSCOM_HELIOS_UNLOAD struct_helios_ui_data.
Definition HELIOS_ADSP_DOWN2_HELIOS_DONE : ioctl_req := IOWR EXCHANGE_CODE HELIOSCOM_ADSP_DOWN2_HELIOS struct_helios_ui_data.
Definition DEVICE_STATE_TRANSITION : ioctl_req := IOWR EXCHANGE_CODE HELIOSCOM_DEVICE_STATE_TRANSITION struct_helios_ui_data.
Definition SEND_TIME_DATA : ioctl_req := IOWR EXCHANGE_CODE HELIOS_SEND_TIME_DATA struct_helios_ui_data.

Definition helioscom_interface_requests (a : abi) : list (string * ioctl_req) :=
  [("REG_READ", REG_READ);
   ("AHB_READ", AHB_READ);
   ("AHB_WRITE", AHB_WRITE);
   ("SET_SPI_FREE", SET_SPI_FREE);
   ("SET_SPI_BUSY", SET_SPI_BUSY);
   ("REG_WRITE", REG_WRITE);
   ("HELIOS_SOFT_RESET", HELIOS_SOFT_RESET);
   ("HELIOS_TWM_EXIT", HELIOS_TWM_EXIT);
   ("HELIOS_APP_RUNNING", HELIOS_APP_RUNNING);
   ("HELIOS_MODEM_DOWN2_HELIOS_DONE", HELIOS_MODEM_DOWN2_HELIOS_DONE);
   ("HELIOS_LOAD", HELIOS_LOAD);
   ("HELIOS_UNLOAD", HELIOS_UNLOAD);
   ("HELIOS_ADSP_DOWN2_HELIOS_DONE", HELIOS_ADSP_DOWN2_HELIOS_DONE);
   ("DEVICE_STATE_TRANSITION", DEVICE_STATE_TRANSITION);
   ("SEND_TIME_DATA", SEND_TIME_DATA)].

(** ** [linux/msm_sysstats.h] *)

Definition TS_COMM_LEN : Z := 32.

Definition struct_sysstats_task : ctype := struct [
  ("anon_rss", c_u64); ("file_rss", c_u64); ("swap_rss", c_u64); ("shmem_rss", c_u64);
  ("unreclaimable", c_u64); ("utime", c_u64); ("stime", c_u64); ("cutime", c_u64);
  ("cstime", c_u64); ("oom_score", c_u16); ("__padding", c_u16); ("pid", c_u32); ("uid", c_u32);
  ("ppid", c_u32); ("name", CArray c_u8 TS_COMM_LEN); ("state", CArray c_u8 TS_COMM_LEN)].

Definition struct_sysstats_mem : ctype := struct [
  ("memtotal", c_u64); ("misc_reclaimable", c_u64); ("unreclaimable", c_u64);
  ("zram_compressed", c_u64); ("swap_used", c_u64); ("swap_total", c_u64); ("buffer", c_u64);
  ("vmalloc_total", c_u64); ("swapcache", c_u64); ("slab_reclaimable", c_u64);
  ("slab_unreclaimable", c_u64); ("free_cma", c_u64); ("file_mapped", c_u64);
  ("pagetable", c_u64); ("kernelstack", c_u64); ("shmem", c_u64); ("dma_nr_free", c_u64);
  ("dma_nr_active_anon", c_u64); ("dma_nr_inactive_anon", c_u64); ("dma_nr_active_file", c_u64);
  ("dma_nr_inactive_file", c_u64); ("normal_nr_free", c_u64); ("normal_nr_active_anon", c_u64);
  ("normal_nr_inactive_anon", c_u64); ("normal_nr_active_file", c_u64);
  ("normal_nr_inactive_file", c_u64); ("movable_nr_free", c_u64);
  ("movable_nr_active_anon", c_u64); ("movable_nr_inactive_anon", c_u64);
  ("movable_nr_active_file", c_u64); ("movable_nr_inactive_file", c_u64);
  ("highmem_nr_free", c_u64); ("highmem_nr_active_anon", c_u64);
  ("highmem_nr_inactive_anon", c_u64); ("highmem_nr_active_file", c_u64);
  ("highmem_nr_inactive_file", c_u64)].

Definition struct_sysstats_pid : ctype := struct [
  ("pid", c_u64)].

(** ** [linux/esoc_ctrl.h] *)

Definition ESOC_CODE : Z := 0xCC.

Definition struct_esoc_link_data : ctype := struct [
  ("prio", c_enum); ("link_id", c_u64)].

Definition ESOC_CMD_EXE : ioctl_req := IOW ESOC_CODE 1 c_u32.
Definition ESOC_WAIT_FOR_REQ : ioctl_req := IOR ESOC_CODE 2 c_u32.
Definition ESOC_NOTIFY : ioctl_req := IOW ESOC_CODE 3 c_u32.
Definition ESOC_GET_STATUS : ioctl_req := IOR ESOC_CODE 4 c_u32.
Definition ESOC_GET_ERR_FATAL : ioctl_req := IOR ESOC_CODE 5 c_u32.
Definition ESOC_WAIT_FOR_CRASH : ioctl_req := IOR ESOC_CODE 6 c_u32.
Definition ESOC_REG_REQ_ENG : ioctl_req := IO ESOC_CODE 7.
Definition ESOC_REG_CMD_ENG : ioctl_req := IO ESOC_CODE 8.
Definition ESOC_GET_LINK_ID : ioctl_req := IOWR ESOC_CODE 9 struct_esoc_link_data.
Definition ESOC_SET_BOOT_FAIL_ACT : ioctl_req := IOW ESOC_CODE 10 c_u32.
Definition ESOC_SET_N_PON_TRIES : ioctl_req := IOW ESOC_CODE 11 c_u32.

Definition esoc_ctrl_requests (a : abi) : list (string * ioctl_req) :=
  [("ESOC_CMD_EXE", ESOC_CMD_EXE);
   ("ESOC_WAIT_FOR_REQ", ESOC_WAIT_FOR_REQ);
   ("ESOC_NOTIFY", ESOC_NOTIFY);
   ("ESOC_GET_STATUS", ESOC_GET_STATUS);
   ("ESOC_GET_ERR_FATAL", ESOC_GET_ERR_FATAL);
   ("ESOC_WAIT_FOR_CRASH", ESOC_WAIT_FOR_CRASH);
   ("ESOC_REG_REQ_ENG", ESOC_REG_REQ_ENG);
   ("ESOC_REG_CMD_ENG", ESOC_REG_CMD_ENG);
   ("ESOC_GET_LINK_ID", ESOC_GET_LINK_ID);
   ("ESOC_SET_BOOT_FAIL_ACT", ESOC_SET_BOOT_FAIL_ACT);
   ("ESOC_SET_N_PON_TRIES", ESOC_SET_N_PON_TRIES)].

(** ** [linux/qg-profile.h] *)

Definition struct_battery_params : ctype := struct [
  ("soc", c_int); ("ocv_uv", c_int); ("fcc_mah", c_int); ("slope", c_int); ("var", c_int);
  ("batt_temp", c_int); ("table_index", c_int)].

Definition BPIOCXSOC : ioctl_req := IOWR (chr "B") 0x01 struct_battery_params.
Definition BPIOCXOCV : ioctl_req := IOWR (chr "B") 0x02 struct_battery_params.
Definition BPIOCXFCC : ioctl_req := IOWR (chr "B") 0x03 struct_battery_params.
Definition BPIOCXSLOPE : ioctl_req := IOWR (chr "B") 0x04 struct_battery_params.
Definition BPIOCXVAR : ioctl_req := IOWR (chr "B") 0x05 struct_battery_params.

Definition qg_profile_requests (a : abi) : list (string * ioctl_req) :=
  [("BPIOCXSOC", BPIOCXSOC);
   ("BPIOCXOCV", BPIOCXOCV);
   ("BPIOCXFCC", BPIOCXFCC);
   ("BPIOCXSLOPE", BPIOCXSLOPE);
   ("BPIOCXVAR", BPIOCXVAR)].

(** ** [linux/qg.h] *)

Definition MAX_FIFO_LENGTH : Z := 16.
Definition QG_MAX : Z := 18.

Definition struct_fifo_data : ctype := struct [
  ("v", c_u32); ("i", c_u32); ("count", c_u32); ("interval", c_u32)].

Definition struct_qg_param : ctype := struct [
  ("data", c_u32); ("valid", c_u8)].

Definition struct_qg_kernel_data : ctype := struct [
  ("seq_no", c_u32); ("fifo_time", c_u32); ("fifo_length", c_u32);
  ("fifo", CArray struct_fifo_data MAX_FIFO_LENGTH); ("param", CArray struct_qg_param QG_MAX)].

Definition struct_qg_user_data : ctype := struct [
  ("param", CArray struct_qg_param QG_MAX)].

(** ** [misc/adsp_sleepmon.h] *)

Definition ADSPSLEEPMON_IOCTL_AUDIO_NUM_RES : Z := 3.

Definition struct_adspsleepmon_ioctl_audio : ctype := struct [
  ("version", c_u32); ("command", c_u32);
  ("reserved", CArray c_u32 ADSPSLEEPMON_IOCTL_AUDIO_NUM_RES)].

Definition struct_adspsleepmon_ioctl_panic : ctype := struct [
  ("version", c_u32); ("command", c_u32)].

Definition ADSPSLEEPMON_IOCTL_AUDIO_ACTIVITY : ioctl_req := IOWR (chr "R") 1 struct_adspsleepmon_ioctl_audio.
Definition ADSPSLEEPMON_IOCTL_CONFIGURE_PANIC : ioctl_req := IOWR (chr "R") 2 struct_adspsleepmon_ioctl_panic.

Definition adsp_sleepmon_requests (a : abi) : list (string * ioctl_req) :=
  [("ADSPSLEEPMON_IOCTL_AUDIO_ACTIVITY", ADSPSLEEPMON_IOCTL_AUDIO_ACTIVITY);
   ("ADSPSLEEPMON_IOCTL_CONFIGURE_PANIC", ADSPSLEEPMON_IOCTL_CONFIGURE_PANIC)].

(** ** [linux/qcom_sync_file.h] *)

Definition SPEC_SYNC_MAGIC : Z := chr ">".

Definition struct_fence_bind_data : ctype := struct [
  ("out_bind_fd", c_u32); ("fds", c_u64)].

Definition struct_fence_create_data : ctype := struct [
  ("num_fences", c_u32); ("flags", c_u32); ("out_bind_fd", c_u32)].

Definition SPEC_SYNC_IOC_BIND : ioctl_req := IOWR SPEC_SYNC_MAGIC 3 struct_fence_bind_data.
Definition SPEC_SYNC_IOC_CREATE_FENCE : ioctl_req := IOWR SPEC_SYNC_MAGIC 4 struct_fence_create_data.
Definition SPEC_SYNC_IOC_GET_VER : ioctl_req := IOWR SPEC_SYNC_MAGIC 5 c_u64.

Definition qcom_sync_file_requests (a : abi) : list (string * ioctl_req) :=
  [("SPEC_SYNC_IOC_BIND", SPEC_SYNC_IOC_BIND);
   ("SPEC_SYNC_IOC_CREATE_FENCE", SPEC_SYNC_IOC_CREATE_FENCE);
   ("SPEC_SYNC_IOC_GET_VER", SPEC_SYNC_IOC_GET_VER)].

(** ** [linux/msm_dsps.h] *)

Definition DSPS_IOCTL_MAGIC : Z := chr "d".

Definition DSPS_IOCTL_ON : ioctl_req := IO DSPS_IOCTL_MAGIC 1.
Definition DSPS_IOCTL_OFF : ioctl_req := IO DSPS_IOCTL_MAGIC 2.
Definition DSPS_IOCTL_READ_SLOW_TIMER : ioctl_req := IOR DSPS_IOCTL_MAGIC 3 (pointer c_u32).
Definition DSPS_IOCTL_READ_FAST_TIMER : ioctl_req := IOR DSPS_IOCTL_MAGIC 4 (pointer c_u32).
Definition DSPS_IOCTL_RESET : ioctl_req := IO DSPS_IOCTL_MAGIC 5.

Definition msm_dsps_requests (a : abi) : list (string * ioctl_req) :=
  [("DSPS_IOCTL_ON", DSPS_IOCTL_ON);
   ("DSPS_IOCTL_OFF", DSPS_IOCTL_OFF);
   ("DSPS_IOCTL_READ_SLOW_TIMER", DSPS_IOCTL_READ_SLOW_TIMER);
   ("DSPS_IOCTL_READ_FAST_TIMER", DSPS_IOCTL_READ_FAST_TIMER);
   ("DSPS_IOCTL_RESET", DSPS_IOCTL_RESET)].

(** ** [linux/raw.h] *)

Definition struct_raw_config_request : ctype := struct [
  ("raw_minor", c_int); ("block_major", c_u64); ("block_minor", c_u64)].

Definition RAW_SETBIND : ioctl_req := IO 0xac 0.
Definition RAW_GETBIND : ioctl_req := IO 0xac 1.

Definition raw_requests (a : abi) : list (string * ioctl_req) :=
  [("RAW_SETBIND", RAW_SETBIND);
   ("RAW_GETBIND", RAW_GETBIND)].

(** ** [linux/qrng.h] *)

Definition QRNG_IOC_MAGIC : Z := 0x100.

Definition QRNG_IOCTL_RESET_BUS_BANDWIDTH : ioctl_req := IO QRNG_IOC_MAGIC 1.

Definition qrng_requests (a : abi) : list (string * ioctl_req) :=
  [("QRNG_IOCTL_RESET_BUS_BANDWIDTH", QRNG_IOCTL_RESET_BUS_BANDWIDTH)].

(** ** [linux/msm_geni_serial.h] *)

(** Every type of the file. *)
Definition uapiMisc_types (a : abi) : list (string * ctype) :=
  [("struct_ion_allocation_data", struct_ion_allocation_data);
   ("struct_ion_heap_data", struct_ion_heap_data);
   ("struct_ion_heap_query", struct_ion_heap_query);
   ("struct_ion_prefetch_regions", struct_ion_prefetch_regions);
   ("struct_ion_prefetch_data", struct_ion_prefetch_data);
   ("struct_acl_entry", struct_acl_entry);
   ("struct_mem_buf_ion_data", struct_mem_buf_ion_data);
   ("struct_mem_buf_dmaheap_data", struct_mem_buf_dmaheap_data);
   ("struct_mem_buf_alloc_ioctl_arg", struct_mem_buf_alloc_ioctl_arg);
   ("struct_mem_buf_lend_ioctl_arg", struct_mem_buf_lend_ioctl_arg);
   ("struct_mem_buf_retrieve_ioctl_arg", struct_mem_buf_retrieve_ioctl_arg);
   ("struct_mem_buf_reclaim_ioctl_arg", struct_mem_buf_reclaim_ioctl_arg);
   ("struct_mem_buf_share_ioctl_arg", struct_mem_buf_share_ioctl_arg);
   ("struct_mem_buf_exclusive_owner_ioctl_arg", struct_mem_buf_exclusive_owner_ioctl_arg);
   ("struct_gh_vm_api_version", struct_gh_vm_api_version);
   ("struct_gh_vm_create", struct_gh_vm_create);
   ("struct_gh_vm_sec_exit_status", struct_gh_vm_sec_exit_status);
   ("struct_virtio_ack_reset", struct_virtio_ack_reset);
   ("struct_virtio_driver_features", struct_virtio_driver_features);
   ("struct_virtio_queue_info", struct_virtio_queue_info);
   ("struct_virtio_config_data", struct_virtio_config_data);
   ("struct_virtio_dev_features", struct_virtio_dev_features);
   ("struct_virtio_queue_max", struct_virtio_queue_max);
   ("struct_virtio_event", struct_virtio_event);
   ("struct_virtio_eventfd", struct_virtio_eventfd);
   ("struct_virtio_irqfd", struct_virtio_irqfd);
   ("struct_nvm_ioctl_info_tgt", struct_nvm_ioctl_info_tgt);
   ("struct_nvm_ioctl_info", struct_nvm_ioctl_info);
   ("struct_nvm_ioctl_device_info", struct_nvm_ioctl_device_info);
   ("struct_nvm_ioctl_get_devices", struct_nvm_ioctl_get_devices);
   ("struct_nvm_ioctl_create_simple", struct_nvm_ioctl_create_simple);
   ("struct_nvm_ioctl_create_extended", struct_nvm_ioctl_create_extended);
   ("struct_nvm_ioctl_create_conf", struct_nvm_ioctl_create_conf);
   ("struct_nvm_ioctl_create", struct_nvm_ioctl_create);
   ("struct_nvm_ioctl_remove", struct_nvm_ioctl_remove);
   ("struct_nvm_ioctl_dev_init", struct_nvm_ioctl_dev_init);
   ("struct_nvm_ioctl_dev_factory", struct_nvm_ioctl_dev_factory);
   ("struct_nvm_user_vio", struct_nvm_user_vio);
   ("struct_nvm_passthru_vio", struct_nvm_passthru_vio);
   ("struct_helios_ui_data", struct_helios_ui_data);
   ("struct_sysstats_task", struct_sysstats_task);
   ("struct_sysstats_mem", struct_sysstats_mem);
   ("struct_sysstats_pid", struct_sysstats_pid);
   ("struct_esoc_link_data", struct_esoc_link_data);
   ("struct_battery_params", struct_battery_params);
   ("struct_fifo_data", struct_fifo_data);
   ("struct_qg_param", struct_qg_param);
   ("struct_qg_kernel_data", struct_qg_kernel_data);
   ("struct_qg_user_data", struct_qg_user_data);
   ("struct_adspsleepmon_ioctl_audio", struct_adspsleepmon_ioctl_audio);
   ("struct_adspsleepmon_ioctl_panic", struct_adspsleepmon_ioctl_panic);
   ("struct_fence_bind_data", struct_fence_bind_data);
   ("struct_fence_create_data", struct_fence_create_data);
   ("struct_raw_config_request", struct_raw_config_request)].
End Uapi.
