(* ===== verification/UapiTables.v ===== *)
(** * UapiTables: the requests and types of all interface headers

    [interfaces] lists, per header, the request macros with what they expand to;
    [interface_types] the types of the headers. *)

From S2P Require Import Prelude CLayout Ioctl Uapi UapiAlsa UapiCompress UapiAudio UapiTopology UapiDisplay UapiKgsl UapiQmi UapiNet UapiSecure UapiMisc IpaTypes IpaIoctl MiDisp.

#[local] Open Scope string_scope.
#[local] Open Scope list_scope.
#[local] Open Scope Z_scope.

Section Tables.
Context `{LinuxUapi}.

Definition interfaces (a : abi) : list (string * list (string * ioctl_req)) :=
  [("sound/asound.h", asound_requests a);
   ("sound/asequencer.h", asequencer_requests a);
   ("sound/asound_fm.h", asound_fm_requests a);
   ("sound/hdsp.h", hdsp_requests a);
   ("sound/hdspm.h", hdspm_requests a);
   ("sound/sb16_csp.h", sb16_csp_requests a);
   ("sound/sfnt_info.h", sfnt_info_requests a);
   ("sound/firewire.h", firewire_requests a);
   ("sound/usb_stream.h", usb_stream_requests a);
   ("sound/emu10k1.h", emu10k1_requests a);
   ("sound/compress_offload.h", compress_offload_requests a);
   ("linux/msm_audio.h", msm_audio_requests a);
   ("linux/msm_audio_aac.h", msm_audio_aac_requests a);
   ("linux/msm_audio_ac3.h", msm_audio_ac3_requests a);
   ("linux/msm_audio_alac.h", msm_audio_alac_requests a);
   ("linux/msm_audio_amrnb.h", msm_audio_amrnb_requests a);
   ("linux/msm_audio_amrwb.h", msm_audio_amrwb_requests a);
   ("linux/msm_audio_amrwbplus.h", msm_audio_amrwbplus_requests a);
   ("linux/msm_audio_ape.h", msm_audio_ape_requests a);
   ("linux/msm_audio_g711.h", msm_audio_g711_requests a);
   ("linux/msm_audio_g711_dec.h", msm_audio_g711_dec_requests a);
   ("linux/msm_audio_mvs.h", msm_audio_mvs_requests a);
   ("linux/msm_audio_qcp.h", msm_audio_qcp_requests a);
   ("linux/msm_audio_sbc.h", msm_audio_sbc_requests a);
   ("linux/msm_audio_voicememo.h", msm_audio_voicememo_requests a);
   ("linux/msm_audio_wma.h", msm_audio_wma_requests a);
   ("linux/msm_audio_wmapro.h", msm_audio_wmapro_requests a);
   ("linux/msm_audio_calibration.h", msm_audio_calibration_requests a);
   ("linux/avtimer.h", avtimer_requests a);
   ("sound/lsm_params.h", lsm_params_requests a);
   ("sound/devdep_params.h", devdep_params_requests a);
   ("sound/audio_slimslave.h", audio_slimslave_requests a);
   ("sound/msmcal-hwdep.h", msmcal_hwdep_requests a);
   ("sound/voice_params.h", voice_params_requests a);
   ("display/drm/sde_drm.h", sde_drm_requests a);
   ("display/media/msm_sde_rotator.h", msm_sde_rotator_requests a);
   ("media/synx.h", synx_requests a);
   ("linux/msm_kgsl.h", msm_kgsl_requests a);
   ("linux/rmnet_ipa_fd_ioctl.h", rmnet_ipa_fd_ioctl_requests a);
   ("misc/wigig_sensing_uapi.h", wigig_sensing_uapi_requests a);
   ("linux/nfc/nfcinfo.h", nfcinfo_requests a);
   ("linux/mhi.h", mhi_requests a);
   ("linux/usb/usb_ctrl_qti.h", usb_ctrl_qti_requests a);
   ("linux/qseecom.h", qseecom_requests a);
   ("linux/qcedev.h", qcedev_requests a);
   ("linux/qcota.h", qcota_requests a);
   ("linux/smcinvoke.h", smcinvoke_requests a);
   ("linux/spcom.h", spcom_requests a);
   ("linux/spss_utils.h", spss_utils_requests a);
   ("linux/ion.h", ion_requests a);
   ("linux/msm_ion.h", msm_ion_requests a);
   ("linux/mem-buf.h", mem_buf_requests a);
   ("linux/gunyah/gh_vm.h", gh_vm_requests a);
   ("linux/gh_virtio_backend.h", gh_virtio_backend_requests a);
   ("linux/lightnvm.h", lightnvm_requests a);
   ("linux/helioscom_interface.h", helioscom_interface_requests a);
   ("linux/esoc_ctrl.h", esoc_ctrl_requests a);
   ("linux/qg-profile.h", qg_profile_requests a);
   ("misc/adsp_sleepmon.h", adsp_sleepmon_requests a);
   ("linux/qcom_sync_file.h", qcom_sync_file_requests a);
   ("linux/msm_dsps.h", msm_dsps_requests a);
   ("linux/raw.h", raw_requests a);
   ("linux/qrng.h", qrng_requests a);
   ("linux/msm_ipa.h", msm_ipa_requests a);
   ("display/drm/mi_disp.h", mi_disp_requests a)].

Definition interface_types (a : abi) : list (string * ctype) :=
  uapiAlsa_types a ++ uapiCompress_types a ++ uapiAudio_types a ++ uapiTopology_types a ++ uapiDisplay_types a ++ uapiKgsl_types a ++ uapiQmi_types a ++ uapiNet_types a ++ uapiSecure_types a ++ uapiMisc_types a ++ ipaTypes_types ++ miDisp_types.

Definition all_requests (a : abi) : list (string * ioctl_req) := flat_map snd (interfaces a).
End Tables.
