(* ===== verification/UapiProps.v ===== *)
(** * UapiProps: what the request numbers of the tree's headers rely on

    Properties of the tables of [UapiTables]: which macros of a header share a
    request number, which requests differ between 32-bit and 64-bit processes,
    and which numbers do not fit their field. *)

From S2P Require Import Prelude CLayout Ioctl Uapi UapiTables UapiSecure UapiMisc UapiKgsl.

#[local] Open Scope string_scope.
#[local] Open Scope list_scope.
#[local] Open Scope Z_scope.

(** ** Requests that share a number *)

(** Macros of one header with the same direction, type and number.  The first
    group are versions of one request, told apart by their sizes. *)
Definition shared_numbers : list (list string) :=
  [["__SNDRV_PCM_IOCTL_SYNC_PTR"; "__SNDRV_PCM_IOCTL_SYNC_PTR64"; "SNDRV_PCM_IOCTL_SYNC_PTR"];
   ["SND_SET_DEVICE"; "CAD_SET_DEVICE"];
   ["SND_SET_VOLUME"; "CAD_SET_VOLUME"];
   ["SND_GET_NUM_ENDPOINTS"; "CAD_GET_NUM_ENDPOINTS"];
   ["SND_GET_ENDPOINT"; "CAD_GET_ENDPOINT"];
   ["SNDRV_CTL_IOCTL_HWDEP_CAL_TYPE"; "SNDRV_IOCTL_HWDEP_VAD_CAL_TYPE"];
   ["IOCTL_KGSL_CFF_USER_EVENT"; "IOCTL_KGSL_TIMESTAMP_EVENT_OLD"];
   ["IPA_IOC_NAT_DMA"; "IPA_IOC_TABLE_DMA_CMD"]].

Definition listed (l : list string) (n : string) : bool := existsb (String.eqb n) l.

Definition share_number (n n' : string) : bool :=
  String.eqb n n' || existsb (fun g => if listed g n then listed g n' else false) shared_numbers.

(** Requests whose number or type is wider than its field. *)
Definition overflowing : list string :=
  ["SPCOM_IOCTL_STATE_POLL"; "SPCOM_IOCTL_SHARED_CH_CREATE"; "SPCOM_IOCTL_CH_REGISTER";
   "SPCOM_IOCTL_CH_UNREGISTER"; "SPCOM_IOCTL_CH_IS_CONNECTED"; "SPCOM_IOCTL_SEND_MSG";
   "SPCOM_IOCTL_SEND_MOD_MSG"; "SPCOM_IOCTL_GET_NEXT_REQ_SZ"; "SPCOM_IOCTL_GET_MSG";
   "SPCOM_IOCTL_DMABUF_LOCK"; "SPCOM_IOCTL_DMABUF_UNLOCK"; "SPCOM_IOCTL_RESTART_SPU";
   "SPCOM_IOCTL_ENABLE_SSR"; "QRNG_IOCTL_RESET_BUS_BANDWIDTH"].

Section Tables.
Context `{LinuxUapi}.

(** The requests of one header. *)
Definition requests_of (a : abi) (h : string) : list (string * ioctl_req) :=
  from_option snd [] (List.find (fun p => String.eqb p.1 h) (interfaces a)).

Definition header_names : list string := map fst (interfaces LP64).

(** ** Checks of the tables *)

Definition key_eqb (k k' : Z * Z * Z * Z) : bool := bool_decide (k = k').

(** The keys of the requests of a header, by name. *)
Definition keys_of (a : abi) (h : string) : list (string * (Z * Z * Z * Z)) :=
  map (fun x => (x.1, request_key a x.2)) (requests_of a h).

(** Two requests have the same key exactly when they share a number and have
    the same size. *)
Definition pair_ok (x x' : string * (Z * Z * Z * Z)) : bool :=
  Bool.eqb (key_eqb x.2 x'.2) (if x.2.2 =? x'.2.2 then share_number x.1 x'.1 else false).

Definition pairs_ok (a a' : abi) : bool :=
  forallb (fun h => let ks' := keys_of a' h in
                    forallb (fun x => forallb (pair_ok x) ks') (keys_of a h))
    header_names.

Definition fits_ok (a : abi) : bool :=
  forallb (fun x => Bool.eqb (request_fits a x.2) (negb (listed overflowing x.1))) (all_requests a).

Lemma requests_of_header a h x :
  In x (requests_of a h) -> In h header_names /\ In x (all_requests a).
Proof using Type.
  unfold requests_of, all_requests, header_names. destruct (List.find _ _) as [[h' l]|] eqn:E; [|done].
  apply List.find_some in E as [Hin E]. apply String.eqb_eq in E as <-. intros Hx. split.
  - change (map fst (interfaces LP64)) with (map fst (interfaces a)). by apply (in_map fst) in Hin.
  - apply in_flat_map. by exists (h', l).
Qed.
End Tables.

Lemma pairs_checked a a' : arm_abi a -> arm_abi a' -> @pairs_ok linux_uapi a a' = true.
Proof. intros [-> | ->] [-> | ->]; by vm_compute. Qed.

Lemma fits_checked a : arm_abi a -> @fits_ok linux_uapi a = true.
Proof. intros [-> | ->]; by vm_compute. Qed.

Section Numbers.
Context `{LinuxUapi} {Huapi : LinuxUapiLaws}.

Lemma request_fits_unless a n r :
  arm_abi a -> In (n, r) (all_requests a) -> request_fits a r = negb (listed overflowing n).
Proof using Huapi.
  rewrite uapi_known. intros Ha Hx. pose proof (fits_checked a Ha) as Hc.
  unfold fits_ok in Hc. rewrite forallb_forall in Hc. apply Hc, eqb_prop in Hx. done.
Qed.

Lemma request_keys_shared a a' h n r n' r' :
  arm_abi a -> arm_abi a' -> In (n, r) (requests_of a h) -> In (n', r') (requests_of a' h) ->
  request_key a r = request_key a' r' <->
  share_number n n' = true /\ request_size a r = request_size a' r'.
Proof using Huapi.
  rewrite uapi_known. intros Ha Ha' Hx Hx'. pose proof (pairs_checked a a' Ha Ha') as Hc.
  unfold pairs_ok in Hc. rewrite forallb_forall in Hc.
  specialize (Hc h (proj1 (requests_of_header _ _ _ Hx))). cbv zeta in Hc. rewrite forallb_forall in Hc.
  specialize (Hc _ (in_map (fun x => (x.1, request_key a x.2)) _ _ Hx)). rewrite forallb_forall in Hc.
  specialize (Hc _ (in_map (fun x => (x.1, request_key a' x.2)) _ _ Hx')).
  apply eqb_prop in Hc. unfold key_eqb in Hc. cbn [fst snd] in Hc.
  cbn [request_key snd] in *. rewrite <- (bool_decide_eq_true (request_key a r = _)), Hc.
  destruct (Z.eqb_spec (request_size a r) (request_size a' r')); intuition congruence.
Qed.

Lemma request_numbers_shared `{IocEncoding} (Hlaws : IocLaws) a a' h n r n' r' :
  arm_abi a -> arm_abi a' -> In (n, r) (requests_of a h) -> In (n', r') (requests_of a' h) ->
  listed overflowing n = false -> listed overflowing n' = false ->
  request_number a r = request_number a' r' <->
  share_number n n' = true /\ request_size a r = request_size a' r'.
Proof using Huapi.
  intros Ha Ha' Hx Hx' Hn Hn'. rewrite request_number_eq.
  - by eapply request_keys_shared.
  - by rewrite (request_fits_unless a n r Ha (proj2 (requests_of_header _ _ _ Hx))), Hn.
  - by rewrite (request_fits_unless a' n' r' Ha' (proj2 (requests_of_header _ _ _ Hx'))), Hn'.
Qed.
End Numbers.

(** C13: The requests one header defines: for processes of any of the two Arm ABIs,
    two macros have the same number exactly when they are the same macro, or one
    of the listed groups contains both, and their parameters have the same size. In
    particular no other two requests of a driver can be confused. *)
Theorem interface_numbers `{IocEncoding} (Hlaws : IocLaws) `{LinuxUapi} (Huapi : LinuxUapiLaws)
    (a a' : abi) (h n n' : string) (r r' : ioctl_req) :
  arm_abi a -> arm_abi a' ->
  In (n, r) (requests_of a h) -> In (n', r') (requests_of a' h) ->
  listed overflowing n = false -> listed overflowing n' = false ->
  request_number a r = request_number a' r' <->
  share_number n n' = true /\ request_size a r = request_size a' r'.
Proof. by apply request_numbers_shared. Qed.

Lemma interface_numbers_witness :
  @request_number generic_encoding LP64 IOCTL_KGSL_CFF_USER_EVENT
  = @request_number generic_encoding LP64 (@IOCTL_KGSL_TIMESTAMP_EVENT_OLD linux_uapi)
  /\ @request_number generic_encoding ILP32 IOCTL_KGSL_CFF_USER_EVENT
  <> @request_number generic_encoding ILP32 (@IOCTL_KGSL_TIMESTAMP_EVENT_OLD linux_uapi).
Proof.
  pose proof (fun a => interface_numbers (H := generic_encoding) generic_laws linux_uapi_laws a a
    "linux/msm_kgsl.h" "IOCTL_KGSL_CFF_USER_EVENT" "IOCTL_KGSL_TIMESTAMP_EVENT_OLD"
    IOCTL_KGSL_CFF_USER_EVENT (@IOCTL_KGSL_TIMESTAMP_EVENT_OLD linux_uapi)) as Hi.
  split.
  - apply Hi; [by left|by left|entry 15%nat|entry 23%nat|done|done|by vm_compute].
  - intros E. apply Hi in E as [_ E];
      [discriminate E|by right|by right|entry 15%nat|entry 23%nat|done|done].
Defined.

(** ** 32-bit processes *)

Definition param_pointer_free (r : ioctl_req) : bool :=
  match req_param r with None => true | Some t => pointer_free t end.

Definition param_layout (a : abi) (r : ioctl_req) : list Z :=
  match req_param r with None => [] | Some t => deep_layout a t end.

(** Parameters with pointers or [long]s inside a union or an array that has
    the same size for both ABIs. *)
Definition same_size : list string :=
  ["__SNDRV_PCM_IOCTL_SYNC_PTR64"; "SNDRV_CTL_IOCTL_ELEM_INFO"; "SNDRV_CTL_IOCTL_ELEM_ADD";
   "SNDRV_CTL_IOCTL_ELEM_REPLACE"; "AUDIO_GET_EVENT"].

Definition compat_ok (x x' : string * ioctl_req) : bool :=
  if String.eqb x.1 x'.1
  then Bool.eqb (key_eqb (request_key LP64 x.2) (request_key ILP32 x'.2))
         (param_pointer_free x.2 || listed same_size x.1)
       && Bool.eqb (bool_decide (param_layout LP64 x.2 = param_layout ILP32 x'.2)) (param_pointer_free x.2)
  else true.

Lemma compat_checked :
  forallb (fun h => let xs' := @requests_of linux_uapi ILP32 h in
             forallb (fun x => forallb (compat_ok x) xs') (@requests_of linux_uapi LP64 h))
    (@header_names linux_uapi) = true.
Proof. by vm_compute. Qed.

Lemma request_keys_compat `{LinuxUapi} {Huapi : LinuxUapiLaws} h n r r' :
  In (n, r) (requests_of LP64 h) -> In (n, r') (requests_of ILP32 h) ->
  (request_key LP64 r = request_key ILP32 r' <-> param_pointer_free r = true \/ listed same_size n = true)
  /\ (param_layout LP64 r = param_layout ILP32 r' <-> param_pointer_free r = true).
Proof.
  rewrite uapi_known. intros Hx Hx'. pose proof compat_checked as Hc. rewrite forallb_forall in Hc.
  specialize (Hc h (proj1 (requests_of_header _ _ _ Hx))). cbv zeta in Hc. rewrite forallb_forall in Hc.
  specialize (Hc _ Hx). rewrite forallb_forall in Hc. specialize (Hc _ Hx').
  unfold compat_ok in Hc. cbn [fst snd] in Hc. rewrite String.eqb_refl in Hc.
  apply andb_true_iff in Hc as [Hk Hl]. apply eqb_prop in Hk, Hl.
  rewrite <- orb_true_iff, <- Hk, <- Hl. unfold key_eqb. split; symmetry; apply bool_decide_eq_true.
Qed.

Lemma request_numbers_compat `{IocEncoding} (Hlaws : IocLaws) `{LinuxUapi} (Huapi : LinuxUapiLaws) h n r r' :
  In (n, r) (requests_of LP64 h) -> In (n, r') (requests_of ILP32 h) ->
  listed overflowing n = false ->
  (request_number LP64 r = request_number ILP32 r' <-> param_pointer_free r = true \/ listed same_size n = true)
  /\ (param_layout LP64 r = param_layout ILP32 r' <-> param_pointer_free r = true).
Proof.
  intros Hx Hx' Hn. destruct (request_keys_compat h n r r' Hx Hx') as [Hk Hl]. split; [|done].
  rewrite request_number_eq; [done|..].
  - by rewrite (request_fits_unless LP64 n r (or_introl eq_refl) (proj2 (requests_of_header _ _ _ Hx))), Hn.
  - by rewrite (request_fits_unless ILP32 n r' (or_intror eq_refl) (proj2 (requests_of_header _ _ _ Hx'))), Hn.
Qed.

(** C14: What a 64-bit driver must translate for 32-bit processes: a request has the
    same number for both exactly when its parameter holds no pointer and no [long],
    five listed requests excepted; and whatever holds a pointer or a [long] has
    another layout for 32-bit processes. So the number tells the driver
    which layout it was given, except for the five. *)
Theorem interface_compat `{IocEncoding} (Hlaws : IocLaws) `{LinuxUapi} (Huapi : LinuxUapiLaws)
    (h n : string) (r r' : ioctl_req) :
  In (n, r) (requests_of LP64 h) -> In (n, r') (requests_of ILP32 h) ->
  listed overflowing n = false ->
  (request_number LP64 r = request_number ILP32 r'
   <-> param_pointer_free r = true \/ listed same_size n = true)
  /\ (param_layout LP64 r = param_layout ILP32 r' <-> param_pointer_free r = true).
Proof. by apply request_numbers_compat. Qed.

Lemma interface_compat_witness :
  @request_number generic_encoding LP64 IOCTL_KGSL_CFF_USER_EVENT
  = @request_number generic_encoding ILP32 IOCTL_KGSL_CFF_USER_EVENT
  /\ @request_number generic_encoding LP64 (@IOCTL_KGSL_TIMESTAMP_EVENT_OLD linux_uapi)
  <> @request_number generic_encoding ILP32 (@IOCTL_KGSL_TIMESTAMP_EVENT_OLD linux_uapi).
Proof.
  pose proof (fun n r => interface_compat (H := generic_encoding) generic_laws linux_uapi_laws
    "linux/msm_kgsl.h" n r r) as Hi.
  split.
  - apply (Hi "IOCTL_KGSL_CFF_USER_EVENT"); [entry 15%nat|entry 15%nat|done|by left].
  - intros E. apply (Hi "IOCTL_KGSL_TIMESTAMP_EVENT_OLD") in E as [E|E];
      [discriminate E|discriminate E|entry 23%nat|entry 23%nat|done].
Defined.

(** ** Numbers wider than their field *)

(** The request with its number cut to the eight bits of the field. *)
Definition cut_nr (r : ioctl_req) : ioctl_req :=
  IoctlReq (req_dir r) (req_type r) (req_nr r mod 256) (req_param r).

Notation generic_number := (@request_number generic_encoding).

Definition spcom_ok `{LinuxUapi} (a : abi) : bool :=
  let xs := requests_of a "linux/spcom.h" in
  forallb (fun x => (generic_number a x.2 =? generic_number a (cut_nr x.2))
                    && forallb (fun x' => Bool.eqb (generic_number a x.2 =? generic_number a x'.2)
                                            (String.eqb x.1 x'.1)) xs) xs.

Lemma spcom_checked a : arm_abi a -> @spcom_ok linux_uapi a = true.
Proof. intros [-> | ->]; by vm_compute. Qed.

(** The requests of the tree whose number or type is wider than the eight bits
    of its field are the ioctl-based requests of the secure processor, numbered
    from 1000 on, and the one of the random number generator, of type 0x100. The
    generic encoding does not check: it gives the former the number modulo 256,
    which still tells all requests of the header apart; the latter gets the
    type 0 and the size 1. *)
Theorem overflowing_numbers `{LinuxUapi} (Huapi : LinuxUapiLaws) (a : abi) (n : string) (r : ioctl_req) :
  arm_abi a -> In (n, r) (all_requests a) ->
  (request_fits a r = true <-> listed overflowing n = false)
  /\ (In (n, r) (requests_of a "linux/spcom.h") ->
      generic_number a r = generic_number a (cut_nr r)
      /\ forall n' r', In (n', r') (requests_of a "linux/spcom.h") ->
           generic_number a r = generic_number a r' <-> n = n')
  /\ generic_number a QRNG_IOCTL_RESET_BUS_BANDWIDTH = generic_ioc (generic_dir IOC_NONE) 0 1 1.
Proof.
  intros Ha Hx. split_and!; [|intros Hs|by vm_compute].
  - rewrite (request_fits_unless a n r Ha Hx). by destruct (listed overflowing n).
  - revert Hs. rewrite uapi_known. intros Hs. pose proof (spcom_checked a Ha) as Hc. unfold spcom_ok in Hc.
    cbv zeta in Hc. rewrite forallb_forall in Hc. apply Hc in Hs as [Hcut Hd]%andb_true_iff.
    split; [by apply Z.eqb_eq|]. intros n' r' Hs'. rewrite forallb_forall in Hd.
    apply Hd, eqb_prop in Hs'. cbn [fst snd] in Hs'.
    by rewrite <- Z.eqb_eq, Hs', String.eqb_eq.
Qed.

Lemma overflowing_numbers_witness :
  request_fits LP64 SPCOM_IOCTL_STATE_POLL = false
  /\ generic_number LP64 SPCOM_IOCTL_STATE_POLL
     = generic_number LP64 (IOWR SPCOM_IOCTL_MAGIC 232 struct_spcom_ioctl_poll_event).
Proof.
  assert (In ("SPCOM_IOCTL_STATE_POLL", SPCOM_IOCTL_STATE_POLL)
            (@requests_of linux_uapi LP64 "linux/spcom.h")) as Hs by entry 4%nat.
  destruct (overflowing_numbers linux_uapi_laws LP64 "SPCOM_IOCTL_STATE_POLL" SPCOM_IOCTL_STATE_POLL
    (or_introl eq_refl) (proj2 (requests_of_header _ _ _ Hs))) as (Hf & Hn & _).
  split; [apply not_true_iff_false; intros E; by apply Hf in E|exact (proj1 (Hn Hs))].
Defined.

(** ** The layout of the types *)

Lemma types_wf `{LinuxUapi} {Huapi : LinuxUapiLaws} a n t :
  arm_abi a -> In (n, t) (interface_types a) -> wf_type t = true.
Proof.
  rewrite uapi_known. intros Ha Hx.
  assert (forallb (fun x => wf_type x.2) (@interface_types linux_uapi a) = true) as Hc
    by (destruct Ha as [-> | ->]; by vm_compute).
  rewrite forallb_forall in Hc. exact (Hc _ Hx).
Qed.

(** The structures of the tree's headers, under both Arm ABIs: every member
    lies inside its structure, behind the members before it, at a multiple of its
    alignment (of one byte in a packed structure), with the size of its type; and
    without pointers and [long]s the layout is the same under both ABIs, down
    to the members of members. *)
Theorem interface_layouts `{LinuxUapi} (Huapi : LinuxUapiLaws) (a : abi) (n : string)
    (p : bool) (ms : list (string * ctype)) :
  arm_abi a -> In (n, CStruct p ms) (interface_types a) ->
  Forall (fun m => 0 <= m_off m /\ m_off m + m_size m <= sizeof a (CStruct p ms)) (place a p 0 ms)
  /\ ForallOrdPairs (fun m m' => m_off m + m_size m <= m_off m') (place a p 0 ms)
  /\ Forall2 (fun m m' => (member_align a p m.2 | m_off m') /\ m_size m' = sizeof a m.2 /\ m_name m' = m.1)
       ms (place a p 0 ms)
  /\ (forallb (fun m => pointer_free m.2) ms = true ->
      deep_layout LP64 (CStruct p ms) = deep_layout ILP32 (CStruct p ms)).
Proof.
  intros Ha Hx. pose proof (types_wf a n _ Ha Hx) as Hwf.
  assert (abi_ok a) as Hok by (destruct Ha as [-> | ->]; split; vm_compute; tauto).
  apply (Forall_wf wf_type) in Hwf. split_and!.
  - eapply Forall_impl; [exact (proj2 (place_inside a Hok p ms 0 Hwf))|].
    intros m [Hlo Hhi]. split; [exact Hlo|].
    exact (Z.le_trans _ _ _ Hhi (max_align_struct_end a p ms)).
  - by apply place_disjoint.
  - by apply place_aligned.
  - intros Hf. by apply deep_layout_pointer_free.
Qed.

Lemma interface_layouts_witness :
  deep_layout LP64 struct_kgsl_cff_user_event = deep_layout ILP32 struct_kgsl_cff_user_event.
Proof.
  pose proof (interface_layouts linux_uapi_laws LP64 "struct_kgsl_cff_user_event" false) as Hi.
  eapply Hi; [by left| |reflexivity]. entry 532%nat.
Defined.
