(* ===== verification/MiDispProps.v ===== *)
(** * MiDispProps: what the display feature interface promises

    Names against validity checks, the kernel's version against user space's,
    layouts of the request structures, and the request numbers, proved against
    the interface of [Ioctl]. *)

From S2P Require Import Prelude CLayout Ioctl Uapi MiDisp UapiTables UapiProps.

#[local] Open Scope string_scope.
#[local] Open Scope Z_scope.

(** ** Enumerators and names *)

#[export] Instance disp_display_type_laws : CEnumLaws disp_display_type.
Proof. solve_enum_laws. Qed.
#[export] Instance disp_feature_id_laws : CEnumLaws disp_feature_id.
Proof. solve_enum_laws. Qed.
#[export] Instance local_hbm_state_laws : CEnumLaws local_hbm_state.
Proof. solve_enum_laws. Qed.
#[export] Instance fingerprint_status_laws : CEnumLaws fingerprint_status.
Proof. solve_enum_laws. Qed.
#[export] Instance lcd_hbm_level_laws : CEnumLaws lcd_hbm_level.
Proof. solve_enum_laws. Qed.
#[export] Instance doze_brightness_state_laws : CEnumLaws doze_brightness_state.
Proof. solve_enum_laws. Qed.
#[export] Instance lhbm_target_brightness_state_laws : CEnumLaws lhbm_target_brightness_state.
Proof. solve_enum_laws. Qed.
#[export] Instance disp_event_type_laws : CEnumLaws disp_event_type.
Proof. solve_enum_laws. Qed.

(** The integers below [n] have names, all different; no other integer has one. *)
Definition names_exactly (name : Z -> string) (n : Z) : Prop :=
  (forall z, name z <> "Unknown" <-> 0 <= z < n)
  /\ (forall z z', 0 <= z < n -> 0 <= z' < n -> name z = name z' -> z = z').

Definition names_ok (name : Z -> string) (n : Z) : bool :=
  let names := map name (seqZ 0 n) in
  bool_decide (NoDup names) && negb (bool_decide ("Unknown" ∈ names)).

Lemma names_exactly_intro name n :
  names_ok name n = true -> (forall z, ~ 0 <= z < n -> name z = "Unknown") -> names_exactly name n.
Proof.
  unfold names_ok. intros [Hnd%bool_decide_eq_true Hu]%andb_true_iff Hout.
  apply negb_true_iff, bool_decide_eq_false in Hu.
  assert (forall z, 0 <= z < n -> map name (seqZ 0 n) !! Z.to_nat z = Some (name z)) as Hin.
  { intros z Hz. rewrite list_lookup_fmap, lookup_seqZ_lt by lia. cbn. f_equal. f_equal. lia. }
  split.
  - intros z. split.
    + intros Hne. destruct (decide (0 <= z < n)); [done|]. by destruct Hne; apply Hout.
    + intros Hz Heq. apply Hu. rewrite <- Heq. by eapply list_elem_of_lookup_2, Hin.
  - intros z z' Hz Hz' Heq. pose proof (Hin z Hz) as E. rewrite Heq in E.
    pose proof (NoDup_lookup _ _ _ _ Hnd E (Hin z' Hz')). lia.
Qed.

(** Outside the enumerators that have a [case], a name is "Unknown". *)
Ltac name_outside name :=
  let z := fresh "z" in
  let a := fresh "a" in
  let Hz := fresh "Hz" in
  let Hd := fresh "Hd" in
  intros z Hz; unfold name; destruct (enum_decode z) as [a|] eqn:Hd; [|reflexivity];
  apply enum_decode_Some in Hd; destruct a; try reflexivity; cbn in Hd; lia.

Ltac solve_names name := apply names_exactly_intro; [vm_compute; reflexivity|name_outside name].

Ltac split_cmp_eq :=
  repeat match goal with
         | |- context [?a <? ?b] => destruct (Z.ltb_spec a b); try lia
         | |- context [?a =? ?b] => destruct (Z.eqb_spec a b); try lia
         end.

(** The integers a check with bound [m] accepts are those of the other enumerators. *)
Lemma below_max {A} `{CEnumLaws A} (m : A) (z : Z) :
  forallb (fun a => bool_decide (enum_value a = enum_value m)
                    || (0 <=? enum_value a) && (enum_value a <? enum_value m)) enum_all
  && forallb (fun x => existsb (fun a => enum_value a =? x) enum_all) (seqZ 0 (enum_value m)) = true ->
  0 <= z ->
  z < enum_value m <-> exists a : A, a <> m /\ enum_value a = z.
Proof.
  intros [Hb Hd]%andb_true_iff Hz. rewrite forallb_forall in Hb, Hd. split.
  - intros Hlt. specialize (Hd z). rewrite existsb_exists in Hd.
    destruct Hd as (a & _ & Ha).
    { apply list_elem_of_In, elem_of_seqZ. lia. }
    exists a. apply Z.eqb_eq in Ha. split; [intros ->; lia|done].
  - intros (a & Hne & <-). specialize (Hb a (enum_complete a)).
    apply orb_true_iff in Hb as [Hb|Hb]; [|lia].
    apply bool_decide_eq_true in Hb. by apply enum_value_inj in Hb.
Qed.

(** C32: A name function returns a proper name exactly for the values of its
    enumeration below the "max" marker, and different values have different
    names; the validity checks accept, of the 32-bit values they are given,
    exactly those that have a name. *)
Theorem names_match_checks (z : Z) :
  0 <= z < 2 ^ 32 ->
  names_exactly get_disp_id_name 2 /\ names_exactly get_doze_brightness_name 3
  /\ names_exactly get_disp_event_type_name 13 /\ names_exactly get_disp_feature_id_name 35
  /\ names_exactly get_local_hbm_state_name 12 /\ names_exactly get_fingerprint_status_name 7
  /\ names_exactly get_lhbm_value_name 5
  /\ (is_support_disp_id z = 1 <-> get_disp_id_name z <> "Unknown")
  /\ (is_support_doze_brightness z = 1 <-> get_doze_brightness_name z <> "Unknown")
  /\ (is_support_disp_event_type z = 1 <-> get_disp_event_type_name z <> "Unknown")
  /\ (is_support_disp_feature_id z = 1 <-> get_disp_feature_id_name z <> "Unknown").
Proof.
  intros Hz.
  assert (names_exactly get_disp_id_name 2) as H1 by (solve_names get_disp_id_name).
  assert (names_exactly get_doze_brightness_name 3) as H2 by (solve_names get_doze_brightness_name).
  assert (names_exactly get_disp_event_type_name 13) as H3 by (solve_names get_disp_event_type_name).
  assert (names_exactly get_disp_feature_id_name 35) as H4 by (solve_names get_disp_feature_id_name).
  split_and!; try done.
  - solve_names get_local_hbm_state_name.
  - solve_names get_fingerprint_status_name.
  - solve_names get_lhbm_value_name.
  - rewrite (proj1 H1). unfold is_support_disp_id. cbn. destruct (Z.ltb_spec z 2); lia.
  - rewrite (proj1 H2). unfold is_support_doze_brightness. cbn. destruct (Z.ltb_spec z 3); lia.
  - rewrite (proj1 H3). unfold is_support_disp_event_type. cbn. destruct (Z.ltb_spec z 13); lia.
  - rewrite (proj1 H4). unfold is_support_disp_feature_id. cbn. destruct (Z.ltb_spec z 35); lia.
Qed.

Lemma names_match_checks_witness : get_disp_feature_id_name 34 <> "Unknown".
Proof.
  destruct (names_match_checks 34 ltac:(lia)) as (_&_&_&_&_&_&_&_&_&_&H). apply H. reflexivity.
Defined.

(** The checks accept exactly the enumerators before the marker. A
    negative C [int] passed to a check becomes a huge [__u32] and is refused;
    always-on-display brightness is a supported doze brightness other than the
    return to normal. *)
Theorem checks_accept_enumerators (z : Z) (n : Z) :
  0 <= z < 2 ^ 32 -> - 2 ^ 31 <= n < 0 ->
  (is_support_disp_id z = 1 <-> exists a, a <> MI_DISP_MAX /\ enum_value a = z)
  /\ (is_support_doze_brightness z = 1 <-> exists a, a <> DOZE_BRIGHTNESS_MAX /\ enum_value a = z)
  /\ (is_support_lcd_hbm_level z = 1 <-> exists a, a <> LCD_HBM_MAX /\ enum_value a = z)
  /\ (is_support_disp_event_type z = 1 <-> exists a, a <> MI_DISP_EVENT_MAX /\ enum_value a = z)
  /\ (is_support_disp_feature_id z = 1 <-> exists a, a <> DISP_FEATURE_MAX /\ enum_value a = z)
  /\ (is_aod_brightness z = 1 <-> is_support_doze_brightness z = 1 /\ z <> enum_value DOZE_TO_NORMAL)
  /\ Forall (fun check : Z -> Z => check (cast U32 n) = 0)
       [is_support_disp_id; is_support_doze_brightness; is_support_lcd_hbm_level;
        is_support_disp_event_type; is_support_disp_feature_id; is_aod_brightness].
Proof.
  intros Hz Hn.
  assert (cast U32 n = n + 2 ^ 32) as Hcast.
  { unfold cast. cbn [int_signed U32 int_width]. symmetry. apply Z.mod_unique with (-1); lia. }
  split_and!.
  - rewrite <- (below_max MI_DISP_MAX z) by (done || lia). unfold is_support_disp_id.
    destruct (Z.ltb_spec z (enum_value MI_DISP_MAX)); lia.
  - rewrite <- (below_max DOZE_BRIGHTNESS_MAX z) by (done || lia). unfold is_support_doze_brightness.
    destruct (Z.ltb_spec z (enum_value DOZE_BRIGHTNESS_MAX)); lia.
  - rewrite <- (below_max LCD_HBM_MAX z) by (done || lia). unfold is_support_lcd_hbm_level.
    destruct (Z.ltb_spec z (enum_value LCD_HBM_MAX)); lia.
  - rewrite <- (below_max MI_DISP_EVENT_MAX z) by (done || lia). unfold is_support_disp_event_type.
    destruct (Z.ltb_spec z (enum_value MI_DISP_EVENT_MAX)); lia.
  - rewrite <- (below_max DISP_FEATURE_MAX z) by (done || lia). unfold is_support_disp_feature_id.
    destruct (Z.ltb_spec z (enum_value DISP_FEATURE_MAX)); lia.
  - unfold is_aod_brightness, is_support_doze_brightness. cbn [enum_value doze_brightness_state_enum].
    destruct (Z.ltb_spec z 3), (Z.eqb_spec 1 z), (Z.eqb_spec z 2); cbn [orb]; lia.
  - rewrite Hcast. norm_pow.
    repeat (constructor; [unfold is_support_disp_id, is_support_doze_brightness, is_support_lcd_hbm_level,
      is_support_disp_event_type, is_support_disp_feature_id, is_aod_brightness;
      cbn [enum_value disp_display_type_enum doze_brightness_state_enum lcd_hbm_level_enum
           disp_event_type_enum disp_feature_id_enum]; split_cmp_eq; done|]). constructor.
Qed.

Lemma checks_accept_enumerators_witness :
  (exists a, a <> DISP_FEATURE_MAX /\ enum_value a = 34) /\ is_support_disp_id (cast U32 (-1)) = 0.
Proof.
  destruct (checks_accept_enumerators 34 (-1) ltac:(lia) ltac:(lia)) as (_&_&_&_&H&_&Hall).
  split; [exact (proj1 H ltac:(reflexivity))|exact (Forall_inv Hall)].
Defined.

(** The driver and user space agree: every check and every name table has
    the same result in the kernel's and in the user-space version of the
    header, whatever the value. *)
Theorem kernel_user_agree (z : Z) :
  is_support_disp_id z = isSupportDispId z
  /\ get_disp_id_name z = getDispIdName z
  /\ is_support_doze_brightness z = isSupportDozeBrightness z
  /\ is_aod_brightness z = isAodBrightness z
  /\ get_doze_brightness_name z = getDozeBrightnessName z
  /\ is_support_lcd_hbm_level z = isSupportLcdHbmLevel z
  /\ is_support_disp_event_type z = isSupportDispEventType z
  /\ get_disp_event_type_name z = getDispEventTypeName z
  /\ is_support_disp_feature_id z = isSupportDispFeatureId z
  /\ get_local_hbm_state_name z = getLocalHbmStateName z
  /\ get_fingerprint_status_name z = getFingerprintStatusName z
  /\ get_disp_feature_id_name z = getDispFeatureIdName z
  /\ get_lhbm_value_name z = getLhbmValueName z.
Proof. split_and!; reflexivity. Qed.

(** ** Request numbers *)

(** The requests whose parameter holds pointers. *)
Definition has_pointers (r : ioctl_req) : bool := negb (param_pointer_free r).

Notation mi_disp_header := "display/drm/mi_disp.h".

Section Requests.
Context `{IocEncoding} {Hlaws : IocLaws}.

(** No request has a number wider than its field, or shares one. *)
Lemma mi_disp_checked :
  forallb (fun x => negb (listed overflowing x.1)
                    && forallb (fun x' => Bool.eqb (share_number x.1 x'.1) (String.eqb x.1 x'.1)) (mi_disp_requests LP64)
                    && negb (listed same_size x.1)) (mi_disp_requests LP64) = true.
Proof using Type. by vm_compute. Qed.

Lemma mi_disp_facts n r n' r' :
  In (n, r) (mi_disp_requests LP64) -> In (n', r') (mi_disp_requests LP64) ->
  listed overflowing n = false /\ listed same_size n = false /\ (share_number n n' = true -> n = n').
Proof using Type.
  pose proof mi_disp_checked as Hc. rewrite forallb_forall in Hc. intros Hx Hx'. specialize (Hc _ Hx).
  rewrite !andb_true_iff, !negb_true_iff, forallb_forall in Hc. destruct Hc as [[Ho Hs] Hz]. split_and!; [done..|].
  specialize (Hs _ Hx'). apply eqb_prop in Hs. cbn [fst] in Hs. rewrite Hs. apply String.eqb_eq.
Qed.

Lemma mi_disp_unique n r r' : In (n, r) (mi_disp_requests LP64) -> In (n, r') (mi_disp_requests LP64) -> r = r'.
Proof using Type.
  intros Hx Hx'.
  assert (NoDup (mi_disp_requests LP64).*1) as Hn by (apply (bool_decide_eq_true_1 (NoDup _)); by vm_compute).
  apply list_elem_of_In in Hx, Hx'.
  apply (elem_of_list_to_map_1 (M := gmap string) _ n _ Hn) in Hx, Hx'. congruence.
Qed.

Lemma mi_disp_number_inj a a' n r n' r' :
  arm_abi a -> arm_abi a' -> In (n, r) (mi_disp_requests a) -> In (n', r') (mi_disp_requests a') ->
  request_number a r = request_number a' r' -> n = n' /\ request_size a r = request_size a' r'.
Proof using Hlaws.
  intros Ha Ha' Hx Hx' E.
  pose proof (mi_disp_facts n r n' r' Hx Hx') as (Ho & _ & Hs).
  pose proof (mi_disp_facts n' r' n r Hx' Hx) as (Ho' & _ & _).
  apply (request_numbers_shared (Huapi := linux_uapi_laws) Hlaws a a' mi_disp_header n r n' r') in E as [? ?]; auto.
Qed.
End Requests.

(** The sixteen requests have different numbers, also when one is issued by
    a 32-bit and the other by a 64-bit process: no request can be taken for
    another. *)
Theorem ioctl_numbers_distinct `{IocEncoding} (Hlaws : IocLaws) (a a' : abi) (n n' : string) (r r' : ioctl_req) :
  arm_abi a -> arm_abi a' -> In (n, r) (mi_disp_requests a) -> In (n', r') (mi_disp_requests a') ->
  request_number a r = request_number a' r' -> n = n'.
Proof. intros Ha Ha' Hx Hx' E. by apply (mi_disp_number_inj a a' n r n' r'). Qed.

Lemma ioctl_numbers_distinct_witness :
  @request_number generic_encoding LP64 MI_DISP_IOCTL_GET_FPS <>
  @request_number generic_encoding ILP32 MI_DISP_IOCTL_VERSION.
Proof.
  intros E. apply (ioctl_numbers_distinct (H := generic_encoding) generic_laws LP64 ILP32
    "MI_DISP_IOCTL_GET_FPS" "MI_DISP_IOCTL_VERSION") in E; [discriminate E|by left|by right|entry 6%nat|entry 0%nat].
Defined.

(** A request has one number and one parameter layout for 32-bit and for
    64-bit processes exactly when its parameter holds no pointers; the three
    that do (panel info, white point and manufacturer info) are issued by a
    32-bit process under a number the 64-bit driver does not know. *)
Theorem ioctl_compat `{IocEncoding} (Hlaws : IocLaws) (n : string) (r : ioctl_req) :
  In (n, r) (mi_disp_requests LP64) ->
  (request_number ILP32 r = request_number LP64 r <-> has_pointers r = false)
  /\ (has_pointers r = false -> param_layout ILP32 r = param_layout LP64 r)
  /\ (has_pointers r = true <->
      In n ["MI_DISP_IOCTL_GET_PANEL_INFO"; "MI_DISP_IOCTL_GET_WP_INFO"; "MI_DISP_IOCTL_GET_MANUFACTURER_INFO"])
  /\ (has_pointers r = true -> forall n' r', In (n', r') (mi_disp_requests LP64) ->
        request_number LP64 r' <> request_number ILP32 r).
Proof.
  intros Hx. destruct (mi_disp_facts n r n r Hx Hx) as (Ho & Hs & _).
  destruct (request_numbers_compat Hlaws linux_uapi_laws mi_disp_header n r r Hx Hx Ho) as [Hk Hl].
  assert (request_number ILP32 r = request_number LP64 r <-> has_pointers r = false) as Hnum.
  { unfold has_pointers. rewrite negb_false_iff. rewrite Hs in Hk. split.
    - intros E. symmetry in E. apply Hk in E as [E|E]; [done|discriminate E].
    - intros Hp. symmetry. apply Hk. by left. }
  split_and!; [done| | |].
  - unfold has_pointers. rewrite negb_false_iff. intros Hp. symmetry. by apply Hl.
  - clear - Hx. by repeat destruct Hx as [[= <- <-]|Hx]; [vm_compute; intuition congruence..|].
  - intros Hp n' r' Hx' E.
    assert (r' = r) as ->.
    { destruct (mi_disp_number_inj LP64 ILP32 n' r' n r (or_introl eq_refl) (or_intror eq_refl) Hx' Hx E) as [-> _].
      by apply (mi_disp_unique n). }
    symmetry in E. apply Hnum in E. congruence.
Qed.

(** ** Layouts and versions *)

(** Every structure of the interface. *)
Definition disp_types : list ctype :=
  [struct_disp_base; struct_disp_version; struct_disp_feature_req; struct_disp_doze_brightness_req;
   struct_disp_local_hbm_req; struct_disp_brightness_req; struct_disp_panel_info; struct_disp_wp_info;
   struct_disp_manufacturer_info_req; struct_disp_fps_info; struct_disp_event_req; struct_disp_event;
   struct_disp_event_resp; struct_disp_dsi_cmd_req].

(** Every request parameter but the event response begins with a [disp_base]. *)
Definition begins_with_base (a : abi) (t : ctype) : bool :=
  match t with
  | CStruct false (("base", b) :: _) => bool_decide (layout a b = layout a struct_disp_base)
  | _ => false
  end.

(** Every request carries the flag and the display it is for at offset 0;
    the address of a user buffer lies at an 8-byte boundary under both ABIs,
    after four bytes of padding the structures do not name; and the payload of
    an event response begins right after its 12-byte header. *)
Theorem request_layout (a : abi) (n : string) (r : ioctl_req) (t : ctype) :
  arm_abi a -> In (n, r) (mi_disp_requests a) -> req_param r = Some t ->
  begins_with_base a t = true
  /\ offsetof a struct_disp_feature_req "tx_ptr" = Some 24
  /\ offsetof a struct_disp_feature_req "rx_ptr" = Some 40
  /\ sizeof a struct_disp_feature_req = sum_sizes a [("base", struct_disp_base); ("fields", CArray c_u32 4);
                                                     ("ptrs", CArray c_u64 2)] + 8
  /\ offsetof a struct_disp_dsi_cmd_req "tx_ptr" = Some 16
  /\ offsetof a struct_disp_dsi_cmd_req "rx_ptr" = Some 32
  /\ offsetof a struct_disp_event_resp "data" = Some (sizeof a struct_disp_event)
  /\ forallb wf_type disp_types = true.
Proof.
  intros Ha Hx Ht. split.
  - assert (forallb (fun x => from_option (begins_with_base a) true (req_param x.2)) (mi_disp_requests a) = true) as Hc
      by (destruct Ha as [-> | ->]; by vm_compute).
    rewrite forallb_forall in Hc. specialize (Hc _ Hx). cbn [snd] in Hc. by rewrite Ht in Hc.
  - destruct Ha as [-> | ->]; vm_compute; split_and!; reflexivity.
Qed.

Lemma request_layout_witness : offsetof ILP32 struct_disp_feature_req "rx_ptr" = Some 40.
Proof.
  exact (proj1 (proj2 (proj2 (request_layout ILP32 "MI_DISP_IOCTL_VERSION" _ struct_disp_version
    ltac:(by right) ltac:(entry 0%nat) eq_refl)))).
Defined.

(** The version word keeps the low bytes of the major and the minor number
    in its second and first byte; this header's is 1.0. *)
Theorem version_roundtrip (major minor : Z) :
  0 <= major < 2 ^ 31 -> 0 <= minor < 2 ^ 31 ->
  let v := mi_disp_version major minor in
  v / 256 = major mod 256 /\ v mod 256 = minor mod 256 /\ MI_DISP_FEATURE_VERSION = 256.
Proof.
  intros Hj Hn v. subst v. unfold mi_disp_version, c_and, c_or, c_shl.
  change 0xFF with (Z.ones 8). rewrite !Z.land_ones by lia. norm_pow.
  pose proof (Z.mod_pos_bound major 256). pose proof (Z.mod_pos_bound minor 256).
  rewrite (cast_S32_id (major mod 256)), (cast_S32_id (minor mod 256)) by lia.
  rewrite (cast_S32_id (Z.shiftl _ _)) by (rewrite Z.shiftl_mul_pow2 by lia; lia).
  rewrite Bits.lor_shiftl_add by lia. norm_pow. rewrite cast_S32_id by lia.
  split_and!; [zlia|zlia|reflexivity].
Qed.

Lemma version_roundtrip_witness : mi_disp_version 3 7 mod 256 = 7.
Proof. exact (proj1 (proj2 (version_roundtrip 3 7 ltac:(lia) ltac:(lia)))). Defined.
