(* ===== verification/IpaIoctlProps.v ===== *)
(** * IpaIoctlProps: what the requests of the IPA driver rely on

    Distinct request numbers, what 32-bit processes need translated by a
    64-bit driver, and the buffers of records that follow a request's header. *)

From S2P Require Import Prelude Align CLayout Ioctl Uapi IpaTypes IpaIoctl UapiTables UapiProps.

#[local] Open Scope string_scope.
#[local] Open Scope list_scope.
#[local] Open Scope Z_scope.

(** ** The requests as those of their header *)

Notation ipa_header := "linux/msm_ipa.h".

Lemma ipa_requests_of `{LinuxUapi} a n r :
  In (n, r) ipa_requests -> In (n, request r) (requests_of a ipa_header).
Proof. intros Hx. exact (in_map (fun x => (x.1, request x.2)) ipa_requests (n, r) Hx). Qed.

(** A fact of every request, by evaluation. *)
Lemma ipa_requests_checked `{LinuxUapi} {Huapi : LinuxUapiLaws} (f : string * ipa_req -> bool) :
  forallb f (@ipa_requests linux_uapi) = true -> forall x, In x ipa_requests -> f x = true.
Proof. rewrite (@uapi_known _ Huapi). apply forallb_forall. Qed.

Lemma ipa_pairs_checked `{LinuxUapi} {Huapi : LinuxUapiLaws} (f : string * ipa_req -> string * ipa_req -> bool) :
  forallb (fun x => forallb (f x) (@ipa_requests linux_uapi)) (@ipa_requests linux_uapi) = true ->
  forall x x', In x ipa_requests -> In x' ipa_requests -> f x x' = true.
Proof.
  rewrite (@uapi_known _ Huapi). intros Hf x x' Hx Hx'. rewrite forallb_forall in Hf.
  specialize (Hf x Hx). rewrite forallb_forall in Hf. exact (Hf x' Hx').
Qed.

Lemma share_number_refl n : share_number n n = true.
Proof. unfold share_number. by rewrite String.eqb_refl. Qed.

(** The requests that map tables into memory: their parameters hold a [size_t]
    and an offset. *)
Definition maps_memory (n : string) : bool :=
  listed ["IPA_IOC_ALLOC_NAT_MEM"; "IPA_IOC_ALLOC_NAT_TABLE"; "IPA_IOC_ALLOC_IPV6CT_TABLE"] n.

Section Requests.
Context `{LinuxUapi} {Huapi : LinuxUapiLaws}.

Lemma ipa_not_overflowing n r : In (n, r) ipa_requests -> listed overflowing n = false.
Proof using Huapi.
  intros Hx. apply negb_true_iff.
  exact (ipa_requests_checked (fun x => negb (listed overflowing x.1)) ltac:(by vm_compute) _ Hx).
Qed.

(** Only a pointer in place of the parameter makes its size depend on the ABI. *)
Lemma ipa_param_size n r :
  In (n, r) ipa_requests ->
  request_size ILP32 (request r) = request_size LP64 (request r) <-> by_pointer (ipa_param r) = false.
Proof using Huapi.
  intros Hx.
  pose proof (ipa_requests_checked (fun x => Bool.eqb (request_size ILP32 (request x.2) =? request_size LP64 (request x.2))
                                               (negb (by_pointer (ipa_param x.2)))) ltac:(by vm_compute) _ Hx) as E.
  apply eqb_prop in E. cbn [snd] in E. rewrite <- Z.eqb_eq, E. by destruct (by_pointer _).
Qed.

Lemma ipa_param_layout n r t :
  In (n, r) ipa_requests -> param_type (ipa_param r) = Some t ->
  layout ILP32 t = layout LP64 t <-> maps_memory n = false.
Proof using Huapi.
  intros Hx Ht.
  pose proof (ipa_requests_checked (fun x =>
    match param_type (ipa_param x.2) with
    | Some t => Bool.eqb (bool_decide (layout ILP32 t = layout LP64 t)) (negb (maps_memory x.1))
    | None => true
    end) ltac:(by vm_compute) _ Hx) as E.
  cbn [snd fst] in E. rewrite Ht in E. apply eqb_prop in E.
  destruct (maps_memory n); cbn [negb] in E;
    [apply bool_decide_eq_false in E|apply bool_decide_eq_true in E]; split; congruence.
Qed.

Lemma ipa_number_eq `{IocEncoding} (Hlaws : IocLaws) a a' n r n' r' :
  arm_abi a -> arm_abi a' -> In (n, r) ipa_requests -> In (n', r') ipa_requests ->
  request_number a (request r) = request_number a' (request r') <->
  share_number n n' = true /\ request_size a (request r) = request_size a' (request r').
Proof using Huapi.
  intros Ha Ha' Hx Hx'. apply (request_numbers_shared Hlaws a a' ipa_header); try done;
    [by apply ipa_requests_of..|by eapply ipa_not_overflowing|by eapply ipa_not_overflowing].
Qed.

(** Requests of one number have parameters of one kind. *)
Lemma ipa_shared_kind n r n' r' :
  In (n, r) ipa_requests -> In (n', r') ipa_requests -> share_number n n' = true ->
  by_pointer (ipa_param r) = by_pointer (ipa_param r').
Proof using Huapi.
  intros Hx Hx' Hs. apply eqb_prop.
  pose proof (ipa_pairs_checked (fun x x' =>
    implb (share_number x.1 x'.1) (Bool.eqb (by_pointer (ipa_param x.2)) (by_pointer (ipa_param x'.2))))
    ltac:(by vm_compute) _ _ Hx Hx') as E.
  cbn [fst snd] in E. by rewrite Hs in E.
Qed.
End Requests.

(** [IPA_IOC_NAT_DMA] is the old name of another request. *)
Definition current_name (n : string) : string :=
  if String.eqb n "IPA_IOC_NAT_DMA" then "IPA_IOC_TABLE_DMA_CMD" else n.

Lemma ipa_share_number `{LinuxUapi} {Huapi : LinuxUapiLaws} n r n' r' :
  In (n, r) ipa_requests -> In (n', r') ipa_requests ->
  share_number n n' = true <-> current_name n = current_name n'.
Proof.
  intros Hx Hx'. rewrite <- String.eqb_eq.
  enough (share_number n n' = String.eqb (current_name n) (current_name n')) as -> by done. apply eqb_prop.
  exact (ipa_pairs_checked (fun x x' => Bool.eqb (share_number x.1 x'.1) (String.eqb (current_name x.1) (current_name x'.1)))
    ltac:(by vm_compute) _ _ Hx Hx').
Qed.

(** The request numbers of the IPA driver and of the two bridges: two requests
    of processes of any of the two Arm ABIs have the same number exactly when
    they are the same request, [IPA_IOC_NAT_DMA] being another name of
    [IPA_IOC_TABLE_DMA_CMD], and their parameters have the same size. *)
Theorem ipa_ioctl_numbers_distinct `{IocEncoding} (Hlaws : IocLaws) `{LinuxUapi} (Huapi : LinuxUapiLaws)
    (a a' : abi) (n n' : string) (r r' : ipa_req) :
  arm_abi a -> arm_abi a' -> In (n, r) ipa_requests -> In (n', r') ipa_requests ->
  request_number a (request r) = request_number a' (request r') <->
  current_name n = current_name n' /\ request_size a (request r) = request_size a' (request r').
Proof.
  intros Ha Ha' Hx Hx'. rewrite (ipa_number_eq Hlaws a a' n r n' r' Ha Ha' Hx Hx').
  by rewrite (ipa_share_number n r n' r' Hx Hx').
Qed.

Lemma ipa_ioctl_numbers_distinct_witness :
  @request_number generic_encoding LP64 (request IPA_IOC_NAT_DMA)
  = @request_number generic_encoding LP64 (request IPA_IOC_TABLE_DMA_CMD)
  /\ @request_number generic_encoding LP64 (request IPA_IOC_ADD_HDR)
  <> @request_number generic_encoding ILP32 (request TETH_BRIDGE_IOC_SET_BRIDGE_MODE).
Proof.
  pose proof (fun a a' n n' r r' => ipa_ioctl_numbers_distinct (H := generic_encoding) generic_laws
    linux_uapi_laws a a' n n' r r') as Hd.
  split.
  - apply (Hd LP64 LP64 "IPA_IOC_NAT_DMA" "IPA_IOC_TABLE_DMA_CMD");
      [by left|by left|entry 35%nat|entry 36%nat|split; by vm_compute].
  - intros E. apply (Hd LP64 ILP32 "IPA_IOC_ADD_HDR" "TETH_BRIDGE_IOC_SET_BRIDGE_MODE") in E as [_ E];
      [discriminate E|by left|by right|entry 0%nat|entry 96%nat].
Defined.

(** ** 32-bit processes *)

(** C37: What a 64-bit driver must translate for 32-bit processes. The number of
    a request is the same exactly when its parameter is not a pointer; a request
    with a pointer has a number that is no request of a 64-bit process at all.
    The parameter itself, copied or pointed to, has one layout for both, except
    for the three requests that allocate translation tables. *)
Theorem ipa_ioctl_compat `{IocEncoding} (Hlaws : IocLaws) `{LinuxUapi} (Huapi : LinuxUapiLaws)
    (n : string) (r : ipa_req) :
  In (n, r) ipa_requests ->
  (request_number ILP32 (request r) = request_number LP64 (request r) <-> by_pointer (ipa_param r) = false)
  /\ (by_pointer (ipa_param r) = true ->
      forall n' r', In (n', r') ipa_requests -> request_number LP64 (request r') <> request_number ILP32 (request r))
  /\ (forall t, param_type (ipa_param r) = Some t ->
        layout ILP32 t = layout LP64 t <-> maps_memory n = false).
Proof.
  intros Hx. assert (arm_abi LP64) as H64 by (by left). assert (arm_abi ILP32) as H32 by (by right).
  split_and!.
  - rewrite (ipa_number_eq Hlaws ILP32 LP64 n r n r H32 H64 Hx Hx), share_number_refl.
    rewrite (ipa_param_size n r Hx). by split; [intros [_ ?]|].
  - intros Hp n' r' Hx' E. apply (ipa_number_eq Hlaws LP64 ILP32 n' r' n r H64 H32 Hx' Hx) in E as [Hs E].
    pose proof (ipa_shared_kind n' r' n r Hx' Hx Hs) as Hk.
    unfold request_size, request in E. unfold by_pointer in Hk, Hp.
    destruct (ipa_param r), (ipa_param r'); try discriminate.
  - intros t. by apply ipa_param_layout.
Qed.

Lemma ipa_ioctl_compat_witness :
  @request_number generic_encoding ILP32 (request IPA_IOC_PDN_CONFIG)
  = @request_number generic_encoding LP64 (request IPA_IOC_PDN_CONFIG)
  /\ @request_number generic_encoding ILP32 (request IPA_IOC_ADD_HDR)
  <> @request_number generic_encoding LP64 (request IPA_IOC_ADD_HDR)
  /\ layout ILP32 (@struct_ipa_ioc_nat_alloc_mem linux_uapi) <> layout LP64 (@struct_ipa_ioc_nat_alloc_mem linux_uapi).
Proof.
  pose proof (fun n r => ipa_ioctl_compat (H := generic_encoding) generic_laws linux_uapi_laws n r) as Hc.
  split_and!.
  - apply (Hc "IPA_IOC_PDN_CONFIG"); [entry 81%nat|reflexivity].
  - intros E. apply (Hc "IPA_IOC_ADD_HDR") in E; [discriminate E|entry 0%nat].
  - intros E. destruct (Hc "IPA_IOC_ALLOC_NAT_MEM" (@IPA_IOC_ALLOC_NAT_MEM linux_uapi)) as (_ & _ & Hl); [entry 30%nat|].
    apply (Hl _ eq_refl) in E. discriminate E.
Defined.

(** ** Records that follow a header *)

(** The name and the type of the records, of a structure that ends in an array
    of no length. *)
Definition records (t : ctype) : option (string * ctype) :=
  match t with
  | CStruct _ ms =>
      match last ms with Some (n, CArray e 0) => Some (n, e) | _ => None end
  | _ => None
  end.

(** Place of record [i], in a buffer that begins with the structure. *)
Definition record_offset (a : abi) (t e : ctype) (n : string) (i : Z) : option Z :=
  off ← offsetof a t n; Some (off + i * sizeof a e).

(** The records begin where the structure ends, and both are multiples of the
    alignment of the records. *)
Definition records_ok (a : abi) (t : ctype) : bool :=
  match records t with
  | Some (n, e) =>
      bool_decide (offsetof a t n = Some (sizeof a t))
      && (sizeof a t mod alignof a e =? 0) && (sizeof a e mod alignof a e =? 0)
      && (0 <? alignof a e) && (0 <? sizeof a e)
  | None => true
  end.

Lemma records_ok_params `{LinuxUapi} {Huapi : LinuxUapiLaws} a n r t :
  arm_abi a -> In (n, r) ipa_requests -> param_type (ipa_param r) = Some t -> records_ok a t = true.
Proof.
  intros Ha Hx Ht.
  pose proof (ipa_requests_checked (fun x => from_option (records_ok a) true (param_type (ipa_param x.2)))
    ltac:(destruct Ha as [-> | ->]; by vm_compute) _ Hx) as E.
  cbn [snd] in E. by rewrite Ht in E.
Qed.

(** C31: The requests with a variable number of records need no more memory than
    the header says, "no pointers, back to back": in a buffer of [sizeof] the
    structure plus [n] times [sizeof] a record, record [i] begins after the
    structure and after the records before it, is aligned, and the last one
    ends where the buffer ends. *)
Theorem ipa_records_contiguous `{LinuxUapi} (Huapi : LinuxUapiLaws)
    (a : abi) (c : string) (r : ipa_req) (t e : ctype) (name : string) (n i : Z) :
  arm_abi a -> In (c, r) ipa_requests -> param_type (ipa_param r) = Some t -> records t = Some (name, e) -> 0 <= i < n ->
  exists off, record_offset a t e name i = Some off
    /\ off = sizeof a t + i * sizeof a e
    /\ (alignof a e | off)
    /\ sizeof a t <= off /\ off + sizeof a e <= sizeof a t + n * sizeof a e
    /\ (i = n - 1 -> off + sizeof a e = sizeof a t + n * sizeof a e).
Proof.
  intros Ha Hx Ht Hr Hi. pose proof (records_ok_params a c r t Ha Hx Ht) as Hok.
  unfold records_ok in Hok. rewrite Hr in Hok. rewrite !andb_true_iff in Hok.
  destruct Hok as ((((Ho & Hm) & He) & Hal) & Hs).
  apply bool_decide_eq_true in Ho. unfold record_offset. rewrite Ho.
  exists (sizeof a t + i * sizeof a e). split_and!; [done|done| |nia|nia|intros ->; lia].
  apply Z.divide_add_r; [|apply Z.divide_mul_r]; apply Z.mod_divide; lia.
Qed.

Lemma ipa_records_contiguous_witness :
  record_offset LP64 (struct_ipa_ioc_add_hdr) struct_ipa_hdr_add "hdr" 2 = Some 244.
Proof.
  destruct (ipa_records_contiguous linux_uapi_laws LP64 "IPA_IOC_ADD_HDR" IPA_IOC_ADD_HDR
    struct_ipa_ioc_add_hdr struct_ipa_hdr_add "hdr" 3 2) as (off & Ho & E & _); [by left|entry 0%nat|reflexivity|reflexivity|lia|].
  rewrite Ho, E. vm_compute. reflexivity.
Defined.
