(* ===== verification/UapiPortable.v ===== *)
(** * UapiPortable: requests that programs of both ABIs make alike

    The requests of a header and the layouts of their parameters, put together: the number of a
    request and the bytes of its parameter, for programs that are compiled for different ABIs. *)

From S2P Require Import Prelude CLayout CMem Ioctl Uapi UapiTables UapiKgsl UapiProps.

#[local] Open Scope string_scope.
#[local] Open Scope list_scope.
#[local] Open Scope Z_scope.

(** ** Checks of the tables *)

(** Macros that share their number with another one. *)
Definition shared (n : string) : bool := existsb (fun g => listed g n) shared_numbers.

(** The headers with numbers that do not fit their field. *)
Definition oversized_headers : list string := ["linux/spcom.h"; "linux/qrng.h"].

Definition opt_type_eqb (t u : option ctype) : bool :=
  match t, u with Some t, Some u => ctype_eqb t u | None, None => true | _, _ => false end.

Lemma opt_type_eqb_eq t u : opt_type_eqb t u = true -> t = u.
Proof. destruct t, u; try done. by intros ->%ctype_eqb_eq. Qed.

Definition wf_param (r : ioctl_req) : bool := match req_param r with None => true | Some t => wf_type t end.

(** Entries of one name: the same parameter if it has no pointer, and a number that fits. *)
Definition entry_ok (a : abi) (h : string) (x x' : string * ioctl_req) : bool :=
  implb (String.eqb x.1 x'.1) (implb (param_pointer_free x.2) (opt_type_eqb (req_param x.2) (req_param x'.2))).

Definition header_ok `{LinuxUapi} (a a' : abi) (h : string) : bool :=
  let xs := requests_of a h in
  let xs' := requests_of a' h in
  forallb (fun x => wf_param x.2) xs
  && implb (negb (listed oversized_headers h)) (forallb (fun x => negb (listed overflowing x.1)) xs)
  && bool_decide (map fst xs = map fst xs')
  && forallb (fun x => forallb (entry_ok a h x) xs') xs.

Lemma headers_checked a a' :
  arm_abi a -> arm_abi a' -> forallb (@header_ok linux_uapi a a') (@header_names linux_uapi) = true.
Proof. intros [-> | ->] [-> | ->]; by vm_compute. Qed.

Lemma In_names {A} (n : string) (x : A) xs : In (n, x) xs -> In n (map fst xs).
Proof. apply (in_map fst xs (n, x)). Qed.

Lemma find_unique {A} (f : A -> bool) xs (y : A) :
  In y xs -> f y = true -> (forall x, In x xs -> f x = true -> x = y) -> List.find f xs = Some y.
Proof.
  intros Hy Hfy Hu. destruct (List.find f xs) as [x|] eqn:E.
  - apply List.find_some in E as [Hx Hf]. by rewrite (Hu x Hx Hf).
  - by rewrite (List.find_none f xs E y Hy) in Hfy.
Qed.

(** ** Requests under two ABIs *)

Section Tables.
Context `{LinuxUapi} (Huapi : LinuxUapiLaws).
Context (a a' : abi) (Ha : arm_abi a) (Ha' : arm_abi a') (h : string) (Hh : listed oversized_headers h = false).

Lemma header_facts n r :
  In (n, r) (requests_of a h) ->
  wf_param r = true /\ request_fits a r = true
  /\ map fst (requests_of a h) = map fst (requests_of a' h)
  /\ forall r', In (n, r') (requests_of a' h) -> param_pointer_free r = true -> req_param r = req_param r'.
Proof using All.
  intros Hx. destruct (requests_of_header a h _ Hx) as [Hin Hall].
  assert (header_ok a a' h = true) as Hok.
  { pose proof (headers_checked a a' Ha Ha') as Hc. revert Hin. rewrite uapi_known. intros Hin.
    rewrite forallb_forall in Hc. by apply Hc. }
  unfold header_ok in Hok. cbv zeta in Hok. rewrite Hh, !andb_true_iff, !forallb_forall in Hok.
  destruct Hok as [[[Hwf Hover] Hnames%bool_decide_eq_true] Hentries]. split_and!.
  - exact (Hwf _ Hx).
  - rewrite (request_fits_unless a n r Ha Hall). cbn [negb implb] in Hover.
    rewrite forallb_forall in Hover. exact (Hover _ Hx).
  - done.
  - intros r' Hx' Hf. specialize (Hentries _ Hx). rewrite forallb_forall in Hentries.
    specialize (Hentries _ Hx'). unfold entry_ok in Hentries. cbn [fst snd] in Hentries.
    rewrite String.eqb_refl, Hf in Hentries. by apply opt_type_eqb_eq.
Qed.
End Tables.

Section Numbers.
Context `{IocEncoding} (Hlaws : IocLaws) `{LinuxUapi} (Huapi : LinuxUapiLaws).
Context (a a' : abi) (Ha : arm_abi a) (Ha' : arm_abi a') (h : string) (Hh : listed oversized_headers h = false).

(** For a macro that shares its number with none, the requests of that number are those
    of its name and size. *)
Lemma same_number n r n' r' :
  In (n, r) (requests_of a h) -> In (n', r') (requests_of a' h) -> shared n = false ->
  request_number a' r' = request_number a r <-> n = n' /\ request_size a r = request_size a' r'.
Proof using All.
  intros Hx Hx' Hn.
  assert (request_number a' r' = request_number a r <-> request_key a r = request_key a' r') as ->.
  { rewrite <- (request_number_eq a a' r r'); [split; congruence|..].
    - by apply (header_facts Huapi a a' Ha Ha' h Hh n r Hx).
    - by apply (header_facts Huapi a' a Ha' Ha h Hh n' r' Hx'). }
  rewrite (request_keys_shared a a' h n r n' r' Ha Ha' Hx Hx').
  enough (share_number n n' = true <-> n = n') as -> by done.
  unfold share_number, shared in *. rewrite orb_true_iff, String.eqb_eq. split; [|by left].
  intros [E|E]; [done|]. apply existsb_exists in E as (g & Hg & E).
  destruct (listed g n) eqn:El; [|done].
  assert (existsb (fun g => listed g n) shared_numbers = true) as Hs
    by (apply existsb_exists; by exists g). congruence.
Qed.

(** A pointer-free request under the other ABI. *)
Lemma counterpart n r :
  In (n, r) (requests_of a h) -> shared n = false -> param_pointer_free r = true ->
  exists r', In (n, r') (requests_of a' h) /\ request_number a' r' = request_number a r /\ req_param r' = req_param r.
Proof using All.
  intros Hx Hn Hf. destruct (header_facts Huapi a a' Ha Ha' h Hh n r Hx) as (_ & _ & Hnames & Hparam).
  assert (exists r', In (n, r') (requests_of a' h)) as [r' Hx'].
  { pose proof (In_names _ _ _ Hx) as Hin. rewrite Hnames in Hin. apply in_map_iff in Hin as ([n' r'] & E & Hx').
    cbn in E. subst n'. by exists r'. }
  pose proof (Hparam r' Hx' Hf) as Hp. exists r'. split_and!; [done| |done].
  apply (same_number n r n r' Hx Hx' Hn). split; [done|]. unfold request_size, param_pointer_free in *.
  rewrite <- Hp. destruct (req_param r) as [t|]; [|done].
  apply sizeof_pointer_free; [by destruct Ha as [-> | ->], Ha' as [-> | ->]|done].
Qed.
End Numbers.


