(* ===== verification/MsmDrm.v ===== *)
(** * MsmDrm: the two declarations of the display driver's events

    [include/display/drm/sde_drm.h] declares the requests by which a client registers
    for display events; the three headers [msm_drm.h] ([include/linux],
    [include/drm] and [include/display/drm], the last two equal) declare
    the same names again. This file holds the event codes and mode flags of both and the
    requests of the short headers, and compares them. *)

From Stdlib Require Import Ascii.

From S2P Require Import Prelude CLayout Ioctl Uapi UapiTables UapiDisplay UapiProps.

#[local] Open Scope string_scope.
#[local] Open Scope list_scope.
#[local] Open Scope Z_scope.

(** ** [display/drm/sde_drm.h] *)

(** The events of the driver. *)
Inductive drm_event_code : Type :=
  | DRM_EVENT_HISTOGRAM | DRM_EVENT_AD_BACKLIGHT | DRM_EVENT_CRTC_POWER | DRM_EVENT_SYS_BACKLIGHT
  | DRM_EVENT_SDE_POWER | DRM_EVENT_IDLE_NOTIFY | DRM_EVENT_PANEL_DEAD | DRM_EVENT_SDE_HW_RECOVERY
  | DRM_EVENT_LTM_HIST | DRM_EVENT_LTM_WB_PB | DRM_EVENT_LTM_OFF | DRM_EVENT_MMRM_CB
  | DRM_EVENT_FRAME_DATA | DRM_EVENT_DIMMING_BL | DRM_EVENT_VM_RELEASE.

Definition drm_event_value (e : drm_event_code) : Z :=
  match e with
  | DRM_EVENT_HISTOGRAM => 0x80000000
  | DRM_EVENT_AD_BACKLIGHT => 0x80000001
  | DRM_EVENT_CRTC_POWER => 0x80000002
  | DRM_EVENT_SYS_BACKLIGHT => 0x80000003
  | DRM_EVENT_SDE_POWER => 0x80000004
  | DRM_EVENT_IDLE_NOTIFY => 0x80000005
  | DRM_EVENT_PANEL_DEAD => 0x80000006
  | DRM_EVENT_SDE_HW_RECOVERY => 0x80000007
  | DRM_EVENT_LTM_HIST => 0x80000008
  | DRM_EVENT_LTM_WB_PB => 0x80000009
  | DRM_EVENT_LTM_OFF => 0x8000000A
  | DRM_EVENT_MMRM_CB => 0x8000000B
  | DRM_EVENT_FRAME_DATA => 0x8000000C
  | DRM_EVENT_DIMMING_BL => 0x8000000D
  | DRM_EVENT_VM_RELEASE => 0x8000000E
  end.

#[export] Instance drm_event_enum : CEnum drm_event_code := {|
  enum_value := drm_event_value;
  enum_all := [DRM_EVENT_HISTOGRAM; DRM_EVENT_AD_BACKLIGHT; DRM_EVENT_CRTC_POWER; DRM_EVENT_SYS_BACKLIGHT;
    DRM_EVENT_SDE_POWER; DRM_EVENT_IDLE_NOTIFY; DRM_EVENT_PANEL_DEAD; DRM_EVENT_SDE_HW_RECOVERY;
    DRM_EVENT_LTM_HIST; DRM_EVENT_LTM_WB_PB; DRM_EVENT_LTM_OFF; DRM_EVENT_MMRM_CB;
    DRM_EVENT_FRAME_DATA; DRM_EVENT_DIMMING_BL; DRM_EVENT_VM_RELEASE] |}.

#[export] Instance drm_event_enum_laws : CEnumLaws drm_event_code.
Proof. solve_enum_laws. Qed.

(** Defined only where no other header defined them before. *)
Definition DRM_MODE_FLAG_VID_MODE_PANEL (before : option Z) : Z := default 0x01 before.
Definition DRM_MODE_FLAG_CMD_MODE_PANEL (before : option Z) : Z := default 0x02 before.

(** ** [drm/msm_drm.h] *)

Definition shim_drm_msm_event_req : ctype := struct [
  ("object_id", c_u32); ("object_type", c_u32); ("event", c_u32)].
Definition shim_drm_msm_event_resp : ctype := struct [
  ("base", struct [("type", c_u32); ("length", c_u32)]); ("data", CArray c_u8 0)].

(** The codes it gives to four of the events. *)
Definition shim_event_value (e : drm_event_code) : option Z :=
  match e with
  | DRM_EVENT_PANEL_DEAD => Some 0x1
  | DRM_EVENT_CRTC_POWER => Some 0x2
  | DRM_EVENT_HISTOGRAM => Some 0x3
  | DRM_EVENT_SDE_POWER => Some 0x4
  | _ => None
  end.

Definition shim_CMD_MODE_PANEL : Z := 0x100.
Definition shim_VID_MODE_PANEL : Z := 0x200.

Definition shim_REGISTER_EVENT : ioctl_req := IOWR (chr "d") 0x41 shim_drm_msm_event_req.
Definition shim_DEREGISTER_EVENT : ioctl_req := IOWR (chr "d") 0x42 shim_drm_msm_event_req.

(** ** [linux/msm_drm.h] *)

Definition linux_drm_msm_event_req : ctype := struct [
  ("object_id", c_u32); ("object_type", c_u32); ("event_id", c_u32)].

Definition linux_REGISTER_EVENT : ioctl_req := IOWR (chr "d") 0x41 linux_drm_msm_event_req.
Definition linux_DEREGISTER_EVENT : ioctl_req := IOWR (chr "d") 0x42 linux_drm_msm_event_req.

(** ** Comparison *)

Definition shim_requests : list ioctl_req :=
  [shim_REGISTER_EVENT; shim_DEREGISTER_EVENT; linux_REGISTER_EVENT; linux_DEREGISTER_EVENT].

Lemma shim_keys_checked a a' :
  arm_abi a -> arm_abi a' ->
  forallb (fun r => request_fits a r
                    && forallb (fun x => request_fits a' x.2 && negb (key_eqb (request_key a r) (request_key a' x.2)))
                         (@requests_of linux_uapi a' "display/drm/sde_drm.h")) shim_requests = true.
Proof. intros [-> | ->] [-> | ->]; by vm_compute. Qed.

(** C28: A client compiled with one of the short headers cannot register for an event:
    no request of the driver's header, of a process of either ABI, has the number
    of a request of the short headers; and none of their event codes is a code of the
    driver. The driver's request structure has two more members, and the mode flags
    are others, unless the short header is included first. *)
Theorem shims_disagree `{IocEncoding} (Hlaws : IocLaws) `{LinuxUapi} (Huapi : LinuxUapiLaws) (a a' : abi) :
  arm_abi a -> arm_abi a' ->
  (forall r n r', In r shim_requests -> In (n, r') (requests_of a' "display/drm/sde_drm.h") ->
     request_number a r <> request_number a' r')
  /\ (forall e v, shim_event_value e = Some v -> enum_decode (A := drm_event_code) v = None)
  /\ sizeof a shim_drm_msm_event_req = 12 /\ sizeof a struct_drm_msm_event_req = 32
  /\ DRM_MODE_FLAG_VID_MODE_PANEL None <> shim_VID_MODE_PANEL
  /\ DRM_MODE_FLAG_CMD_MODE_PANEL None <> shim_CMD_MODE_PANEL
  /\ DRM_MODE_FLAG_CMD_MODE_PANEL (Some shim_CMD_MODE_PANEL) = shim_CMD_MODE_PANEL.
Proof.
  intros Ha Ha'. split_and!.
  - rewrite uapi_known. intros r n r' Hr Hx. pose proof (shim_keys_checked a a' Ha Ha') as Hc.
    rewrite forallb_forall in Hc. apply Hc in Hr as [Hf Hr]%andb_true_iff.
    rewrite forallb_forall in Hr. apply Hr in Hx as [Hf' Hk]%andb_true_iff.
    intros E%request_number_eq; [|done..]. unfold key_eqb in Hk. cbn [snd] in Hk.
    by rewrite bool_decide_true in Hk.
  - intros [] v; try done; by intros [= <-].
  - by destruct Ha as [-> | ->].
  - by destruct Ha as [-> | ->].
  - done.
  - done.
  - done.
Qed.

Lemma shims_disagree_witness :
  @request_number generic_encoding LP64 shim_REGISTER_EVENT
  <> @request_number generic_encoding LP64 (@DRM_IOCTL_MSM_REGISTER_EVENT linux_uapi).
Proof.
  destruct (shims_disagree (H := generic_encoding) generic_laws linux_uapi_laws LP64 LP64
    (or_introl eq_refl) (or_introl eq_refl)) as [Hd _].
  apply (Hd _ "DRM_IOCTL_MSM_REGISTER_EVENT"); [by left|]. entry 1%nat.
Defined.
