(* ===== verification/AbiVersion.v ===== *)
(** * AbiVersion: version words of the audio interfaces

    [include/sound/sof/abi.h] packs the version of the audio firmware's interface
    into a 32-bit word, [include/sound/asound.h] the protocol versions of the
    ALSA devices into an [int]; both define when two versions do not fit. The parts of a
    firmware version are taken as [unsigned int]s, as the firmware stores the word. *)

From S2P Require Import Prelude Bits.

(** ** [sound/sof/abi.h] *)

Definition SOF_ABI_MAJOR : Z := 3.
Definition SOF_ABI_MINOR : Z := 17.
Definition SOF_ABI_PATCH : Z := 0.
Definition SOF_ABI_MAJOR_SHIFT : Z := 24.
Definition SOF_ABI_MAJOR_MASK : Z := 0xff.
Definition SOF_ABI_MINOR_SHIFT : Z := 12.
Definition SOF_ABI_MINOR_MASK : Z := 0xfff.
Definition SOF_ABI_PATCH_SHIFT : Z := 0.
Definition SOF_ABI_PATCH_MASK : Z := 0xfff.

Definition SOF_ABI_VER (major minor patch : Z) : Z :=
  (major <<[U32] SOF_ABI_MAJOR_SHIFT) .|[U32] (minor <<[U32] SOF_ABI_MINOR_SHIFT)
  .|[U32] (patch <<[U32] SOF_ABI_PATCH_SHIFT).

Definition SOF_ABI_VERSION_MAJOR (version : Z) : Z := (version >>[U32] SOF_ABI_MAJOR_SHIFT) &[U32] SOF_ABI_MAJOR_MASK.
Definition SOF_ABI_VERSION_MINOR (version : Z) : Z := (version >>[U32] SOF_ABI_MINOR_SHIFT) &[U32] SOF_ABI_MINOR_MASK.
Definition SOF_ABI_VERSION_PATCH (version : Z) : Z := (version >>[U32] SOF_ABI_PATCH_SHIFT) &[U32] SOF_ABI_PATCH_MASK.

Definition SOF_ABI_VERSION_INCOMPATIBLE (sof_ver client_ver : Z) : bool :=
  negb (SOF_ABI_VERSION_MAJOR sof_ver =? SOF_ABI_VERSION_MAJOR client_ver).

Definition SOF_ABI_VERSION : Z := SOF_ABI_VER SOF_ABI_MAJOR SOF_ABI_MINOR SOF_ABI_PATCH.

Definition SOF_ABI_MAGIC : Z := 0x00464F53.

(** ** [sound/asound.h] and the headers that use its macros *)

Definition SNDRV_PROTOCOL_VERSION (major minor subminor : Z) : Z :=
  (major <<[S32] 16) .|[S32] (minor <<[S32] 8) .|[S32] subminor.
Definition SNDRV_PROTOCOL_MAJOR (version : Z) : Z := (version >>[S32] 16) &[S32] 0xffff.
Definition SNDRV_PROTOCOL_MINOR (version : Z) : Z := (version >>[S32] 8) &[S32] 0xff.
Definition SNDRV_PROTOCOL_MICRO (version : Z) : Z := version &[S32] 0xff.

Definition SNDRV_PROTOCOL_INCOMPATIBLE (kversion uversion : Z) : bool :=
  negb (SNDRV_PROTOCOL_MAJOR kversion =? SNDRV_PROTOCOL_MAJOR uversion)
  || (SNDRV_PROTOCOL_MAJOR kversion =? SNDRV_PROTOCOL_MAJOR uversion)
     && negb (SNDRV_PROTOCOL_MINOR kversion =? SNDRV_PROTOCOL_MINOR uversion).

Definition SNDRV_HWDEP_VERSION : Z := SNDRV_PROTOCOL_VERSION 1 0 1.
Definition SNDRV_PCM_VERSION : Z := SNDRV_PROTOCOL_VERSION 2 0 15.
Definition SNDRV_RAWMIDI_VERSION : Z := SNDRV_PROTOCOL_VERSION 2 0 1.
Definition SNDRV_TIMER_VERSION : Z := SNDRV_PROTOCOL_VERSION 2 0 7.
Definition SNDRV_CTL_VERSION : Z := SNDRV_PROTOCOL_VERSION 2 0 8.
Definition SNDRV_COMPRESS_VERSION : Z := SNDRV_PROTOCOL_VERSION 0 2 0.
Definition SNDRV_EMU10K1_VERSION : Z := SNDRV_PROTOCOL_VERSION 1 0 1.
Definition SNDRV_SEQ_VERSION : Z := SNDRV_PROTOCOL_VERSION 1 0 2.
Definition SNDRV_LSM_VERSION : Z := SNDRV_PROTOCOL_VERSION 0 3 2.

(** ** Words of three fields *)

Definition lex (x y : Z * Z * Z) : Prop :=
  let '(a, b, c) := x in let '(a', b', c') := y in
  a < a' \/ a = a' /\ (b < b' \/ b = b' /\ c < c').

(** Three fields joined by [|] are a sum when each is below the next one's unit. *)
Lemma lor_fields p q a b c :
  0 <= q <= p -> 0 <= b < 2 ^ (p - q) -> 0 <= c < 2 ^ q ->
  Z.lor (Z.lor (Z.shiftl a p) (Z.shiftl b q)) c = a * 2 ^ p + b * 2 ^ q + c.
Proof.
  intros Hq Hb Hc.
  replace (Z.lor (Z.shiftl a p) (Z.shiftl b q)) with (Z.shiftl (Z.lor (Z.shiftl a (p - q)) b) q).
  - rewrite (lor_shiftl_add _ c q), (lor_shiftl_add a b (p - q)) by lia.
    replace (2 ^ p) with (2 ^ (p - q) * 2 ^ q) by (rewrite <- Z.pow_add_r by lia; f_equal; lia). ring.
  - rewrite Z.shiftl_lor, Z.shiftl_shiftl by lia. do 2 f_equal. lia.
Qed.

Lemma word_field t v s n m :
  0 < int_width t -> in_range t v -> 0 <= s -> 0 <= n -> 2 ^ n - 1 <= max_int t -> m = Z.ones n ->
  (v >>[t] s) &[t] m = (v / 2 ^ s) mod 2 ^ n.
Proof.
  intros Hw Hv Hs Hn Hm ->. unfold c_and, c_shr. rewrite Z.shiftr_div_pow2 by done.
  assert (in_range t (v / 2 ^ s)) as Hr.
  { unfold in_range, min_int, max_int in *. pose proof (Z.pow_pos_nonneg 2 s).
    pose proof (Z.pow_pos_nonneg 2 (int_width t - 1)). destruct (int_signed t); split;
      [apply Z.div_le_lower_bound; nia|apply Z.div_le_upper_bound; nia
      |apply Z.div_pos; lia|apply Z.div_le_upper_bound; nia]. }
  rewrite (cast_id t Hw _ Hr), Z.land_ones by done. apply cast_id; [done|].
  pose proof (Z.mod_pos_bound (v / 2 ^ s) (2 ^ n)). pose proof (Z.pow_pos_nonneg 2 n).
  unfold in_range, min_int in *. destruct (int_signed t); [|lia].
  pose proof (Z.pow_pos_nonneg 2 (int_width t - 1)). lia.
Qed.

(** ** [sound/sof/abi.h] *)

Lemma SOF_fields v :
  0 <= v < 2 ^ 32 ->
  SOF_ABI_VERSION_MAJOR v = v / 2 ^ 24 /\ SOF_ABI_VERSION_MINOR v = (v / 2 ^ 12) mod 2 ^ 12
  /\ SOF_ABI_VERSION_PATCH v = v mod 2 ^ 12.
Proof.
  intros Hv. assert (in_range U32 v) by (unfold_range; lia).
  unfold SOF_ABI_VERSION_MAJOR, SOF_ABI_VERSION_MINOR, SOF_ABI_VERSION_PATCH.
  rewrite (word_field U32 v _ 8), !(word_field U32 v _ 12) by (done || vm_compute; congruence).
  unfold SOF_ABI_MAJOR_SHIFT, SOF_ABI_MINOR_SHIFT, SOF_ABI_PATCH_SHIFT. norm_pow. split_and!; zlia.
Qed.

Lemma SOF_ABI_VER_sum major minor patch :
  0 <= major < 256 -> 0 <= minor < 4096 -> 0 <= patch < 4096 ->
  SOF_ABI_VER major minor patch = major * 2 ^ 24 + minor * 2 ^ 12 + patch.
Proof.
  intros Hma Hmi Hp. unfold SOF_ABI_VER, c_or, c_shl, SOF_ABI_MAJOR_SHIFT, SOF_ABI_MINOR_SHIFT, SOF_ABI_PATCH_SHIFT.
  rewrite Z.shiftl_0_r. rewrite (cast_U32_id (Z.shiftl major 24)), (cast_U32_id (Z.shiftl minor 12)),
    (cast_U32_id patch) by (rewrite ?Z.shiftl_mul_pow2 by lia; norm_pow; lia).
  pose proof (lor_fields 24 12 major minor 0) as E0. rewrite Z.lor_0_r in E0.
  pose proof (lor_fields 24 12 major minor patch) as E1.
  rewrite (cast_U32_id (Z.lor (Z.shiftl major 24) _)) by (rewrite E0; norm_pow; lia).
  rewrite E1 by (norm_pow; lia). apply cast_U32_id. norm_pow. lia.
Qed.

(** The version word of the audio firmware's interface: the accessors recover
    the packed version, every word is the version of its fields, words are
    ordered as versions, and a firmware does not fit exactly when its major
    number is another one, which is an equivalence of versions. *)
Theorem sof_version_word :
  (forall major minor patch, 0 <= major < 256 -> 0 <= minor < 4096 -> 0 <= patch < 4096 ->
     let v := SOF_ABI_VER major minor patch in
     0 <= v < 2 ^ 32 /\ SOF_ABI_VERSION_MAJOR v = major /\ SOF_ABI_VERSION_MINOR v = minor
     /\ SOF_ABI_VERSION_PATCH v = patch)
  /\ (forall v, 0 <= v < 2 ^ 32 ->
     SOF_ABI_VER (SOF_ABI_VERSION_MAJOR v) (SOF_ABI_VERSION_MINOR v) (SOF_ABI_VERSION_PATCH v) = v)
  /\ (forall v v', 0 <= v < 2 ^ 32 -> 0 <= v' < 2 ^ 32 ->
     v < v' <-> lex (SOF_ABI_VERSION_MAJOR v, SOF_ABI_VERSION_MINOR v, SOF_ABI_VERSION_PATCH v)
                    (SOF_ABI_VERSION_MAJOR v', SOF_ABI_VERSION_MINOR v', SOF_ABI_VERSION_PATCH v'))
  /\ (forall v v', 0 <= v < 2 ^ 32 -> 0 <= v' < 2 ^ 32 ->
     SOF_ABI_VERSION_INCOMPATIBLE v v' = false <-> v / 2 ^ 24 = v' / 2 ^ 24)
  /\ SOF_ABI_VERSION = 0x3011000.
Proof.
  split_and!; [..|by vm_compute].
  - intros major minor patch Hma Hmi Hp v. unfold v. clear v. rewrite SOF_ABI_VER_sum by done.
    assert (0 <= major * 2 ^ 24 + minor * 2 ^ 12 + patch < 2 ^ 32) as Hv by (norm_pow; lia).
    destruct (SOF_fields _ Hv) as (-> & -> & ->). norm_pow. split_and!; zlia.
  - intros v Hv. destruct (SOF_fields v Hv) as (-> & -> & ->). rewrite SOF_ABI_VER_sum; norm_pow; zlia.
  - intros v v' Hv Hv'. destruct (SOF_fields v Hv) as (-> & -> & ->), (SOF_fields v' Hv') as (-> & -> & ->).
    unfold lex. norm_pow. zlia.
  - intros v v' Hv Hv'. unfold SOF_ABI_VERSION_INCOMPATIBLE.
    destruct (SOF_fields v Hv) as (-> & _), (SOF_fields v' Hv') as (-> & _).
    by rewrite negb_false_iff, Z.eqb_eq.
Qed.

(** ** [sound/asound.h] *)

Lemma SNDRV_fields v :
  in_range S32 v ->
  SNDRV_PROTOCOL_MAJOR v = (v / 2 ^ 16) mod 2 ^ 16 /\ SNDRV_PROTOCOL_MINOR v = (v / 2 ^ 8) mod 2 ^ 8
  /\ SNDRV_PROTOCOL_MICRO v = v mod 2 ^ 8.
Proof.
  intros Hv. unfold SNDRV_PROTOCOL_MAJOR, SNDRV_PROTOCOL_MINOR.
  rewrite (word_field S32 v 16 16), (word_field S32 v 8 8) by (done || vm_compute; congruence).
  split_and!; [done..|]. unfold SNDRV_PROTOCOL_MICRO, c_and.
  change 255 with (Z.ones 8). rewrite Z.land_ones by done. apply cast_S32_id. norm_pow. zlia.
Qed.

Lemma SNDRV_PROTOCOL_VERSION_sum major minor micro :
  0 <= major < 2 ^ 15 -> 0 <= minor < 256 -> 0 <= micro < 256 ->
  SNDRV_PROTOCOL_VERSION major minor micro = major * 2 ^ 16 + minor * 2 ^ 8 + micro.
Proof.
  intros Hma Hmi Hp. norm_pow. unfold SNDRV_PROTOCOL_VERSION, c_or, c_shl.
  rewrite (cast_S32_id (Z.shiftl major 16)), (cast_S32_id (Z.shiftl minor 8))
    by (rewrite ?Z.shiftl_mul_pow2 by lia; norm_pow; lia).
  pose proof (lor_fields 16 8 major minor 0) as E0. rewrite Z.lor_0_r in E0.
  pose proof (lor_fields 16 8 major minor micro) as E1.
  rewrite (cast_S32_id (Z.lor (Z.shiftl major 16) _)) by (rewrite E0; norm_pow; lia).
  rewrite E1 by (norm_pow; lia). apply cast_S32_id. norm_pow. lia.
Qed.

(** The protocol versions of the ALSA devices: the accessors recover the packed
    version, and two versions fit exactly when major and minor number agree, whatever
    the micro number. *)
Theorem protocol_version_word :
  (forall major minor micro, 0 <= major < 2 ^ 15 -> 0 <= minor < 256 -> 0 <= micro < 256 ->
     let v := SNDRV_PROTOCOL_VERSION major minor micro in
     in_range S32 v /\ SNDRV_PROTOCOL_MAJOR v = major /\ SNDRV_PROTOCOL_MINOR v = minor
     /\ SNDRV_PROTOCOL_MICRO v = micro)
  /\ (forall k u, in_range S32 k -> in_range S32 u ->
     SNDRV_PROTOCOL_INCOMPATIBLE k u = false <-> k / 2 ^ 8 = u / 2 ^ 8)
  /\ SNDRV_PROTOCOL_INCOMPATIBLE SNDRV_PCM_VERSION SNDRV_CTL_VERSION = false
  /\ SNDRV_PROTOCOL_INCOMPATIBLE SNDRV_PCM_VERSION SNDRV_SEQ_VERSION = true.
Proof.
  split_and!; [..|by vm_compute|by vm_compute].
  - intros major minor micro Hma Hmi Hp v. unfold v. clear v. rewrite SNDRV_PROTOCOL_VERSION_sum by done.
    assert (in_range S32 (major * 2 ^ 16 + minor * 2 ^ 8 + micro)) as Hv
      by (unfold_range; norm_pow; lia).
    destruct (SNDRV_fields _ Hv) as (-> & -> & ->). split; [done|]. norm_pow. split_and!; zlia.
  - intros k u Hk Hu. unfold SNDRV_PROTOCOL_INCOMPATIBLE.
    destruct (SNDRV_fields k Hk) as (-> & -> & _), (SNDRV_fields u Hu) as (-> & -> & _).
    assert (forall x, in_range S32 x -> - 32768 <= x / 2 ^ 16 < 32768) as Hr
      by (intros x; unfold_range; zlia).
    specialize (Hr k Hk) as Hk'. specialize (Hr u Hu) as Hu'. norm_pow.
    rewrite orb_false_iff, andb_false_iff, !negb_false_iff, Z.eqb_eq, Z.eqb_neq, Z.eqb_eq. clear Hr Hk Hu.
    zlia.
Qed.
