(* ===== verification/ConstAlsa.v ===== *)
(** * ConstAlsa: the macros and enumerations of the ALSA headers of [include/sound]

    A module per header: a [defines] for each run of macros, an [enumeration] for each
    [enum], with the expressions of the header as they are written; [header] collects them. *)

From S2P Require Import Prelude CLayout CExpr.

#[local] Open Scope string_scope.
#[local] Open Scope list_scope.
#[local] Open Scope Z_scope.

(** [include/sound/asequencer.h] *)

Module Asequencer.

Definition SNDRV_SEQ_EVENT_defs : defines := [
  ("SNDRV_SEQ_EVENT_SYSTEM", Dec 0); ("SNDRV_SEQ_EVENT_RESULT", Dec 1); ("SNDRV_SEQ_EVENT_NOTE", Dec 5);
  ("SNDRV_SEQ_EVENT_NOTEON", Dec 6); ("SNDRV_SEQ_EVENT_NOTEOFF", Dec 7); ("SNDRV_SEQ_EVENT_KEYPRESS", Dec 8);
  ("SNDRV_SEQ_EVENT_CONTROLLER", Dec 10); ("SNDRV_SEQ_EVENT_PGMCHANGE", Dec 11);
  ("SNDRV_SEQ_EVENT_CHANPRESS", Dec 12); ("SNDRV_SEQ_EVENT_PITCHBEND", Dec 13);
  ("SNDRV_SEQ_EVENT_CONTROL14", Dec 14); ("SNDRV_SEQ_EVENT_NONREGPARAM", Dec 15);
  ("SNDRV_SEQ_EVENT_REGPARAM", Dec 16); ("SNDRV_SEQ_EVENT_SONGPOS", Dec 20);
  ("SNDRV_SEQ_EVENT_SONGSEL", Dec 21); ("SNDRV_SEQ_EVENT_QFRAME", Dec 22);
  ("SNDRV_SEQ_EVENT_TIMESIGN", Dec 23); ("SNDRV_SEQ_EVENT_KEYSIGN", Dec 24); ("SNDRV_SEQ_EVENT_START", Dec 30);
  ("SNDRV_SEQ_EVENT_CONTINUE", Dec 31); ("SNDRV_SEQ_EVENT_STOP", Dec 32);
  ("SNDRV_SEQ_EVENT_SETPOS_TICK", Dec 33); ("SNDRV_SEQ_EVENT_SETPOS_TIME", Dec 34);
  ("SNDRV_SEQ_EVENT_TEMPO", Dec 35); ("SNDRV_SEQ_EVENT_CLOCK", Dec 36); ("SNDRV_SEQ_EVENT_TICK", Dec 37);
  ("SNDRV_SEQ_EVENT_QUEUE_SKEW", Dec 38); ("SNDRV_SEQ_EVENT_TUNE_REQUEST", Dec 40);
  ("SNDRV_SEQ_EVENT_RESET", Dec 41); ("SNDRV_SEQ_EVENT_SENSING", Dec 42); ("SNDRV_SEQ_EVENT_ECHO", Dec 50);
  ("SNDRV_SEQ_EVENT_OSS", Dec 51); ("SNDRV_SEQ_EVENT_CLIENT_START", Dec 60);
  ("SNDRV_SEQ_EVENT_CLIENT_EXIT", Dec 61); ("SNDRV_SEQ_EVENT_CLIENT_CHANGE", Dec 62);
  ("SNDRV_SEQ_EVENT_PORT_START", Dec 63); ("SNDRV_SEQ_EVENT_PORT_EXIT", Dec 64);
  ("SNDRV_SEQ_EVENT_PORT_CHANGE", Dec 65); ("SNDRV_SEQ_EVENT_PORT_SUBSCRIBED", Dec 66);
  ("SNDRV_SEQ_EVENT_PORT_UNSUBSCRIBED", Dec 67); ("SNDRV_SEQ_EVENT_USR0", Dec 90);
  ("SNDRV_SEQ_EVENT_USR1", Dec 91); ("SNDRV_SEQ_EVENT_USR2", Dec 92); ("SNDRV_SEQ_EVENT_USR3", Dec 93);
  ("SNDRV_SEQ_EVENT_USR4", Dec 94); ("SNDRV_SEQ_EVENT_USR5", Dec 95); ("SNDRV_SEQ_EVENT_USR6", Dec 96);
  ("SNDRV_SEQ_EVENT_USR7", Dec 97); ("SNDRV_SEQ_EVENT_USR8", Dec 98); ("SNDRV_SEQ_EVENT_USR9", Dec 99);
  ("SNDRV_SEQ_EVENT_SYSEX", Dec 130); ("SNDRV_SEQ_EVENT_BOUNCE", Dec 131);
  ("SNDRV_SEQ_EVENT_USR_VAR0", Dec 135); ("SNDRV_SEQ_EVENT_USR_VAR1", Dec 136);
  ("SNDRV_SEQ_EVENT_USR_VAR2", Dec 137); ("SNDRV_SEQ_EVENT_USR_VAR3", Dec 138);
  ("SNDRV_SEQ_EVENT_USR_VAR4", Dec 139); ("SNDRV_SEQ_EVENT_KERNEL_ERROR", Dec 150);
  ("SNDRV_SEQ_EVENT_KERNEL_QUOTE", Dec 151); ("SNDRV_SEQ_EVENT_NONE", Dec 255)].

Definition SNDRV_SEQ_defs : defines := [
  ("SNDRV_SEQ_ADDRESS_UNKNOWN", Dec 253); ("SNDRV_SEQ_ADDRESS_SUBSCRIBERS", Dec 254);
  ("SNDRV_SEQ_ADDRESS_BROADCAST", Dec 255); ("SNDRV_SEQ_QUEUE_DIRECT", Dec 253);
  ("SNDRV_SEQ_TIME_STAMP_TICK", Bin BShl (Dec 0) (Dec 0));
  ("SNDRV_SEQ_TIME_STAMP_REAL", Bin BShl (Dec 1) (Dec 0));
  ("SNDRV_SEQ_TIME_STAMP_MASK", Bin BShl (Dec 1) (Dec 0));
  ("SNDRV_SEQ_TIME_MODE_ABS", Bin BShl (Dec 0) (Dec 1)); ("SNDRV_SEQ_TIME_MODE_REL", Bin BShl (Dec 1) (Dec 1));
  ("SNDRV_SEQ_TIME_MODE_MASK", Bin BShl (Dec 1) (Dec 1));
  ("SNDRV_SEQ_EVENT_LENGTH_FIXED", Bin BShl (Dec 0) (Dec 2));
  ("SNDRV_SEQ_EVENT_LENGTH_VARIABLE", Bin BShl (Dec 1) (Dec 2));
  ("SNDRV_SEQ_EVENT_LENGTH_VARUSR", Bin BShl (Dec 2) (Dec 2));
  ("SNDRV_SEQ_EVENT_LENGTH_MASK", Bin BShl (Dec 3) (Dec 2));
  ("SNDRV_SEQ_PRIORITY_NORMAL", Bin BShl (Dec 0) (Dec 4));
  ("SNDRV_SEQ_PRIORITY_HIGH", Bin BShl (Dec 1) (Dec 4)); ("SNDRV_SEQ_PRIORITY_MASK", Bin BShl (Dec 1) (Dec 4))].

Definition SNDRV_SEQ_CLIENT_defs : defines := [
  ("SNDRV_SEQ_CLIENT_SYSTEM", Dec 0); ("SNDRV_SEQ_CLIENT_DUMMY", Dec 14); ("SNDRV_SEQ_CLIENT_OSS", Dec 15)].

Definition NO_CLIENT_defs : defines := [
  ("NO_CLIENT", Cast S32 (Dec 0)); ("USER_CLIENT", Cast S32 (Dec 1)); ("KERNEL_CLIENT", Cast S32 (Dec 2))].

Definition SNDRV_SEQ_FILTER_defs : defines := [
  ("SNDRV_SEQ_FILTER_BROADCAST", Bin BShl (Dec 1) (Dec 0));
  ("SNDRV_SEQ_FILTER_MULTICAST", Bin BShl (Dec 1) (Dec 1));
  ("SNDRV_SEQ_FILTER_BOUNCE", Bin BShl (Dec 1) (Dec 2));
  ("SNDRV_SEQ_FILTER_USE_EVENT", Bin BShl (Dec 1) (Dec 31))].

Definition SNDRV_SEQ_REMOVE_defs : defines := [
  ("SNDRV_SEQ_REMOVE_INPUT", Bin BShl (Dec 1) (Dec 0)); ("SNDRV_SEQ_REMOVE_OUTPUT", Bin BShl (Dec 1) (Dec 1));
  ("SNDRV_SEQ_REMOVE_DEST", Bin BShl (Dec 1) (Dec 2));
  ("SNDRV_SEQ_REMOVE_DEST_CHANNEL", Bin BShl (Dec 1) (Dec 3));
  ("SNDRV_SEQ_REMOVE_TIME_BEFORE", Bin BShl (Dec 1) (Dec 4));
  ("SNDRV_SEQ_REMOVE_TIME_AFTER", Bin BShl (Dec 1) (Dec 5));
  ("SNDRV_SEQ_REMOVE_TIME_TICK", Bin BShl (Dec 1) (Dec 6));
  ("SNDRV_SEQ_REMOVE_EVENT_TYPE", Bin BShl (Dec 1) (Dec 7));
  ("SNDRV_SEQ_REMOVE_IGNORE_OFF", Bin BShl (Dec 1) (Dec 8));
  ("SNDRV_SEQ_REMOVE_TAG_MATCH", Bin BShl (Dec 1) (Dec 9))].

Definition SNDRV_SEQ_PORT_SYSTEM_defs : defines := [
  ("SNDRV_SEQ_PORT_SYSTEM_TIMER", Dec 0); ("SNDRV_SEQ_PORT_SYSTEM_ANNOUNCE", Dec 1)].

Definition SNDRV_SEQ_PORT_CAP_defs : defines := [
  ("SNDRV_SEQ_PORT_CAP_READ", Bin BShl (Dec 1) (Dec 0)); ("SNDRV_SEQ_PORT_CAP_WRITE", Bin BShl (Dec 1) (Dec 1))].

Definition SNDRV_SEQ_PORT_CAP_SYNC_defs : defines := [
  ("SNDRV_SEQ_PORT_CAP_SYNC_READ", Bin BShl (Dec 1) (Dec 2));
  ("SNDRV_SEQ_PORT_CAP_SYNC_WRITE", Bin BShl (Dec 1) (Dec 3))].

Definition SNDRV_SEQ_PORT_CAP_DUPLEX_def : defines := [
  ("SNDRV_SEQ_PORT_CAP_DUPLEX", Bin BShl (Dec 1) (Dec 4))].

Definition SNDRV_SEQ_PORT_CAP_defs2 : defines := [
  ("SNDRV_SEQ_PORT_CAP_SUBS_READ", Bin BShl (Dec 1) (Dec 5));
  ("SNDRV_SEQ_PORT_CAP_SUBS_WRITE", Bin BShl (Dec 1) (Dec 6));
  ("SNDRV_SEQ_PORT_CAP_NO_EXPORT", Bin BShl (Dec 1) (Dec 7))].

Definition SNDRV_SEQ_PORT_TYPE_defs : defines := [
  ("SNDRV_SEQ_PORT_TYPE_SPECIFIC", Bin BShl (Dec 1) (Dec 0));
  ("SNDRV_SEQ_PORT_TYPE_MIDI_GENERIC", Bin BShl (Dec 1) (Dec 1));
  ("SNDRV_SEQ_PORT_TYPE_MIDI_GM", Bin BShl (Dec 1) (Dec 2));
  ("SNDRV_SEQ_PORT_TYPE_MIDI_GS", Bin BShl (Dec 1) (Dec 3));
  ("SNDRV_SEQ_PORT_TYPE_MIDI_XG", Bin BShl (Dec 1) (Dec 4));
  ("SNDRV_SEQ_PORT_TYPE_MIDI_MT32", Bin BShl (Dec 1) (Dec 5));
  ("SNDRV_SEQ_PORT_TYPE_MIDI_GM2", Bin BShl (Dec 1) (Dec 6))].

Definition SNDRV_SEQ_PORT_TYPE_defs2 : defines := [
  ("SNDRV_SEQ_PORT_TYPE_SYNTH", Bin BShl (Dec 1) (Dec 10));
  ("SNDRV_SEQ_PORT_TYPE_DIRECT_SAMPLE", Bin BShl (Dec 1) (Dec 11));
  ("SNDRV_SEQ_PORT_TYPE_SAMPLE", Bin BShl (Dec 1) (Dec 12));
  ("SNDRV_SEQ_PORT_TYPE_HARDWARE", Bin BShl (Dec 1) (Dec 16));
  ("SNDRV_SEQ_PORT_TYPE_SOFTWARE", Bin BShl (Dec 1) (Dec 17));
  ("SNDRV_SEQ_PORT_TYPE_SYNTHESIZER", Bin BShl (Dec 1) (Dec 18));
  ("SNDRV_SEQ_PORT_TYPE_PORT", Bin BShl (Dec 1) (Dec 19));
  ("SNDRV_SEQ_PORT_TYPE_APPLICATION", Bin BShl (Dec 1) (Dec 20))].

Definition SNDRV_SEQ_PORT_FLG_defs : defines := [
  ("SNDRV_SEQ_PORT_FLG_GIVEN_PORT", Bin BShl (Dec 1) (Dec 0));
  ("SNDRV_SEQ_PORT_FLG_TIMESTAMP", Bin BShl (Dec 1) (Dec 1));
  ("SNDRV_SEQ_PORT_FLG_TIME_REAL", Bin BShl (Dec 1) (Dec 2))].

Definition SNDRV_SEQ_QUEUE_FLG_SYNC_def : defines := [
  ("SNDRV_SEQ_QUEUE_FLG_SYNC", Bin BShl (Dec 1) (Dec 0))].

Definition SNDRV_SEQ_TIMER_defs : defines := [
  ("SNDRV_SEQ_TIMER_ALSA", Dec 0); ("SNDRV_SEQ_TIMER_MIDI_CLOCK", Dec 1); ("SNDRV_SEQ_TIMER_MIDI_TICK", Dec 2)].

Definition SNDRV_SEQ_PORT_SUBS_defs : defines := [
  ("SNDRV_SEQ_PORT_SUBS_EXCLUSIVE", Bin BShl (Dec 1) (Dec 0));
  ("SNDRV_SEQ_PORT_SUBS_TIMESTAMP", Bin BShl (Dec 1) (Dec 1));
  ("SNDRV_SEQ_PORT_SUBS_TIME_REAL", Bin BShl (Dec 1) (Dec 2))].

Definition SNDRV_SEQ_QUERY_SUBS_defs : defines := [
  ("SNDRV_SEQ_QUERY_SUBS_READ", Dec 0); ("SNDRV_SEQ_QUERY_SUBS_WRITE", Dec 1)].

Definition header : header := Header "include/sound/asequencer.h" [
  SNDRV_SEQ_EVENT_defs; SNDRV_SEQ_defs; SNDRV_SEQ_CLIENT_defs; NO_CLIENT_defs; SNDRV_SEQ_FILTER_defs;
  SNDRV_SEQ_REMOVE_defs; SNDRV_SEQ_PORT_SYSTEM_defs; SNDRV_SEQ_PORT_CAP_defs; SNDRV_SEQ_PORT_CAP_SYNC_defs;
  SNDRV_SEQ_PORT_CAP_DUPLEX_def; SNDRV_SEQ_PORT_CAP_defs2; SNDRV_SEQ_PORT_TYPE_defs; SNDRV_SEQ_PORT_TYPE_defs2;
  SNDRV_SEQ_PORT_FLG_defs; SNDRV_SEQ_QUEUE_FLG_SYNC_def; SNDRV_SEQ_TIMER_defs; SNDRV_SEQ_PORT_SUBS_defs;
  SNDRV_SEQ_QUERY_SUBS_defs] [
] [].

End Asequencer.

(** [include/sound/asoc.h] *)

Module Asoc.

Definition SND_SOC_TPLG_defs : defines := [
  ("SND_SOC_TPLG_MAX_FORMATS", Dec 16); ("SND_SOC_TPLG_CTL_VOLSW", Dec 1);
  ("SND_SOC_TPLG_CTL_VOLSW_SX", Dec 2); ("SND_SOC_TPLG_CTL_VOLSW_XR_SX", Dec 3);
  ("SND_SOC_TPLG_CTL_ENUM", Dec 4); ("SND_SOC_TPLG_CTL_BYTES", Dec 5); ("SND_SOC_TPLG_CTL_ENUM_VALUE", Dec 6);
  ("SND_SOC_TPLG_CTL_RANGE", Dec 7); ("SND_SOC_TPLG_CTL_STROBE", Dec 8);
  ("SND_SOC_TPLG_DAPM_CTL_VOLSW", Dec 64); ("SND_SOC_TPLG_DAPM_CTL_ENUM_DOUBLE", Dec 65);
  ("SND_SOC_TPLG_DAPM_CTL_ENUM_VIRT", Dec 66); ("SND_SOC_TPLG_DAPM_CTL_ENUM_VALUE", Dec 67);
  ("SND_SOC_TPLG_DAPM_CTL_PIN", Dec 68); ("SND_SOC_TPLG_DAPM_INPUT", Dec 0);
  ("SND_SOC_TPLG_DAPM_OUTPUT", Dec 1); ("SND_SOC_TPLG_DAPM_MUX", Dec 2); ("SND_SOC_TPLG_DAPM_MIXER", Dec 3);
  ("SND_SOC_TPLG_DAPM_PGA", Dec 4); ("SND_SOC_TPLG_DAPM_OUT_DRV", Dec 5); ("SND_SOC_TPLG_DAPM_ADC", Dec 6);
  ("SND_SOC_TPLG_DAPM_DAC", Dec 7); ("SND_SOC_TPLG_DAPM_SWITCH", Dec 8); ("SND_SOC_TPLG_DAPM_PRE", Dec 9);
  ("SND_SOC_TPLG_DAPM_POST", Dec 10); ("SND_SOC_TPLG_DAPM_AIF_IN", Dec 11);
  ("SND_SOC_TPLG_DAPM_AIF_OUT", Dec 12); ("SND_SOC_TPLG_DAPM_DAI_IN", Dec 13);
  ("SND_SOC_TPLG_DAPM_DAI_OUT", Dec 14); ("SND_SOC_TPLG_DAPM_DAI_LINK", Dec 15);
  ("SND_SOC_TPLG_DAPM_BUFFER", Dec 16); ("SND_SOC_TPLG_DAPM_SCHEDULER", Dec 17);
  ("SND_SOC_TPLG_DAPM_EFFECT", Dec 18); ("SND_SOC_TPLG_DAPM_SIGGEN", Dec 19);
  ("SND_SOC_TPLG_DAPM_SRC", Dec 20); ("SND_SOC_TPLG_DAPM_ASRC", Dec 21); ("SND_SOC_TPLG_DAPM_ENCODER", Dec 22);
  ("SND_SOC_TPLG_DAPM_DECODER", Dec 23); ("SND_SOC_TPLG_DAPM_LAST", Ref "SND_SOC_TPLG_DAPM_DECODER");
  ("SND_SOC_TPLG_MAGIC", Hex 0x41536f43); ("SND_SOC_TPLG_ABI_VERSION", Hex 0x5);
  ("SND_SOC_TPLG_ABI_VERSION_MIN", Hex 0x4); ("SND_SOC_TPLG_TYPE_MIXER", Dec 1);
  ("SND_SOC_TPLG_TYPE_BYTES", Dec 2); ("SND_SOC_TPLG_TYPE_ENUM", Dec 3);
  ("SND_SOC_TPLG_TYPE_DAPM_GRAPH", Dec 4); ("SND_SOC_TPLG_TYPE_DAPM_WIDGET", Dec 5);
  ("SND_SOC_TPLG_TYPE_DAI_LINK", Dec 6); ("SND_SOC_TPLG_TYPE_PCM", Dec 7);
  ("SND_SOC_TPLG_TYPE_MANIFEST", Dec 8); ("SND_SOC_TPLG_TYPE_CODEC_LINK", Dec 9);
  ("SND_SOC_TPLG_TYPE_BACKEND_LINK", Dec 10); ("SND_SOC_TPLG_TYPE_PDATA", Dec 11);
  ("SND_SOC_TPLG_TYPE_DAI", Dec 12); ("SND_SOC_TPLG_TYPE_MAX", Ref "SND_SOC_TPLG_TYPE_DAI");
  ("SND_SOC_TPLG_TYPE_VENDOR_FW", Dec 1000); ("SND_SOC_TPLG_TYPE_VENDOR_CONFIG", Dec 1001);
  ("SND_SOC_TPLG_TYPE_VENDOR_COEFF", Dec 1002); ("SND_SOC_TPLG_TYPEVENDOR_CODEC", Dec 1003);
  ("SND_SOC_TPLG_STREAM_PLAYBACK", Dec 0); ("SND_SOC_TPLG_STREAM_CAPTURE", Dec 1);
  ("SND_SOC_TPLG_TUPLE_TYPE_UUID", Dec 0); ("SND_SOC_TPLG_TUPLE_TYPE_STRING", Dec 1);
  ("SND_SOC_TPLG_TUPLE_TYPE_BOOL", Dec 2); ("SND_SOC_TPLG_TUPLE_TYPE_BYTE", Dec 3);
  ("SND_SOC_TPLG_TUPLE_TYPE_WORD", Dec 4); ("SND_SOC_TPLG_TUPLE_TYPE_SHORT", Dec 5)].

Definition SND_SOC_TPLG_DAI_FLGBIT_SYMMETRIC_defs : defines := [
  ("SND_SOC_TPLG_DAI_FLGBIT_SYMMETRIC_RATES", Bin BShl (Dec 1) (Dec 0));
  ("SND_SOC_TPLG_DAI_FLGBIT_SYMMETRIC_CHANNELS", Bin BShl (Dec 1) (Dec 1));
  ("SND_SOC_TPLG_DAI_FLGBIT_SYMMETRIC_SAMPLEBITS", Bin BShl (Dec 1) (Dec 2))].

Definition SND_SOC_defs : defines := [
  ("SND_SOC_TPLG_DAI_CLK_GATE_UNDEFINED", Dec 0); ("SND_SOC_TPLG_DAI_CLK_GATE_GATED", Dec 1);
  ("SND_SOC_TPLG_DAI_CLK_GATE_CONT", Dec 2); ("SND_SOC_TPLG_MCLK_CO", Dec 0); ("SND_SOC_TPLG_MCLK_CI", Dec 1);
  ("SND_SOC_DAI_FORMAT_I2S", Dec 1); ("SND_SOC_DAI_FORMAT_RIGHT_J", Dec 2);
  ("SND_SOC_DAI_FORMAT_LEFT_J", Dec 3); ("SND_SOC_DAI_FORMAT_DSP_A", Dec 4);
  ("SND_SOC_DAI_FORMAT_DSP_B", Dec 5); ("SND_SOC_DAI_FORMAT_AC97", Dec 6); ("SND_SOC_DAI_FORMAT_PDM", Dec 7);
  ("SND_SOC_DAI_FORMAT_MSB", Ref "SND_SOC_DAI_FORMAT_LEFT_J");
  ("SND_SOC_DAI_FORMAT_LSB", Ref "SND_SOC_DAI_FORMAT_RIGHT_J")].

Definition SND_SOC_TPLG_LNK_FLGBIT_defs : defines := [
  ("SND_SOC_TPLG_LNK_FLGBIT_SYMMETRIC_RATES", Bin BShl (Dec 1) (Dec 0));
  ("SND_SOC_TPLG_LNK_FLGBIT_SYMMETRIC_CHANNELS", Bin BShl (Dec 1) (Dec 1));
  ("SND_SOC_TPLG_LNK_FLGBIT_SYMMETRIC_SAMPLEBITS", Bin BShl (Dec 1) (Dec 2));
  ("SND_SOC_TPLG_LNK_FLGBIT_VOICE_WAKEUP", Bin BShl (Dec 1) (Dec 3))].

Definition SND_SOC_TPLG_defs2 : defines := [
  ("SND_SOC_TPLG_BCLK_CM", Dec 0); ("SND_SOC_TPLG_BCLK_CS", Dec 1); ("SND_SOC_TPLG_FSYNC_CM", Dec 0);
  ("SND_SOC_TPLG_FSYNC_CS", Dec 1)].

Definition header : header := Header "include/sound/asoc.h" [
  SND_SOC_TPLG_defs; SND_SOC_TPLG_DAI_FLGBIT_SYMMETRIC_defs; SND_SOC_defs; SND_SOC_TPLG_LNK_FLGBIT_defs;
  SND_SOC_TPLG_defs2] [
] [].

End Asoc.

(** [include/sound/asound.h] *)

Module Asound.

Definition SNDRV_PCM_ACCESS_defs : defines := [
  ("SNDRV_PCM_ACCESS_MMAP_INTERLEAVED", Cast S32 (Dec 0));
  ("SNDRV_PCM_ACCESS_MMAP_NONINTERLEAVED", Cast S32 (Dec 1));
  ("SNDRV_PCM_ACCESS_MMAP_COMPLEX", Cast S32 (Dec 2)); ("SNDRV_PCM_ACCESS_RW_INTERLEAVED", Cast S32 (Dec 3));
  ("SNDRV_PCM_ACCESS_RW_NONINTERLEAVED", Cast S32 (Dec 4));
  ("SNDRV_PCM_ACCESS_LAST", Ref "SNDRV_PCM_ACCESS_RW_NONINTERLEAVED")].

Definition SNDRV_PCM_FORMAT_defs : defines := [
  ("SNDRV_PCM_FORMAT_S8", Cast S32 (Dec 0)); ("SNDRV_PCM_FORMAT_U8", Cast S32 (Dec 1));
  ("SNDRV_PCM_FORMAT_S16_LE", Cast S32 (Dec 2)); ("SNDRV_PCM_FORMAT_S16_BE", Cast S32 (Dec 3));
  ("SNDRV_PCM_FORMAT_U16_LE", Cast S32 (Dec 4)); ("SNDRV_PCM_FORMAT_U16_BE", Cast S32 (Dec 5));
  ("SNDRV_PCM_FORMAT_S24_LE", Cast S32 (Dec 6)); ("SNDRV_PCM_FORMAT_S24_BE", Cast S32 (Dec 7));
  ("SNDRV_PCM_FORMAT_U24_LE", Cast S32 (Dec 8)); ("SNDRV_PCM_FORMAT_U24_BE", Cast S32 (Dec 9));
  ("SNDRV_PCM_FORMAT_S32_LE", Cast S32 (Dec 10)); ("SNDRV_PCM_FORMAT_S32_BE", Cast S32 (Dec 11));
  ("SNDRV_PCM_FORMAT_U32_LE", Cast S32 (Dec 12)); ("SNDRV_PCM_FORMAT_U32_BE", Cast S32 (Dec 13));
  ("SNDRV_PCM_FORMAT_FLOAT_LE", Cast S32 (Dec 14)); ("SNDRV_PCM_FORMAT_FLOAT_BE", Cast S32 (Dec 15));
  ("SNDRV_PCM_FORMAT_FLOAT64_LE", Cast S32 (Dec 16)); ("SNDRV_PCM_FORMAT_FLOAT64_BE", Cast S32 (Dec 17));
  ("SNDRV_PCM_FORMAT_IEC958_SUBFRAME_LE", Cast S32 (Dec 18));
  ("SNDRV_PCM_FORMAT_IEC958_SUBFRAME_BE", Cast S32 (Dec 19)); ("SNDRV_PCM_FORMAT_MU_LAW", Cast S32 (Dec 20));
  ("SNDRV_PCM_FORMAT_A_LAW", Cast S32 (Dec 21)); ("SNDRV_PCM_FORMAT_IMA_ADPCM", Cast S32 (Dec 22));
  ("SNDRV_PCM_FORMAT_MPEG", Cast S32 (Dec 23)); ("SNDRV_PCM_FORMAT_GSM", Cast S32 (Dec 24));
  ("SNDRV_PCM_FORMAT_S20_LE", Cast S32 (Dec 25)); ("SNDRV_PCM_FORMAT_S20_BE", Cast S32 (Dec 26));
  ("SNDRV_PCM_FORMAT_U20_LE", Cast S32 (Dec 27)); ("SNDRV_PCM_FORMAT_U20_BE", Cast S32 (Dec 28));
  ("SNDRV_PCM_FORMAT_SPECIAL", Cast S32 (Dec 31)); ("SNDRV_PCM_FORMAT_S24_3LE", Cast S32 (Dec 32));
  ("SNDRV_PCM_FORMAT_S24_3BE", Cast S32 (Dec 33)); ("SNDRV_PCM_FORMAT_U24_3LE", Cast S32 (Dec 34));
  ("SNDRV_PCM_FORMAT_U24_3BE", Cast S32 (Dec 35)); ("SNDRV_PCM_FORMAT_S20_3LE", Cast S32 (Dec 36));
  ("SNDRV_PCM_FORMAT_S20_3BE", Cast S32 (Dec 37)); ("SNDRV_PCM_FORMAT_U20_3LE", Cast S32 (Dec 38));
  ("SNDRV_PCM_FORMAT_U20_3BE", Cast S32 (Dec 39)); ("SNDRV_PCM_FORMAT_S18_3LE", Cast S32 (Dec 40));
  ("SNDRV_PCM_FORMAT_S18_3BE", Cast S32 (Dec 41)); ("SNDRV_PCM_FORMAT_U18_3LE", Cast S32 (Dec 42));
  ("SNDRV_PCM_FORMAT_U18_3BE", Cast S32 (Dec 43)); ("SNDRV_PCM_FORMAT_G723_24", Cast S32 (Dec 44));
  ("SNDRV_PCM_FORMAT_G723_24_1B", Cast S32 (Dec 45)); ("SNDRV_PCM_FORMAT_G723_40", Cast S32 (Dec 46));
  ("SNDRV_PCM_FORMAT_G723_40_1B", Cast S32 (Dec 47)); ("SNDRV_PCM_FORMAT_DSD_U8", Cast S32 (Dec 48));
  ("SNDRV_PCM_FORMAT_DSD_U16_LE", Cast S32 (Dec 49)); ("SNDRV_PCM_FORMAT_DSD_U32_LE", Cast S32 (Dec 50));
  ("SNDRV_PCM_FORMAT_DSD_U16_BE", Cast S32 (Dec 51)); ("SNDRV_PCM_FORMAT_DSD_U32_BE", Cast S32 (Dec 52));
  ("SNDRV_PCM_FORMAT_LAST", Ref "SNDRV_PCM_FORMAT_DSD_U32_BE");
  ("SNDRV_PCM_FORMAT_FIRST", Ref "SNDRV_PCM_FORMAT_S8")].

Definition SNDRV_PCM_SUBFORMAT_defs : defines := [
  ("SNDRV_PCM_SUBFORMAT_STD", Cast S32 (Dec 0)); ("SNDRV_PCM_SUBFORMAT_LAST", Ref "SNDRV_PCM_SUBFORMAT_STD")].

Definition SNDRV_PCM_INFO_defs : defines := [
  ("SNDRV_PCM_INFO_MMAP", Hex 0x00000001); ("SNDRV_PCM_INFO_MMAP_VALID", Hex 0x00000002);
  ("SNDRV_PCM_INFO_DOUBLE", Hex 0x00000004); ("SNDRV_PCM_INFO_BATCH", Hex 0x00000010);
  ("SNDRV_PCM_INFO_SYNC_APPLPTR", Hex 0x00000020); ("SNDRV_PCM_INFO_INTERLEAVED", Hex 0x00000100);
  ("SNDRV_PCM_INFO_NONINTERLEAVED", Hex 0x00000200); ("SNDRV_PCM_INFO_COMPLEX", Hex 0x00000400);
  ("SNDRV_PCM_INFO_BLOCK_TRANSFER", Hex 0x00010000); ("SNDRV_PCM_INFO_OVERRANGE", Hex 0x00020000);
  ("SNDRV_PCM_INFO_RESUME", Hex 0x00040000); ("SNDRV_PCM_INFO_PAUSE", Hex 0x00080000);
  ("SNDRV_PCM_INFO_HALF_DUPLEX", Hex 0x00100000); ("SNDRV_PCM_INFO_JOINT_DUPLEX", Hex 0x00200000);
  ("SNDRV_PCM_INFO_SYNC_START", Hex 0x00400000); ("SNDRV_PCM_INFO_NO_PERIOD_WAKEUP", Hex 0x00800000);
  ("SNDRV_PCM_INFO_HAS_WALL_CLOCK", Hex 0x01000000); ("SNDRV_PCM_INFO_HAS_LINK_ATIME", Hex 0x01000000);
  ("SNDRV_PCM_INFO_HAS_LINK_ABSOLUTE_ATIME", Hex 0x02000000);
  ("SNDRV_PCM_INFO_HAS_LINK_ESTIMATED_ATIME", Hex 0x04000000);
  ("SNDRV_PCM_INFO_HAS_LINK_SYNCHRONIZED_ATIME", Hex 0x08000000)].

Definition SNDRV_PCM_INFO_defs2 : defines := [
  ("SNDRV_PCM_INFO_DRAIN_TRIGGER", Hex 0x40000000); ("SNDRV_PCM_INFO_FIFO_IN_FRAMES", Hex 0x80000000)].

Definition SNDRV_PCM_STATE_defs : defines := [
  ("SNDRV_PCM_STATE_OPEN", Cast S32 (Dec 0)); ("SNDRV_PCM_STATE_SETUP", Cast S32 (Dec 1));
  ("SNDRV_PCM_STATE_PREPARED", Cast S32 (Dec 2)); ("SNDRV_PCM_STATE_RUNNING", Cast S32 (Dec 3));
  ("SNDRV_PCM_STATE_XRUN", Cast S32 (Dec 4)); ("SNDRV_PCM_STATE_DRAINING", Cast S32 (Dec 5));
  ("SNDRV_PCM_STATE_PAUSED", Cast S32 (Dec 6)); ("SNDRV_PCM_STATE_SUSPENDED", Cast S32 (Dec 7));
  ("SNDRV_PCM_STATE_DISCONNECTED", Cast S32 (Dec 8));
  ("SNDRV_PCM_STATE_LAST", Ref "SNDRV_PCM_STATE_DISCONNECTED")].

Definition SNDRV_PCM_HW_PARAM_defs : defines := [
  ("SNDRV_PCM_HW_PARAM_FORMAT", Dec 1); ("SNDRV_PCM_HW_PARAM_FRAME_BITS", Dec 9);
  ("SNDRV_PCM_HW_PARAM_CHANNELS", Dec 10); ("SNDRV_PCM_HW_PARAM_RATE", Dec 11);
  ("SNDRV_PCM_HW_PARAM_PERIOD_TIME", Dec 12); ("SNDRV_PCM_HW_PARAM_PERIOD_SIZE", Dec 13);
  ("SNDRV_PCM_HW_PARAM_PERIOD_BYTES", Dec 14); ("SNDRV_PCM_HW_PARAM_PERIODS", Dec 15);
  ("SNDRV_PCM_HW_PARAM_BUFFER_TIME", Dec 16); ("SNDRV_PCM_HW_PARAM_BUFFER_SIZE", Dec 17);
  ("SNDRV_PCM_HW_PARAM_BUFFER_BYTES", Dec 18)].

Definition SNDRV_PCM_HW_PARAMS_defs : defines := [
  ("SNDRV_PCM_HW_PARAMS_NORESAMPLE", Bin BShl (Dec 1) (Dec 0));
  ("SNDRV_PCM_HW_PARAMS_EXPORT_BUFFER", Bin BShl (Dec 1) (Dec 1));
  ("SNDRV_PCM_HW_PARAMS_NO_PERIOD_WAKEUP", Bin BShl (Dec 1) (Dec 2))].

Definition SNDRV_PCM_SYNC_PTR_defs : defines := [
  ("SNDRV_PCM_SYNC_PTR_HWSYNC", Bin BShl (Dec 1) (Dec 0));
  ("SNDRV_PCM_SYNC_PTR_APPL", Bin BShl (Dec 1) (Dec 1));
  ("SNDRV_PCM_SYNC_PTR_AVAIL_MIN", Bin BShl (Dec 1) (Dec 2))].

Definition SNDRV_CHMAP_defs : defines := [
  ("SNDRV_CHMAP_POSITION_MASK", Hex 0xffff); ("SNDRV_CHMAP_PHASE_INVERSE", Bin BShl (Hex 0x01) (Dec 16));
  ("SNDRV_CHMAP_DRIVER_SPEC", Bin BShl (Hex 0x02) (Dec 16))].

Definition SNDRV_RAWMIDI_INFO_defs : defines := [
  ("SNDRV_RAWMIDI_INFO_OUTPUT", Hex 0x00000001); ("SNDRV_RAWMIDI_INFO_INPUT", Hex 0x00000002);
  ("SNDRV_RAWMIDI_INFO_DUPLEX", Hex 0x00000004)].

Definition SNDRV_TIMER_defs : defines := [
  ("SNDRV_TIMER_GLOBAL_SYSTEM", Dec 0); ("SNDRV_TIMER_GLOBAL_RTC", Dec 1); ("SNDRV_TIMER_GLOBAL_HPET", Dec 2);
  ("SNDRV_TIMER_GLOBAL_HRTIMER", Dec 3); ("SNDRV_TIMER_FLG_SLAVE", Bin BShl (Dec 1) (Dec 0))].

Definition SNDRV_TIMER_PSFLG_defs : defines := [
  ("SNDRV_TIMER_PSFLG_AUTO", Bin BShl (Dec 1) (Dec 0));
  ("SNDRV_TIMER_PSFLG_EXCLUSIVE", Bin BShl (Dec 1) (Dec 1));
  ("SNDRV_TIMER_PSFLG_EARLY_EVENT", Bin BShl (Dec 1) (Dec 2))].

Definition SNDRV_CTL_ELEM_TYPE_defs : defines := [
  ("SNDRV_CTL_ELEM_TYPE_NONE", Cast S32 (Dec 0)); ("SNDRV_CTL_ELEM_TYPE_BOOLEAN", Cast S32 (Dec 1));
  ("SNDRV_CTL_ELEM_TYPE_INTEGER", Cast S32 (Dec 2)); ("SNDRV_CTL_ELEM_TYPE_ENUMERATED", Cast S32 (Dec 3));
  ("SNDRV_CTL_ELEM_TYPE_BYTES", Cast S32 (Dec 4)); ("SNDRV_CTL_ELEM_TYPE_IEC958", Cast S32 (Dec 5));
  ("SNDRV_CTL_ELEM_TYPE_INTEGER64", Cast S32 (Dec 6));
  ("SNDRV_CTL_ELEM_TYPE_LAST", Ref "SNDRV_CTL_ELEM_TYPE_INTEGER64")].

Definition SNDRV_CTL_ELEM_IFACE_defs : defines := [
  ("SNDRV_CTL_ELEM_IFACE_CARD", Cast S32 (Dec 0)); ("SNDRV_CTL_ELEM_IFACE_HWDEP", Cast S32 (Dec 1));
  ("SNDRV_CTL_ELEM_IFACE_MIXER", Cast S32 (Dec 2)); ("SNDRV_CTL_ELEM_IFACE_PCM", Cast S32 (Dec 3));
  ("SNDRV_CTL_ELEM_IFACE_RAWMIDI", Cast S32 (Dec 4)); ("SNDRV_CTL_ELEM_IFACE_TIMER", Cast S32 (Dec 5));
  ("SNDRV_CTL_ELEM_IFACE_SEQUENCER", Cast S32 (Dec 6));
  ("SNDRV_CTL_ELEM_IFACE_LAST", Ref "SNDRV_CTL_ELEM_IFACE_SEQUENCER")].

Definition SNDRV_CTL_ELEM_ACCESS_defs : defines := [
  ("SNDRV_CTL_ELEM_ACCESS_READ", Bin BShl (Dec 1) (Dec 0));
  ("SNDRV_CTL_ELEM_ACCESS_WRITE", Bin BShl (Dec 1) (Dec 1));
  ("SNDRV_CTL_ELEM_ACCESS_READWRITE", Bin BOr (Ref "SNDRV_CTL_ELEM_ACCESS_READ") (Ref "SNDRV_CTL_ELEM_ACCESS_WRITE"));
  ("SNDRV_CTL_ELEM_ACCESS_VOLATILE", Bin BShl (Dec 1) (Dec 2));
  ("SNDRV_CTL_ELEM_ACCESS_TLV_READ", Bin BShl (Dec 1) (Dec 4));
  ("SNDRV_CTL_ELEM_ACCESS_TLV_WRITE", Bin BShl (Dec 1) (Dec 5));
  ("SNDRV_CTL_ELEM_ACCESS_TLV_READWRITE", Bin BOr (Ref "SNDRV_CTL_ELEM_ACCESS_TLV_READ") (Ref "SNDRV_CTL_ELEM_ACCESS_TLV_WRITE"));
  ("SNDRV_CTL_ELEM_ACCESS_TLV_COMMAND", Bin BShl (Dec 1) (Dec 6));
  ("SNDRV_CTL_ELEM_ACCESS_INACTIVE", Bin BShl (Dec 1) (Dec 8));
  ("SNDRV_CTL_ELEM_ACCESS_LOCK", Bin BShl (Dec 1) (Dec 9));
  ("SNDRV_CTL_ELEM_ACCESS_OWNER", Bin BShl (Dec 1) (Dec 10));
  ("SNDRV_CTL_ELEM_ACCESS_TLV_CALLBACK", Bin BShl (Dec 1) (Dec 28));
  ("SNDRV_CTL_ELEM_ACCESS_USER", Bin BShl (Dec 1) (Dec 29))].

Definition SNDRV_CTL_POWER_defs : defines := [
  ("SNDRV_CTL_POWER_D0", Hex 0x0000); ("SNDRV_CTL_POWER_D1", Hex 0x0100); ("SNDRV_CTL_POWER_D2", Hex 0x0200);
  ("SNDRV_CTL_POWER_D3", Hex 0x0300);
  ("SNDRV_CTL_POWER_D3hot", Bin BOr (Ref "SNDRV_CTL_POWER_D3") (Hex 0x0000));
  ("SNDRV_CTL_POWER_D3cold", Bin BOr (Ref "SNDRV_CTL_POWER_D3") (Hex 0x0001))].

Definition SNDRV_CTL_EVENT_MASK_defs : defines := [
  ("SNDRV_CTL_EVENT_MASK_VALUE", Bin BShl (Dec 1) (Dec 0));
  ("SNDRV_CTL_EVENT_MASK_INFO", Bin BShl (Dec 1) (Dec 1));
  ("SNDRV_CTL_EVENT_MASK_ADD", Bin BShl (Dec 1) (Dec 2));
  ("SNDRV_CTL_EVENT_MASK_TLV", Bin BShl (Dec 1) (Dec 3)); ("SNDRV_CTL_EVENT_MASK_REMOVE", Un BitNot (DecU 0))].

Definition SNDRV_HWDEP_IFACE_enum : enumeration := [
  ("SNDRV_HWDEP_IFACE_OPL2", Some (Dec 0)); ("SNDRV_HWDEP_IFACE_OPL3", None); ("SNDRV_HWDEP_IFACE_OPL4", None);
  ("SNDRV_HWDEP_IFACE_SB16CSP", None); ("SNDRV_HWDEP_IFACE_EMU10K1", None); ("SNDRV_HWDEP_IFACE_YSS225", None);
  ("SNDRV_HWDEP_IFACE_ICS2115", None); ("SNDRV_HWDEP_IFACE_SSCAPE", None); ("SNDRV_HWDEP_IFACE_VX", None);
  ("SNDRV_HWDEP_IFACE_MIXART", None); ("SNDRV_HWDEP_IFACE_USX2Y", None);
  ("SNDRV_HWDEP_IFACE_EMUX_WAVETABLE", None); ("SNDRV_HWDEP_IFACE_BLUETOOTH", None);
  ("SNDRV_HWDEP_IFACE_USX2Y_PCM", None); ("SNDRV_HWDEP_IFACE_PCXHR", None); ("SNDRV_HWDEP_IFACE_SB_RC", None);
  ("SNDRV_HWDEP_IFACE_HDA", None); ("SNDRV_HWDEP_IFACE_USB_STREAM", None); ("SNDRV_HWDEP_IFACE_FW_DICE", None);
  ("SNDRV_HWDEP_IFACE_FW_FIREWORKS", None); ("SNDRV_HWDEP_IFACE_FW_BEBOB", None);
  ("SNDRV_HWDEP_IFACE_FW_OXFW", None); ("SNDRV_HWDEP_IFACE_FW_DIGI00X", None);
  ("SNDRV_HWDEP_IFACE_FW_TASCAM", None); ("SNDRV_HWDEP_IFACE_LINE6", None);
  ("SNDRV_HWDEP_IFACE_FW_MOTU", None); ("SNDRV_HWDEP_IFACE_FW_FIREFACE", None);
  ("SNDRV_HWDEP_IFACE_LAST", Some (Ref "SNDRV_HWDEP_IFACE_FW_FIREFACE"))].

Definition SNDRV_PCM_CLASS_enum : enumeration := [
  ("SNDRV_PCM_CLASS_GENERIC", Some (Dec 0)); ("SNDRV_PCM_CLASS_MULTI", None); ("SNDRV_PCM_CLASS_MODEM", None);
  ("SNDRV_PCM_CLASS_DIGITIZER", None); ("SNDRV_PCM_CLASS_LAST", Some (Ref "SNDRV_PCM_CLASS_DIGITIZER"))].

Definition SNDRV_PCM_SUBCLASS_enum : enumeration := [
  ("SNDRV_PCM_SUBCLASS_GENERIC_MIX", Some (Dec 0)); ("SNDRV_PCM_SUBCLASS_MULTI_MIX", None);
  ("SNDRV_PCM_SUBCLASS_LAST", Some (Ref "SNDRV_PCM_SUBCLASS_MULTI_MIX"))].

Definition SNDRV_PCM_STREAM_enum : enumeration := [
  ("SNDRV_PCM_STREAM_PLAYBACK", Some (Dec 0)); ("SNDRV_PCM_STREAM_CAPTURE", None);
  ("SNDRV_PCM_STREAM_LAST", Some (Ref "SNDRV_PCM_STREAM_CAPTURE"))].

Definition SNDRV_PCM_MMAP_OFFSET_enum : enumeration := [
  ("SNDRV_PCM_MMAP_OFFSET_DATA", Some (Hex 0x00000000));
  ("SNDRV_PCM_MMAP_OFFSET_STATUS_OLD", Some (Hex 0x80000000));
  ("SNDRV_PCM_MMAP_OFFSET_CONTROL_OLD", Some (Hex 0x81000000));
  ("SNDRV_PCM_MMAP_OFFSET_STATUS_NEW", Some (Hex 0x82000000));
  ("SNDRV_PCM_MMAP_OFFSET_CONTROL_NEW", Some (Hex 0x83000000));
  ("SNDRV_PCM_MMAP_OFFSET_STATUS", Some (Ref "SNDRV_PCM_MMAP_OFFSET_STATUS_OLD"));
  ("SNDRV_PCM_MMAP_OFFSET_CONTROL", Some (Ref "SNDRV_PCM_MMAP_OFFSET_CONTROL_OLD"))].

Definition SNDRV_PCM_TSTAMP_enum : enumeration := [
  ("SNDRV_PCM_TSTAMP_NONE", Some (Dec 0)); ("SNDRV_PCM_TSTAMP_ENABLE", None);
  ("SNDRV_PCM_TSTAMP_LAST", Some (Ref "SNDRV_PCM_TSTAMP_ENABLE"))].

Definition SNDRV_PCM_AUDIO_TSTAMP_TYPE_enum : enumeration := [
  ("SNDRV_PCM_AUDIO_TSTAMP_TYPE_COMPAT", Some (Dec 0)); ("SNDRV_PCM_AUDIO_TSTAMP_TYPE_DEFAULT", Some (Dec 1));
  ("SNDRV_PCM_AUDIO_TSTAMP_TYPE_LINK", Some (Dec 2));
  ("SNDRV_PCM_AUDIO_TSTAMP_TYPE_LINK_ABSOLUTE", Some (Dec 3));
  ("SNDRV_PCM_AUDIO_TSTAMP_TYPE_LINK_ESTIMATED", Some (Dec 4));
  ("SNDRV_PCM_AUDIO_TSTAMP_TYPE_LINK_SYNCHRONIZED", Some (Dec 5));
  ("SNDRV_PCM_AUDIO_TSTAMP_TYPE_LAST", Some (Ref "SNDRV_PCM_AUDIO_TSTAMP_TYPE_LINK_SYNCHRONIZED"))].

Definition SNDRV_PCM_TSTAMP_TYPE_enum : enumeration := [
  ("SNDRV_PCM_TSTAMP_TYPE_GETTIMEOFDAY", Some (Dec 0)); ("SNDRV_PCM_TSTAMP_TYPE_MONOTONIC", None);
  ("SNDRV_PCM_TSTAMP_TYPE_MONOTONIC_RAW", None);
  ("SNDRV_PCM_TSTAMP_TYPE_LAST", Some (Ref "SNDRV_PCM_TSTAMP_TYPE_MONOTONIC_RAW"))].

Definition SNDRV_CHMAP_enum : enumeration := [
  ("SNDRV_CHMAP_UNKNOWN", Some (Dec 0)); ("SNDRV_CHMAP_NA", None); ("SNDRV_CHMAP_MONO", None);
  ("SNDRV_CHMAP_FL", None); ("SNDRV_CHMAP_FR", None); ("SNDRV_CHMAP_RL", None); ("SNDRV_CHMAP_RR", None);
  ("SNDRV_CHMAP_FC", None); ("SNDRV_CHMAP_LFE", None); ("SNDRV_CHMAP_SL", None); ("SNDRV_CHMAP_SR", None);
  ("SNDRV_CHMAP_RC", None); ("SNDRV_CHMAP_FLC", None); ("SNDRV_CHMAP_FRC", None); ("SNDRV_CHMAP_RLC", None);
  ("SNDRV_CHMAP_RRC", None); ("SNDRV_CHMAP_FLW", None); ("SNDRV_CHMAP_FRW", None); ("SNDRV_CHMAP_FLH", None);
  ("SNDRV_CHMAP_FCH", None); ("SNDRV_CHMAP_FRH", None); ("SNDRV_CHMAP_TC", None); ("SNDRV_CHMAP_TFL", None);
  ("SNDRV_CHMAP_TFR", None); ("SNDRV_CHMAP_TFC", None); ("SNDRV_CHMAP_TRL", None); ("SNDRV_CHMAP_TRR", None);
  ("SNDRV_CHMAP_TRC", None); ("SNDRV_CHMAP_TFLC", None); ("SNDRV_CHMAP_TFRC", None); ("SNDRV_CHMAP_TSL", None);
  ("SNDRV_CHMAP_TSR", None); ("SNDRV_CHMAP_LLFE", None); ("SNDRV_CHMAP_RLFE", None); ("SNDRV_CHMAP_BC", None);
  ("SNDRV_CHMAP_BLC", None); ("SNDRV_CHMAP_BRC", None); ("SNDRV_CHMAP_LAST", Some (Ref "SNDRV_CHMAP_BRC"))].

Definition SNDRV_RAWMIDI_STREAM_enum : enumeration := [
  ("SNDRV_RAWMIDI_STREAM_OUTPUT", Some (Dec 0)); ("SNDRV_RAWMIDI_STREAM_INPUT", None);
  ("SNDRV_RAWMIDI_STREAM_LAST", Some (Ref "SNDRV_RAWMIDI_STREAM_INPUT"))].

Definition SNDRV_TIMER_CLASS_enum : enumeration := [
  ("SNDRV_TIMER_CLASS_NONE", Some (Un Neg (Dec 1))); ("SNDRV_TIMER_CLASS_SLAVE", Some (Dec 0));
  ("SNDRV_TIMER_CLASS_GLOBAL", None); ("SNDRV_TIMER_CLASS_CARD", None); ("SNDRV_TIMER_CLASS_PCM", None);
  ("SNDRV_TIMER_CLASS_LAST", Some (Ref "SNDRV_TIMER_CLASS_PCM"))].

Definition SNDRV_TIMER_SCLASS_enum : enumeration := [
  ("SNDRV_TIMER_SCLASS_NONE", Some (Dec 0)); ("SNDRV_TIMER_SCLASS_APPLICATION", None);
  ("SNDRV_TIMER_SCLASS_SEQUENCER", None); ("SNDRV_TIMER_SCLASS_OSS_SEQUENCER", None);
  ("SNDRV_TIMER_SCLASS_LAST", Some (Ref "SNDRV_TIMER_SCLASS_OSS_SEQUENCER"))].

Definition SNDRV_TIMER_EVENT_enum : enumeration := [
  ("SNDRV_TIMER_EVENT_RESOLUTION", Some (Dec 0)); ("SNDRV_TIMER_EVENT_TICK", None);
  ("SNDRV_TIMER_EVENT_START", None); ("SNDRV_TIMER_EVENT_STOP", None); ("SNDRV_TIMER_EVENT_CONTINUE", None);
  ("SNDRV_TIMER_EVENT_PAUSE", None); ("SNDRV_TIMER_EVENT_EARLY", None); ("SNDRV_TIMER_EVENT_SUSPEND", None);
  ("SNDRV_TIMER_EVENT_RESUME", None);
  ("SNDRV_TIMER_EVENT_MSTART", Some (Bin BAdd (Ref "SNDRV_TIMER_EVENT_START") (Dec 10)));
  ("SNDRV_TIMER_EVENT_MSTOP", Some (Bin BAdd (Ref "SNDRV_TIMER_EVENT_STOP") (Dec 10)));
  ("SNDRV_TIMER_EVENT_MCONTINUE", Some (Bin BAdd (Ref "SNDRV_TIMER_EVENT_CONTINUE") (Dec 10)));
  ("SNDRV_TIMER_EVENT_MPAUSE", Some (Bin BAdd (Ref "SNDRV_TIMER_EVENT_PAUSE") (Dec 10)));
  ("SNDRV_TIMER_EVENT_MSUSPEND", Some (Bin BAdd (Ref "SNDRV_TIMER_EVENT_SUSPEND") (Dec 10)));
  ("SNDRV_TIMER_EVENT_MRESUME", Some (Bin BAdd (Ref "SNDRV_TIMER_EVENT_RESUME") (Dec 10)))].

Definition sndrv_ctl_event_type_enum : enumeration := [
  ("SNDRV_CTL_EVENT_ELEM", Some (Dec 0)); ("SNDRV_CTL_EVENT_LAST", Some (Ref "SNDRV_CTL_EVENT_ELEM"))].

Definition header : header := Header "include/sound/asound.h" [
  SNDRV_PCM_ACCESS_defs; SNDRV_PCM_FORMAT_defs; SNDRV_PCM_SUBFORMAT_defs; SNDRV_PCM_INFO_defs;
  SNDRV_PCM_INFO_defs2; SNDRV_PCM_STATE_defs; SNDRV_PCM_HW_PARAM_defs; SNDRV_PCM_HW_PARAMS_defs;
  SNDRV_PCM_SYNC_PTR_defs; SNDRV_CHMAP_defs; SNDRV_RAWMIDI_INFO_defs; SNDRV_TIMER_defs; SNDRV_TIMER_PSFLG_defs;
  SNDRV_CTL_ELEM_TYPE_defs; SNDRV_CTL_ELEM_IFACE_defs; SNDRV_CTL_ELEM_ACCESS_defs; SNDRV_CTL_POWER_defs;
  SNDRV_CTL_EVENT_MASK_defs] [
  SNDRV_HWDEP_IFACE_enum; SNDRV_PCM_CLASS_enum; SNDRV_PCM_SUBCLASS_enum; SNDRV_PCM_STREAM_enum;
  SNDRV_PCM_MMAP_OFFSET_enum; SNDRV_PCM_TSTAMP_enum; SNDRV_PCM_AUDIO_TSTAMP_TYPE_enum;
  SNDRV_PCM_TSTAMP_TYPE_enum; SNDRV_CHMAP_enum; SNDRV_RAWMIDI_STREAM_enum; SNDRV_TIMER_CLASS_enum;
  SNDRV_TIMER_SCLASS_enum; SNDRV_TIMER_EVENT_enum; sndrv_ctl_event_type_enum] [].

End Asound.

(** [include/sound/asound_fm.h] *)

Module Asound_fm.

Definition SNDRV_DM_FM_MODE_defs : defines := [
  ("SNDRV_DM_FM_MODE_OPL2", Hex 0x00); ("SNDRV_DM_FM_MODE_OPL3", Hex 0x01)].

Definition SNDRV_DM_FM_OSS_IOCTL_defs : defines := [
  ("SNDRV_DM_FM_OSS_IOCTL_RESET", Hex 0x20); ("SNDRV_DM_FM_OSS_IOCTL_PLAY_NOTE", Hex 0x21);
  ("SNDRV_DM_FM_OSS_IOCTL_SET_VOICE", Hex 0x22); ("SNDRV_DM_FM_OSS_IOCTL_SET_PARAMS", Hex 0x23);
  ("SNDRV_DM_FM_OSS_IOCTL_SET_MODE", Hex 0x24); ("SNDRV_DM_FM_OSS_IOCTL_SET_OPL", Hex 0x25)].

Definition header : header := Header "include/sound/asound_fm.h" [
  SNDRV_DM_FM_MODE_defs; SNDRV_DM_FM_OSS_IOCTL_defs] [
] [].

End Asound_fm.

(** [include/sound/emu10k1.h] *)

Module Emu10k1.

Definition EMU10K1_CARD_CREATIVE_defs : defines := [
  ("EMU10K1_CARD_CREATIVE", Hex 0x00000000); ("EMU10K1_CARD_EMUAPS", Hex 0x00000001);
  ("EMU10K1_FX8010_PCM_COUNT", Dec 8); ("iMAC0", Hex 0x00); ("iMAC1", Hex 0x01); ("iMAC2", Hex 0x02);
  ("iMAC3", Hex 0x03); ("iMACINT0", Hex 0x04); ("iMACINT1", Hex 0x05); ("iACC3", Hex 0x06);
  ("iMACMV", Hex 0x07); ("iANDXOR", Hex 0x08); ("iTSTNEG", Hex 0x09); ("iLIMITGE", Hex 0x0a);
  ("iLIMITLT", Hex 0x0b); ("iLOG", Hex 0x0c); ("iEXP", Hex 0x0d); ("iINTERP", Hex 0x0e); ("iSKIP", Hex 0x0f);
  ("C_00000000", Hex 0x40); ("C_00000001", Hex 0x41); ("C_00000002", Hex 0x42); ("C_00000003", Hex 0x43);
  ("C_00000004", Hex 0x44); ("C_00000008", Hex 0x45); ("C_00000010", Hex 0x46); ("C_00000020", Hex 0x47);
  ("C_00000100", Hex 0x48); ("C_00010000", Hex 0x49); ("C_00080000", Hex 0x4a); ("C_10000000", Hex 0x4b);
  ("C_20000000", Hex 0x4c); ("C_40000000", Hex 0x4d); ("C_80000000", Hex 0x4e); ("C_7fffffff", Hex 0x4f);
  ("C_ffffffff", Hex 0x50); ("C_fffffffe", Hex 0x51); ("C_c0000000", Hex 0x52); ("C_4f1bbcdc", Hex 0x53);
  ("C_5a7ef9db", Hex 0x54); ("C_00100000", Hex 0x55); ("GPR_ACCU", Hex 0x56); ("GPR_COND", Hex 0x57);
  ("GPR_NOISE0", Hex 0x58); ("GPR_NOISE1", Hex 0x59); ("GPR_IRQ", Hex 0x5a); ("GPR_DBAC", Hex 0x5b);
  ("CC_REG_NORMALIZED", Ref "C_00000001"); ("CC_REG_BORROW", Ref "C_00000002");
  ("CC_REG_MINUS", Ref "C_00000004"); ("CC_REG_ZERO", Ref "C_00000008"); ("CC_REG_SATURATE", Ref "C_00000010");
  ("CC_REG_NONZERO", Ref "C_00000100"); ("FXBUS_PCM_LEFT", Hex 0x00); ("FXBUS_PCM_RIGHT", Hex 0x01);
  ("FXBUS_PCM_LEFT_REAR", Hex 0x02); ("FXBUS_PCM_RIGHT_REAR", Hex 0x03); ("FXBUS_MIDI_LEFT", Hex 0x04);
  ("FXBUS_MIDI_RIGHT", Hex 0x05); ("FXBUS_PCM_CENTER", Hex 0x06); ("FXBUS_PCM_LFE", Hex 0x07);
  ("FXBUS_PCM_LEFT_FRONT", Hex 0x08); ("FXBUS_PCM_RIGHT_FRONT", Hex 0x09); ("FXBUS_MIDI_REVERB", Hex 0x0c);
  ("FXBUS_MIDI_CHORUS", Hex 0x0d); ("FXBUS_PCM_LEFT_SIDE", Hex 0x0e); ("FXBUS_PCM_RIGHT_SIDE", Hex 0x0f);
  ("FXBUS_PT_LEFT", Hex 0x14); ("FXBUS_PT_RIGHT", Hex 0x15); ("EXTIN_AC97_L", Hex 0x00);
  ("EXTIN_AC97_R", Hex 0x01); ("EXTIN_SPDIF_CD_L", Hex 0x02); ("EXTIN_SPDIF_CD_R", Hex 0x03);
  ("EXTIN_ZOOM_L", Hex 0x04); ("EXTIN_ZOOM_R", Hex 0x05); ("EXTIN_TOSLINK_L", Hex 0x06);
  ("EXTIN_TOSLINK_R", Hex 0x07); ("EXTIN_LINE1_L", Hex 0x08); ("EXTIN_LINE1_R", Hex 0x09);
  ("EXTIN_COAX_SPDIF_L", Hex 0x0a); ("EXTIN_COAX_SPDIF_R", Hex 0x0b); ("EXTIN_LINE2_L", Hex 0x0c);
  ("EXTIN_LINE2_R", Hex 0x0d)].

Definition EXTOUT_AC97_L_defs : defines := [
  ("EXTOUT_AC97_L", Hex 0x00); ("EXTOUT_AC97_R", Hex 0x01); ("EXTOUT_TOSLINK_L", Hex 0x02);
  ("EXTOUT_TOSLINK_R", Hex 0x03); ("EXTOUT_AC97_CENTER", Hex 0x04); ("EXTOUT_AC97_LFE", Hex 0x05);
  ("EXTOUT_HEADPHONE_L", Hex 0x06); ("EXTOUT_HEADPHONE_R", Hex 0x07); ("EXTOUT_REAR_L", Hex 0x08);
  ("EXTOUT_REAR_R", Hex 0x09); ("EXTOUT_ADC_CAP_L", Hex 0x0a); ("EXTOUT_ADC_CAP_R", Hex 0x0b);
  ("EXTOUT_MIC_CAP", Hex 0x0c); ("EXTOUT_AC97_REAR_L", Hex 0x0d); ("EXTOUT_AC97_REAR_R", Hex 0x0e);
  ("EXTOUT_ACENTER", Hex 0x11); ("EXTOUT_ALFE", Hex 0x12); ("A_EXTIN_AC97_L", Hex 0x00);
  ("A_EXTIN_AC97_R", Hex 0x01); ("A_EXTIN_SPDIF_CD_L", Hex 0x02); ("A_EXTIN_SPDIF_CD_R", Hex 0x03);
  ("A_EXTIN_OPT_SPDIF_L", Hex 0x04); ("A_EXTIN_OPT_SPDIF_R", Hex 0x05); ("A_EXTIN_LINE2_L", Hex 0x08);
  ("A_EXTIN_LINE2_R", Hex 0x09); ("A_EXTIN_ADC_L", Hex 0x0a); ("A_EXTIN_ADC_R", Hex 0x0b);
  ("A_EXTIN_AUX2_L", Hex 0x0c); ("A_EXTIN_AUX2_R", Hex 0x0d); ("A_EXTOUT_FRONT_L", Hex 0x00);
  ("A_EXTOUT_FRONT_R", Hex 0x01); ("A_EXTOUT_CENTER", Hex 0x02); ("A_EXTOUT_LFE", Hex 0x03);
  ("A_EXTOUT_HEADPHONE_L", Hex 0x04); ("A_EXTOUT_HEADPHONE_R", Hex 0x05); ("A_EXTOUT_REAR_L", Hex 0x06);
  ("A_EXTOUT_REAR_R", Hex 0x07); ("A_EXTOUT_AFRONT_L", Hex 0x08); ("A_EXTOUT_AFRONT_R", Hex 0x09);
  ("A_EXTOUT_ACENTER", Hex 0x0a); ("A_EXTOUT_ALFE", Hex 0x0b); ("A_EXTOUT_ASIDE_L", Hex 0x0c);
  ("A_EXTOUT_ASIDE_R", Hex 0x0d); ("A_EXTOUT_AREAR_L", Hex 0x0e); ("A_EXTOUT_AREAR_R", Hex 0x0f);
  ("A_EXTOUT_AC97_L", Hex 0x10); ("A_EXTOUT_AC97_R", Hex 0x11); ("A_EXTOUT_ADC_CAP_L", Hex 0x16);
  ("A_EXTOUT_ADC_CAP_R", Hex 0x17); ("A_EXTOUT_MIC_CAP", Hex 0x18); ("A_C_00000000", Hex 0xc0);
  ("A_C_00000001", Hex 0xc1); ("A_C_00000002", Hex 0xc2); ("A_C_00000003", Hex 0xc3);
  ("A_C_00000004", Hex 0xc4); ("A_C_00000008", Hex 0xc5); ("A_C_00000010", Hex 0xc6);
  ("A_C_00000020", Hex 0xc7); ("A_C_00000100", Hex 0xc8); ("A_C_00010000", Hex 0xc9);
  ("A_C_00000800", Hex 0xca); ("A_C_10000000", Hex 0xcb); ("A_C_20000000", Hex 0xcc);
  ("A_C_40000000", Hex 0xcd); ("A_C_80000000", Hex 0xce); ("A_C_7fffffff", Hex 0xcf);
  ("A_C_ffffffff", Hex 0xd0); ("A_C_fffffffe", Hex 0xd1); ("A_C_c0000000", Hex 0xd2);
  ("A_C_4f1bbcdc", Hex 0xd3); ("A_C_5a7ef9db", Hex 0xd4); ("A_C_00100000", Hex 0xd5); ("A_GPR_ACCU", Hex 0xd6);
  ("A_GPR_COND", Hex 0xd7); ("A_GPR_NOISE0", Hex 0xd8); ("A_GPR_NOISE1", Hex 0xd9); ("A_GPR_IRQ", Hex 0xda);
  ("A_GPR_DBAC", Hex 0xdb); ("A_GPR_DBACE", Hex 0xde); ("EMU10K1_DBG_ZC", Hex 0x80000000);
  ("EMU10K1_DBG_SATURATION_OCCURED", Hex 0x02000000); ("EMU10K1_DBG_SATURATION_ADDR", Hex 0x01ff0000);
  ("EMU10K1_DBG_SINGLE_STEP", Hex 0x00008000); ("EMU10K1_DBG_STEP", Hex 0x00004000);
  ("EMU10K1_DBG_CONDITION_CODE", Hex 0x00003e00); ("EMU10K1_DBG_SINGLE_STEP_ADDR", Hex 0x000001ff);
  ("TANKMEMADDRREG_ADDR_MASK", Hex 0x000fffff); ("TANKMEMADDRREG_CLEAR", Hex 0x00800000);
  ("TANKMEMADDRREG_ALIGN", Hex 0x00400000); ("TANKMEMADDRREG_WRITE", Hex 0x00200000);
  ("TANKMEMADDRREG_READ", Hex 0x00100000)].

Definition EMU10K1_GPR_TRANSLATION_defs : defines := [
  ("EMU10K1_GPR_TRANSLATION_NONE", Dec 0); ("EMU10K1_GPR_TRANSLATION_TABLE100", Dec 1);
  ("EMU10K1_GPR_TRANSLATION_BASS", Dec 2); ("EMU10K1_GPR_TRANSLATION_TREBLE", Dec 3);
  ("EMU10K1_GPR_TRANSLATION_ONOFF", Dec 4)].

Definition emu10k1_ctl_elem_iface_enum : enumeration := [
  ("EMU10K1_CTL_ELEM_IFACE_MIXER", Some (Dec 2)); ("EMU10K1_CTL_ELEM_IFACE_PCM", Some (Dec 3))].

Definition header : header := Header "include/sound/emu10k1.h" [
  EMU10K1_CARD_CREATIVE_defs; EXTOUT_AC97_L_defs; EMU10K1_GPR_TRANSLATION_defs] [
  emu10k1_ctl_elem_iface_enum] [].

End Emu10k1.

(** [include/sound/firewire.h] *)

Module Firewire.

Definition SNDRV_FIREWIRE_EVENT_defs : defines := [
  ("SNDRV_FIREWIRE_EVENT_LOCK_STATUS", Hex 0x000010cc);
  ("SNDRV_FIREWIRE_EVENT_DICE_NOTIFICATION", Hex 0xd1ce004e);
  ("SNDRV_FIREWIRE_EVENT_EFW_RESPONSE", Hex 0x4e617475);
  ("SNDRV_FIREWIRE_EVENT_DIGI00X_MESSAGE", Hex 0x746e736c);
  ("SNDRV_FIREWIRE_EVENT_MOTU_NOTIFICATION", Hex 0x64776479);
  ("SNDRV_FIREWIRE_EVENT_TASCAM_CONTROL", Hex 0x7473636d)].

Definition SND_EFW_TRANSACTION_USER_SEQNUM_MAX_def : defines := [
  ("SND_EFW_TRANSACTION_USER_SEQNUM_MAX", Bin BSub (Cast U32 (Cast U16 (Un BitNot (Dec 0)))) (Dec 1))].

Definition SNDRV_FIREWIRE_TYPE_defs : defines := [
  ("SNDRV_FIREWIRE_TYPE_DICE", Dec 1); ("SNDRV_FIREWIRE_TYPE_FIREWORKS", Dec 2);
  ("SNDRV_FIREWIRE_TYPE_BEBOB", Dec 3); ("SNDRV_FIREWIRE_TYPE_OXFW", Dec 4);
  ("SNDRV_FIREWIRE_TYPE_DIGI00X", Dec 5); ("SNDRV_FIREWIRE_TYPE_TASCAM", Dec 6);
  ("SNDRV_FIREWIRE_TYPE_MOTU", Dec 7); ("SNDRV_FIREWIRE_TYPE_FIREFACE", Dec 8)].

Definition header : header := Header "include/sound/firewire.h" [
  SNDRV_FIREWIRE_EVENT_defs; SND_EFW_TRANSACTION_USER_SEQNUM_MAX_def; SNDRV_FIREWIRE_TYPE_defs] [
] [].

End Firewire.

(** [include/sound/hdsp.h] *)

Module Hdsp.

Definition HDSP_IO_Type_enum : enumeration := [
  ("Digiface", None); ("Multiface", None); ("H9652", None); ("H9632", None); ("RPM", None); ("Undefined", None)].

Definition header : header := Header "include/sound/hdsp.h" [
] [
  HDSP_IO_Type_enum] [].

End Hdsp.

(** [include/sound/hdspm.h] *)

Module Hdspm.

Definition HDSPM_ADDON_TCO_def : defines := [
  ("HDSPM_ADDON_TCO", Dec 1)].

Definition hdspm_io_type_enum : enumeration := [
  ("MADI", None); ("MADIface", None); ("AIO", None); ("AES32", None); ("RayDAT", None)].

Definition hdspm_speed_enum : enumeration := [
  ("ss", None); ("ds", None); ("qs", None)].

Definition hdspm_ltc_format_enum : enumeration := [
  ("format_invalid", None); ("fps_24", None); ("fps_25", None); ("fps_2997", None); ("fps_30", None)].

Definition hdspm_ltc_frame_enum : enumeration := [
  ("frame_invalid", None); ("drop_frame", None); ("full_frame", None)].

Definition hdspm_ltc_input_format_enum : enumeration := [
  ("ntsc", None); ("pal", None); ("no_video", None)].

Definition hdspm_sync_enum : enumeration := [
  ("hdspm_sync_no_lock", Some (Dec 0)); ("hdspm_sync_lock", Some (Dec 1)); ("hdspm_sync_sync", Some (Dec 2))].

Definition hdspm_madi_input_enum : enumeration := [
  ("hdspm_input_optical", Some (Dec 0)); ("hdspm_input_coax", Some (Dec 1))].

Definition hdspm_madi_channel_format_enum : enumeration := [
  ("hdspm_format_ch_64", Some (Dec 0)); ("hdspm_format_ch_56", Some (Dec 1))].

Definition hdspm_madi_frame_format_enum : enumeration := [
  ("hdspm_frame_48", Some (Dec 0)); ("hdspm_frame_96", Some (Dec 1))].

Definition hdspm_syncsource_enum : enumeration := [
  ("syncsource_wc", Some (Dec 0)); ("syncsource_madi", Some (Dec 1)); ("syncsource_tco", Some (Dec 2));
  ("syncsource_sync", Some (Dec 3)); ("syncsource_none", Some (Dec 4))].

Definition header : header := Header "include/sound/hdspm.h" [
  HDSPM_ADDON_TCO_def] [
  hdspm_io_type_enum; hdspm_speed_enum; hdspm_ltc_format_enum; hdspm_ltc_frame_enum;
  hdspm_ltc_input_format_enum; hdspm_sync_enum; hdspm_madi_input_enum; hdspm_madi_channel_format_enum;
  hdspm_madi_frame_format_enum; hdspm_syncsource_enum] [].

End Hdspm.

(** [include/sound/sb16_csp.h] *)

Module Sb16_csp.

Definition SNDRV_SB_CSP_MODE_defs : defines := [
  ("SNDRV_SB_CSP_MODE_NONE", Hex 0x00); ("SNDRV_SB_CSP_MODE_DSP_READ", Hex 0x01);
  ("SNDRV_SB_CSP_MODE_DSP_WRITE", Hex 0x02); ("SNDRV_SB_CSP_MODE_QSOUND", Hex 0x04)].

Definition SNDRV_SB_CSP_defs : defines := [
  ("SNDRV_SB_CSP_LOAD_FROMUSER", Hex 0x01); ("SNDRV_SB_CSP_LOAD_INITBLOCK", Hex 0x02);
  ("SNDRV_SB_CSP_SAMPLE_8BIT", Hex 0x01); ("SNDRV_SB_CSP_SAMPLE_16BIT", Hex 0x02);
  ("SNDRV_SB_CSP_MONO", Hex 0x01); ("SNDRV_SB_CSP_STEREO", Hex 0x02)].

Definition SNDRV_SB_CSP_RATE_defs : defines := [
  ("SNDRV_SB_CSP_RATE_8000", Hex 0x01); ("SNDRV_SB_CSP_RATE_11025", Hex 0x02);
  ("SNDRV_SB_CSP_RATE_22050", Hex 0x04); ("SNDRV_SB_CSP_RATE_44100", Hex 0x08);
  ("SNDRV_SB_CSP_RATE_ALL", Hex 0x0f)].

Definition SNDRV_SB_CSP_ST_defs : defines := [
  ("SNDRV_SB_CSP_ST_IDLE", Hex 0x00); ("SNDRV_SB_CSP_ST_LOADED", Hex 0x01);
  ("SNDRV_SB_CSP_ST_RUNNING", Hex 0x02); ("SNDRV_SB_CSP_ST_PAUSED", Hex 0x04);
  ("SNDRV_SB_CSP_ST_AUTO", Hex 0x08); ("SNDRV_SB_CSP_ST_QSOUND", Hex 0x10)].

Definition SNDRV_SB_CSP_QSOUND_MAX_RIGHT_def : defines := [
  ("SNDRV_SB_CSP_QSOUND_MAX_RIGHT", Hex 0x20)].

Definition header : header := Header "include/sound/sb16_csp.h" [
  SNDRV_SB_CSP_MODE_defs; SNDRV_SB_CSP_defs; SNDRV_SB_CSP_RATE_defs; SNDRV_SB_CSP_ST_defs;
  SNDRV_SB_CSP_QSOUND_MAX_RIGHT_def] [
] [].

End Sb16_csp.

(** [include/sound/sfnt_info.h] *)

Module Sfnt_info.

Definition SNDRV_EMUX_VERSION_def : defines := [
  ("SNDRV_EMUX_VERSION", Bin BOr (Bin BOr (Bin BShl (Dec 1) (Dec 16)) (Bin BShl (Dec 0) (Dec 8))) (Dec 0))].

Definition header : header := Header "include/sound/sfnt_info.h" [
  SNDRV_EMUX_VERSION_def] [
] [].

End Sfnt_info.

(** [include/sound/skl-tplg-interface.h] *)

Module Skl_tplg_interface.

Definition SKL_CONTROL_TYPE_defs : defines := [
  ("SKL_CONTROL_TYPE_BYTE_TLV", Hex 0x100); ("SKL_CONTROL_TYPE_MIC_SELECT", Hex 0x102);
  ("SKL_CONTROL_TYPE_MULTI_IO_SELECT", Hex 0x103); ("SKL_CONTROL_TYPE_MULTI_IO_SELECT_DMIC", Hex 0x104)].

Definition skl_event_types_enum : enumeration := [
  ("SKL_EVENT_NONE", Some (Dec 0)); ("SKL_MIXER_EVENT", None); ("SKL_MUX_EVENT", None);
  ("SKL_VMIXER_EVENT", None); ("SKL_PGA_EVENT", None)].

Definition skl_ch_cfg_enum : enumeration := [
  ("SKL_CH_CFG_MONO", Some (Dec 0)); ("SKL_CH_CFG_STEREO", Some (Dec 1)); ("SKL_CH_CFG_2_1", Some (Dec 2));
  ("SKL_CH_CFG_3_0", Some (Dec 3)); ("SKL_CH_CFG_3_1", Some (Dec 4)); ("SKL_CH_CFG_QUATRO", Some (Dec 5));
  ("SKL_CH_CFG_4_0", Some (Dec 6)); ("SKL_CH_CFG_5_0", Some (Dec 7)); ("SKL_CH_CFG_5_1", Some (Dec 8));
  ("SKL_CH_CFG_DUAL_MONO", Some (Dec 9)); ("SKL_CH_CFG_I2S_DUAL_STEREO_0", Some (Dec 10));
  ("SKL_CH_CFG_I2S_DUAL_STEREO_1", Some (Dec 11)); ("SKL_CH_CFG_4_CHANNEL", Some (Dec 12));
  ("SKL_CH_CFG_INVALID", None)].

Definition skl_module_type_enum : enumeration := [
  ("SKL_MODULE_TYPE_MIXER", Some (Dec 0)); ("SKL_MODULE_TYPE_COPIER", None); ("SKL_MODULE_TYPE_UPDWMIX", None);
  ("SKL_MODULE_TYPE_SRCINT", None); ("SKL_MODULE_TYPE_ALGO", None); ("SKL_MODULE_TYPE_BASE_OUTFMT", None);
  ("SKL_MODULE_TYPE_KPB", None); ("SKL_MODULE_TYPE_MIC_SELECT", None)].

Definition skl_core_affinity_enum : enumeration := [
  ("SKL_AFFINITY_CORE_0", Some (Dec 0)); ("SKL_AFFINITY_CORE_1", None); ("SKL_AFFINITY_CORE_MAX", None)].

Definition skl_pipe_conn_type_enum : enumeration := [
  ("SKL_PIPE_CONN_TYPE_NONE", Some (Dec 0)); ("SKL_PIPE_CONN_TYPE_FE", None); ("SKL_PIPE_CONN_TYPE_BE", None)].

Definition skl_hw_conn_type_enum : enumeration := [
  ("SKL_CONN_NONE", Some (Dec 0)); ("SKL_CONN_SOURCE", Some (Dec 1)); ("SKL_CONN_SINK", Some (Dec 2))].

Definition skl_dev_type_enum : enumeration := [
  ("SKL_DEVICE_BT", Some (Hex 0x0)); ("SKL_DEVICE_DMIC", Some (Hex 0x1)); ("SKL_DEVICE_I2S", Some (Hex 0x2));
  ("SKL_DEVICE_SLIMBUS", Some (Hex 0x3)); ("SKL_DEVICE_HDALINK", Some (Hex 0x4));
  ("SKL_DEVICE_HDAHOST", Some (Hex 0x5)); ("SKL_DEVICE_NONE", None)].

Definition skl_interleaving_enum : enumeration := [
  ("SKL_INTERLEAVING_PER_CHANNEL", Some (Dec 0)); ("SKL_INTERLEAVING_PER_SAMPLE", Some (Dec 1))].

Definition skl_sample_type_enum : enumeration := [
  ("SKL_SAMPLE_TYPE_INT_MSB", Some (Dec 0)); ("SKL_SAMPLE_TYPE_INT_LSB", Some (Dec 1));
  ("SKL_SAMPLE_TYPE_INT_SIGNED", Some (Dec 2)); ("SKL_SAMPLE_TYPE_INT_UNSIGNED", Some (Dec 3));
  ("SKL_SAMPLE_TYPE_FLOAT", Some (Dec 4))].

Definition module_pin_type_enum : enumeration := [
  ("SKL_PIN_TYPE_HOMOGENEOUS", None); ("SKL_PIN_TYPE_HETEROGENEOUS", None)].

Definition skl_module_param_type_enum : enumeration := [
  ("SKL_PARAM_DEFAULT", Some (Dec 0)); ("SKL_PARAM_INIT", None); ("SKL_PARAM_SET", None);
  ("SKL_PARAM_BIND", None)].

Definition skl_tkn_dir_enum : enumeration := [
  ("SKL_DIR_IN", None); ("SKL_DIR_OUT", None)].

Definition skl_tuple_type_enum : enumeration := [
  ("SKL_TYPE_TUPLE", None); ("SKL_TYPE_DATA", None)].

Definition header : header := Header "include/sound/skl-tplg-interface.h" [
  SKL_CONTROL_TYPE_defs] [
  skl_event_types_enum; skl_ch_cfg_enum; skl_module_type_enum; skl_core_affinity_enum; skl_pipe_conn_type_enum;
  skl_hw_conn_type_enum; skl_dev_type_enum; skl_interleaving_enum; skl_sample_type_enum; module_pin_type_enum;
  skl_module_param_type_enum; skl_tkn_dir_enum; skl_tuple_type_enum] [].

End Skl_tplg_interface.

(** [include/sound/snd_sst_tokens.h] *)

Module Snd_sst_tokens.

Definition SKL_TKNS_enum : enumeration := [
  ("SKL_TKN_UUID", Some (Dec 1)); ("SKL_TKN_U8_NUM_BLOCKS", None); ("SKL_TKN_U8_BLOCK_TYPE", None);
  ("SKL_TKN_U8_IN_PIN_TYPE", None); ("SKL_TKN_U8_OUT_PIN_TYPE", None); ("SKL_TKN_U8_DYN_IN_PIN", None);
  ("SKL_TKN_U8_DYN_OUT_PIN", None); ("SKL_TKN_U8_IN_QUEUE_COUNT", None); ("SKL_TKN_U8_OUT_QUEUE_COUNT", None);
  ("SKL_TKN_U8_TIME_SLOT", None); ("SKL_TKN_U8_CORE_ID", None); ("SKL_TKN_U8_MOD_TYPE", None);
  ("SKL_TKN_U8_CONN_TYPE", None); ("SKL_TKN_U8_DEV_TYPE", None); ("SKL_TKN_U8_HW_CONN_TYPE", None);
  ("SKL_TKN_U16_MOD_INST_ID", None); ("SKL_TKN_U16_BLOCK_SIZE", None); ("SKL_TKN_U32_MAX_MCPS", None);
  ("SKL_TKN_U32_MEM_PAGES", None); ("SKL_TKN_U32_OBS", None); ("SKL_TKN_U32_IBS", None);
  ("SKL_TKN_U32_VBUS_ID", None); ("SKL_TKN_U32_PARAMS_FIXUP", None); ("SKL_TKN_U32_CONVERTER", None);
  ("SKL_TKN_U32_PIPE_ID", None); ("SKL_TKN_U32_PIPE_CONN_TYPE", None); ("SKL_TKN_U32_PIPE_PRIORITY", None);
  ("SKL_TKN_U32_PIPE_MEM_PGS", None); ("SKL_TKN_U32_DIR_PIN_COUNT", None); ("SKL_TKN_U32_FMT_CH", None);
  ("SKL_TKN_U32_FMT_FREQ", None); ("SKL_TKN_U32_FMT_BIT_DEPTH", None); ("SKL_TKN_U32_FMT_SAMPLE_SIZE", None);
  ("SKL_TKN_U32_FMT_CH_CONFIG", None); ("SKL_TKN_U32_FMT_INTERLEAVE", None);
  ("SKL_TKN_U32_FMT_SAMPLE_TYPE", None); ("SKL_TKN_U32_FMT_CH_MAP", None); ("SKL_TKN_U32_PIN_MOD_ID", None);
  ("SKL_TKN_U32_PIN_INST_ID", None); ("SKL_TKN_U32_MOD_SET_PARAMS", None); ("SKL_TKN_U32_MOD_PARAM_ID", None);
  ("SKL_TKN_U32_CAPS_SET_PARAMS", None); ("SKL_TKN_U32_CAPS_PARAMS_ID", None); ("SKL_TKN_U32_CAPS_SIZE", None);
  ("SKL_TKN_U32_PROC_DOMAIN", None); ("SKL_TKN_U32_LIB_COUNT", None); ("SKL_TKN_STR_LIB_NAME", None);
  ("SKL_TKN_U32_PMODE", None); ("SKL_TKL_U32_D0I3_CAPS", None);
  ("SKL_TKN_U32_D0I3_CAPS", Some (Ref "SKL_TKL_U32_D0I3_CAPS")); ("SKL_TKN_U32_DMA_BUF_SIZE", None);
  ("SKL_TKN_U32_PIPE_DIRECTION", None); ("SKL_TKN_U32_PIPE_CONFIG_ID", None);
  ("SKL_TKN_U32_NUM_CONFIGS", None); ("SKL_TKN_U32_PATH_MEM_PGS", None); ("SKL_TKN_U32_CFG_FREQ", None);
  ("SKL_TKN_U8_CFG_CHAN", None); ("SKL_TKN_U8_CFG_BPS", None); ("SKL_TKN_CFG_MOD_RES_ID", None);
  ("SKL_TKN_CFG_MOD_FMT_ID", None); ("SKL_TKN_U8_NUM_MOD", None); ("SKL_TKN_MM_U8_MOD_IDX", None);
  ("SKL_TKN_MM_U8_NUM_RES", None); ("SKL_TKN_MM_U8_NUM_INTF", None); ("SKL_TKN_MM_U32_RES_ID", None);
  ("SKL_TKN_MM_U32_CPS", None); ("SKL_TKN_MM_U32_DMA_SIZE", None); ("SKL_TKN_MM_U32_CPC", None);
  ("SKL_TKN_MM_U32_RES_PIN_ID", None); ("SKL_TKN_MM_U32_INTF_PIN_ID", None); ("SKL_TKN_MM_U32_PIN_BUF", None);
  ("SKL_TKN_MM_U32_FMT_ID", None); ("SKL_TKN_MM_U32_NUM_IN_FMT", None); ("SKL_TKN_MM_U32_NUM_OUT_FMT", None);
  ("SKL_TKN_U32_ASTATE_IDX", None); ("SKL_TKN_U32_ASTATE_COUNT", None); ("SKL_TKN_U32_ASTATE_KCPS", None);
  ("SKL_TKN_U32_ASTATE_CLK_SRC", None); ("SKL_TKN_MAX", Some (Ref "SKL_TKN_U32_ASTATE_CLK_SRC"))].

Definition header : header := Header "include/sound/snd_sst_tokens.h" [
] [
  SKL_TKNS_enum] [].

End Snd_sst_tokens.

(** [include/sound/usb_stream.h] *)

Module Usb_stream.

Definition USB_STREAM_INTERFACE_VERSION_def : defines := [
  ("USB_STREAM_INTERFACE_VERSION", Dec 2)].

Definition usb_stream_state_enum : enumeration := [
  ("usb_stream_invalid", None); ("usb_stream_stopped", None); ("usb_stream_sync0", None);
  ("usb_stream_sync1", None); ("usb_stream_ready", None); ("usb_stream_running", None);
  ("usb_stream_xrun", None)].

Definition header : header := Header "include/sound/usb_stream.h" [
  USB_STREAM_INTERFACE_VERSION_def] [
  usb_stream_state_enum] [].

End Usb_stream.

(** [include/sound/sof/fw.h] *)

Module Fw.

Definition SND_SOF_FW_ABI_def : defines := [
  ("SND_SOF_FW_ABI", Dec 1)].

Definition snd_sof_fw_blk_type_enum : enumeration := [
  ("SOF_FW_BLK_TYPE_INVALID", Some (Un Neg (Dec 1))); ("SOF_FW_BLK_TYPE_START", Some (Dec 0));
  ("SOF_FW_BLK_TYPE_RSRVD0", Some (Ref "SOF_FW_BLK_TYPE_START")); ("SOF_FW_BLK_TYPE_IRAM", Some (Dec 1));
  ("SOF_FW_BLK_TYPE_DRAM", Some (Dec 2)); ("SOF_FW_BLK_TYPE_SRAM", Some (Dec 3));
  ("SOF_FW_BLK_TYPE_ROM", Some (Dec 4)); ("SOF_FW_BLK_TYPE_IMR", Some (Dec 5));
  ("SOF_FW_BLK_TYPE_RSRVD6", Some (Dec 6)); ("SOF_FW_BLK_TYPE_RSRVD7", Some (Dec 7));
  ("SOF_FW_BLK_TYPE_RSRVD8", Some (Dec 8)); ("SOF_FW_BLK_TYPE_RSRVD9", Some (Dec 9));
  ("SOF_FW_BLK_TYPE_RSRVD10", Some (Dec 10)); ("SOF_FW_BLK_TYPE_RSRVD11", Some (Dec 11));
  ("SOF_FW_BLK_TYPE_RSRVD12", Some (Dec 12)); ("SOF_FW_BLK_TYPE_RSRVD13", Some (Dec 13));
  ("SOF_FW_BLK_TYPE_RSRVD14", Some (Dec 14)); ("SOF_FW_BLK_TYPE_NUM", None)].

Definition snd_sof_fw_mod_type_enum : enumeration := [
  ("SOF_FW_BASE", Some (Dec 0)); ("SOF_FW_MODULE", Some (Dec 1))].

Definition header : header := Header "include/sound/sof/fw.h" [
  SND_SOF_FW_ABI_def] [
  snd_sof_fw_blk_type_enum; snd_sof_fw_mod_type_enum] [].

End Fw.

(** [include/sound/sof/tokens.h] *)

Module Tokens.

Definition SOF_defs : defines := [
  ("SOF_TPLG_KCTL_VOL_ID", Dec 256); ("SOF_TPLG_KCTL_ENUM_ID", Dec 257); ("SOF_TPLG_KCTL_BYTES_ID", Dec 258);
  ("SOF_TPLG_KCTL_SWITCH_ID", Dec 259); ("SOF_TPLG_KCTL_BYTES_VOLATILE_RO", Dec 260);
  ("SOF_TPLG_KCTL_BYTES_VOLATILE_RW", Dec 261); ("SOF_TPLG_KCTL_BYTES_WO_ID", Dec 262);
  ("SOF_TKN_BUF_SIZE", Dec 100); ("SOF_TKN_BUF_CAPS", Dec 101); ("SOF_TKN_DAI_TYPE", Dec 154);
  ("SOF_TKN_DAI_INDEX", Dec 155); ("SOF_TKN_DAI_DIRECTION", Dec 156); ("SOF_TKN_SCHED_PERIOD", Dec 200);
  ("SOF_TKN_SCHED_PRIORITY", Dec 201); ("SOF_TKN_SCHED_MIPS", Dec 202); ("SOF_TKN_SCHED_CORE", Dec 203);
  ("SOF_TKN_SCHED_FRAMES", Dec 204); ("SOF_TKN_SCHED_TIME_DOMAIN", Dec 205);
  ("SOF_TKN_VOLUME_RAMP_STEP_TYPE", Dec 250); ("SOF_TKN_VOLUME_RAMP_STEP_MS", Dec 251);
  ("SOF_TKN_SRC_RATE_IN", Dec 300); ("SOF_TKN_SRC_RATE_OUT", Dec 301); ("SOF_TKN_ASRC_RATE_IN", Dec 320);
  ("SOF_TKN_ASRC_RATE_OUT", Dec 321); ("SOF_TKN_ASRC_ASYNCHRONOUS_MODE", Dec 322);
  ("SOF_TKN_ASRC_OPERATION_MODE", Dec 323); ("SOF_TKN_PCM_DMAC_CONFIG", Dec 353);
  ("SOF_TKN_COMP_PERIOD_SINK_COUNT", Dec 400); ("SOF_TKN_COMP_PERIOD_SOURCE_COUNT", Dec 401);
  ("SOF_TKN_COMP_FORMAT", Dec 402); ("SOF_TKN_COMP_CORE_ID", Dec 404); ("SOF_TKN_COMP_UUID", Dec 405);
  ("SOF_TKN_INTEL_SSP_CLKS_CONTROL", Dec 500); ("SOF_TKN_INTEL_SSP_MCLK_ID", Dec 501);
  ("SOF_TKN_INTEL_SSP_SAMPLE_BITS", Dec 502); ("SOF_TKN_INTEL_SSP_FRAME_PULSE_WIDTH", Dec 503);
  ("SOF_TKN_INTEL_SSP_QUIRKS", Dec 504); ("SOF_TKN_INTEL_SSP_TDM_PADDING_PER_SLOT", Dec 505);
  ("SOF_TKN_INTEL_SSP_BCLK_DELAY", Dec 506); ("SOF_TKN_INTEL_DMIC_DRIVER_VERSION", Dec 600);
  ("SOF_TKN_INTEL_DMIC_CLK_MIN", Dec 601); ("SOF_TKN_INTEL_DMIC_CLK_MAX", Dec 602);
  ("SOF_TKN_INTEL_DMIC_DUTY_MIN", Dec 603); ("SOF_TKN_INTEL_DMIC_DUTY_MAX", Dec 604);
  ("SOF_TKN_INTEL_DMIC_NUM_PDM_ACTIVE", Dec 605); ("SOF_TKN_INTEL_DMIC_SAMPLE_RATE", Dec 608);
  ("SOF_TKN_INTEL_DMIC_FIFO_WORD_LENGTH", Dec 609); ("SOF_TKN_INTEL_DMIC_UNMUTE_RAMP_TIME_MS", Dec 610);
  ("SOF_TKN_INTEL_DMIC_PDM_CTRL_ID", Dec 700); ("SOF_TKN_INTEL_DMIC_PDM_MIC_A_Enable", Dec 701);
  ("SOF_TKN_INTEL_DMIC_PDM_MIC_B_Enable", Dec 702); ("SOF_TKN_INTEL_DMIC_PDM_POLARITY_A", Dec 703);
  ("SOF_TKN_INTEL_DMIC_PDM_POLARITY_B", Dec 704); ("SOF_TKN_INTEL_DMIC_PDM_CLK_EDGE", Dec 705);
  ("SOF_TKN_INTEL_DMIC_PDM_SKEW", Dec 706); ("SOF_TKN_TONE_SAMPLE_RATE", Dec 800);
  ("SOF_TKN_PROCESS_TYPE", Dec 900); ("SOF_TKN_EFFECT_TYPE", Ref "SOF_TKN_PROCESS_TYPE");
  ("SOF_TKN_IMX_SAI_MCLK_ID", Dec 1000); ("SOF_TKN_IMX_ESAI_MCLK_ID", Dec 1100);
  ("SOF_TKN_STREAM_PLAYBACK_COMPATIBLE_D0I3", Dec 1200); ("SOF_TKN_STREAM_CAPTURE_COMPATIBLE_D0I3", Dec 1201);
  ("SOF_TKN_MUTE_LED_USE", Dec 1300); ("SOF_TKN_MUTE_LED_DIRECTION", Dec 1301);
  ("SOF_TKN_INTEL_ALH_RATE", Dec 1400); ("SOF_TKN_INTEL_ALH_CH", Dec 1401);
  ("SOF_TKN_INTEL_HDA_RATE", Dec 1500); ("SOF_TKN_INTEL_HDA_CH", Dec 1501)].

Definition header : header := Header "include/sound/sof/tokens.h" [
  SOF_defs] [
] [].

End Tokens.

Definition headers : list header := [
  Asequencer.header; Asoc.header; Asound.header; Asound_fm.header; Emu10k1.header; Firewire.header;
  Hdsp.header; Hdspm.header; Sb16_csp.header; Sfnt_info.header; Skl_tplg_interface.header;
  Snd_sst_tokens.header; Usb_stream.header; Fw.header; Tokens.header].
