(* ===== verification/ConstAudio.v ===== *)
(** * ConstAudio: the macros and enumerations of the audio headers

    A module per header: a [defines] for each run of macros, an [enumeration] for each
    [enum], with the expressions of the header as they are written; [header] collects them. *)

From S2P Require Import Prelude CLayout CExpr.

#[local] Open Scope string_scope.
#[local] Open Scope list_scope.
#[local] Open Scope Z_scope.

(** [include/linux/msm_audio.h] *)

Module Msm_audio.

Definition HANDSET_MIC_defs : defines := [
  ("HANDSET_MIC", Hex 0x01); ("HANDSET_SPKR", Hex 0x02); ("HEADSET_MIC", Hex 0x03);
  ("HEADSET_SPKR_MONO", Hex 0x04); ("HEADSET_SPKR_STEREO", Hex 0x05); ("SPKR_PHONE_MIC", Hex 0x06);
  ("SPKR_PHONE_MONO", Hex 0x07); ("SPKR_PHONE_STEREO", Hex 0x08); ("BT_SCO_MIC", Hex 0x09);
  ("BT_SCO_SPKR", Hex 0x0a); ("BT_A2DP_SPKR", Hex 0x0b); ("TTY_HEADSET_MIC", Hex 0x0c);
  ("TTY_HEADSET_SPKR", Hex 0x0d); ("DEFAULT_TX", Hex 0x0e); ("DEFAULT_RX", Hex 0x0f); ("BT_A2DP_TX", Hex 0x10);
  ("HEADSET_MONO_PLUS_SPKR_MONO_RX", Hex 0x11); ("HEADSET_MONO_PLUS_SPKR_STEREO_RX", Hex 0x12);
  ("HEADSET_STEREO_PLUS_SPKR_MONO_RX", Hex 0x13); ("HEADSET_STEREO_PLUS_SPKR_STEREO_RX", Hex 0x14);
  ("I2S_RX", Hex 0x20); ("I2S_TX", Hex 0x21)].

Definition ADRC_ENABLE_defs : defines := [
  ("ADRC_ENABLE", Hex 0x0001); ("EQUALIZER_ENABLE", Hex 0x0002); ("IIR_ENABLE", Hex 0x0004);
  ("QCONCERT_PLUS_ENABLE", Hex 0x0008); ("MBADRC_ENABLE", Hex 0x0010); ("SRS_ENABLE", Hex 0x0020);
  ("SRS_DISABLE", Hex 0x0040)].

Definition AGC_ENABLE_defs : defines := [
  ("AGC_ENABLE", Hex 0x0001); ("NS_ENABLE", Hex 0x0002); ("TX_IIR_ENABLE", Hex 0x0004);
  ("FLUENCE_ENABLE", Hex 0x0008)].

Definition VOC_REC_defs : defines := [
  ("VOC_REC_UPLINK", Hex 0x00); ("VOC_REC_DOWNLINK", Hex 0x01); ("VOC_REC_BOTH", Hex 0x02)].

Definition SND_MUTE_defs : defines := [
  ("SND_MUTE_UNMUTED", Dec 0); ("SND_MUTE_MUTED", Dec 1)].

Definition SND_METHOD_defs : defines := [
  ("SND_METHOD_VOICE", Dec 0); ("SND_METHOD_MIDI", Dec 4)].

Definition AUDIO_defs : defines := [
  ("AUDIO_EVENT_SUSPEND", Dec 0); ("AUDIO_EVENT_RESUME", Dec 1); ("AUDIO_EVENT_WRITE_DONE", Dec 2);
  ("AUDIO_EVENT_READ_DONE", Dec 3); ("AUDIO_EVENT_STREAM_INFO", Dec 4);
  ("AUDIO_EVENT_BITSTREAM_ERROR_INFO", Dec 5); ("AUDIO_CODEC_TYPE_MP3", Dec 0); ("AUDIO_CODEC_TYPE_AAC", Dec 1)].

Definition MSM_SNDDEV_CAP_defs : defines := [
  ("MSM_SNDDEV_CAP_RX", Hex 0x1); ("MSM_SNDDEV_CAP_TX", Hex 0x2); ("MSM_SNDDEV_CAP_VOICE", Hex 0x4)].

Definition AUDIO_ROUTE_STREAM_defs : defines := [
  ("AUDIO_ROUTE_STREAM_VOICE_RX", Dec 0); ("AUDIO_ROUTE_STREAM_VOICE_TX", Dec 1);
  ("AUDIO_ROUTE_STREAM_PLAYBACK", Dec 2); ("AUDIO_ROUTE_STREAM_REC", Dec 3)].

Definition ADSP_STREAM_defs : defines := [
  ("ADSP_STREAM_PP_EVENT", Dec 0); ("ADSP_STREAM_ENCDEC_EVENT", Dec 1);
  ("ADSP_STREAM_IEC_61937_FMT_UPDATE_EVENT", Dec 2); ("ADSP_STREAM_EVENT_MAX", Dec 3)].

Definition cad_device_path_type_enum : enumeration := [
  ("CAD_DEVICE_PATH_RX", None); ("CAD_DEVICE_PATH_TX", None); ("CAD_DEVICE_PATH_RX_TX", None);
  ("CAD_DEVICE_PATH_LB", None); ("CAD_DEVICE_PATH_MAX", None)].

Definition header : header := Header "include/linux/msm_audio.h" [
  HANDSET_MIC_defs; ADRC_ENABLE_defs; AGC_ENABLE_defs; VOC_REC_defs; SND_MUTE_defs; SND_METHOD_defs;
  AUDIO_defs; MSM_SNDDEV_CAP_defs; AUDIO_ROUTE_STREAM_defs; ADSP_STREAM_defs] [
  cad_device_path_type_enum] [].

End Msm_audio.

(** [include/linux/msm_audio_aac.h] *)

Module Msm_audio_aac.

Definition AUDIO_AAC_defs : defines := [
  ("AUDIO_AAC_FORMAT_ADTS", Un Neg (Dec 1)); ("AUDIO_AAC_FORMAT_RAW", Hex 0x0000);
  ("AUDIO_AAC_FORMAT_PSUEDO_RAW", Hex 0x0001); ("AUDIO_AAC_FORMAT_LOAS", Hex 0x0002);
  ("AUDIO_AAC_FORMAT_ADIF", Hex 0x0003); ("AUDIO_AAC_OBJECT_LC", Hex 0x0002);
  ("AUDIO_AAC_OBJECT_LTP", Hex 0x0004); ("AUDIO_AAC_OBJECT_ERLC", Hex 0x0011);
  ("AUDIO_AAC_OBJECT_BSAC", Hex 0x0016); ("AUDIO_AAC_SEC_DATA_RES_ON", Hex 0x0001);
  ("AUDIO_AAC_SEC_DATA_RES_OFF", Hex 0x0000); ("AUDIO_AAC_SCA_DATA_RES_ON", Hex 0x0001);
  ("AUDIO_AAC_SCA_DATA_RES_OFF", Hex 0x0000); ("AUDIO_AAC_SPEC_DATA_RES_ON", Hex 0x0001);
  ("AUDIO_AAC_SPEC_DATA_RES_OFF", Hex 0x0000); ("AUDIO_AAC_SBR_ON_FLAG_ON", Hex 0x0001);
  ("AUDIO_AAC_SBR_ON_FLAG_OFF", Hex 0x0000); ("AUDIO_AAC_SBR_PS_ON_FLAG_ON", Hex 0x0001);
  ("AUDIO_AAC_SBR_PS_ON_FLAG_OFF", Hex 0x0000); ("AUDIO_AAC_DUAL_MONO_PL_PR", Dec 0);
  ("AUDIO_AAC_DUAL_MONO_SL_SR", Dec 1); ("AUDIO_AAC_DUAL_MONO_SL_PR", Dec 2);
  ("AUDIO_AAC_DUAL_MONO_PL_SR", Dec 3)].

Definition header : header := Header "include/linux/msm_audio_aac.h" [
  AUDIO_AAC_defs] [
] [].

End Msm_audio_aac.

(** [include/linux/msm_audio_ac3.h] *)

Module Msm_audio_ac3.

Definition AUDAC3_DEF_defs : defines := [
  ("AUDAC3_DEF_WORDSIZE", Dec 0); ("AUDAC3_DEF_USER_DOWNMIX_FLAG", Hex 0x0);
  ("AUDAC3_DEF_USER_KARAOKE_FLAG", Hex 0x0); ("AUDAC3_DEF_ERROR_CONCEALMENT", Dec 0);
  ("AUDAC3_DEF_MAX_REPEAT_COUNT", Dec 0)].

Definition header : header := Header "include/linux/msm_audio_ac3.h" [
  AUDAC3_DEF_defs] [
] [].

End Msm_audio_ac3.

(** [include/linux/msm_audio_calibration.h] *)

Module Msm_audio_calibration.

Definition AFE_FB_SPKR_PROT_TH_VI_CAL_TYPE_defs : defines := [
  ("AFE_FB_SPKR_PROT_TH_VI_CAL_TYPE", Ref "AFE_FB_SPKR_PROT_TH_VI_CAL_TYPE");
  ("AFE_FB_SPKR_PROT_EX_VI_CAL_TYPE", Ref "AFE_FB_SPKR_PROT_EX_VI_CAL_TYPE");
  ("AFE_FB_SPKR_PROT_V4_EX_VI_CAL_TYPE", Ref "AFE_FB_SPKR_PROT_V4_EX_VI_CAL_TYPE");
  ("AFE_SIDETONE_IIR_CAL_TYPE", Ref "AFE_SIDETONE_IIR_CAL_TYPE");
  ("AFE_LSM_TOPOLOGY_CAL_TYPE", Ref "AFE_LSM_TOPOLOGY_CAL_TYPE");
  ("AFE_LSM_TX_CAL_TYPE", Ref "AFE_LSM_TX_CAL_TYPE");
  ("ADM_LSM_TOPOLOGY_CAL_TYPE", Ref "ADM_LSM_TOPOLOGY_CAL_TYPE");
  ("ADM_LSM_AUDPROC_CAL_TYPE", Ref "ADM_LSM_AUDPROC_CAL_TYPE");
  ("ADM_LSM_AUDPROC_PERSISTENT_CAL_TYPE", Ref "ADM_LSM_AUDPROC_PERSISTENT_CAL_TYPE");
  ("ADM_AUDPROC_PERSISTENT_CAL_TYPE", Ref "ADM_AUDPROC_PERSISTENT_CAL_TYPE")].

Definition MSM_SPKR_PROT_IN_defs : defines := [
  ("MSM_SPKR_PROT_IN_FTM_MODE", Ref "MSM_SPKR_PROT_IN_FTM_MODE");
  ("MSM_SPKR_PROT_IN_V_VALI_MODE", Ref "MSM_SPKR_PROT_IN_V_VALI_MODE")].

Definition MAX_NO_IIR_FILTER_STAGE_def : defines := [
  ("MAX_NO_IIR_FILTER_STAGE", Dec 10)].

Definition CVP_VOC_RX_TOPOLOGY_CAL_TYPE_enum : enumeration := [
  ("CVP_VOC_RX_TOPOLOGY_CAL_TYPE", Some (Dec 0)); ("CVP_VOC_TX_TOPOLOGY_CAL_TYPE", None);
  ("CVP_VOCPROC_STATIC_CAL_TYPE", None); ("CVP_VOCPROC_DYNAMIC_CAL_TYPE", None);
  ("CVS_VOCSTRM_STATIC_CAL_TYPE", None); ("CVP_VOCDEV_CFG_CAL_TYPE", None);
  ("CVP_VOCPROC_STATIC_COL_CAL_TYPE", None); ("CVP_VOCPROC_DYNAMIC_COL_CAL_TYPE", None);
  ("CVS_VOCSTRM_STATIC_COL_CAL_TYPE", None); ("ADM_TOPOLOGY_CAL_TYPE", None);
  ("ADM_CUST_TOPOLOGY_CAL_TYPE", None); ("ADM_AUDPROC_CAL_TYPE", None); ("ADM_AUDVOL_CAL_TYPE", None);
  ("ASM_TOPOLOGY_CAL_TYPE", None); ("ASM_CUST_TOPOLOGY_CAL_TYPE", None); ("ASM_AUDSTRM_CAL_TYPE", None);
  ("AFE_COMMON_RX_CAL_TYPE", None); ("AFE_COMMON_TX_CAL_TYPE", None); ("AFE_ANC_CAL_TYPE", None);
  ("AFE_AANC_CAL_TYPE", None); ("AFE_FB_SPKR_PROT_CAL_TYPE", None); ("AFE_HW_DELAY_CAL_TYPE", None);
  ("AFE_SIDETONE_CAL_TYPE", None); ("AFE_TOPOLOGY_CAL_TYPE", None); ("AFE_CUST_TOPOLOGY_CAL_TYPE", None);
  ("LSM_CUST_TOPOLOGY_CAL_TYPE", None); ("LSM_TOPOLOGY_CAL_TYPE", None); ("LSM_CAL_TYPE", None);
  ("ADM_RTAC_INFO_CAL_TYPE", None); ("VOICE_RTAC_INFO_CAL_TYPE", None); ("ADM_RTAC_APR_CAL_TYPE", None);
  ("ASM_RTAC_APR_CAL_TYPE", None); ("VOICE_RTAC_APR_CAL_TYPE", None); ("MAD_CAL_TYPE", None);
  ("ULP_AFE_CAL_TYPE", None); ("ULP_LSM_CAL_TYPE", None); ("DTS_EAGLE_CAL_TYPE", None);
  ("AUDIO_CORE_METAINFO_CAL_TYPE", None); ("SRS_TRUMEDIA_CAL_TYPE", None);
  ("CORE_CUSTOM_TOPOLOGIES_CAL_TYPE", None); ("ADM_RTAC_AUDVOL_CAL_TYPE", None);
  ("ULP_LSM_TOPOLOGY_ID_CAL_TYPE", None); ("AFE_FB_SPKR_PROT_TH_VI_CAL_TYPE", None);
  ("AFE_FB_SPKR_PROT_EX_VI_CAL_TYPE", None); ("AFE_SIDETONE_IIR_CAL_TYPE", None);
  ("AFE_LSM_TOPOLOGY_CAL_TYPE", None); ("AFE_LSM_TX_CAL_TYPE", None); ("ADM_LSM_TOPOLOGY_CAL_TYPE", None);
  ("ADM_LSM_AUDPROC_CAL_TYPE", None); ("ADM_LSM_AUDPROC_PERSISTENT_CAL_TYPE", None);
  ("ADM_AUDPROC_PERSISTENT_CAL_TYPE", None); ("AFE_FB_SPKR_PROT_V4_EX_VI_CAL_TYPE", None);
  ("MAX_CAL_TYPES", None)].

Definition VERSION_0_enum : enumeration := [
  ("VERSION_0_0", None)].

Definition RX_DEVICE_enum : enumeration := [
  ("RX_DEVICE", None); ("TX_DEVICE", None); ("MAX_PATH_TYPE", None)].

Definition msm_spkr_prot_states_enum : enumeration := [
  ("MSM_SPKR_PROT_CALIBRATED", None); ("MSM_SPKR_PROT_CALIBRATION_IN_PROGRESS", None);
  ("MSM_SPKR_PROT_DISABLED", None); ("MSM_SPKR_PROT_NOT_CALIBRATED", None);
  ("MSM_SPKR_PROT_PRE_CALIBRATED", None); ("MSM_SPKR_PROT_IN_FTM_MODE", None);
  ("MSM_SPKR_PROT_IN_V_VALI_MODE", None)].

Definition DEFAULT_FEATURE_SET_enum : enumeration := [
  ("DEFAULT_FEATURE_SET", None); ("VOL_BOOST_FEATURE_SET", None)].

Definition header : header := Header "include/linux/msm_audio_calibration.h" [
  AFE_FB_SPKR_PROT_TH_VI_CAL_TYPE_defs; MSM_SPKR_PROT_IN_defs; MAX_NO_IIR_FILTER_STAGE_def] [
  CVP_VOC_RX_TOPOLOGY_CAL_TYPE_enum; VERSION_0_enum; RX_DEVICE_enum; msm_spkr_prot_states_enum;
  DEFAULT_FEATURE_SET_enum] [].

End Msm_audio_calibration.

(** [include/linux/msm_audio_mvs.h] *)

Module Msm_audio_mvs.

Definition MVS_MODE_defs : defines := [
  ("MVS_MODE_IS733", Hex 0x1); ("MVS_MODE_IS127", Hex 0x2); ("MVS_MODE_4GV_NB", Hex 0x3);
  ("MVS_MODE_4GV_WB", Hex 0x4); ("MVS_MODE_AMR", Hex 0x5); ("MVS_MODE_EFR", Hex 0x6); ("MVS_MODE_FR", Hex 0x7);
  ("MVS_MODE_HR", Hex 0x8); ("MVS_MODE_LINEAR_PCM", Hex 0x9); ("MVS_MODE_G711", Hex 0xa);
  ("MVS_MODE_PCM", Hex 0xc); ("MVS_MODE_AMR_WB", Hex 0xd); ("MVS_MODE_G729A", Hex 0xe);
  ("MVS_MODE_G711A", Hex 0xf); ("MVS_MODE_G722", Hex 0x10); ("MVS_MODE_PCM_WB", Hex 0x12)].

Definition msm_audio_amr_mode_enum : enumeration := [
  ("MVS_AMR_MODE_0475", None); ("MVS_AMR_MODE_0515", None); ("MVS_AMR_MODE_0590", None);
  ("MVS_AMR_MODE_0670", None); ("MVS_AMR_MODE_0740", None); ("MVS_AMR_MODE_0795", None);
  ("MVS_AMR_MODE_1020", None); ("MVS_AMR_MODE_1220", None); ("MVS_AMR_MODE_0660", None);
  ("MVS_AMR_MODE_0885", None); ("MVS_AMR_MODE_1265", None); ("MVS_AMR_MODE_1425", None);
  ("MVS_AMR_MODE_1585", None); ("MVS_AMR_MODE_1825", None); ("MVS_AMR_MODE_1985", None);
  ("MVS_AMR_MODE_2305", None); ("MVS_AMR_MODE_2385", None); ("MVS_AMR_MODE_UNDEF", None)].

Definition msm_audio_voc_rate_enum : enumeration := [
  ("MVS_VOC_0_RATE", None); ("MVS_VOC_8_RATE", None); ("MVS_VOC_4_RATE", None); ("MVS_VOC_2_RATE", None);
  ("MVS_VOC_1_RATE", None); ("MVS_VOC_ERASURE", None); ("MVS_VOC_RATE_MAX", None);
  ("MVS_VOC_RATE_UNDEF", Some (Ref "MVS_VOC_RATE_MAX"))].

Definition msm_audio_amr_frame_type_enum : enumeration := [
  ("MVS_AMR_SPEECH_GOOD", None); ("MVS_AMR_SPEECH_DEGRADED", None); ("MVS_AMR_ONSET", None);
  ("MVS_AMR_SPEECH_BAD", None); ("MVS_AMR_SID_FIRST", None); ("MVS_AMR_SID_UPDATE", None);
  ("MVS_AMR_SID_BAD", None); ("MVS_AMR_NO_DATA", None); ("MVS_AMR_SPEECH_LOST", None)].

Definition msm_audio_g711a_mode_enum : enumeration := [
  ("MVS_G711A_MODE_MULAW", None); ("MVS_G711A_MODE_ALAW", None)].

Definition msm_audio_g711_mode_enum : enumeration := [
  ("MVS_G711_MODE_MULAW", None); ("MVS_G711_MODE_ALAW", None)].

Definition mvs_g722_mode_type_enum : enumeration := [
  ("MVS_G722_MODE_01", None); ("MVS_G722_MODE_02", None); ("MVS_G722_MODE_03", None);
  ("MVS_G722_MODE_MAX", None); ("MVS_G722_MODE_UNDEF", None)].

Definition msm_audio_g711a_frame_type_enum : enumeration := [
  ("MVS_G711A_SPEECH_GOOD", None); ("MVS_G711A_SID", None); ("MVS_G711A_NO_DATA", None);
  ("MVS_G711A_ERASURE", None)].

Definition msm_audio_g729a_frame_type_enum : enumeration := [
  ("MVS_G729A_NO_DATA", None); ("MVS_G729A_SPEECH_GOOD", None); ("MVS_G729A_SID", None);
  ("MVS_G729A_ERASURE", None)].

Definition header : header := Header "include/linux/msm_audio_mvs.h" [
  MVS_MODE_defs] [
  msm_audio_amr_mode_enum; msm_audio_voc_rate_enum; msm_audio_amr_frame_type_enum; msm_audio_g711a_mode_enum;
  msm_audio_g711_mode_enum; mvs_g722_mode_type_enum; msm_audio_g711a_frame_type_enum;
  msm_audio_g729a_frame_type_enum] [].

End Msm_audio_mvs.

(** [include/linux/msm_audio_qcp.h] *)

Module Msm_audio_qcp.

Definition CDMA_RATE_defs : defines := [
  ("CDMA_RATE_BLANK", Hex 0x00); ("CDMA_RATE_EIGHTH", Hex 0x01); ("CDMA_RATE_QUARTER", Hex 0x02);
  ("CDMA_RATE_HALF", Hex 0x03); ("CDMA_RATE_FULL", Hex 0x04); ("CDMA_RATE_ERASURE", Hex 0x05)].

Definition header : header := Header "include/linux/msm_audio_qcp.h" [
  CDMA_RATE_defs] [
] [].

End Msm_audio_qcp.

(** [include/linux/msm_audio_sbc.h] *)

Module Msm_audio_sbc.

Definition AUDIO_SBC_defs : defines := [
  ("AUDIO_SBC_BA_LOUDNESS", Hex 0x0); ("AUDIO_SBC_BA_SNR", Hex 0x1); ("AUDIO_SBC_MODE_MONO", Hex 0x0);
  ("AUDIO_SBC_MODE_DUAL", Hex 0x1); ("AUDIO_SBC_MODE_STEREO", Hex 0x2); ("AUDIO_SBC_MODE_JSTEREO", Hex 0x3);
  ("AUDIO_SBC_BANDS_8", Hex 0x1); ("AUDIO_SBC_BLOCKS_4", Hex 0x0); ("AUDIO_SBC_BLOCKS_8", Hex 0x1);
  ("AUDIO_SBC_BLOCKS_12", Hex 0x2); ("AUDIO_SBC_BLOCKS_16", Hex 0x3)].

Definition header : header := Header "include/linux/msm_audio_sbc.h" [
  AUDIO_SBC_defs] [
] [].

End Msm_audio_sbc.

(** [include/linux/msm_audio_voicememo.h] *)

Module Msm_audio_voicememo.

Definition rpc_voc_rec_dir_type_enum : enumeration := [
  ("RPC_VOC_REC_NONE", None); ("RPC_VOC_REC_FORWARD", None); ("RPC_VOC_REC_REVERSE", None);
  ("RPC_VOC_REC_BOTH", None); ("RPC_VOC_MAX_REC_TYPE", None)].

Definition rpc_voc_capability_type_enum : enumeration := [
  ("RPC_VOC_CAP_IS733", Some (Dec 4)); ("RPC_VOC_CAP_IS127", Some (Dec 8)); ("RPC_VOC_CAP_AMR", Some (Dec 64));
  ("RPC_VOC_CAP_32BIT_DUMMY", Some (Dec 2147483647))].

Definition rpc_voc_rate_type_enum : enumeration := [
  ("RPC_VOC_0_RATE", Some (Dec 0)); ("RPC_VOC_8_RATE", None); ("RPC_VOC_4_RATE", None);
  ("RPC_VOC_2_RATE", None); ("RPC_VOC_1_RATE", None); ("RPC_VOC_ERASURE", None); ("RPC_VOC_ERR_RATE", None);
  ("RPC_VOC_AMR_RATE_475", Some (Dec 0)); ("RPC_VOC_AMR_RATE_515", Some (Dec 1));
  ("RPC_VOC_AMR_RATE_590", Some (Dec 2)); ("RPC_VOC_AMR_RATE_670", Some (Dec 3));
  ("RPC_VOC_AMR_RATE_740", Some (Dec 4)); ("RPC_VOC_AMR_RATE_795", Some (Dec 5));
  ("RPC_VOC_AMR_RATE_1020", Some (Dec 6)); ("RPC_VOC_AMR_RATE_1220", Some (Dec 7))].

Definition rpc_voc_pb_len_rate_var_type_enum : enumeration := [
  ("RPC_VOC_PB_NATIVE_QCP", Some (Dec 3)); ("RPC_VOC_PB_AMR", None); ("RPC_VOC_PB_EVB", None)].

Definition header : header := Header "include/linux/msm_audio_voicememo.h" [
] [
  rpc_voc_rec_dir_type_enum; rpc_voc_capability_type_enum; rpc_voc_rate_type_enum;
  rpc_voc_pb_len_rate_var_type_enum] [].

End Msm_audio_voicememo.

(** [include/sound/audio_compressed_formats.h] *)

Module Audio_compressed_formats.

Definition AUDIO_COMP_FORMAT_defs : defines := [
  ("AUDIO_COMP_FORMAT_ALAC", Hex 0x1); ("AUDIO_COMP_FORMAT_APE", Hex 0x2); ("AUDIO_COMP_FORMAT_APTX", Hex 0x3);
  ("AUDIO_COMP_FORMAT_DSD", Hex 0x4); ("AUDIO_COMP_FORMAT_FLAC", Hex 0x5);
  ("AUDIO_COMP_FORMAT_VORBIS", Hex 0x6); ("AUDIO_COMP_FORMAT_WMA", Hex 0x7);
  ("AUDIO_COMP_FORMAT_WMA_PRO", Hex 0x8)].

Definition header : header := Header "include/sound/audio_compressed_formats.h" [
  AUDIO_COMP_FORMAT_defs] [
] [].

End Audio_compressed_formats.

(** [include/sound/audio_effects.h] *)

Module Audio_effects.

Definition AUDIO_EFFECTS_CONFIG_CACHE_defs : defines := [
  ("AUDIO_EFFECTS_CONFIG_CACHE", Dec 0); ("AUDIO_EFFECTS_CONFIG_SET", Dec 1);
  ("AUDIO_EFFECTS_CONFIG_GET", Dec 2); ("VIRTUALIZER_MODULE", Hex 0x00001000);
  ("VIRTUALIZER_ENABLE", Hex 0x00001001); ("VIRTUALIZER_STRENGTH", Hex 0x00001002);
  ("VIRTUALIZER_OUT_TYPE", Hex 0x00001003); ("VIRTUALIZER_GAIN_ADJUST", Hex 0x00001004);
  ("VIRTUALIZER_ENABLE_PARAM_LEN", Dec 1); ("VIRTUALIZER_STRENGTH_PARAM_LEN", Dec 1);
  ("VIRTUALIZER_OUT_TYPE_PARAM_LEN", Dec 1); ("VIRTUALIZER_GAIN_ADJUST_PARAM_LEN", Dec 1);
  ("REVERB_MODULE", Hex 0x00002000); ("REVERB_ENABLE", Hex 0x00002001); ("REVERB_MODE", Hex 0x00002002);
  ("REVERB_PRESET", Hex 0x00002003); ("REVERB_WET_MIX", Hex 0x00002004);
  ("REVERB_GAIN_ADJUST", Hex 0x00002005); ("REVERB_ROOM_LEVEL", Hex 0x00002006);
  ("REVERB_ROOM_HF_LEVEL", Hex 0x00002007); ("REVERB_DECAY_TIME", Hex 0x00002008);
  ("REVERB_DECAY_HF_RATIO", Hex 0x00002009); ("REVERB_REFLECTIONS_LEVEL", Hex 0x0000200a);
  ("REVERB_REFLECTIONS_DELAY", Hex 0x0000200b); ("REVERB_LEVEL", Hex 0x0000200c);
  ("REVERB_DELAY", Hex 0x0000200d); ("REVERB_DIFFUSION", Hex 0x0000200e); ("REVERB_DENSITY", Hex 0x0000200f);
  ("REVERB_ENABLE_PARAM_LEN", Dec 1); ("REVERB_MODE_PARAM_LEN", Dec 1); ("REVERB_PRESET_PARAM_LEN", Dec 1);
  ("REVERB_WET_MIX_PARAM_LEN", Dec 1); ("REVERB_GAIN_ADJUST_PARAM_LEN", Dec 1);
  ("REVERB_ROOM_LEVEL_PARAM_LEN", Dec 1); ("REVERB_ROOM_HF_LEVEL_PARAM_LEN", Dec 1);
  ("REVERB_DECAY_TIME_PARAM_LEN", Dec 1); ("REVERB_DECAY_HF_RATIO_PARAM_LEN", Dec 1);
  ("REVERB_REFLECTIONS_LEVEL_PARAM_LEN", Dec 1); ("REVERB_REFLECTIONS_DELAY_PARAM_LEN", Dec 1);
  ("REVERB_LEVEL_PARAM_LEN", Dec 1); ("REVERB_DELAY_PARAM_LEN", Dec 1); ("REVERB_DIFFUSION_PARAM_LEN", Dec 1);
  ("REVERB_DENSITY_PARAM_LEN", Dec 1); ("BASS_BOOST_MODULE", Hex 0x00003000);
  ("BASS_BOOST_ENABLE", Hex 0x00003001); ("BASS_BOOST_MODE", Hex 0x00003002);
  ("BASS_BOOST_STRENGTH", Hex 0x00003003); ("BASS_BOOST_ENABLE_PARAM_LEN", Dec 1);
  ("BASS_BOOST_MODE_PARAM_LEN", Dec 1); ("BASS_BOOST_STRENGTH_PARAM_LEN", Dec 1);
  ("EQ_MODULE", Hex 0x00004000); ("EQ_ENABLE", Hex 0x00004001); ("EQ_CONFIG", Hex 0x00004002);
  ("EQ_NUM_BANDS", Hex 0x00004003); ("EQ_BAND_LEVELS", Hex 0x00004004);
  ("EQ_BAND_LEVEL_RANGE", Hex 0x00004005); ("EQ_BAND_FREQS", Hex 0x00004006);
  ("EQ_SINGLE_BAND_FREQ_RANGE", Hex 0x00004007); ("EQ_SINGLE_BAND_FREQ", Hex 0x00004008);
  ("EQ_BAND_INDEX", Hex 0x00004009); ("EQ_PRESET_ID", Hex 0x0000400a); ("EQ_NUM_PRESETS", Hex 0x0000400b);
  ("EQ_PRESET_NAME", Hex 0x0000400c); ("EQ_ENABLE_PARAM_LEN", Dec 1); ("EQ_CONFIG_PARAM_LEN", Dec 3);
  ("EQ_CONFIG_PER_BAND_PARAM_LEN", Dec 5); ("EQ_NUM_BANDS_PARAM_LEN", Dec 1);
  ("EQ_BAND_LEVELS_PARAM_LEN", Dec 13); ("EQ_BAND_LEVEL_RANGE_PARAM_LEN", Dec 2);
  ("EQ_BAND_FREQS_PARAM_LEN", Dec 13); ("EQ_SINGLE_BAND_FREQ_RANGE_PARAM_LEN", Dec 2);
  ("EQ_SINGLE_BAND_FREQ_PARAM_LEN", Dec 1); ("EQ_BAND_INDEX_PARAM_LEN", Dec 1);
  ("EQ_PRESET_ID_PARAM_LEN", Dec 1); ("EQ_NUM_PRESETS_PARAM_LEN", Dec 1); ("EQ_PRESET_NAME_PARAM_LEN", Dec 32);
  ("EQ_TYPE_NONE", Dec 0); ("EQ_BASS_BOOST", Dec 1); ("EQ_BASS_CUT", Dec 2); ("EQ_TREBLE_BOOST", Dec 3);
  ("EQ_TREBLE_CUT", Dec 4); ("EQ_BAND_BOOST", Dec 5); ("EQ_BAND_CUT", Dec 6);
  ("SOFT_VOLUME_MODULE", Hex 0x00006000); ("SOFT_VOLUME_ENABLE", Hex 0x00006001);
  ("SOFT_VOLUME_GAIN_2CH", Hex 0x00006002); ("SOFT_VOLUME_GAIN_MASTER", Hex 0x00006003);
  ("SOFT_VOLUME_ENABLE_PARAM_LEN", Dec 1); ("SOFT_VOLUME_GAIN_2CH_PARAM_LEN", Dec 2);
  ("SOFT_VOLUME_GAIN_MASTER_PARAM_LEN", Dec 1); ("SOFT_VOLUME2_MODULE", Hex 0x00007000);
  ("SOFT_VOLUME2_ENABLE", Hex 0x00007001); ("SOFT_VOLUME2_GAIN_2CH", Hex 0x00007002);
  ("SOFT_VOLUME2_GAIN_MASTER", Hex 0x00007003);
  ("SOFT_VOLUME2_ENABLE_PARAM_LEN", Ref "SOFT_VOLUME_ENABLE_PARAM_LEN");
  ("SOFT_VOLUME2_GAIN_2CH_PARAM_LEN", Ref "SOFT_VOLUME_GAIN_2CH_PARAM_LEN");
  ("SOFT_VOLUME2_GAIN_MASTER_PARAM_LEN", Ref "SOFT_VOLUME_GAIN_MASTER_PARAM_LEN");
  ("PBE_CONF_MODULE_ID", Hex 0x00010c2a); ("PBE_CONF_PARAM_ID", Hex 0x00010c49);
  ("PBE_MODULE", Hex 0x00008000); ("PBE_ENABLE", Hex 0x00008001); ("PBE_CONFIG", Hex 0x00008002);
  ("PBE_ENABLE_PARAM_LEN", Dec 1); ("PBE_CONFIG_PARAM_LEN", Dec 28)].

Definition COMMAND_PAYLOAD_LEN_defs : defines := [
  ("COMMAND_PAYLOAD_LEN", Dec 3);
  ("COMMAND_PAYLOAD_SZ", Bin BMul (Ref "COMMAND_PAYLOAD_LEN") (SizeOf (fun _ => c_u32)));
  ("COMMAND_IID_PAYLOAD_LEN", Dec 4);
  ("COMMAND_IID_PAYLOAD_SZ", Bin BMul (Ref "COMMAND_IID_PAYLOAD_LEN") (SizeOf (fun _ => c_u32)));
  ("MAX_INBAND_PARAM_SZ", Dec 4096); ("Q27_UNITY", Bin BShl (Dec 1) (Dec 27));
  ("Q8_UNITY", Bin BShl (Dec 1) (Dec 8)); ("CUSTOM_OPENSL_PRESET", Dec 18);
  ("VIRTUALIZER_ENABLE_PARAM_SZ", Bin BMul (Ref "VIRTUALIZER_ENABLE_PARAM_LEN") (SizeOf (fun _ => c_u32)));
  ("VIRTUALIZER_STRENGTH_PARAM_SZ", Bin BMul (Ref "VIRTUALIZER_STRENGTH_PARAM_LEN") (SizeOf (fun _ => c_u32)));
  ("VIRTUALIZER_OUT_TYPE_PARAM_SZ", Bin BMul (Ref "VIRTUALIZER_OUT_TYPE_PARAM_LEN") (SizeOf (fun _ => c_u32)));
  ("VIRTUALIZER_GAIN_ADJUST_PARAM_SZ", Bin BMul (Ref "VIRTUALIZER_GAIN_ADJUST_PARAM_LEN") (SizeOf (fun _ => c_u32)))].

Definition NUM_OSL_REVERB_PRESETS_SUPPORTED_defs : defines := [
  ("NUM_OSL_REVERB_PRESETS_SUPPORTED", Dec 6);
  ("REVERB_ENABLE_PARAM_SZ", Bin BMul (Ref "REVERB_ENABLE_PARAM_LEN") (SizeOf (fun _ => c_u32)));
  ("REVERB_MODE_PARAM_SZ", Bin BMul (Ref "REVERB_MODE_PARAM_LEN") (SizeOf (fun _ => c_u32)));
  ("REVERB_PRESET_PARAM_SZ", Bin BMul (Ref "REVERB_PRESET_PARAM_LEN") (SizeOf (fun _ => c_u32)));
  ("REVERB_WET_MIX_PARAM_SZ", Bin BMul (Ref "REVERB_WET_MIX_PARAM_LEN") (SizeOf (fun _ => c_u32)));
  ("REVERB_GAIN_ADJUST_PARAM_SZ", Bin BMul (Ref "REVERB_GAIN_ADJUST_PARAM_LEN") (SizeOf (fun _ => c_u32)));
  ("REVERB_ROOM_LEVEL_PARAM_SZ", Bin BMul (Ref "REVERB_ROOM_LEVEL_PARAM_LEN") (SizeOf (fun _ => c_u32)));
  ("REVERB_ROOM_HF_LEVEL_PARAM_SZ", Bin BMul (Ref "REVERB_ROOM_HF_LEVEL_PARAM_LEN") (SizeOf (fun _ => c_u32)));
  ("REVERB_DECAY_TIME_PARAM_SZ", Bin BMul (Ref "REVERB_DECAY_TIME_PARAM_LEN") (SizeOf (fun _ => c_u32)));
  ("REVERB_DECAY_HF_RATIO_PARAM_SZ", Bin BMul (Ref "REVERB_DECAY_HF_RATIO_PARAM_LEN") (SizeOf (fun _ => c_u32)));
  ("REVERB_REFLECTIONS_LEVEL_PARAM_SZ", Bin BMul (Ref "REVERB_REFLECTIONS_LEVEL_PARAM_LEN") (SizeOf (fun _ => c_u32)));
  ("REVERB_REFLECTIONS_DELAY_PARAM_SZ", Bin BMul (Ref "REVERB_REFLECTIONS_DELAY_PARAM_LEN") (SizeOf (fun _ => c_u32)));
  ("REVERB_LEVEL_PARAM_SZ", Bin BMul (Ref "REVERB_LEVEL_PARAM_LEN") (SizeOf (fun _ => c_u32)));
  ("REVERB_DELAY_PARAM_SZ", Bin BMul (Ref "REVERB_DELAY_PARAM_LEN") (SizeOf (fun _ => c_u32)));
  ("REVERB_DIFFUSION_PARAM_SZ", Bin BMul (Ref "REVERB_DIFFUSION_PARAM_LEN") (SizeOf (fun _ => c_u32)));
  ("REVERB_DENSITY_PARAM_SZ", Bin BMul (Ref "REVERB_DENSITY_PARAM_LEN") (SizeOf (fun _ => c_u32)))].

Definition BASS_BOOST_defs : defines := [
  ("BASS_BOOST_ENABLE_PARAM_SZ", Bin BMul (Ref "BASS_BOOST_ENABLE_PARAM_LEN") (SizeOf (fun _ => c_u32)));
  ("BASS_BOOST_MODE_PARAM_SZ", Bin BMul (Ref "BASS_BOOST_MODE_PARAM_LEN") (SizeOf (fun _ => c_u32)));
  ("BASS_BOOST_STRENGTH_PARAM_SZ", Bin BMul (Ref "BASS_BOOST_STRENGTH_PARAM_LEN") (SizeOf (fun _ => c_u32)))].

Definition MAX_EQ_BANDS_defs : defines := [
  ("MAX_EQ_BANDS", Dec 12); ("MAX_OSL_EQ_BANDS", Dec 5);
  ("EQ_ENABLE_PARAM_SZ", Bin BMul (Ref "EQ_ENABLE_PARAM_LEN") (SizeOf (fun _ => c_u32)));
  ("EQ_CONFIG_PARAM_SZ", Bin BMul (Ref "EQ_CONFIG_PARAM_LEN") (SizeOf (fun _ => c_u32)));
  ("EQ_CONFIG_PER_BAND_PARAM_SZ", Bin BMul (Ref "EQ_CONFIG_PER_BAND_PARAM_LEN") (SizeOf (fun _ => c_u32)));
  ("EQ_CONFIG_PARAM_MAX_LEN", Bin BAdd (Ref "EQ_CONFIG_PARAM_LEN") (Bin BMul (Ref "MAX_EQ_BANDS") (Ref "EQ_CONFIG_PER_BAND_PARAM_LEN")));
  ("EQ_CONFIG_PARAM_MAX_SZ", Bin BMul (Ref "EQ_CONFIG_PARAM_MAX_LEN") (SizeOf (fun _ => c_u32)));
  ("EQ_NUM_BANDS_PARAM_SZ", Bin BMul (Ref "EQ_NUM_BANDS_PARAM_LEN") (SizeOf (fun _ => c_u32)));
  ("EQ_BAND_LEVELS_PARAM_SZ", Bin BMul (Ref "EQ_BAND_LEVELS_PARAM_LEN") (SizeOf (fun _ => c_u32)));
  ("EQ_BAND_LEVEL_RANGE_PARAM_SZ", Bin BMul (Ref "EQ_BAND_LEVEL_RANGE_PARAM_LEN") (SizeOf (fun _ => c_u32)));
  ("EQ_BAND_FREQS_PARAM_SZ", Bin BMul (Ref "EQ_BAND_FREQS_PARAM_LEN") (SizeOf (fun _ => c_u32)));
  ("EQ_SINGLE_BAND_FREQ_RANGE_PARAM_SZ", Bin BMul (Ref "EQ_SINGLE_BAND_FREQ_RANGE_PARAM_LEN") (SizeOf (fun _ => c_u32)));
  ("EQ_SINGLE_BAND_FREQ_PARAM_SZ", Bin BMul (Ref "EQ_SINGLE_BAND_FREQ_PARAM_LEN") (SizeOf (fun _ => c_u32)));
  ("EQ_BAND_INDEX_PARAM_SZ", Bin BMul (Ref "EQ_BAND_INDEX_PARAM_LEN") (SizeOf (fun _ => c_u32)));
  ("EQ_PRESET_ID_PARAM_SZ", Bin BMul (Ref "EQ_PRESET_ID_PARAM_LEN") (SizeOf (fun _ => c_u32)));
  ("EQ_NUM_PRESETS_PARAM_SZ", Bin BMul (Ref "EQ_NUM_PRESETS_PARAM_LEN") (SizeOf (fun _ => c_u8)))].

Definition PBE_defs : defines := [
  ("PBE_ENABLE_PARAM_SZ", Bin BMul (Ref "PBE_ENABLE_PARAM_LEN") (SizeOf (fun _ => c_u32)));
  ("PBE_CONFIG_PARAM_SZ", Bin BMul (Ref "PBE_CONFIG_PARAM_LEN") (SizeOf (fun _ => c_u16)))].

Definition SOFT_VOLUME_defs : defines := [
  ("SOFT_VOLUME_ENABLE_PARAM_SZ", Bin BMul (Ref "SOFT_VOLUME_ENABLE_PARAM_LEN") (SizeOf (fun _ => c_u32)));
  ("SOFT_VOLUME_GAIN_MASTER_PARAM_SZ", Bin BMul (Ref "SOFT_VOLUME_GAIN_MASTER_PARAM_LEN") (SizeOf (fun _ => c_u32)));
  ("SOFT_VOLUME_GAIN_2CH_PARAM_SZ", Bin BMul (Ref "SOFT_VOLUME_GAIN_2CH_PARAM_LEN") (SizeOf (fun _ => c_u16)))].

Definition header : header := Header "include/sound/audio_effects.h" [
  AUDIO_EFFECTS_CONFIG_CACHE_defs; COMMAND_PAYLOAD_LEN_defs; NUM_OSL_REVERB_PRESETS_SUPPORTED_defs;
  BASS_BOOST_defs; MAX_EQ_BANDS_defs; PBE_defs; SOFT_VOLUME_defs] [
] [].

End Audio_effects.

(** [include/sound/audio_slimslave.h] *)

Module Audio_slimslave.

Definition AUDIO_SLIMSLAVE_enum : enumeration := [
  ("AUDIO_SLIMSLAVE_UNVOTE", None); ("AUDIO_SLIMSLAVE_VOTE", None)].

Definition header : header := Header "include/sound/audio_slimslave.h" [
] [
  AUDIO_SLIMSLAVE_enum] [].

End Audio_slimslave.

(** [include/sound/compress_offload.h] *)

Module Compress_offload.

Definition SND_COMPR_TRIGGER_defs : defines := [
  ("SND_COMPR_TRIGGER_DRAIN", Dec 7); ("SND_COMPR_TRIGGER_NEXT_TRACK", Dec 8);
  ("SND_COMPR_TRIGGER_PARTIAL_DRAIN", Dec 9)].

Definition snd_compr_direction_enum : enumeration := [
  ("SND_COMPRESS_PLAYBACK", Some (Dec 0)); ("SND_COMPRESS_CAPTURE", None)].

Definition sndrv_compress_encoder_enum : enumeration := [
  ("SNDRV_COMPRESS_ENCODER_PADDING", Some (Dec 1)); ("SNDRV_COMPRESS_ENCODER_DELAY", Some (Dec 2))].

Definition header : header := Header "include/sound/compress_offload.h" [
  SND_COMPR_TRIGGER_defs] [
  snd_compr_direction_enum; sndrv_compress_encoder_enum] [].

End Compress_offload.

(** [include/sound/compress_params.h] *)

Module Compress_params.

Definition SND_defs : defines := [
  ("SND_AUDIOCODEC_PCM", Cast U32 (Hex 0x00000001)); ("SND_AUDIOCODEC_MP3", Cast U32 (Hex 0x00000002));
  ("SND_AUDIOCODEC_AMR", Cast U32 (Hex 0x00000003)); ("SND_AUDIOCODEC_AMRWB", Cast U32 (Hex 0x00000004));
  ("SND_AUDIOCODEC_AMRWBPLUS", Cast U32 (Hex 0x00000005)); ("SND_AUDIOCODEC_AAC", Cast U32 (Hex 0x00000006));
  ("SND_AUDIOCODEC_WMA", Cast U32 (Hex 0x00000007)); ("SND_AUDIOCODEC_REAL", Cast U32 (Hex 0x00000008));
  ("SND_AUDIOCODEC_VORBIS", Cast U32 (Hex 0x00000009)); ("SND_AUDIOCODEC_FLAC", Cast U32 (Hex 0x0000000a));
  ("SND_AUDIOCODEC_IEC61937", Cast U32 (Hex 0x0000000b)); ("SND_AUDIOCODEC_G723_1", Cast U32 (Hex 0x0000000c));
  ("SND_AUDIOCODEC_G729", Cast U32 (Hex 0x0000000d)); ("SND_AUDIOCODEC_BESPOKE", Cast U32 (Hex 0x0000000e));
  ("SND_AUDIOCODEC_ALAC", Cast U32 (Hex 0x0000000f)); ("SND_AUDIOCODEC_APE", Cast U32 (Hex 0x00000010));
  ("SND_AUDIOCODEC_MAX", Ref "SND_AUDIOCODEC_APE"); ("SND_AUDIOPROFILE_PCM", Cast U32 (Hex 0x00000001))].

Definition SND_AUDIOCHANMODE_MP3_defs : defines := [
  ("SND_AUDIOCHANMODE_MP3_MONO", Cast U32 (Hex 0x00000001));
  ("SND_AUDIOCHANMODE_MP3_STEREO", Cast U32 (Hex 0x00000002));
  ("SND_AUDIOCHANMODE_MP3_JOINTSTEREO", Cast U32 (Hex 0x00000004));
  ("SND_AUDIOCHANMODE_MP3_DUAL", Cast U32 (Hex 0x00000008))].

Definition SND_defs2 : defines := [
  ("SND_AUDIOPROFILE_AMR", Cast U32 (Hex 0x00000001));
  ("SND_AUDIOMODE_AMR_DTX_OFF", Cast U32 (Hex 0x00000001));
  ("SND_AUDIOMODE_AMR_VAD1", Cast U32 (Hex 0x00000002)); ("SND_AUDIOMODE_AMR_VAD2", Cast U32 (Hex 0x00000004))].

Definition SND_AUDIOSTREAMFORMAT_defs : defines := [
  ("SND_AUDIOSTREAMFORMAT_UNDEFINED", Cast U32 (Hex 0x00000000));
  ("SND_AUDIOSTREAMFORMAT_CONFORMANCE", Cast U32 (Hex 0x00000001));
  ("SND_AUDIOSTREAMFORMAT_IF1", Cast U32 (Hex 0x00000002));
  ("SND_AUDIOSTREAMFORMAT_IF2", Cast U32 (Hex 0x00000004));
  ("SND_AUDIOSTREAMFORMAT_FSF", Cast U32 (Hex 0x00000008));
  ("SND_AUDIOSTREAMFORMAT_RTPPAYLOAD", Cast U32 (Hex 0x00000010));
  ("SND_AUDIOSTREAMFORMAT_ITU", Cast U32 (Hex 0x00000020))].

Definition SND_defs3 : defines := [
  ("SND_AUDIOPROFILE_AMRWB", Cast U32 (Hex 0x00000001));
  ("SND_AUDIOMODE_AMRWB_DTX_OFF", Cast U32 (Hex 0x00000001));
  ("SND_AUDIOMODE_AMRWB_VAD1", Cast U32 (Hex 0x00000002));
  ("SND_AUDIOMODE_AMRWB_VAD2", Cast U32 (Hex 0x00000004));
  ("SND_AUDIOPROFILE_AMRWBPLUS", Cast U32 (Hex 0x00000001));
  ("SND_AUDIOPROFILE_AAC", Cast U32 (Hex 0x00000001))].

Definition SND_AUDIOMODE_AAC_defs : defines := [
  ("SND_AUDIOMODE_AAC_MAIN", Cast U32 (Hex 0x00000001)); ("SND_AUDIOMODE_AAC_LC", Cast U32 (Hex 0x00000002));
  ("SND_AUDIOMODE_AAC_SSR", Cast U32 (Hex 0x00000004)); ("SND_AUDIOMODE_AAC_LTP", Cast U32 (Hex 0x00000008));
  ("SND_AUDIOMODE_AAC_HE", Cast U32 (Hex 0x00000010));
  ("SND_AUDIOMODE_AAC_SCALABLE", Cast U32 (Hex 0x00000020));
  ("SND_AUDIOMODE_AAC_ERLC", Cast U32 (Hex 0x00000040)); ("SND_AUDIOMODE_AAC_LD", Cast U32 (Hex 0x00000080));
  ("SND_AUDIOMODE_AAC_HE_PS", Cast U32 (Hex 0x00000100));
  ("SND_AUDIOMODE_AAC_HE_MPS", Cast U32 (Hex 0x00000200))].

Definition SND_AUDIOSTREAMFORMAT_defs2 : defines := [
  ("SND_AUDIOSTREAMFORMAT_MP2ADTS", Cast U32 (Hex 0x00000001));
  ("SND_AUDIOSTREAMFORMAT_MP4ADTS", Cast U32 (Hex 0x00000002));
  ("SND_AUDIOSTREAMFORMAT_MP4LOAS", Cast U32 (Hex 0x00000004));
  ("SND_AUDIOSTREAMFORMAT_MP4LATM", Cast U32 (Hex 0x00000008));
  ("SND_AUDIOSTREAMFORMAT_ADIF", Cast U32 (Hex 0x00000010));
  ("SND_AUDIOSTREAMFORMAT_MP4FF", Cast U32 (Hex 0x00000020));
  ("SND_AUDIOSTREAMFORMAT_RAW", Cast U32 (Hex 0x00000040))].

Definition SND_AUDIOPROFILE_defs : defines := [
  ("SND_AUDIOPROFILE_WMA7", Cast U32 (Hex 0x00000001)); ("SND_AUDIOPROFILE_WMA8", Cast U32 (Hex 0x00000002));
  ("SND_AUDIOPROFILE_WMA9", Cast U32 (Hex 0x00000004)); ("SND_AUDIOPROFILE_WMA10", Cast U32 (Hex 0x00000008));
  ("SND_AUDIOPROFILE_WMA9_PRO", Cast U32 (Hex 0x00000010));
  ("SND_AUDIOPROFILE_WMA9_LOSSLESS", Cast U32 (Hex 0x00000020));
  ("SND_AUDIOPROFILE_WMA10_LOSSLESS", Cast U32 (Hex 0x00000040))].

Definition SND_AUDIOMODE_defs : defines := [
  ("SND_AUDIOMODE_WMA_LEVEL1", Cast U32 (Hex 0x00000001));
  ("SND_AUDIOMODE_WMA_LEVEL2", Cast U32 (Hex 0x00000002));
  ("SND_AUDIOMODE_WMA_LEVEL3", Cast U32 (Hex 0x00000004));
  ("SND_AUDIOMODE_WMA_LEVEL4", Cast U32 (Hex 0x00000008));
  ("SND_AUDIOMODE_WMAPRO_LEVELM0", Cast U32 (Hex 0x00000010));
  ("SND_AUDIOMODE_WMAPRO_LEVELM1", Cast U32 (Hex 0x00000020));
  ("SND_AUDIOMODE_WMAPRO_LEVELM2", Cast U32 (Hex 0x00000040));
  ("SND_AUDIOMODE_WMAPRO_LEVELM3", Cast U32 (Hex 0x00000080))].

Definition SND_defs4 : defines := [
  ("SND_AUDIOSTREAMFORMAT_WMA_ASF", Cast U32 (Hex 0x00000001));
  ("SND_AUDIOSTREAMFORMAT_WMA_NOASF_HDR", Cast U32 (Hex 0x00000002));
  ("SND_AUDIOPROFILE_REALAUDIO", Cast U32 (Hex 0x00000001))].

Definition SND_AUDIOMODE_REALAUDIO_defs : defines := [
  ("SND_AUDIOMODE_REALAUDIO_G2", Cast U32 (Hex 0x00000001));
  ("SND_AUDIOMODE_REALAUDIO_8", Cast U32 (Hex 0x00000002));
  ("SND_AUDIOMODE_REALAUDIO_10", Cast U32 (Hex 0x00000004));
  ("SND_AUDIOMODE_REALAUDIO_SURROUND", Cast U32 (Hex 0x00000008))].

Definition SND_defs5 : defines := [
  ("SND_AUDIOPROFILE_VORBIS", Cast U32 (Hex 0x00000001)); ("SND_AUDIOMODE_VORBIS", Cast U32 (Hex 0x00000001));
  ("SND_AUDIOPROFILE_FLAC", Cast U32 (Hex 0x00000001))].

Definition SND_AUDIOMODE_FLAC_defs : defines := [
  ("SND_AUDIOMODE_FLAC_LEVEL0", Cast U32 (Hex 0x00000001));
  ("SND_AUDIOMODE_FLAC_LEVEL1", Cast U32 (Hex 0x00000002));
  ("SND_AUDIOMODE_FLAC_LEVEL2", Cast U32 (Hex 0x00000004));
  ("SND_AUDIOMODE_FLAC_LEVEL3", Cast U32 (Hex 0x00000008));
  ("SND_AUDIOMODE_FLAC_LEVEL4", Cast U32 (Hex 0x00000010));
  ("SND_AUDIOMODE_FLAC_LEVEL5", Cast U32 (Hex 0x00000020));
  ("SND_AUDIOMODE_FLAC_LEVEL6", Cast U32 (Hex 0x00000040));
  ("SND_AUDIOMODE_FLAC_LEVEL7", Cast U32 (Hex 0x00000080));
  ("SND_AUDIOMODE_FLAC_LEVEL8", Cast U32 (Hex 0x00000100))].

Definition SND_defs6 : defines := [
  ("SND_AUDIOSTREAMFORMAT_FLAC", Cast U32 (Hex 0x00000001));
  ("SND_AUDIOSTREAMFORMAT_FLAC_OGG", Cast U32 (Hex 0x00000002));
  ("SND_AUDIOPROFILE_IEC61937", Cast U32 (Hex 0x00000001));
  ("SND_AUDIOPROFILE_IEC61937_SPDIF", Cast U32 (Hex 0x00000002))].

Definition SND_AUDIOMODE_IEC_defs : defines := [
  ("SND_AUDIOMODE_IEC_REF_STREAM_HEADER", Cast U32 (Hex 0x00000000));
  ("SND_AUDIOMODE_IEC_LPCM", Cast U32 (Hex 0x00000001)); ("SND_AUDIOMODE_IEC_AC3", Cast U32 (Hex 0x00000002));
  ("SND_AUDIOMODE_IEC_MPEG1", Cast U32 (Hex 0x00000004)); ("SND_AUDIOMODE_IEC_MP3", Cast U32 (Hex 0x00000008));
  ("SND_AUDIOMODE_IEC_MPEG2", Cast U32 (Hex 0x00000010));
  ("SND_AUDIOMODE_IEC_AACLC", Cast U32 (Hex 0x00000020)); ("SND_AUDIOMODE_IEC_DTS", Cast U32 (Hex 0x00000040));
  ("SND_AUDIOMODE_IEC_ATRAC", Cast U32 (Hex 0x00000080));
  ("SND_AUDIOMODE_IEC_SACD", Cast U32 (Hex 0x00000100)); ("SND_AUDIOMODE_IEC_EAC3", Cast U32 (Hex 0x00000200));
  ("SND_AUDIOMODE_IEC_DTS_HD", Cast U32 (Hex 0x00000400));
  ("SND_AUDIOMODE_IEC_MLP", Cast U32 (Hex 0x00000800)); ("SND_AUDIOMODE_IEC_DST", Cast U32 (Hex 0x00001000));
  ("SND_AUDIOMODE_IEC_WMAPRO", Cast U32 (Hex 0x00002000));
  ("SND_AUDIOMODE_IEC_REF_CXT", Cast U32 (Hex 0x00004000));
  ("SND_AUDIOMODE_IEC_HE_AAC", Cast U32 (Hex 0x00008000));
  ("SND_AUDIOMODE_IEC_HE_AAC2", Cast U32 (Hex 0x00010000));
  ("SND_AUDIOMODE_IEC_MPEG_SURROUND", Cast U32 (Hex 0x00020000))].

Definition SND_defs7 : defines := [
  ("SND_AUDIOPROFILE_G723_1", Cast U32 (Hex 0x00000001));
  ("SND_AUDIOMODE_G723_1_ANNEX_A", Cast U32 (Hex 0x00000001));
  ("SND_AUDIOMODE_G723_1_ANNEX_B", Cast U32 (Hex 0x00000002));
  ("SND_AUDIOMODE_G723_1_ANNEX_C", Cast U32 (Hex 0x00000004));
  ("SND_AUDIOPROFILE_G729", Cast U32 (Hex 0x00000001));
  ("SND_AUDIOMODE_G729_ANNEX_A", Cast U32 (Hex 0x00000001));
  ("SND_AUDIOMODE_G729_ANNEX_B", Cast U32 (Hex 0x00000002));
  ("SND_RATECONTROLMODE_CONSTANTBITRATE", Cast U32 (Hex 0x00000001));
  ("SND_RATECONTROLMODE_VARIABLEBITRATE", Cast U32 (Hex 0x00000002))].

Definition header : header := Header "include/sound/compress_params.h" [
  SND_defs; SND_AUDIOCHANMODE_MP3_defs; SND_defs2; SND_AUDIOSTREAMFORMAT_defs; SND_defs3;
  SND_AUDIOMODE_AAC_defs; SND_AUDIOSTREAMFORMAT_defs2; SND_AUDIOPROFILE_defs; SND_AUDIOMODE_defs; SND_defs4;
  SND_AUDIOMODE_REALAUDIO_defs; SND_defs5; SND_AUDIOMODE_FLAC_defs; SND_defs6; SND_AUDIOMODE_IEC_defs;
  SND_defs7] [
] [].

End Compress_params.

(** [include/sound/devdep_params.h] *)

Module Devdep_params.

Definition DTS_EAGLE_defs : defines := [
  ("DTS_EAGLE_MODULE", Hex 0x00005000); ("DTS_EAGLE_MODULE_ENABLE", Hex 0x00005001);
  ("DTS_EAGLE_FLAG_IOCTL_PRE", Bin BShl (Dec 1) (Dec 30));
  ("DTS_EAGLE_FLAG_IOCTL_JUSTSETCACHE", Bin BShl (Dec 1) (Dec 31));
  ("DTS_EAGLE_FLAG_IOCTL_GETFROMCORE", Ref "DTS_EAGLE_FLAG_IOCTL_JUSTSETCACHE");
  ("DTS_EAGLE_FLAG_IOCTL_MASK", Un BitNot (Bin BOr (Ref "DTS_EAGLE_FLAG_IOCTL_PRE") (Ref "DTS_EAGLE_FLAG_IOCTL_JUSTSETCACHE")));
  ("DTS_EAGLE_FLAG_ALSA_GET", Bin BShl (Dec 1) (Dec 31))].

Definition HWDEP_FE_BASE_def : defines := [
  ("HWDEP_FE_BASE", Dec 3000)].

Definition header : header := Header "include/sound/devdep_params.h" [
  DTS_EAGLE_defs; HWDEP_FE_BASE_def] [
] [].

End Devdep_params.

(** [include/sound/lsm_params.h] *)

Module Lsm_params.

Definition LSM_defs : defines := [
  ("LSM_STAGE_INDEX_FIRST", Dec 0); ("LSM_OUT_FORMAT_PCM", Dec 0);
  ("LSM_OUT_FORMAT_ADPCM", Bin BShl (Dec 1) (Dec 0)); ("LSM_OUT_DATA_RAW", Dec 0);
  ("LSM_OUT_DATA_PACKED", Dec 1); ("LSM_OUT_DATA_EVENTS_DISABLED", Dec 0);
  ("LSM_OUT_DATA_EVENTS_ENABLED", Dec 1); ("LSM_OUT_TRANSFER_MODE_RT", Dec 0);
  ("LSM_OUT_TRANSFER_MODE_FTRT", Dec 1); ("LSM_ENDPOINT_DETECT_THRESHOLD", Dec 0);
  ("LSM_OPERATION_MODE", Dec 1); ("LSM_GAIN", Dec 2); ("LSM_MIN_CONFIDENCE_LEVELS", Dec 3);
  ("LSM_REG_SND_MODEL", Dec 4); ("LSM_DEREG_SND_MODEL", Dec 5); ("LSM_CUSTOM_PARAMS", Dec 6);
  ("LSM_POLLING_ENABLE", Dec 7); ("LSM_DET_EVENT_TYPE", Dec 8); ("LSM_LAB_CONTROL", Dec 9);
  ("LSM_REG_MULTI_SND_MODEL", Dec 10); ("LSM_DEREG_MULTI_SND_MODEL", Dec 11);
  ("LSM_MULTI_SND_MODEL_CONFIDENCE_LEVELS", Dec 12); ("LSM_GET_CUSTOM_PARAMS", Dec 13);
  ("LSM_PARAMS_MAX", Bin BAdd (Ref "LSM_GET_CUSTOM_PARAMS") (Dec 1)); ("LSM_EVENT_NON_TIME_STAMP_MODE", Dec 0);
  ("LSM_EVENT_TIME_STAMP_MODE", Dec 1); ("LSM_DET_EVENT_TYPE_LEGACY", Dec 0);
  ("LSM_DET_EVENT_TYPE_GENERIC", Dec 1); ("LSM_INPUT_SAMPLE_RATE_16K", Dec 16000);
  ("LSM_INPUT_SAMPLE_RATE_48K", Dec 48000); ("LSM_INPUT_BIT_WIDTH_16", Dec 16);
  ("LSM_INPUT_BIT_WIDTH_24", Dec 24); ("LSM_INPUT_NUM_CHANNELS_MIN", Dec 1);
  ("LSM_INPUT_NUM_CHANNELS_MAX", Dec 9)].

Definition lsm_app_id_enum : enumeration := [
  ("LSM_VOICE_WAKEUP_APP_ID", Some (Dec 1)); ("LSM_VOICE_WAKEUP_APP_ID_V2", Some (Dec 2))].

Definition lsm_detection_mode_enum : enumeration := [
  ("LSM_MODE_KEYWORD_ONLY_DETECTION", Some (Dec 1)); ("LSM_MODE_USER_KEYWORD_DETECTION", None)].

Definition lsm_vw_status_enum : enumeration := [
  ("LSM_VOICE_WAKEUP_STATUS_RUNNING", Some (Dec 1)); ("LSM_VOICE_WAKEUP_STATUS_DETECTED", None);
  ("LSM_VOICE_WAKEUP_STATUS_END_SPEECH", None); ("LSM_VOICE_WAKEUP_STATUS_REJECTED", None)].

Definition header : header := Header "include/sound/lsm_params.h" [
  LSM_defs] [
  lsm_app_id_enum; lsm_detection_mode_enum; lsm_vw_status_enum] [].

End Lsm_params.

(** [include/sound/msmcal-hwdep.h] *)

Module Msmcal_hwdep.

Definition WCD9XXX_CODEC_HWDEP_NODE_defs : defines := [
  ("WCD9XXX_CODEC_HWDEP_NODE", Dec 1000); ("AQT1000_CODEC_HWDEP_NODE", Dec 1001);
  ("Q6AFE_HWDEP_NODE", Dec 1002)].

Definition wcd_cal_type_enum : enumeration := [
  ("WCD9XXX_MIN_CAL", None); ("WCD9XXX_ANC_CAL", Some (Ref "WCD9XXX_MIN_CAL")); ("WCD9XXX_MAD_CAL", None);
  ("WCD9XXX_MBHC_CAL", None); ("WCD9XXX_VBAT_CAL", None); ("WCD9XXX_MAX_CAL", None)].

Definition q6afe_cal_type_enum : enumeration := [
  ("Q6AFE_MIN_CAL", None); ("Q6AFE_VAD_CORE_CAL", Some (Ref "Q6AFE_MIN_CAL")); ("Q6AFE_MAX_CAL", None)].

Definition header : header := Header "include/sound/msmcal-hwdep.h" [
  WCD9XXX_CODEC_HWDEP_NODE_defs] [
  wcd_cal_type_enum; q6afe_cal_type_enum] [].

End Msmcal_hwdep.

(** [include/sound/voice_params.h] *)

Module Voice_params.

Definition voice_lch_mode_enum : enumeration := [
  ("VOICE_LCH_START", Some (Dec 1)); ("VOICE_LCH_STOP", None)].

Definition header : header := Header "include/sound/voice_params.h" [
] [
  voice_lch_mode_enum] [].

End Voice_params.

(** [include/sound/wcd-dsp-glink.h] *)

Module Wcd_dsp_glink.

Definition WDSP_READY_PKT_def : defines := [
  ("WDSP_READY_PKT", Ref "WDSP_READY_PKT")].

Definition WDSP_enum : enumeration := [
  ("WDSP_REG_PKT", Some (Dec 1)); ("WDSP_CMD_PKT", None); ("WDSP_READY_PKT", None)].

Definition header : header := Header "include/sound/wcd-dsp-glink.h" [
  WDSP_READY_PKT_def] [
  WDSP_enum] [].

End Wcd_dsp_glink.

Definition headers : list header := [
  Msm_audio.header; Msm_audio_aac.header; Msm_audio_ac3.header; Msm_audio_calibration.header;
  Msm_audio_mvs.header; Msm_audio_qcp.header; Msm_audio_sbc.header; Msm_audio_voicememo.header;
  Audio_compressed_formats.header; Audio_effects.header; Audio_slimslave.header; Compress_offload.header;
  Compress_params.header; Devdep_params.header; Lsm_params.header; Msmcal_hwdep.header; Voice_params.header;
  Wcd_dsp_glink.header].
