(* ===== verification/ConstDisplay.v ===== *)
(** * ConstDisplay: the macros and enumerations of the display, video, radio and GPU headers

    A module per header: a [defines] for each run of macros, an [enumeration] for each
    [enum], with the expressions of the header as they are written; [header] collects them. *)

From S2P Require Import Prelude CLayout CExpr RadioIris.

#[local] Open Scope string_scope.
#[local] Open Scope list_scope.
#[local] Open Scope Z_scope.

(** [include/display/drm/msm_drm.h] *)

Module Msm_drm.

Definition DRM_defs : defines := [
  ("DRM_EVENT_PANEL_DEAD", Hex 0x1); ("DRM_EVENT_CRTC_POWER", Hex 0x2); ("DRM_EVENT_HISTOGRAM", Hex 0x3);
  ("DRM_EVENT_SDE_POWER", Hex 0x4); ("DRM_MODE_FLAG_CMD_MODE_PANEL", Hex 0x100);
  ("DRM_MODE_FLAG_VID_MODE_PANEL", Hex 0x200)].

Definition header : header := Header "include/display/drm/msm_drm.h" [
  DRM_defs] [
] [].

End Msm_drm.

(** [include/display/drm/msm_drm_pp.h] *)

Module Msm_drm_pp.

Definition PCC_BEFORE_def : defines := [
  ("PCC_BEFORE", Bin BShl (Dec 1) (Dec 0))].

Definition PA_HSIC_defs : defines := [
  ("PA_HSIC_HUE_ENABLE", Bin BShl (Dec 1) (Dec 0)); ("PA_HSIC_SAT_ENABLE", Bin BShl (Dec 1) (Dec 1));
  ("PA_HSIC_VAL_ENABLE", Bin BShl (Dec 1) (Dec 2)); ("PA_HSIC_CONT_ENABLE", Bin BShl (Dec 1) (Dec 3))].

Definition MEMCOL_PROT_defs : defines := [
  ("MEMCOL_PROT_HUE", Bin BShl (Dec 1) (Dec 0)); ("MEMCOL_PROT_SAT", Bin BShl (Dec 1) (Dec 1));
  ("MEMCOL_PROT_VAL", Bin BShl (Dec 1) (Dec 2)); ("MEMCOL_PROT_CONT", Bin BShl (Dec 1) (Dec 3));
  ("MEMCOL_PROT_SIXZONE", Bin BShl (Dec 1) (Dec 4)); ("MEMCOL_PROT_BLEND", Bin BShl (Dec 1) (Dec 5))].

Definition SIXZONE_defs : defines := [
  ("SIXZONE_HUE_ENABLE", Bin BShl (Dec 1) (Dec 0)); ("SIXZONE_SAT_ENABLE", Bin BShl (Dec 1) (Dec 1));
  ("SIXZONE_VAL_ENABLE", Bin BShl (Dec 1) (Dec 2))].

Definition GAMUT_3D_defs : defines := [
  ("GAMUT_3D_MODE_17", Dec 1); ("GAMUT_3D_MODE_5", Dec 2); ("GAMUT_3D_MODE_13", Dec 3);
  ("GAMUT_3D_MODE5_TBL_SZ", Dec 32); ("GAMUT_3D_MODE13_TBL_SZ", Dec 550); ("GAMUT_3D_SCALEB_OFF_SZ", Dec 12);
  ("GAMUT_3D_MAP_EN", Bin BShl (Dec 1) (Dec 0))].

Definition PGC_8B_ROUND_def : defines := [
  ("PGC_8B_ROUND", Bin BShl (Dec 1) (Dec 0))].

Definition IGC_DITHER_ENABLE_def : defines := [
  ("IGC_DITHER_ENABLE", Bin BShl (Dec 1) (Dec 0))].

Definition LAST_LUT_def : defines := [
  ("LAST_LUT", Dec 2)].

Definition DITHER_LUMA_MODE_def : defines := [
  ("DITHER_LUMA_MODE", Bin BShl (Dec 1) (Dec 0))].

Definition LTM_defs : defines := [
  ("LTM_FEATURE_DEF", Dec 1); ("LTM_GUARD_BYTES", Dec 255)].

Definition LTM_defs2 : defines := [
  ("LTM_STATS_SAT", Bin BShl (Dec 1) (Dec 1)); ("LTM_STATS_MERGE_SAT", Bin BShl (Dec 1) (Dec 2));
  ("LTM_HIST_CHECKSUM_SUPPORT", Bin BShl (Dec 1) (Dec 0))].

Definition SPR_FLAG_BYPASS_def : defines := [
  ("SPR_FLAG_BYPASS", Bin BShl (Dec 1) (Dec 0))].

Definition FP16_GC_defs : defines := [
  ("FP16_GC_FLAG_ALPHA_EN", Bin BShl (Dec 1) (Dec 0)); ("FP16_GC_MODE_INVALID", Dec 0);
  ("FP16_GC_MODE_SRGB", Dec 1); ("FP16_GC_MODE_PQ", Dec 2)].

Definition DIMMING_defs : defines := [
  ("DIMMING_ENABLE", Bin BShl (Dec 1) (Dec 0)); ("DIMMING_MIN_BL_VALID", Bin BShl (Dec 1) (Dec 1))].

Definition header : header := Header "include/display/drm/msm_drm_pp.h" [
  PCC_BEFORE_def; PA_HSIC_defs; MEMCOL_PROT_defs; SIXZONE_defs; GAMUT_3D_defs; PGC_8B_ROUND_def;
  IGC_DITHER_ENABLE_def; LAST_LUT_def; DITHER_LUMA_MODE_def; LTM_defs; LTM_defs2; SPR_FLAG_BYPASS_def;
  FP16_GC_defs; DIMMING_defs] [
] [].

End Msm_drm_pp.

(** [include/display/drm/sde_drm.h] *)

Module Sde_drm.

Definition FILTER_defs : defines := [
  ("FILTER_EDGE_DIRECTED_2D", Hex 0x0); ("FILTER_CIRCULAR_2D", Hex 0x1); ("FILTER_SEPARABLE_1D", Hex 0x2);
  ("FILTER_BILINEAR", Hex 0x3); ("FILTER_ALPHA_DROP_REPEAT", Hex 0x0); ("FILTER_ALPHA_BILINEAR", Hex 0x1);
  ("FILTER_ALPHA_2D", Hex 0x3); ("FILTER_BLEND_CIRCULAR_2D", Hex 0x0); ("FILTER_BLEND_SEPARABLE_1D", Hex 0x1)].

Definition SCALER_LUT_defs : defines := [
  ("SCALER_LUT_SWAP", Hex 0x1); ("SCALER_LUT_DIR_WR", Hex 0x2); ("SCALER_LUT_Y_CIR_WR", Hex 0x4);
  ("SCALER_LUT_UV_CIR_WR", Hex 0x8); ("SCALER_LUT_Y_SEP_WR", Hex 0x10); ("SCALER_LUT_UV_SEP_WR", Hex 0x20)].

Definition DRM_FORMAT_MOD_QCOM_DX_defs : defines := [
  ("DRM_FORMAT_MOD_QCOM_DX", Ext "fourcc_mod_code(QCOM)" [Hex 0x2]);
  ("DRM_FORMAT_MOD_QCOM_TIGHT", Ext "fourcc_mod_code(QCOM)" [Hex 0x4]);
  ("DRM_FORMAT_MOD_QCOM_TILE", Ext "fourcc_mod_code(QCOM)" [Hex 0x8]);
  ("DRM_FORMAT_MOD_QCOM_ALPHA_SWAP", Ext "fourcc_mod_code(QCOM)" [Hex 0x10]);
  ("DRM_FORMAT_MOD_QCOM_FSC_TILE", Ext "fourcc_mod_code(QCOM)" [Hex 0x20]);
  ("SDE_DRM_BLEND_OP_NOT_DEFINED", Dec 0); ("SDE_DRM_BLEND_OP_OPAQUE", Dec 1);
  ("SDE_DRM_BLEND_OP_PREMULTIPLIED", Dec 2); ("SDE_DRM_BLEND_OP_COVERAGE", Dec 3);
  ("SDE_DRM_BLEND_OP_MAX", Dec 4); ("SDE_DRM_BLEND_OP_SKIP", Dec 5); ("SDE_SYSCACHE_LLCC_DISP", Dec 0);
  ("SDE_SYSCACHE_LLCC_EVA_LEFT", Dec 1); ("SDE_SYSCACHE_LLCC_EVA_RIGHT", Dec 2);
  ("SDE_DRM_DEINTERLACE", Dec 0); ("SDE_DRM_BITMASK_COUNT", Dec 64); ("SDE_DRM_FB_NON_SEC", Dec 0);
  ("SDE_DRM_FB_SEC", Dec 1); ("SDE_DRM_FB_NON_SEC_DIR_TRANS", Dec 2); ("SDE_DRM_FB_SEC_DIR_TRANS", Dec 3);
  ("SDE_DRM_SEC_NON_SEC", Dec 0); ("SDE_DRM_SEC_ONLY", Dec 1)].

Definition SDE_DYN_EXP_DISABLE_def : defines := [
  ("SDE_DYN_EXP_DISABLE", Hex 0x1)].

Definition SDE_DRM_DESTSCALER_defs : defines := [
  ("SDE_DRM_DESTSCALER_ENABLE", Hex 0x1); ("SDE_DRM_DESTSCALER_SCALE_UPDATE", Hex 0x2);
  ("SDE_DRM_DESTSCALER_ENHANCER_UPDATE", Hex 0x4); ("SDE_DRM_DESTSCALER_PU_ENABLE", Hex 0x8)].

Definition SDE_defs : defines := [
  ("SDE_DRM_DIM_LAYER_INCLUSIVE", Hex 0x1); ("SDE_DRM_DIM_LAYER_EXCLUSIVE", Hex 0x2);
  ("SDE_DP_DSC_RESERVATION_SWITCH", Bin BShl (Dec 1) (Dec 0))].

Definition SDE_DRM_WB_defs : defines := [
  ("SDE_DRM_WB_CFG", Hex 0x1); ("SDE_DRM_WB_CFG_FLAGS_CONNECTED", Bin BShl (Dec 1) (Dec 0))].

Definition SDE_defs2 : defines := [
  ("SDE_MODE_DPMS_ON", Dec 0); ("SDE_MODE_DPMS_LP1", Dec 1); ("SDE_MODE_DPMS_LP2", Dec 2);
  ("SDE_MODE_DPMS_STANDBY", Dec 3); ("SDE_MODE_DPMS_SUSPEND", Dec 4); ("SDE_MODE_DPMS_OFF", Dec 5);
  ("SDE_RECOVERY_SUCCESS", Dec 0); ("SDE_RECOVERY_CAPTURE", Dec 1); ("SDE_RECOVERY_HARD_RESET", Dec 2)].

Definition SDE_FRAME_DATA_GUARD_BYTES_def : defines := [
  ("SDE_FRAME_DATA_GUARD_BYTES", Hex 0xff)].

Definition DRM_EDID_CLRMETRY_defs : defines := [
  ("DRM_EDID_CLRMETRY_xvYCC_601", Bin BShl (Dec 1) (Dec 0));
  ("DRM_EDID_CLRMETRY_xvYCC_709", Bin BShl (Dec 1) (Dec 1));
  ("DRM_EDID_CLRMETRY_sYCC_601", Bin BShl (Dec 1) (Dec 2));
  ("DRM_EDID_CLRMETRY_ADOBE_YCC_601", Bin BShl (Dec 1) (Dec 3));
  ("DRM_EDID_CLRMETRY_ADOBE_RGB", Bin BShl (Dec 1) (Dec 4));
  ("DRM_EDID_CLRMETRY_BT2020_CYCC", Bin BShl (Dec 1) (Dec 5));
  ("DRM_EDID_CLRMETRY_BT2020_YCC", Bin BShl (Dec 1) (Dec 6));
  ("DRM_EDID_CLRMETRY_BT2020_RGB", Bin BShl (Dec 1) (Dec 7));
  ("DRM_EDID_CLRMETRY_DCI_P3", Bin BShl (Dec 1) (Dec 15))].

Definition HDR_EOTF_defs : defines := [
  ("HDR_EOTF_SDR_LUM_RANGE", Hex 0x0); ("HDR_EOTF_HDR_LUM_RANGE", Hex 0x1); ("HDR_EOTF_SMTPE_ST2084", Hex 0x2);
  ("HDR_EOTF_HLG", Hex 0x3)].

Definition DISPLAY_PRIMARIES_defs : defines := [
  ("DISPLAY_PRIMARIES_WX", Dec 0); ("DISPLAY_PRIMARIES_WY", Dec 1); ("DISPLAY_PRIMARIES_RX", Dec 2);
  ("DISPLAY_PRIMARIES_RY", Dec 3); ("DISPLAY_PRIMARIES_GX", Dec 4); ("DISPLAY_PRIMARIES_GY", Dec 5);
  ("DISPLAY_PRIMARIES_BX", Dec 6); ("DISPLAY_PRIMARIES_BY", Dec 7)].

Definition DRM_MSM_DISPLAY_defs : defines := [
  ("DRM_MSM_DISPLAY_EARLY_WAKEUP_HINT", Hex 0x01); ("DRM_MSM_DISPLAY_POWER_COLLAPSE_HINT", Hex 0x02);
  ("DRM_MSM_DISPLAY_IDLE_TIMEOUT_HINT", Hex 0x04); ("DRM_MSM_DISPLAY_MODE_CHANGE_HINT", Hex 0x08)].

Definition DRM_MSM_WAKE_UP_ALL_DISPLAYS_def : defines := [
  ("DRM_MSM_WAKE_UP_ALL_DISPLAYS", Hex 0xffffffff)].

Definition header : header := Header "include/display/drm/sde_drm.h" [
  FILTER_defs; SCALER_LUT_defs; DRM_FORMAT_MOD_QCOM_DX_defs; SDE_DYN_EXP_DISABLE_def; SDE_DRM_DESTSCALER_defs;
  SDE_defs; SDE_DRM_WB_defs; SDE_defs2; SDE_FRAME_DATA_GUARD_BYTES_def; DRM_EDID_CLRMETRY_defs; HDR_EOTF_defs;
  DISPLAY_PRIMARIES_defs; DRM_MSM_DISPLAY_defs; DRM_MSM_WAKE_UP_ALL_DISPLAYS_def] [
] [].

End Sde_drm.

(** [include/display/hdcp/msm_hdmi_hdcp_mgr.h] *)

Module Msm_hdmi_hdcp_mgr.

Definition DS_TYPE_enum : enumeration := [
  ("DS_UNKNOWN", None); ("DS_RECEIVER", None); ("DS_REPEATER", None)].

Definition MSG_ID_IDX_enum : enumeration := [
  ("MSG_ID_IDX", None); ("RET_CODE_IDX", None); ("HEADER_LEN", None)].

Definition RET_CODE_enum : enumeration := [
  ("HDCP_NOT_AUTHED", None); ("HDCP_AUTHED", None); ("HDCP_DISABLE", None)].

Definition MSG_ID_enum : enumeration := [
  ("DOWN_CHECK_TOPOLOGY", None); ("UP_REQUEST_TOPOLOGY", None); ("UP_SEND_TOPOLOGY", None);
  ("DOWN_REQUEST_TOPOLOGY", None); ("MSG_NUM", None)].

Definition SOURCE_ID_enum : enumeration := [
  ("HDCP_V1_TX", None); ("HDCP_V1_RX", None); ("HDCP_V2_RX", None); ("HDCP_V2_TX", None); ("SRC_NUM", None)].

Definition header : header := Header "include/display/hdcp/msm_hdmi_hdcp_mgr.h" [
] [
  DS_TYPE_enum; MSG_ID_IDX_enum; RET_CODE_enum; MSG_ID_enum; SOURCE_ID_enum] [].

End Msm_hdmi_hdcp_mgr.

(** [include/display/media/msm_sde_rotator.h] *)

Module Msm_sde_rotator.

Definition SDE_PIX_FMT_defs : defines := [
  ("SDE_PIX_FMT_XRGB_8888", Ext "v4l2_fourcc" [Chr 88; Chr 82; Chr 50; Chr 52]);
  ("SDE_PIX_FMT_ARGB_8888", Ext "v4l2_fourcc" [Chr 65; Chr 82; Chr 50; Chr 52]);
  ("SDE_PIX_FMT_ABGR_8888", Ext "v4l2_fourcc" [Chr 82; Chr 65; Chr 50; Chr 52]);
  ("SDE_PIX_FMT_RGBA_8888", Ext "v4l2_fourcc" [Chr 65; Chr 66; Chr 50; Chr 52]);
  ("SDE_PIX_FMT_BGRA_8888", Ext "v4l2_fourcc" [Chr 66; Chr 65; Chr 50; Chr 52]);
  ("SDE_PIX_FMT_RGBX_8888", Ext "v4l2_fourcc" [Chr 88; Chr 66; Chr 50; Chr 52]);
  ("SDE_PIX_FMT_BGRX_8888", Ext "v4l2_fourcc" [Chr 66; Chr 88; Chr 50; Chr 52]);
  ("SDE_PIX_FMT_XBGR_8888", Ext "v4l2_fourcc" [Chr 82; Chr 88; Chr 50; Chr 52]);
  ("SDE_PIX_FMT_RGBA_5551", Ext "v4l2_fourcc" [Chr 82; Chr 65; Chr 49; Chr 53]);
  ("SDE_PIX_FMT_ARGB_1555", Ext "v4l2_fourcc" [Chr 65; Chr 82; Chr 49; Chr 53]);
  ("SDE_PIX_FMT_ABGR_1555", Ext "v4l2_fourcc" [Chr 65; Chr 66; Chr 49; Chr 53]);
  ("SDE_PIX_FMT_BGRA_5551", Ext "v4l2_fourcc" [Chr 66; Chr 65; Chr 49; Chr 53]);
  ("SDE_PIX_FMT_BGRX_5551", Ext "v4l2_fourcc" [Chr 66; Chr 88; Chr 49; Chr 53]);
  ("SDE_PIX_FMT_RGBX_5551", Ext "v4l2_fourcc" [Chr 82; Chr 88; Chr 49; Chr 53]);
  ("SDE_PIX_FMT_XBGR_1555", Ext "v4l2_fourcc" [Chr 88; Chr 66; Chr 49; Chr 53]);
  ("SDE_PIX_FMT_XRGB_1555", Ext "v4l2_fourcc" [Chr 88; Chr 82; Chr 49; Chr 53]);
  ("SDE_PIX_FMT_ARGB_4444", Ext "v4l2_fourcc" [Chr 65; Chr 82; Chr 49; Chr 50]);
  ("SDE_PIX_FMT_RGBA_4444", Ext "v4l2_fourcc" [Chr 82; Chr 65; Chr 49; Chr 50]);
  ("SDE_PIX_FMT_BGRA_4444", Ext "v4l2_fourcc" [Chr 98; Chr 65; Chr 49; Chr 50]);
  ("SDE_PIX_FMT_ABGR_4444", Ext "v4l2_fourcc" [Chr 65; Chr 66; Chr 49; Chr 50]);
  ("SDE_PIX_FMT_RGBX_4444", Ext "v4l2_fourcc" [Chr 82; Chr 88; Chr 49; Chr 50]);
  ("SDE_PIX_FMT_XRGB_4444", Ext "v4l2_fourcc" [Chr 88; Chr 82; Chr 49; Chr 50]);
  ("SDE_PIX_FMT_BGRX_4444", Ext "v4l2_fourcc" [Chr 66; Chr 88; Chr 49; Chr 50]);
  ("SDE_PIX_FMT_XBGR_4444", Ext "v4l2_fourcc" [Chr 88; Chr 66; Chr 49; Chr 50]);
  ("SDE_PIX_FMT_RGB_888", Ext "v4l2_fourcc" [Chr 82; Chr 71; Chr 66; Chr 51]);
  ("SDE_PIX_FMT_BGR_888", Ext "v4l2_fourcc" [Chr 66; Chr 71; Chr 82; Chr 51]);
  ("SDE_PIX_FMT_RGB_565", Ext "v4l2_fourcc" [Chr 82; Chr 71; Chr 66; Chr 80]);
  ("SDE_PIX_FMT_BGR_565", Ext "v4l2_fourcc" [Chr 66; Chr 71; Chr 49; Chr 54]);
  ("SDE_PIX_FMT_Y_CB_CR_H2V2", Ext "v4l2_fourcc" [Chr 89; Chr 85; Chr 49; Chr 50]);
  ("SDE_PIX_FMT_Y_CR_CB_H2V2", Ext "v4l2_fourcc" [Chr 89; Chr 86; Chr 49; Chr 50]);
  ("SDE_PIX_FMT_Y_CR_CB_GH2V2", Ext "v4l2_fourcc" [Chr 89; Chr 85; Chr 52; Chr 50]);
  ("SDE_PIX_FMT_Y_CBCR_H2V2", Ext "v4l2_fourcc" [Chr 78; Chr 86; Chr 49; Chr 50]);
  ("SDE_PIX_FMT_Y_CRCB_H2V2", Ext "v4l2_fourcc" [Chr 78; Chr 86; Chr 50; Chr 49]);
  ("SDE_PIX_FMT_Y_CBCR_H1V2", Ext "v4l2_fourcc" [Chr 78; Chr 72; Chr 49; Chr 54]);
  ("SDE_PIX_FMT_Y_CRCB_H1V2", Ext "v4l2_fourcc" [Chr 78; Chr 72; Chr 54; Chr 49]);
  ("SDE_PIX_FMT_Y_CBCR_H2V1", Ext "v4l2_fourcc" [Chr 78; Chr 86; Chr 49; Chr 54]);
  ("SDE_PIX_FMT_Y_CRCB_H2V1", Ext "v4l2_fourcc" [Chr 78; Chr 86; Chr 54; Chr 49]);
  ("SDE_PIX_FMT_YCBYCR_H2V1", Ext "v4l2_fourcc" [Chr 89; Chr 85; Chr 89; Chr 86]);
  ("SDE_PIX_FMT_Y_CBCR_H2V2_VENUS", Ext "v4l2_fourcc" [Chr 81; Chr 78; Chr 86; Chr 50]);
  ("SDE_PIX_FMT_Y_CRCB_H2V2_VENUS", Ext "v4l2_fourcc" [Chr 81; Chr 78; Chr 86; Chr 49]);
  ("SDE_PIX_FMT_RGBA_8888_UBWC", Ext "v4l2_fourcc" [Chr 81; Chr 82; Chr 71; Chr 66]);
  ("SDE_PIX_FMT_RGBX_8888_UBWC", Ext "v4l2_fourcc" [Chr 81; Chr 88; Chr 66; Chr 52]);
  ("SDE_PIX_FMT_RGB_565_UBWC", Ext "v4l2_fourcc" [Chr 81; Chr 82; Chr 71; Chr 54]);
  ("SDE_PIX_FMT_Y_CBCR_H2V2_UBWC", Ext "v4l2_fourcc" [Chr 81; Chr 49; Chr 50; Chr 56]);
  ("SDE_PIX_FMT_RGBA_1010102", Ext "v4l2_fourcc" [Chr 65; Chr 66; Chr 51; Chr 48]);
  ("SDE_PIX_FMT_RGBX_1010102", Ext "v4l2_fourcc" [Chr 88; Chr 66; Chr 51; Chr 48]);
  ("SDE_PIX_FMT_ARGB_2101010", Ext "v4l2_fourcc" [Chr 65; Chr 82; Chr 51; Chr 48]);
  ("SDE_PIX_FMT_XRGB_2101010", Ext "v4l2_fourcc" [Chr 88; Chr 82; Chr 51; Chr 48]);
  ("SDE_PIX_FMT_BGRA_1010102", Ext "v4l2_fourcc" [Chr 66; Chr 65; Chr 51; Chr 48]);
  ("SDE_PIX_FMT_BGRX_1010102", Ext "v4l2_fourcc" [Chr 66; Chr 88; Chr 51; Chr 48]);
  ("SDE_PIX_FMT_ABGR_2101010", Ext "v4l2_fourcc" [Chr 82; Chr 65; Chr 51; Chr 48]);
  ("SDE_PIX_FMT_XBGR_2101010", Ext "v4l2_fourcc" [Chr 82; Chr 88; Chr 51; Chr 48]);
  ("SDE_PIX_FMT_RGBA_1010102_UBWC", Ext "v4l2_fourcc" [Chr 81; Chr 82; Chr 66; Chr 65]);
  ("SDE_PIX_FMT_RGBX_1010102_UBWC", Ext "v4l2_fourcc" [Chr 81; Chr 88; Chr 66; Chr 65]);
  ("SDE_PIX_FMT_Y_CBCR_H2V2_P010", Ext "v4l2_fourcc" [Chr 80; Chr 48; Chr 49; Chr 48]);
  ("SDE_PIX_FMT_Y_CBCR_H2V2_P010_VENUS", Ext "v4l2_fourcc" [Chr 81; Chr 80; Chr 49; Chr 48]);
  ("SDE_PIX_FMT_Y_CBCR_H2V2_TP10", Ext "v4l2_fourcc" [Chr 84; Chr 80; Chr 49; Chr 48]);
  ("SDE_PIX_FMT_Y_CBCR_H2V2_TP10_UBWC", Ext "v4l2_fourcc" [Chr 81; Chr 49; Chr 50; Chr 65]);
  ("SDE_PIX_FMT_Y_CBCR_H2V2_P010_UBWC", Ext "v4l2_fourcc" [Chr 81; Chr 49; Chr 50; Chr 66])].

Definition V4L2_CID_SDE_ROTATOR_defs : defines := [
  ("V4L2_CID_SDE_ROTATOR_SECURE", Bin BAdd (Ext "V4L2_CID_USER_BASE" []) (Hex 0x1000));
  ("V4L2_CID_SDE_ROTATOR_SECURE_CAMERA", Bin BAdd (Ext "V4L2_CID_USER_BASE" []) (Hex 0x2000))].

Definition header : header := Header "include/display/media/msm_sde_rotator.h" [
  SDE_PIX_FMT_defs; V4L2_CID_SDE_ROTATOR_defs] [
] [].

End Msm_sde_rotator.

(** [include/linux/msm_kgsl.h] *)

Module Msm_kgsl.

Definition KGSL_defs : defines := [
  ("KGSL_VERSION_MAJOR", Dec 3); ("KGSL_VERSION_MINOR", Dec 14); ("KGSL_CONTEXT_SYNC", Hex 0x00000400);
  ("KGSL_CMDBATCH_SYNC", Ref "KGSL_CONTEXT_SYNC")].

Definition KGSL_CMDLIST_defs : defines := [
  ("KGSL_CMDLIST_IB", HexU 0x00000001); ("KGSL_CMDLIST_CTXTSWITCH_PREAMBLE", HexU 0x00000002);
  ("KGSL_CMDLIST_IB_PREAMBLE", HexU 0x00000004)].

Definition KGSL_defs2 : defines := [
  ("KGSL_OBJLIST_MEMOBJ", HexU 0x00000008); ("KGSL_OBJLIST_PROFILE", HexU 0x00000010);
  ("KGSL_CMD_SYNCPOINT_TYPE_TIMESTAMP", Dec 0); ("KGSL_CMD_SYNCPOINT_TYPE_FENCE", Dec 1);
  ("KGSL_CMD_SYNCPOINT_TYPE_TIMELINE", Dec 2)].

Definition KGSL_FLAGS_defs : defines := [
  ("KGSL_FLAGS_NORMALMODE", Hex 0x00000000); ("KGSL_FLAGS_SAFEMODE", Hex 0x00000001);
  ("KGSL_FLAGS_INITIALIZED0", Hex 0x00000002); ("KGSL_FLAGS_INITIALIZED", Hex 0x00000004);
  ("KGSL_FLAGS_STARTED", Hex 0x00000008); ("KGSL_FLAGS_ACTIVE", Hex 0x00000010);
  ("KGSL_FLAGS_RESERVED0", Hex 0x00000020); ("KGSL_FLAGS_RESERVED1", Hex 0x00000040);
  ("KGSL_FLAGS_RESERVED2", Hex 0x00000080); ("KGSL_FLAGS_SOFT_RESET", Hex 0x00000100);
  ("KGSL_FLAGS_PER_CONTEXT_TIMESTAMPS", Hex 0x00000200)].

Definition KGSL_defs3 : defines := [
  ("KGSL_SYNCOBJ_SERVER_TIMEOUT", Dec 2000); ("KGSL_UBWC_NONE", Dec 0); ("KGSL_UBWC_1_0", Dec 1);
  ("KGSL_UBWC_2_0", Dec 2); ("KGSL_UBWC_3_0", Dec 3); ("KGSL_UBWC_4_0", Dec 4)].

Definition KGSL_PROP_defs : defines := [
  ("KGSL_PROP_DEVICE_INFO", Hex 0x1); ("KGSL_PROP_DEVICE_SHADOW", Hex 0x2);
  ("KGSL_PROP_DEVICE_POWER", Hex 0x3); ("KGSL_PROP_SHMEM", Hex 0x4); ("KGSL_PROP_SHMEM_APERTURES", Hex 0x5);
  ("KGSL_PROP_MMU_ENABLE", Hex 0x6); ("KGSL_PROP_INTERRUPT_WAITS", Hex 0x7); ("KGSL_PROP_VERSION", Hex 0x8);
  ("KGSL_PROP_GPU_RESET_STAT", Hex 0x9); ("KGSL_PROP_PWRCTRL", Hex 0xe);
  ("KGSL_PROP_PWR_CONSTRAINT", Hex 0x12); ("KGSL_PROP_UCHE_GMEM_VADDR", Hex 0x13);
  ("KGSL_PROP_SP_GENERIC_MEM", Hex 0x14); ("KGSL_PROP_UCODE_VERSION", Hex 0x15);
  ("KGSL_PROP_GPMU_VERSION", Hex 0x16); ("KGSL_PROP_HIGHEST_BANK_BIT", Hex 0x17);
  ("KGSL_PROP_DEVICE_BITNESS", Hex 0x18); ("KGSL_PROP_DEVICE_QDSS_STM", Hex 0x19);
  ("KGSL_PROP_MIN_ACCESS_LENGTH", Hex 0x1a); ("KGSL_PROP_UBWC_MODE", Hex 0x1b);
  ("KGSL_PROP_DEVICE_QTIMER", Hex 0x20); ("KGSL_PROP_L3_PWR_CONSTRAINT", Hex 0x22);
  ("KGSL_PROP_SECURE_BUFFER_ALIGNMENT", Hex 0x23); ("KGSL_PROP_SECURE_CTXT_SUPPORT", Hex 0x24);
  ("KGSL_PROP_SPEED_BIN", Hex 0x25); ("KGSL_PROP_GAMING_BIN", Hex 0x26);
  ("KGSL_PROP_QUERY_CAPABILITIES", Hex 0x27); ("KGSL_PROP_CONTEXT_PROPERTY", Hex 0x28);
  ("KGSL_PROP_GPU_MODEL", Hex 0x29); ("KGSL_PROP_VK_DEVICE_ID", Hex 0x2a);
  ("KGSL_PROP_IS_LPAC_ENABLED", Hex 0x2b)].

Definition KGSL_QUERY_CAPS_PROPERTIES_def : defines := [
  ("KGSL_QUERY_CAPS_PROPERTIES", Dec 1)].

Definition KGSL_defs4 : defines := [
  ("KGSL_CONTEXT_PROP_FAULTS", Dec 1); ("KGSL_PERFCOUNTER_GROUP_CP", Hex 0x0);
  ("KGSL_PERFCOUNTER_GROUP_RBBM", Hex 0x1); ("KGSL_PERFCOUNTER_GROUP_PC", Hex 0x2);
  ("KGSL_PERFCOUNTER_GROUP_VFD", Hex 0x3); ("KGSL_PERFCOUNTER_GROUP_HLSQ", Hex 0x4);
  ("KGSL_PERFCOUNTER_GROUP_VPC", Hex 0x5); ("KGSL_PERFCOUNTER_GROUP_TSE", Hex 0x6);
  ("KGSL_PERFCOUNTER_GROUP_RAS", Hex 0x7); ("KGSL_PERFCOUNTER_GROUP_UCHE", Hex 0x8);
  ("KGSL_PERFCOUNTER_GROUP_TP", Hex 0x9); ("KGSL_PERFCOUNTER_GROUP_SP", Hex 0xa);
  ("KGSL_PERFCOUNTER_GROUP_RB", Hex 0xb); ("KGSL_PERFCOUNTER_GROUP_PWR", Hex 0xc);
  ("KGSL_PERFCOUNTER_GROUP_VBIF", Hex 0xd); ("KGSL_PERFCOUNTER_GROUP_VBIF_PWR", Hex 0xe);
  ("KGSL_PERFCOUNTER_GROUP_MH", Hex 0xf); ("KGSL_PERFCOUNTER_GROUP_PA_SU", Hex 0x10);
  ("KGSL_PERFCOUNTER_GROUP_SQ", Hex 0x11); ("KGSL_PERFCOUNTER_GROUP_SX", Hex 0x12);
  ("KGSL_PERFCOUNTER_GROUP_TCF", Hex 0x13); ("KGSL_PERFCOUNTER_GROUP_TCM", Hex 0x14);
  ("KGSL_PERFCOUNTER_GROUP_TCR", Hex 0x15); ("KGSL_PERFCOUNTER_GROUP_L2", Hex 0x16);
  ("KGSL_PERFCOUNTER_GROUP_VSC", Hex 0x17); ("KGSL_PERFCOUNTER_GROUP_CCU", Hex 0x18);
  ("KGSL_PERFCOUNTER_GROUP_LRZ", Hex 0x19); ("KGSL_PERFCOUNTER_GROUP_CMP", Hex 0x1a);
  ("KGSL_PERFCOUNTER_GROUP_ALWAYSON", Hex 0x1b); ("KGSL_PERFCOUNTER_GROUP_SP_PWR", Hex 0x1c);
  ("KGSL_PERFCOUNTER_GROUP_TP_PWR", Hex 0x1d); ("KGSL_PERFCOUNTER_GROUP_RB_PWR", Hex 0x1e);
  ("KGSL_PERFCOUNTER_GROUP_CCU_PWR", Hex 0x1f); ("KGSL_PERFCOUNTER_GROUP_UCHE_PWR", Hex 0x20);
  ("KGSL_PERFCOUNTER_GROUP_CP_PWR", Hex 0x21); ("KGSL_PERFCOUNTER_GROUP_GPMU_PWR", Hex 0x22);
  ("KGSL_PERFCOUNTER_GROUP_ALWAYSON_PWR", Hex 0x23); ("KGSL_PERFCOUNTER_GROUP_GLC", Hex 0x24);
  ("KGSL_PERFCOUNTER_GROUP_FCHE", Hex 0x25); ("KGSL_PERFCOUNTER_GROUP_MHUB", Hex 0x26);
  ("KGSL_PERFCOUNTER_GROUP_GMU_XOCLK", Hex 0x27); ("KGSL_PERFCOUNTER_GROUP_GMU_GMUCLK", Hex 0x28);
  ("KGSL_PERFCOUNTER_GROUP_GMU_PERF", Hex 0x29); ("KGSL_PERFCOUNTER_GROUP_SW", Hex 0x2a);
  ("KGSL_PERFCOUNTER_GROUP_UFC", Hex 0x2b); ("KGSL_PERFCOUNTER_GROUP_BV_CP", Hex 0x2c);
  ("KGSL_PERFCOUNTER_GROUP_BV_PC", Hex 0x2d); ("KGSL_PERFCOUNTER_GROUP_BV_VFD", Hex 0x2e);
  ("KGSL_PERFCOUNTER_GROUP_BV_VPC", Hex 0x2f); ("KGSL_PERFCOUNTER_GROUP_BV_TP", Hex 0x30);
  ("KGSL_PERFCOUNTER_GROUP_BV_SP", Hex 0x31); ("KGSL_PERFCOUNTER_GROUP_BV_UFC", Hex 0x32);
  ("KGSL_PERFCOUNTER_GROUP_BV_TSE", Hex 0x33); ("KGSL_PERFCOUNTER_GROUP_BV_RAS", Hex 0x34);
  ("KGSL_PERFCOUNTER_GROUP_BV_LRZ", Hex 0x35); ("KGSL_PERFCOUNTER_GROUP_BV_HLSQ", Hex 0x36);
  ("KGSL_PERFCOUNTER_GROUP_MAX", Hex 0x37); ("KGSL_PERFCOUNTER_NOT_USED", Hex 0xffffffff);
  ("KGSL_PERFCOUNTER_BROKEN", Hex 0xfffffffe)].

Definition KGSL_TIMESTAMP_EVENT_GENLOCK_def : defines := [
  ("KGSL_TIMESTAMP_EVENT_GENLOCK", Dec 1)].

Definition KGSL_TIMESTAMP_EVENT_FENCE_def : defines := [
  ("KGSL_TIMESTAMP_EVENT_FENCE", Dec 2)].

Definition KGSL_GPUMEM_CACHE_defs : defines := [
  ("KGSL_GPUMEM_CACHE_CLEAN", Bin BShl (Dec 1) (Dec 0));
  ("KGSL_GPUMEM_CACHE_TO_GPU", Ref "KGSL_GPUMEM_CACHE_CLEAN");
  ("KGSL_GPUMEM_CACHE_INV", Bin BShl (Dec 1) (Dec 1));
  ("KGSL_GPUMEM_CACHE_FROM_GPU", Ref "KGSL_GPUMEM_CACHE_INV");
  ("KGSL_GPUMEM_CACHE_FLUSH", Bin BOr (Ref "KGSL_GPUMEM_CACHE_CLEAN") (Ref "KGSL_GPUMEM_CACHE_INV"));
  ("KGSL_GPUMEM_CACHE_RANGE", Bin BShl (Dec 1) (DecU 31))].

Definition KGSL_IBDESC_defs : defines := [
  ("KGSL_IBDESC_MEMLIST", Hex 0x1); ("KGSL_IBDESC_PROFILING_BUFFER", Hex 0x2)].

Definition KGSL_CONSTRAINT_defs : defines := [
  ("KGSL_CONSTRAINT_NONE", Dec 0); ("KGSL_CONSTRAINT_PWRLEVEL", Dec 1); ("KGSL_CONSTRAINT_L3_NONE", Dec 2);
  ("KGSL_CONSTRAINT_L3_PWRLEVEL", Dec 3); ("KGSL_CONSTRAINT_PWR_MIN", Dec 0);
  ("KGSL_CONSTRAINT_PWR_MAX", Dec 1)].

Definition KGSL_GPUOBJ_ALLOC_METADATA_MAX_def : defines := [
  ("KGSL_GPUOBJ_ALLOC_METADATA_MAX", Dec 64)].

Definition KGSL_defs5 : defines := [
  ("KGSL_GPUOBJ_FREE_ON_EVENT", Dec 1); ("KGSL_GPU_EVENT_TIMESTAMP", Dec 1); ("KGSL_GPU_EVENT_FENCE", Dec 2)].

Definition KGSL_GPUOBJ_SET_INFO_defs : defines := [
  ("KGSL_GPUOBJ_SET_INFO_METADATA", Bin BShl (Dec 1) (Dec 0));
  ("KGSL_GPUOBJ_SET_INFO_TYPE", Bin BShl (Dec 1) (Dec 1))].

Definition KGSL_GPUMEM_RANGE_OP_defs : defines := [
  ("KGSL_GPUMEM_RANGE_OP_BIND", Dec 1); ("KGSL_GPUMEM_RANGE_OP_UNBIND", Dec 2)].

Definition KGSL_GPUMEM_BIND_defs : defines := [
  ("KGSL_GPUMEM_BIND_ASYNC", Bin BShl (Num false SuffixUL 1) (Dec 0));
  ("KGSL_GPUMEM_BIND_FENCE_OUT", Bin BShl (Num false SuffixUL 1) (Dec 1))].

Definition KGSL_GPU_AUX_COMMAND_defs : defines := [
  ("KGSL_GPU_AUX_COMMAND_BIND", Bin BShl (Dec 1) (Dec 0));
  ("KGSL_GPU_AUX_COMMAND_TIMELINE", Bin BShl (Dec 1) (Dec 1));
  ("KGSL_GPU_AUX_COMMAND_SYNC", Ref "KGSL_CMDBATCH_SYNC")].

Definition KGSL_TIMELINE_WAIT_defs : defines := [
  ("KGSL_TIMELINE_WAIT_ALL", Dec 1); ("KGSL_TIMELINE_WAIT_ANY", Dec 2)].

Definition KGSL_FAULT_TYPE_defs : defines := [
  ("KGSL_FAULT_TYPE_NO_FAULT", Dec 0); ("KGSL_FAULT_TYPE_PAGEFAULT", Dec 1); ("KGSL_FAULT_TYPE_MAX", Dec 2)].

Definition KGSL_PAGEFAULT_TYPE_defs : defines := [
  ("KGSL_PAGEFAULT_TYPE_NONE", Dec 0); ("KGSL_PAGEFAULT_TYPE_READ", Bin BShl (Dec 1) (Dec 0));
  ("KGSL_PAGEFAULT_TYPE_WRITE", Bin BShl (Dec 1) (Dec 1));
  ("KGSL_PAGEFAULT_TYPE_TRANSLATION", Bin BShl (Dec 1) (Dec 2));
  ("KGSL_PAGEFAULT_TYPE_PERMISSION", Bin BShl (Dec 1) (Dec 3));
  ("KGSL_PAGEFAULT_TYPE_EXTERNAL", Bin BShl (Dec 1) (Dec 4));
  ("KGSL_PAGEFAULT_TYPE_TRANSACTION_STALLED", Bin BShl (Dec 1) (Dec 5))].

Definition kgsl_ctx_reset_stat_enum : enumeration := [
  ("KGSL_CTX_STAT_NO_ERROR", Some (Hex 0x00000000));
  ("KGSL_CTX_STAT_GUILTY_CONTEXT_RESET_EXT", Some (Hex 0x00000001));
  ("KGSL_CTX_STAT_INNOCENT_CONTEXT_RESET_EXT", Some (Hex 0x00000002));
  ("KGSL_CTX_STAT_UNKNOWN_CONTEXT_RESET_EXT", Some (Hex 0x00000003))].

Definition kgsl_timestamp_type_enum : enumeration := [
  ("KGSL_TIMESTAMP_CONSUMED", Some (Hex 0x00000001)); ("KGSL_TIMESTAMP_RETIRED", Some (Hex 0x00000002));
  ("KGSL_TIMESTAMP_QUEUED", Some (Hex 0x00000003))].

Definition kgsl_cmdwindow_type_enum : enumeration := [
  ("KGSL_CMDWINDOW_MIN", Some (Hex 0x00000000)); ("KGSL_CMDWINDOW_2D", Some (Hex 0x00000000));
  ("KGSL_CMDWINDOW_3D", Some (Hex 0x00000001)); ("KGSL_CMDWINDOW_MMU", Some (Hex 0x00000002));
  ("KGSL_CMDWINDOW_ARBITER", Some (Hex 0x000000ff)); ("KGSL_CMDWINDOW_MAX", Some (Hex 0x000000ff))].

Definition header : header := Header "include/linux/msm_kgsl.h" [
  KGSL_defs; KGSL_CMDLIST_defs; KGSL_defs2; KGSL_FLAGS_defs; KGSL_defs3; KGSL_PROP_defs;
  KGSL_QUERY_CAPS_PROPERTIES_def; KGSL_defs4; KGSL_TIMESTAMP_EVENT_GENLOCK_def; KGSL_TIMESTAMP_EVENT_FENCE_def;
  KGSL_GPUMEM_CACHE_defs; KGSL_IBDESC_defs; KGSL_CONSTRAINT_defs; KGSL_GPUOBJ_ALLOC_METADATA_MAX_def;
  KGSL_defs5; KGSL_GPUOBJ_SET_INFO_defs; KGSL_GPUMEM_RANGE_OP_defs; KGSL_GPUMEM_BIND_defs;
  KGSL_GPU_AUX_COMMAND_defs; KGSL_TIMELINE_WAIT_defs; KGSL_FAULT_TYPE_defs; KGSL_PAGEFAULT_TYPE_defs] [
  kgsl_ctx_reset_stat_enum; kgsl_timestamp_type_enum; kgsl_cmdwindow_type_enum] [].

End Msm_kgsl.

(** [include/media/msm_cvp_private.h] *)

Module Msm_cvp_private.

Definition CVP_KMD_defs : defines := [
  ("CVP_KMD_CMD_BASE", Hex 0x10000000); ("CVP_KMD_CMD_START", Bin BAdd (Ref "CVP_KMD_CMD_BASE") (Hex 0x1000));
  ("CVP_KMD_GET_SESSION_INFO", Bin BAdd (Ref "CVP_KMD_CMD_START") (Dec 1));
  ("CVP_KMD_REGISTER_BUFFER", Bin BAdd (Ref "CVP_KMD_CMD_START") (Dec 3));
  ("CVP_KMD_UNREGISTER_BUFFER", Bin BAdd (Ref "CVP_KMD_CMD_START") (Dec 4));
  ("CVP_KMD_UPDATE_POWER", Bin BAdd (Ref "CVP_KMD_CMD_START") (Dec 17));
  ("CVP_KMD_SEND_CMD_PKT", Bin BAdd (Ref "CVP_KMD_CMD_START") (Dec 64));
  ("CVP_KMD_RECEIVE_MSG_PKT", Bin BAdd (Ref "CVP_KMD_CMD_START") (Dec 65));
  ("CVP_KMD_SET_SYS_PROPERTY", Bin BAdd (Ref "CVP_KMD_CMD_START") (Dec 66));
  ("CVP_KMD_GET_SYS_PROPERTY", Bin BAdd (Ref "CVP_KMD_CMD_START") (Dec 67));
  ("CVP_KMD_SESSION_CONTROL", Bin BAdd (Ref "CVP_KMD_CMD_START") (Dec 68));
  ("CVP_KMD_SEND_FENCE_CMD_PKT", Bin BAdd (Ref "CVP_KMD_CMD_START") (Dec 69));
  ("CVP_KMD_FLUSH_ALL", Bin BAdd (Ref "CVP_KMD_CMD_START") (Dec 70));
  ("CVP_KMD_FLUSH_FRAME", Bin BAdd (Ref "CVP_KMD_CMD_START") (Dec 71));
  ("CVP_KMD_FLAG_UNSECURE", Hex 0x00000000); ("CVP_KMD_FLAG_SECURE", Hex 0x00000001);
  ("CVP_KMD_BUFTYPE_INPUT", Hex 0x00000001); ("CVP_KMD_BUFTYPE_OUTPUT", Hex 0x00000002);
  ("CVP_KMD_BUFTYPE_INTERNAL_1", Hex 0x00000003); ("CVP_KMD_BUFTYPE_INTERNAL_2", Hex 0x00000004)].

Definition CVP_KMD_PROP_HFI_VERSION_defs : defines := [
  ("CVP_KMD_PROP_HFI_VERSION", Dec 1); ("CVP_KMD_PROP_SESSION_TYPE", Dec 2);
  ("CVP_KMD_PROP_SESSION_KERNELMASK", Dec 3); ("CVP_KMD_PROP_SESSION_PRIORITY", Dec 4);
  ("CVP_KMD_PROP_SESSION_SECURITY", Dec 5); ("CVP_KMD_PROP_SESSION_DSPMASK", Dec 6);
  ("CVP_KMD_PROP_PWR_FDU", Hex 0x10); ("CVP_KMD_PROP_PWR_ICA", Hex 0x11); ("CVP_KMD_PROP_PWR_OD", Hex 0x12);
  ("CVP_KMD_PROP_PWR_MPU", Hex 0x13); ("CVP_KMD_PROP_PWR_FW", Hex 0x14); ("CVP_KMD_PROP_PWR_DDR", Hex 0x15);
  ("CVP_KMD_PROP_PWR_SYSCACHE", Hex 0x16); ("CVP_KMD_PROP_PWR_FDU_OP", Hex 0x17);
  ("CVP_KMD_PROP_PWR_ICA_OP", Hex 0x18); ("CVP_KMD_PROP_PWR_OD_OP", Hex 0x19);
  ("CVP_KMD_PROP_PWR_MPU_OP", Hex 0x1a); ("CVP_KMD_PROP_PWR_FW_OP", Hex 0x1b);
  ("CVP_KMD_PROP_PWR_DDR_OP", Hex 0x1c); ("CVP_KMD_PROP_PWR_SYSCACHE_OP", Hex 0x1d);
  ("CVP_KMD_PROP_PWR_FPS_FDU", Hex 0x1e); ("CVP_KMD_PROP_PWR_FPS_MPU", Hex 0x1f);
  ("CVP_KMD_PROP_PWR_FPS_OD", Hex 0x20); ("CVP_KMD_PROP_PWR_FPS_ICA", Hex 0x21);
  ("MAX_KMD_PROP_TYPE", Bin BAdd (Ref "CVP_KMD_PROP_PWR_FPS_ICA") (Dec 1))].

Definition SESSION_defs : defines := [
  ("SESSION_CREATE", Dec 1); ("SESSION_DELETE", Dec 2); ("SESSION_START", Dec 3); ("SESSION_STOP", Dec 4);
  ("SESSION_INFO", Dec 5)].

Definition header : header := Header "include/media/msm_cvp_private.h" [
  CVP_KMD_defs; CVP_KMD_PROP_HFI_VERSION_defs; SESSION_defs] [
] [].

End Msm_cvp_private.

(** [include/media/radio-iris-commands.h] *)

Module Radio_iris_commands.

Definition v4l2_cid_private_iris_t_enum : enumeration := [
  ("V4L2_CID_PRIVATE_IRIS_SRCHMODE", Some (Bin BAdd (Hex 0x08000000) (Dec 1)));
  ("V4L2_CID_PRIVATE_IRIS_SCANDWELL", None); ("V4L2_CID_PRIVATE_IRIS_SRCHON", None);
  ("V4L2_CID_PRIVATE_IRIS_STATE", None); ("V4L2_CID_PRIVATE_IRIS_TRANSMIT_MODE", None);
  ("V4L2_CID_PRIVATE_IRIS_RDSGROUP_MASK", None); ("V4L2_CID_PRIVATE_IRIS_REGION", None);
  ("V4L2_CID_PRIVATE_IRIS_SIGNAL_TH", None); ("V4L2_CID_PRIVATE_IRIS_SRCH_PTY", None);
  ("V4L2_CID_PRIVATE_IRIS_SRCH_PI", None); ("V4L2_CID_PRIVATE_IRIS_SRCH_CNT", None);
  ("V4L2_CID_PRIVATE_IRIS_EMPHASIS", None); ("V4L2_CID_PRIVATE_IRIS_RDS_STD", None);
  ("V4L2_CID_PRIVATE_IRIS_SPACING", None); ("V4L2_CID_PRIVATE_IRIS_RDSON", None);
  ("V4L2_CID_PRIVATE_IRIS_RDSGROUP_PROC", None); ("V4L2_CID_PRIVATE_IRIS_LP_MODE", None);
  ("V4L2_CID_PRIVATE_IRIS_ANTENNA", None); ("V4L2_CID_PRIVATE_IRIS_RDSD_BUF", None);
  ("V4L2_CID_PRIVATE_IRIS_PSALL", None); ("V4L2_CID_PRIVATE_IRIS_TX_SETPSREPEATCOUNT", None);
  ("V4L2_CID_PRIVATE_IRIS_STOP_RDS_TX_PS_NAME", None); ("V4L2_CID_PRIVATE_IRIS_STOP_RDS_TX_RT", None);
  ("V4L2_CID_PRIVATE_IRIS_IOVERC", None); ("V4L2_CID_PRIVATE_IRIS_INTDET", None);
  ("V4L2_CID_PRIVATE_IRIS_MPX_DCC", None); ("V4L2_CID_PRIVATE_IRIS_AF_JUMP", None);
  ("V4L2_CID_PRIVATE_IRIS_RSSI_DELTA", None); ("V4L2_CID_PRIVATE_IRIS_HLSI", None);
  ("V4L2_CID_PRIVATE_IRIS_SOFT_MUTE", None); ("V4L2_CID_PRIVATE_IRIS_RIVA_ACCS_ADDR", None);
  ("V4L2_CID_PRIVATE_IRIS_RIVA_ACCS_LEN", None); ("V4L2_CID_PRIVATE_IRIS_RIVA_PEEK", None);
  ("V4L2_CID_PRIVATE_IRIS_RIVA_POKE", None); ("V4L2_CID_PRIVATE_IRIS_SSBI_ACCS_ADDR", None);
  ("V4L2_CID_PRIVATE_IRIS_SSBI_PEEK", None); ("V4L2_CID_PRIVATE_IRIS_SSBI_POKE", None);
  ("V4L2_CID_PRIVATE_IRIS_TX_TONE", None); ("V4L2_CID_PRIVATE_IRIS_RDS_GRP_COUNTERS", None);
  ("V4L2_CID_PRIVATE_IRIS_SET_NOTCH_FILTER", None); ("V4L2_CID_PRIVATE_IRIS_SET_AUDIO_PATH", None);
  ("V4L2_CID_PRIVATE_IRIS_DO_CALIBRATION", None); ("V4L2_CID_PRIVATE_IRIS_SRCH_ALGORITHM", None);
  ("V4L2_CID_PRIVATE_IRIS_GET_SINR", None); ("V4L2_CID_PRIVATE_INTF_LOW_THRESHOLD", None);
  ("V4L2_CID_PRIVATE_INTF_HIGH_THRESHOLD", None); ("V4L2_CID_PRIVATE_SINR_THRESHOLD", None);
  ("V4L2_CID_PRIVATE_SINR_SAMPLES", None); ("V4L2_CID_PRIVATE_SPUR_FREQ", None);
  ("V4L2_CID_PRIVATE_SPUR_FREQ_RMSSI", None); ("V4L2_CID_PRIVATE_SPUR_SELECTION", None);
  ("V4L2_CID_PRIVATE_UPDATE_SPUR_TABLE", None); ("V4L2_CID_PRIVATE_VALID_CHANNEL", None);
  ("V4L2_CID_PRIVATE_AF_RMSSI_TH", None); ("V4L2_CID_PRIVATE_AF_RMSSI_SAMPLES", None);
  ("V4L2_CID_PRIVATE_GOOD_CH_RMSSI_TH", None); ("V4L2_CID_PRIVATE_SRCHALGOTYPE", None);
  ("V4L2_CID_PRIVATE_CF0TH12", None); ("V4L2_CID_PRIVATE_SINRFIRSTSTAGE", None);
  ("V4L2_CID_PRIVATE_RMSSIFIRSTSTAGE", None); ("V4L2_CID_PRIVATE_RXREPEATCOUNT", None);
  ("V4L2_CID_PRIVATE_IRIS_RSSI_TH", None); ("V4L2_CID_PRIVATE_IRIS_AF_JUMP_RSSI_TH", None);
  ("V4L2_CID_PRIVATE_BLEND_SINRHI", None); ("V4L2_CID_PRIVATE_BLEND_RMSSIHI", None);
  ("V4L2_CID_PRIVATE_IRIS_READ_DEFAULT", Some (Hex 0x00980928)); ("V4L2_CID_PRIVATE_IRIS_WRITE_DEFAULT", None);
  ("V4L2_CID_PRIVATE_IRIS_SET_CALIBRATION", None);
  ("V4L2_CID_PRIVATE_IRIS_SET_SPURTABLE", Some (Hex 0x0098092d));
  ("V4L2_CID_PRIVATE_IRIS_GET_SPUR_TBL", Some (Hex 0x0098092e))].

Definition iris_evt_t_enum : enumeration := [
  ("IRIS_EVT_RADIO_READY", None); ("IRIS_EVT_TUNE_SUCC", None); ("IRIS_EVT_SEEK_COMPLETE", None);
  ("IRIS_EVT_SCAN_NEXT", None); ("IRIS_EVT_NEW_RAW_RDS", None); ("IRIS_EVT_NEW_RT_RDS", None);
  ("IRIS_EVT_NEW_PS_RDS", None); ("IRIS_EVT_ERROR", None); ("IRIS_EVT_BELOW_TH", None);
  ("IRIS_EVT_ABOVE_TH", None); ("IRIS_EVT_STEREO", None); ("IRIS_EVT_MONO", None);
  ("IRIS_EVT_RDS_AVAIL", None); ("IRIS_EVT_RDS_NOT_AVAIL", None); ("IRIS_EVT_NEW_SRCH_LIST", None);
  ("IRIS_EVT_NEW_AF_LIST", None); ("IRIS_EVT_TXRDSDAT", None); ("IRIS_EVT_TXRDSDONE", None);
  ("IRIS_EVT_RADIO_DISABLED", None); ("IRIS_EVT_NEW_ODA", None); ("IRIS_EVT_NEW_RT_PLUS", None);
  ("IRIS_EVT_NEW_ERT", None); ("IRIS_EVT_SPUR_TBL", None)].

Definition header : header := Header "include/media/radio-iris-commands.h" [
] [
  v4l2_cid_private_iris_t_enum; iris_evt_t_enum] [].

End Radio_iris_commands.

(** [include/media/radio-iris.h] *)

Module Radio_iris.

Definition RADIO_HCI_COMMAND_HDR_SIZE_defs : defines := [
  ("RADIO_HCI_COMMAND_HDR_SIZE", SizeOf (fun _ => struct_radio_hci_command_hdr));
  ("RADIO_HCI_EVENT_HDR_SIZE", SizeOf (fun _ => struct_radio_hci_event_hdr));
  ("RADIO_HCI_COMMAND_PKT", Hex 0x11); ("RADIO_HCI_EVENT_PKT", Hex 0x14); ("FM_TX_PHY_CFG_MODE", Hex 0x3c);
  ("FM_TX_PHY_CFG_LEN", Hex 0x10); ("FM_TX_PWR_GAIN_OFFSET", Dec 14); ("FM_RDS_CNFG_MODE", Hex 0x0f);
  ("FM_RDS_CNFG_LEN", Hex 0x10); ("AF_RMSSI_TH_LSB_OFFSET", Dec 10); ("AF_RMSSI_TH_MSB_OFFSET", Dec 11);
  ("AF_RMSSI_SAMPLES_OFFSET", Dec 15); ("FM_RX_CONFG_MODE", Hex 0x15); ("FM_RX_CNFG_LEN", Hex 0x20);
  ("GD_CH_RMSSI_TH_OFFSET", Dec 12); ("MAX_GD_CH_RMSSI_TH", Dec 127); ("SRCH_ALGO_TYPE_OFFSET", Dec 25);
  ("SINRFIRSTSTAGE_OFFSET", Dec 26); ("RMSSIFIRSTSTAGE_OFFSET", Dec 27); ("CF0TH12_BYTE1_OFFSET", Dec 8);
  ("CF0TH12_BYTE2_OFFSET", Dec 9); ("CF0TH12_BYTE3_OFFSET", Dec 10); ("CF0TH12_BYTE4_OFFSET", Dec 11);
  ("MAX_SINR_FIRSTSTAGE", Dec 127); ("MAX_RMSSI_FIRSTSTAGE", Dec 127); ("RDS_PS0_XFR_MODE", Hex 0x01);
  ("RDS_PS0_LEN", Dec 6); ("RX_REPEATE_BYTE_OFFSET", Dec 5); ("TUNE_PARAM", Dec 16);
  ("FM_RDS_3A_GRP", Hex 0x40)].

Definition HCI_FM_ENABLE_RECV_CMD_defs : defines := [
  ("HCI_FM_ENABLE_RECV_CMD", Dec 1); ("HCI_FM_DISABLE_RECV_CMD", Dec 2); ("HCI_FM_GET_RECV_CONF_CMD", Dec 3);
  ("HCI_FM_GET_STATION_PARAM_CMD", Dec 4); ("HCI_FM_GET_SIGNAL_TH_CMD", Dec 5);
  ("HCI_FM_GET_PROGRAM_SERVICE_CMD", Dec 6); ("HCI_FM_GET_RADIO_TEXT_CMD", Dec 7);
  ("HCI_FM_GET_AF_LIST_CMD", Dec 8); ("HCI_FM_CANCEL_SEARCH_CMD", Dec 9); ("HCI_FM_RESET_CMD", Dec 10);
  ("HCI_FM_GET_FEATURES_CMD", Dec 11); ("HCI_FM_STATION_DBG_PARAM_CMD", Dec 12);
  ("HCI_FM_ENABLE_TRANS_CMD", Dec 13); ("HCI_FM_DISABLE_TRANS_CMD", Dec 14); ("HCI_FM_GET_TX_CONFIG", Dec 15);
  ("HCI_FM_GET_DET_CH_TH_CMD", Dec 16); ("HCI_FM_GET_BLND_TBL_CMD", Dec 17); ("PS_STRING_LEN", Dec 9)].

Definition HCI_REQ_DONE_defs : defines := [
  ("HCI_REQ_DONE", Dec 0); ("HCI_REQ_PEND", Dec 1); ("HCI_REQ_CANCELED", Dec 2); ("HCI_REQ_STATUS", Dec 3);
  ("DUMMY_CLASS", Dec 0); ("RT_PLUS_LEN_1_TAG", Dec 3); ("RT_ERT_FLAG_BIT", Dec 5); ("TAG1_MSB_OFFSET", Dec 3);
  ("TAG1_MSB_MASK", Dec 7); ("TAG1_LSB_OFFSET", Dec 5); ("TAG1_POS_MSB_MASK", Dec 31);
  ("TAG1_POS_MSB_OFFSET", Dec 1); ("TAG1_POS_LSB_OFFSET", Dec 7); ("TAG1_LEN_OFFSET", Dec 1);
  ("TAG1_LEN_MASK", Dec 63); ("TAG2_MSB_OFFSET", Dec 5); ("TAG2_MSB_MASK", Dec 1); ("TAG2_LSB_OFFSET", Dec 3);
  ("TAG2_POS_MSB_MASK", Dec 7); ("TAG2_POS_MSB_OFFSET", Dec 3); ("TAG2_POS_LSB_OFFSET", Dec 5);
  ("TAG2_LEN_MASK", Dec 31); ("CARRIAGE_RETURN", Hex 0x000d); ("MAX_ERT_SEGMENT", Dec 31);
  ("ERT_FORMAT_DIR_BIT", Dec 1)].

Definition CKK_SPUR_defs : defines := [
  ("CKK_SPUR", Hex 0x3b); ("SPUR_DATA_SIZE", Hex 0x4)].

Definition RADIO_HCI_DEV_REG_defs : defines := [
  ("RADIO_HCI_DEV_REG", Dec 1); ("RADIO_HCI_DEV_WRITE", Dec 2); ("RDS_PID_LOWER", Dec 1);
  ("RDS_PID_HIGHER", Dec 0); ("RDS_STRING", Dec 8); ("RDS_CONFIG_OFFSET", Dec 3); ("RDS_AF_JUMP_OFFSET", Dec 4)].

Definition STD_BUF_SIZE_def : defines := [
  ("STD_BUF_SIZE", Dec 256)].

Definition SRCH_MODE_defs : defines := [
  ("SRCH_MODE", Hex 0x07); ("SRCH_DIR", Hex 0x08); ("SCAN_DWELL", Hex 0x70); ("SRCH_ON", Hex 0x80);
  ("IOC_HRD_MUTE", Hex 0x03); ("IOC_SFT_MUTE", Hex 0x01); ("IOC_MON_STR", Hex 0x01);
  ("IOC_SIG_BLND", Hex 0x01); ("IOC_INTF_BLND", Hex 0x01); ("IOC_ANTENNA", Hex 0x01); ("RDS_ON", Hex 0x01);
  ("RDS_BUF_SZ", Dec 100); ("RDS_GRP_CNTR_LEN", Dec 36); ("RX_RT_DATA_LENGTH", Dec 63); ("SRCH_DIR_UP", Dec 0);
  ("SRCH_DIR_DOWN", Dec 1); ("SEARCH_RDS_STNS_MODE_OFFSET", Dec 4); ("PARAMS_PER_STATION", Hex 0x08);
  ("STN_NUM_OFFSET", Hex 0x01); ("STN_FREQ_OFFSET", Hex 0x02); ("KHZ_TO_MHZ", Dec 1000); ("CTRL_ON", Dec 1);
  ("CTRL_OFF", Dec 0); ("RIVA_PEEK_OPCODE", Hex 0x0d); ("RIVA_POKE_OPCODE", Hex 0x0c);
  ("PEEK_DATA_OFSET", Hex 0x1); ("RIVA_PEEK_LEN_OFSET", Hex 0x6); ("SSBI_PEEK_LEN", Hex 0x01);
  ("PROCS_CALIB_MODE", Dec 1); ("DC_CALIB_MODE", Dec 2); ("RSB_CALIB_MODE", Dec 3); ("INVALID_CHANNEL", Dec 0);
  ("VALID_CHANNEL", Dec 1)].

Definition SIG_LEVEL_INTR_defs : defines := [
  ("SIG_LEVEL_INTR", Bin BShl (Dec 1) (Dec 0)); ("RDS_SYNC_INTR", Bin BShl (Dec 1) (Dec 1));
  ("AUDIO_CTRL_INTR", Bin BShl (Dec 1) (Dec 2)); ("AF_JUMP_ENABLE", Bin BShl (Dec 1) (Dec 4))].

Definition header : header := Header "include/media/radio-iris.h" [
  RADIO_HCI_COMMAND_HDR_SIZE_defs; HCI_FM_ENABLE_RECV_CMD_defs; HCI_REQ_DONE_defs; CKK_SPUR_defs;
  RADIO_HCI_DEV_REG_defs; STD_BUF_SIZE_def; SRCH_MODE_defs; SIG_LEVEL_INTR_defs] [
] [].

End Radio_iris.

(** [include/media/synx.h] *)

Module Synx.

Definition SYNX_defs : defines := [
  ("SYNX_MAX_WAITING_SYNX", Dec 16); ("SYNX_CALLBACK_RESULT_SUCCESS", Dec 2);
  ("SYNX_CALLBACK_RESULT_FAILED", Dec 3); ("SYNX_CALLBACK_RESULT_CANCELED", Dec 4)].

Definition SYNX_defs2 : defines := [
  ("SYNX_CREATE", Dec 0); ("SYNX_RELEASE", Dec 1); ("SYNX_SIGNAL", Dec 2); ("SYNX_MERGE", Dec 3);
  ("SYNX_REGISTER_PAYLOAD", Dec 4); ("SYNX_DEREGISTER_PAYLOAD", Dec 5); ("SYNX_WAIT", Dec 6);
  ("SYNX_BIND", Dec 7); ("SYNX_ADDREFCOUNT", Dec 8); ("SYNX_GETSTATUS", Dec 9); ("SYNX_IMPORT", Dec 10);
  ("SYNX_EXPORT", Dec 11); ("SYNX_IMPORT_ARR", Dec 12); ("SYNX_GETFENCE_FD", Dec 13)].

Definition header : header := Header "include/media/synx.h" [
  SYNX_defs; SYNX_defs2] [
] [].

End Synx.

Definition headers : list header := [
  Msm_drm.header; Msm_drm_pp.header; Sde_drm.header; Msm_hdmi_hdcp_mgr.header; Msm_sde_rotator.header;
  Msm_kgsl.header; Msm_cvp_private.header; Radio_iris_commands.header; Radio_iris.header; Synx.header].
