(* ===== verification/ConstNet.v ===== *)
(** * ConstNet: the macros and enumerations of the network and bus headers

    A module per header: a [defines] for each run of macros, an [enumeration] for each
    [enum], with the expressions of the header as they are written; [header] collects them. *)

From S2P Require Import Prelude CLayout CExpr.

#[local] Open Scope string_scope.
#[local] Open Scope list_scope.
#[local] Open Scope Z_scope.

(** [include/linux/if_frad.h] *)

Module If_frad.

Definition DLCI_defs : defines := [
  ("DLCI_GET_CONF", Bin BAdd (Ext "SIOCDEVPRIVATE" []) (Dec 2));
  ("DLCI_SET_CONF", Bin BAdd (Ext "SIOCDEVPRIVATE" []) (Dec 3))].

Definition DLCI_GET_SLAVE_def : defines := [
  ("DLCI_GET_SLAVE", Bin BAdd (Ext "SIOCDEVPRIVATE" []) (Dec 4))].

Definition DLCI_defs2 : defines := [
  ("DLCI_IGNORE_CIR_OUT", Hex 0x0001); ("DLCI_ACCOUNT_CIR_IN", Hex 0x0002); ("DLCI_BUFFER_IF", Hex 0x0008)].

Definition DLCI_VALID_FLAGS_defs : defines := [
  ("DLCI_VALID_FLAGS", Hex 0x000b); ("FRAD_GET_CONF", Ext "SIOCDEVPRIVATE" []);
  ("FRAD_SET_CONF", Bin BAdd (Ext "SIOCDEVPRIVATE" []) (Dec 1)); ("FRAD_LAST_IOCTL", Ref "FRAD_SET_CONF")].

Definition FRAD_STATION_defs : defines := [
  ("FRAD_STATION_CPE", Hex 0x0000); ("FRAD_STATION_NODE", Hex 0x0001)].

Definition FRAD_defs : defines := [
  ("FRAD_TX_IGNORE_CIR", Hex 0x0001); ("FRAD_RX_ACCOUNT_CIR", Hex 0x0002); ("FRAD_DROP_ABORTED", Hex 0x0004);
  ("FRAD_BUFFERIF", Hex 0x0008); ("FRAD_STATS", Hex 0x0010); ("FRAD_MCI", Hex 0x0100);
  ("FRAD_AUTODLCI", Hex 0x8000); ("FRAD_VALID_FLAGS", Hex 0x811f)].

Definition FRAD_CLOCK_defs : defines := [
  ("FRAD_CLOCK_INT", Hex 0x0001); ("FRAD_CLOCK_EXT", Hex 0x0000)].

Definition header : header := Header "include/linux/if_frad.h" [
  DLCI_defs; DLCI_GET_SLAVE_def; DLCI_defs2; DLCI_VALID_FLAGS_defs; FRAD_STATION_defs; FRAD_defs;
  FRAD_CLOCK_defs] [
] [].

End If_frad.

(** [include/linux/ipa_qmi_service_v01.h] *)

Module Ipa_qmi_service_v01.

Definition IPA_INT_defs : defines := [
  ("IPA_INT_MAX", Cast S32 (Bin BShr (Un BitNot (DecU 0)) (Dec 1)));
  ("IPA_INT_MIN", Bin BSub (Un Neg (Ref "IPA_INT_MAX")) (Dec 1))].

Definition QMI_IPA_PLATFORM_TYPE_LE_MHI_V01_def : defines := [
  ("QMI_IPA_PLATFORM_TYPE_LE_MHI_V01", Ref "QMI_IPA_PLATFORM_TYPE_LE_MHI_V01")].

Definition ipa_qmi_result_type_v01_enum : enumeration := [
  ("IPA_QMI_RESULT_TYPE_MIN_ENUM_VAL_V01", Some (Ref "IPA_INT_MIN"));
  ("IPA_QMI_RESULT_SUCCESS_V01", Some (Dec 0)); ("IPA_QMI_RESULT_FAILURE_V01", Some (Dec 1));
  ("IPA_QMI_RESULT_TYPE_MAX_ENUM_VAL_V01", Some (Ref "IPA_INT_MAX"))].

Definition ipa_qmi_error_type_v01_enum : enumeration := [
  ("IPA_QMI_ERROR_TYPE_MIN_ENUM_VAL_V01", Some (Ref "IPA_INT_MIN"));
  ("IPA_QMI_ERR_NONE_V01", Some (Hex 0x0000)); ("IPA_QMI_ERR_MALFORMED_MSG_V01", Some (Hex 0x0001));
  ("IPA_QMI_ERR_NO_MEMORY_V01", Some (Hex 0x0002)); ("IPA_QMI_ERR_INTERNAL_V01", Some (Hex 0x0003));
  ("IPA_QMI_ERR_CLIENT_IDS_EXHAUSTED_V01", Some (Hex 0x0005));
  ("IPA_QMI_ERR_INVALID_ID_V01", Some (Hex 0x0029)); ("IPA_QMI_ERR_ENCODING_V01", Some (Hex 0x003a));
  ("IPA_QMI_ERR_INCOMPATIBLE_STATE_V01", Some (Hex 0x005a));
  ("IPA_QMI_ERR_NOT_SUPPORTED_V01", Some (Hex 0x005e));
  ("IPA_QMI_ERROR_TYPE_MAX_ENUM_VAL_V01", Some (Ref "IPA_INT_MAX"))].

Definition ipa_platform_type_enum_v01_enum : enumeration := [
  ("IPA_PLATFORM_TYPE_ENUM_MIN_ENUM_VAL_V01", Some (Un Neg (Dec 2147483647)));
  ("QMI_IPA_PLATFORM_TYPE_INVALID_V01", Some (Dec 0)); ("QMI_IPA_PLATFORM_TYPE_TN_V01", Some (Dec 1));
  ("QMI_IPA_PLATFORM_TYPE_LE_V01", Some (Dec 2)); ("QMI_IPA_PLATFORM_TYPE_MSM_ANDROID_V01", Some (Dec 3));
  ("QMI_IPA_PLATFORM_TYPE_MSM_WINDOWS_V01", Some (Dec 4)); ("QMI_IPA_PLATFORM_TYPE_MSM_QNX_V01", Some (Dec 5));
  ("QMI_IPA_PLATFORM_TYPE_LE_MHI_V01", Some (Dec 6));
  ("IPA_PLATFORM_TYPE_ENUM_MAX_ENUM_VAL_V01", Some (Dec 2147483647))].

Definition ipa_eth_hw_config_enum_v01_enum : enumeration := [
  ("IPA_QMI_ETH_HW_CONFIG_ENUM_MIN_ENUM_VAL_V01", Some (Un Neg (Dec 2147483647)));
  ("IPA_QMI_ETH_HW_NONE_V01", Some (Hex 0x00)); ("IPA_QMI_ETH_HW_VLAN_IP_V01", Some (Hex 0x01));
  ("IPA_QMI_ETH_HW_NON_VLAN_IP_V01", Some (Hex 0x02));
  ("IPA_QMI_ETH_HW_CONFIG_ENUM_MAX_ENUM_VAL_V01", Some (Dec 2147483647))].

Definition ipa_ip_type_enum_v01_enum : enumeration := [
  ("IPA_IP_TYPE_ENUM_MIN_ENUM_VAL_V01", Some (Un Neg (Dec 2147483647)));
  ("QMI_IPA_IP_TYPE_INVALID_V01", Some (Dec 0)); ("QMI_IPA_IP_TYPE_V4_V01", Some (Dec 1));
  ("QMI_IPA_IP_TYPE_V6_V01", Some (Dec 2)); ("QMI_IPA_IP_TYPE_V4V6_V01", Some (Dec 3));
  ("IPA_IP_TYPE_ENUM_MAX_ENUM_VAL_V01", Some (Dec 2147483647))].

Definition ipa_filter_action_enum_v01_enum : enumeration := [
  ("IPA_FILTER_ACTION_ENUM_MIN_ENUM_VAL_V01", Some (Un Neg (Dec 2147483647)));
  ("QMI_IPA_FILTER_ACTION_INVALID_V01", Some (Dec 0)); ("QMI_IPA_FILTER_ACTION_SRC_NAT_V01", Some (Dec 1));
  ("QMI_IPA_FILTER_ACTION_DST_NAT_V01", Some (Dec 2)); ("QMI_IPA_FILTER_ACTION_ROUTING_V01", Some (Dec 3));
  ("QMI_IPA_FILTER_ACTION_EXCEPTION_V01", Some (Dec 4));
  ("IPA_FILTER_ACTION_ENUM_MAX_ENUM_VAL_V01", Some (Dec 2147483647))].

Definition ipa_peripheral_speed_enum_v01_enum : enumeration := [
  ("IPA_PERIPHERAL_SPEED_ENUM_MIN_ENUM_VAL_V01", Some (Un Neg (Dec 2147483647)));
  ("QMI_IPA_PER_USB_FS_V01", Some (Dec 1)); ("QMI_IPA_PER_USB_HS_V01", Some (Dec 2));
  ("QMI_IPA_PER_USB_SS_V01", Some (Dec 3)); ("QMI_IPA_PER_WLAN_V01", Some (Dec 4));
  ("IPA_PERIPHERAL_SPEED_ENUM_MAX_ENUM_VAL_V01", Some (Dec 2147483647))].

Definition ipa_pipe_mode_enum_v01_enum : enumeration := [
  ("IPA_PIPE_MODE_ENUM_MIN_ENUM_VAL_V01", Some (Un Neg (Dec 2147483647)));
  ("QMI_IPA_PIPE_MODE_HW_V01", Some (Dec 1)); ("QMI_IPA_PIPE_MODE_SW_V01", Some (Dec 2));
  ("IPA_PIPE_MODE_ENUM_MAX_ENUM_VAL_V01", Some (Dec 2147483647))].

Definition ipa_peripheral_type_enum_v01_enum : enumeration := [
  ("IPA_PERIPHERAL_TYPE_ENUM_MIN_ENUM_VAL_V01", Some (Un Neg (Dec 2147483647)));
  ("QMI_IPA_PERIPHERAL_USB_V01", Some (Dec 1)); ("QMI_IPA_PERIPHERAL_HSIC_V01", Some (Dec 2));
  ("QMI_IPA_PERIPHERAL_PCIE_V01", Some (Dec 3));
  ("IPA_PERIPHERAL_TYPE_ENUM_MAX_ENUM_VAL_V01", Some (Dec 2147483647))].

Definition ipa_stats_type_enum_v01_enum : enumeration := [
  ("IPA_STATS_TYPE_ENUM_MIN_ENUM_VAL_V01", Some (Un Neg (Dec 2147483647)));
  ("QMI_IPA_STATS_TYPE_INVALID_V01", Some (Dec 0)); ("QMI_IPA_STATS_TYPE_PIPE_V01", Some (Dec 1));
  ("QMI_IPA_STATS_TYPE_FILTER_RULES_V01", Some (Dec 2));
  ("IPA_STATS_TYPE_ENUM_MAX_ENUM_VAL_V01", Some (Dec 2147483647))].

Definition ipa_ul_firewall_status_enum_v01_enum : enumeration := [
  ("IPA_UL_FIREWALL_STATUS_ENUM_MIN_ENUM_VAL_V01", Some (Un Neg (Dec 2147483647)));
  ("QMI_IPA_UL_FIREWALL_STATUS_SUCCESS_V01", Some (Dec 0));
  ("QMI_IPA_UL_FIREWALL_STATUS_FAILURE_V01", Some (Dec 1));
  ("IPA_UL_FIREWALL_STATUS_ENUM_MAX_ENUM_VAL_V01", Some (Dec 2147483647))].

Definition ipa_mhi_brst_mode_enum_v01_enum : enumeration := [
  ("IPA_MHI_BRST_MODE_ENUM_MIN_VAL_V01", Some (Ref "IPA_INT_MIN"));
  ("QMI_IPA_BURST_MODE_DEFAULT_V01", Some (Dec 0)); ("QMI_IPA_BURST_MODE_ENABLED_V01", Some (Dec 1));
  ("QMI_IPA_BURST_MODE_DISABLED_V01", Some (Dec 2));
  ("IPA_MHI_BRST_MODE_ENUM_MAX_VAL_V01", Some (Ref "IPA_INT_MAX"))].

Definition ipa_clock_rate_enum_v01_enum : enumeration := [
  ("IPA_CLOCK_RATE_ENUM_MIN_ENUM_VAL_V01", Some (Ref "IPA_INT_MIN"));
  ("QMI_IPA_CLOCK_RATE_INVALID_V01", Some (Dec 0)); ("QMI_IPA_CLOCK_RATE_LOW_SVS_V01", Some (Dec 1));
  ("QMI_IPA_CLOCK_RATE_SVS_V01", Some (Dec 2)); ("QMI_IPA_CLOCK_RATE_NOMINAL_V01", Some (Dec 3));
  ("QMI_IPA_CLOCK_RATE_TURBO_V01", Some (Dec 4));
  ("IPA_CLOCK_RATE_ENUM_MAX_ENUM_VAL_V01", Some (Ref "IPA_INT_MAX"))].

Definition ipa_ep_desc_type_enum_v01_enum : enumeration := [
  ("IPA_EP_DESC_TYPE_ENUM_MIN_VAL_V01", Some (Ref "IPA_INT_MIN"));
  ("DATA_EP_DESC_TYPE_RESERVED_V01", Some (Hex 0x00)); ("DATA_EP_DESC_TYPE_EMB_CONS_V01", Some (Hex 0x01));
  ("DATA_EP_DESC_TYPE_EMB_PROD_V01", Some (Hex 0x02)); ("DATA_EP_DESC_TYPE_RSC_PROD_V01", Some (Hex 0x03));
  ("DATA_EP_DESC_TYPE_QDSS_PROD_V01", Some (Hex 0x04)); ("DATA_EP_DESC_TYPE_DPL_PROD_V01", Some (Hex 0x05));
  ("DATA_EP_DESC_TYPE_TETH_CONS_V01", Some (Hex 0x06)); ("DATA_EP_DESC_TYPE_TETH_PROD_V01", Some (Hex 0x07));
  ("DATA_EP_DESC_TYPE_TETH_RMNET_CONS_V01", Some (Hex 0x08));
  ("DATA_EP_DESC_TYPE_TETH_RMNET_PROD_V01", Some (Hex 0x09));
  ("DATA_EP_DESC_TYPE_EMB_FLOW_CTL_CONS_V01", Some (Hex 0x0a));
  ("DATA_EP_DESC_TYPE_EMB_FLOW_CTL_PROD_V01", Some (Hex 0x0b));
  ("IPA_EP_DESC_TYPE_ENUM_MAX_VAL_V01", Some (Ref "IPA_INT_MAX"))].

Definition ipa_ic_type_enum_v01_enum : enumeration := [
  ("IPA_IC_TYPE_ENUM_MIN_VAL_V01", Some (Ref "IPA_INT_MIN")); ("DATA_IC_TYPE_RESERVED_V01", Some (Hex 0x00));
  ("DATA_IC_TYPE_MHI_V01", Some (Hex 0x01)); ("DATA_IC_TYPE_MHI_PRIME_V01", Some (Hex 0x02));
  ("DATA_IC_TYPE_USB_V01", Some (Hex 0x03)); ("DATA_IC_TYPE_AP_V01", Some (Hex 0x04));
  ("DATA_IC_TYPE_Q6_V01", Some (Hex 0x05)); ("DATA_IC_TYPE_UC_V01", Some (Hex 0x06));
  ("DATA_IC_TYPE_ETH_V01", Some (Hex 0x07)); ("IPA_IC_TYPE_ENUM_MAX_VAL_V01", Some (Ref "IPA_INT_MAX"))].

Definition ipa_ep_status_type_v01_enum : enumeration := [
  ("IPA_EP_STATUS_TYPE_MIN_VAL_V01", Some (Ref "IPA_INT_MIN"));
  ("DATA_EP_STATUS_RESERVED_V01", Some (Hex 0x00)); ("DATA_EP_STATUS_STATIC_V01", Some (Hex 0x01));
  ("DATA_EP_STATUS_CONNECTED_V01", Some (Hex 0x02)); ("DATA_EP_STATUS_DISCONNECTED_V01", Some (Hex 0x03));
  ("IPA_EP_STATUS_TYPE_MAX_VAL_V01", Some (Ref "IPA_INT_MAX"))].

Definition ipa_aggr_enum_type_v01_enum : enumeration := [
  ("IPA_AGGR_ENUM_TYPE_MIN_VAL_V01", Some (Ref "IPA_INT_MIN"));
  ("DATA_AGGR_TYPE_RESERVED_V01", Some (Hex 0x00)); ("DATA_AGGR_TYPE_QMAP_V01", Some (Hex 0x01));
  ("DATA_AGGR_TYPE_QMAPv5_V01", Some (Hex 0x02)); ("DATA_AGGR_TYPE_INHERITED_V01", Some (Hex 0x03));
  ("IPA_AGGR_ENUM_TYPE_MAX_VAL_V01", Some (Ref "IPA_INT_MAX"))].

Definition ipa_move_nat_type_enum_v01_enum : enumeration := [
  ("QMI_IPA_MOVE_NAT_TO_DDR_V01", Some (Dec 0)); ("QMI_IPA_MOVE_NAT_TO_SRAM_V01", Some (Dec 1))].

Definition header : header := Header "include/linux/ipa_qmi_service_v01.h" [
  IPA_INT_defs; QMI_IPA_PLATFORM_TYPE_LE_MHI_V01_def] [
  ipa_qmi_result_type_v01_enum; ipa_qmi_error_type_v01_enum; ipa_platform_type_enum_v01_enum;
  ipa_eth_hw_config_enum_v01_enum; ipa_ip_type_enum_v01_enum; ipa_filter_action_enum_v01_enum;
  ipa_peripheral_speed_enum_v01_enum; ipa_pipe_mode_enum_v01_enum; ipa_peripheral_type_enum_v01_enum;
  ipa_stats_type_enum_v01_enum; ipa_ul_firewall_status_enum_v01_enum; ipa_mhi_brst_mode_enum_v01_enum;
  ipa_clock_rate_enum_v01_enum; ipa_ep_desc_type_enum_v01_enum; ipa_ic_type_enum_v01_enum;
  ipa_ep_status_type_v01_enum; ipa_aggr_enum_type_v01_enum; ipa_move_nat_type_enum_v01_enum] [].

End Ipa_qmi_service_v01.

(** [include/linux/ipx.h] *)

Module Ipx.

Definition IPX_defs : defines := [
  ("IPX_NODE_LEN", Dec 6); ("IPX_MTU", Dec 576)].

Definition IPX_defs2 : defines := [
  ("IPX_DLTITF", Dec 0); ("IPX_CRTITF", Dec 1)].

Definition IPX_FRAME_defs : defines := [
  ("IPX_FRAME_NONE", Dec 0); ("IPX_FRAME_SNAP", Dec 1); ("IPX_FRAME_8022", Dec 2);
  ("IPX_FRAME_ETHERII", Dec 3); ("IPX_FRAME_8023", Dec 4); ("IPX_FRAME_TR_8022", Dec 5)].

Definition IPX_defs3 : defines := [
  ("IPX_SPECIAL_NONE", Dec 0); ("IPX_PRIMARY", Dec 1); ("IPX_INTERNAL", Dec 2)].

Definition IPX_ROUTE_NO_ROUTER_def : defines := [
  ("IPX_ROUTE_NO_ROUTER", Dec 0)].

Definition IPX_RT_defs : defines := [
  ("IPX_RT_SNAP", Dec 8); ("IPX_RT_8022", Dec 4); ("IPX_RT_BLUEBOOK", Dec 2); ("IPX_RT_ROUTED", Dec 1)].

Definition SIOCAIPXITFCRT_defs : defines := [
  ("SIOCAIPXITFCRT", Ext "SIOCPROTOPRIVATE" []);
  ("SIOCAIPXPRISLT", Bin BAdd (Ext "SIOCPROTOPRIVATE" []) (Dec 1));
  ("SIOCIPXCFGDATA", Bin BAdd (Ext "SIOCPROTOPRIVATE" []) (Dec 2));
  ("SIOCIPXNCPCONN", Bin BAdd (Ext "SIOCPROTOPRIVATE" []) (Dec 3))].

Definition header : header := Header "include/linux/ipx.h" [
  IPX_defs; IPX_defs2; IPX_FRAME_defs; IPX_defs3; IPX_ROUTE_NO_ROUTER_def; IPX_RT_defs; SIOCAIPXITFCRT_defs] [
] [].

End Ipx.

(** [include/linux/mhi.h] *)

Module Mhi.

Definition peripheral_ep_type_enum : enumeration := [
  ("DATA_EP_TYPE_RESERVED", None); ("DATA_EP_TYPE_HSIC", None); ("DATA_EP_TYPE_HSUSB", None);
  ("DATA_EP_TYPE_PCIE", None); ("DATA_EP_TYPE_EMBEDDED", None); ("DATA_EP_TYPE_BAM_DMUX", None)].

Definition header : header := Header "include/linux/mhi.h" [
] [
  peripheral_ep_type_enum] [].

End Mhi.

(** [include/linux/msm_ipa.h] *)

Module Msm_ipa.

Definition IPAHAL_NAT_INVALID_PROTOCOL_defs : defines := [
  ("IPAHAL_NAT_INVALID_PROTOCOL", Hex 0xff); ("IPA_NUM_PROPS_MAX", Dec 35); ("IPA_MBIM_MAX_STREAM_NUM", Dec 8)].

Definition QMI_IPA_MAX_CLIENT_DST_PIPES_defs : defines := [
  ("QMI_IPA_MAX_CLIENT_DST_PIPES", Dec 4); ("IPA_MAX_FLT_RT_CNT_INDEX", Dec 128);
  ("IPA_FLT_RT_HW_COUNTER", Dec 120);
  ("IPA_FLT_RT_SW_COUNTER", Bin BSub (Ref "IPA_MAX_FLT_RT_CNT_INDEX") (Ref "IPA_FLT_RT_HW_COUNTER"));
  ("IPA_MAX_FLT_RT_CLIENTS", Dec 60)].

Definition IPA_FLT_defs : defines := [
  ("IPA_FLT_TOS", Bin BShl (Num false SuffixUL 1) (Dec 0));
  ("IPA_FLT_PROTOCOL", Bin BShl (Num false SuffixUL 1) (Dec 1));
  ("IPA_FLT_SRC_ADDR", Bin BShl (Num false SuffixUL 1) (Dec 2));
  ("IPA_FLT_DST_ADDR", Bin BShl (Num false SuffixUL 1) (Dec 3));
  ("IPA_FLT_SRC_PORT_RANGE", Bin BShl (Num false SuffixUL 1) (Dec 4));
  ("IPA_FLT_DST_PORT_RANGE", Bin BShl (Num false SuffixUL 1) (Dec 5));
  ("IPA_FLT_TYPE", Bin BShl (Num false SuffixUL 1) (Dec 6));
  ("IPA_FLT_CODE", Bin BShl (Num false SuffixUL 1) (Dec 7));
  ("IPA_FLT_SPI", Bin BShl (Num false SuffixUL 1) (Dec 8));
  ("IPA_FLT_SRC_PORT", Bin BShl (Num false SuffixUL 1) (Dec 9));
  ("IPA_FLT_DST_PORT", Bin BShl (Num false SuffixUL 1) (Dec 10));
  ("IPA_FLT_TC", Bin BShl (Num false SuffixUL 1) (Dec 11));
  ("IPA_FLT_FLOW_LABEL", Bin BShl (Num false SuffixUL 1) (Dec 12));
  ("IPA_FLT_NEXT_HDR", Bin BShl (Num false SuffixUL 1) (Dec 13));
  ("IPA_FLT_META_DATA", Bin BShl (Num false SuffixUL 1) (Dec 14));
  ("IPA_FLT_FRAGMENT", Bin BShl (Num false SuffixUL 1) (Dec 15));
  ("IPA_FLT_TOS_MASKED", Bin BShl (Num false SuffixUL 1) (Dec 16));
  ("IPA_FLT_MAC_SRC_ADDR_ETHER_II", Bin BShl (Num false SuffixUL 1) (Dec 17));
  ("IPA_FLT_MAC_DST_ADDR_ETHER_II", Bin BShl (Num false SuffixUL 1) (Dec 18));
  ("IPA_FLT_MAC_SRC_ADDR_802_3", Bin BShl (Num false SuffixUL 1) (Dec 19));
  ("IPA_FLT_MAC_DST_ADDR_802_3", Bin BShl (Num false SuffixUL 1) (Dec 20));
  ("IPA_FLT_MAC_ETHER_TYPE", Bin BShl (Num false SuffixUL 1) (Dec 21));
  ("IPA_FLT_MAC_DST_ADDR_L2TP", Bin BShl (Num false SuffixUL 1) (Dec 22));
  ("IPA_FLT_TCP_SYN", Bin BShl (Num false SuffixUL 1) (Dec 23));
  ("IPA_FLT_TCP_SYN_L2TP", Bin BShl (Num false SuffixUL 1) (Dec 24));
  ("IPA_FLT_L2TP_INNER_IP_TYPE", Bin BShl (Num false SuffixUL 1) (Dec 25));
  ("IPA_FLT_L2TP_INNER_IPV4_DST_ADDR", Bin BShl (Num false SuffixUL 1) (Dec 26));
  ("IPA_FLT_IS_PURE_ACK", Bin BShl (Num false SuffixUL 1) (Dec 27));
  ("IPA_FLT_VLAN_ID", Bin BShl (Num false SuffixUL 1) (Dec 28));
  ("IPA_FLT_MAC_SRC_ADDR_802_1Q", Bin BShl (Num false SuffixUL 1) (Dec 29));
  ("IPA_FLT_MAC_DST_ADDR_802_1Q", Bin BShl (Num false SuffixUL 1) (Dec 30));
  ("IPA_FLT_L2TP_UDP_INNER_MAC_DST_ADDR", Bin BShl (Num false SuffixUL 1) (Dec 31))].

Definition IPA_FLT_EXT_defs : defines := [
  ("IPA_FLT_EXT_L2TP_UDP_TCP_SYN", Bin BShl (Num false SuffixUL 1) (Dec 0));
  ("IPA_FLT_EXT_L2TP_UDP_INNER_ETHER_TYPE", Bin BShl (Num false SuffixUL 1) (Dec 1));
  ("IPA_FLT_EXT_MTU", Bin BShl (Num false SuffixUL 1) (Dec 2));
  ("IPA_FLT_EXT_L2TP_UDP_INNER_NEXT_HDR", Bin BShl (Num false SuffixUL 1) (Dec 3));
  ("IPA_FLT_EXT_NEXT_HDR", Bin BShl (Num false SuffixUL 1) (Dec 4))].

Definition IPA_defs : defines := [
  ("IPA_MAX_PDN_NUM_v4", Dec 5); ("IPA_LNX_PG_RECYCLE_STATS_STRUCT_LEN", Dec 32);
  ("IPA_LNX_EXCEPTION_STATS_STRUCT_LEN", Dec 40); ("IPA_LNX_ODL_EP_STATS_STRUCT_LEN", Dec 16);
  ("IPA_LNX_HOLB_DISCARD_STATS_STRUCT_LEN", Dec 16); ("IPA_LNX_HOLB_MONITOR_STATS_STRUCT_LEN", Dec 16);
  ("IPA_LNX_HOLB_DROP_AND_MON_STATS_STRUCT_LEN", Bin BAdd (Bin BAdd (Dec 8) (Dec 16)) (Dec 16));
  ("IPA_LNX_GENERIC_STATS_STRUCT_LEN", Bin BAdd (Bin BAdd (Bin BAdd (Bin BAdd (Dec 40) (Dec 32)) (Dec 40)) (Dec 16)) (Dec 40));
  ("IPA_LNX_PM_CLIENT_STATS_STRUCT_LEN", Dec 24);
  ("IPA_LNX_CLOCK_STATS_STRUCT_LEN", Bin BAdd (Dec 24) (Dec 24));
  ("IPA_LNX_GSI_RX_DEBUG_STATS_STRUCT_LEN", Dec 48); ("IPA_LNX_GSI_TX_DEBUG_STATS_STRUCT_LEN", Dec 56);
  ("IPA_LNX_GSI_DEBUG_STATS_STRUCT_LEN", Bin BAdd (Bin BAdd (Dec 8) (Dec 48)) (Dec 56));
  ("IPA_LNX_PIPE_INFO_STATS_STRUCT_LEN", Dec 120);
  ("IPA_LNX_WLAN_INSTANCE_INFO_STRUCT_LEN", Bin BAdd (Bin BAdd (Dec 32) (Dec 112)) (Dec 120));
  ("IPA_LNX_WLAN_INST_STATS_STRUCT_LEN", Bin BAdd (Dec 8) (Dec 264));
  ("IPA_LNX_ETH_INSTANCE_INFO_STRUCT_LEN", Bin BAdd (Bin BAdd (Dec 16) (Dec 112)) (Dec 120));
  ("IPA_LNX_ETH_INST_STATS_STRUCT_LEN", Bin BAdd (Dec 8) (Dec 248));
  ("IPA_LNX_USB_INSTANCE_INFO_STRUCT_LEN", Bin BAdd (Bin BAdd (Dec 16) (Dec 112)) (Dec 120));
  ("IPA_LNX_USB_INST_STATS_STRUCT_LEN", Bin BAdd (Dec 8) (Dec 248));
  ("IPA_LNX_MHIP_INSTANCE_INFO_STRUCT_LEN", Bin BAdd (Bin BAdd (Dec 16) (Dec 112)) (Dec 120));
  ("IPA_LNX_MHIP_INST_STATS_STRUCT_LEN", Bin BAdd (Dec 8) (Dec 248));
  ("IPA_LNX_CONSOLIDATED_STATS_STRUCT_LEN", Bin BAdd (Dec 8) (Dec 48));
  ("IPA_LNX_EACH_INST_ALLOC_INFO_STRUCT_LEN", Bin BAdd (Bin BAdd (Bin BAdd (Dec 24) (Dec 12)) (Dec 12)) (Dec 16));
  ("IPA_LNX_STATS_ALL_INFO_STRUCT_LEN", Bin BAdd (Bin BAdd (Bin BAdd (Dec 32) (Dec 128)) (Dec 128)) (Dec 128));
  ("IPA_LNX_STATS_SPEARHEAD_CTX_STRUCT_LEN", Bin BAdd (Bin BAdd (Dec 8) (Dec 4)) (Dec 416))].

Definition IPA_CLIENT_defs : defines := [
  ("IPA_CLIENT_Q6_DL_NLO_DATA_PROD", Ref "IPA_CLIENT_Q6_DL_NLO_DATA_PROD");
  ("IPA_CLIENT_Q6_UL_NLO_ACK_CONS", Ref "IPA_CLIENT_Q6_UL_NLO_ACK_CONS");
  ("IPA_CLIENT_Q6_QBAP_STATUS_CONS", Ref "IPA_CLIENT_Q6_QBAP_STATUS_CONS");
  ("IPA_CLIENT_MHI_DPL_CONS", Ref "IPA_CLIENT_MHI_DPL_CONS");
  ("IPA_CLIENT_Q6_AUDIO_DMA_MHI_PROD", Ref "IPA_CLIENT_Q6_AUDIO_DMA_MHI_PROD");
  ("IPA_CLIENT_Q6_AUDIO_DMA_MHI_CONS", Ref "IPA_CLIENT_Q6_AUDIO_DMA_MHI_CONS");
  ("IPA_CLIENT_WIGIG_PROD", Ref "IPA_CLIENT_WIGIG_PROD");
  ("IPA_CLIENT_WIGIG1_CONS", Ref "IPA_CLIENT_WIGIG1_CONS");
  ("IPA_CLIENT_WIGIG2_CONS", Ref "IPA_CLIENT_WIGIG2_CONS");
  ("IPA_CLIENT_WIGIG3_CONS", Ref "IPA_CLIENT_WIGIG3_CONS");
  ("IPA_CLIENT_WIGIG4_CONS", Ref "IPA_CLIENT_WIGIG4_CONS");
  ("IPA_CLIENT_APPS_WAN_COAL_CONS", Ref "IPA_CLIENT_APPS_WAN_COAL_CONS");
  ("IPA_CLIENT_MHI_PRIME_TETH_PROD", Ref "IPA_CLIENT_MHI_PRIME_TETH_PROD");
  ("IPA_CLIENT_MHI_PRIME_TETH_CONS", Ref "IPA_CLIENT_MHI_PRIME_TETH_CONS");
  ("IPA_CLIENT_MHI_PRIME_RMNET_PROD", Ref "IPA_CLIENT_MHI_PRIME_RMNET_PROD");
  ("IPA_CLIENT_MHI_PRIME_RMNET_CONS", Ref "IPA_CLIENT_MHI_PRIME_RMNET_CONS");
  ("IPA_CLIENT_MHI_PRIME_DPL_PROD", Ref "IPA_CLIENT_MHI_PRIME_DPL_PROD");
  ("IPA_CLIENT_AQC_ETHERNET_PROD", Ref "IPA_CLIENT_AQC_ETHERNET_PROD");
  ("IPA_CLIENT_AQC_ETHERNET_CONS", Ref "IPA_CLIENT_AQC_ETHERNET_CONS");
  ("IPA_CLIENT_MHI_QDSS_CONS", Ref "IPA_CLIENT_MHI_QDSS_CONS");
  ("IPA_CLIENT_QDSS_PROD", Ref "IPA_CLIENT_QDSS_PROD");
  ("IPA_CLIENT_WLAN2_CONS1", Ref "IPA_CLIENT_WLAN2_CONS1");
  ("IPA_CLIENT_APPS_WAN_LOW_LAT_DATA_PROD", Ref "IPA_CLIENT_APPS_WAN_LOW_LAT_DATA_PROD");
  ("IPA_CLIENT_APPS_WAN_LOW_LAT_DATA_CONS", Ref "IPA_CLIENT_APPS_WAN_LOW_LAT_DATA_CONS");
  ("IPA_CLIENT_Q6_DL_NLO_LL_DATA_PROD", Ref "IPA_CLIENT_Q6_DL_NLO_LL_DATA_PROD");
  ("IPA_CLIENT_WLAN2_PROD1", Ref "IPA_CLIENT_WLAN2_PROD1");
  ("IPA_CLIENT_WLAN3_PROD1", Ref "IPA_CLIENT_WLAN3_PROD1");
  ("IPA_CLIENT_MHI_COAL_CONS", Ref "IPA_CLIENT_MHI_COAL_CONS")].

Definition IPA_RULE_TYPE_MAX_def : defines := [
  ("IPA_RULE_TYPE_MAX", Bin BAdd (Ref "IPA_RULE_NON_HASHABLE") (Dec 1))].

Definition IPA_HW_defs : defines := [
  ("IPA_HW_MAX", Bin BAdd (Ref "IPA_HW_v5_2") (Dec 1)); ("IPA_HW_v4_0", Ref "IPA_HW_v4_0");
  ("IPA_HW_v4_1", Ref "IPA_HW_v4_1"); ("IPA_HW_v4_2", Ref "IPA_HW_v4_2"); ("IPA_HW_v4_5", Ref "IPA_HW_v4_5");
  ("IPA_HW_v4_7", Ref "IPA_HW_v4_7"); ("IPA_HW_v4_9", Ref "IPA_HW_v4_9"); ("IPA_HW_v4_11", Ref "IPA_HW_v4_11");
  ("IPA_HW_v5_0", Ref "IPA_HW_v5_0"); ("IPA_HW_v5_1", Ref "IPA_HW_v5_1"); ("IPA_HW_v5_2", Ref "IPA_HW_v5_2")].

Definition IPA_HDR_L2_defs : defines := [
  ("IPA_HDR_L2_MAX", Bin BAdd (Ref "IPA_HDR_L2_802_1Q_AST") (Dec 1));
  ("IPA_HDR_L2_802_1Q", Ref "IPA_HDR_L2_802_1Q");
  ("IPA_HDR_L2_ETHERNET_II_AST", Ref "IPA_HDR_L2_ETHERNET_II_AST");
  ("IPA_HDR_L2_802_1Q_AST", Ref "IPA_HDR_L2_802_1Q_AST")].

Definition IPA_HDR_PROC_MAX_def : defines := [
  ("IPA_HDR_PROC_MAX", Bin BAdd (Ref "IPA_HDR_PROC_WWAN_TO_ETHII_EX") (Dec 1))].

Definition IPA_L2TP_TUNNEL_UDP_def : defines := [
  ("IPA_L2TP_TUNNEL_UDP", Ref "IPA_L2TP_TUNNEL_UDP")].

Definition QUERY_MAX_EP_PAIRS_defs : defines := [
  ("QUERY_MAX_EP_PAIRS", Dec 2); ("IPA_USB0_EP_ID", Dec 11); ("IPA_USB1_EP_ID", Dec 12);
  ("IPA_PCIE0_EP_ID", Dec 21); ("IPA_PCIE1_EP_ID", Dec 22); ("IPA_ETH0_EP_ID", Dec 31);
  ("IPA_ETH1_EP_ID", Dec 32)].

Definition WLAN_HDR_ATTRIB_TA_PEER_ID_def : defines := [
  ("WLAN_HDR_ATTRIB_TA_PEER_ID", Ref "WLAN_HDR_ATTRIB_TA_PEER_ID")].

Definition IPA_defs2 : defines := [
  ("IPA_SOCKSV5_ADD_COM_ID", Dec 15); ("IPA_IPv6_NAT_COM_ID", Dec 16)].

Definition IPACM_MAX_CLIENT_DEVICE_TYPES_def : defines := [
  ("IPACM_MAX_CLIENT_DEVICE_TYPES", Ref "IPACM_CLIENT_DEVICE_MAX")].

Definition IPA_VLAN_IF_defs : defines := [
  ("IPA_VLAN_IF_EMAC", Ref "IPA_VLAN_IF_ETH"); ("IPA_VLAN_IF_WLAN", Ref "IPA_VLAN_IF_WLAN");
  ("IPA_VLAN_IF_MAX", Bin BAdd (Ref "IPA_VLAN_IF_WLAN") (Dec 1))].

Definition ipa_client_type_enum2 : enumeration := [
  ("IPA_CLIENT_HSIC1_PROD", Some (Dec 0)); ("IPA_CLIENT_HSIC1_CONS", Some (Dec 1));
  ("IPA_CLIENT_HSIC2_PROD", Some (Dec 2)); ("IPA_CLIENT_HSIC2_CONS", Some (Dec 3));
  ("IPA_CLIENT_HSIC3_PROD", Some (Dec 4)); ("IPA_CLIENT_HSIC3_CONS", Some (Dec 5));
  ("IPA_CLIENT_HSIC4_PROD", Some (Dec 6)); ("IPA_CLIENT_HSIC4_CONS", Some (Dec 7));
  ("IPA_CLIENT_HSIC5_PROD", Some (Dec 8)); ("IPA_CLIENT_HSIC5_CONS", Some (Dec 9));
  ("IPA_CLIENT_WLAN1_PROD", Some (Dec 10)); ("IPA_CLIENT_WLAN1_CONS", Some (Dec 11));
  ("IPA_CLIENT_A5_WLAN_AMPDU_PROD", Some (Dec 12)); ("IPA_CLIENT_WLAN2_CONS", Some (Dec 13));
  ("IPA_CLIENT_WLAN3_PROD", Some (Dec 14)); ("IPA_CLIENT_WLAN3_CONS", Some (Dec 15));
  ("IPA_CLIENT_WLAN2_PROD1", Some (Dec 16)); ("IPA_CLIENT_WLAN4_CONS", Some (Dec 17));
  ("IPA_CLIENT_USB_PROD", Some (Dec 18)); ("IPA_CLIENT_USB_CONS", Some (Dec 19));
  ("IPA_CLIENT_USB2_PROD", Some (Dec 20)); ("IPA_CLIENT_USB2_CONS", Some (Dec 21));
  ("IPA_CLIENT_USB3_PROD", Some (Dec 22)); ("IPA_CLIENT_USB3_CONS", Some (Dec 23));
  ("IPA_CLIENT_USB4_PROD", Some (Dec 24)); ("IPA_CLIENT_USB4_CONS", Some (Dec 25));
  ("IPA_CLIENT_UC_USB_PROD", Some (Dec 26)); ("IPA_CLIENT_USB_DPL_CONS", Some (Dec 27));
  ("IPA_CLIENT_A2_EMBEDDED_PROD", Some (Dec 28)); ("IPA_CLIENT_A2_EMBEDDED_CONS", Some (Dec 29));
  ("IPA_CLIENT_A2_TETHERED_PROD", Some (Dec 30)); ("IPA_CLIENT_A2_TETHERED_CONS", Some (Dec 31));
  ("IPA_CLIENT_APPS_LAN_PROD", Some (Dec 32)); ("IPA_CLIENT_APPS_LAN_CONS", Some (Dec 33));
  ("IPA_CLIENT_APPS_WAN_PROD", Some (Dec 34));
  ("IPA_CLIENT_APPS_LAN_WAN_PROD", Some (Ref "IPA_CLIENT_APPS_WAN_PROD"));
  ("IPA_CLIENT_APPS_WAN_CONS", Some (Dec 35)); ("IPA_CLIENT_APPS_CMD_PROD", Some (Dec 36));
  ("IPA_CLIENT_A5_LAN_WAN_CONS", Some (Dec 37)); ("IPA_CLIENT_ODU_PROD", Some (Dec 38));
  ("IPA_CLIENT_ODU_EMB_CONS", Some (Dec 39)); ("IPA_CLIENT_WLAN3_PROD1", Some (Dec 40));
  ("IPA_CLIENT_ODU_TETH_CONS", Some (Dec 41)); ("IPA_CLIENT_MHI_PROD", Some (Dec 42));
  ("IPA_CLIENT_MHI_CONS", Some (Dec 43)); ("IPA_CLIENT_MEMCPY_DMA_SYNC_PROD", Some (Dec 44));
  ("IPA_CLIENT_MEMCPY_DMA_SYNC_CONS", Some (Dec 45)); ("IPA_CLIENT_MEMCPY_DMA_ASYNC_PROD", Some (Dec 46));
  ("IPA_CLIENT_MEMCPY_DMA_ASYNC_CONS", Some (Dec 47)); ("IPA_CLIENT_ETHERNET_PROD", Some (Dec 48));
  ("IPA_CLIENT_ETHERNET_CONS", Some (Dec 49)); ("IPA_CLIENT_Q6_LAN_PROD", Some (Dec 50));
  ("IPA_CLIENT_Q6_LAN_CONS", Some (Dec 51)); ("IPA_CLIENT_Q6_WAN_PROD", Some (Dec 52));
  ("IPA_CLIENT_Q6_WAN_CONS", Some (Dec 53)); ("IPA_CLIENT_Q6_CMD_PROD", Some (Dec 54));
  ("IPA_CLIENT_Q6_DUN_CONS", Some (Dec 55)); ("IPA_CLIENT_Q6_DECOMP_PROD", Some (Dec 56));
  ("IPA_CLIENT_Q6_DECOMP_CONS", Some (Dec 57)); ("IPA_CLIENT_Q6_DECOMP2_PROD", Some (Dec 58));
  ("IPA_CLIENT_Q6_DECOMP2_CONS", Some (Dec 59)); ("IPA_CLIENT_Q6_LTE_WIFI_AGGR_CONS", Some (Dec 61));
  ("IPA_CLIENT_TEST_PROD", Some (Dec 62)); ("IPA_CLIENT_TEST_CONS", Some (Dec 63));
  ("IPA_CLIENT_TEST1_PROD", Some (Dec 64)); ("IPA_CLIENT_TEST1_CONS", Some (Dec 65));
  ("IPA_CLIENT_TEST2_PROD", Some (Dec 66)); ("IPA_CLIENT_TEST2_CONS", Some (Dec 67));
  ("IPA_CLIENT_TEST3_PROD", Some (Dec 68)); ("IPA_CLIENT_TEST3_CONS", Some (Dec 69));
  ("IPA_CLIENT_TEST4_PROD", Some (Dec 70)); ("IPA_CLIENT_TEST4_CONS", Some (Dec 71));
  ("IPA_CLIENT_DUMMY_CONS", Some (Dec 73)); ("IPA_CLIENT_Q6_DL_NLO_DATA_PROD", Some (Dec 74));
  ("IPA_CLIENT_Q6_UL_NLO_DATA_CONS", Some (Dec 75)); ("IPA_CLIENT_Q6_UL_NLO_ACK_CONS", Some (Dec 77));
  ("IPA_CLIENT_Q6_QBAP_STATUS_CONS", Some (Dec 79)); ("IPA_CLIENT_MHI_DPL_CONS", Some (Dec 81));
  ("IPA_CLIENT_ODL_DPL_CONS", Some (Dec 83)); ("IPA_CLIENT_Q6_AUDIO_DMA_MHI_PROD", Some (Dec 84));
  ("IPA_CLIENT_Q6_AUDIO_DMA_MHI_CONS", Some (Dec 85)); ("IPA_CLIENT_WIGIG_PROD", Some (Dec 86));
  ("IPA_CLIENT_WIGIG1_CONS", Some (Dec 87)); ("IPA_CLIENT_WIGIG2_CONS", Some (Dec 89));
  ("IPA_CLIENT_WIGIG3_CONS", Some (Dec 91)); ("IPA_CLIENT_WIGIG4_CONS", Some (Dec 93));
  ("IPA_CLIENT_APPS_WAN_COAL_CONS", Some (Dec 95)); ("IPA_CLIENT_MHI_PRIME_TETH_PROD", Some (Dec 96));
  ("IPA_CLIENT_MHI_PRIME_TETH_CONS", Some (Dec 97)); ("IPA_CLIENT_MHI_PRIME_RMNET_PROD", Some (Dec 98));
  ("IPA_CLIENT_MHI_PRIME_RMNET_CONS", Some (Dec 99)); ("IPA_CLIENT_MHI_PRIME_DPL_PROD", Some (Dec 100));
  ("IPA_CLIENT_MHI_COAL_CONS", Some (Dec 101)); ("IPA_CLIENT_AQC_ETHERNET_PROD", Some (Dec 102));
  ("IPA_CLIENT_AQC_ETHERNET_CONS", Some (Dec 103)); ("IPA_CLIENT_APPS_WAN_LOW_LAT_PROD", Some (Dec 104));
  ("IPA_CLIENT_APPS_WAN_LOW_LAT_CONS", Some (Dec 105)); ("IPA_CLIENT_QDSS_PROD", Some (Dec 106));
  ("IPA_CLIENT_MHI_QDSS_CONS", Some (Dec 107)); ("IPA_CLIENT_RTK_ETHERNET_PROD", Some (Dec 108));
  ("IPA_CLIENT_RTK_ETHERNET_CONS", Some (Dec 109)); ("IPA_CLIENT_MHI_LOW_LAT_PROD", Some (Dec 110));
  ("IPA_CLIENT_MHI_LOW_LAT_CONS", Some (Dec 111)); ("IPA_CLIENT_MHI2_PROD", Some (Dec 112));
  ("IPA_CLIENT_MHI2_CONS", Some (Dec 113)); ("IPA_CLIENT_Q6_CV2X_PROD", Some (Dec 114));
  ("IPA_CLIENT_Q6_CV2X_CONS", Some (Dec 115)); ("IPA_CLIENT_ETHERNET2_PROD", Some (Dec 116));
  ("IPA_CLIENT_ETHERNET2_CONS", Some (Dec 117)); ("IPA_CLIENT_WLAN2_CONS1", Some (Dec 119));
  ("IPA_CLIENT_APPS_WAN_LOW_LAT_DATA_PROD", Some (Dec 120));
  ("IPA_CLIENT_APPS_WAN_LOW_LAT_DATA_CONS", Some (Dec 121));
  ("IPA_CLIENT_Q6_DL_NLO_LL_DATA_PROD", Some (Dec 122)); ("IPA_CLIENT_TPUT_CONS", Some (Dec 125));
  ("IPA_CLIENT_Q6_DL_NLO_ETH_DATA_PROD", Some (Dec 126)); ("IPA_CLIENT_APPS_WAN_ETH_PROD", Some (Dec 128))].

Definition ipa_rule_type_enum : enumeration := [
  ("IPA_RULE_HASHABLE", None); ("IPA_RULE_NON_HASHABLE", None)].

Definition ipa_flt_action_enum : enumeration := [
  ("IPA_PASS_TO_ROUTING", None); ("IPA_PASS_TO_SRC_NAT", None); ("IPA_PASS_TO_DST_NAT", None);
  ("IPA_PASS_TO_EXCEPTION", None)].

Definition ipa_hw_type_enum : enumeration := [
  ("IPA_HW_None", Some (Dec 0)); ("IPA_HW_v1_0", Some (Dec 1)); ("IPA_HW_v1_1", Some (Dec 2));
  ("IPA_HW_v2_0", Some (Dec 3)); ("IPA_HW_v2_1", Some (Dec 4)); ("IPA_HW_v2_5", Some (Dec 5));
  ("IPA_HW_v2_6", Some (Ref "IPA_HW_v2_5")); ("IPA_HW_v2_6L", Some (Dec 6)); ("IPA_HW_v3_0", Some (Dec 10));
  ("IPA_HW_v3_1", Some (Dec 11)); ("IPA_HW_v3_5", Some (Dec 12)); ("IPA_HW_v3_5_1", Some (Dec 13));
  ("IPA_HW_v4_0", Some (Dec 14)); ("IPA_HW_v4_1", Some (Dec 15)); ("IPA_HW_v4_2", Some (Dec 16));
  ("IPA_HW_v4_5", Some (Dec 17)); ("IPA_HW_v4_7", Some (Dec 18)); ("IPA_HW_v4_9", Some (Dec 19));
  ("IPA_HW_v4_11", Some (Dec 20)); ("IPA_HW_v5_0", Some (Dec 21)); ("IPA_HW_v5_1", Some (Dec 22));
  ("IPA_HW_v5_2", Some (Dec 23))].

Definition ipa_hdr_l2_type_enum : enumeration := [
  ("IPA_HDR_L2_NONE", None); ("IPA_HDR_L2_ETHERNET_II", None); ("IPA_HDR_L2_802_3", None);
  ("IPA_HDR_L2_802_1Q", None); ("IPA_HDR_L2_ETHERNET_II_AST", None); ("IPA_HDR_L2_802_1Q_AST", None)].

Definition ipa_hdr_proc_type_enum : enumeration := [
  ("IPA_HDR_PROC_NONE", None); ("IPA_HDR_PROC_ETHII_TO_ETHII", None); ("IPA_HDR_PROC_ETHII_TO_802_3", None);
  ("IPA_HDR_PROC_802_3_TO_ETHII", None); ("IPA_HDR_PROC_802_3_TO_802_3", None);
  ("IPA_HDR_PROC_L2TP_HEADER_ADD", None); ("IPA_HDR_PROC_L2TP_HEADER_REMOVE", None);
  ("IPA_HDR_PROC_ETHII_TO_ETHII_EX", None); ("IPA_HDR_PROC_L2TP_UDP_HEADER_ADD", None);
  ("IPA_HDR_PROC_L2TP_UDP_HEADER_REMOVE", None); ("IPA_HDR_PROC_SET_DSCP", None);
  ("IPA_HDR_PROC_EoGRE_HEADER_ADD", None); ("IPA_HDR_PROC_EoGRE_HEADER_REMOVE", None);
  ("IPA_HDR_PROC_WWAN_TO_ETHII_EX", None)].

Definition ipa_l2tp_tunnel_type_enum : enumeration := [
  ("IPA_L2TP_TUNNEL_IP", Some (Dec 1)); ("IPA_L2TP_TUNNEL_UDP", Some (Dec 2))].

Definition ipa_peripheral_ep_type_enum : enumeration := [
  ("IPA_DATA_EP_TYP_RESERVED", Some (Dec 0)); ("IPA_DATA_EP_TYP_HSIC", Some (Dec 1));
  ("IPA_DATA_EP_TYP_HSUSB", Some (Dec 2)); ("IPA_DATA_EP_TYP_PCIE", Some (Dec 3));
  ("IPA_DATA_EP_TYP_EMBEDDED", Some (Dec 4)); ("IPA_DATA_EP_TYP_BAM_DMUX", Some (Dec 5));
  ("IPA_DATA_EP_TYP_ETH", None)].

Definition ipa_data_ep_prot_type_enum : enumeration := [
  ("IPA_PROT_RMNET", Some (Dec 0)); ("IPA_PROT_RMNET_CV2X", Some (Dec 1)); ("IPA_PROT_MAX", None)].

Definition ipa_wlan_hdr_attrib_type_enum : enumeration := [
  ("WLAN_HDR_ATTRIB_MAC_ADDR", None); ("WLAN_HDR_ATTRIB_STA_ID", None); ("WLAN_HDR_ATTRIB_TA_PEER_ID", None)].

Definition ipacm_client_enum_enum : enumeration := [
  ("IPACM_CLIENT_USB", Some (Dec 1)); ("IPACM_CLIENT_WLAN", None); ("IPACM_CLIENT_MAX", None)].

Definition ipacm_per_client_device_type_enum : enumeration := [
  ("IPACM_CLIENT_DEVICE_TYPE_USB", Some (Dec 0)); ("IPACM_CLIENT_DEVICE_TYPE_WLAN", Some (Dec 1));
  ("IPACM_CLIENT_DEVICE_TYPE_ETH", Some (Dec 2)); ("IPACM_CLIENT_DEVICE_TYPE_ODU", Some (Dec 3));
  ("IPACM_CLIENT_DEVICE_MAX", None)].

Definition ipa_vlan_ifaces_enum : enumeration := [
  ("IPA_VLAN_IF_ETH", None); ("IPA_VLAN_IF_RNDIS", None); ("IPA_VLAN_IF_ECM", None); ("IPA_VLAN_IF_WLAN", None)].

Definition ipacm_hw_index_counter_type_enum : enumeration := [
  ("UL_HW", Some (Dec 0)); ("DL_HW", None); ("DL_ALL", None); ("UL_ALL", None)].

Definition ipacm_hw_index_counter_virtual_type_enum : enumeration := [
  ("UL_HW_CACHE", Some (Dec 0)); ("DL_HW_CACHE", None); ("UL_WLAN_TX", None); ("DL_WLAN_TX", None)].

Definition ipa_ext_router_mode_enum : enumeration := [
  ("IPA_PREFIX_DISABLED", Some (Dec 0)); ("IPA_PREFIX_SHARING", None); ("IPA_PREFIX_DELEGATION", None)].

Definition teth_link_protocol_type_enum : enumeration := [
  ("TETH_LINK_PROTOCOL_IP", None); ("TETH_LINK_PROTOCOL_ETHERNET", None); ("TETH_LINK_PROTOCOL_MAX", None)].

Definition teth_aggr_protocol_type_enum : enumeration := [
  ("TETH_AGGR_PROTOCOL_NONE", None); ("TETH_AGGR_PROTOCOL_MBIM", None); ("TETH_AGGR_PROTOCOL_TLP", None);
  ("TETH_AGGR_PROTOCOL_MAX", None)].

Definition ipa_app_clock_vote_type_enum : enumeration := [
  ("IPA_APP_CLK_DEVOTE", Some (Dec 0)); ("IPA_APP_CLK_VOTE", Some (Dec 1));
  ("IPA_APP_CLK_RESET_VOTE", Some (Dec 2))].

Definition odu_bridge_mode_enum : enumeration := [
  ("ODU_BRIDGE_MODE_ROUTER", None); ("ODU_BRIDGE_MODE_BRIDGE", None); ("ODU_BRIDGE_MODE_MAX", None)].

Definition header : header := Header "include/linux/msm_ipa.h" [
  IPAHAL_NAT_INVALID_PROTOCOL_defs; QMI_IPA_MAX_CLIENT_DST_PIPES_defs; IPA_FLT_defs; IPA_FLT_EXT_defs;
  IPA_defs; IPA_CLIENT_defs; IPA_RULE_TYPE_MAX_def; IPA_HW_defs; IPA_HDR_L2_defs; IPA_HDR_PROC_MAX_def;
  IPA_L2TP_TUNNEL_UDP_def; QUERY_MAX_EP_PAIRS_defs; WLAN_HDR_ATTRIB_TA_PEER_ID_def; IPA_defs2;
  IPACM_MAX_CLIENT_DEVICE_TYPES_def; IPA_VLAN_IF_defs] [
  ipa_client_type_enum2; ipa_rule_type_enum; ipa_flt_action_enum; ipa_hw_type_enum; ipa_hdr_l2_type_enum;
  ipa_hdr_proc_type_enum; ipa_l2tp_tunnel_type_enum; ipa_peripheral_ep_type_enum; ipa_data_ep_prot_type_enum;
  ipa_wlan_hdr_attrib_type_enum; ipacm_client_enum_enum; ipacm_per_client_device_type_enum;
  ipa_vlan_ifaces_enum; ipacm_hw_index_counter_type_enum; ipacm_hw_index_counter_virtual_type_enum;
  ipa_ext_router_mode_enum; teth_link_protocol_type_enum; teth_aggr_protocol_type_enum;
  ipa_app_clock_vote_type_enum; odu_bridge_mode_enum] [].

End Msm_ipa.

(** [include/linux/msm_rmnet.h] *)

Module Msm_rmnet.

Definition RMNET_MODE_defs : defines := [
  ("RMNET_MODE_NONE", Hex 0x00); ("RMNET_MODE_LLP_ETH", Hex 0x01); ("RMNET_MODE_LLP_IP", Hex 0x02);
  ("RMNET_MODE_QOS", Hex 0x04);
  ("RMNET_MODE_MASK", Bin BOr (Bin BOr (Ref "RMNET_MODE_LLP_ETH") (Ref "RMNET_MODE_LLP_IP")) (Ref "RMNET_MODE_QOS"))].

Definition RMNET_IOCTL_defs : defines := [
  ("RMNET_IOCTL_SET_LLP_ETHERNET", Hex 0x000089f1); ("RMNET_IOCTL_SET_LLP_IP", Hex 0x000089f2);
  ("RMNET_IOCTL_GET_LLP", Hex 0x000089f3); ("RMNET_IOCTL_SET_QOS_ENABLE", Hex 0x000089f4);
  ("RMNET_IOCTL_SET_QOS_DISABLE", Hex 0x000089f5); ("RMNET_IOCTL_GET_QOS", Hex 0x000089f6);
  ("RMNET_IOCTL_GET_OPMODE", Hex 0x000089f7); ("RMNET_IOCTL_OPEN", Hex 0x000089f8);
  ("RMNET_IOCTL_CLOSE", Hex 0x000089f9); ("RMNET_IOCTL_FLOW_ENABLE", Hex 0x000089fa);
  ("RMNET_IOCTL_FLOW_DISABLE", Hex 0x000089fb); ("RMNET_IOCTL_FLOW_SET_HNDL", Hex 0x000089fc);
  ("RMNET_IOCTL_EXTENDED", Hex 0x000089fd); ("RMNET_IOCTL_EXTENDED_V2", Hex 0x000089fe);
  ("RMNET_IOCTL_GET_SUPPORTED_FEATURES", Hex 0x0000); ("RMNET_IOCTL_SET_MRU", Hex 0x0001);
  ("RMNET_IOCTL_GET_MRU", Hex 0x0002); ("RMNET_IOCTL_GET_EPID", Hex 0x0003);
  ("RMNET_IOCTL_GET_DRIVER_NAME", Hex 0x0004); ("RMNET_IOCTL_ADD_MUX_CHANNEL", Hex 0x0005);
  ("RMNET_IOCTL_SET_EGRESS_DATA_FORMAT", Hex 0x0006); ("RMNET_IOCTL_SET_INGRESS_DATA_FORMAT", Hex 0x0007);
  ("RMNET_IOCTL_SET_AGGREGATION_COUNT", Hex 0x0008); ("RMNET_IOCTL_GET_AGGREGATION_COUNT", Hex 0x0009);
  ("RMNET_IOCTL_SET_AGGREGATION_SIZE", Hex 0x000a); ("RMNET_IOCTL_GET_AGGREGATION_SIZE", Hex 0x000b);
  ("RMNET_IOCTL_FLOW_CONTROL", Hex 0x000c); ("RMNET_IOCTL_GET_DFLT_CONTROL_CHANNEL", Hex 0x000d);
  ("RMNET_IOCTL_GET_HWSW_MAP", Hex 0x000e); ("RMNET_IOCTL_SET_RX_HEADROOM", Hex 0x000f);
  ("RMNET_IOCTL_GET_EP_PAIR", Hex 0x0010); ("RMNET_IOCTL_SET_QOS_VERSION", Hex 0x0011);
  ("RMNET_IOCTL_GET_QOS_VERSION", Hex 0x0012); ("RMNET_IOCTL_GET_SUPPORTED_QOS_MODES", Hex 0x0013);
  ("RMNET_IOCTL_SET_SLEEP_STATE", Hex 0x0014); ("RMNET_IOCTL_SET_XLAT_DEV_INFO", Hex 0x0015);
  ("RMNET_IOCTL_DEREGISTER_DEV", Hex 0x0016); ("RMNET_IOCTL_GET_SG_SUPPORT", Hex 0x0017);
  ("RMNET_IOCTL_SET_OFFLOAD", Hex 0x0018); ("RMNET_IOCTL_GET_MTU", Hex 0x0019);
  ("RMNET_IOCTL_SET_MTU", Hex 0x0020); ("RMNET_IOCTL_GET_EPID_LL", Hex 0x0021);
  ("RMNET_IOCTL_GET_EP_PAIR_LL", Hex 0x0022); ("RMNET_IOCTL_SET_ETH_VLAN", Hex 0x0023);
  ("RMNET_IOCTL_ADD_MUX_CHANNEL_v2", Hex 0x0024); ("RMNET_IOCTL_GET_EPID_ETH", Hex 0x0025);
  ("RMNET_IOCTL_GET_EP_PAIR_ETH", Hex 0x0026); ("RMNET_IOCTL_SET_EGRESS_DATA_FORMAT_V2", Hex 0x0000);
  ("RMNET_IOCTL_SET_INGRESS_DATA_FORMAT_V2", Hex 0x0001)].

Definition RMNET_IOCTL_FEAT_defs : defines := [
  ("RMNET_IOCTL_FEAT_NOTIFY_MUX_CHANNEL", Bin BShl (Dec 1) (Dec 0));
  ("RMNET_IOCTL_FEAT_SET_EGRESS_DATA_FORMAT", Bin BShl (Dec 1) (Dec 1));
  ("RMNET_IOCTL_FEAT_SET_INGRESS_DATA_FORMAT", Bin BShl (Dec 1) (Dec 2));
  ("RMNET_IOCTL_FEAT_SET_AGGREGATION_COUNT", Bin BShl (Dec 1) (Dec 3));
  ("RMNET_IOCTL_FEAT_GET_AGGREGATION_COUNT", Bin BShl (Dec 1) (Dec 4));
  ("RMNET_IOCTL_FEAT_SET_AGGREGATION_SIZE", Bin BShl (Dec 1) (Dec 5));
  ("RMNET_IOCTL_FEAT_GET_AGGREGATION_SIZE", Bin BShl (Dec 1) (Dec 6));
  ("RMNET_IOCTL_FEAT_FLOW_CONTROL", Bin BShl (Dec 1) (Dec 7));
  ("RMNET_IOCTL_FEAT_GET_DFLT_CONTROL_CHANNEL", Bin BShl (Dec 1) (Dec 8));
  ("RMNET_IOCTL_FEAT_GET_HWSW_MAP", Bin BShl (Dec 1) (Dec 9));
  ("RMNET_IOCTL_FEAT_ETH_PDU", Bin BShl (Dec 1) (Dec 10))].

Definition RMNET_IOCTL_EGRESS_FORMAT_MAP_defs : defines := [
  ("RMNET_IOCTL_EGRESS_FORMAT_MAP", Bin BShl (Dec 1) (Dec 1));
  ("RMNET_IOCTL_EGRESS_FORMAT_AGGREGATION", Bin BShl (Dec 1) (Dec 2));
  ("RMNET_IOCTL_EGRESS_FORMAT_MUXING", Bin BShl (Dec 1) (Dec 3));
  ("RMNET_IOCTL_EGRESS_FORMAT_CHECKSUM", Bin BShl (Dec 1) (Dec 4));
  ("RMNET_IOCTL_EGRESS_FORMAT_IP_ROUTE", Bin BShl (Dec 1) (Dec 5));
  ("RMNET_IOCTL_INGRESS_FORMAT_MAP", Bin BShl (Dec 1) (Dec 1));
  ("RMNET_IOCTL_INGRESS_FORMAT_DEAGGREGATION", Bin BShl (Dec 1) (Dec 2));
  ("RMNET_IOCTL_INGRESS_FORMAT_DEMUXING", Bin BShl (Dec 1) (Dec 3));
  ("RMNET_IOCTL_INGRESS_FORMAT_CHECKSUM", Bin BShl (Dec 1) (Dec 4));
  ("RMNET_IOCTL_INGRESS_FORMAT_AGG_DATA", Bin BShl (Dec 1) (Dec 5));
  ("RMNET_IOCTL_INGRESS_FORMAT_IP_ROUTE", Bin BShl (Dec 1) (Dec 6));
  ("RMNET_IOCTL_OFFLOAD_FORMAT_NONE", Dec 0); ("RMNET_IOCTL_COALESCING_FORMAT_TCP", Bin BShl (Dec 1) (Dec 0));
  ("RMNET_IOCTL_COALESCING_FORMAT_UDP", Bin BShl (Dec 1) (Dec 1)); ("IFNAMSIZ", Dec 16)].

Definition RMNET_IOCTL_QOS_MODE_defs : defines := [
  ("RMNET_IOCTL_QOS_MODE_6", Bin BShl (Dec 1) (Dec 0)); ("RMNET_IOCTL_QOS_MODE_8", Bin BShl (Dec 1) (Dec 1))].

Definition rmnet_egress_ep_type_enum : enumeration := [
  ("RMNET_EGRESS_DEFAULT", Some (Hex 0x0000)); ("RMNET_EGRESS_LOW_LAT_CTRL", Some (Hex 0x0001));
  ("RMNET_EGRESS_LOW_LAT_DATA", Some (Hex 0x0002)); ("RMNET_EGRESS_ETH_DATA", Some (Hex 0x0003));
  ("RMNET_EGRESS_MAX", Some (Hex 0x0004))].

Definition rmnet_ingress_ep_type_enum : enumeration := [
  ("RMNET_INGRESS_COALS", Some (Hex 0x0000)); ("RMNET_INGRESS_DEFAULT", Some (Hex 0x0001));
  ("RMNET_INGRESS_LOW_LAT_CTRL", Some (Hex 0x0002)); ("RMNET_INGRESS_LOW_LAT_DATA", Some (Hex 0x0003));
  ("RMNET_INGRESS_MAX", Some (Hex 0x0004))].

Definition rmnet_egress_ingress_pipe_setup_status_enum : enumeration := [
  ("IPA_PIPE_SETUP_SUCCESS", Some (Hex 0x0000)); ("IPA_PIPE_SETUP_FAILURE", Some (Hex 0x0001));
  ("IPA_PIPE_SETUP_EXISTS", Some (Hex 0x0002))].

Definition header : header := Header "include/linux/msm_rmnet.h" [
  RMNET_MODE_defs; RMNET_IOCTL_defs; RMNET_IOCTL_FEAT_defs; RMNET_IOCTL_EGRESS_FORMAT_MAP_defs;
  RMNET_IOCTL_QOS_MODE_defs] [
  rmnet_egress_ep_type_enum; rmnet_ingress_ep_type_enum; rmnet_egress_ingress_pipe_setup_status_enum] [].

End Msm_rmnet.

(** [include/linux/rmnet_data.h] *)

Module Rmnet_data.

Definition RMNET_LOCAL_LOGICAL_ENDPOINT_def : defines := [
  ("RMNET_LOCAL_LOGICAL_ENDPOINT", Un Neg (Dec 1))].

Definition RMNET_EGRESS_FORMAT_defs : defines := [
  ("RMNET_EGRESS_FORMAT__RESERVED__", Bin BShl (Dec 1) (Dec 0));
  ("RMNET_EGRESS_FORMAT_MAP", Bin BShl (Dec 1) (Dec 1));
  ("RMNET_EGRESS_FORMAT_AGGREGATION", Bin BShl (Dec 1) (Dec 2));
  ("RMNET_EGRESS_FORMAT_MUXING", Bin BShl (Dec 1) (Dec 3));
  ("RMNET_EGRESS_FORMAT_MAP_CKSUMV3", Bin BShl (Dec 1) (Dec 4));
  ("RMNET_EGRESS_FORMAT_MAP_CKSUMV4", Bin BShl (Dec 1) (Dec 5))].

Definition RMNET_INGRESS_defs : defines := [
  ("RMNET_INGRESS_FIX_ETHERNET", Bin BShl (Dec 1) (Dec 0));
  ("RMNET_INGRESS_FORMAT_MAP", Bin BShl (Dec 1) (Dec 1));
  ("RMNET_INGRESS_FORMAT_DEAGGREGATION", Bin BShl (Dec 1) (Dec 2));
  ("RMNET_INGRESS_FORMAT_DEMUXING", Bin BShl (Dec 1) (Dec 3));
  ("RMNET_INGRESS_FORMAT_MAP_COMMANDS", Bin BShl (Dec 1) (Dec 4));
  ("RMNET_INGRESS_FORMAT_MAP_CKSUMV3", Bin BShl (Dec 1) (Dec 5));
  ("RMNET_INGRESS_FORMAT_MAP_CKSUMV4", Bin BShl (Dec 1) (Dec 6))].

Definition RMNET_NETLINK_defs : defines := [
  ("RMNET_NETLINK_PROTO", Dec 31); ("RMNET_NETLINK_MSG_COMMAND", Dec 0);
  ("RMNET_NETLINK_MSG_RETURNCODE", Dec 1); ("RMNET_NETLINK_MSG_RETURNDATA", Dec 2)].

Definition RMNET_NETLINK_NEW_VND_WITH_NAME_def : defines := [
  ("RMNET_NETLINK_NEW_VND_WITH_NAME", Ref "RMNET_NETLINK_NEW_VND_WITH_NAME")].

Definition rmnet_netlink_message_types_e_enum : enumeration := [
  ("RMNET_NETLINK_ASSOCIATE_NETWORK_DEVICE", None); ("RMNET_NETLINK_UNASSOCIATE_NETWORK_DEVICE", None);
  ("RMNET_NETLINK_GET_NETWORK_DEVICE_ASSOCIATED", None); ("RMNET_NETLINK_SET_LINK_EGRESS_DATA_FORMAT", None);
  ("RMNET_NETLINK_GET_LINK_EGRESS_DATA_FORMAT", None); ("RMNET_NETLINK_SET_LINK_INGRESS_DATA_FORMAT", None);
  ("RMNET_NETLINK_GET_LINK_INGRESS_DATA_FORMAT", None); ("RMNET_NETLINK_SET_LOGICAL_EP_CONFIG", None);
  ("RMNET_NETLINK_UNSET_LOGICAL_EP_CONFIG", None); ("RMNET_NETLINK_GET_LOGICAL_EP_CONFIG", None);
  ("RMNET_NETLINK_NEW_VND", None); ("RMNET_NETLINK_NEW_VND_WITH_PREFIX", None);
  ("RMNET_NETLINK_GET_VND_NAME", None); ("RMNET_NETLINK_FREE_VND", None);
  ("RMNET_NETLINK_ADD_VND_TC_FLOW", None); ("RMNET_NETLINK_DEL_VND_TC_FLOW", None);
  ("RMNET_NETLINK_NEW_VND_WITH_NAME", None)].

Definition rmnet_config_endpoint_modes_e_enum : enumeration := [
  ("RMNET_EPMODE_NONE", None); ("RMNET_EPMODE_VND", None); ("RMNET_EPMODE_BRIDGE", None);
  ("RMNET_EPMODE_LENGTH", None)].

Definition rmnet_config_return_codes_e_enum : enumeration := [
  ("RMNET_CONFIG_OK", None); ("RMNET_CONFIG_UNKNOWN_MESSAGE", None); ("RMNET_CONFIG_UNKNOWN_ERROR", None);
  ("RMNET_CONFIG_NOMEM", None); ("RMNET_CONFIG_DEVICE_IN_USE", None); ("RMNET_CONFIG_INVALID_REQUEST", None);
  ("RMNET_CONFIG_NO_SUCH_DEVICE", None); ("RMNET_CONFIG_BAD_ARGUMENTS", None);
  ("RMNET_CONFIG_BAD_EGRESS_DEVICE", None); ("RMNET_CONFIG_TC_HANDLE_FULL", None)].

Definition header : header := Header "include/linux/rmnet_data.h" [
  RMNET_LOCAL_LOGICAL_ENDPOINT_def; RMNET_EGRESS_FORMAT_defs; RMNET_INGRESS_defs; RMNET_NETLINK_defs;
  RMNET_NETLINK_NEW_VND_WITH_NAME_def] [
  rmnet_netlink_message_types_e_enum; rmnet_config_endpoint_modes_e_enum; rmnet_config_return_codes_e_enum] [].

End Rmnet_data.

(** [include/linux/rmnet_ipa_fd_ioctl.h] *)

Module Rmnet_ipa_fd_ioctl.

Definition IFNAMSIZ_def : defines := [
  ("IFNAMSIZ", Dec 16)].

Definition header : header := Header "include/linux/rmnet_ipa_fd_ioctl.h" [
  IFNAMSIZ_def] [
] [].

End Rmnet_ipa_fd_ioctl.

(** [include/linux/sdla.h] *)

Module Sdla.

Definition SDLA_defs : defines := [
  ("SDLA_S502A", Dec 5020); ("SDLA_S502E", Dec 5021); ("SDLA_S503", Dec 5030); ("SDLA_S507", Dec 5070);
  ("SDLA_S508", Dec 5080); ("SDLA_S509", Dec 5090); ("SDLA_UNKNOWN", Un Neg (Dec 1));
  ("SDLA_S508_PORT_V35", Hex 0x00); ("SDLA_S508_PORT_RS232", Hex 0x02); ("SDLA_CPU_3M", Hex 0x00);
  ("SDLA_CPU_5M", Hex 0x01); ("SDLA_CPU_7M", Hex 0x02); ("SDLA_CPU_8M", Hex 0x03); ("SDLA_CPU_10M", Hex 0x04);
  ("SDLA_CPU_16M", Hex 0x05); ("SDLA_CPU_12M", Hex 0x06);
  ("SDLA_IDENTIFY", Bin BAdd (Ref "FRAD_LAST_IOCTL") (Dec 1));
  ("SDLA_CPUSPEED", Bin BAdd (Ref "FRAD_LAST_IOCTL") (Dec 2));
  ("SDLA_PROTOCOL", Bin BAdd (Ref "FRAD_LAST_IOCTL") (Dec 3));
  ("SDLA_CLEARMEM", Bin BAdd (Ref "FRAD_LAST_IOCTL") (Dec 4));
  ("SDLA_WRITEMEM", Bin BAdd (Ref "FRAD_LAST_IOCTL") (Dec 5));
  ("SDLA_READMEM", Bin BAdd (Ref "FRAD_LAST_IOCTL") (Dec 6))].

Definition SDLA_defs2 : defines := [
  ("SDLA_START", Bin BAdd (Ref "FRAD_LAST_IOCTL") (Dec 7));
  ("SDLA_STOP", Bin BAdd (Ref "FRAD_LAST_IOCTL") (Dec 8)); ("SDLA_NMIADDR", Hex 0x0000);
  ("SDLA_CONF_ADDR", Hex 0x0010); ("SDLA_S502A_NMIADDR", Hex 0x0066); ("SDLA_CODE_BASEADDR", Hex 0x0100);
  ("SDLA_WINDOW_SIZE", Hex 0x2000); ("SDLA_ADDR_MASK", Hex 0x1fff); ("SDLA_MAX_DATA", Dec 4080);
  ("SDLA_MAX_MTU", Dec 4072); ("SDLA_MAX_DLCI", Dec 24)].

Definition header : header := Header "include/linux/sdla.h" [
  SDLA_defs; SDLA_defs2] [
] [If_frad.DLCI_defs; If_frad.DLCI_GET_SLAVE_def; If_frad.DLCI_defs2; If_frad.DLCI_VALID_FLAGS_defs; If_frad.FRAD_STATION_defs; If_frad.FRAD_defs; If_frad.FRAD_CLOCK_defs].

End Sdla.

(** [include/linux/wil6210_uapi.h] *)

Module Wil6210_uapi.

Definition WIL_defs : defines := [
  ("WIL_IOCTL_MEMIO", Bin BAdd (Ext "SIOCDEVPRIVATE" []) (Dec 2));
  ("WIL_IOCTL_MEMIO_BLOCK", Bin BAdd (Ext "SIOCDEVPRIVATE" []) (Dec 3)); ("WIL_MMIO_READ", Dec 0);
  ("WIL_MMIO_WRITE", Dec 1); ("WIL_MMIO_OP_MASK", Hex 0xff);
  ("WIL_MMIO_ADDR_LINKER", Bin BShl (Dec 0) (Dec 8)); ("WIL_MMIO_ADDR_AHB", Bin BShl (Dec 1) (Dec 8));
  ("WIL_MMIO_ADDR_BAR", Bin BShl (Dec 2) (Dec 8)); ("WIL_MMIO_ADDR_MASK", Hex 0xff00)].

Definition header : header := Header "include/linux/wil6210_uapi.h" [
  WIL_defs] [
] [].

End Wil6210_uapi.

(** [include/linux/wimax.h] *)

Module Wimax.

Definition WIMAX_GNL_enum : enumeration := [
  ("WIMAX_GNL_VERSION", Some (Hex 1)); ("WIMAX_GNL_ATTR_INVALID", Some (Hex 0x00));
  ("WIMAX_GNL_ATTR_MAX", Some (Dec 10))].

Definition WIMAX_GNL_enum2 : enumeration := [
  ("WIMAX_GNL_OP_MSG_FROM_USER", None); ("WIMAX_GNL_OP_MSG_TO_USER", None); ("WIMAX_GNL_OP_RFKILL", None);
  ("WIMAX_GNL_OP_RESET", None); ("WIMAX_GNL_RE_STATE_CHANGE", None); ("WIMAX_GNL_OP_STATE_GET", None)].

Definition WIMAX_GNL_MSG_enum : enumeration := [
  ("WIMAX_GNL_MSG_IFIDX", Some (Dec 1)); ("WIMAX_GNL_MSG_PIPE_NAME", None); ("WIMAX_GNL_MSG_DATA", None)].

Definition wimax_rf_state_enum : enumeration := [
  ("WIMAX_RF_OFF", Some (Dec 0)); ("WIMAX_RF_ON", Some (Dec 1)); ("WIMAX_RF_QUERY", Some (Dec 2))].

Definition WIMAX_GNL_RFKILL_enum : enumeration := [
  ("WIMAX_GNL_RFKILL_IFIDX", Some (Dec 1)); ("WIMAX_GNL_RFKILL_STATE", None)].

Definition WIMAX_GNL_RESET_enum : enumeration := [
  ("WIMAX_GNL_RESET_IFIDX", Some (Dec 1))].

Definition WIMAX_GNL_STGET_enum : enumeration := [
  ("WIMAX_GNL_STGET_IFIDX", Some (Dec 1))].

Definition WIMAX_GNL_STCH_enum : enumeration := [
  ("WIMAX_GNL_STCH_IFIDX", Some (Dec 1)); ("WIMAX_GNL_STCH_STATE_OLD", None);
  ("WIMAX_GNL_STCH_STATE_NEW", None)].

Definition wimax_st_enum2 : enumeration := [
  ("__WIMAX_ST_NULL", Some (Dec 0)); ("WIMAX_ST_DOWN", None); ("__WIMAX_ST_QUIESCING", None);
  ("WIMAX_ST_UNINITIALIZED", None); ("WIMAX_ST_RADIO_OFF", None); ("WIMAX_ST_READY", None);
  ("WIMAX_ST_SCANNING", None); ("WIMAX_ST_CONNECTING", None); ("WIMAX_ST_CONNECTED", None);
  ("__WIMAX_ST_INVALID", None)].

Definition header : header := Header "include/linux/wimax.h" [
] [
  WIMAX_GNL_enum; WIMAX_GNL_enum2; WIMAX_GNL_MSG_enum; wimax_rf_state_enum; WIMAX_GNL_RFKILL_enum;
  WIMAX_GNL_RESET_enum; WIMAX_GNL_STGET_enum; WIMAX_GNL_STCH_enum; wimax_st_enum2] [].

End Wimax.

(** [include/linux/usb/usb_ctrl_qti.h] *)

Module Usb_ctrl_qti.

Definition MAX_QTI_PKT_SIZE_def : defines := [
  ("MAX_QTI_PKT_SIZE", Dec 2048)].

Definition peripheral_ep_type_enum2 : enumeration := [
  ("DATA_EP_TYPE_RESERVED", Some (Hex 0x0)); ("DATA_EP_TYPE_HSIC", Some (Hex 0x1));
  ("DATA_EP_TYPE_HSUSB", Some (Hex 0x2)); ("DATA_EP_TYPE_PCIE", Some (Hex 0x3));
  ("DATA_EP_TYPE_EMBEDDED", Some (Hex 0x4)); ("DATA_EP_TYPE_BAM_DMUX", Some (Hex 0x5))].

Definition header : header := Header "include/linux/usb/usb_ctrl_qti.h" [
  MAX_QTI_PKT_SIZE_def] [
  peripheral_ep_type_enum2] [].

End Usb_ctrl_qti.

(** [include/linux/wimax/i2400m.h] *)

Module I2400m.

Definition I2400M_PLD_defs : defines := [
  ("I2400M_PLD_SIZE_MASK", Hex 0x00003fff); ("I2400M_PLD_TYPE_SHIFT", Dec 16);
  ("I2400M_PLD_TYPE_MASK", Hex 0x000f0000)].

Definition i2400m_brh_opcode_enum : enumeration := [
  ("I2400M_BRH_READ", Some (Dec 1)); ("I2400M_BRH_WRITE", Some (Dec 2)); ("I2400M_BRH_JUMP", Some (Dec 3));
  ("I2400M_BRH_SIGNED_JUMP", Some (Dec 8)); ("I2400M_BRH_HASH_PAYLOAD_ONLY", Some (Dec 9))].

Definition i2400m_brh_enum : enumeration := [
  ("I2400M_BRH_SIGNATURE", Some (Hex 0xcbbc0000)); ("I2400M_BRH_SIGNATURE_MASK", Some (Hex 0xffff0000));
  ("I2400M_BRH_SIGNATURE_SHIFT", Some (Dec 16)); ("I2400M_BRH_OPCODE_MASK", Some (Hex 0x0000000f));
  ("I2400M_BRH_RESPONSE_MASK", Some (Hex 0x000000f0)); ("I2400M_BRH_RESPONSE_SHIFT", Some (Dec 4));
  ("I2400M_BRH_DIRECT_ACCESS", Some (Hex 0x00000400)); ("I2400M_BRH_RESPONSE_REQUIRED", Some (Hex 0x00000200));
  ("I2400M_BRH_USE_CHECKSUM", Some (Hex 0x00000100))].

Definition i2400m_pt_enum : enumeration := [
  ("I2400M_PT_DATA", Some (Dec 0)); ("I2400M_PT_CTRL", None); ("I2400M_PT_TRACE", None);
  ("I2400M_PT_RESET_WARM", None); ("I2400M_PT_RESET_COLD", None); ("I2400M_PT_EDATA", None);
  ("I2400M_PT_ILLEGAL", None)].

Definition i2400m_cs_enum : enumeration := [
  ("I2400M_CS_IPV4_0", Some (Dec 0)); ("I2400M_CS_IPV4", Some (Dec 2))].

Definition i2400m_ro_enum : enumeration := [
  ("I2400M_RO_NEEDED", Some (Hex 0x01)); ("I2400M_RO_TYPE", Some (Hex 0x03));
  ("I2400M_RO_TYPE_SHIFT", Some (Dec 1)); ("I2400M_RO_CIN", Some (Hex 0x0f));
  ("I2400M_RO_CIN_SHIFT", Some (Dec 4)); ("I2400M_RO_FBN", Some (Hex 0x07ff));
  ("I2400M_RO_FBN_SHIFT", Some (Dec 8)); ("I2400M_RO_SN", Some (Hex 0x07ff));
  ("I2400M_RO_SN_SHIFT", Some (Dec 21))].

Definition i2400m_ro_type_enum : enumeration := [
  ("I2400M_RO_TYPE_RESET", Some (Dec 0)); ("I2400M_RO_TYPE_PACKET", None); ("I2400M_RO_TYPE_WS", None);
  ("I2400M_RO_TYPE_PACKET_WS", None)].

Definition I2400M_enum : enumeration := [
  ("I2400M_PL_ALIGN", Some (Dec 16)); ("I2400M_PL_SIZE_MAX", Some (Hex 0x3eff));
  ("I2400M_MAX_PLS_IN_MSG", Some (Dec 60)); ("I2400M_H2D_PREVIEW_BARKER", Some (Hex 0xcafe900d));
  ("I2400M_COLD_RESET_BARKER", Some (Hex 0xc01dc01d)); ("I2400M_WARM_RESET_BARKER", Some (Hex 0x50f750f7));
  ("I2400M_NBOOT_BARKER", Some (Hex 0xdeadbeef)); ("I2400M_SBOOT_BARKER", Some (Hex 0x0ff1c1a1));
  ("I2400M_SBOOT_BARKER_6050", Some (Hex 0x80000001)); ("I2400M_ACK_BARKER", Some (Hex 0xfeedbabe));
  ("I2400M_D2H_MSG_BARKER", Some (Hex 0xbeefbabe))].

Definition I2400M_L3L4_enum : enumeration := [
  ("I2400M_L3L4_VERSION", Some (Hex 0x0100))].

Definition i2400m_mt_enum : enumeration := [
  ("I2400M_MT_RESERVED", Some (Hex 0x0000)); ("I2400M_MT_INVALID", Some (Hex 0xffff));
  ("I2400M_MT_REPORT_MASK", Some (Hex 0x8000)); ("I2400M_MT_GET_SCAN_RESULT", Some (Hex 0x4202));
  ("I2400M_MT_SET_SCAN_PARAM", Some (Hex 0x4402)); ("I2400M_MT_CMD_RF_CONTROL", Some (Hex 0x4602));
  ("I2400M_MT_CMD_SCAN", Some (Hex 0x4603)); ("I2400M_MT_CMD_CONNECT", Some (Hex 0x4604));
  ("I2400M_MT_CMD_DISCONNECT", Some (Hex 0x4605)); ("I2400M_MT_CMD_EXIT_IDLE", Some (Hex 0x4606));
  ("I2400M_MT_GET_LM_VERSION", Some (Hex 0x5201)); ("I2400M_MT_GET_DEVICE_INFO", Some (Hex 0x5202));
  ("I2400M_MT_GET_LINK_STATUS", Some (Hex 0x5203)); ("I2400M_MT_GET_STATISTICS", Some (Hex 0x5204));
  ("I2400M_MT_GET_STATE", Some (Hex 0x5205)); ("I2400M_MT_GET_MEDIA_STATUS", Some (Hex 0x5206));
  ("I2400M_MT_SET_INIT_CONFIG", Some (Hex 0x5404)); ("I2400M_MT_CMD_INIT", Some (Hex 0x5601));
  ("I2400M_MT_CMD_TERMINATE", Some (Hex 0x5602)); ("I2400M_MT_CMD_MODE_OF_OP", Some (Hex 0x5603));
  ("I2400M_MT_CMD_RESET_DEVICE", Some (Hex 0x5604)); ("I2400M_MT_CMD_MONITOR_CONTROL", Some (Hex 0x5605));
  ("I2400M_MT_CMD_ENTER_POWERSAVE", Some (Hex 0x5606));
  ("I2400M_MT_GET_TLS_OPERATION_RESULT", Some (Hex 0x6201)); ("I2400M_MT_SET_EAP_SUCCESS", Some (Hex 0x6402));
  ("I2400M_MT_SET_EAP_FAIL", Some (Hex 0x6403)); ("I2400M_MT_SET_EAP_KEY", Some (Hex 0x6404));
  ("I2400M_MT_CMD_SEND_EAP_RESPONSE", Some (Hex 0x6602)); ("I2400M_MT_REPORT_SCAN_RESULT", Some (Hex 0xc002));
  ("I2400M_MT_REPORT_STATE", Some (Hex 0xd002)); ("I2400M_MT_REPORT_POWERSAVE_READY", Some (Hex 0xd005));
  ("I2400M_MT_REPORT_EAP_REQUEST", Some (Hex 0xe002)); ("I2400M_MT_REPORT_EAP_RESTART", Some (Hex 0xe003));
  ("I2400M_MT_REPORT_ALT_ACCEPT", Some (Hex 0xe004)); ("I2400M_MT_REPORT_KEY_REQUEST", Some (Hex 0xe005))].

Definition i2400m_ms_enum : enumeration := [
  ("I2400M_MS_DONE_OK", Some (Dec 0)); ("I2400M_MS_DONE_IN_PROGRESS", Some (Dec 1));
  ("I2400M_MS_INVALID_OP", Some (Dec 2)); ("I2400M_MS_BAD_STATE", Some (Dec 3));
  ("I2400M_MS_ILLEGAL_VALUE", Some (Dec 4)); ("I2400M_MS_MISSING_PARAMS", Some (Dec 5));
  ("I2400M_MS_VERSION_ERROR", Some (Dec 6)); ("I2400M_MS_ACCESSIBILITY_ERROR", Some (Dec 7));
  ("I2400M_MS_BUSY", Some (Dec 8)); ("I2400M_MS_CORRUPTED_TLV", Some (Dec 9));
  ("I2400M_MS_UNINITIALIZED", Some (Dec 10)); ("I2400M_MS_UNKNOWN_ERROR", Some (Dec 11));
  ("I2400M_MS_PRODUCTION_ERROR", Some (Dec 12)); ("I2400M_MS_NO_RF", Some (Dec 13));
  ("I2400M_MS_NOT_READY_FOR_POWERSAVE", Some (Dec 14)); ("I2400M_MS_THERMAL_CRITICAL", Some (Dec 15));
  ("I2400M_MS_MAX", None)].

Definition i2400m_tlv_enum : enumeration := [
  ("I2400M_TLV_L4_MESSAGE_VERSIONS", Some (Dec 129)); ("I2400M_TLV_SYSTEM_STATE", Some (Dec 141));
  ("I2400M_TLV_MEDIA_STATUS", Some (Dec 161)); ("I2400M_TLV_RF_OPERATION", Some (Dec 162));
  ("I2400M_TLV_RF_STATUS", Some (Dec 163)); ("I2400M_TLV_DEVICE_RESET_TYPE", Some (Dec 132));
  ("I2400M_TLV_CONFIG_IDLE_PARAMETERS", Some (Dec 601)); ("I2400M_TLV_CONFIG_IDLE_TIMEOUT", Some (Dec 611));
  ("I2400M_TLV_CONFIG_D2H_DATA_FORMAT", Some (Dec 614)); ("I2400M_TLV_CONFIG_DL_HOST_REORDER", Some (Dec 615))].

Definition i2400m_system_state_enum : enumeration := [
  ("I2400M_SS_UNINITIALIZED", Some (Dec 1)); ("I2400M_SS_INIT", None); ("I2400M_SS_READY", None);
  ("I2400M_SS_SCAN", None); ("I2400M_SS_STANDBY", None); ("I2400M_SS_CONNECTING", None);
  ("I2400M_SS_WIMAX_CONNECTED", None); ("I2400M_SS_DATA_PATH_CONNECTED", None); ("I2400M_SS_IDLE", None);
  ("I2400M_SS_DISCONNECTING", None); ("I2400M_SS_OUT_OF_ZONE", None); ("I2400M_SS_SLEEPACTIVE", None);
  ("I2400M_SS_PRODUCTION", None); ("I2400M_SS_CONFIG", None); ("I2400M_SS_RF_OFF", None);
  ("I2400M_SS_RF_SHUTDOWN", None); ("I2400M_SS_DEVICE_DISCONNECT", None); ("I2400M_SS_MAX", None)].

Definition i2400m_rf_switch_status_enum : enumeration := [
  ("I2400M_RF_SWITCH_ON", Some (Dec 1)); ("I2400M_RF_SWITCH_OFF", Some (Dec 2))].

Definition i2400m_rf_operation_enum : enumeration := [
  ("i2400m_rf_operation_on", Some (Dec 1)); ("i2400m_rf_operation_off", Some (Dec 2))].

Definition i2400m_tlv_reset_type_enum : enumeration := [
  ("I2400M_RESET_TYPE_COLD", Some (Dec 1)); ("I2400M_RESET_TYPE_WARM", None)].

Definition i2400m_media_status_enum : enumeration := [
  ("I2400M_MEDIA_STATUS_LINK_UP", Some (Dec 1)); ("I2400M_MEDIA_STATUS_LINK_DOWN", None);
  ("I2400M_MEDIA_STATUS_LINK_RENEW", None)].

Definition header : header := Header "include/linux/wimax/i2400m.h" [
  I2400M_PLD_defs] [
  i2400m_brh_opcode_enum; i2400m_brh_enum; i2400m_pt_enum; i2400m_cs_enum; i2400m_ro_enum; i2400m_ro_type_enum;
  I2400M_enum; I2400M_L3L4_enum; i2400m_mt_enum; i2400m_ms_enum; i2400m_tlv_enum; i2400m_system_state_enum;
  i2400m_rf_switch_status_enum; i2400m_rf_operation_enum; i2400m_tlv_reset_type_enum; i2400m_media_status_enum] [].

End I2400m.

(** [include/misc/wigig_sensing_uapi.h] *)

Module Wigig_sensing_uapi.

Definition wigig_sensing_mode_enum : enumeration := [
  ("WIGIG_SENSING_MODE_SEARCH", Some (Dec 1)); ("WIGIG_SENSING_MODE_FACIAL_RECOGNITION", Some (Dec 2));
  ("WIGIG_SENSING_MODE_GESTURE_DETECTION", Some (Dec 3)); ("WIGIG_SENSING_MODE_STOP", Some (Dec 7));
  ("WIGIG_SENSING_MODE_CUSTOM", Some (Dec 15))].

Definition wigig_sensing_event_enum : enumeration := [
  ("WIGIG_SENSING_EVENT_MIN", None); ("WIGIG_SENSING_EVENT_FW_READY", None);
  ("WIGIG_SENSING_EVENT_RESET", None); ("WIGIG_SENSING_EVENT_MAX", None)].

Definition header : header := Header "include/misc/wigig_sensing_uapi.h" [
] [
  wigig_sensing_mode_enum; wigig_sensing_event_enum] [].

End Wigig_sensing_uapi.

(** [include/rdma/i40iw-abi.h] *)

Module I40iw_abi.

Definition I40IW_ABI_VER_def : defines := [
  ("I40IW_ABI_VER", Dec 5)].

Definition i40iw_memreg_type_enum : enumeration := [
  ("IW_MEMREG_TYPE_MEM", Some (Hex 0x0000)); ("IW_MEMREG_TYPE_QP", Some (Hex 0x0001));
  ("IW_MEMREG_TYPE_CQ", Some (Hex 0x0002))].

Definition header : header := Header "include/rdma/i40iw-abi.h" [
  I40IW_ABI_VER_def] [
  i40iw_memreg_type_enum] [].

End I40iw_abi.

Definition headers : list header := [
  If_frad.header; Ipa_qmi_service_v01.header; Ipx.header; Mhi.header; Msm_ipa.header; Msm_rmnet.header;
  Rmnet_data.header; Rmnet_ipa_fd_ioctl.header; Sdla.header; Wil6210_uapi.header; Wimax.header;
  Usb_ctrl_qti.header; I2400m.header; Wigig_sensing_uapi.header; I40iw_abi.header].
