(* ===== verification/ConstMisc.v ===== *)
(** * ConstMisc: the macros and enumerations of the remaining headers

    A module per header: a [defines] for each run of macros, an [enumeration] for each
    [enum], with the expressions of the header as they are written; [header] collects them. *)

From S2P Require Import Prelude CLayout CExpr Uapi UapiSecure.

#[local] Open Scope string_scope.
#[local] Open Scope list_scope.
#[local] Open Scope Z_scope.

(** [include/linux/bcache.h] *)

Module Bcache.

Definition BCACHE_JSET_defs : defines := [
  ("BCACHE_JSET_VERSION_UUIDv1", Dec 1); ("BCACHE_JSET_VERSION_UUID", Dec 1); ("BCACHE_JSET_VERSION", Dec 1)].

Definition BCACHE_BSET_defs : defines := [
  ("BCACHE_BSET_CSUM", Dec 1); ("BCACHE_BSET_VERSION", Dec 1)].

Definition header : header := Header "include/linux/bcache.h" [
  BCACHE_JSET_defs; BCACHE_BSET_defs] [
] [].

End Bcache.

(** [include/linux/esoc_ctrl.h] *)

Module Esoc_ctrl.

Definition ESOC_defs : defines := [
  ("ESOC_REQ_SEND_SHUTDOWN", Ref "ESOC_REQ_SEND_SHUTDOWN");
  ("ESOC_REQ_CRASH_SHUTDOWN", Ref "ESOC_REQ_CRASH_SHUTDOWN"); ("ESOC_PON_RETRY", Ref "ESOC_PON_RETRY")].

Definition esoc_client_hook_prio_enum : enumeration := [
  ("ESOC_MHI_HOOK", None); ("ESOC_MAX_HOOKS", None)].

Definition esoc_boot_fail_action_enum : enumeration := [
  ("BOOT_FAIL_ACTION_RETRY", None); ("BOOT_FAIL_ACTION_COLD_RESET", None); ("BOOT_FAIL_ACTION_SHUTDOWN", None);
  ("BOOT_FAIL_ACTION_PANIC", None); ("BOOT_FAIL_ACTION_NOP", None); ("BOOT_FAIL_ACTION_S3_RESET", None);
  ("BOOT_FAIL_ACTION_LAST", None)].

Definition esoc_evt_enum : enumeration := [
  ("ESOC_RUN_STATE", Some (Hex 0x1)); ("ESOC_UNEXPECTED_RESET", None); ("ESOC_ERR_FATAL", None);
  ("ESOC_IN_DEBUG", None); ("ESOC_REQ_ENG_ON", None); ("ESOC_REQ_ENG_OFF", None); ("ESOC_CMD_ENG_ON", None);
  ("ESOC_CMD_ENG_OFF", None); ("ESOC_INVALID_STATE", None); ("ESOC_RETRY_PON_EVT", None);
  ("ESOC_BOOT_STATE", None)].

Definition esoc_cmd_enum : enumeration := [
  ("ESOC_PWR_ON", Some (Dec 1)); ("ESOC_PWR_OFF", None); ("ESOC_FORCE_PWR_OFF", None); ("ESOC_RESET", None);
  ("ESOC_PREPARE_DEBUG", None); ("ESOC_EXE_DEBUG", None); ("ESOC_EXIT_DEBUG", None)].

Definition esoc_notify_enum : enumeration := [
  ("ESOC_IMG_XFER_DONE", Some (Dec 1)); ("ESOC_BOOT_DONE", None); ("ESOC_BOOT_FAIL", None);
  ("ESOC_IMG_XFER_RETRY", None); ("ESOC_IMG_XFER_FAIL", None); ("ESOC_UPGRADE_AVAILABLE", None);
  ("ESOC_DEBUG_DONE", None); ("ESOC_DEBUG_FAIL", None); ("ESOC_PRIMARY_CRASH", None);
  ("ESOC_PRIMARY_REBOOT", None); ("ESOC_PON_RETRY", None)].

Definition esoc_req_enum : enumeration := [
  ("ESOC_REQ_IMG", Some (Dec 1)); ("ESOC_REQ_DEBUG", None); ("ESOC_REQ_SHUTDOWN", None);
  ("ESOC_REQ_SEND_SHUTDOWN", None); ("ESOC_REQ_CRASH_SHUTDOWN", None)].

Definition header : header := Header "include/linux/esoc_ctrl.h" [
  ESOC_defs] [
  esoc_client_hook_prio_enum; esoc_boot_fail_action_enum; esoc_evt_enum; esoc_cmd_enum; esoc_notify_enum;
  esoc_req_enum] [].

End Esoc_ctrl.

(** [include/linux/fips_status.h] *)

Module Fips_status.

Definition fips_status_enum : enumeration := [
  ("FIPS140_STATUS_NA", Some (Dec 0)); ("FIPS140_STATUS_PASS_CRYPTO", Some (Dec 1));
  ("FIPS140_STATUS_QCRYPTO_ALLOWED", Some (Dec 2)); ("FIPS140_STATUS_PASS", Some (Dec 3));
  ("FIPS140_STATUS_FAIL", Some (Hex 0xff))].

Definition header : header := Header "include/linux/fips_status.h" [
] [
  fips_status_enum] [].

End Fips_status.

(** [include/linux/gh_virtio_backend.h] *)

Module Gh_virtio_backend.

Definition VBE_defs : defines := [
  ("VBE_ASSIGN_IOEVENTFD", Dec 1); ("VBE_DEASSIGN_IOEVENTFD", Dec 2); ("VBE_ASSIGN_IRQFD", Dec 1);
  ("VBE_DEASSIGN_IRQFD", Dec 2)].

Definition EVENT_defs : defines := [
  ("EVENT_NEW_BUFFER", Dec 1); ("EVENT_RESET_RQST", Dec 2); ("EVENT_INTERRUPT_ACK", Dec 4);
  ("EVENT_DRIVER_OK", Dec 8); ("EVENT_DRIVER_FAILED", Hex 0x10); ("EVENT_MODULE_EXIT", Hex 0x20);
  ("EVENT_VM_EXIT", Hex 0x40); ("EVENT_APP_EXIT", Hex 0x100)].

Definition header : header := Header "include/linux/gh_virtio_backend.h" [
  VBE_defs; EVENT_defs] [
] [].

End Gh_virtio_backend.

(** [include/linux/helioscom_interface.h] *)

Module Helioscom_interface.

Definition helios_event_type_enum : enumeration := [
  ("HELIOS_BEFORE_POWER_DOWN", Some (Dec 1)); ("HELIOS_AFTER_POWER_DOWN", None);
  ("HELIOS_BEFORE_POWER_UP", None); ("HELIOS_AFTER_POWER_UP", None); ("MODEM_BEFORE_POWER_DOWN", None);
  ("MODEM_AFTER_POWER_UP", None); ("ADSP_BEFORE_POWER_DOWN", None); ("ADSP_AFTER_POWER_UP", None);
  ("TWM_HELIOS_AFTER_POWER_UP", None); ("HELIOS_DSP_ERROR", None); ("HELIOS_DSP_READY", None);
  ("HELIOS_BT_ERROR", None); ("HELIOS_BT_READY", None)].

Definition device_state_transition_enum : enumeration := [
  ("STATE_TWM_ENTER", Some (Dec 1)); ("STATE_TWM_EXIT", None); ("STATE_DS_ENTER", None);
  ("STATE_DS_EXIT", None); ("STATE_S2D_ENTER", None); ("STATE_S2D_EXIT", None)].

Definition header : header := Header "include/linux/helioscom_interface.h" [
] [
  helios_event_type_enum; device_state_transition_enum] [].

End Helioscom_interface.

(** [include/linux/ion.h] *)

Module Ion.

Definition ION_defs : defines := [
  ("ION_NUM_MAX_HEAPS", Dec 32); ("ION_FLAG_CACHED", Dec 1)].

Definition ion_heap_type_enum : enumeration := [
  ("ION_HEAP_TYPE_SYSTEM", Some (Dec 0)); ("ION_HEAP_TYPE_DMA", Some (Dec 2));
  ("ION_HEAP_TYPE_CUSTOM", Some (Dec 16)); ("ION_HEAP_TYPE_MAX", Some (Dec 31))].

Definition ion_heap_id_enum : enumeration := [
  ("ION_HEAP_SYSTEM", Some (Bin BShl (Dec 1) (Ref "ION_HEAP_TYPE_SYSTEM")));
  ("ION_HEAP_DMA_START", Some (Bin BShl (Ref "ION_HEAP_SYSTEM") (Dec 1)));
  ("ION_HEAP_DMA_END", Some (Bin BShl (Ref "ION_HEAP_DMA_START") (Dec 7)));
  ("ION_HEAP_CUSTOM_START", Some (Bin BShl (Ref "ION_HEAP_DMA_END") (Dec 1)));
  ("ION_HEAP_CUSTOM_END", Some (Bin BShl (Ref "ION_HEAP_CUSTOM_START") (Dec 22)))].

Definition header : header := Header "include/linux/ion.h" [
  ION_defs] [
  ion_heap_type_enum; ion_heap_id_enum] [].

End Ion.

(** [include/linux/lightnvm.h] *)

Module Lightnvm.

Definition NVM_VERSION_defs : defines := [
  ("NVM_VERSION_MAJOR", Dec 1); ("NVM_VERSION_MINOR", Dec 0); ("NVM_VERSION_PATCHLEVEL", Dec 0)].

Definition NVM_DEVICE_enum : enumeration := [
  ("NVM_DEVICE_ACTIVE", Some (Bin BShl (Dec 1) (Dec 0)))].

Definition NVM_CONFIG_TYPE_enum : enumeration := [
  ("NVM_CONFIG_TYPE_SIMPLE", Some (Dec 0)); ("NVM_CONFIG_TYPE_EXTENDED", Some (Dec 1))].

Definition NVM_TARGET_enum : enumeration := [
  ("NVM_TARGET_FACTORY", Some (Bin BShl (Dec 1) (Dec 0)))].

Definition NVM_FACTORY_enum : enumeration := [
  ("NVM_FACTORY_ERASE_ONLY_USER", Some (Bin BShl (Dec 1) (Dec 0)));
  ("NVM_FACTORY_RESET_HOST_BLKS", Some (Bin BShl (Dec 1) (Dec 1)));
  ("NVM_FACTORY_RESET_GRWN_BBLKS", Some (Bin BShl (Dec 1) (Dec 2)));
  ("NVM_FACTORY_NR_BITS", Some (Bin BShl (Dec 1) (Dec 3)))].

Definition header : header := Header "include/linux/lightnvm.h" [
  NVM_VERSION_defs] [
  NVM_DEVICE_enum; NVM_CONFIG_TYPE_enum; NVM_TARGET_enum; NVM_FACTORY_enum] [].

End Lightnvm.

(** [include/linux/mem-buf.h] *)

Module Mem_buf.

Definition MEM_BUF_defs : defines := [
  ("MEM_BUF_DMAHEAP_MEM_TYPE", Bin BAdd (Ref "MEM_BUF_ION_MEM_TYPE") (Dec 1));
  ("MEM_BUF_VMID_PRIMARY_VM", Dec 0); ("MEM_BUF_VMID_TRUSTED_VM", Dec 1)].

Definition MEM_BUF_PERM_defs : defines := [
  ("MEM_BUF_PERM_FLAG_READ", Bin BShl (DecU 1) (Dec 0));
  ("MEM_BUF_PERM_FLAG_WRITE", Bin BShl (DecU 1) (Dec 1));
  ("MEM_BUF_PERM_FLAG_EXEC", Bin BShl (DecU 1) (Dec 2));
  ("MEM_BUF_PERM_VALID_FLAGS", Bin BOr (Bin BOr (Ref "MEM_BUF_PERM_FLAG_READ") (Ref "MEM_BUF_PERM_FLAG_WRITE")) (Ref "MEM_BUF_PERM_FLAG_EXEC"))].

Definition MEM_BUF_MAX_NR_ACL_ENTS_def : defines := [
  ("MEM_BUF_MAX_NR_ACL_ENTS", Dec 16)].

Definition MEM_BUF_MAX_DMAHEAP_NAME_LEN_def : defines := [
  ("MEM_BUF_MAX_DMAHEAP_NAME_LEN", Dec 128)].

Definition MEM_BUF_VALID_FD_FLAGS_def : defines := [
  ("MEM_BUF_VALID_FD_FLAGS", Bin BOr (Ext "O_CLOEXEC" []) (Ext "O_ACCMODE" []))].

Definition mem_buf_mem_type_enum : enumeration := [
  ("MEM_BUF_ION_MEM_TYPE", None); ("MEM_BUF_MAX_MEM_TYPE", None)].

Definition header : header := Header "include/linux/mem-buf.h" [
  MEM_BUF_defs; MEM_BUF_PERM_defs; MEM_BUF_MAX_NR_ACL_ENTS_def; MEM_BUF_MAX_DMAHEAP_NAME_LEN_def;
  MEM_BUF_VALID_FD_FLAGS_def] [
  mem_buf_mem_type_enum] [].

End Mem_buf.

(** [include/linux/msm_geni_serial.h] *)

Module Msm_geni_serial.

Definition MSM_GENI_SERIAL_defs : defines := [
  ("MSM_GENI_SERIAL_TIOCFAULT", Hex 0x54ec); ("MSM_GENI_SERIAL_TIOCPMGET", Hex 0x54ed);
  ("MSM_GENI_SERIAL_TIOCPMPUT", Hex 0x54ee); ("MSM_GENI_SERIAL_TIOCPMACT", Hex 0x54ef)].

Definition header : header := Header "include/linux/msm_geni_serial.h" [
  MSM_GENI_SERIAL_defs] [
] [].

End Msm_geni_serial.

(** [include/linux/msm_ion.h] *)

Module Msm_ion.

Definition TARGET_ION_ABI_VERSION_def : defines := [
  ("TARGET_ION_ABI_VERSION", Dec 3)].

Definition ION_FLAG_CP_defs : defines := [
  ("ION_FLAG_CP_TRUSTED_VM", Bin BShl (DecU 1) (Dec 15)); ("ION_FLAG_CP_TOUCH", Bin BShl (DecU 1) (Dec 17));
  ("ION_FLAG_CP_BITSTREAM", Bin BShl (DecU 1) (Dec 18)); ("ION_FLAG_CP_PIXEL", Bin BShl (DecU 1) (Dec 19));
  ("ION_FLAG_CP_NON_PIXEL", Bin BShl (DecU 1) (Dec 20)); ("ION_FLAG_CP_CAMERA", Bin BShl (DecU 1) (Dec 21));
  ("ION_FLAG_CP_HLOS", Bin BShl (DecU 1) (Dec 22)); ("ION_FLAG_CP_SPSS_SP", Bin BShl (DecU 1) (Dec 23));
  ("ION_FLAG_CP_SPSS_SP_SHARED", Bin BShl (DecU 1) (Dec 24));
  ("ION_FLAG_CP_SEC_DISPLAY", Bin BShl (DecU 1) (Dec 25)); ("ION_FLAG_CP_APP", Bin BShl (DecU 1) (Dec 26));
  ("ION_FLAG_CP_CAMERA_PREVIEW", Bin BShl (DecU 1) (Dec 27)); ("ION_FLAG_CP_CDSP", Bin BShl (DecU 1) (Dec 29));
  ("ION_FLAG_CP_SPSS_HLOS_SHARED", Bin BShl (DecU 1) (Dec 30))].

Definition ION_defs2 : defines := [
  ("ION_FLAGS_CP_MASK", Hex 0x6ffe8000); ("ION_FLAG_ALLOW_NON_CONTIG", Bin BShl (DecU 1) (Dec 28));
  ("ION_FLAG_SECURE", Bin BShl (DecU 1) (Dec 31)); ("ION_FLAG_POOL_FORCE_ALLOC", Bin BShl (DecU 1) (Dec 16))].

Definition msm_ion_heap_types_enum : enumeration := [
  ("ION_HEAP_TYPE_MSM_START", Some (Dec 16));
  ("ION_HEAP_TYPE_SECURE_DMA", Some (Ref "ION_HEAP_TYPE_MSM_START")); ("ION_HEAP_TYPE_SYSTEM_SECURE", None);
  ("ION_HEAP_TYPE_HYP_CMA", None); ("ION_HEAP_TYPE_MSM_CARVEOUT", None);
  ("ION_HEAP_TYPE_SECURE_CARVEOUT", None); ("ION_HEAP_TYPE_MSM_SYSTEM", None)].

Definition header : header := Header "include/linux/msm_ion.h" [
  TARGET_ION_ABI_VERSION_def; ION_FLAG_CP_defs; ION_defs2] [
  msm_ion_heap_types_enum] [].

End Msm_ion.

(** [include/linux/msm_ion_ids.h] *)

Module Msm_ion_ids.

Definition ION_defs3 : defines := [
  ("ION_QSECOM_TA_HEAP_ID", Bin BShl (DecU 1) (Dec 1)); ("ION_CAMERA_HEAP_ID", Bin BShl (DecU 1) (Dec 2));
  ("ION_DISPLAY_HEAP_ID", Bin BShl (DecU 1) (Dec 3)); ("ION_ADSP_HEAP_ID", Bin BShl (DecU 1) (Dec 4));
  ("ION_AUDIO_ML_HEAP_ID", Bin BShl (DecU 1) (Dec 5)); ("ION_USER_CONTIG_HEAP_ID", Bin BShl (DecU 1) (Dec 6));
  ("ION_QSECOM_HEAP_ID", Bin BShl (DecU 1) (Dec 7)); ("ION_AUDIO_HEAP_ID", Bin BShl (DecU 1) (Dec 8));
  ("ION_CP_MM_HEAP_ID", Bin BShl (DecU 1) (Dec 9)); ("ION_SECURE_HEAP_ID", Bin BShl (DecU 1) (Dec 10));
  ("ION_SECURE_DISPLAY_HEAP_ID", Bin BShl (DecU 1) (Dec 11)); ("ION_SPSS_HEAP_ID", Bin BShl (DecU 1) (Dec 14));
  ("ION_SECURE_CARVEOUT_HEAP_ID", Bin BShl (DecU 1) (Dec 15));
  ("ION_TUI_CARVEOUT_HEAP_ID", Bin BShl (DecU 1) (Dec 16)); ("ION_SYSTEM_HEAP_ID", Bin BShl (DecU 1) (Dec 25));
  ("ION_HEAP_ID_RESERVED", Bin BShl (DecU 1) (Dec 31))].

Definition header : header := Header "include/linux/msm_ion_ids.h" [
  ION_defs3] [
] [].

End Msm_ion_ids.

(** [include/linux/msm_sysstats.h] *)

Module Msm_sysstats.

Definition SYSSTATS_defs : defines := [
  ("SYSSTATS_GENL_VERSION", Hex 0x2); ("SYSSTATS_TYPE_UNSPEC", Dec 0); ("SYSSTATS_TASK_TYPE_STATS", Dec 1);
  ("SYSSTATS_TYPE_NULL", Dec 2); ("SYSSTATS_TASK_TYPE_FOREACH", Dec 3); ("SYSSTATS_MEMINFO_TYPE_STATS", Dec 4);
  ("SYSSTATS_PID_TYPE_STATS", Dec 5); ("SYSSTATS_CMD_ATTR_UNSPEC", Dec 0);
  ("SYSSTATS_TASK_CMD_ATTR_PID", Dec 1); ("SYSSTATS_TASK_CMD_ATTR_FOREACH", Dec 2);
  ("SYSSTATS_TASK_CMD_ATTR_PIDS_OF_NAME", Dec 3); ("SYSSTATS_CMD_UNSPEC", Dec 0);
  ("SYSSTATS_TASK_CMD_GET", Dec 1); ("SYSSTATS_TASK_CMD_NEW", Dec 2); ("SYSSTATS_MEMINFO_CMD_GET", Dec 3);
  ("SYSSTATS_MEMINFO_CMD_NEW", Dec 4); ("SYSSTATS_PIDS_CMD_GET", Dec 5); ("SYSSTATS_PIDS_CMD_NEW", Dec 6)].

Definition header : header := Header "include/linux/msm_sysstats.h" [
  SYSSTATS_defs] [
] [].

End Msm_sysstats.

(** [include/linux/n_r3964.h] *)

Module N_r3964.

Definition R3964_defs : defines := [
  ("R3964_ENABLE_SIGNALS", Hex 0x5301); ("R3964_SETPRIORITY", Hex 0x5302); ("R3964_USE_BCC", Hex 0x5303);
  ("R3964_READ_TELEGRAM", Hex 0x5304); ("R3964_MASTER", Dec 0); ("R3964_SLAVE", Dec 1);
  ("R3964_SIG_ACK", Hex 0x0001); ("R3964_SIG_DATA", Hex 0x0002); ("R3964_SIG_ALL", Hex 0x000f);
  ("R3964_SIG_NONE", Hex 0x0000); ("R3964_USE_SIGIO", Hex 0x1000)].

Definition R3964_defs2 : defines := [
  ("R3964_MAX_MSG_COUNT", Dec 32); ("R3964_OK", Dec 0); ("R3964_TX_FAIL", Un Neg (Dec 1));
  ("R3964_OVERFLOW", Un Neg (Dec 2))].

Definition R3964_MTU_def : defines := [
  ("R3964_MTU", Dec 256)].

Definition R3964_MSG_enum : enumeration := [
  ("R3964_MSG_ACK", Some (Dec 1)); ("R3964_MSG_DATA", None)].

Definition header : header := Header "include/linux/n_r3964.h" [
  R3964_defs; R3964_defs2; R3964_MTU_def] [
  R3964_MSG_enum] [].

End N_r3964.

(** [include/linux/qbt_handler.h] *)

Module Qbt_handler.

Definition MAX_NAME_SIZE_defs : defines := [
  ("MAX_NAME_SIZE", Dec 32); ("QBT_IS_WUHB_CONNECTED", Dec 100); ("QBT_SEND_KEY_EVENT", Dec 101);
  ("QBT_ENABLE_IPC", Dec 102); ("QBT_DISABLE_IPC", Dec 103); ("QBT_ENABLE_FD", Dec 104);
  ("QBT_DISABLE_FD", Dec 105); ("QBT_CONFIGURE_TOUCH_FD", Dec 106); ("QBT_ACQUIRE_WAKELOCK", Dec 107);
  ("QBT_RELEASE_WAKELOCK", Dec 108); ("QBT_GET_TOUCH_FD_VERSION", Dec 109);
  ("QBT_CONFIGURE_TOUCH_FD_V2", Dec 110); ("QBT_INTR2_TEST", Dec 111); ("QBT_CONFIGURE_TOUCH_FD_V3", Dec 112)].

Definition qbt_finger_events_enum : enumeration := [
  ("QBT_EVENT_FINGER_UP", None); ("QBT_EVENT_FINGER_DOWN", None); ("QBT_EVENT_FINGER_MOVE", None)].

Definition qbt_fw_event_enum : enumeration := [
  ("FW_EVENT_FINGER_DOWN", Some (Dec 1)); ("FW_EVENT_FINGER_UP", Some (Dec 2)); ("FW_EVENT_IPC", Some (Dec 3))].

Definition header : header := Header "include/linux/qbt_handler.h" [
  MAX_NAME_SIZE_defs] [
  qbt_finger_events_enum; qbt_fw_event_enum] [].

End Qbt_handler.

(** [include/linux/qcedev.h] *)

Module Qcedev.

Definition QCEDEV_defs : defines := [
  ("QCEDEV_MAX_SHA_BLOCK_SIZE", Dec 64); ("QCEDEV_MAX_BEARER", Dec 31); ("QCEDEV_USE_PMEM", Dec 1);
  ("QCEDEV_NO_PMEM", Dec 0); ("QCEDEV_AES_KEY_128", Dec 16); ("QCEDEV_AES_KEY_192", Dec 24);
  ("QCEDEV_AES_KEY_256", Dec 32)].

Definition qcedev_oper_enum_enum : enumeration := [
  ("QCEDEV_OPER_DEC", Some (Dec 0)); ("QCEDEV_OPER_ENC", Some (Dec 1));
  ("QCEDEV_OPER_DEC_NO_KEY", Some (Dec 2)); ("QCEDEV_OPER_ENC_NO_KEY", Some (Dec 3));
  ("QCEDEV_OPER_LAST", None)].

Definition qcedev_offload_oper_enum_enum : enumeration := [
  ("QCEDEV_OFFLOAD_HLOS_HLOS", Some (Dec 1)); ("QCEDEV_OFFLOAD_HLOS_CPB", Some (Dec 2));
  ("QCEDEV_OFFLOAD_CPB_HLOS", Some (Dec 3)); ("QCEDEV_OFFLOAD_HLOS_CPB_1", Some (Dec 4));
  ("QCEDEV_OFFLOAD_HLOS_CPB_2", Some (Dec 5)); ("QCEDEV_OFFLOAD_HLOS_CPB_3", Some (Dec 6));
  ("QCEDEV_OFFLOAD_HLOS_CPB_4", Some (Dec 7)); ("QCEDEV_OFFLOAD_OPER_LAST", None)].

Definition qcedev_offload_err_enum_enum : enumeration := [
  ("QCEDEV_OFFLOAD_NO_ERROR", Some (Dec 0)); ("QCEDEV_OFFLOAD_GENERIC_ERROR", Some (Dec 1));
  ("QCEDEV_OFFLOAD_KEY_TIMER_EXPIRED_ERROR", Some (Dec 2)); ("QCEDEV_OFFLOAD_KEY_PAUSE_ERROR", Some (Dec 3))].

Definition qcedev_cipher_alg_enum_enum : enumeration := [
  ("QCEDEV_ALG_DES", Some (Dec 0)); ("QCEDEV_ALG_3DES", Some (Dec 1)); ("QCEDEV_ALG_AES", Some (Dec 2));
  ("QCEDEV_ALG_LAST", None)].

Definition qcedev_cipher_mode_enum_enum : enumeration := [
  ("QCEDEV_AES_MODE_CBC", Some (Dec 0)); ("QCEDEV_AES_MODE_ECB", Some (Dec 1));
  ("QCEDEV_AES_MODE_CTR", Some (Dec 2)); ("QCEDEV_AES_MODE_XTS", Some (Dec 3));
  ("QCEDEV_AES_MODE_CCM", Some (Dec 4)); ("QCEDEV_DES_MODE_CBC", Some (Dec 5));
  ("QCEDEV_DES_MODE_ECB", Some (Dec 6)); ("QCEDEV_AES_DES_MODE_LAST", None)].

Definition qcedev_sha_alg_enum_enum : enumeration := [
  ("QCEDEV_ALG_SHA1", Some (Dec 0)); ("QCEDEV_ALG_SHA256", Some (Dec 1));
  ("QCEDEV_ALG_SHA1_HMAC", Some (Dec 2)); ("QCEDEV_ALG_SHA256_HMAC", Some (Dec 3));
  ("QCEDEV_ALG_AES_CMAC", Some (Dec 4)); ("QCEDEV_ALG_SHA_ALG_LAST", None)].

Definition header : header := Header "include/linux/qcedev.h" [
  QCEDEV_defs] [
  qcedev_oper_enum_enum; qcedev_offload_oper_enum_enum; qcedev_offload_err_enum_enum;
  qcedev_cipher_alg_enum_enum; qcedev_cipher_mode_enum_enum; qcedev_sha_alg_enum_enum] [].

End Qcedev.

(** [include/linux/qcom_sync_file.h] *)

Module Qcom_sync_file.

Definition SPEC_FENCE_SIGNAL_defs : defines := [
  ("SPEC_FENCE_SIGNAL_ANY", Hex 0x1); ("SPEC_FENCE_SIGNAL_ALL", Hex 0x2)].

Definition header : header := Header "include/linux/qcom_sync_file.h" [
  SPEC_FENCE_SIGNAL_defs] [
] [].

End Qcom_sync_file.

(** [include/linux/qcota.h] *)

Module Qcota.

Definition QCE_OTA_MAX_BEARER_def : defines := [
  ("QCE_OTA_MAX_BEARER", Dec 31)].

Definition qce_ota_dir_enum_enum : enumeration := [
  ("QCE_OTA_DIR_UPLINK", Some (Dec 0)); ("QCE_OTA_DIR_DOWNLINK", Some (Dec 1)); ("QCE_OTA_DIR_LAST", None)].

Definition qce_ota_algo_enum_enum : enumeration := [
  ("QCE_OTA_ALGO_KASUMI", Some (Dec 0)); ("QCE_OTA_ALGO_SNOW3G", Some (Dec 1)); ("QCE_OTA_ALGO_LAST", None)].

Definition header : header := Header "include/linux/qcota.h" [
  QCE_OTA_MAX_BEARER_def] [
  qce_ota_dir_enum_enum; qce_ota_algo_enum_enum] [].

End Qcota.

(** [include/linux/qg-profile.h] *)

Module Qg_profile.

Definition QG_defs : defines := [
  ("QG_MIN_SOC", Dec 0); ("QG_MAX_SOC", Dec 10000); ("QG_MIN_OCV_UV", Dec 2000000);
  ("QG_MAX_OCV_UV", Dec 5000000); ("QG_MIN_VAR", Dec 0); ("QG_MAX_VAR", Dec 65535);
  ("QG_MIN_FCC_MAH", Dec 100); ("QG_MAX_FCC_MAH", Dec 16000); ("QG_MIN_SLOPE", Dec 1);
  ("QG_MAX_SLOPE", Dec 50000); ("QG_ESR_SF_MIN", Dec 5000); ("QG_ESR_SF_MAX", Dec 20000)].

Definition profile_table_enum : enumeration := [
  ("TABLE_SOC_OCV1", None); ("TABLE_SOC_OCV2", None); ("TABLE_FCC1", None); ("TABLE_FCC2", None);
  ("TABLE_Z1", None); ("TABLE_Z2", None); ("TABLE_Z3", None); ("TABLE_Z4", None); ("TABLE_Z5", None);
  ("TABLE_Z6", None); ("TABLE_Y1", None); ("TABLE_Y2", None); ("TABLE_Y3", None); ("TABLE_Y4", None);
  ("TABLE_Y5", None); ("TABLE_Y6", None); ("TABLE_MAX", None)].

Definition header : header := Header "include/linux/qg-profile.h" [
  QG_defs] [
  profile_table_enum] [].

End Qg_profile.

(** [include/linux/qg.h] *)

Module Qg.

Definition QG_defs2 : defines := [
  ("QG_BATT_SOC", Ref "QG_BATT_SOC"); ("QG_CC_SOC", Ref "QG_CC_SOC");
  ("QG_ESR_CHARGE_DELTA", Ref "QG_ESR_CHARGE_DELTA"); ("QG_ESR_DISCHARGE_DELTA", Ref "QG_ESR_DISCHARGE_DELTA");
  ("QG_ESR_CHARGE_SF", Ref "QG_ESR_CHARGE_SF"); ("QG_ESR_DISCHARGE_SF", Ref "QG_ESR_DISCHARGE_SF");
  ("QG_FULL_SOC", Ref "QG_FULL_SOC"); ("QG_CLEAR_LEARNT_DATA", Ref "QG_CLEAR_LEARNT_DATA");
  ("QG_SYS_SOC", Ref "QG_SYS_SOC"); ("QG_V_IBAT", Ref "QG_V_IBAT")].

Definition qg_enum : enumeration := [
  ("QG_SOC", None); ("QG_OCV_UV", None); ("QG_RBAT_MOHM", None); ("QG_PON_OCV_UV", None);
  ("QG_GOOD_OCV_UV", None); ("QG_ESR", None); ("QG_CHARGE_COUNTER", None); ("QG_FIFO_TIME_DELTA", None);
  ("QG_BATT_SOC", None); ("QG_CC_SOC", None); ("QG_ESR_CHARGE_DELTA", None); ("QG_ESR_DISCHARGE_DELTA", None);
  ("QG_ESR_CHARGE_SF", None); ("QG_ESR_DISCHARGE_SF", None); ("QG_FULL_SOC", None);
  ("QG_CLEAR_LEARNT_DATA", None); ("QG_SYS_SOC", None); ("QG_V_IBAT", None); ("QG_MAX", None)].

Definition header : header := Header "include/linux/qg.h" [
  QG_defs2] [
  qg_enum] [].

End Qg.

(** [include/linux/qseecom.h] *)

Module Qseecom.

Definition QSEECOM_TA_ION_ALLOCATE_defs : defines := [
  ("QSEECOM_TA_ION_ALLOCATE_DELAY", Dec 50); ("QSEECOM_TA_ION_ALLOCATE_MAX_ATTEMP", Dec 20)].

Definition QSEECOM_SG_LIST_BUF_FORMAT_VERSION_defs : defines := [
  ("QSEECOM_SG_LIST_BUF_FORMAT_VERSION_1", Dec 1); ("QSEECOM_SG_LIST_BUF_FORMAT_VERSION_2", Dec 2)].

Definition QSEECOM_SG_LIST_BUF_HDR_SZ_64BIT_defs : defines := [
  ("QSEECOM_SG_LIST_BUF_HDR_SZ_64BIT", SizeOf (fun _ => struct_qseecom_sg_list_buf_hdr_64bit));
  ("INVALID_CE_INFO_UNIT_NUM", Hex 0xffffffff); ("CE_PIPE_PAIR_USE_TYPE_FDE", Dec 0);
  ("CE_PIPE_PAIR_USE_TYPE_PFE", Dec 1)].

Definition SG_ENTRY_defs : defines := [
  ("SG_ENTRY_SZ", SizeOf (fun _ => struct_qseecom_sg_entry));
  ("SG_ENTRY_SZ_64BIT", SizeOf (fun _ => struct_qseecom_sg_entry_64bit))].

Definition qseecom_key_management_usage_type_enum : enumeration := [
  ("QSEOS_KM_USAGE_DISK_ENCRYPTION", Some (Hex 0x01)); ("QSEOS_KM_USAGE_FILE_ENCRYPTION", Some (Hex 0x02));
  ("QSEOS_KM_USAGE_UFS_ICE_DISK_ENCRYPTION", Some (Hex 0x03));
  ("QSEOS_KM_USAGE_SDCC_ICE_DISK_ENCRYPTION", Some (Hex 0x04)); ("QSEOS_KM_USAGE_MAX", None)].

Definition qseecom_bandwidth_request_mode_enum : enumeration := [
  ("INACTIVE", Some (Dec 0)); ("LOW", None); ("MEDIUM", None); ("HIGH", None)].

Definition header : header := Header "include/linux/qseecom.h" [
  QSEECOM_TA_ION_ALLOCATE_defs; QSEECOM_SG_LIST_BUF_FORMAT_VERSION_defs; QSEECOM_SG_LIST_BUF_HDR_SZ_64BIT_defs;
  SG_ENTRY_defs] [
  qseecom_key_management_usage_type_enum; qseecom_bandwidth_request_mode_enum] [].

End Qseecom.

(** [include/linux/smcinvoke.h] *)

Module Smcinvoke.

Definition SMCINVOKE_USERSPACE_OBJ_NULL_defs : defines := [
  ("SMCINVOKE_USERSPACE_OBJ_NULL", Un Neg (Dec 1)); ("DEFAULT_CB_OBJ_THREAD_CNT", Dec 4)].

Definition SMCINVOKE_LOG_BUF_SIZE_def : defines := [
  ("SMCINVOKE_LOG_BUF_SIZE", Dec 100)].

Definition header : header := Header "include/linux/smcinvoke.h" [
  SMCINVOKE_USERSPACE_OBJ_NULL_defs; SMCINVOKE_LOG_BUF_SIZE_def] [
] [].

End Smcinvoke.

(** [include/linux/spcom.h] *)

Module Spcom.

Definition PAGE_SIZE_defs : defines := [
  ("PAGE_SIZE", Dec 4096); ("SPCOM_MAX_CHANNELS", Hex 0x20);
  ("SPCOM_GET_NEXT_REQUEST_SIZE", Bin BSub (Ref "PAGE_SIZE") (Dec 1))].

Definition SPCOM_CMD_ENABLE_SSR_def : defines := [
  ("SPCOM_CMD_ENABLE_SSR", Ref "SPCOM_CMD_ENABLE_SSR")].

Definition SPCOM_CMD_RESTART_SP_def : defines := [
  ("SPCOM_CMD_RESTART_SP", Ref "SPCOM_CMD_RESTART_SP")].

Definition SPCOM_ION_FD_UNLOCK_ALL_def : defines := [
  ("SPCOM_ION_FD_UNLOCK_ALL", Hex 0xffff)].

Definition SPCOM_DMABUF_FD_UNLOCK_ALL_def : defines := [
  ("SPCOM_DMABUF_FD_UNLOCK_ALL", Hex 0xffff)].

Definition spcom_cmd_id_enum : enumeration := [
  ("SPCOM_CMD_LOAD_APP", Some (Hex 0x4c4f4144)); ("SPCOM_CMD_RESET_SP", Some (Hex 0x52455354));
  ("SPCOM_CMD_SEND", Some (Hex 0x53454e44)); ("SPCOM_CMD_SEND_MODIFIED", Some (Hex 0x534e444d));
  ("SPCOM_CMD_LOCK_ION_BUF", Some (Hex 0x4c4f434b)); ("SPCOM_CMD_UNLOCK_ION_BUF", Some (Hex 0x554c434b));
  ("SPCOM_CMD_FSSR", Some (Hex 0x46535352)); ("SPCOM_CMD_CREATE_CHANNEL", Some (Hex 0x43524554));
  ("SPCOM_CMD_ENABLE_SSR", Some (Hex 0x45535352)); ("SPCOM_CMD_RESTART_SP", Some (Hex 0x52535452))].

Definition spcom_poll_events_enum : enumeration := [
  ("SPCOM_POLL_LINK_STATE", Some (Bin BShl (Dec 1) (Dec 1)));
  ("SPCOM_POLL_CH_CONNECT", Some (Bin BShl (Dec 1) (Dec 2)));
  ("SPCOM_POLL_READY_FLAG", Some (Bin BShl (Dec 1) (Dec 14)));
  ("SPCOM_POLL_WAIT_FLAG", Some (Bin BShl (Dec 1) (Dec 15)))].

Definition spcom_poll_cmd_id_enum : enumeration := [
  ("SPCOM_LINK_STATE_REQ", None); ("SPCOM_CH_CONN_STATE_REQ", None)].

Definition spcom_event_id_enum : enumeration := [
  ("SPCOM_EVENT_LINK_STATE", Some (Dec 100))].

Definition header : header := Header "include/linux/spcom.h" [
  PAGE_SIZE_defs; SPCOM_CMD_ENABLE_SSR_def; SPCOM_CMD_RESTART_SP_def; SPCOM_ION_FD_UNLOCK_ALL_def;
  SPCOM_DMABUF_FD_UNLOCK_ALL_def] [
  spcom_cmd_id_enum; spcom_poll_events_enum; spcom_poll_cmd_id_enum; spcom_event_id_enum] [].

End Spcom.

(** [include/linux/spss_utils.h] *)

Module Spss_utils.

Definition MAX_SPU_UEFI_APPS_def : defines := [
  ("MAX_SPU_UEFI_APPS", Dec 8)].

Definition spss_event_id_enum : enumeration := [
  ("SPSS_EVENT_ID_PIL_CALLED", Some (Dec 0)); ("SPSS_EVENT_ID_NVM_READY", Some (Dec 1));
  ("SPSS_EVENT_ID_SPU_READY", Some (Dec 2)); ("SPSS_NUM_USER_EVENTS", None);
  ("SPSS_EVENT_ID_SPU_POWER_DOWN", Some (Dec 6)); ("SPSS_EVENT_ID_SPU_POWER_UP", Some (Dec 7));
  ("SPSS_NUM_EVENTS", None)].

Definition spss_event_status_enum : enumeration := [
  ("EVENT_STATUS_SIGNALED", Some (Hex 0xaaaa)); ("EVENT_STATUS_NOT_SIGNALED", Some (Hex 0xffff));
  ("EVENT_STATUS_TIMEOUT", Some (Hex 0xeee1)); ("EVENT_STATUS_ABORTED", Some (Hex 0xeee2))].

Definition header : header := Header "include/linux/spss_utils.h" [
  MAX_SPU_UEFI_APPS_def] [
  spss_event_id_enum; spss_event_status_enum] [].

End Spss_utils.

(** [include/linux/wcd-spi-ac-params.h] *)

Module Wcd_spi_ac_params.

Definition WCD_SPI_AC_defs : defines := [
  ("WCD_SPI_AC_CMD_CONC_BEGIN", Hex 0x01); ("WCD_SPI_AC_CMD_CONC_END", Hex 0x02);
  ("WCD_SPI_AC_CMD_BUF_DATA", Hex 0x03); ("WCD_SPI_AC_MAX_BUFFERS", Dec 2)].

Definition header : header := Header "include/linux/wcd-spi-ac-params.h" [
  WCD_SPI_AC_defs] [
] [].

End Wcd_spi_ac_params.

(** [include/linux/gunyah/gh_vm.h] *)

Module Gh_vm.

Definition GH_VM_API_defs : defines := [
  ("GH_VM_API_MAJOR_VERSION", Hex 0x1); ("GH_VM_API_MINOR_VERSION", Hex 0x0)].

Definition gh_vm_types_enum : enumeration := [
  ("GH_VM_TYPE_SEC", None); ("GH_VM_TYPES_MAX", None)].

Definition gh_vm_sec_stop_enum : enumeration := [
  ("GH_VM_STOP_SHUTDOWN", None); ("GH_VM_STOP_RESTART", None); ("GH_VM_STOP_CRASH", None);
  ("GH_VM_STOP_FORCE_STOP", None); ("GH_VM_STOP_MAX", None)].

Definition gh_vm_sec_exit_reasons_enum : enumeration := [
  ("GH_VM_EXIT_REASON_UNKNOWN", None); ("GH_VM_EXIT_REASON_SHUTDOWN", None);
  ("GH_VM_EXIT_REASON_RESTART", None); ("GH_VM_EXIT_REASON_PANIC", None); ("GH_VM_EXIT_REASON_NSWD", None);
  ("GH_VM_EXIT_REASON_HYP_ERROR", None); ("GH_VM_EXIT_REASON_ASYNC_EXT_ABORT", None);
  ("GH_VM_EXIT_REASON_FORCE_STOPPED", None); ("GH_VM_EXIT_REASONS_MAX", None)].

Definition gh_vm_sec_restart_levels_enum : enumeration := [
  ("GH_VM_RESTART_LEVEL_SYSTEM", None); ("GH_VM_RESTART_LEVEL_RELATIVE", None);
  ("GH_VM_RESTART_LEVELS_MAX", None)].

Definition header : header := Header "include/linux/gunyah/gh_vm.h" [
  GH_VM_API_defs] [
  gh_vm_types_enum; gh_vm_sec_stop_enum; gh_vm_sec_exit_reasons_enum; gh_vm_sec_restart_levels_enum] [].

End Gh_vm.

(** [include/misc/adsp_sleepmon.h] *)

Module Adsp_sleepmon.

Definition ADSPSLEEPMON_IOCTL_defs : defines := [
  ("ADSPSLEEPMON_IOCTL_AUDIO_VER_1", Dec 1); ("ADSPSLEEPMON_IOCTL_CONFIG_PANIC_VER_1", Dec 1)].

Definition adspsleepmon_ioctl_audio_cmd_enum : enumeration := [
  ("ADSPSLEEPMON_AUDIO_ACTIVITY_START", Some (Dec 1)); ("ADSPSLEEPMON_AUDIO_ACTIVITY_STOP", None);
  ("ADSPSLEEPMON_AUDIO_ACTIVITY_LPI_START", None); ("ADSPSLEEPMON_AUDIO_ACTIVITY_LPI_STOP", None);
  ("ADSPSLEEPMON_AUDIO_ACTIVITY_RESET", None); ("ADSPSLEEPMON_AUDIO_ACTIVITY_MAX", None)].

Definition adspsleepmon_ioctl_panic_cmd_enum : enumeration := [
  ("ADSPSLEEPMON_DISABLE_PANIC_LPM", Some (Dec 1)); ("ADSPSLEEPMON_DISABLE_PANIC_LPI", None);
  ("ADSPSLEEPMON_RESET_PANIC_LPM", None); ("ADSPSLEEPMON_RESET_PANIC_LPI", None);
  ("ADSPSLEEPMON_RESET_PANIC_MAX", None)].

Definition header : header := Header "include/misc/adsp_sleepmon.h" [
  ADSPSLEEPMON_IOCTL_defs] [
  adspsleepmon_ioctl_audio_cmd_enum; adspsleepmon_ioctl_panic_cmd_enum] [].

End Adsp_sleepmon.

Definition headers : list header := [
  Bcache.header; Esoc_ctrl.header; Fips_status.header; Gh_virtio_backend.header; Helioscom_interface.header;
  Ion.header; Lightnvm.header; Mem_buf.header; Msm_geni_serial.header; Msm_ion.header; Msm_ion_ids.header;
  Msm_sysstats.header; N_r3964.header; Qbt_handler.header; Qcedev.header; Qcom_sync_file.header; Qcota.header;
  Qg_profile.header; Qg.header; Qseecom.header; Smcinvoke.header; Spcom.header; Spss_utils.header;
  Wcd_spi_ac_params.header; Gh_vm.header; Adsp_sleepmon.header].
