(* ===== verification/ConstProps.v ===== *)
(** * ConstProps: the macros and enumerations of all headers

    What the tables of ConstAlsa, ConstAudio, ConstDisplay, ConstNet and ConstMisc evaluate
    to: on which targets, with what types, which enumerators coincide, and which flags
    can share a word. *)

From S2P Require Import Prelude CLayout CExpr ConstAlsa ConstAudio ConstDisplay ConstNet ConstMisc.

#[local] Open Scope string_scope.
#[local] Open Scope list_scope.
#[local] Open Scope Z_scope.

Definition all_headers : list header :=
  ConstAlsa.headers ++ ConstAudio.headers ++ ConstDisplay.headers ++ ConstNet.headers ++ ConstMisc.headers.

(** The names a header declares. *)
Definition enumerators_of (h : header) : list string := map fst (concat (map enum_defs (h_enums h))).
Definition declared (h : header) : list string := map fst (concat (h_defs h)) ++ enumerators_of h.

Definition number `{Externals} (a : abi) (h : header) (x : string) : option Z := snd <$> value a h x.

(** The expression reaches a name from outside the repository. *)
Fixpoint needs_external (env : defines) (fuel : nat) (e : cexpr) : bool :=
  match fuel with
  | O => false
  | S k =>
      match e with
      | Ref x =>
          match lookup_def x env with
          | Some d => needs_external (remove_def x env) k d
          | None => false
          end
      | Ext _ _ => true
      | Un _ e1 | Cast _ e1 => needs_external env k e1
      | Bin _ e1 e2 => needs_external env k e1 || needs_external env k e2
      | Cond c e1 e2 => needs_external env k c || needs_external env k e1 || needs_external env k e2
      | _ => false
      end
  end.

(** Compare by arguments before unfolding. *)
Strategy 1000 [needs_external].

Definition external_name (h : header) (x : string) : bool := needs_external (h_env h) fuel (Ref x).

(** The names whose expression shifts a bit of an [int] into its sign, or uses such a name. *)
Definition undefined_constants : list (string * string) := [
  ("include/sound/asequencer.h", "SNDRV_SEQ_FILTER_USE_EVENT");
  ("include/sound/devdep_params.h", "DTS_EAGLE_FLAG_IOCTL_JUSTSETCACHE");
  ("include/sound/devdep_params.h", "DTS_EAGLE_FLAG_IOCTL_GETFROMCORE");
  ("include/sound/devdep_params.h", "DTS_EAGLE_FLAG_IOCTL_MASK");
  ("include/sound/devdep_params.h", "DTS_EAGLE_FLAG_ALSA_GET");
  ("include/linux/msm_kgsl.h", "KGSL_GPUMEM_CACHE_RANGE");
  ("include/linux/ion.h", "ION_HEAP_CUSTOM_END")].

Definition undefined (h : header) (x : string) : bool :=
  existsb (fun p => String.eqb (fst p) (h_path h) && String.eqb (snd p) x) undefined_constants.

(** The enumerators an enumeration gives the value of another one. *)
Definition enum_aliases : list (string * string) := [
  ("SNDRV_HWDEP_IFACE_FW_FIREFACE", "SNDRV_HWDEP_IFACE_LAST");
  ("SNDRV_PCM_CLASS_DIGITIZER", "SNDRV_PCM_CLASS_LAST");
  ("SNDRV_PCM_SUBCLASS_MULTI_MIX", "SNDRV_PCM_SUBCLASS_LAST");
  ("SNDRV_PCM_STREAM_CAPTURE", "SNDRV_PCM_STREAM_LAST");
  ("SNDRV_PCM_MMAP_OFFSET_STATUS_OLD", "SNDRV_PCM_MMAP_OFFSET_STATUS");
  ("SNDRV_PCM_MMAP_OFFSET_CONTROL_OLD", "SNDRV_PCM_MMAP_OFFSET_CONTROL");
  ("SNDRV_PCM_TSTAMP_ENABLE", "SNDRV_PCM_TSTAMP_LAST");
  ("SNDRV_PCM_AUDIO_TSTAMP_TYPE_LINK_SYNCHRONIZED", "SNDRV_PCM_AUDIO_TSTAMP_TYPE_LAST");
  ("SNDRV_PCM_TSTAMP_TYPE_MONOTONIC_RAW", "SNDRV_PCM_TSTAMP_TYPE_LAST");
  ("SNDRV_CHMAP_BRC", "SNDRV_CHMAP_LAST");
  ("SNDRV_RAWMIDI_STREAM_INPUT", "SNDRV_RAWMIDI_STREAM_LAST");
  ("SNDRV_TIMER_CLASS_PCM", "SNDRV_TIMER_CLASS_LAST");
  ("SNDRV_TIMER_SCLASS_OSS_SEQUENCER", "SNDRV_TIMER_SCLASS_LAST");
  ("SNDRV_CTL_EVENT_ELEM", "SNDRV_CTL_EVENT_LAST");
  ("SKL_TKL_U32_D0I3_CAPS", "SKL_TKN_U32_D0I3_CAPS");
  ("SKL_TKN_U32_ASTATE_CLK_SRC", "SKL_TKN_MAX");
  ("SOF_FW_BLK_TYPE_RSRVD0", "SOF_FW_BLK_TYPE_START");
  ("MVS_VOC_RATE_MAX", "MVS_VOC_RATE_UNDEF");
  ("RPC_VOC_0_RATE", "RPC_VOC_AMR_RATE_475");
  ("RPC_VOC_8_RATE", "RPC_VOC_AMR_RATE_515");
  ("RPC_VOC_4_RATE", "RPC_VOC_AMR_RATE_590");
  ("RPC_VOC_2_RATE", "RPC_VOC_AMR_RATE_670");
  ("RPC_VOC_1_RATE", "RPC_VOC_AMR_RATE_740");
  ("RPC_VOC_ERASURE", "RPC_VOC_AMR_RATE_795");
  ("RPC_VOC_ERR_RATE", "RPC_VOC_AMR_RATE_1020");
  ("WCD9XXX_ANC_CAL", "WCD9XXX_MIN_CAL");
  ("Q6AFE_VAD_CORE_CAL", "Q6AFE_MIN_CAL");
  ("KGSL_CMDWINDOW_2D", "KGSL_CMDWINDOW_MIN");
  ("KGSL_CMDWINDOW_ARBITER", "KGSL_CMDWINDOW_MAX");
  ("IPA_HW_v2_5", "IPA_HW_v2_6");
  ("IPA_CLIENT_APPS_LAN_WAN_PROD", "IPA_CLIENT_APPS_WAN_PROD");
  ("I2400M_RO_NEEDED", "I2400M_RO_TYPE_SHIFT");
  ("I2400M_RO_FBN", "I2400M_RO_SN");
  ("ION_HEAP_TYPE_SECURE_DMA", "ION_HEAP_TYPE_MSM_START")].

(** [x] and [y] are the same name, or listed as two names of one value. *)
Definition same_name (aliases : list (string * string)) (x y : string) : bool :=
  String.eqb x y ||
  existsb (fun p => (String.eqb (fst p) x && String.eqb (snd p) y) || (String.eqb (fst p) y && String.eqb (snd p) x)) aliases.

(** ** Evaluation on every target *)

Section Values.
Context `{X : Externals}.

Definition agrees (h : header) (x : string) : bool :=
  if portable_defs (h_env h) then true
  else match number LP64 h x, number ILP32 h x with Some m, Some n => m =? n | None, None => true | _, _ => false end.

Lemma agrees_true h x : agrees h x = true -> number LP64 h x = number ILP32 h x.
Proof using.
  unfold agrees. destruct (portable_defs (h_env h)) eqn:Hp.
  - intros _. unfold number, value. by rewrite (proj1 (eval_portable LP64 ILP32 _ _ (Ref x) Hp eq_refl)).
  - repeat case_match; try done. intros ->%Z.eqb_eq. congruence.
Qed.

(** Whether an expression has a value; one that does not reach the outside can be decided. *)
Definition defined_as_listed (a : abi) (h : header) (x : string) : bool :=
  if external_name h x then true
  else Bool.eqb (undefined h x) (match value a h x with Some _ => false | None => true end).

Lemma forallb_headers (f : header -> string -> bool) :
  forallb (fun h => forallb (f h) (declared h)) all_headers = true ->
  forall h x, In h all_headers -> In x (declared h) -> f h x = true.
Proof using.
  intros Hf h x Hh Hx. rewrite forallb_forall in Hf. specialize (Hf h Hh).
  rewrite forallb_forall in Hf. auto.
Qed.

Lemma all_agree h x : In h all_headers -> In x (declared h) -> agrees h x = true.
Proof using. apply forallb_headers. vm_compute. reflexivity. Qed.

Lemma all_defined a h x : arm_abi a -> In h all_headers -> In x (declared h) -> defined_as_listed a h x = true.
Proof using. intros [->| ->]; apply (forallb_headers (defined_as_listed _)); vm_compute; reflexivity. Qed.

Lemma all_casts_narrow h : In h all_headers -> Forall (fun d => casts_narrow d.2 = true) (h_env h).
Proof using.
  intros Hh. apply List.Forall_forall. apply forallb_forall. revert h Hh. apply forallb_forall.
  vm_compute. reflexivity.
Qed.
End Values.

(** ** Enumerations *)

Definition enum_names (e : enumeration) : list string := map fst (enum_defs e).

Section Enumerations.
Context `{X : Externals} (a : abi).

Definition numbers (h : header) (xs : list string) : list (string * option Z) := map (fun x => (x, number a h x)) xs.

(** Names of one value are the same name, and the values fit one type of four bytes. *)
Definition distinct_values (aliases : list (string * string)) (vs : list (string * option Z)) : bool :=
  forallb (fun v => forallb (fun w =>
    match snd v, snd w with
    | Some m, Some n => if m =? n then same_name aliases (fst v) (fst w) else true
    | _, _ => true
    end) vs) vs.

Definition all_in (t : int_ty) (vs : list (string * option Z)) : bool :=
  forallb (fun v => match snd v with Some n => bool_decide (in_range t n) | None => true end) vs.

Lemma numbers_In h xs x m : In x xs -> number a h x = Some m -> In (x, Some m) (numbers h xs).
Proof using. intros Hx Hm. apply in_map_iff. exists x. split; [by f_equal|done]. Qed.

Lemma distinct_values_spec aliases vs x y m :
  distinct_values aliases vs = true -> In (x, Some m) vs -> In (y, Some m) vs -> same_name aliases x y = true.
Proof using.
  intros Hd Hx Hy. unfold distinct_values in Hd. rewrite forallb_forall in Hd. specialize (Hd _ Hx).
  rewrite forallb_forall in Hd. specialize (Hd _ Hy). cbn [fst snd] in Hd. by rewrite Z.eqb_refl in Hd.
Qed.

Lemma all_in_spec t vs x m : all_in t vs = true -> In (x, Some m) vs -> in_range t m.
Proof using.
  intros Hd Hx. unfold all_in in Hd. rewrite forallb_forall in Hd. by apply (Hd _), bool_decide_eq_true in Hx.
Qed.

Definition enum_ok (h : header) (e : enumeration) : bool :=
  let vs := numbers h (enum_names e) in distinct_values enum_aliases vs && (all_in S32 vs || all_in U32 vs).

Lemma all_enums_ok h e : arm_abi a -> In h all_headers -> In e (h_enums h) -> enum_ok h e = true.
Proof using.
  intros Ha Hh. revert e. apply forallb_forall. revert h Hh. apply (forallb_forall (fun h => forallb (enum_ok h) (h_enums h))).
  destruct Ha as [-> | ->]; vm_compute; reflexivity.
Qed.
End Enumerations.

(** ** Words of flags *)

(** The runs of macros that are the flags of one word. *)
Definition flag_words : list (header * defines) := [
  (Msm_drm_pp.header, Msm_drm_pp.PA_HSIC_defs); (Msm_drm_pp.header, Msm_drm_pp.MEMCOL_PROT_defs);
  (Msm_drm_pp.header, Msm_drm_pp.SIXZONE_defs); (Msm_drm_pp.header, Msm_drm_pp.LTM_defs2);
  (Sde_drm.header, Sde_drm.SCALER_LUT_defs); (Sde_drm.header, Sde_drm.SDE_DRM_DESTSCALER_defs);
  (Sde_drm.header, Sde_drm.DRM_EDID_CLRMETRY_defs); (Sde_drm.header, Sde_drm.DRM_MSM_DISPLAY_defs);
  (Gh_virtio_backend.header, Gh_virtio_backend.EVENT_defs);
  (If_frad.header, If_frad.DLCI_defs2); (If_frad.header, If_frad.FRAD_defs);
  (Mem_buf.header, Mem_buf.MEM_BUF_PERM_defs);
  (Msm_audio.header, Msm_audio.ADRC_ENABLE_defs); (Msm_audio.header, Msm_audio.AGC_ENABLE_defs);
  (Msm_audio.header, Msm_audio.MSM_SNDDEV_CAP_defs);
  (Msm_ion.header, Msm_ion.ION_FLAG_CP_defs); (Msm_ion_ids.header, Msm_ion_ids.ION_defs3);
  (Msm_ipa.header, Msm_ipa.IPA_FLT_defs); (Msm_ipa.header, Msm_ipa.IPA_FLT_EXT_defs);
  (Msm_kgsl.header, Msm_kgsl.KGSL_CMDLIST_defs); (Msm_kgsl.header, Msm_kgsl.KGSL_FLAGS_defs);
  (Msm_kgsl.header, Msm_kgsl.KGSL_GPU_AUX_COMMAND_defs); (Msm_kgsl.header, Msm_kgsl.KGSL_PAGEFAULT_TYPE_defs);
  (Msm_rmnet.header, Msm_rmnet.RMNET_MODE_defs); (Msm_rmnet.header, Msm_rmnet.RMNET_IOCTL_FEAT_defs);
  (Rmnet_data.header, Rmnet_data.RMNET_EGRESS_FORMAT_defs); (Rmnet_data.header, Rmnet_data.RMNET_INGRESS_defs);
  (Asequencer.header, Asequencer.SNDRV_SEQ_FILTER_defs); (Asequencer.header, Asequencer.SNDRV_SEQ_REMOVE_defs);
  (Asequencer.header, Asequencer.SNDRV_SEQ_PORT_CAP_defs ++ Asequencer.SNDRV_SEQ_PORT_CAP_SYNC_defs ++
                      Asequencer.SNDRV_SEQ_PORT_CAP_DUPLEX_def ++ Asequencer.SNDRV_SEQ_PORT_CAP_defs2);
  (Asequencer.header, Asequencer.SNDRV_SEQ_PORT_TYPE_defs ++ Asequencer.SNDRV_SEQ_PORT_TYPE_defs2);
  (Asequencer.header, Asequencer.SNDRV_SEQ_PORT_FLG_defs); (Asequencer.header, Asequencer.SNDRV_SEQ_PORT_SUBS_defs);
  (Asoc.header, Asoc.SND_SOC_TPLG_DAI_FLGBIT_SYMMETRIC_defs); (Asoc.header, Asoc.SND_SOC_TPLG_LNK_FLGBIT_defs);
  (Asound.header, Asound.SNDRV_PCM_INFO_defs ++ Asound.SNDRV_PCM_INFO_defs2);
  (Asound.header, Asound.SNDRV_PCM_HW_PARAMS_defs); (Asound.header, Asound.SNDRV_PCM_SYNC_PTR_defs);
  (Asound.header, Asound.SNDRV_RAWMIDI_INFO_defs); (Asound.header, Asound.SNDRV_TIMER_PSFLG_defs);
  (Asound.header, Asound.SNDRV_CTL_ELEM_ACCESS_defs); (Asound.header, Asound.SNDRV_CTL_EVENT_MASK_defs);
  (Compress_params.header, Compress_params.SND_AUDIOCHANMODE_MP3_defs);
  (Compress_params.header, Compress_params.SND_AUDIOMODE_AAC_defs);
  (Compress_params.header, Compress_params.SND_AUDIOSTREAMFORMAT_defs);
  (Compress_params.header, Compress_params.SND_AUDIOSTREAMFORMAT_defs2);
  (Compress_params.header, Compress_params.SND_AUDIOPROFILE_defs);
  (Compress_params.header, Compress_params.SND_AUDIOMODE_defs);
  (Compress_params.header, Compress_params.SND_AUDIOMODE_REALAUDIO_defs);
  (Compress_params.header, Compress_params.SND_AUDIOMODE_FLAC_defs);
  (Compress_params.header, Compress_params.SND_AUDIOMODE_IEC_defs);
  (Sb16_csp.header, Sb16_csp.SNDRV_SB_CSP_MODE_defs); (Sb16_csp.header, Sb16_csp.SNDRV_SB_CSP_RATE_defs);
  (Sb16_csp.header, Sb16_csp.SNDRV_SB_CSP_ST_defs)].

(** Two names of one flag. *)
Definition flag_aliases : list (string * string) :=
  [("SNDRV_PCM_INFO_HAS_WALL_CLOCK", "SNDRV_PCM_INFO_HAS_LINK_ATIME")].

Definition one_bit (z : Z) : bool := (0 <? z) && (z =? 2 ^ Z.log2 z).

Section Flags.
Context `{X : Externals} (a : abi) (h : header).

(** The names in [ds] that are single bits; the others are zero, masks or undefined. *)
Definition flag_name (ds : defines) (x : string) : bool :=
  existsb (fun d => String.eqb (fst d) x) ds && match number a h x with Some n => one_bit n | None => false end.

Definition flag (x : string) : Z := default 0 (number a h x).

(** The word a program ors together from the flags [xs]. *)
Definition joined (xs : list string) : Z := foldr (fun x w => Z.lor (flag x) w) 0 xs.

Definition flags_ok (ds : defines) : bool :=
  let vs := List.filter (fun v => match snd v with Some n => one_bit n | None => false end) (numbers a h (map fst ds)) in
  distinct_values flag_aliases vs && all_in U32 vs.
End Flags.

Lemma all_flags_ok `{X : Externals} a h ds : arm_abi a -> In (h, ds) flag_words -> flags_ok a h ds = true.
Proof.
  intros Ha. revert h ds.
  assert (forallb (fun p => flags_ok a (fst p) (snd p)) flag_words = true) as Hf
    by (destruct Ha as [-> | ->]; vm_compute; reflexivity).
  rewrite forallb_forall in Hf. intros h ds Hin. exact (Hf _ Hin).
Qed.

(** ** Single bits *)

Lemma one_bit_spec z : one_bit z = true -> exists k, 0 <= k /\ z = 2 ^ k.
Proof.
  unfold one_bit. intros [Hp Hz]%andb_true_iff. exists (Z.log2 z). split; [apply Z.log2_nonneg|lia].
Qed.

Lemma one_bit_testbit z k i : z = 2 ^ k -> 0 <= k -> 0 <= i -> Z.testbit z i = (i =? k).
Proof. intros -> Hk Hi. rewrite Z.pow2_bits_eqb by done. apply Z.eqb_sym. Qed.

(** A single bit is in a word exactly when its bit is set. *)
Lemma land_one_bit w k : 0 <= k -> Z.land w (2 ^ k) = 2 ^ k <-> Z.testbit w k = true.
Proof.
  intros Hk. split.
  - intros He. assert (Z.testbit (Z.land w (2 ^ k)) k = true) as Hb
      by (rewrite He; by apply Z.pow2_bits_true).
    rewrite Z.land_spec, andb_true_iff in Hb. by destruct Hb.
  - intros Hb. apply Z.bits_inj'. intros i Hi. rewrite Z.land_spec, (one_bit_testbit (2 ^ k) k) by done.
    destruct (Z.eqb_spec i k) as [-> |]; [rewrite Hb; done|apply andb_false_r].
Qed.

Section FlagLemmas.
Context `{X : Externals} (a : abi) (h : header) (ds : defines).

Lemma is_flag_spec x :
  flag_name a h ds x = true -> In x (map fst ds) /\ exists n k, number a h x = Some n /\ 0 <= k /\ n = 2 ^ k.
Proof using.
  unfold flag_name. intros [Hx Hn]%andb_true_iff. apply existsb_exists in Hx as (d & Hd & Hx%String.eqb_eq).
  subst x. split; [by apply in_map|]. destruct (number a h (fst d)) as [n|]; [|done].
  apply one_bit_spec in Hn as (k & Hk & ->). eauto.
Qed.

Lemma joined_testbit xs i :
  Forall (fun x => flag_name a h ds x = true) xs -> 0 <= i ->
  Z.testbit (joined a h xs) i = true <-> exists y, In y xs /\ number a h y = Some (2 ^ i).
Proof using.
  intros Hxs Hi. induction Hxs as [|x xs Hx Hxs IH]; cbn [joined foldr].
  { rewrite Z.bits_0. split; [done|]. by intros (y & [] & _). }
  apply is_flag_spec in Hx as (_ & n & k & Hn & Hk & ->).
  rewrite Z.lor_spec, orb_true_iff. unfold joined in IH. rewrite IH. unfold flag. rewrite Hn. cbn [default].
  rewrite (one_bit_testbit (2 ^ k) k) by done. split.
  - intros [->%Z.eqb_eq | (y & Hy & He)]; [exists x|exists y]; cbn [In]; auto.
  - intros (y & [-> | Hy] & He); [left|right; eauto]. rewrite Hn in He. apply Z.eqb_eq.
    injection He as He. symmetry. by apply (Z.pow_inj_r 2).
Qed.

Lemma joined_nonneg xs : Forall (fun x => flag_name a h ds x = true) xs -> 0 <= joined a h xs.
Proof using.
  induction 1 as [|x xs Hx Hxs IH]; cbn [joined foldr]; [done|]. apply Z.lor_nonneg. split; [|done].
  apply is_flag_spec in Hx as (_ & n & k & Hn & Hk & ->). unfold flag. rewrite Hn. cbn [default]. apply Z.pow_nonneg. lia.
Qed.

Context (Hok : flags_ok a h ds = true).

Lemma flags_In x n :
  flag_name a h ds x = true -> number a h x = Some n ->
  In (x, Some n) (List.filter (fun v => match snd v with Some n => one_bit n | None => false end)
                              (numbers a h (map fst ds))).
Proof using.
  intros Hx Hn. apply List.filter_In. split.
  - apply numbers_In; [|done]. by apply is_flag_spec in Hx as [Hx _].
  - unfold flag_name in Hx. rewrite Hn, andb_true_iff in Hx. by destruct Hx.
Qed.

Lemma flags_distinct x y n :
  flag_name a h ds x = true -> flag_name a h ds y = true ->
  number a h x = Some n -> number a h y = Some n -> same_name flag_aliases x y = true.
Proof using Hok.
  intros Hx Hy Hn Hm. unfold flags_ok in Hok. apply andb_true_iff in Hok as [Hd _].
  by apply (distinct_values_spec _ _ _ _ _ Hd (flags_In _ _ Hx Hn) (flags_In _ _ Hy Hm)).
Qed.

Lemma flag_fits x n : flag_name a h ds x = true -> number a h x = Some n -> in_range U32 n.
Proof using Hok.
  intros Hx Hn. unfold flags_ok in Hok. apply andb_true_iff in Hok as [_ Hd].
  by apply (all_in_spec _ _ _ _ Hd (flags_In _ _ Hx Hn)).
Qed.

Lemma joined_fits xs : Forall (fun x => flag_name a h ds x = true) xs -> in_range U32 (joined a h xs).
Proof using Hok.
  intros Hxs. assert (joined a h xs < 2 ^ 32).
  { pose proof (joined_nonneg xs Hxs). destruct (Z.ltb_spec (joined a h xs) (2 ^ 32)) as [|Hge]; [done|exfalso].
    assert (32 <= Z.log2 (joined a h xs)) as Hl by (apply Z.log2_le_pow2; lia).
    assert (Z.testbit (joined a h xs) (Z.log2 (joined a h xs)) = true) as Hb by (apply Z.bit_log2; lia).
    apply joined_testbit in Hb as (y & Hy & Hn); [|done|lia].
    rewrite List.Forall_forall in Hxs. destruct (flag_fits y _ (Hxs _ Hy) Hn) as [_ Hf].
    assert (2 ^ 32 <= 2 ^ Z.log2 (joined a h xs)) by (apply Z.pow_le_mono_r; lia).
    change (max_int U32) with (2 ^ 32 - 1) in Hf. lia. }
  pose proof (joined_nonneg xs Hxs). split; [done|]. change (max_int U32) with (2 ^ 32 - 1). lia.
Qed.
End FlagLemmas.

(** ** The theorems *)

(** Every macro and enumerator of the headers has the same number for a 32-bit and for a
    64-bit program, whatever the names from outside stand for, although some of
    the expressions are computed in [long] or use a size. *)
Theorem constants_same_on_targets `{Externals} h x :
  In h all_headers -> In x (declared h) -> number LP64 h x = number ILP32 h x.
Proof. intros Hh Hx. by apply agrees_true, all_agree. Qed.

Lemma constants_same_on_targets_witness :
  number (H := no_externals) LP64 Asound.header "SNDRV_PCM_INFO_FIFO_IN_FRAMES" =
  number (H := no_externals) ILP32 Asound.header "SNDRV_PCM_INFO_FIFO_IN_FRAMES" /\
  number (H := no_externals) LP64 Asound.header "SNDRV_PCM_INFO_FIFO_IN_FRAMES" = Some 2147483648.
Proof.
  split; [|vm_compute; reflexivity].
  apply (@constants_same_on_targets no_externals); [entry 2%nat|].
  apply List.in_or_app. left. apply in_map_iff.
  exists ("SNDRV_PCM_INFO_FIFO_IN_FRAMES", Hex 0x80000000). split; [reflexivity|].
  apply List.in_concat. exists Asound.SNDRV_PCM_INFO_defs2. split; [entry 4%nat|entry 1%nat].
Defined.

(** C18: Every expression of the headers that uses no name from outside is well defined, and its value
    is a value of its type, but for seven names, which have no value in C: they shift a bit
    of an [int] into its sign, or use a name that does. *)
Theorem constants_defined `{Externals} a h x :
  arm_abi a -> In h all_headers -> In x (declared h) -> external_name h x = false ->
  (value a h x = None <-> undefined h x = true) /\
  (forall v, value a h x = Some v -> in_range (int_of a v.1) v.2).
Proof.
  intros Ha Hh Hx He. split.
  - pose proof (all_defined a h x Ha Hh Hx) as Hd. unfold defined_as_listed in Hd. rewrite He in Hd.
    apply Bool.eqb_prop in Hd. rewrite Hd. by destruct (value a h x).
  - intros v. apply eval_sound; [|by apply all_casts_narrow|done].
    destruct Ha as [-> | ->]; vm_compute; intuition congruence.
Qed.

Lemma constants_defined_witness :
  value (H := no_externals) ILP32 Ion.header "ION_HEAP_CUSTOM_END" = None.
Proof.
  apply (@constants_defined no_externals); [by right|entry 63%nat| |vm_compute; reflexivity|vm_compute; reflexivity].
  apply List.in_or_app. right. entry 8%nat.
Defined.

(** C19: Two enumerators of one enumeration have different values, but for the listed
    aliases, and the values of an enumeration all fit [int], or all fit [unsigned]: a member
    of the type is four bytes on every target. *)
Theorem enumerators_distinct `{Externals} a h e :
  arm_abi a -> In h all_headers -> In e (h_enums h) ->
  (forall x y n, In x (enum_names e) -> In y (enum_names e) ->
     number a h x = Some n -> number a h y = Some n -> same_name enum_aliases x y = true) /\
  ((forall x n, In x (enum_names e) -> number a h x = Some n -> in_range S32 n) \/
   (forall x n, In x (enum_names e) -> number a h x = Some n -> in_range U32 n)).
Proof.
  intros Ha Hh He. pose proof (all_enums_ok a h e Ha Hh He) as [Hd Hr]%andb_true_iff. split.
  - intros x y n Hx Hy Hm Hn. by apply (distinct_values_spec _ _ _ _ _ Hd (numbers_In _ _ _ _ _ Hx Hm)), numbers_In.
  - apply orb_true_iff in Hr as [Hr | Hr]; [left|right];
      intros x n Hx Hn; by apply (all_in_spec _ _ _ _ Hr (numbers_In _ _ _ _ _ Hx Hn)).
Qed.

Lemma enumerators_distinct_witness :
  same_name enum_aliases "WCD9XXX_ANC_CAL" "WCD9XXX_MIN_CAL" = true /\
  same_name enum_aliases "WCD9XXX_ANC_CAL" "WCD9XXX_MBHC_CAL" = false.
Proof.
  split; [|vm_compute; reflexivity].
  apply (proj1 (@enumerators_distinct no_externals LP64 Msmcal_hwdep.header Msmcal_hwdep.wcd_cal_type_enum
                  (or_introl eq_refl) ltac:(entry 30%nat) ltac:(entry 0%nat)) _ _ 0);
    [entry 1%nat|entry 0%nat|vm_compute; reflexivity|vm_compute; reflexivity].
Defined.

(** C17: A word or-ed together from flags of one of the flag words tells exactly which flags were used: a
    flag is found in the word if and only if it, or its alias, is one of them;
    and the word fits 32 bits. *)
Theorem flags_independent `{Externals} a h ds xs x :
  arm_abi a -> In (h, ds) flag_words ->
  Forall (fun y => flag_name a h ds y = true) xs -> flag_name a h ds x = true ->
  (Z.land (joined a h xs) (flag a h x) = flag a h x <->
   exists y, In y xs /\ same_name flag_aliases x y = true /\ flag a h y = flag a h x) /\
  in_range U32 (joined a h xs).
Proof.
  intros Ha Hin Hxs Hx. pose proof (all_flags_ok a h ds Ha Hin) as Hok. split; [|by apply (joined_fits a h ds)].
  destruct (is_flag_spec _ _ _ _ Hx) as (_ & n & k & Hn & Hk & ->).
  assert (flag a h x = 2 ^ k) as Hf by (unfold flag; by rewrite Hn). rewrite Hf, land_one_bit by done.
  rewrite (joined_testbit _ _ ds) by done. split; intros (y & Hy & E); exists y.
  - rewrite List.Forall_forall in Hxs.
    split; [done|split; [by apply (flags_distinct a h ds Hok _ _ _ Hx (Hxs _ Hy) Hn E)|unfold flag; by rewrite E]].
  - split; [done|]. destruct E as [_ E]. rewrite List.Forall_forall in Hxs.
    apply Hxs in Hy. apply is_flag_spec in Hy as (_ & m & j & Hm & Hj & ->).
    assert (2 ^ j = 2 ^ k) as Hjk by (rewrite <-E; unfold flag; by rewrite Hm). by rewrite Hm, Hjk.
Qed.

Lemma flags_independent_witness :
  Z.land (joined (X := no_externals) LP64 Msm_ipa.header ["IPA_FLT_TOS"; "IPA_FLT_TCP_SYN"])
         (flag (X := no_externals) LP64 Msm_ipa.header "IPA_FLT_TCP_SYN") =
  flag (X := no_externals) LP64 Msm_ipa.header "IPA_FLT_TCP_SYN".
Proof.
  apply (@flags_independent no_externals LP64 Msm_ipa.header Msm_ipa.IPA_FLT_defs).
  - by left.
  - entry 17%nat.
  - repeat constructor; vm_compute; reflexivity.
  - vm_compute; reflexivity.
  - exists "IPA_FLT_TCP_SYN". split; [by right; left|split; vm_compute; reflexivity].
Defined.

(** A check of the numbers of closed names, by evaluation. *)
Lemma numbers_check `{Externals} a h (P : string -> Z -> bool) xs x :
  forallb (fun x => match number a h x with Some n => P x n | None => false end) xs = true ->
  In x xs -> exists n, number a h x = Some n /\ P x n = true.
Proof.
  intros Hf Hx. rewrite forallb_forall in Hf. specialize (Hf x Hx).
  destruct (number a h x) as [n|]; [by exists n|done].
Qed.

(** ** Pixel formats *)

(** [v4l2_fourcc] of linux/videodev2.h: four characters, the first one in the low byte. *)
Definition fourcc (f : string) (args : list Z) : option cval :=
  match args with
  | [p; q; r; s] =>
      if String.eqb f "v4l2_fourcc" && forallb (fun c => (0 <=? c) && (c <? 256)) args
      then Some (TUInt, p + Z.shiftl q 8 + Z.shiftl r 16 + Z.shiftl s 24) else None
  | _ => None
  end.

Lemma fourcc_not_long f args v : fourcc f args = Some v -> is_long v.1 = false.
Proof. unfold fourcc. repeat case_match; try done. by intros [= <-]. Qed.

Definition fourcc_externals : Externals := {| external := fourcc; external_not_long := fourcc_not_long |}.

Definition pixel_formats : list string := map fst Msm_sde_rotator.SDE_PIX_FMT_defs.

Definition all_some (vs : list (string * option Z)) : bool :=
  forallb (fun v => match snd v with Some _ => true | None => false end) vs.

Lemma all_some_spec vs x o : all_some vs = true -> In (x, o) vs -> exists n, o = Some n.
Proof.
  intros Hs Hx. unfold all_some in Hs. rewrite forallb_forall in Hs. specialize (Hs _ Hx). cbn [snd] in Hs.
  destruct o as [n|]; [by exists n|done].
Qed.

(** [x] has the characters' number, which no other format has. *)
Definition pixel_format_ok (a : abi) : bool :=
  let vs := numbers (X := fourcc_externals) a Msm_sde_rotator.header pixel_formats in
  all_some vs && distinct_values [] vs && all_in U32 vs.

Lemma pixel_formats_ok a : arm_abi a -> pixel_format_ok a = true.
Proof. intros [-> | ->]; vm_compute; reflexivity. Qed.

Lemma number_extends (X Y : Externals) a h x n :
  extends X Y -> number (H := X) a h x = Some n -> number (H := Y) a h x = Some n.
Proof.
  intros Hxy. unfold number. intros (v & Hv & ->)%fmap_Some. unfold value in *.
  by rewrite (eval_mono a X Y fuel fuel (h_env h) (Ref x) v Hxy (le_n _) Hv).
Qed.

(** The pixel formats of the rotator are pairwise different codes of 32 bits, on every target, as soon as
    [v4l2_fourcc] puts its four characters into the four bytes. *)
Theorem pixel_formats_distinct `{X : Externals} a x y :
  (forall p q r s, Forall (fun c => 0 <= c < 256) [p; q; r; s] ->
     external "v4l2_fourcc" [p; q; r; s] = Some (TUInt, p + Z.shiftl q 8 + Z.shiftl r 16 + Z.shiftl s 24)) ->
  arm_abi a -> In x pixel_formats -> In y pixel_formats ->
  exists n, number a Msm_sde_rotator.header x = Some n /\ in_range U32 n /\
    (number a Msm_sde_rotator.header y = Some n -> x = y).
Proof.
  intros Hext Ha Hx Hy.
  assert (extends fourcc_externals X) as HX.
  { intros f args v. cbn [external fourcc_externals]. unfold fourcc. repeat case_match; try done.
    intros [= <-]. subst. rewrite andb_true_iff in *. destruct_and!.
    match goal with E : String.eqb f _ = true |- _ => apply String.eqb_eq in E; subst f end.
    apply Hext. apply List.Forall_forall. intros c Hc.
    match goal with F : forallb _ _ = true |- _ => rewrite forallb_forall in F; specialize (F c Hc) end. lia. }
  pose proof (pixel_formats_ok a Ha) as Hok. unfold pixel_format_ok in Hok.
  apply andb_true_iff in Hok as [[Hs Hd]%andb_true_iff Hr].
  assert (forall z, In z pixel_formats -> exists n, number (H := fourcc_externals) a Msm_sde_rotator.header z = Some n) as Hn.
  { intros z Hz. apply (all_some_spec _ z _ Hs).
    exact (in_map (fun x => (x, number (H := fourcc_externals) a Msm_sde_rotator.header x)) _ _ Hz). }
  destruct (Hn x Hx) as [n Hxn], (Hn y Hy) as [m Hym]. exists n.
  pose proof (numbers_In _ _ _ _ _ Hx Hxn) as Hxi. pose proof (numbers_In _ _ _ _ _ Hy Hym) as Hyi.
  split; [exact (number_extends _ _ _ _ _ _ HX Hxn)|]. split; [exact (all_in_spec _ _ _ _ Hr Hxi)|].
  intros Hyn. rewrite (number_extends _ _ _ _ _ _ HX Hym) in Hyn. injection Hyn as ->.
  pose proof (distinct_values_spec _ _ _ _ _ Hd Hxi Hyi) as He. unfold same_name in He.
  apply orb_true_iff in He as [He%String.eqb_eq | He]; [done|discriminate].
Qed.

Lemma pixel_formats_distinct_witness :
  exists n, number (H := fourcc_externals) LP64 Msm_sde_rotator.header "SDE_PIX_FMT_RGB_565" = Some n /\
    in_range U32 n /\
    (number (H := fourcc_externals) LP64 Msm_sde_rotator.header "SDE_PIX_FMT_BGR_565" = Some n ->
     "SDE_PIX_FMT_RGB_565" = "SDE_PIX_FMT_BGR_565").
Proof.
  apply (@pixel_formats_distinct fourcc_externals LP64).
  - intros p q r s Hb. cbn [external fourcc_externals]. unfold fourcc.
    rewrite !Forall_cons in Hb. cbn [forallb].
    replace ((0 <=? p) && (p <? 256)) with true by lia. replace ((0 <=? q) && (q <? 256)) with true by lia.
    replace ((0 <=? r) && (r <? 256)) with true by lia. replace ((0 <=? s) && (s <? 256)) with true by lia.
    reflexivity.
  - by left.
  - entry 26%nat.
  - entry 27%nat.
Defined.
