(* ===== verification/AlsaPcm.v ===== *)
(** * AlsaPcm: the records shared by a PCM device and its clients

    [include/sound/asound.h] declares the status and control records a client maps into
    its memory twice: with the client's [long]s, and in the layout of 64-bit
    clients, with padding around each [long] that depends on the byte order. The declarations
    for little-endian clients are in [UapiAlsa]; here are those for the other byte order,
    and what both make of the layout. *)

From S2P Require Import Prelude Align CLayout Ioctl Uapi UapiAlsa.

#[local] Open Scope string_scope.
#[local] Open Scope list_scope.
#[local] Open Scope Z_scope.

Inductive byte_order : Type := Little_endian | Big_endian.

(** The padding before and after a [snd_pcm_uframes_t]. *)
Definition pad_before (a : abi) (e : byte_order) : ctype :=
  match e with
  | Little_endian => __pad_before_uframe
  | Big_endian => CArray c_u8 (sizeof a c_u64 - sizeof a snd_pcm_uframes_t)
  end.

Definition pad_after (a : abi) (e : byte_order) : ctype :=
  match e with Little_endian => __pad_after_uframe a | Big_endian => CArray c_u8 0 end.

Definition mmap_status64 (a : abi) (e : byte_order) : ctype := struct [
  ("state", snd_pcm_state_t); ("pad1", c_u32); ("__pad1", pad_before a e);
  ("hw_ptr", snd_pcm_uframes_t); ("__pad2", pad_after a e);
  ("tstamp", struct___snd_timespec64); ("suspended_state", snd_pcm_state_t); ("pad3", c_u32);
  ("audio_tstamp", struct___snd_timespec64)].

Definition mmap_control64 (a : abi) (e : byte_order) : ctype := struct [
  ("__pad1", pad_before a e); ("appl_ptr", snd_pcm_uframes_t);
  ("__pad2", pad_before a e); ("__pad3", pad_before a e);
  ("avail_min", snd_pcm_uframes_t); ("__pad4", pad_after a e)].

(** Where the low-order bytes of a [long] member begin in the record of a 64-bit client that
    has it at [off], for a client whose [long]s have [n] bytes. *)
Definition low_part (e : byte_order) (n off : Z) : Z :=
  match e with Little_endian => off | Big_endian => off + (8 - n) end.

(** The members of the status record, and whether they are [long]s. *)
Definition status_members : list (string * bool) :=
  [("state", false); ("hw_ptr", true); ("tstamp", false); ("suspended_state", false); ("audio_tstamp", false)].

(** A client finds a member of its 64-bit record where a 64-bit client has it in the
    traditional one. *)
Definition finds_member (a : abi) (e : byte_order) (traditional its : ctype) (m : string * bool) : Prop :=
  offsetof a its m.1
  = (fun o => if m.2 then low_part e (ptr_bytes a) o else o) <$> offsetof LP64 traditional m.1.

(** C27: The header says that the 64-bit layout serves 32-bit clients, and that for
    64-bit clients both declarations are identical. For 64-bit clients, of either
    byte order, they are, member by member. A 32-bit client finds every member of the
    status record, [hw_ptr] by its low half, but of the control record only [appl_ptr]:
    the second padding stands before [avail_min] where it should follow
    [appl_ptr], so that [avail_min] is four bytes off; the record is four bytes too short (too
    long, big-endian). *)
Theorem mmap_records `{LinuxUapi} (Huapi : LinuxUapiLaws) (e : byte_order) :
  (forall a, arm_abi a ->
     Forall (finds_member a e struct_snd_pcm_mmap_status (mmap_status64 a e)) status_members
     /\ sizeof a (mmap_status64 a e) = sizeof LP64 struct_snd_pcm_mmap_status
     /\ finds_member a e struct_snd_pcm_mmap_control (mmap_control64 a e) ("appl_ptr", true))
  /\ finds_member LP64 e struct_snd_pcm_mmap_control (mmap_control64 LP64 e) ("avail_min", true)
  /\ sizeof LP64 (mmap_control64 LP64 e) = sizeof LP64 struct_snd_pcm_mmap_control
  /\ ~ finds_member ILP32 e struct_snd_pcm_mmap_control (mmap_control64 ILP32 e) ("avail_min", true)
  /\ sizeof ILP32 (mmap_control64 ILP32 e) - sizeof LP64 struct_snd_pcm_mmap_control
     = match e with Little_endian => -4 | Big_endian => 4 end
  /\ mmap_status64 LP64 Little_endian = struct___snd_pcm_mmap_status64 LP64
  /\ mmap_control64 ILP32 Little_endian = struct___snd_pcm_mmap_control64 ILP32.
Proof.
  rewrite uapi_known. unfold finds_member. split_and!.
  - intros a [-> | ->]; destruct e; (split_and!; [repeat constructor|..]); by vm_compute.
  - destruct e; by vm_compute.
  - destruct e; by vm_compute.
  - destruct e; by vm_compute.
  - destruct e; by vm_compute.
  - done.
  - done.
Qed.

Lemma mmap_records_witness :
  offsetof ILP32 (struct___snd_pcm_mmap_control64 ILP32) "avail_min" = Some 4
  /\ offsetof LP64 struct_snd_pcm_mmap_control "avail_min" = Some 8
  /\ ~ finds_member ILP32 Little_endian struct_snd_pcm_mmap_control
         (mmap_control64 ILP32 Little_endian) ("avail_min", true).
Proof. destruct (mmap_records linux_uapi_laws Little_endian) as (_ & _ & _ & Hn & _). done. Defined.
