(* ===== verification/AlsaTime.v ===== *)
(** * AlsaTime: clients of the audio drivers and the width of their time

    [include/sound/asound.h] has records with time stamps, whose layout depends on the width of
    [long] and, for a 32-bit program, on whether its C library uses 64-bit time. Here are the
    declarations the header chooses between ([__SND_STRUCT_TIME64], [__BITS_PER_LONG]), for
    the three kinds of clients a 64-bit kernel has; UapiAlsa has those of 64-bit programs and
    of 32-bit programs with 32-bit time. *)

From Stdlib Require Import Ascii.
From S2P Require Import Prelude CLayout CExpr ConstAlsa ConstProps Ioctl Uapi UapiAlsa AlsaPcm.

#[local] Open Scope string_scope.
#[local] Open Scope list_scope.
#[local] Open Scope Z_scope.

(** A little-endian client: its ABI, and whether its C library has 64-bit time ([__USE_TIME_BITS64]). *)
Record client : Type := Client { c_abi : abi; use_time_bits64 : bool }.

Definition native : client := Client LP64 false.
Definition time32 : client := Client ILP32 false.
Definition time64 : client := Client ILP32 true.
Definition clients : list client := [native; time32; time64].

(** [#if (__BITS_PER_LONG == 32 && defined(__USE_TIME_BITS64)) || defined __KERNEL__], for a client. *)
Definition __SND_STRUCT_TIME64 (c : client) : bool := (8 * ptr_bytes (c_abi c) =? 32) && use_time_bits64 c.

(** 64-bit time in a 32-bit program: the seconds have eight bytes and the nanoseconds, a [long], are
    padded to eight. *)
Definition padded_timespec : ctype := struct [("tv_sec", c_u64); ("tv_nsec", CLong); ("", CArray c_u8 4)].

(** The types of a client's C library, as documented. *)
Definition client_uapi (c : client) : LinuxUapi :=
  if use_time_bits64 c then
    {| ETH_ALEN := 6; IFNAMSIZ := 16; BASE_VIDIOC_PRIVATE := 192; DRM_COMMAND_BASE := 0x40;
       NFS4_FHSIZE := 128;
       DRM_IOW := IOW (chr "d"); DRM_IOWR := IOWR (chr "d");
       __kernel_off_t := CLong; __kernel_size_t := CLong; __kernel_pid_t := c_int;
       __kernel_sa_family_t := c_u16; time_t := c_u64;
       struct_timespec := padded_timespec; struct_in6_addr := ipv6_octets;
       struct_drm_clip_rect := clip_rect; struct_drm_event := event_header |}
  else linux_uapi.

Section Clients.
Context (lib : client -> LinuxUapi).

(** [struct __snd_timespec64]: the C library's own where [__SND_STRUCT_TIME64] is defined. *)
Definition snd_timespec64 (c : client) : ctype :=
  if __SND_STRUCT_TIME64 c then @struct_timespec (lib c) else struct___snd_timespec64.

(** [struct __snd_pcm_mmap_status64] and [struct __snd_pcm_sync_ptr64], whose time stamps are these. *)
Definition pcm_mmap_status64 (c : client) : ctype := struct [
  ("state", snd_pcm_state_t); ("pad1", c_u32); ("__pad1", __pad_before_uframe);
  ("hw_ptr", snd_pcm_uframes_t); ("__pad2", __pad_after_uframe (c_abi c));
  ("tstamp", snd_timespec64 c); ("suspended_state", snd_pcm_state_t); ("pad3", c_u32);
  ("audio_tstamp", snd_timespec64 c)].

Definition pcm_sync_ptr64 (c : client) : ctype := struct [
  ("flags", c_u32); ("pad1", c_u32);
  ("s", CUnion [("status", pcm_mmap_status64 c); ("reserved", CArray c_u8 64)]);
  ("c", CUnion [("control", struct___snd_pcm_mmap_control64 (c_abi c)); ("reserved", CArray c_u8 64)])].

(** What the names without a version stand for. *)
Definition snd_pcm_mmap_status (c : client) : ctype :=
  if __SND_STRUCT_TIME64 c then pcm_mmap_status64 c else @struct_snd_pcm_mmap_status (lib c).
Definition snd_pcm_mmap_control (c : client) : ctype :=
  if __SND_STRUCT_TIME64 c then struct___snd_pcm_mmap_control64 (c_abi c) else struct_snd_pcm_mmap_control.
Definition snd_pcm_sync_ptr (c : client) : ctype :=
  if __SND_STRUCT_TIME64 c then pcm_sync_ptr64 c else @struct_snd_pcm_sync_ptr (lib c).

(** [SNDRV_PCM_MMAP_OFFSET_STATUS] and [..._CONTROL]. *)
Definition MMAP_OFFSET_STATUS (c : client) : string :=
  if __SND_STRUCT_TIME64 c then "SNDRV_PCM_MMAP_OFFSET_STATUS_NEW" else "SNDRV_PCM_MMAP_OFFSET_STATUS_OLD".
Definition MMAP_OFFSET_CONTROL (c : client) : string :=
  if __SND_STRUCT_TIME64 c then "SNDRV_PCM_MMAP_OFFSET_CONTROL_NEW" else "SNDRV_PCM_MMAP_OFFSET_CONTROL_OLD".

Definition SNDRV_TIMER_IOCTL_TREAD (c : client) : ioctl_req :=
  if 8 * ptr_bytes (c_abi c) =? 64 then SNDRV_TIMER_IOCTL_TREAD_OLD
  else if sizeof (c_abi c) CLong >=? sizeof (c_abi c) (@time_t (lib c)) then SNDRV_TIMER_IOCTL_TREAD_OLD
  else SNDRV_TIMER_IOCTL_TREAD64.

(** The requests whose parameter holds time stamps, as a client makes them. *)
Definition time_requests (c : client) : list (string * ioctl_req) :=
  let a := c_abi c in
  [("SNDRV_PCM_IOCTL_STATUS", @SNDRV_PCM_IOCTL_STATUS (lib c) a);
   ("SNDRV_PCM_IOCTL_STATUS_EXT", @SNDRV_PCM_IOCTL_STATUS_EXT (lib c) a);
   ("SNDRV_PCM_IOCTL_SYNC_PTR", IOWR (chr "A") 0x23 (snd_pcm_sync_ptr c));
   ("SNDRV_RAWMIDI_IOCTL_STATUS", @SNDRV_RAWMIDI_IOCTL_STATUS (lib c) a);
   ("SNDRV_TIMER_IOCTL_STATUS", @SNDRV_TIMER_IOCTL_STATUS (lib c))].
End Clients.

(** ** Properties *)

Definition has_time32 (c : client) : bool := (ptr_bytes (c_abi c) =? 4) && negb (use_time_bits64 c).

(** Requests whose record has one size for 64-bit time, whatever the width of [long]. *)
Definition one_size (n : string) : bool :=
  String.eqb n "SNDRV_PCM_IOCTL_SYNC_PTR" || String.eqb n "SNDRV_TIMER_IOCTL_STATUS".

Definition client_eqb (c c' : client) : bool :=
  (ptr_bytes (c_abi c) =? ptr_bytes (c_abi c')) && Bool.eqb (use_time_bits64 c) (use_time_bits64 c').

Lemma client_eqb_eq c c' : In c clients -> In c' clients -> client_eqb c c' = true <-> c = c'.
Proof.
  intros Hc Hc'. split; [|intros ->; destruct Hc' as [<-|[<-|[<-|[]]]]; reflexivity].
  destruct Hc as [<-|[<-|[<-|[]]]], Hc' as [<-|[<-|[<-|[]]]]; done.
Qed.

Definition expected (c c' : client) (n n' : string) : bool :=
  String.eqb n n' && (client_eqb c c' || (one_size n && negb (has_time32 c) && negb (has_time32 c'))).

Lemma time_requests_checked :
  forallb (fun c => forallb (fun c' => forallb (fun x => forallb (fun x' =>
    request_fits (c_abi c) x.2 && request_fits (c_abi c') x'.2
    && Bool.eqb (bool_decide (request_key (c_abi c) x.2 = request_key (c_abi c') x'.2)) (expected c c' x.1 x'.1))
    (time_requests client_uapi c')) (time_requests client_uapi c)) clients) clients = true.
Proof. vm_compute. reflexivity. Qed.

Lemma time_request_numbers `{IocEncoding} (Hlaws : IocLaws) c c' n r n' r' :
  In c clients -> In c' clients -> In (n, r) (time_requests client_uapi c) -> In (n', r') (time_requests client_uapi c') ->
  request_number (c_abi c) r = request_number (c_abi c') r' <->
  n = n' /\ (c = c' \/ one_size n = true /\ has_time32 c = false /\ has_time32 c' = false).
Proof.
  intros Hc Hc' Hx Hx'. pose proof time_requests_checked as Hk.
  rewrite forallb_forall in Hk. specialize (Hk c Hc). rewrite forallb_forall in Hk. specialize (Hk c' Hc').
  rewrite forallb_forall in Hk. specialize (Hk _ Hx). rewrite forallb_forall in Hk. specialize (Hk _ Hx').
  rewrite !andb_true_iff in Hk. destruct Hk as [[Hf Hf'] Hk%eqb_prop]. cbn [fst snd] in *.
  rewrite (request_number_eq (Hlaws := Hlaws) _ _ r r' Hf Hf').
  rewrite <- (bool_decide_eq_true (request_key _ r = _)), Hk. unfold expected.
  rewrite andb_true_iff, orb_true_iff, !andb_true_iff, !negb_true_iff, String.eqb_eq, (client_eqb_eq c c' Hc Hc'). tauto.
Qed.


