(* ===== verification/AlsaHw.v ===== *)
(** * AlsaHw: sample formats, hardware parameters and patch keys

    What [include/sound/asound.h] and [include/sound/sfnt_info.h] leave to the byte order of
    the machine, and where the hardware parameters of a PCM stream have their mask or
    interval in [struct snd_pcm_hw_params]. *)

From S2P Require Import Prelude Align CLayout CMem CExpr ConstAlsa ConstProps Ioctl Uapi UapiAlsa AlsaPcm.

#[local] Open Scope string_scope.
#[local] Open Scope list_scope.
#[local] Open Scope Z_scope.

(** ** Formats in the machine's byte order *)

(** The names without a byte order, and what they expand to. *)
Definition native_formats (e : byte_order) : list (string * string) :=
  match e with
  | Little_endian =>
      [("SNDRV_PCM_FORMAT_S16", "SNDRV_PCM_FORMAT_S16_LE");
       ("SNDRV_PCM_FORMAT_U16", "SNDRV_PCM_FORMAT_U16_LE");
       ("SNDRV_PCM_FORMAT_S24", "SNDRV_PCM_FORMAT_S24_LE");
       ("SNDRV_PCM_FORMAT_U24", "SNDRV_PCM_FORMAT_U24_LE");
       ("SNDRV_PCM_FORMAT_S32", "SNDRV_PCM_FORMAT_S32_LE");
       ("SNDRV_PCM_FORMAT_U32", "SNDRV_PCM_FORMAT_U32_LE");
       ("SNDRV_PCM_FORMAT_FLOAT", "SNDRV_PCM_FORMAT_FLOAT_LE");
       ("SNDRV_PCM_FORMAT_FLOAT64", "SNDRV_PCM_FORMAT_FLOAT64_LE");
       ("SNDRV_PCM_FORMAT_IEC958_SUBFRAME", "SNDRV_PCM_FORMAT_IEC958_SUBFRAME_LE");
       ("SNDRV_PCM_FORMAT_S20", "SNDRV_PCM_FORMAT_S20_LE");
       ("SNDRV_PCM_FORMAT_U20", "SNDRV_PCM_FORMAT_U20_LE")]
  | Big_endian =>
      [("SNDRV_PCM_FORMAT_S16", "SNDRV_PCM_FORMAT_S16_BE");
       ("SNDRV_PCM_FORMAT_U16", "SNDRV_PCM_FORMAT_U16_BE");
       ("SNDRV_PCM_FORMAT_S24", "SNDRV_PCM_FORMAT_S24_BE");
       ("SNDRV_PCM_FORMAT_U24", "SNDRV_PCM_FORMAT_U24_BE");
       ("SNDRV_PCM_FORMAT_S32", "SNDRV_PCM_FORMAT_S32_BE");
       ("SNDRV_PCM_FORMAT_U32", "SNDRV_PCM_FORMAT_U32_BE");
       ("SNDRV_PCM_FORMAT_FLOAT", "SNDRV_PCM_FORMAT_FLOAT_BE");
       ("SNDRV_PCM_FORMAT_FLOAT64", "SNDRV_PCM_FORMAT_FLOAT64_BE");
       ("SNDRV_PCM_FORMAT_IEC958_SUBFRAME", "SNDRV_PCM_FORMAT_IEC958_SUBFRAME_BE");
       ("SNDRV_PCM_FORMAT_S20", "SNDRV_PCM_FORMAT_S20_BE");
       ("SNDRV_PCM_FORMAT_U20", "SNDRV_PCM_FORMAT_U20_BE")]
  end.

Definition asound_number (x : string) : Z := default (-1) (number (H := no_externals) LP64 Asound.header x).

(** The code of the format a program calls [x], on a machine of byte order [e]. *)
Definition native_format (e : byte_order) (x : string) : option Z :=
  p ← List.find (fun p => String.eqb p.1 x) (native_formats e); Some (asound_number p.2).

(** The format codes of the header, by name; the first and the last one have a second name. *)
Definition format_names : list string :=
  List.filter (fun x => negb (String.eqb x "SNDRV_PCM_FORMAT_LAST" || String.eqb x "SNDRV_PCM_FORMAT_FIRST"))
    (map fst Asound.SNDRV_PCM_FORMAT_defs).

(** ** Places of the hardware parameters *)

(** The word of a mask that holds the bit of a value, and the bit in it. *)
Definition mask_bit (v : Z) : Z * Z := (4 * (v / 32), v mod 32).

(** Where the mask or the interval of parameter [p] begins in the structure. *)
Definition hw_param_place (a : abi) (p : Z) : option Z :=
  if (SNDRV_PCM_HW_PARAM_FIRST_MASK <=? p) && (p <=? SNDRV_PCM_HW_PARAM_LAST_MASK) then
    o ← offsetof a struct_snd_pcm_hw_params "masks";
    Some (o + (p - SNDRV_PCM_HW_PARAM_FIRST_MASK) * sizeof a struct_snd_mask)
  else if (SNDRV_PCM_HW_PARAM_FIRST_INTERVAL <=? p) && (p <=? SNDRV_PCM_HW_PARAM_LAST_INTERVAL) then
    o ← offsetof a struct_snd_pcm_hw_params "intervals";
    Some (o + (p - SNDRV_PCM_HW_PARAM_FIRST_INTERVAL) * sizeof a struct_snd_interval)
  else None.

Definition hw_param_size (a : abi) (p : Z) : Z :=
  if p <=? SNDRV_PCM_HW_PARAM_LAST_MASK then sizeof a struct_snd_mask else sizeof a struct_snd_interval.

(** The parameters the header names, first and last ones apart. *)
Definition hw_params : list (string * Z) := [
   ("SNDRV_PCM_HW_PARAM_ACCESS", SNDRV_PCM_HW_PARAM_ACCESS);
   ("SNDRV_PCM_HW_PARAM_FORMAT", asound_number "SNDRV_PCM_HW_PARAM_FORMAT");
   ("SNDRV_PCM_HW_PARAM_SUBFORMAT", SNDRV_PCM_HW_PARAM_SUBFORMAT);
   ("SNDRV_PCM_HW_PARAM_SAMPLE_BITS", SNDRV_PCM_HW_PARAM_SAMPLE_BITS);
   ("SNDRV_PCM_HW_PARAM_FRAME_BITS", asound_number "SNDRV_PCM_HW_PARAM_FRAME_BITS");
   ("SNDRV_PCM_HW_PARAM_CHANNELS", asound_number "SNDRV_PCM_HW_PARAM_CHANNELS");
   ("SNDRV_PCM_HW_PARAM_RATE", asound_number "SNDRV_PCM_HW_PARAM_RATE");
   ("SNDRV_PCM_HW_PARAM_PERIOD_TIME", asound_number "SNDRV_PCM_HW_PARAM_PERIOD_TIME");
   ("SNDRV_PCM_HW_PARAM_PERIOD_SIZE", asound_number "SNDRV_PCM_HW_PARAM_PERIOD_SIZE");
   ("SNDRV_PCM_HW_PARAM_PERIOD_BYTES", asound_number "SNDRV_PCM_HW_PARAM_PERIOD_BYTES");
   ("SNDRV_PCM_HW_PARAM_PERIODS", asound_number "SNDRV_PCM_HW_PARAM_PERIODS");
   ("SNDRV_PCM_HW_PARAM_BUFFER_TIME", asound_number "SNDRV_PCM_HW_PARAM_BUFFER_TIME");
   ("SNDRV_PCM_HW_PARAM_BUFFER_SIZE", asound_number "SNDRV_PCM_HW_PARAM_BUFFER_SIZE");
   ("SNDRV_PCM_HW_PARAM_BUFFER_BYTES", asound_number "SNDRV_PCM_HW_PARAM_BUFFER_BYTES");
   ("SNDRV_PCM_HW_PARAM_TICK_TIME", SNDRV_PCM_HW_PARAM_TICK_TIME)].

(** ** Patch keys *)

Definition SNDRV_OSS_PATCHKEY (e : byte_order) (id : Z) : Z :=
  match e with
  | Big_endian => 0xfd00 .|[S32] id
  | Little_endian => (id <<[S32] 8) .|[S32] 0xfd
  end.

(** The two bytes of the [unsigned short] member that holds a key. *)
Definition key_bytes (e : byte_order) (key : Z) : list Z :=
  match e with
  | Big_endian => [(key / 256) mod 256; key mod 256]
  | Little_endian => [key mod 256; (key / 256) mod 256]
  end.

(** ** Properties *)

Lemma formats_apart f g :
  In f format_names -> In g format_names ->
  0 <= asound_number f < SNDRV_MASK_MAX /\ (mask_bit (asound_number f) = mask_bit (asound_number g) -> f = g).
Proof.
  intros Hf Hg.
  assert (forallb (fun f => (0 <=? asound_number f) && (asound_number f <? SNDRV_MASK_MAX)
            && forallb (fun g => implb (asound_number f =? asound_number g) (String.eqb f g)) format_names)
            format_names = true) as Hc by (vm_compute; reflexivity).
  rewrite forallb_forall in Hc. specialize (Hc f Hf).
  rewrite !andb_true_iff, Z.leb_le, Z.ltb_lt, forallb_forall in Hc. destruct Hc as [[Hlo Hhi] Hd].
  split; [done|]. specialize (Hd g Hg).
  generalize dependent (asound_number g). generalize (asound_number f). clear.
  intros n m Hd E. unfold mask_bit in E. apply String.eqb_eq. injection E as Hq Hr.
  assert (n = m) as -> by zlia. by rewrite Z.eqb_refl in Hd.
Qed.

(** A name without byte order is the format of that name for the machine's order; the formats of
    the two orders have codes one apart; and all formats of the header have codes of their own, so that each
    has its own bit in a mask. *)
Theorem native_formats_ok (e : byte_order) (x y : string) :
  In (x, y) (native_formats e) ->
  y = (x ++ match e with Little_endian => "_LE" | Big_endian => "_BE" end)%string /\
  In y format_names /\
  (exists n, native_format Little_endian x = Some n /\ native_format Big_endian x = Some (n + 1)) /\
  (forall f g, In f format_names -> In g format_names ->
     0 <= asound_number f < SNDRV_MASK_MAX /\
     (mask_bit (asound_number f) = mask_bit (asound_number g) -> f = g)).
Proof.
  intros Hx.
  assert (forallb (fun p => String.eqb p.2 (p.1 ++ match e with Little_endian => "_LE" | Big_endian => "_BE" end)
                            && existsb (String.eqb p.2) format_names
                            && match native_format Little_endian p.1, native_format Big_endian p.1 with
                               | Some n, Some m => m =? n + 1
                               | _, _ => false
                               end) (native_formats e) = true) as Hn by (destruct e; vm_compute; reflexivity).
  rewrite forallb_forall in Hn. apply Hn in Hx. cbn [fst snd] in Hx.
  rewrite !andb_true_iff in Hx. destruct Hx as [[Hy%String.eqb_eq Hin] Hc].
  apply existsb_exists in Hin as (y' & Hin & <-%String.eqb_eq). split_and!; [exact Hy|exact Hin| |].
  - destruct (native_format Little_endian x) as [n|], (native_format Big_endian x) as [m|]; try done.
    exists n. apply Z.eqb_eq in Hc as ->. done.
  - intros f g Hf Hg. exact (formats_apart f g Hf Hg).
Qed.

(** Every hardware parameter has its mask or interval inside the structure, and no two overlap. *)
Theorem hw_params_apart `{LinuxUapi} (a : abi) (x y : string) (p q : Z) :
  arm_abi a -> In (x, p) hw_params -> In (y, q) hw_params ->
  exists o, hw_param_place a p = Some o /\
    0 <= o /\ o + hw_param_size a p <= sizeof a struct_snd_pcm_hw_params /\
    forall o', hw_param_place a q = Some o' ->
      x = y \/ o + hw_param_size a p <= o' \/ o' + hw_param_size a q <= o.
Proof.
  intros Ha Hx Hy.
  assert (forallb (fun x => match hw_param_place a x.2 with
            | Some o => (0 <=? o) && (o + hw_param_size a x.2 <=? sizeof a struct_snd_pcm_hw_params)
                && forallb (fun y => match hw_param_place a y.2 with
                   | Some o' => String.eqb x.1 y.1 || (o + hw_param_size a x.2 <=? o')
                                || (o' + hw_param_size a y.2 <=? o)
                   | None => true end) hw_params
            | None => false end) hw_params = true) as Hc by (destruct Ha as [-> | ->]; vm_compute; reflexivity).
  rewrite forallb_forall in Hc. specialize (Hc _ Hx). cbn [fst snd] in Hc.
  destruct (hw_param_place a p) as [o|]; [|done].
  rewrite !andb_true_iff, !Z.leb_le, forallb_forall in Hc. destruct Hc as [[Hlo Hhi] Hd].
  exists o. split_and!; [done|exact Hlo|exact Hhi|]. intros o' Ho'. specialize (Hd _ Hy). cbn [fst snd] in Hd.
  rewrite Ho', !orb_true_iff, !Z.leb_le, String.eqb_eq in Hd. tauto.
Qed.

(** A patch file that begins with a key is read by machines of either byte order: the key's bytes in
    memory are the same two. *)
Theorem patch_key_bytes (e : byte_order) (id : Z) :
  0 <= id < 256 -> key_bytes e (SNDRV_OSS_PATCHKEY e id) = [0xfd; id].
Proof.
  intros Hid.
  assert (forallb (fun id => bool_decide (key_bytes e (SNDRV_OSS_PATCHKEY e id) = [0xfd; id])) (seqZ 0 256) = true) as Hc
    by (destruct e; vm_compute; reflexivity).
  assert (In id (seqZ 0 256)) as Hin by (apply list_elem_of_In, elem_of_seqZ; lia).
  rewrite forallb_forall in Hc. exact (bool_decide_eq_true_1 _ (Hc id Hin)).
Qed.
