(* ===== verification/Fx8010.v ===== *)
(** * Fx8010: the effects processor of [include/sound/emu10k1.h]

    The register windows of a program for the processor, which the header's macros place from
    constants of the driver, and the instructions as the header describes them. *)

From S2P Require Import Prelude CLayout CExpr ConstAlsa ConstProps.

#[local] Open Scope string_scope.
#[local] Open Scope list_scope.
#[local] Open Scope Z_scope.

(** ** Register windows *)

(** What the macros take from the driver's registers, and their documented values. *)
Class FxBases := {
  FXGPREGBASE : Z;
  A_FXGPREGBASE : Z;
  TANKMEMDATAREGBASE : Z;
  TANKMEMADDRREGBASE : Z;
  A_TANKMEMCTLREGBASE : Z;
}.

Class FxBasesLaws `{FxBases} : Prop := {
  fx_bases : [FXGPREGBASE; TANKMEMDATAREGBASE; TANKMEMADDRREGBASE; A_FXGPREGBASE] = [0x100; 0x200; 0x300; 0x400];
  fx_ctl_base : A_TANKMEMCTLREGBASE = 0x100;
}.

Section Windows.
Context `{FxBases}.

Definition FXBUS (x : Z) : Z := 0x00 + x.
Definition EXTIN (x : Z) : Z := 0x10 + x.
Definition EXTOUT (x : Z) : Z := 0x20 + x.
Definition FXBUS2 (x : Z) : Z := 0x30 + x.
Definition GPR (x : Z) : Z := FXGPREGBASE + x.
Definition ITRAM_DATA (x : Z) : Z := TANKMEMDATAREGBASE + 0x00 + x.
Definition ETRAM_DATA (x : Z) : Z := TANKMEMDATAREGBASE + 0x80 + x.
Definition ITRAM_ADDR (x : Z) : Z := TANKMEMADDRREGBASE + 0x00 + x.
Definition ETRAM_ADDR (x : Z) : Z := TANKMEMADDRREGBASE + 0x80 + x.
Definition A_ITRAM_DATA (x : Z) : Z := TANKMEMDATAREGBASE + 0x00 + x.
Definition A_ETRAM_DATA (x : Z) : Z := TANKMEMDATAREGBASE + 0xc0 + x.
Definition A_ITRAM_ADDR (x : Z) : Z := TANKMEMADDRREGBASE + 0x00 + x.
Definition A_ETRAM_ADDR (x : Z) : Z := TANKMEMADDRREGBASE + 0xc0 + x.
Definition A_ITRAM_CTL (x : Z) : Z := A_TANKMEMCTLREGBASE + 0x00 + x.
Definition A_ETRAM_CTL (x : Z) : Z := A_TANKMEMCTLREGBASE + 0xc0 + x.
Definition A_FXBUS (x : Z) : Z := 0x00 + x.
Definition A_EXTIN (x : Z) : Z := 0x40 + x.
Definition A_P16VIN (x : Z) : Z := 0x50 + x.
Definition A_EXTOUT (x : Z) : Z := 0x60 + x.
Definition A_FXBUS2 (x : Z) : Z := 0x80 + x.
Definition A_EMU32OUTH (x : Z) : Z := 0xa0 + x.
Definition A_EMU32OUTL (x : Z) : Z := 0xb0 + x.
Definition A3_EMU32IN (x : Z) : Z := 0x160 + x.
Definition A3_EMU32OUT (x : Z) : Z := 0x1E0 + x.
Definition A_GPR (x : Z) : Z := A_FXGPREGBASE + x.

(** The windows of a card with the largest argument their comments allow; the registers of
    the free GPRs of the Audigy have no comment, their bitmap in the header has 0x200 bits. *)
Definition sb_live : list (string * (Z -> Z) * Z) :=
  [("FXBUS", FXBUS, 0x0f); ("EXTIN", EXTIN, 0x0f); ("EXTOUT", EXTOUT, 0x0f); ("FXBUS2", FXBUS2, 0x0f);
   ("GPR", GPR, 0xff); ("ITRAM_DATA", ITRAM_DATA, 0x7f); ("ETRAM_DATA", ETRAM_DATA, 0x1f);
   ("ITRAM_ADDR", ITRAM_ADDR, 0x7f); ("ETRAM_ADDR", ETRAM_ADDR, 0x1f)].

Definition audigy : list (string * (Z -> Z) * Z) :=
  [("A_FXBUS", A_FXBUS, 0x3f); ("A_EXTIN", A_EXTIN, 0x0f); ("A_P16VIN", A_P16VIN, 0x0f);
   ("A_EXTOUT", A_EXTOUT, 0x1f); ("A_FXBUS2", A_FXBUS2, 0x1f); ("A_EMU32OUTH", A_EMU32OUTH, 0x0f);
   ("A_EMU32OUTL", A_EMU32OUTL, 0x0f); ("A_ITRAM_CTL", A_ITRAM_CTL, 0xbf); ("A_ETRAM_CTL", A_ETRAM_CTL, 0x3f);
   ("A_ITRAM_DATA", A_ITRAM_DATA, 0xbf); ("A_ETRAM_DATA", A_ETRAM_DATA, 0x3f);
   ("A_ITRAM_ADDR", A_ITRAM_ADDR, 0xbf); ("A_ETRAM_ADDR", A_ETRAM_ADDR, 0x3f); ("A_GPR", A_GPR, 0x1ff)].

(** The registers of fixed number: constants of the processor, and the accumulator and its like. *)
Definition fixed_registers : list string :=
  List.filter (fun x => String.prefix "C_" x || String.prefix "GPR_" x)
    (map fst (concat (h_defs Emu10k1.header))).
Definition a_fixed_registers : list string :=
  List.filter (fun x => String.prefix "A_C_" x || String.prefix "A_GPR_" x)
    (map fst (concat (h_defs Emu10k1.header))).
End Windows.

(** ** Instructions

    [R = ...] of the comments, for the instructions they describe completely: operands and result are
    32-bit fractions in two's complement, the shift drops the fraction of the 64-bit product. *)

Inductive fx_op : Type :=
  iMAC0 | iMAC1 | iMAC2 | iMAC3 | iMACINT0 | iACC3 | iANDXOR | iTSTNEG | iLIMITGE | iLIMITLT | iINTERP.

Definition saturate (z : Z) : Z := Z.max (min_int S32) (Z.min (max_int S32) z).
Definition wraparound (z : Z) : Z := cast S32 z.

Definition fx_exec (op : fx_op) (A X Y : Z) : Z :=
  match op with
  | iMAC0 => saturate (A + Z.shiftr (X * Y) 31)
  | iMAC1 => saturate (A + Z.shiftr (- X * Y) 31)
  | iMAC2 => wraparound (A + Z.shiftr (X * Y) 31)
  | iMAC3 => wraparound (A + Z.shiftr (- X * Y) 31)
  | iMACINT0 => saturate (A + X * Y)
  | iACC3 => saturate (A + X + Y)
  | iANDXOR => Z.lxor (Z.land A X) Y
  | iTSTNEG => if A >=? Y then X else Z.lnot X
  | iLIMITGE => if A >=? Y then X else Y
  | iLIMITLT => if A <? Y then X else Y
  | iINTERP => saturate (A + Z.shiftr (X * (Y - A)) 31)
  end.

(** ** Properties *)

Section WindowProps.
Context `{FxBases} {Hlaws : FxBasesLaws}.

Definition fx_number (x : string) : Z := default (-1) (number (H := no_externals) LP64 Emu10k1.header x).

(** The registers a window reaches. *)
Definition reach (w : string * (Z -> Z) * Z) : list Z := map w.1.2 (seqZ 0 (w.2 + 1)).

Definition windows_ok (ws : list (string * (Z -> Z) * Z)) (fixed : list string) : bool :=
  bool_decide (NoDup (concat (map reach ws) ++ map fx_number fixed))
  && forallb (fun r => 0 <=? r) (map fx_number fixed).
End WindowProps.

#[local] Instance documented_bases : FxBases :=
  {| FXGPREGBASE := 0x100; A_FXGPREGBASE := 0x400; TANKMEMDATAREGBASE := 0x200;
     TANKMEMADDRREGBASE := 0x300; A_TANKMEMCTLREGBASE := 0x100 |}.

Lemma fx_bases_known (B : FxBases) : FxBasesLaws -> B = documented_bases.
Proof. intros [[= E1 E2 E3 E4] E5]. destruct B. cbn in *. by subst. Qed.

Lemma windows_checked :
  windows_ok sb_live fixed_registers = true /\ windows_ok audigy a_fixed_registers = true.
Proof. split; vm_compute; reflexivity. Qed.

Lemma NoDup_concat_map {A B} (f : A -> list B) l x x' b :
  NoDup (concat (map f l)) -> x ∈ l -> x' ∈ l -> b ∈ f x -> b ∈ f x' -> x = x'.
Proof.
  induction l as [|y l IH]; [by intros _ ?%elem_of_nil|].
  cbn [map concat]. intros (_ & Hd & Hl)%NoDup_app Hx Hx' Hb Hb'.
  assert (forall z, z ∈ l -> b ∈ f z -> b ∈ concat (map f l)) as Hin.
  { intros z Hz Hbz. apply list_elem_of_In, in_concat. exists (f z).
    split; [by apply in_map, list_elem_of_In|by apply list_elem_of_In]. }
  rewrite !elem_of_cons in Hx, Hx'. destruct Hx as [->|Hx], Hx' as [->|Hx']; [done| | |by apply IH].
  - destruct (Hd b Hb). by apply (Hin x').
  - destruct (Hd b Hb'). by apply (Hin x).
Qed.

Lemma windows_ok_inj `{FxBases} ws fixed w w' x x' :
  windows_ok ws fixed = true -> In w ws -> In w' ws -> 0 <= x <= w.2 -> 0 <= x' <= w'.2 ->
  w.1.2 x = w'.1.2 x' -> w = w'.
Proof.
  intros [Hn%bool_decide_eq_true_1 _]%andb_true_iff Hw Hw' Hx Hx' E. apply NoDup_app in Hn as [Hn _].
  assert (forall v y, 0 <= y <= v.2 -> v.1.2 y ∈ reach v) as Hr.
  { intros v y Hy. apply list_elem_of_In, in_map_iff. exists y. split; [done|].
    apply list_elem_of_In, elem_of_seqZ. lia. }
  apply (NoDup_concat_map reach ws w w' (w.1.2 x)); [done|by apply list_elem_of_In..|by apply Hr|].
  rewrite E. by apply Hr.
Qed.

Lemma windows_ok_fixed `{FxBases} ws fixed w x r :
  windows_ok ws fixed = true -> In w ws -> 0 <= x <= w.2 -> In r fixed -> w.1.2 x <> fx_number r.
Proof.
  intros [Hn%bool_decide_eq_true_1 _]%andb_true_iff Hw Hx Hr E. apply NoDup_app in Hn as (_ & Hd & _).
  apply (Hd (w.1.2 x)).
  - apply list_elem_of_In, in_concat. exists (reach w). split; [by apply in_map|].
    apply in_map_iff. exists x. split; [done|]. apply list_elem_of_In, elem_of_seqZ. lia.
  - rewrite E. by apply list_elem_of_In, in_map.
Qed.

Lemma window_affine `{FxBases} w x :
  In w (sb_live ++ audigy) -> w.1.2 x = w.1.2 0 + x.
Proof.
  intros Hw. repeat (destruct Hw as [<-|Hw]; [unfold fst, snd, FXBUS, EXTIN, EXTOUT, FXBUS2, GPR, ITRAM_DATA, ETRAM_DATA,
    ITRAM_ADDR, ETRAM_ADDR, A_FXBUS, A_EXTIN, A_P16VIN, A_EXTOUT, A_FXBUS2, A_EMU32OUTH, A_EMU32OUTL, A_ITRAM_CTL,
    A_ETRAM_CTL, A_ITRAM_DATA, A_ETRAM_DATA, A_ITRAM_ADDR, A_ETRAM_ADDR, A_GPR; lia|]). done.
Qed.

(** A program addresses every register of a card by one window and one argument: within the
    documented ranges two windows of a card have no register in common, and none reaches the
    constants and special registers. The window of the 32-bit inputs is for other cards: it lies over the
    control registers of the Audigy's delay memory. *)
Theorem fx_windows_apart `{B : FxBases} (Hlaws : FxBasesLaws) ws fixed w w' x x' r :
  In (ws, fixed) [(sb_live, fixed_registers); (audigy, a_fixed_registers)] ->
  In w ws -> In w' ws -> 0 <= x <= w.2 -> 0 <= x' <= w'.2 -> In r fixed ->
  (w.1.2 x = w'.1.2 x' <-> w = w' /\ x = x') /\ w.1.2 x <> fx_number r /\ A3_EMU32IN 0 = A_ITRAM_CTL 0x60.
Proof.
  intros Hc Hw Hw' Hx Hx' Hr.
  assert (windows_ok ws fixed = true /\ In w (sb_live ++ audigy)) as [Hok Hin].
  { rewrite in_app_iff. rewrite (fx_bases_known B Hlaws) in *.
    destruct windows_checked as [H1 H2]. destruct Hc as [[= <- <-]|[[= <- <-]|[]]]; auto. }
  split_and!.
  - split; [|by intros [-> ->]]. intros E.
    pose proof (windows_ok_inj ws fixed w w' x x' Hok Hw Hw' Hx Hx' E) as <-. split; [done|].
    rewrite (window_affine w x Hin), (window_affine w x' Hin) in E. lia.
  - exact (windows_ok_fixed ws fixed w x r Hok Hw Hx Hr).
  - by rewrite (fx_bases_known B Hlaws).
Qed.

Lemma fx_windows_apart_witness : ITRAM_DATA 0x7f <> ETRAM_DATA 0.
Proof.
  intros E.
  apply (fx_windows_apart (B := documented_bases) (@Build_FxBasesLaws documented_bases eq_refl eq_refl) sb_live fixed_registers
    ("ITRAM_DATA", ITRAM_DATA, 0x7f) ("ETRAM_DATA", ETRAM_DATA, 0x1f) 0x7f 0 "C_00000000") in E as [E _];
    [discriminate E|by left|entry 5%nat|entry 6%nat|by vm_compute|by vm_compute|entry 0%nat].
Defined.

(** ** Instructions *)

Notation fraction z := (in_range S32 z).

Lemma saturate_range z : fraction (saturate z).
Proof. unfold saturate. unfold_range. lia. Qed.

Lemma saturate_id z : fraction z -> saturate z = z.
Proof. unfold saturate. unfold_range. lia. Qed.

Lemma shiftr31 z : Z.shiftr z 31 = z / 2 ^ 31.
Proof. by apply Z.shiftr_div_pow2. Qed.

(** A part of the way from [a] to [y] is between them. *)
Lemma interp_between A X Y :
  0 <= X < 2 ^ 31 -> Z.min A Y <= A + Z.shiftr (X * (Y - A)) 31 <= Z.max A Y.
Proof.
  intros HX. rewrite shiftr31. pose proof (Z.mul_div_le (X * (Y - A)) (2 ^ 31) ltac:(lia)).
  pose proof (Z.mul_succ_div_gt (X * (Y - A)) (2 ^ 31) ltac:(lia)). norm_pow. nia.
Qed.

(** A fraction is its sign from bit 31 on. *)
Lemma fraction_sign z : fraction z <-> Z.shiftr z 31 = 0 \/ Z.shiftr z 31 = -1.
Proof. rewrite shiftr31. unfold_range. zlia. Qed.

Lemma bitwise_range x y :
  fraction x -> fraction y -> fraction (Z.land x y) /\ fraction (Z.lxor x y) /\ fraction (Z.lnot x).
Proof.
  intros Hx Hy. split_and!; [..|revert Hx; unfold Z.lnot; unfold_range; lia];
    apply fraction_sign; apply fraction_sign in Hx, Hy; rewrite ?Z.shiftr_land, ?Z.shiftr_lxor; destruct Hx as [-> | ->], Hy as [-> | ->]; vm_compute; auto.
Qed.

Lemma fx_exec_range op A X Y : fraction A -> fraction X -> fraction Y -> fraction (fx_exec op A X Y).
Proof.
  intros HA HX HY. pose proof (bitwise_range A X HA HX) as (Hand & _ & _). pose proof (bitwise_range X Y HX HY) as (_ & _ & Hnot).
  pose proof (bitwise_range (Z.land A X) Y Hand HY) as (_ & Hxor & _).
  destruct op; cbn [fx_exec]; try case_match; auto using saturate_range; by apply cast_range.
Qed.

Lemma fx_product_bound X Y : fraction X -> fraction Y -> - 2 ^ 31 <= Z.shiftr (X * Y) 31 <= 2 ^ 31.
Proof.
  intros HX HY. rewrite shiftr31. revert HX HY. unfold_range. intros HX HY.
  assert (- 4611686018427387904 <= X * Y <= 4611686018427387904) by nia. zlia.
Qed.

(** A sum out of range by less than the whole range wraps to the other sign. *)
Lemma wraps_beyond z : ~ fraction z -> - 2 ^ 32 <= z < 2 ^ 32 -> saturate z <> wraparound z.
Proof. unfold saturate, wraparound, cast. unfold_range. zlia. Qed.

(** Every instruction has a 32-bit result. The instructions a program builds everything else from do what
    it relies on: adding zero copies, and adding saturates instead of changing the sign; a mask of all ones with
    and without the second operand copies and inverts; comparing a value with the limit it is
    replaced by gives the larger and the smaller of two; interpolation stays between its end points, so that it
    never saturates; and the two kinds of multiplication differ only where the sum overflows. *)
Theorem fx_instructions (op : fx_op) (A X Y : Z) :
  fraction A -> fraction X -> fraction Y ->
  fraction (fx_exec op A X Y) /\
  fx_exec iACC3 A 0 0 = A /\ fx_exec iANDXOR A (-1) 0 = A /\ fx_exec iANDXOR A (-1) (-1) = - A - 1 /\
  (fx_exec iACC3 A X 0 = A + X \/ A + X < min_int S32 /\ fx_exec iACC3 A X 0 = min_int S32 \/
   max_int S32 < A + X /\ fx_exec iACC3 A X 0 = max_int S32) /\
  fx_exec iLIMITGE A A Y = Z.max A Y /\ fx_exec iLIMITLT A A Y = Z.min A Y /\
  (0 <= X -> Z.min A Y <= fx_exec iINTERP A X Y <= Z.max A Y) /\
  (fraction (A + Z.shiftr (X * Y) 31) -> fx_exec iMAC0 A X Y = fx_exec iMAC2 A X Y) /\
  (~ fraction (A + Z.shiftr (X * Y) 31) -> fx_exec iMAC0 A X Y <> fx_exec iMAC2 A X Y).
Proof.
  intros HA HX HY. split; [by apply fx_exec_range|]. cbn [fx_exec].
  split_and!.
  - rewrite !Z.add_0_r. by apply saturate_id.
  - by rewrite Z.land_m1_r, Z.lxor_0_r.
  - rewrite Z.land_m1_r, Z.lxor_m1_r. unfold Z.lnot. lia.
  - rewrite Z.add_0_r. unfold saturate. unfold_range. lia.
  - destruct (Z.geb_spec A Y); lia.
  - destruct (Z.ltb_spec A Y); lia.
  - intros HX0. pose proof (interp_between A X Y) as Hb. revert HA HX HY. unfold saturate. unfold_range. lia.
  - intros Hf. rewrite saturate_id by done. unfold wraparound. symmetry. by apply cast_id.
  - intros Hf. apply wraps_beyond; [done|]. pose proof (fx_product_bound X Y HX HY). revert HA. unfold_range. lia.
Qed.

Lemma fx_instructions_witness : fx_exec iMAC0 (2 ^ 31 - 1) (2 ^ 30) (2 ^ 30) <> fx_exec iMAC2 (2 ^ 31 - 1) (2 ^ 30) (2 ^ 30).
Proof.
  apply (fx_instructions iMAC0); [by vm_compute|by vm_compute|by vm_compute|].
  intros [_ Hf]. by vm_compute in Hf.
Defined.
