(* ===== verification/NetMacros.v ===== *)
(** * NetMacros: macros of the network headers that name members or test flags

    The member names of a file handle in [include/linux/nfsd/nfsfh.h], with the rule that tells an
    old handle from a new one, and the mode tests of [include/linux/msm_rmnet.h]. *)

From S2P Require Import Prelude Align Bits CLayout CMem CExpr Ioctl Uapi UapiNet ConstNet ConstProps.

#[local] Open Scope string_scope.
#[local] Open Scope list_scope.
#[local] Open Scope Z_scope.

(** ** Members by path *)

(** The direct members of a structure or union with their places. *)
Definition direct_members (a : abi) (t : ctype) : list (string * (Z * ctype)) :=
  match t with
  | CStruct p ms => map (fun x => (x.1.1, (m_off x.2, x.1.2))) (combine ms (place a p 0 ms))
  | CUnion ms => map (fun m => (m.1, (0, m.2))) ms
  | _ => []
  end.

(** Place and type of a member of a member, as C's [x.y.z]. *)
Fixpoint member_at (a : abi) (t : ctype) (path : list string) : option (Z * ctype) :=
  match path with
  | [] => Some (0, t)
  | n :: path =>
      '(_, (o, u)) ← List.find (fun m => String.eqb m.1 n) (direct_members a t);
      '(o', v) ← member_at a u path;
      Some (o + o', v)
  end.

(** ** File handles *)

(** The macros for the members of a handle, old names first. *)
Definition fh_members : list (string * list string) := [
  ("ofh_dcookie", ["fh_base"; "fh_old"; "fb_dcookie"]);
  ("ofh_ino", ["fh_base"; "fh_old"; "fb_ino"]);
  ("ofh_dirino", ["fh_base"; "fh_old"; "fb_dirino"]);
  ("ofh_dev", ["fh_base"; "fh_old"; "fb_dev"]);
  ("ofh_xdev", ["fh_base"; "fh_old"; "fb_xdev"]);
  ("ofh_xino", ["fh_base"; "fh_old"; "fb_xino"]);
  ("ofh_generation", ["fh_base"; "fh_old"; "fb_generation"]);
  ("fh_version", ["fh_base"; "fh_new"; "fb_version"]);
  ("fh_fsid_type", ["fh_base"; "fh_new"; "fb_fsid_type"]);
  ("fh_auth_type", ["fh_base"; "fh_new"; "fb_auth_type"]);
  ("fh_fileid_type", ["fh_base"; "fh_new"; "fb_fileid_type"]);
  ("fh_fsid", ["fh_base"; "fh_new"; "fb_auth"]);
  ("fh_auth", ["fh_base"; "fh_new"; "fb_auth"])].

Section Handles.
Context `{LinuxUapi}.

Definition fh_member (a : abi) (x : string) : option (Z * ctype) :=
  p ← List.find (fun p => String.eqb p.1 x) fh_members; member_at a struct_knfsd_fh p.2.

(** [fb_version]: 1 for a new handle, even for an old one. *)
Definition is_old_handle (a : abi) (off : Z) (m : memory) : option bool :=
  '(o, t) ← fh_member a "fh_version";
  match load a t (off + o) m with VInt v => Some (Z.even v) | _ => None end.

(** A handle of either kind, written to the part of the structure behind its size. *)
Definition write_old (a : abi) (v : cvalue) (off : Z) (m : memory) : memory :=
  store a struct_nfs_fhbase_old v (off + default 0 (offsetof a struct_knfsd_fh "fh_base")) m.
Definition write_new (a : abi) (v : cvalue) (off : Z) (m : memory) : memory :=
  store a struct_nfs_fhbase_new v (off + default 0 (offsetof a struct_knfsd_fh "fh_base")) m.
End Handles.

(** ** Modes of the network device *)

Definition rmnet_number (x : string) : Z := default 0 (number (H := no_externals) LP64 Msm_rmnet.header x).

Definition RMNET_IS_MODE_QOS (mode : Z) : bool :=
  Z.land mode (rmnet_number "RMNET_MODE_QOS") =? rmnet_number "RMNET_MODE_QOS".
Definition RMNET_IS_MODE_IP (mode : Z) : bool :=
  Z.land mode (rmnet_number "RMNET_MODE_LLP_IP") =? rmnet_number "RMNET_MODE_LLP_IP".

(** ** Properties *)

(** Every macro names a member of the handle, inside the structure. *)
Lemma fh_members_exist `{LinuxUapi} (Huapi : LinuxUapiLaws) a x p :
  arm_abi a -> In (x, p) fh_members ->
  exists o t, fh_member a x = Some (o, t) /\ 4 <= o /\ o + sizeof a t <= sizeof a struct_knfsd_fh.
Proof.
  rewrite uapi_known. intros Ha Hx.
  assert (forallb (fun x => match @fh_member linux_uapi a x.1 with
            | Some (o, t) => (4 <=? o) && (o + sizeof a t <=? sizeof a (@struct_knfsd_fh linux_uapi))
            | None => false end) fh_members = true) as Hc by (destruct Ha as [-> | ->]; vm_compute; reflexivity).
  rewrite forallb_forall in Hc. specialize (Hc _ Hx). cbn [fst] in Hc.
  destruct (fh_member a x) as [[o t]|]; [|done]. apply andb_true_iff in Hc as [Hlo%Z.leb_le Hhi%Z.leb_le].
  by exists o, t.
Qed.

Lemma is_old_byte `{LinuxUapi} (Huapi : LinuxUapiLaws) a off m :
  arm_abi a -> is_old_handle a off m = Some (Z.even (load_int 1 (off + 4) m)).
Proof. rewrite uapi_known. by intros [-> | ->]. Qed.

Lemma fh_base_place `{LinuxUapi} (Huapi : LinuxUapiLaws) a :
  arm_abi a -> offsetof a struct_knfsd_fh "fh_base" = Some 4.
Proof. rewrite uapi_known. by intros [-> | ->]. Qed.

(** The parity of an integer in memory is that of its first byte. *)
Lemma even_load_int n off m : 0 < n -> Z.even (load_int n off m) = Z.even (m off).
Proof.
  intros Hn. unfold load_int, read_bytes.
  replace (seqZ 0 n) with (0 :: seqZ 1 (n - 1)) by (symmetry; apply (seqZ_cons 0 n Hn)).
  cbn [map little_endian_to_Z]. rewrite Z.add_0_r.
  rewrite <- !Z.negb_odd, <- !Z.bit0_odd, Z.lor_spec, Z.shiftl_spec_low by lia. by rewrite orb_false_r.
Qed.

(** The first member of a structure that was stored, at the beginning of it. *)
Lemma first_member_stored a n nm ms v vs off m :
  abi_ok a -> 0 < n -> (n =? 8) = false -> wf_type (CStruct false ((nm, CInt n) :: ms)) = true ->
  has_type a (CStruct false ((nm, CInt n) :: ms)) (VList (VInt v :: vs)) = true ->
  load_int n off (store a (CStruct false ((nm, CInt n) :: ms)) (VList (VInt v :: vs)) off m) = v.
Proof.
  intros Ha Hn Hn8 Hwf Ht. pose proof (load_store a Ha _ Hwf (VList (VInt v :: vs)) off m Ht) as E.
  generalize dependent (store a (CStruct false ((nm, CInt n) :: ms)) (VList (VInt v :: vs)) off m). intros m' E.
  rewrite load_struct in E. cbn [load_members] in E. injection E as E _.
  rewrite align_up_id, Z.add_0_r in E; [exact E| |apply Z.divide_0_r].
  cbn [member_align snd alignof]. rewrite Hn8. lia.
Qed.

(** Whatever the rest of it, a handle whose cookie is even, as is 0xfeebbaca that [fb_dcookie] always is by its comment,
    is found to be old by its version, and a handle of version 1 to be new; the names of either kind are members of one structure. *)
Theorem handle_version `{LinuxUapi} (Huapi : LinuxUapiLaws) (a : abi) (off : Z) (m : memory)
    (cookie : Z) (vs ws : list cvalue) (x : string) (p : list string) :
  arm_abi a -> In (x, p) fh_members -> Z.even cookie = true ->
  has_type a struct_nfs_fhbase_old (VList (VInt cookie :: vs)) = true ->
  has_type a struct_nfs_fhbase_new (VList (VInt 1 :: ws)) = true ->
  is_old_handle a off (write_old a (VList (VInt cookie :: vs)) off m) = Some true /\
  is_old_handle a off (write_new a (VList (VInt 1 :: ws)) off m) = Some false /\
  exists o t, fh_member a x = Some (o, t) /\ 4 <= o /\ o + sizeof a t <= sizeof a struct_knfsd_fh.
Proof.
  intros Ha Hx Hcookie Hv Hw. pose proof (arm_abi_ok a Ha) as Hok.
  split_and!; [| |by eapply fh_members_exist]; rewrite (is_old_byte Huapi a off _ Ha); unfold write_old, write_new;
    rewrite (fh_base_place Huapi a Ha); cbn [default from_option id]; f_equal; rewrite even_load_int by done.
  - rewrite <- (even_load_int 4) by done. by rewrite (first_member_stored a 4 _ _ _ vs _ m Hok eq_refl eq_refl (eq_refl : wf_type struct_nfs_fhbase_old = true) Hv).
  - rewrite <- (even_load_int 1) by done. by rewrite (first_member_stored a 1 _ _ _ ws _ m Hok eq_refl eq_refl (eq_refl : wf_type struct_nfs_fhbase_new = true) Hw).
Qed.

(** The mode tests are independent of each other and of the framing flag: in the word joined from any
    selection of the modes each test answers for its own. *)
Theorem rmnet_mode_tests (eth ip qos : bool) :
  let mode := joined (X := no_externals) LP64 Msm_rmnet.header
    ((if eth then ["RMNET_MODE_LLP_ETH"] else []) ++ (if ip then ["RMNET_MODE_LLP_IP"] else []) ++
     (if qos then ["RMNET_MODE_QOS"] else [])) in
  RMNET_IS_MODE_QOS mode = qos /\ RMNET_IS_MODE_IP mode = ip /\
  Z.land mode (rmnet_number "RMNET_MODE_MASK") = mode.
Proof. destruct eth, ip, qos; vm_compute; auto. Qed.
