(* ===== verification/WimaxHdi.v ===== *)
(** * WimaxHdi: words of the i2400m device ([include/linux/wimax/i2400m.h])

    The boot command, the payload descriptor and the reorder word as flag words, and the kinds
    of L3L4 messages. *)

From S2P Require Import Prelude Align Bits FlagWord CLayout CExpr ConstNet ConstProps.

#[local] Open Scope string_scope.
#[local] Open Scope list_scope.
#[local] Open Scope Z_scope.

(** ** Words *)

Definition I2400M_BRH_SIGNATURE : Z := 0xcbbc0000.
Definition I2400M_BRH_SIGNATURE_MASK : Z := 0xffff0000.
Definition I2400M_BRH_SIGNATURE_SHIFT : Z := 16.
Definition I2400M_BRH_OPCODE_MASK : Z := 0x0000000f.
Definition I2400M_BRH_RESPONSE_MASK : Z := 0x000000f0.
Definition I2400M_BRH_RESPONSE_SHIFT : Z := 4.
Definition I2400M_BRH_DIRECT_ACCESS : Z := 0x00000400.
Definition I2400M_BRH_RESPONSE_REQUIRED : Z := 0x00000200.
Definition I2400M_BRH_USE_CHECKSUM : Z := 0x00000100.

Definition I2400M_RO_NEEDED : Z := 0x01.
Definition I2400M_RO_TYPE : Z := 0x03.
Definition I2400M_RO_TYPE_SHIFT : Z := 1.
Definition I2400M_RO_CIN : Z := 0x0f.
Definition I2400M_RO_CIN_SHIFT : Z := 4.
Definition I2400M_RO_FBN : Z := 0x07ff.
Definition I2400M_RO_FBN_SHIFT : Z := 8.
Definition I2400M_RO_SN : Z := 0x07ff.
Definition I2400M_RO_SN_SHIFT : Z := 21.

Definition I2400M_PL_SIZE_MAX : Z := 0x3EFF.
Definition I2400M_PLD_SIZE_MASK : Z := 0x00003fff.
Definition I2400M_PLD_TYPE_SHIFT : Z := 16.
Definition I2400M_PLD_TYPE_MASK : Z := 0x000f0000.

(** The command of [struct i2400m_bootrom_header]. *)
Definition brh_command : flag_word := {|
  w_bits := [I2400M_BRH_DIRECT_ACCESS; I2400M_BRH_RESPONSE_REQUIRED; I2400M_BRH_USE_CHECKSUM];
  w_masks := [(I2400M_BRH_SIGNATURE_MASK, I2400M_BRH_SIGNATURE_SHIFT);
              (I2400M_BRH_RESPONSE_MASK, I2400M_BRH_RESPONSE_SHIFT); (I2400M_BRH_OPCODE_MASK, 0)] |}.

(** The word of [struct i2400m_pld]. *)
Definition pld_word : flag_word := {|
  w_bits := [];
  w_masks := [(I2400M_PLD_SIZE_MASK, 0); (I2400M_PLD_TYPE_MASK, I2400M_PLD_TYPE_SHIFT)] |}.

(** [reorder] of [struct i2400m_pl_edata_hdr]; its masks are those of the shifted values. *)
Definition ro_word : flag_word := {|
  w_bits := [I2400M_RO_NEEDED];
  w_masks := [(Z.shiftl I2400M_RO_TYPE I2400M_RO_TYPE_SHIFT, I2400M_RO_TYPE_SHIFT);
              (Z.shiftl I2400M_RO_CIN I2400M_RO_CIN_SHIFT, I2400M_RO_CIN_SHIFT);
              (Z.shiftl I2400M_RO_FBN I2400M_RO_FBN_SHIFT, I2400M_RO_FBN_SHIFT);
              (Z.shiftl I2400M_RO_SN I2400M_RO_SN_SHIFT, I2400M_RO_SN_SHIFT)] |}.

(** ** Kinds of messages *)

Definition message_types : list string := enum_names I2400m.i2400m_mt_enum.

Inductive message_kind : Type := Get | Set_ | Command | Report.

#[export] Instance message_kind_eq_dec : EqDecision message_kind.
Proof. solve_decision. Defined.

(** What a message type's name says it is. *)
Definition kind_of_name (x : string) : option message_kind :=
  if String.prefix "I2400M_MT_GET_" x then Some Get
  else if String.prefix "I2400M_MT_SET_" x then Some Set_
  else if String.prefix "I2400M_MT_CMD_" x then Some Command
  else if String.prefix "I2400M_MT_REPORT_" x && negb (String.eqb x "I2400M_MT_REPORT_MASK") then Some Report
  else None.

(** What its number says: a report has the bit of [I2400M_MT_REPORT_MASK]; the others tell the kind in
    bits 8 to 11. *)
Definition I2400M_MT_REPORT_MASK : Z := 0x8000.

Definition kind_of_number (n : Z) : option message_kind :=
  if c_true (Z.land n I2400M_MT_REPORT_MASK) then Some Report
  else match get_bits 8 4 n with 2 => Some Get | 4 => Some Set_ | 6 => Some Command | _ => None end.

(** ** The theorems *)

(** The words of the i2400m (boot command, payload descriptor, reorder word): joined from any flags and any
    field values, each is read back by its mask and shift; and the sizes and types of payloads the header
    admits, as its signature of boot commands, fit their fields. *)
Theorem i2400m_words (w : flag_word) (b : Z -> bool) (v : Z * Z -> Z) :
  In w [brh_command; pld_word; ro_word] ->
  (forall m, In m (w_masks w) -> 0 <= v m < 2 ^ (Z.log2 m.1 - m.2 + 1)) ->
  (forall flag, In flag (w_bits w) -> c_true (Z.land (make_word w b v) flag) = b flag) /\
  (forall m, In m (w_masks w) -> Z.shiftr (Z.land (make_word w b v) m.1) m.2 = v m) /\
  I2400M_PL_SIZE_MAX <= I2400M_PLD_SIZE_MASK /\
  (forall x, In x (enum_names I2400m.i2400m_pt_enum) ->
     exists n, number (H := no_externals) LP64 I2400m.header x = Some n /\
       Z.land (Z.shiftl n I2400M_PLD_TYPE_SHIFT) I2400M_PLD_TYPE_MASK = Z.shiftl n I2400M_PLD_TYPE_SHIFT) /\
  Z.land I2400M_BRH_SIGNATURE I2400M_BRH_SIGNATURE_MASK = I2400M_BRH_SIGNATURE.
Proof.
  intros Hin Hv.
  assert (flag_word_ok w = true) as Hw by (cbn in Hin; intuition subst; by vm_compute).
  split_and!; [intros; by apply read_flag|intros; by apply read_mask|done| |done].
  intros x Hx.
  destruct (numbers_check (H := no_externals) LP64 I2400m.header (fun _ n =>
    Z.land (Z.shiftl n I2400M_PLD_TYPE_SHIFT) I2400M_PLD_TYPE_MASK =? Z.shiftl n I2400M_PLD_TYPE_SHIFT)
    (enum_names I2400m.i2400m_pt_enum) x) as (n & Hn & Hm%Z.eqb_eq); [vm_compute; reflexivity|done|].
  by exists n.
Qed.

Lemma i2400m_words_witness :
  let x := Z.lor I2400M_RO_NEEDED (Z.shiftl 513 I2400M_RO_SN_SHIFT) in
  Z.land (Z.shiftr x I2400M_RO_SN_SHIFT) I2400M_RO_SN = 513.
Proof.
  destruct (i2400m_words ro_word (fun _ => true) (fun m => if m.2 =? I2400M_RO_SN_SHIFT then 513 else 0)) as [_ [Hm _]].
  - right. right. by left.
  - intros m Hm. cbn in Hm. intuition subst; by vm_compute.
  - cbv zeta. rewrite <- land_shiftr by done.
    exact (Hm (Z.shiftl I2400M_RO_SN I2400M_RO_SN_SHIFT, I2400M_RO_SN_SHIFT) ltac:(entry 3%nat)).
Defined.

(** The kind of a message can be told from its number: a name that says GET, SET, CMD or
    REPORT has a number of that kind. *)
Theorem i2400m_message_kinds (x : string) (k : message_kind) :
  In x message_types -> kind_of_name x = Some k ->
  exists n, number (H := no_externals) LP64 I2400m.header x = Some n /\ 0 <= n < 2 ^ 16 /\ kind_of_number n = Some k.
Proof.
  intros Hx Hk.
  destruct (numbers_check (H := no_externals) LP64 I2400m.header (fun x n =>
    match kind_of_name x with
    | Some k => (0 <=? n) && (n <? 2 ^ 16) && bool_decide (kind_of_number n = Some k)
    | None => true
    end) message_types x) as (n & Hn & Hm); [vm_compute; reflexivity|done|].
  rewrite Hk in Hm. apply andb_true_iff in Hm as [Hr Hm%bool_decide_eq_true]. exists n. split; [done|split; [lia|done]].
Qed.

Lemma i2400m_message_kinds_witness :
  exists n, number (H := no_externals) LP64 I2400m.header "I2400M_MT_REPORT_STATE" = Some n /\ 0 <= n < 2 ^ 16 /\
    kind_of_number n = Some Report.
Proof. apply (i2400m_message_kinds "I2400M_MT_REPORT_STATE" Report); [entry 29%nat|reflexivity]. Defined.
