(* ===== verification/AudioCal.v ===== *)
(** * AudioCal: commands of the audio calibration device

    The requests of [include/linux/msm_audio_calibration.h] pass a [void *] to a command whose
    real type depends on the calibration type in its header. The types of the
    commands are in [UapiAudio]; here are the calibration types and what every command
    has in common. *)

From S2P Require Import Prelude Align Bits CLayout Ioctl Uapi UapiAudio.

#[local] Open Scope string_scope.
#[local] Open Scope list_scope.
#[local] Open Scope Z_scope.

(** ** Calibration types *)

Inductive audio_cal_type : Type :=
  | CVP_VOC_RX_TOPOLOGY_CAL_TYPE | CVP_VOC_TX_TOPOLOGY_CAL_TYPE | CVP_VOCPROC_STATIC_CAL_TYPE
  | CVP_VOCPROC_DYNAMIC_CAL_TYPE | CVS_VOCSTRM_STATIC_CAL_TYPE | CVP_VOCDEV_CFG_CAL_TYPE
  | CVP_VOCPROC_STATIC_COL_CAL_TYPE | CVP_VOCPROC_DYNAMIC_COL_CAL_TYPE
  | CVS_VOCSTRM_STATIC_COL_CAL_TYPE | ADM_TOPOLOGY_CAL_TYPE | ADM_CUST_TOPOLOGY_CAL_TYPE
  | ADM_AUDPROC_CAL_TYPE | ADM_AUDVOL_CAL_TYPE | ASM_TOPOLOGY_CAL_TYPE | ASM_CUST_TOPOLOGY_CAL_TYPE
  | ASM_AUDSTRM_CAL_TYPE | AFE_COMMON_RX_CAL_TYPE | AFE_COMMON_TX_CAL_TYPE | AFE_ANC_CAL_TYPE
  | AFE_AANC_CAL_TYPE | AFE_FB_SPKR_PROT_CAL_TYPE | AFE_HW_DELAY_CAL_TYPE | AFE_SIDETONE_CAL_TYPE
  | AFE_TOPOLOGY_CAL_TYPE | AFE_CUST_TOPOLOGY_CAL_TYPE | LSM_CUST_TOPOLOGY_CAL_TYPE
  | LSM_TOPOLOGY_CAL_TYPE | LSM_CAL_TYPE | ADM_RTAC_INFO_CAL_TYPE | VOICE_RTAC_INFO_CAL_TYPE
  | ADM_RTAC_APR_CAL_TYPE | ASM_RTAC_APR_CAL_TYPE | VOICE_RTAC_APR_CAL_TYPE | MAD_CAL_TYPE
  | ULP_AFE_CAL_TYPE | ULP_LSM_CAL_TYPE | DTS_EAGLE_CAL_TYPE | AUDIO_CORE_METAINFO_CAL_TYPE
  | SRS_TRUMEDIA_CAL_TYPE | CORE_CUSTOM_TOPOLOGIES_CAL_TYPE | ADM_RTAC_AUDVOL_CAL_TYPE
  | ULP_LSM_TOPOLOGY_ID_CAL_TYPE | AFE_FB_SPKR_PROT_TH_VI_CAL_TYPE
  | AFE_FB_SPKR_PROT_EX_VI_CAL_TYPE | AFE_SIDETONE_IIR_CAL_TYPE | AFE_LSM_TOPOLOGY_CAL_TYPE
  | AFE_LSM_TX_CAL_TYPE | ADM_LSM_TOPOLOGY_CAL_TYPE | ADM_LSM_AUDPROC_CAL_TYPE
  | ADM_LSM_AUDPROC_PERSISTENT_CAL_TYPE | ADM_AUDPROC_PERSISTENT_CAL_TYPE
  | AFE_FB_SPKR_PROT_V4_EX_VI_CAL_TYPE.

(** The enumeration gives no number but the first one's, 0. *)
Definition cal_types : list audio_cal_type :=
  [CVP_VOC_RX_TOPOLOGY_CAL_TYPE; CVP_VOC_TX_TOPOLOGY_CAL_TYPE; CVP_VOCPROC_STATIC_CAL_TYPE;
   CVP_VOCPROC_DYNAMIC_CAL_TYPE; CVS_VOCSTRM_STATIC_CAL_TYPE; CVP_VOCDEV_CFG_CAL_TYPE;
   CVP_VOCPROC_STATIC_COL_CAL_TYPE; CVP_VOCPROC_DYNAMIC_COL_CAL_TYPE;
   CVS_VOCSTRM_STATIC_COL_CAL_TYPE; ADM_TOPOLOGY_CAL_TYPE; ADM_CUST_TOPOLOGY_CAL_TYPE;
   ADM_AUDPROC_CAL_TYPE; ADM_AUDVOL_CAL_TYPE; ASM_TOPOLOGY_CAL_TYPE; ASM_CUST_TOPOLOGY_CAL_TYPE;
   ASM_AUDSTRM_CAL_TYPE; AFE_COMMON_RX_CAL_TYPE; AFE_COMMON_TX_CAL_TYPE; AFE_ANC_CAL_TYPE;
   AFE_AANC_CAL_TYPE; AFE_FB_SPKR_PROT_CAL_TYPE; AFE_HW_DELAY_CAL_TYPE; AFE_SIDETONE_CAL_TYPE;
   AFE_TOPOLOGY_CAL_TYPE; AFE_CUST_TOPOLOGY_CAL_TYPE; LSM_CUST_TOPOLOGY_CAL_TYPE;
   LSM_TOPOLOGY_CAL_TYPE; LSM_CAL_TYPE; ADM_RTAC_INFO_CAL_TYPE; VOICE_RTAC_INFO_CAL_TYPE;
   ADM_RTAC_APR_CAL_TYPE; ASM_RTAC_APR_CAL_TYPE; VOICE_RTAC_APR_CAL_TYPE; MAD_CAL_TYPE;
   ULP_AFE_CAL_TYPE; ULP_LSM_CAL_TYPE; DTS_EAGLE_CAL_TYPE; AUDIO_CORE_METAINFO_CAL_TYPE;
   SRS_TRUMEDIA_CAL_TYPE; CORE_CUSTOM_TOPOLOGIES_CAL_TYPE; ADM_RTAC_AUDVOL_CAL_TYPE;
   ULP_LSM_TOPOLOGY_ID_CAL_TYPE; AFE_FB_SPKR_PROT_TH_VI_CAL_TYPE; AFE_FB_SPKR_PROT_EX_VI_CAL_TYPE;
   AFE_SIDETONE_IIR_CAL_TYPE; AFE_LSM_TOPOLOGY_CAL_TYPE; AFE_LSM_TX_CAL_TYPE;
   ADM_LSM_TOPOLOGY_CAL_TYPE; ADM_LSM_AUDPROC_CAL_TYPE; ADM_LSM_AUDPROC_PERSISTENT_CAL_TYPE;
   ADM_AUDPROC_PERSISTENT_CAL_TYPE; AFE_FB_SPKR_PROT_V4_EX_VI_CAL_TYPE].

Definition cal_type_value (t : audio_cal_type) : Z :=
  match t with
  | CVP_VOC_RX_TOPOLOGY_CAL_TYPE => 0
  | CVP_VOC_TX_TOPOLOGY_CAL_TYPE => 1
  | CVP_VOCPROC_STATIC_CAL_TYPE => 2
  | CVP_VOCPROC_DYNAMIC_CAL_TYPE => 3
  | CVS_VOCSTRM_STATIC_CAL_TYPE => 4
  | CVP_VOCDEV_CFG_CAL_TYPE => 5
  | CVP_VOCPROC_STATIC_COL_CAL_TYPE => 6
  | CVP_VOCPROC_DYNAMIC_COL_CAL_TYPE => 7
  | CVS_VOCSTRM_STATIC_COL_CAL_TYPE => 8
  | ADM_TOPOLOGY_CAL_TYPE => 9
  | ADM_CUST_TOPOLOGY_CAL_TYPE => 10
  | ADM_AUDPROC_CAL_TYPE => 11
  | ADM_AUDVOL_CAL_TYPE => 12
  | ASM_TOPOLOGY_CAL_TYPE => 13
  | ASM_CUST_TOPOLOGY_CAL_TYPE => 14
  | ASM_AUDSTRM_CAL_TYPE => 15
  | AFE_COMMON_RX_CAL_TYPE => 16
  | AFE_COMMON_TX_CAL_TYPE => 17
  | AFE_ANC_CAL_TYPE => 18
  | AFE_AANC_CAL_TYPE => 19
  | AFE_FB_SPKR_PROT_CAL_TYPE => 20
  | AFE_HW_DELAY_CAL_TYPE => 21
  | AFE_SIDETONE_CAL_TYPE => 22
  | AFE_TOPOLOGY_CAL_TYPE => 23
  | AFE_CUST_TOPOLOGY_CAL_TYPE => 24
  | LSM_CUST_TOPOLOGY_CAL_TYPE => 25
  | LSM_TOPOLOGY_CAL_TYPE => 26
  | LSM_CAL_TYPE => 27
  | ADM_RTAC_INFO_CAL_TYPE => 28
  | VOICE_RTAC_INFO_CAL_TYPE => 29
  | ADM_RTAC_APR_CAL_TYPE => 30
  | ASM_RTAC_APR_CAL_TYPE => 31
  | VOICE_RTAC_APR_CAL_TYPE => 32
  | MAD_CAL_TYPE => 33
  | ULP_AFE_CAL_TYPE => 34
  | ULP_LSM_CAL_TYPE => 35
  | DTS_EAGLE_CAL_TYPE => 36
  | AUDIO_CORE_METAINFO_CAL_TYPE => 37
  | SRS_TRUMEDIA_CAL_TYPE => 38
  | CORE_CUSTOM_TOPOLOGIES_CAL_TYPE => 39
  | ADM_RTAC_AUDVOL_CAL_TYPE => 40
  | ULP_LSM_TOPOLOGY_ID_CAL_TYPE => 41
  | AFE_FB_SPKR_PROT_TH_VI_CAL_TYPE => 42
  | AFE_FB_SPKR_PROT_EX_VI_CAL_TYPE => 43
  | AFE_SIDETONE_IIR_CAL_TYPE => 44
  | AFE_LSM_TOPOLOGY_CAL_TYPE => 45
  | AFE_LSM_TX_CAL_TYPE => 46
  | ADM_LSM_TOPOLOGY_CAL_TYPE => 47
  | ADM_LSM_AUDPROC_CAL_TYPE => 48
  | ADM_LSM_AUDPROC_PERSISTENT_CAL_TYPE => 49
  | ADM_AUDPROC_PERSISTENT_CAL_TYPE => 50
  | AFE_FB_SPKR_PROT_V4_EX_VI_CAL_TYPE => 51
  end.

Definition MAX_CAL_TYPES : Z := 52.

#[export] Instance audio_cal_type_enum : CEnum audio_cal_type := {|
  enum_value := cal_type_value; enum_all := cal_types |}.

#[export] Instance audio_cal_type_enum_laws : CEnumLaws audio_cal_type.
Proof. solve_enum_laws. Qed.

Definition PER_VOCODER_CAL_BIT_MASK : Z := 0x10000.

Definition MAX_IOCTL_CMD_SIZE : Z := 512.

(** ** Commands *)

(** The structures that begin with a [struct audio_cal_header]. *)
Definition calibration_commands : list (string * ctype) :=
  [("audio_cal_alloc", struct_audio_cal_alloc); ("audio_cal_dealloc", struct_audio_cal_dealloc);
   ("audio_cal_prepare", struct_audio_cal_prepare); ("audio_cal_post", struct_audio_cal_post);
   ("audio_cal_basic", struct_audio_cal_basic); ("audio_cal_adm_top", struct_audio_cal_adm_top);
   ("audio_core_metainfo", struct_audio_core_metainfo);
   ("audio_cal_audproc", struct_audio_cal_audproc); ("audio_cal_audvol", struct_audio_cal_audvol);
   ("audio_cal_asm_top", struct_audio_cal_asm_top);
   ("audio_cal_audstrm", struct_audio_cal_audstrm); ("audio_cal_afe", struct_audio_cal_afe);
   ("audio_cal_afe_top", struct_audio_cal_afe_top); ("audio_cal_aanc", struct_audio_cal_aanc);
   ("audio_cal_fb_spk_prot_cfg", struct_audio_cal_fb_spk_prot_cfg);
   ("audio_cal_sp_th_vi_ftm_cfg", struct_audio_cal_sp_th_vi_ftm_cfg);
   ("audio_cal_sp_th_vi_v_vali_cfg", struct_audio_cal_sp_th_vi_v_vali_cfg);
   ("audio_cal_sp_ex_vi_ftm_cfg", struct_audio_cal_sp_ex_vi_ftm_cfg);
   ("audio_cal_hw_delay", struct_audio_cal_hw_delay);
   ("audio_cal_sidetone", struct_audio_cal_sidetone);
   ("audio_cal_sidetone_iir", struct_audio_cal_sidetone_iir);
   ("audio_cal_lsm_top", struct_audio_cal_lsm_top); ("audio_cal_lsm", struct_audio_cal_lsm);
   ("audio_cal_voc_top", struct_audio_cal_voc_top);
   ("audio_cal_vocproc", struct_audio_cal_vocproc); ("audio_cal_vocvol", struct_audio_cal_vocvol);
   ("audio_cal_vocdev_cfg", struct_audio_cal_vocdev_cfg);
   ("audio_cal_voc_col", struct_audio_cal_voc_col);
   ("audio_cal_fb_spk_prot_status", struct_audio_cal_fb_spk_prot_status);
   ("audio_cal_sp_th_vi_param", struct_audio_cal_sp_th_vi_param);
   ("audio_cal_sp_th_vi_v_vali_param", struct_audio_cal_sp_th_vi_v_vali_param);
   ("audio_cal_sp_ex_vi_param", struct_audio_cal_sp_ex_vi_param);
   ("audio_cal_sp_v4_ex_vi_param", struct_audio_cal_sp_v4_ex_vi_param)].

Definition fields_of (t : ctype) : list (string * ctype) :=
  match t with CStruct _ ms | CUnion ms => ms | _ => [] end.

(** Where a path of member names leads in a structure, and the type there. *)
Fixpoint locate (a : abi) (t : ctype) (path : list string) : option (Z * ctype) :=
  match path with
  | [] => Some (0, t)
  | n :: path =>
      o ← offsetof a t n;
      m ← List.find (fun m => String.eqb m.1 n) (fields_of t);
      '(o', t') ← locate a m.2 path;
      Some (o + o', t')
  end.

(** The members of [struct audio_cal_basic], down to the numbers. *)
Definition basic_paths : list (list string) :=
  [["hdr"; "data_size"]; ["hdr"; "version"]; ["hdr"; "cal_type"]; ["hdr"; "cal_type_size"];
   ["cal_type"; "cal_hdr"; "version"]; ["cal_type"; "cal_hdr"; "buffer_number"];
   ["cal_type"; "cal_data"; "cal_size"]; ["cal_type"; "cal_data"; "mem_handle"];
   ["cal_type"; "cal_data"; "cma_mem"]].

(** The four bytes at which the [k]th of them is. *)
Definition basic_place (k : nat) : Z * ctype := (4 * Z.of_nat k, c_int).

(** Where the part that depends on the calibration type begins, if a command has one. *)
Definition info_offset (a : abi) (t : ctype) : option Z :=
  fst <$> locate a t ["cal_type"; "cal_info"].

(** ** Theorems *)

(** The packed union of a column's values has the size of the longest and needs no alignment. *)
Lemma audio_cal_col_na_packed a :
  i64_align a = 8 -> sizeof a union_audio_cal_col_na = 8 /\ alignof a union_audio_cal_col_na = 1.
Proof. destruct a as [p i]. cbn [i64_align]. intros ->. by split. Qed.

Definition command_ok (a : abi) (t : ctype) : bool :=
  forallb (fun k => match basic_paths !! k with
                    | Some path => match locate a t path with
                                   | Some (o, CInt n) => (o =? 4 * Z.of_nat k) && (n =? 4)
                                   | _ => false
                                   end
                    | None => false
                    end) (seq 0 9)
  && match info_offset a t with
     | Some o => (o =? sizeof a struct_audio_cal_basic) && (o <? sizeof a t)
     | None => sizeof a t =? sizeof a struct_audio_cal_basic
     end
  && (sizeof a t <=? MAX_IOCTL_CMD_SIZE) && pointer_free t.

Lemma commands_checked a : arm_abi a -> forallb (fun x => command_ok a x.2) calibration_commands = true.
Proof. intros [-> | ->]; by vm_compute. Qed.

(** C26: A calibration command can be read before its type is known: whatever the
    command, the nine numbers of [struct audio_cal_basic] are at its beginning, one
    after the other; what depends on the type follows exactly after them, or the command ends
    there. Every command fits the buffer of [MAX_IOCTL_CMD_SIZE] bytes, and its whole
    layout is the same for 32-bit and 64-bit processes, although the request numbers are not. *)
Theorem calibration_commands_basic (a : abi) (n : string) (t : ctype) :
  arm_abi a -> In (n, t) calibration_commands ->
  (forall k path, basic_paths !! k = Some path ->
     locate a t path = Some (basic_place k) /\ locate a struct_audio_cal_basic path = Some (basic_place k))
  /\ match info_offset a t with
     | Some o => o = sizeof a struct_audio_cal_basic /\ o < sizeof a t
     | None => sizeof a t = sizeof a struct_audio_cal_basic
     end
  /\ sizeof a t <= MAX_IOCTL_CMD_SIZE
  /\ deep_layout a t = deep_layout LP64 t.
Proof.
  intros Ha Hin.
  assert (forall m u, In (m, u) calibration_commands -> command_ok a u = true) as Hok.
  { intros m u Hu. pose proof (commands_checked a Ha) as Hc. rewrite forallb_forall in Hc.
    exact (Hc _ Hu). }
  assert (forall m u k path, In (m, u) calibration_commands -> basic_paths !! k = Some path ->
    locate a u path = Some (basic_place k)) as Hplace.
  { intros m u k path Hu%Hok Hk. unfold command_ok in Hu. rewrite !andb_true_iff in Hu.
    destruct Hu as [[[Hu _] _] _]. rewrite forallb_forall in Hu.
    assert (In k (seq 0 9)) as Hseq by (apply in_seq; apply lookup_lt_Some in Hk; cbn in Hk; lia).
    apply Hu in Hseq. rewrite Hk in Hseq. destruct (locate a u path) as [[o [w| | |? ?|? ?|?|? ?]]|]; try done.
    apply andb_true_iff in Hseq as [->%Z.eqb_eq ->%Z.eqb_eq]. done. }
  split; [|pose proof (Hok _ _ Hin) as Hc; unfold command_ok in Hc; rewrite !andb_true_iff in Hc;
    destruct Hc as [[[_ Hi] Hs] Hp]; split_and!].
  - intros k path Hk. split; [by apply (Hplace n)|]. apply (Hplace "audio_cal_basic"); [|done].
    by do 4 right; left.
  - destruct (info_offset a t); lia.
  - lia.
  - apply deep_layout_pointer_free; [|done]. by destruct Ha as [-> | ->].
Qed.

Lemma calibration_commands_basic_witness :
  locate ILP32 struct_audio_cal_voc_col ["cal_type"; "cal_data"; "mem_handle"] = Some (28, c_int).
Proof.
  destruct (calibration_commands_basic ILP32 "audio_cal_voc_col" struct_audio_cal_voc_col) as [Hp _];
    [by right|by apply (nth_error_In _ 27); vm_compute|].
  by apply (Hp 7%nat).
Defined.

(** The calibration type of a command: the types are numbered from 0 to below
    [MAX_CAL_TYPES] without a gap, and the bit that asks for data per vocoder can be
    joined to any of them and taken off again. *)
Theorem calibration_types :
  (forall k, 0 <= k < MAX_CAL_TYPES -> exists t, enum_decode (A := audio_cal_type) k = Some t)
  /\ (forall t : audio_cal_type, 0 <= cal_type_value t < MAX_CAL_TYPES)
  /\ (forall (t : audio_cal_type) (b : bool), let word := cal_type_value t .|[S32] (if b then PER_VOCODER_CAL_BIT_MASK else 0) in
       c_true (word &[S32] PER_VOCODER_CAL_BIT_MASK) = b
       /\ enum_decode (word &[S32] (~[S32] PER_VOCODER_CAL_BIT_MASK)) = Some t).
Proof.
  split_and!.
  - intros k Hk. unfold MAX_CAL_TYPES in Hk.
    assert (In k (map cal_type_value cal_types)) as Hin.
    { replace (map cal_type_value cal_types) with (map Z.of_nat (seq 0 (length cal_types))) by done.
      apply in_map_iff. exists (Z.to_nat k). split; [lia|]. apply in_seq. cbn. lia. }
    apply in_map_iff in Hin as (t & <- & _). exists t. exact (enum_decode_value t).
  - by intros [].
  - by intros [] [].
Qed.
