(* ===== verification/Tlv.v ===== *)
(** * Tlv: type-length-value data of ALSA controls

    The macros of [include/sound/tlv.h] expand to the words of an [unsigned int]
    array: type, length in bytes, data. An item is modelled by the list of its
    words, the macros' variadic arguments by the concatenation of word lists. [tlv]
    are the items the macros can build, [parse_item] a reader of such words that
    knows nothing of how they were made. *)

From S2P Require Import Prelude Align Bits.

#[local] Open Scope list_scope.
#[local] Open Scope Z_scope.

(** ** The macros *)

Definition SNDRV_CTL_TLVT_CONTAINER : Z := 0.
Definition SNDRV_CTL_TLVT_DB_SCALE : Z := 1.
Definition SNDRV_CTL_TLVT_DB_LINEAR : Z := 2.
Definition SNDRV_CTL_TLVT_DB_RANGE : Z := 3.
Definition SNDRV_CTL_TLVT_DB_MINMAX : Z := 4.
Definition SNDRV_CTL_TLVT_DB_MINMAX_MUTE : Z := 5.
Definition SNDRV_CTL_TLVT_CHMAP_FIXED : Z := 0x101.
Definition SNDRV_CTL_TLVT_CHMAP_VAR : Z := 0x102.
Definition SNDRV_CTL_TLVT_CHMAP_PAIRED : Z := 0x103.

(** [sizeof] of an array of [unsigned int]s. *)
Definition SNDRV_CTL_TLVD_LENGTH (ws : list Z) : Z := cast U32 (4 * Z.of_nat (length ws)).

Definition SNDRV_CTL_TLVD_ITEM (type : Z) (ws : list Z) : list Z :=
  type :: SNDRV_CTL_TLVD_LENGTH ws :: ws.

Definition SNDRV_CTL_TLVO_TYPE : nat := 0.
Definition SNDRV_CTL_TLVO_LEN : nat := 1.

Definition SNDRV_CTL_TLVD_CONTAINER_ITEM (ws : list Z) : list Z :=
  SNDRV_CTL_TLVD_ITEM SNDRV_CTL_TLVT_CONTAINER ws.

Definition SNDRV_CTL_TLVD_DB_SCALE_MASK : Z := 0xffff.
Definition SNDRV_CTL_TLVD_DB_SCALE_MUTE : Z := 0x10000.

(** A negative argument is converted when it initialises an [unsigned int]. *)
Definition SNDRV_CTL_TLVD_DB_SCALE_ITEM (min step : Z) (mute : bool) : list Z :=
  SNDRV_CTL_TLVD_ITEM SNDRV_CTL_TLVT_DB_SCALE
    [cast U32 min;
     cast U32 ((step &[S32] SNDRV_CTL_TLVD_DB_SCALE_MASK)
               .|[S32] (if mute then SNDRV_CTL_TLVD_DB_SCALE_MUTE else 0))].

Definition SNDRV_CTL_TLVO_DB_SCALE_MIN : nat := 2.
Definition SNDRV_CTL_TLVO_DB_SCALE_MUTE_AND_STEP : nat := 3.

Definition SNDRV_CTL_TLVD_DB_MINMAX_ITEM (min_dB max_dB : Z) : list Z :=
  SNDRV_CTL_TLVD_ITEM SNDRV_CTL_TLVT_DB_MINMAX [cast U32 min_dB; cast U32 max_dB].
Definition SNDRV_CTL_TLVD_DB_MINMAX_MUTE_ITEM (min_dB max_dB : Z) : list Z :=
  SNDRV_CTL_TLVD_ITEM SNDRV_CTL_TLVT_DB_MINMAX_MUTE [cast U32 min_dB; cast U32 max_dB].

Definition SNDRV_CTL_TLVO_DB_MINMAX_MIN : nat := 2.
Definition SNDRV_CTL_TLVO_DB_MINMAX_MAX : nat := 3.

Definition SNDRV_CTL_TLVD_DB_LINEAR_ITEM (min_dB max_dB : Z) : list Z :=
  SNDRV_CTL_TLVD_ITEM SNDRV_CTL_TLVT_DB_LINEAR [cast U32 min_dB; cast U32 max_dB].

Definition SNDRV_CTL_TLVO_DB_LINEAR_MIN : nat := 2.
Definition SNDRV_CTL_TLVO_DB_LINEAR_MAX : nat := 3.

Definition SNDRV_CTL_TLVD_DB_RANGE_ITEM (ws : list Z) : list Z :=
  SNDRV_CTL_TLVD_ITEM SNDRV_CTL_TLVT_DB_RANGE ws.

Definition SNDRV_CTL_TLVD_DB_GAIN_MUTE : Z := -9999999.

(** [block_length] of the comment on the structure of an item. *)
Definition block_length (length : Z) : Z := (length +[U32] 3) &[U32] (~[U32] 3).

(** ** Items *)

(** The items the macros build. A range's entries are a minimal and a maximal value
    of the control, and the item for the values between them. *)
Inductive tlv : Type :=
  | Container (items : list tlv)
  | DB_scale (min step : Z) (mute : bool)
  | DB_minmax (min max : Z)
  | DB_minmax_mute (min max : Z)
  | DB_linear (min max : Z)
  | DB_range (entries : list (Z * Z * tlv)).

Fixpoint expand (t : tlv) : list Z :=
  match t with
  | Container ts => SNDRV_CTL_TLVD_CONTAINER_ITEM (flat_map expand ts)
  | DB_scale min step mute => SNDRV_CTL_TLVD_DB_SCALE_ITEM min step mute
  | DB_minmax min max => SNDRV_CTL_TLVD_DB_MINMAX_ITEM min max
  | DB_minmax_mute min max => SNDRV_CTL_TLVD_DB_MINMAX_MUTE_ITEM min max
  | DB_linear min max => SNDRV_CTL_TLVD_DB_LINEAR_ITEM min max
  | DB_range es =>
      SNDRV_CTL_TLVD_DB_RANGE_ITEM
        (flat_map (fun e => cast U32 e.1.1 :: cast U32 e.1.2 :: expand e.2) es)
  end.

(** Arguments that fit their place: [int]s, steps of 16 bits, and items of less than
    4 GiB. *)
Fixpoint tlv_ok (t : tlv) : Prop :=
  4 * Z.of_nat (length (expand t)) < 2 ^ 32
  /\ match t with
     | Container ts => foldr (fun t P => tlv_ok t /\ P) True ts
     | DB_scale min step _ => in_range S32 min /\ 0 <= step < 2 ^ 16
     | DB_minmax min max | DB_minmax_mute min max | DB_linear min max =>
         in_range S32 min /\ in_range S32 max
     | DB_range es =>
         foldr (fun e P => (in_range S32 e.1.1 /\ in_range S32 e.1.2 /\ tlv_ok e.2) /\ P) True es
     end.

(** ** A reader *)

(** Splits off the first item: its type, its data and what follows its block. *)
Definition read_header (ws : list Z) : option (Z * list Z * list Z) :=
  match ws with
  | type :: len :: ws =>
      let n := Z.to_nat (block_length len / 4) in
      if (n <=? length ws)%nat then Some (type, firstn n ws, skipn n ws) else None
  | _ => None
  end.

(** Applies a reader until no words are left. *)
Fixpoint read_all {A} (read : list Z -> option (A * list Z)) (fuel : nat) (ws : list Z) : option (list A) :=
  match ws, fuel with
  | [], _ => Some []
  | _, O => None
  | _, S fuel => '(x, ws) ← read ws; xs ← read_all read fuel ws; Some (x :: xs)
  end.

(** An entry of a range. *)
Definition read_entry (read : list Z -> option (tlv * list Z)) (ws : list Z)
    : option (Z * Z * tlv * list Z) :=
  match ws with
  | min :: max :: ws => '(t, ws) ← read ws; Some ((cast S32 min, cast S32 max, t), ws)
  | _ => None
  end.

Definition parse_data (read : list Z -> option (tlv * list Z)) (type : Z) (data : list Z) : option tlv :=
  if type =? SNDRV_CTL_TLVT_CONTAINER then Container <$> read_all read (length data) data
  else if type =? SNDRV_CTL_TLVT_DB_RANGE then
    DB_range <$> read_all (read_entry read) (length data) data
  else
    match data with
    | [x; y] =>
        if type =? SNDRV_CTL_TLVT_DB_SCALE then
          Some (DB_scale (cast S32 x) (Z.land y SNDRV_CTL_TLVD_DB_SCALE_MASK)
                  (c_true (Z.land y SNDRV_CTL_TLVD_DB_SCALE_MUTE)))
        else if type =? SNDRV_CTL_TLVT_DB_LINEAR then Some (DB_linear (cast S32 x) (cast S32 y))
        else if type =? SNDRV_CTL_TLVT_DB_MINMAX then Some (DB_minmax (cast S32 x) (cast S32 y))
        else if type =? SNDRV_CTL_TLVT_DB_MINMAX_MUTE then Some (DB_minmax_mute (cast S32 x) (cast S32 y))
        else None
    | _ => None
    end.

Fixpoint parse_item (fuel : nat) (ws : list Z) : option (tlv * list Z) :=
  match fuel with
  | O => None
  | S fuel =>
      '(type, data, rest) ← read_header ws;
      t ← parse_data (parse_item fuel) type data;
      Some (t, rest)
  end.

(** The depth to which items are nested. *)
Fixpoint depth (t : tlv) : nat :=
  S (match t with
     | Container ts => foldr (fun t n => Nat.max (depth t) n) O ts
     | DB_range es => foldr (fun e n => Nat.max (depth e.2) n) O es
     | _ => O
     end).

Example parse_nested :
  parse_item 3 (expand (Container [DB_scale (-4500) 75 true;
    DB_range [(0, 1, DB_linear SNDRV_CTL_TLVD_DB_GAIN_MUTE 0); (2, 5, DB_minmax 0 600)]]) ++ [7])
  = Some (Container [DB_scale (-4500) 75 true;
            DB_range [(0, 1, DB_linear SNDRV_CTL_TLVD_DB_GAIN_MUTE 0); (2, 5, DB_minmax 0 600)]], [7]).
Proof. by vm_compute. Qed.

(** ** Induction over items *)

Section TlvInd.
Context (P : tlv -> Prop).
Context (Hcontainer : forall ts, Forall P ts -> P (Container ts)).
Context (Hscale : forall min step mute, P (DB_scale min step mute)).
Context (Hminmax : forall min max, P (DB_minmax min max)).
Context (Hmute : forall min max, P (DB_minmax_mute min max)).
Context (Hlinear : forall min max, P (DB_linear min max)).
Context (Hrange : forall es, Forall (fun e => P e.2) es -> P (DB_range es)).

Fixpoint tlv_nested_ind (t : tlv) : P t :=
  match t with
  | Container ts =>
      Hcontainer ts ((fix all ts := match ts return Forall P ts with
                                    | [] => Forall_nil_2 _
                                    | t :: ts => Forall_cons_2 _ t ts (tlv_nested_ind t) (all ts)
                                    end) ts)
  | DB_scale min step mute => Hscale min step mute
  | DB_minmax min max => Hminmax min max
  | DB_minmax_mute min max => Hmute min max
  | DB_linear min max => Hlinear min max
  | DB_range es =>
      Hrange es ((fix all es := match es return Forall (fun e : Z * Z * tlv => P e.2) es with
                                | [] => Forall_nil_2 _
                                | e :: es => Forall_cons_2 _ e es (tlv_nested_ind e.2) (all es)
                                end) es)
  end.
End TlvInd.

Lemma foldr_and {A} (P : A -> Prop) (xs : list A) : foldr (fun x Q => P x /\ Q) True xs <-> Forall P xs.
Proof. induction xs as [|x xs IH]; cbn; [by split|]. by rewrite IH, Forall_cons. Qed.

(** ** Reading what was written *)

Lemma block_length_words n : 0 <= n -> 4 * n < 2 ^ 32 -> block_length (4 * n) = 4 * n.
Proof.
  intros Hn Hlt. norm_pow. unfold block_length.
  rewrite c_add_id by (done || unfold_range; lia).
  rewrite c_and_not by (done || unfold_range; lia).
  change 3 with (2 ^ 2 - 1) at 2. rewrite ldiff_pred_pow2 by done. norm_pow. zlia.
Qed.

Lemma read_header_item type ws rest :
  4 * Z.of_nat (length ws) < 2 ^ 32 ->
  read_header (SNDRV_CTL_TLVD_ITEM type ws ++ rest) = Some (type, ws, rest).
Proof.
  intros Hl. unfold SNDRV_CTL_TLVD_ITEM, SNDRV_CTL_TLVD_LENGTH. cbn [app read_header].
  rewrite cast_U32_id by (norm_pow; lia). rewrite block_length_words by lia.
  replace (Z.to_nat (4 * Z.of_nat (length ws) / 4)) with (length ws) by zlia.
  rewrite length_app. replace (_ <=? _)%nat with true by (symmetry; apply Nat.leb_le; lia).
  by rewrite firstn_app, Nat.sub_diag, firstn_all, app_nil_r, skipn_app, Nat.sub_diag, skipn_all.
Qed.

Lemma read_all_flat_map {A} (read : list Z -> option (A * list Z)) (write : A -> list Z) xs :
  Forall (fun x => write x <> [] /\ forall rest, read (write x ++ rest) = Some (x, rest)) xs ->
  read_all read (length (flat_map write xs)) (flat_map write xs) = Some xs.
Proof.
  intros Hxs. assert (forall fuel, (length xs <= fuel)%nat ->
    read_all read fuel (flat_map write xs) = Some xs) as Hr.
  { induction Hxs as [|x xs [Hne Hx] _ IH]; intros fuel Hf; [by destruct fuel|].
    destruct fuel as [|fuel]; cbn in Hf; [lia|]. cbn [flat_map].
    destruct (write x ++ flat_map write xs) as [|w ws] eqn:E.
    { apply app_eq_nil in E as [E _]. done. }
    cbn [read_all]. rewrite <- E, Hx. cbn. by rewrite IH by lia. }
  apply Hr. clear Hr. induction Hxs as [|x xs [Hne _] _ IH]; [done|]. cbn. rewrite length_app.
  destruct (write x); [done|]. cbn. lia.
Qed.

Lemma expand_cons t : exists w ws, expand t = w :: ws.
Proof. destruct t; cbn; eauto. Qed.

Lemma cast_S32_U32 z : in_range S32 z -> cast S32 (cast U32 z) = z.
Proof. unfold_range. unfold cast. cbn [int_signed int_width S32 U32]. norm_pow. zlia. Qed.

(** Step and mute share a word. *)
Lemma mute_and_step (step : Z) (mute : bool) :
  0 <= step < 2 ^ 16 ->
  let y := cast U32 ((step &[S32] SNDRV_CTL_TLVD_DB_SCALE_MASK)
                     .|[S32] (if mute then SNDRV_CTL_TLVD_DB_SCALE_MUTE else 0)) in
  Z.land y SNDRV_CTL_TLVD_DB_SCALE_MASK = step
  /\ c_true (Z.land y SNDRV_CTL_TLVD_DB_SCALE_MUTE) = mute
  /\ y = step + (if mute then 65536 else 0).
Proof.
  intros Hs. cbv zeta. set (y := cast U32 _).
  assert (y = step + (if mute then 65536 else 0)) as Hy.
  { unfold y, c_and, c_or. change SNDRV_CTL_TLVD_DB_SCALE_MASK with (Z.ones 16).
    rewrite Z.land_ones, Z.mod_small by (done || lia). norm_pow.
    rewrite (cast_S32_id step) by lia.
    replace (Z.lor step _) with (Z.lor (Z.shiftl (if mute then 1 else 0) 16) step)
      by (rewrite Z.lor_comm; by destruct mute).
    rewrite lor_shiftl_add by (norm_pow; lia). rewrite cast_S32_id by (destruct mute; norm_pow; lia).
    rewrite cast_U32_id by (destruct mute; norm_pow; lia). destruct mute; norm_pow; lia. }
  rewrite Hy. norm_pow. split_and!; [| |done].
  - change SNDRV_CTL_TLVD_DB_SCALE_MASK with (Z.ones 16). rewrite Z.land_ones by done.
    norm_pow. destruct mute; zlia.
  - change SNDRV_CTL_TLVD_DB_SCALE_MUTE with (2 ^ 16).
    assert (Z.land (step + (if mute then 65536 else 0)) (2 ^ 16) = if mute then 65536 else 0) as ->;
      [|by destruct mute].
    apply Z.bits_inj'. intros i Hi. rewrite Z.land_spec, Z.pow2_bits_eqb by done.
    destruct (Z.eqb_spec 16 i) as [<-|Hne].
    + rewrite Z.testbit_odd, Z.shiftr_div_pow2 by done. norm_pow.
      destruct mute; [by replace ((step + 65536) / 65536) with 1 by zlia|].
      by replace ((step + 0) / 65536) with 0 by zlia.
    + rewrite andb_false_r. destruct mute; [|by rewrite Z.bits_0].
      change 65536 with (2 ^ 16). by rewrite Z.pow2_bits_false.
Qed.

(** The data words of an item are short when the item is. *)
Lemma item_short type ws :
  4 * Z.of_nat (length (SNDRV_CTL_TLVD_ITEM type ws)) < 2 ^ 32 -> 4 * Z.of_nat (length ws) < 2 ^ 32.
Proof. cbn [SNDRV_CTL_TLVD_ITEM length]. lia. Qed.

Lemma tlv_ok_short t : tlv_ok t -> 4 * Z.of_nat (length (expand t)) < 2 ^ 32.
Proof. destruct t; intros H; exact (proj1 H). Qed.

Lemma max_depth_le {A} (f : A -> nat) (xs : list A) fuel :
  (foldr (fun x n => Nat.max (f x) n) O xs <= fuel)%nat <-> Forall (fun x => f x <= fuel)%nat xs.
Proof. induction xs as [|x xs IH]; cbn; [split; [done|lia]|]. rewrite Forall_cons, <- IH. lia. Qed.

Lemma parse_item_item fuel type ws rest t :
  4 * Z.of_nat (length (SNDRV_CTL_TLVD_ITEM type ws)) < 2 ^ 32 ->
  parse_data (parse_item fuel) type ws = Some t ->
  parse_item (S fuel) (SNDRV_CTL_TLVD_ITEM type ws ++ rest) = Some (t, rest).
Proof.
  intros Hl%item_short Ht. cbn [parse_item]. rewrite read_header_item by done. cbn. by rewrite Ht.
Qed.

Lemma parse_expand t : forall fuel rest,
  tlv_ok t -> (depth t <= fuel)%nat -> parse_item fuel (expand t ++ rest) = Some (t, rest).
Proof.
  induction t as [ts IH|min step mute|min max|min max|min max|es IH] using tlv_nested_ind;
    intros [|fuel] rest Hok Hfuel; try (cbn in Hfuel; lia).
  all: apply parse_item_item; [exact (tlv_ok_short _ Hok)|]; destruct Hok as [_ Hok];
       unfold parse_data; cbn [Z.eqb SNDRV_CTL_TLVT_CONTAINER SNDRV_CTL_TLVT_DB_SCALE SNDRV_CTL_TLVT_DB_RANGE
         SNDRV_CTL_TLVT_DB_LINEAR SNDRV_CTL_TLVT_DB_MINMAX SNDRV_CTL_TLVT_DB_MINMAX_MUTE Pos.eqb].
  - apply foldr_and in Hok. cbn [depth] in Hfuel. apply le_S_n, max_depth_le in Hfuel.
    change (flat_map _ ts) with (flat_map expand ts).
    rewrite (read_all_flat_map (parse_item fuel) expand ts); [done|].
    rewrite Forall_forall in *. intros t Ht. split; [|by intros; apply IH; auto].
    destruct (expand_cons t) as (w & ws & ->). done.
  - destruct Hok as [Hmin Hstep]. destruct (mute_and_step step mute Hstep) as (-> & -> & _).
    by rewrite cast_S32_U32.
  - destruct Hok. by rewrite !cast_S32_U32.
  - destruct Hok. by rewrite !cast_S32_U32.
  - destruct Hok. by rewrite !cast_S32_U32.
  - apply (foldr_and (fun e => in_range S32 e.1.1 /\ in_range S32 e.1.2 /\ tlv_ok e.2)) in Hok.
    cbn [depth] in Hfuel. apply le_S_n, (max_depth_le (fun e : Z * Z * tlv => depth e.2)) in Hfuel.
    change (flat_map _ es) with (flat_map (fun e => cast U32 e.1.1 :: cast U32 e.1.2 :: expand e.2) es).
    rewrite (read_all_flat_map _ (fun e => cast U32 e.1.1 :: cast U32 e.1.2 :: expand e.2) es); [done|].
    rewrite Forall_forall in *. intros [[min max] t] Ht. split; [done|]. intros rest'.
    destruct (Hok _ Ht) as (Hmin & Hmax & Ht').
    pose proof (IH _ Ht fuel rest' Ht' (Hfuel _ Ht)) as E. cbn [read_entry app fst snd] in *.
    rewrite E. cbn - [cast]. by rewrite (cast_S32_U32 min), (cast_S32_U32 max).
Qed.

Lemma depth_le_words t : (depth t <= length (expand t))%nat.
Proof.
  induction t as [ts IH|min step mute|min max|min max|min max|es IH] using tlv_nested_ind; cbn; [|lia..|].
  - apply le_n_S, le_S, max_depth_le. apply Forall_forall. intros t Ht. rewrite Forall_forall in IH.
    etransitivity; [by apply IH|]. apply list_elem_of_split in Ht as (l & r & ->).
    rewrite flat_map_app. cbn. rewrite !length_app. lia.
  - apply le_n_S, le_S, (max_depth_le (fun e : Z * Z * tlv => depth e.2)). apply Forall_forall.
    intros e He. rewrite Forall_forall in IH.
    etransitivity; [by apply IH|]. apply list_elem_of_split in He as (l & r & ->).
    rewrite flat_map_app. cbn. rewrite !length_app. cbn. rewrite length_app. lia.
Qed.

(** Reads the first item of a list of words. *)
Definition parse (ws : list Z) : option (tlv * list Z) := parse_item (length ws) ws.

(** C12: Whatever items the macros nest, a reader recovers them from the words: it finds
    the item with all its arguments, and the words that follow it. So the
    lengths the macros compute are those of the data, containers and ranges included,
    and different items have different words. *)
Theorem tlv_roundtrip (t : tlv) (rest : list Z) :
  tlv_ok t -> parse (expand t ++ rest) = Some (t, rest).
Proof.
  intros Hok. apply parse_expand; [done|]. pose proof (depth_le_words t). rewrite length_app. lia.
Qed.

Lemma tlv_roundtrip_witness :
  parse (expand (Container [DB_scale (-4500) 75 true; DB_range [(0, 1, DB_linear (-9999999) 0)]]))
  = Some (Container [DB_scale (-4500) 75 true; DB_range [(0, 1, DB_linear (-9999999) 0)]], []).
Proof.
  rewrite <- (app_nil_r (expand _)). apply tlv_roundtrip. vm_compute. repeat split; congruence.
Defined.

(** The accessor offsets of the header are the places of the items' words: type and
    length (of the data, in bytes) of every item, and the arguments of the dB items; the mute flag
    is above the 16 bits of the step, larger steps being cut. *)
Theorem tlv_accessors :
  (forall t : tlv, exists data,
     expand t !! SNDRV_CTL_TLVO_TYPE = Some (match t with
       | Container _ => SNDRV_CTL_TLVT_CONTAINER | DB_scale _ _ _ => SNDRV_CTL_TLVT_DB_SCALE
       | DB_minmax _ _ => SNDRV_CTL_TLVT_DB_MINMAX | DB_minmax_mute _ _ => SNDRV_CTL_TLVT_DB_MINMAX_MUTE
       | DB_linear _ _ => SNDRV_CTL_TLVT_DB_LINEAR | DB_range _ => SNDRV_CTL_TLVT_DB_RANGE end)
     /\ expand t !! SNDRV_CTL_TLVO_LEN = Some (SNDRV_CTL_TLVD_LENGTH data) /\ skipn 2 (expand t) = data)
  /\ (forall min step mute,
     expand (DB_scale min step mute) !! SNDRV_CTL_TLVO_DB_SCALE_MIN = Some (cast U32 min)
     /\ (0 <= step < 2 ^ 16 ->
         expand (DB_scale min step mute) !! SNDRV_CTL_TLVO_DB_SCALE_MUTE_AND_STEP
         = Some (step + (if mute then 65536 else 0)))
     /\ expand (DB_scale min (step + 65536) mute) = expand (DB_scale min step mute))
  /\ (forall min max,
     expand (DB_minmax min max) !! SNDRV_CTL_TLVO_DB_MINMAX_MIN = Some (cast U32 min)
     /\ expand (DB_minmax_mute min max) !! SNDRV_CTL_TLVO_DB_MINMAX_MAX = Some (cast U32 max)
     /\ expand (DB_linear min max) !! SNDRV_CTL_TLVO_DB_LINEAR_MIN = Some (cast U32 min)
     /\ expand (DB_linear min max) !! SNDRV_CTL_TLVO_DB_LINEAR_MAX = Some (cast U32 max)).
Proof.
  split_and!; [..|done].
  - intros t. eexists. split_and!; [by destruct t| |reflexivity]. by destruct t.
  - intros min step mute. split_and!; [done| |].
    + intros Hs. destruct (mute_and_step step mute Hs) as (_ & _ & <-). done.
    + cbn [expand]. unfold SNDRV_CTL_TLVD_DB_SCALE_ITEM, c_and. do 5 f_equal.
      change SNDRV_CTL_TLVD_DB_SCALE_MASK with (Z.ones 16). rewrite !Z.land_ones by done.
      norm_pow. f_equal. zlia.
Qed.
