(* ===== verification/Kgsl.v ===== *)
(** * Kgsl: flag words and shared memory of the GPU driver

    From [include/linux/msm_kgsl.h]: the flags of contexts, of command batches and of
    memory allocations, the fields inside the flag words, the source of user memory,
    and the place of the timestamps the GPU writes. *)

From S2P Require Import Prelude Align Bits FlagWord CLayout Ioctl Uapi UapiKgsl.

#[local] Open Scope string_scope.
#[local] Open Scope list_scope.
#[local] Open Scope Z_scope.

(** ** Flags of contexts *)

Definition KGSL_CONTEXT_SAVE_GMEM : Z := 0x00000001.
Definition KGSL_CONTEXT_NO_GMEM_ALLOC : Z := 0x00000002.
Definition KGSL_CONTEXT_SUBMIT_IB_LIST : Z := 0x00000004.
Definition KGSL_CONTEXT_CTX_SWITCH : Z := 0x00000008.
Definition KGSL_CONTEXT_PREAMBLE : Z := 0x00000010.
Definition KGSL_CONTEXT_TRASH_STATE : Z := 0x00000020.
Definition KGSL_CONTEXT_PER_CONTEXT_TS : Z := 0x00000040.
Definition KGSL_CONTEXT_USER_GENERATED_TS : Z := 0x00000080.
Definition KGSL_CONTEXT_END_OF_FRAME : Z := 0x00000100.
Definition KGSL_CONTEXT_NO_FAULT_TOLERANCE : Z := 0x00000200.
Definition KGSL_CONTEXT_SYNC : Z := 0x00000400.
Definition KGSL_CONTEXT_PWR_CONSTRAINT : Z := 0x00000800.
Definition KGSL_CONTEXT_PRIORITY_MASK : Z := 0x0000F000.
Definition KGSL_CONTEXT_PRIORITY_SHIFT : Z := 12.
Definition KGSL_CONTEXT_IFH_NOP : Z := 0x00010000.
Definition KGSL_CONTEXT_SECURE : Z := 0x00020000.
Definition KGSL_CONTEXT_NO_SNAPSHOT : Z := 0x00040000.
Definition KGSL_CONTEXT_SPARSE : Z := 0x00080000.
Definition KGSL_CONTEXT_PREEMPT_STYLE_MASK : Z := 0x0E000000.
Definition KGSL_CONTEXT_PREEMPT_STYLE_SHIFT : Z := 25.
Definition KGSL_CONTEXT_PREEMPT_STYLE_FINEGRAIN : Z := 0x2.
Definition KGSL_CONTEXT_TYPE_MASK : Z := 0x01F00000.
Definition KGSL_CONTEXT_TYPE_SHIFT : Z := 20.
Definition KGSL_CONTEXT_TYPE_UNKNOWN : Z := 0x1E.
Definition KGSL_CONTEXT_INVALIDATE_ON_FAULT : Z := 0x10000000.
Definition KGSL_CONTEXT_LPAC : Z := 0x20000000.
Definition KGSL_CONTEXT_FAULT_INFO : Z := 0x40000000.
Definition KGSL_CONTEXT_INVALID : Z := 0xffffffff.

(** ** Flags of command batches *)

Definition KGSL_CMDBATCH_MEMLIST : Z := 0x00000001.
Definition KGSL_CMDBATCH_MARKER : Z := 0x00000002.
Definition KGSL_CMDBATCH_SUBMIT_IB_LIST : Z := KGSL_CONTEXT_SUBMIT_IB_LIST.
Definition KGSL_CMDBATCH_CTX_SWITCH : Z := KGSL_CONTEXT_CTX_SWITCH.
Definition KGSL_CMDBATCH_PROFILING : Z := 0x00000010.
Definition KGSL_CMDBATCH_PROFILING_KTIME : Z := 0x00000020.
Definition KGSL_CMDBATCH_END_OF_FRAME : Z := KGSL_CONTEXT_END_OF_FRAME.
Definition KGSL_CMDBATCH_SYNC : Z := KGSL_CONTEXT_SYNC.
Definition KGSL_CMDBATCH_PWR_CONSTRAINT : Z := KGSL_CONTEXT_PWR_CONSTRAINT.
Definition KGSL_CMDBATCH_SPARSE : Z := 0x1000.
Definition KGSL_CMDBATCH_START_RECURRING : Z := 0x00100000.
Definition KGSL_CMDBATCH_STOP_RECURRING : Z := 0x00200000.

(** ** Flags of memory allocations *)

Definition KGSL_MEMFLAGS_SECURE : Z := 1 <<[U64] 3.
Definition KGSL_MEMFLAGS_GPUREADONLY : Z := 1 <<[U64] 24.
Definition KGSL_MEMFLAGS_GPUWRITEONLY : Z := 1 <<[U64] 25.
Definition KGSL_MEMFLAGS_FORCE_32BIT : Z := 1 <<[U64] 32.
Definition KGSL_SPARSE_BIND_MULTIPLE_TO_PHYS : Z := 0x400000000.
Definition KGSL_CACHEMODE_MASK : Z := 0x0C000000.
Definition KGSL_CACHEMODE_SHIFT : Z := 26.
Definition KGSL_CACHEMODE_WRITEBACK : Z := 3.
Definition KGSL_MEMFLAGS_USE_CPU_MAP : Z := 1 <<[U64] 28.
Definition KGSL_MEMFLAGS_SPARSE_PHYS : Z := 1 <<[U64] 29.
Definition KGSL_MEMFLAGS_SPARSE_VIRT : Z := 1 <<[U64] 30.
Definition KGSL_MEMFLAGS_IOCOHERENT : Z := 1 <<[U64] 31.
Definition KGSL_MEMFLAGS_GUARD_PAGE : Z := 1 <<[U64] 33.
Definition KGSL_MEMFLAGS_VBO : Z := 1 <<[U64] 34.
Definition KGSL_MEMTYPE_MASK : Z := 0x0000FF00.
Definition KGSL_MEMTYPE_SHIFT : Z := 8.
Definition KGSL_MEMTYPE_KERNEL : Z := 255.
Definition KGSL_MEMALIGN_MASK : Z := 0x00FF0000.
Definition KGSL_MEMALIGN_SHIFT : Z := 16.

(** Two enumerators, [ION] and [DMABUF], are one value. *)
Inductive kgsl_user_mem_type : Type :=
  | KGSL_USER_MEM_TYPE_PMEM | KGSL_USER_MEM_TYPE_ASHMEM | KGSL_USER_MEM_TYPE_ADDR
  | KGSL_USER_MEM_TYPE_ION | KGSL_USER_MEM_TYPE_DMABUF | KGSL_USER_MEM_TYPE_MAX.

Definition kgsl_user_mem_type_value (t : kgsl_user_mem_type) : Z :=
  match t with
  | KGSL_USER_MEM_TYPE_PMEM => 0x00000000
  | KGSL_USER_MEM_TYPE_ASHMEM => 0x00000001
  | KGSL_USER_MEM_TYPE_ADDR => 0x00000002
  | KGSL_USER_MEM_TYPE_ION => 0x00000003
  | KGSL_USER_MEM_TYPE_DMABUF => 0x00000003
  | KGSL_USER_MEM_TYPE_MAX => 0x00000007
  end.

Definition KGSL_MEMFLAGS_USERMEM_MASK : Z := 0x000000e0.
Definition KGSL_MEMFLAGS_USERMEM_SHIFT : Z := 5.

Definition KGSL_USERMEM_FLAG (x : Z) : Z := (x +[S32] 1) <<[S32] KGSL_MEMFLAGS_USERMEM_SHIFT.

Definition KGSL_MEMFLAGS_NOT_USERMEM : Z := 0.
Definition KGSL_MEMFLAGS_USERMEM_PMEM : Z := KGSL_USERMEM_FLAG (kgsl_user_mem_type_value KGSL_USER_MEM_TYPE_PMEM).
Definition KGSL_MEMFLAGS_USERMEM_ASHMEM : Z := KGSL_USERMEM_FLAG (kgsl_user_mem_type_value KGSL_USER_MEM_TYPE_ASHMEM).
Definition KGSL_MEMFLAGS_USERMEM_ADDR : Z := KGSL_USERMEM_FLAG (kgsl_user_mem_type_value KGSL_USER_MEM_TYPE_ADDR).
Definition KGSL_MEMFLAGS_USERMEM_ION : Z := KGSL_USERMEM_FLAG (kgsl_user_mem_type_value KGSL_USER_MEM_TYPE_ION).

Definition KGSL_CONVERT_TO_MBPS (val : Z) : Z := val *[U32] 1000 *[U32] 1000.

(** ** Timestamps in shared memory *)

Definition size_t (a : abi) : int_ty := IntTy (8 * ptr_bytes a) false.

(** [None] for a name that is no member of the structure. *)
Definition KGSL_MEMSTORE_OFFSET (a : abi) (ctxt_id : Z) (field : string) : option Z :=
  o ← offsetof a struct_kgsl_devmemstore field;
  Some ((ctxt_id *[size_t a] sizeof a struct_kgsl_devmemstore) +[size_t a] o).

(** ** Words *)

Definition context_flags : flag_word := {|
  w_bits :=
    [KGSL_CONTEXT_SAVE_GMEM; KGSL_CONTEXT_NO_GMEM_ALLOC; KGSL_CONTEXT_SUBMIT_IB_LIST;
     KGSL_CONTEXT_CTX_SWITCH; KGSL_CONTEXT_PREAMBLE; KGSL_CONTEXT_TRASH_STATE;
     KGSL_CONTEXT_PER_CONTEXT_TS; KGSL_CONTEXT_USER_GENERATED_TS; KGSL_CONTEXT_END_OF_FRAME;
     KGSL_CONTEXT_NO_FAULT_TOLERANCE; KGSL_CONTEXT_SYNC; KGSL_CONTEXT_PWR_CONSTRAINT;
     KGSL_CONTEXT_IFH_NOP; KGSL_CONTEXT_SECURE; KGSL_CONTEXT_NO_SNAPSHOT; KGSL_CONTEXT_SPARSE;
     KGSL_CONTEXT_INVALIDATE_ON_FAULT; KGSL_CONTEXT_LPAC; KGSL_CONTEXT_FAULT_INFO];
  w_masks :=
    [(KGSL_CONTEXT_PRIORITY_MASK, KGSL_CONTEXT_PRIORITY_SHIFT);
     (KGSL_CONTEXT_TYPE_MASK, KGSL_CONTEXT_TYPE_SHIFT);
     (KGSL_CONTEXT_PREEMPT_STYLE_MASK, KGSL_CONTEXT_PREEMPT_STYLE_SHIFT)] |}.

Definition cmdbatch_flags : flag_word := {|
  w_bits :=
    [KGSL_CMDBATCH_MEMLIST; KGSL_CMDBATCH_MARKER; KGSL_CMDBATCH_SUBMIT_IB_LIST;
     KGSL_CMDBATCH_CTX_SWITCH; KGSL_CMDBATCH_PROFILING; KGSL_CMDBATCH_PROFILING_KTIME;
     KGSL_CMDBATCH_END_OF_FRAME; KGSL_CMDBATCH_SYNC; KGSL_CMDBATCH_PWR_CONSTRAINT;
     KGSL_CMDBATCH_SPARSE; KGSL_CMDBATCH_START_RECURRING; KGSL_CMDBATCH_STOP_RECURRING];
  w_masks := [] |}.

Definition memory_flags : flag_word := {|
  w_bits :=
    [KGSL_MEMFLAGS_SECURE; KGSL_MEMFLAGS_GPUREADONLY; KGSL_MEMFLAGS_GPUWRITEONLY;
     KGSL_MEMFLAGS_USE_CPU_MAP; KGSL_MEMFLAGS_SPARSE_PHYS; KGSL_MEMFLAGS_SPARSE_VIRT;
     KGSL_MEMFLAGS_IOCOHERENT; KGSL_MEMFLAGS_FORCE_32BIT; KGSL_MEMFLAGS_GUARD_PAGE; KGSL_MEMFLAGS_VBO];
  w_masks :=
    [(KGSL_MEMFLAGS_USERMEM_MASK, KGSL_MEMFLAGS_USERMEM_SHIFT);
     (KGSL_MEMTYPE_MASK, KGSL_MEMTYPE_SHIFT); (KGSL_MEMALIGN_MASK, KGSL_MEMALIGN_SHIFT);
     (KGSL_CACHEMODE_MASK, KGSL_CACHEMODE_SHIFT)] |}.

(** Bits the header keeps free for flags the two words may come to share. *)
Definition reserved (flag : Z) : bool :=
  existsb (fun i => Z.testbit flag i) (seqZ 16 4 ++ seqZ 28 4).

(** ** Theorems *)

(** C22: The flag words of the GPU driver (contexts, command batches, memory
    allocations): a word joined from any flags and any values that fit their
    fields gives back each flag by [&] and each value by [&] and [>>]. So no flag
    or field overlaps another one, and every mask is the one of its shift. *)
Theorem kgsl_flag_words (w : flag_word) (b : Z -> bool) (v : Z * Z -> Z) :
  In w [context_flags; cmdbatch_flags; memory_flags] ->
  (forall m, In m (w_masks w) -> 0 <= v m < 2 ^ (Z.log2 m.1 - m.2 + 1)) ->
  (forall flag, In flag (w_bits w) -> c_true (Z.land (make_word w b v) flag) = b flag)
  /\ (forall m, In m (w_masks w) -> Z.shiftr (Z.land (make_word w b v) m.1) m.2 = v m).
Proof.
  intros Hin Hv.
  assert (flag_word_ok w = true) as Hw by (cbn in Hin; intuition subst; by vm_compute).
  split; intros; [by apply read_flag|by apply read_mask].
Qed.

Lemma kgsl_flag_words_witness :
  let x := Z.lor KGSL_MEMFLAGS_IOCOHERENT (Z.shiftl 12 KGSL_MEMALIGN_SHIFT) in
  Z.shiftr (Z.land x KGSL_MEMALIGN_MASK) KGSL_MEMALIGN_SHIFT = 12.
Proof.
  destruct (kgsl_flag_words memory_flags (Z.eqb KGSL_MEMFLAGS_IOCOHERENT)
    (fun m => if m.2 =? KGSL_MEMALIGN_SHIFT then 12 else 0)) as [_ Hm].
  - right. right. by left.
  - intros m Hm. cbn in Hm. intuition subst; by vm_compute.
  - exact (Hm (KGSL_MEMALIGN_MASK, KGSL_MEMALIGN_SHIFT) (or_intror (or_intror (or_introl eq_refl)))).
Defined.

(** The source of user memory: 0 in its field stands for memory of the driver, and the
    flag of each source below [KGSL_USER_MEM_TYPE_MAX] stays in the field and gives
    the source back; that of the maximum itself lands in the field of the memory type. *)
Theorem kgsl_user_memory :
  (forall x, 0 <= x < kgsl_user_mem_type_value KGSL_USER_MEM_TYPE_MAX ->
     let flag := KGSL_USERMEM_FLAG x in
     Z.land flag KGSL_MEMFLAGS_USERMEM_MASK = flag
     /\ Z.shiftr flag KGSL_MEMFLAGS_USERMEM_SHIFT - 1 = x /\ flag <> KGSL_MEMFLAGS_NOT_USERMEM)
  /\ (let flag := KGSL_USERMEM_FLAG (kgsl_user_mem_type_value KGSL_USER_MEM_TYPE_MAX) in
      Z.land flag KGSL_MEMFLAGS_USERMEM_MASK = KGSL_MEMFLAGS_NOT_USERMEM
      /\ Z.shiftr (Z.land flag KGSL_MEMTYPE_MASK) KGSL_MEMTYPE_SHIFT = 1).
Proof.
  split; [|by vm_compute]. cbn [kgsl_user_mem_type_value]. intros x Hx.
  assert (x = 0 \/ x = 1 \/ x = 2 \/ x = 3 \/ x = 4 \/ x = 5 \/ x = 6) as Hc by lia.
  repeat destruct Hc as [->|Hc]; subst; by vm_compute.
Qed.

(** The members of [struct kgsl_devmemstore], in order. *)
Definition devmemstore_fields : list string :=
  ["soptimestamp"; "sbz"; "eoptimestamp"; "sbz2"; "preempted"; "sbz3"; "ref_wait_ts"; "sbz4";
   "current_context"; "sbz5"].

(** The timestamps the GPU writes for its contexts: as long as the memory of the
    contexts can be addressed, the words of all contexts and members follow each other
    without a gap, so no two share a byte; and what the GPU writes, every other
    member, is aligned to 8 bytes. It is the same for 32-bit processes. *)
Theorem kgsl_memstore (a : abi) (ctxt : Z) (k : nat) (f : string) :
  arm_abi a -> 0 <= ctxt -> 40 * (ctxt + 1) <= 2 ^ 32 -> devmemstore_fields !! k = Some f ->
  KGSL_MEMSTORE_OFFSET a ctxt f = Some (4 * (10 * ctxt + Z.of_nat k)) /\ (k < 10)%nat
  /\ (Nat.Even k -> (8 | 4 * (10 * ctxt + Z.of_nat k))).
Proof.
  intros Ha Hc Hmax Hk. pose proof (lookup_lt_Some _ _ _ Hk) as Hlt. cbn in Hlt. split_and!; [|done|].
  - assert (offsetof a struct_kgsl_devmemstore f = Some (4 * Z.of_nat k)
            /\ sizeof a struct_kgsl_devmemstore = 40) as [Ho Hs].
    { destruct Ha as [-> | ->]; (split; [|done]);
        do 10 (destruct k as [|k]; [cbn in Hk; injection Hk as <-; by vm_compute|]); lia. }
    unfold KGSL_MEMSTORE_OFFSET. rewrite Ho, Hs. cbn [mbind option_bind]. f_equal.
    norm_pow.
    destruct Ha as [-> | ->]; rewrite c_mul_id by (done || (unfold_range; cbn; lia));
      rewrite c_add_id by (done || (unfold_range; cbn; lia)); lia.
  - intros [j ->]. exists (5 * ctxt + Z.of_nat j). lia.
Qed.

Lemma kgsl_memstore_witness : KGSL_MEMSTORE_OFFSET ILP32 3 "eoptimestamp" = Some 128.
Proof. by apply (kgsl_memstore ILP32 3 2 "eoptimestamp"); [right|..]. Defined.
