(* ===== verification/Qmi.v ===== *)
(** * Qmi: the messages between the IPA driver and the modem

    From [include/linux/ipa_qmi_service_v01.h], whose structures are in [UapiQmi]: the
    identifiers of the messages and the lengths of the longest of each. How long a message
    is on the wire follows from its structure: the header documents that a [_valid] member tells whether the
    element after it is present, and that a [_len] member counts the elements in use of the
    array after it. What surrounds an element on the wire is the encoding's business
    ([QmiEncoding]), which is not part of the tree. *)

From S2P Require Import Prelude CLayout Uapi UapiQmi.

#[local] Open Scope string_scope.
#[local] Open Scope list_scope.
#[local] Open Scope Z_scope.

(** ** Message identifiers *)

Definition QMI_IPA_INDICATION_REGISTER_REQ_V01 : Z := 0x0020.
Definition QMI_IPA_INDICATION_REGISTER_RESP_V01 : Z := 0x0020.
Definition QMI_IPA_INIT_MODEM_DRIVER_REQ_V01 : Z := 0x0021.
Definition QMI_IPA_INIT_MODEM_DRIVER_RESP_V01 : Z := 0x0021.
Definition QMI_IPA_MASTER_DRIVER_INIT_COMPLETE_IND_V01 : Z := 0x0022.
Definition QMI_IPA_INSTALL_FILTER_RULE_REQ_V01 : Z := 0x0023.
Definition QMI_IPA_INSTALL_FILTER_RULE_RESP_V01 : Z := 0x0023.
Definition QMI_IPA_FILTER_INSTALLED_NOTIF_REQ_V01 : Z := 0x0024.
Definition QMI_IPA_FILTER_INSTALLED_NOTIF_RESP_V01 : Z := 0x0024.
Definition QMI_IPA_ENABLE_FORCE_CLEAR_DATAPATH_REQ_V01 : Z := 0x0025.
Definition QMI_IPA_ENABLE_FORCE_CLEAR_DATAPATH_RESP_V01 : Z := 0x0025.
Definition QMI_IPA_DISABLE_FORCE_CLEAR_DATAPATH_REQ_V01 : Z := 0x0026.
Definition QMI_IPA_DISABLE_FORCE_CLEAR_DATAPATH_RESP_V01 : Z := 0x0026.
Definition QMI_IPA_CONFIG_REQ_V01 : Z := 0x0027.
Definition QMI_IPA_CONFIG_RESP_V01 : Z := 0x0027.
Definition QMI_IPA_DISABLE_LINK_LOW_PWR_STATE_REQ_V01 : Z := 0x0028.
Definition QMI_IPA_DISABLE_LINK_LOW_PWR_STATE_RESP_V01 : Z := 0x0028.
Definition QMI_IPA_ENABLE_LINK_LOW_PWR_STATE_REQ_V01 : Z := 0x0029.
Definition QMI_IPA_ENABLE_LINK_LOW_PWR_STATE_RESP_V01 : Z := 0x0029.
Definition QMI_IPA_GET_DATA_STATS_REQ_V01 : Z := 0x0030.
Definition QMI_IPA_GET_DATA_STATS_RESP_V01 : Z := 0x0030.
Definition QMI_IPA_GET_APN_DATA_STATS_REQ_V01 : Z := 0x0031.
Definition QMI_IPA_GET_APN_DATA_STATS_RESP_V01 : Z := 0x0031.
Definition QMI_IPA_SET_DATA_USAGE_QUOTA_REQ_V01 : Z := 0x0032.
Definition QMI_IPA_SET_DATA_USAGE_QUOTA_RESP_V01 : Z := 0x0032.
Definition QMI_IPA_DATA_USAGE_QUOTA_REACHED_IND_V01 : Z := 0x0033.
Definition QMI_IPA_STOP_DATA_USAGE_QUOTA_REQ_V01 : Z := 0x0034.
Definition QMI_IPA_STOP_DATA_USAGE_QUOTA_RESP_V01 : Z := 0x0034.
Definition QMI_IPA_INIT_MODEM_DRIVER_CMPLT_REQ_V01 : Z := 0x0035.
Definition QMI_IPA_INIT_MODEM_DRIVER_CMPLT_RESP_V01 : Z := 0x0035.
Definition QMI_IPA_INSTALL_FILTER_RULE_EX_REQ_V01 : Z := 0x0037.
Definition QMI_IPA_INSTALL_FILTER_RULE_EX_RESP_V01 : Z := 0x0037.
Definition QMI_IPA_ENABLE_PER_CLIENT_STATS_REQ_V01 : Z := 0x0038.
Definition QMI_IPA_ENABLE_PER_CLIENT_STATS_RESP_V01 : Z := 0x0038.
Definition QMI_IPA_GET_STATS_PER_CLIENT_REQ_V01 : Z := 0x0039.
Definition QMI_IPA_GET_STATS_PER_CLIENT_RESP_V01 : Z := 0x0039.
Definition QMI_IPA_INSTALL_UL_FIREWALL_RULES_REQ_V01 : Z := 0x003A.
Definition QMI_IPA_INSTALL_UL_FIREWALL_RULES_RESP_V01 : Z := 0x003A.
Definition QMI_IPA_INSTALL_UL_FIREWALL_RULES_IND_V01 : Z := 0x003A.
Definition QMI_IPA_MHI_CLK_VOTE_REQ_V01 : Z := 0x003B.
Definition QMI_IPA_MHI_CLK_VOTE_RESP_V01 : Z := 0x003B.
Definition QMI_IPA_MHI_READY_IND_V01 : Z := 0x003C.
Definition QMI_IPA_MHI_ALLOC_CHANNEL_REQ_V01 : Z := 0x003D.
Definition QMI_IPA_MHI_ALLOC_CHANNEL_RESP_V01 : Z := 0x003D.
Definition QMI_IPA_MHI_CLEANUP_REQ_V01 : Z := 0x003E.
Definition QMI_IPA_MHI_CLEANUP_RESP_V01 : Z := 0x003E.
Definition QMI_IPA_ENDP_DESC_INDICATION_V01 : Z := 0x003F.
Definition QMI_IPA_MHI_PRIME_AGGR_INFO_REQ_V01 : Z := 0x0040.
Definition QMI_IPA_MHI_PRIME_AGGR_INFO_RESP_V01 : Z := 0x0040.
Definition QMI_IPA_ADD_OFFLOAD_CONNECTION_REQ_V01 : Z := 0x0041.
Definition QMI_IPA_ADD_OFFLOAD_CONNECTION_RESP_V01 : Z := 0x0041.
Definition QMI_IPA_REMOVE_OFFLOAD_CONNECTION_REQ_V01 : Z := 0x0042.
Definition QMI_IPA_REMOVE_OFFLOAD_CONNECTION_RESP_V01 : Z := 0x0042.
Definition QMI_IPA_BW_CHANGE_INDICATION_V01 : Z := 0x0044.
Definition QMI_IPA_MOVE_NAT_REQ_V01 : Z := 0x0046.
Definition QMI_IPA_MOVE_NAT_RESP_V01 : Z := 0x0046.
Definition QMI_IPA_MOVE_NAT_COMPLETE_IND_V01 : Z := 0x0046.
Definition QMI_IPA_ETH_BACKHAUL_INFO_REQ_V01 : Z := 0x0047.
Definition QMI_IPA_ETH_BACKHAUL_INFO_RESP_V01 : Z := 0x0047.
Definition QMI_IPA_RMNET_ETH_INFO_INDICATION_V01 : Z := 0x0048.

(** ** Lengths of the longest messages *)

Definition IPA_MHI_READY_INDICATION_MSG_V01_MAX_MSG_LEN : Z := 123.
Definition IPA_MHI_ALLOC_CHANNEL_REQ_MSG_V01_MAX_MSG_LEN : Z := 808.
Definition IPA_MHI_ALLOC_CHANNEL_RESP_MSG_V01_MAX_MSG_LEN : Z := 23.
Definition IPA_MHI_CLK_VOTE_REQ_MSG_V01_MAX_MSG_LEN : Z := 18.
Definition IPA_MHI_CLK_VOTE_RESP_MSG_V01_MAX_MSG_LEN : Z := 7.
Definition IPA_MHI_CLEANUP_REQ_MSG_V01_MAX_MSG_LEN : Z := 4.
Definition IPA_MHI_CLEANUP_RESP_MSG_V01_MAX_MSG_LEN : Z := 7.
Definition IPA_ENDP_DESC_INDICATION_MSG_V01_MAX_MSG_LEN : Z := 507.
Definition IPA_MHI_PRIME_AGGR_INFO_REQ_MSG_V01_MAX_MSG_LEN : Z := 631.
Definition IPA_MHI_PRIME_AGGR_INFO_RESP_MSG_V01_MAX_MSG_LEN : Z := 7.
Definition IPA_ADD_OFFLOAD_CONNECTION_REQ_MSG_V01_MAX_MSG_LEN : Z := 11361.
Definition IPA_ADD_OFFLOAD_CONNECTION_RESP_MSG_V01_MAX_MSG_LEN : Z := 523.
Definition IPA_REMOVE_OFFLOAD_CONNECTION_REQ_MSG_V01_MAX_MSG_LEN : Z := 520.
Definition IPA_REMOVE_OFFLOAD_CONNECTION_RESP_MSG_V01_MAX_MSG_LEN : Z := 7.
Definition IPA_BW_CHANGE_IND_MSG_V01_MAX_MSG_LEN : Z := 14.
Definition IPA_MOVE_NAT_REQ_MSG_V01_MAX_MSG_LEN : Z := 8.
Definition IPA_MOVE_NAT_RESP_MSG_V01_MAX_MSG_LEN : Z := 7.
Definition QMI_IPA_NAT_TABLE_MOVE_COMPLETE_IND_MAX_MSG_LEN_V01 : Z := 7.
Definition IPA_ETH_BACKHAUL_INFO_REQ_MSG_V01_MAX_MSG_LEN : Z := 45.
Definition IPA_ETH_BACKHAUL_INFO_RESP_MSG_V01_MAX_MSG_LEN : Z := 7.
Definition IPA_RMNET_ETH_INFO_INDICATION_MSG_V01_MAX_MSG_LEN : Z := 194.
Definition QMI_IPA_INIT_MODEM_DRIVER_REQ_MAX_MSG_LEN_V01 : Z := 197.
Definition QMI_IPA_INIT_MODEM_DRIVER_RESP_MAX_MSG_LEN_V01 : Z := 25.
Definition QMI_IPA_INDICATION_REGISTER_REQ_MAX_MSG_LEN_V01 : Z := 16.
Definition QMI_IPA_INDICATION_REGISTER_RESP_MAX_MSG_LEN_V01 : Z := 7.
Definition QMI_IPA_INSTALL_FILTER_RULE_REQ_MAX_MSG_LEN_V01 : Z := 33705.
Definition QMI_IPA_INSTALL_FILTER_RULE_RESP_MAX_MSG_LEN_V01 : Z := 783.
Definition QMI_IPA_FILTER_INSTALLED_NOTIF_REQ_MAX_MSG_LEN_V01 : Z := 1899.
Definition QMI_IPA_FILTER_INSTALLED_NOTIF_RESP_MAX_MSG_LEN_V01 : Z := 7.
Definition QMI_IPA_MASTER_DRIVER_INIT_COMPLETE_IND_MAX_MSG_LEN_V01 : Z := 7.
Definition QMI_IPA_DATA_USAGE_QUOTA_REACHED_IND_MAX_MSG_LEN_V01 : Z := 19.
Definition QMI_IPA_ENABLE_FORCE_CLEAR_DATAPATH_REQ_MAX_MSG_LEN_V01 : Z := 37.
Definition QMI_IPA_DISABLE_FORCE_CLEAR_DATAPATH_REQ_MAX_MSG_LEN_V01 : Z := 7.
Definition QMI_IPA_ENABLE_FORCE_CLEAR_DATAPATH_RESP_MAX_MSG_LEN_V01 : Z := 7.
Definition QMI_IPA_DISABLE_FORCE_CLEAR_DATAPATH_RESP_MAX_MSG_LEN_V01 : Z := 7.
Definition QMI_IPA_CONFIG_REQ_MAX_MSG_LEN_V01 : Z := 102.
Definition QMI_IPA_CONFIG_RESP_MAX_MSG_LEN_V01 : Z := 7.
Definition QMI_IPA_DISABLE_LINK_LOW_PWR_STATE_REQ_MAX_MSG_LEN_V01 : Z := 18.
Definition QMI_IPA_DISABLE_LINK_LOW_PWR_STATE_RESP_MAX_MSG_LEN_V01 : Z := 7.
Definition QMI_IPA_ENABLE_LINK_LOW_PWR_STATE_REQ_MAX_MSG_LEN_V01 : Z := 7.
Definition QMI_IPA_ENABLE_LINK_LOW_PWR_STATE_RESP_MAX_MSG_LEN_V01 : Z := 7.
Definition QMI_IPA_GET_DATA_STATS_REQ_MAX_MSG_LEN_V01 : Z := 11.
Definition QMI_IPA_GET_DATA_STATS_RESP_MAX_MSG_LEN_V01 : Z := 2234.
Definition QMI_IPA_GET_APN_DATA_STATS_REQ_MAX_MSG_LEN_V01 : Z := 36.
Definition QMI_IPA_GET_APN_DATA_STATS_RESP_MAX_MSG_LEN_V01 : Z := 299.
Definition QMI_IPA_SET_DATA_USAGE_QUOTA_REQ_MAX_MSG_LEN_V01 : Z := 200.
Definition QMI_IPA_SET_DATA_USAGE_QUOTA_RESP_MAX_MSG_LEN_V01 : Z := 7.
Definition QMI_IPA_STOP_DATA_USAGE_QUOTA_REQ_MAX_MSG_LEN_V01 : Z := 8.
Definition QMI_IPA_STOP_DATA_USAGE_QUOTA_RESP_MAX_MSG_LEN_V01 : Z := 7.
Definition QMI_IPA_INIT_MODEM_DRIVER_CMPLT_REQ_MAX_MSG_LEN_V01 : Z := 4.
Definition QMI_IPA_INIT_MODEM_DRIVER_CMPLT_RESP_MAX_MSG_LEN_V01 : Z := 7.
Definition QMI_IPA_INSTALL_FILTER_RULE_EX_REQ_MAX_MSG_LEN_V01 : Z := 34021.
Definition QMI_IPA_INSTALL_FILTER_RULE_EX_RESP_MAX_MSG_LEN_V01 : Z := 523.
Definition QMI_IPA_ENABLE_PER_CLIENT_STATS_REQ_MAX_MSG_LEN_V01 : Z := 4.
Definition QMI_IPA_ENABLE_PER_CLIENT_STATS_RESP_MAX_MSG_LEN_V01 : Z := 7.
Definition QMI_IPA_GET_STATS_PER_CLIENT_REQ_MAX_MSG_LEN_V01 : Z := 18.
Definition QMI_IPA_GET_STATS_PER_CLIENT_RESP_MAX_MSG_LEN_V01 : Z := 3595.
Definition QMI_IPA_INSTALL_UL_FIREWALL_RULES_REQ_MAX_MSG_LEN_V01 : Z := 9875.
Definition QMI_IPA_INSTALL_UL_FIREWALL_RULES_RESP_MAX_MSG_LEN_V01 : Z := 7.
Definition QMI_IPA_INSTALL_UL_FIREWALL_RULES_IND_MAX_MSG_LEN_V01 : Z := 11.
Definition QMI_IPA_MAX_MSG_LEN : Z := 22685.

(** ** The messages *)

Inductive msg_kind : Type := Request | Response | Indication.

(** A message of the service: its kind, its identifier, the structure that holds it, if
    the header declares one, and the length the header gives for it. *)
Record qmi_msg : Type := QmiMsg {
  msg_kind_of : msg_kind;
  msg_id : Z;
  msg_struct : option ctype;
  msg_max_len : Z;
}.

Definition qmi_messages : list (string * qmi_msg) :=
  [("INDICATION_REGISTER_REQ", QmiMsg Request QMI_IPA_INDICATION_REGISTER_REQ_V01 (Some struct_ipa_indication_reg_req_msg_v01)
      QMI_IPA_INDICATION_REGISTER_REQ_MAX_MSG_LEN_V01);
   ("INDICATION_REGISTER_RESP", QmiMsg Response QMI_IPA_INDICATION_REGISTER_RESP_V01 (Some struct_ipa_indication_reg_resp_msg_v01)
      QMI_IPA_INDICATION_REGISTER_RESP_MAX_MSG_LEN_V01);
   ("INIT_MODEM_DRIVER_REQ", QmiMsg Request QMI_IPA_INIT_MODEM_DRIVER_REQ_V01 (Some struct_ipa_init_modem_driver_req_msg_v01)
      QMI_IPA_INIT_MODEM_DRIVER_REQ_MAX_MSG_LEN_V01);
   ("INIT_MODEM_DRIVER_RESP", QmiMsg Response QMI_IPA_INIT_MODEM_DRIVER_RESP_V01 (Some struct_ipa_init_modem_driver_resp_msg_v01)
      QMI_IPA_INIT_MODEM_DRIVER_RESP_MAX_MSG_LEN_V01);
   ("MASTER_DRIVER_INIT_COMPLETE_IND", QmiMsg Indication QMI_IPA_MASTER_DRIVER_INIT_COMPLETE_IND_V01 (Some struct_ipa_master_driver_init_complt_ind_msg_v01)
      QMI_IPA_MASTER_DRIVER_INIT_COMPLETE_IND_MAX_MSG_LEN_V01);
   ("INSTALL_FILTER_RULE_REQ", QmiMsg Request QMI_IPA_INSTALL_FILTER_RULE_REQ_V01 (Some struct_ipa_install_fltr_rule_req_msg_v01)
      QMI_IPA_INSTALL_FILTER_RULE_REQ_MAX_MSG_LEN_V01);
   ("INSTALL_FILTER_RULE_RESP", QmiMsg Response QMI_IPA_INSTALL_FILTER_RULE_RESP_V01 (Some struct_ipa_install_fltr_rule_resp_msg_v01)
      QMI_IPA_INSTALL_FILTER_RULE_RESP_MAX_MSG_LEN_V01);
   ("FILTER_INSTALLED_NOTIF_REQ", QmiMsg Request QMI_IPA_FILTER_INSTALLED_NOTIF_REQ_V01 (Some struct_ipa_fltr_installed_notif_req_msg_v01)
      QMI_IPA_FILTER_INSTALLED_NOTIF_REQ_MAX_MSG_LEN_V01);
   ("FILTER_INSTALLED_NOTIF_RESP", QmiMsg Response QMI_IPA_FILTER_INSTALLED_NOTIF_RESP_V01 (Some struct_ipa_fltr_installed_notif_resp_msg_v01)
      QMI_IPA_FILTER_INSTALLED_NOTIF_RESP_MAX_MSG_LEN_V01);
   ("ENABLE_FORCE_CLEAR_DATAPATH_REQ", QmiMsg Request QMI_IPA_ENABLE_FORCE_CLEAR_DATAPATH_REQ_V01 (Some struct_ipa_enable_force_clear_datapath_req_msg_v01)
      QMI_IPA_ENABLE_FORCE_CLEAR_DATAPATH_REQ_MAX_MSG_LEN_V01);
   ("ENABLE_FORCE_CLEAR_DATAPATH_RESP", QmiMsg Response QMI_IPA_ENABLE_FORCE_CLEAR_DATAPATH_RESP_V01 (Some struct_ipa_enable_force_clear_datapath_resp_msg_v01)
      QMI_IPA_ENABLE_FORCE_CLEAR_DATAPATH_RESP_MAX_MSG_LEN_V01);
   ("DISABLE_FORCE_CLEAR_DATAPATH_REQ", QmiMsg Request QMI_IPA_DISABLE_FORCE_CLEAR_DATAPATH_REQ_V01 (Some struct_ipa_disable_force_clear_datapath_req_msg_v01)
      QMI_IPA_DISABLE_FORCE_CLEAR_DATAPATH_REQ_MAX_MSG_LEN_V01);
   ("DISABLE_FORCE_CLEAR_DATAPATH_RESP", QmiMsg Response QMI_IPA_DISABLE_FORCE_CLEAR_DATAPATH_RESP_V01 (Some struct_ipa_disable_force_clear_datapath_resp_msg_v01)
      QMI_IPA_DISABLE_FORCE_CLEAR_DATAPATH_RESP_MAX_MSG_LEN_V01);
   ("CONFIG_REQ", QmiMsg Request QMI_IPA_CONFIG_REQ_V01 (Some struct_ipa_config_req_msg_v01)
      QMI_IPA_CONFIG_REQ_MAX_MSG_LEN_V01);
   ("CONFIG_RESP", QmiMsg Response QMI_IPA_CONFIG_RESP_V01 (Some struct_ipa_config_resp_msg_v01)
      QMI_IPA_CONFIG_RESP_MAX_MSG_LEN_V01);
   ("DISABLE_LINK_LOW_PWR_STATE_REQ", QmiMsg Request QMI_IPA_DISABLE_LINK_LOW_PWR_STATE_REQ_V01 None
      QMI_IPA_DISABLE_LINK_LOW_PWR_STATE_REQ_MAX_MSG_LEN_V01);
   ("DISABLE_LINK_LOW_PWR_STATE_RESP", QmiMsg Response QMI_IPA_DISABLE_LINK_LOW_PWR_STATE_RESP_V01 None
      QMI_IPA_DISABLE_LINK_LOW_PWR_STATE_RESP_MAX_MSG_LEN_V01);
   ("ENABLE_LINK_LOW_PWR_STATE_REQ", QmiMsg Request QMI_IPA_ENABLE_LINK_LOW_PWR_STATE_REQ_V01 None
      QMI_IPA_ENABLE_LINK_LOW_PWR_STATE_REQ_MAX_MSG_LEN_V01);
   ("ENABLE_LINK_LOW_PWR_STATE_RESP", QmiMsg Response QMI_IPA_ENABLE_LINK_LOW_PWR_STATE_RESP_V01 None
      QMI_IPA_ENABLE_LINK_LOW_PWR_STATE_RESP_MAX_MSG_LEN_V01);
   ("GET_DATA_STATS_REQ", QmiMsg Request QMI_IPA_GET_DATA_STATS_REQ_V01 (Some struct_ipa_get_data_stats_req_msg_v01)
      QMI_IPA_GET_DATA_STATS_REQ_MAX_MSG_LEN_V01);
   ("GET_DATA_STATS_RESP", QmiMsg Response QMI_IPA_GET_DATA_STATS_RESP_V01 (Some struct_ipa_get_data_stats_resp_msg_v01)
      QMI_IPA_GET_DATA_STATS_RESP_MAX_MSG_LEN_V01);
   ("GET_APN_DATA_STATS_REQ", QmiMsg Request QMI_IPA_GET_APN_DATA_STATS_REQ_V01 (Some struct_ipa_get_apn_data_stats_req_msg_v01)
      QMI_IPA_GET_APN_DATA_STATS_REQ_MAX_MSG_LEN_V01);
   ("GET_APN_DATA_STATS_RESP", QmiMsg Response QMI_IPA_GET_APN_DATA_STATS_RESP_V01 (Some struct_ipa_get_apn_data_stats_resp_msg_v01)
      QMI_IPA_GET_APN_DATA_STATS_RESP_MAX_MSG_LEN_V01);
   ("SET_DATA_USAGE_QUOTA_REQ", QmiMsg Request QMI_IPA_SET_DATA_USAGE_QUOTA_REQ_V01 (Some struct_ipa_set_data_usage_quota_req_msg_v01)
      QMI_IPA_SET_DATA_USAGE_QUOTA_REQ_MAX_MSG_LEN_V01);
   ("SET_DATA_USAGE_QUOTA_RESP", QmiMsg Response QMI_IPA_SET_DATA_USAGE_QUOTA_RESP_V01 (Some struct_ipa_set_data_usage_quota_resp_msg_v01)
      QMI_IPA_SET_DATA_USAGE_QUOTA_RESP_MAX_MSG_LEN_V01);
   ("DATA_USAGE_QUOTA_REACHED_IND", QmiMsg Indication QMI_IPA_DATA_USAGE_QUOTA_REACHED_IND_V01 (Some struct_ipa_data_usage_quota_reached_ind_msg_v01)
      QMI_IPA_DATA_USAGE_QUOTA_REACHED_IND_MAX_MSG_LEN_V01);
   ("STOP_DATA_USAGE_QUOTA_REQ", QmiMsg Request QMI_IPA_STOP_DATA_USAGE_QUOTA_REQ_V01 (Some struct_ipa_stop_data_usage_quota_req_msg_v01)
      QMI_IPA_STOP_DATA_USAGE_QUOTA_REQ_MAX_MSG_LEN_V01);
   ("STOP_DATA_USAGE_QUOTA_RESP", QmiMsg Response QMI_IPA_STOP_DATA_USAGE_QUOTA_RESP_V01 (Some struct_ipa_stop_data_usage_quota_resp_msg_v01)
      QMI_IPA_STOP_DATA_USAGE_QUOTA_RESP_MAX_MSG_LEN_V01);
   ("INIT_MODEM_DRIVER_CMPLT_REQ", QmiMsg Request QMI_IPA_INIT_MODEM_DRIVER_CMPLT_REQ_V01 (Some struct_ipa_init_modem_driver_cmplt_req_msg_v01)
      QMI_IPA_INIT_MODEM_DRIVER_CMPLT_REQ_MAX_MSG_LEN_V01);
   ("INIT_MODEM_DRIVER_CMPLT_RESP", QmiMsg Response QMI_IPA_INIT_MODEM_DRIVER_CMPLT_RESP_V01 (Some struct_ipa_init_modem_driver_cmplt_resp_msg_v01)
      QMI_IPA_INIT_MODEM_DRIVER_CMPLT_RESP_MAX_MSG_LEN_V01);
   ("INSTALL_FILTER_RULE_EX_REQ", QmiMsg Request QMI_IPA_INSTALL_FILTER_RULE_EX_REQ_V01 (Some struct_ipa_install_fltr_rule_req_ex_msg_v01)
      QMI_IPA_INSTALL_FILTER_RULE_EX_REQ_MAX_MSG_LEN_V01);
   ("INSTALL_FILTER_RULE_EX_RESP", QmiMsg Response QMI_IPA_INSTALL_FILTER_RULE_EX_RESP_V01 (Some struct_ipa_install_fltr_rule_resp_ex_msg_v01)
      QMI_IPA_INSTALL_FILTER_RULE_EX_RESP_MAX_MSG_LEN_V01);
   ("ENABLE_PER_CLIENT_STATS_REQ", QmiMsg Request QMI_IPA_ENABLE_PER_CLIENT_STATS_REQ_V01 (Some struct_ipa_enable_per_client_stats_req_msg_v01)
      QMI_IPA_ENABLE_PER_CLIENT_STATS_REQ_MAX_MSG_LEN_V01);
   ("ENABLE_PER_CLIENT_STATS_RESP", QmiMsg Response QMI_IPA_ENABLE_PER_CLIENT_STATS_RESP_V01 (Some struct_ipa_enable_per_client_stats_resp_msg_v01)
      QMI_IPA_ENABLE_PER_CLIENT_STATS_RESP_MAX_MSG_LEN_V01);
   ("GET_STATS_PER_CLIENT_REQ", QmiMsg Request QMI_IPA_GET_STATS_PER_CLIENT_REQ_V01 (Some struct_ipa_get_stats_per_client_req_msg_v01)
      QMI_IPA_GET_STATS_PER_CLIENT_REQ_MAX_MSG_LEN_V01);
   ("GET_STATS_PER_CLIENT_RESP", QmiMsg Response QMI_IPA_GET_STATS_PER_CLIENT_RESP_V01 (Some struct_ipa_get_stats_per_client_resp_msg_v01)
      QMI_IPA_GET_STATS_PER_CLIENT_RESP_MAX_MSG_LEN_V01);
   ("INSTALL_UL_FIREWALL_RULES_REQ", QmiMsg Request QMI_IPA_INSTALL_UL_FIREWALL_RULES_REQ_V01 (Some struct_ipa_configure_ul_firewall_rules_req_msg_v01)
      QMI_IPA_INSTALL_UL_FIREWALL_RULES_REQ_MAX_MSG_LEN_V01);
   ("INSTALL_UL_FIREWALL_RULES_RESP", QmiMsg Response QMI_IPA_INSTALL_UL_FIREWALL_RULES_RESP_V01 (Some struct_ipa_configure_ul_firewall_rules_resp_msg_v01)
      QMI_IPA_INSTALL_UL_FIREWALL_RULES_RESP_MAX_MSG_LEN_V01);
   ("INSTALL_UL_FIREWALL_RULES_IND", QmiMsg Indication QMI_IPA_INSTALL_UL_FIREWALL_RULES_IND_V01 (Some struct_ipa_configure_ul_firewall_rules_ind_msg_v01)
      QMI_IPA_INSTALL_UL_FIREWALL_RULES_IND_MAX_MSG_LEN_V01);
   ("MHI_CLK_VOTE_REQ", QmiMsg Request QMI_IPA_MHI_CLK_VOTE_REQ_V01 (Some struct_ipa_mhi_clk_vote_req_msg_v01)
      IPA_MHI_CLK_VOTE_REQ_MSG_V01_MAX_MSG_LEN);
   ("MHI_CLK_VOTE_RESP", QmiMsg Response QMI_IPA_MHI_CLK_VOTE_RESP_V01 (Some struct_ipa_mhi_clk_vote_resp_msg_v01)
      IPA_MHI_CLK_VOTE_RESP_MSG_V01_MAX_MSG_LEN);
   ("MHI_READY_IND", QmiMsg Indication QMI_IPA_MHI_READY_IND_V01 (Some struct_ipa_mhi_ready_indication_msg_v01)
      IPA_MHI_READY_INDICATION_MSG_V01_MAX_MSG_LEN);
   ("MHI_ALLOC_CHANNEL_REQ", QmiMsg Request QMI_IPA_MHI_ALLOC_CHANNEL_REQ_V01 (Some struct_ipa_mhi_alloc_channel_req_msg_v01)
      IPA_MHI_ALLOC_CHANNEL_REQ_MSG_V01_MAX_MSG_LEN);
   ("MHI_ALLOC_CHANNEL_RESP", QmiMsg Response QMI_IPA_MHI_ALLOC_CHANNEL_RESP_V01 (Some struct_ipa_mhi_alloc_channel_resp_msg_v01)
      IPA_MHI_ALLOC_CHANNEL_RESP_MSG_V01_MAX_MSG_LEN);
   ("MHI_CLEANUP_REQ", QmiMsg Request QMI_IPA_MHI_CLEANUP_REQ_V01 (Some struct_ipa_mhi_cleanup_req_msg_v01)
      IPA_MHI_CLEANUP_REQ_MSG_V01_MAX_MSG_LEN);
   ("MHI_CLEANUP_RESP", QmiMsg Response QMI_IPA_MHI_CLEANUP_RESP_V01 (Some struct_ipa_mhi_cleanup_resp_msg_v01)
      IPA_MHI_CLEANUP_RESP_MSG_V01_MAX_MSG_LEN);
   ("ENDP_DESC_INDICATION", QmiMsg Indication QMI_IPA_ENDP_DESC_INDICATION_V01 (Some struct_ipa_endp_desc_indication_msg_v01)
      IPA_ENDP_DESC_INDICATION_MSG_V01_MAX_MSG_LEN);
   ("MHI_PRIME_AGGR_INFO_REQ", QmiMsg Request QMI_IPA_MHI_PRIME_AGGR_INFO_REQ_V01 (Some struct_ipa_mhi_prime_aggr_info_req_msg_v01)
      IPA_MHI_PRIME_AGGR_INFO_REQ_MSG_V01_MAX_MSG_LEN);
   ("MHI_PRIME_AGGR_INFO_RESP", QmiMsg Response QMI_IPA_MHI_PRIME_AGGR_INFO_RESP_V01 (Some struct_ipa_mhi_prime_aggr_info_resp_msg_v01)
      IPA_MHI_PRIME_AGGR_INFO_RESP_MSG_V01_MAX_MSG_LEN);
   ("ADD_OFFLOAD_CONNECTION_REQ", QmiMsg Request QMI_IPA_ADD_OFFLOAD_CONNECTION_REQ_V01 (Some struct_ipa_add_offload_connection_req_msg_v01)
      IPA_ADD_OFFLOAD_CONNECTION_REQ_MSG_V01_MAX_MSG_LEN);
   ("ADD_OFFLOAD_CONNECTION_RESP", QmiMsg Response QMI_IPA_ADD_OFFLOAD_CONNECTION_RESP_V01 (Some struct_ipa_add_offload_connection_resp_msg_v01)
      IPA_ADD_OFFLOAD_CONNECTION_RESP_MSG_V01_MAX_MSG_LEN);
   ("REMOVE_OFFLOAD_CONNECTION_REQ", QmiMsg Request QMI_IPA_REMOVE_OFFLOAD_CONNECTION_REQ_V01 (Some struct_ipa_remove_offload_connection_req_msg_v01)
      IPA_REMOVE_OFFLOAD_CONNECTION_REQ_MSG_V01_MAX_MSG_LEN);
   ("REMOVE_OFFLOAD_CONNECTION_RESP", QmiMsg Response QMI_IPA_REMOVE_OFFLOAD_CONNECTION_RESP_V01 (Some struct_ipa_remove_offload_connection_resp_msg_v01)
      IPA_REMOVE_OFFLOAD_CONNECTION_RESP_MSG_V01_MAX_MSG_LEN);
   ("BW_CHANGE_INDICATION", QmiMsg Indication QMI_IPA_BW_CHANGE_INDICATION_V01 (Some struct_ipa_bw_change_ind_msg_v01)
      IPA_BW_CHANGE_IND_MSG_V01_MAX_MSG_LEN);
   ("MOVE_NAT_REQ", QmiMsg Request QMI_IPA_MOVE_NAT_REQ_V01 (Some struct_ipa_move_nat_req_msg_v01)
      IPA_MOVE_NAT_REQ_MSG_V01_MAX_MSG_LEN);
   ("MOVE_NAT_RESP", QmiMsg Response QMI_IPA_MOVE_NAT_RESP_V01 (Some struct_ipa_move_nat_resp_msg_v01)
      IPA_MOVE_NAT_RESP_MSG_V01_MAX_MSG_LEN);
   ("MOVE_NAT_COMPLETE_IND", QmiMsg Indication QMI_IPA_MOVE_NAT_COMPLETE_IND_V01 (Some struct_ipa_move_nat_table_complt_ind_msg_v01)
      QMI_IPA_NAT_TABLE_MOVE_COMPLETE_IND_MAX_MSG_LEN_V01);
   ("ETH_BACKHAUL_INFO_REQ", QmiMsg Request QMI_IPA_ETH_BACKHAUL_INFO_REQ_V01 (Some struct_ipa_eth_backhaul_info_req_msg_v01)
      IPA_ETH_BACKHAUL_INFO_REQ_MSG_V01_MAX_MSG_LEN);
   ("ETH_BACKHAUL_INFO_RESP", QmiMsg Response QMI_IPA_ETH_BACKHAUL_INFO_RESP_V01 (Some struct_ipa_eth_backhaul_info_resp_msg_v01)
      IPA_ETH_BACKHAUL_INFO_RESP_MSG_V01_MAX_MSG_LEN);
   ("RMNET_ETH_INFO_INDICATION", QmiMsg Indication QMI_IPA_RMNET_ETH_INFO_INDICATION_V01 (Some struct_ipa_rmnet_eth_info_indication_msg_v01)
      IPA_RMNET_ETH_INFO_INDICATION_MSG_V01_MAX_MSG_LEN)].
(** ** The encoding

    An element is sent as type, length and value; an array with as many elements as are
    in use is preceded by their number. *)

Class QmiEncoding := {
  tlv_header : Z;
  count_bytes : Z -> Z;
}.

(** Documented: a header has one byte of type and two of length; the number is a byte, or two
    if the array can have more than 255 elements. *)
Class QmiLaws `{QmiEncoding} : Prop := {
  tlv_header_3 : tlv_header = 3;
  count_bytes_max max : count_bytes max = if max <=? 255 then 1 else 2;
}.

Definition qmi_tlv : QmiEncoding := {| tlv_header := 3; count_bytes max := if max <=? 255 then 1 else 2 |}.

Lemma qmi_tlv_laws : @QmiLaws qmi_tlv.
Proof. by constructor. Qed.

Definition ends_with (suffix s : string) : bool :=
  String.eqb suffix (String.substring (String.length s - String.length suffix) (String.length suffix) s).

(** A structure's member that says how many elements of the array after it are in use,
    with the size of that array. *)
Definition counts (n : string) (ms : list (string * ctype)) : option Z :=
  match ms with
  | (_, CArray _ max) :: _ => if ends_with "_len" n then Some max else None
  | _ => None
  end.

Definition is_flag (n : string) : bool := ends_with "_valid" n.

(** An element of a message: its name, its type, and whether its type is an array of which
    only part is sent. *)
Record element : Type := Element { el_name : string; el_type : ctype; el_counted : bool }.

(** The elements of a message, the flags and counts before them left out. *)
Fixpoint elements (counted : bool) (ms : list (string * ctype)) : list element :=
  match ms with
  | [] => []
  | (n, t) :: ms =>
      if is_flag n then elements false ms
      else match counts n ms with
           | Some _ => elements true ms
           | None => Element n t counted :: elements false ms
           end
  end.

Section Lengths.
Context `{QmiEncoding}.

(** The bytes of a value: its members' without padding. Arrays inside of an element are
    taken to be in use completely. *)
Fixpoint value_bytes (t : ctype) : Z :=
  match t with
  | CInt n => n
  | CPtr | CLong | CUnion _ => 0
  | CArray t n => n * value_bytes t
  | CStruct _ ms =>
      (fix go (ms : list (string * ctype)) : Z :=
         match ms with
         | [] => 0
         | (n, t) :: ms =>
             match counts n ms with Some max => count_bytes max | None => value_bytes t end + go ms
         end) ms
  | CAligned _ t => value_bytes t
  end.

(** The bytes of an element of which [count] array elements are in use. *)
Definition element_bytes (count : Z) (e : element) : Z :=
  match el_counted e, el_type e with
  | true, CArray t max => tlv_header + count_bytes max + count * value_bytes t
  | _, t => tlv_header + value_bytes t
  end.

(** The most elements of an array that can be in use. *)
Definition most (e : element) : Z := match el_type e with CArray _ max => max | _ => 0 end.

(** The length of a message with the elements [present], of whose arrays [count] are in use. *)
Definition encoded_length (present : string -> bool) (count : string -> Z) (ms : list (string * ctype)) : Z :=
  foldr (fun e l => (if present (el_name e) then element_bytes (count (el_name e)) e else 0) + l) 0
    (elements false ms).

Definition longest (ms : list (string * ctype)) : Z :=
  foldr (fun e l => element_bytes (most e) e + l) 0 (elements false ms).
End Lengths.

(** The members of a message's structure. *)
Definition msg_members (m : qmi_msg) : option (list (string * ctype)) :=
  match msg_struct m with Some (CStruct _ ms) => Some ms | _ => None end.

(** ** Lengths *)

Section Bounds.
Context `{QmiEncoding} {Hqmi : QmiLaws}.

Lemma count_bytes_pos max : 0 < count_bytes max.
Proof using Hqmi. rewrite count_bytes_max. by destruct (max <=? 255). Qed.

Lemma value_bytes_nonneg t : wf_type t = true -> 0 <= value_bytes t.
Proof using Hqmi.
  induction t as [n| | |t n IH|p ms IH|ms IH|al t IH] using ctype_nested_ind; cbn [wf_type value_bytes]; try done.
  - intros [[? _]%andb_true_iff _]%andb_true_iff. lia.
  - intros [? Ht%IH]%andb_true_iff. nia.
  - intros Hms%(Forall_wf wf_type). induction ms as [|[n t] ms IHms]; [done|].
    apply Forall_cons in IH as [IHt IH]; apply Forall_cons in Hms as [Ht Hms]. specialize (IHms IH Hms).
    destruct (counts n ms) as [max|]; [pose proof (count_bytes_pos max)|specialize (IHt Ht); cbn in IHt]; lia.
  - intros [_ Ht%IH]%andb_true_iff. done.
Qed.

Lemma elements_wf ms : forall counted,
  Forall (fun m => wf_type m.2 = true) ms -> Forall (fun e => wf_type (el_type e) = true) (elements counted ms).
Proof using Type.
  induction ms as [|[n t] ms IH]; intros counted Hms; [constructor|].
  apply Forall_cons in Hms as [Ht Hms]. cbn [elements].
  destruct (is_flag n); [by apply IH|]. destruct (counts n ms); [by apply IH|].
  constructor; [done|by apply IH].
Qed.

Lemma element_bytes_mono c c' e :
  wf_type (el_type e) = true -> 0 <= c <= c' -> 0 <= element_bytes c e <= element_bytes c' e.
Proof using Hqmi.
  intros Hwf Hc. pose proof (value_bytes_nonneg _ Hwf) as Hv. pose proof tlv_header_3.
  unfold element_bytes. destruct (el_counted e); [|lia]. destruct (el_type e) as [| | |t max| | |]; try lia.
  cbn [wf_type] in Hwf. apply andb_true_iff in Hwf as [_ Ht%value_bytes_nonneg].
  pose proof (count_bytes_pos max). nia.
Qed.

Lemma encoded_length_le present count ms :
  Forall (fun m => wf_type m.2 = true) ms ->
  Forall (fun e => 0 <= count (el_name e) <= most e) (elements false ms) ->
  0 <= encoded_length present count ms <= longest ms.
Proof using Hqmi.
  intros Hms Hc. pose proof (elements_wf ms false Hms) as He. unfold encoded_length, longest.
  induction Hc as [|e es Hcount _ IH]; cbn [foldr]; [lia|].
  apply Forall_cons in He as [He Hes]. specialize (IH Hes).
  pose proof (element_bytes_mono _ _ e He Hcount). destruct (present (el_name e)); lia.
Qed.
End Bounds.

(** What the header's maximal length lacks for the longest message. *)
Definition missing_bytes (name : string) : Z :=
  if String.eqb name "INDICATION_REGISTER_REQ" then 8
  else if String.eqb name "FILTER_INSTALLED_NOTIF_REQ" then 2
  else if String.eqb name "MOVE_NAT_REQ" then -1
  else 0.

(** Every array in use completely. *)
Definition all_used (ms : list (string * ctype)) (name : string) : Z :=
  from_option most 0 (List.find (fun e => String.eqb (el_name e) name) (elements false ms)).

(** The structure is well-formed, its longest message as long as the header says but for the missing
    bytes, and the names of its elements are different. *)
Definition message_ok `{QmiEncoding} (x : string * qmi_msg) : bool :=
  match msg_members x.2 with
  | Some ms =>
      forallb (fun m => wf_type m.2) ms && (longest ms =? msg_max_len x.2 + missing_bytes x.1)
      && forallb (fun e => (all_used ms (el_name e) =? most e) && (0 <=? most e)) (elements false ms)
  | None => true
  end.

Lemma qmi_known `{QmiEncoding} {Hqmi : QmiLaws} ms :
  longest ms = @longest qmi_tlv ms /\ forall present count, encoded_length present count ms
                                        = @encoded_length qmi_tlv present count ms.
Proof.
  assert (forall max, count_bytes max = @count_bytes qmi_tlv max) as Hc by (intros; apply count_bytes_max).
  assert (forall t, value_bytes t = @value_bytes qmi_tlv t) as Hv.
  { induction t as [n| | |t n IH|p ms' IH|ms' IH|al t IH] using ctype_nested_ind; cbn [value_bytes]; try done.
    - by rewrite IH.
    - induction ms' as [|[n t] ms' IHms]; [done|]. apply Forall_cons in IH as [IHt IH]. cbn in IHt.
      rewrite (IHms IH). f_equal. destruct (counts n ms'); [apply Hc|done]. }
  assert (forall c e, element_bytes c e = @element_bytes qmi_tlv c e) as He.
  { intros c e. unfold element_bytes. rewrite tlv_header_3.
    destruct (el_counted e), (el_type e); by rewrite ?Hc, ?Hv. }
  unfold longest, encoded_length. split; [|intros present count];
    induction (elements false ms) as [|e es IH]; cbn [foldr]; [done| |done|]; by rewrite IH, He.
Qed.

Lemma messages_checked `{QmiEncoding} {Hqmi : QmiLaws} n m ms :
  In (n, m) qmi_messages -> msg_members m = Some ms ->
  Forall (fun m => wf_type m.2 = true) ms /\ longest ms = msg_max_len m + missing_bytes n
  /\ Forall (fun e => all_used ms (el_name e) = most e /\ 0 <= most e) (elements false ms).
Proof.
  intros Hin Hm. rewrite (proj1 (qmi_known ms)).
  assert (forallb (@message_ok qmi_tlv) qmi_messages = true) as Hc by (by vm_compute).
  rewrite forallb_forall in Hc. specialize (Hc _ Hin). unfold message_ok in Hc. cbn [fst snd] in Hc.
  rewrite Hm in Hc. apply andb_true_iff in Hc as [[Hwf Hl%Z.eqb_eq]%andb_true_iff He].
  split_and!; [by apply (Forall_wf wf_type)|done|].
  rewrite forallb_forall in He. apply List.Forall_forall. intros e Hin'%He. lia.
Qed.

Lemma qmi_full `{QmiEncoding} ms :
  Forall (fun e => all_used ms (el_name e) = most e /\ 0 <= most e) (elements false ms) ->
  exists present count, Forall (fun e => 0 <= count (el_name e) <= most e) (elements false ms)
    /\ encoded_length present count ms = longest ms.
Proof.
  intros He. exists (fun _ => true), (all_used ms). split.
  - eapply Forall_impl; [exact He|]. cbn. lia.
  - unfold encoded_length, longest. induction He as [|e es [He _] _ IH]; cbn [foldr]; [done|].
    by rewrite He, IH.
Qed.

(** C21: The maximal lengths of the header are those of the messages: whatever elements are
    present and whatever part of their arrays is used, a message is never longer, and the
    longest one has just that length. Three are not: registering for indications lacks the 8 bytes
    of two of its six flags, the notice of installed filters lacks 2 bytes, and the request to move the
    NAT table has one to spare. *)
Theorem qmi_message_lengths `{QmiEncoding} (Hqmi : QmiLaws) (n : string) (m : qmi_msg)
    (ms : list (string * ctype)) :
  In (n, m) qmi_messages -> msg_members m = Some ms ->
  (forall present count, Forall (fun e => 0 <= count (el_name e) <= most e) (elements false ms) ->
     0 <= encoded_length present count ms <= msg_max_len m + missing_bytes n)
  /\ exists present count, Forall (fun e => 0 <= count (el_name e) <= most e) (elements false ms)
       /\ encoded_length present count ms = msg_max_len m + missing_bytes n.
Proof.
  intros Hin Hm. destruct (messages_checked n m ms Hin Hm) as (Hwf & Hl & He). rewrite <- Hl. split.
  - intros present count Hc. by apply encoded_length_le.
  - by apply qmi_full.
Qed.

Lemma qmi_message_lengths_witness :
  exists present count,
    @encoded_length qmi_tlv present count
      [("nat_move_direction", c_enum)] = IPA_MOVE_NAT_REQ_MSG_V01_MAX_MSG_LEN - 1.
Proof.
  destruct (qmi_message_lengths (H := qmi_tlv) qmi_tlv_laws "MOVE_NAT_REQ"
    (QmiMsg Request QMI_IPA_MOVE_NAT_REQ_V01 (Some struct_ipa_move_nat_req_msg_v01)
       IPA_MOVE_NAT_REQ_MSG_V01_MAX_MSG_LEN) [("nat_move_direction", c_enum)])
    as [_ (present & count & _ & Hl)].
  - apply (nth_error_In _ 54%nat). by vm_compute.
  - done.
  - by exists present, count.
Defined.

(** The receive buffer is to be as long as the longest message that is expected: it is
    long enough for all messages but the two requests to install filter rules. *)
Theorem qmi_receive_buffer `{QmiEncoding} (Hqmi : QmiLaws) (n : string) (m : qmi_msg)
    (ms : list (string * ctype)) :
  In (n, m) qmi_messages -> msg_members m = Some ms ->
  (forall present count, Forall (fun e => 0 <= count (el_name e) <= most e) (elements false ms) ->
     encoded_length present count ms <= QMI_IPA_MAX_MSG_LEN)
  <-> n <> "INSTALL_FILTER_RULE_REQ" /\ n <> "INSTALL_FILTER_RULE_EX_REQ".
Proof.
  intros Hin Hm. destruct (messages_checked n m ms Hin Hm) as (Hwf & Hl & He).
  assert (longest ms <= QMI_IPA_MAX_MSG_LEN <-> n <> "INSTALL_FILTER_RULE_REQ" /\ n <> "INSTALL_FILTER_RULE_EX_REQ")
    as <-.
  { rewrite Hl. assert (forallb (fun x => Bool.eqb (msg_max_len x.2 + missing_bytes x.1 <=? QMI_IPA_MAX_MSG_LEN)
      (negb (String.eqb x.1 "INSTALL_FILTER_RULE_REQ") && negb (String.eqb x.1 "INSTALL_FILTER_RULE_EX_REQ")))
      qmi_messages = true) as Hc by (by vm_compute).
    rewrite forallb_forall in Hc. apply Hc, eqb_prop in Hin. cbn [fst snd] in Hin.
    rewrite <- Z.leb_le, Hin, andb_true_iff, !negb_true_iff, !String.eqb_neq. done. }
  split.
  - intros Hall. destruct (qmi_full ms He) as (present & count & Hc & <-). by apply Hall.
  - intros Hle present count Hc. pose proof (encoded_length_le present count ms Hwf Hc). lia.
Qed.

Lemma qmi_receive_buffer_witness :
  ~ forall present count,
      Forall (fun e => 0 <= count (el_name e) <= most e)
        (elements false (default [] (msg_members (QmiMsg Request 0 (Some struct_ipa_install_fltr_rule_req_msg_v01) 0)))) ->
      @encoded_length qmi_tlv present count
        (default [] (msg_members (QmiMsg Request 0 (Some struct_ipa_install_fltr_rule_req_msg_v01) 0)))
      <= QMI_IPA_MAX_MSG_LEN.
Proof.
  intros Hall. eapply (qmi_receive_buffer (H := qmi_tlv) qmi_tlv_laws "INSTALL_FILTER_RULE_REQ"
    (QmiMsg Request QMI_IPA_INSTALL_FILTER_RULE_REQ_V01 (Some struct_ipa_install_fltr_rule_req_msg_v01)
       QMI_IPA_INSTALL_FILTER_RULE_REQ_MAX_MSG_LEN_V01)) in Hall as [Hne _]; [done| |done].
  apply (nth_error_In _ 5%nat). by vm_compute.
Defined.

(** ** Identifiers *)

Definition kind_eqb (k k' : msg_kind) : bool :=
  match k, k' with
  | Request, Request | Response, Response | Indication, Indication => true
  | _, _ => false
  end.

Definition ids_ok : bool :=
  forallb (fun x => forallb (fun y => implb (kind_eqb (msg_kind_of x.2) (msg_kind_of y.2) && (msg_id x.2 =? msg_id y.2))
                                        (String.eqb x.1 y.1)) qmi_messages
                    && match msg_kind_of x.2 with
                       | Indication => true
                       | k => existsb (fun y => kind_eqb (msg_kind_of y.2) (match k with Request => Response | _ => Request end)
                                                && (msg_id x.2 =? msg_id y.2)) qmi_messages
                       end) qmi_messages.

(** Identifiers: no two requests, no two responses and no two indications share one; every
    request has the identifier of a response, and every response that of a request. *)
Theorem qmi_message_ids (n n' : string) (m m' : qmi_msg) :
  In (n, m) qmi_messages -> In (n', m') qmi_messages ->
  (msg_kind_of m = msg_kind_of m' -> msg_id m = msg_id m' -> n = n')
  /\ (msg_kind_of m = Request -> exists x, In x qmi_messages /\ msg_kind_of x.2 = Response /\ msg_id x.2 = msg_id m)
  /\ (msg_kind_of m = Response -> exists x, In x qmi_messages /\ msg_kind_of x.2 = Request /\ msg_id x.2 = msg_id m).
Proof.
  intros Hm Hm'. assert (ids_ok = true) as Hc by (by vm_compute). unfold ids_ok in Hc.
  rewrite forallb_forall in Hc. apply Hc in Hm as [Hd He]%andb_true_iff. cbn [fst snd] in *.
  assert (forall k k', kind_eqb k k' = true <-> k = k') as Hk by (by intros [] []).
  split_and!.
  - intros Ek Ei. rewrite forallb_forall in Hd. apply Hd in Hm'. cbn [fst snd] in Hm'.
    rewrite Ek, Ei, Z.eqb_refl, (proj2 (Hk _ _) eq_refl) in Hm'. by apply String.eqb_eq.
  - intros Ek. rewrite Ek in He. apply existsb_exists in He as (x & Hx & [Hkx%Hk Hi%Z.eqb_eq]%andb_true_iff).
    by exists x.
  - intros Ek. rewrite Ek in He. apply existsb_exists in He as (x & Hx & [Hkx%Hk Hi%Z.eqb_eq]%andb_true_iff).
    by exists x.
Qed.

Lemma qmi_message_ids_witness :
  exists x, In x qmi_messages /\ msg_kind_of x.2 = Response /\ msg_id x.2 = QMI_IPA_CONFIG_REQ_V01.
Proof.
  set (m := QmiMsg Request QMI_IPA_CONFIG_REQ_V01 (Some struct_ipa_config_req_msg_v01)
              QMI_IPA_CONFIG_REQ_MAX_MSG_LEN_V01).
  assert (In ("CONFIG_REQ", m) qmi_messages) as Hm by (apply (nth_error_In _ 13%nat); by vm_compute).
  destruct (qmi_message_ids "CONFIG_REQ" "CONFIG_REQ" m m Hm Hm) as (_ & Hr & _). by apply Hr.
Defined.
