(* ===== verification/Init.v ===== *)
(** * Init: boot-time properties of [init/init_ruan.cpp]

    The table of product variants, the choice of a variant, and the two
    sequences that load the properties of the chosen one. The file is the
    result of a merge that was not finished: [vendor_load_properties] is defined
    twice, [GetVariant] and [property_override] nowhere, and the end of the
    function that chooses the variant is inside the first definition. Each part
    that is there is a definition; what the file only names is an argument of
    the definitions that use it. *)

From Stdlib Require Import Ascii.

From S2P Require Import Prelude.

#[local] Open Scope string_scope.
#[local] Open Scope list_scope.
#[local] Open Scope Z_scope.

(** ** System properties

    bionic's property area, through the three functions the code calls.
    [system_property_get] reads a value and serves the specification only. The
    functions return zero on success. *)

Class SystemProperties (area : Type) := {
  prop_info : Type;
  system_property_find : area -> string -> option prop_info;
  system_property_update : area -> prop_info -> string -> area * Z;
  system_property_add : area -> string -> string -> area * Z;
  system_property_get : area -> string -> option string;
}.

(** Values of this length and longer are refused by an update. *)
Definition PROP_VALUE_MAX : nat := 92.

(** What bionic documents: a property is found exactly when it has a value, an
    update of a property that was found sets it, and an addition sets it or,
    when it fails for lack of space, changes nothing. *)
Class SystemPropertiesLaws (area : Type) `{SystemProperties area} : Prop := {
  system_property_find_get a n :
    system_property_find a n = None <-> system_property_get a n = None;
  system_property_update_get a n m pi v :
    system_property_find a n = Some pi -> (String.length v < PROP_VALUE_MAX)%nat ->
    system_property_get (system_property_update a pi v).1 m =
      if decide (m = n) then Some v else system_property_get a m;
  system_property_add_get a n m v :
    system_property_find a n = None ->
    system_property_get (system_property_add a n v).1 m =
      if decide (m = n)
      then (if (system_property_add a n v).2 =? 0 then Some v else None)
      else system_property_get a m;
}.

(** ** Variants *)

Record VariantInfo : Type := {
  region : string;
  hardware_sku : string;
  product_name : string;
  odm_name : string;
  brand : string;
  model : string;
  market_name : string;
}.

#[export] Instance VariantInfo_eq_dec : EqDecision VariantInfo.
Proof. solve_decision. Defined.

Definition kDefaultVariant : VariantInfo :=
  Build_VariantInfo "GL" "ruanp" "ruan_global" "ruan_global" "POCO" "POCO Pad 5G" "POCO Pad 5G".

Definition kPocoVariant : VariantInfo :=
  Build_VariantInfo "GL" "ruanp" "ruan_global" "ruan_global" "POCO" "POCO Pad 5G" "POCO Pad 5G".

Definition kVariants : list VariantInfo :=
  [Build_VariantInfo "CN" "ruan" "ruan" "ruan_cn" "Redmi" "Redmi Pad Pro" "Redmi Pad Pro";
   Build_VariantInfo "GL" "ruan" "ruan_global" "ruan_global" "Redmi" "Redmi Pad Pro 5G" "Redmi Pad Pro 5G";
   Build_VariantInfo "IN" "ruan" "ruan_in" "ruan_india" "Redmi" "Redmi Pad Pro 5G" "Redmi Pad Pro 5G";
   Build_VariantInfo "CN" "ruanp" "ruan_global" "ruan_global" "POCO" "POCO Pad 5G" "POCO Pad 5G";
   Build_VariantInfo "GL" "ruanp" "ruan_global" "ruan_global" "POCO" "POCO Pad 5G" "POCO Pad 5G";
   Build_VariantInfo "IN" "ruanp" "ruan_global" "ruan_global" "POCO" "POCO Pad 5G" "POCO Pad 5G"].

(** [std::toupper] of the "C" locale, which is the locale of [init]. *)
Definition toupper (c : ascii) : ascii :=
  let n := nat_of_ascii c in
  if ((97 <=? n) && (n <=? 122))%nat then ascii_of_nat (n - 32) else c.

Fixpoint NormalizeValue (value : string) : string :=
  match value with
  | EmptyString => EmptyString
  | String c value' => String (toupper c) (NormalizeValue value')
  end.

(** The choice of a variant, the statements left of the function that made it. Its head is lost, and
    with it where the two strings come from: that they went through [NormalizeValue], which has no
    caller left, is an assumption of the theorems about it, suggested by the capitals it compares with.
    [kVariants[i]] is inside the table, so the default of [nth] is not used. *)
Definition choose_variant (hardware_sku region : string) : VariantInfo :=
  if bool_decide (hardware_sku = "RUANP") then kPocoVariant
  else if bool_decide (hardware_sku = "RUAN") then nth 1 kVariants kDefaultVariant
  else if bool_decide (region = "CN") then nth 0 kVariants kDefaultVariant
  else if bool_decide (region = "IN") then nth 2 kVariants kDefaultVariant
  else kDefaultVariant.

(** ** Loading *)

(** A sequence of overrides, each a property and its value. *)
Definition load {area} (override : area -> string -> string -> area)
    (a : area) (ps : list (string * string)) : area :=
  fold_left (fun a p => override a p.1 p.2) ps a.

Section Load.
Context {area : Type} `{SystemProperties area}.

Definition PropertyOverride (a : area) (prop value : string) (add : bool) : area :=
  match system_property_find a prop with
  | Some pi => (system_property_update a pi value).1
  | None => if add then (system_property_add a prop value).1 else a
  end.

Definition vendor_properties (variant : VariantInfo) : list (string * string) :=
  [("bluetooth.device.default_name", market_name variant);
   ("ro.board.platform", "parrot");
   ("ro.build.characteristics", "tablet");
   ("ro.hardware", "qcom");
   ("ro.product.board", "parrot");
   ("ro.product.brand", brand variant);
   ("ro.product.device", "ruan");
   ("ro.product.manufacturer", "Xiaomi");
   ("ro.product.marketname", market_name variant);
   ("ro.product.model", model variant);
   ("ro.product.name", product_name variant);
   ("ro.product.odm.brand", brand variant);
   ("ro.product.odm.device", "ruan");
   ("ro.product.odm.manufacturer", "Xiaomi");
   ("ro.product.odm.model", model variant);
   ("ro.product.odm.name", odm_name variant);
   ("ro.product.vendor.brand", brand variant);
   ("ro.product.vendor.device", "ruan");
   ("ro.product.vendor.manufacturer", "Xiaomi");
   ("ro.product.vendor.model", model variant);
   ("ro.product.vendor.name", product_name variant);
   ("ro.radio.noril", "false");
   ("ro.soc.manufacturer", "Qualcomm");
   ("ro.soc.model", "SM7435");
   ("ro.telephony.sim.count", "2");
   ("vendor.usb.product_string", market_name variant)].

(** The second [vendor_load_properties]; [GetVariant()] is the argument. *)
Definition vendor_load_properties (variant : VariantInfo) (a : area) : area :=
  load (fun a prop value => PropertyOverride a prop value true) a (vendor_properties variant).
End Load.

(** What it logs. *)
Definition vendor_load_properties_log (variant : VariantInfo) : string :=
  ("Loaded variant properties for ruan region " +:+ region variant) +:+ (" sku " +:+ hardware_sku variant).

(** ** The first [vendor_load_properties]

    The macros of the build and [property_override], which the file does not
    define, are arguments, and so is the value of [ro.boot.hardware.variant]. *)

Section LoadFirst.
Context (DEVICE_NAME DEVICE_MODEL DEVICE_BRAND DEVICE_MANUFACTURER : string).

Definition product_properties : list (string * string) :=
  [("ro.product.device", DEVICE_NAME);
   ("ro.product.name", "ruan_global");
   ("ro.product.model", DEVICE_MODEL);
   ("ro.product.brand", DEVICE_BRAND);
   ("ro.product.manufacturer", DEVICE_MANUFACTURER);
   ("ro.build.fingerprint", "POCO/ruan_global/ruan:15/AP3A.240905.015.A2/OS2.0.208.0.VFSMIXM:user/release-keys");
   ("ro.build.description", "ruan_global-user 15 AP3A.240905.015.A2 OS2.0.208.0.VFSMIXM release-keys");
   ("ro.product.marketname", "POCO Pad 5G");
   ("ro.product.board", "parrot");
   ("ro.board.platform", "parrot");
   ("ro.hardware", "qcom");
   ("ro.hardware.keystore", "parrot");
   ("ro.hardware.gatekeeper", "parrot");
   ("ro.hardware.keymaster", "parrot");
   ("ro.soc.manufacturer", "QTI");
   ("ro.soc.model", "SM7435");
   ("ro.display.type", "LCD");
   ("ro.display.resolution", "2560x1600");
   ("ro.display.density", "320");
   ("ro.display.refresh_rate", "120");
   ("ro.build.characteristics", "tablet");
   ("ro.sf.lcd_density", "320");
   ("ro.product.first_api_level", "34");
   ("ro.build.version.security_patch", "2025-02-01");
   ("ro.vendor.build.security_patch", "2025-02-01");
   ("ro.build.version.release", "15");
   ("ro.build.version.sdk", "35")].

Definition radio_properties (variant : string) : list (string * string) :=
  if negb (bool_decide (variant = "")) then
    if bool_decide (variant = "wifi") || bool_decide (variant = "WIFI")
    then [("ro.radio.noril", "true"); ("ro.telephony.sim.count", "0")]
    else [("ro.radio.noril", "false"); ("ro.telephony.sim.count", "2")]
  else [].

Definition vendor_load_properties_first {area} (property_override : area -> string -> string -> area)
    (variant : string) (a : area) : area :=
  load property_override (load property_override a product_properties) (radio_properties variant).
End LoadFirst.
