(* ===== verification/InitProps.v ===== *)
(** * InitProps: what loading the boot-time properties does

    A property area to run on, what a sequence of overrides does, the choice of
    the variant, and the two versions of the loader. *)

From Stdlib Require Import Ascii.

From S2P Require Import Prelude Init.

#[local] Open Scope string_scope.
#[local] Open Scope list_scope.
#[local] Open Scope Z_scope.

(** ** An implementation of the property area

    A map with room for a number of further properties; a full one refuses
    additions. It is what the concrete instances below run on. *)

Record map_area : Type := MapArea { room : nat; props : gmap string string }.

#[export] Instance map_area_properties : SystemProperties map_area := {
  prop_info := string;
  system_property_find a n := match props a !! n with Some _ => Some n | None => None end;
  system_property_update a n v :=
    if bool_decide (String.length v < PROP_VALUE_MAX)%nat
    then (MapArea (room a) (<[n := v]> (props a)), 0) else (a, -1);
  system_property_add a n v :=
    match room a with
    | O => (a, -1)
    | S r => (MapArea r (<[n := v]> (props a)), 0)
    end;
  system_property_get a n := props a !! n;
}.

#[export] Instance map_area_laws : SystemPropertiesLaws map_area.
Proof.
  constructor; intros [r p] n; cbn.
  - by destruct (p !! n).
  - intros m pi v Hf Hv. rewrite bool_decide_true by done. cbn.
    destruct (p !! n) eqn:E; [|done]. injection Hf as <-.
    destruct (decide _) as [->|]; [by rewrite lookup_insert_eq|by rewrite lookup_insert_ne].
  - intros m v Hf. destruct (p !! n) eqn:E; [done|].
    destruct r; cbn; destruct (decide _) as [->|]; try done;
      [by rewrite lookup_insert_eq|by rewrite lookup_insert_ne].
Qed.

(** ** Sequences of overrides *)

Section Loading.
Context {area : Type} `{SystemPropertiesLaws area}.

(** What a sequence of overrides needs of one: it touches its property only,
    and sets it unless the property is new and the area refuses it. *)
Definition sets_or_skips (refuses : area -> string -> string -> Prop)
    (override : area -> string -> string -> area) : Prop :=
  forall a n v, (String.length v < PROP_VALUE_MAX)%nat ->
    (forall m, m <> n -> system_property_get (override a n v) m = system_property_get a m)
    /\ (system_property_get (override a n v) n = Some v
        \/ system_property_get a n = None /\ refuses a n v /\ system_property_get (override a n v) n = None).

(** The addition fails. *)
Definition add_fails (a : area) (n v : string) : Prop := (system_property_add a n v).2 <> 0.

Lemma PropertyOverride_sets_or_skips :
  sets_or_skips add_fails (fun a prop value => PropertyOverride a prop value true).
Proof.
  intros a n v Hv. unfold PropertyOverride.
  destruct (system_property_find a n) as [pi|] eqn:E; split.
  - intros m Hm. rewrite (system_property_update_get _ n) by done. by rewrite decide_False.
  - left. rewrite (system_property_update_get _ n) by done. by rewrite decide_True.
  - intros m Hm. rewrite system_property_add_get by done. by rewrite decide_False.
  - rewrite system_property_add_get by done. rewrite decide_True by done.
    destruct (Z.eqb_spec (system_property_add a n v).2 0) as [|Hfail]; [by left|right].
    split; [by apply system_property_find_get|done].
Qed.

Context (refuses : area -> string -> string -> Prop).
Context (override : area -> string -> string -> area) (Hoverride : sets_or_skips refuses override).

Definition short_values (ps : list (string * string)) : Prop :=
  Forall (fun p => (String.length p.2 < PROP_VALUE_MAX)%nat) ps.

Lemma load_other ps a m :
  short_values ps -> ~ In m (map fst ps) ->
  system_property_get (load override a ps) m = system_property_get a m.
Proof using Hoverride.
  revert a. induction ps as [|[n v] ps IH]; intros a Hs Hm; [done|].
  apply Forall_cons in Hs as [Hv Hs]. cbn in Hm. cbn [load fold_left fst snd].
  fold (load override (override a n v) ps). rewrite IH by tauto.
  apply (Hoverride a n v Hv). intros ->. tauto.
Qed.

Lemma load_listed ps a n v :
  short_values ps -> NoDup (map fst ps) -> In (n, v) ps ->
  system_property_get (load override a ps) n = Some v
  \/ system_property_get a n = None /\ system_property_get (load override a ps) n = None
     /\ exists ps1 ps2, ps = ps1 ++ (n, v) :: ps2 /\ refuses (load override a ps1) n v.
Proof using Hoverride.
  revert a. induction ps as [|[m w] ps IH]; intros a Hs Hnd Hin; [done|].
  apply Forall_cons in Hs as [Hw Hs]. cbn in Hw, Hnd. apply NoDup_cons in Hnd as [Hm Hnd].
  rewrite list_elem_of_In in Hm. cbn [load fold_left fst snd].
  fold (load override (override a m w) ps). destruct Hin as [[= -> ->]|Hin].
  - rewrite load_other by done. destruct (Hoverride a n v Hw) as [_ [E|(E1 & E2 & E3)]]; [by left|right].
    split_and!; [done|done|]. by exists [], ps.
  - assert (n <> m) as Hne by (intros ->; apply Hm; by apply (in_map fst _ _ Hin)).
    destruct (IH (override a m w) Hs Hnd Hin) as [E|(E1 & E2 & ps1 & ps2 & -> & E3)]; [by left|right].
    destruct (Hoverride a m w Hw) as [Ho _]. split_and!; [by rewrite <- Ho|done|]. by exists ((m, w) :: ps1), ps2.
Qed.

(** A property that exists gets its value for certain. *)
Lemma load_existing ps a n v :
  short_values ps -> NoDup (map fst ps) -> In (n, v) ps -> system_property_get a n <> None ->
  system_property_get (load override a ps) n = Some v.
Proof using Hoverride. intros. destruct (load_listed ps a n v) as [?|[? _]]; done. Qed.
End Loading.

(** A property that is not among those of a concrete list. *)
Ltac not_listed := cbn; intros Hin; repeat destruct Hin as [Hin|Hin]; congruence.

(** The values of a variant are short enough to be set. *)
Definition variant_fits (v : VariantInfo) : Prop := short_values (vendor_properties v).

#[export] Instance variant_fits_dec v : Decision (variant_fits v).
Proof. unfold variant_fits, short_values. apply _. Defined.

Lemma vendor_properties_NoDup v : NoDup (map fst (vendor_properties v)).
Proof. cbn. apply (bool_decide_unpack _). by vm_compute. Qed.

(** C30: Loading a variant's properties gives every property of the list the
    variant's value and leaves every other property alone. The only exception
    is a property that did not exist and whose addition failed when its turn in the list came,
    since the code ignores the result of adding it: it stays unset and
    the rest of the list is loaded all the same. *)
Theorem vendor_load_properties_loads {area} `{SystemProperties area} (Hlaws : SystemPropertiesLaws area)
    (variant : VariantInfo) (a : area) (n : string) :
  variant_fits variant ->
  (forall v, In (n, v) (vendor_properties variant) ->
     system_property_get (vendor_load_properties variant a) n = Some v
     \/ system_property_get a n = None
        /\ system_property_get (vendor_load_properties variant a) n = None
        /\ exists ps1 ps2, vendor_properties variant = ps1 ++ (n, v) :: ps2
             /\ (system_property_add (load (fun a prop value => PropertyOverride a prop value true) a ps1) n v).2 <> 0)
  /\ (~ In n (map fst (vendor_properties variant)) ->
      system_property_get (vendor_load_properties variant a) n = system_property_get a n).
Proof.
  intros Hfits. split.
  - intros v Hv. apply (load_listed add_fails);
      [apply PropertyOverride_sets_or_skips|done|apply vendor_properties_NoDup|done].
  - intros Hn. apply (load_other add_fails); [apply PropertyOverride_sets_or_skips|done|done].
Qed.

(** In an area with one free place an existing property is changed, the first
    missing one is added and the next is not; others stay. *)
Lemma vendor_load_properties_loads_witness :
  let a := MapArea 1 {[ "ro.product.model" := "unknown"; "ro.serialno" := "1" ]} in
  let get n := system_property_get (vendor_load_properties kPocoVariant a) n in
  variant_fits kPocoVariant
  /\ get "ro.product.model" = Some "POCO Pad 5G" /\ get "bluetooth.device.default_name" = Some "POCO Pad 5G"
  /\ get "ro.board.platform" = None /\ get "ro.serialno" = Some "1".
Proof.
  assert (variant_fits kPocoVariant) as Hf by (apply (bool_decide_unpack _); by vm_compute).
  pose proof (vendor_load_properties_loads map_area_laws kPocoVariant
    (MapArea 1 {[ "ro.product.model" := "unknown"; "ro.serialno" := "1" ]})) as Hl.
  split_and!; [exact Hf| | | |].
  - destruct (Hl "ro.product.model" Hf) as [Hin _].
    destruct (Hin "POCO Pad 5G") as [E|(E & _)]; [cbn; tauto|exact E|vm_compute in E; discriminate E].
  - vm_compute. reflexivity.
  - vm_compute. reflexivity.
  - destruct (Hl "ro.serialno" Hf) as [_ Hout].
    rewrite Hout; [vm_compute; reflexivity|not_listed].
Defined.

(** ** The choice of a variant *)

(** The sku and region of a row of the table as the boot loader may spell them. *)
Definition spelled (s t : string) : Prop := NormalizeValue s = NormalizeValue t.

(** C29: The choice of a variant is right about the product, if what it compares are normalised
    values - the source has [NormalizeValue], but has lost the calls of it with the head of the function -: for the sku and
    region of a row of the table, however they are capitalised, the variant chosen has
    the row's sku and brand. It is the row itself exactly when the row is
    not a Redmi row of China or India: these are sold under the sku
    of the global one, which is looked at first, so they are taken for the global
    Redmi, and are chosen only when the sku is neither of the two. *)
Theorem choose_variant_row (row : VariantInfo) (sku reg : string) :
  In row kVariants -> spelled sku (hardware_sku row) -> spelled reg (region row) ->
  let chosen := choose_variant (NormalizeValue sku) (NormalizeValue reg) in
  hardware_sku chosen = hardware_sku row
  /\ brand chosen = brand row
  /\ (brand row = "Redmi" -> chosen = nth 1 kVariants kDefaultVariant)
  /\ (brand row = "POCO" -> model chosen = model row /\ product_name chosen = product_name row)
  /\ (forall sku', sku' <> "RUAN" -> sku' <> "RUANP" -> brand row = "Redmi" -> region row <> "GL" ->
        choose_variant sku' (NormalizeValue reg) = row).
Proof.
  intros Hin Hs Hr. unfold spelled in *. rewrite Hs, Hr. clear Hs Hr.
  assert (forall sku' r, sku' <> "RUAN" -> sku' <> "RUANP" ->
    choose_variant sku' r =
      if bool_decide (r = "CN") then nth 0 kVariants kDefaultVariant
      else if bool_decide (r = "IN") then nth 2 kVariants kDefaultVariant else kDefaultVariant) as Hother.
  { intros sku' r H1 H2. unfold choose_variant. by rewrite !(bool_decide_false (sku' = _)). }
  cbn in Hin.
  repeat destruct Hin as [<-|Hin]; try done;
    split_and!; try done; intros sku' H1 H2 H3 H4; try done; by rewrite Hother.
Qed.

Lemma choose_variant_row_witness :
  let chosen := choose_variant (NormalizeValue "ruan") (NormalizeValue "Cn") in
  brand chosen = "Redmi" /\ product_name chosen = "ruan_global"
  /\ choose_variant "" (NormalizeValue "Cn") = nth 0 kVariants kDefaultVariant.
Proof.
  destruct (choose_variant_row (nth 0 kVariants kDefaultVariant) "ruan" "Cn")
    as (_ & H1 & H2 & _ & H3); [by left|vm_compute; reflexivity|vm_compute; reflexivity|].
  split_and!; [exact H1|rewrite (H2 eq_refl); reflexivity|].
  apply H3; [discriminate|discriminate|reflexivity|discriminate].
Defined.

(** ** The two versions *)

Lemma product_properties_NoDup d m b k : NoDup (map fst (product_properties d m b k)).
Proof. cbn. apply (bool_decide_unpack _). by vm_compute. Qed.

Lemma product_properties_short d m b k :
  Forall (fun s => (String.length s < PROP_VALUE_MAX)%nat) [d; m; b; k] ->
  short_values (product_properties d m b k).
Proof.
  intros Hf. rewrite !Forall_cons in Hf. destruct Hf as (? & ? & ? & ? & _).
  unfold short_values, product_properties. repeat (apply Forall_cons; split; [cbn [snd]; try done; cbn; unfold PROP_VALUE_MAX; lia|]).
  by apply Forall_nil.
Qed.

Lemma radio_properties_short w : short_values (radio_properties w).
Proof.
  unfold short_values, radio_properties, PROP_VALUE_MAX.
  destruct (negb _); [destruct (_ || _)|]; repeat constructor; cbn; lia.
Qed.

Lemma radio_properties_NoDup w : NoDup (map fst (radio_properties w)).
Proof.
  unfold radio_properties. destruct (negb _); [destruct (_ || _)|]; cbn;
    apply (bool_decide_unpack _); by vm_compute.
Qed.

(** What the first version leaves in the telephony properties. *)
Section First.
Context {area : Type} `{SystemPropertiesLaws area}.
Context (property_override : area -> string -> string -> area) (refuses : area -> string -> string -> Prop).
Context (Hpo : sets_or_skips refuses property_override).
Context (name dmodel dbrand maker hw_variant : string) (a : area).
Context (Hshort : Forall (fun s => (String.length s < PROP_VALUE_MAX)%nat) [name; dmodel; dbrand; maker]).

Lemma first_radio n v :
  In (n, v) (radio_properties hw_variant) ->
  ~ In n (map fst (product_properties name dmodel dbrand maker)) -> system_property_get a n <> None ->
  system_property_get (vendor_load_properties_first name dmodel dbrand maker property_override hw_variant a) n = Some v.
Proof using Hpo Hshort.
  intros Hin Hn Ha. apply (load_existing _ _ Hpo);
    [apply radio_properties_short|apply radio_properties_NoDup|done|].
  by rewrite (load_other _ _ Hpo) by (done || by apply product_properties_short).
Qed.

Lemma first_other n :
  ~ In n (map fst (radio_properties hw_variant)) ->
  ~ In n (map fst (product_properties name dmodel dbrand maker)) ->
  system_property_get (vendor_load_properties_first name dmodel dbrand maker property_override hw_variant a) n
    = system_property_get a n.
Proof using Hpo Hshort.
  intros H1 H2. unfold vendor_load_properties_first.
  rewrite (load_other _ _ Hpo) by (done || apply radio_properties_short).
  by rewrite (load_other _ _ Hpo) by (done || by apply product_properties_short).
Qed.

(** A property that existed still does. *)
Lemma first_exists n :
  ~ In n (map fst (product_properties name dmodel dbrand maker)) -> system_property_get a n <> None ->
  system_property_get (vendor_load_properties_first name dmodel dbrand maker property_override hw_variant a) n <> None.
Proof using Hpo Hshort.
  intros Hn Ha. destruct (decide (n ∈ map fst (radio_properties hw_variant))) as [Hin|Hin];
    rewrite list_elem_of_In in Hin.
  - apply in_map_iff in Hin as ([m v] & <- & Hin). by rewrite (first_radio _ v).
  - by rewrite first_other.
Qed.
End First.

(** The two versions of [vendor_load_properties] disagree. Given a working
    [property_override], the first one decides about telephony by the boot
    variant: no modem for a Wi-Fi tablet, two SIMs for any other, and nothing
    when the variant is not known. The second always claims two SIMs, also after
    the first has found a Wi-Fi tablet. *)
Theorem vendor_load_properties_versions {area} `{SystemProperties area} (Hlaws : SystemPropertiesLaws area)
    (property_override : area -> string -> string -> area) (refuses : area -> string -> string -> Prop) (name dmodel dbrand maker hw_variant : string)
    (v : VariantInfo) (a : area) :
  sets_or_skips refuses property_override ->
  Forall (fun s => (String.length s < PROP_VALUE_MAX)%nat) [name; dmodel; dbrand; maker] ->
  variant_fits v ->
  system_property_get a "ro.radio.noril" <> None -> system_property_get a "ro.telephony.sim.count" <> None ->
  let first := vendor_load_properties_first name dmodel dbrand maker property_override hw_variant a in
  let wifi := hw_variant = "wifi" \/ hw_variant = "WIFI" in
  (wifi -> system_property_get first "ro.radio.noril" = Some "true"
           /\ system_property_get first "ro.telephony.sim.count" = Some "0")
  /\ (hw_variant <> "" -> ~ wifi -> system_property_get first "ro.radio.noril" = Some "false"
           /\ system_property_get first "ro.telephony.sim.count" = Some "2")
  /\ (hw_variant = "" -> system_property_get first "ro.radio.noril" = system_property_get a "ro.radio.noril"
           /\ system_property_get first "ro.telephony.sim.count" = system_property_get a "ro.telephony.sim.count")
  /\ system_property_get (vendor_load_properties v first) "ro.radio.noril" = Some "false"
  /\ system_property_get (vendor_load_properties v first) "ro.telephony.sim.count" = Some "2".
Proof.
  intros Hpo Hf Hv Hnoril Hsim first wifi.
  assert (~ In "ro.radio.noril" (map fst (product_properties name dmodel dbrand maker))) as Hn1 by not_listed.
  assert (~ In "ro.telephony.sim.count" (map fst (product_properties name dmodel dbrand maker))) as Hn2 by not_listed.
  split_and!.
  - intros Hw. assert (radio_properties hw_variant = radio_properties "wifi") as E by (by destruct Hw as [-> | ->]).
    split; eapply first_radio; try done; rewrite E; vm_compute; tauto.
  - intros He Hw. assert (radio_properties hw_variant = radio_properties "cellular") as E.
    { unfold radio_properties. rewrite (bool_decide_false (hw_variant = "")) by exact He.
      rewrite (bool_decide_false (hw_variant = "wifi")) by (intros E; apply Hw; by left).
      by rewrite (bool_decide_false (hw_variant = "WIFI")) by (intros E; apply Hw; by right). }
    split; eapply first_radio; try done; rewrite E; vm_compute; tauto.
  - intros ->. split; eapply first_other; try done; vm_compute; tauto.
  - apply (load_existing _ _ PropertyOverride_sets_or_skips);
      [done|apply vendor_properties_NoDup|cbn; tauto|by eapply first_exists].
  - apply (load_existing _ _ PropertyOverride_sets_or_skips);
      [done|apply vendor_properties_NoDup|cbn; tauto|by eapply first_exists].
Qed.

(** A Wi-Fi tablet after both versions claims two SIMs. *)
Lemma vendor_load_properties_versions_witness :
  let a := MapArea 60 {[ "ro.radio.noril" := ""; "ro.telephony.sim.count" := "" ]} in
  let first := vendor_load_properties_first "ruan" "2405CPCFBG" "POCO" "Xiaomi"
                 (fun a n v => PropertyOverride a n v true) "wifi" a in
  system_property_get first "ro.telephony.sim.count" = Some "0"
  /\ system_property_get (vendor_load_properties kPocoVariant first) "ro.telephony.sim.count" = Some "2".
Proof.
  destruct (vendor_load_properties_versions map_area_laws (fun a n v => PropertyOverride a n v true) add_fails
    "ruan" "2405CPCFBG" "POCO" "Xiaomi" "wifi" kPocoVariant
    (MapArea 60 {[ "ro.radio.noril" := ""; "ro.telephony.sim.count" := "" ]})) as (H1 & _ & _ & _ & H2).
  - exact PropertyOverride_sets_or_skips.
  - unfold PROP_VALUE_MAX. repeat constructor; cbn; lia.
  - apply (bool_decide_unpack _); by vm_compute.
  - vm_compute. discriminate.
  - vm_compute. discriminate.
  - split; [apply H1; by left|exact H2].
Defined.
